(* ===== verification/_CoqProject ===== *)
-Q . S2P
Prelude.v
Utils.v
Event.v
Sock.v
TlxWire.v
Link.v
EventEq.v
Cycle.v
Handshake.v
TlxHost.v
TlxAfu.v
TlxApi.v
Lockstep.v
Parms.v
Monad.v
MmioState.v
CmdState.v
Cmd.v
CmdHandlers.v
CmdFrame.v
CmdLogic.v
CmdInv.v
CmdSafe.v
CmdSafeResp.v
CmdSafeSend.v
CmdSafeAdd.v
Mmio.v
Ocl.v
MmioInv.v
OclInv.v
CmdProps.v
RespProps.v
OclProps.v
PageProps.v
MmioRun.v
MmioProps.v
LpcProps.v
QueueProps.v
MmioAck.v
OclLoop.v
Discover.v
DiscoverProps.v
DiscoverAlloc.v
Config.v
Server.v
Hosts.v
ServerProps.v
Main.v
LibState.v
Lib.v
Dmo.v
LibLoop.v
LibApi.v
LibRun.v
DmoProps.v
RegEnd.v
MemEnd.v
AmoEnd.v
LibOpen.v
OpenEnd.v
Debug.v
TestConfig.v
Fifo.v
OclList.v
Driver.v
DriverInv.v
DriverOut.v
DriverProps.v
DriverEnd.v
DriverRun.v
