(* ===== verification/Prelude.v ===== *)
(** * The OpenCAPI simulation engine, verified

    OCSE lets programs that use an OpenCAPI accelerator (AFU) run against a
    simulated one.  A client links libocxl and talks to the server (ocse) over a
    socket; the server plays the host side of the OpenCAPI link and exchanges
    one frame per clock cycle with the simulator, where afu_driver plays the AFU
    side.  This library models the server, the link and the libraries around
    them in Rocq and proves what makes them correct.

    ** The parts of the program, and the files

    - src/common/utils.c, byte order, parity, lengths, transfers over a client
      socket: Utils.
    - src/common/tlx_interface_t.h, the structure [AFU_EVENT] both ends of the
      link keep: Event ([event_wf] is its typing invariant).
    - src/common/tlx_interface.c, the link.  Sock models the TCP connection;
      TlxWire is the frame code ([tlx_signal_afu_model], [tlx_get_tlx_events],
      [tlx_signal_tlx_model], [tlx_get_afu_events]); Handshake opens the link;
      TlxHost and TlxAfu are the calls of the two drivers.  Link says what a
      frame means, Cycle and Lockstep what a cycle of the two ends does, TlxApi
      what holds of every call; EventEq is the equivalence of events that differ
      in their socket buffers only, with the setoid instances.
    - src/ocse/parms.c, the simulation parameters and the random draws: Parms.
    - src/ocse/cmd.c with cmd.h and client.h, the commands of the AFU: CmdState
      (the state), Cmd (commands in), CmdHandlers (what every cycle does with
      them).  CmdInv, CmdSafe, CmdSafeResp, CmdSafeSend, CmdSafeAdd prove the
      invariant; CmdFrame says what the component leaves alone; CmdProps,
      RespProps and PageProps hold the functional theorems.
    - src/ocse/mmio.c with mmio.h, the accesses to the AFU: MmioState, Mmio;
      MmioInv proves the invariant, MmioRun runs the operations to their end,
      MmioProps, LpcProps and QueueProps hold the theorems.  Discover is
      [read_afu_config], the discovery of an AFU's configuration, against the
      interface [ConfigSpace]; DiscoverProps proves what it leaves for a device
      that answers as a described card does, DiscoverAlloc what addresses, tags
      and address spaces it gives out; Config implements the interface with the
      queue, the thread and an AFU that answers.
      MmioAck is [handle_mmio_ack], the routine that [handle_ap_resp] and
      [handle_ap_resp_data] replaced.
    - src/ocse/ocl.c, the thread of an AFU: Ocl, operation by operation, with its
      invariant and step relation in OclInv and its theorems in OclProps.  OclLoop
      is the loop that puts the operations together, what comes before it in
      [ocl_init] and after it when the thread ends; OclList is the linked list
      the cards are on, against the ordered list it stands for.
    - src/ocse/ocse.c, the server's dealings with a client that has not opened an
      AFU yet: Server, with its theorems in ServerProps; its [main]: Main.
      src/ocse/shim_host.c and the names of [ocl_init]: Hosts.
    - src/afu_driver, the simulator's side of the link, called on each edge of
      the simulator's clock: Fifo is the queue of data lines as a list of packets
      in a heap, Driver the call [tlx_bfm] with every pin it reads and drives.
      DriverInv proves its invariant, DriverOut what it puts on the pins,
      DriverProps that it refines two abstract queues of lines; DriverEnd
      composes it with the link: pins to host, host to pins; DriverRun follows
      the lines of the host's messages over any number of whole cycles.
    - src/common/debug.c, the trace the program writes: Debug.
      src/common/TestAFU_config.c, the configuration words of the test AFU:
      TestConfig.
    - src/libocxl, the library of the clients: LibState (the opened AFU, its
      requests, the process around it), Lib (what its thread does with the
      server's messages), Dmo (the atomic operations on the application's
      memory), LibLoop (a turn of the thread), LibApi (the calls of the
      application).  LibRun runs it; DmoProps holds the theorems on the atomic
      operations; RegEnd, MemEnd and AmoEnd compose the library with the server:
      registers, the AFU's reads and writes of the application's memory, its
      atomic operations.  LibOpen holds the calls that open and close an AFU;
      OpenEnd composes them with the server.
    - Monad holds the state monad of the server and of the library, the weakest preconditions [wp]
      (no undefined behaviour) and [runs] (total correctness), and the frame
      rules; this file the notation for records, the machine integers, the byte
      strings and the arrays.

    ** How the code is modelled

    A C integer is a [Z] in the range of its type, conversions wrap ([u8] ...
    [u64], [i32]); a byte array is a list of them.  A structure is a record, an
    allocated one an entry of a list or a map, its address a number.  Undefined
    behaviour - a copy out of bounds, a pointer that dangles, a field that is not
    initialised and cannot be given a value, a number of a parameter file that
    does not fit an [int] - is [None], or [UB] in the monad; an uninitialised
    variable whose value is used is an argument of the model.  One undefined
    result that the code never uses, the first mask of [setDpiSignal32], is left
    out.
    [error_msg] and [exit] end the process ([Exited]).  What the operating
    system and the AFU do is given from outside: the chunks that arrive on a
    socket, whether a write to a client fails, the draws of [rand], the events.
    The names are those of the source.

    ** The theorems

    - The link: what one end has pending is what the other gets, once, in every
      state reachable from a handshake, and credits are conserved.
    - Safety: in every state the thread reaches, whatever a legal AFU and legal
      clients do, no operation has undefined behaviour; the command list and the
      queue of accesses are sound, and every step moves the queue as a queue.
      What legal means is [op_ok] and [step] (OclInv) and [loop_legal] (OclLoop);
      OclProps, Parms and LpcProps have theorems on what becomes of some inputs
      that are not.
    - Function: what becomes of a read, a write, a register access, a memory
      access on its way through the server; a line answered in parts, turn by
      turn, until its entry is freed; the page cache against a
      least-recently-used one; parameters in range; discovery against the
      description of a card; the search by name against a reference search.
    - End to end: the message one side sends is the one the other side is run
      on, from the call of the application to the command the AFU finds and
      back.
    - Composition: the thread's loop, however many turns it makes, is a sequence of
      steps of the relation the safety theorems are about; the driver serves the AFU from its
      queues exactly as the abstract queues say, and over any run of whole cycles
      the AFU sees the lines of the host's messages in order.  What the driver
      loses is in the statements: four bits of an object handle, and a command
      behind one that is still waiting.
    - Round trips: the trace is read back as the calls that were traced; a
      device path, a register, a command survive their encoding.
    - Errors: what the code gets wrong, each as a theorem about the model: a
      client that is freed while the thread still has it, a card that is freed
      while it is on the list, operands that are looked for in the wrong place.
      The address spaces of a function are disjoint only up to the 256 that the
      code's base of eight bits can tell apart.

    ** Fuel and bounds

    The loops that poll a socket take fuel, one unit per poll, and so do those
    that wait for the AFU - for its credits, for an access, for the valid bit of
    its descriptor, along its list of capabilities; the theorems on discovery say
    how much is enough for a card.  The
    theorems about messages that have arrived need one unit; the others hold for
    every fuel, [Running] standing for a loop that still polls.  Loops over
    arrays are structural.  The walk along a linked list has as much fuel as there
    are nodes; the search for a port one unit per port, which is enough.

    ** Not modelled

    - The calls of the operating system - sockets, threads, files, [malloc] - are
      arguments: their outcome is given from outside.  Threads are interleaved
      operation by operation, under the lock the code holds; in Main what the
      other threads do while it waits is an argument of each turn.
    - The calls of the trace are modelled in Debug and left out where they are
      made, and so are the messages printed for the user.
    - Of src/libocxl the calls that only report that they are not implemented, and
      those that only hand out a file descriptor or a thread's number or store the
      AMR.
    - In TestConfig, the calls of the library: the file hands them a handle of
      the wrong type, so they are arguments.
    - The build files, the samples and the simulator's Verilog. *)
From stdpp Require Export base numbers list option.
From Stdlib Require Export ZArith Lia.

Set Warnings "-postfix-notation-not-level-1".
Open Scope Z_scope.

(** * Record update

    The C structs are records; [r <| f := v |>] is the assignment [r->f = v].
    A record declares its expansion once ([Settable]); the update of any field
    is found from the projection. *)

Class Settable (R : Type) : Type := eta_of : R -> R.
Class Setter {R T : Type} (p : R -> T) : Type := set_fld : T -> R -> R.
Arguments set_fld {R T} p {_} _ _.

Ltac build_setter :=
  lazymatch goal with
  | |- @Setter ?R ?T ?p =>
      let s :=
        constr:(fun (v : T) (r : R) =>
          ltac:(let e := eval hnf in (eta_of (R := R) r) in
                lazymatch eval pattern (p r) in e with
                | ?f _ => let b := eval cbv beta in (f v) in exact b
                end)) in
      exact s
  end.

Notation "r <| f := v |>" := (set_fld f v r)
  (at level 12, f at next level, v at level 200, left associativity,
   format "r  <| f  :=  v |>").

(** * Machine integers

    A value of an unsigned w-bit C type is a [Z] in [0, 2^w); conversions to
    such a type wrap around. *)

Definition u8 (x : Z) : Z := x mod 2 ^ 8.
Definition u16 (x : Z) : Z := x mod 2 ^ 16.
Definition u32 (x : Z) : Z := x mod 2 ^ 32.
Definition u64 (x : Z) : Z := x mod 2 ^ 64.
Definition i16 (x : Z) : Z := (x + 2 ^ 15) mod 2 ^ 16 - 2 ^ 15.
Definition i32 (x : Z) : Z := (x + 2 ^ 31) mod 2 ^ 32 - 2 ^ 31.
Definition i64 (x : Z) : Z := (x + 2 ^ 63) mod 2 ^ 64 - 2 ^ 63.

Definition is_u (w x : Z) : Prop := 0 <= x < 2 ^ w.
Arguments is_u : simpl never.

(** A C test of an integer. *)
Definition truthy (x : Z) : bool := negb (x =? 0).
Definition bool_int (b : bool) : Z := if b then 1 else 0.

(** A byte is a [Z] in [0, 256). *)
Abbreviation is_byte := (is_u 8).
Abbreviation bytes := (Forall (is_u 8)).

Lemma is_u_mod w x : 0 <= w -> is_u w (x mod 2 ^ w).
Proof. intros. apply Z.mod_pos_bound. lia. Qed.

Lemma is_u_small w x : is_u w x -> x mod 2 ^ w = x.
Proof. apply Z.mod_small. Qed.

Lemma is_u_mono w w' x : 0 <= w <= w' -> is_u w x -> is_u w' x.
Proof.
  unfold is_u. intros ? [? ?]. split; [done|].
  apply Z.lt_le_trans with (2 ^ w); [done|]. apply Z.pow_le_mono_r; lia.
Qed.

Lemma is_u_land w x m : 0 <= x -> is_u w m -> is_u w (Z.land x m).
Proof.
  unfold is_u. intros Hx [Hm Hw]. split; [apply Z.land_nonneg; lia|].
  apply Z.le_lt_trans with m; [|done].
  rewrite <- (Z2N.id x), <- (Z2N.id m), <- N2Z.inj_land by lia.
  apply N2Z.inj_le. apply N.land_le_r.
Qed.

Lemma land_ones8 x k m : m = Z.ones k -> 0 <= k -> Z.land x m = x mod 2 ^ k.
Proof. intros -> ?. by apply Z.land_ones. Qed.

(** * Big-endian byte strings

    The loops [for (i = 0; i < n; i++) buf[bp++] = (v >> ((n-1-i)*8)) & 0xFF]
    and [for (...) v = (v << 8) | buf[p++]]. *)

Fixpoint be_bytes (n : nat) (v : Z) : list Z :=
  match n with
  | O => []
  | S k => Z.land (Z.shiftr v (8 * Z.of_nat k)) 255 :: be_bytes k v
  end.

Definition be_step (acc b : Z) : Z := Z.lor (Z.shiftl acc 8) b.
Definition be_val (l : list Z) : Z := fold_left be_step l 0.

(** A [memcpy] between a byte array and an integer on the little-endian hosts
    the simulator runs on. *)
Definition le_val (l : list Z) : Z := be_val (rev l).
Definition le_bytes (n : nat) (v : Z) : list Z := rev (be_bytes n v).

Lemma length_be_bytes n v : length (be_bytes n v) = n.
Proof. induction n; simpl; congruence. Qed.

Lemma be_bytes_bytes n v : bytes (be_bytes n v).
Proof.
  induction n as [|n IH]; simpl; [constructor|constructor; [|done]].
  rewrite (land_ones8 _ 8) by (done || lia). by apply is_u_mod.
Qed.

Lemma testbit_high w x i : is_u w x -> 0 <= w <= i -> Z.testbit x i = false.
Proof.
  intros Hx Hi. rewrite <- (is_u_small w x Hx). apply Z.mod_pow2_bits_high. lia.
Qed.

Lemma fold_be_bytes n v acc :
  fold_left be_step (be_bytes n v) acc
  = Z.lor (Z.shiftl acc (8 * Z.of_nat n)) (v mod 2 ^ (8 * Z.of_nat n)).
Proof.
  revert acc. induction n as [|n IH]; intros acc.
  - simpl. rewrite Z.mod_1_r, Z.lor_0_r, Z.shiftl_0_r. done.
  - cbn [be_bytes fold_left]. rewrite IH. unfold be_step.
    rewrite (land_ones8 _ 8) by (done || lia).
    apply Z.bits_inj'. intros i Hi.
    rewrite !Z.lor_spec, !Z.shiftl_spec by lia.
    rewrite Z.lor_spec. 
    destruct (Z.lt_ge_cases i (8 * Z.of_nat n)).
    + rewrite !(Z.testbit_neg_r _ (i - _)) by lia.
      rewrite !Z.mod_pow2_bits_low by lia. done.
    + rewrite Z.shiftl_spec by lia.
      rewrite (Z.mod_pow2_bits_high _ (8 * Z.of_nat n)) by lia.
      rewrite orb_false_r.
      replace (i - 8 * Z.of_nat n - 8) with (i - 8 * Z.of_nat (S n)) by lia.
      f_equal. destruct (Z.lt_ge_cases i (8 * Z.of_nat (S n))).
      * rewrite !Z.mod_pow2_bits_low by lia. rewrite Z.shiftr_spec by lia.
        f_equal. lia.
      * rewrite !Z.mod_pow2_bits_high by lia. done.
Qed.

Lemma be_val_bytes n v : be_val (be_bytes n v) = v mod 2 ^ (8 * Z.of_nat n).
Proof. unfold be_val. rewrite fold_be_bytes, Z.shiftl_0_l. done. Qed.

Lemma be_val_bytes_small n v :
  is_u (8 * Z.of_nat n) v -> be_val (be_bytes n v) = v.
Proof. intros. rewrite be_val_bytes. by apply is_u_small. Qed.

Lemma be_val_snoc l b : be_val (l ++ [b]) = be_step (be_val l) b.
Proof. unfold be_val. by rewrite fold_left_app. Qed.

Lemma lor_shiftl_add w a b :
  0 <= w -> is_u w b -> Z.lor (Z.shiftl a w) b = a * 2 ^ w + b.
Proof.
  intros Hw Hb.
  assert (Hd : Z.land (Z.shiftl a w) b = 0).
  { apply Z.bits_inj'. intros i Hi.
    rewrite Z.land_spec, Z.bits_0, Z.shiftl_spec by lia.
    destruct (Z.lt_ge_cases i w).
    - by rewrite (Z.testbit_neg_r _ (i - w)) by lia.
    - rewrite (testbit_high w b i) by first [done | lia]. apply andb_false_r. }
  rewrite <- Z.lxor_lor, <- Z.add_nocarry_lxor by done.
  by rewrite Z.shiftl_mul_pow2 by lia.
Qed.

Lemma be_step_add acc b : is_byte b -> be_step acc b = acc * 256 + b.
Proof. intros. unfold be_step. by rewrite (lor_shiftl_add 8) by first [done | lia]. Qed.

Lemma is_u_be_step w acc b :
  0 <= w -> is_u w acc -> is_byte b -> is_u (w + 8) (be_step acc b).
Proof.
  intros Hw Ha Hb. rewrite be_step_add by done.
  unfold is_u in *. rewrite Z.pow_add_r by lia. lia.
Qed.

Lemma be_val_range l :
  bytes l -> is_u (8 * Z.of_nat (length l)) (be_val l).
Proof.
  induction l as [|b l IH] using rev_ind; intros Hl; [by vm_compute|].
  apply Forall_app in Hl as [Hl Hb%Forall_inv].
  rewrite be_val_snoc, length_app. simpl.
  replace (8 * Z.of_nat (length l + 1)) with (8 * Z.of_nat (length l) + 8) by lia.
  apply is_u_be_step; [lia|by apply IH|done].
Qed.

Lemma fold_be_val l acc :
  bytes l -> 0 <= acc ->
  fold_left be_step l acc = acc * 2 ^ (8 * Z.of_nat (length l)) + be_val l.
Proof.
  intros Hl Hacc. induction l as [|b l IH] using rev_ind.
  - cbn. lia.
  - apply Forall_app in Hl as [Hl Hb%Forall_inv].
    rewrite be_val_snoc, fold_left_app. cbn [fold_left]. rewrite IH by done.
    pose proof (be_val_range l Hl) as [? _].
    assert (0 < 2 ^ (8 * Z.of_nat (length l))) by (apply Z.pow_pos_nonneg; lia).
    rewrite !be_step_add by done.
    rewrite length_app. cbn [length].
    replace (8 * Z.of_nat (length l + 1)) with (8 * Z.of_nat (length l) + 8) by lia.
    rewrite Z.pow_add_r by lia. lia.
Qed.

Lemma be_val_app l1 l2 :
  bytes l1 -> bytes l2 ->
  be_val (l1 ++ l2) = Z.lor (Z.shiftl (be_val l1) (8 * Z.of_nat (length l2))) (be_val l2).
Proof.
  intros H1 H2. pose proof (be_val_range l1 H1) as [? _].
  rewrite lor_shiftl_add by (by apply be_val_range || lia).
  unfold be_val at 1. by rewrite fold_left_app, fold_be_val.
Qed.

Lemma be_bytes_app n m v :
  be_bytes (n + m) v = be_bytes n (Z.shiftr v (8 * Z.of_nat m)) ++ be_bytes m v.
Proof.
  induction n as [|n IH]; [done|]. cbn [Nat.add be_bytes app]. rewrite IH.
  f_equal. rewrite Z.shiftr_shiftr by lia. do 2 f_equal. lia.
Qed.

Lemma be_bytes_mod n v w :
  8 * Z.of_nat n <= w -> be_bytes n (v mod 2 ^ w) = be_bytes n v.
Proof.
  induction n as [|n IH]; intros; [done|]. cbn [be_bytes].
  rewrite IH by lia. f_equal. apply Z.bits_inj'. intros i Hi.
  rewrite !Z.land_spec. destruct (Z.lt_ge_cases i 8).
  - rewrite !Z.shiftr_spec by lia. by rewrite Z.mod_pow2_bits_low by lia.
  - rewrite (testbit_high 8 255 i) by (by vm_compute || lia).
    by rewrite !andb_false_r.
Qed.

Lemma be_bytes_val l : bytes l -> be_bytes (length l) (be_val l) = l.
Proof.
  intros Hl. unfold be_val.
  enough (H : forall acc, 0 <= acc ->
    be_bytes (length l) (fold_left be_step l acc) = l) by (by apply H).
  induction Hl as [|b l Hb Hl IH]; intros acc Hacc; [done|].
  cbn [length be_bytes fold_left].
  assert (0 <= be_step acc b) by (rewrite be_step_add by done; destruct Hb; lia).
  rewrite IH by done. f_equal.
  rewrite (land_ones8 _ 8), fold_be_val, Z.shiftr_div_pow2 by first [done | lia].
  rewrite Z.div_add_l by (apply Z.pow_nonzero; lia).
  rewrite (Z.div_small (be_val l)) by (by apply be_val_range).
  rewrite be_step_add, Z.add_0_r by done. 
  change (2 ^ 8) with 256. rewrite Z.add_comm, Z.mod_add by done.
  by apply (is_u_small 8).
Qed.

Lemma le_val_bytes n v : le_val (le_bytes n v) = v mod 2 ^ (8 * Z.of_nat n).
Proof. unfold le_val, le_bytes. by rewrite rev_involutive, be_val_bytes. Qed.

Lemma length_le_bytes n x : length (le_bytes n x) = n.
Proof. unfold le_bytes. by rewrite length_rev, length_be_bytes. Qed.

Lemma le_bytes_bytes n x : bytes (le_bytes n x).
Proof. apply Forall_rev, be_bytes_bytes. Qed.

Lemma take_le_bytes n x : (n <= 8)%nat -> take n (le_bytes 8 x) = le_bytes n x.
Proof.
  intros Hn. unfold le_bytes. replace 8%nat with ((8 - n) + n)%nat by lia.
  rewrite be_bytes_app, rev_app_distr, take_app_le by (rewrite length_rev, length_be_bytes; lia).
  apply take_ge. rewrite length_rev, length_be_bytes. lia.
Qed.

Lemma be_bytes_of_le l : bytes l -> be_bytes (length l) (le_val l) = rev l.
Proof.
  intros Hl. unfold le_val. rewrite <- (length_rev l). apply be_bytes_val. by apply Forall_rev.
Qed.

Lemma le_bytes_of_le l : bytes l -> le_bytes (length l) (le_val l) = l.
Proof. intros Hl. unfold le_bytes. rewrite be_bytes_of_le by done. apply rev_involutive. Qed.

Lemma le_val_range n l : length l = n -> bytes l -> is_u (8 * Z.of_nat n) (le_val l).
Proof.
  intros <- Hb. unfold le_val. rewrite <- (length_rev l). apply be_val_range. by apply Forall_rev.
Qed.

Lemma le_val_app l1 l2 :
  bytes l1 -> bytes l2 ->
  le_val (l1 ++ l2) = le_val l1 + le_val l2 * 2 ^ (8 * Z.of_nat (length l1)).
Proof.
  intros H1 H2. unfold le_val. rewrite rev_app_distr, be_val_app by (by apply Forall_rev).
  rewrite length_rev, lor_shiftl_add; [lia|lia|].
  rewrite <- (length_rev l1). apply be_val_range. by apply Forall_rev.
Qed.

(** * Lists as C arrays *)

(** [memcpy (&buf[i], l, |l|)]: the bytes before and after are kept.  The
    definition never grows the buffer; writing past its end is undefined in C
    and callers test for it first. *)
Definition overwrite {A} (buf : list A) (i : nat) (l : list A) : list A :=
  take i buf ++ l ++ drop (i + length l) buf.

Lemma length_overwrite {A} (buf : list A) i l :
  (i + length l <= length buf)%nat -> length (overwrite buf i l) = length buf.
Proof.
  intros. unfold overwrite. rewrite !length_app, length_take, length_drop. lia.
Qed.

Lemma overwrite_take {A} (buf : list A) i l :
  (i + length l <= length buf)%nat ->
  take (i + length l) (overwrite buf i l) = take i buf ++ l.
Proof.
  intros. unfold overwrite. rewrite app_assoc, take_app_le.
  - apply take_ge. rewrite length_app, length_take. lia.
  - rewrite length_app, length_take. lia.
Qed.

Lemma overwrite_app {A} (buf : list A) i l1 l2 :
  (i + length (l1 ++ l2) <= length buf)%nat ->
  overwrite (overwrite buf i l1) (i + length l1) l2 = overwrite buf i (l1 ++ l2).
Proof.
  rewrite length_app. intros. unfold overwrite at 1.
  rewrite overwrite_take by lia.
  unfold overwrite. rewrite length_app, <- !app_assoc. do 3 f_equal.
  rewrite app_assoc, drop_app_ge by (rewrite length_app, length_take; lia).
  rewrite drop_drop, length_app, length_take. f_equal. lia.
Qed.

Lemma Forall_overwrite {A} (P : A -> Prop) (buf : list A) i l :
  Forall P buf -> Forall P l -> Forall P (overwrite buf i l).
Proof.
  intros. unfold overwrite.
  repeat apply Forall_app_2; auto using Forall_take, Forall_drop.
Qed.

(** Undefined behaviour of C is [None]: [guard_ub b k] continues when the
    condition that makes the access defined holds. *)
Definition guard_ub {A} (b : bool) (k : option A) : option A := if b then k else None.

Notation "'defined' b ; k" := (guard_ub b k)
  (at level 100, b at level 99, k at level 200, right associativity).

(** The bytes [data[off .. off + n - 1]], all inside the buffer. *)
Definition slice (data : list Z) (off n : Z) : option (list Z) :=
  defined (0 <=? off) && (0 <=? n) && (off + n <=? Z.of_nat (length data));
  Some (take (Z.to_nat n) (drop (Z.to_nat off) data)).

(** [memcpy(&data[off], src, n)] *)
Definition copy_at (data : list Z) (off : Z) (src : list Z) (n : Z) : option (list Z) :=
  defined (0 <=? off) && (off + n <=? Z.of_nat (length data));
  match slice src 0 n with
  | Some src => Some (overwrite data (Z.to_nat off) src)
  | None => None
  end.

Lemma slice_some data off n :
  0 <= off -> 0 <= n -> off + n <= Z.of_nat (length data) ->
  slice data off n = Some (take (Z.to_nat n) (drop (Z.to_nat off) data)).
Proof.
  intros Ho Hn Hle. unfold slice, guard_ub.
  by replace ((0 <=? off) && (0 <=? n) && (off + n <=? Z.of_nat (length data))) with true
    by (symmetry; rewrite ?andb_true_iff, ?Z.leb_le; lia).
Qed.

Lemma copy_at_some data off src n :
  0 <= off -> 0 <= n -> off + n <= Z.of_nat (length data) -> n <= Z.of_nat (length src) ->
  copy_at data off src n = Some (overwrite data (Z.to_nat off) (take (Z.to_nat n) src)).
Proof.
  intros Ho Hn Hle Hs. unfold copy_at. rewrite slice_some by lia. unfold guard_ub.
  by replace ((0 <=? off) && (off + n <=? Z.of_nat (length data))) with true
    by (symmetry; rewrite ?andb_true_iff, ?Z.leb_le; lia).
Qed.

(** One step of an option computation. *)
Lemma bind_eq {A B} (x : option A) a (k : A -> option B) y :
  x = Some a -> k a = y -> x ≫= k = y.
Proof. by intros -> ?. Qed.

(** The null pointer, where an address is a number. *)
Definition NULL : Z := 0.

Definition zeros (n : nat) : list Z := replicate n 0.
Arguments zeros : simpl never.

Lemma length_zeros n : length (zeros n) = n.
Proof. apply length_replicate. Qed.

Lemma zeros_bytes n : bytes (zeros n).
Proof. by apply Forall_replicate. Qed.

Create HintDb ocse discriminated.
#[export] Hint Resolve zeros_bytes length_zeros be_bytes_bytes Forall_overwrite Forall_take Forall_drop : ocse.
#[export] Hint Rewrite @length_app @length_take @length_drop length_be_bytes length_zeros : ocse_len.
Ltac len := autorewrite with ocse_len; simpl; try lia.
