(* ===== verification/Utils.v ===== *)
(** common/utils.c: byte order, parity, the length encodings of the TL
    protocol, and the byte transfers over the client sockets. *)
From S2P Require Import Prelude.

(** * Constants of common/utils.h *)
Definition BYTES_PER_DWORD := 8.
Definition DWORDS_PER_CACHELINE := 8.
Definition CACHELINE_BYTES := 64.
Definition ODD_PARITY := 1.
Definition TLX_IDLE_CYCLES := 200.

Definition OCSE_ATTACH := 0x05.
Definition OCSE_DETACH := 0x06.
Definition OCSE_MEMORY_READ := 0x07.
Definition OCSE_MEMORY_WRITE := 0x08.
Definition OCSE_MEMORY_TOUCH := 0x09.
Definition OCSE_MEM_SUCCESS := 0x0a.
Definition OCSE_MEM_FAILURE := 0x0b.
Definition OCSE_MMIO_MAP := 0x0c.
Definition OCSE_MMIO_READ64 := 0x0d.
Definition OCSE_MMIO_WRITE64 := 0x0e.
Definition OCSE_MMIO_READ32 := 0x0f.
Definition OCSE_MMIO_WRITE32 := 0x10.
Definition OCSE_MMIO_ACK := 0x11.
Definition OCSE_MMIO_FAIL := 0x12.
Definition OCSE_INTERRUPT := 0x13.
Definition OCSE_WAKE_HOST_THREAD := 0x15.
Definition OCSE_INTERRUPT_D := 0x16.
Definition OCSE_WR_BE := 0x21.
Definition OCSE_AMO_RD := 0x22.
Definition OCSE_AMO_RW := 0x23.
Definition OCSE_AMO_WR := 0x24.
Definition OCSE_GLOBAL_MMIO_MAP := 0x25.
Definition OCSE_GLOBAL_MMIO_READ64 := 0x26.
Definition OCSE_GLOBAL_MMIO_WRITE64 := 0x27.
Definition OCSE_GLOBAL_MMIO_READ32 := 0x28.
Definition OCSE_GLOBAL_MMIO_WRITE32 := 0x29.
Definition OCSE_LPC_READ := 0x2b.
Definition OCSE_LPC_WRITE := 0x2c.
Definition OCSE_LPC_WRITE_BE := 0x2d.
Definition OCSE_LPC_ACK := 0x2e.
Definition OCSE_LPC_FAIL := 0x2f.

(** * Byte order *)

(** [htonl] of a little-endian host: the word whose memory image is the
    big-endian image of [x]. *)
Definition htonl (x : Z) : Z := le_val (be_bytes 4 x).
Definition htons (x : Z) : Z := le_val (be_bytes 2 x).

Definition ntohl (x : Z) : Z := htonl x.
Definition ntohs (x : Z) : Z := htons x.

Definition htonll (hostlonglong : Z) : Z :=
  Z.lor (Z.shiftl (htonl (u32 hostlonglong)) 32)
        (htonl (u32 (Z.shiftr hostlonglong 32))).

Definition ntohll (netlonglong : Z) : Z := htonll netlonglong.

(** * Parity *)

(** The loop [while (data) { parity = 1 - parity; data &= data - 1; }];
    [None] when the fuel runs out. *)
Fixpoint parity_loop (fuel : nat) (data parity : Z) : option Z :=
  if data =? 0 then Some parity
  else match fuel with
       | O => None
       | S fuel => parity_loop fuel (Z.land data (u64 (data - 1))) (u8 (1 - parity))
       end.

(** A 64-bit word has at most 64 bits to clear. *)
Definition generate_parity (data odd : Z) : option Z := parity_loop 64 data odd.

(** One turn of the loop over the dwords of a cacheline; [parity] is the byte
    array and [parity[i / 8]] the byte of dword [i]. *)
Definition cl_parity_step (data : list Z) (parity : list Z) (i : nat) : option (list Z) :=
  let j := Z.to_nat (Z.of_nat i / BYTES_PER_DWORD) in
  let dw := le_val (take 8 (drop (8 * i) data)) in
  let parity := if Z.of_nat i mod BYTES_PER_DWORD =? 0 then <[j := 0]> parity else parity in
  let parity := alter (fun b => u8 (Z.shiftl b 1)) j parity in
  p ← generate_parity dw ODD_PARITY;
  Some (alter (fun b => u8 (b + p)) j parity).

Fixpoint cl_parity_loop (data : list Z) (idxs : list nat) (parity : list Z) : option (list Z) :=
  match idxs with
  | [] => Some parity
  | i :: idxs => parity' ← cl_parity_step data parity i; cl_parity_loop data idxs parity'
  end.

Definition generate_cl_parity (data parity : list Z) : option (list Z) :=
  cl_parity_loop data (seq 0 (Z.to_nat DWORDS_PER_CACHELINE)) parity.

(** * Length encodings *)

(** [size = -1] stored in a [uint32_t] and returned as [int32_t]. *)
Definition dl_to_size (dl : Z) : Z :=
  if dl =? 1 then 64 else if dl =? 2 then 128 else if dl =? 3 then 256
  else i32 (u32 (-1)).

Definition pl_to_size (pl : Z) : Z :=
  if pl =? 0 then 1 else if pl =? 1 then 2 else if pl =? 2 then 4
  else if pl =? 3 then 8 else if pl =? 4 then 16 else if pl =? 5 then 32
  else i32 (u32 (-1)).

(** [size] is an [int16_t]; the failures [return -1] as a [uint8_t]. *)
Definition size_to_dl (size : Z) : Z :=
  if negb (Z.rem size 64 =? 0) then u8 (-1)
  else if size >? 256 then u8 (-1)
  else if size =? 64 then 1 else if size =? 128 then 2 else if size =? 256 then 3
  else u8 (-1).

Definition decode_dl (dl : Z) : Z :=
  if (dl =? 1) || (dl =? 2) then dl else if dl =? 3 then 4 else 0.

Definition decode_rd_cnt (rd_cnt : Z) : Z :=
  if rd_cnt =? 0 then 8
  else if (rd_cnt =? 1) || (rd_cnt =? 2) || (rd_cnt =? 5) || (rd_cnt =? 6) || (rd_cnt =? 7)
       then rd_cnt
  else if rd_cnt =? 3 then 4
  else if rd_cnt =? 4 then 3
  else 0.

(** * Client sockets *)

(** What a process sees of a socket it reads: the bytes queued now, the
    batches that arrive before each later poll, and whether the peer hangs up
    once the batches are exhausted.  [abort] is the flag another thread sets. *)
Record stream := Stream {
  avail : list Z;
  arrivals : list (list Z);
  hangup : bool;
}.

(** A poll lets the next batch arrive. *)
Definition arrive (s : stream) : stream :=
  match arrivals s with
  | [] => s
  | b :: bs => Stream (avail s ++ b) bs (hangup s)
  end.

(** [bytes_ready]: -1 on abort or hang-up, 0 on timeout, 1 on data. *)
Definition bytes_ready (abort : bool) (s : stream) : Z * stream :=
  let s := arrive s in
  if abort then (-1, s)
  else match avail s with
       | _ :: _ => (1, s)
       | [] => if hangup s && bool_decide (arrivals s = []) then (-1, s) else (0, s)
       end.

(** A [MSG_PEEK] receive of at most [n] bytes. *)
Definition peek (n : Z) (s : stream) : list Z := take (Z.to_nat n) (avail s).

Inductive get_result := GotBytes (data : list Z) (s : stream) | GetFailed | GetRunning.

(** The first loop of [get_bytes_silent]; [bytes] is the variable of that
    name.  The peek asks for [size - bytes], as the code does. *)
Fixpoint get_bytes_wait (fuel : nat) (abort : bool) (size bytes : Z) (s : stream) : get_result :=
  if bytes <? size then
    match fuel with
    | O => GetRunning
    | S fuel =>
        let '(rc, s) := bytes_ready abort s in
        if rc =? 1 then
          match peek (size - bytes) s with
          | [] => GetFailed
          | got => get_bytes_wait fuel abort size (Z.of_nat (length got)) s
          end
        else GetFailed
    end
  else GotBytes [] s.

(** [get_bytes_silent]: wait for the whole message, then take it off the
    socket. *)
Definition get_bytes_silent (fuel : nat) (abort : bool) (size : Z) (s : stream) : get_result :=
  match get_bytes_wait fuel abort size 0 s with
  | GotBytes _ s =>
      let n := Z.to_nat size in
      GotBytes (take n (avail s)) (Stream (drop n (avail s)) (arrivals s) (hangup s))
  | r => r
  end.

(** A [write] of [n > 0] bytes takes [k + 1] of them (at most [n]), or fails. *)
Inductive write_step := Accept (k : nat) | WriteFail.

Inductive put_result := Put (bytes : Z) (wire : list Z) | PutFailed (wire : list Z).

(** [put_bytes_silent]: every [write] asks for [size] bytes from
    [&data[bytes]]; the bytes it takes are read from [data], so taking more
    than is left is undefined ([None]).  An empty plan accepts everything. *)
Fixpoint put_bytes_loop (plan : list write_step) (data : list Z) (size bytes : nat)
    (wire : list Z) : option put_result :=
  if (bytes <? size)%nat then
    match plan with
    | WriteFail :: _ => Some (PutFailed wire)
    | Accept k :: plan =>
        let count := Nat.min (S k) size in
        defined (bytes + count <=? length data)%nat;
        put_bytes_loop plan data size (bytes + count)
          (wire ++ take count (drop bytes data))
    | [] =>
        defined (bytes + size <=? length data)%nat;
        Some (Put (Z.of_nat (bytes + size)) (wire ++ take size (drop bytes data)))
    end
  else Some (Put (Z.of_nat bytes) wire).

Definition put_bytes_silent (plan : list write_step) (size : nat) (data : list Z)
    : option put_result :=
  put_bytes_loop plan data size 0 [].

(** * Specifications *)

(** Number of bits set among the [n] low bits of [d]. *)
Fixpoint bit_sum (n : nat) (d : Z) : Z :=
  match n with
  | O => 0
  | S n => d mod 2 + bit_sum n (d / 2)
  end.

(** Dword [i] of a cacheline and its odd-parity bit. *)
Definition dword (data : list Z) (i : nat) : Z := le_val (take 8 (drop (8 * i) data)).
Definition odd_parity_bit (d : Z) : Z := (1 + bit_sum 64 d) mod 2.

(** * Helper lemmas *)

Lemma bit_sum_nonneg n d : 0 <= bit_sum n d.
Proof.
  revert d. induction n as [|n IH]; intros d; cbn [bit_sum]; [done|].
  pose proof (Z.mod_pos_bound d 2). specialize (IH (d / 2)). lia.
Qed.

Lemma bit_sum_le n d : bit_sum n d <= Z.of_nat n.
Proof.
  revert d. induction n as [|n IH]; intros d; cbn [bit_sum]; [done|].
  pose proof (Z.mod_pos_bound d 2). specialize (IH (d / 2)). lia.
Qed.

Lemma bit_sum_0 n : bit_sum n 0 = 0.
Proof. induction n as [|n IH]; cbn [bit_sum]; [done|]. by rewrite Zdiv_0_l, IH. Qed.

Lemma bit_sum_pos n d : 0 < d < 2 ^ Z.of_nat n -> 0 < bit_sum n d.
Proof.
  revert d. induction n as [|n IH]; intros d Hd; [simpl in Hd; lia|].
  cbn [bit_sum]. pose proof (Z.mod_pos_bound d 2). pose proof (bit_sum_nonneg n (d / 2)).
  destruct (Z.eq_dec d 1) as [->|]; [simpl; change (1 mod 2) with 1; lia|].
  enough (0 < bit_sum n (d / 2)) by lia. apply IH.
  rewrite Nat2Z.inj_succ, Z.pow_succ_r in Hd by lia.
  split; [apply Z.div_str_pos; lia|apply Z.div_lt_upper_bound; lia].
Qed.

Lemma land_div2 a b : Z.land a b / 2 = Z.land (a / 2) (b / 2).
Proof. rewrite <- !Z.div2_div, !Z.div2_spec. apply Z.shiftr_land. Qed.

Lemma land_mod2 a b : Z.land a b mod 2 = (a mod 2) * (b mod 2).
Proof.
  rewrite <- !Z.bit0_mod, Z.land_spec.
  destruct (Z.testbit a 0), (Z.testbit b 0); done.
Qed.

(** [data &= data - 1] clears exactly one bit. *)
Lemma bit_sum_clear n d :
  0 < d < 2 ^ Z.of_nat n -> bit_sum n (Z.land d (d - 1)) = bit_sum n d - 1.
Proof.
  revert d. induction n as [|n IH]; intros d Hd; [simpl in Hd; lia|].
  cbn [bit_sum]. rewrite land_div2, land_mod2.
  rewrite Nat2Z.inj_succ, Z.pow_succ_r in Hd by lia.
  pose proof (Z.div_mod d 2 ltac:(lia)) as Hdm.
  assert (d mod 2 = 0 \/ d mod 2 = 1) as [Hm|Hm]
    by (pose proof (Z.mod_pos_bound d 2); lia).
  - assert (H1 : (d - 1) / 2 = d / 2 - 1).
    { symmetry. apply Z.div_unique with 1; lia. }
    rewrite H1, IH, Hm by lia. lia.
  - assert (H1 : (d - 1) / 2 = d / 2).
    { symmetry. apply Z.div_unique with 0; lia. }
    assert (H2 : (d - 1) mod 2 = 0).
    { symmetry. apply Z.mod_unique with (d / 2); lia. }
    rewrite H1, H2, Hm, Z.land_diag. lia.
Qed.

Lemma parity_loop_correct fuel data parity :
  is_u 64 data -> (parity = 0 \/ parity = 1) -> bit_sum 64 data <= Z.of_nat fuel ->
  parity_loop fuel data parity = Some ((parity + bit_sum 64 data) mod 2).
Proof.
  revert data parity. induction fuel as [|fuel IH]; intros data parity Hd Hp Hf.
  - cbn [parity_loop]. destruct (Z.eqb_spec data 0) as [->|].
    + rewrite bit_sum_0. by destruct Hp as [-> | ->].
    + assert (0 < bit_sum 64 data) by (apply bit_sum_pos; destruct Hd; split; [lia|done]).
      lia.
  - cbn [parity_loop]. destruct (Z.eqb_spec data 0) as [->|].
    + rewrite bit_sum_0. by destruct Hp as [-> | ->].
    + assert (Hpos : 0 < data < 2 ^ Z.of_nat 64) by (destruct Hd; split; [lia|done]).
      pose proof (bit_sum_clear 64 data Hpos) as Hc.
      assert (u64 (data - 1) = data - 1) as ->.
      { apply is_u_small. destruct Hd. split; [lia|]. change (2 ^ 64) with (2 ^ Z.of_nat 64). lia. }
      rewrite IH.
      * rewrite Hc. assert (u8 (1 - parity) = 1 - parity) as -> by (by destruct Hp as [-> | ->]).
        replace (1 - parity + (bit_sum 64 data - 1))
          with (parity + bit_sum 64 data + (- parity) * 2) by lia.
        by rewrite Z.mod_add.
      * rewrite Z.land_comm. apply is_u_land; [lia|done].
      * destruct Hp as [-> | ->]; [right|left]; done.
      * lia.
Qed.

Lemma generate_parity_eq data odd :
  is_u 64 data -> (odd = 0 \/ odd = 1) ->
  generate_parity data odd = Some ((odd + bit_sum 64 data) mod 2).
Proof. intros. apply parity_loop_correct; auto. apply bit_sum_le. Qed.

Lemma dword_range data i :
  bytes data -> is_u 64 (dword data i).
Proof.
  intros H. unfold dword, le_val.
  assert (Hb : bytes (rev (take 8 (drop (8 * i) data)))) by
    (apply Forall_rev; auto with ocse).
  apply (is_u_mono (8 * Z.of_nat (length (rev (take 8 (drop (8 * i) data)))))).
  - rewrite length_rev, length_take. lia.
  - by apply be_val_range.
Qed.

Lemma odd_parity_bit_range d : 0 <= odd_parity_bit d < 2.
Proof. unfold odd_parity_bit. apply Z.mod_pos_bound. lia. Qed.

Lemma cl_parity_step_eq data acc i :
  bytes data -> (i < 8)%nat -> is_u 7 acc \/ i = 0%nat ->
  cl_parity_step data [acc] i
  = Some [2 * (if (i =? 0)%nat then 0 else acc) + odd_parity_bit (dword data i)].
Proof.
  intros Hd Hi Hacc. unfold cl_parity_step, BYTES_PER_DWORD.
  rewrite Z.div_small, Z.mod_small by lia. cbn [Z.to_nat].
  fold (dword data i). change ODD_PARITY with 1. rewrite generate_parity_eq by first [by apply dword_range | by right].
  cbn [mbind option_bind]. fold (odd_parity_bit (dword data i)).
  pose proof (odd_parity_bit_range (dword data i)) as Hp.
  set (p := odd_parity_bit _) in *. clearbody p.
  destruct i as [|i].
  - transitivity (Some [u8 (0 + p)]); [reflexivity|]. unfold u8. rewrite Z.mod_small by lia. by rewrite Z.mul_0_r.
  - destruct Hacc as [Hacc|]; [|done].
    destruct (Z.eqb_spec (Z.of_nat (S i)) 0); [lia|].
    transitivity (Some [u8 (u8 (Z.shiftl acc 1) + p)]); [reflexivity|]. unfold u8, is_u in *.
    rewrite Z.shiftl_mul_pow2 by lia.
    change (2 ^ 8) with 256; change (2 ^ 7) with 128 in *; change (2 ^ 1) with 2.
    rewrite (Z.mod_small (acc * 2)) by lia. rewrite Z.mod_small by lia. cbn [Nat.eqb]. do 2 f_equal. lia.
Qed.

Lemma cl_parity_loop_eq data n i acc :
  bytes data -> (0 < i)%nat -> (i + n = 8)%nat -> is_u (Z.of_nat i) acc ->
  cl_parity_loop data (seq i n) [acc]
  = Some [fold_left (fun a j => 2 * a + odd_parity_bit (dword data j)) (seq i n) acc].
Proof.
  intros Hd. revert i acc. induction n as [|n IH]; intros i acc Hi Hn Ha; [done|].
  cbn [seq cl_parity_loop fold_left].
  rewrite cl_parity_step_eq; [|done|lia|left; apply (is_u_mono (Z.of_nat i)); [lia|done]].
  cbn [mbind option_bind]. destruct (Nat.eqb_spec i 0); [lia|].
  apply IH; [lia|lia|].
  pose proof (odd_parity_bit_range (dword data i)).
  unfold is_u in *. rewrite Nat2Z.inj_succ, Z.pow_succ_r by lia. lia.
Qed.

Lemma cl_parity_loop_0 data old n :
  bytes data -> (n = 7)%nat ->
  cl_parity_loop data (seq 0 (S n)) [old]
  = Some [fold_left (fun a j => 2 * a + odd_parity_bit (dword data j)) (seq 0 (S n)) 0].
Proof.
  intros Hd Hn. cbn [seq cl_parity_loop fold_left].
  rewrite cl_parity_step_eq by first [done | lia | by right].
  cbn [mbind option_bind]. rewrite (cl_parity_loop_eq data n 1) by first [done | lia |
    pose proof (odd_parity_bit_range (dword data 0)); unfold is_u; simpl (2 ^ _); simpl Nat.eqb; cbv iota; lia].
  reflexivity.
Qed.

Lemma cl_parity_all data old :
  bytes data ->
  generate_cl_parity data [old]
  = Some [fold_left (fun a j => 2 * a + odd_parity_bit (dword data j)) (seq 0 8) 0].
Proof. intros Hd. exact (cl_parity_loop_0 data old 7 Hd eq_refl). Qed.

Lemma take_nonempty_length {A} n (l : list A) x xs :
  take n l = x :: xs -> (0 < n)%nat /\ (length (x :: xs) <= n)%nat.
Proof.
  intros H. pose proof (f_equal length H) as Hl. rewrite length_take in Hl.
  simpl in *. split; [destruct n; [done|lia]|lia].
Qed.

(** Once [bytes] is strictly between 0 and [size] the wait never ends: the
    next peek asks for [size - bytes < size] bytes. *)
Lemma get_bytes_wait_stuck fuel size bytes s :
  0 < bytes < size -> avail s <> [] ->
  get_bytes_wait fuel false size bytes s = GetRunning.
Proof.
  revert bytes s. induction fuel as [|fuel IH]; intros bytes s Hb Hs;
    cbn [get_bytes_wait]; destruct (Z.ltb_spec bytes size); try lia; [done|].
  unfold bytes_ready.
  assert (Ha : avail (arrive s) <> []).
  { unfold arrive. destruct (arrivals s); [done|]. cbn. by destruct (avail s). }
  destruct (avail (arrive s)) as [|x xs] eqn:E; [done|]. cbn [Z.eqb].
  unfold peek. rewrite E.
  destruct (Z.to_nat (size - bytes)) as [|n] eqn:En; [lia|]. cbn [take].
  apply IH; [|by rewrite E].
  cbn [length]. rewrite length_take. lia.
Qed.

(** Everything the peer sends from now on. *)
Definition incoming (s : stream) : list Z := avail s ++ concat (arrivals s).

Lemma arrive_incoming s : incoming (arrive s) = incoming s.
Proof.
  destruct s as [a [|b bs] h]; [done|]. unfold incoming, arrive. cbn. by rewrite app_assoc.
Qed.

Lemma get_bytes_wait_incoming fuel abort size bytes s d s' :
  get_bytes_wait fuel abort size bytes s = GotBytes d s' -> 0 <= bytes ->
  incoming s' = incoming s /\ (bytes < size -> size <= Z.of_nat (length (avail s'))).
Proof.
  revert bytes s. induction fuel as [|fuel IH]; intros bytes s; cbn [get_bytes_wait];
    destruct (Z.ltb_spec bytes size) as [Hlt|Hge]; try done.
  - intros [= _ <-] _. split; [done|lia].
  - unfold bytes_ready. intros H Hb. rewrite <- (arrive_incoming s).
    assert (Hgo : exists x xs, take (Z.to_nat (size - bytes)) (avail (arrive s)) = x :: xs /\
      get_bytes_wait fuel abort size (Z.of_nat (length (x :: xs))) (arrive s) = GotBytes d s').
    { destruct abort; [done|]. destruct (avail (arrive s)) as [|y ys] eqn:Ea.
      - destruct (hangup (arrive s) && _); done.
      - cbn [Z.eqb] in H. change (1 =? 1) with true in H. cbv iota in H. unfold peek in H. rewrite Ea in H.
        destruct (take (Z.to_nat (size - bytes)) (y :: ys)) as [|x xs]; [done|]. by exists x, xs. }
    destruct Hgo as (x & xs & Et & Hw). destruct (IH _ _ Hw) as [Hi Hl]; [lia|]. split; [done|].
    intros _. destruct (Z_lt_le_dec (Z.of_nat (length (x :: xs))) size) as [Hs|Hs]; [by apply Hl|].
    apply take_nonempty_length in Et as Hn. pose proof (f_equal length Et) as Hlen.
    rewrite length_take in Hlen.
    assert (Hsame : s' = arrive s).
    { destruct fuel; cbn [get_bytes_wait] in Hw;
        destruct (Z.ltb_spec (Z.of_nat (length (x :: xs))) size); try lia; by injection Hw as _ ->. }
    rewrite Hsame. lia.
  - intros [= _ <-] _. split; [done|lia].
Qed.

(** What [get_bytes_silent] returns is the front of what comes in. *)
Lemma get_bytes_silent_incoming fuel abort size s d s' :
  get_bytes_silent fuel abort size s = GotBytes d s' -> 0 <= size ->
  d = take (Z.to_nat size) (incoming s) /\ incoming s' = drop (Z.to_nat size) (incoming s) /\
  length d = Z.to_nat size.
Proof.
  unfold get_bytes_silent. destruct (get_bytes_wait fuel abort size 0 s) as [x s1| |] eqn:E; try done.
  intros [= <- <-] Hs. destruct (get_bytes_wait_incoming _ _ _ _ _ _ _ E) as [Hi Hl]; [done|].
  assert (Hle : (Z.to_nat size <= length (avail s1))%nat) by (destruct (Z.eq_dec size 0); lia).
  rewrite <- Hi. unfold incoming. cbn. rewrite take_app_le, drop_app_le by done.
  split_and!; [done|done|]. rewrite length_take. lia.
Qed.

Lemma htonl_u32 x : htonl (u32 x) = htonl x.
Proof. unfold htonl, u32. by rewrite be_bytes_mod by (simpl; lia). Qed.

Lemma htonll_eq x : htonll x = le_val (be_bytes 8 x).
Proof.
  unfold htonll. rewrite !htonl_u32. unfold htonl, le_val.
  change 8%nat with (4 + 4)%nat. rewrite be_bytes_app, rev_app_distr.
  rewrite be_val_app by (apply Forall_rev; apply be_bytes_bytes).
  by rewrite length_rev, length_be_bytes.
Qed.

Lemma be_bytes_le_val n x : be_bytes n (le_val (be_bytes n x)) = rev (be_bytes n x).
Proof.
  unfold le_val.
  assert (Hl : length (rev (be_bytes n x)) = n) by (by rewrite length_rev, length_be_bytes).
  rewrite <- Hl at 1. apply be_bytes_val, Forall_rev, be_bytes_bytes.
Qed.

Lemma le_bytes_le_val n x : le_bytes n (le_val (be_bytes n x)) = be_bytes n x.
Proof. unfold le_bytes. by rewrite be_bytes_le_val, rev_involutive. Qed.

Lemma le_val_le_val n x :
  le_val (be_bytes n (le_val (be_bytes n x))) = x mod 2 ^ (8 * Z.of_nat n).
Proof.
  rewrite be_bytes_le_val. unfold le_val at 1. by rewrite rev_involutive, be_val_bytes.
Qed.

(** * Properties *)

(** [htonll] stores a 64-bit value in network byte order, and [ntohll] is
    its inverse on every 64-bit value. *)
Theorem htonll_network_order x :
  le_bytes 8 (htonll x) = be_bytes 8 x /\ ntohll (htonll x) = u64 x.
Proof.
  rewrite (htonll_eq x). split; [apply le_bytes_le_val|].
  unfold ntohll. rewrite htonll_eq. apply le_val_le_val.
Qed.

(** the [dL] code and the byte count determine each other: the three legal
    codes round trip, the sizes accepted are exactly 64, 128 and 256, and the
    count of 64-byte lines agrees with the size. *)
Theorem size_dl_roundtrip dl size :
  (1 <= dl <= 3 ->
     size_to_dl (dl_to_size dl) = dl /\ dl_to_size dl = 64 * decode_dl dl) /\
  (dl_to_size dl = -1 <-> ~ 1 <= dl <= 3) /\
  (size_to_dl size <> 255 <-> size = 64 \/ size = 128 \/ size = 256) /\
  (size_to_dl size <> 255 -> dl_to_size (size_to_dl size) = size).
Proof.
  assert (Hs : size_to_dl size <> 255 <-> size = 64 \/ size = 128 \/ size = 256).
  { unfold size_to_dl. split.
    - repeat case_match; intros; try (by destruct H4); try done; lia.
    - intros [-> | [-> | ->]]; done. }
  split_and!; [|  |done|].
  - intros. assert (dl = 1 \/ dl = 2 \/ dl = 3) as [-> | [-> | ->]] by lia; done.
  - unfold dl_to_size. change (i32 (u32 (-1))) with (-1).
    repeat case_match; lia.
  - intros [-> | [-> | ->]]%Hs; done.
Qed.

(** the loop of [generate_parity] ends within 64 iterations and returns
    [odd] plus the number of set bits, modulo 2. *)
Theorem generate_parity_correct data odd :
  is_u 64 data -> odd = 0 \/ odd = 1 ->
  generate_parity data odd = Some ((odd + bit_sum 64 data) mod 2).
Proof. apply generate_parity_eq. Qed.

Lemma generate_parity_correct_witness :
  generate_parity 0xF00000000000000F 1 = Some ((1 + bit_sum 64 0xF00000000000000F) mod 2).
Proof. apply generate_parity_correct; [by vm_compute|by right]. Defined.

(** [generate_cl_parity] packs the odd-parity bits of the eight dwords of a
    cacheline into one byte, dword 0 in the most significant bit, whatever the
    byte held before. *)
Theorem generate_cl_parity_correct data old :
  bytes data ->
  generate_cl_parity data [old]
  = Some [fold_left (fun a j => 2 * a + odd_parity_bit (dword data j)) (seq 0 8) 0].
Proof. apply cl_parity_all. Qed.

Lemma generate_cl_parity_correct_witness :
  generate_cl_parity (replicate 63 0 ++ [1]) [0xAA] = Some [0xFE].
Proof.
  rewrite (generate_cl_parity_correct (replicate 63 0 ++ [1]) 0xAA).
  - by vm_compute.
  - apply Forall_app_2; [by apply Forall_replicate|by repeat constructor].
Defined.

(** when the whole message is queued at the first poll, [get_bytes_silent]
    returns it after one turn of its loop and leaves the rest on the socket. *)
Theorem get_bytes_silent_whole fuel size s rest msg :
  0 < size -> size = Z.of_nat (length msg) -> avail (arrive s) = msg ++ rest ->
  (1 <= fuel)%nat ->
  get_bytes_silent fuel false size s
  = GotBytes msg (Stream rest (arrivals (arrive s)) (hangup (arrive s))).
Proof.
  intros Hpos Hsize Hav Hfuel. unfold get_bytes_silent.
  destruct fuel as [|fuel]; [lia|]. cbn [get_bytes_wait].
  destruct (Z.ltb_spec 0 size); [|lia]. unfold bytes_ready.
  assert (Hpeek : peek (size - 0) (arrive s) = msg).
  { unfold peek. rewrite Hav, Z.sub_0_r, Hsize, Nat2Z.id. by apply take_app_length. }
  assert (Hlen : Z.to_nat size = length msg) by lia.
  destruct msg as [|m ms]; [simpl in *; lia|].
  rewrite Hav at 1. cbn [app Z.eqb]. rewrite Hpeek.
  assert (Hdone : forall f z, get_bytes_wait f false size (Z.of_nat (length (m :: ms))) z
                              = GotBytes [] z).
  { intros [|f] z; cbn [get_bytes_wait];
      (destruct (Z.ltb_spec (Z.of_nat (length (m :: ms))) size); [lia|done]). }
  rewrite Hdone. change (1 =? 1)%positive with true. cbv beta iota. rewrite Hav, Hlen, take_app_length, drop_app_length. done.
Qed.

Lemma get_bytes_silent_whole_witness :
  get_bytes_silent 1 false 3 (Stream [1; 2] [[3; 4]] false)
  = GotBytes [1; 2; 3] (Stream [4] [] false).
Proof. by apply (get_bytes_silent_whole 1 3 (Stream [1; 2] [[3; 4]] false) [4] [1; 2; 3]); simpl; lia || done. Defined.

(** when only a proper prefix of the message is queued at the first poll,
    the wait of [get_bytes_silent] never completes, even if the rest arrives
    later: every further peek is shorter than the message. *)
Theorem get_bytes_silent_split_livelock fuel size s :
  (0 < length (avail (arrive s)))%nat -> Z.of_nat (length (avail (arrive s))) < size ->
  get_bytes_silent fuel false size s = GetRunning.
Proof.
  intros Hne Hlt. unfold get_bytes_silent.
  enough (get_bytes_wait fuel false size 0 s = GetRunning) as -> by done.
  destruct fuel as [|fuel]; cbn [get_bytes_wait];
    (destruct (Z.ltb_spec 0 size); [|lia]); [done|].
  unfold bytes_ready. destruct (avail (arrive s)) as [|x xs] eqn:E; [simpl in *; lia|].
  cbn [Z.eqb]. unfold peek. rewrite E, take_ge by lia.
  apply get_bytes_wait_stuck; [cbn [length] in *; lia|by rewrite E].
Qed.

Lemma get_bytes_silent_split_livelock_witness :
  get_bytes_silent 1000 false 3 (Stream [] [[1]; [2; 3]] false) = GetRunning.
Proof. apply (get_bytes_silent_split_livelock 1000 3 (Stream [] [[1]; [2; 3]] false)); simpl; lia. Defined.

(** [put_bytes_silent] transmits exactly the message when the first write
    takes all of it; after a short write it asks for [size] bytes again, and
    when the kernel takes them it has read past the end of the message. *)
Theorem put_bytes_silent_writes k data :
  (0 < length data)%nat ->
  put_bytes_silent [] (length data) data = Some (Put (Z.of_nat (length data)) data) /\
  (k + 1 < length data ->
   put_bytes_silent [Accept k] (length data) data = None)%nat.
Proof.
  intros Hpos. unfold put_bytes_silent. split.
  - cbn [put_bytes_loop]. destruct (Nat.ltb_spec 0 (length data)); [|lia].
    unfold guard_ub. rewrite Nat.add_0_l, Nat.leb_refl. change (drop 0 data) with data.
    by rewrite firstn_all.
  - intros Hk. cbn [put_bytes_loop]. destruct (Nat.ltb_spec 0 (length data)); [|lia].
    rewrite Nat.min_l by lia. cbn [Nat.add]. unfold guard_ub.
    destruct (Nat.leb_spec (S k) (length data)); [|lia].
    destruct (Nat.ltb_spec (S k) (length data)); [|lia].
    destruct (Nat.leb_spec (S (k + length data)) (length data)); [lia|done].
Qed.

Lemma put_bytes_silent_writes_witness :
  put_bytes_silent [] 3 [7; 8; 9] = Some (Put 3 [7; 8; 9]) /\
  put_bytes_silent [Accept 0] 3 [7; 8; 9] = None.
Proof.
  destruct (put_bytes_silent_writes 0 [7; 8; 9]) as [H1 H2]; [simpl; lia|].
  split; [exact H1|apply H2; simpl; lia].
Defined.
