(* ===== verification/Event.v ===== *)
(** common/tlx_interface_t.h: the [AFU_EVENT] structure both ends of the TLX
    connection keep, its constants, its initial state and its typing
    invariant [event_wf].

    The structure is the one of the TLX3 build.  The pointers of the data FIFOs
    ([rdata_head] ... [cdata_rd_cnt]) are not among the fields: only the driver
    of the simulator uses them, and Driver keeps them as its [rdata] and [cdata].
    Left out is the template configuration of table 15, which nothing reads. *)
From S2P Require Import Prelude.

(** * Constants *)

Definition TLX_BUFFER_SIZE : nat := 1070.
Definition PROTOCOL_PRIMARY := 3.
Definition PROTOCOL_SECONDARY := 0.
Definition PROTOCOL_TERTIARY := 0.

(** Return codes. *)
Definition TLX_SUCCESS := 0.
Definition TLX_RESPONSE_DONE := 0.
Definition TLX_AFU_DOUBLE_COMMAND := 1.
Definition TLX_AFU_CMD_NOT_VALID := 2.
Definition TLX_AFU_DOUBLE_CMD_AND_DATA := 3.
Definition TLX_AFU_CMD_DATA_NOT_VALID := 4.
Definition TLX_AFU_DOUBLE_RESP := 5.
Definition TLX_AFU_RESP_NOT_VALID := 6.
Definition TLX_AFU_DOUBLE_RESP_AND_DATA := 7.
Definition TLX_AFU_RESP_DATA_NOT_VALID := 8.
Definition TLX_AFU_NO_CREDITS := 10.
Definition TLX_RESPONSE_FAILED := 15.
Definition TLX_BAD_SOCKET := 16.
Definition AFU_TLX_DOUBLE_COMMAND := 21.
Definition AFU_TLX_CMD_NOT_VALID := 22.
Definition AFU_TLX_DOUBLE_CMD_AND_DATA := 23.
Definition AFU_TLX_DOUBLE_RESP := 31.
Definition AFU_TLX_RESP_NOT_VALID := 32.
Definition AFU_TLX_DOUBLE_RESP_AND_DATA := 33.
Definition AFU_TLX_DOUBLE_RESP_DATA := 36.
Definition AFU_TLX_NO_CREDITS := 40.
Definition AFU_TLX_RD_CNT_WRONG := 41.
Definition CFG_TLX_NO_CREDITS := 42.
Definition CFG_TLX_NOT_CFG_CMD := 43.
Definition CFG_TLX_RESP_NOT_VALID := 44.
Definition TLX_VERSION_ERROR := 48.
Definition TLX_TRANSMISSION_ERROR := 64.

(** Opcodes of host commands, AFU commands and responses. *)
Definition TLX_CMD_XLATE_DONE := 0x18.
Definition TLX_CMD_INTRP_RDY := 0x1a.
Definition TLX_CMD_RD_MEM := 0x20.
Definition TLX_CMD_PR_RD_MEM := 0x28.
Definition TLX_CMD_WRITE_MEM := 0x81.
Definition TLX_CMD_WRITE_MEM_BE := 0x82.
Definition TLX_CMD_PR_WR_MEM := 0x86.
Definition TLX_CMD_CONFIG_READ := 0xe0.
Definition TLX_CMD_CONFIG_WRITE := 0xe1.

Definition AFU_CMD_NOP := 0x00.
Definition AFU_CMD_RD_WNITC := 0x10.
Definition AFU_CMD_PR_RD_WNITC := 0x12.
Definition AFU_CMD_RD_WNITC_N := 0x14.
Definition AFU_CMD_PR_RD_WNITC_N := 0x16.
Definition AFU_CMD_DMA_W := 0x20.
Definition AFU_CMD_DMA_W_N := 0x24.
Definition AFU_CMD_DMA_W_BE := 0x28.
Definition AFU_CMD_DMA_W_BE_N := 0x2c.
Definition AFU_CMD_DMA_PR_W := 0x30.
Definition AFU_CMD_DMA_PR_W_N := 0x34.
Definition AFU_CMD_AMO_RD := 0x38.
Definition AFU_CMD_AMO_RD_N := 0x3c.
Definition AFU_CMD_AMO_RW := 0x40.
Definition AFU_CMD_AMO_RW_N := 0x44.
Definition AFU_CMD_AMO_W := 0x48.
Definition AFU_CMD_AMO_W_N := 0x4c.
Definition AFU_CMD_ASSIGN_ACTAG := 0x50.
Definition AFU_CMD_INTRP_REQ := 0x58.
Definition AFU_CMD_INTRP_REQ_D := 0x5a.
Definition AFU_CMD_WAKE_HOST_THRD := 0x5c.
Definition AFU_CMD_WAKE_HOST_THRD_S := 0x5d.
Definition AFU_CMD_XLATE_TOUCH := 0x78.
Definition AFU_CMD_XLATE_TOUCH_N := 0x7c.

Definition TLX_RSP_TOUCH_RESP := 0x02.
Definition TLX_RSP_READ_RESP := 0x04.
Definition TLX_RSP_READ_FAILED := 0x05.
Definition TLX_RSP_WRITE_RESP := 0x08.
Definition TLX_RSP_WRITE_FAILED := 0x09.
Definition TLX_RSP_INTRP_RESP := 0x0c.
Definition TLX_RSP_WAKE_HOST_RESP := 0x10.

Definition AFU_RSP_MEM_RD_RESP := 0x01.

(** * The structure *)

Record AFU_EVENT := mkAFU_EVENT {
  (* socket and protocol level *)
  sockfd : Z;  (* int *)
  proto_primary : Z;  (* u32 *)
  proto_secondary : Z;  (* u32 *)
  proto_tertiary : Z;  (* u32 *)
  clock : Z;  (* int *)
  tbuf : list Z;  (* [1070] *)
  rbuf : list Z;  (* [1070] *)
  rbp : Z;  (* u32 *)
  (* configuration and credits *)
  afu_tlx_credit_req_valid : Z;  (* u8 *)
  tlx_afu_credit_valid : Z;  (* u8 *)
  afu_tlx_cmd_credits_available : Z;  (* u8 *)
  afu_tlx_resp_credits_available : Z;  (* u8 *)
  tlx_afu_cmd_credits_available : Z;  (* u8 *)
  tlx_afu_resp_credits_available : Z;  (* u8 *)
  tlx_afu_resp_data_credits_available : Z;  (* u8 *)
  tlx_afu_cmd_data_credits_available : Z;  (* u8 *)
  cfg_tlx_credits_available : Z;  (* u8 *)
  (* byte counts used for the socket transfer *)
  tlx_afu_cmd_data_byte_cnt : Z;  (* u16 *)
  tlx_afu_resp_data_byte_cnt : Z;  (* u16 *)
  afu_cfg_resp_data_byte_cnt : Z;  (* u16 *)
  (* TLX to AFU CAPP command interface (table 2) *)
  tlx_afu_cmd_valid : Z;  (* u8 *)
  tlx_afu_cmd_opcode : Z;  (* u8 *)
  tlx_afu_cmd_capptag : Z;  (* u16 *)
  tlx_afu_cmd_dl : Z;  (* u8 *)
  tlx_afu_cmd_pl : Z;  (* u8 *)
  tlx_afu_cmd_be : Z;  (* u64 *)
  tlx_afu_cmd_end : Z;  (* u8 *)
  tlx_afu_cmd_pa : Z;  (* u64 *)
  afu_tlx_cmd_credit : Z;  (* u8 *)
  afu_tlx_cmd_initial_credit : Z;  (* u8 *)
  (* TLX to AFU CAPP configuration command interface (table 3) *)
  cfg_tlx_credit_return : Z;  (* u8 *)
  cfg_tlx_initial_credit : Z;  (* u8 *)
  tlx_cfg_valid : Z;  (* u8 *)
  tlx_cfg_opcode : Z;  (* u8 *)
  tlx_cfg_capptag : Z;  (* u16 *)
  tlx_cfg_pa : Z;  (* u64 *)
  tlx_cfg_t : Z;  (* u8 *)
  tlx_cfg_pl : Z;  (* u8 *)
  tlx_cfg_data_bdi : Z;  (* u8 *)
  tlx_cfg_data_bus : list Z;  (* [4] *)
  (* TLX to AFU CAPP response interface (table 4) *)
  tlx_afu_resp_valid : Z;  (* u8 *)
  tlx_afu_resp_opcode : Z;  (* u8 *)
  tlx_afu_resp_afutag : Z;  (* u16 *)
  tlx_afu_resp_code : Z;  (* u8 *)
  tlx_afu_resp_pg_size : Z;  (* u8 *)
  tlx_afu_resp_dl : Z;  (* u8 *)
  tlx_afu_resp_dp : Z;  (* u8 *)
  tlx_afu_resp_addr_tag : Z;  (* u32 *)
  afu_tlx_resp_credit : Z;  (* u8 *)
  afu_tlx_resp_initial_credit : Z;  (* u8 *)
  (* TLX to AFU CAPP response data interface (table 5) *)
  tlx_afu_resp_data_valid : Z;  (* u8 *)
  tlx_afu_resp_data : list Z;  (* [256] *)
  tlx_afu_resp_data_bdi : Z;  (* u8 *)
  afu_tlx_resp_rd_req : Z;  (* u8 *)
  afu_tlx_resp_rd_cnt : Z;  (* u8 *)
  (* TLX to AFU CAPP command data interface (table 6) *)
  tlx_afu_cmd_data_valid : Z;  (* u8 *)
  tlx_afu_cmd_data_bus : list Z;  (* [256] *)
  tlx_afu_cmd_data_bdi : Z;  (* u8 *)
  afu_tlx_cmd_rd_req : Z;  (* u8 *)
  afu_tlx_cmd_rd_cnt : Z;  (* u8 *)
  (* TLX framer initial credits (table 8) *)
  tlx_afu_cmd_initial_credit : Z;  (* u8 *)
  tlx_afu_resp_initial_credit : Z;  (* u8 *)
  tlx_afu_cmd_data_initial_credit : Z;  (* u8 *)
  tlx_afu_resp_data_initial_credit : Z;  (* u8 *)
  (* AFU to TLX AP command interface (table 11) *)
  tlx_afu_cmd_credit : Z;  (* u8 *)
  tlx_afu_cmd_data_credit : Z;  (* u8 *)
  afu_tlx_cmd_valid : Z;  (* u8 *)
  afu_tlx_cmd_opcode : Z;  (* u8 *)
  afu_tlx_cmd_actag : Z;  (* u16 *)
  afu_tlx_cmd_stream_id : Z;  (* u8 *)
  afu_tlx_cmd_ea_or_obj : list Z;  (* [9] *)
  afu_tlx_cmd_afutag : Z;  (* u16 *)
  afu_tlx_cmd_dl : Z;  (* u8 *)
  afu_tlx_cmd_pl : Z;  (* u8 *)
  afu_tlx_cmd_be : Z;  (* u64 *)
  afu_tlx_cmd_flag : Z;  (* u8 *)
  afu_tlx_cmd_endian : Z;  (* u8 *)
  afu_tlx_cmd_bdf : Z;  (* u16 *)
  afu_tlx_cmd_pasid : Z;  (* u32 *)
  afu_tlx_cmd_pg_size : Z;  (* u8 *)
  afu_tlx_cdata_valid : Z;  (* u8 *)
  afu_tlx_cdata_bus : list Z;  (* [64] *)
  afu_tlx_cdata_bdi : Z;  (* u8 *)
  (* AFU to TLX AP response interface (table 12) *)
  tlx_afu_resp_credit : Z;  (* u8 *)
  tlx_afu_resp_data_credit : Z;  (* u8 *)
  afu_tlx_resp_valid : Z;  (* u8 *)
  afu_tlx_resp_opcode : Z;  (* u8 *)
  afu_tlx_resp_dl : Z;  (* u8 *)
  afu_tlx_resp_capptag : Z;  (* u16 *)
  afu_tlx_resp_dp : Z;  (* u8 *)
  afu_tlx_resp_code : Z;  (* u8 *)
  afu_tlx_rdata_valid : Z;  (* u8 *)
  afu_tlx_rdata_bus : list Z;  (* [64] *)
  afu_tlx_rdata_bdi : Z;  (* u8 *)
  (* AFU to TLX AP configuration interface (table 13) *)
  cfg_tlx_resp_valid : Z;  (* u8 *)
  cfg_tlx_resp_opcode : Z;  (* u8 *)
  cfg_tlx_resp_capptag : Z;  (* u16 *)
  cfg_tlx_resp_code : Z;  (* u8 *)
  tlx_cfg_resp_ack : Z;  (* u8 *)
  cfg_tlx_rdata_offset : Z;  (* u8 *)
  cfg_tlx_rdata_bus : list Z;  (* [4] *)
  cfg_tlx_rdata_valid : Z;  (* u8 *)
  cfg_tlx_rdata_bdi : Z;  (* u8 *)
}.

#[export] Instance AFU_EVENT_settable : Settable AFU_EVENT := fun e => mkAFU_EVENT
  (sockfd e) (proto_primary e) (proto_secondary e) (proto_tertiary e) (clock e)
  (tbuf e) (rbuf e) (rbp e) (afu_tlx_credit_req_valid e) (tlx_afu_credit_valid e)
  (afu_tlx_cmd_credits_available e) (afu_tlx_resp_credits_available e)
  (tlx_afu_cmd_credits_available e) (tlx_afu_resp_credits_available e)
  (tlx_afu_resp_data_credits_available e) (tlx_afu_cmd_data_credits_available e)
  (cfg_tlx_credits_available e) (tlx_afu_cmd_data_byte_cnt e)
  (tlx_afu_resp_data_byte_cnt e) (afu_cfg_resp_data_byte_cnt e) (tlx_afu_cmd_valid e)
  (tlx_afu_cmd_opcode e) (tlx_afu_cmd_capptag e) (tlx_afu_cmd_dl e) (tlx_afu_cmd_pl e)
  (tlx_afu_cmd_be e) (tlx_afu_cmd_end e) (tlx_afu_cmd_pa e) (afu_tlx_cmd_credit e)
  (afu_tlx_cmd_initial_credit e) (cfg_tlx_credit_return e) (cfg_tlx_initial_credit e)
  (tlx_cfg_valid e) (tlx_cfg_opcode e) (tlx_cfg_capptag e) (tlx_cfg_pa e) (tlx_cfg_t e)
  (tlx_cfg_pl e) (tlx_cfg_data_bdi e) (tlx_cfg_data_bus e) (tlx_afu_resp_valid e)
  (tlx_afu_resp_opcode e) (tlx_afu_resp_afutag e) (tlx_afu_resp_code e)
  (tlx_afu_resp_pg_size e) (tlx_afu_resp_dl e) (tlx_afu_resp_dp e)
  (tlx_afu_resp_addr_tag e) (afu_tlx_resp_credit e) (afu_tlx_resp_initial_credit e)
  (tlx_afu_resp_data_valid e) (tlx_afu_resp_data e) (tlx_afu_resp_data_bdi e)
  (afu_tlx_resp_rd_req e) (afu_tlx_resp_rd_cnt e) (tlx_afu_cmd_data_valid e)
  (tlx_afu_cmd_data_bus e) (tlx_afu_cmd_data_bdi e) (afu_tlx_cmd_rd_req e)
  (afu_tlx_cmd_rd_cnt e) (tlx_afu_cmd_initial_credit e) (tlx_afu_resp_initial_credit e)
  (tlx_afu_cmd_data_initial_credit e) (tlx_afu_resp_data_initial_credit e)
  (tlx_afu_cmd_credit e) (tlx_afu_cmd_data_credit e) (afu_tlx_cmd_valid e)
  (afu_tlx_cmd_opcode e) (afu_tlx_cmd_actag e) (afu_tlx_cmd_stream_id e)
  (afu_tlx_cmd_ea_or_obj e) (afu_tlx_cmd_afutag e) (afu_tlx_cmd_dl e)
  (afu_tlx_cmd_pl e) (afu_tlx_cmd_be e) (afu_tlx_cmd_flag e) (afu_tlx_cmd_endian e)
  (afu_tlx_cmd_bdf e) (afu_tlx_cmd_pasid e) (afu_tlx_cmd_pg_size e)
  (afu_tlx_cdata_valid e) (afu_tlx_cdata_bus e) (afu_tlx_cdata_bdi e)
  (tlx_afu_resp_credit e) (tlx_afu_resp_data_credit e) (afu_tlx_resp_valid e)
  (afu_tlx_resp_opcode e) (afu_tlx_resp_dl e) (afu_tlx_resp_capptag e)
  (afu_tlx_resp_dp e) (afu_tlx_resp_code e) (afu_tlx_rdata_valid e)
  (afu_tlx_rdata_bus e) (afu_tlx_rdata_bdi e) (cfg_tlx_resp_valid e)
  (cfg_tlx_resp_opcode e) (cfg_tlx_resp_capptag e) (cfg_tlx_resp_code e)
  (tlx_cfg_resp_ack e) (cfg_tlx_rdata_offset e) (cfg_tlx_rdata_bus e)
  (cfg_tlx_rdata_valid e) (cfg_tlx_rdata_bdi e).

#[export] Instance set_sockfd : Setter sockfd := ltac:(build_setter).
#[export] Instance set_proto_primary : Setter proto_primary := ltac:(build_setter).
#[export] Instance set_proto_secondary : Setter proto_secondary := ltac:(build_setter).
#[export] Instance set_proto_tertiary : Setter proto_tertiary := ltac:(build_setter).
#[export] Instance set_clock : Setter clock := ltac:(build_setter).
#[export] Instance set_tbuf : Setter tbuf := ltac:(build_setter).
#[export] Instance set_rbuf : Setter rbuf := ltac:(build_setter).
#[export] Instance set_rbp : Setter rbp := ltac:(build_setter).
#[export] Instance set_afu_tlx_credit_req_valid : Setter afu_tlx_credit_req_valid := ltac:(build_setter).
#[export] Instance set_tlx_afu_credit_valid : Setter tlx_afu_credit_valid := ltac:(build_setter).
#[export] Instance set_afu_tlx_cmd_credits_available : Setter afu_tlx_cmd_credits_available := ltac:(build_setter).
#[export] Instance set_afu_tlx_resp_credits_available : Setter afu_tlx_resp_credits_available := ltac:(build_setter).
#[export] Instance set_tlx_afu_cmd_credits_available : Setter tlx_afu_cmd_credits_available := ltac:(build_setter).
#[export] Instance set_tlx_afu_resp_credits_available : Setter tlx_afu_resp_credits_available := ltac:(build_setter).
#[export] Instance set_tlx_afu_resp_data_credits_available : Setter tlx_afu_resp_data_credits_available := ltac:(build_setter).
#[export] Instance set_tlx_afu_cmd_data_credits_available : Setter tlx_afu_cmd_data_credits_available := ltac:(build_setter).
#[export] Instance set_cfg_tlx_credits_available : Setter cfg_tlx_credits_available := ltac:(build_setter).
#[export] Instance set_tlx_afu_cmd_data_byte_cnt : Setter tlx_afu_cmd_data_byte_cnt := ltac:(build_setter).
#[export] Instance set_tlx_afu_resp_data_byte_cnt : Setter tlx_afu_resp_data_byte_cnt := ltac:(build_setter).
#[export] Instance set_afu_cfg_resp_data_byte_cnt : Setter afu_cfg_resp_data_byte_cnt := ltac:(build_setter).
#[export] Instance set_tlx_afu_cmd_valid : Setter tlx_afu_cmd_valid := ltac:(build_setter).
#[export] Instance set_tlx_afu_cmd_opcode : Setter tlx_afu_cmd_opcode := ltac:(build_setter).
#[export] Instance set_tlx_afu_cmd_capptag : Setter tlx_afu_cmd_capptag := ltac:(build_setter).
#[export] Instance set_tlx_afu_cmd_dl : Setter tlx_afu_cmd_dl := ltac:(build_setter).
#[export] Instance set_tlx_afu_cmd_pl : Setter tlx_afu_cmd_pl := ltac:(build_setter).
#[export] Instance set_tlx_afu_cmd_be : Setter tlx_afu_cmd_be := ltac:(build_setter).
#[export] Instance set_tlx_afu_cmd_end : Setter tlx_afu_cmd_end := ltac:(build_setter).
#[export] Instance set_tlx_afu_cmd_pa : Setter tlx_afu_cmd_pa := ltac:(build_setter).
#[export] Instance set_afu_tlx_cmd_credit : Setter afu_tlx_cmd_credit := ltac:(build_setter).
#[export] Instance set_afu_tlx_cmd_initial_credit : Setter afu_tlx_cmd_initial_credit := ltac:(build_setter).
#[export] Instance set_cfg_tlx_credit_return : Setter cfg_tlx_credit_return := ltac:(build_setter).
#[export] Instance set_cfg_tlx_initial_credit : Setter cfg_tlx_initial_credit := ltac:(build_setter).
#[export] Instance set_tlx_cfg_valid : Setter tlx_cfg_valid := ltac:(build_setter).
#[export] Instance set_tlx_cfg_opcode : Setter tlx_cfg_opcode := ltac:(build_setter).
#[export] Instance set_tlx_cfg_capptag : Setter tlx_cfg_capptag := ltac:(build_setter).
#[export] Instance set_tlx_cfg_pa : Setter tlx_cfg_pa := ltac:(build_setter).
#[export] Instance set_tlx_cfg_t : Setter tlx_cfg_t := ltac:(build_setter).
#[export] Instance set_tlx_cfg_pl : Setter tlx_cfg_pl := ltac:(build_setter).
#[export] Instance set_tlx_cfg_data_bdi : Setter tlx_cfg_data_bdi := ltac:(build_setter).
#[export] Instance set_tlx_cfg_data_bus : Setter tlx_cfg_data_bus := ltac:(build_setter).
#[export] Instance set_tlx_afu_resp_valid : Setter tlx_afu_resp_valid := ltac:(build_setter).
#[export] Instance set_tlx_afu_resp_opcode : Setter tlx_afu_resp_opcode := ltac:(build_setter).
#[export] Instance set_tlx_afu_resp_afutag : Setter tlx_afu_resp_afutag := ltac:(build_setter).
#[export] Instance set_tlx_afu_resp_code : Setter tlx_afu_resp_code := ltac:(build_setter).
#[export] Instance set_tlx_afu_resp_pg_size : Setter tlx_afu_resp_pg_size := ltac:(build_setter).
#[export] Instance set_tlx_afu_resp_dl : Setter tlx_afu_resp_dl := ltac:(build_setter).
#[export] Instance set_tlx_afu_resp_dp : Setter tlx_afu_resp_dp := ltac:(build_setter).
#[export] Instance set_tlx_afu_resp_addr_tag : Setter tlx_afu_resp_addr_tag := ltac:(build_setter).
#[export] Instance set_afu_tlx_resp_credit : Setter afu_tlx_resp_credit := ltac:(build_setter).
#[export] Instance set_afu_tlx_resp_initial_credit : Setter afu_tlx_resp_initial_credit := ltac:(build_setter).
#[export] Instance set_tlx_afu_resp_data_valid : Setter tlx_afu_resp_data_valid := ltac:(build_setter).
#[export] Instance set_tlx_afu_resp_data : Setter tlx_afu_resp_data := ltac:(build_setter).
#[export] Instance set_tlx_afu_resp_data_bdi : Setter tlx_afu_resp_data_bdi := ltac:(build_setter).
#[export] Instance set_afu_tlx_resp_rd_req : Setter afu_tlx_resp_rd_req := ltac:(build_setter).
#[export] Instance set_afu_tlx_resp_rd_cnt : Setter afu_tlx_resp_rd_cnt := ltac:(build_setter).
#[export] Instance set_tlx_afu_cmd_data_valid : Setter tlx_afu_cmd_data_valid := ltac:(build_setter).
#[export] Instance set_tlx_afu_cmd_data_bus : Setter tlx_afu_cmd_data_bus := ltac:(build_setter).
#[export] Instance set_tlx_afu_cmd_data_bdi : Setter tlx_afu_cmd_data_bdi := ltac:(build_setter).
#[export] Instance set_afu_tlx_cmd_rd_req : Setter afu_tlx_cmd_rd_req := ltac:(build_setter).
#[export] Instance set_afu_tlx_cmd_rd_cnt : Setter afu_tlx_cmd_rd_cnt := ltac:(build_setter).
#[export] Instance set_tlx_afu_cmd_initial_credit : Setter tlx_afu_cmd_initial_credit := ltac:(build_setter).
#[export] Instance set_tlx_afu_resp_initial_credit : Setter tlx_afu_resp_initial_credit := ltac:(build_setter).
#[export] Instance set_tlx_afu_cmd_data_initial_credit : Setter tlx_afu_cmd_data_initial_credit := ltac:(build_setter).
#[export] Instance set_tlx_afu_resp_data_initial_credit : Setter tlx_afu_resp_data_initial_credit := ltac:(build_setter).
#[export] Instance set_tlx_afu_cmd_credit : Setter tlx_afu_cmd_credit := ltac:(build_setter).
#[export] Instance set_tlx_afu_cmd_data_credit : Setter tlx_afu_cmd_data_credit := ltac:(build_setter).
#[export] Instance set_afu_tlx_cmd_valid : Setter afu_tlx_cmd_valid := ltac:(build_setter).
#[export] Instance set_afu_tlx_cmd_opcode : Setter afu_tlx_cmd_opcode := ltac:(build_setter).
#[export] Instance set_afu_tlx_cmd_actag : Setter afu_tlx_cmd_actag := ltac:(build_setter).
#[export] Instance set_afu_tlx_cmd_stream_id : Setter afu_tlx_cmd_stream_id := ltac:(build_setter).
#[export] Instance set_afu_tlx_cmd_ea_or_obj : Setter afu_tlx_cmd_ea_or_obj := ltac:(build_setter).
#[export] Instance set_afu_tlx_cmd_afutag : Setter afu_tlx_cmd_afutag := ltac:(build_setter).
#[export] Instance set_afu_tlx_cmd_dl : Setter afu_tlx_cmd_dl := ltac:(build_setter).
#[export] Instance set_afu_tlx_cmd_pl : Setter afu_tlx_cmd_pl := ltac:(build_setter).
#[export] Instance set_afu_tlx_cmd_be : Setter afu_tlx_cmd_be := ltac:(build_setter).
#[export] Instance set_afu_tlx_cmd_flag : Setter afu_tlx_cmd_flag := ltac:(build_setter).
#[export] Instance set_afu_tlx_cmd_endian : Setter afu_tlx_cmd_endian := ltac:(build_setter).
#[export] Instance set_afu_tlx_cmd_bdf : Setter afu_tlx_cmd_bdf := ltac:(build_setter).
#[export] Instance set_afu_tlx_cmd_pasid : Setter afu_tlx_cmd_pasid := ltac:(build_setter).
#[export] Instance set_afu_tlx_cmd_pg_size : Setter afu_tlx_cmd_pg_size := ltac:(build_setter).
#[export] Instance set_afu_tlx_cdata_valid : Setter afu_tlx_cdata_valid := ltac:(build_setter).
#[export] Instance set_afu_tlx_cdata_bus : Setter afu_tlx_cdata_bus := ltac:(build_setter).
#[export] Instance set_afu_tlx_cdata_bdi : Setter afu_tlx_cdata_bdi := ltac:(build_setter).
#[export] Instance set_tlx_afu_resp_credit : Setter tlx_afu_resp_credit := ltac:(build_setter).
#[export] Instance set_tlx_afu_resp_data_credit : Setter tlx_afu_resp_data_credit := ltac:(build_setter).
#[export] Instance set_afu_tlx_resp_valid : Setter afu_tlx_resp_valid := ltac:(build_setter).
#[export] Instance set_afu_tlx_resp_opcode : Setter afu_tlx_resp_opcode := ltac:(build_setter).
#[export] Instance set_afu_tlx_resp_dl : Setter afu_tlx_resp_dl := ltac:(build_setter).
#[export] Instance set_afu_tlx_resp_capptag : Setter afu_tlx_resp_capptag := ltac:(build_setter).
#[export] Instance set_afu_tlx_resp_dp : Setter afu_tlx_resp_dp := ltac:(build_setter).
#[export] Instance set_afu_tlx_resp_code : Setter afu_tlx_resp_code := ltac:(build_setter).
#[export] Instance set_afu_tlx_rdata_valid : Setter afu_tlx_rdata_valid := ltac:(build_setter).
#[export] Instance set_afu_tlx_rdata_bus : Setter afu_tlx_rdata_bus := ltac:(build_setter).
#[export] Instance set_afu_tlx_rdata_bdi : Setter afu_tlx_rdata_bdi := ltac:(build_setter).
#[export] Instance set_cfg_tlx_resp_valid : Setter cfg_tlx_resp_valid := ltac:(build_setter).
#[export] Instance set_cfg_tlx_resp_opcode : Setter cfg_tlx_resp_opcode := ltac:(build_setter).
#[export] Instance set_cfg_tlx_resp_capptag : Setter cfg_tlx_resp_capptag := ltac:(build_setter).
#[export] Instance set_cfg_tlx_resp_code : Setter cfg_tlx_resp_code := ltac:(build_setter).
#[export] Instance set_tlx_cfg_resp_ack : Setter tlx_cfg_resp_ack := ltac:(build_setter).
#[export] Instance set_cfg_tlx_rdata_offset : Setter cfg_tlx_rdata_offset := ltac:(build_setter).
#[export] Instance set_cfg_tlx_rdata_bus : Setter cfg_tlx_rdata_bus := ltac:(build_setter).
#[export] Instance set_cfg_tlx_rdata_valid : Setter cfg_tlx_rdata_valid := ltac:(build_setter).
#[export] Instance set_cfg_tlx_rdata_bdi : Setter cfg_tlx_rdata_bdi := ltac:(build_setter).

Definition u8_fields : list (AFU_EVENT -> Z) :=
  [afu_tlx_credit_req_valid; tlx_afu_credit_valid; afu_tlx_cmd_credits_available;
   afu_tlx_resp_credits_available; tlx_afu_cmd_credits_available;
   tlx_afu_resp_credits_available; tlx_afu_resp_data_credits_available;
   tlx_afu_cmd_data_credits_available; cfg_tlx_credits_available; tlx_afu_cmd_valid;
   tlx_afu_cmd_opcode; tlx_afu_cmd_dl; tlx_afu_cmd_pl; tlx_afu_cmd_end;
   afu_tlx_cmd_credit; afu_tlx_cmd_initial_credit; cfg_tlx_credit_return;
   cfg_tlx_initial_credit; tlx_cfg_valid; tlx_cfg_opcode; tlx_cfg_t; tlx_cfg_pl;
   tlx_cfg_data_bdi; tlx_afu_resp_valid; tlx_afu_resp_opcode; tlx_afu_resp_code;
   tlx_afu_resp_pg_size; tlx_afu_resp_dl; tlx_afu_resp_dp; afu_tlx_resp_credit;
   afu_tlx_resp_initial_credit; tlx_afu_resp_data_valid; tlx_afu_resp_data_bdi;
   afu_tlx_resp_rd_req; afu_tlx_resp_rd_cnt; tlx_afu_cmd_data_valid;
   tlx_afu_cmd_data_bdi; afu_tlx_cmd_rd_req; afu_tlx_cmd_rd_cnt;
   tlx_afu_cmd_initial_credit; tlx_afu_resp_initial_credit;
   tlx_afu_cmd_data_initial_credit; tlx_afu_resp_data_initial_credit;
   tlx_afu_cmd_credit; tlx_afu_cmd_data_credit; afu_tlx_cmd_valid; afu_tlx_cmd_opcode;
   afu_tlx_cmd_stream_id; afu_tlx_cmd_dl; afu_tlx_cmd_pl; afu_tlx_cmd_flag;
   afu_tlx_cmd_endian; afu_tlx_cmd_pg_size; afu_tlx_cdata_valid; afu_tlx_cdata_bdi;
   tlx_afu_resp_credit; tlx_afu_resp_data_credit; afu_tlx_resp_valid;
   afu_tlx_resp_opcode; afu_tlx_resp_dl; afu_tlx_resp_dp; afu_tlx_resp_code;
   afu_tlx_rdata_valid; afu_tlx_rdata_bdi; cfg_tlx_resp_valid; cfg_tlx_resp_opcode;
   cfg_tlx_resp_code; tlx_cfg_resp_ack; cfg_tlx_rdata_offset; cfg_tlx_rdata_valid;
   cfg_tlx_rdata_bdi].

Definition u16_fields : list (AFU_EVENT -> Z) :=
  [tlx_afu_cmd_data_byte_cnt; tlx_afu_resp_data_byte_cnt; afu_cfg_resp_data_byte_cnt;
   tlx_afu_cmd_capptag; tlx_cfg_capptag; tlx_afu_resp_afutag; afu_tlx_cmd_actag;
   afu_tlx_cmd_afutag; afu_tlx_cmd_bdf; afu_tlx_resp_capptag; cfg_tlx_resp_capptag].

Definition u32_fields : list (AFU_EVENT -> Z) :=
  [proto_primary; proto_secondary; proto_tertiary; rbp; tlx_afu_resp_addr_tag;
   afu_tlx_cmd_pasid].

Definition u64_fields : list (AFU_EVENT -> Z) :=
  [tlx_afu_cmd_be; tlx_afu_cmd_pa; tlx_cfg_pa; afu_tlx_cmd_be].

(** The byte arrays with the lengths they are declared with. *)
Definition array_fields : list ((AFU_EVENT -> list Z) * nat) :=
  [(tbuf, 1070%nat); (rbuf, 1070%nat); (tlx_cfg_data_bus, 4%nat);
   (tlx_afu_resp_data, 256%nat); (tlx_afu_cmd_data_bus, 256%nat);
   (afu_tlx_cmd_ea_or_obj, 9%nat); (afu_tlx_cdata_bus, 64%nat);
   (afu_tlx_rdata_bus, 64%nat); (cfg_tlx_rdata_bus, 4%nat)].


(** * Initial state *)

(** The [memset] to zero of the whole structure. *)
Definition event_zero : AFU_EVENT := mkAFU_EVENT
  0 0 0 0 0 (zeros 1070) (zeros 1070) 0 0 0 0 0 0 0 0 0 0 0 0 0 0 0 0 0 0 0
  0 0 0 0 0 0 0 0 0 0 0 0 0 (zeros 4) 0 0 0 0 0 0 0 0 0 0 0 (zeros 256) 0 0
  0 0 (zeros 256) 0 0 0 0 0 0 0 0 0 0 0 0 0 (zeros 9) 0 0 0 0 0 0 0 0 0 0
  (zeros 64) 0 0 0 0 0 0 0 0 0 0 (zeros 64) 0 0 0 0 0 0 0 (zeros 4) 0
  0.

Definition tlx_event_reset (event : AFU_EVENT) : AFU_EVENT :=
  let event := event_zero in
  event <| proto_primary := PROTOCOL_PRIMARY |>
        <| proto_secondary := PROTOCOL_SECONDARY |>
        <| proto_tertiary := PROTOCOL_TERTIARY |>.

(** * Typing invariant *)

Definition values (ps : list (AFU_EVENT -> Z)) (e : AFU_EVENT) : list Z :=
  map (fun p => p e) ps.
Definition arrays (e : AFU_EVENT) : list (list Z * nat) :=
  map (fun '(p, n) => (p e, n)) array_fields.
Definition is_array (n : nat) (l : list Z) : Prop := length l = n /\ bytes l.
Arguments is_array : simpl never.

(** Every field holds a value of its C type. *)
Definition event_wf (e : AFU_EVENT) : Prop :=
  Forall (is_u 8) (values u8_fields e) /\ Forall (is_u 16) (values u16_fields e) /\
  Forall (is_u 32) (values u32_fields e) /\ Forall (is_u 64) (values u64_fields e) /\
  Forall (fun '(l, n) => is_array n l) (arrays e).

(** What the invariant says of one field: it can be read off, and assigning a
    value of the field's type keeps the invariant. *)
Class FieldTy {T} (p : AFU_EVENT -> T) `{!Setter p} (P : T -> Prop) : Prop := {
  field_set e v : event_wf e -> P v -> event_wf (e <| p := v |>);
  field_get e : event_wf e -> P (p e);
}.

Section field_types.
Context {T : Type} (p : AFU_EVENT -> T) `{!Setter p}.
Definition keeps (ps : list (AFU_EVENT -> Z)) : Prop :=
  forall e v, values ps (e <| p := v |>) = values ps e.
Definition keeps_arrays : Prop := forall e v, arrays (e <| p := v |>) = arrays e.
End field_types.

Section scalar_types.
Context (k : nat) (p : AFU_EVENT -> Z) `{!Setter p}.
Definition updates (ps : list (AFU_EVENT -> Z)) : Prop :=
  forall e v, values ps (e <| p := v |>) = <[k := v]> (values ps e).
Definition reads (ps : list (AFU_EVENT -> Z)) : Prop :=
  forall e, values ps e !! k = Some (p e).

Lemma ok_u8 : updates u8_fields -> keeps p u16_fields -> keeps p u32_fields ->
  keeps p u64_fields -> keeps_arrays p -> reads u8_fields -> FieldTy p (is_u 8).
Proof.
  intros H8 H16 H32 H64 Ha Hr. split.
  - intros e v (W8 & W16 & W32 & W64 & Wa) Hv. unfold event_wf.
    rewrite H8, H16, H32, H64, Ha. split_and!; try done. by apply Forall_insert.
  - intros e (W8 & _). by eapply Forall_lookup_1.
Qed.
Lemma ok_u16 : keeps p u8_fields -> updates u16_fields -> keeps p u32_fields ->
  keeps p u64_fields -> keeps_arrays p -> reads u16_fields -> FieldTy p (is_u 16).
Proof.
  intros H8 H16 H32 H64 Ha Hr. split.
  - intros e v (W8 & W16 & W32 & W64 & Wa) Hv. unfold event_wf.
    rewrite H8, H16, H32, H64, Ha. split_and!; try done. by apply Forall_insert.
  - intros e (_ & W16 & _). by eapply Forall_lookup_1.
Qed.
Lemma ok_u32 : keeps p u8_fields -> keeps p u16_fields -> updates u32_fields ->
  keeps p u64_fields -> keeps_arrays p -> reads u32_fields -> FieldTy p (is_u 32).
Proof.
  intros H8 H16 H32 H64 Ha Hr. split.
  - intros e v (W8 & W16 & W32 & W64 & Wa) Hv. unfold event_wf.
    rewrite H8, H16, H32, H64, Ha. split_and!; try done. by apply Forall_insert.
  - intros e (_ & _ & W32 & _). by eapply Forall_lookup_1.
Qed.
Lemma ok_u64 : keeps p u8_fields -> keeps p u16_fields -> keeps p u32_fields ->
  updates u64_fields -> keeps_arrays p -> reads u64_fields -> FieldTy p (is_u 64).
Proof.
  intros H8 H16 H32 H64 Ha Hr. split.
  - intros e v (W8 & W16 & W32 & W64 & Wa) Hv. unfold event_wf.
    rewrite H8, H16, H32, H64, Ha. split_and!; try done. by apply Forall_insert.
  - intros e (_ & _ & _ & W64 & _). by eapply Forall_lookup_1.
Qed.
Lemma ok_int : keeps p u8_fields -> keeps p u16_fields -> keeps p u32_fields ->
  keeps p u64_fields -> keeps_arrays p -> FieldTy p (fun _ => True).
Proof.
  intros H8 H16 H32 H64 Ha. split; [|done].
  intros e v (W8 & W16 & W32 & W64 & Wa) Hv. unfold event_wf.
  by rewrite H8, H16, H32, H64, Ha.
Qed.
End scalar_types.

Lemma ok_array (k n : nat) (p : AFU_EVENT -> list Z) `{!Setter p} :
  keeps p u8_fields -> keeps p u16_fields -> keeps p u32_fields -> keeps p u64_fields ->
  (forall e v, arrays (e <| p := v |>) = <[k := (v, n)]> (arrays e)) ->
  (forall e, arrays e !! k = Some (p e, n)) -> FieldTy p (is_array n).
Proof.
  intros H8 H16 H32 H64 Ha Hr. split.
  - intros e v (W8 & W16 & W32 & W64 & Wa) Hv. unfold event_wf.
    rewrite H8, H16, H32, H64, Ha. split_and!; try done. by apply Forall_insert.
  - intros e (_ & _ & _ & _ & Wa). by eapply (Forall_lookup_1 _ _ _ _ Wa (Hr e)).
Qed.

(** The equations on the tables hold by computation. *)
Ltac by_table l := apply l; repeat intro; reflexivity.

#[export] Instance ty_sockfd : FieldTy sockfd (fun _ => True).
Proof. by_table (ok_int sockfd). Qed.
#[export] Instance ty_proto_primary : FieldTy proto_primary (is_u 32).
Proof. by_table (ok_u32 0 proto_primary). Qed.
#[export] Instance ty_proto_secondary : FieldTy proto_secondary (is_u 32).
Proof. by_table (ok_u32 1 proto_secondary). Qed.
#[export] Instance ty_proto_tertiary : FieldTy proto_tertiary (is_u 32).
Proof. by_table (ok_u32 2 proto_tertiary). Qed.
#[export] Instance ty_clock : FieldTy clock (fun _ => True).
Proof. by_table (ok_int clock). Qed.
#[export] Instance ty_tbuf : FieldTy tbuf (is_array 1070).
Proof. by_table (ok_array 0 1070 tbuf). Qed.
#[export] Instance ty_rbuf : FieldTy rbuf (is_array 1070).
Proof. by_table (ok_array 1 1070 rbuf). Qed.
#[export] Instance ty_rbp : FieldTy rbp (is_u 32).
Proof. by_table (ok_u32 3 rbp). Qed.
#[export] Instance ty_afu_tlx_credit_req_valid : FieldTy afu_tlx_credit_req_valid (is_u 8).
Proof. by_table (ok_u8 0 afu_tlx_credit_req_valid). Qed.
#[export] Instance ty_tlx_afu_credit_valid : FieldTy tlx_afu_credit_valid (is_u 8).
Proof. by_table (ok_u8 1 tlx_afu_credit_valid). Qed.
#[export] Instance ty_afu_tlx_cmd_credits_available : FieldTy afu_tlx_cmd_credits_available (is_u 8).
Proof. by_table (ok_u8 2 afu_tlx_cmd_credits_available). Qed.
#[export] Instance ty_afu_tlx_resp_credits_available : FieldTy afu_tlx_resp_credits_available (is_u 8).
Proof. by_table (ok_u8 3 afu_tlx_resp_credits_available). Qed.
#[export] Instance ty_tlx_afu_cmd_credits_available : FieldTy tlx_afu_cmd_credits_available (is_u 8).
Proof. by_table (ok_u8 4 tlx_afu_cmd_credits_available). Qed.
#[export] Instance ty_tlx_afu_resp_credits_available : FieldTy tlx_afu_resp_credits_available (is_u 8).
Proof. by_table (ok_u8 5 tlx_afu_resp_credits_available). Qed.
#[export] Instance ty_tlx_afu_resp_data_credits_available : FieldTy tlx_afu_resp_data_credits_available (is_u 8).
Proof. by_table (ok_u8 6 tlx_afu_resp_data_credits_available). Qed.
#[export] Instance ty_tlx_afu_cmd_data_credits_available : FieldTy tlx_afu_cmd_data_credits_available (is_u 8).
Proof. by_table (ok_u8 7 tlx_afu_cmd_data_credits_available). Qed.
#[export] Instance ty_cfg_tlx_credits_available : FieldTy cfg_tlx_credits_available (is_u 8).
Proof. by_table (ok_u8 8 cfg_tlx_credits_available). Qed.
#[export] Instance ty_tlx_afu_cmd_data_byte_cnt : FieldTy tlx_afu_cmd_data_byte_cnt (is_u 16).
Proof. by_table (ok_u16 0 tlx_afu_cmd_data_byte_cnt). Qed.
#[export] Instance ty_tlx_afu_resp_data_byte_cnt : FieldTy tlx_afu_resp_data_byte_cnt (is_u 16).
Proof. by_table (ok_u16 1 tlx_afu_resp_data_byte_cnt). Qed.
#[export] Instance ty_afu_cfg_resp_data_byte_cnt : FieldTy afu_cfg_resp_data_byte_cnt (is_u 16).
Proof. by_table (ok_u16 2 afu_cfg_resp_data_byte_cnt). Qed.
#[export] Instance ty_tlx_afu_cmd_valid : FieldTy tlx_afu_cmd_valid (is_u 8).
Proof. by_table (ok_u8 9 tlx_afu_cmd_valid). Qed.
#[export] Instance ty_tlx_afu_cmd_opcode : FieldTy tlx_afu_cmd_opcode (is_u 8).
Proof. by_table (ok_u8 10 tlx_afu_cmd_opcode). Qed.
#[export] Instance ty_tlx_afu_cmd_capptag : FieldTy tlx_afu_cmd_capptag (is_u 16).
Proof. by_table (ok_u16 3 tlx_afu_cmd_capptag). Qed.
#[export] Instance ty_tlx_afu_cmd_dl : FieldTy tlx_afu_cmd_dl (is_u 8).
Proof. by_table (ok_u8 11 tlx_afu_cmd_dl). Qed.
#[export] Instance ty_tlx_afu_cmd_pl : FieldTy tlx_afu_cmd_pl (is_u 8).
Proof. by_table (ok_u8 12 tlx_afu_cmd_pl). Qed.
#[export] Instance ty_tlx_afu_cmd_be : FieldTy tlx_afu_cmd_be (is_u 64).
Proof. by_table (ok_u64 0 tlx_afu_cmd_be). Qed.
#[export] Instance ty_tlx_afu_cmd_end : FieldTy tlx_afu_cmd_end (is_u 8).
Proof. by_table (ok_u8 13 tlx_afu_cmd_end). Qed.
#[export] Instance ty_tlx_afu_cmd_pa : FieldTy tlx_afu_cmd_pa (is_u 64).
Proof. by_table (ok_u64 1 tlx_afu_cmd_pa). Qed.
#[export] Instance ty_afu_tlx_cmd_credit : FieldTy afu_tlx_cmd_credit (is_u 8).
Proof. by_table (ok_u8 14 afu_tlx_cmd_credit). Qed.
#[export] Instance ty_afu_tlx_cmd_initial_credit : FieldTy afu_tlx_cmd_initial_credit (is_u 8).
Proof. by_table (ok_u8 15 afu_tlx_cmd_initial_credit). Qed.
#[export] Instance ty_cfg_tlx_credit_return : FieldTy cfg_tlx_credit_return (is_u 8).
Proof. by_table (ok_u8 16 cfg_tlx_credit_return). Qed.
#[export] Instance ty_cfg_tlx_initial_credit : FieldTy cfg_tlx_initial_credit (is_u 8).
Proof. by_table (ok_u8 17 cfg_tlx_initial_credit). Qed.
#[export] Instance ty_tlx_cfg_valid : FieldTy tlx_cfg_valid (is_u 8).
Proof. by_table (ok_u8 18 tlx_cfg_valid). Qed.
#[export] Instance ty_tlx_cfg_opcode : FieldTy tlx_cfg_opcode (is_u 8).
Proof. by_table (ok_u8 19 tlx_cfg_opcode). Qed.
#[export] Instance ty_tlx_cfg_capptag : FieldTy tlx_cfg_capptag (is_u 16).
Proof. by_table (ok_u16 4 tlx_cfg_capptag). Qed.
#[export] Instance ty_tlx_cfg_pa : FieldTy tlx_cfg_pa (is_u 64).
Proof. by_table (ok_u64 2 tlx_cfg_pa). Qed.
#[export] Instance ty_tlx_cfg_t : FieldTy tlx_cfg_t (is_u 8).
Proof. by_table (ok_u8 20 tlx_cfg_t). Qed.
#[export] Instance ty_tlx_cfg_pl : FieldTy tlx_cfg_pl (is_u 8).
Proof. by_table (ok_u8 21 tlx_cfg_pl). Qed.
#[export] Instance ty_tlx_cfg_data_bdi : FieldTy tlx_cfg_data_bdi (is_u 8).
Proof. by_table (ok_u8 22 tlx_cfg_data_bdi). Qed.
#[export] Instance ty_tlx_cfg_data_bus : FieldTy tlx_cfg_data_bus (is_array 4).
Proof. by_table (ok_array 2 4 tlx_cfg_data_bus). Qed.
#[export] Instance ty_tlx_afu_resp_valid : FieldTy tlx_afu_resp_valid (is_u 8).
Proof. by_table (ok_u8 23 tlx_afu_resp_valid). Qed.
#[export] Instance ty_tlx_afu_resp_opcode : FieldTy tlx_afu_resp_opcode (is_u 8).
Proof. by_table (ok_u8 24 tlx_afu_resp_opcode). Qed.
#[export] Instance ty_tlx_afu_resp_afutag : FieldTy tlx_afu_resp_afutag (is_u 16).
Proof. by_table (ok_u16 5 tlx_afu_resp_afutag). Qed.
#[export] Instance ty_tlx_afu_resp_code : FieldTy tlx_afu_resp_code (is_u 8).
Proof. by_table (ok_u8 25 tlx_afu_resp_code). Qed.
#[export] Instance ty_tlx_afu_resp_pg_size : FieldTy tlx_afu_resp_pg_size (is_u 8).
Proof. by_table (ok_u8 26 tlx_afu_resp_pg_size). Qed.
#[export] Instance ty_tlx_afu_resp_dl : FieldTy tlx_afu_resp_dl (is_u 8).
Proof. by_table (ok_u8 27 tlx_afu_resp_dl). Qed.
#[export] Instance ty_tlx_afu_resp_dp : FieldTy tlx_afu_resp_dp (is_u 8).
Proof. by_table (ok_u8 28 tlx_afu_resp_dp). Qed.
#[export] Instance ty_tlx_afu_resp_addr_tag : FieldTy tlx_afu_resp_addr_tag (is_u 32).
Proof. by_table (ok_u32 4 tlx_afu_resp_addr_tag). Qed.
#[export] Instance ty_afu_tlx_resp_credit : FieldTy afu_tlx_resp_credit (is_u 8).
Proof. by_table (ok_u8 29 afu_tlx_resp_credit). Qed.
#[export] Instance ty_afu_tlx_resp_initial_credit : FieldTy afu_tlx_resp_initial_credit (is_u 8).
Proof. by_table (ok_u8 30 afu_tlx_resp_initial_credit). Qed.
#[export] Instance ty_tlx_afu_resp_data_valid : FieldTy tlx_afu_resp_data_valid (is_u 8).
Proof. by_table (ok_u8 31 tlx_afu_resp_data_valid). Qed.
#[export] Instance ty_tlx_afu_resp_data : FieldTy tlx_afu_resp_data (is_array 256).
Proof. by_table (ok_array 3 256 tlx_afu_resp_data). Qed.
#[export] Instance ty_tlx_afu_resp_data_bdi : FieldTy tlx_afu_resp_data_bdi (is_u 8).
Proof. by_table (ok_u8 32 tlx_afu_resp_data_bdi). Qed.
#[export] Instance ty_afu_tlx_resp_rd_req : FieldTy afu_tlx_resp_rd_req (is_u 8).
Proof. by_table (ok_u8 33 afu_tlx_resp_rd_req). Qed.
#[export] Instance ty_afu_tlx_resp_rd_cnt : FieldTy afu_tlx_resp_rd_cnt (is_u 8).
Proof. by_table (ok_u8 34 afu_tlx_resp_rd_cnt). Qed.
#[export] Instance ty_tlx_afu_cmd_data_valid : FieldTy tlx_afu_cmd_data_valid (is_u 8).
Proof. by_table (ok_u8 35 tlx_afu_cmd_data_valid). Qed.
#[export] Instance ty_tlx_afu_cmd_data_bus : FieldTy tlx_afu_cmd_data_bus (is_array 256).
Proof. by_table (ok_array 4 256 tlx_afu_cmd_data_bus). Qed.
#[export] Instance ty_tlx_afu_cmd_data_bdi : FieldTy tlx_afu_cmd_data_bdi (is_u 8).
Proof. by_table (ok_u8 36 tlx_afu_cmd_data_bdi). Qed.
#[export] Instance ty_afu_tlx_cmd_rd_req : FieldTy afu_tlx_cmd_rd_req (is_u 8).
Proof. by_table (ok_u8 37 afu_tlx_cmd_rd_req). Qed.
#[export] Instance ty_afu_tlx_cmd_rd_cnt : FieldTy afu_tlx_cmd_rd_cnt (is_u 8).
Proof. by_table (ok_u8 38 afu_tlx_cmd_rd_cnt). Qed.
#[export] Instance ty_tlx_afu_cmd_initial_credit : FieldTy tlx_afu_cmd_initial_credit (is_u 8).
Proof. by_table (ok_u8 39 tlx_afu_cmd_initial_credit). Qed.
#[export] Instance ty_tlx_afu_resp_initial_credit : FieldTy tlx_afu_resp_initial_credit (is_u 8).
Proof. by_table (ok_u8 40 tlx_afu_resp_initial_credit). Qed.
#[export] Instance ty_tlx_afu_cmd_data_initial_credit : FieldTy tlx_afu_cmd_data_initial_credit (is_u 8).
Proof. by_table (ok_u8 41 tlx_afu_cmd_data_initial_credit). Qed.
#[export] Instance ty_tlx_afu_resp_data_initial_credit : FieldTy tlx_afu_resp_data_initial_credit (is_u 8).
Proof. by_table (ok_u8 42 tlx_afu_resp_data_initial_credit). Qed.
#[export] Instance ty_tlx_afu_cmd_credit : FieldTy tlx_afu_cmd_credit (is_u 8).
Proof. by_table (ok_u8 43 tlx_afu_cmd_credit). Qed.
#[export] Instance ty_tlx_afu_cmd_data_credit : FieldTy tlx_afu_cmd_data_credit (is_u 8).
Proof. by_table (ok_u8 44 tlx_afu_cmd_data_credit). Qed.
#[export] Instance ty_afu_tlx_cmd_valid : FieldTy afu_tlx_cmd_valid (is_u 8).
Proof. by_table (ok_u8 45 afu_tlx_cmd_valid). Qed.
#[export] Instance ty_afu_tlx_cmd_opcode : FieldTy afu_tlx_cmd_opcode (is_u 8).
Proof. by_table (ok_u8 46 afu_tlx_cmd_opcode). Qed.
#[export] Instance ty_afu_tlx_cmd_actag : FieldTy afu_tlx_cmd_actag (is_u 16).
Proof. by_table (ok_u16 6 afu_tlx_cmd_actag). Qed.
#[export] Instance ty_afu_tlx_cmd_stream_id : FieldTy afu_tlx_cmd_stream_id (is_u 8).
Proof. by_table (ok_u8 47 afu_tlx_cmd_stream_id). Qed.
#[export] Instance ty_afu_tlx_cmd_ea_or_obj : FieldTy afu_tlx_cmd_ea_or_obj (is_array 9).
Proof. by_table (ok_array 5 9 afu_tlx_cmd_ea_or_obj). Qed.
#[export] Instance ty_afu_tlx_cmd_afutag : FieldTy afu_tlx_cmd_afutag (is_u 16).
Proof. by_table (ok_u16 7 afu_tlx_cmd_afutag). Qed.
#[export] Instance ty_afu_tlx_cmd_dl : FieldTy afu_tlx_cmd_dl (is_u 8).
Proof. by_table (ok_u8 48 afu_tlx_cmd_dl). Qed.
#[export] Instance ty_afu_tlx_cmd_pl : FieldTy afu_tlx_cmd_pl (is_u 8).
Proof. by_table (ok_u8 49 afu_tlx_cmd_pl). Qed.
#[export] Instance ty_afu_tlx_cmd_be : FieldTy afu_tlx_cmd_be (is_u 64).
Proof. by_table (ok_u64 3 afu_tlx_cmd_be). Qed.
#[export] Instance ty_afu_tlx_cmd_flag : FieldTy afu_tlx_cmd_flag (is_u 8).
Proof. by_table (ok_u8 50 afu_tlx_cmd_flag). Qed.
#[export] Instance ty_afu_tlx_cmd_endian : FieldTy afu_tlx_cmd_endian (is_u 8).
Proof. by_table (ok_u8 51 afu_tlx_cmd_endian). Qed.
#[export] Instance ty_afu_tlx_cmd_bdf : FieldTy afu_tlx_cmd_bdf (is_u 16).
Proof. by_table (ok_u16 8 afu_tlx_cmd_bdf). Qed.
#[export] Instance ty_afu_tlx_cmd_pasid : FieldTy afu_tlx_cmd_pasid (is_u 32).
Proof. by_table (ok_u32 5 afu_tlx_cmd_pasid). Qed.
#[export] Instance ty_afu_tlx_cmd_pg_size : FieldTy afu_tlx_cmd_pg_size (is_u 8).
Proof. by_table (ok_u8 52 afu_tlx_cmd_pg_size). Qed.
#[export] Instance ty_afu_tlx_cdata_valid : FieldTy afu_tlx_cdata_valid (is_u 8).
Proof. by_table (ok_u8 53 afu_tlx_cdata_valid). Qed.
#[export] Instance ty_afu_tlx_cdata_bus : FieldTy afu_tlx_cdata_bus (is_array 64).
Proof. by_table (ok_array 6 64 afu_tlx_cdata_bus). Qed.
#[export] Instance ty_afu_tlx_cdata_bdi : FieldTy afu_tlx_cdata_bdi (is_u 8).
Proof. by_table (ok_u8 54 afu_tlx_cdata_bdi). Qed.
#[export] Instance ty_tlx_afu_resp_credit : FieldTy tlx_afu_resp_credit (is_u 8).
Proof. by_table (ok_u8 55 tlx_afu_resp_credit). Qed.
#[export] Instance ty_tlx_afu_resp_data_credit : FieldTy tlx_afu_resp_data_credit (is_u 8).
Proof. by_table (ok_u8 56 tlx_afu_resp_data_credit). Qed.
#[export] Instance ty_afu_tlx_resp_valid : FieldTy afu_tlx_resp_valid (is_u 8).
Proof. by_table (ok_u8 57 afu_tlx_resp_valid). Qed.
#[export] Instance ty_afu_tlx_resp_opcode : FieldTy afu_tlx_resp_opcode (is_u 8).
Proof. by_table (ok_u8 58 afu_tlx_resp_opcode). Qed.
#[export] Instance ty_afu_tlx_resp_dl : FieldTy afu_tlx_resp_dl (is_u 8).
Proof. by_table (ok_u8 59 afu_tlx_resp_dl). Qed.
#[export] Instance ty_afu_tlx_resp_capptag : FieldTy afu_tlx_resp_capptag (is_u 16).
Proof. by_table (ok_u16 9 afu_tlx_resp_capptag). Qed.
#[export] Instance ty_afu_tlx_resp_dp : FieldTy afu_tlx_resp_dp (is_u 8).
Proof. by_table (ok_u8 60 afu_tlx_resp_dp). Qed.
#[export] Instance ty_afu_tlx_resp_code : FieldTy afu_tlx_resp_code (is_u 8).
Proof. by_table (ok_u8 61 afu_tlx_resp_code). Qed.
#[export] Instance ty_afu_tlx_rdata_valid : FieldTy afu_tlx_rdata_valid (is_u 8).
Proof. by_table (ok_u8 62 afu_tlx_rdata_valid). Qed.
#[export] Instance ty_afu_tlx_rdata_bus : FieldTy afu_tlx_rdata_bus (is_array 64).
Proof. by_table (ok_array 7 64 afu_tlx_rdata_bus). Qed.
#[export] Instance ty_afu_tlx_rdata_bdi : FieldTy afu_tlx_rdata_bdi (is_u 8).
Proof. by_table (ok_u8 63 afu_tlx_rdata_bdi). Qed.
#[export] Instance ty_cfg_tlx_resp_valid : FieldTy cfg_tlx_resp_valid (is_u 8).
Proof. by_table (ok_u8 64 cfg_tlx_resp_valid). Qed.
#[export] Instance ty_cfg_tlx_resp_opcode : FieldTy cfg_tlx_resp_opcode (is_u 8).
Proof. by_table (ok_u8 65 cfg_tlx_resp_opcode). Qed.
#[export] Instance ty_cfg_tlx_resp_capptag : FieldTy cfg_tlx_resp_capptag (is_u 16).
Proof. by_table (ok_u16 10 cfg_tlx_resp_capptag). Qed.
#[export] Instance ty_cfg_tlx_resp_code : FieldTy cfg_tlx_resp_code (is_u 8).
Proof. by_table (ok_u8 66 cfg_tlx_resp_code). Qed.
#[export] Instance ty_tlx_cfg_resp_ack : FieldTy tlx_cfg_resp_ack (is_u 8).
Proof. by_table (ok_u8 67 tlx_cfg_resp_ack). Qed.
#[export] Instance ty_cfg_tlx_rdata_offset : FieldTy cfg_tlx_rdata_offset (is_u 8).
Proof. by_table (ok_u8 68 cfg_tlx_rdata_offset). Qed.
#[export] Instance ty_cfg_tlx_rdata_bus : FieldTy cfg_tlx_rdata_bus (is_array 4).
Proof. by_table (ok_array 8 4 cfg_tlx_rdata_bus). Qed.
#[export] Instance ty_cfg_tlx_rdata_valid : FieldTy cfg_tlx_rdata_valid (is_u 8).
Proof. by_table (ok_u8 69 cfg_tlx_rdata_valid). Qed.
#[export] Instance ty_cfg_tlx_rdata_bdi : FieldTy cfg_tlx_rdata_bdi (is_u 8).
Proof. by_table (ok_u8 70 cfg_tlx_rdata_bdi). Qed.

Lemma array_zeros n : is_array n (zeros n).
Proof. split; [apply length_zeros|apply zeros_bytes]. Qed.
Lemma array_bytes n l : is_array n l -> bytes l.
Proof. by intros []. Qed.
Lemma array_length n l : is_array n l -> length l = n.
Proof. by intros []. Qed.
Lemma overwrite_array n bus l :
  is_array n bus -> (length l <= n)%nat -> bytes l -> is_array n (overwrite bus 0 l).
Proof.
  intros [Hl Hb] Hn H. split; [rewrite length_overwrite; lia|by apply Forall_overwrite].
Qed.
#[export] Hint Resolve array_zeros array_bytes array_length : ocse.

(** Closes [event_wf e'] for a chain of assignments [e'] starting at an event
    known to satisfy the invariant. *)
Ltac wf_value :=
  lazymatch goal with
  | |- is_u _ (u8 _) => apply is_u_mod; lia
  | |- is_u _ (u16 _) => apply is_u_mod; lia
  | |- is_u _ (u32 _) => apply is_u_mod; lia
  | |- is_u _ (u64 _) => apply is_u_mod; lia
  | |- _ => first [assumption | exact I | eapply field_get; assumption
                  | solve [auto with ocse] | by vm_compute ]
  end.
Ltac solve_wf :=
  repeat (lazymatch goal with |- event_wf (set_fld _ _ _) => apply field_set; [|wf_value] end);
  try assumption.

Lemma event_zero_wf : event_wf event_zero.
Proof.
  unfold event_wf, values, arrays. cbn -[zeros].
  split_and!;
    repeat (apply List.Forall_cons; [first [by vm_compute | apply array_zeros]|]);
    apply Forall_nil_2.
Qed.

Lemma tlx_event_reset_wf e : event_wf (tlx_event_reset e).
Proof. unfold tlx_event_reset. pose proof event_zero_wf. solve_wf. Qed.

(** * Parameter lists of the interface functions

    The functions that send or read a command or a response take its fields
    as separate arguments or out-pointers; a record groups them. *)

(** Host command (CAPP to AP). *)
Record tlx_cmd := TlxCmd {
  tc_opcode : Z; tc_capptag : Z; tc_dl : Z; tc_pl : Z; tc_be : Z; tc_end : Z; tc_pa : Z }.

(** Host response. *)
Record tlx_resp := TlxResp {
  tr_opcode : Z; tr_afutag : Z; tr_code : Z; tr_pg_size : Z; tr_dl : Z; tr_dp : Z;
  tr_addr_tag : Z }.

(** Host configuration command; the data bus goes with it. *)
Record cfg_cmd := CfgCmd {
  cc_opcode : Z; cc_capptag : Z; cc_pl : Z; cc_t : Z; cc_pa : Z }.

(** AFU command (AP to CAPP). *)
Record afu_cmd := AfuCmd {
  ac_opcode : Z; ac_actag : Z; ac_stream_id : Z; ac_ea_or_obj : list Z; ac_afutag : Z;
  ac_dl : Z; ac_pl : Z; ac_be : Z; ac_flag : Z; ac_endian : Z; ac_bdf : Z;
  ac_pasid : Z; ac_pg_size : Z }.

(** AFU response. *)
Record afu_resp := AfuResp {
  ar_opcode : Z; ar_dl : Z; ar_capptag : Z; ar_dp : Z; ar_code : Z }.

(** AFU configuration response. *)
Record cfg_resp := CfgResp { cr_opcode : Z; cr_capptag : Z; cr_code : Z }.

(** The fields have their C types. *)
Definition tlx_resp_ok (r : tlx_resp) : Prop :=
  is_u 8 (tr_opcode r) /\ is_u 16 (tr_afutag r) /\ is_u 8 (tr_code r) /\
  is_u 8 (tr_pg_size r) /\ is_u 8 (tr_dl r) /\ is_u 8 (tr_dp r) /\ is_u 32 (tr_addr_tag r).
Definition tlx_cmd_ok (c : tlx_cmd) : Prop :=
  is_u 8 (tc_opcode c) /\ is_u 16 (tc_capptag c) /\ is_u 8 (tc_dl c) /\
  is_u 8 (tc_pl c) /\ is_u 64 (tc_be c) /\ is_u 8 (tc_end c) /\ is_u 64 (tc_pa c).
Definition cfg_cmd_ok (c : cfg_cmd) : Prop :=
  is_u 8 (cc_opcode c) /\ is_u 16 (cc_capptag c) /\ is_u 8 (cc_pl c) /\
  is_u 8 (cc_t c) /\ is_u 64 (cc_pa c).
Definition afu_cmd_ok (c : afu_cmd) : Prop :=
  is_u 8 (ac_opcode c) /\ is_u 16 (ac_actag c) /\ is_u 8 (ac_stream_id c) /\
  is_array 9 (ac_ea_or_obj c) /\ is_u 16 (ac_afutag c) /\
  is_u 8 (ac_dl c) /\ is_u 8 (ac_pl c) /\ is_u 64 (ac_be c) /\ is_u 8 (ac_flag c) /\
  is_u 8 (ac_endian c) /\ is_u 16 (ac_bdf c) /\ is_u 32 (ac_pasid c) /\
  is_u 8 (ac_pg_size c).
Definition afu_resp_ok (r : afu_resp) : Prop :=
  is_u 8 (ar_opcode r) /\ is_u 8 (ar_dl r) /\ is_u 16 (ar_capptag r) /\
  is_u 8 (ar_dp r) /\ is_u 8 (ar_code r).
Definition cfg_resp_ok (r : cfg_resp) : Prop :=
  is_u 8 (cr_opcode r) /\ is_u 16 (cr_capptag r) /\ is_u 8 (cr_code r).

(** A data bus and its bad-data indicator. *)
Definition data_beat : Type := list Z * Z.

(** [memcpy(dst, src, n)] with the bounds that make it defined. *)
Definition memcpy (dst src : list Z) (n : Z) : option (list Z) :=
  defined (0 <=? n) && (n <=? Z.of_nat (length dst)) && (n <=? Z.of_nat (length src));
  Some (overwrite dst 0 (take (Z.to_nat n) src)).

Lemma memcpy_Some dst src n l :
  memcpy dst src n = Some l ->
  0 <= n <= Z.of_nat (length dst) /\ n <= Z.of_nat (length src) /\
  l = overwrite dst 0 (take (Z.to_nat n) src).
Proof.
  unfold memcpy, guard_ub. case_match eqn:E; [|done].
  apply andb_true_iff in E as [[E1 E2]%andb_true_iff E3]. intros [= <-].
  split_and!; [lia.. |done].
Qed.

Lemma memcpy_wf dst src n l k :
  memcpy dst src n = Some l -> bytes src -> is_array k dst -> is_array k l.
Proof.
  intros (H1 & H2 & ->)%memcpy_Some Hs [Hl Hd]. split.
  - rewrite length_overwrite; [done|]. rewrite length_take. lia.
  - auto with ocse.
Qed.

Lemma memcpy_full dst src n :
  Z.to_nat n = length dst -> length src = length dst -> 0 <= n ->
  memcpy dst src n = Some src.
Proof.
  intros. unfold memcpy, guard_ub.
  replace (_ && _ && _) with true by (symmetry; rewrite !andb_true_iff; lia).
  unfold overwrite. rewrite (take_ge src), drop_ge by lia. simpl.
  by rewrite app_nil_r.
Qed.

Lemma memcpy_defined dst src n :
  0 <= n <= Z.of_nat (length dst) -> n <= Z.of_nat (length src) ->
  is_Some (memcpy dst src n).
Proof.
  intros. unfold memcpy, guard_ub.
  replace (_ && _ && _) with true by (symmetry; rewrite !andb_true_iff; lia). eauto.
Qed.
