(* ===== verification/Sock.v ===== *)
(** The TCP connection of the TLX interface, as its two ends see it: [recv] and
    [send] on a non-blocking stream socket, and the transfers of an [AFU_EVENT]
    buffer the code builds from them.

    What arrives is a list of chunks with gaps in between: a [recv] returns at
    most one chunk (the environment decides how the stream is cut) and meets a
    gap as [EWOULDBLOCK].  A [send] takes part of what it is given or fails, as
    its plan says.  A [select] has no effect on the data. *)
From S2P Require Import Prelude Utils Event.

Inductive rx_item := Chunk (l : list Z) | Gap.
Inductive rx_end := EndIdle | EndClosed | EndBroken.

Record conn := Conn {
  c_rx : list rx_item;
  c_end : rx_end;             (* what [recv] meets when [c_rx] is used up *)
  c_tx : list Z;              (* the bytes sent so far *)
  c_plan : list write_step;   (* the outcome of each further [send] *)
}.

Inductive rcv := RData (l : list Z) | RWouldBlock | RError.

(** The rest of a chunk goes back to the front of the queue. *)
Definition put_back (l : list Z) (rx : list rx_item) : list rx_item :=
  match l with [] => rx | _ => Chunk l :: rx end.

(** A receive of no bytes returns none; the two ends never ask for that on a
    frame the other one built. *)
Fixpoint recv_items (n : Z) (rx : list rx_item) (e : rx_end) : rcv * list rx_item :=
  match rx with
  | [] => (match e with EndIdle => RWouldBlock | EndClosed => RData [] | EndBroken => RError end, [])
  | Gap :: rx => (RWouldBlock, rx)
  | Chunk [] :: rx => recv_items n rx e
  | Chunk l :: rx =>
      let k := Z.to_nat (Z.min n (Z.of_nat (length l))) in
      (RData (take k l), put_back (drop k l) rx)
  end.

Definition recv (n : Z) (c : conn) : rcv * conn :=
  if n =? 0 then (RData [], c)
  else
    let '(r, rx) := recv_items n (c_rx c) (c_end c) in
    (r, Conn rx (c_end c) (c_tx c) (c_plan c)).

(** The loop [while (bp < bl) { bc = send(fd, buf + bp, bl - bp, 0); ... }]:
    [true] when everything was taken. *)
Fixpoint send_loop (plan : list write_step) (rest : list Z) (tx : list Z)
    : bool * list Z * list write_step :=
  match rest, plan with
  | [], _ => (true, tx, plan)
  | _, [] => (true, tx ++ rest, [])
  | _, WriteFail :: plan => (false, tx, plan)
  | _, Accept k :: plan => send_loop plan (drop (S k) rest) (tx ++ take (S k) rest)
  end.

Definition send_all (l : list Z) (c : conn) : bool * conn :=
  let '(ok, tx, plan) := send_loop (c_plan c) l (c_tx c) in
  (ok, Conn (c_rx c) (c_end c) tx plan).

(** [recv(fd, rbuf + off, n)]: the bytes land in [rbuf]; past its end the
    write is undefined. *)
Definition recv_rbuf (off n : Z) (event : AFU_EVENT) (c : conn)
    : option (rcv * AFU_EVENT * conn) :=
  let '(r, c) := recv n c in
  match r with
  | RData l =>
      defined (off + Z.of_nat (length l) <=? Z.of_nat (length (rbuf event)));
      Some (r, event <| rbuf := overwrite (rbuf event) (Z.to_nat off) l |>, c)
  | _ => Some (r, event, c)
  end.

(** * Lemmas *)

(** Nothing fails to be sent. *)
Definition no_fail (plan : list write_step) : Prop := WriteFail ∉ plan.

Lemma send_loop_ok plan rest tx :
  no_fail plan -> exists plan', send_loop plan rest tx = (true, tx ++ rest, plan') /\ no_fail plan'.
Proof.
  unfold no_fail. revert rest tx. induction plan as [|[k|] plan IH]; intros rest tx Hp.
  - destruct rest; eexists; (split; [|exact Hp]); cbn [send_loop]; by rewrite ?app_nil_r.
  - apply not_elem_of_cons in Hp as [_ Hp]. destruct rest as [|x rest].
    + eexists; split; [cbn [send_loop]; by rewrite app_nil_r|]. by apply not_elem_of_cons.
    + destruct (IH (drop (S k) (x :: rest)) (tx ++ take (S k) (x :: rest)) Hp) as (plan' & He & Hp').
      exists plan'. split; [|done]. cbn [send_loop]. rewrite He, <- app_assoc.
      by rewrite take_drop.
  - apply not_elem_of_cons in Hp as [? _]. done.
Qed.

(** A send that fails leaves a proper prefix on the wire. *)
Lemma send_loop_prefix plan rest tx ok tx' plan' :
  send_loop plan rest tx = (ok, tx', plan') ->
  exists sent, tx' = tx ++ sent /\ sent `prefix_of` rest /\ (ok = true -> sent = rest).
Proof.
  revert rest tx. induction plan as [|[k|] plan IH]; intros rest tx H.
  - destruct rest as [|x rest]; cbn [send_loop] in H; injection H as <- <- <-.
    + exists []. split_and!; [by rewrite app_nil_r|done|done].
    + exists (x :: rest). done.
  - destruct rest as [|x rest]; cbn [send_loop] in H.
    + injection H as <- <- <-. exists []. split_and!; [by rewrite app_nil_r|done|done].
    + apply IH in H as (s & -> & Hp & Hok). exists (take (S k) (x :: rest) ++ s).
      split_and!; [by rewrite app_assoc| |].
      * rewrite <- (take_drop (S k) (x :: rest)) at 2. by apply prefix_app.
      * intros ->%Hok. by rewrite take_drop.
  - destruct rest as [|x rest]; cbn [send_loop] in H; injection H as <- <- <-;
      exists []; (split_and!; [by rewrite app_nil_r|apply prefix_nil|done]).
Qed.

Lemma send_all_ok l c :
  no_fail (c_plan c) ->
  exists plan', send_all l c = (true, Conn (c_rx c) (c_end c) (c_tx c ++ l) plan') /\ no_fail plan'.
Proof.
  intros H. unfold send_all. destruct (send_loop_ok _ l (c_tx c) H) as (plan' & -> & ?).
  by exists plan'.
Qed.

(** A receive inside one chunk. *)
Lemma recv_chunk n l rest rx e tx plan :
  0 < n -> Z.of_nat (length l) = n ->
  recv n (Conn (Chunk (l ++ rest) :: rx) e tx plan)
  = (RData l, Conn (put_back rest rx) e tx plan).
Proof.
  intros Hn Hl. unfold recv. destruct (Z.eqb_spec n 0); [lia|].
  destruct l as [|x l]; [simpl in Hl; lia|]. cbn [c_rx c_end c_tx c_plan app recv_items].
  rewrite (app_comm_cons l rest x).
  replace (Z.to_nat _) with (length (x :: l)) by (rewrite length_app; lia).
  by rewrite take_app_length, drop_app_length.
Qed.
