(* ===== verification/TlxWire.v ===== *)
(** common/tlx_interface.c, the wire: [tlx_signal_afu_model] and
    [tlx_signal_tlx_model] put what is pending in an event into one frame and
    send it; [tlx_get_tlx_events] and [tlx_get_afu_events] receive a frame and
    spread it over the event.

    A frame is five header bytes - a byte of group flags, the byte counts of
    the command data and of the response data - and the groups.  A frame that
    carries only the clock is its first byte. *)
From S2P Require Import Prelude Utils Event Sock.

Implicit Types event : AFU_EVENT.

(** * Building a frame *)

(** [tbuf[0..4]] and the bytes written from [tbuf[5]] on. *)
Record frame := Frame { f_flags : Z; f_cmd_cnt : list Z; f_resp_cnt : list Z; f_body : list Z }.

Definition frame_bytes (f : frame) : list Z :=
  f_flags f :: f_cmd_cnt f ++ f_resp_cnt f ++ f_body f.

Definition push (flag : Z) (l : list Z) (f : frame) : frame :=
  Frame (Z.lor (f_flags f) flag) (f_cmd_cnt f) (f_resp_cnt f) (f_body f ++ l).
Definition set_cmd_cnt (cnt : list Z) (f : frame) : frame :=
  Frame (f_flags f) cnt (f_resp_cnt f) (f_body f).
Definition set_resp_cnt (cnt : list Z) (f : frame) : frame :=
  Frame (f_flags f) (f_cmd_cnt f) cnt (f_body f).

(** The two byte counts of a data group: four bits and eight bits. *)
Definition cnt_bytes (cnt : Z) : list Z :=
  [Z.land (Z.shiftr cnt 8) 0x0F; Z.land cnt 0xFF].

Definition builder : Type := frame * AFU_EVENT.

(** Send the frame; only the first byte when no group was added. *)
Definition send_frame (f : frame) event (c : conn) : option (bool * AFU_EVENT * conn) :=
  let tb := frame_bytes f in
  defined (length tb <=? length (tbuf event))%nat;
  let event := event <| tbuf := overwrite (tbuf event) 0 tb |> in
  let bl := if (length tb =? 5)%nat then 1%nat else length tb in
  let '(ok, c) := send_all (take bl tb) c in
  Some (ok, event, c).

(** * [tlx_signal_afu_model] *)

Definition signal_cfg '((f, event) : builder) : builder :=
  if truthy (tlx_cfg_valid event) then
    (push 0x20
       ([tlx_cfg_opcode event] ++ be_bytes 2 (tlx_cfg_capptag event) ++
        be_bytes 8 (tlx_cfg_pa event) ++
        [Z.land (tlx_cfg_t event) 0x01; Z.land (tlx_cfg_pl event) 0x07;
         Z.land (tlx_cfg_data_bdi event) 0x01] ++ tlx_cfg_data_bus event) f,
     event <| tlx_cfg_valid := 0 |>)
  else (f, event).

Definition signal_tlx_cmd '((f, event) : builder) : builder :=
  if truthy (tlx_afu_cmd_valid event) then
    (push 0x10
       ([tlx_afu_cmd_opcode event] ++ be_bytes 2 (tlx_afu_cmd_capptag event) ++
        [Z.land (tlx_afu_cmd_dl event) 0x03; Z.land (tlx_afu_cmd_pl event) 0x07] ++
        be_bytes 8 (tlx_afu_cmd_be event) ++ [Z.land (tlx_afu_cmd_end event) 0x01] ++
        be_bytes 8 (tlx_afu_cmd_pa event)) f,
     event <| tlx_afu_cmd_valid := 0 |>)
  else (f, event).

(** The byte count is read off the event: more than the bus holds is
    undefined. *)
Definition signal_tlx_cmd_data '((f, event) : builder) : option builder :=
  if truthy (tlx_afu_cmd_data_valid event) then
    let cnt := tlx_afu_cmd_data_byte_cnt event in
    defined cnt <=? Z.of_nat (length (tlx_afu_cmd_data_bus event));
    Some (push 0x08
            (Z.land (tlx_afu_cmd_data_bdi event) 0x01 ::
             take (Z.to_nat cnt) (tlx_afu_cmd_data_bus event))
            (set_cmd_cnt (cnt_bytes cnt) f),
          event <| tlx_afu_cmd_data_valid := 0 |>)
  else Some (f, event).

Definition signal_tlx_resp '((f, event) : builder) : builder :=
  if truthy (tlx_afu_resp_valid event) then
    (push 0x04
       ([tlx_afu_resp_opcode event] ++ be_bytes 2 (tlx_afu_resp_afutag event) ++
        [tlx_afu_resp_code event; tlx_afu_resp_pg_size event;
         tlx_afu_resp_dl event; tlx_afu_resp_dp event]) f,
     event <| tlx_afu_resp_valid := 0 |>)
  else (f, event).

Definition signal_tlx_resp_data '((f, event) : builder) : option builder :=
  if truthy (tlx_afu_resp_data_valid event) then
    let cnt := tlx_afu_resp_data_byte_cnt event in
    defined cnt <=? Z.of_nat (length (tlx_afu_resp_data event));
    Some (push 0x02
            (Z.land (tlx_afu_resp_data_bdi event) 0x01 ::
             take (Z.to_nat cnt) (tlx_afu_resp_data event))
            (set_resp_cnt (cnt_bytes cnt) f),
          event <| tlx_afu_resp_data_valid := 0 |>)
  else Some (f, event).

Definition signal_tlx_credits '((f, event) : builder) : builder :=
  if truthy (tlx_afu_credit_valid event) then
    (push 0x01
       [tlx_afu_cmd_initial_credit event; tlx_afu_cmd_data_initial_credit event;
        tlx_afu_resp_initial_credit event; tlx_afu_resp_data_initial_credit event;
        tlx_afu_resp_credit event; tlx_afu_cmd_credit event;
        tlx_afu_resp_data_credit event; tlx_afu_cmd_data_credit event;
        tlx_cfg_resp_ack event] f,
     event <| tlx_afu_credit_valid := 0 |>
           <| tlx_afu_cmd_credit := 0 |>
           <| tlx_cfg_resp_ack := 0 |>
           <| tlx_afu_cmd_data_credit := 0 |>
           <| tlx_afu_resp_credit := 0 |>
           <| tlx_afu_resp_data_credit := 0 |>)
  else (f, event).

Definition tlx_signal_afu_model event (c : conn) : option (Z * AFU_EVENT * conn) :=
  if negb (clock event =? 0) then Some (TLX_TRANSMISSION_ERROR, event, c)
  else
    let b := (Frame 0x40 [0; 0] [0; 0] [], event <| clock := 1 |>) in
    b ← signal_tlx_cmd_data (signal_tlx_cmd (signal_cfg b));
    b ← signal_tlx_resp_data (signal_tlx_resp b);
    let '(f, event) := signal_tlx_credits b in
    '(ok, event, c) ← send_frame f event c;
    Some (if ok : bool then TLX_SUCCESS else TLX_TRANSMISSION_ERROR, event, c).

(** * [tlx_signal_tlx_model] *)

Definition signal_afu_cmd '((f, event) : builder) : builder :=
  if truthy (afu_tlx_cmd_valid event) then
    (push 0x02
       ([afu_tlx_cmd_opcode event] ++ be_bytes 2 (afu_tlx_cmd_actag event) ++
        [Z.land (afu_tlx_cmd_stream_id event) 0x0f] ++ afu_tlx_cmd_ea_or_obj event ++
        be_bytes 2 (afu_tlx_cmd_afutag event) ++
        [Z.land (afu_tlx_cmd_dl event) 0x03; Z.land (afu_tlx_cmd_pl event) 0x07] ++
        be_bytes 8 (afu_tlx_cmd_be event) ++
        [Z.land (afu_tlx_cmd_flag event) 0x0f; Z.land (afu_tlx_cmd_endian event) 0x01] ++
        be_bytes 2 (afu_tlx_cmd_bdf event) ++ be_bytes 4 (afu_tlx_cmd_pasid event) ++
        [Z.land (afu_tlx_cmd_pg_size event) 0xFF]) f,
     event <| afu_tlx_cmd_valid := 0 |>)
  else (f, event).

Definition signal_afu_cdata '((f, event) : builder) : builder :=
  if truthy (afu_tlx_cdata_valid event) then
    (push 0x04
       (Z.land (afu_tlx_cdata_bdi event) 0x01 :: afu_tlx_cdata_bus event)
       (set_cmd_cnt [0; 64] f),
     event <| afu_tlx_cdata_valid := 0 |>)
  else (f, event).

Definition signal_afu_resp '((f, event) : builder) : builder :=
  if truthy (afu_tlx_resp_valid event) then
    (push 0x08
       ([afu_tlx_resp_opcode event; Z.land (afu_tlx_resp_dl event) 0x03] ++
        be_bytes 2 (afu_tlx_resp_capptag event) ++
        [Z.land (afu_tlx_resp_dp event) 0x03; Z.land (afu_tlx_resp_code event) 0x0f]) f,
     event <| afu_tlx_resp_valid := 0 |>)
  else (f, event).

Definition signal_afu_rdata '((f, event) : builder) : builder :=
  if truthy (afu_tlx_rdata_valid event) then
    (push 0x20
       (Z.land (afu_tlx_rdata_bdi event) 0x01 :: afu_tlx_rdata_bus event)
       (set_resp_cnt [0; 64] f),
     event <| afu_tlx_rdata_valid := 0 |>)
  else (f, event).

Definition signal_cfg_resp '((f, event) : builder) : builder :=
  if truthy (cfg_tlx_resp_valid event) then
    (push 0x40
       ([cfg_tlx_resp_opcode event] ++ be_bytes 2 (cfg_tlx_resp_capptag event) ++
        [Z.land (cfg_tlx_resp_code event) 0x0f; Z.land (cfg_tlx_rdata_bdi event) 0x01] ++
        cfg_tlx_rdata_bus event) f,
     event <| cfg_tlx_resp_valid := 0 |>)
  else (f, event).

Definition signal_afu_credits '((f, event) : builder) : builder :=
  if truthy (afu_tlx_credit_req_valid event) then
    (push 0x01
       [afu_tlx_resp_initial_credit event; afu_tlx_cmd_initial_credit event;
        cfg_tlx_initial_credit event; afu_tlx_resp_credit event;
        afu_tlx_cmd_credit event; cfg_tlx_credit_return event;
        afu_tlx_resp_rd_req event; afu_tlx_resp_rd_cnt event;
        afu_tlx_cmd_rd_req event; afu_tlx_cmd_rd_cnt event] f,
     event <| afu_tlx_credit_req_valid := 0 |>
           <| afu_tlx_cmd_credit := 0 |>
           <| cfg_tlx_credit_return := 0 |>
           <| afu_tlx_resp_credit := 0 |>)
  else (f, event).

Definition tlx_signal_tlx_model event (c : conn) : option (Z * AFU_EVENT * conn) :=
  if negb (clock event =? 1) then Some (TLX_SUCCESS, event, c)
  else
    let b := (Frame 0x10 [0; 0] [0; 0] [], event <| clock := 0 |>) in
    let '(f, event) :=
      signal_afu_credits (signal_cfg_resp (signal_afu_rdata (signal_afu_resp
        (signal_afu_cdata (signal_afu_cmd b))))) in
    '(ok, event, c) ← send_frame f event c;
    Some (if ok : bool then TLX_SUCCESS else TLX_TRANSMISSION_ERROR, event, c).

(** * Receiving a frame *)

Inductive rx_step := RxReturn (rc : Z) event (c : conn) | RxGo event (c : conn).

(** Every [recv] of the two functions: would-block returns 0, an error or a
    closed connection returns -1, data advances [rbp]. *)
Definition recv_at (n : Z) event (c : conn) : option rx_step :=
  '(r, event, c) ← recv_rbuf (rbp event) n event c;
  Some match r with
       | RWouldBlock => RxReturn 0 event c
       | RError | RData [] => RxReturn (-1) event c
       | RData l => RxGo (event <| rbp := u32 (rbp event + Z.of_nat (length l)) |>) c
       end.

Definition rbuf_at event (i : nat) : Z := nth i (rbuf event) 0.
Definition rflag event (m : Z) : bool := truthy (Z.land (rbuf_at event 0) m).

Definition cnt_of (hi lo : Z) : Z := u16 (Z.lor (Z.shiftl hi 8) lo).
Definition cmd_cnt event : Z := cnt_of (rbuf_at event 1) (rbuf_at event 2).
Definition resp_cnt event : Z := cnt_of (rbuf_at event 3) (rbuf_at event 4).

(** The bytes of a frame as its header announces them. *)
Definition afu_frame_size event : Z :=
  let on m k := if rflag event m then k else 0 in
  5 + on 0x20 (resp_cnt event + 1) + on 0x08 6 + on 0x04 (cmd_cnt event + 1) +
  on 0x02 34 + on 0x01 10 + on 0x40 9.

Definition tlx_frame_size event : Z :=
  let on m k := if rflag event m then k else 0 in
  5 + on 0x20 18 + on 0x10 22 + on 0x08 (cmd_cnt event + 1) + on 0x04 7 +
  on 0x02 (resp_cnt event + 1) + on 0x01 9.

(** Bytes 1-4, the rest of the frame, and the test that all of it is there. *)
Definition recv_rest (size : AFU_EVENT -> Z) event (c : conn) : option rx_step :=
  s ← recv_at 4 event c;
  match s with
  | RxReturn _ _ _ => Some s
  | RxGo event c =>
      let rbc := size event in
      s ← recv_at (u32 (rbc - rbp event)) event c;
      Some match s with
           | RxReturn _ _ _ => s
           | RxGo event c => if rbp event <? rbc then RxReturn 0 event c else s
           end
  end.

(** The first byte, unless a previous call left part of a frame. *)
Definition recv_first event (c : conn) : option rx_step :=
  if rbp event =? 0 then recv_at 1 event c else Some (RxGo event c).

(** * Reading the groups

    [r] is what follows [rbuf[rbc]]; reading past the end of the buffer is
    undefined. *)

Definition rd8 (r : list Z) : option (Z * list Z) :=
  match r with [] => None | x :: r => Some (x, r) end.

(** [n] bytes, most significant first. *)
Definition rd_be (n : nat) (r : list Z) : option (Z * list Z) :=
  defined (n <=? length r)%nat;
  Some (be_val (take n r), drop n r).

(** [n] bytes into the front of an array of the event. *)
Definition rd_into (bus : list Z) (n : nat) (r : list Z) : option (list Z * list Z) :=
  defined (n <=? length r)%nat && (n <=? length bus)%nat;
  Some (overwrite bus 0 (take n r), drop n r).

Definition reader : Type := list Z * AFU_EVENT.

(** ** [tlx_get_tlx_events] *)

Definition get_cfg_group '((r, event) : reader) : option reader :=
  if rflag event 0x20 then
    '(op, r) ← rd8 r; '(tag, r) ← rd_be 2 r; '(pa, r) ← rd_be 8 r;
    '(t, r) ← rd8 r; '(pl, r) ← rd8 r; '(bdi, r) ← rd8 r;
    '(bus, r) ← rd_into (tlx_cfg_data_bus event) 4 r;
    Some (r, event <| tlx_cfg_valid := 1 |>
                   <| tlx_cfg_opcode := op |>
                   <| tlx_cfg_capptag := tag |>
                   <| tlx_cfg_pa := pa |>
                   <| tlx_cfg_t := t |>
                   <| tlx_cfg_pl := pl |>
                   <| tlx_cfg_data_bdi := bdi |>
                   <| tlx_cfg_data_bus := bus |>)
  else Some (r, event <| tlx_cfg_valid := 0 |> <| cfg_tlx_credit_return := 0 |>).

Definition get_tlx_cmd_group '((r, event) : reader) : option reader :=
  if rflag event 0x10 then
    '(op, r) ← rd8 r; '(tag, r) ← rd_be 2 r; '(dl, r) ← rd8 r; '(pl, r) ← rd8 r;
    '(be, r) ← rd_be 8 r; '(en, r) ← rd8 r; '(pa, r) ← rd_be 8 r;
    Some (r, event <| tlx_afu_cmd_valid := 1 |>
                   <| tlx_afu_cmd_opcode := op |>
                   <| tlx_afu_cmd_capptag := tag |>
                   <| tlx_afu_cmd_dl := dl |>
                   <| tlx_afu_cmd_pl := pl |>
                   <| tlx_afu_cmd_be := be |>
                   <| tlx_afu_cmd_end := en |>
                   <| tlx_afu_cmd_pa := pa |>)
  else Some (r, event <| tlx_afu_cmd_valid := 0 |> <| afu_tlx_cmd_credit := 0 |>).

Definition get_tlx_cmd_data_group '((r, event) : reader) : option reader :=
  if rflag event 0x08 then
    '(bdi, r) ← rd8 r;
    '(bus, r) ← rd_into (tlx_afu_cmd_data_bus event) (Z.to_nat (cmd_cnt event)) r;
    Some (r, event <| tlx_afu_cmd_data_valid := 1 |>
                   <| tlx_afu_cmd_data_bdi := bdi |>
                   <| tlx_afu_cmd_data_bus := bus |>)
  else Some (r, event <| tlx_afu_cmd_data_valid := 0 |>).

Definition get_tlx_resp_group '((r, event) : reader) : option reader :=
  if rflag event 0x04 then
    '(op, r) ← rd8 r; '(tag, r) ← rd_be 2 r; '(code, r) ← rd8 r;
    '(pg, r) ← rd8 r; '(dl, r) ← rd8 r; '(dp, r) ← rd8 r;
    Some (r, event <| tlx_afu_resp_valid := 1 |>
                   <| tlx_afu_resp_opcode := op |>
                   <| tlx_afu_resp_afutag := tag |>
                   <| tlx_afu_resp_code := code |>
                   <| tlx_afu_resp_pg_size := pg |>
                   <| tlx_afu_resp_dl := dl |>
                   <| tlx_afu_resp_dp := dp |>)
  else Some (r, event <| tlx_afu_resp_valid := 0 |> <| afu_tlx_resp_credit := 0 |>).

Definition get_tlx_resp_data_group '((r, event) : reader) : option reader :=
  if rflag event 0x02 then
    '(bdi, r) ← rd8 r;
    '(bus, r) ← rd_into (tlx_afu_resp_data event) (Z.to_nat (resp_cnt event)) r;
    Some (r, event <| tlx_afu_resp_data_valid := 1 |>
                   <| tlx_afu_resp_data_bdi := bdi |>
                   <| tlx_afu_resp_data := bus |>)
  else Some (r, event <| tlx_afu_resp_data_valid := 0 |>).

(** A credit flag equal to one adds a credit to a [uint8_t] counter. *)
Definition credit_up (flag avail : Z) : Z := if flag =? 1 then u8 (avail + 1) else avail.

Definition get_tlx_credits_group '((r, event) : reader) : option reader :=
  if rflag event 0x01 then
    '(ci, r) ← rd8 r; '(cdi, r) ← rd8 r; '(ri, r) ← rd8 r; '(rdi, r) ← rd8 r;
    '(rc, r) ← rd8 r; '(cc, r) ← rd8 r; '(rdc, r) ← rd8 r; '(cdc, r) ← rd8 r;
    '(ack, r) ← rd8 r;
    Some (r, event <| tlx_afu_credit_valid := 1 |>
                   <| tlx_afu_cmd_initial_credit := ci |>
                   <| tlx_afu_cmd_data_initial_credit := cdi |>
                   <| tlx_afu_resp_initial_credit := ri |>
                   <| tlx_afu_resp_data_initial_credit := rdi |>
                   <| tlx_afu_resp_credit := rc |>
                   <| tlx_afu_cmd_credit := cc |>
                   <| tlx_afu_resp_data_credit := rdc |>
                   <| tlx_afu_cmd_data_credit := cdc |>
                   <| tlx_cfg_resp_ack := ack |>
                   <| tlx_afu_cmd_credits_available :=
                        credit_up cc (tlx_afu_cmd_credits_available event) |>
                   <| tlx_afu_resp_credits_available :=
                        credit_up rc (tlx_afu_resp_credits_available event) |>
                   <| tlx_afu_cmd_data_credits_available :=
                        credit_up cdc (tlx_afu_cmd_data_credits_available event) |>
                   <| tlx_afu_resp_data_credits_available :=
                        credit_up rdc (tlx_afu_resp_data_credits_available event) |>)
  else
    Some (r, event <| tlx_afu_credit_valid := 0 |>
                   <| tlx_afu_cmd_credit := 0 |>
                   <| tlx_afu_resp_credit := 0 |>
                   <| tlx_afu_cmd_data_credit := 0 |>
                   <| tlx_afu_resp_data_credit := 0 |>).

Definition parse_tlx_frame event : option AFU_EVENT :=
  x ← get_cfg_group (drop 5 (rbuf event), event);
  x ← get_tlx_cmd_group x;
  x ← get_tlx_cmd_data_group x;
  x ← get_tlx_resp_group x;
  x ← get_tlx_resp_data_group x;
  x ← get_tlx_credits_group x;
  Some (x.2 <| rbp := 0 |>).

(** On a clock the AFU side first sends what it has; the result is ignored. *)
Definition tlx_get_tlx_events event (c : conn) : option (Z * AFU_EVENT * conn) :=
  s ← recv_first event c;
  match s with
  | RxReturn rc event c => Some (rc, event, c)
  | RxGo event c =>
      if rbp event =? 0 then Some (0, event, c)
      else
        '(_, event, c) ←
          (if rflag event 0x40 then tlx_signal_tlx_model (event <| clock := 1 |>) c
           else Some (TLX_SUCCESS, event, c));
        if rbuf_at event 0 =? 0x40 then Some (1, event <| rbp := 0 |>, c)
        else
          s ← recv_rest tlx_frame_size event c;
          match s with
          | RxReturn rc event c => Some (rc, event, c)
          | RxGo event c => event ← parse_tlx_frame event; Some (1, event, c)
          end
  end.

(** ** [tlx_get_afu_events] *)

(** A command received is a credit to return at once. *)
Definition get_afu_cmd_group '((r, event) : reader) : option reader :=
  if rflag event 0x02 then
    '(op, r) ← rd8 r; '(actag, r) ← rd_be 2 r; '(sid, r) ← rd8 r;
    '(ea, r) ← rd_into (afu_tlx_cmd_ea_or_obj event) 9 r;
    '(tag, r) ← rd_be 2 r; '(dl, r) ← rd8 r; '(pl, r) ← rd8 r; '(be, r) ← rd_be 8 r;
    '(flag, r) ← rd8 r; '(en, r) ← rd8 r; '(bdf, r) ← rd_be 2 r;
    '(pasid, r) ← rd_be 4 r; '(pg, r) ← rd8 r;
    Some (r, event <| afu_tlx_cmd_valid := 1 |>
                   <| tlx_afu_cmd_credit := 1 |>
                   <| tlx_afu_credit_valid := 1 |>
                   <| afu_tlx_cmd_opcode := op |>
                   <| afu_tlx_cmd_actag := actag |>
                   <| afu_tlx_cmd_stream_id := sid |>
                   <| afu_tlx_cmd_ea_or_obj := ea |>
                   <| afu_tlx_cmd_afutag := tag |>
                   <| afu_tlx_cmd_dl := dl |>
                   <| afu_tlx_cmd_pl := pl |>
                   <| afu_tlx_cmd_be := be |>
                   <| afu_tlx_cmd_flag := flag |>
                   <| afu_tlx_cmd_endian := en |>
                   <| afu_tlx_cmd_bdf := bdf |>
                   <| afu_tlx_cmd_pasid := pasid |>
                   <| afu_tlx_cmd_pg_size := pg |>)
  else Some (r, event <| afu_tlx_cmd_valid := 0 |> <| tlx_afu_cmd_credit := 0 |>).

Definition get_afu_cdata_group '((r, event) : reader) : option reader :=
  if rflag event 0x04 then
    '(bdi, r) ← rd8 r;
    '(bus, r) ← rd_into (afu_tlx_cdata_bus event) (Z.to_nat (cmd_cnt event)) r;
    Some (r, event <| afu_tlx_cdata_valid := 1 |>
                   <| tlx_afu_cmd_data_credit := 1 |>
                   <| tlx_afu_credit_valid := 1 |>
                   <| afu_tlx_cdata_bdi := bdi |>
                   <| afu_tlx_cdata_bus := bus |>)
  else Some (r, event <| afu_tlx_cdata_valid := 0 |> <| tlx_afu_cmd_data_credit := 0 |>).

Definition get_afu_resp_group '((r, event) : reader) : option reader :=
  if rflag event 0x08 then
    '(op, r) ← rd8 r; '(dl, r) ← rd8 r; '(tag, r) ← rd_be 2 r;
    '(dp, r) ← rd8 r; '(code, r) ← rd8 r;
    Some (r, event <| afu_tlx_resp_valid := 1 |>
                   <| afu_tlx_resp_opcode := op |>
                   <| afu_tlx_resp_dl := dl |>
                   <| afu_tlx_resp_capptag := tag |>
                   <| afu_tlx_resp_dp := dp |>
                   <| afu_tlx_resp_code := code |>)
  else Some (r, event <| afu_tlx_resp_valid := 0 |> <| tlx_afu_resp_credit := 0 |>).

(** Always 64 bytes, whatever count the header carries. *)
Definition get_afu_rdata_group '((r, event) : reader) : option reader :=
  if rflag event 0x20 then
    '(bdi, r) ← rd8 r;
    '(bus, r) ← rd_into (afu_tlx_rdata_bus event) 64 r;
    Some (r, event <| afu_tlx_rdata_valid := 1 |>
                   <| afu_tlx_rdata_bdi := bdi |>
                   <| afu_tlx_rdata_bus := bus |>)
  else Some (r, event <| afu_tlx_rdata_valid := 0 |> <| tlx_afu_resp_data_credit := 0 |>).

Definition get_cfg_resp_group '((r, event) : reader) : option reader :=
  if rflag event 0x40 then
    '(op, r) ← rd8 r; '(tag, r) ← rd_be 2 r; '(code, r) ← rd8 r; '(bdi, r) ← rd8 r;
    '(bus, r) ← rd_into (cfg_tlx_rdata_bus event) 4 r;
    Some (r, event <| cfg_tlx_resp_valid := 1 |>
                   <| cfg_tlx_resp_opcode := op |>
                   <| cfg_tlx_resp_capptag := tag |>
                   <| cfg_tlx_resp_code := code |>
                   <| cfg_tlx_rdata_bdi := bdi |>
                   <| cfg_tlx_rdata_bus := bus |>)
  else Some (r, event <| cfg_tlx_resp_valid := 0 |>).

(** A flag that has been counted is cleared. *)
Definition credit_clear (flag : Z) : Z := if flag =? 1 then 0 else flag.

Definition get_afu_credits_group '((r, event) : reader) : option reader :=
  if rflag event 0x01 then
    '(ri, r) ← rd8 r; '(ci, r) ← rd8 r; '(gi, r) ← rd8 r; '(rc, r) ← rd8 r;
    '(cc, r) ← rd8 r; '(gc, r) ← rd8 r; '(rreq, r) ← rd8 r; '(rcnt, r) ← rd8 r;
    '(creq, r) ← rd8 r; '(ccnt, r) ← rd8 r;
    Some (r, event <| afu_tlx_credit_req_valid := 1 |>
                   <| afu_tlx_resp_initial_credit := ri |>
                   <| afu_tlx_cmd_initial_credit := ci |>
                   <| cfg_tlx_initial_credit := gi |>
                   <| afu_tlx_resp_credit := credit_clear rc |>
                   <| afu_tlx_cmd_credit := credit_clear cc |>
                   <| cfg_tlx_credit_return := credit_clear gc |>
                   <| afu_tlx_resp_rd_req := rreq |>
                   <| afu_tlx_resp_rd_cnt := rcnt |>
                   <| afu_tlx_cmd_rd_req := creq |>
                   <| afu_tlx_cmd_rd_cnt := ccnt |>
                   <| afu_tlx_cmd_credits_available :=
                        credit_up cc (afu_tlx_cmd_credits_available event) |>
                   <| cfg_tlx_credits_available :=
                        credit_up gc (cfg_tlx_credits_available event) |>
                   <| afu_tlx_resp_credits_available :=
                        credit_up rc (afu_tlx_resp_credits_available event) |>)
  else Some (r, event <| afu_tlx_credit_req_valid := 0 |>).

Definition parse_afu_frame event : option AFU_EVENT :=
  x ← get_afu_cmd_group (drop 5 (rbuf event), event);
  x ← get_afu_cdata_group x;
  x ← get_afu_resp_group x;
  x ← get_afu_rdata_group x;
  x ← get_cfg_resp_group x;
  x ← get_afu_credits_group x;
  Some (x.2 <| rbp := 0 |>).

Definition tlx_get_afu_events event (c : conn) : option (Z * AFU_EVENT * conn) :=
  s ← recv_first event c;
  match s with
  | RxReturn rc event c => Some (rc, event, c)
  | RxGo event c =>
      if rbp event =? 0 then Some (0, event, c)
      else
        let event := if rflag event 0x10 then event <| clock := 0 |> else event in
        if rflag event 0x10 && (rbuf_at event 0 =? 0x10)
        then Some (1, event <| rbp := 0 |>, c)
        else
          s ← recv_rest afu_frame_size event c;
          match s with
          | RxReturn rc event c => Some (rc, event, c)
          | RxGo event c => event ← parse_afu_frame event; Some (1, event, c)
          end
  end.
