(* ===== verification/Link.v ===== *)
(** The link between the two ends: what a frame means.

    A message is what one end has pending for the other, as data.  [encode_*]
    is its frame, [*_sent] the event after sending, [deliver_*] the event after
    receiving.  The theorems show that the wire code implements them, and that
    one cycle of the lock-step protocol swaps the two ends' messages. *)
From S2P Require Import Prelude Utils Event Sock TlxWire.

(** * Messages *)

Record host_msg := HostMsg {
  hm_cfg : option (cfg_cmd * data_beat);
  hm_cmd : option tlx_cmd;
  hm_cmd_data : option data_beat;
  hm_resp : option tlx_resp;
  hm_resp_data : option data_beat;
  hm_credits : option (list Z);
}.

Record afu_msg := AfuMsg {
  am_cmd : option afu_cmd;
  am_cdata : option data_beat;
  am_resp : option afu_resp;
  am_rdata : option data_beat;
  am_cfg_resp : option (cfg_resp * data_beat);
  am_credits : option (list Z);
}.

Definition when {A} (valid : Z) (x : A) : option A := if truthy valid then Some x else None.

(** What the host end has pending; fields are cut to their wire width. *)
Definition host_msg_of (e : AFU_EVENT) : host_msg := HostMsg
  (when (tlx_cfg_valid e)
     (CfgCmd (tlx_cfg_opcode e) (tlx_cfg_capptag e) (tlx_cfg_pl e mod 8)
             (tlx_cfg_t e mod 2) (tlx_cfg_pa e),
      (tlx_cfg_data_bus e, tlx_cfg_data_bdi e mod 2)))
  (when (tlx_afu_cmd_valid e)
     (TlxCmd (tlx_afu_cmd_opcode e) (tlx_afu_cmd_capptag e) (tlx_afu_cmd_dl e mod 4)
             (tlx_afu_cmd_pl e mod 8) (tlx_afu_cmd_be e) (tlx_afu_cmd_end e mod 2)
             (tlx_afu_cmd_pa e)))
  (when (tlx_afu_cmd_data_valid e)
     (take (Z.to_nat (tlx_afu_cmd_data_byte_cnt e)) (tlx_afu_cmd_data_bus e),
      tlx_afu_cmd_data_bdi e mod 2))
  (when (tlx_afu_resp_valid e)
     (TlxResp (tlx_afu_resp_opcode e) (tlx_afu_resp_afutag e) (tlx_afu_resp_code e)
              (tlx_afu_resp_pg_size e) (tlx_afu_resp_dl e) (tlx_afu_resp_dp e) 0))
  (when (tlx_afu_resp_data_valid e)
     (take (Z.to_nat (tlx_afu_resp_data_byte_cnt e)) (tlx_afu_resp_data e),
      tlx_afu_resp_data_bdi e mod 2))
  (when (tlx_afu_credit_valid e)
     [tlx_afu_cmd_initial_credit e; tlx_afu_cmd_data_initial_credit e;
      tlx_afu_resp_initial_credit e; tlx_afu_resp_data_initial_credit e;
      tlx_afu_resp_credit e; tlx_afu_cmd_credit e; tlx_afu_resp_data_credit e;
      tlx_afu_cmd_data_credit e; tlx_cfg_resp_ack e]).

Definition afu_msg_of (e : AFU_EVENT) : afu_msg := AfuMsg
  (when (afu_tlx_cmd_valid e)
     (AfuCmd (afu_tlx_cmd_opcode e) (afu_tlx_cmd_actag e) (afu_tlx_cmd_stream_id e mod 16)
             (afu_tlx_cmd_ea_or_obj e) (afu_tlx_cmd_afutag e) (afu_tlx_cmd_dl e mod 4)
             (afu_tlx_cmd_pl e mod 8) (afu_tlx_cmd_be e) (afu_tlx_cmd_flag e mod 16)
             (afu_tlx_cmd_endian e mod 2) (afu_tlx_cmd_bdf e) (afu_tlx_cmd_pasid e)
             (afu_tlx_cmd_pg_size e)))
  (when (afu_tlx_cdata_valid e) (afu_tlx_cdata_bus e, afu_tlx_cdata_bdi e mod 2))
  (when (afu_tlx_resp_valid e)
     (AfuResp (afu_tlx_resp_opcode e) (afu_tlx_resp_dl e mod 4) (afu_tlx_resp_capptag e)
              (afu_tlx_resp_dp e mod 4) (afu_tlx_resp_code e mod 16)))
  (when (afu_tlx_rdata_valid e) (afu_tlx_rdata_bus e, afu_tlx_rdata_bdi e mod 2))
  (when (cfg_tlx_resp_valid e)
     (CfgResp (cfg_tlx_resp_opcode e) (cfg_tlx_resp_capptag e) (cfg_tlx_resp_code e mod 16),
      (cfg_tlx_rdata_bus e, cfg_tlx_rdata_bdi e mod 2)))
  (when (afu_tlx_credit_req_valid e)
     [afu_tlx_resp_initial_credit e; afu_tlx_cmd_initial_credit e;
      cfg_tlx_initial_credit e; afu_tlx_resp_credit e; afu_tlx_cmd_credit e;
      cfg_tlx_credit_return e; afu_tlx_resp_rd_req e; afu_tlx_resp_rd_cnt e;
      afu_tlx_cmd_rd_req e; afu_tlx_cmd_rd_cnt e]).

(** * Frames *)

Definition enc_cfg '((c, (bus, bdi)) : cfg_cmd * data_beat) : list Z :=
  [cc_opcode c] ++ be_bytes 2 (cc_capptag c) ++ be_bytes 8 (cc_pa c) ++
  [cc_t c; cc_pl c; bdi] ++ bus.
Definition enc_tlx_cmd (c : tlx_cmd) : list Z :=
  [tc_opcode c] ++ be_bytes 2 (tc_capptag c) ++ [tc_dl c; tc_pl c] ++
  be_bytes 8 (tc_be c) ++ [tc_end c] ++ be_bytes 8 (tc_pa c).
Definition enc_beat '((bus, bdi) : data_beat) : list Z := bdi :: bus.
Definition enc_tlx_resp (r : tlx_resp) : list Z :=
  [tr_opcode r] ++ be_bytes 2 (tr_afutag r) ++ [tr_code r; tr_pg_size r; tr_dl r; tr_dp r].
Definition enc_afu_cmd (c : afu_cmd) : list Z :=
  [ac_opcode c] ++ be_bytes 2 (ac_actag c) ++ [ac_stream_id c] ++ ac_ea_or_obj c ++
  be_bytes 2 (ac_afutag c) ++ [ac_dl c; ac_pl c] ++ be_bytes 8 (ac_be c) ++
  [ac_flag c; ac_endian c] ++ be_bytes 2 (ac_bdf c) ++ be_bytes 4 (ac_pasid c) ++
  [ac_pg_size c].
Definition enc_afu_resp (r : afu_resp) : list Z :=
  [ar_opcode r; ar_dl r] ++ be_bytes 2 (ar_capptag r) ++ [ar_dp r; ar_code r].
Definition enc_cfg_resp '((r, (bus, bdi)) : cfg_resp * data_beat) : list Z :=
  [cr_opcode r] ++ be_bytes 2 (cr_capptag r) ++ [cr_code r; bdi] ++ bus.

Definition enc {A} (f : A -> list Z) (o : option A) : list Z := from_option f [] o.
Definition bit {A} (flag : Z) (o : option A) : Z := if o is Some _ then flag else 0.
Definition cnt (o : option data_beat) : list Z :=
  be_bytes 2 (if o is Some (bus, _) then Z.of_nat (length bus) else 0).

(** The first byte alone when there is no group. *)
Definition frame_of (flags : Z) (cnts body : list Z) : list Z :=
  flags :: match body with [] => [] | _ => cnts ++ body end.

Definition host_flags (m : host_msg) : Z :=
  0x40 + bit 0x20 (hm_cfg m) + bit 0x10 (hm_cmd m) + bit 0x08 (hm_cmd_data m) +
  bit 0x04 (hm_resp m) + bit 0x02 (hm_resp_data m) + bit 0x01 (hm_credits m).
Definition host_body (m : host_msg) : list Z :=
  enc enc_cfg (hm_cfg m) ++ enc enc_tlx_cmd (hm_cmd m) ++ enc enc_beat (hm_cmd_data m) ++
  enc enc_tlx_resp (hm_resp m) ++ enc enc_beat (hm_resp_data m) ++ enc id (hm_credits m).
Definition encode_host (m : host_msg) : list Z :=
  frame_of (host_flags m) (cnt (hm_cmd_data m) ++ cnt (hm_resp_data m)) (host_body m).

Definition afu_flags (m : afu_msg) : Z :=
  0x10 + bit 0x02 (am_cmd m) + bit 0x04 (am_cdata m) + bit 0x08 (am_resp m) +
  bit 0x20 (am_rdata m) + bit 0x40 (am_cfg_resp m) + bit 0x01 (am_credits m).
Definition afu_body (m : afu_msg) : list Z :=
  enc enc_afu_cmd (am_cmd m) ++ enc enc_beat (am_cdata m) ++ enc enc_afu_resp (am_resp m) ++
  enc enc_beat (am_rdata m) ++ enc enc_cfg_resp (am_cfg_resp m) ++ enc id (am_credits m).
Definition encode_afu (m : afu_msg) : list Z :=
  frame_of (afu_flags m) (cnt (am_cdata m) ++ cnt (am_rdata m)) (afu_body m).

(** * The sender's event *)

Definition cond_event (valid : Z) (e e' : AFU_EVENT) : AFU_EVENT :=
  if truthy valid then e' else e.

Definition host_sent (e : AFU_EVENT) : AFU_EVENT :=
  let e := e <| clock := 1 |> <| tlx_cfg_valid := 0 |> <| tlx_afu_cmd_valid := 0 |>
             <| tlx_afu_cmd_data_valid := 0 |> <| tlx_afu_resp_valid := 0 |>
             <| tlx_afu_resp_data_valid := 0 |> in
  cond_event (tlx_afu_credit_valid e) e
    (e <| tlx_afu_credit_valid := 0 |> <| tlx_afu_cmd_credit := 0 |>
       <| tlx_cfg_resp_ack := 0 |> <| tlx_afu_cmd_data_credit := 0 |>
       <| tlx_afu_resp_credit := 0 |> <| tlx_afu_resp_data_credit := 0 |>).

Definition afu_sent (e : AFU_EVENT) : AFU_EVENT :=
  let e := e <| clock := 0 |> <| afu_tlx_cmd_valid := 0 |> <| afu_tlx_cdata_valid := 0 |>
             <| afu_tlx_resp_valid := 0 |> <| afu_tlx_rdata_valid := 0 |>
             <| cfg_tlx_resp_valid := 0 |> in
  cond_event (afu_tlx_credit_req_valid e) e
    (e <| afu_tlx_credit_req_valid := 0 |> <| afu_tlx_cmd_credit := 0 |>
       <| cfg_tlx_credit_return := 0 |> <| afu_tlx_resp_credit := 0 |>).

(** * Sending: lemmas *)

Lemma truthy_false v : truthy v = false -> v = 0.
Proof. unfold truthy. by intros ?%negb_false_iff%Z.eqb_eq. Qed.
Lemma mask1 x : Z.land x 0x01 = x mod 2.
Proof. by rewrite (land_ones8 x 1). Qed.
Lemma mask2 x : Z.land x 0x03 = x mod 4.
Proof. by rewrite (land_ones8 x 2). Qed.
Lemma mask3 x : Z.land x 0x07 = x mod 8.
Proof. by rewrite (land_ones8 x 3). Qed.
Lemma mask4 x : Z.land x 0x0f = x mod 16.
Proof. by rewrite (land_ones8 x 4). Qed.
Lemma mask8 x : is_byte x -> Z.land x 0xFF = x.
Proof. intros. rewrite (land_ones8 x 8) by done. by apply is_u_small. Qed.

Definition add {A} (flag : Z) (f : A -> list Z) (o : option A) (b : frame) : frame :=
  if o is Some x then push flag (f x) b else b.

(** Clearing a flag that is clear changes nothing. *)
Ltac clear_same E :=
  apply truthy_false in E;
  match type of E with ?p ?e = 0 => destruct e; cbn in E; subst; reflexivity end.
Ltac by_valid :=
  unfold when; cbn [add];
  match goal with
  | |- context [if truthy ?v then _ else _] =>
      destruct (truthy v) eqn:?E;
      [rewrite ?mask1, ?mask2, ?mask3, ?mask4; reflexivity
      |cbn [add]; f_equal; clear_same E]
  end.

Lemma signal_cfg_eq f e :
  signal_cfg (f, e) = (add 0x20 enc_cfg (hm_cfg (host_msg_of e)) f, e <| tlx_cfg_valid := 0 |>).
Proof. unfold signal_cfg, host_msg_of, hm_cfg. by_valid. Qed.
Lemma signal_tlx_cmd_eq f e :
  signal_tlx_cmd (f, e) = (add 0x10 enc_tlx_cmd (hm_cmd (host_msg_of e)) f, e <| tlx_afu_cmd_valid := 0 |>).
Proof. unfold signal_tlx_cmd, host_msg_of, hm_cmd. by_valid. Qed.
Lemma signal_tlx_resp_eq f e :
  signal_tlx_resp (f, e) = (add 0x04 enc_tlx_resp (hm_resp (host_msg_of e)) f, e <| tlx_afu_resp_valid := 0 |>).
Proof. unfold signal_tlx_resp, host_msg_of, hm_resp. by_valid. Qed.
Lemma signal_tlx_credits_eq f e :
  signal_tlx_credits (f, e) =
  (add 0x01 id (hm_credits (host_msg_of e)) f,
   cond_event (tlx_afu_credit_valid e) e
    (e <| tlx_afu_credit_valid := 0 |> <| tlx_afu_cmd_credit := 0 |>
       <| tlx_cfg_resp_ack := 0 |> <| tlx_afu_cmd_data_credit := 0 |>
       <| tlx_afu_resp_credit := 0 |> <| tlx_afu_resp_data_credit := 0 |>)).
Proof.
  unfold signal_tlx_credits, host_msg_of, hm_credits, cond_event, when.
  by destruct (truthy (tlx_afu_credit_valid e)).
Qed.
Lemma signal_afu_cmd_eq f e :
  is_byte (afu_tlx_cmd_pg_size e) ->
  signal_afu_cmd (f, e) = (add 0x02 enc_afu_cmd (am_cmd (afu_msg_of e)) f, e <| afu_tlx_cmd_valid := 0 |>).
Proof.
  intros Hpg. unfold signal_afu_cmd, afu_msg_of, am_cmd. rewrite (mask8 _ Hpg). clear Hpg. by_valid.
Qed.
Lemma signal_afu_resp_eq f e :
  signal_afu_resp (f, e) = (add 0x08 enc_afu_resp (am_resp (afu_msg_of e)) f, e <| afu_tlx_resp_valid := 0 |>).
Proof. unfold signal_afu_resp, afu_msg_of, am_resp. by_valid. Qed.
Lemma signal_cfg_resp_eq f e :
  signal_cfg_resp (f, e) = (add 0x40 enc_cfg_resp (am_cfg_resp (afu_msg_of e)) f, e <| cfg_tlx_resp_valid := 0 |>).
Proof. unfold signal_cfg_resp, afu_msg_of, am_cfg_resp. by_valid. Qed.
Lemma signal_afu_credits_eq f e :
  signal_afu_credits (f, e) =
  (add 0x01 id (am_credits (afu_msg_of e)) f,
   cond_event (afu_tlx_credit_req_valid e) e
    (e <| afu_tlx_credit_req_valid := 0 |> <| afu_tlx_cmd_credit := 0 |>
       <| cfg_tlx_credit_return := 0 |> <| afu_tlx_resp_credit := 0 |>)).
Proof.
  unfold signal_afu_credits, afu_msg_of, am_credits, cond_event, when.
  by destruct (truthy (afu_tlx_credit_req_valid e)).
Qed.

(** Data groups also set their byte count. *)
Definition add_cmd_data (flag : Z) (o : option data_beat) (b : frame) : frame :=
  if o is Some x then push flag (enc_beat x) (set_cmd_cnt (cnt o) b) else b.
Definition add_resp_data (flag : Z) (o : option data_beat) (b : frame) : frame :=
  if o is Some x then push flag (enc_beat x) (set_resp_cnt (cnt o) b) else b.

Lemma cnt_bytes_eq n : 0 <= n <= 256 -> cnt_bytes n = be_bytes 2 n.
Proof.
  intros. unfold cnt_bytes. cbn [be_bytes]. rewrite Z.shiftr_0_r. f_equal.
  change (8 * Z.of_nat 1) with 8.
  rewrite (land_ones8 _ 4), (land_ones8 _ 8), Z.shiftr_div_pow2 by first [done|lia].
  assert (0 <= n / 2 ^ 8 < 2).
  { split; [apply Z.div_pos; lia|apply Z.div_lt_upper_bound; lia]. }
  rewrite !Z.mod_small by lia. done.
Qed.

Lemma cnt_take n (bus : list Z) bdi :
  0 <= n <= 256 -> length bus = 256%nat -> cnt (Some (take (Z.to_nat n) bus, bdi)) = cnt_bytes n.
Proof.
  intros. rewrite cnt_bytes_eq by done. unfold cnt. f_equal. rewrite length_take. lia.
Qed.

Lemma signal_tlx_cmd_data_eq f e :
  event_wf e -> tlx_afu_cmd_data_byte_cnt e <= 256 ->
  signal_tlx_cmd_data (f, e) =
  Some (add_cmd_data 0x08 (hm_cmd_data (host_msg_of e)) f, e <| tlx_afu_cmd_data_valid := 0 |>).
Proof.
  intros Hwf Hc. unfold signal_tlx_cmd_data, host_msg_of, hm_cmd_data, when.
  destruct (truthy (tlx_afu_cmd_data_valid e)) eqn:E.
  - destruct (field_get (p := tlx_afu_cmd_data_bus) e Hwf) as [Hl _].
    destruct (field_get (p := tlx_afu_cmd_data_byte_cnt) e Hwf) as [? _].
    unfold guard_ub. replace (_ <=? _) with true by lia.
    unfold add_cmd_data. by rewrite cnt_take, mask1 by lia.
  - clear Hwf Hc. cbn [add_cmd_data]. do 2 f_equal. clear_same E.
Qed.

Lemma signal_tlx_resp_data_eq f e :
  event_wf e -> tlx_afu_resp_data_byte_cnt e <= 256 ->
  signal_tlx_resp_data (f, e) =
  Some (add_resp_data 0x02 (hm_resp_data (host_msg_of e)) f, e <| tlx_afu_resp_data_valid := 0 |>).
Proof.
  intros Hwf Hc. unfold signal_tlx_resp_data, host_msg_of, hm_resp_data, when.
  destruct (truthy (tlx_afu_resp_data_valid e)) eqn:E.
  - destruct (field_get (p := tlx_afu_resp_data) e Hwf) as [Hl _].
    destruct (field_get (p := tlx_afu_resp_data_byte_cnt) e Hwf) as [? _].
    unfold guard_ub. replace (_ <=? _) with true by lia.
    unfold add_resp_data. by rewrite cnt_take, mask1 by lia.
  - clear Hwf Hc. cbn [add_resp_data]. do 2 f_equal. clear_same E.
Qed.

Lemma signal_afu_cdata_eq f e :
  event_wf e ->
  signal_afu_cdata (f, e) =
  (add_cmd_data 0x04 (am_cdata (afu_msg_of e)) f, e <| afu_tlx_cdata_valid := 0 |>).
Proof.
  intros Hwf. unfold signal_afu_cdata, afu_msg_of, am_cdata, when.
  destruct (truthy (afu_tlx_cdata_valid e)) eqn:E.
  - destruct (field_get (p := afu_tlx_cdata_bus) e Hwf) as [Hl _].
    unfold add_cmd_data, cnt. by rewrite Hl, mask1.
  - clear Hwf. cbn [add_cmd_data]. f_equal. clear_same E.
Qed.

Lemma signal_afu_rdata_eq f e :
  event_wf e ->
  signal_afu_rdata (f, e) =
  (add_resp_data 0x20 (am_rdata (afu_msg_of e)) f, e <| afu_tlx_rdata_valid := 0 |>).
Proof.
  intros Hwf. unfold signal_afu_rdata, afu_msg_of, am_rdata, when.
  destruct (truthy (afu_tlx_rdata_valid e)) eqn:E.
  - destruct (field_get (p := afu_tlx_rdata_bus) e Hwf) as [Hl _].
    unfold add_resp_data, cnt. by rewrite Hl, mask1.
  - clear Hwf. cbn [add_resp_data]. f_equal. clear_same E.
Qed.

Definition host_frame (m : host_msg) : frame :=
  add 0x01 id (hm_credits m) (add_resp_data 0x02 (hm_resp_data m)
    (add 0x04 enc_tlx_resp (hm_resp m) (add_cmd_data 0x08 (hm_cmd_data m)
      (add 0x10 enc_tlx_cmd (hm_cmd m) (add 0x20 enc_cfg (hm_cfg m)
        (Frame 0x40 [0; 0] [0; 0] [])))))).

Definition afu_frame (m : afu_msg) : frame :=
  add 0x01 id (am_credits m) (add 0x40 enc_cfg_resp (am_cfg_resp m)
    (add_resp_data 0x20 (am_rdata m) (add 0x08 enc_afu_resp (am_resp m)
      (add_cmd_data 0x04 (am_cdata m) (add 0x02 enc_afu_cmd (am_cmd m)
        (Frame 0x10 [0; 0] [0; 0] [])))))).

Ltac by_options :=
  repeat match goal with
  | |- context [bit _ ?o] => is_var o; destruct o
  | |- context [enc _ ?o] => is_var o; destruct o
  end.

Lemma host_frame_flags m : f_flags (host_frame m) = host_flags m.
Proof. destruct m. unfold host_flags, host_frame. cbn. by_options; reflexivity. Qed.
Lemma host_frame_cnt m :
  f_cmd_cnt (host_frame m) ++ f_resp_cnt (host_frame m) = cnt (hm_cmd_data m) ++ cnt (hm_resp_data m).
Proof.
  destruct m as [cfg cmd cd rs rd cr]. unfold host_frame. cbn [hm_cfg hm_cmd hm_cmd_data hm_resp hm_resp_data hm_credits].
  destruct cfg, cmd, cd, rs, rd, cr; reflexivity.
Qed.
Lemma host_frame_body m : f_body (host_frame m) = host_body m.
Proof.
  destruct m as [cfg cmd cd rs rd cr]. unfold host_frame, host_body.
  destruct cfg, cmd, cd, rs, rd, cr; cbn -[enc_cfg enc_tlx_cmd enc_beat enc_tlx_resp app];
    by rewrite <- ?app_assoc, ?app_nil_r.
Qed.
Lemma afu_frame_flags m : f_flags (afu_frame m) = afu_flags m.
Proof. destruct m. unfold afu_flags, afu_frame. cbn. by_options; reflexivity. Qed.
Lemma afu_frame_cnt m :
  f_cmd_cnt (afu_frame m) ++ f_resp_cnt (afu_frame m) = cnt (am_cdata m) ++ cnt (am_rdata m).
Proof.
  destruct m as [cmd cd rs rd cfg cr]. unfold afu_frame. cbn [am_cmd am_cdata am_resp am_rdata am_cfg_resp am_credits].
  destruct cfg, cmd, cd, rs, rd, cr; reflexivity.
Qed.
Lemma afu_frame_body m : f_body (afu_frame m) = afu_body m.
Proof.
  destruct m as [cmd cd rs rd cfg cr]. unfold afu_frame, afu_body.
  destruct cfg, cmd, cd, rs, rd, cr; cbn -[enc_afu_cmd enc_beat enc_afu_resp enc_cfg_resp app];
    by rewrite <- ?app_assoc, ?app_nil_r.
Qed.

(** * Well-formed messages *)

Definition opt_ok {A} (P : A -> Prop) (o : option A) : Prop := from_option P True o.

Definition beat_ok (n : nat) (b : data_beat) : Prop :=
  (length b.1 <= n)%nat /\ bytes b.1 /\ is_byte b.2.
Definition beat_exact (n : nat) (b : data_beat) : Prop := is_array n b.1 /\ is_byte b.2.
Definition cfg_ok (x : cfg_cmd * data_beat) : Prop := cfg_cmd_ok x.1 /\ beat_exact 4 x.2.
Definition credits_ok (n : nat) (l : list Z) : Prop := is_array n l.

Definition host_msg_wf (m : host_msg) : Prop :=
  opt_ok cfg_ok (hm_cfg m) /\ opt_ok tlx_cmd_ok (hm_cmd m) /\
  opt_ok (beat_ok 256) (hm_cmd_data m) /\ opt_ok tlx_resp_ok (hm_resp m) /\
  opt_ok (beat_ok 256) (hm_resp_data m) /\ opt_ok (credits_ok 9) (hm_credits m).

Definition afu_msg_wf (m : afu_msg) : Prop :=
  opt_ok afu_cmd_ok (am_cmd m) /\ opt_ok (beat_exact 64) (am_cdata m) /\
  opt_ok afu_resp_ok (am_resp m) /\ opt_ok (beat_exact 64) (am_rdata m) /\
  opt_ok (fun x => cfg_resp_ok x.1 /\ beat_exact 4 x.2) (am_cfg_resp m) /\
  opt_ok (credits_ok 10) (am_credits m).

Lemma opt_ok_when {A} (P : A -> Prop) v x : P x -> opt_ok P (when v x).
Proof. unfold when. by destruct (truthy v). Qed.

Lemma is_u_modk w k x : 0 < k <= 2 ^ w -> is_u w (x mod k).
Proof. intros. pose proof (Z.mod_pos_bound x k). unfold is_u. lia. Qed.

Ltac msg_field :=
  cbn;
  first [eapply field_get; eassumption | apply is_u_modk; by vm_compute | by vm_compute].

Lemma take_ok n (bus : list Z) bdi :
  is_array 256 bus -> beat_ok 256 (take n bus, bdi mod 2).
Proof.
  intros [Hl Hb]. split_and!; cbn.
  - rewrite length_take. lia.
  - by apply Forall_take.
  - by apply is_u_modk.
Qed.

Lemma host_msg_of_wf e : event_wf e -> host_msg_wf (host_msg_of e).
Proof.
  intros Hwf. unfold host_msg_of. split_and!; cbn; apply opt_ok_when.
  - split; [unfold cfg_cmd_ok; cbn; split_and!|split]; msg_field.
  - unfold tlx_cmd_ok; cbn; split_and!; msg_field.
  - apply take_ok. msg_field.
  - unfold tlx_resp_ok; cbn; split_and!; msg_field.
  - apply take_ok. msg_field.
  - split; [done|]. repeat (apply List.Forall_cons; [msg_field|]). apply Forall_nil_2.
Qed.

Lemma afu_msg_of_wf e : event_wf e -> afu_msg_wf (afu_msg_of e).
Proof.
  intros Hwf. unfold afu_msg_of. split_and!; cbn; apply opt_ok_when.
  - unfold afu_cmd_ok; cbn; split_and!; msg_field.
  - split; msg_field.
  - unfold afu_resp_ok; cbn; split_and!; msg_field.
  - split; msg_field.
  - split; [unfold cfg_resp_ok; cbn; split_and!|split]; msg_field.
  - split; [done|]. repeat (apply List.Forall_cons; [msg_field|]). apply Forall_nil_2.
Qed.

(** ** Frame sizes *)

Lemma enc_length {A} (P : A -> Prop) (f : A -> list Z) n o :
  (forall x, P x -> (length (f x) <= n)%nat) -> opt_ok P o -> (length (enc f o) <= n)%nat.
Proof. intros Hf Ho. destruct o; cbn in *; [by apply Hf|lia]. Qed.

Lemma enc_beat_length n b : beat_ok n b -> (length (enc_beat b) <= S n)%nat.
Proof. destruct b as [bus bdi]. intros (H & _). cbn in *. lia. Qed.
Lemma beat_exact_ok n b : beat_exact n b -> beat_ok n b.
Proof. intros [[H Hb] ?]. split_and!; [lia|done|done]. Qed.

(** A host frame never exceeds 575 bytes and an AFU frame 194, so the 1070-byte
    buffers hold them. *)
Lemma host_body_length m : host_msg_wf m -> (length (host_body m) <= 570)%nat.
Proof.
  intros (H1 & H2 & H3 & H4 & H5 & H6). unfold host_body. rewrite !length_app.
  apply (enc_length _ enc_cfg 18) in H1;
    [|intros [c [bus bdi]] (_ & [Hb _] & _); cbn in *; lia].
  apply (enc_length _ enc_tlx_cmd 22) in H2; [|intros; cbn; lia].
  apply (enc_length _ enc_beat 257) in H3; [|apply enc_beat_length].
  apply (enc_length _ enc_tlx_resp 7) in H4; [|intros; cbn; lia].
  apply (enc_length _ enc_beat 257) in H5; [|apply enc_beat_length].
  apply (enc_length _ id 9) in H6; [|intros x [Hx _]; cbn; lia].
  lia.
Qed.

Lemma afu_body_length m : afu_msg_wf m -> (length (afu_body m) <= 189)%nat.
Proof.
  intros (H1 & H2 & H3 & H4 & H5 & H6). unfold afu_body. rewrite !length_app.
  apply (enc_length _ enc_afu_cmd 34) in H1.
  2:{ intros x Hx. unfold afu_cmd_ok in Hx.
      assert (length (ac_ea_or_obj x) = 9%nat) by (destruct_and!; eauto using array_length).
      unfold enc_afu_cmd. rewrite !length_app, !length_be_bytes. cbn. lia. }
  apply (enc_length _ enc_beat 65) in H2; [|intros; by apply enc_beat_length, beat_exact_ok].
  apply (enc_length _ enc_afu_resp 6) in H3; [|intros; cbn; lia].
  apply (enc_length _ enc_beat 65) in H4; [|intros; by apply enc_beat_length, beat_exact_ok].
  apply (enc_length _ enc_cfg_resp 9) in H5; [|intros [r [bus bdi]] (_ & [Hb _] & _); cbn in *; lia].
  apply (enc_length _ id 10) in H6; [|intros x [Hx _]; cbn; lia].
  lia.
Qed.

(** * Sending: what goes on the wire *)

Lemma frame_bytes_length f :
  length (f_cmd_cnt f ++ f_resp_cnt f) = 4%nat -> length (frame_bytes f) = (5 + length (f_body f))%nat.
Proof.
  intros H. unfold frame_bytes. rewrite !app_assoc. cbn [length]. rewrite length_app, H. lia.
Qed.

Lemma frame_bytes_take f :
  length (f_cmd_cnt f ++ f_resp_cnt f) = 4%nat ->
  take (if (length (frame_bytes f) =? 5)%nat then 1%nat else length (frame_bytes f)) (frame_bytes f)
  = frame_of (f_flags f) (f_cmd_cnt f ++ f_resp_cnt f) (f_body f).
Proof.
  intros H. rewrite frame_bytes_length by done. unfold frame_of.
  destruct (f_body f) as [|x b] eqn:E; [done|].
  destruct (Nat.eqb_spec (5 + length (x :: b)) 5); [simpl in *; lia|].
  rewrite <- E, <- (frame_bytes_length f H), take_ge by done.
  unfold frame_bytes. by rewrite <- app_assoc.
Qed.

Lemma send_frame_eq f e c :
  no_fail (c_plan c) -> length (f_cmd_cnt f ++ f_resp_cnt f) = 4%nat ->
  (length (f_body f) <= 1065)%nat -> length (tbuf e) = 1070%nat ->
  exists plan', no_fail plan' /\
    send_frame f e c =
    Some (true, e <| tbuf := overwrite (tbuf e) 0 (frame_bytes f) |>,
          Conn (c_rx c) (c_end c)
            (c_tx c ++ frame_of (f_flags f) (f_cmd_cnt f ++ f_resp_cnt f) (f_body f)) plan').
Proof.
  intros Hp Hc Hb Ht. unfold send_frame.
  destruct (send_all_ok (frame_of (f_flags f) (f_cmd_cnt f ++ f_resp_cnt f) (f_body f)) c Hp)
    as (plan' & Hs & Hp').
  exists plan'. split; [done|]. unfold guard_ub.
  replace (_ <=? _)%nat with true by (rewrite frame_bytes_length by done; symmetry; apply Nat.leb_le; lia).
  by rewrite frame_bytes_take, Hs.
Qed.

(** The byte counts never exceed the data buffers. *)
Definition counts_ok (e : AFU_EVENT) : Prop :=
  tlx_afu_cmd_data_byte_cnt e <= 256 /\ tlx_afu_resp_data_byte_cnt e <= 256.

(** The groups in three steps, each with its effect on the frame and on the
    event. *)
Lemma host_groups_1 e f :
  event_wf e -> counts_ok e ->
  signal_tlx_cmd_data (signal_tlx_cmd (signal_cfg (f, e <| clock := 1 |>))) =
  Some (add_cmd_data 0x08 (hm_cmd_data (host_msg_of e))
          (add 0x10 enc_tlx_cmd (hm_cmd (host_msg_of e)) (add 0x20 enc_cfg (hm_cfg (host_msg_of e)) f)),
        e <| clock := 1 |> <| tlx_cfg_valid := 0 |> <| tlx_afu_cmd_valid := 0 |>
          <| tlx_afu_cmd_data_valid := 0 |>).
Proof.
  intros Hwf [Hc1 _]. rewrite signal_cfg_eq, signal_tlx_cmd_eq.
  rewrite signal_tlx_cmd_data_eq; [reflexivity|solve_wf|done].
Qed.

Lemma host_groups_2 e f :
  event_wf e -> counts_ok e ->
  signal_tlx_resp_data (signal_tlx_resp
    (f, e <| clock := 1 |> <| tlx_cfg_valid := 0 |> <| tlx_afu_cmd_valid := 0 |>
          <| tlx_afu_cmd_data_valid := 0 |>)) =
  Some (add_resp_data 0x02 (hm_resp_data (host_msg_of e))
          (add 0x04 enc_tlx_resp (hm_resp (host_msg_of e)) f),
        e <| clock := 1 |> <| tlx_cfg_valid := 0 |> <| tlx_afu_cmd_valid := 0 |>
          <| tlx_afu_cmd_data_valid := 0 |> <| tlx_afu_resp_valid := 0 |>
          <| tlx_afu_resp_data_valid := 0 |>).
Proof.
  intros Hwf [_ Hc2]. rewrite signal_tlx_resp_eq.
  rewrite signal_tlx_resp_data_eq; [reflexivity|solve_wf|done].
Qed.

Lemma host_groups_3 e f :
  signal_tlx_credits
    (f, e <| clock := 1 |> <| tlx_cfg_valid := 0 |> <| tlx_afu_cmd_valid := 0 |>
          <| tlx_afu_cmd_data_valid := 0 |> <| tlx_afu_resp_valid := 0 |>
          <| tlx_afu_resp_data_valid := 0 |>) =
  (add 0x01 id (hm_credits (host_msg_of e)) f, host_sent e).
Proof.
  rewrite signal_tlx_credits_eq. apply (f_equal2 pair).
  - cbn -[add]. reflexivity.
  - unfold host_sent. cbv zeta. reflexivity.
Qed.

Lemma afu_groups e f :
  event_wf e ->
  signal_afu_credits (signal_cfg_resp (signal_afu_rdata (signal_afu_resp
    (signal_afu_cdata (signal_afu_cmd (f, e <| clock := 0 |>)))))) =
  (add 0x01 id (am_credits (afu_msg_of e))
    (add 0x40 enc_cfg_resp (am_cfg_resp (afu_msg_of e))
    (add_resp_data 0x20 (am_rdata (afu_msg_of e)) (add 0x08 enc_afu_resp (am_resp (afu_msg_of e))
      (add_cmd_data 0x04 (am_cdata (afu_msg_of e)) (add 0x02 enc_afu_cmd (am_cmd (afu_msg_of e)) f))))),
   afu_sent e).
Proof.
  intros Hwf.
  rewrite signal_afu_cmd_eq by apply (field_get (p := afu_tlx_cmd_pg_size) e Hwf).
  rewrite signal_afu_cdata_eq by solve_wf. rewrite signal_afu_resp_eq.
  rewrite signal_afu_rdata_eq by solve_wf. rewrite signal_cfg_resp_eq, signal_afu_credits_eq.
  apply (f_equal2 pair).
  - cbn -[add add_cmd_data add_resp_data]. reflexivity.
  - unfold afu_sent. cbv zeta. reflexivity.
Qed.

Lemma host_sent_tbuf e : tbuf (host_sent e) = tbuf e.
Proof. unfold host_sent, cond_event. by destruct (truthy _). Qed.
Lemma afu_sent_tbuf e : tbuf (afu_sent e) = tbuf e.
Proof. unfold afu_sent, cond_event. by destruct (truthy _). Qed.
Lemma length_cnts a b : length (cnt a ++ cnt b) = 4%nat.
Proof. unfold cnt. len. Qed.

Lemma signal_afu_model_eq e c :
  event_wf e -> counts_ok e -> clock e = 0 -> no_fail (c_plan c) ->
  exists plan', no_fail plan' /\
    tlx_signal_afu_model e c =
    Some (TLX_SUCCESS,
          host_sent e <| tbuf := overwrite (tbuf e) 0 (frame_bytes (host_frame (host_msg_of e))) |>,
          Conn (c_rx c) (c_end c) (c_tx c ++ encode_host (host_msg_of e)) plan').
Proof.
  intros Hwf Hc Hclk Hp.
  assert (Hm := host_msg_of_wf e Hwf). apply host_body_length in Hm.
  edestruct (send_frame_eq (host_frame (host_msg_of e)) (host_sent e) c Hp)
    as (plan' & Hp' & Hs).
  { by rewrite host_frame_cnt, length_cnts. }
  { rewrite host_frame_body. lia. }
  { rewrite host_sent_tbuf. by destruct (field_get (p := tbuf) e Hwf). }
  exists plan'. split; [done|]. unfold tlx_signal_afu_model. rewrite Hclk. cbn [Z.eqb negb].
  eapply bind_eq; [by apply host_groups_1|].
  eapply bind_eq; [by apply host_groups_2|].
  rewrite host_groups_3. fold (host_frame (host_msg_of e)).
  eapply bind_eq; [exact Hs|]. cbv beta iota. unfold encode_host.
  by rewrite host_frame_flags, host_frame_cnt, host_frame_body, host_sent_tbuf.
Qed.

Lemma signal_tlx_model_eq e c :
  event_wf e -> clock e = 1 -> no_fail (c_plan c) ->
  exists plan', no_fail plan' /\
    tlx_signal_tlx_model e c =
    Some (TLX_SUCCESS,
          afu_sent e <| tbuf := overwrite (tbuf e) 0 (frame_bytes (afu_frame (afu_msg_of e))) |>,
          Conn (c_rx c) (c_end c) (c_tx c ++ encode_afu (afu_msg_of e)) plan').
Proof.
  intros Hwf Hclk Hp.
  assert (Hm := afu_msg_of_wf e Hwf). apply afu_body_length in Hm.
  edestruct (send_frame_eq (afu_frame (afu_msg_of e)) (afu_sent e) c Hp)
    as (plan' & Hp' & Hs).
  { by rewrite afu_frame_cnt, length_cnts. }
  { rewrite afu_frame_body. lia. }
  { rewrite afu_sent_tbuf. by destruct (field_get (p := tbuf) e Hwf). }
  exists plan'. split; [done|]. unfold tlx_signal_tlx_model. rewrite Hclk. cbn [Z.eqb negb].
  cbv zeta. rewrite afu_groups by done. fold (afu_frame (afu_msg_of e)).
  eapply bind_eq; [exact Hs|]. cbv beta iota. unfold encode_afu.
  by rewrite afu_frame_flags, afu_frame_cnt, afu_frame_body, afu_sent_tbuf.
Qed.

(** * The receiver's event *)

Definition put_cfg (o : option (cfg_cmd * data_beat)) (e : AFU_EVENT) : AFU_EVENT :=
  match o with
  | Some (c, (bus, bdi)) =>
      e <| tlx_cfg_valid := 1 |> <| tlx_cfg_opcode := cc_opcode c |>
        <| tlx_cfg_capptag := cc_capptag c |> <| tlx_cfg_pa := cc_pa c |>
        <| tlx_cfg_t := cc_t c |> <| tlx_cfg_pl := cc_pl c |>
        <| tlx_cfg_data_bdi := bdi |> <| tlx_cfg_data_bus := bus |>
  | None => e <| tlx_cfg_valid := 0 |> <| cfg_tlx_credit_return := 0 |>
  end.

Definition put_tlx_command (o : option tlx_cmd) (e : AFU_EVENT) : AFU_EVENT :=
  match o with
  | Some c =>
      e <| tlx_afu_cmd_valid := 1 |> <| tlx_afu_cmd_opcode := tc_opcode c |>
        <| tlx_afu_cmd_capptag := tc_capptag c |> <| tlx_afu_cmd_dl := tc_dl c |>
        <| tlx_afu_cmd_pl := tc_pl c |> <| tlx_afu_cmd_be := tc_be c |>
        <| tlx_afu_cmd_end := tc_end c |> <| tlx_afu_cmd_pa := tc_pa c |>
  | None => e <| tlx_afu_cmd_valid := 0 |> <| afu_tlx_cmd_credit := 0 |>
  end.

(** The data replaces the front of the bus. *)
Definition put_tlx_cmd_data (o : option data_beat) (e : AFU_EVENT) : AFU_EVENT :=
  match o with
  | Some (bus, bdi) =>
      e <| tlx_afu_cmd_data_valid := 1 |> <| tlx_afu_cmd_data_bdi := bdi |>
        <| tlx_afu_cmd_data_bus := overwrite (tlx_afu_cmd_data_bus e) 0 bus |>
  | None => e <| tlx_afu_cmd_data_valid := 0 |>
  end.

Definition put_tlx_response (o : option tlx_resp) (e : AFU_EVENT) : AFU_EVENT :=
  match o with
  | Some r =>
      e <| tlx_afu_resp_valid := 1 |> <| tlx_afu_resp_opcode := tr_opcode r |>
        <| tlx_afu_resp_afutag := tr_afutag r |> <| tlx_afu_resp_code := tr_code r |>
        <| tlx_afu_resp_pg_size := tr_pg_size r |> <| tlx_afu_resp_dl := tr_dl r |>
        <| tlx_afu_resp_dp := tr_dp r |>
  | None => e <| tlx_afu_resp_valid := 0 |> <| afu_tlx_resp_credit := 0 |>
  end.

Definition put_tlx_resp_data (o : option data_beat) (e : AFU_EVENT) : AFU_EVENT :=
  match o with
  | Some (bus, bdi) =>
      e <| tlx_afu_resp_data_valid := 1 |> <| tlx_afu_resp_data_bdi := bdi |>
        <| tlx_afu_resp_data := overwrite (tlx_afu_resp_data e) 0 bus |>
  | None => e <| tlx_afu_resp_data_valid := 0 |>
  end.

Definition put_tlx_credits (o : option (list Z)) (e : AFU_EVENT) : AFU_EVENT :=
  match o with
  | Some [ci; cdi; ri; rdi; rc; cc; rdc; cdc; ack] =>
      e <| tlx_afu_credit_valid := 1 |>
        <| tlx_afu_cmd_initial_credit := ci |> <| tlx_afu_cmd_data_initial_credit := cdi |>
        <| tlx_afu_resp_initial_credit := ri |> <| tlx_afu_resp_data_initial_credit := rdi |>
        <| tlx_afu_resp_credit := rc |> <| tlx_afu_cmd_credit := cc |>
        <| tlx_afu_resp_data_credit := rdc |> <| tlx_afu_cmd_data_credit := cdc |>
        <| tlx_cfg_resp_ack := ack |>
        <| tlx_afu_cmd_credits_available := credit_up cc (tlx_afu_cmd_credits_available e) |>
        <| tlx_afu_resp_credits_available := credit_up rc (tlx_afu_resp_credits_available e) |>
        <| tlx_afu_cmd_data_credits_available := credit_up cdc (tlx_afu_cmd_data_credits_available e) |>
        <| tlx_afu_resp_data_credits_available := credit_up rdc (tlx_afu_resp_data_credits_available e) |>
  | _ =>
      e <| tlx_afu_credit_valid := 0 |> <| tlx_afu_cmd_credit := 0 |>
        <| tlx_afu_resp_credit := 0 |> <| tlx_afu_cmd_data_credit := 0 |>
        <| tlx_afu_resp_data_credit := 0 |>
  end.

Definition deliver_host (m : host_msg) (e : AFU_EVENT) : AFU_EVENT :=
  put_tlx_credits (hm_credits m) (put_tlx_resp_data (hm_resp_data m)
    (put_tlx_response (hm_resp m) (put_tlx_cmd_data (hm_cmd_data m)
      (put_tlx_command (hm_cmd m) (put_cfg (hm_cfg m) e))))).

(** * Receiving: lemmas *)

Definition is_some {A} (o : option A) : bool := if o is Some _ then true else false.

Lemma rd_be_bytes n v r :
  is_u (8 * Z.of_nat n) v -> rd_be n (be_bytes n v ++ r) = Some (v, r).
Proof.
  intros Hv. unfold rd_be, guard_ub.
  replace (_ <=? _)%nat with true by (symmetry; apply Nat.leb_le; len).
  rewrite take_app_length', drop_app_length' by (by rewrite length_be_bytes).
  by rewrite be_val_bytes_small.
Qed.

Lemma rd_into_full bus l r n :
  length l = n -> length bus = n -> rd_into bus n (l ++ r) = Some (l, r).
Proof.
  intros Hl Hb. unfold rd_into, guard_ub.
  replace (_ && _) with true
    by (symmetry; apply andb_true_iff; rewrite length_app, !Nat.leb_le; lia).
  rewrite take_app_length', drop_app_length' by done.
  unfold overwrite. cbn. by rewrite drop_ge, app_nil_r by lia.
Qed.

Lemma rd_into_front bus l r n :
  n = length l -> (length l <= length bus)%nat ->
  rd_into bus n (l ++ r) = Some (overwrite bus 0 l, r).
Proof.
  intros -> Hb. unfold rd_into, guard_ub.
  replace (_ && _) with true
    by (symmetry; apply andb_true_iff; rewrite length_app, !Nat.leb_le; lia).
  by rewrite take_app_length, drop_app_length.
Qed.

(** One field: read it and go on. *)
Ltac rd_step :=
  first
    [ eapply bind_eq; [apply rd_be_bytes; assumption|]
    | eapply bind_eq; [apply rd_into_full; eauto using array_length|]
    | eapply bind_eq; [reflexivity|] ]; cbv beta iota.
Ltac rd_all := rewrite <- ?app_assoc; repeat rd_step.

Lemma get_cfg_group_eq o r e :
  opt_ok cfg_ok o -> event_wf e -> rflag e 0x20 = is_some o ->
  get_cfg_group (enc enc_cfg o ++ r, e) = Some (r, put_cfg o e).
Proof.
  intros Ho Hwf Hf. unfold get_cfg_group. rewrite Hf.
  destruct o as [[c [bus bdi]]|]; [|reflexivity].
  pose proof (field_get (p := tlx_cfg_data_bus) e Hwf).
  destruct Ho as [Hc [Hb _]]. unfold cfg_cmd_ok in Hc. destruct_and!.
  cbn [is_some enc from_option enc_cfg]. rd_all. reflexivity.
Qed.

Lemma get_tlx_cmd_group_eq o r e :
  opt_ok tlx_cmd_ok o -> rflag e 0x10 = is_some o ->
  get_tlx_cmd_group (enc enc_tlx_cmd o ++ r, e) = Some (r, put_tlx_command o e).
Proof.
  intros Ho Hf. unfold get_tlx_cmd_group. rewrite Hf.
  destruct o as [c|]; [|reflexivity]. cbn in Ho. unfold tlx_cmd_ok in Ho. destruct_and!.
  cbn [is_some enc from_option]. unfold enc_tlx_cmd. rd_all. reflexivity.
Qed.

Lemma get_tlx_cmd_data_group_eq o r e :
  opt_ok (beat_ok 256) o -> event_wf e -> rflag e 0x08 = is_some o ->
  (is_some o = true -> cmd_cnt e = be_val (cnt o)) ->
  get_tlx_cmd_data_group (enc enc_beat o ++ r, e) = Some (r, put_tlx_cmd_data o e).
Proof.
  intros Ho Hwf Hf Hc. unfold get_tlx_cmd_data_group. rewrite Hf.
  destruct o as [[bus bdi]|]; [|reflexivity]. rewrite Hc by done.
  destruct (field_get (p := tlx_afu_cmd_data_bus) e Hwf) as [Hl _].
  destruct Ho as [Hb _]. cbn in Hb. cbn [is_some enc from_option enc_beat app].
  eapply bind_eq; [reflexivity|]. cbv beta iota. unfold cnt.
  rewrite be_val_bytes_small by (unfold is_u; simpl; lia). rewrite Nat2Z.id.
  eapply bind_eq; [apply rd_into_front; lia|]. reflexivity.
Qed.

Lemma get_tlx_resp_group_eq o r e :
  opt_ok tlx_resp_ok o -> rflag e 0x04 = is_some o ->
  get_tlx_resp_group (enc enc_tlx_resp o ++ r, e) = Some (r, put_tlx_response o e).
Proof.
  intros Ho Hf. unfold get_tlx_resp_group. rewrite Hf.
  destruct o as [c|]; [|reflexivity]. cbn in Ho. unfold tlx_resp_ok in Ho. destruct_and!.
  cbn [is_some enc from_option]. unfold enc_tlx_resp. rd_all. reflexivity.
Qed.

Lemma get_tlx_resp_data_group_eq o r e :
  opt_ok (beat_ok 256) o -> event_wf e -> rflag e 0x02 = is_some o ->
  (is_some o = true -> resp_cnt e = be_val (cnt o)) ->
  get_tlx_resp_data_group (enc enc_beat o ++ r, e) = Some (r, put_tlx_resp_data o e).
Proof.
  intros Ho Hwf Hf Hc. unfold get_tlx_resp_data_group. rewrite Hf.
  destruct o as [[bus bdi]|]; [|reflexivity]. rewrite Hc by done.
  destruct (field_get (p := tlx_afu_resp_data) e Hwf) as [Hl _].
  destruct Ho as [Hb _]. cbn in Hb. cbn [is_some enc from_option enc_beat app].
  eapply bind_eq; [reflexivity|]. cbv beta iota. unfold cnt.
  rewrite be_val_bytes_small by (unfold is_u; simpl; lia). rewrite Nat2Z.id.
  eapply bind_eq; [apply rd_into_front; lia|]. reflexivity.
Qed.

Ltac list_cases l n :=
  lazymatch n with
  | O => destruct l; [|discriminate]
  | S ?n => let l' := fresh l in destruct l as [|? l']; [discriminate|list_cases l' n]
  end.

Lemma get_tlx_credits_group_eq o r e :
  opt_ok (credits_ok 9) o -> rflag e 0x01 = is_some o ->
  get_tlx_credits_group (enc id o ++ r, e) = Some (r, put_tlx_credits o e).
Proof.
  intros Ho Hf. unfold get_tlx_credits_group. rewrite Hf.
  destruct o as [l|]; [|reflexivity]. destruct Ho as [Hl _].
  list_cases l 9%nat. reflexivity.
Qed.

(** Delivering keeps the typing invariant and does not touch [rbuf]. *)
Lemma put_cfg_wf o e : opt_ok cfg_ok o -> event_wf e -> event_wf (put_cfg o e).
Proof.
  destruct o as [[c [bus bdi]]|]; cbn [put_cfg]; intros Ho Hwf; [|solve_wf].
  destruct Ho as [Hc [? ?]]. unfold cfg_cmd_ok in Hc. cbn in *. destruct_and!. solve_wf.
Qed.
Lemma put_tlx_command_wf o e : opt_ok tlx_cmd_ok o -> event_wf e -> event_wf (put_tlx_command o e).
Proof.
  destruct o as [c|]; cbn [put_tlx_command]; intros Ho Hwf; [|solve_wf].
  cbn in Ho. unfold tlx_cmd_ok in Ho. destruct_and!. solve_wf.
Qed.
Lemma put_tlx_cmd_data_wf o e : opt_ok (beat_ok 256) o -> event_wf e -> event_wf (put_tlx_cmd_data o e).
Proof.
  destruct o as [[bus bdi]|]; cbn [put_tlx_cmd_data]; intros Ho Hwf; [|solve_wf].
  destruct Ho as (? & ? & ?). cbn in *.
  assert (is_array 256 (overwrite (tlx_afu_cmd_data_bus e) 0 bus))
    by (apply overwrite_array; [by eapply field_get|lia|done]).
  solve_wf.
Qed.
Lemma put_tlx_response_wf o e : opt_ok tlx_resp_ok o -> event_wf e -> event_wf (put_tlx_response o e).
Proof.
  destruct o as [c|]; cbn [put_tlx_response]; intros Ho Hwf; [|solve_wf].
  cbn in Ho. unfold tlx_resp_ok in Ho. destruct_and!. solve_wf.
Qed.
Lemma put_tlx_resp_data_wf o e : opt_ok (beat_ok 256) o -> event_wf e -> event_wf (put_tlx_resp_data o e).
Proof.
  destruct o as [[bus bdi]|]; cbn [put_tlx_resp_data]; intros Ho Hwf; [|solve_wf].
  destruct Ho as (? & ? & ?). cbn in *.
  assert (is_array 256 (overwrite (tlx_afu_resp_data e) 0 bus))
    by (apply overwrite_array; [by eapply field_get|lia|done]).
  solve_wf.
Qed.

Lemma credit_up_u8 flag x : is_u 8 x -> is_u 8 (credit_up flag x).
Proof. intros. unfold credit_up. case_match; [|done]. apply is_u_mod. lia. Qed.

#[export] Hint Extern 5 (is_u 8 (credit_up _ _)) =>
  (apply credit_up_u8; eapply field_get; eassumption) : ocse.

Ltac credit_bytes Hb :=
  repeat (apply List.Forall_cons_iff in Hb; let H := fresh in destruct Hb as [H Hb]).

Lemma put_tlx_credits_wf o e : opt_ok (credits_ok 9) o -> event_wf e -> event_wf (put_tlx_credits o e).
Proof.
  intros Ho Hwf. destruct o as [l|]; [|cbn [put_tlx_credits]; solve_wf].
  destruct Ho as [Hl Hb]. list_cases l 9%nat. credit_bytes Hb.
  cbn [put_tlx_credits]. solve_wf.
Qed.

Lemma deliver_host_wf m e : host_msg_wf m -> event_wf e -> event_wf (deliver_host m e).
Proof.
  intros (? & ? & ? & ? & ? & ?) ?. unfold deliver_host.
  auto 10 using put_cfg_wf, put_tlx_command_wf, put_tlx_cmd_data_wf, put_tlx_response_wf,
    put_tlx_resp_data_wf, put_tlx_credits_wf.
Qed.

Lemma put_cfg_rbuf o e : rbuf (put_cfg o e) = rbuf e.
Proof. by destruct o as [[? [? ?]]|]. Qed.
Lemma put_tlx_command_rbuf o e : rbuf (put_tlx_command o e) = rbuf e.
Proof. by destruct o. Qed.
Lemma put_tlx_cmd_data_rbuf o e : rbuf (put_tlx_cmd_data o e) = rbuf e.
Proof. by destruct o as [[? ?]|]. Qed.
Lemma put_tlx_response_rbuf o e : rbuf (put_tlx_response o e) = rbuf e.
Proof. by destruct o. Qed.
Lemma put_tlx_resp_data_rbuf o e : rbuf (put_tlx_resp_data o e) = rbuf e.
Proof. by destruct o as [[? ?]|]. Qed.

Lemma rflag_rbuf e e' m : rbuf e' = rbuf e -> rflag e' m = rflag e m.
Proof. unfold rflag, rbuf_at. by intros ->. Qed.
Lemma cmd_cnt_rbuf e e' : rbuf e' = rbuf e -> cmd_cnt e' = cmd_cnt e.
Proof. unfold cmd_cnt, rbuf_at. by intros ->. Qed.
Lemma resp_cnt_rbuf e e' : rbuf e' = rbuf e -> resp_cnt e' = resp_cnt e.
Proof. unfold resp_cnt, rbuf_at. by intros ->. Qed.

(** What the header of a frame says of its message. *)
Definition host_header (m : host_msg) (e : AFU_EVENT) : Prop :=
  rflag e 0x40 = true /\ rflag e 0x20 = is_some (hm_cfg m) /\
  rflag e 0x10 = is_some (hm_cmd m) /\ rflag e 0x08 = is_some (hm_cmd_data m) /\
  rflag e 0x04 = is_some (hm_resp m) /\ rflag e 0x02 = is_some (hm_resp_data m) /\
  rflag e 0x01 = is_some (hm_credits m).
Definition host_counts (m : host_msg) (e : AFU_EVENT) : Prop :=
  (is_some (hm_cmd_data m) = true -> cmd_cnt e = be_val (cnt (hm_cmd_data m))) /\
  (is_some (hm_resp_data m) = true -> resp_cnt e = be_val (cnt (hm_resp_data m))).

Lemma parse_tlx_frame_eq m e r :
  host_msg_wf m -> event_wf e -> host_header m e -> host_counts m e ->
  drop 5 (rbuf e) = host_body m ++ r ->
  parse_tlx_frame e = Some (deliver_host m e <| rbp := 0 |>).
Proof.
  intros (W1 & W2 & W3 & W4 & W5 & W6) Hwf (_ & F1 & F2 & F3 & F4 & F5 & F6) [C1 C2] Hr.
  unfold parse_tlx_frame. rewrite Hr. unfold host_body. rewrite <- !app_assoc.
  eapply bind_eq; [by apply get_cfg_group_eq|].
  pose proof (put_cfg_wf _ _ W1 Hwf) as Hwf1.
  pose proof (put_cfg_rbuf (hm_cfg m) e) as R1.
  eapply bind_eq; [apply get_tlx_cmd_group_eq; [done|by rewrite (rflag_rbuf _ _ _ R1)]|].
  pose proof (put_tlx_command_wf _ _ W2 Hwf1) as Hwf2.
  pose proof (put_tlx_command_rbuf (hm_cmd m) (put_cfg (hm_cfg m) e)) as R2. rewrite R1 in R2.
  eapply bind_eq; [apply get_tlx_cmd_data_group_eq;
    [done|done|by rewrite (rflag_rbuf _ _ _ R2)|by rewrite (cmd_cnt_rbuf _ _ R2)]|].
  pose proof (put_tlx_cmd_data_wf _ _ W3 Hwf2) as Hwf3.
  pose proof (put_tlx_cmd_data_rbuf (hm_cmd_data m) (put_tlx_command (hm_cmd m) (put_cfg (hm_cfg m) e))) as R3.
  rewrite R2 in R3.
  eapply bind_eq; [apply get_tlx_resp_group_eq; [done|by rewrite (rflag_rbuf _ _ _ R3)]|].
  pose proof (put_tlx_response_wf _ _ W4 Hwf3) as Hwf4.
  epose proof (put_tlx_response_rbuf (hm_resp m) _) as R4. rewrite R3 in R4.
  eapply bind_eq; [apply get_tlx_resp_data_group_eq;
    [done|done|by rewrite (rflag_rbuf _ _ _ R4)|by rewrite (resp_cnt_rbuf _ _ R4)]|].
  epose proof (put_tlx_resp_data_rbuf (hm_resp_data m) _) as R5. rewrite R4 in R5.
  eapply bind_eq; [apply get_tlx_credits_group_eq; [done|by rewrite (rflag_rbuf _ _ _ R5)]|].
  reflexivity.
Qed.

(** ** The AFU's frame at the host *)

(** A command or its data arriving is a credit the host owes back. *)
Definition put_afu_command (o : option afu_cmd) (e : AFU_EVENT) : AFU_EVENT :=
  match o with
  | Some c =>
      e <| afu_tlx_cmd_valid := 1 |> <| tlx_afu_cmd_credit := 1 |>
        <| tlx_afu_credit_valid := 1 |> <| afu_tlx_cmd_opcode := ac_opcode c |>
        <| afu_tlx_cmd_actag := ac_actag c |> <| afu_tlx_cmd_stream_id := ac_stream_id c |>
        <| afu_tlx_cmd_ea_or_obj := ac_ea_or_obj c |> <| afu_tlx_cmd_afutag := ac_afutag c |>
        <| afu_tlx_cmd_dl := ac_dl c |> <| afu_tlx_cmd_pl := ac_pl c |>
        <| afu_tlx_cmd_be := ac_be c |> <| afu_tlx_cmd_flag := ac_flag c |>
        <| afu_tlx_cmd_endian := ac_endian c |> <| afu_tlx_cmd_bdf := ac_bdf c |>
        <| afu_tlx_cmd_pasid := ac_pasid c |> <| afu_tlx_cmd_pg_size := ac_pg_size c |>
  | None => e <| afu_tlx_cmd_valid := 0 |> <| tlx_afu_cmd_credit := 0 |>
  end.

Definition put_afu_cdata (o : option data_beat) (e : AFU_EVENT) : AFU_EVENT :=
  match o with
  | Some (bus, bdi) =>
      e <| afu_tlx_cdata_valid := 1 |> <| tlx_afu_cmd_data_credit := 1 |>
        <| tlx_afu_credit_valid := 1 |> <| afu_tlx_cdata_bdi := bdi |>
        <| afu_tlx_cdata_bus := bus |>
  | None => e <| afu_tlx_cdata_valid := 0 |> <| tlx_afu_cmd_data_credit := 0 |>
  end.

Definition put_afu_response (o : option afu_resp) (e : AFU_EVENT) : AFU_EVENT :=
  match o with
  | Some r =>
      e <| afu_tlx_resp_valid := 1 |> <| afu_tlx_resp_opcode := ar_opcode r |>
        <| afu_tlx_resp_dl := ar_dl r |> <| afu_tlx_resp_capptag := ar_capptag r |>
        <| afu_tlx_resp_dp := ar_dp r |> <| afu_tlx_resp_code := ar_code r |>
  | None => e <| afu_tlx_resp_valid := 0 |> <| tlx_afu_resp_credit := 0 |>
  end.

Definition put_afu_rdata (o : option data_beat) (e : AFU_EVENT) : AFU_EVENT :=
  match o with
  | Some (bus, bdi) =>
      e <| afu_tlx_rdata_valid := 1 |> <| afu_tlx_rdata_bdi := bdi |>
        <| afu_tlx_rdata_bus := bus |>
  | None => e <| afu_tlx_rdata_valid := 0 |> <| tlx_afu_resp_data_credit := 0 |>
  end.

Definition put_cfg_response (o : option (cfg_resp * data_beat)) (e : AFU_EVENT) : AFU_EVENT :=
  match o with
  | Some (r, (bus, bdi)) =>
      e <| cfg_tlx_resp_valid := 1 |> <| cfg_tlx_resp_opcode := cr_opcode r |>
        <| cfg_tlx_resp_capptag := cr_capptag r |> <| cfg_tlx_resp_code := cr_code r |>
        <| cfg_tlx_rdata_bdi := bdi |> <| cfg_tlx_rdata_bus := bus |>
  | None => e <| cfg_tlx_resp_valid := 0 |>
  end.

Definition put_afu_credits (o : option (list Z)) (e : AFU_EVENT) : AFU_EVENT :=
  match o with
  | Some [ri; ci; gi; rc; cc; gc; rreq; rcnt; creq; ccnt] =>
      e <| afu_tlx_credit_req_valid := 1 |>
        <| afu_tlx_resp_initial_credit := ri |> <| afu_tlx_cmd_initial_credit := ci |>
        <| cfg_tlx_initial_credit := gi |> <| afu_tlx_resp_credit := credit_clear rc |>
        <| afu_tlx_cmd_credit := credit_clear cc |>
        <| cfg_tlx_credit_return := credit_clear gc |>
        <| afu_tlx_resp_rd_req := rreq |> <| afu_tlx_resp_rd_cnt := rcnt |>
        <| afu_tlx_cmd_rd_req := creq |> <| afu_tlx_cmd_rd_cnt := ccnt |>
        <| afu_tlx_cmd_credits_available := credit_up cc (afu_tlx_cmd_credits_available e) |>
        <| cfg_tlx_credits_available := credit_up gc (cfg_tlx_credits_available e) |>
        <| afu_tlx_resp_credits_available := credit_up rc (afu_tlx_resp_credits_available e) |>
  | _ => e <| afu_tlx_credit_req_valid := 0 |>
  end.

Definition deliver_afu (m : afu_msg) (e : AFU_EVENT) : AFU_EVENT :=
  put_afu_credits (am_credits m) (put_cfg_response (am_cfg_resp m)
    (put_afu_rdata (am_rdata m) (put_afu_response (am_resp m)
      (put_afu_cdata (am_cdata m) (put_afu_command (am_cmd m) e))))).

Lemma get_afu_cmd_group_eq o r e :
  opt_ok afu_cmd_ok o -> event_wf e -> rflag e 0x02 = is_some o ->
  get_afu_cmd_group (enc enc_afu_cmd o ++ r, e) = Some (r, put_afu_command o e).
Proof.
  intros Ho Hwf Hf. unfold get_afu_cmd_group. rewrite Hf.
  destruct o as [c|]; [|reflexivity]. cbn in Ho. unfold afu_cmd_ok in Ho. destruct_and!.
  pose proof (field_get (p := afu_tlx_cmd_ea_or_obj) e Hwf).
  cbn [is_some enc from_option]. unfold enc_afu_cmd. rd_all. reflexivity.
Qed.

Lemma get_afu_cdata_group_eq o r e :
  opt_ok (beat_exact 64) o -> event_wf e -> rflag e 0x04 = is_some o ->
  (is_some o = true -> cmd_cnt e = be_val (cnt o)) ->
  get_afu_cdata_group (enc enc_beat o ++ r, e) = Some (r, put_afu_cdata o e).
Proof.
  intros Ho Hwf Hf Hc. unfold get_afu_cdata_group. rewrite Hf.
  destruct o as [[bus bdi]|]; [|reflexivity]. rewrite Hc by done.
  destruct (field_get (p := afu_tlx_cdata_bus) e Hwf) as [Hl _].
  destruct Ho as [[Hb _] _]. cbn in Hb. cbn [is_some enc from_option enc_beat app].
  eapply bind_eq; [reflexivity|]. cbv beta iota. unfold cnt. rewrite Hb.
  change (Z.to_nat _) with 64%nat.
  eapply bind_eq; [by apply rd_into_full|]. reflexivity.
Qed.

Lemma get_afu_resp_group_eq o r e :
  opt_ok afu_resp_ok o -> rflag e 0x08 = is_some o ->
  get_afu_resp_group (enc enc_afu_resp o ++ r, e) = Some (r, put_afu_response o e).
Proof.
  intros Ho Hf. unfold get_afu_resp_group. rewrite Hf.
  destruct o as [c|]; [|reflexivity]. cbn in Ho. unfold afu_resp_ok in Ho. destruct_and!.
  cbn [is_some enc from_option]. unfold enc_afu_resp. rd_all. reflexivity.
Qed.

Lemma get_afu_rdata_group_eq o r e :
  opt_ok (beat_exact 64) o -> event_wf e -> rflag e 0x20 = is_some o ->
  get_afu_rdata_group (enc enc_beat o ++ r, e) = Some (r, put_afu_rdata o e).
Proof.
  intros Ho Hwf Hf. unfold get_afu_rdata_group. rewrite Hf.
  destruct o as [[bus bdi]|]; [|reflexivity].
  destruct (field_get (p := afu_tlx_rdata_bus) e Hwf) as [Hl _].
  destruct Ho as [[Hb _] _]. cbn in Hb. cbn [is_some enc from_option enc_beat app].
  eapply bind_eq; [reflexivity|]. cbv beta iota.
  eapply bind_eq; [by apply rd_into_full|]. reflexivity.
Qed.

Definition cfg_rsp_ok (x : cfg_resp * data_beat) : Prop := cfg_resp_ok x.1 /\ beat_exact 4 x.2.

Lemma get_cfg_resp_group_eq o r e :
  opt_ok cfg_rsp_ok o -> event_wf e -> rflag e 0x40 = is_some o ->
  get_cfg_resp_group (enc enc_cfg_resp o ++ r, e) = Some (r, put_cfg_response o e).
Proof.
  intros Ho Hwf Hf. unfold get_cfg_resp_group. rewrite Hf.
  destruct o as [[c [bus bdi]]|]; [|reflexivity].
  pose proof (field_get (p := cfg_tlx_rdata_bus) e Hwf).
  destruct Ho as [Hc [Hb _]]. unfold cfg_resp_ok in Hc. destruct_and!.
  cbn [is_some enc from_option enc_cfg_resp]. rd_all. reflexivity.
Qed.

Lemma get_afu_credits_group_eq o r e :
  opt_ok (credits_ok 10) o -> rflag e 0x01 = is_some o ->
  get_afu_credits_group (enc id o ++ r, e) = Some (r, put_afu_credits o e).
Proof.
  intros Ho Hf. unfold get_afu_credits_group. rewrite Hf.
  destruct o as [l|]; [|reflexivity]. destruct Ho as [Hl _].
  list_cases l 10%nat. reflexivity.
Qed.

Lemma credit_clear_u8 flag : is_u 8 flag -> is_u 8 (credit_clear flag).
Proof. intros. unfold credit_clear. by case_match. Qed.
#[export] Hint Resolve credit_clear_u8 : ocse.

Lemma put_afu_command_wf o e : opt_ok afu_cmd_ok o -> event_wf e -> event_wf (put_afu_command o e).
Proof.
  destruct o as [c|]; cbn [put_afu_command]; intros Ho Hwf; [|solve_wf].
  cbn in Ho. unfold afu_cmd_ok in Ho. destruct_and!. solve_wf.
Qed.
Lemma put_afu_cdata_wf o e : opt_ok (beat_exact 64) o -> event_wf e -> event_wf (put_afu_cdata o e).
Proof.
  destruct o as [[bus bdi]|]; cbn [put_afu_cdata]; intros Ho Hwf; [destruct Ho|]; solve_wf.
Qed.
Lemma put_afu_response_wf o e : opt_ok afu_resp_ok o -> event_wf e -> event_wf (put_afu_response o e).
Proof.
  destruct o as [c|]; cbn [put_afu_response]; intros Ho Hwf; [|solve_wf].
  cbn in Ho. unfold afu_resp_ok in Ho. destruct_and!. solve_wf.
Qed.
Lemma put_afu_rdata_wf o e : opt_ok (beat_exact 64) o -> event_wf e -> event_wf (put_afu_rdata o e).
Proof.
  destruct o as [[bus bdi]|]; cbn [put_afu_rdata]; intros Ho Hwf; [destruct Ho|]; solve_wf.
Qed.
Lemma put_cfg_response_wf o e : opt_ok cfg_rsp_ok o -> event_wf e -> event_wf (put_cfg_response o e).
Proof.
  destruct o as [[c [bus bdi]]|]; cbn [put_cfg_response]; intros Ho Hwf; [|solve_wf].
  destruct Ho as [Hc [? ?]]. unfold cfg_resp_ok in Hc. cbn in *. destruct_and!. solve_wf.
Qed.
Lemma put_afu_credits_wf o e : opt_ok (credits_ok 10) o -> event_wf e -> event_wf (put_afu_credits o e).
Proof.
  intros Ho Hwf. destruct o as [l|]; [|cbn [put_afu_credits]; solve_wf].
  destruct Ho as [Hl Hb]. list_cases l 10%nat. credit_bytes Hb.
  cbn [put_afu_credits]. solve_wf.
Qed.

Lemma deliver_afu_wf m e : afu_msg_wf m -> event_wf e -> event_wf (deliver_afu m e).
Proof.
  intros (? & ? & ? & ? & ? & ?) ?. unfold deliver_afu.
  auto 10 using put_afu_command_wf, put_afu_cdata_wf, put_afu_response_wf,
    put_afu_rdata_wf, put_cfg_response_wf, put_afu_credits_wf.
Qed.

Lemma put_afu_command_rbuf o e : rbuf (put_afu_command o e) = rbuf e.
Proof. by destruct o. Qed.
Lemma put_afu_cdata_rbuf o e : rbuf (put_afu_cdata o e) = rbuf e.
Proof. by destruct o as [[? ?]|]. Qed.
Lemma put_afu_response_rbuf o e : rbuf (put_afu_response o e) = rbuf e.
Proof. by destruct o. Qed.
Lemma put_afu_rdata_rbuf o e : rbuf (put_afu_rdata o e) = rbuf e.
Proof. by destruct o as [[? ?]|]. Qed.
Lemma put_cfg_response_rbuf o e : rbuf (put_cfg_response o e) = rbuf e.
Proof. by destruct o as [[? [? ?]]|]. Qed.

Definition afu_header (m : afu_msg) (e : AFU_EVENT) : Prop :=
  rflag e 0x10 = true /\ rflag e 0x02 = is_some (am_cmd m) /\
  rflag e 0x04 = is_some (am_cdata m) /\ rflag e 0x08 = is_some (am_resp m) /\
  rflag e 0x20 = is_some (am_rdata m) /\ rflag e 0x40 = is_some (am_cfg_resp m) /\
  rflag e 0x01 = is_some (am_credits m).
Definition afu_counts (m : afu_msg) (e : AFU_EVENT) : Prop :=
  (is_some (am_cdata m) = true -> cmd_cnt e = be_val (cnt (am_cdata m))) /\
  (is_some (am_rdata m) = true -> resp_cnt e = be_val (cnt (am_rdata m))).

Lemma parse_afu_frame_eq m e r :
  afu_msg_wf m -> event_wf e -> afu_header m e -> afu_counts m e ->
  drop 5 (rbuf e) = afu_body m ++ r ->
  parse_afu_frame e = Some (deliver_afu m e <| rbp := 0 |>).
Proof.
  intros (W1 & W2 & W3 & W4 & W5 & W6) Hwf (_ & F1 & F2 & F3 & F4 & F5 & F6) [C1 C2] Hr.
  unfold parse_afu_frame. rewrite Hr. unfold afu_body. rewrite <- !app_assoc.
  eapply bind_eq; [by apply get_afu_cmd_group_eq|].
  pose proof (put_afu_command_wf _ _ W1 Hwf) as Hwf1.
  pose proof (put_afu_command_rbuf (am_cmd m) e) as R1.
  eapply bind_eq; [apply get_afu_cdata_group_eq;
    [done|done|by rewrite (rflag_rbuf _ _ _ R1)|by rewrite (cmd_cnt_rbuf _ _ R1)]|].
  pose proof (put_afu_cdata_wf _ _ W2 Hwf1) as Hwf2.
  epose proof (put_afu_cdata_rbuf (am_cdata m) _) as R2. rewrite R1 in R2.
  eapply bind_eq; [apply get_afu_resp_group_eq; [done|by rewrite (rflag_rbuf _ _ _ R2)]|].
  pose proof (put_afu_response_wf _ _ W3 Hwf2) as Hwf3.
  epose proof (put_afu_response_rbuf (am_resp m) _) as R3. rewrite R2 in R3.
  eapply bind_eq; [apply get_afu_rdata_group_eq; [done|done|by rewrite (rflag_rbuf _ _ _ R3)]|].
  pose proof (put_afu_rdata_wf _ _ W4 Hwf3) as Hwf4.
  epose proof (put_afu_rdata_rbuf (am_rdata m) _) as R4. rewrite R3 in R4.
  eapply bind_eq; [apply get_cfg_resp_group_eq; [done|done|by rewrite (rflag_rbuf _ _ _ R4)]|].
  epose proof (put_cfg_response_rbuf (am_cfg_resp m) _) as R5. rewrite R4 in R5.
  eapply bind_eq; [apply get_afu_credits_group_eq; [done|by rewrite (rflag_rbuf _ _ _ R5)]|].
  reflexivity.
Qed.
