(* ===== verification/EventEq.v ===== *)
(** Events that differ in their socket buffers only ([≡]), and the operations of
    the link that respect this equivalence. *)
From S2P Require Import Prelude Utils Event Sock TlxWire Link.

(** * Events up to their buffers *)

Definition strip (e : AFU_EVENT) : AFU_EVENT :=
  e <| tbuf := [] |> <| rbuf := [] |> <| rbp := 0 |>.

#[export] Instance event_equiv : Equiv AFU_EVENT := fun e e' => strip e = strip e'.
#[export] Instance event_equivalence : Equivalence (≡@{AFU_EVENT}).
Proof. split; repeat intro; unfold equiv, event_equiv in *; congruence. Qed.

Lemma set_tbuf_equiv e v : e <| tbuf := v |> ≡ e.
Proof. reflexivity. Qed.
Lemma set_rbuf_equiv e v : e <| rbuf := v |> ≡ e.
Proof. reflexivity. Qed.
Lemma set_rbp_equiv e v : e <| rbp := v |> ≡ e.
Proof. reflexivity. Qed.

(** [f] looks at nothing but what [≡] preserves. *)
Class Oblivious (f : AFU_EVENT -> AFU_EVENT) : Prop :=
  oblivious e : strip (f e) = strip (f (strip e)).

#[export] Instance oblivious_proper f : Oblivious f -> Proper ((≡) ==> (≡)) f.
Proof.
  intros H e e' He. unfold equiv, event_equiv in *.
  by rewrite (H e), (H e'), He.
Qed.

#[export] Instance put_cfg_obl o : Oblivious (put_cfg o).
Proof. intros e. destruct o as [[c [bus bdi]]|]; reflexivity. Qed.
#[export] Instance put_tlx_command_obl o : Oblivious (put_tlx_command o).
Proof. intros e. destruct o as [c|]; reflexivity. Qed.
#[export] Instance put_tlx_cmd_data_obl o : Oblivious (put_tlx_cmd_data o).
Proof. intros e. destruct o as [[bus bdi]|]; reflexivity. Qed.
#[export] Instance put_tlx_response_obl o : Oblivious (put_tlx_response o).
Proof. intros e. destruct o as [c|]; reflexivity. Qed.
#[export] Instance put_tlx_resp_data_obl o : Oblivious (put_tlx_resp_data o).
Proof. intros e. destruct o as [[bus bdi]|]; reflexivity. Qed.
#[export] Instance put_afu_command_obl o : Oblivious (put_afu_command o).
Proof. intros e. destruct o as [c|]; reflexivity. Qed.
#[export] Instance put_afu_cdata_obl o : Oblivious (put_afu_cdata o).
Proof. intros e. destruct o as [[bus bdi]|]; reflexivity. Qed.
#[export] Instance put_afu_response_obl o : Oblivious (put_afu_response o).
Proof. intros e. destruct o as [c|]; reflexivity. Qed.
#[export] Instance put_afu_rdata_obl o : Oblivious (put_afu_rdata o).
Proof. intros e. destruct o as [[bus bdi]|]; reflexivity. Qed.
#[export] Instance put_cfg_response_obl o : Oblivious (put_cfg_response o).
Proof. intros e. destruct o as [[c [bus bdi]]|]; reflexivity. Qed.
#[export] Instance put_tlx_credits_obl o : Oblivious (put_tlx_credits o).
Proof. intros e. destruct o as [l|]; [|reflexivity]. unfold put_tlx_credits. repeat case_match; reflexivity. Qed.
#[export] Instance put_afu_credits_obl o : Oblivious (put_afu_credits o).
Proof. intros e. destruct o as [l|]; [|reflexivity]. unfold put_afu_credits. repeat case_match; reflexivity. Qed.

#[export] Instance deliver_host_proper m : Proper ((≡) ==> (≡)) (deliver_host m).
Proof. intros e e' He. unfold deliver_host. by do 6 (apply oblivious_proper; [apply _|]). Qed.
#[export] Instance deliver_afu_proper m : Proper ((≡) ==> (≡)) (deliver_afu m).
Proof. intros e e' He. unfold deliver_afu. by do 6 (apply oblivious_proper; [apply _|]). Qed.

(** The condition of [*_sent] reads a field the buffers do not hold. *)
Ltac cond_field p e :=
  unfold cond_event; cbv zeta;
  repeat match goal with
  | |- context [truthy (p ?x)] => lazymatch x with e => fail | _ => change (p x) with (p e) end
  end;
  destruct (truthy (p e)); reflexivity.

#[export] Instance host_sent_obl : Oblivious host_sent.
Proof. intros e. unfold host_sent. cond_field tlx_afu_credit_valid e. Qed.
#[export] Instance afu_sent_obl : Oblivious afu_sent.
Proof. intros e. unfold afu_sent. cond_field afu_tlx_credit_req_valid e. Qed.
