(* ===== verification/Cycle.v ===== *)
(** The lock-step protocol: receiving a frame, one full cycle of both ends, and
    the initial handshake.  The theorems determine the events up to their socket
    buffers ([≡]). *)
From S2P Require Import Prelude Utils Event Sock TlxWire Link EventEq.

(** * Receiving a frame that has arrived *)

(** Both ends of the buffer arithmetic: [l] fits behind [rbp]. *)
Lemma recv_at_eq n l rest rx en tx plan e :
  0 < n -> Z.of_nat (length l) = n -> length (rbuf e) = 1070%nat ->
  0 <= rbp e -> rbp e + n <= 1070 ->
  recv_at n e (Conn (Chunk (l ++ rest) :: rx) en tx plan) =
  Some (RxGo (e <| rbuf := overwrite (rbuf e) (Z.to_nat (rbp e)) l |>
                <| rbp := rbp e + n |>) (Conn (put_back rest rx) en tx plan)).
Proof.
  intros Hn Hl Hb H0 Hle. unfold recv_at, recv_rbuf.
  rewrite recv_chunk by done. unfold guard_ub. rewrite Hl, Hb.
  match goal with |- context [?a <=? ?b] => replace (a <=? b) with true by (symmetry; apply Z.leb_le; lia) end.
  cbn [mbind option_bind].
  destruct l as [|x l]; [simpl in Hl; lia|]. rewrite Hl.
  unfold u32. rewrite Z.mod_small; [reflexivity|].
  change (rbp (set_fld rbuf _ e)) with (rbp e). change (2 ^ 32) with 4294967296. lia.
Qed.

Lemma put_back_cons l rx : l <> [] -> put_back l rx = Chunk l :: rx.
Proof. by destruct l. Qed.

Lemma recv_first_eq x l rest rx en tx plan e :
  length (rbuf e) = 1070%nat -> rbp e = 0 ->
  recv_first e (Conn (Chunk (x :: l ++ rest) :: rx) en tx plan) =
  Some (RxGo (e <| rbuf := overwrite (rbuf e) 0 [x] |> <| rbp := 1 |>)
             (Conn (put_back (l ++ rest) rx) en tx plan)).
Proof.
  intros Hb H0. unfold recv_first. rewrite H0. cbn [Z.eqb].
  change (x :: l ++ rest) with ([x] ++ (l ++ rest)).
  rewrite recv_at_eq by first [done|lia]. by rewrite H0.
Qed.

(** The two receives that follow the first byte. *)
Lemma recv_rest_eq size buf x cnts body rest rx en tx plan e :
  length cnts = 4%nat -> body <> [] -> (length body <= 1065)%nat ->
  length buf = 1070%nat -> rbuf e = overwrite buf 0 [x] -> rbp e = 1 ->
  (forall e', rbuf e' = overwrite buf 0 (x :: cnts) -> size e' = 5 + Z.of_nat (length body)) ->
  recv_rest size e (Conn (Chunk ((cnts ++ body) ++ rest) :: rx) en tx plan) =
  Some (RxGo (e <| rbuf := overwrite buf 0 (x :: cnts ++ body) |>
                <| rbp := 5 + Z.of_nat (length body) |>) (Conn (put_back rest rx) en tx plan)).
Proof.
  intros Hc Hb0 Hb Hbuf He Hp Hs. unfold recv_rest.
  assert (Hl1 : length (rbuf e) = 1070%nat)
    by (rewrite He, length_overwrite by (simpl; lia); done).
  rewrite <- app_assoc. eapply bind_eq.
  { apply recv_at_eq; try done; rewrite ?Hp; lia. }
  cbv beta iota. rewrite Hp.
  assert (Hr : overwrite (rbuf e) (Z.to_nat 1) cnts = overwrite buf 0 (x :: cnts)).
  { rewrite He. change (Z.to_nat 1) with (0 + length [x])%nat.
    by rewrite overwrite_app by (simpl; lia). }
  rewrite Hr, Hs by reflexivity.
  change (rbp (set_fld rbp (1 + 4) _)) with 5.
  rewrite put_back_cons by (by destruct body).
  assert (0 < length body)%nat by (destruct body; [done|simpl; lia]).
  assert (Hl2 : length (overwrite buf 0 (x :: cnts)) = 1070%nat)
    by (rewrite length_overwrite by (simpl; lia); done).
  assert (Hn : u32 (5 + Z.of_nat (length body) - 5) = Z.of_nat (length body)).
  { unfold u32. rewrite Z.mod_small; [lia|]. change (2 ^ 32) with 4294967296. lia. }
  rewrite Hn. eapply bind_eq.
  { apply recv_at_eq; [lia|done|exact Hl2|by vm_compute|].
    change (rbp (set_fld rbp (1 + 4) _)) with 5. lia. }
  cbv beta iota. change (rbp (set_fld rbp (1 + 4) _)) with 5.
  change (rbp (set_fld rbp (5 + ?n) _)) with (5 + n).
  rewrite Z.ltb_irrefl. do 2 f_equal.
  change (rbuf (set_fld rbp _ (set_fld rbuf ?v e))) with v.
  assert (Hr2 : overwrite (overwrite buf 0 (x :: cnts)) (Z.to_nat 5) body
    = overwrite buf 0 (x :: cnts ++ body)).
  { change (Z.to_nat 5) with 5%nat.
    replace 5%nat with (0 + length (x :: cnts))%nat by (simpl; lia).
    rewrite overwrite_app; [done|]. rewrite length_app. simpl. lia. }
  rewrite Hr2. reflexivity.
Qed.

(** ** The header *)

Definition host_idle (m : host_msg) : bool :=
  negb (is_some (hm_cfg m) || is_some (hm_cmd m) || is_some (hm_cmd_data m) ||
        is_some (hm_resp m) || is_some (hm_resp_data m) || is_some (hm_credits m)).
Definition afu_idle (m : afu_msg) : bool :=
  negb (is_some (am_cmd m) || is_some (am_cdata m) || is_some (am_resp m) ||
        is_some (am_rdata m) || is_some (am_cfg_resp m) || is_some (am_credits m)).

(** A frame that is only a clock leaves the event as it is. *)
Definition receive_host (m : host_msg) (e : AFU_EVENT) : AFU_EVENT :=
  if host_idle m then e else deliver_host m e.
Definition receive_afu (m : afu_msg) (e : AFU_EVENT) : AFU_EVENT :=
  if afu_idle m then e else deliver_afu m e.

Lemma rbuf_at_overwrite e buf l i :
  rbuf e = overwrite buf 0 l -> (i < length l)%nat -> rbuf_at e i = nth i l 0.
Proof.
  intros He Hi. unfold rbuf_at. rewrite He. unfold overwrite.
  rewrite take_0, app_nil_l, app_nth1 by done. done.
Qed.

Lemma host_header_of m e : rbuf_at e 0 = host_flags m -> host_header m e.
Proof.
  intros H. unfold host_header, rflag. rewrite H. destruct m as [[] [] [] [] [] []]; by vm_compute.
Qed.
Lemma afu_header_of m e : rbuf_at e 0 = afu_flags m -> afu_header m e.
Proof.
  intros H. unfold afu_header, rflag. rewrite H. destruct m as [[] [] [] [] [] []]; by vm_compute.
Qed.
Lemma host_flags_idle m : (host_flags m =? 0x40) = host_idle m.
Proof. destruct m as [[] [] [] [] [] []]; by vm_compute. Qed.
Lemma afu_flags_idle m : (afu_flags m =? 0x10) = afu_idle m.
Proof. destruct m as [[] [] [] [] [] []]; by vm_compute. Qed.

Lemma cnt_of_eq h l : is_byte h -> is_byte l -> cnt_of h l = be_val [h; l].
Proof.
  intros Hh Hl. unfold cnt_of, be_val. cbn [fold_left].
  assert (H0 : be_step 0 h = h) by (rewrite be_step_add by done; lia). rewrite H0.
  fold (be_step h l). unfold u16. apply is_u_small. by apply (is_u_be_step 8).
Qed.

(** The four count bytes of a header, as the receiver reads them. *)
Lemma counts_of e buf x a b r :
  rbuf e = overwrite buf 0 (x :: (cnt a ++ cnt b) ++ r) ->
  cmd_cnt e = be_val (cnt a) /\ resp_cnt e = be_val (cnt b).
Proof.
  intros He. unfold cmd_cnt, resp_cnt.
  pose proof (be_bytes_bytes 2 (if a is Some (bus, _) then Z.of_nat (length bus) else 0)) as Ba.
  pose proof (be_bytes_bytes 2 (if b is Some (bus, _) then Z.of_nat (length bus) else 0)) as Bb.
  unfold cnt in *. cbn [be_bytes] in *. credit_bytes Ba. credit_bytes Bb.
  rewrite !(rbuf_at_overwrite _ _ _ _ He) by (cbn; lia). cbn [app nth].
  by rewrite !cnt_of_eq.
Qed.

Lemma cnt_val b n : beat_ok n b -> (n <= 256)%nat -> be_val (cnt (Some b)) = Z.of_nat (length b.1).
Proof.
  destruct b as [bus bdi]. intros [H _] ?. cbn [fst] in *. unfold cnt.
  apply be_val_bytes_small. unfold is_u. simpl. lia.
Qed.

(** ** Frame sizes as the receivers compute them *)

Lemma enc_is_some {A} (f : A -> list Z) o n :
  (forall x, o = Some x -> Z.of_nat (length (f x)) = n) ->
  (if is_some o then n else 0) = Z.of_nat (length (enc f o)).
Proof. intros H. destruct o as [x|]; cbn; [by rewrite H|done]. Qed.

Lemma tlx_frame_size_eq m e :
  host_msg_wf m -> host_header m e ->
  cmd_cnt e = be_val (cnt (hm_cmd_data m)) -> resp_cnt e = be_val (cnt (hm_resp_data m)) ->
  tlx_frame_size e = 5 + Z.of_nat (length (host_body m)).
Proof.
  intros (W1 & W2 & W3 & W4 & W5 & W6) (_ & F1 & F2 & F3 & F4 & F5 & F6) C1 C2.
  unfold tlx_frame_size, host_body. rewrite F1, F2, F3, F4, F5, F6, C1, C2.
  rewrite !length_app, !Nat2Z.inj_add.
  rewrite (enc_is_some enc_cfg (hm_cfg m)).
  2:{ intros [c [bus bdi]] He. rewrite He in W1. destruct W1 as [_ [[Hb _] _]]. cbn in *. lia. }
  rewrite (enc_is_some enc_tlx_cmd (hm_cmd m)) by done.
  rewrite (enc_is_some enc_beat (hm_cmd_data m)).
  2:{ intros b Hb. rewrite Hb in *. rewrite (cnt_val b 256) by done. destruct b. cbn. lia. }
  rewrite (enc_is_some enc_tlx_resp (hm_resp m)) by done.
  rewrite (enc_is_some enc_beat (hm_resp_data m)).
  2:{ intros b Hb. rewrite Hb in *. rewrite (cnt_val b 256) by done. destruct b. cbn. lia. }
  rewrite (enc_is_some id (hm_credits m)).
  2:{ intros l He. rewrite He in W6. destruct W6 as [Hl _]. cbn. lia. }
  lia.
Qed.

Lemma afu_frame_size_eq m e :
  afu_msg_wf m -> afu_header m e ->
  cmd_cnt e = be_val (cnt (am_cdata m)) -> resp_cnt e = be_val (cnt (am_rdata m)) ->
  afu_frame_size e = 5 + Z.of_nat (length (afu_body m)).
Proof.
  intros (W1 & W2 & W3 & W4 & W5 & W6) (_ & F1 & F2 & F3 & F4 & F5 & F6) C1 C2.
  unfold afu_frame_size, afu_body. rewrite F1, F2, F3, F4, F5, F6, C1, C2.
  rewrite !length_app, !Nat2Z.inj_add.
  rewrite (enc_is_some enc_afu_cmd (am_cmd m)).
  2:{ intros c Hc. rewrite Hc in W1. cbn in W1. unfold afu_cmd_ok in W1.
      assert (length (ac_ea_or_obj c) = 9%nat) by (destruct_and!; eauto using array_length).
      unfold enc_afu_cmd. rewrite !length_app, !length_be_bytes. cbn. lia. }
  rewrite (enc_is_some enc_beat (am_cdata m)).
  2:{ intros b Hb. rewrite Hb in *. rewrite (cnt_val b 64) by (by apply beat_exact_ok || lia).
      destruct b. cbn. lia. }
  rewrite (enc_is_some enc_afu_resp (am_resp m)) by done.
  rewrite (enc_is_some enc_beat (am_rdata m)).
  2:{ intros b Hb. rewrite Hb in *. rewrite (cnt_val b 64) by (by apply beat_exact_ok || lia).
      destruct b. cbn. lia. }
  rewrite (enc_is_some enc_cfg_resp (am_cfg_resp m)).
  2:{ intros [c [bus bdi]] He. rewrite He in W5. destruct W5 as [_ [[Hb _] _]]. cbn in *. lia. }
  rewrite (enc_is_some id (am_credits m)).
  2:{ intros l He. rewrite He in W6. destruct W6 as [Hl _]. cbn. lia. }
  lia.
Qed.

(** ** What a receive leaves *)

Lemma afu_msg_of_clock e v : afu_msg_of (e <| clock := v |>) = afu_msg_of e.
Proof. reflexivity. Qed.
Lemma afu_msg_of_rbuf e v w : afu_msg_of (e <| rbuf := v |> <| rbp := w |>) = afu_msg_of e.
Proof. reflexivity. Qed.

Lemma deliver_host_rbp m e : rbp (deliver_host m e <| rbp := 0 |>) = 0.
Proof. reflexivity. Qed.

(** The body of a frame is there unless the frame is a clock only. *)
Lemma host_body_idle m : host_msg_wf m -> if host_idle m then host_body m = [] else host_body m <> [].
Proof.
  intros (_ & _ & _ & _ & _ & W6). unfold host_idle, host_body.
  destruct m as [[[? [? ?]]|] [?|] [[? ?]|] [?|] [[? ?]|] [l|]]; cbn in *; try done.
  destruct W6 as [Hl _]. by destruct l.
Qed.
Lemma afu_body_idle m : afu_msg_wf m -> if afu_idle m then afu_body m = [] else afu_body m <> [].
Proof.
  intros (_ & _ & _ & _ & _ & W6). unfold afu_idle, afu_body.
  destruct m as [[?|] [[? ?]|] [?|] [[? ?]|] [[? [? ?]]|] [l|]]; cbn in *; try done.
  destruct W6 as [Hl _]. by destruct l.
Qed.

Lemma encode_host_idle m :
  host_msg_wf m -> host_idle m = true -> encode_host m = [0x40].
Proof.
  intros Hm Hi. pose proof (host_body_idle m Hm) as Hb. rewrite Hi in Hb.
  unfold encode_host. rewrite Hb. unfold frame_of. f_equal. apply Z.eqb_eq. by rewrite host_flags_idle.
Qed.
Lemma encode_afu_idle m :
  afu_msg_wf m -> afu_idle m = true -> encode_afu m = [0x10].
Proof.
  intros Hm Hi. pose proof (afu_body_idle m Hm) as Hb. rewrite Hi in Hb.
  unfold encode_afu. rewrite Hb. unfold frame_of. f_equal. apply Z.eqb_eq. by rewrite afu_flags_idle.
Qed.

Lemma encode_host_busy m :
  host_msg_wf m -> host_idle m = false ->
  host_body m <> [] /\
  encode_host m = host_flags m :: (cnt (hm_cmd_data m) ++ cnt (hm_resp_data m)) ++ host_body m.
Proof.
  intros Hm Hi. pose proof (host_body_idle m Hm) as Hb. rewrite Hi in Hb. split; [done|].
  unfold encode_host, frame_of. by destruct (host_body m).
Qed.
Lemma encode_afu_busy m :
  afu_msg_wf m -> afu_idle m = false ->
  afu_body m <> [] /\
  encode_afu m = afu_flags m :: (cnt (am_cdata m) ++ cnt (am_rdata m)) ++ afu_body m.
Proof.
  intros Hm Hi. pose proof (afu_body_idle m Hm) as Hb. rewrite Hi in Hb. split; [done|].
  unfold encode_afu, frame_of. by destruct (afu_body m).
Qed.

(** After the last receive the buffer holds the frame and the parser runs. *)
Lemma host_header_ready m e buf r :
  host_msg_wf m ->
  rbuf e = overwrite buf 0 (host_flags m :: (cnt (hm_cmd_data m) ++ cnt (hm_resp_data m)) ++ r) ->
  host_header m e /\ host_counts m e /\ tlx_frame_size e = 5 + Z.of_nat (length (host_body m)).
Proof.
  intros Hm He.
  assert (Hh : host_header m e).
  { apply host_header_of. by rewrite (rbuf_at_overwrite _ _ _ _ He) by (cbn; lia). }
  destruct (counts_of _ _ _ _ _ _ He) as [C1 C2].
  split_and!; [done|by split|by apply tlx_frame_size_eq].
Qed.

Lemma host_frame_ready m e buf :
  host_msg_wf m -> event_wf e ->
  rbuf e = overwrite buf 0 (host_flags m :: (cnt (hm_cmd_data m) ++ cnt (hm_resp_data m)) ++ host_body m) ->
  parse_tlx_frame e = Some (deliver_host m e <| rbp := 0 |>).
Proof.
  intros Hm Hwf He. destruct (host_header_ready _ _ _ _ Hm He) as (Hh & Hc & _).
  apply (parse_tlx_frame_eq _ _ (drop (5 + length (host_body m)) buf)); [done..|].
  rewrite He. unfold overwrite. rewrite take_0, app_nil_l. cbn [app drop length].
  rewrite <- !app_assoc, app_assoc.
  rewrite drop_app_length' by (by rewrite length_cnts). reflexivity.
Qed.

Lemma afu_header_ready m e buf r :
  afu_msg_wf m ->
  rbuf e = overwrite buf 0 (afu_flags m :: (cnt (am_cdata m) ++ cnt (am_rdata m)) ++ r) ->
  afu_header m e /\ afu_counts m e /\ afu_frame_size e = 5 + Z.of_nat (length (afu_body m)).
Proof.
  intros Hm He.
  assert (Hh : afu_header m e).
  { apply afu_header_of. by rewrite (rbuf_at_overwrite _ _ _ _ He) by (cbn; lia). }
  destruct (counts_of _ _ _ _ _ _ He) as [C1 C2].
  split_and!; [done|by split|by apply afu_frame_size_eq].
Qed.

Lemma afu_frame_ready m e buf :
  afu_msg_wf m -> event_wf e ->
  rbuf e = overwrite buf 0 (afu_flags m :: (cnt (am_cdata m) ++ cnt (am_rdata m)) ++ afu_body m) ->
  parse_afu_frame e = Some (deliver_afu m e <| rbp := 0 |>).
Proof.
  intros Hm Hwf He. destruct (afu_header_ready _ _ _ _ Hm He) as (Hh & Hc & _).
  apply (parse_afu_frame_eq _ _ (drop (5 + length (afu_body m)) buf)); [done..|].
  rewrite He. unfold overwrite. rewrite take_0, app_nil_l. cbn [app drop length].
  rewrite <- !app_assoc, app_assoc.
  rewrite drop_app_length' by (by rewrite length_cnts). reflexivity.
Qed.

(** ** [tlx_get_tlx_events] and [tlx_get_afu_events] on an arrived frame *)

Lemma length_rbuf e : event_wf e -> length (rbuf e) = 1070%nat.
Proof. intros Hwf. by destruct (field_get (p := rbuf) e Hwf). Qed.

Lemma rbuf_wf e l :
  event_wf e -> bytes l -> (length l <= 1070)%nat -> is_array 1070 (overwrite (rbuf e) 0 l).
Proof. intros Hwf ? ?. apply overwrite_array; [by eapply field_get|lia|done]. Qed.

Lemma frame_of_bytes x cnts body :
  is_byte x -> bytes cnts -> bytes body -> bytes (frame_of x cnts body).
Proof. intros. unfold frame_of. constructor; [done|]. destruct body; auto using Forall_app_2. Qed.

Lemma enc_bytes {A} (P : A -> Prop) (f : A -> list Z) o :
  (forall x, P x -> bytes (f x)) -> opt_ok P o -> bytes (enc f o).
Proof. intros Hf Ho. destruct o; cbn in *; auto. Qed.

Ltac bytes_list :=
  repeat apply Forall_app_2;
  repeat first [apply be_bytes_bytes | assumption | apply Forall_nil_2
               | apply List.Forall_cons; [assumption|] | eapply array_bytes; eassumption].

Lemma enc_beat_bytes n b : beat_ok n b -> bytes (enc_beat b).
Proof. destruct b. intros (_ & ? & ?). cbn in *. by constructor. Qed.

Lemma host_body_bytes m :
  host_msg_wf m -> bytes (host_body m).
Proof.
  intros (W1 & W2 & W3 & W4 & W5 & W6). unfold host_body. repeat apply Forall_app_2.
  - eapply enc_bytes, W1. intros [c [bus bdi]] [Hc [Hb ?]]. unfold cfg_cmd_ok in Hc.
    cbn [fst snd] in *. destruct_and!. unfold enc_cfg. bytes_list.
  - eapply enc_bytes, W2. intros c Hc. unfold tlx_cmd_ok in Hc. destruct_and!.
    unfold enc_tlx_cmd. bytes_list.
  - eapply enc_bytes, W3. apply enc_beat_bytes.
  - eapply enc_bytes, W4. intros c Hc. unfold tlx_resp_ok in Hc. destruct_and!.
    unfold enc_tlx_resp. bytes_list.
  - eapply enc_bytes, W5. apply enc_beat_bytes.
  - eapply enc_bytes, W6. by intros l [_ ?].
Qed.

Lemma afu_body_bytes m : afu_msg_wf m -> bytes (afu_body m).
Proof.
  intros (W1 & W2 & W3 & W4 & W5 & W6). unfold afu_body. repeat apply Forall_app_2.
  - eapply enc_bytes, W1. intros c Hc. unfold afu_cmd_ok in Hc. destruct_and!.
    unfold enc_afu_cmd. bytes_list.
  - eapply enc_bytes, W2. intros b Hb%beat_exact_ok. by eapply enc_beat_bytes.
  - eapply enc_bytes, W3. intros c Hc. unfold afu_resp_ok in Hc. destruct_and!.
    unfold enc_afu_resp. bytes_list.
  - eapply enc_bytes, W4. intros b Hb%beat_exact_ok. by eapply enc_beat_bytes.
  - eapply enc_bytes, W5. intros [c [bus bdi]] [Hc [Hb ?]]. unfold cfg_resp_ok in Hc.
    cbn [fst snd] in *. destruct_and!. unfold enc_cfg_resp. bytes_list.
  - eapply enc_bytes, W6. by intros l [_ ?].
Qed.

Lemma host_flags_byte m : is_byte (host_flags m).
Proof. destruct m as [[] [] [] [] [] []]; by vm_compute. Qed.
Lemma afu_flags_byte m : is_byte (afu_flags m).
Proof. destruct m as [[] [] [] [] [] []]; by vm_compute. Qed.

Lemma cnts_bytes a b : bytes (cnt a ++ cnt b).
Proof. apply Forall_app_2; apply be_bytes_bytes. Qed.

Lemma host_frame_array m buf :
  host_msg_wf m -> is_array 1070 buf -> is_array 1070 (overwrite buf 0 (frame_bytes (host_frame m))).
Proof.
  intros Hm Hb. apply overwrite_array; [done|..].
  - rewrite frame_bytes_length by (by rewrite host_frame_cnt, length_cnts).
    rewrite host_frame_body. pose proof (host_body_length m Hm). lia.
  - unfold frame_bytes. rewrite app_assoc, host_frame_flags, host_frame_cnt, host_frame_body.
    apply List.Forall_cons; [apply host_flags_byte|].
    apply Forall_app_2; [apply cnts_bytes|by apply host_body_bytes].
Qed.

Lemma afu_frame_array m buf :
  afu_msg_wf m -> is_array 1070 buf -> is_array 1070 (overwrite buf 0 (frame_bytes (afu_frame m))).
Proof.
  intros Hm Hb. apply overwrite_array; [done|..].
  - rewrite frame_bytes_length by (by rewrite afu_frame_cnt, length_cnts).
    rewrite afu_frame_body. pose proof (afu_body_length m Hm). lia.
  - unfold frame_bytes. rewrite app_assoc, afu_frame_flags, afu_frame_cnt, afu_frame_body.
    apply List.Forall_cons; [apply afu_flags_byte|].
    apply Forall_app_2; [apply cnts_bytes|by apply afu_body_bytes].
Qed.

Lemma host_sent_wf e : event_wf e -> event_wf (host_sent e).
Proof. intros. unfold host_sent, cond_event. cbv zeta. destruct (truthy _); solve_wf. Qed.
Lemma afu_sent_wf e : event_wf e -> event_wf (afu_sent e).
Proof. intros. unfold afu_sent, cond_event. cbv zeta. destruct (truthy _); solve_wf. Qed.

Lemma afu_sent_rbuf e : rbuf (afu_sent e) = rbuf e.
Proof. unfold afu_sent, cond_event. by destruct (truthy _). Qed.
Lemma afu_sent_rbp e : rbp (afu_sent e) = rbp e.
Proof. unfold afu_sent, cond_event. by destruct (truthy _). Qed.
Lemma host_sent_rbp e : rbp (host_sent e) = rbp e.
Proof. unfold host_sent, cond_event. by destruct (truthy _). Qed.

(** The event once the first byte [x] is in. *)
Lemma first_byte_wf e x :
  event_wf e -> is_byte x -> event_wf (e <| rbuf := overwrite (rbuf e) 0 [x] |> <| rbp := 1 |>).
Proof.
  intros Hwf Hx. assert (is_array 1070 (overwrite (rbuf e) 0 [x])).
  { apply rbuf_wf; [done|by apply List.Forall_cons|simpl; lia]. }
  solve_wf.
Qed.

(** The control flow of the two functions, with what they call given. *)
Lemma get_tlx_events_step e c e1 c1 rc e2 c2 :
  recv_first e c = Some (RxGo e1 c1) -> rbp e1 = 1 -> rflag e1 0x40 = true ->
  tlx_signal_tlx_model (e1 <| clock := 1 |>) c1 = Some (rc, e2, c2) ->
  tlx_get_tlx_events e c =
  if rbuf_at e2 0 =? 0x40 then Some (1, e2 <| rbp := 0 |>, c2)
  else
    s ← recv_rest tlx_frame_size e2 c2;
    match s with
    | RxReturn rc event c => Some (rc, event, c)
    | RxGo event c => event ← parse_tlx_frame event; Some (1, event, c)
    end.
Proof.
  intros H1 H2 H3 H4. unfold tlx_get_tlx_events.
  eapply bind_eq; [exact H1|]. cbv beta iota. rewrite H2, H3. cbn [Z.eqb].
  eapply bind_eq; [exact H4|]. reflexivity.
Qed.

(** Facts about an update of a buffer or of the clock, stated for any event. *)
Lemma tbuf_facts e v :
  rbuf (e <| tbuf := v |>) = rbuf e /\ rbp (e <| tbuf := v |>) = rbp e /\ e <| tbuf := v |> ≡ e.
Proof. done. Qed.
Lemma first_facts e v :
  rbuf (e <| rbuf := v |> <| rbp := 1 |>) = v /\ rbp (e <| rbuf := v |> <| rbp := 1 |>) = 1 /\
  e <| rbuf := v |> <| rbp := 1 |> ≡ e /\
  afu_msg_of (e <| rbuf := v |> <| rbp := 1 |>) = afu_msg_of e.
Proof. done. Qed.
Lemma clock_facts e v :
  rbuf (e <| clock := v |>) = rbuf e /\ rbp (e <| clock := v |>) = rbp e /\
  clock (e <| clock := v |>) = v /\ tbuf (e <| clock := v |>) = tbuf e.
Proof. done. Qed.
#[export] Instance set_clock_obl v : Oblivious (fun e => e <| clock := v |>).
Proof. intros e. reflexivity. Qed.
Lemma set_clock_equiv e e' v : e ≡ e' -> e <| clock := v |> ≡ e' <| clock := v |>.
Proof. apply (oblivious_proper (fun e => e <| clock := v |>) _). Qed.

(** The AFU end after the first byte of a host frame: it has sent its own. *)
Lemma get_tlx_events_head m l e rest rx en tx plan :
  event_wf e -> rbp e = 0 -> no_fail plan ->
  exists e2 plan',
    no_fail plan' /\ event_wf e2 /\ e2 ≡ afu_sent (e <| clock := 1 |>) /\
    rbuf e2 = overwrite (rbuf e) 0 [host_flags m] /\ rbp e2 = 1 /\
    tlx_get_tlx_events e (Conn (Chunk (host_flags m :: l ++ rest) :: rx) en tx plan) =
    let c2 := Conn (put_back (l ++ rest) rx) en (tx ++ encode_afu (afu_msg_of e)) plan' in
    if host_idle m then Some (1, e2 <| rbp := 0 |>, c2)
    else
      s ← recv_rest tlx_frame_size e2 c2;
      match s with
      | RxReturn rc event c => Some (rc, event, c)
      | RxGo event c => event ← parse_tlx_frame event; Some (1, event, c)
      end.
Proof.
  intros Hwf H0 Hp.
  pose proof (length_rbuf e Hwf) as Hlr.
  pose proof (first_byte_wf e (host_flags m) Hwf (host_flags_byte m)) as Hwf1.
  pose proof (recv_first_eq (host_flags m) l rest rx en tx plan e Hlr H0) as Hr.
  set (e1 := e <| rbuf := overwrite (rbuf e) 0 [host_flags m] |> <| rbp := 1 |>) in *.
  assert (Hat : rbuf_at e1 0 = host_flags m)
    by (by rewrite (rbuf_at_overwrite e1 (rbuf e) [host_flags m]) by first [done|cbn; lia]).
  destruct (first_facts e (overwrite (rbuf e) 0 [host_flags m])) as (Hrb1 & Hrp1 & Heq & Hmsg).
  fold e1 in Hrb1, Hrp1, Heq, Hmsg. clearbody e1.
  destruct (signal_tlx_model_eq (e1 <| clock := 1 |>)
    (Conn (put_back (l ++ rest) rx) en tx plan)) as (plan' & Hp' & Hs); [solve_wf|done|done|].
  rewrite afu_msg_of_clock, Hmsg in Hs. cbn [c_rx c_end c_tx] in Hs.
  assert (Hwfc : event_wf (e1 <| clock := 1 |>)) by solve_wf.
  apply (set_clock_equiv _ _ 1) in Heq.
  destruct (clock_facts e1 1) as (Hcb & Hcp & _ & _).
  remember (e1 <| clock := 1 |>) as ec eqn:Hec in *.
  destruct (tbuf_facts (afu_sent ec) (overwrite (tbuf ec) 0 (frame_bytes (afu_frame (afu_msg_of e)))))
    as (Hrb & Hrp & He2).
  assert (Hwf2 : event_wf (afu_sent ec
    <| tbuf := overwrite (tbuf ec) 0 (frame_bytes (afu_frame (afu_msg_of e))) |>)).
  { apply field_set; [by apply afu_sent_wf|]. apply afu_frame_array; [by apply afu_msg_of_wf|].
    by apply (field_get (p := tbuf) ec). }
  rewrite afu_sent_rbuf, Hcb, Hrb1 in Hrb. rewrite afu_sent_rbp, Hcp, Hrp1 in Hrp.
  apply (oblivious_proper afu_sent _) in Heq.
  pose proof (transitivity He2 Heq) as He2'. clear He2.
  set (e2 := afu_sent ec <| tbuf := _ |>) in *. clearbody e2.
  exists e2, plan'. split_and!; try done. rewrite Hec in Hs.
  destruct (host_header_of m e1 Hat) as [Hfl _].
  rewrite (get_tlx_events_step _ _ _ _ _ _ _ Hr Hrp1 Hfl Hs).
  rewrite (rbuf_at_overwrite e2 (rbuf e) [host_flags m]) by first [done|cbn; lia].
  cbn [nth]. rewrite host_flags_idle. reflexivity.
Qed.

(** The rest of a frame with groups: the buffer then holds all of it. *)
Lemma recv_busy_frame size e buf x cnts body rest rx en tx plan :
  event_wf e -> is_array 1070 buf -> rbuf e = overwrite buf 0 [x] -> rbp e = 1 ->
  length cnts = 4%nat -> body <> [] -> bytes body -> is_byte x -> bytes cnts ->
  (length body <= 1065)%nat ->
  (forall e', rbuf e' = overwrite buf 0 (x :: cnts) -> size e' = 5 + Z.of_nat (length body)) ->
  exists e3,
    recv_rest size e (Conn (Chunk ((cnts ++ body) ++ rest) :: rx) en tx plan) =
    Some (RxGo e3 (Conn (put_back rest rx) en tx plan)) /\
    event_wf e3 /\ rbuf e3 = overwrite buf 0 (x :: cnts ++ body) /\ e3 ≡ e.
Proof.
  intros Hwf Hbuf Hrb Hrp Hc Hne Hb Hx Hcb Hl Hs.
  eexists. split_and!.
  - apply (recv_rest_eq size buf x); try done. by destruct Hbuf.
  - assert (is_array 1070 (overwrite buf 0 (x :: cnts ++ body))).
    { apply overwrite_array; [done|cbn [length]; rewrite length_app; lia|].
      apply List.Forall_cons; [done|]. by apply Forall_app_2. }
    assert (is_u 32 (5 + Z.of_nat (length body))).
    { unfold is_u. change (2 ^ 32) with 4294967296. lia. }
    solve_wf.
  - reflexivity.
  - reflexivity.
Qed.

Lemma get_tlx_events_eq m e rest rx en tx plan :
  event_wf e -> rbp e = 0 -> host_msg_wf m -> no_fail plan ->
  exists e' plan',
    tlx_get_tlx_events e (Conn (Chunk (encode_host m ++ rest) :: rx) en tx plan) =
    Some (1, e', Conn (put_back rest rx) en (tx ++ encode_afu (afu_msg_of e)) plan') /\
    no_fail plan' /\ event_wf e' /\ rbp e' = 0 /\
    e' ≡ receive_host m (afu_sent (e <| clock := 1 |>)).
Proof.
  intros Hwf H0 Hm Hp. unfold receive_host.
  destruct (host_idle m) eqn:Hi.
  - rewrite encode_host_idle by done.
    assert (Hf : 0x40 = host_flags m) by (symmetry; apply Z.eqb_eq; by rewrite host_flags_idle).
    rewrite Hf.
    destruct (get_tlx_events_head m [] e rest rx en tx plan Hwf H0 Hp)
      as (e2 & plan' & Hp' & Hwf2 & He2 & _ & _ & Hg).
    rewrite Hi in Hg. exists (e2 <| rbp := 0 |>), plan'.
    split_and!; [exact Hg|done|solve_wf|done|]. by rewrite <- He2.
  - destruct (encode_host_busy m Hm Hi) as [Hne ->]. cbn [app].
    destruct (get_tlx_events_head m ((cnt (hm_cmd_data m) ++ cnt (hm_resp_data m)) ++ host_body m)
      e rest rx en tx plan Hwf H0 Hp) as (e2 & plan' & Hp' & Hwf2 & He2 & Hrb & Hrp & Hg).
    rewrite Hi in Hg. pose proof (host_body_length m Hm) as Hbl.
    pose proof (length_rbuf e Hwf) as Hlr.
    rewrite put_back_cons in Hg by (by destruct (cnt (hm_cmd_data m)) eqn:E).
    edestruct (recv_busy_frame tlx_frame_size e2 (rbuf e)) as (e3 & Hr & Hwf3 & Hrb3 & He3);
      [done|by eapply field_get|exact Hrb|exact Hrp|apply length_cnts|exact Hne|
       by apply host_body_bytes|apply host_flags_byte|apply cnts_bytes|lia| |].
    { intros e' He'. rewrite <- (app_nil_r (_ ++ _)) in He'.
      by destruct (host_header_ready _ _ _ _ Hm He') as (_ & _ & ?). }
    pose proof (host_frame_ready _ _ _ Hm Hwf3 Hrb3) as Hparse.
    exists (deliver_host m e3 <| rbp := 0 |>), plan'. split_and!; [|done| |done|].
    + etransitivity; [exact Hg|]. cbv zeta. eapply bind_eq; [exact Hr|]. cbv beta iota.
      eapply bind_eq; [exact Hparse|]. reflexivity.
    + apply field_set; [by apply deliver_host_wf|by vm_compute].
    + etransitivity; [apply set_rbp_equiv|]. apply deliver_host_proper. by etransitivity.
Qed.

(** ** The host end *)

Lemma get_afu_events_step e c e1 c1 :
  recv_first e c = Some (RxGo e1 c1) -> rbp e1 = 1 -> rflag e1 0x10 = true ->
  tlx_get_afu_events e c =
  if rbuf_at e1 0 =? 0x10 then Some (1, e1 <| clock := 0 |> <| rbp := 0 |>, c1)
  else
    s ← recv_rest afu_frame_size (e1 <| clock := 0 |>) c1;
    match s with
    | RxReturn rc event c => Some (rc, event, c)
    | RxGo event c => event ← parse_afu_frame event; Some (1, event, c)
    end.
Proof.
  intros H1 H2 H3. unfold tlx_get_afu_events.
  eapply bind_eq; [exact H1|]. cbv beta iota zeta. rewrite H2, H3. cbn [Z.eqb].
  change (rflag (e1 <| clock := 0 |>) 0x10) with (rflag e1 0x10).
  change (rbuf_at (e1 <| clock := 0 |>) 0) with (rbuf_at e1 0). rewrite H3. reflexivity.
Qed.

Lemma get_afu_events_head m l e rest rx en tx plan :
  event_wf e -> rbp e = 0 ->
  exists e2,
    event_wf e2 /\ e2 ≡ e <| clock := 0 |> /\
    rbuf e2 = overwrite (rbuf e) 0 [afu_flags m] /\ rbp e2 = 1 /\
    tlx_get_afu_events e (Conn (Chunk (afu_flags m :: l ++ rest) :: rx) en tx plan) =
    let c2 := Conn (put_back (l ++ rest) rx) en tx plan in
    if afu_idle m then Some (1, e2 <| rbp := 0 |>, c2)
    else
      s ← recv_rest afu_frame_size e2 c2;
      match s with
      | RxReturn rc event c => Some (rc, event, c)
      | RxGo event c => event ← parse_afu_frame event; Some (1, event, c)
      end.
Proof.
  intros Hwf H0.
  pose proof (length_rbuf e Hwf) as Hlr.
  pose proof (first_byte_wf e (afu_flags m) Hwf (afu_flags_byte m)) as Hwf1.
  pose proof (recv_first_eq (afu_flags m) l rest rx en tx plan e Hlr H0) as Hr.
  destruct (first_facts e (overwrite (rbuf e) 0 [afu_flags m])) as (Hrb1 & Hrp1 & Heq & _).
  set (e1 := e <| rbuf := overwrite (rbuf e) 0 [afu_flags m] |> <| rbp := 1 |>) in *.
  clearbody e1.
  assert (Hat : rbuf_at e1 0 = afu_flags m)
    by (by rewrite (rbuf_at_overwrite e1 (rbuf e) [afu_flags m]) by first [done|cbn; lia]).
  destruct (afu_header_of m e1 Hat) as [Hfl _].
  destruct (clock_facts e1 0) as (Hcb & Hcp & _ & _).
  exists (e1 <| clock := 0 |>). split_and!.
  - solve_wf.
  - by apply set_clock_equiv.
  - by rewrite Hcb.
  - by rewrite Hcp.
  - rewrite (get_afu_events_step _ _ _ _ Hr Hrp1 Hfl), Hat, afu_flags_idle. reflexivity.
Qed.

Lemma get_afu_events_eq m e rest rx en tx plan :
  event_wf e -> rbp e = 0 -> afu_msg_wf m ->
  exists e',
    tlx_get_afu_events e (Conn (Chunk (encode_afu m ++ rest) :: rx) en tx plan) =
    Some (1, e', Conn (put_back rest rx) en tx plan) /\
    event_wf e' /\ rbp e' = 0 /\ e' ≡ receive_afu m (e <| clock := 0 |>).
Proof.
  intros Hwf H0 Hm. unfold receive_afu.
  destruct (afu_idle m) eqn:Hi.
  - rewrite encode_afu_idle by done.
    assert (Hf : 0x10 = afu_flags m) by (symmetry; apply Z.eqb_eq; by rewrite afu_flags_idle).
    rewrite Hf.
    destruct (get_afu_events_head m [] e rest rx en tx plan Hwf H0) as (e2 & Hwf2 & He2 & _ & _ & Hg).
    rewrite Hi in Hg. exists (e2 <| rbp := 0 |>).
    split_and!; [exact Hg|solve_wf|done|]. by rewrite <- He2.
  - destruct (encode_afu_busy m Hm Hi) as [Hne ->]. cbn [app].
    destruct (get_afu_events_head m ((cnt (am_cdata m) ++ cnt (am_rdata m)) ++ afu_body m)
      e rest rx en tx plan Hwf H0) as (e2 & Hwf2 & He2 & Hrb & Hrp & Hg).
    rewrite Hi in Hg. pose proof (afu_body_length m Hm) as Hbl.
    rewrite put_back_cons in Hg by (by destruct (cnt (am_cdata m)) eqn:E).
    edestruct (recv_busy_frame afu_frame_size e2 (rbuf e)) as (e3 & Hr & Hwf3 & Hrb3 & He3);
      [done|by eapply field_get|exact Hrb|exact Hrp|apply length_cnts|exact Hne|
       by apply afu_body_bytes|apply afu_flags_byte|apply cnts_bytes|lia| |].
    { intros e' He'. rewrite <- (app_nil_r (_ ++ _)) in He'.
      by destruct (afu_header_ready _ _ _ _ Hm He') as (_ & _ & ?). }
    pose proof (afu_frame_ready _ _ _ Hm Hwf3 Hrb3) as Hparse.
    exists (deliver_afu m e3 <| rbp := 0 |>). split_and!; [| |done|].
    + etransitivity; [exact Hg|]. cbv zeta. eapply bind_eq; [exact Hr|]. cbv beta iota.
      eapply bind_eq; [exact Hparse|]. reflexivity.
    + apply field_set; [by apply deliver_afu_wf|by vm_compute].
    + etransitivity; [apply set_rbp_equiv|]. apply deliver_afu_proper. by etransitivity.
Qed.

(** * Properties *)

(** A host end just after reset, with one command pending. *)
Definition pending_host : AFU_EVENT := tlx_event_reset event_zero <| tlx_afu_cmd_valid := 1 |>.

Lemma pending_host_wf : event_wf pending_host.
Proof. unfold pending_host. pose proof (tlx_event_reset_wf event_zero). solve_wf. Qed.

(** What one call of the host's signal function does: with the clock it sends
    the frame of what is pending; without it, nothing. *)
Inductive host_signals (e : AFU_EVENT) (c : conn) : Z -> AFU_EVENT -> conn -> Prop :=
  | host_frame_sent e' c' :
      clock e = 0 -> c_tx c' = c_tx c ++ encode_host (host_msg_of e) -> e' ≡ host_sent e ->
      event_wf e' -> host_signals e c TLX_SUCCESS e' c'
  | host_unclocked : clock e <> 0 -> host_signals e c TLX_TRANSMISSION_ERROR e c.

(** C8: when the clock is the host's, [tlx_signal_afu_model] sends exactly the
    frame of what is pending, clears what it sent and hands the clock over;
    otherwise it reports an error and sends nothing. *)
Theorem signal_afu_model_correct e c :
  event_wf e -> counts_ok e -> no_fail (c_plan c) ->
  exists rc e' c', tlx_signal_afu_model e c = Some (rc, e', c') /\ host_signals e c rc e' c'.
Proof.
  intros Hwf Hc Hp. destruct (Z.eqb_spec (clock e) 0) as [Hk|Hk].
  - destruct (signal_afu_model_eq e c Hwf Hc Hk Hp) as (plan' & _ & Hs).
    do 3 eexists. split; [exact Hs|]. constructor; [done|done|apply set_tbuf_equiv|].
    apply field_set; [by apply host_sent_wf|].
    apply host_frame_array; [by apply host_msg_of_wf|by eapply field_get].
  - exists TLX_TRANSMISSION_ERROR, e, c. split; [|by constructor].
    unfold tlx_signal_afu_model. by destruct (Z.eqb_spec (clock e) 0).
Qed.

Lemma signal_afu_model_correct_witness :
  exists e' c', tlx_signal_afu_model pending_host (Conn [] EndIdle [] []) = Some (TLX_SUCCESS, e', c') /\
    c_tx c' = encode_host (host_msg_of pending_host) /\ e' ≡ host_sent pending_host.
Proof.
  destruct (signal_afu_model_correct pending_host (Conn [] EndIdle [] []) pending_host_wf) as
    (rc & e' & c' & H & Hs); [by vm_compute|apply not_elem_of_nil|].
  assert (Hk : clock pending_host = 0) by (by vm_compute).
  destruct Hs as [e' c' _ Htx He _|Hk']; [|by destruct Hk'].
  exists e', c'. split; [exact H|]. split; [exact Htx|exact He].
Defined.

(** C6: a host frame that has arrived is received whole: the AFU end answers
    with the frame of what it has pending, takes the frame and nothing more off
    the connection, and its event is its own after sending, updated by exactly
    the host's message. *)
Theorem get_tlx_events_correct m e rest rx en tx plan :
  event_wf e -> rbp e = 0 -> host_msg_wf m -> no_fail plan ->
  exists e' plan',
    tlx_get_tlx_events e (Conn (Chunk (encode_host m ++ rest) :: rx) en tx plan) =
    Some (1, e', Conn (put_back rest rx) en (tx ++ encode_afu (afu_msg_of e)) plan') /\
    event_wf e' /\ rbp e' = 0 /\ e' ≡ receive_host m (afu_sent (e <| clock := 1 |>)).
Proof.
  intros Hwf H0 Hm Hp.
  destruct (get_tlx_events_eq m e rest rx en tx plan Hwf H0 Hm Hp) as (e' & p & ? & _ & ?).
  eauto.
Qed.

Lemma get_tlx_events_correct_witness :
  exists e' plan',
    tlx_get_tlx_events (tlx_event_reset event_zero)
      (Conn [Chunk (encode_host (host_msg_of pending_host) ++ [7])] EndIdle [] []) =
    Some (1, e', Conn (put_back [7] []) EndIdle
      (encode_afu (afu_msg_of (tlx_event_reset event_zero))) plan') /\ rbp e' = 0.
Proof.
  destruct (get_tlx_events_correct (host_msg_of pending_host) (tlx_event_reset event_zero)
    [7] [] EndIdle [] []) as (e' & plan' & H & _ & H0 & _).
  - apply tlx_event_reset_wf.
  - reflexivity.
  - apply host_msg_of_wf, pending_host_wf.
  - apply not_elem_of_nil.
  - exists e', plan'. split; [exact H|exact H0].
Defined.

(** C7: an AFU frame that has arrived is received whole by the host end: it
    takes the frame and nothing more, gets the clock back, and its event is
    updated by exactly the AFU's message. *)
Theorem get_afu_events_correct m e rest rx en tx plan :
  event_wf e -> rbp e = 0 -> afu_msg_wf m ->
  exists e',
    tlx_get_afu_events e (Conn (Chunk (encode_afu m ++ rest) :: rx) en tx plan) =
    Some (1, e', Conn (put_back rest rx) en tx plan) /\
    event_wf e' /\ rbp e' = 0 /\ e' ≡ receive_afu m (e <| clock := 0 |>).
Proof.
  intros Hwf H0 Hm. by apply get_afu_events_eq.
Qed.

Lemma get_afu_events_correct_witness :
  exists e',
    tlx_get_afu_events pending_host
      (Conn [Chunk (encode_afu (afu_msg_of (tlx_event_reset event_zero)) ++ [7])] EndIdle [] []) =
    Some (1, e', Conn (put_back [7] []) EndIdle [] []) /\ event_wf e' /\ rbp e' = 0.
Proof.
  destruct (get_afu_events_correct (afu_msg_of (tlx_event_reset event_zero)) pending_host
    [7] [] EndIdle [] []) as (e' & H & Hw & H0 & _).
  - apply pending_host_wf.
  - reflexivity.
  - apply afu_msg_of_wf, tlx_event_reset_wf.
  - exists e'. split; [exact H|]. split; [exact Hw|exact H0].
Defined.
