(* ===== verification/Handshake.v ===== *)
(** common/tlx_interface.c, opening the link: [establish_protocol] and the
    initial events of [tlx_init_afu_event] (host end) and [tlx_serv_afu_event]
    (AFU end).  Name lookup, [socket], [connect], [bind], [listen] and [accept]
    are the operating system's: their outcome is an argument. *)
From S2P Require Import Prelude Utils Event Sock.

Implicit Types event : AFU_EVENT.

(** "TLX" with its terminating zero, and the three levels. *)
Definition greeting event : list Z :=
  [0x54; 0x4C; 0x58; 0] ++ be_bytes 4 (proto_primary event) ++
  be_bytes 4 (proto_secondary event) ++ be_bytes 4 (proto_tertiary event).

Inductive hello := Running | BadSocket event (c : conn) | Greeted event (c : conn).

(** [while ((event->rbp < 16) && (bc != -1))], a byte at a time; a [recv] that
    returns 0 leaves [rbp] as it is and the loop goes on.  Each round takes one
    unit of fuel. *)
Fixpoint recv_greeting (fuel : nat) event (c : conn) : option hello :=
  if rbp event <? 16 then
    match fuel with
    | O => Some Running
    | S fuel =>
        '(r, event, c) ← recv_rbuf (rbp event) 1 event c;
        match r with
        | RWouldBlock => recv_greeting fuel event c
        | RError => Some (BadSocket event c)
        | RData l => recv_greeting fuel (event <| rbp := u32 (rbp event + Z.of_nat (length l)) |>) c
        end
    end
  else Some (Greeted event c).

(** The result is [None] where the loop has not ended. *)
Definition establish_protocol (fuel : nat) event (c : conn)
    : option (option Z * AFU_EVENT * conn) :=
  defined (16 <=? length (tbuf event))%nat;
  let hi := greeting event in
  let event := event <| tbuf := overwrite (tbuf event) 0 hi |> in
  let '(ok, c) := send_all hi c in
  if negb ok then Some (Some TLX_TRANSMISSION_ERROR, event, c)
  else
    r ← recv_greeting fuel event c;
    match r with
    | Running => Some (None, event, c)
    | BadSocket event c => Some (Some TLX_BAD_SOCKET, event, c)
    | Greeted event c =>
        let event := event <| rbp := 0 |> in
        if negb (bool_decide (take 4 (rbuf event) = [0x54; 0x4C; 0x58; 0]))
        then Some (Some TLX_BAD_SOCKET, event, c)
        else
          let primary := be_val (take 4 (drop 4 (rbuf event))) in
          if negb (primary =? proto_primary event)
          then Some (Some TLX_VERSION_ERROR, event, c)
          else Some (Some TLX_SUCCESS, event, c)
    end.

(** [sock] is the connected socket, if there is one. *)
Definition tlx_init_afu_event (fuel : nat) event (sock : option Z) (c : conn)
    : option (option Z * AFU_EVENT * conn) :=
  let event :=
    tlx_event_reset event
      <| tlx_afu_cmd_initial_credit := 0 |>
      <| tlx_afu_resp_initial_credit := 0 |>
      <| tlx_afu_cmd_data_initial_credit := 0 |>
      <| tlx_afu_resp_data_initial_credit := 0 |>
      <| afu_tlx_cmd_credits_available := 0 |>
      <| cfg_tlx_credits_available := 0 |>
      <| afu_tlx_resp_credits_available := 0 |>
      <| tlx_afu_credit_valid := 1 |>
      <| rbp := 0 |> in
  match sock with
  | None => Some (Some TLX_BAD_SOCKET, event, c)
  | Some fd => establish_protocol fuel (event <| sockfd := fd |>) c
  end.

Definition tlx_serv_afu_event (fuel : nat) event (sock : option Z) (c : conn)
    : option (option Z * AFU_EVENT * conn) :=
  let event := tlx_event_reset event <| rbp := 0 |> in
  match sock with
  | None => Some (Some TLX_BAD_SOCKET, event, c)
  | Some fd => establish_protocol fuel (event <| sockfd := fd |>) c
  end.

(** * The end *)

Definition TLX_CLOSE_ERROR : Z := 128.

(** Whether the operating system shuts the socket down, and closes it. *)
Definition tlx_close_afu_event (shutdown close : Z -> bool) event : Z * AFU_EVENT :=
  if negb (shutdown (sockfd event)) then (TLX_CLOSE_ERROR, event)
  else if negb (close (sockfd event)) then (TLX_CLOSE_ERROR, event)
  else (TLX_SUCCESS, event <| sockfd := -1 |>).

(** * Lemmas *)

(** What will arrive, and the rounds it takes at most to take it byte by byte. *)
Definition item_bytes (i : rx_item) : list Z := match i with Chunk l => l | Gap => [] end.
Definition rx_bytes (rx : list rx_item) : list Z := concat (map item_bytes rx).
Fixpoint gaps (rx : list rx_item) : nat :=
  match rx with
  | [] => 0
  | Gap :: rx => S (gaps rx)
  | Chunk _ :: rx => gaps rx
  end.

Lemma rx_bytes_put_back l rx : rx_bytes (put_back l rx) = l ++ rx_bytes rx.
Proof. by destruct l. Qed.
Lemma gaps_put_back l rx : gaps (put_back l rx) = gaps rx.
Proof. by destruct l. Qed.

(** A one-byte receive takes the next byte or passes a gap. *)
Lemma recv_items_byte rx en x l :
  rx_bytes rx = x :: l ->
  exists rx',
    (recv_items 1 rx en = (RData [x], rx') /\ rx_bytes rx' = l /\ gaps rx' = gaps rx) \/
    (recv_items 1 rx en = (RWouldBlock, rx') /\ rx_bytes rx' = x :: l /\ gaps rx = S (gaps rx')).
Proof.
  induction rx as [|[[|y ys]|] rx IH]; intros H; [done|..].
  - destruct (IH H) as (rx' & Hr). by exists rx'.
  - exists (put_back ys rx). left. cbn in H. injection H as -> H.
    cbn [recv_items]. replace (Z.to_nat _) with 1%nat by (cbn [length]; lia).
    cbn [take drop]. by rewrite take_0, drop_0, rx_bytes_put_back, gaps_put_back.
  - exists rx. right. done.
Qed.

Lemma recv_greeting_done fuel e c : rbp e = 16 -> recv_greeting fuel e c = Some (Greeted e c).
Proof. intros H. destruct fuel; cbn [recv_greeting]; by rewrite H. Qed.

Lemma recv_greeting_byte fuel x e rx rx' en tx plan :
  0 <= rbp e < 16 -> length (rbuf e) = 1070%nat -> recv_items 1 rx en = (RData [x], rx') ->
  recv_greeting (S fuel) e (Conn rx en tx plan) =
  recv_greeting fuel
    (e <| rbuf := overwrite (rbuf e) (Z.to_nat (rbp e)) [x] |> <| rbp := rbp e + 1 |>)
    (Conn rx' en tx plan).
Proof.
  intros H0 Hb Hr. cbn [recv_greeting]. replace (rbp e <? 16) with true by lia.
  unfold recv_rbuf, recv. cbn [Z.eqb c_rx c_end c_tx c_plan]. rewrite Hr.
  unfold guard_ub. rewrite Hb. cbn [length].
  replace (_ <=? _) with true by (symmetry; apply Z.leb_le; lia).
  cbn [mbind option_bind].
  replace (u32 (rbp (e <| rbuf := overwrite (rbuf e) (Z.to_nat (rbp e)) [x] |>) + Z.of_nat 1))
    with (rbp e + 1); [done|].
  change (rbp (set_fld rbuf _ e)) with (rbp e).
  unfold u32. rewrite Z.mod_small; [done|]. change (2 ^ 32) with 4294967296. lia.
Qed.

Lemma recv_greeting_gap fuel e rx rx' en tx plan :
  rbp e < 16 -> recv_items 1 rx en = (RWouldBlock, rx') ->
  recv_greeting (S fuel) e (Conn rx en tx plan) = recv_greeting fuel e (Conn rx' en tx plan).
Proof.
  intros H0 Hr. cbn [recv_greeting]. replace (rbp e <? 16) with true by lia.
  unfold recv_rbuf, recv. cbn [Z.eqb c_rx c_end c_tx c_plan]. by rewrite Hr.
Qed.

(** However the stream is cut and delayed, the loop stores the bytes that come
    and takes no more than it needs. *)
Lemma recv_greeting_eq fuel l rest rx en tx plan e :
  rx_bytes rx = l ++ rest -> 0 <= rbp e -> rbp e + Z.of_nat (length l) = 16 ->
  length (rbuf e) = 1070%nat -> (length l + gaps rx <= fuel)%nat ->
  exists rx' e', rx_bytes rx' = rest /\
    e' <| rbp := 0 |> = e <| rbuf := overwrite (rbuf e) (Z.to_nat (rbp e)) l |> <| rbp := 0 |> /\
    recv_greeting fuel e (Conn rx en tx plan) = Some (Greeted e' (Conn rx' en tx plan)).
Proof.
  revert l rx e. induction fuel as [|fuel IH]; intros l rx e Hrx H0 H16 Hb Hf.
  all: destruct l as [|x l];
    [exists rx, e; split_and!; [done| |apply recv_greeting_done; simpl in H16; lia];
     unfold overwrite; cbn [length app]; rewrite Nat.add_0_r, take_drop; by destruct e|].
  { simpl in Hf. lia. }
  cbn [length] in *. cbn [app] in Hrx.
  destruct (recv_items_byte rx en x (l ++ rest) Hrx) as (rx' & [(Hr & Hrx' & Hg)|(Hr & Hrx' & Hg)]).
  - rewrite (recv_greeting_byte fuel x e rx rx') by first [done|lia].
    set (buf := overwrite (rbuf e) (Z.to_nat (rbp e)) [x]).
    assert (Hb1 : length buf = 1070%nat)
      by (unfold buf; rewrite length_overwrite; [done|rewrite Hb; simpl; lia]).
    destruct (IH l rx' (e <| rbuf := buf |> <| rbp := rbp e + 1 |>) Hrx')
      as (rx2 & e' & ? & He' & Hgo); [cbn; lia|cbn; lia|exact Hb1|lia|].
    exists rx2, e'. split_and!; [done| |exact Hgo].
    rewrite He'. change (rbp (set_fld rbp ?v _)) with v.
    change (rbuf (set_fld rbp _ (set_fld rbuf ?v _))) with v. unfold buf.
    replace (Z.to_nat (rbp e + 1)) with (Z.to_nat (rbp e) + length [x])%nat by (simpl; lia).
    by rewrite overwrite_app by (rewrite Hb; simpl; lia).
  - rewrite (recv_greeting_gap fuel e rx rx') by first [done|lia].
    apply (IH (x :: l)); [done..|cbn [length]; lia].
Qed.

(** The loop on a connection the peer has closed: [recv] returns 0 for ever. *)
Lemma recv_greeting_closed fuel e tx plan :
  0 <= rbp e < 16 -> length (rbuf e) = 1070%nat ->
  recv_greeting fuel e (Conn [] EndClosed tx plan) = Some Running.
Proof.
  revert e. induction fuel as [|fuel IH]; intros e H0 Hb; cbn [recv_greeting];
    replace (rbp e <? 16) with true by lia; [done|].
  unfold recv_rbuf, recv. cbn [Z.eqb c_rx c_end c_tx c_plan recv_items].
  unfold guard_ub. rewrite Hb. cbn [length].
  replace (_ <=? _) with true by (symmetry; apply Z.leb_le; lia). cbn [mbind option_bind].
  set (v := overwrite _ _ _).
  assert (Hv : length v = 1070%nat)
    by (unfold v; rewrite length_overwrite; [done|simpl; rewrite Hb; lia]).
  match goal with |- context [u32 ?x] => replace (u32 x) with (rbp e) end.
  - apply IH; [exact H0|exact Hv].
  - change (rbp (set_fld rbuf v e)) with (rbp e). cbn. rewrite Z.add_0_r.
    symmetry. apply is_u_small. unfold is_u. change (2 ^ 32) with 4294967296. lia.
Qed.

(** The greeting of an event with other levels. *)
Definition greeting_of (primary secondary tertiary : Z) : list Z :=
  [0x54; 0x4C; 0x58; 0] ++ be_bytes 4 primary ++ be_bytes 4 secondary ++ be_bytes 4 tertiary.

(** * Properties *)

(** C32: the handshake, however the peer's 16 bytes are cut up and delayed: with
    a greeting of the TLX protocol the result depends on the primary level
    alone, with anything else the socket is refused; 16 bytes are sent, 16 are
    taken, and no later byte is lost. *)
Theorem establish_protocol_correct fuel hi rest rx en tx plan e :
  event_wf e -> rbp e = 0 -> no_fail plan -> length hi = 16%nat -> bytes hi ->
  rx_bytes rx = hi ++ rest -> (16 + gaps rx <= fuel)%nat ->
  exists rx' e' plan',
    establish_protocol fuel e (Conn rx en tx plan) =
    Some (Some (if bool_decide (take 4 hi = [0x54; 0x4C; 0x58; 0])
                then if be_val (take 4 (drop 4 hi)) =? proto_primary e
                     then TLX_SUCCESS else TLX_VERSION_ERROR
                else TLX_BAD_SOCKET),
          e', Conn rx' en (tx ++ greeting e) plan') /\
    rx_bytes rx' = rest /\ event_wf e' /\ rbp e' = 0 /\
    e' <| tbuf := tbuf e |> <| rbuf := rbuf e |> = e.
Proof.
  intros Hwf H0 Hp Hhi Hbh Hrx Hf.
  destruct (field_get (p := tbuf) e Hwf) as [Ht Htb].
  destruct (field_get (p := rbuf) e Hwf) as [Hr Hrb].
  set (e1 := e <| tbuf := overwrite (tbuf e) 0 (greeting e) |>).
  destruct (send_all_ok (greeting e) (Conn rx en tx plan) Hp) as (plan' & Hs & _).
  destruct (recv_greeting_eq fuel hi rest rx en (tx ++ greeting e) plan' e1 Hrx)
    as (rx' & e' & Hrx' & He' & Hgo).
  { change (rbp e1) with (rbp e). lia. }
  { change (rbp e1) with (rbp e). rewrite H0, Hhi. done. }
  { exact Hr. } { lia. }
  change (rbp e1) with (rbp e) in He'. change (rbuf e1) with (rbuf e) in He'. rewrite H0 in He'.
  assert (Hrb' : rbuf e' = overwrite (rbuf e) 0 hi).
  { change (rbuf e') with (rbuf (e' <| rbp := 0 |>)). by rewrite He'. }
  assert (Hpp : proto_primary e' = proto_primary e).
  { change (proto_primary e') with (proto_primary (e' <| rbp := 0 |>)). by rewrite He'. }
  exists rx', (e' <| rbp := 0 |>), plan'. split_and!.
  - unfold establish_protocol, guard_ub.
    replace (_ <=? _)%nat with true by (symmetry; apply Nat.leb_le; lia).
    cbv zeta. rewrite Hs. cbn [negb c_rx c_end c_tx].
    eapply bind_eq; [exact Hgo|]. cbv beta iota.
    change (rbuf (e' <| rbp := 0 |>)) with (rbuf e').
    change (proto_primary (e' <| rbp := 0 |>)) with (proto_primary e').
    rewrite Hrb', Hpp. unfold overwrite. rewrite take_0, app_nil_l.
    rewrite drop_app_le, !take_app_le by (rewrite ?length_drop; lia).
    destruct (bool_decide _); cbn [negb]; [|done]. by destruct (_ =? _).
  - done.
  - rewrite He'. unfold e1.
    assert (is_array 1070 (overwrite (tbuf e) 0 (greeting e))).
    { apply overwrite_array; [done|unfold greeting; len|].
      unfold greeting. repeat apply Forall_app_2; try apply be_bytes_bytes.
      repeat (apply List.Forall_cons; [by vm_compute|]). apply Forall_nil_2. }
    assert (is_array 1070 (overwrite (rbuf e) 0 hi)) by (apply overwrite_array; [done|lia|done]).
    solve_wf.
  - done.
  - rewrite He'. destruct e. cbn in H0. by subst.
Qed.

Definition sample_greeting : list Z := greeting_of PROTOCOL_PRIMARY 1 2.

Lemma establish_protocol_correct_witness :
  exists rx' e' plan',
    establish_protocol 20 (tlx_event_reset event_zero)
      (Conn [Gap; Chunk (take 5 sample_greeting); Gap; Chunk (drop 5 sample_greeting ++ [7])] EndIdle [] [])
    = Some (Some TLX_SUCCESS, e',
            Conn rx' EndIdle ([] ++ greeting (tlx_event_reset event_zero)) plan') /\
    rx_bytes rx' = [7] /\ event_wf e' /\ rbp e' = 0 /\
    e' <| tbuf := tbuf (tlx_event_reset event_zero) |> <| rbuf := rbuf (tlx_event_reset event_zero) |>
    = tlx_event_reset event_zero.
Proof.
  apply (establish_protocol_correct 20 sample_greeting [7]
    [Gap; Chunk (take 5 sample_greeting); Gap; Chunk (drop 5 sample_greeting ++ [7])]).
  - apply tlx_event_reset_wf.
  - reflexivity.
  - apply not_elem_of_nil.
  - reflexivity.
  - repeat (apply List.Forall_cons; [by vm_compute|]). apply Forall_nil_2.
  - reflexivity.
  - cbn. lia.
Defined.

(** a peer that hangs up before its greeting is complete is never noticed:
    the loop tests for -1 while [recv] returns 0, so [establish_protocol] does
    not return, whatever the fuel. *)
Theorem establish_protocol_hangup fuel e tx plan :
  event_wf e -> rbp e = 0 -> no_fail plan ->
  exists e' c', establish_protocol fuel e (Conn [] EndClosed tx plan) = Some (None, e', c').
Proof.
  intros Hwf H0 Hp.
  destruct (field_get (p := tbuf) e Hwf) as [Ht _].
  destruct (field_get (p := rbuf) e Hwf) as [Hr _].
  destruct (send_all_ok (greeting e) (Conn [] EndClosed tx plan) Hp) as (plan' & Hs & _).
  do 2 eexists. unfold establish_protocol, guard_ub.
  replace (_ <=? _)%nat with true by (symmetry; apply Nat.leb_le; lia).
  cbv zeta. rewrite Hs. cbn [negb c_rx c_end c_tx].
  eapply (bind_eq _ Running); [|reflexivity]. apply recv_greeting_closed; [|exact Hr].
  change (rbp (set_fld tbuf ?v e)) with (rbp e). lia.
Qed.

Lemma establish_protocol_hangup_witness :
  exists e' c',
    establish_protocol 100 (tlx_event_reset event_zero) (Conn [] EndClosed [] []) = Some (None, e', c').
Proof.
  apply establish_protocol_hangup; [apply tlx_event_reset_wf|reflexivity|apply not_elem_of_nil].
Defined.
