(* ===== verification/TlxHost.v ===== *)
(** common/tlx_interface.c, host side: the functions ocse calls to put
    commands, responses and credits on the TLX interface and to take the AFU's
    off it.  Each function returns its return code and the new event; [None]
    is undefined behaviour (a [memcpy] out of bounds). *)
From S2P Require Import Prelude Utils Event.

Implicit Types event : AFU_EVENT.

(** * Credits *)

Definition tlx_afu_send_initial_credits event (cmd resp cmd_data resp_data : Z)
    : Z * AFU_EVENT :=
  (TLX_SUCCESS,
   event <| tlx_afu_cmd_initial_credit := cmd |>
         <| tlx_afu_cmd_data_initial_credit := cmd_data |>
         <| tlx_afu_resp_initial_credit := resp |>
         <| tlx_afu_resp_data_initial_credit := resp_data |>
         <| tlx_afu_credit_valid := 1 |>).

(** The out-parameters are the command, configuration and response credits. *)
Definition afu_tlx_read_initial_credits event : Z * option (Z * Z * Z) * AFU_EVENT :=
  if negb (truthy (afu_tlx_credit_req_valid event)) then (AFU_TLX_NO_CREDITS, None, event)
  else
    (TLX_SUCCESS,
     Some (afu_tlx_cmd_initial_credit event, cfg_tlx_initial_credit event,
           afu_tlx_resp_initial_credit event),
     event <| cfg_tlx_credits_available := cfg_tlx_initial_credit event |>
           <| afu_tlx_cmd_credits_available := afu_tlx_cmd_initial_credit event |>
           <| afu_tlx_resp_credits_available := afu_tlx_resp_initial_credit event |>
           <| afu_tlx_credit_req_valid := 0 |>).

(** * Responses to the AFU *)

Definition put_tlx_resp event (r : tlx_resp) : AFU_EVENT :=
  event <| tlx_afu_resp_opcode := tr_opcode r |>
        <| tlx_afu_resp_afutag := tr_afutag r |>
        <| tlx_afu_resp_code := tr_code r |>
        <| tlx_afu_resp_pg_size := tr_pg_size r |>
        <| tlx_afu_resp_dl := tr_dl r |>
        <| tlx_afu_resp_dp := tr_dp r |>
        <| tlx_afu_resp_addr_tag := tr_addr_tag r |>.

Definition tlx_afu_send_resp event (r : tlx_resp) : Z * AFU_EVENT :=
  if afu_tlx_resp_credits_available event =? 0 then (AFU_TLX_NO_CREDITS, event)
  else if truthy (tlx_afu_resp_valid event) then (TLX_AFU_DOUBLE_RESP, event)
  else
    (TLX_SUCCESS,
     put_tlx_resp
       (event <| tlx_afu_resp_valid := 1 |>
              <| afu_tlx_resp_credits_available :=
                   u8 (afu_tlx_resp_credits_available event - 1) |>) r).

(** The byte count must agree with the number of beats the AFU asked for. *)
Definition rd_cnt_wrong (rd_cnt byte_cnt : Z) : bool :=
  if byte_cnt <=? 64 then negb (rd_cnt =? 1) else negb (rd_cnt =? byte_cnt / 64).

Definition tlx_afu_send_resp_data event (resp_byte_cnt resp_data_bdi : Z)
    (resp_data : list Z) : option (Z * AFU_EVENT) :=
  if afu_tlx_resp_rd_req event =? 0 then Some (AFU_TLX_NO_CREDITS, event)
  else if rd_cnt_wrong (afu_tlx_resp_rd_cnt event) resp_byte_cnt
       then Some (AFU_TLX_RD_CNT_WRONG, event)
  else
    data ← memcpy (tlx_afu_resp_data event) resp_data resp_byte_cnt;
    Some (TLX_SUCCESS,
          event <| tlx_afu_resp_data_bdi := resp_data_bdi |>
                <| tlx_afu_resp_data := data |>
                <| tlx_afu_resp_data_valid := 1 |>
                <| tlx_afu_resp_data_byte_cnt := resp_byte_cnt |>
                <| afu_tlx_resp_rd_cnt := 0 |>
                <| afu_tlx_resp_rd_req := 0 |>).

(** The data starts at the 64-byte part [dp] of [resp_data]; [size] is a
    [uint32_t], so an illegal [dl] asks for 2^32-1 bytes. *)
Definition tlx_afu_send_resp_and_data event (r : tlx_resp) (resp_data_bdi : Z)
    (resp_data : list Z) : option (Z * AFU_EVENT) :=
  if afu_tlx_resp_credits_available event =? 0 then Some (AFU_TLX_NO_CREDITS, event)
  else if (tlx_afu_resp_valid event =? 1) || (tlx_afu_resp_data_valid event =? 1)
       then Some (TLX_AFU_DOUBLE_RESP_AND_DATA, event)
  else
    let event' :=
      put_tlx_resp
        (event <| tlx_afu_resp_valid := 1 |>
               <| tlx_afu_resp_data_valid := 1 |>
               <| afu_tlx_resp_credits_available :=
                    u8 (afu_tlx_resp_credits_available event - 1) |>) r
      <| tlx_afu_resp_data_bdi := resp_data_bdi |> in
    let size := u32 (dl_to_size (tr_dl r)) in
    let offset := 0 + Z.land (tr_dp r) 0x3 * 64 in
    data ← memcpy (tlx_afu_resp_data event') (drop (Z.to_nat offset) resp_data) size;
    Some (TLX_SUCCESS,
          event' <| tlx_afu_resp_data := data |>
                 <| tlx_afu_resp_data_byte_cnt := u16 size |>).

(** Posted commands ([xlate_done], [intrp_rdy]) use the response interface. *)
Definition tlx_afu_send_posted_cmd event (opcode afutag code : Z) : Z * AFU_EVENT :=
  if afu_tlx_resp_credits_available event =? 0 then (AFU_TLX_NO_CREDITS, event)
  else if truthy (tlx_afu_resp_valid event) then (TLX_AFU_DOUBLE_RESP, event)
  else
    (TLX_SUCCESS,
     put_tlx_resp
       (event <| tlx_afu_resp_valid := 1 |>
              <| afu_tlx_resp_credits_available :=
                   u8 (afu_tlx_resp_credits_available event - 1) |>)
       (TlxResp opcode afutag code 0 0 0 0)).

(** * Commands to the AFU *)

Definition put_tlx_cmd event (c : tlx_cmd) : AFU_EVENT :=
  event <| tlx_afu_cmd_opcode := tc_opcode c |>
        <| tlx_afu_cmd_capptag := tc_capptag c |>
        <| tlx_afu_cmd_dl := tc_dl c |>
        <| tlx_afu_cmd_pl := tc_pl c |>
        <| tlx_afu_cmd_be := tc_be c |>
        <| tlx_afu_cmd_end := tc_end c |>
        <| tlx_afu_cmd_pa := tc_pa c |>.

(** The guard of the two send functions, as written. *)
Definition rejects_cfg (tlx_cmd_opcode : Z) : bool :=
  (tlx_cmd_opcode =? TLX_CMD_CONFIG_READ) && (tlx_cmd_opcode =? TLX_CMD_CONFIG_WRITE).

Definition tlx_afu_send_cmd event (c : tlx_cmd) : Z * AFU_EVENT :=
  if rejects_cfg (tc_opcode c) then (CFG_TLX_NOT_CFG_CMD, event)
  else if tlx_afu_cmd_valid event =? 1 then (TLX_AFU_DOUBLE_COMMAND, event)
  else
    (TLX_SUCCESS,
     put_tlx_cmd
       (event <| afu_tlx_cmd_credits_available :=
                   u8 (afu_tlx_cmd_credits_available event - 1) |>
              <| tlx_afu_cmd_valid := 1 |>) c).

Definition tlx_afu_send_cmd_data event (cmd_byte_cnt cmd_data_bdi : Z)
    (cmd_data : list Z) : option (Z * AFU_EVENT) :=
  if afu_tlx_cmd_rd_req event =? 0 then Some (AFU_TLX_NO_CREDITS, event)
  else if rd_cnt_wrong (afu_tlx_cmd_rd_cnt event) cmd_byte_cnt
       then Some (AFU_TLX_RD_CNT_WRONG, event)
  else
    data ← memcpy (tlx_afu_cmd_data_bus event) cmd_data cmd_byte_cnt;
    Some (TLX_SUCCESS,
          event <| tlx_afu_cmd_data_bdi := cmd_data_bdi |>
                <| tlx_afu_cmd_data_bus := data |>
                <| tlx_afu_cmd_data_byte_cnt := cmd_byte_cnt |>
                <| tlx_afu_cmd_data_valid := 1 |>
                <| afu_tlx_cmd_rd_cnt := u8 (afu_tlx_cmd_rd_cnt event - 1) |>
                <| afu_tlx_cmd_rd_req := 0 |>).

Definition tlx_afu_send_cmd_and_data event (c : tlx_cmd) (cmd_data_bdi : Z)
    (cmd_data : list Z) : option (Z * AFU_EVENT) :=
  if rejects_cfg (tc_opcode c) then Some (CFG_TLX_NOT_CFG_CMD, event)
  else if tlx_afu_cmd_valid event =? 1 then Some (TLX_AFU_DOUBLE_COMMAND, event)
  else
    let event' :=
      put_tlx_cmd
        (event <| afu_tlx_cmd_credits_available :=
                    u8 (afu_tlx_cmd_credits_available event - 1) |>
               <| tlx_afu_cmd_valid := 1 |>
               <| tlx_afu_cmd_data_valid := 1 |>) c
      <| tlx_afu_cmd_data_bdi := cmd_data_bdi |> in
    let size := if negb (tc_dl c =? 0) then dl_to_size (tc_dl c) else 64 in
    data ← memcpy (tlx_afu_cmd_data_bus event') cmd_data size;
    Some (TLX_SUCCESS,
          event' <| tlx_afu_cmd_data_bus := data |>
                 <| tlx_afu_cmd_data_byte_cnt := u16 size |>).

(** * Configuration commands *)

(** [char fill[4] = "dead"]. *)
Definition fill : list Z := [0x64; 0x65; 0x61; 0x64].

Definition cfg_data_byte_cnt (cfg_pl : Z) : Z := if cfg_pl =? 2 then 4 else 0.

Definition tlx_afu_send_cfg_cmd_and_data event (c : cfg_cmd) (cfg_data_bdi : Z)
    (cfg_data : list Z) : option (Z * AFU_EVENT) :=
  if tlx_cfg_valid event =? 1 then Some (TLX_AFU_DOUBLE_CMD_AND_DATA, event)
  else if negb (cc_opcode c =? TLX_CMD_CONFIG_READ) &&
          negb (cc_opcode c =? TLX_CMD_CONFIG_WRITE)
       then Some (CFG_TLX_NOT_CFG_CMD, event)
  else if cfg_tlx_credits_available event =? 0 then Some (CFG_TLX_NO_CREDITS, event)
  else
    let event :=
      event <| cfg_tlx_credits_available := u8 (cfg_tlx_credits_available event - 1) |>
            <| tlx_cfg_valid := 1 |>
            <| tlx_cfg_opcode := cc_opcode c |>
            <| tlx_cfg_capptag := cc_capptag c |>
            <| tlx_cfg_pl := cc_pl c |>
            <| tlx_cfg_t := cc_t c |>
            <| tlx_cfg_pa := cc_pa c |> in
    if cc_opcode c =? TLX_CMD_CONFIG_WRITE then
      let event := event <| tlx_cfg_data_bdi := cfg_data_bdi |> in
      let cnt := cfg_data_byte_cnt (cc_pl c) in
      bus ← (if (cc_opcode c =? TLX_CMD_CONFIG_READ) || (cnt =? 0)
             then memcpy (tlx_cfg_data_bus event) fill 4
             else memcpy (tlx_cfg_data_bus event) cfg_data cnt);
      Some (TLX_SUCCESS, event <| tlx_cfg_data_bus := bus |>)
    else Some (TLX_SUCCESS, event).

(** The data out-parameters are written for a read response only. *)
Definition afu_tlx_read_cfg_resp_and_data event (requested_capptag : Z)
    : Z * option (cfg_resp * option data_beat) * AFU_EVENT :=
  if negb (truthy (cfg_tlx_resp_valid event)) then (CFG_TLX_RESP_NOT_VALID, None, event)
  else if negb (cfg_tlx_resp_capptag event =? requested_capptag)
       then (CFG_TLX_NOT_CFG_CMD, None, event)
  else
    let data :=
      if cfg_tlx_resp_opcode event =? AFU_RSP_MEM_RD_RESP
      then Some (cfg_tlx_rdata_bus event, cfg_tlx_rdata_bdi event) else None in
    (TLX_SUCCESS,
     Some (CfgResp (cfg_tlx_resp_opcode event) (cfg_tlx_resp_capptag event)
                   (cfg_tlx_resp_code event), data),
     event <| cfg_tlx_resp_valid := 0 |>
           <| tlx_cfg_resp_ack := 1 |>
           <| tlx_afu_credit_valid := 1 |>).

(** * Responses from the AFU *)

Definition get_afu_resp event : afu_resp :=
  AfuResp (afu_tlx_resp_opcode event) (afu_tlx_resp_dl event)
          (afu_tlx_resp_capptag event) (afu_tlx_resp_dp event) (afu_tlx_resp_code event).

Definition afu_tlx_read_resp_and_data event
    : Z * option (afu_resp * option data_beat) * AFU_EVENT :=
  if negb (truthy (afu_tlx_resp_valid event)) then (AFU_TLX_RESP_NOT_VALID, None, event)
  else
    let event' := event <| afu_tlx_resp_valid := 0 |> in
    let '(data, event') :=
      if truthy (afu_tlx_rdata_valid event)
      then (Some (afu_tlx_rdata_bus event, afu_tlx_rdata_bdi event),
            event' <| afu_tlx_rdata_valid := 0 |> <| tlx_afu_resp_data_credit := 1 |>)
      else (None, event') in
    (TLX_SUCCESS, Some (get_afu_resp event, data),
     event' <| tlx_afu_resp_credit := 1 |> <| tlx_afu_credit_valid := 1 |>).

Definition afu_tlx_read_resp event : Z * option afu_resp * AFU_EVENT :=
  if negb (truthy (afu_tlx_resp_valid event)) then (AFU_TLX_RESP_NOT_VALID, None, event)
  else
    (TLX_SUCCESS, Some (get_afu_resp event),
     event <| afu_tlx_resp_valid := 0 |>
           <| tlx_afu_resp_credit := 1 |> <| tlx_afu_credit_valid := 1 |>).

Definition afu_tlx_read_resp_data event : Z * option data_beat * AFU_EVENT :=
  if truthy (afu_tlx_rdata_valid event) then
    (TLX_SUCCESS, Some (afu_tlx_rdata_bus event, afu_tlx_rdata_bdi event),
     event <| afu_tlx_rdata_valid := 0 |>
           <| tlx_afu_resp_data_credit := 1 |> <| tlx_afu_credit_valid := 1 |>)
  else (TLX_AFU_RESP_DATA_NOT_VALID, None, event).

(** * Commands from the AFU *)

Definition get_afu_cmd event : afu_cmd :=
  AfuCmd (afu_tlx_cmd_opcode event) (afu_tlx_cmd_actag event)
    (afu_tlx_cmd_stream_id event) (afu_tlx_cmd_ea_or_obj event)
    (afu_tlx_cmd_afutag event) (afu_tlx_cmd_dl event) (afu_tlx_cmd_pl event)
    (afu_tlx_cmd_be event) (afu_tlx_cmd_flag event) (afu_tlx_cmd_endian event)
    (afu_tlx_cmd_bdf event) (afu_tlx_cmd_pasid event) (afu_tlx_cmd_pg_size event).

Definition afu_tlx_read_cmd_and_data event
    : Z * option (afu_cmd * option data_beat) * AFU_EVENT :=
  if negb (truthy (afu_tlx_cmd_valid event)) then (AFU_TLX_CMD_NOT_VALID, None, event)
  else
    let event' := event <| afu_tlx_cmd_valid := 0 |> in
    if truthy (afu_tlx_cdata_valid event)
    then (TLX_SUCCESS,
          Some (get_afu_cmd event,
                Some (afu_tlx_cdata_bus event, afu_tlx_cdata_bdi event)),
          event' <| afu_tlx_cdata_valid := 0 |>)
    else (TLX_SUCCESS, Some (get_afu_cmd event, None), event').

(** Returns success with or without data; [cmd_data_is_valid] tells. *)
Definition afu_tlx_read_cmd_data event : Z * option data_beat * AFU_EVENT :=
  if truthy (afu_tlx_cdata_valid event) then
    (TLX_SUCCESS, Some (afu_tlx_cdata_bus event, afu_tlx_cdata_bdi event),
     event <| afu_tlx_cdata_valid := 0 |>)
  else (TLX_SUCCESS, None, event).

(** the two functions that send a host command test neither the command
    credits nor, in effect, the opcode: with no credit left they succeed and
    leave 255 credits, also for a configuration opcode. *)
Theorem host_command_unguarded event c data bdi :
  tlx_afu_cmd_valid event = 0 -> afu_tlx_cmd_credits_available event = 0 ->
  (tlx_afu_send_cmd event c).1 = TLX_SUCCESS /\
  afu_tlx_cmd_credits_available (tlx_afu_send_cmd event c).2 = 255 /\
  (tc_dl c = 0 -> length (tlx_afu_cmd_data_bus event) = 256%nat -> (64 <= length data)%nat ->
   exists event',
     tlx_afu_send_cmd_and_data event c bdi data = Some (TLX_SUCCESS, event') /\
     afu_tlx_cmd_credits_available event' = 255).
Proof.
  intros Hv Hc.
  assert (Hr : forall o, rejects_cfg o = false).
  { intros o. unfold rejects_cfg. destruct (o =? TLX_CMD_CONFIG_READ) eqn:E; [|done].
    by apply Z.eqb_eq in E as ->. }
  unfold tlx_afu_send_cmd, tlx_afu_send_cmd_and_data. rewrite Hr, Hv. cbn -[memcpy length].
  rewrite Hc. split_and!; [done|done|]. intros -> Hb Hd. cbn -[memcpy length].
  destruct (memcpy_defined (tlx_afu_cmd_data_bus event) data 64) as [l ->]; [lia|lia|].
  eexists. split; [reflexivity|]. done.
Qed.

Lemma host_command_unguarded_witness :
  (tlx_afu_send_cmd (tlx_event_reset event_zero) (TlxCmd TLX_CMD_CONFIG_READ 0 0 0 0 0 0)).1
  = TLX_SUCCESS.
Proof.
  apply (host_command_unguarded (tlx_event_reset event_zero)
           (TlxCmd TLX_CMD_CONFIG_READ 0 0 0 0 0 0) [] 0); reflexivity.
Defined.
