(* ===== verification/TlxAfu.v ===== *)
(** common/tlx_interface.c, AFU side: the functions the simulator side driver
    calls to put the AFU's commands, responses and credits on the TLX interface
    and to take the host's off it. *)
From S2P Require Import Prelude Utils Event.
From S2P Require Import TlxHost.

Implicit Types event : AFU_EVENT.

(** * Credits *)

Definition afu_tlx_send_initial_credits event (cmd cfg resp : Z) : Z * AFU_EVENT :=
  (TLX_SUCCESS,
   event <| afu_tlx_cmd_initial_credit := cmd |>
         <| cfg_tlx_initial_credit := cfg |>
         <| afu_tlx_resp_initial_credit := resp |>
         <| afu_tlx_credit_req_valid := 1 |>).

(** The out-parameters are the command, response, command data and response
    data credits. *)
Definition tlx_afu_read_initial_credits event : Z * option (Z * Z * Z * Z) * AFU_EVENT :=
  if negb (truthy (tlx_afu_credit_valid event)) then (TLX_AFU_NO_CREDITS, None, event)
  else
    (TLX_SUCCESS,
     Some (tlx_afu_cmd_initial_credit event, tlx_afu_resp_initial_credit event,
           tlx_afu_cmd_data_initial_credit event, tlx_afu_resp_data_initial_credit event),
     event <| tlx_afu_cmd_credits_available := tlx_afu_cmd_initial_credit event |>
           <| tlx_afu_resp_credits_available := tlx_afu_resp_initial_credit event |>
           <| tlx_afu_cmd_data_credits_available := tlx_afu_cmd_data_initial_credit event |>
           <| tlx_afu_resp_data_credits_available := tlx_afu_resp_data_initial_credit event |>
           <| tlx_afu_credit_valid := 0 |>).

(** * Responses to the host *)

Definition put_afu_resp event (r : afu_resp) : AFU_EVENT :=
  event <| afu_tlx_resp_opcode := ar_opcode r |>
        <| afu_tlx_resp_capptag := ar_capptag r |>
        <| afu_tlx_resp_code := ar_code r |>
        <| afu_tlx_resp_dl := ar_dl r |>
        <| afu_tlx_resp_dp := ar_dp r |>.

Definition afu_tlx_send_resp event (r : afu_resp) : Z * AFU_EVENT :=
  if tlx_afu_resp_credits_available event =? 0 then (TLX_AFU_NO_CREDITS, event)
  else if truthy (afu_tlx_resp_valid event) then (AFU_TLX_DOUBLE_RESP, event)
  else
    (TLX_SUCCESS,
     put_afu_resp
       (event <| afu_tlx_resp_valid := 1 |>
              <| tlx_afu_resp_credits_available :=
                   u8 (tlx_afu_resp_credits_available event - 1) |>) r).

(** The parameters [DATA_RESP_CONTINUATION] and [resp_dl] are not used. *)
Definition afu_tlx_send_resp_data event (rdata_bdi resp_dp : Z) (rdata_bus : list Z)
    : option (Z * AFU_EVENT) :=
  if tlx_afu_resp_data_credits_available event =? 0
  then Some (TLX_AFU_NO_CREDITS, event)
  else if afu_tlx_rdata_valid event =? 1 then Some (AFU_TLX_DOUBLE_RESP_DATA, event)
  else
    bus ← memcpy (afu_tlx_rdata_bus event) rdata_bus 64;
    Some (TLX_SUCCESS,
          event <| afu_tlx_rdata_valid := 1 |>
                <| tlx_afu_resp_data_credits_available :=
                     u8 (tlx_afu_resp_data_credits_available event - 1) |>
                <| afu_tlx_resp_dp := resp_dp |>
                <| afu_tlx_rdata_bdi := rdata_bdi |>
                <| afu_tlx_rdata_bus := bus |>).

Definition afu_tlx_send_resp_and_data event (r : afu_resp) (rdata_bus : list Z)
    (rdata_bdi : Z) : option (Z * AFU_EVENT) :=
  if (tlx_afu_resp_credits_available event =? 0) ||
     (tlx_afu_resp_data_credits_available event =? 0)
  then Some (TLX_AFU_NO_CREDITS, event)
  else if (afu_tlx_resp_valid event =? 1) || (afu_tlx_rdata_valid event =? 1)
       then Some (AFU_TLX_DOUBLE_RESP_AND_DATA, event)
  else
    bus ← memcpy (afu_tlx_rdata_bus event) rdata_bus 64;
    Some (TLX_SUCCESS,
          put_afu_resp
            (event <| afu_tlx_resp_valid := 1 |>
                   <| tlx_afu_resp_credits_available :=
                        u8 (tlx_afu_resp_credits_available event - 1) |>
                   <| afu_tlx_rdata_valid := 1 |>
                   <| tlx_afu_resp_data_credits_available :=
                        u8 (tlx_afu_resp_data_credits_available event - 1) |>) r
            <| afu_tlx_rdata_bdi := rdata_bdi |>
            <| afu_tlx_rdata_bus := bus |>).

(** * Configuration *)

Definition afu_cfg_send_resp_and_data event (r : cfg_resp) (cfg_rdata_bus : list Z)
    (cfg_rdata_bdi : Z) : option (Z * AFU_EVENT) :=
  if cfg_tlx_resp_valid event =? 1 then Some (AFU_TLX_DOUBLE_RESP_AND_DATA, event)
  else
    bus ← (if negb (cr_opcode r =? AFU_RSP_MEM_RD_RESP)
           then memcpy (cfg_tlx_rdata_bus event) fill 4
           else memcpy (cfg_tlx_rdata_bus event) cfg_rdata_bus 4);
    Some (TLX_SUCCESS,
          event <| cfg_tlx_resp_valid := 1 |>
                <| cfg_tlx_rdata_bdi := cfg_rdata_bdi |>
                <| cfg_tlx_rdata_bus := bus |>
                <| cfg_tlx_resp_opcode := cr_opcode r |>
                <| cfg_tlx_resp_capptag := cr_capptag r |>
                <| cfg_tlx_resp_code := cr_code r |>).

Definition get_cfg_cmd event : cfg_cmd :=
  CfgCmd (tlx_cfg_opcode event) (tlx_cfg_capptag event) (tlx_cfg_pl event)
         (tlx_cfg_t event) (tlx_cfg_pa event).

(** Bytes handed to the caller for each [pl]. *)
Definition cfg_read_byte_cnt (pl : Z) : Z :=
  if pl =? 0 then 1 else if pl =? 1 then 2 else if pl =? 2 then 4 else 0.

(** The caller's data buffer is updated for a write only; the result is its
    new contents with the bad-data indicator. *)
Definition tlx_cfg_read_cmd_and_data event (cfg_data_bus : list Z)
    : option (Z * option (cfg_cmd * option data_beat) * AFU_EVENT) :=
  if negb (tlx_cfg_opcode event =? TLX_CMD_CONFIG_READ) &&
     negb (tlx_cfg_opcode event =? TLX_CMD_CONFIG_WRITE)
  then Some (CFG_TLX_NOT_CFG_CMD, None, event)
  else
    let event' := event <| tlx_cfg_valid := 0 |> in
    if tlx_cfg_opcode event =? TLX_CMD_CONFIG_WRITE then
      data ← memcpy cfg_data_bus (tlx_cfg_data_bus event)
               (cfg_read_byte_cnt (tlx_cfg_pl event));
      Some (TLX_SUCCESS, Some (get_cfg_cmd event, Some (data, tlx_cfg_data_bdi event)),
            event')
    else Some (TLX_SUCCESS, Some (get_cfg_cmd event, None), event').

(** * Commands to the host *)

Definition put_afu_cmd event (c : afu_cmd) (ea : list Z) : AFU_EVENT :=
  event <| afu_tlx_cmd_opcode := ac_opcode c |>
        <| afu_tlx_cmd_actag := ac_actag c |>
        <| afu_tlx_cmd_stream_id := ac_stream_id c |>
        <| afu_tlx_cmd_ea_or_obj := ea |>
        <| afu_tlx_cmd_afutag := ac_afutag c |>
        <| afu_tlx_cmd_dl := ac_dl c |>
        <| afu_tlx_cmd_pl := ac_pl c |>
        <| afu_tlx_cmd_be := ac_be c |>
        <| afu_tlx_cmd_flag := ac_flag c |>
        <| afu_tlx_cmd_endian := ac_endian c |>
        <| afu_tlx_cmd_bdf := ac_bdf c |>
        <| afu_tlx_cmd_pasid := ac_pasid c |>
        <| afu_tlx_cmd_pg_size := ac_pg_size c |>.

Definition afu_tlx_send_cmd event (c : afu_cmd) : option (Z * AFU_EVENT) :=
  if tlx_afu_cmd_credits_available event =? 0 then Some (TLX_AFU_NO_CREDITS, event)
  else if truthy (afu_tlx_cmd_valid event) then Some (AFU_TLX_DOUBLE_COMMAND, event)
  else
    ea ← memcpy (afu_tlx_cmd_ea_or_obj event) (ac_ea_or_obj c) 9;
    Some (TLX_SUCCESS,
          put_afu_cmd
            (event <| afu_tlx_cmd_valid := 1 |>
                   <| tlx_afu_cmd_credits_available :=
                        u8 (tlx_afu_cmd_credits_available event - 1) |>) c ea).

(** No test for data already waiting: a second beat overwrites the first. *)
Definition afu_tlx_send_cmd_data event (cdata_bdi : Z) (cdata_bus : list Z)
    : option (Z * AFU_EVENT) :=
  if tlx_afu_cmd_data_credits_available event =? 0
  then Some (TLX_AFU_NO_CREDITS, event)
  else
    bus ← memcpy (afu_tlx_cdata_bus event) cdata_bus 64;
    Some (TLX_SUCCESS,
          event <| afu_tlx_cdata_valid := 1 |>
                <| tlx_afu_cmd_data_credits_available :=
                     u8 (tlx_afu_cmd_data_credits_available event - 1) |>
                <| afu_tlx_cdata_bdi := cdata_bdi |>
                <| afu_tlx_cdata_bus := bus |>).

Definition afu_tlx_send_cmd_and_data event (c : afu_cmd) (cdata_bus : list Z)
    (cdata_bdi : Z) : option (Z * AFU_EVENT) :=
  if (tlx_afu_cmd_credits_available event =? 0) ||
     (tlx_afu_cmd_data_credits_available event =? 0)
  then Some (TLX_AFU_NO_CREDITS, event)
  else if (afu_tlx_cmd_valid event =? 1) || (afu_tlx_cdata_valid event =? 1)
       then Some (AFU_TLX_DOUBLE_CMD_AND_DATA, event)
  else
    ea ← memcpy (afu_tlx_cmd_ea_or_obj event) (ac_ea_or_obj c) 9;
    bus ← memcpy (afu_tlx_cdata_bus event) cdata_bus 64;
    Some (TLX_SUCCESS,
          put_afu_cmd
            (event <| afu_tlx_cmd_valid := 1 |>
                   <| tlx_afu_cmd_credits_available :=
                        u8 (tlx_afu_cmd_credits_available event - 1) |>
                   <| afu_tlx_cdata_valid := 1 |>
                   <| tlx_afu_cmd_data_credits_available :=
                        u8 (tlx_afu_cmd_data_credits_available event - 1) |>) c ea
            <| afu_tlx_cdata_bdi := cdata_bdi |>
            <| afu_tlx_cdata_bus := bus |>).

(** * Responses and commands from the host *)

Definition get_tlx_resp event : tlx_resp :=
  TlxResp (tlx_afu_resp_opcode event) (tlx_afu_resp_afutag event)
    (tlx_afu_resp_code event) (tlx_afu_resp_pg_size event) (tlx_afu_resp_dl event)
    (tlx_afu_resp_dp event) (tlx_afu_resp_addr_tag event).

Definition tlx_afu_read_resp event : Z * option tlx_resp * AFU_EVENT :=
  if negb (truthy (tlx_afu_resp_valid event)) then (TLX_AFU_RESP_NOT_VALID, None, event)
  else (TLX_SUCCESS, Some (get_tlx_resp event), event <| tlx_afu_resp_valid := 0 |>).

Definition afu_tlx_resp_data_read_req event (rd_req rd_cnt : Z) : Z * AFU_EVENT :=
  (TLX_SUCCESS,
   event <| afu_tlx_resp_rd_req := rd_req |>
         <| afu_tlx_resp_rd_cnt := rd_cnt |>
         <| afu_tlx_credit_req_valid := 1 |>).

(** The whole 256-byte buffer is copied out. *)
Definition tlx_afu_read_resp_data event : Z * option data_beat * AFU_EVENT :=
  if negb (truthy (tlx_afu_resp_data_valid event))
  then (TLX_AFU_RESP_DATA_NOT_VALID, None, event)
  else (TLX_SUCCESS, Some (tlx_afu_resp_data event, tlx_afu_resp_data_bdi event),
        event <| tlx_afu_resp_data_valid := 0 |>).

Definition get_tlx_cmd event : tlx_cmd :=
  TlxCmd (tlx_afu_cmd_opcode event) (tlx_afu_cmd_capptag event) (tlx_afu_cmd_dl event)
    (tlx_afu_cmd_pl event) (tlx_afu_cmd_be event) (tlx_afu_cmd_end event)
    (tlx_afu_cmd_pa event).

Definition tlx_afu_read_cmd event : Z * option tlx_cmd * AFU_EVENT :=
  if negb (truthy (tlx_afu_cmd_valid event)) then (TLX_AFU_CMD_NOT_VALID, None, event)
  else (TLX_SUCCESS, Some (get_tlx_cmd event), event <| tlx_afu_cmd_valid := 0 |>).

Definition afu_tlx_cmd_data_read_req event (rd_req rd_cnt : Z) : Z * AFU_EVENT :=
  (TLX_SUCCESS,
   event <| afu_tlx_cmd_rd_req := rd_req |>
         <| afu_tlx_cmd_rd_cnt := rd_cnt |>
         <| afu_tlx_credit_req_valid := 1 |>).

(** Only four bytes of the command data are copied out. *)
Definition tlx_afu_read_cmd_data event : Z * option data_beat * AFU_EVENT :=
  if negb (truthy (tlx_afu_cmd_data_valid event))
  then (TLX_AFU_CMD_DATA_NOT_VALID, None, event)
  else (TLX_SUCCESS, Some (take 4 (tlx_afu_cmd_data_bus event), tlx_afu_cmd_data_bdi event),
        event <| tlx_afu_cmd_data_valid := 0 |>).
