(* ===== verification/TlxApi.v ===== *)
(** The TLX interface as one component: every call of both sides as data, the
    event it leaves, and what holds of all of them - the typing invariant, the
    exact credit accounting and the absence of effects of a refused call. *)
From S2P Require Import Prelude Utils Event.
From S2P Require Import TlxHost TlxAfu.

Inductive api_call :=
  (* host *)
  | HSendInitialCredits (cmd resp cmd_data resp_data : Z)
  | HReadInitialCredits
  | HSendResp (r : tlx_resp)
  | HSendRespData (cnt bdi : Z) (data : list Z)
  | HSendRespAndData (r : tlx_resp) (bdi : Z) (data : list Z)
  | HSendPostedCmd (opcode afutag code : Z)
  | HSendCmd (c : tlx_cmd)
  | HSendCmdData (cnt bdi : Z) (data : list Z)
  | HSendCmdAndData (c : tlx_cmd) (bdi : Z) (data : list Z)
  | HSendCfg (c : cfg_cmd) (bdi : Z) (data : list Z)
  | HReadCfgResp (capptag : Z)
  | HReadRespAndData | HReadResp | HReadRespData | HReadCmdAndData | HReadCmdData
  (* AFU *)
  | ASendInitialCredits (cmd cfg resp : Z)
  | AReadInitialCredits
  | ASendResp (r : afu_resp)
  | ASendRespData (bdi dp : Z) (bus : list Z)
  | ASendRespAndData (r : afu_resp) (bus : list Z) (bdi : Z)
  | ASendCfgResp (r : cfg_resp) (bus : list Z) (bdi : Z)
  | AReadCfg (bus : list Z)
  | ASendCmd (c : afu_cmd)
  | ASendCmdData (bdi : Z) (bus : list Z)
  | ASendCmdAndData (c : afu_cmd) (bus : list Z) (bdi : Z)
  | AReadResp | ARespRdReq (req cnt : Z) | AReadRespData
  | AReadCmd | ACmdRdReq (req cnt : Z) | AReadCmdData.

(** Drop the out-parameters. *)
Definition no_out {A} (r : Z * A * AFU_EVENT) : Z * AFU_EVENT := (r.1.1, r.2).

Definition run_call (c : api_call) (e : AFU_EVENT) : option (Z * AFU_EVENT) :=
  match c with
  | HSendInitialCredits a b c d => Some (tlx_afu_send_initial_credits e a b c d)
  | HReadInitialCredits => Some (no_out (afu_tlx_read_initial_credits e))
  | HSendResp r => Some (tlx_afu_send_resp e r)
  | HSendRespData n b d => tlx_afu_send_resp_data e n b d
  | HSendRespAndData r b d => tlx_afu_send_resp_and_data e r b d
  | HSendPostedCmd o t c => Some (tlx_afu_send_posted_cmd e o t c)
  | HSendCmd c => Some (tlx_afu_send_cmd e c)
  | HSendCmdData n b d => tlx_afu_send_cmd_data e n b d
  | HSendCmdAndData c b d => tlx_afu_send_cmd_and_data e c b d
  | HSendCfg c b d => tlx_afu_send_cfg_cmd_and_data e c b d
  | HReadCfgResp t => Some (no_out (afu_tlx_read_cfg_resp_and_data e t))
  | HReadRespAndData => Some (no_out (afu_tlx_read_resp_and_data e))
  | HReadResp => Some (no_out (afu_tlx_read_resp e))
  | HReadRespData => Some (no_out (afu_tlx_read_resp_data e))
  | HReadCmdAndData => Some (no_out (afu_tlx_read_cmd_and_data e))
  | HReadCmdData => Some (no_out (afu_tlx_read_cmd_data e))
  | ASendInitialCredits a b c => Some (afu_tlx_send_initial_credits e a b c)
  | AReadInitialCredits => Some (no_out (tlx_afu_read_initial_credits e))
  | ASendResp r => Some (afu_tlx_send_resp e r)
  | ASendRespData b p d => afu_tlx_send_resp_data e b p d
  | ASendRespAndData r d b => afu_tlx_send_resp_and_data e r d b
  | ASendCfgResp r d b => afu_cfg_send_resp_and_data e r d b
  | AReadCfg d => no_out <$> tlx_cfg_read_cmd_and_data e d
  | ASendCmd c => afu_tlx_send_cmd e c
  | ASendCmdData b d => afu_tlx_send_cmd_data e b d
  | ASendCmdAndData c d b => afu_tlx_send_cmd_and_data e c d b
  | AReadResp => Some (no_out (tlx_afu_read_resp e))
  | ARespRdReq r n => Some (afu_tlx_resp_data_read_req e r n)
  | AReadRespData => Some (no_out (tlx_afu_read_resp_data e))
  | AReadCmd => Some (no_out (tlx_afu_read_cmd e))
  | ACmdRdReq r n => Some (afu_tlx_cmd_data_read_req e r n)
  | AReadCmdData => Some (no_out (tlx_afu_read_cmd_data e))
  end.

(** The arguments have their C types. *)
Definition call_ok (c : api_call) : Prop :=
  match c with
  | HSendInitialCredits a b c d => is_u 8 a /\ is_u 8 b /\ is_u 8 c /\ is_u 8 d
  | HSendResp r => tlx_resp_ok r
  | HSendRespData n b d => is_u 16 n /\ is_u 8 b /\ bytes d
  | HSendRespAndData r b d => tlx_resp_ok r /\ is_u 8 b /\ bytes d
  | HSendPostedCmd o t c => is_u 8 o /\ is_u 16 t /\ is_u 8 c
  | HSendCmd c => tlx_cmd_ok c
  | HSendCmdData n b d => is_u 16 n /\ is_u 8 b /\ bytes d
  | HSendCmdAndData c b d => tlx_cmd_ok c /\ is_u 8 b /\ bytes d
  | HSendCfg c b d => cfg_cmd_ok c /\ is_u 8 b /\ bytes d
  | HReadCfgResp t => is_u 16 t
  | ASendInitialCredits a b c => is_u 8 a /\ is_u 8 b /\ is_u 8 c
  | ASendResp r => afu_resp_ok r
  | ASendRespData b p d => is_u 8 b /\ is_u 8 p /\ bytes d
  | ASendRespAndData r d b => afu_resp_ok r /\ is_u 8 b /\ bytes d
  | ASendCfgResp r d b => cfg_resp_ok r /\ is_u 8 b /\ bytes d
  | AReadCfg d => bytes d
  | ASendCmd c => afu_cmd_ok c
  | ASendCmdData b d => is_u 8 b /\ bytes d
  | ASendCmdAndData c d b => afu_cmd_ok c /\ is_u 8 b /\ bytes d
  | ARespRdReq r n => is_u 8 r /\ is_u 8 n
  | ACmdRdReq r n => is_u 8 r /\ is_u 8 n
  | _ => True
  end.

(** Events reachable from a reset by interface calls. *)
Inductive api_reachable : AFU_EVENT -> Prop :=
  | api_reset e : api_reachable (tlx_event_reset e)
  | api_step e c rc e' :
      api_reachable e -> call_ok c -> run_call c e = Some (rc, e') -> api_reachable e'.

(** * Proofs *)

Lemma fill_bytes : bytes fill.
Proof. by repeat constructor. Qed.
#[export] Hint Resolve fill_bytes : ocse.

(** Opens a call: unfold it and split on every guard and [memcpy]. *)
Ltac open_call H :=
  unfold run_call, no_out, tlx_afu_send_initial_credits, afu_tlx_read_initial_credits,
    tlx_afu_send_resp, tlx_afu_send_resp_data, tlx_afu_send_resp_and_data,
    tlx_afu_send_posted_cmd, tlx_afu_send_cmd, tlx_afu_send_cmd_data,
    tlx_afu_send_cmd_and_data, tlx_afu_send_cfg_cmd_and_data,
    afu_tlx_read_cfg_resp_and_data, afu_tlx_read_resp_and_data, afu_tlx_read_resp,
    afu_tlx_read_resp_data, afu_tlx_read_cmd_and_data, afu_tlx_read_cmd_data,
    afu_tlx_send_initial_credits, tlx_afu_read_initial_credits, afu_tlx_send_resp,
    afu_tlx_send_resp_data, afu_tlx_send_resp_and_data, afu_cfg_send_resp_and_data,
    tlx_cfg_read_cmd_and_data, afu_tlx_send_cmd, afu_tlx_send_cmd_data,
    afu_tlx_send_cmd_and_data, tlx_afu_read_resp, afu_tlx_resp_data_read_req,
    tlx_afu_read_resp_data, tlx_afu_read_cmd, afu_tlx_cmd_data_read_req,
    tlx_afu_read_cmd_data in H;
  cbv zeta in H;
  repeat match type of H with
  | context [if ?b then _ else _] =>
      lazymatch b with context [if _ then _ else _] => fail | _ => destruct b eqn:? end
  | context [mbind _ (memcpy ?d ?s ?n)] => destruct (memcpy d s n) eqn:?
  end;
  cbn [mbind option_bind fmap option_fmap option_map fst snd] in H;
  try discriminate H; injection H; clear H; intros; subst; try discriminate.

(** The array a [memcpy] leaves in an event field is well formed. *)
Ltac wf_memcpy :=
  repeat match goal with
  | H : memcpy _ _ _ = Some _ |- _ =>
      cbn in H; eapply memcpy_wf in H;
        [|solve [eauto using array_bytes with ocse]|eapply field_get; eassumption]
  end.

Lemma run_call_wf c e rc e' :
  event_wf e -> call_ok c -> run_call c e = Some (rc, e') -> event_wf e'.
Proof.
  intros Hwf Hok H.
  destruct c; cbn [call_ok] in Hok.
  all: unfold tlx_resp_ok, tlx_cmd_ok, cfg_cmd_ok, afu_cmd_ok, afu_resp_ok, cfg_resp_ok in Hok.
  all: destruct_and?.
  all: open_call H.
  all: try exact Hwf.
  all: unfold put_tlx_resp, put_tlx_cmd, put_afu_resp, put_afu_cmd.
  all: wf_memcpy; solve_wf.
Qed.

(** C34: whatever sequence of interface calls a driver makes after a reset,
    every field of the event holds a value of its C type and every buffer
    keeps its length: no counter, tag or flag leaves its machine width. *)
Theorem api_reachable_wf e : api_reachable e -> event_wf e.
Proof.
  induction 1 as [e|e c rc e' _ IH Hok Hrun].
  - apply tlx_event_reset_wf.
  - by eapply run_call_wf.
Qed.

Definition sample_cmd : tlx_cmd := TlxCmd TLX_CMD_RD_MEM 7 2 0 0 0 0x1000.
Definition sample_resp : tlx_resp := TlxResp TLX_RSP_WRITE_RESP 7 0 0 1 0 0.
Definition sample_event : AFU_EVENT :=
  (tlx_event_reset event_zero)
    <| afu_tlx_resp_credits_available := 4 |> <| afu_tlx_resp_rd_req := 0 |>.

Lemma api_reachable_wf_witness :
  event_wf (tlx_afu_send_cmd (tlx_event_reset event_zero) sample_cmd).2.
Proof.
  apply api_reachable_wf.
  apply (api_step _ (HSendCmd sample_cmd) TLX_SUCCESS _ (api_reset event_zero)).
  - by repeat split; vm_compute.
  - by vm_compute.
Defined.

(** a call that does not return [TLX_SUCCESS] (no credit, a message still
    waiting, nothing to read, a wrong opcode, tag or read count) has no effect
    on the event. *)
Theorem refused_call_unchanged c e rc e' :
  run_call c e = Some (rc, e') -> rc <> TLX_SUCCESS -> e' = e.
Proof. intros H Hrc. destruct c; open_call H; done. Qed.

Lemma refused_call_unchanged_witness :
  run_call (HSendResp sample_resp) (tlx_event_reset event_zero)
  = Some (AFU_TLX_NO_CREDITS, (tlx_afu_send_resp (tlx_event_reset event_zero) sample_resp).2) /\
  (tlx_afu_send_resp (tlx_event_reset event_zero) sample_resp).2 = tlx_event_reset event_zero.
Proof.
  split; [by vm_compute|].
  apply (refused_call_unchanged (HSendResp sample_resp) _ AFU_TLX_NO_CREDITS);
    [by vm_compute|discriminate].
Defined.

(** ** Credits *)

(** The six counters whose use the code guards, and what a successful call
    takes from each. *)
Definition guarded_credits (e : AFU_EVENT) : list Z :=
  [afu_tlx_resp_credits_available e; cfg_tlx_credits_available e;
   tlx_afu_cmd_credits_available e; tlx_afu_resp_credits_available e;
   tlx_afu_cmd_data_credits_available e; tlx_afu_resp_data_credits_available e].

Definition call_cost (c : api_call) : list Z :=
  match c with
  | HSendResp _ | HSendRespAndData _ _ _ | HSendPostedCmd _ _ _ => [1; 0; 0; 0; 0; 0]
  | HSendCfg _ _ _ => [0; 1; 0; 0; 0; 0]
  | ASendCmd _ => [0; 0; 1; 0; 0; 0]
  | ASendCmdData _ _ => [0; 0; 0; 0; 1; 0]
  | ASendCmdAndData _ _ _ => [0; 0; 1; 0; 1; 0]
  | ASendResp _ => [0; 0; 0; 1; 0; 0]
  | ASendRespData _ _ _ => [0; 0; 0; 0; 0; 1]
  | ASendRespAndData _ _ _ => [0; 0; 0; 1; 0; 1]
  | _ => [0; 0; 0; 0; 0; 0]
  end.

Definition reads_initial_credits (c : api_call) : bool :=
  match c with HReadInitialCredits | AReadInitialCredits => true | _ => false end.

Lemma spend_one x : is_u 8 x -> (x =? 0) = false -> u8 (x - 1) = x - 1.
Proof. intros ? ?%Z.eqb_neq. apply is_u_small. unfold is_u in *. lia. Qed.

Ltac credits_typed Hwf :=
  pose proof (field_get (p := afu_tlx_resp_credits_available) _ Hwf);
  pose proof (field_get (p := cfg_tlx_credits_available) _ Hwf);
  pose proof (field_get (p := tlx_afu_cmd_credits_available) _ Hwf);
  pose proof (field_get (p := tlx_afu_resp_credits_available) _ Hwf);
  pose proof (field_get (p := tlx_afu_cmd_data_credits_available) _ Hwf);
  pose proof (field_get (p := tlx_afu_resp_data_credits_available) _ Hwf).

(** C35: credit accounting is exact.  In a well-typed event every successful
    call takes from each guarded credit counter exactly the credits its
    messages cost, and a counter never drops below zero or wraps around. *)
Theorem guarded_credits_exact c e e' :
  event_wf e -> run_call c e = Some (TLX_SUCCESS, e') ->
  reads_initial_credits c = false ->
  guarded_credits e' = zip_with Z.sub (guarded_credits e) (call_cost c) /\
  Forall (fun x => 0 <= x) (guarded_credits e').
Proof.
  intros Hwf H Hc.
  assert (Heq : guarded_credits e' = zip_with Z.sub (guarded_credits e) (call_cost c)).
  { credits_typed Hwf.
    destruct c; try discriminate Hc; open_call H;
      repeat match goal with
      | H : (_ || _) = false |- _ => apply orb_false_elim in H; destruct H
      end;
      cbn; rewrite ?Z.sub_0_r, ?spend_one by assumption; reflexivity. }
  split; [done|]. rewrite Heq. clear Heq.
  credits_typed Hwf. unfold is_u in *.
  destruct c; try discriminate Hc; open_call H;
    repeat match goal with
    | H : (_ || _) = false |- _ => apply orb_false_elim in H; destruct H
    end; cbn; repeat (apply List.Forall_cons; [lia|]); apply Forall_nil_2.
Qed.

Lemma guarded_credits_exact_witness :
  guarded_credits (tlx_afu_send_resp sample_event sample_resp).2 = [3; 0; 0; 0; 0; 0] /\
  Forall (fun x => 0 <= x) (guarded_credits (tlx_afu_send_resp sample_event sample_resp).2).
Proof.
  apply (guarded_credits_exact (HSendResp sample_resp) sample_event).
  - unfold sample_event. pose proof (tlx_event_reset_wf event_zero). solve_wf.
  - by vm_compute.
  - reflexivity.
Defined.
