(* ===== verification/Lockstep.v ===== *)
(** The two ends together: a driver on each side makes interface calls, and the
    ends exchange frames in lock step.  The state that this keeps, that an
    exchange always succeeds, and that credits are conserved. *)
From S2P Require Import Prelude Utils Event Sock TlxWire Link EventEq Cycle.
From S2P Require Import TlxHost TlxAfu TlxApi.

(** A connection on which [l] has arrived. *)
Definition conn_of (l : list Z) : conn := Conn [Chunk l] EndIdle [] [].

(** One cycle: the host sends its frame, the AFU end answers with its own and
    takes the host's, the host takes the answer. *)
Definition cycle (h a : AFU_EVENT) : option (Z * Z * Z * AFU_EVENT * AFU_EVENT) :=
  '(rc1, h, c1) ← tlx_signal_afu_model h (Conn [] EndIdle [] []);
  '(rc2, a, c2) ← tlx_get_tlx_events a (conn_of (c_tx c1));
  '(rc3, h, _) ← tlx_get_afu_events h (conn_of (c_tx c2));
  Some (rc1, rc2, rc3, h, a).

(** Between two cycles both clocks are down and no frame is half received. *)
Record lock_state (h a : AFU_EVENT) : Prop := LockState {
  ls_host_wf : event_wf h;
  ls_afu_wf : event_wf a;
  ls_counts : counts_ok h;
  ls_host_clock : clock h = 0;
  ls_afu_clock : clock a = 0;
  ls_host_rbp : rbp h = 0;
  ls_afu_rbp : rbp a = 0;
}.

Definition cycle_host (h a : AFU_EVENT) : AFU_EVENT :=
  receive_afu (afu_msg_of a) (host_sent h <| clock := 0 |>).
Definition cycle_afu (h a : AFU_EVENT) : AFU_EVENT :=
  receive_host (host_msg_of h) (afu_sent (a <| clock := 1 |>)).

(** * Lemmas *)

Lemma equiv_field {A} (p : AFU_EVENT -> A) e e' :
  (forall x, p x = p (strip x)) -> e ≡ e' -> p e = p e'.
Proof. intros H He. rewrite (H e), (H e'). by rewrite He. Qed.

Lemma cycle_eq h a :
  lock_state h a ->
  exists h' a',
    cycle h a = Some (TLX_SUCCESS, 1, 1, h', a') /\
    event_wf h' /\ event_wf a' /\ rbp h' = 0 /\ rbp a' = 0 /\
    h' ≡ cycle_host h a /\ a' ≡ cycle_afu h a.
Proof.
  intros [Hh Ha Hc Hkh Hka Hrh Hra].
  destruct (signal_afu_model_eq h (Conn [] EndIdle [] []) Hh Hc Hkh) as (p1 & _ & H1).
  { apply not_elem_of_nil. }
  destruct (get_tlx_events_eq (host_msg_of h) a [] [] EndIdle [] [] Ha Hra (host_msg_of_wf h Hh))
    as (a' & p2 & H2 & _ & Hwa & Hra' & Hea).
  { apply not_elem_of_nil. }
  assert (Hws : event_wf (host_sent h <| tbuf := overwrite (tbuf h) 0 (frame_bytes (host_frame (host_msg_of h))) |>)).
  { apply field_set; [by apply host_sent_wf|].
    apply host_frame_array; [by apply host_msg_of_wf|by eapply field_get]. }
  destruct (tbuf_facts (host_sent h) (overwrite (tbuf h) 0 (frame_bytes (host_frame (host_msg_of h)))))
    as (_ & Hrs & Hes).
  rewrite host_sent_rbp, Hrh in Hrs.
  remember (host_sent h <| tbuf := _ |>) as hs eqn:Hhs in *. clear Hhs.
  destruct (get_afu_events_eq (afu_msg_of a) hs [] [] EndIdle [] [] Hws Hrs (afu_msg_of_wf a Ha))
    as (h' & H3 & Hwh & Hrh' & Heh).
  exists h', a'. split_and!; try done.
  - unfold cycle, conn_of. eapply bind_eq; [exact H1|]. cbv beta iota. cbn [c_tx app].
    rewrite !app_nil_r in *. eapply bind_eq; [exact H2|]. cbv beta iota. cbn [c_tx app].
    eapply bind_eq; [exact H3|]. reflexivity.
  - etransitivity; [exact Heh|]. unfold cycle_host, receive_afu.
    apply (set_clock_equiv _ _ 0) in Hes.
    destruct (afu_idle _); [exact Hes|]. by apply deliver_afu_proper.
Qed.

(** ** Fields the link does not touch *)

(** A field that delivering an AFU message leaves alone. *)
Lemma deliver_afu_keeps {A} (p : AFU_EVENT -> A) m e :
  (forall o e, p (put_afu_command o e) = p e) -> (forall o e, p (put_afu_cdata o e) = p e) ->
  (forall o e, p (put_afu_response o e) = p e) -> (forall o e, p (put_afu_rdata o e) = p e) ->
  (forall o e, p (put_cfg_response o e) = p e) -> (forall o e, p (put_afu_credits o e) = p e) ->
  p (deliver_afu m e) = p e.
Proof. intros H1 H2 H3 H4 H5 H6. unfold deliver_afu. by rewrite H6, H5, H4, H3, H2, H1. Qed.
Lemma deliver_host_keeps {A} (p : AFU_EVENT -> A) m e :
  (forall o e, p (put_cfg o e) = p e) -> (forall o e, p (put_tlx_command o e) = p e) ->
  (forall o e, p (put_tlx_cmd_data o e) = p e) -> (forall o e, p (put_tlx_response o e) = p e) ->
  (forall o e, p (put_tlx_resp_data o e) = p e) -> (forall o e, p (put_tlx_credits o e) = p e) ->
  p (deliver_host m e) = p e.
Proof. intros H1 H2 H3 H4 H5 H6. unfold deliver_host. by rewrite H6, H5, H4, H3, H2, H1. Qed.

Ltac untouched :=
  let o := fresh "o" in
  intros o ?; destruct o; repeat match goal with x : data_beat |- _ => destruct x | x : (_ * _)%type |- _ => destruct x end;
  try reflexivity; unfold put_tlx_credits, put_afu_credits; repeat case_match; reflexivity.

(** Pass a group that leaves field [p] alone. *)
Ltac keeps p f :=
  let K := fresh in
  assert (K : forall o e, p (f o e) = p e) by untouched; rewrite K; clear K.

Lemma receive_afu_clock m e : clock (receive_afu m e) = clock e.
Proof. unfold receive_afu. destruct (afu_idle m); [done|]. apply (deliver_afu_keeps clock); untouched. Qed.
Lemma receive_host_clock m e : clock (receive_host m e) = clock e.
Proof. unfold receive_host. destruct (host_idle m); [done|]. apply (deliver_host_keeps clock); untouched. Qed.
Lemma receive_afu_cmd_cnt m e :
  tlx_afu_cmd_data_byte_cnt (receive_afu m e) = tlx_afu_cmd_data_byte_cnt e.
Proof.
  unfold receive_afu. destruct (afu_idle m); [done|].
  apply (deliver_afu_keeps tlx_afu_cmd_data_byte_cnt); untouched.
Qed.
Lemma receive_afu_resp_cnt m e :
  tlx_afu_resp_data_byte_cnt (receive_afu m e) = tlx_afu_resp_data_byte_cnt e.
Proof.
  unfold receive_afu. destruct (afu_idle m); [done|].
  apply (deliver_afu_keeps tlx_afu_resp_data_byte_cnt); untouched.
Qed.
Lemma afu_sent_clock e : clock (afu_sent e) = 0.
Proof. unfold afu_sent, cond_event. by destruct (truthy _). Qed.
Lemma host_sent_counts e :
  tlx_afu_cmd_data_byte_cnt (host_sent e) = tlx_afu_cmd_data_byte_cnt e /\
  tlx_afu_resp_data_byte_cnt (host_sent e) = tlx_afu_resp_data_byte_cnt e.
Proof. unfold host_sent, cond_event. by destruct (truthy _). Qed.

Lemma clock_counts e v :
  tlx_afu_cmd_data_byte_cnt (e <| clock := v |>) = tlx_afu_cmd_data_byte_cnt e /\
  tlx_afu_resp_data_byte_cnt (e <| clock := v |>) = tlx_afu_resp_data_byte_cnt e.
Proof. done. Qed.

Lemma cycle_host_facts h a :
  clock (cycle_host h a) = 0 /\ (counts_ok h -> counts_ok (cycle_host h a)).
Proof.
  unfold cycle_host. split; [by rewrite receive_afu_clock|].
  unfold counts_ok. rewrite receive_afu_cmd_cnt, receive_afu_resp_cnt.
  destruct (host_sent_counts h) as [Hc Hr].
  destruct (clock_counts (host_sent h) 0) as [-> ->].
  by rewrite Hc, Hr.
Qed.
Lemma cycle_afu_clock h a : clock (cycle_afu h a) = 0.
Proof. unfold cycle_afu. by rewrite receive_host_clock, afu_sent_clock. Qed.

Lemma counts_ok_equiv e e' : e ≡ e' -> counts_ok e' -> counts_ok e.
Proof.
  intros He. unfold counts_ok.
  by rewrite (equiv_field tlx_afu_cmd_data_byte_cnt e e'), (equiv_field tlx_afu_resp_data_byte_cnt e e').
Qed.

(** ** Interface calls *)

Definition is_host_call (c : api_call) : bool :=
  match c with
  | HSendInitialCredits _ _ _ _ | HReadInitialCredits | HSendResp _ | HSendRespData _ _ _
  | HSendRespAndData _ _ _ | HSendPostedCmd _ _ _ | HSendCmd _ | HSendCmdData _ _ _
  | HSendCmdAndData _ _ _ | HSendCfg _ _ _ | HReadCfgResp _ | HReadRespAndData | HReadResp
  | HReadRespData | HReadCmdAndData | HReadCmdData => true
  | _ => false
  end.

Lemma run_call_clock c e rc e' :
  run_call c e = Some (rc, e') -> clock e' = clock e /\ rbp e' = rbp e.
Proof. intros H. destruct c; open_call H; done. Qed.

(** A data call that succeeds copied no more than the buffer holds. *)
Lemma run_call_counts c e rc e' :
  event_wf e -> counts_ok e -> run_call c e = Some (rc, e') -> counts_ok e'.
Proof.
  intros Hwf [Hc1 Hc2] H.
  destruct (field_get (p := tlx_afu_cmd_data_bus) e Hwf) as [Hl1 _].
  destruct (field_get (p := tlx_afu_resp_data) e Hwf) as [Hl2 _].
  destruct c; open_call H; try exact (conj Hc1 Hc2);
    repeat match goal with
    | H : memcpy _ _ _ = Some _ |- _ => apply memcpy_Some in H as ([? Hm] & _ & _); cbn in Hm
    end; split; cbn -[Z.le u16 u32 dl_to_size]; try done; try lia.
  all: unfold u16; try (rewrite Z.mod_small); try lia.
Qed.

(** * The running link *)

(** The events the two ends start from: those of a handshake that succeeded. *)
Definition host_start (fd : Z) : AFU_EVENT :=
  tlx_event_reset event_zero <| tlx_afu_credit_valid := 1 |> <| sockfd := fd |>.
Definition afu_start (fd : Z) : AFU_EVENT := tlx_event_reset event_zero <| sockfd := fd |>.

Inductive link_reachable : AFU_EVENT -> AFU_EVENT -> Prop :=
  | lr_start fd fd' h a :
      event_wf h -> event_wf a -> rbp h = 0 -> rbp a = 0 ->
      h ≡ host_start fd -> a ≡ afu_start fd' -> link_reachable h a
  | lr_host c rc h h' a :
      link_reachable h a -> is_host_call c = true -> call_ok c ->
      run_call c h = Some (rc, h') -> link_reachable h' a
  | lr_afu c rc h a a' :
      link_reachable h a -> is_host_call c = false -> call_ok c ->
      run_call c a = Some (rc, a') -> link_reachable h a'
  | lr_cycle rc1 rc2 rc3 h a h' a' :
      link_reachable h a -> cycle h a = Some (rc1, rc2, rc3, h', a') -> link_reachable h' a'.

Lemma lock_state_cycle h a rc1 rc2 rc3 h' a' :
  lock_state h a -> cycle h a = Some (rc1, rc2, rc3, h', a') ->
  lock_state h' a' /\ rc1 = TLX_SUCCESS /\ rc2 = 1 /\ rc3 = 1 /\
  h' ≡ cycle_host h a /\ a' ≡ cycle_afu h a.
Proof.
  intros Hl Hc. destruct (cycle_eq h a Hl) as (h2 & a2 & Hc2 & Hwh & Hwa & Hrh & Hra & Heh & Hea).
  rewrite Hc2 in Hc. injection Hc as <- <- <- <- <-.
  split_and!; try done. destruct Hl as [_ _ Hcnt _ _ _ _].
  destruct (cycle_host_facts h a) as [Hk Hcn].
  constructor; try done.
  - eapply counts_ok_equiv; [exact Heh|by apply Hcn].
  - by rewrite (equiv_field clock _ _ (fun _ => eq_refl) Heh).
  - by rewrite (equiv_field clock _ _ (fun _ => eq_refl) Hea), cycle_afu_clock.
Qed.

Lemma lock_state_host_call h a c rc h' :
  lock_state h a -> call_ok c -> run_call c h = Some (rc, h') -> lock_state h' a.
Proof.
  intros [Hh Ha Hc Hkh Hka Hrh Hra] Hok Hr. destruct (run_call_clock _ _ _ _ Hr) as [Hk Hp].
  constructor; try done; [exact (run_call_wf _ _ _ _ Hh Hok Hr)|exact (run_call_counts _ _ _ _ Hh Hc Hr)|by rewrite Hk|by rewrite Hp].
Qed.

Lemma lock_state_afu_call h a c rc a' :
  lock_state h a -> call_ok c -> run_call c a = Some (rc, a') -> lock_state h a'.
Proof.
  intros [Hh Ha Hc Hkh Hka Hrh Hra] Hok Hr. destruct (run_call_clock _ _ _ _ Hr) as [Hk Hp].
  constructor; try done; [exact (run_call_wf _ _ _ _ Ha Hok Hr)|by rewrite Hk|by rewrite Hp].
Qed.

Lemma link_reachable_lock h a : link_reachable h a -> lock_state h a.
Proof.
  induction 1 as [fd fd' h a Hh Ha Hrh Hra Eh Ea| | |].
  - constructor; try done.
    + apply (counts_ok_equiv _ _ Eh). by vm_compute.
    + by rewrite (equiv_field clock _ _ (fun _ => eq_refl) Eh).
    + by rewrite (equiv_field clock _ _ (fun _ => eq_refl) Ea).
  - eapply lock_state_host_call; eassumption.
  - eapply lock_state_afu_call; eassumption.
  - eapply lock_state_cycle; eassumption.
Qed.

(** ** One host command through the link *)

Lemma deliver_host_cmd m c e :
  hm_cmd m = Some c ->
  tlx_afu_cmd_valid (deliver_host m e) = 1 /\ get_tlx_cmd (deliver_host m e) = c.
Proof.
  intros Hc. unfold deliver_host. rewrite Hc. split.
  - assert (H : forall o e, tlx_afu_cmd_valid (put_tlx_credits o e) = tlx_afu_cmd_valid e) by untouched.
    rewrite H.
    by destruct (hm_resp_data m) as [[? ?]|], (hm_resp m), (hm_cmd_data m) as [[? ?]|].
  - assert (H : forall o e, get_tlx_cmd (put_tlx_credits o e) = get_tlx_cmd e) by untouched.
    rewrite H.
    destruct c. by destruct (hm_resp_data m) as [[? ?]|], (hm_resp m), (hm_cmd_data m) as [[? ?]|].
Qed.

Lemma send_cmd_pending h c h1 :
  tlx_afu_send_cmd h c = (TLX_SUCCESS, h1) ->
  hm_cmd (host_msg_of h1) =
    Some (TlxCmd (tc_opcode c) (tc_capptag c) (tc_dl c mod 4) (tc_pl c mod 8) (tc_be c)
                 (tc_end c mod 2) (tc_pa c)) /\
  host_idle (host_msg_of h1) = false.
Proof.
  unfold tlx_afu_send_cmd. destruct (rejects_cfg _); [done|]. destruct (_ =? 1); [done|].
  intros [= <-].
  assert (Hm : hm_cmd (host_msg_of (put_tlx_cmd
     (h <| afu_tlx_cmd_credits_available := u8 (afu_tlx_cmd_credits_available h - 1) |>
        <| tlx_afu_cmd_valid := 1 |>) c)) =
    Some (TlxCmd (tc_opcode c) (tc_capptag c) (tc_dl c mod 4) (tc_pl c mod 8) (tc_be c)
                 (tc_end c mod 2) (tc_pa c))) by reflexivity.
  split; [exact Hm|]. unfold host_idle. rewrite Hm. cbn [is_some].
  by rewrite orb_true_r.
Qed.

Lemma cmd_valid_clock e v : tlx_afu_cmd_valid (e <| clock := v |>) = tlx_afu_cmd_valid e.
Proof. done. Qed.

Lemma cycle_host_cmd_sent h a : tlx_afu_cmd_valid (cycle_host h a) = 0.
Proof.
  unfold cycle_host.
  assert (H : tlx_afu_cmd_valid (host_sent h <| clock := 0 |>) = 0).
  { rewrite cmd_valid_clock.
    unfold host_sent, cond_event. by destruct (truthy _). }
  rewrite <- H at 2. unfold receive_afu. destruct (afu_idle _); [done|].
  apply (deliver_afu_keeps tlx_afu_cmd_valid); untouched.
Qed.

(** * Properties *)

(** C3: the lock-step exchange never fails and never deadlocks: in every state
    the two ends reach from a successful handshake by any interleaving of
    interface calls and exchanges, the next exchange succeeds at both ends, and
    it delivers to each end exactly what the other had pending. *)
Theorem exchange_always_succeeds h a :
  link_reachable h a ->
  exists h' a',
    cycle h a = Some (TLX_SUCCESS, 1, 1, h', a') /\ lock_state h' a' /\
    h' ≡ cycle_host h a /\ a' ≡ cycle_afu h a.
Proof.
  intros H%link_reachable_lock.
  destruct (cycle_eq h a H) as (h' & a' & Hc & _).
  destruct (lock_state_cycle _ _ _ _ _ _ _ H Hc) as (? & _ & _ & _ & ? & ?). eauto 6.
Qed.

Lemma exchange_always_succeeds_witness :
  exists h' a',
    cycle (host_start 3) (afu_start 4) = Some (TLX_SUCCESS, 1, 1, h', a') /\ lock_state h' a' /\
    h' ≡ cycle_host (host_start 3) (afu_start 4) /\ a' ≡ cycle_afu (host_start 3) (afu_start 4).
Proof.
  apply exchange_always_succeeds.
  pose proof (tlx_event_reset_wf event_zero).
  apply (lr_start 3 4); try reflexivity; unfold host_start, afu_start; solve_wf.
Defined.

(** C9: a host command put with [tlx_afu_send_cmd] is what [tlx_afu_read_cmd]
    returns at the AFU end after the exchange, cut to the width of its fields,
    exactly once. *)
Theorem command_delivered h a c h1 :
  lock_state h a -> tlx_cmd_ok c ->
  tlx_afu_send_cmd h c = (TLX_SUCCESS, h1) ->
  exists h2 a2,
    cycle h1 a = Some (TLX_SUCCESS, 1, 1, h2, a2) /\
    tlx_afu_cmd_valid h2 = 0 /\
    (tlx_afu_read_cmd a2).1 =
      (TLX_SUCCESS,
       Some (TlxCmd (tc_opcode c) (tc_capptag c) (tc_dl c mod 4) (tc_pl c mod 8)
                    (tc_be c) (tc_end c mod 2) (tc_pa c))) /\
    (tlx_afu_read_cmd (tlx_afu_read_cmd a2).2).1 = (TLX_AFU_CMD_NOT_VALID, None).
Proof.
  intros Hl Hok Hs.
  assert (Hr : run_call (HSendCmd c) h = Some (TLX_SUCCESS, h1)) by (cbn; by rewrite Hs).
  pose proof (lock_state_host_call _ _ (HSendCmd c) _ _ Hl Hok Hr) as Hl1.
  destruct (cycle_eq h1 a Hl1) as (h2 & a2 & Hc & _ & _ & _ & _ & Eh & Ea).
  destruct (send_cmd_pending _ _ _ Hs) as [Hm Hi].
  exists h2, a2. split; [done|].
  rewrite (equiv_field tlx_afu_cmd_valid _ _ (fun _ => eq_refl) Eh), cycle_host_cmd_sent.
  split; [done|].
  assert (Hv : tlx_afu_cmd_valid a2 = 1 /\ get_tlx_cmd a2 =
    TlxCmd (tc_opcode c) (tc_capptag c) (tc_dl c mod 4) (tc_pl c mod 8) (tc_be c)
           (tc_end c mod 2) (tc_pa c)).
  { rewrite (equiv_field tlx_afu_cmd_valid _ _ (fun _ => eq_refl) Ea),
      (equiv_field get_tlx_cmd _ _ (fun _ => eq_refl) Ea).
    unfold cycle_afu, receive_host. rewrite Hi. by apply deliver_host_cmd. }
  destruct Hv as [Hv1 Hv2]. unfold tlx_afu_read_cmd. rewrite Hv1, Hv2. done.
Qed.

Lemma command_delivered_witness :
  exists h2 a2,
    cycle (tlx_afu_send_cmd (host_start 3) sample_cmd).2 (afu_start 4)
      = Some (TLX_SUCCESS, 1, 1, h2, a2) /\
    tlx_afu_cmd_valid h2 = 0 /\
    (tlx_afu_read_cmd a2).1 = (TLX_SUCCESS, Some (TlxCmd TLX_CMD_RD_MEM 7 2 0 0 0 0x1000)) /\
    (tlx_afu_read_cmd (tlx_afu_read_cmd a2).2).1 = (TLX_AFU_CMD_NOT_VALID, None).
Proof.
  apply (command_delivered (host_start 3) (afu_start 4) sample_cmd).
  - pose proof (tlx_event_reset_wf event_zero).
    constructor; [unfold host_start; solve_wf|unfold afu_start; solve_wf|by vm_compute..].
  - by repeat split; vm_compute.
  - by vm_compute.
Defined.

(** ** Command credits *)

(** The AFU's command credits, wherever they are: available, spent on a command
    not sent yet, or on their way back. *)
Definition cmd_credits (h a : AFU_EVENT) : Z :=
  tlx_afu_cmd_credits_available a + bool_int (truthy (afu_tlx_cmd_valid a)) +
  bool_int (tlx_afu_cmd_credit h =? 1).

(** A credit the host owes is announced. *)
Definition credit_announced (h : AFU_EVENT) : Prop :=
  tlx_afu_cmd_credit h = 0 \/ (tlx_afu_cmd_credit h = 1 /\ tlx_afu_credit_valid h <> 0).

Lemma put_tlx_credits_avail l e :
  length l = 9%nat ->
  tlx_afu_cmd_credits_available (put_tlx_credits (Some l) e) =
  credit_up (nth 5 l 0) (tlx_afu_cmd_credits_available e).
Proof. intros H. list_cases l 9%nat. reflexivity. Qed.

Lemma avail_after_cycle h a :
  credit_announced h ->
  tlx_afu_cmd_credits_available (cycle_afu h a) =
  credit_up (tlx_afu_cmd_credit h) (tlx_afu_cmd_credits_available a).
Proof.
  intros Ha. unfold cycle_afu.
  assert (Hs : tlx_afu_cmd_credits_available (afu_sent (a <| clock := 1 |>)) = tlx_afu_cmd_credits_available a).
  { unfold afu_sent, cond_event. cbv zeta. by destruct (truthy _). }
  assert (Hm : forall e,
    tlx_afu_cmd_credits_available (deliver_host (host_msg_of h) e) =
    if truthy (tlx_afu_credit_valid h)
    then credit_up (tlx_afu_cmd_credit h) (tlx_afu_cmd_credits_available e)
    else tlx_afu_cmd_credits_available e).
  { intros e. unfold deliver_host.
    set (e' := put_tlx_resp_data _ _).
    assert (He : tlx_afu_cmd_credits_available e' = tlx_afu_cmd_credits_available e).
    { unfold e'. keeps tlx_afu_cmd_credits_available put_tlx_resp_data.
      keeps tlx_afu_cmd_credits_available put_tlx_response.
      keeps tlx_afu_cmd_credits_available put_tlx_cmd_data.
      keeps tlx_afu_cmd_credits_available put_tlx_command.
      by keeps tlx_afu_cmd_credits_available put_cfg. }
    clearbody e'. unfold host_msg_of, hm_credits, when.
    destruct (truthy (tlx_afu_credit_valid h)); [|done].
    rewrite put_tlx_credits_avail by done. cbn [nth]. by rewrite He. }
  unfold receive_host. destruct (host_idle (host_msg_of h)) eqn:Hi; [|rewrite Hm, Hs].
  - rewrite Hs. destruct Ha as [-> | [_ Hv]]; [done|].
    unfold host_idle, host_msg_of, when in Hi. cbn in Hi.
    destruct (truthy (tlx_afu_credit_valid h)) eqn:E; [|by apply truthy_false in E].
    cbn [is_some] in Hi. by rewrite orb_true_r in Hi.
  - destruct (truthy (tlx_afu_credit_valid h)) eqn:E; [done|].
    apply truthy_false in E. destruct Ha as [-> | [_ ?]]; done.
Qed.

Lemma credit_after_send h : credit_announced h -> tlx_afu_cmd_credit (host_sent h) = 0.
Proof.
  intros H. unfold host_sent, cond_event. cbv zeta.
  match goal with |- context [truthy ?v] => change v with (tlx_afu_credit_valid h) end.
  destruct (truthy (tlx_afu_credit_valid h)) eqn:E; [done|].
  apply truthy_false in E. by destruct H as [H | [_ H]].
Qed.

Lemma cmd_credit_clock e v : tlx_afu_cmd_credit (e <| clock := v |>) = tlx_afu_cmd_credit e.
Proof. done. Qed.

(** A command that arrives leaves one credit to return, announced. *)
Lemma credit_after_cycle h a :
  credit_announced h ->
  tlx_afu_cmd_credit (cycle_host h a) = bool_int (truthy (afu_tlx_cmd_valid a)) /\
  (truthy (afu_tlx_cmd_valid a) = true -> tlx_afu_credit_valid (cycle_host h a) = 1).
Proof.
  intros Ha. apply credit_after_send in Ha. unfold cycle_host, receive_afu.
  rewrite <- (cmd_credit_clock _ 0) in Ha. set (e := host_sent h <| clock := 0 |>) in *. clearbody e.
  assert (Hm : is_some (am_cmd (afu_msg_of a)) = truthy (afu_tlx_cmd_valid a))
    by (unfold afu_msg_of, am_cmd, when; by destruct (truthy _)).
  rewrite <- Hm. set (m := afu_msg_of a). clearbody m. clear Hm.
  destruct (afu_idle m) eqn:Hi.
  { rewrite Ha. destruct m as [[c|] cd rs rd cf cr]; [done|]. by cbn. }
  unfold deliver_afu. split.
  - keeps tlx_afu_cmd_credit put_afu_credits. keeps tlx_afu_cmd_credit put_cfg_response.
    keeps tlx_afu_cmd_credit put_afu_rdata. keeps tlx_afu_cmd_credit put_afu_response.
    keeps tlx_afu_cmd_credit put_afu_cdata. by destruct (am_cmd m).
  - intros Hs. keeps tlx_afu_credit_valid put_afu_credits.
    keeps tlx_afu_credit_valid put_cfg_response. keeps tlx_afu_credit_valid put_afu_rdata.
    keeps tlx_afu_credit_valid put_afu_response.
    destruct (am_cmd m) as [c|]; [|done]. by destruct (am_cdata m) as [[? ?]|].
Qed.

Lemma cmd_sent_after_cycle h a : afu_tlx_cmd_valid (cycle_afu h a) = 0.
Proof.
  unfold cycle_afu, receive_host.
  assert (Hs : afu_tlx_cmd_valid (afu_sent (a <| clock := 1 |>)) = 0)
    by (unfold afu_sent, cond_event; cbv zeta; by destruct (truthy _)).
  rewrite <- Hs. destruct (host_idle _); [done|].
  apply (deliver_host_keeps afu_tlx_cmd_valid); untouched.
Qed.

(** C10: command credits are conserved by the exchange: no credit of the AFU is
    lost and none is made, whatever else the two frames carry; a command that
    arrives leaves its credit announced for the next frame. *)
Theorem command_credits_conserved h a h' a' rc :
  lock_state h a -> credit_announced h -> cmd_credits h a <= 255 ->
  cycle h a = Some (rc, h', a') ->
  cmd_credits h' a' = cmd_credits h a /\ credit_announced h'.
Proof.
  intros Hl Ha Hc H. destruct rc as [[rc1 rc2] rc3].
  destruct (lock_state_cycle _ _ _ _ _ _ _ Hl H) as (_ & _ & _ & _ & Eh & Ea).
  destruct (credit_after_cycle h a Ha) as [Hc1 Hc2].
  pose proof (field_get (p := tlx_afu_cmd_credits_available) a (ls_afu_wf _ _ Hl)) as [Hav _].
  split.
  - unfold cmd_credits in *.
    rewrite (equiv_field tlx_afu_cmd_credits_available _ _ (fun _ => eq_refl) Ea),
      (equiv_field afu_tlx_cmd_valid _ _ (fun _ => eq_refl) Ea),
      (equiv_field tlx_afu_cmd_credit _ _ (fun _ => eq_refl) Eh).
    rewrite (avail_after_cycle h a Ha), cmd_sent_after_cycle, Hc1. unfold credit_up.
    assert (Hb : bool_int (bool_int (truthy (afu_tlx_cmd_valid a)) =? 1)
                 = bool_int (truthy (afu_tlx_cmd_valid a))) by (by destruct (truthy _)).
    rewrite Hb. destruct (tlx_afu_cmd_credit h =? 1); cbn [bool_int] in *; [|cbn; lia].
    unfold u8. rewrite Z.mod_small; [cbn; lia|].
    destruct (truthy _); cbn in Hc; change (2 ^ 8) with 256; lia.
  - unfold credit_announced.
    rewrite (equiv_field tlx_afu_cmd_credit _ _ (fun _ => eq_refl) Eh),
      (equiv_field tlx_afu_credit_valid _ _ (fun _ => eq_refl) Eh), Hc1.
    destruct (truthy (afu_tlx_cmd_valid a)) eqn:E; [right|by left].
    by rewrite Hc2.
Qed.

(** An AFU with three credits left, one command pending and one on its way back. *)
Definition credit_host : AFU_EVENT := host_start 3 <| tlx_afu_cmd_credit := 1 |>.
Definition credit_afu : AFU_EVENT :=
  afu_start 4 <| tlx_afu_cmd_credits_available := 3 |> <| afu_tlx_cmd_valid := 1 |>.

Lemma command_credits_conserved_witness :
  exists rc h' a', cycle credit_host credit_afu = Some (rc, h', a') /\
    cmd_credits h' a' = 5 /\ credit_announced h'.
Proof.
  assert (Hl : lock_state credit_host credit_afu).
  { pose proof (tlx_event_reset_wf event_zero).
    constructor; [unfold credit_host, host_start; solve_wf|
                  unfold credit_afu, afu_start; solve_wf|by vm_compute..]. }
  destruct (cycle_eq _ _ Hl) as (h' & a' & Hc & _).
  assert (E : cmd_credits credit_host credit_afu = 5) by (by vm_compute).
  exists (TLX_SUCCESS, 1, 1), h', a'. split; [exact Hc|]. rewrite <- E.
  apply (command_credits_conserved credit_host credit_afu h' a' (TLX_SUCCESS, 1, 1));
    [exact Hl|right; split; [by vm_compute|]|rewrite E; done|exact Hc].
  by vm_compute.
Defined.
