(* ===== verification/Parms.v ===== *)
(** ocse/parms.c: the simulation parameters and the random decisions taken from
    them.  [rand] is a list of draws given from outside; the draws past its end
    are 0.  A field that is not initialised has no value ([None]). *)
From stdpp Require Import strings.
From S2P Require Import Prelude Utils.
Local Open Scope Z_scope.

Record parms := Parms {
  timeout : Z; seed : Z; pagesize : Z; host_CL_size : Z;
  resp_percent : option Z; paged_percent : option Z; retry_percent : option Z;
  failed_percent : option Z; pending_percent : option Z; derror_percent : option Z;
  int_retry_percent : option Z; int_failed_percent : option Z;
  int_pending_percent : option Z; int_derror_percent : option Z;
  bdi_resp_err_percent : option Z; bdi_cmd_err_percent : option Z;
  reorder_percent : option Z; buffer_percent : option Z;
}.

#[export] Instance eta_parms : Settable parms := fun p => Parms
  (timeout p) (seed p) (pagesize p) (host_CL_size p) (resp_percent p) (paged_percent p)
  (retry_percent p) (failed_percent p) (pending_percent p) (derror_percent p)
  (int_retry_percent p) (int_failed_percent p) (int_pending_percent p)
  (int_derror_percent p) (bdi_resp_err_percent p) (bdi_cmd_err_percent p)
  (reorder_percent p) (buffer_percent p).
#[export] Instance set_timeout : Setter timeout := ltac:(build_setter).
#[export] Instance set_seed : Setter seed := ltac:(build_setter).
#[export] Instance set_pagesize : Setter pagesize := ltac:(build_setter).
#[export] Instance set_host_CL_size : Setter host_CL_size := ltac:(build_setter).
#[export] Instance set_resp_percent : Setter resp_percent := ltac:(build_setter).
#[export] Instance set_paged_percent : Setter paged_percent := ltac:(build_setter).
#[export] Instance set_retry_percent : Setter retry_percent := ltac:(build_setter).
#[export] Instance set_failed_percent : Setter failed_percent := ltac:(build_setter).
#[export] Instance set_pending_percent : Setter pending_percent := ltac:(build_setter).
#[export] Instance set_derror_percent : Setter derror_percent := ltac:(build_setter).
#[export] Instance set_int_retry_percent : Setter int_retry_percent := ltac:(build_setter).
#[export] Instance set_int_failed_percent : Setter int_failed_percent := ltac:(build_setter).
#[export] Instance set_int_pending_percent : Setter int_pending_percent := ltac:(build_setter).
#[export] Instance set_int_derror_percent : Setter int_derror_percent := ltac:(build_setter).
#[export] Instance set_bdi_resp_err_percent : Setter bdi_resp_err_percent := ltac:(build_setter).
#[export] Instance set_bdi_cmd_err_percent : Setter bdi_cmd_err_percent := ltac:(build_setter).
#[export] Instance set_reorder_percent : Setter reorder_percent := ltac:(build_setter).
#[export] Instance set_buffer_percent : Setter buffer_percent := ltac:(build_setter).

(** * Random decisions *)

Definition draws : Type := list Z.

(** One call of [rand]; it returns a non-negative [int]. *)
Definition rand (ds : draws) : Z * draws :=
  match ds with [] => (0, []) | d :: ds => (Z.land d 0x7FFFFFFF, ds) end.

(** [percent_chance(int)] of a [uint32_t] field; no value, no result. *)
Definition percent_chance (chance : option Z) (ds : draws) : option (bool * draws) :=
  chance ← chance;
  let '(r, ds) := rand ds in Some (Z.rem r 100 <? i32 chance, ds).

Definition allow_resp p := percent_chance (resp_percent p).
Definition allow_paged p := percent_chance (paged_percent p).
Definition allow_retry p := percent_chance (retry_percent p).
Definition allow_failed p := percent_chance (failed_percent p).
Definition allow_derror p := percent_chance (derror_percent p).
Definition allow_pending p := percent_chance (pending_percent p).
Definition allow_int_retry p := percent_chance (int_retry_percent p).
Definition allow_int_failed p := percent_chance (int_failed_percent p).
Definition allow_int_derror p := percent_chance (int_derror_percent p).
Definition allow_int_pending p := percent_chance (int_pending_percent p).
Definition allow_bdi_resp_err p := percent_chance (bdi_resp_err_percent p).
Definition allow_bdi_cmd_err p := percent_chance (bdi_cmd_err_percent p).
Definition allow_reorder p := percent_chance (reorder_percent p).
Definition allow_buffer p := percent_chance (buffer_percent p).

(** * The parameter file *)

Definition ch_comma : Ascii.ascii := Ascii.ascii_of_nat 44.
Definition ch_colon : Ascii.ascii := Ascii.ascii_of_nat 58.
Definition ch_hash : Ascii.ascii := Ascii.ascii_of_nat 35.
Definition ch_space : Ascii.ascii := Ascii.ascii_of_nat 32.
Definition ch_tab : Ascii.ascii := Ascii.ascii_of_nat 9.
Definition ch_newline : Ascii.ascii := Ascii.ascii_of_nat 10.

(** [strchr]: the text before the first [c] and the text after it. *)
Fixpoint split_at (c : Ascii.ascii) (s : list Ascii.ascii)
    : list Ascii.ascii * option (list Ascii.ascii) :=
  match s with
  | [] => ([], None)
  | x :: s =>
      if bool_decide (x = c) then ([], Some s)
      else let '(a, b) := split_at c s in (x :: a, b)
  end.

(** [atoi]: white space, a sign, the digits up to the first other character. *)
Definition is_space (c : Ascii.ascii) : bool :=
  let n := Ascii.nat_of_ascii c in ((n =? 32) || ((9 <=? n) && (n <=? 13)))%nat.
Definition digit (c : Ascii.ascii) : option Z :=
  let n := Ascii.nat_of_ascii c in
  if ((48 <=? n) && (n <=? 57))%nat then Some (Z.of_nat n - 48) else None.
Fixpoint atoi_digits (acc : Z) (s : list Ascii.ascii) : Z :=
  match s with
  | [] => acc
  | c :: s => match digit c with Some d => atoi_digits (acc * 10 + d) s | None => acc end
  end.
Fixpoint atoi (s : list Ascii.ascii) : Z :=
  match s with
  | [] => 0
  | c :: s' =>
      if is_space c then atoi s'
      else if bool_decide (Ascii.nat_of_ascii c = 45%nat) then - atoi_digits 0 s'
      else if bool_decide (Ascii.nat_of_ascii c = 43%nat) then atoi_digits 0 s'
      else atoi_digits 0 s
  end.

(** A result of type [int]; one that does not fit is undefined. *)
Definition as_int (x : Z) : option Z :=
  if (- 2 ^ 31 <=? x) && (x <? 2 ^ 31) then Some x else None.

Definition int_value (s : list Ascii.ascii) : option Z := as_int (atoi s).

(** A single value, or a value drawn from [min,max] with the bounds put in
    order; undefined where [atoi], [1 + max] or [1 + max - min] overflows. *)
Definition percent_parm (value : list Ascii.ascii) (ds : draws) : option (Z * draws) :=
  match split_at ch_comma value with
  | (_, None) => parm ← int_value value; Some (parm, ds)
  | (_, Some rest) =>
      parm ← int_value value;
      max ← int_value rest;
      let '(min, max) := if max <? parm then (max, parm) else (parm, max) in
      above ← as_int (1 + max);
      range ← as_int (above - min);
      let '(r, ds) := rand ds in
      Some (min + Z.rem r range, ds)
  end.

(** The defaults; the fields not named are not written. *)
Definition default_parms (now : Z) : parms :=
  Parms 10 (u32 now) 0 128 (Some 20) (Some 5) (Some 5) (Some 5) (Some 5) None
    None None None None None None (Some 20) (Some 50).

Definition key_is (parm : list Ascii.ascii) (s : string) : bool :=
  bool_decide (parm = String.list_ascii_of_string s).

(** A percentage: out of range it is reported and the old value stays. *)
Definition set_percent (lo hi : Z) (set : Z -> parms -> parms) (value : list Ascii.ascii)
    (p : parms) (ds : draws) : option (parms * draws) :=
  '(data, ds) ← percent_parm value ds;
  Some (if (hi <? data) || (data <? lo) then p else set (u32 data) p, ds).

Definition set_parm (parm value : list Ascii.ascii) (p : parms) (ds : draws)
    : option (parms * draws) :=
  if key_is parm "SEED" then data ← int_value value; Some (p <| seed := u32 data |>, ds)
  else if key_is parm "TIMEOUT" then data ← int_value value; Some (p <| timeout := u32 data |>, ds)
  else if key_is parm "PAGESIZE" then
    data ← int_value value;
    Some (if (data <? 0) || (data =? 1) || (data =? 6) || (8 <=? data) then p
          else p <| pagesize := u32 data |>, ds)
  else if key_is parm "HOST_CL_SIZE" then
    data ← int_value value;
    Some (if negb (data =? 128) && negb (data =? 64) && negb (data =? 256) then p
          else p <| host_CL_size := u32 data |>, ds)
  else if key_is parm "RESPONSE_PERCENT" then
    set_percent 1 100 (fun d p => p <| resp_percent := Some d |>) value p ds
  else if key_is parm "PAGED_PERCENT" then
    set_percent 0 99 (fun d p => p <| paged_percent := Some d |>) value p ds
  else if key_is parm "RETRY_PERCENT" then
    set_percent 0 99 (fun d p => p <| retry_percent := Some d |>) value p ds
  else if key_is parm "FAILED_PERCENT" then
    set_percent 0 99 (fun d p => p <| failed_percent := Some d |>) value p ds
  else if key_is parm "PENDING_PERCENT" then
    set_percent 0 99 (fun d p => p <| pending_percent := Some d |>) value p ds
  else if key_is parm "DERROR_PERCENT" then
    set_percent 0 99 (fun d p => p <| derror_percent := Some d |>) value p ds
  else if key_is parm "INT_RETRY_PERCENT" then
    set_percent 0 99 (fun d p => p <| int_retry_percent := Some d |>) value p ds
  else if key_is parm "INT_FAILED_PERCENT" then
    set_percent 0 99 (fun d p => p <| int_failed_percent := Some d |>) value p ds
  else if key_is parm "INT_PENDING_PERCENT" then
    set_percent 0 99 (fun d p => p <| int_pending_percent := Some d |>) value p ds
  else if key_is parm "INT_DERROR_PERCENT" then
    set_percent 0 99 (fun d p => p <| int_derror_percent := Some d |>) value p ds
  else if key_is parm "BDI_RESP_ERR_PERCENT" then
    set_percent 0 99 (fun d p => p <| bdi_resp_err_percent := Some d |>) value p ds
  else if key_is parm "BDI_CMD_ERR_PERCENT" then
    set_percent 0 99 (fun d p => p <| bdi_cmd_err_percent := Some d |>) value p ds
  else if key_is parm "REORDER_PERCENT" then
    set_percent 0 99 (fun d p => p <| reorder_percent := Some d |>) value p ds
  else if key_is parm "BUFFER_PERCENT" then
    set_percent 0 99 (fun d p => p <| buffer_percent := Some d |>) value p ds
  else Some (p, ds).

(** What a line of the file is: nothing (a comment, with a '#' anywhere, or a
    blank line), a setting, or an error.  Everything from a space or a tab on is
    cut off. *)
Inductive line_kind := Nothing | NoColon | Setting (parm value : list Ascii.ascii).

Definition read_line (line : list Ascii.ascii) : line_kind :=
  let parm := (split_at ch_newline line).1 in
  match split_at ch_hash parm with
  | (_, Some _) => Nothing
  | _ =>
      let parm := (split_at ch_space parm).1 in
      let parm := (split_at ch_tab parm).1 in
      match parm with
      | [] => Nothing
      | _ =>
          match split_at ch_colon parm with
          | (_, None) => NoColon
          | (key, Some value) => Setting key value
          end
      end
  end.

(** [None]: the error ends the process, or a number does not fit an [int] and the
    line is undefined. *)
Definition parse_line (line : list Ascii.ascii) (p : parms) (ds : draws) : option (parms * draws) :=
  match read_line line with
  | Nothing => Some (p, ds)
  | NoColon => None
  | Setting parm value => set_parm parm value p ds
  end.

Fixpoint parse_lines (lines : list (list Ascii.ascii)) (p : parms) (ds : draws)
    : option (parms * draws) :=
  match lines with
  | [] => Some (p, ds)
  | line :: lines => '(p, ds) ← parse_line line p ds; parse_lines lines p ds
  end.

(** [parse_parms] on the lines of the file, the time of day, and the draws; the
    timeout becomes milliseconds.  A file that cannot be opened gives no
    parameters. *)
Definition parse_parms (file : option (list (list Ascii.ascii))) (now : Z) (ds : draws)
    : option (option parms) :=
  match file with
  | None => Some None
  | Some lines =>
      '(p, _) ← parse_lines lines (default_parms now) ds;
      Some (Some (p <| timeout := u32 (timeout p * 1000) |>))
  end.

(** * Well-formed parameters *)

Definition percent_ok (lo hi : Z) (o : option Z) : Prop :=
  match o with Some d => lo <= d <= hi | None => True end.

Record parms_wf (p : parms) : Prop := ParmsWf {
  pw_host_CL : host_CL_size p = 64 \/ host_CL_size p = 128 \/ host_CL_size p = 256;
  pw_pagesize : 0 <= pagesize p <= 7 /\ pagesize p <> 1 /\ pagesize p <> 6;
  pw_resp : percent_ok 1 100 (resp_percent p);
  pw_rest : Forall (percent_ok 0 99)
    [paged_percent p; retry_percent p; failed_percent p; pending_percent p; derror_percent p;
     int_retry_percent p; int_failed_percent p; int_pending_percent p; int_derror_percent p;
     bdi_resp_err_percent p; bdi_cmd_err_percent p; reorder_percent p; buffer_percent p];
}.

(** * Lemmas *)

Lemma set_percent_cases lo hi set value p ds r :
  0 <= lo -> hi <= 100 ->
  set_percent lo hi set value p ds = Some r -> r.1 = p \/ exists d, lo <= d <= hi /\ r.1 = set d p.
Proof.
  intros Hlo Hhi. unfold set_percent. destruct (percent_parm value ds) as [[data ds']|]; [|done].
  cbn. intros [= <-]. destruct ((hi <? data) || (data <? lo)) eqn:E; [by left|right].
  apply orb_false_elim in E as [E1 E2]. exists data. split; [lia|]. cbn.
  unfold u32. rewrite Z.mod_small; [done|]. change (2 ^ 32) with 4294967296. lia.
Qed.

Lemma default_parms_wf now : parms_wf (default_parms now).
Proof.
  split; cbn; [by right; left|lia|lia|].
  repeat (apply List.Forall_cons; [cbn; first [done|lia]|]). apply Forall_nil_2.
Qed.

Ltac split_forall :=
  repeat match goal with H : Forall _ (_ :: _) |- _ => apply List.Forall_cons_iff in H; destruct H end.

(** Every setting keeps the parameters in range. *)
Ltac percent_case lo hi :=
  let H := fresh in let d := fresh in let Hd := fresh in let E := fresh in
  intros H; apply (set_percent_cases lo hi) in H as [E | (d & Hd & E)]; [..|done|done]; cbn in E; subst;
  constructor; cbn; try done; repeat (apply List.Forall_cons; [done|]); apply Forall_nil_2.

(** The four settings that are one number. *)
Ltac number_case :=
  match goal with |- (int_value ?v ≫= _) = _ -> _ =>
    destruct (int_value v) as [data|]; [|done]; cbn; intros [= <- <-] end.

Lemma set_parm_wf parm value p ds p' ds' :
  parms_wf p -> set_parm parm value p ds = Some (p', ds') -> parms_wf p'.
Proof.
  intros [H1 H2 H3 H4]. assert (H4' := H4). revert H4'. split_forall. intros H4'. unfold set_parm.
  repeat (destruct (key_is parm _); [first [percent_case 1 100 | percent_case 0 99 | number_case]|]).
  all: try (intros [= <- <-]).
  all: try (constructor; done).
  - case_match eqn:E; [by constructor|]. constructor; cbn; try done.
    rewrite !orb_false_iff in E. destruct E as [[[E1 E2] E3] E4].
    assert (data <> 1) by lia. assert (data <> 6) by lia.
    unfold u32. rewrite Z.mod_small; [lia|]. change (2 ^ 32) with 4294967296. lia.
  - case_match eqn:E; [by constructor|]. constructor; cbn; try done.
    rewrite !andb_false_iff, !negb_false_iff, !Z.eqb_eq in E.
    by destruct E as [[-> | ->] | ->]; [right; left|left|right; right].
Qed.

Lemma parse_line_wf line p ds p' ds' :
  parms_wf p -> parse_line line p ds = Some (p', ds') -> parms_wf p'.
Proof.
  intros Hp. unfold parse_line. destruct (read_line line) as [| |key value]; [by intros [= <- <-]|done|].
  by apply set_parm_wf.
Qed.

Lemma parse_lines_wf lines p ds p' ds' :
  parms_wf p -> parse_lines lines p ds = Some (p', ds') -> parms_wf p'.
Proof.
  revert p ds. induction lines as [|line lines IH]; intros p ds Hp; cbn [parse_lines].
  - by intros [= <- <-].
  - destruct (parse_line line p ds) as [[p1 ds1]|] eqn:E; [|done]. cbn.
    apply IH. by eapply parse_line_wf.
Qed.

(** A file that does not mention a parameter does not touch it. *)
Definition silent_on (s : string) (line : list Ascii.ascii) : Prop :=
  match read_line line with Setting parm _ => key_is parm s = false | _ => True end.

Lemma set_parm_derror parm value p ds p' ds' :
  key_is parm "DERROR_PERCENT" = false -> set_parm parm value p ds = Some (p', ds') ->
  derror_percent p' = derror_percent p.
Proof.
  intros Hk. unfold set_parm. rewrite Hk. unfold set_percent.
  destruct (int_value value) as [n|], (percent_parm value ds) as [[data ds1]|]; cbn; intros H;
    repeat (case_match; try done); simplify_eq; reflexivity.
Qed.

Lemma parse_lines_derror lines p ds p' ds' :
  Forall (silent_on "DERROR_PERCENT") lines -> parse_lines lines p ds = Some (p', ds') ->
  derror_percent p' = derror_percent p.
Proof.
  revert p ds. induction lines as [|line lines IH]; intros p ds Hl; cbn [parse_lines].
  - by intros [= <- <-].
  - apply List.Forall_cons_iff in Hl as [Hh Hl]. unfold parse_line. unfold silent_on in Hh.
    destruct (read_line line) as [| |parm value]; cbn; [by apply IH|done|].
    destruct (set_parm parm value p ds) as [[p1 ds1]|] eqn:E; [|done]. cbn. intros H.
    rewrite (IH _ _ Hl H). by eapply set_parm_derror.
Qed.

(** * Properties *)

(** C36: whatever the parameter file says and whatever is drawn, a parameter
    that is set is in range: percentages are percentages, the host cache line is
    64, 128 or 256 bytes and the page size code is a legal one. *)
Theorem parse_parms_in_range lines now ds p :
  parse_parms (Some lines) now ds = Some (Some p) -> parms_wf p.
Proof.
  unfold parse_parms. destruct (parse_lines _ _ _) as [[p1 ds1]|] eqn:E; [|done].
  cbn. intros [= <-].
  apply parse_lines_wf in E as [H1 H2 H3 H4]; [by constructor|apply default_parms_wf].
Qed.

Definition sample_file : list (list Ascii.ascii) :=
  map String.list_ascii_of_string ["# comment"; "HOST_CL_SIZE:64"; "PAGED_PERCENT:7,3 x"]%string.

Lemma parse_parms_in_range_witness :
  exists p, parse_parms (Some sample_file) 0 [4] = Some (Some p) /\ parms_wf p /\
    host_CL_size p = 64 /\ paged_percent p = Some 7.
Proof.
  eexists. split; [reflexivity|]. split; [|done].
  by apply (parse_parms_in_range sample_file 0 [4]).
Defined.

(** with a parameter file that does not set it, the data error percentage
    has no value, and the decision that every read, write and atomic command
    asks for, [allow_derror], reads an uninitialised field. *)
Theorem derror_uninitialised lines now ds p ds' :
  Forall (silent_on "DERROR_PERCENT") lines ->
  parse_parms (Some lines) now ds = Some (Some p) -> allow_derror p ds' = None.
Proof.
  intros Hl. unfold parse_parms. destruct (parse_lines _ _ _) as [[p1 ds1]|] eqn:E; [|done].
  cbn. intros [= <-]. unfold allow_derror, percent_chance. cbn [derror_percent].
  apply parse_lines_derror in E; [|done]. cbn in E. cbn. by rewrite E.
Qed.

Lemma derror_uninitialised_witness :
  exists p, parse_parms (Some sample_file) 0 [4] = Some (Some p) /\ allow_derror p [50] = None.
Proof.
  eexists. split; [reflexivity|].
  apply (derror_uninitialised sample_file 0 [4]); [|reflexivity].
  repeat (apply List.Forall_cons; [by vm_compute|]). apply Forall_nil_2.
Defined.
