(* ===== verification/Monad.v ===== *)
(** Stateful code as functions of a monad: the server's components thread a
    world through steps that can end the process, be undefined in C, or still
    be polling a socket when the fuel given to them runs out.  The program
    logic [wp] rules out undefined behaviour and follows a step's effects; the
    components share both. *)
From S2P Require Import Prelude.

(** A step ends normally, ends the process ([error_msg]), is undefined, or was
    still polling a socket when the fuel ran out. *)
Inductive outcome (W A : Type) := Done (x : A) (w : W) | Exited | UB | Running.
Arguments Done {W A} _ _.
Arguments Exited {W A}.
Arguments UB {W A}.
Arguments Running {W A}.

Definition ST (W A : Type) : Type := W -> outcome W A.

#[export] Instance ST_ret W : MRet (ST W) := fun A x w => Done x w.
#[export] Instance ST_bind W : MBind (ST W) := fun A B f m w =>
  match m w with
  | Done x w => f x w
  | Exited => Exited
  | UB => UB
  | Running => Running
  end.

Definition exit_process {W A} : ST W A := fun _ => Exited.
Definition undef {W A} : ST W A := fun _ => UB.
Definition running {W A} : ST W A := fun _ => Running.
Definition gets {W A} (f : W -> A) : ST W A := fun w => Done (f w) w.
Definition modify {W} (f : W -> W) : ST W unit := fun w => Done tt (f w).
Definition lift {W A} (o : option A) : ST W A := fun w =>
  match o with Some x => Done x w | None => UB end.
Definition when_ {W} (b : bool) (m : ST W unit) : ST W unit := if b then m else mret tt.

(** * The logic *)

(** From [w], [m] has no undefined behaviour, and when it ends normally its
    result and the world it leaves satisfy [Q]. *)
Definition wp {W A} (m : ST W A) (Q : A -> W -> Prop) (w : W) : Prop :=
  match m w with
  | Done x w' => Q x w'
  | Exited => True
  | UB => False
  | Running => True
  end.

Section rules.
Context {W A B : Type}.
Implicit Types (Q : A -> W -> Prop) (w : W).

Lemma wp_mono (m : ST W A) Q Q' w :
  wp m Q w -> (forall x w', Q x w' -> Q' x w') -> wp m Q' w.
Proof. unfold wp. case_match; auto. Qed.

Lemma wp_done (m : ST W A) Q w x w' : wp m Q w -> m w = Done x w' -> Q x w'.
Proof. unfold wp. intros H E. by rewrite E in H. Qed.

Lemma wp_ret (x : A) Q w : Q x w -> wp (mret x) Q w.
Proof. done. Qed.

Lemma wp_bind (m : ST W A) (f : A -> ST W B) (Q : B -> W -> Prop) w :
  wp m (fun x => wp (f x) Q) w -> wp (m ≫= f) Q w.
Proof. unfold wp, mbind, ST_bind. by destruct (m w). Qed.

Lemma wp_exit Q w : wp exit_process Q w.
Proof. done. Qed.

Lemma wp_running Q w : wp running Q w.
Proof. done. Qed.

Lemma wp_gets (f : W -> A) Q w : Q (f w) w -> wp (gets f) Q w.
Proof. done. Qed.

Lemma wp_lift (o : option A) x Q w : o = Some x -> Q x w -> wp (lift o) Q w.
Proof. by intros ->. Qed.
End rules.

Lemma wp_modify {W} f (Q : unit -> W -> Prop) w : Q tt (f w) -> wp (modify f) Q w.
Proof. done. Qed.

Lemma wp_when {W} b (m : ST W unit) (Q : unit -> W -> Prop) w :
  (b = true -> wp m Q w) -> (b = false -> Q tt w) -> wp (when_ b m) Q w.
Proof. destruct b; cbn; eauto. Qed.

(** Running a sequence step by step. *)
Lemma bind_done {W A B} (m : ST W A) (k : A -> ST W B) w x w' :
  m w = Done x w' -> (m ≫= k) w = k x w'.
Proof. unfold mbind, ST_bind. by intros ->. Qed.

Lemma bind_gets {W A B} (f : W -> A) (k : A -> ST W B) w : (gets f ≫= k) w = k (f w) w.
Proof. done. Qed.

Lemma bind_modify {W B} f (k : unit -> ST W B) w : (modify f ≫= k) w = k tt (f w).
Proof. done. Qed.

Lemma bind_lift {W A B} (o : option A) (k : A -> ST W B) x w :
  o = Some x -> (lift o ≫= k) w = k x w.
Proof. by intros ->. Qed.

Ltac wp_next := apply wp_bind.

Lemma wp_gets_bind {W A B} (f : W -> A) (k : A -> ST W B) Q w :
  wp (k (f w)) Q w -> wp (gets f ≫= k) Q w.
Proof. done. Qed.

Lemma wp_modify_bind {W B} f (k : unit -> ST W B) Q w :
  wp (k tt) Q (f w) -> wp (modify f ≫= k) Q w.
Proof. done. Qed.

(** * Total correctness

    [runs m Q w]: from [w], [m] ends normally, with a result and a world that
    satisfy [Q]. *)
Definition runs {W A} (m : ST W A) (Q : A -> W -> Prop) (w : W) : Prop :=
  match m w with Done x w' => Q x w' | _ => False end.

Lemma runs_done {W A} (m : ST W A) Q w : runs m Q w -> exists x w', m w = Done x w' /\ Q x w'.
Proof. unfold runs. destruct (m w) as [x w'| | |]; try done. by exists x, w'. Qed.

Lemma runs_mono {W A} (m : ST W A) (Q Q' : A -> W -> Prop) w :
  runs m Q w -> (forall x w', Q x w' -> Q' x w') -> runs m Q' w.
Proof. unfold runs. destruct (m w); auto. Qed.

Lemma runs_ret {W A} (x : A) Q (w : W) : Q x w -> runs (mret x) Q w.
Proof. done. Qed.

Lemma runs_bind {W A B} (m : ST W A) (k : A -> ST W B) Q w :
  runs m (fun x => runs (k x) Q) w -> runs (m ≫= k) Q w.
Proof. unfold runs, mbind, ST_bind. by destruct (m w). Qed.

Lemma runs_gets {W A B} (f : W -> A) (k : A -> ST W B) Q w :
  runs (k (f w)) Q w -> runs (gets f ≫= k) Q w.
Proof. done. Qed.

Lemma runs_modify {W B} f (k : unit -> ST W B) Q w : runs (k tt) Q (f w) -> runs (modify f ≫= k) Q w.
Proof. done. Qed.

Lemma runs_lift {W A B} (o : option A) (k : A -> ST W B) x Q w :
  o = Some x -> runs (k x) Q w -> runs (lift o ≫= k) Q w.
Proof. by intros ->. Qed.

Lemma runs_when {W} b (m : ST W unit) Q w :
  (b = true -> runs m Q w) -> (b = false -> Q tt w) -> runs (when_ b m) Q w.
Proof. destruct b; cbn; eauto. Qed.

Ltac runs_next := apply runs_bind.

(** * Frames

    [framed R m]: whatever world [m] leaves is related to the one it started
    from.  The rules follow the syntax of [m]. *)
Definition framed {W A} (R : W -> W -> Prop) (m : ST W A) : Prop :=
  forall w x w', m w = Done x w' -> R w w'.

Section frames.
Context {W : Type} (R : W -> W -> Prop) `{!PreOrder R}.

Lemma framed_ret {A} (x : A) : framed R (mret x).
Proof. by intros w y w' [= <- <-]. Qed.

Lemma framed_bind {A B} (m : ST W A) (k : A -> ST W B) :
  framed R m -> (forall x, framed R (k x)) -> framed R (m ≫= k).
Proof.
  intros Hm Hk w y w'. unfold mbind, ST_bind. destruct (m w) as [x w1| | |] eqn:E; try done.
  intros H. etrans; [exact (Hm _ _ _ E)|exact (Hk _ _ _ _ H)].
Qed.

Lemma framed_exit {A} : framed R (exit_process (A := A)).
Proof. done. Qed.
Lemma framed_undef {A} : framed R (undef (A := A)).
Proof. done. Qed.
Lemma framed_running {A} : framed R (running (A := A)).
Proof. done. Qed.
Lemma framed_gets {A} (f : W -> A) : framed R (gets f).
Proof. by intros w y w' [= _ <-]. Qed.
Lemma framed_lift {A} (o : option A) : framed R (lift o).
Proof. intros w y w'. unfold lift. destruct o; by intros [= _ <-]. Qed.
Lemma framed_modify f : (forall w, R w (f w)) -> framed R (modify f).
Proof. by intros H w y w' [= _ <-]. Qed.
Lemma framed_when b (m : ST W unit) : framed R m -> framed R (when_ b m).
Proof. destruct b; [done|]. intros _. apply framed_ret. Qed.
End frames.

(** Follows the syntax of a step; [leaf] proves what is not a combinator. *)
Ltac frames leaf :=
  repeat first
    [ progress intros | leaf
    | apply framed_ret; exact _ | apply framed_exit | apply framed_undef | apply framed_running
    | apply framed_gets; exact _ | apply framed_lift; exact _
    | apply framed_when; [exact _|] | apply framed_bind; [exact _| |]
    | progress cbv zeta
    | match goal with
      | |- framed _ (let '(_, _) := ?x in _) => destruct x
      | |- framed _ (if ?b then _ else _) => destruct b
      | |- framed _ (match ?x with _ => _ end) => destruct x
      end ].
