(* ===== verification/MmioState.v ===== *)
(** ocse/mmio.h: the state of the MMIO component - the accesses to the AFU's
    configuration space, registers and memory, in the order they were asked
    for, and what is known of the AFU's configuration; with it, ocse/ocl.h, the
    few variables of the thread's loop.

    An [mmio_event] is allocated and freed; its address is a number, as for the
    entries of the command list.  The fields [cmd_CAPPtag] and [cmd_opcode],
    which nothing uses, the debug file and the flags are left out. *)
From stdpp Require Import gmap.
From S2P Require Import Prelude.

Definition addr_t : Type := nat.

Inductive ocse_state :=
  | OCSE_IDLE | OCSE_RESET | OCSE_DESC | OCSE_RD_RQ_PENDING | OCSE_PENDING | OCSE_BUFFER
  | OCSE_RUNNING | OCSE_DONE.

#[export] Instance ocse_state_eq_dec : EqDecision ocse_state.
Proof. solve_decision. Defined.

(** [data] is the buffer of a memory access; for an MMIO access the code makes
    it point to [cmd_data]. *)
Record mmio_event := MmioEvent {
  me_rnw : Z; me_dw : Z; me_cfg : Z; me_cmd_data : Z; me_cmd_PA : Z; me_cmd_pL : Z;
  me_partial_index : Z; me_ack : Z; me_resp_dL : Z; me_resp_dP : Z; me_resp_code : Z;
  me_resp_opcode : Z; me_be_valid : Z; me_size : Z; me_size_received : Z; me_data : list Z;
  me_be : Z; me_cmd_dL : Z; me_cmd_dP : Z; me_state : ocse_state;
}.

#[export] Instance eta_mmio_event : Settable mmio_event := fun e => MmioEvent
  (me_rnw e) (me_dw e) (me_cfg e) (me_cmd_data e) (me_cmd_PA e) (me_cmd_pL e)
  (me_partial_index e) (me_ack e) (me_resp_dL e) (me_resp_dP e) (me_resp_code e)
  (me_resp_opcode e) (me_be_valid e) (me_size e) (me_size_received e) (me_data e) (me_be e)
  (me_cmd_dL e) (me_cmd_dP e) (me_state e).
#[export] Instance set_me_rnw : Setter me_rnw := ltac:(build_setter).
#[export] Instance set_me_dw : Setter me_dw := ltac:(build_setter).
#[export] Instance set_me_cfg : Setter me_cfg := ltac:(build_setter).
#[export] Instance set_me_cmd_data : Setter me_cmd_data := ltac:(build_setter).
#[export] Instance set_me_cmd_PA : Setter me_cmd_PA := ltac:(build_setter).
#[export] Instance set_me_cmd_pL : Setter me_cmd_pL := ltac:(build_setter).
#[export] Instance set_me_partial_index : Setter me_partial_index := ltac:(build_setter).
#[export] Instance set_me_ack : Setter me_ack := ltac:(build_setter).
#[export] Instance set_me_resp_dL : Setter me_resp_dL := ltac:(build_setter).
#[export] Instance set_me_resp_dP : Setter me_resp_dP := ltac:(build_setter).
#[export] Instance set_me_resp_code : Setter me_resp_code := ltac:(build_setter).
#[export] Instance set_me_resp_opcode : Setter me_resp_opcode := ltac:(build_setter).
#[export] Instance set_me_be_valid : Setter me_be_valid := ltac:(build_setter).
#[export] Instance set_me_size : Setter me_size := ltac:(build_setter).
#[export] Instance set_me_size_received : Setter me_size_received := ltac:(build_setter).
#[export] Instance set_me_data : Setter me_data := ltac:(build_setter).
#[export] Instance set_me_be : Setter me_be := ltac:(build_setter).
#[export] Instance set_me_cmd_dL : Setter me_cmd_dL := ltac:(build_setter).
#[export] Instance set_me_cmd_dP : Setter me_cmd_dP := ltac:(build_setter).
#[export] Instance set_me_state : Setter me_state := ltac:(build_setter).

(** What discovery learns of an AFU ... *)
Record afu_cfg := AfuCfg {
  af_pasid_base : Z; af_pasid_len_enabled : Z; af_pasid_len_supported : Z;
  af_actag_base : Z; af_actag_length_enabled : Z; af_actag_length_supported : Z;
  af_namespace : list Z; af_version_major : Z; af_version_minor : Z;
  af_global_mmio_bar : Z; af_global_mmio_offset : Z; af_global_mmio_size : Z;
  af_pp_mmio_bar : Z; af_pp_mmio_offset : Z; af_pp_mmio_stride : Z;
  af_mem_base_address : Z; af_mem_size : Z;
}.

(** ... and of a function; its AFUs are an array of pointers. *)
Record fcn_cfg := FcnCfg {
  fc_device_id : Z; fc_vendor_id : Z; fc_bar0 : Z; fc_max_pasid_width : Z;
  fc_tl_major : Z; fc_tl_minor : Z; fc_tl_xmit_template_cfg : Z; fc_tl_xmit_rate : Z;
  fc_function_dvsec_pa : Z; fc_afu_present : Z; fc_max_afu_index : Z;
  fc_actag_base : Z; fc_actag_length_enabled : Z; fc_afu_information_dvsec_pa : Z;
  fc_afu_cfg_array : list (option afu_cfg);
}.

(** [struct mmio]: the allocated events, the queue ([list] and the [_next]
    pointers), the configuration by function.  [mm_next] is the address the next
    [malloc] returns, [mm_raw] and [mm_junk] what it finds there. *)
Record mmio := Mmio {
  mm_heap : gmap addr_t mmio_event;
  mm_list : list addr_t;
  mm_next : addr_t;
  mm_raw : addr_t -> mmio_event;
  mm_junk : addr_t -> nat -> Z;
  mm_fcn_cfg_array : list (option fcn_cfg);
}.

#[export] Instance eta_mmio : Settable mmio := fun m => Mmio
  (mm_heap m) (mm_list m) (mm_next m) (mm_raw m) (mm_junk m) (mm_fcn_cfg_array m).
#[export] Instance set_mm_heap : Setter mm_heap := ltac:(build_setter).
#[export] Instance set_mm_list : Setter mm_list := ltac:(build_setter).
#[export] Instance set_mm_next : Setter mm_next := ltac:(build_setter).
#[export] Instance set_mm_fcn_cfg_array : Setter mm_fcn_cfg_array := ltac:(build_setter).

(** [struct ocl], what its loop keeps: the state, the clients attached, the idle
    cycles left, and what the uninitialised local [ack] of [_attach] holds. *)
Record ocl := Ocl {
  ol_state : ocse_state; ol_attached_clients : Z; ol_idle_cycles : Z; ol_junk : Z }.

#[export] Instance eta_ocl : Settable ocl := fun o => Ocl
  (ol_state o) (ol_attached_clients o) (ol_idle_cycles o) (ol_junk o).
#[export] Instance set_ol_state : Setter ol_state := ltac:(build_setter).
#[export] Instance set_ol_attached_clients : Setter ol_attached_clients := ltac:(build_setter).
#[export] Instance set_ol_idle_cycles : Setter ol_idle_cycles := ltac:(build_setter).

Definition mmio_init (raw : addr_t -> mmio_event) (junk : addr_t -> nat -> Z) : mmio :=
  Mmio ∅ [] 0%nat raw junk [].
