(* ===== verification/CmdState.v ===== *)
(** ocse/cmd.h, ocse/client.h: the state of the command component - the list of
    outstanding AFU commands, the clients, the page cache - and the monad its
    code runs in.

    A [cmd_event] is allocated and freed; its address is a number, and the
    pointers the code keeps to it ([client->mem_access], [cmd->buffer_read])
    are such numbers and may dangle.  Left out are the debug file, the fields of
    [struct client] the component does not use, and [event->abort], which always
    points to the [abort] field of the event's client. *)
From S2P Require Export Monad.
From S2P Require Import Prelude Utils Event Parms.
From S2P Require Export MmioState.

Definition PAGE_WAYS : nat := 4.
Definition LOG2_ENTRIES := 4.
Definition PAGE_ENTRIES : nat := 16.
Definition PAGE_ADDR_BITS := 12.
Definition PAGE_MASK := 0xFFF.
Definition BAD_OPERAND_SIZE := 2.
Definition BAD_ADDR_OFFSET := 3.
(** [offset & ~CACHELINE_MASK] *)
Definition CACHELINE_OFFSET := 0x3F.

Inductive cmd_type :=
  | CMD_READ | CMD_WRITE | CMD_TOUCH | CMD_INTERRUPT | CMD_WAKE_HOST_THRD | CMD_WR_BE
  | CMD_AMO_RD | CMD_AMO_RW | CMD_AMO_WR | CMD_XLAT_RD_TOUCH | CMD_XLAT_WR_TOUCH
  | CMD_FAILED | CMD_OTHER.

Inductive mem_state :=
  | MEM_IDLE | MEM_XLATE_PENDING | MEM_INT_PENDING | MEM_PENDING_SENT | MEM_TOUCH
  | MEM_TOUCHED | MEM_BUFFER | MEM_REQUEST | MEM_CAS_RD | MEM_RECEIVED | AMO_MEM_RESP
  | DMA_MEM_RESP | MEM_DONE.

Inductive client_state := CLIENT_NONE | CLIENT_INIT | CLIENT_VALID.

#[export] Instance cmd_type_eq_dec : EqDecision cmd_type.
Proof. solve_decision. Defined.
#[export] Instance mem_state_eq_dec : EqDecision mem_state.
Proof. solve_decision. Defined.
#[export] Instance client_state_eq_dec : EqDecision client_state.
Proof. solve_decision. Defined.

(** The place of a constructor in its [enum], for the comparisons with
    integers. *)
Definition cmd_type_int (t : cmd_type) : Z :=
  match t with
  | CMD_READ => 0 | CMD_WRITE => 1 | CMD_TOUCH => 2 | CMD_INTERRUPT => 3
  | CMD_WAKE_HOST_THRD => 4 | CMD_WR_BE => 5 | CMD_AMO_RD => 6 | CMD_AMO_RW => 7
  | CMD_AMO_WR => 8 | CMD_XLAT_RD_TOUCH => 9 | CMD_XLAT_WR_TOUCH => 10
  | CMD_FAILED => 11 | CMD_OTHER => 12
  end.

Record cmd_event := CmdEvent {
  ev_id : addr_t;             (* its address *)
  ev_addr : Z; ev_context : Z; ev_command : Z; ev_afutag : Z; ev_size : Z;
  ev_resp : Z; ev_resp_dl : Z; ev_resp_dp : Z; ev_resp_opcode : Z; ev_dpartial : Z;
  ev_wr_be : Z; ev_resp_bytes_sent : Z; ev_cmd_flag : Z; ev_cmd_endian : Z;
  ev_cmd_pg_size : Z; ev_unlock : Z; ev_data : list Z;
  ev_type : cmd_type; ev_state : mem_state; ev_client_state : client_state;
}.

#[export] Instance eta_cmd_event : Settable cmd_event := fun e => CmdEvent
  (ev_id e) (ev_addr e) (ev_context e) (ev_command e) (ev_afutag e) (ev_size e) (ev_resp e)
  (ev_resp_dl e) (ev_resp_dp e) (ev_resp_opcode e) (ev_dpartial e) (ev_wr_be e)
  (ev_resp_bytes_sent e) (ev_cmd_flag e) (ev_cmd_endian e) (ev_cmd_pg_size e) (ev_unlock e)
  (ev_data e) (ev_type e) (ev_state e) (ev_client_state e).
#[export] Instance set_ev_size : Setter ev_size := ltac:(build_setter).
#[export] Instance set_ev_resp : Setter ev_resp := ltac:(build_setter).
#[export] Instance set_ev_resp_dl : Setter ev_resp_dl := ltac:(build_setter).
#[export] Instance set_ev_resp_dp : Setter ev_resp_dp := ltac:(build_setter).
#[export] Instance set_ev_resp_opcode : Setter ev_resp_opcode := ltac:(build_setter).
#[export] Instance set_ev_dpartial : Setter ev_dpartial := ltac:(build_setter).
#[export] Instance set_ev_resp_bytes_sent : Setter ev_resp_bytes_sent := ltac:(build_setter).
#[export] Instance set_ev_data : Setter ev_data := ltac:(build_setter).
#[export] Instance set_ev_type : Setter ev_type := ltac:(build_setter).
#[export] Instance set_ev_state : Setter ev_state := ltac:(build_setter).

Record client := Client {
  cl_pending : Z; cl_idle_cycles : Z; cl_fd : Z; cl_context : Z; cl_abort : Z;
  cl_state : client_state; cl_type : Z; cl_pasid : Z; cl_bdf : Z; cl_fcn : Z; cl_afuid : Z; cl_actag : Z;
  cl_mem_access : option addr_t; cl_mmio_access : option addr_t;
}.

#[export] Instance eta_client : Settable client := fun c => Client
  (cl_pending c) (cl_idle_cycles c) (cl_fd c) (cl_context c) (cl_abort c) (cl_state c)
  (cl_type c) (cl_pasid c) (cl_bdf c) (cl_fcn c) (cl_afuid c) (cl_actag c) (cl_mem_access c)
  (cl_mmio_access c).
#[export] Instance set_cl_pending : Setter cl_pending := ltac:(build_setter).
#[export] Instance set_cl_idle_cycles : Setter cl_idle_cycles := ltac:(build_setter).
#[export] Instance set_cl_fd : Setter cl_fd := ltac:(build_setter).
#[export] Instance set_cl_abort : Setter cl_abort := ltac:(build_setter).
#[export] Instance set_cl_state : Setter cl_state := ltac:(build_setter).
#[export] Instance set_cl_actag : Setter cl_actag := ltac:(build_setter).
#[export] Instance set_cl_mem_access : Setter cl_mem_access := ltac:(build_setter).
#[export] Instance set_cl_mmio_access : Setter cl_mmio_access := ltac:(build_setter).

(** [client_drop] *)
Definition client_drop (cycles : Z) (state : client_state) (c : client) : client :=
  c <| cl_idle_cycles := cycles |> <| cl_pending := 0 |> <| cl_state := state |>
    <| cl_mem_access := None |>.

Record pages := Pages {
  pg_entry : list (list Z); pg_entry_filter : Z; pg_page_filter : Z;
  pg_age : list (list Z); pg_valid : list (list Z);
}.

(** [struct cmd], what hangs off it - the MMIO component and the thread's state
    among it - and the world around it: the draws of [rand], the next address
    [calloc] returns, the messages put on client sockets with the outcome of
    each further one. *)
Record world := World {
  w_list : list cmd_event;
  w_buffer_read : option addr_t;
  w_mmio : mmio;
  w_ocl : ocl;
  w_clients : list (option client);
  w_max_clients : Z;
  w_pagesize : Z;
  w_host_CL_size : Z;
  w_pages : pages;
  w_event : AFU_EVENT;
  w_parms : parms;
  w_draws : draws;
  w_next : addr_t;
  w_puts : list (Z * list Z);
  w_put_ok : list bool;
}.

#[export] Instance eta_world : Settable world := fun w => World
  (w_list w) (w_buffer_read w) (w_mmio w) (w_ocl w) (w_clients w) (w_max_clients w)
  (w_pagesize w) (w_host_CL_size w) (w_pages w) (w_event w) (w_parms w) (w_draws w) (w_next w)
  (w_puts w) (w_put_ok w).
#[export] Instance set_w_list : Setter w_list := ltac:(build_setter).
#[export] Instance set_w_buffer_read : Setter w_buffer_read := ltac:(build_setter).
#[export] Instance set_w_mmio : Setter w_mmio := ltac:(build_setter).
#[export] Instance set_w_ocl : Setter w_ocl := ltac:(build_setter).
#[export] Instance set_w_clients : Setter w_clients := ltac:(build_setter).
#[export] Instance set_w_max_clients : Setter w_max_clients := ltac:(build_setter).
#[export] Instance set_w_pages : Setter w_pages := ltac:(build_setter).
#[export] Instance set_w_event : Setter w_event := ltac:(build_setter).
#[export] Instance set_w_draws : Setter w_draws := ltac:(build_setter).
#[export] Instance set_w_next : Setter w_next := ltac:(build_setter).
#[export] Instance set_w_puts : Setter w_puts := ltac:(build_setter).
#[export] Instance set_w_put_ok : Setter w_put_ok := ltac:(build_setter).

(** * The monad *)

Abbreviation M := (ST world).

(** One random decision of ocse/parms.c. *)
Definition decide_by (allow : parms -> draws -> option (bool * draws)) : M bool := fun w =>
  match allow (w_parms w) (w_draws w) with
  | Some (b, ds) => Done b (w <| w_draws := ds |>)
  | None => UB
  end.

(** A pointer to an event that is still allocated is dereferenced; a dangling
    one is undefined. *)
Definition get_event (id : addr_t) : M cmd_event := fun w =>
  match find (fun e => (ev_id e =? id)%nat) (w_list w) with
  | Some e => Done e w
  | None => UB
  end.

Definition upd_event (id : addr_t) (f : cmd_event -> cmd_event) : M unit :=
  modify (fun w => w <| w_list :=
    map (fun e => if (ev_id e =? id)%nat then f e else e) (w_list w) |>).

(** [*head = event->_next; free(event)] *)
Definition free_event (id : addr_t) : M unit :=
  modify (fun w => w <| w_list :=
    List.filter (fun e => negb (ev_id e =? id)%nat) (w_list w) |>).

(** The first event of the list that satisfies [p]. *)
Definition find_event (p : cmd_event -> bool) : M (option cmd_event) :=
  gets (fun w => find p (w_list w)).

Definition upd_client (i : nat) (f : client -> client) : M unit :=
  modify (fun w => w <| w_clients := alter (fmap f) i (w_clients w) |>).

(** [put_bytes]: whether the client's socket took the message. *)
Definition put_bytes (fd : Z) (l : list Z) : M bool := fun w =>
  match w_put_ok w with
  | [] => Done true (w <| w_puts := w_puts w ++ [(fd, l)] |>)
  | true :: oks => Done true (w <| w_puts := w_puts w ++ [(fd, l)] |> <| w_put_ok := oks |>)
  | false :: oks => Done false (w <| w_put_ok := oks |>)
  end.
