(* ===== verification/Cmd.v ===== *)
(** ocse/cmd.c, commands in: initialisation, finding the client of a command,
    and turning what the AFU sent into an entry of the command list. *)
From S2P Require Import Prelude Utils Event TlxHost Parms CmdState.

(** * Initialisation *)

(** The loop that builds [entry_filter]. *)
Fixpoint entry_filter_bits (n : nat) (x : Z) : Z :=
  match n with O => x | S n => entry_filter_bits n (u64 (u64 (Z.shiftl x 1) + 1)) end.

(** The clients are given to the structure later. *)
Definition cmd_init (event : AFU_EVENT) (p : parms) (mm : mmio) (o : ocl) (ds : draws) : world :=
  let ways (n : Z) := replicate PAGE_ENTRIES (replicate PAGE_WAYS n) in
  World [] None mm o [] 0 (pagesize p) (host_CL_size p)
    (Pages (ways 0) (u64 (Z.shiftl (entry_filter_bits (Z.to_nat LOG2_ENTRIES) 0) PAGE_ADDR_BITS))
       (u64 (Z.lnot PAGE_MASK)) (ways 0) (ways 0))
    event p ds 0%nat [] [].

(** * Clients *)

(** The first index of [cmd->client] whose client satisfies [p]. *)
Fixpoint find_client (p : client -> bool) (i : nat) (cs : list (option client)) : option nat :=
  match cs with
  | [] => None
  | Some c :: cs => if p c then Some i else find_client p (S i) cs
  | None :: cs => find_client p (S i) cs
  end.

(** The array has [max_clients] entries. *)
Definition client_array (w : world) : list (option client) :=
  take (Z.to_nat (w_max_clients w)) (w_clients w).

Definition _find_client_by_pasid_and_bdf (cmd_bdf cmd_pasid : Z) : M (option nat) :=
  gets (fun w =>
    find_client (fun c => (cl_bdf c =? cmd_bdf) && (cl_pasid c =? cmd_pasid)) 0 (client_array w)).

Definition _find_client_by_actag (cmd_actag : Z) : M Z :=
  gets (fun w =>
    match find_client (fun c => cl_actag c =? cmd_actag) 0 (client_array w) with
    | Some i => Z.of_nat i
    | None => -1
    end).

(** The client of an event.  The test [cmd->client[event->context] < 0] compares
    a pointer with 0 and never holds.  A negative context would index before the
    array. *)
Definition _get_client (event : cmd_event) : M (option nat) :=
  max ← gets w_max_clients;
  if max <=? ev_context event then mret None
  else if ev_context event <? 0 then undef
  else
    cs ← gets w_clients;
    let i := Z.to_nat (ev_context event) in
    match cs !! i with
    | None => undef
    | Some None => mret None
    | Some (Some _) => mret (Some i)
    end.

(** A client that is there. *)
Definition the_client (i : nat) : M client :=
  cs ← gets w_clients;
  match cs !! i with Some (Some c) => mret c | _ => undef end.

(** * The command list *)

Definition in_state (t : cmd_type) (s : mem_state) (e : cmd_event) : bool :=
  bool_decide (ev_type e = t) && bool_decide (ev_state e = s).

Definition _incoming_data_expected : M bool :=
  o ← find_event (in_state CMD_WRITE MEM_BUFFER);
  mret (match o with Some _ => true | None => false end).

(** The walk stops at the end of the list or where [allow_reorder] says so: a
    decision is drawn at every entry passed. *)
Fixpoint insert_event (e : cmd_event) (l : list cmd_event) : M (list cmd_event) :=
  match l with
  | [] => mret [e]
  | x :: l =>
      r ← decide_by allow_reorder;
      if r : bool then mret (e :: x :: l) else (l ← insert_event e l; mret (x :: l))
  end.

(** The event as [calloc] and the assignments leave it.  [size] is a
    [uint16_t]. *)
Definition new_event (id : addr_t) (context afutag command : Z) (type : cmd_type)
    (addr size : Z) (state : mem_state) (resp unlock wr_be cmd_flag cmd_endian resp_opcode : Z)
    : cmd_event :=
  CmdEvent id addr (i32 context) command afutag size resp
    (if size <=? 64 then 1 else size_to_dl (i16 size)) 0 resp_opcode 0 wr_be 0
    cmd_flag cmd_endian 0 unlock (zeros 256) type state CLIENT_NONE.

(** The first 64 bytes of command data: the command is complete, or a longer
    write waits for the rest. *)
Definition store_data (id : addr_t) (size : Z) : M unit :=
  modify (fun w => w <| w_buffer_read := Some id |>);;
  event ← get_event id;
  afu ← gets w_event;
  data ← lift (memcpy (ev_data event) (afu_tlx_cdata_bus afu) 64);
  upd_event id (fun e => e <| ev_data := data |>);;
  when_ (negb (bool_decide (ev_type event = CMD_INTERRUPT)))
    (if 64 <? size
     then upd_event id (fun e => e <| ev_dpartial := 64 |> <| ev_state := MEM_BUFFER |>)
     else upd_event id (fun e => e <| ev_state := MEM_RECEIVED |> <| ev_dpartial := 0 |>)).

(** Data that comes while an earlier write still waits is left for that one. *)
Definition take_data (id : addr_t) (size : Z) : M unit :=
  expected ← _incoming_data_expected;
  if expected : bool then modify (fun w => w <| w_event := w_event w <| afu_tlx_cdata_valid := 1 |> |>)
  else store_data id size.

Definition _add_cmd (context afutag command : Z) (type : cmd_type) (addr size : Z)
    (state : mem_state) (resp unlock : Z) (cmd_data_is_valid : bool)
    (wr_be cmd_flag cmd_endian resp_opcode : Z) : M unit :=
  id ← gets w_next;
  modify (fun w => w <| w_next := S id |>);;
  let event := new_event id context afutag command type addr (u16 size) state resp unlock
                 wr_be cmd_flag cmd_endian resp_opcode in
  c ← _get_client event;
  let event := match c with
               | None => event <| ev_resp := TLX_RESPONSE_FAILED |> <| ev_state := MEM_DONE |>
               | Some _ => event
               end in
  l ← gets w_list;
  l ← insert_event event l;
  modify (fun w => w <| w_list := l |>);;
  when_ cmd_data_is_valid (take_data id (u16 size)).

(** * Formatting commands *)

(** The 64-bit address in the first bytes of [cmd_ea_or_obj]. *)
Definition ea_addr (cmd_ea_or_obj : list Z) : Z := le_val (take 8 cmd_ea_or_obj).

Definition _add_interrupt (actag afutag cmd_opcode : Z) (cmd_ea_or_obj : list Z) (size : Z)
    (cmd_data_is_valid : bool) (cmd_flag : Z) : M unit :=
  context ← _find_client_by_actag actag;
  if context =? -1 then mret tt
  else
    let addr := ea_addr cmd_ea_or_obj in
    if cmd_opcode =? AFU_CMD_WAKE_HOST_THRD
    then _add_cmd context afutag cmd_opcode CMD_WAKE_HOST_THRD addr size MEM_IDLE 0 0
           cmd_data_is_valid 0 cmd_flag 0 TLX_RSP_WAKE_HOST_RESP
    else _add_cmd context afutag cmd_opcode CMD_INTERRUPT addr size MEM_IDLE 0 0
           cmd_data_is_valid 0 cmd_flag 0 TLX_RSP_INTRP_RESP.

Definition _add_fail (actag afutag cmd_opcode resp resp_opcode : Z) : M unit :=
  context ← _find_client_by_actag actag;
  if context =? -1 then mret tt
  else _add_cmd context afutag cmd_opcode CMD_FAILED 0 0 MEM_DONE resp 0 false 0 0 0 resp_opcode.

(** [size] is a [uint32_t]: a size code that is not legal has become 2^32-1. *)
Definition _aligned (addr size : Z) : Z :=
  if (size =? 0) || truthy (Z.land size (u32 (size - 1))) then 2
  else if truthy (Z.land addr (u32 (size - 1))) then 3
  else 1.

Definition _add_xlate_touch (actag afutag cmd_opcode : Z) (cmd_ea_or_obj : list Z)
    (cmd_flag cmd_pg_size : Z) : M unit :=
  let addr := ea_addr cmd_ea_or_obj in
  if _aligned addr 64 =? BAD_OPERAND_SIZE
  then _add_fail actag afutag cmd_opcode 0x09 TLX_RSP_TOUCH_RESP
  else if _aligned addr 64 =? BAD_ADDR_OFFSET
  then _add_fail actag afutag cmd_opcode 0x0b TLX_RSP_TOUCH_RESP
  else
    context ← _find_client_by_actag actag;
    if context =? -1 then mret tt
    else _add_cmd context afutag cmd_opcode CMD_TOUCH addr 0 MEM_DONE 0x00 0 false 0 0 0
           TLX_RSP_TOUCH_RESP.

Definition _assign_actag (cmd_bdf cmd_pasid actag : Z) : M unit :=
  i ← _find_client_by_pasid_and_bdf cmd_bdf cmd_pasid;
  match i with
  | None => mret tt
  | Some i => upd_client i (fun c => c <| cl_actag := actag |>)
  end.

Definition _add_read (actag afutag cmd_opcode : Z) (cmd_ea_or_obj : list Z) (size : Z) : M unit :=
  let addr := ea_addr cmd_ea_or_obj in
  if _aligned addr size =? BAD_OPERAND_SIZE
  then _add_fail actag afutag cmd_opcode 0x09 TLX_RSP_READ_FAILED
  else if _aligned addr size =? BAD_ADDR_OFFSET
  then _add_fail actag afutag cmd_opcode 0x0b TLX_RSP_READ_FAILED
  else
    context ← _find_client_by_actag actag;
    if context =? -1 then mret tt
    else _add_cmd context afutag cmd_opcode CMD_READ addr size MEM_IDLE TLX_RESPONSE_DONE 0
           false 0 0 0 TLX_RSP_READ_RESP.

(** The operand size of an atomic operation, or the opcode of the failed
    response. *)
Definition amo_size (cmd_opcode cmd_pl cmd_flag : Z) : Z + Z :=
  let rw := (cmd_opcode =? AFU_CMD_AMO_RW) || (cmd_opcode =? AFU_CMD_AMO_RW_N) in
  let wr := (cmd_opcode =? AFU_CMD_AMO_W) || (cmd_opcode =? AFU_CMD_AMO_W_N) in
  if (cmd_pl =? 2) || (cmd_pl =? 3) then
    if rw && (8 <=? cmd_flag) then inr TLX_RSP_READ_FAILED
    else inl (if cmd_pl =? 2 then 4 else 8)
  else if (cmd_pl =? 6) || (cmd_pl =? 7) then
    if wr then inr TLX_RSP_WRITE_FAILED else inl (if cmd_pl =? 6 then 4 else 8)
  else inr (if rw then TLX_RSP_READ_FAILED else TLX_RSP_WRITE_FAILED).

(** [AFU_CMD_AMO_RD_N] is not among the opcodes tested. *)
Definition amo_reads (cmd_opcode : Z) : bool :=
  (cmd_opcode =? AFU_CMD_AMO_RW) || (cmd_opcode =? AFU_CMD_AMO_RW_N) ||
  (cmd_opcode =? AFU_CMD_AMO_RD).

Definition _add_amo (actag afutag cmd_opcode : Z) (type : cmd_type) (cmd_ea_or_obj : list Z)
    (cmd_pl : Z) (cmd_data_is_valid : bool) (cmd_flag cmd_endian : Z) : M unit :=
  let addr := ea_addr cmd_ea_or_obj in
  match amo_size cmd_opcode cmd_pl cmd_flag with
  | inr resp_opcode => _add_fail actag afutag cmd_opcode 0x09 resp_opcode
  | inl sizecheck =>
      if _aligned addr sizecheck =? BAD_ADDR_OFFSET
      then _add_fail actag afutag cmd_opcode 0x0b
             (if amo_reads cmd_opcode then TLX_RSP_READ_FAILED else TLX_RSP_WRITE_FAILED)
      else
        context ← _find_client_by_actag actag;
        if context =? -1 then mret tt
        else _add_cmd context afutag cmd_opcode type addr sizecheck MEM_IDLE TLX_RESPONSE_DONE 0
               cmd_data_is_valid 0 cmd_flag cmd_endian
               (if amo_reads cmd_opcode then TLX_RSP_READ_RESP else TLX_RSP_WRITE_RESP)
  end.

Definition _add_write (actag afutag cmd_opcode : Z) (cmd_ea_or_obj : list Z) (size : Z)
    (cmd_data_is_valid : bool) (cmd_be : Z) : M unit :=
  let addr := ea_addr cmd_ea_or_obj in
  if _aligned addr size =? BAD_OPERAND_SIZE
  then _add_fail actag afutag cmd_opcode 0x09 TLX_RSP_WRITE_FAILED
  else if _aligned addr size =? BAD_ADDR_OFFSET
  then _add_fail actag afutag cmd_opcode 0x0b TLX_RSP_WRITE_FAILED
  else
    context ← _find_client_by_actag actag;
    if context =? -1 then mret tt
    else if (cmd_opcode =? AFU_CMD_DMA_W_BE) || (cmd_opcode =? AFU_CMD_DMA_W_BE_N)
    then _add_cmd context afutag cmd_opcode CMD_WR_BE addr size MEM_IDLE TLX_RESPONSE_DONE 0
           cmd_data_is_valid cmd_be 0 0 TLX_RSP_WRITE_RESP
    else _add_cmd context afutag cmd_opcode CMD_WRITE addr size MEM_IDLE TLX_RESPONSE_DONE 0
           cmd_data_is_valid 0 0 0 TLX_RSP_WRITE_RESP.

(** * Dispatch *)

(** Data that came with a command that takes none is left on the interface. *)
Definition keep_data (cmd_data_is_valid : bool) : M unit :=
  when_ cmd_data_is_valid
    (modify (fun w => w <| w_event := w_event w <| afu_tlx_cdata_valid := 1 |> |>)).

Definition is_op (op : Z) (ops : list Z) : bool := existsb (Z.eqb op) ops.

Definition _parse_cmd (c : afu_cmd) (cmd_data_is_valid : bool) : M unit :=
  let op := ac_opcode c in
  let ea := ac_ea_or_obj c in
  let tag := ac_afutag c in
  let actag := ac_actag c in
  if is_op op [AFU_CMD_ASSIGN_ACTAG] then
    keep_data cmd_data_is_valid;; _assign_actag (ac_bdf c) (ac_pasid c) actag
  else if is_op op [AFU_CMD_RD_WNITC; AFU_CMD_RD_WNITC_N] then
    keep_data cmd_data_is_valid;; _add_read actag tag op ea (u32 (dl_to_size (ac_dl c)))
  else if is_op op [AFU_CMD_PR_RD_WNITC; AFU_CMD_PR_RD_WNITC_N] then
    keep_data cmd_data_is_valid;; _add_read actag tag op ea (u32 (pl_to_size (ac_pl c)))
  else if is_op op [AFU_CMD_DMA_W; AFU_CMD_DMA_W_N] then
    _add_write actag tag op ea (u32 (dl_to_size (ac_dl c))) cmd_data_is_valid 0
  else if is_op op [AFU_CMD_DMA_PR_W; AFU_CMD_DMA_PR_W_N] then
    _add_write actag tag op ea (u32 (pl_to_size (ac_pl c))) cmd_data_is_valid 0
  else if is_op op [AFU_CMD_DMA_W_BE; AFU_CMD_DMA_W_BE_N] then
    _add_write actag tag op ea 64 cmd_data_is_valid (ac_be c)
  else if is_op op [AFU_CMD_AMO_RD; AFU_CMD_AMO_RD_N] then
    _add_amo actag tag op CMD_AMO_RD ea (ac_pl c) cmd_data_is_valid (ac_flag c) (ac_endian c)
  else if is_op op [AFU_CMD_AMO_RW; AFU_CMD_AMO_RW_N] then
    _add_amo actag tag op CMD_AMO_RW ea (ac_pl c) cmd_data_is_valid (ac_flag c) (ac_endian c)
  else if is_op op [AFU_CMD_AMO_W; AFU_CMD_AMO_W_N] then
    _add_amo actag tag op CMD_AMO_WR ea (ac_pl c) cmd_data_is_valid (ac_flag c) (ac_endian c)
  else if is_op op [AFU_CMD_INTRP_REQ_D] then
    _add_interrupt actag tag op ea (u16 (pl_to_size (ac_pl c))) cmd_data_is_valid (ac_flag c)
  else if is_op op [AFU_CMD_INTRP_REQ; AFU_CMD_WAKE_HOST_THRD] then
    _add_interrupt actag tag op ea 0 cmd_data_is_valid (ac_flag c)
  else if is_op op [AFU_CMD_NOP] then mret tt
  else if is_op op [AFU_CMD_XLATE_TOUCH; AFU_CMD_XLATE_TOUCH_N] then
    keep_data cmd_data_is_valid;;
    _add_xlate_touch actag tag op ea (ac_flag c) (ac_pg_size c)
  else _add_fail actag tag op TLX_RESPONSE_FAILED TLX_RESPONSE_FAILED.

(** A tag that is already in the list ends the process.  There is a command
    exactly when the return code is [TLX_SUCCESS]. *)
Definition handle_cmd : M unit :=
  afu ← gets w_event;
  let '(rc, out, afu) := afu_tlx_read_cmd_and_data afu in
  modify (fun w => w <| w_event := afu |>);;
  match out with
  | None => mret tt
  | Some (c, data) =>
      dup ← find_event (fun e => ev_afutag e =? ac_afutag c);
      match dup with
      | Some _ => exit_process
      | None => _parse_cmd c (match data with Some _ => true | None => false end)
      end
  end.

(** * Alignment *)

Lemma power_of_two_land k : 0 <= k -> Z.land (2 ^ k) (2 ^ k - 1) = 0.
Proof.
  intros Hk. replace (2 ^ k - 1) with (Z.ones k) by (rewrite Z.ones_equiv; lia).
  rewrite Z.land_ones by done. apply Z.mod_same. pose proof (Z.pow_pos_nonneg 2 k). lia.
Qed.

(** A number with no bit in common with its predecessor is a power of two. *)
Lemma land_pred_power n : 0 < n -> Z.land n (n - 1) = 0 -> n = 2 ^ Z.log2 n.
Proof.
  intros Hn H0. set (k := Z.log2 n). pose proof (Z.log2_spec n Hn) as [Hlo Hhi]. fold k in Hlo, Hhi.
  assert (Hk : 0 <= k) by apply Z.log2_nonneg.
  destruct (Z.eq_dec n (2 ^ k)) as [|Hne]; [done|exfalso].
  assert (Hb1 : Z.testbit n k = true) by (apply Z.bit_log2; lia).
  assert (Hb2 : Z.testbit (n - 1) k = true).
  { replace k with (Z.log2 (n - 1)); [apply Z.bit_log2; pose proof (Z.pow_pos_nonneg 2 k); lia|].
    apply Z.log2_unique; [done|]. rewrite Z.pow_succ_r in * by done. lia. }
  assert (Hb : Z.testbit (Z.land n (n - 1)) k = true) by (rewrite Z.land_spec, Hb1, Hb2; done).
  rewrite H0, Z.bits_0 in Hb. done.
Qed.

(** [_aligned] decides alignment exactly: 1 when the size is a power of two
    that divides the address, [BAD_OPERAND_SIZE] when the size is no power of
    two (zero and the 2^32-1 of an illegal length code included),
    [BAD_ADDR_OFFSET] when it is one but does not divide the address. *)
Theorem aligned_exact addr size :
  0 <= size < 2 ^ 32 ->
  (_aligned addr size = 1 <-> exists k, 0 <= k /\ size = 2 ^ k /\ (size | addr)) /\
  (_aligned addr size = BAD_OPERAND_SIZE <-> forall k, 0 <= k -> size <> 2 ^ k) /\
  (_aligned addr size = BAD_ADDR_OFFSET <->
     exists k, 0 <= k /\ size = 2 ^ k /\ ~ (size | addr)).
Proof.
  intros Hs. unfold _aligned, BAD_OPERAND_SIZE, BAD_ADDR_OFFSET.
  destruct (Z.eq_dec size 0) as [->|Hz].
  { assert (Hno : forall k, 0 <= k -> 0 <> 2 ^ k).
    { intros k Hk. pose proof (Z.pow_pos_nonneg 2 k). lia. }
    cbn. (split; [|split]); split; intros H; try discriminate H; try done;
      destruct H as (k & Hk & Ek & _); by apply Hno in Ek. }
  replace (size =? 0) with false by lia. cbn [orb].
  assert (Hu : u32 (size - 1) = size - 1) by (apply Z.mod_small; lia). rewrite Hu.
  destruct (Z.eq_dec (Z.land size (size - 1)) 0) as [E|E]; unfold truthy.
  - rewrite E. cbn [Z.eqb negb]. apply land_pred_power in E as Ek; [|lia].
    set (k := Z.log2 size) in *. assert (Hk : 0 <= k) by apply Z.log2_nonneg.
    assert (Hdiv : Z.land addr (size - 1) = 0 <-> (size | addr)).
    { rewrite Ek. replace (2 ^ k - 1) with (Z.ones k) by (rewrite Z.ones_equiv; lia).
      rewrite Z.land_ones by done. apply Z.mod_divide. pose proof (Z.pow_pos_nonneg 2 k). lia. }
    destruct (Z.eqb_spec (Z.land addr (size - 1)) 0) as [Ea|Ea]; cbn [negb];
      (split; [|split]); split; intros H; try discriminate H; try reflexivity.
    all: first [ exists k; tauto | exfalso; by apply (H k) | destruct H as (j & _ & _ & Hd); tauto ].
  - replace (Z.land size (size - 1) =? 0) with false by lia. cbn [negb].
    assert (Hno : forall k, 0 <= k -> size <> 2 ^ k).
    { intros k Hk ->. by rewrite power_of_two_land in E. }
    (split; [|split]); split; intros H; try discriminate H; try done;
      destruct H as (k & Hk & Ek & _); by apply Hno in Ek.
Qed.

Lemma aligned_exact_witness :
  exists k, 0 <= k /\ 64 = 2 ^ k /\ (64 | 0x1040).
Proof. destruct (aligned_exact 0x1040 64) as [[H _] _]; [lia|]. by apply H. Defined.
