(* ===== verification/CmdHandlers.v ===== *)
(** ocse/cmd.c, the handlers [_handle_afu] runs every cycle and those a client's
    answer calls: they move each entry of the command list from state to state
    until its response is sent.

    The pointer of an event is its address; [upd_event] writes through it.
    [event->client_state] is never assigned after [calloc]: it stays
    [CLIENT_NONE]. *)
From S2P Require Import Prelude Utils Event TlxHost Parms CmdState Cmd.

(** * Shared steps *)

Definition line_offset (addr : Z) : Z := Z.land addr CACHELINE_OFFSET.

Definition set_state (id : addr_t) (s : mem_state) : M unit :=
  upd_event id (fun e => e <| ev_state := s |>).

(** [event->type = CMD_FAILED] with a response code; an interrupt keeps its
    response opcode. *)
Definition fail_event (id : addr_t) (s : mem_state) (resp_opcode : option Z) (resp : Z) : M unit :=
  upd_event id (fun e =>
    e <| ev_state := s |> <| ev_type := CMD_FAILED |>
      <| ev_resp_opcode := default (ev_resp_opcode e) resp_opcode |> <| ev_resp := resp |>).

(** The draws every memory handler starts with; [true] when one of them settled
    the command.  [handle_touch] draws no [allow_derror]. *)
Definition draw_faults (id : addr_t) (resp_opcode : Z) (with_derror : bool) : M bool :=
  retry ← decide_by allow_retry;
  if retry : bool then fail_event id MEM_DONE (Some resp_opcode) 0x02;; mret true
  else
    failed ← decide_by allow_failed;
    if failed : bool then fail_event id MEM_DONE (Some resp_opcode) 0x0e;; mret true
    else
      derror ← (if with_derror then decide_by allow_derror else mret false);
      if derror : bool then fail_event id MEM_DONE (Some resp_opcode) 0x08;; mret true
      else
        pending ← decide_by allow_pending;
        if pending : bool then fail_event id MEM_XLATE_PENDING (Some resp_opcode) 0x04;; mret true
        else mret false.

(** [put_bytes] to the client; a failure drops the client. *)
Definition put_client (i : nat) (msg : list Z) : M unit :=
  c ← the_client i;
  ok ← put_bytes (cl_fd c) msg;
  when_ (negb ok) (upd_client i (client_drop TLX_IDLE_CYCLES CLIENT_NONE)).

(** [client->mem_access = event] *)
Definition set_mem_access (i : nat) (id : addr_t) : M unit :=
  upd_client i (fun c => c <| cl_mem_access := Some id |>).

Definition busy (c : client) : bool :=
  match cl_mem_access c with Some _ => true | None => false end.

(** * Reads *)

(** The 11 bytes of a read request. *)
Definition read_request (event : cmd_event) : list Z :=
  [OCSE_MEMORY_READ] ++ be_bytes 2 (u16 (ev_size event)) ++ be_bytes 8 (ev_addr event).

Definition send_read (i : nat) (event : cmd_event) (n : nat) : M unit :=
  put_client i (take n (read_request event));;
  set_state (ev_id event) MEM_REQUEST;;
  set_mem_access i (ev_id event).

Definition open_read (e : cmd_event) : bool :=
  bool_decide (ev_type e = CMD_READ) && negb (bool_decide (ev_state e = MEM_DONE)) &&
  negb (bool_decide (ev_client_state e = CLIENT_VALID)).

(** Data that has arrived completes the read. *)
Definition finish_read (event : cmd_event) : M unit :=
  when_ (is_op (ev_command event)
           [AFU_CMD_PR_RD_WNITC; AFU_CMD_PR_RD_WNITC_N; AFU_CMD_RD_WNITC; AFU_CMD_RD_WNITC_N])
    (upd_event (ev_id event) (fun e =>
       e <| ev_resp := TLX_RESPONSE_DONE |> <| ev_state := MEM_DONE |>)).

(** The request for a compare-and-swap is sent one byte short; no code sets
    [MEM_CAS_RD]. *)
Definition handle_buffer_write : M unit :=
  o ← find_event open_read;
  match o with
  | None => mret tt
  | Some event =>
      i ← _get_client event;
      match i with
      | None => mret tt
      | Some i =>
          c ← the_client i;
          let idle := bool_decide (ev_state event = MEM_IDLE) in
          faulted ← (if idle && negb (busy c)
                     then draw_faults (ev_id event) TLX_RSP_READ_FAILED true else mret false);
          if faulted : bool then mret tt
          else if bool_decide (ev_state event = MEM_RECEIVED) then finish_read event
          else if bool_decide (ev_state event = MEM_CAS_RD) then send_read i event 10
          else when_ (idle && negb (busy c)) (send_read i event 11)
      end
  end.

(** * Writes *)

(** [afu_tlx_read_cmd_data] always reports success. *)
Definition handle_afu_tlx_cmd_data_read : M unit :=
  o ← find_event (in_state CMD_WRITE MEM_BUFFER);
  match o with
  | None => mret tt
  | Some event =>
      afu ← gets w_event;
      let '(rc, beat, afu) := afu_tlx_read_cmd_data afu in
      modify (fun w => w <| w_event := afu |>);;
      match beat with
      | None => mret tt
      | Some _ =>
          let rest := u32 (ev_size event - ev_dpartial event) in
          let n := if 64 <? rest then 64 else rest in
          data ← lift (copy_at (ev_data event) (ev_dpartial event) (afu_tlx_cdata_bus afu) n);
          upd_event (ev_id event) (fun e =>
            if 64 <? rest
            then e <| ev_data := data |> <| ev_dpartial := u32 (ev_dpartial e + 64) |>
                   <| ev_state := MEM_BUFFER |>
            else e <| ev_data := data |> <| ev_state := MEM_RECEIVED |>)
      end
  end.

(** A partial write takes its bytes at the address's place in the line. *)
Definition write_request (event : cmd_event) : option (list Z) :=
  let offset := if ev_size event <=? 32 then line_offset (ev_addr event) else 0 in
  data ← slice (ev_data event) offset (ev_size event);
  Some ([OCSE_MEMORY_WRITE; Z.shiftr (Z.land (ev_size event) 0x0F00) 8;
         Z.land (ev_size event) 0xFF] ++ be_bytes 8 (ev_addr event) ++ data).

Definition handle_afu_tlx_write_cmd : M unit :=
  o ← find_event (in_state CMD_WRITE MEM_RECEIVED);
  match o with
  | None => mret tt
  | Some event =>
      i ← _get_client event;
      match i with
      | None => mret tt
      | Some i =>
          c ← the_client i;
          if busy c then mret tt
          else
            faulted ← draw_faults (ev_id event) TLX_RSP_WRITE_FAILED true;
            if faulted : bool then mret tt
            else
              msg ← lift (write_request event);
              put_client i msg;;
              set_state (ev_id event) DMA_MEM_RESP;;
              modify (fun w => w <| w_buffer_read := None |>);;
              set_mem_access i (ev_id event)
      end
  end.

(** * Byte-enabled writes and atomic operations *)

Definition amo_ready (e : cmd_event) : bool :=
  (bool_decide (ev_type e = CMD_WR_BE) || bool_decide (ev_type e = CMD_AMO_WR) ||
   bool_decide (ev_type e = CMD_AMO_RW) || bool_decide (ev_type e = CMD_AMO_RD)) &&
  bool_decide (ev_state e = MEM_RECEIVED).

Definition wr_be_request (event : cmd_event) : option (list Z) :=
  data ← slice (ev_data event) 0 (ev_size event);
  Some ([OCSE_WR_BE] ++ be_bytes 2 (u16 (ev_size event)) ++ be_bytes 8 (ev_addr event) ++
        be_bytes 8 (ev_wr_be event) ++ data).

Definition amo_header (opcode : Z) (event : cmd_event) : list Z :=
  [opcode; u8 (ev_size event)] ++ be_bytes 8 (ev_addr event) ++
  [ev_cmd_flag event; ev_cmd_endian event].

Definition amo_request (event : cmd_event) : option (list Z) :=
  match ev_type event with
  | CMD_WR_BE => wr_be_request event
  | CMD_AMO_WR | CMD_AMO_RW =>
      data ← slice (ev_data event) (line_offset (ev_addr event)) 16;
      let opcode := if bool_decide (ev_type event = CMD_AMO_WR) then OCSE_AMO_WR else OCSE_AMO_RW in
      Some (amo_header opcode event ++ data)
  | _ => Some (amo_header OCSE_AMO_RD event)
  end.

(** The state stays [MEM_RECEIVED] until the client answers. *)
Definition handle_write_be_or_amo : M unit :=
  o ← find_event amo_ready;
  match o with
  | None => mret tt
  | Some event =>
      i ← _get_client event;
      match i with
      | None => mret tt
      | Some i =>
          c ← the_client i;
          if busy c then mret tt
          else
            let reads := bool_decide (ev_type event = CMD_AMO_RD) ||
                         bool_decide (ev_type event = CMD_AMO_RW) in
            faulted ← draw_faults (ev_id event)
                        (if reads then TLX_RSP_READ_FAILED else TLX_RSP_WRITE_FAILED) true;
            if faulted : bool then mret tt
            else
              msg ← lift (amo_request event);
              put_client i msg;;
              set_mem_access i (ev_id event)
      end
  end.

(** * Completion of a pending response *)

(** The first event in [MEM_PENDING_SENT] at which no reordering is drawn. *)
Fixpoint find_pending (l : list cmd_event) : M (option cmd_event) :=
  match l with
  | [] => mret None
  | e :: l =>
      if bool_decide (ev_state e = MEM_PENDING_SENT) then
        r ← decide_by allow_reorder;
        if negb r then mret (Some e) else find_pending l
      else find_pending l
  end.

(** [intrp_rdy] for the interrupt opcodes, [xlate_done] for the others. *)
Definition done_opcode (command : Z) : Z :=
  if (AFU_CMD_INTRP_REQ <=? command) && (command <=? AFU_CMD_WAKE_HOST_THRD_S)
  then TLX_CMD_INTRP_RDY else TLX_CMD_XLATE_DONE.

Definition send_done (event : cmd_event) (resp : Z) : M unit :=
  afu ← gets w_event;
  let '(rc, afu) := tlx_afu_send_posted_cmd afu (done_opcode (ev_command event))
                      (u16 (ev_afutag event)) resp in
  modify (fun w => w <| w_event := afu |>);;
  when_ (rc =? TLX_SUCCESS) (free_event (ev_id event)).

Definition handle_xlate_intrp_pending_sent : M unit :=
  l ← gets w_list;
  o ← find_pending l;
  match o with
  | None => mret tt
  | Some event =>
      i ← _get_client event;
      match i with
      | None => mret tt
      | Some i =>
          retry ← decide_by allow_retry;
          failed ← (if retry : bool then mret false else decide_by allow_failed);
          let resp := if retry : bool then 0x02 else if failed : bool then 0x0f else 0 in
          upd_event (ev_id event) (fun e => e <| ev_resp := resp |>);;
          if failed : bool then mret tt else send_done event resp
      end
  end.

(** * Touches *)

(** The loop compares [event->type], an [enum cmd_type], with command opcodes. *)
Fixpoint find_touch (l : list cmd_event) : M (option cmd_event) :=
  match l with
  | [] => mret None
  | e :: l =>
      if ((cmd_type_int (ev_type e) =? AFU_CMD_XLATE_TOUCH) ||
          (cmd_type_int (ev_type e) =? AFU_CMD_XLATE_TOUCH_N)) &&
         bool_decide (ev_state e = MEM_IDLE)
      then
        if negb (bool_decide (ev_client_state e = CLIENT_VALID)) then mret (Some e)
        else
          r ← decide_by allow_reorder;
          if negb r then mret (Some e) else find_touch l
      else find_touch l
  end.

Definition touch_request (event : cmd_event) : list Z :=
  [OCSE_MEMORY_TOUCH] ++ be_bytes 8 (ev_addr event) ++
  [ev_cmd_flag event; ev_cmd_pg_size event].

Definition handle_touch : M unit :=
  l ← gets w_list;
  o ← find_touch l;
  match o with
  | None => mret tt
  | Some event =>
      i ← _get_client event;
      match i with
      | None => mret tt
      | Some i =>
          c ← the_client i;
          if busy c then mret tt
          else
            faulted ← draw_faults (ev_id event) TLX_RSP_TOUCH_RESP false;
            if faulted : bool then mret tt
            else
              put_client i (touch_request event);;
              set_state (ev_id event) MEM_TOUCH;;
              set_mem_access i (ev_id event)
      end
  end.

(** * Interrupts *)

Definition open_interrupt (e : cmd_event) : bool :=
  (bool_decide (ev_type e = CMD_INTERRUPT) || bool_decide (ev_type e = CMD_WAKE_HOST_THRD)) &&
  (bool_decide (ev_state e = MEM_IDLE) || bool_decide (ev_state e = MEM_RECEIVED)).

(** A pending response is not given to a [wake_host_thread], a data error only
    to an interrupt with data. *)
Definition draw_int_faults (event : cmd_event) : M bool :=
  let id := ev_id event in
  retry ← decide_by allow_int_retry;
  if retry : bool then fail_event id MEM_DONE None 0x02;; mret true
  else
    failed ← decide_by allow_int_failed;
    if failed : bool then fail_event id MEM_DONE None 0x0e;; mret true
    else
      pending ← (if bool_decide (ev_type event = CMD_WAKE_HOST_THRD) then mret false
                 else decide_by allow_int_pending);
      if pending : bool then fail_event id MEM_INT_PENDING None 0x04;; mret true
      else
        derror ← (if ev_command event =? AFU_CMD_INTRP_REQ_D then decide_by allow_int_derror
                  else mret false);
        if derror : bool then fail_event id MEM_DONE None 0x08;; mret true
        else mret false.

(** The message is built in [buffer[45]]: address and size in the host's byte
    order. *)
Definition interrupt_request (event : cmd_event) : option (list Z) :=
  let with_data := ev_command event =? AFU_CMD_INTRP_REQ_D in
  let opcode :=
    if bool_decide (ev_type event = CMD_WAKE_HOST_THRD) then OCSE_WAKE_HOST_THREAD
    else if with_data then OCSE_INTERRUPT_D else OCSE_INTERRUPT in
  let head := [opcode; ev_cmd_flag event] ++ le_bytes 8 (ev_addr event) in
  if with_data then
    data ← slice (ev_data event) (line_offset (ev_addr event)) (ev_size event);
    defined (12 + ev_size event <=? 45);
    Some (head ++ le_bytes 2 (u16 (ev_size event)) ++ data)
  else Some head.

(** The response is due at once: no answer of the client is awaited. *)
Definition handle_interrupt : M unit :=
  o ← find_event open_interrupt;
  match o with
  | None => mret tt
  | Some event =>
      i ← _get_client event;
      match i with
      | None => mret tt
      | Some i =>
          faulted ← draw_int_faults event;
          if faulted : bool then mret tt
          else
            msg ← lift (interrupt_request event);
            put_client i msg;;
            set_state (ev_id event) MEM_DONE
      end
  end.

(** * The client's answers *)

(** [_handle_mem_read]: the data of a read or an atomic read is taken off the
    client's socket [s]. *)
Definition _handle_mem_read (fuel : nat) (abort : bool) (id : addr_t) (s : stream) : M stream :=
  event ← get_event id;
  let offset := line_offset (ev_addr event) in
  let amo := bool_decide (ev_type event = CMD_AMO_RD) || bool_decide (ev_type event = CMD_AMO_RW) in
  if bool_decide (ev_type event = CMD_READ) || amo then
    match get_bytes_silent fuel abort (i32 (ev_size event)) s with
    | GetRunning => running
    | GetFailed => fail_event id MEM_DONE None 0x0e;; mret s
    | GotBytes data s =>
        buf ← lift (copy_at (ev_data event) offset data (ev_size event));
        upd_event id (fun e =>
          e <| ev_data := buf |> <| ev_state := if amo then MEM_DONE else MEM_RECEIVED |>);;
        mret s
    end
  else mret s.

(** The page address and the row of the cache it belongs to. *)
Definition _calc_index (p : pages) (addr : Z) : Z * Z :=
  let addr := Z.land addr (pg_page_filter p) in
  (addr, Z.shiftr (Z.land addr (pg_entry_filter p)) PAGE_ADDR_BITS).

(** The locals of [_update_age] and the row of ages. *)
Record age_scan := AgeScan {
  as_ages : list Z; as_set : bool; as_age : Z; as_oldest : nat; as_empty : nat }.

(** One turn of the loop on way [i]. *)
Definition age_step (entries valids : list Z) (addr : Z) (sc : age_scan) (i : nat)
    : option age_scan :=
  entry ← entries !! i;
  valid ← valids !! i;
  a ← as_ages sc !! i;
  defined (a <? 2 ^ 31 - 1);
  let sc :=
    if truthy valid && negb (entry =? addr) then
      AgeScan (<[i := a + 1]> (as_ages sc)) (as_set sc)
        (if as_age sc <? a + 1 then a + 1 else as_age sc)
        (if as_age sc <? a + 1 then i else as_oldest sc) (as_empty sc)
    else sc in
  let sc :=
    if negb (truthy valid) && (as_empty sc =? PAGE_WAYS)%nat
    then AgeScan (as_ages sc) (as_set sc) (as_age sc) (as_oldest sc) i else sc in
  Some (if truthy valid && (entry =? addr)
        then AgeScan (<[i := 0]> (as_ages sc)) true (as_age sc) (as_oldest sc) (as_empty sc)
        else sc).

Fixpoint age_scan_loop (entries valids : list Z) (addr : Z) (ways : list nat) (sc : age_scan)
    : option age_scan :=
  match ways with
  | [] => Some sc
  | i :: ways => sc ← age_step entries valids addr sc i; age_scan_loop entries valids addr ways sc
  end.

(** One row after an access: the ways' entries, ages and valid bits. *)
Definition update_row (entries ages valids : list Z) (addr : Z)
    : option (list Z * list Z * list Z) :=
  sc ← age_scan_loop entries valids addr (seq 0 PAGE_WAYS) (AgeScan ages false 0 0 PAGE_WAYS);
  if as_set sc then Some (entries, as_ages sc, valids)
  else
    let way := if (as_empty sc <? PAGE_WAYS)%nat then as_empty sc else as_oldest sc in
    Some (<[way := addr]> entries, <[way := 0]> (as_ages sc), <[way := 1]> valids).

Definition update_pages (p : pages) (addr : Z) : option pages :=
  let '(addr, index) := _calc_index p addr in
  let index := Z.to_nat index in
  entries ← pg_entry p !! index;
  ages ← pg_age p !! index;
  valids ← pg_valid p !! index;
  '(entries, ages, valids) ← update_row entries ages valids addr;
  Some (Pages (<[index := entries]> (pg_entry p)) (pg_entry_filter p) (pg_page_filter p)
          (<[index := ages]> (pg_age p)) (<[index := valids]> (pg_valid p))).

Definition _update_age (addr : Z) : M unit :=
  p ← gets w_pages;
  p ← lift (update_pages p addr);
  modify (fun w => w <| w_pages := p |>).

(** The rest of the acknowledgement, on the type [_handle_mem_read] leaves: after
    an atomic read, [event->size] goes back to a length code. *)
Definition mem_returned (fuel : nat) (abort : bool) (id : addr_t) (s : stream) : M stream :=
  event ← get_event id;
  match ev_type event with
  | CMD_WRITE => set_state id MEM_DONE;; mret s
  | CMD_AMO_RD | CMD_AMO_RW =>
      s ← _handle_mem_read fuel abort id s;
      upd_event id (fun e => e <| ev_size := if ev_size e =? 4 then 2 else 3 |>);;
      mret s
  | CMD_TOUCH => set_state id MEM_DONE;; mret s
  | _ =>
      set_state id (if bool_decide (ev_state event = MEM_TOUCH) then MEM_TOUCHED else MEM_DONE);;
      mret s
  end.

Definition handle_mem_return (fuel : nat) (id : addr_t) (s : stream) : M stream :=
  event ← get_event id;
  i ← _get_client event;
  match i with
  | None => mret s
  | Some i =>
      c ← the_client i;
      let abort := truthy (cl_abort c) in
      _update_age (ev_addr event);;
      s ← (if bool_decide (ev_type event = CMD_READ) then _handle_mem_read fuel abort id s
           else mret s);
      mem_returned fuel abort id s
  end.

Definition handle_aerror (id : addr_t) : M unit :=
  event ← get_event id;
  fail_event id MEM_DONE None 0x0e.

(** * Responses *)

Definition resp_due (e : cmd_event) : bool :=
  bool_decide (ev_state e = MEM_DONE) || bool_decide (ev_state e = MEM_XLATE_PENDING) ||
  bool_decide (ev_state e = MEM_INT_PENDING).

(** The next part of a response longer than the host's line. *)
Definition next_part (host_CL : Z) (e : cmd_event) : cmd_event :=
  if host_CL <? ev_size e then
    let e := if truthy (ev_resp_bytes_sent e)
             then e <| ev_resp_dp := if host_CL =? 128 then 2 else u32 (ev_resp_dp e + 1) |>
             else e in
    e <| ev_resp_dl := size_to_dl (i16 host_CL) |>
      <| ev_resp_bytes_sent := u16 (ev_resp_bytes_sent e + host_CL) |>
  else e.

Definition is_full_read (e : cmd_event) : bool :=
  is_op (ev_command e) [AFU_CMD_RD_WNITC; AFU_CMD_RD_WNITC_N].
Definition is_full_write (e : cmd_event) : bool :=
  is_op (ev_command e) [AFU_CMD_DMA_W; AFU_CMD_DMA_W_N].
Definition resp_with_data (e : cmd_event) : bool :=
  is_op (ev_command e)
    [AFU_CMD_PR_RD_WNITC; AFU_CMD_PR_RD_WNITC_N; AFU_CMD_AMO_RD; AFU_CMD_AMO_RD_N;
     AFU_CMD_AMO_RW; AFU_CMD_AMO_RW_N; AFU_CMD_RD_WNITC; AFU_CMD_RD_WNITC_N].

(** The arguments of the interface call are narrower than the fields. *)
Definition event_resp (e : cmd_event) (code : Z) : tlx_resp :=
  TlxResp (u8 (ev_resp_opcode e)) (u16 (ev_afutag e)) (u8 code) 0 (u8 (ev_resp_dl e))
    (u8 (ev_resp_dp e)) 0.

Definition send_resp (e : cmd_event) : M Z :=
  afu ← gets w_event;
  let '(rc, afu) := tlx_afu_send_resp afu (event_resp e (ev_resp e)) in
  modify (fun w => w <| w_event := afu |>);; mret rc.

Definition send_resp_and_data (e : cmd_event) : M Z :=
  bdi ← decide_by allow_bdi_resp_err;
  afu ← gets w_event;
  '(rc, afu) ← lift (tlx_afu_send_resp_and_data afu (event_resp e 0) (bool_int bdi) (ev_data e));
  modify (fun w => w <| w_event := afu |>);; mret rc.

(** The part is chosen before the send, and only the byte count is taken back
    when the send does not happen. *)
Definition drive_resp (host_CL : Z) (event : cmd_event) : M Z :=
  if bool_decide (ev_type event = CMD_FAILED) then send_resp event
  else
    let split := if resp_with_data event then is_full_read event else is_full_write event in
    when_ split (upd_event (ev_id event) (next_part host_CL));;
    event ← get_event (ev_id event);
    if resp_with_data event then send_resp_and_data event else send_resp event.

Definition handle_response : M unit :=
  o ← find_event resp_due;
  match o with
  | None => mret tt
  | Some event =>
      i ← _get_client event;
      match i with
      | None => mret tt
      | Some _ =>
          host_CL ← gets w_host_CL_size;
          rc ← drive_resp host_CL event;
          event ← get_event (ev_id event);
          if rc =? TLX_SUCCESS then
            if bool_decide (ev_state event = MEM_XLATE_PENDING) ||
               bool_decide (ev_state event = MEM_INT_PENDING)
            then set_state (ev_id event) MEM_PENDING_SENT
            else if (0 <? ev_resp_bytes_sent event) &&
                    negb (ev_resp_bytes_sent event =? ev_size event)
            then mret tt
            else free_event (ev_id event)
          else
            when_ (truthy (ev_resp_bytes_sent event))
              (upd_event (ev_id event) (fun e =>
                 e <| ev_resp_bytes_sent := u16 (ev_resp_bytes_sent e - host_CL) |>))
      end
  end.

(** * Clients that leave *)

(** [client_cmd]: 1 when the client is valid and has an event; the events of a
    dropped client are ended. *)
Fixpoint client_cmd_list (c : client) (l : list cmd_event) : Z * list cmd_event :=
  match l with
  | [] => (0, [])
  | e :: l =>
      if negb (ev_context e =? cl_context c) then
        let '(rc, l) := client_cmd_list c l in (rc, e :: l)
      else if bool_decide (cl_state c = CLIENT_NONE) && negb (bool_decide (ev_state e = MEM_DONE))
      then
        let e := if bool_decide (ev_type e = CMD_READ) || bool_decide (ev_type e = CMD_WRITE) ||
                    bool_decide (ev_type e = CMD_TOUCH)
                 then e <| ev_resp := TLX_RESPONSE_FAILED |> else e in
        let '(rc, l) := client_cmd_list c l in (rc, e <| ev_state := MEM_DONE |> :: l)
      else if bool_decide (cl_state c = CLIENT_VALID) then (1, e :: l)
      else let '(rc, l) := client_cmd_list c l in (rc, e :: l)
  end.

Definition client_cmd (c : client) : M Z :=
  l ← gets w_list;
  let '(rc, l) := client_cmd_list c l in
  modify (fun w => w <| w_list := l |>);; mret rc.

(** * Touches are never found *)

(** No entry's type is equal to a command opcode: no touch is ever found. *)
Lemma find_touch_none l w : find_touch l w = Done None w.
Proof.
  induction l as [|e l IH]; cbn; [done|].
  replace (_ || _) with false; [done|]. by destruct (ev_type e).
Qed.

Lemma handle_touch_idle w : handle_touch w = Done tt w.
Proof.
  unfold handle_touch, mbind, ST_bind. cbn. by rewrite find_touch_none.
Qed.

(** a touch is never sent to a client: the search compares the entry's type,
    a small enumeration value, with the touch opcodes, so [handle_touch] finds
    nothing in any list and does nothing. *)
Theorem touch_is_never_sent w : find_touch (w_list w) w = Done None w /\ handle_touch w = Done tt w.
Proof. split; [apply find_touch_none|apply handle_touch_idle]. Qed.
