(* ===== verification/CmdFrame.v ===== *)
(** What the command component leaves alone: no operation of ocse/cmd.c touches
    the MMIO component, and of a client it keeps everything but the fields of its
    own. *)
From S2P Require Import Prelude Utils Event TlxHost Parms CmdState Cmd CmdHandlers.

(** A client before and after: the pointer to its MMIO access is kept or
    cleared. *)
Definition client_frame (c c' : client) : Prop :=
  cl_context c' = cl_context c /\ cl_fcn c' = cl_fcn c /\ cl_afuid c' = cl_afuid c /\
  (cl_mmio_access c' = cl_mmio_access c \/ cl_mmio_access c' = None).

Record cmd_frame (w w' : world) : Prop := CmdFrame {
  cf_mmio : w_mmio w' = w_mmio w;
  cf_max : w_max_clients w' = w_max_clients w;
  cf_client : forall i c', w_clients w' !! i = Some (Some c') ->
    exists c, w_clients w !! i = Some (Some c) /\ client_frame c c';
}.

#[export] Instance client_frame_preorder : PreOrder client_frame.
Proof.
  split; [intros c; split_and!; auto|].
  intros a b c (H1 & H2 & H3 & H4) (H5 & H6 & H7 & H8). split_and!; try congruence.
  destruct H8 as [-> | ->]; auto.
Qed.

#[export] Instance cmd_frame_preorder : PreOrder cmd_frame.
Proof.
  split.
  - intros w. constructor; [done|done|]. intros i c Hc. by exists c.
  - intros a b c [H1 M1 H2] [H3 M3 H4]. constructor; [congruence|congruence|].
    intros i c' Hc'. destruct (H4 i c' Hc') as (c1 & Hc1 & F1).
    destruct (H2 i c1 Hc1) as (c0 & Hc0 & F0). exists c0. split; [done|]. by etrans.
Qed.

(** The worlds that differ elsewhere. *)
Lemma cmd_frame_same w w' :
  w_mmio w' = w_mmio w -> w_max_clients w' = w_max_clients w -> w_clients w' = w_clients w -> cmd_frame w w'.
Proof. intros Hm Hx Hc. constructor; [done|done|]. intros i c. rewrite Hc. by exists c. Qed.

Lemma frame_modify (f : world -> world) :
  (forall w, w_mmio (f w) = w_mmio w) -> (forall w, w_max_clients (f w) = w_max_clients w) ->
  (forall w, w_clients (f w) = w_clients w) -> framed cmd_frame (modify f).
Proof. intros Hm Hx Hc. apply framed_modify. intros w. by apply cmd_frame_same. Qed.

Lemma frame_upd_client i f :
  (forall c, client_frame c (f c)) -> framed cmd_frame (upd_client i f).
Proof.
  intros Hf. apply framed_modify. intros w. constructor; [done|done|]. intros j c'. cbn.
  destruct (decide (j = i)) as [->|Hj].
  - rewrite list_lookup_alter_eq. destruct (w_clients w !! i) as [[c|]|]; try done.
    intros [= <-]. by exists c.
  - rewrite list_lookup_alter_ne by done. by exists c'.
Qed.

Lemma frame_decide allow : framed cmd_frame (decide_by allow).
Proof.
  intros w b w'. unfold decide_by. destruct (allow _ _) as [[r ds]|]; [|done].
  intros [= _ <-]. by apply cmd_frame_same.
Qed.

Lemma frame_get_event id : framed cmd_frame (get_event id).
Proof. intros w e w'. unfold get_event. destruct (find _ _); [|done]. by intros [= _ <-]. Qed.

Lemma frame_put_bytes fd l : framed cmd_frame (put_bytes fd l).
Proof.
  intros w b w'. unfold put_bytes. destruct (w_put_ok w) as [|[] oks]; intros [= _ <-];
    by apply cmd_frame_same.
Qed.

Create HintDb frame discriminated.
#[export] Hint Constants Opaque : frame.

(** Steps on the entries, the interface, the draws and the sockets. *)
Ltac frame_leaf :=
  first [ solve [eauto 1 with frame]
        | apply frame_modify; [reflexivity|reflexivity|reflexivity]
        | apply frame_upd_client; intros; split_and!; cbn; auto
        | apply frame_decide | apply frame_get_event | apply frame_put_bytes ].
Ltac frame := frames ltac:(frame_leaf).

Section operations.
Local Notation fr m := (framed cmd_frame m).

Lemma frame_upd_event id f : fr (upd_event id f).
Proof. unfold upd_event. frame. Qed.
Lemma frame_free_event id : fr (free_event id).
Proof. unfold free_event. frame. Qed.
Lemma frame_find_event p : fr (find_event p).
Proof. unfold find_event. frame. Qed.
Lemma frame_the_client i : fr (the_client i).
Proof. unfold the_client. frame. Qed.
Lemma frame_get_client e : fr (_get_client e).
Proof. unfold _get_client. frame. Qed.
Hint Resolve frame_upd_event frame_free_event frame_find_event frame_the_client frame_get_client : frame.

Lemma frame_put_client i l : fr (put_client i l).
Proof. unfold put_client. frame. Qed.
Lemma frame_set_mem_access i id : fr (set_mem_access i id).
Proof. unfold set_mem_access. frame. Qed.
Lemma frame_set_state id s : fr (set_state id s).
Proof. unfold set_state. frame. Qed.
Lemma frame_fail_event id s o r : fr (fail_event id s o r).
Proof. unfold fail_event. frame. Qed.
Hint Resolve frame_put_client frame_set_mem_access frame_set_state frame_fail_event : frame.

Lemma frame_draw_faults id o d : fr (draw_faults id o d).
Proof. unfold draw_faults. frame. Qed.
Lemma frame_draw_int_faults e : fr (draw_int_faults e).
Proof. unfold draw_int_faults. frame. Qed.
Hint Resolve frame_draw_faults frame_draw_int_faults : frame.

(** ** Commands in *)

Lemma frame_insert_event e l : fr (insert_event e l).
Proof. induction l; cbn [insert_event]; frame. Qed.
Lemma frame_store_data id n : fr (store_data id n).
Proof. unfold store_data. frame. Qed.
Hint Resolve frame_insert_event frame_store_data : frame.

Lemma frame_take_data id n : fr (take_data id n).
Proof. unfold take_data, _incoming_data_expected. frame. Qed.
Hint Resolve frame_take_data : frame.

Lemma frame_add_cmd a b c d e f g h i j k l m n : fr (_add_cmd a b c d e f g h i j k l m n).
Proof. unfold _add_cmd. frame. Qed.
Lemma frame_by_actag a : fr (_find_client_by_actag a).
Proof. unfold _find_client_by_actag. frame. Qed.
Lemma frame_by_pasid a b : fr (_find_client_by_pasid_and_bdf a b).
Proof. unfold _find_client_by_pasid_and_bdf. frame. Qed.
Hint Resolve frame_add_cmd frame_by_actag frame_by_pasid : frame.

Lemma frame_add_fail a b c d e : fr (_add_fail a b c d e).
Proof. unfold _add_fail. frame. Qed.
Hint Resolve frame_add_fail : frame.

Lemma frame_parse_cmd c b : fr (_parse_cmd c b).
Proof.
  unfold _parse_cmd, keep_data, _assign_actag, _add_read, _add_write, _add_amo, _add_interrupt,
    _add_xlate_touch. frame.
Qed.
Hint Resolve frame_parse_cmd : frame.

Lemma frame_handle_cmd : fr handle_cmd.
Proof. unfold handle_cmd. frame. Qed.

(** ** The handlers *)

Lemma frame_buffer_write : fr handle_buffer_write.
Proof. unfold handle_buffer_write, finish_read, send_read. frame. Qed.
Lemma frame_data_read : fr handle_afu_tlx_cmd_data_read.
Proof. unfold handle_afu_tlx_cmd_data_read. frame. Qed.
Lemma frame_write_cmd : fr handle_afu_tlx_write_cmd.
Proof. unfold handle_afu_tlx_write_cmd. frame. Qed.
Lemma frame_write_be_or_amo : fr handle_write_be_or_amo.
Proof. unfold handle_write_be_or_amo. frame. Qed.
Lemma frame_find_pending l : fr (find_pending l).
Proof. induction l; cbn [find_pending]; frame. Qed.
Hint Resolve frame_find_pending : frame.
Lemma frame_pending_sent : fr handle_xlate_intrp_pending_sent.
Proof. unfold handle_xlate_intrp_pending_sent, send_done. frame. Qed.
Lemma frame_touch : fr handle_touch.
Proof. intros w x w'. rewrite handle_touch_idle. by intros [= _ <-]. Qed.
Lemma frame_interrupt : fr handle_interrupt.
Proof. unfold handle_interrupt. frame. Qed.
Lemma frame_response : fr handle_response.
Proof.
  unfold handle_response, drive_resp, send_resp, send_resp_and_data. frame.
Qed.

(** ** Answers and clients that leave *)

Lemma frame_mem_read fuel a id s : fr (_handle_mem_read fuel a id s).
Proof. unfold _handle_mem_read. frame. Qed.
Hint Resolve frame_mem_read : frame.
Lemma frame_mem_returned fuel a id s : fr (mem_returned fuel a id s).
Proof. unfold mem_returned. frame. Qed.
Lemma frame_update_age a : fr (_update_age a).
Proof. unfold _update_age. frame. Qed.
Hint Resolve frame_mem_returned frame_update_age : frame.
Lemma frame_mem_return fuel id s : fr (handle_mem_return fuel id s).
Proof. unfold handle_mem_return. frame. Qed.
Lemma frame_aerror id : fr (handle_aerror id).
Proof. unfold handle_aerror. frame. Qed.
Lemma frame_client_cmd c : fr (client_cmd c).
Proof. unfold client_cmd. frame. Qed.
End operations.

#[export] Hint Resolve frame_upd_event frame_find_event frame_the_client frame_get_client
  frame_put_client frame_handle_cmd frame_buffer_write frame_data_read frame_write_cmd
  frame_write_be_or_amo frame_pending_sent frame_touch frame_interrupt frame_response
  frame_mem_return frame_aerror frame_client_cmd : frame.
