(* ===== verification/CmdLogic.v ===== *)
(** The program logic of Monad.v for the operations of CmdState.v: draws,
    messages to clients, and the entries of the command list. *)
From S2P Require Import Prelude Utils Event Parms CmdState Cmd CmdHandlers.

(** The parameters a decision asks for have a value. *)
Record parms_set (p : parms) : Prop := ParmsSet {
  ps_retry : is_Some (retry_percent p); ps_failed : is_Some (failed_percent p);
  ps_derror : is_Some (derror_percent p); ps_pending : is_Some (pending_percent p);
  ps_int_retry : is_Some (int_retry_percent p); ps_int_failed : is_Some (int_failed_percent p);
  ps_int_derror : is_Some (int_derror_percent p); ps_int_pending : is_Some (int_pending_percent p);
  ps_bdi : is_Some (bdi_resp_err_percent p); ps_reorder : is_Some (reorder_percent p);
}.

Lemma wp_decide chance Q w :
  is_Some (chance (w_parms w)) ->
  (forall b ds, Q b (w <| w_draws := ds |>)) ->
  wp (decide_by (fun p => percent_chance (chance p))) Q w.
Proof.
  intros [c Hc] HQ. unfold wp, decide_by, percent_chance. rewrite Hc. cbn.
  destruct (rand (w_draws w)) as [r ds]. apply HQ.
Qed.

Lemma wp_put_bytes fd l (Q : bool -> world -> Prop) w :
  (forall oks, Q true (w <| w_puts := w_puts w ++ [(fd, l)] |> <| w_put_ok := oks |>)) ->
  (forall oks, Q false (w <| w_put_ok := oks |>)) -> wp (put_bytes fd l) Q w.
Proof.
  intros Ht Hf. unfold wp, put_bytes. destruct (w_put_ok w) as [|[] oks] eqn:E; [|done..].
  specialize (Ht []). by rewrite <- E in Ht.
Qed.

(** * Events of the list *)

Lemma find_event_in p (l : list cmd_event) e : find p l = Some e -> e ∈ l /\ p e = true.
Proof.
  intros H. apply find_some in H as [H1 H2]. split; [|done]. by apply list_elem_of_In.
Qed.

(** The identifiers are unique. *)
Definition ids (l : list cmd_event) : list addr_t := map ev_id l.
Arguments ids : simpl never.

Lemma find_id (l : list cmd_event) e :
  NoDup (ids l) -> e ∈ l -> find (fun e' => (ev_id e' =? ev_id e)%nat) l = Some e.
Proof.
  unfold ids. induction l as [|x l IH]; cbn; intros Hn He; [by apply not_elem_of_nil in He|].
  apply list_relations.list.NoDup_cons in Hn as [Hx Hn]. apply elem_of_cons in He as [-> | He].
  - by rewrite Nat.eqb_refl.
  - destruct (Nat.eqb_spec (ev_id x) (ev_id e)) as [E|_]; [|by apply IH].
    exfalso. apply Hx. rewrite E. unfold ids. by apply list_elem_of_fmap_2.
Qed.

Lemma wp_get_event e (Q : cmd_event -> world -> Prop) w :
  NoDup (ids (w_list w)) -> e ∈ w_list w -> Q e w -> wp (get_event (ev_id e)) Q w.
Proof. intros Hn He HQ. unfold wp, get_event. by rewrite find_id. Qed.

(** What writing through a pointer does to the list. *)
Definition upd_list (id : addr_t) (f : cmd_event -> cmd_event) (l : list cmd_event) :=
  map (fun e => if (ev_id e =? id)%nat then f e else e) l.

Definition keeps_id (f : cmd_event -> cmd_event) : Prop := forall e, ev_id (f e) = ev_id e.

Lemma ids_upd id f l : keeps_id f -> ids (upd_list id f l) = ids l.
Proof.
  intros Hf. unfold ids, upd_list. rewrite map_map. apply map_ext. intros e.
  by case_match.
Qed.

Lemma elem_of_upd id f (l : list cmd_event) e :
  e ∈ upd_list id f l ->
  (exists e0, e0 ∈ l /\ ev_id e0 = id /\ e = f e0) \/ (e ∈ l /\ ev_id e <> id).
Proof.
  intros (e0 & -> & He)%list_elem_of_fmap. destruct (Nat.eqb_spec (ev_id e0) id); eauto.
Qed.
