(* ===== verification/CmdInv.v ===== *)
(** The invariant of the command component: what holds of every entry of the
    command list, of the pointers the clients keep into it, and of the rest of
    the state; and how each kind of change keeps it. *)
From S2P Require Import Prelude Utils Event TlxHost TlxAfu TlxApi Parms.
From S2P Require Import CmdState Cmd CmdHandlers CmdLogic.

(** * Entries *)

(** The part of a response that is sent next, as [dl] and [dp]: the whole line,
    or a part no longer than the host's line. *)
Definition part_ok (host_CL size dl dp : Z) : Prop :=
  (size <= 64 /\ dl = 1 /\ dp = 0) \/
  (64 < size /\ (dl = 2 \/ dl = 3) /\ dp = 0) \/
  (host_CL = 64 /\ 64 < size /\ dl = 1) \/
  (host_CL = 128 /\ 128 < size /\ dl = 2 /\ dp = 2).

Record ev_ok (host_CL : Z) (e : cmd_event) : Prop := EvOk {
  eo_data : is_array 256 (ev_data e);
  eo_size : 0 <= ev_size e <= 256;
  eo_line : 64 < ev_size e -> line_offset (ev_addr e) = 0;
  eo_intrp : ev_command e = AFU_CMD_INTRP_REQ_D -> ev_size e <= 32;
  eo_amo : ev_type e = CMD_AMO_RD \/ ev_type e = CMD_AMO_RW -> ev_size e <= 8;
  eo_partial : 0 <= ev_dpartial e <= ev_size e /\ (ev_size e <= 64 -> ev_dpartial e = 0);
  eo_part : part_ok host_CL (ev_size e) (ev_resp_dl e) (ev_resp_dp e);
  eo_context : 0 <= ev_context e;
  eo_client : ev_client_state e = CLIENT_NONE;
  eo_cas : ev_state e <> MEM_CAS_RD;
}.

Definition amo_type (t : cmd_type) : bool :=
  match t with CMD_WR_BE | CMD_AMO_WR | CMD_AMO_RW | CMD_AMO_RD => true | _ => false end.

(** A request for the entry is at its client and unanswered. *)
Definition in_flight (e : cmd_event) : bool :=
  match ev_type e, ev_state e with
  | CMD_READ, MEM_REQUEST | CMD_WRITE, DMA_MEM_RESP => true
  | t, MEM_RECEIVED => amo_type t
  | _, _ => false
  end.

(** * The state *)

(** A client that has not left and waits for the entry [id]. *)
Definition waits_for (w : world) (i : nat) (id : addr_t) : Prop :=
  exists c, w_clients w !! i = Some (Some c) /\ cl_state c <> CLIENT_NONE /\
    cl_mem_access c = Some id.

Definition PAGE_FILTER := 2 ^ 64 - 0x1000.
Definition ENTRY_FILTER := 0xF000.

Definition row_shape (rows : list (list Z)) : Prop :=
  length rows = PAGE_ENTRIES /\ Forall (fun r => length r = PAGE_WAYS) rows.

Record pages_ok (p : pages) : Prop := PagesOk {
  po_entry : row_shape (pg_entry p); po_age : row_shape (pg_age p);
  po_valid : row_shape (pg_valid p);
  po_filter : pg_page_filter p = PAGE_FILTER; po_entry_filter : pg_entry_filter p = ENTRY_FILTER;
}.

(** The one command whose length code is not checked: an interrupt with data. *)
Definition legal_intrp (c : afu_cmd) : Prop :=
  ac_opcode c = AFU_CMD_INTRP_REQ_D -> 0 <= ac_pl c <= 5.

(** [inv_for P w]: the invariant, with the clause on client pointers only for
    the clients in [P]. *)
Record inv_for (P : nat -> Prop) (w : world) : Prop := Inv {
  iv_ids : NoDup (ids (w_list w));
  iv_fresh : forall e, e ∈ w_list w -> (ev_id e < w_next w)%nat;
  iv_tags : NoDup (map ev_afutag (w_list w));
  iv_events : forall e, e ∈ w_list w -> ev_ok (w_host_CL_size w) e;
  iv_event : event_wf (w_event w);
  iv_intrp : legal_intrp (get_afu_cmd (w_event w));
  iv_parms : parms_set (w_parms w);
  iv_host : w_host_CL_size w = 64 \/ w_host_CL_size w = 128 \/ w_host_CL_size w = 256;
  iv_max : 0 <= w_max_clients w <= Z.of_nat (length (w_clients w)) /\ w_max_clients w < 2 ^ 31;
  iv_client : forall i c, w_clients w !! i = Some (Some c) -> cl_context c = Z.of_nat i;
  iv_access : forall i id, P i -> waits_for w i id ->
    exists e, e ∈ w_list w /\ ev_id e = id /\ ev_context e = Z.of_nat i /\ in_flight e = true;
  iv_pages : pages_ok (w_pages w);
}.

Definition inv : world -> Prop := inv_for (fun _ => True).

(** * Changes that keep the invariant *)

Definition host_call (c : api_call) : bool :=
  match c with
  | HReadCmdAndData | HReadCmdData | HSendResp _ | HSendRespAndData _ _ _ | HSendPostedCmd _ _ _
  | HSendCmd _ | HSendCmdAndData _ _ _ | HSendCfg _ _ _ | HReadCfgResp _ | HReadResp
  | HReadRespData => true
  | _ => false
  end.

Lemma host_call_cmd c e rc e' :
  host_call c = true -> run_call c e = Some (rc, e') -> get_afu_cmd e' = get_afu_cmd e.
Proof. intros Hc H. destruct c; try discriminate Hc; open_call H; reflexivity. Qed.

Section keep.
Context (P : nat -> Prop).

Lemma inv_draws w ds : inv_for P w -> inv_for P (w <| w_draws := ds |>).
Proof. by intros []. Qed.

Lemma inv_puts w l oks : inv_for P w -> inv_for P (w <| w_puts := l |> <| w_put_ok := oks |>).
Proof. by intros []. Qed.

Lemma inv_mmio w mm : inv_for P w -> inv_for P (w <| w_mmio := mm |>).
Proof. by intros []. Qed.

Lemma inv_ocl w o : inv_for P w -> inv_for P (w <| w_ocl := o |>).
Proof. by intros []. Qed.

Lemma inv_put_ok w oks : inv_for P w -> inv_for P (w <| w_put_ok := oks |>).
Proof. by intros []. Qed.

Lemma inv_buffer_read w o : inv_for P w -> inv_for P (w <| w_buffer_read := o |>).
Proof. by intros []. Qed.

(** The host's calls leave the AFU's command as it is. *)
Definition event_ok (w : world) (afu : AFU_EVENT) : Prop :=
  event_wf afu /\ get_afu_cmd afu = get_afu_cmd (w_event w).

Lemma inv_event w afu : inv_for P w -> event_ok w afu -> inv_for P (w <| w_event := afu |>).
Proof. intros [] [? Hc]. constructor; try done. cbn. by rewrite Hc. Qed.

Lemma host_call_ok c w rc afu :
  inv_for P w -> host_call c = true -> call_ok c -> run_call c (w_event w) = Some (rc, afu) ->
  event_ok w afu.
Proof.
  intros Hinv Hh Hc Hr. split; [eapply run_call_wf; [by eapply iv_event|done|exact Hr]|].
  by eapply host_call_cmd.
Qed.

Lemma cdata_valid_ok w :
  inv_for P w -> event_ok w (w_event w <| afu_tlx_cdata_valid := 1 |>).
Proof. intros Hinv. split; [|done]. apply field_set; [by eapply iv_event|done]. Qed.

Lemma inv_set_pages w p : inv_for P w -> pages_ok p -> inv_for P (w <| w_pages := p |>).
Proof. by intros [] ?. Qed.

(** The entries are replaced one by one, keeping their names. *)
Record same_name (e e' : cmd_event) : Prop := SameName {
  sn_id : ev_id e' = ev_id e; sn_tag : ev_afutag e' = ev_afutag e;
  sn_context : ev_context e' = ev_context e }.

(** A new list of entries, each standing for an old one. *)
Definition replaces (w : world) (e e' : cmd_event) : Prop :=
  same_name e e' /\ ev_ok (w_host_CL_size w) e' /\
  (in_flight e = true ->
   (forall i, P i -> ev_context e = Z.of_nat i -> waits_for w i (ev_id e) -> in_flight e' = true)).

Lemma inv_map w l :
  inv_for P w -> Forall2 (replaces w) (w_list w) l -> inv_for P (w <| w_list := l |>).
Proof.
  intros [] Hl.
  assert (Hids : ids l = ids (w_list w)).
  { unfold ids. clear -Hl. induction Hl as [|x y l l' [[Hi _ _] _] _ IH]; [done|].
    cbn. by rewrite Hi, IH. }
  assert (Htags : map ev_afutag l = map ev_afutag (w_list w)).
  { clear -Hl. induction Hl as [|x y l l' [[_ Ht _] _] _ IH]; [done|]. cbn. by rewrite Ht, IH. }
  constructor; cbn; try done; rewrite ?Hids, ?Htags; try done.
  - intros e' He'. apply list_elem_of_lookup in He' as [k Hk].
    destruct (Forall2_lookup_r _ _ _ _ _ Hl Hk) as (e & He & [Hi _ _] & _).
    rewrite Hi. apply iv_fresh0. by eapply list_elem_of_lookup_2.
  - intros e' He'. apply list_elem_of_lookup in He' as [k Hk].
    by destruct (Forall2_lookup_r _ _ _ _ _ Hl Hk) as (e & He & _ & Hok & _).
  - intros i id Hi Hw. destruct (iv_access0 i id Hi Hw) as (e & He & <- & Hc & Hf).
    apply list_elem_of_lookup in He as [k Hk].
    destruct (Forall2_lookup_l _ _ _ _ _ Hl Hk) as (e' & He' & [Hid _ Hctx] & _ & Hfl).
    exists e'. rewrite Hid, Hctx. split_and!; [by eapply list_elem_of_lookup_2|done|done|].
    by eapply Hfl.
Qed.

Lemma replaces_refl w e : inv_for P w -> e ∈ w_list w -> replaces w e e.
Proof. intros [] He. split_and!; [done|by apply iv_events0|done]. Qed.

(** Writing through the pointer of an entry. *)
Lemma inv_upd w e f :
  inv_for P w -> e ∈ w_list w -> replaces w e (f e) ->
  inv_for P (w <| w_list := upd_list (ev_id e) f (w_list w) |>).
Proof.
  intros Hinv He Hr. apply inv_map; [done|]. unfold upd_list.
  apply Forall2_fmap_r, Forall_Forall2_diag, list_relations.list.Forall_forall.
  intros x Hx. cbn.
  destruct (Nat.eqb_spec (ev_id x) (ev_id e)) as [E|_]; [|by apply replaces_refl].
  replace x with e; [done|].
  pose proof (find_id _ _ (iv_ids _ _ Hinv) He) as H1.
  pose proof (find_id _ _ (iv_ids _ _ Hinv) Hx) as H2. rewrite E in H2. congruence.
Qed.

Lemma inv_free w e :
  inv_for P w -> e ∈ w_list w -> in_flight e = false ->
  inv_for P (w <| w_list := List.filter (fun x => negb (ev_id x =? ev_id e)%nat) (w_list w) |>).
Proof.
  intros Hinv He Hf. pose proof Hinv as [].
  set (l := List.filter _ _).
  assert (Hsub : sublist l (w_list w)).
  { unfold l. clear. induction (w_list w) as [|x xs IH]; cbn; [constructor|].
    case_match; by constructor. }
  assert (Hin : forall x, x ∈ l -> x ∈ w_list w).
  { intros x Hx. by eapply elem_of_sublist. }
  constructor; cbn; try done; eauto.
  - eapply sublist_NoDup; [exact iv_ids0|]. by apply (fmap_sublist ev_id).
  - eapply sublist_NoDup; [exact iv_tags0|]. by apply (fmap_sublist ev_afutag).
  - intros i id Hi Hw. destruct (iv_access0 i id Hi Hw) as (x & Hx & <- & Hc & Hfl).
    exists x. split_and!; try done. unfold l. apply list_elem_of_In, filter_In.
    split; [by apply list_elem_of_In|]. apply negb_true_iff, Nat.eqb_neq. intros E.
    replace x with e in Hfl; [congruence|].
    pose proof (find_id _ _ iv_ids0 He) as H1. pose proof (find_id _ _ iv_ids0 Hx) as H2.
    rewrite E in H2. congruence.
Qed.

(** A client is changed; it keeps its context. *)
Lemma inv_upd_client w i f :
  inv_for P w -> (forall c, cl_context (f c) = cl_context c) ->
  (forall c id, w_clients w !! i = Some (Some c) -> P i -> cl_state (f c) <> CLIENT_NONE ->
     cl_mem_access (f c) = Some id ->
     exists e, e ∈ w_list w /\ ev_id e = id /\ ev_context e = Z.of_nat i /\ in_flight e = true) ->
  inv_for P (w <| w_clients := alter (fmap f) i (w_clients w) |>).
Proof.
  intros [] Hctx Hacc. constructor; cbn; try done.
  - by rewrite length_alter.
  - intros j c Hj. destruct (decide (i = j)) as [<-|Hij].
    + rewrite list_lookup_alter_eq in Hj. destruct (w_clients w !! i) as [[c0|]|] eqn:E; try done.
      cbn in Hj. injection Hj as <-. rewrite Hctx. by apply iv_client0.
    + rewrite list_lookup_alter_ne in Hj by done. by apply iv_client0.
  - intros j id Hj (c & Hc & Hs & Hm). cbn in Hc. destruct (decide (i = j)) as [<-|Hij].
    + rewrite list_lookup_alter_eq in Hc. destruct (w_clients w !! i) as [[c0|]|] eqn:E; try done.
      cbn in Hc. injection Hc as <-. by eapply Hacc.
    + rewrite list_lookup_alter_ne in Hc by done. apply iv_access0; [done|]. by exists c.
Qed.
End keep.

(** * Clients that leave *)

(** Once the pointer of client [i] is cleared, the clause holds for it again. *)
Lemma inv_close i w f :
  inv_for (fun j => j <> i) w -> (forall c, cl_context (f c) = cl_context c) ->
  (forall c, cl_mem_access (f c) = None) ->
  inv (w <| w_clients := alter (fmap f) i (w_clients w) |>).
Proof.
  intros Hinv Hctx Hm.
  pose proof (inv_upd_client _ w i f Hinv Hctx) as Hu.
  destruct Hu as []; [intros c id _ Hi; congruence|].
  constructor; try done. intros j id _ Hw. destruct (decide (j = i)) as [->|Hj]; [|by apply iv_access0].
  destruct Hw as (c & Hc & _ & Hcm). cbn in Hc. rewrite list_lookup_alter_eq in Hc.
  destruct (w_clients w !! i) as [[c0|]|]; try done. cbn in Hc. injection Hc as <-.
  by rewrite Hm in Hcm.
Qed.

Lemma inv_weaken i w : inv w -> inv_for (fun j => j <> i) w.
Proof. intros []. constructor; try done. intros j id _. by apply iv_access0. Qed.

(** A dropped client waits for nothing. *)
Lemma drop_ok i w f :
  inv w -> (forall c, cl_context (f c) = cl_context c) ->
  (forall c, cl_mem_access (f c) = None) ->
  inv (w <| w_clients := alter (fmap f) i (w_clients w) |>).
Proof. intros Hinv Hc Hm. apply inv_close; [by apply inv_weaken|done|done]. Qed.
