(* ===== verification/CmdSafe.v ===== *)
(** Every handler of ocse/cmd.c keeps the invariant of CmdInv.v and has no
    undefined behaviour where it holds. *)
From S2P Require Import Prelude Utils Event TlxHost TlxAfu TlxApi Parms.
From S2P Require Import CmdState Cmd CmdHandlers CmdLogic CmdInv.

(** * Shared steps *)

(** The entry an [upd_event] writes to. *)
Lemma wp_upd_event id f (Q : unit -> world -> Prop) w :
  Q tt (w <| w_list := upd_list id f (w_list w) |>) -> wp (upd_event id f) Q w.
Proof. done. Qed.

Section shared.
Context (P : nat -> Prop).

(** An entry that is not at a client can be rewritten freely. *)
Definition idle_entry (w : world) (e : cmd_event) : Prop :=
  forall i, P i -> ev_context e = Z.of_nat i -> ~ waits_for w i (ev_id e).

Lemma replaces_idle w e e' :
  idle_entry w e -> same_name e e' -> ev_ok (w_host_CL_size w) e' -> replaces P w e e'.
Proof. intros Hi Hn Ho. split_and!; [done|done|]. intros _ i Hp Hc Hw. by destruct (Hi i Hp Hc). Qed.

Lemma idle_not_in_flight w e :
  inv_for P w -> e ∈ w_list w -> in_flight e = false -> idle_entry w e.
Proof.
  intros Hinv He Hf i Hp Hc Hw.
  destruct (iv_access _ _ Hinv i _ Hp Hw) as (x & Hx & Hid & _ & Hfl).
  replace x with e in Hfl; [congruence|].
  pose proof (find_id _ _ (iv_ids _ _ Hinv) He) as H1.
  pose proof (find_id _ _ (iv_ids _ _ Hinv) Hx) as H2. rewrite Hid in H2. congruence.
Qed.

Lemma wp_find_event p (Q : option cmd_event -> world -> Prop) w :
  Q None w -> (forall e, e ∈ w_list w -> p e = true -> Q (Some e) w) ->
  wp (find_event p) Q w.
Proof.
  intros Hn Hs. unfold wp, find_event, gets. destruct (find p (w_list w)) as [e|] eqn:E; [|done].
  apply find_event_in in E as []. by apply Hs.
Qed.

(** The client of an entry is looked up in the array. *)
Lemma wp_get_client e (Q : option nat -> world -> Prop) w :
  inv_for P w -> 0 <= ev_context e -> Q None w ->
  (forall i c, ev_context e = Z.of_nat i -> w_clients w !! i = Some (Some c) -> Q (Some i) w) ->
  wp (_get_client e) Q w.
Proof.
  intros Hinv He Hn Hs. unfold _get_client. apply wp_gets_bind.
  destruct (w_max_clients w <=? ev_context e) eqn:E; [exact Hn|]. apply Z.leb_gt in E.
  replace (ev_context e <? 0) with false by lia. apply wp_gets_bind.
  destruct (iv_max _ _ Hinv) as [Hm _].
  destruct (lookup_lt_is_Some_2 (w_clients w) (Z.to_nat (ev_context e))) as [o Ho]; [lia|].
  cbv zeta. rewrite Ho. destruct o as [c|]; [|exact Hn].
  apply (Hs (Z.to_nat (ev_context e)) c); [lia|done].
Qed.

Lemma wp_the_client i c (Q : client -> world -> Prop) w :
  w_clients w !! i = Some (Some c) -> Q c w -> wp (the_client i) Q w.
Proof. intros Hc HQ. unfold the_client. apply wp_gets_bind. by rewrite Hc. Qed.

(** Sending to a client changes its sockets, and drops it on a failure. *)
Lemma wp_put_client i c msg (Q : unit -> world -> Prop) w :
  inv_for P w -> w_clients w !! i = Some (Some c) ->
  (forall w' c', inv_for P w' -> w_list w' = w_list w -> w_host_CL_size w' = w_host_CL_size w ->
     w_clients w' !! i = Some (Some c') -> (cl_mem_access c = None -> cl_mem_access c' = None) ->
     Q tt w') ->
  wp (put_client i msg) Q w.
Proof.
  intros Hinv Hc HQ. unfold put_client. wp_next. apply (wp_the_client _ c); [done|].
  wp_next. apply wp_put_bytes; intros oks; cbn.
  - apply (HQ _ c); [by apply inv_puts|done..].
  - apply (HQ _ (client_drop TLX_IDLE_CYCLES CLIENT_NONE c)); [|done|done| |done].
    + set (f := client_drop TLX_IDLE_CYCLES CLIENT_NONE).
      change (inv_for P (w <| w_clients := alter (fmap f) i (w_clients w) |> <| w_put_ok := oks |>)).
      by apply inv_put_ok, inv_upd_client.
    + cbn. by rewrite list_lookup_alter_eq, Hc.
Qed.

(** The client now waits for an entry that is in flight. *)
Lemma wp_set_mem_access i id e (Q : unit -> world -> Prop) w :
  inv_for P w -> e ∈ w_list w -> ev_id e = id -> ev_context e = Z.of_nat i -> in_flight e = true ->
  (forall w', inv_for P w' -> Q tt w') -> wp (set_mem_access i id) Q w.
Proof.
  intros Hinv He <- Hc Hf HQ. apply HQ. apply inv_upd_client; [done|done|].
  cbn. intros c id' _ _ _ [= <-]. by exists e.
Qed.
End shared.

Arguments idle_entry P w e /.

(** A rewritten entry stays well formed when its size, its place in the
    response and its buffer are kept. *)
Lemma ev_ok_retyped h e t s op r :
  ev_ok h e -> s <> MEM_CAS_RD -> (t = ev_type e \/ t = CMD_FAILED) ->
  ev_ok h (e <| ev_state := s |> <| ev_type := t |> <| ev_resp_opcode := op |> <| ev_resp := r |>).
Proof.
  intros [H1 H2 H3 H4 H5 H6 H7 H8 H9 H10] Hs Ht. constructor; cbn; try done. intros Ha. apply H5.
  by destruct Ht as [-> | ->]; [|destruct Ha].
Qed.

Lemma wp_fail_event P id s op r e (Q : unit -> world -> Prop) w :
  inv_for P w -> e ∈ w_list w -> ev_id e = id -> s <> MEM_CAS_RD -> idle_entry P w e ->
  (forall w', inv_for P w' -> Q tt w') -> wp (fail_event id s op r) Q w.
Proof.
  intros Hinv He <- Hs Hi HQ. apply wp_upd_event, HQ. apply inv_upd; [done|done|].
  apply replaces_idle; [done|done|]. apply ev_ok_retyped; [by eapply iv_events|done|by right].
Qed.

(** The draws: either nothing changes but the draws left, or the entry has
    failed. *)
Section faults.
Context (P : nat -> Prop) (e : cmd_event).

Definition no_fault (w w' : world) : Prop := exists ds, w' = w <| w_draws := ds |>.

Lemma wp_draw {A} chance (k : bool -> M A) (Q : A -> world -> Prop) w :
  is_Some (chance (w_parms w)) ->
  (forall b ds, wp (k b) Q (w <| w_draws := ds |>)) ->
  wp (decide_by (fun p => percent_chance (chance p)) ≫= k) Q w.
Proof. intros Hc Hk. wp_next. by apply wp_decide. Qed.

Lemma wp_draw_faults op derror (Q : bool -> world -> Prop) w :
  inv_for P w -> e ∈ w_list w -> idle_entry P w e ->
  (forall b w', inv_for P w' -> (b = false -> no_fault w w') -> Q b w') ->
  wp (draw_faults (ev_id e) op derror) Q w.
Proof.
  intros Hinv He Hi HQ. unfold draw_faults. pose proof (iv_parms _ _ Hinv) as [].
  assert (Hf : forall w' s r, s <> MEM_CAS_RD -> no_fault w w' ->
            wp (fail_event (ev_id e) s (Some op) r;; mret true) Q w').
  { intros w' s r Hs [ds ->]. wp_next. apply (wp_fail_event P _ _ _ _ e); [by apply inv_draws|done..|].
    intros w'' Hw. apply HQ; done. }
  apply wp_draw; [done|]. intros [] ds; [apply Hf; [done|]; by exists ds|].
  apply wp_draw; [done|]. intros [] ds1; [apply Hf; [done|]; by exists ds1|].
  wp_next.
  assert (Hd : forall ds2, wp (pending ← decide_by allow_pending;
      if pending : bool then fail_event (ev_id e) MEM_XLATE_PENDING (Some op) 0x04;; mret true
      else mret false) Q (w <| w_draws := ds2 |>)).
  { intros ds2. apply wp_draw; [done|]. intros [] ds3; [apply Hf; [done|]; by exists ds3|].
    apply HQ; [by apply (inv_draws _ w)|]. by exists ds3. }
  destruct derror; [|apply (Hd ds1)].
  apply (wp_decide derror_percent); [done|]. intros [] ds2; [apply Hf; [done|]; by exists ds2|apply (Hd ds2)].
Qed.
End faults.

(** * Reads and writes *)

Lemma ev_ok_set_state h e s : s <> MEM_CAS_RD -> ev_ok h e -> ev_ok h (e <| ev_state := s |>).
Proof. by intros ? []. Qed.

Lemma inv_set_state P w e s :
  inv_for P w -> e ∈ w_list w -> s <> MEM_CAS_RD -> idle_entry P w e ->
  inv_for P (w <| w_list := upd_list (ev_id e) (fun x => x <| ev_state := s |>) (w_list w) |>).
Proof.
  intros Hinv He Hs Hi. apply inv_upd; [done|done|]. apply replaces_idle; [done|done|].
  apply ev_ok_set_state; [done|]. by eapply iv_events.
Qed.

Lemma elem_of_upd_2 id f (l : list cmd_event) e : e ∈ l -> ev_id e = id -> f e ∈ upd_list id f l.
Proof.
  intros He <-. apply list_elem_of_fmap. exists e. by rewrite Nat.eqb_refl.
Qed.

(** Sending the request of [e], then marking it: the state [s] makes it in
    flight, and the client waits for it. *)
Lemma wp_send_marked P i c msg e s w :
  inv_for P w -> e ∈ w_list w -> ev_context e = Z.of_nat i -> w_clients w !! i = Some (Some c) ->
  cl_mem_access c = None -> s <> MEM_CAS_RD -> in_flight (e <| ev_state := s |>) = true ->
  wp (put_client i msg;; set_state (ev_id e) s;; set_mem_access i (ev_id e))
     (fun _ w' => inv_for P w') w.
Proof.
  intros Hinv He Hctx Hc Hm Hs Hf. wp_next. apply (wp_put_client P _ c); [done|done|].
  intros w' c' Hinv' Hl Hh Hc' Hm'. wp_next. apply wp_upd_event.
  rewrite <- Hl in He. set (e' := e <| ev_state := s |>).
  apply (wp_set_mem_access P _ _ e'); [|exact (elem_of_upd_2 (ev_id e) (fun x => x <| ev_state := s |>) _ e He eq_refl)
    |done|done|done|done].
  apply inv_set_state; [done|done|done|].
  intros j _ Hj (c'' & Hc'' & _ & Hm''). assert (j = i) as -> by lia.
  rewrite Hc' in Hc''. injection Hc'' as <-. by rewrite Hm' in Hm''.
Qed.

Lemma not_busy_idle P w i c e :
  ev_context e = Z.of_nat i -> w_clients w !! i = Some (Some c) -> cl_mem_access c = None ->
  idle_entry P w e.
Proof.
  intros Hctx Hc Hm j _ Hj (c' & Hc' & _ & Hm'). assert (j = i) as -> by lia. congruence.
Qed.

Lemma busy_false c : busy c = false -> cl_mem_access c = None.
Proof. unfold busy. by destruct (cl_mem_access c). Qed.

Section handlers.
Context (P : nat -> Prop).

Local Notation keeps_inv m w := (wp m (fun _ w' => inv_for P w') w) (only parsing).

Lemma finish_read_ok w e :
  inv_for P w -> e ∈ w_list w -> idle_entry P w e -> keeps_inv (finish_read e) w.
Proof.
  intros Hinv He Hi. apply wp_when; [|done]. intros _. apply wp_upd_event.
  apply inv_upd; [done|done|]. apply replaces_idle; [done|done|].
  pose proof (iv_events _ _ Hinv e He) as []. by constructor.
Qed.

(** The client of an entry, when there is one. *)
Lemma with_client_ok e (k : nat -> M unit) w :
  inv_for P w -> e ∈ w_list w ->
  (forall i c, ev_context e = Z.of_nat i -> w_clients w !! i = Some (Some c) ->
     keeps_inv (k i) w) ->
  keeps_inv (i ← _get_client e; match i with None => mret tt | Some i => k i end) w.
Proof.
  intros Hinv He Hk. wp_next.
  apply (wp_get_client P); [done|by eapply (eo_context (w_host_CL_size w)), iv_events|done|].
  intros i c Hctx Hc. by eapply Hk.
Qed.

Lemma handle_buffer_write_ok w : inv_for P w -> keeps_inv handle_buffer_write w.
Proof.
  intros Hinv. unfold handle_buffer_write. wp_next. apply wp_find_event; [done|].
  intros e He Ho. apply with_client_ok; [done|done|]. intros i c Hctx Hc.
  wp_next. apply (wp_the_client _ c); [done|]. cbv zeta.
  assert (Ht : ev_type e = CMD_READ).
  { unfold open_read in Ho. rewrite !andb_true_iff in Ho. by destruct Ho as [[?%bool_decide_eq_true_1 _] _]. }
  wp_next.
  destruct (bool_decide (ev_state e = MEM_IDLE) && negb (busy c)) eqn:E.
  - apply andb_true_iff in E as [E1%bool_decide_eq_true_1 E2%negb_true_iff%busy_false].
    apply (wp_draw_faults P); [done|done|by eapply not_busy_idle|].
    intros [] w' Hinv' Hw'; [done|]. destruct Hw' as [ds ->]; [done|].
    rewrite E1. cbn [bool_decide]. apply (wp_send_marked P _ c); try done.
    unfold in_flight. cbn. by rewrite Ht.
  - apply wp_ret. cbv iota. destruct (bool_decide_reflect (ev_state e = MEM_RECEIVED)) as [E1|_].
    { apply finish_read_ok; [done|done|]. apply idle_not_in_flight; [done..|].
      unfold in_flight. by rewrite Ht, E1. }
    destruct (bool_decide_reflect (ev_state e = MEM_CAS_RD)) as [E2|_];
      [by destruct (eo_cas _ _ (iv_events _ _ Hinv e He))|].
    done.
Qed.

(** ** Buffers *)

Lemma copy_at_ok data off src n :
  is_array 256 data -> bytes src -> 0 <= off -> 0 <= n -> off + n <= 256 ->
  n <= Z.of_nat (length src) ->
  exists d, copy_at data off src n = Some d /\ is_array 256 d.
Proof.
  intros [Hl Hd] Hs Ho Hn Hle Hsrc. rewrite copy_at_some by lia. eexists. split; [done|].
  split; [|by auto with ocse]. rewrite length_overwrite; [done|]. rewrite length_take. lia.
Qed.

Lemma slice_ok data off n :
  is_array 256 data -> 0 <= off -> 0 <= n -> off + n <= 256 ->
  slice data off n = Some (take (Z.to_nat n) (drop (Z.to_nat off) data)).
Proof.
  intros [Hl _] Ho Hn Hle. apply slice_some; lia.
Qed.

Lemma line_offset_range addr : 0 <= line_offset addr <= 63.
Proof.
  unfold line_offset. change CACHELINE_OFFSET with (Z.ones 6). rewrite Z.land_ones by lia.
  change (2 ^ 6) with 64. pose proof (Z.mod_pos_bound addr 64). lia.
Qed.

Lemma handle_afu_tlx_cmd_data_read_ok w :
  inv_for P w -> keeps_inv handle_afu_tlx_cmd_data_read w.
Proof.
  intros Hinv. unfold handle_afu_tlx_cmd_data_read. wp_next. apply wp_find_event; [done|].
  intros e He Ho. apply wp_gets_bind.
  destruct (afu_tlx_read_cmd_data (w_event w)) as [[rc beat] afu] eqn:Er.
  assert (Hok : event_ok w afu).
  { apply (host_call_ok P HReadCmdData w rc); [done..|]. cbn. by rewrite Er. }
  destruct (Hok) as [Hafu _].
  apply wp_modify_bind. destruct beat as [b|]; [|by apply inv_event].
  unfold in_state in Ho. apply andb_true_iff in Ho as [Ht%bool_decide_eq_true_1 Hs%bool_decide_eq_true_1].
  pose proof (iv_events _ _ Hinv e He) as [H1 H2 H3 H4 H5 H6 H7 H8 H9 H10].
  assert (Hrest : u32 (ev_size e - ev_dpartial e) = ev_size e - ev_dpartial e).
  { unfold u32. apply Z.mod_small. lia. }
  rewrite Hrest. cbv zeta. wp_next.
  destruct (field_get (p := afu_tlx_cdata_bus) afu Hafu) as [Hbl Hbb].
  set (n := if 64 <? ev_size e - ev_dpartial e then 64 else ev_size e - ev_dpartial e).
  assert (Hn : 0 <= n <= 64 /\ ev_dpartial e + n <= ev_size e) by (unfold n; case_match; lia).
  destruct (copy_at_ok (ev_data e) (ev_dpartial e) (afu_tlx_cdata_bus afu) n) as (d & -> & Hd);
    [done|done|lia..|rewrite Hbl; lia|].
  apply wp_upd_event. apply (inv_upd P (w <| w_event := afu |>)); [by apply inv_event|done|].
  apply replaces_idle; [|by case_match|].
  - apply (idle_not_in_flight _ (w <| w_event := afu |>)); [by apply inv_event|done|].
    unfold in_flight. by rewrite Ht, Hs.
  - case_match; constructor; cbn; try done; unfold u32; rewrite ?Z.mod_small; lia.
Qed.

Lemma write_request_ok e h : ev_ok h e -> is_Some (write_request e).
Proof.
  intros [H1 H2 H3 H4 H5 H6 H7 H8 H9 H10]. unfold write_request.
  pose proof (line_offset_range (ev_addr e)).
  rewrite slice_ok; [by eexists|done|repeat case_match; lia..].
Qed.

Lemma handle_afu_tlx_write_cmd_ok w : inv_for P w -> keeps_inv handle_afu_tlx_write_cmd w.
Proof.
  intros Hinv. unfold handle_afu_tlx_write_cmd. wp_next. apply wp_find_event; [done|].
  intros e He Ho. apply with_client_ok; [done|done|]. intros i c Hctx Hc.
  wp_next. apply (wp_the_client _ c); [done|].
  destruct (busy c) eqn:E; [done|]. apply busy_false in E. wp_next.
  apply (wp_draw_faults P); [done|done|by eapply not_busy_idle|].
  intros [] w' Hinv' Hw'; [done|]. destruct Hw' as [ds ->]; [done|].
  destruct (write_request_ok e (w_host_CL_size w)) as [msg ->]; [by eapply iv_events|].
  unfold in_state in Ho. apply andb_true_iff in Ho as [Ht%bool_decide_eq_true_1 _].
  wp_next. apply wp_ret.
  wp_next. apply (wp_put_client P _ c); [done|done|].
  intros w' c' Hw' Hl _ Hc' Hm. cbn in Hl. rewrite <- Hl in He.
  wp_next. apply wp_upd_event. apply wp_modify_bind.
  apply (wp_set_mem_access P _ _ (e <| ev_state := DMA_MEM_RESP |>)); [| |done|done| |done].
  - apply inv_buffer_read. apply inv_set_state; [done|done|done|].
    eapply not_busy_idle; [done|exact Hc'|by apply Hm].
  - exact (elem_of_upd_2 (ev_id e) (fun x => x <| ev_state := DMA_MEM_RESP |>) _ e He eq_refl).
  - unfold in_flight. cbn. by rewrite Ht.
Qed.

(** ** Byte-enabled writes, atomics, touches, interrupts *)

Lemma amo_ready_type e :
  amo_ready e = true -> amo_type (ev_type e) = true /\ ev_state e = MEM_RECEIVED.
Proof.
  unfold amo_ready. intros [H ->%bool_decide_eq_true_1]%andb_true_iff. split; [|done].
  by destruct (ev_type e).
Qed.

Lemma amo_request_ok e h : ev_ok h e -> is_Some (amo_request e).
Proof.
  intros [H1 H2 H3 H4 H5 H6 H7 H8 H9 H10]. unfold amo_request, wr_be_request.
  pose proof (line_offset_range (ev_addr e)).
  case_match; try by eexists.
  all: rewrite slice_ok; [by eexists|done|lia..].
Qed.

Lemma handle_write_be_or_amo_ok w : inv_for P w -> keeps_inv handle_write_be_or_amo w.
Proof.
  intros Hinv. unfold handle_write_be_or_amo. wp_next. apply wp_find_event; [done|].
  intros e He [Ht Hs]%amo_ready_type. apply with_client_ok; [done|done|]. intros i c Hctx Hc.
  wp_next. apply (wp_the_client _ c); [done|].
  destruct (busy c) eqn:E; [done|]. apply busy_false in E. cbv zeta. wp_next.
  apply (wp_draw_faults P); [done|done|by eapply not_busy_idle|].
  intros [] w' Hinv' Hw'; [done|]. destruct Hw' as [ds ->]; [done|].
  destruct (amo_request_ok e (w_host_CL_size w)) as [msg ->]; [by eapply iv_events|].
  wp_next. apply wp_ret. wp_next. apply (wp_put_client P _ c); [done|done|].
  intros w' c' Hw' Hl _ Hc' Hm. cbn in Hl. rewrite <- Hl in He.
  apply (wp_set_mem_access P _ _ e); [done|done|done|done| |done].
  unfold in_flight. rewrite Hs. destruct (ev_type e); done.
Qed.

Lemma wp_draw_int_faults e (Q : bool -> world -> Prop) w :
  inv_for P w -> e ∈ w_list w -> idle_entry P w e ->
  (forall b w', inv_for P w' -> (b = false -> no_fault w w') -> Q b w') ->
  wp (draw_int_faults e) Q w.
Proof.
  intros Hinv He Hi HQ. unfold draw_int_faults. pose proof (iv_parms _ _ Hinv) as [].
  assert (Hf : forall w' s r, s <> MEM_CAS_RD -> no_fault w w' ->
            wp (fail_event (ev_id e) s None r;; mret true) Q w').
  { intros w' s r Hs [ds ->]. wp_next. apply (wp_fail_event P _ _ _ _ e); [by apply inv_draws|done..|].
    intros w'' Hw. apply HQ; done. }
  assert (Hd : forall w', no_fault w w' -> Q false w').
  { intros w' [ds ->]. apply HQ; [by apply inv_draws|]. by exists ds. }
  cbv zeta.
  apply wp_draw; [done|]. intros [] ds; [apply Hf; [done|]; by exists ds|].
  apply wp_draw; [done|]. intros [] ds1; [apply Hf; [done|]; by exists ds1|].
  assert (Hlast : forall ds2, wp (
      derror ← (if ev_command e =? AFU_CMD_INTRP_REQ_D then decide_by allow_int_derror
                else mret false);
      if derror : bool then fail_event (ev_id e) MEM_DONE None 0x08;; mret true
      else mret false) Q (w <| w_draws := ds2 |>)).
  { intros ds2. wp_next. case_match.
    - apply (wp_decide int_derror_percent); [done|].
      intros [] ds3; [apply Hf; [done|]; by exists ds3|]. apply Hd. by exists ds3.
    - apply Hd. by exists ds2. }
  wp_next. destruct (bool_decide _); [apply (Hlast ds1)|].
  apply (wp_decide int_pending_percent); [done|].
  intros [] ds2; [apply Hf; [done|]; by exists ds2|apply (Hlast ds2)].
Qed.

Lemma interrupt_request_ok e h : ev_ok h e -> is_Some (interrupt_request e).
Proof.
  intros [H1 H2 H3 H4 H5 H6 H7 H8 H9 H10]. unfold interrupt_request. cbv zeta.
  pose proof (line_offset_range (ev_addr e)).
  destruct (Z.eqb_spec (ev_command e) AFU_CMD_INTRP_REQ_D) as [E|_]; [|by eexists].
  specialize (H4 E). rewrite slice_ok; [|done|lia..]. cbn [mbind option_bind]. unfold guard_ub.
  replace (12 + ev_size e <=? 45) with true by (symmetry; apply Z.leb_le; lia). by eexists.
Qed.

Lemma handle_interrupt_ok w : inv_for P w -> keeps_inv handle_interrupt w.
Proof.
  intros Hinv. unfold handle_interrupt. wp_next. apply wp_find_event; [done|].
  intros e He Ho. apply with_client_ok; [done|done|]. intros i c Hctx Hc.
  assert (Hi : forall w', inv_for P w' -> e ∈ w_list w' -> idle_entry P w' e).
  { intros w' Hw' He'. apply idle_not_in_flight; [done|done|].
    unfold open_interrupt in Ho. unfold in_flight. by destruct (ev_type e), (ev_state e). }
  wp_next. apply wp_draw_int_faults; [done|done|by apply Hi|].
  intros [] w' Hinv' Hw'; [done|]. destruct Hw' as [ds ->]; [done|].
  destruct (interrupt_request_ok e (w_host_CL_size w)) as [msg ->]; [by eapply iv_events|].
  wp_next. apply wp_ret. wp_next. apply (wp_put_client P _ c); [done|done|].
  intros w' c' Hw' Hl _ Hc' Hm. cbn in Hl. rewrite <- Hl in He.
  apply wp_upd_event, inv_set_state; [done..|by apply Hi].
Qed.
End handlers.
