(* ===== verification/CmdSafeResp.v ===== *)
(** ocse/cmd.c, the second half: the client's answers, the responses to the AFU
    and the clients that leave keep the invariant. *)
From S2P Require Import Prelude Utils Event TlxHost TlxAfu TlxApi Parms.
From S2P Require Import CmdState Cmd CmdHandlers CmdLogic CmdInv CmdSafe.

Section handlers.
Context (P : nat -> Prop).

Local Notation keeps_inv m w := (wp m (fun _ w' => inv_for P w') w) (only parsing).

(** ** Completion of a pending response *)

Lemma wp_find_pending l (Q : option cmd_event -> world -> Prop) w :
  is_Some (reorder_percent (w_parms w)) ->
  (forall ds, Q None (w <| w_draws := ds |>)) ->
  (forall e ds, e ∈ l -> ev_state e = MEM_PENDING_SENT -> Q (Some e) (w <| w_draws := ds |>)) ->
  wp (find_pending l) Q w.
Proof.
  revert w. induction l as [|e l IH]; intros w Hp Hn Hs; cbn [find_pending].
  - specialize (Hn (w_draws w)). by destruct w.
  - destruct (bool_decide_reflect (ev_state e = MEM_PENDING_SENT)) as [E|_].
    + apply wp_draw; [done|]. intros [] ds; cbn [negb].
      * apply IH; [done|..].
        -- intros ds'. apply (Hn ds').
        -- intros e' ds' He'. apply (Hs e' ds'). by right.
      * apply Hs; [by left|done].
    + apply IH; [done|done|]. intros e' ds' He'. apply Hs. by right.
Qed.

Lemma not_sent_in_flight e s :
  ev_state e = s -> s = MEM_PENDING_SENT \/ s = MEM_DONE \/ s = MEM_XLATE_PENDING \/
    s = MEM_INT_PENDING -> in_flight e = false.
Proof. unfold in_flight. intros -> [-> | [-> | [-> | ->]]]; by destruct (ev_type e). Qed.

Lemma done_opcode_u8 c : is_u 8 (done_opcode c).
Proof. unfold done_opcode. by case_match; vm_compute. Qed.

Lemma u16_is_u x : is_u 16 (u16 x).
Proof. apply Z.mod_pos_bound. done. Qed.
Lemma u8_is_u x : is_u 8 (u8 x).
Proof. apply Z.mod_pos_bound. done. Qed.

(** Sending an [xlate_done] or [intrp_rdy] for an entry, which then is
    freed. *)
Lemma send_done_ok e e' resp w :
  inv_for P w -> e' ∈ w_list w -> ev_id e' = ev_id e -> in_flight e' = false -> is_u 8 resp ->
  keeps_inv (send_done e resp) w.
Proof.
  intros Hinv He Hid Hf Hr. unfold send_done. apply wp_gets_bind.
  destruct (tlx_afu_send_posted_cmd _ _ _ _) as [rc afu] eqn:Ec.
  assert (Hafu : event_ok w afu).
  { apply (host_call_ok P (HSendPostedCmd (done_opcode (ev_command e)) (u16 (ev_afutag e)) resp)
             w rc); [done|done| |by cbn; rewrite Ec].
    cbn. split_and!; [apply done_opcode_u8|apply u16_is_u|done]. }
  apply wp_modify_bind, wp_when; [|intros _; by apply inv_event].
  intros _. pose proof (inv_event P w afu Hinv Hafu) as Hi.
  rewrite <- Hid. exact (inv_free P _ e' Hi He Hf).
Qed.

Lemma upd_resp_ok e resp w :
  inv_for P w -> e ∈ w_list w -> in_flight e = false ->
  inv_for P (w <| w_list := upd_list (ev_id e) (fun e => e <| ev_resp := resp |>) (w_list w) |>) /\
  e <| ev_resp := resp |> ∈ upd_list (ev_id e) (fun e => e <| ev_resp := resp |>) (w_list w).
Proof.
  intros Hinv He Hf. split.
  - apply inv_upd; [done|done|]. apply replaces_idle; [by apply idle_not_in_flight|done|].
    pose proof (iv_events _ _ Hinv e He) as []. by constructor.
  - exact (elem_of_upd_2 (ev_id e) (fun x => x <| ev_resp := resp |>) _ e He eq_refl).
Qed.

Lemma handle_xlate_intrp_pending_sent_ok w :
  inv_for P w -> keeps_inv handle_xlate_intrp_pending_sent w.
Proof.
  intros Hinv. unfold handle_xlate_intrp_pending_sent. apply wp_gets_bind. wp_next.
  pose proof (iv_parms _ _ Hinv) as [].
  apply wp_find_pending; [done|intros ds; by apply inv_draws|].
  intros e ds He Hs. assert (Hf : in_flight e = false).
  { eapply not_sent_in_flight; [exact Hs|by left]. }
  apply with_client_ok; [by apply inv_draws|done|]. intros i c _ _.
  assert (Hgo : forall ds (failed : bool) resp, is_u 8 resp ->
    keeps_inv (upd_event (ev_id e) (fun e => e <| ev_resp := resp |>);;
      if failed then mret tt else send_done e resp) (w <| w_draws := ds |>)).
  { intros ds' failed resp Hr.
    destruct (upd_resp_ok e resp (w <| w_draws := ds' |>)) as [Hi' He'];
      [by apply inv_draws|done|done|].
    wp_next. apply wp_upd_event. destruct failed; [done|].
    by apply (send_done_ok e _ resp _ Hi' He'). }
  apply wp_draw; [done|]. intros [] ds1.
  - apply (Hgo ds1 false 2). done.
  - wp_next. apply (wp_decide failed_percent); [done|]. intros [] ds2.
    + by apply (Hgo ds2 true 15).
    + by apply (Hgo ds2 false 0).
Qed.
End handlers.

(** * The client's answers *)

(** What arrives on a socket are bytes. *)
Definition stream_bytes (s : stream) : Prop := bytes (avail s) /\ Forall bytes (arrivals s).

Lemma arrive_bytes s : stream_bytes s -> stream_bytes (arrive s).
Proof.
  intros [Ha Hb]. unfold arrive. destruct (arrivals s) as [|b bs] eqn:E; [by split; rewrite ?E|].
  apply List.Forall_cons_iff in Hb as [Hb Hbs]. split; cbn; [|done]. by apply Forall_app_2.
Qed.

(** When the wait ends, the whole message is queued. *)
Lemma get_bytes_wait_enough fuel abort size b s d s' :
  get_bytes_wait fuel abort size b s = GotBytes d s' -> stream_bytes s ->
  stream_bytes s' /\ ((size <= b /\ s' = s) \/ size <= Z.of_nat (length (avail s'))).
Proof.
  revert b s. induction fuel as [|fuel IH]; intros b s; cbn [get_bytes_wait].
  - destruct (b <? size) eqn:E; [done|]. intros [= _ <-]. split; [done|]. left. split; [lia|done].
  - destruct (b <? size) eqn:E; [|intros [= _ <-]; split; [done|]; left; split; [lia|done]].
    destruct (bytes_ready abort s) as [rc s1] eqn:Eb.
    destruct (rc =? 1); [|done].
    assert (s1 = arrive s) as ->.
    { unfold bytes_ready in Eb. repeat case_match; by injection Eb as _ <-. }
    destruct (peek (size - b) (arrive s)) as [|x xs] eqn:Ep; [done|].
    intros H Hs. apply arrive_bytes in Hs.
    destruct (IH _ _ H Hs) as [Hb [[Hle ->] | Hle]]; (split; [done|right]); [|done].
    assert (Hlen : (length (x :: xs) <= length (avail (arrive s)))%nat).
    { rewrite <- Ep. unfold peek. rewrite length_take. lia. }
    lia.
Qed.

Lemma get_bytes_silent_bytes fuel abort size s d s' :
  0 <= size -> get_bytes_silent fuel abort size s = GotBytes d s' -> stream_bytes s ->
  bytes d /\ Z.of_nat (length d) = size /\ stream_bytes s'.
Proof.
  intros Hsize. unfold get_bytes_silent.
  destruct (get_bytes_wait fuel abort size 0 s) as [d1 s1| |] eqn:E; [|done..].
  intros [= <- <-] Hs. destruct (get_bytes_wait_enough _ _ _ _ _ _ _ E Hs) as [[Ha Hb] Hle].
  split_and!; [by apply Forall_take| |split; cbn; [by apply Forall_drop|done]].
  rewrite length_take. destruct Hle as [[Hle _]|Hle]; lia.
Qed.

(** ** The page cache *)

Definition AGE_MAX := 2 ^ 31 - 1.
Definition ages_low (p : pages) : Prop :=
  forall row ages i a, pg_age p !! row = Some ages -> ages !! i = Some a -> a < AGE_MAX.

Lemma age_step_ok entries valids addr sc i e v a :
  entries !! i = Some e -> valids !! i = Some v -> as_ages sc !! i = Some a -> a < AGE_MAX ->
  exists sc', age_step entries valids addr sc i = Some sc' /\
    length (as_ages sc') = length (as_ages sc) /\
    (forall j, j <> i -> as_ages sc' !! j = as_ages sc !! j).
Proof.
  intros He Hv Ha Hlt. unfold age_step. rewrite He, Hv, Ha. cbn [mbind option_bind]. unfold guard_ub.
  replace (a <? 2 ^ 31 - 1) with true by (symmetry; apply Z.ltb_lt; exact Hlt).
  eexists. split; [reflexivity|].
  repeat case_match; cbn; rewrite ?length_insert; (split; [done|]); intros j Hj;
    by rewrite ?list_lookup_insert_ne by done.
Qed.

Lemma age_scan_loop_ok entries valids addr ways sc :
  NoDup ways ->
  Forall (fun i => is_Some (entries !! i) /\ is_Some (valids !! i) /\
            exists a, as_ages sc !! i = Some a /\ a < AGE_MAX) ways ->
  exists sc', age_scan_loop entries valids addr ways sc = Some sc' /\
    length (as_ages sc') = length (as_ages sc).
Proof.
  revert sc. induction ways as [|i ways IH]; intros sc Hn Hw; [by exists sc|].
  apply list_relations.list.NoDup_cons in Hn as [Hi Hn].
  apply List.Forall_cons_iff in Hw as [([e He] & [v Hv] & a & Ha & Hlt) Hw].
  destruct (age_step_ok entries valids addr sc i e v a) as (sc' & Hs & Hl & Hj); [done..|].
  cbn [age_scan_loop]. rewrite Hs. cbn [mbind option_bind].
  destruct (IH sc' Hn) as (sc'' & Hs' & Hl'); [|exists sc''; split; [done|congruence]].
  apply list_relations.list.Forall_forall. intros j Hjw.
  eapply list_relations.list.Forall_forall in Hw as (H1 & H2 & b & Hb & Hblt); [|done].
  split_and!; [done|done|]. exists b. split; [|done]. rewrite Hj; [done|]. by intros ->.
Qed.

Lemma index_range p addr :
  pages_ok p -> 0 <= (_calc_index p addr).2 < 16.
Proof.
  intros [_ _ _ _ Hf]. unfold _calc_index. cbn [snd]. rewrite Hf.
  rewrite Z.shiftr_land. change (Z.shiftr ENTRY_FILTER PAGE_ADDR_BITS) with (Z.ones 4).
  rewrite Z.land_ones by lia. by apply Z.mod_pos_bound.
Qed.

Lemma row_lookup rows i :
  row_shape rows -> (i < PAGE_ENTRIES)%nat -> exists r, rows !! i = Some r /\ length r = PAGE_WAYS.
Proof.
  intros [Hl Hr] Hi. destruct (lookup_lt_is_Some_2 rows i) as [r Hrow]; [by rewrite Hl|].
  exists r. split; [done|]. by eapply Forall_lookup_1 in Hr.
Qed.

Lemma row_insert rows i r :
  row_shape rows -> length r = PAGE_WAYS -> row_shape (<[i := r]> rows).
Proof. intros [Hl Hr] Hlen. split; [by rewrite length_insert|by apply Forall_insert]. Qed.

Lemma update_row_ok entries ages valids addr :
  length entries = PAGE_WAYS -> length ages = PAGE_WAYS -> length valids = PAGE_WAYS ->
  (forall i a, ages !! i = Some a -> a < AGE_MAX) ->
  exists e a v, update_row entries ages valids addr = Some (e, a, v) /\
    length e = PAGE_WAYS /\ length a = PAGE_WAYS /\ length v = PAGE_WAYS.
Proof.
  intros He Ha Hv Hlow. unfold update_row.
  destruct (age_scan_loop_ok entries valids addr (seq 0 PAGE_WAYS) (AgeScan ages false 0 0 PAGE_WAYS))
    as (sc & -> & Hl).
  - by apply (bool_decide_unpack _).
  - apply list_relations.list.Forall_forall. intros i Hi%elem_of_seq. cbn [as_ages].
    destruct (lookup_lt_is_Some_2 ages i) as [a Hai]; [lia|].
    split_and!; [apply lookup_lt_is_Some_2; lia..|]. exists a. split; [done|]. by eapply Hlow.
  - cbn [mbind option_bind]. cbn [as_ages] in Hl.
    case_match; eexists _, _, _; (split; [reflexivity|]); rewrite ?length_insert; by rewrite ?Hl.
Qed.

Lemma update_pages_ok p addr :
  pages_ok p -> ages_low p -> exists p', update_pages p addr = Some p' /\ pages_ok p'.
Proof.
  intros Hp Hlow. pose proof (index_range p addr Hp) as Hi. pose proof Hp as [H1 H2 H3 H4 H5].
  unfold update_pages. destruct (_calc_index p addr) as [a index]. cbn [snd] in Hi.
  set (k := Z.to_nat index). assert (Hk : (k < PAGE_ENTRIES)%nat) by (unfold k, PAGE_ENTRIES; lia).
  destruct (row_lookup _ k H1 Hk) as (es & He & Hel).
  destruct (row_lookup _ k H2 Hk) as (ags & Ha & Hal).
  destruct (row_lookup _ k H3 Hk) as (vs & Hv & Hvl).
  cbv zeta. fold k. rewrite He, Ha, Hv. cbn [mbind option_bind].
  destruct (update_row_ok es ags vs a) as (e' & a' & v' & -> & L1 & L2 & L3); [done..| |].
  { intros i b Hb. by eapply Hlow. }
  cbn [mbind option_bind]. eexists. split; [reflexivity|].
  constructor; cbn; try done; by apply row_insert.
Qed.

(** ** Memory data *)

Section answers.
(** The client [i] answers: its pointer is left aside until it is cleared. *)
Context (i : nat).
Let P : nat -> Prop := fun j => j <> i.

Lemma mine_idle w e : ev_context e = Z.of_nat i -> idle_entry P w e.
Proof. intros Hc j Hj Hctx. exfalso. apply Hj. lia. Qed.

(** An entry of client [i] is rewritten by [f]. *)
Definition now (w : world) (e : cmd_event) : Prop := inv_for P w /\ e ∈ w_list w.

Lemma now_upd w e f :
  now w e -> ev_context e = Z.of_nat i -> same_name e (f e) -> ev_ok (w_host_CL_size w) (f e) ->
  now (w <| w_list := upd_list (ev_id e) f (w_list w) |>) (f e).
Proof.
  intros [Hinv He] Hc Hn Hok. split.
  - apply inv_upd; [done|done|]. apply replaces_idle; [by apply mine_idle|done|done].
  - exact (elem_of_upd_2 (ev_id e) f _ e He eq_refl).
Qed.

(** What [_handle_mem_read] leaves. *)
Definition read_post (e : cmd_event) (s : stream) (w' : world) : Prop :=
  stream_bytes s /\ exists e', now w' e' /\ same_name e e' /\ ev_size e' = ev_size e.

Lemma handle_mem_read_ok fuel abort e s w :
  now w e -> ev_context e = Z.of_nat i -> stream_bytes s ->
  wp (_handle_mem_read fuel abort (ev_id e) s) (fun s' w' => read_post e s' w') w.
Proof.
  intros Hw Hc Hs. pose proof Hw as [Hinv He]. unfold _handle_mem_read. wp_next.
  apply (wp_get_event e); [by eapply iv_ids|done|]. cbv zeta.
  pose proof (iv_events _ _ Hinv e He) as Hok. pose proof Hok as [H1 H2 H3 H4 H5 H6 H7 H8 H9 H10].
  destruct (bool_decide (ev_type e = CMD_READ) || _); [|by split; [|exists e]].
  assert (Hsz : i32 (ev_size e) = ev_size e).
  { unfold i32. rewrite Z.mod_small; [lia|]. change (2 ^ 31) with 2147483648.
    change (2 ^ 32) with 4294967296. lia. }
  rewrite Hsz.
  destruct (get_bytes_silent fuel abort (ev_size e) s) as [d s'| |] eqn:E; [| |done].
  - apply get_bytes_silent_bytes in E as (Hd & Hl & Hs'); [|lia|done].
    pose proof (line_offset_range (ev_addr e)) as Hoff.
    destruct (copy_at_ok (ev_data e) (line_offset (ev_addr e)) d (ev_size e)) as (buf & -> & Hb);
      [done|done|lia| |destruct (decide (64 < ev_size e)); [rewrite H3|]; lia|lia|]; [lia|].
    wp_next. apply wp_ret. wp_next. apply wp_upd_event, wp_ret. split; [done|].
    eexists. split; [apply now_upd|]; [done|done|done| |by split].
    constructor; cbn; try done. by case_match.
  - wp_next. apply wp_upd_event, wp_ret. split; [done|].
    eexists. split; [apply now_upd|]; [done|done|done| |by split].
    apply ev_ok_retyped; [done|done|by right].
Qed.

Lemma set_state_now e s (Q : unit -> world -> Prop) w :
  now w e -> ev_context e = Z.of_nat i -> s <> MEM_CAS_RD ->
  (forall w', inv_for P w' -> Q tt w') -> wp (set_state (ev_id e) s) Q w.
Proof.
  intros Hw Hc Hs HQ. apply wp_upd_event, HQ.
  refine (proj1 (now_upd w e (fun x => x <| ev_state := s |>) Hw Hc _ _)); [done|].
  destruct Hw as [Hinv He]. apply ev_ok_set_state; [done|by eapply iv_events].
Qed.

(** The size goes back to a length code. *)
Lemma set_size_now e (Q : unit -> world -> Prop) w :
  now w e -> ev_context e = Z.of_nat i -> ev_size e <= 8 ->
  (forall w', inv_for P w' -> Q tt w') ->
  wp (upd_event (ev_id e) (fun e => e <| ev_size := if ev_size e =? 4 then 2 else 3 |>)) Q w.
Proof.
  intros Hw Hc Hs HQ. apply wp_upd_event, HQ.
  refine (proj1 (now_upd w e (fun e => e <| ev_size := if ev_size e =? 4 then 2 else 3 |>) Hw Hc _ _));
    [done|].
  destruct Hw as [Hinv He]. pose proof (iv_events _ _ Hinv e He) as [H1 H2 H3 H4 H5 H6 H7 H8 H9 H10].
  assert (Hz : (if ev_size e =? 4 then 2 else 3) <= 3) by (case_match; lia).
  assert (Hz' : 0 <= (if ev_size e =? 4 then 2 else 3)) by (case_match; lia).
  constructor; cbn -[Z.eqb]; try done; try lia.
  unfold part_ok in *. left. destruct H7 as [? | [? | [? | ?]]]; lia.
Qed.

Lemma mem_returned_ok fuel abort e s w :
  ev_context e = Z.of_nat i -> read_post e s w ->
  wp (mem_returned fuel abort (ev_id e) s) (fun _ w' => inv_for P w') w.
Proof.
  intros Hc [Hs (x & Hx & [Hid Htag Hctx] & Hsz)]. unfold mem_returned.
  assert (Hcx : ev_context x = Z.of_nat i) by congruence. rewrite <- Hid.
  pose proof Hx as [Hi Hin]. wp_next. apply (wp_get_event x); [by eapply iv_ids|done|].
  destruct (ev_type x) eqn:Et.
  all: try (wp_next; apply set_state_now; [done|done|by repeat case_match|done]).
  all: wp_next; eapply wp_mono; [by apply handle_mem_read_ok|].
  all: intros s' w'' [Hs' (y & Hy & [Hid' _ Hctx'] & Hsz')]; rewrite <- Hid'; wp_next.
  all: apply set_size_now; [done|congruence| |done].
  all: rewrite Hsz'; apply (eo_amo _ _ (iv_events _ _ Hi x Hin)).
  all: rewrite Et; by (left + right).
Qed.

Lemma handle_mem_return_ok fuel e s w :
  now w e -> ev_context e = Z.of_nat i -> ages_low (w_pages w) -> stream_bytes s ->
  wp (handle_mem_return fuel (ev_id e) s) (fun _ w' => inv_for P w') w.
Proof.
  intros Hw Hc Hlow Hs. pose proof Hw as [Hinv He]. unfold handle_mem_return. wp_next.
  apply (wp_get_event e); [by eapply iv_ids|done|]. wp_next.
  apply (wp_get_client P); [done|lia|done|]. intros j c Hj Hcl.
  assert (j = i) as -> by lia. wp_next. apply (wp_the_client _ c); [done|]. cbv zeta.
  wp_next. unfold _update_age. apply wp_gets_bind.
  destruct (update_pages_ok (w_pages w) (ev_addr e)) as (p & -> & Hp); [by eapply iv_pages|done|].
  wp_next. apply wp_ret, wp_modify. pose proof (inv_set_pages P w p Hinv Hp) as Hinvp.
  assert (Hwp : now (w <| w_pages := p |>) e) by done.
  wp_next. case_match.
  - eapply wp_mono; [by apply handle_mem_read_ok|]. intros s' w' Hpost. by apply mem_returned_ok.
  - apply wp_ret. apply mem_returned_ok; [done|]. split; [done|]. by exists e.
Qed.

Lemma handle_aerror_ok e w :
  now w e -> ev_context e = Z.of_nat i ->
  wp (handle_aerror (ev_id e)) (fun _ w' => inv_for P w') w.
Proof.
  intros [Hinv He] Hc. unfold handle_aerror. wp_next.
  apply (wp_get_event e); [by eapply iv_ids|done|].
  apply (wp_fail_event P _ _ _ _ e); [done|done|done|done|by apply mine_idle|done].
Qed.
End answers.
