(* ===== verification/CmdSafeSend.v ===== *)
(** ocse/cmd.c: sending responses, and ending the entries of clients that left,
    keep the invariant. *)
From S2P Require Import Prelude Utils Event TlxHost TlxAfu TlxApi Parms.
From S2P Require Import CmdState Cmd CmdHandlers CmdLogic CmdInv CmdSafe CmdSafeResp.

Lemma size_to_dl_host h :
  h = 64 \/ h = 128 \/ h = 256 -> size_to_dl (i16 h) = if h =? 64 then 1 else if h =? 128 then 2 else 3.
Proof. by intros [-> | [-> | ->]]. Qed.

Lemma next_part_ok h e :
  h = 64 \/ h = 128 \/ h = 256 -> ev_ok h e -> ev_ok h (next_part h e).
Proof.
  intros Hh Hok. pose proof Hok as [H1 H2 H3 H4 H5 H6 H7 H8 H9 H10]. unfold next_part.
  destruct (h <? ev_size e) eqn:E; [|done]. cbv zeta. rewrite size_to_dl_host by done.
  destruct (truthy (ev_resp_bytes_sent e)) eqn:Et; constructor; cbn -[Z.eqb]; try done.
  - unfold part_ok in *. destruct Hh as [-> | [-> | ->]]; cbn; lia.
  - unfold part_ok in *. destruct Hh as [-> | [-> | ->]]; cbn; [lia| |lia].
    destruct H7 as [? | [? | [? | ?]]]; lia.
Qed.

Lemma next_part_keeps h e :
  same_name e (next_part h e) /\ in_flight (next_part h e) = in_flight e /\
  ev_state (next_part h e) = ev_state e /\ ev_type (next_part h e) = ev_type e /\
  ev_command (next_part h e) = ev_command e.
Proof. unfold next_part. by repeat case_match. Qed.

(** The data of a part is inside the 256-byte buffer, at both ends. *)
Lemma part_data_ok h e afu code bdi :
  ev_ok h e -> event_wf afu ->
  is_Some (tlx_afu_send_resp_and_data afu (event_resp e code) bdi (ev_data e)).
Proof.
  intros [[Hl _] H2 H3 H4 H5 H6 H7 H8 H9 H10] Hafu. unfold tlx_afu_send_resp_and_data.
  case_match; [by eexists|]. case_match; [by eexists|]. cbv zeta.
  destruct (field_get (p := tlx_afu_resp_data) afu Hafu) as [Hrl _].
  assert (Hd : exists l, memcpy (tlx_afu_resp_data afu)
    (drop (Z.to_nat (0 + Z.land (tr_dp (event_resp e code)) 3 * 64)) (ev_data e))
    (u32 (dl_to_size (tr_dl (event_resp e code)))) = Some l).
  { assert (Hdp : forall x, 0 <= Z.land x 3 <= 3).
    { intros x. assert (Z.land x 3 = x mod 4) as -> by exact (Z.land_ones x 2 ltac:(lia)).
      pose proof (Z.mod_pos_bound x 4). lia. }
    cbn [event_resp tr_dp tr_dl]. pose proof (Hdp (u8 (ev_resp_dp e))) as Hb.
    unfold part_ok in H7.
    assert (Hcase : (ev_resp_dl e = 1) \/ (ev_resp_dl e = 2 /\ ev_resp_dp e = 2) \/
                    ((ev_resp_dl e = 2 \/ ev_resp_dl e = 3) /\ ev_resp_dp e = 0)) by lia.
    apply memcpy_defined.
    - rewrite Hrl. destruct Hcase as [-> | [[-> _] | [[-> | ->] _]]]; vm_compute; split; congruence.
    - rewrite length_drop, Hl.
      destruct Hcase as [-> | [[-> ->] | [[-> | ->] ->]]].
      + change (u32 (dl_to_size (u8 1))) with 64. lia.
      + by vm_compute.
      + by vm_compute.
      + by vm_compute. }
  destruct Hd as [l Hd]. eexists. eapply bind_eq; [|reflexivity]. exact Hd.
Qed.

Lemma event_resp_ok e code : tlx_resp_ok (event_resp e code).
Proof. unfold tlx_resp_ok, event_resp. cbn.
  split_and!; first [by apply Z.mod_pos_bound | by vm_compute].
Qed.

Section handlers.
Context (P : nat -> Prop).

Local Notation keeps_inv m w := (wp m (fun _ w' => inv_for P w') w) (only parsing).

Lemma send_resp_ok e (Q : Z -> world -> Prop) w :
  inv_for P w ->
  (forall rc w', inv_for P w' -> w_list w' = w_list w -> w_host_CL_size w' = w_host_CL_size w ->
     Q rc w') -> wp (send_resp e) Q w.
Proof.
  intros Hinv HQ. unfold send_resp. apply wp_gets_bind.
  destruct (tlx_afu_send_resp _ _) as [rc afu] eqn:E. apply wp_modify_bind, wp_ret, HQ; [|done..].
  apply inv_event; [done|].
  apply (host_call_ok P (HSendResp (event_resp e (ev_resp e))) w rc);
    [done|done|apply event_resp_ok|by cbn; rewrite E].
Qed.

Lemma send_resp_and_data_ok e (Q : Z -> world -> Prop) w :
  inv_for P w -> ev_ok (w_host_CL_size w) e ->
  (forall rc w', inv_for P w' -> w_list w' = w_list w -> w_host_CL_size w' = w_host_CL_size w ->
     Q rc w') -> wp (send_resp_and_data e) Q w.
Proof.
  intros Hinv Hok HQ. unfold send_resp_and_data.
  pose proof (iv_parms _ _ Hinv) as []. apply wp_draw; [done|]. intros b ds.
  apply wp_gets_bind. pose proof (iv_event _ _ Hinv) as Hafu.
  destruct (part_data_ok _ e (w_event w) 0 (bool_int b) Hok Hafu) as [[rc afu] E].
  wp_next. apply (wp_lift _ (rc, afu)); [done|].
  apply wp_modify_bind, wp_ret, HQ; [|done..].
  apply (inv_event P (w <| w_draws := ds |>)); [by apply inv_draws|].
  apply (host_call_ok P (HSendRespAndData (event_resp e 0) (bool_int b) (ev_data e)) w rc);
    [done|done| |done].
  split_and!; [apply event_resp_ok|by destruct b|apply (eo_data _ _ Hok)].
Qed.

(** What a send leaves of the entry. *)
Definition sent_post (e : cmd_event) (w' : world) : Prop :=
  inv_for P w' /\ exists e', e' ∈ w_list w' /\ same_name e e' /\ in_flight e' = false.

Lemma drive_resp_ok e (Q : Z -> world -> Prop) w :
  inv_for P w -> e ∈ w_list w -> in_flight e = false ->
  (forall rc w', sent_post e w' -> Q rc w') -> wp (drive_resp (w_host_CL_size w) e) Q w.
Proof.
  intros Hinv He Hf HQ. unfold drive_resp. case_bool_decide.
  { apply send_resp_ok; [done|]. intros rc w' Hw' Hl _. apply HQ. split; [done|].
    exists e. by rewrite Hl. }
  cbv zeta. set (split := if resp_with_data e then _ else _).
  set (h := w_host_CL_size w) in *.
  assert (Hstep : wp (when_ split (upd_event (ev_id e) (next_part h)))
    (fun _ w' => inv_for P w' /\ w_host_CL_size w' = h /\
       exists e', e' ∈ w_list w' /\ same_name e e' /\ in_flight e' = false) w).
  { apply wp_when; [|intros _; split_and!; [done|done|by exists e]]. intros _.
    destruct (next_part_keeps h e) as (Hn & Hf' & _). apply wp_upd_event. split_and!; [|done|].
    - apply inv_upd; [done|done|]. apply replaces_idle; [by apply idle_not_in_flight|done|].
      apply next_part_ok; [by eapply iv_host|by eapply iv_events].
    - exists (next_part h e). split_and!; [|done|congruence].
      exact (elem_of_upd_2 (ev_id e) (next_part h) _ e He eq_refl). }
  wp_next. eapply wp_mono; [exact Hstep|]. intros _ w' (Hw' & Hh & e' & He' & Hn & Hf').
  wp_next. rewrite <- (sn_id _ _ Hn). apply (wp_get_event e'); [by eapply iv_ids|done|].
  case_match.
  - apply send_resp_and_data_ok; [done|by eapply iv_events|].
    intros rc w'' Hw'' Hl _. apply HQ. split; [done|]. exists e'. by rewrite Hl.
  - apply send_resp_ok; [done|].
    intros rc w'' Hw'' Hl _. apply HQ. split; [done|]. exists e'. by rewrite Hl.
Qed.

Lemma resp_due_not_in_flight e : resp_due e = true -> in_flight e = false.
Proof. unfold resp_due, in_flight. by destruct (ev_type e), (ev_state e). Qed.

Lemma handle_response_ok w : inv_for P w -> keeps_inv handle_response w.
Proof.
  intros Hinv. unfold handle_response. wp_next. apply wp_find_event; [done|].
  intros e He Hd. apply resp_due_not_in_flight in Hd.
  wp_next. apply (wp_get_client P); [done|by eapply (eo_context (w_host_CL_size w)), iv_events|done|].
  intros i c _ _. apply wp_gets_bind. wp_next. apply drive_resp_ok; [done..|].
  intros rc w' (Hinv' & x & Hx & [Hid Htag Hctx] & Hf). wp_next. rewrite <- Hid.
  apply (wp_get_event x); [by eapply iv_ids|done|].
  assert (Hi : idle_entry P w' x) by by apply idle_not_in_flight.
  case_match; [case_match; [|case_match]|].
  - by apply wp_upd_event, inv_set_state.
  - done.
  - by apply (inv_free P w' x).
  - apply wp_when; [|done]. intros _. apply wp_upd_event.
    apply inv_upd; [done|done|]. apply replaces_idle; [done|done|].
    pose proof (iv_events _ _ Hinv' x Hx) as []. by constructor.
Qed.

(** ** Clients that leave *)

Lemma client_cmd_list_ok w i c l :
  inv_for P w -> w_clients w !! i = Some (Some c) -> (forall e, e ∈ l -> e ∈ w_list w) ->
  Forall2 (replaces P w) l (client_cmd_list c l).2.
Proof.
  intros Hinv Hc. induction l as [|e l IH]; intros Hl; [done|]. cbn [client_cmd_list].
  assert (He : replaces P w e e) by (apply replaces_refl; [done|apply Hl; by left]).
  assert (Hrest : Forall2 (replaces P w) l (client_cmd_list c l).2).
  { apply IH. intros x Hx. apply Hl. by right. }
  assert (Hall : Forall2 (replaces P w) l l).
  { apply Forall_Forall2_diag, list_relations.list.Forall_forall. intros x Hx.
    apply replaces_refl; [done|]. apply Hl. by right. }
  destruct (client_cmd_list c l) as [rc l'] eqn:E. cbn [snd] in Hrest.
  destruct (negb (ev_context e =? cl_context c)) eqn:Ec; [by constructor|].
  apply negb_false_iff, Z.eqb_eq in Ec.
  destruct (bool_decide (cl_state c = CLIENT_NONE) && _) eqn:Es.
  - apply andb_true_iff in Es as [Es%bool_decide_eq_true_1 _]. constructor; [|done].
    apply replaces_idle.
    + intros j _ Hj (c' & Hc' & Hs' & _).
      assert (j = i) as -> by (rewrite (iv_client _ _ Hinv i c Hc) in Ec; lia). congruence.
    + by case_match.
    + pose proof (iv_events _ _ Hinv e (Hl e (list_elem_of_here e l))) as [].
      case_match; by constructor.
  - destruct (bool_decide (cl_state c = CLIENT_VALID)); by constructor.
Qed.

Lemma client_cmd_ok w i c :
  inv_for P w -> w_clients w !! i = Some (Some c) -> keeps_inv (client_cmd c) w.
Proof.
  intros Hinv Hc. unfold client_cmd. apply wp_gets_bind.
  pose proof (client_cmd_list_ok w i c (w_list w) Hinv Hc (fun _ H => H)) as Hl.
  destruct (client_cmd_list c (w_list w)) as [rc l]. cbn [snd] in Hl.
  by apply wp_modify_bind, wp_ret, inv_map.
Qed.
End handlers.
