(* ===== verification/CmdSafeAdd.v ===== *)
(** ocse/cmd.c: taking a command in keeps the invariant. *)
From S2P Require Import Prelude Utils Event TlxHost TlxAfu TlxApi Parms.
From S2P Require Import CmdState Cmd CmdHandlers CmdLogic CmdInv CmdSafe CmdSafeResp.

(** * New entries *)

(** The sizes of memory commands. *)
Definition legal_size (size : Z) : Prop := 0 <= size <= 64 \/ size = 128 \/ size = 256.

Lemma ev_ok_new h id context tag command type addr size state resp unlock be flag endian op :
  0 <= context < 2 ^ 31 -> legal_size size -> (64 < size -> line_offset addr = 0) ->
  (command = AFU_CMD_INTRP_REQ_D -> size <= 32) ->
  (type = CMD_AMO_RD \/ type = CMD_AMO_RW -> size <= 8) -> state <> MEM_CAS_RD ->
  ev_ok h (new_event id context tag command type addr size state resp unlock be flag endian op).
Proof.
  intros Hc Hs Hl Hi Ha Hst. unfold legal_size in Hs.
  constructor; cbn -[Z.leb]; try done; try lia.
  - split; auto with ocse.
  - unfold part_ok. destruct (size <=? 64) eqn:E; [left; lia|].
    right; left. split; [lia|]. split; [|done].
    destruct Hs as [? | [-> | ->]]; [lia|by left|by right].
  - unfold i32. rewrite Z.mod_small; [lia|]. change (2 ^ 32) with (2 * 2 ^ 31). lia.
Qed.

Lemma aligned_line addr size :
  (_aligned addr size =? BAD_OPERAND_SIZE) = false -> (_aligned addr size =? BAD_ADDR_OFFSET) = false ->
  size = 128 \/ size = 256 -> line_offset addr = 0.
Proof.
  intros H2 H3 Hs. unfold _aligned in *.
  assert (Hz : Z.land addr (u32 (size - 1)) = 0).
  { destruct ((size =? 0) || truthy (Z.land size (u32 (size - 1)))); [done|].
    unfold truthy in H3. destruct (Z.eqb_spec (Z.land addr (u32 (size - 1))) 0); [done|discriminate H3]. }
  unfold line_offset, CACHELINE_OFFSET.
  destruct Hs as [-> | ->].
  - change (u32 (128 - 1)) with 127 in Hz. replace 63 with (Z.land 127 63) by done. by rewrite Z.land_assoc, Hz.
  - change (u32 (256 - 1)) with 255 in Hz. replace 63 with (Z.land 255 63) by done. by rewrite Z.land_assoc, Hz.
Qed.

Section add.
Context (P : nat -> Prop).

Local Notation keeps_inv m w := (wp m (fun _ w' => inv_for P w') w) (only parsing).

Lemma wp_insert_event e l (Q : list cmd_event -> world -> Prop) w :
  is_Some (reorder_percent (w_parms w)) ->
  (forall l' ds, l' ≡ₚ e :: l -> Q l' (w <| w_draws := ds |>)) ->
  wp (insert_event e l) Q w.
Proof.
  revert Q w. induction l as [|x l IH]; intros Q w Hp HQ; cbn [insert_event].
  - specialize (HQ [e] (w_draws w)). destruct w. by apply HQ.
  - apply wp_draw; [done|]. intros [] ds; [by apply HQ|].
    wp_next. apply IH; [done|]. intros l' ds' Hl'. apply HQ. rewrite Hl'. constructor.
Qed.

Definition tag_free (w : world) (tag : Z) : Prop := tag ∉ map ev_afutag (w_list w).

Lemma inv_insert w e l :
  inv_for P w -> l ≡ₚ e :: w_list w -> ev_ok (w_host_CL_size w) e ->
  ev_id e ∉ ids (w_list w) -> (ev_id e < w_next w)%nat -> tag_free w (ev_afutag e) ->
  inv_for P (w <| w_list := l |>).
Proof.
  intros Hinv Hl Hok Hid Hlt Htag. pose proof Hinv as [].
  constructor; cbn; try done.
  - unfold ids. rewrite Hl. cbn. by constructor.
  - intros x. rewrite Hl. intros [-> | Hx]%elem_of_cons; auto.
  - rewrite Hl. cbn. by constructor.
  - intros x. rewrite Hl. intros [-> | Hx]%elem_of_cons; auto.
  - intros i id Hi Hw. destruct (iv_access i id Hi Hw) as (x & Hx & Hrest).
    exists x. split; [|done]. rewrite Hl. by right.
Qed.

Lemma inv_next w : inv_for P w -> inv_for P (w <| w_next := S (w_next w) |>).
Proof. intros []. constructor; try done. intros e He. cbn. specialize (iv_fresh e He). lia. Qed.

(** A step that rewrites the entry [id], which is not at a client. *)
Lemma rewrite_entry e f w :
  inv_for P w -> e ∈ w_list w -> in_flight e = false -> same_name e (f e) ->
  ev_ok (w_host_CL_size w) (f e) ->
  inv_for P (w <| w_list := upd_list (ev_id e) f (w_list w) |>) /\
  f e ∈ upd_list (ev_id e) f (w_list w).
Proof.
  intros Hinv He Hf Hn Hok. split.
  - apply inv_upd; [done|done|]. apply replaces_idle; [by apply idle_not_in_flight|done|done].
  - exact (elem_of_upd_2 (ev_id e) f _ e He eq_refl).
Qed.

Lemma store_data_ok e w :
  inv_for P w -> e ∈ w_list w -> in_flight e = false ->
  keeps_inv (store_data (ev_id e) (ev_size e)) w.
Proof.
  intros Hinv He Hf. unfold store_data. apply wp_modify_bind. wp_next.
  apply (wp_get_event e); [exact (iv_ids _ _ Hinv)|done|]. apply wp_gets_bind.
  change (w_event (w <| w_buffer_read := Some (ev_id e) |>)) with (w_event w).
  pose proof (iv_events _ _ Hinv e He) as Hok. pose proof Hok as [H1 H2 H3 H4 H5 H6 H7 H8 H9 H10].
  destruct (field_get (p := afu_tlx_cdata_bus) (w_event w) (iv_event _ _ Hinv)) as [Hbl Hbb].
  destruct (memcpy_defined (ev_data e) (afu_tlx_cdata_bus (w_event w)) 64) as [d Hd];
    [rewrite (proj1 H1); lia|rewrite Hbl; lia|].
  wp_next. apply (wp_lift _ d); [exact Hd|].
  pose proof (memcpy_wf _ _ _ _ _ Hd Hbb H1) as Hda.
  destruct (rewrite_entry e (fun e => e <| ev_data := d |>) (w <| w_buffer_read := Some (ev_id e) |>))
    as [Hinv' He']; [by apply inv_buffer_read|done|done|done|constructor; cbn; done|].
  wp_next. apply wp_upd_event, wp_when; [|done]. intros _.
  set (e1 := e <| ev_data := d |>) in *.
  case_match; apply wp_upd_event.
  - apply (rewrite_entry e1 (fun e => e <| ev_dpartial := 64 |> <| ev_state := MEM_BUFFER |>) _ Hinv' He');
      [done|done|]. constructor; cbn; try done; lia.
  - apply (rewrite_entry e1 (fun e => e <| ev_state := MEM_RECEIVED |> <| ev_dpartial := 0 |>) _ Hinv' He');
      [done|done|]. constructor; cbn; try done; lia.
Qed.

Lemma take_data_ok e w :
  inv_for P w -> e ∈ w_list w -> in_flight e = false ->
  keeps_inv (take_data (ev_id e) (ev_size e)) w.
Proof.
  intros Hinv He Hf. unfold take_data. wp_next. unfold _incoming_data_expected. wp_next.
  apply wp_find_event; [by apply store_data_ok|]. intros x _ _.
  apply wp_modify, inv_event; [done|]. by eapply cdata_valid_ok.
Qed.

Lemma add_cmd_ok context tag command type addr size state resp unlock dv be flag endian op w :
  inv_for P w -> tag_free w tag -> 0 <= context < 2 ^ 31 -> legal_size size ->
  (64 < size -> line_offset addr = 0) -> (command = AFU_CMD_INTRP_REQ_D -> size <= 32) ->
  (type = CMD_AMO_RD \/ type = CMD_AMO_RW -> size <= 8) -> state = MEM_IDLE \/ state = MEM_DONE ->
  keeps_inv (_add_cmd context tag command type addr size state resp unlock dv be flag endian op) w.
Proof.
  intros Hinv Htag Hc Hs Hl Hi Ha Hst. unfold _add_cmd. apply wp_gets_bind, wp_modify_bind.
  assert (u16 size = size) as ->.
  { unfold u16. apply Z.mod_small. change (2 ^ 16) with 65536. unfold legal_size in Hs. lia. }
  cbv zeta. set (e := new_event _ _ _ _ _ _ _ _ _ _ _ _ _ _).
  assert (Hok : ev_ok (w_host_CL_size w) e).
  { apply ev_ok_new; try done. by destruct Hst as [-> | ->]. }
  pose proof (inv_next w Hinv) as Hinv'. set (w1 := w <| w_next := _ |>) in *.
  assert (Hgo : forall e', (e' = e \/ e' = e <| ev_resp := TLX_RESPONSE_FAILED |> <| ev_state := MEM_DONE |>) ->
    keeps_inv (l ← gets w_list; l ← insert_event e' l; modify (fun w => w <| w_list := l |>);;
               when_ dv (take_data (w_next w) size)) w1).
  { intros e' He'.
    assert (Hok' : ev_ok (w_host_CL_size w) e').
    { destruct He' as [-> | ->]; [done|]. destruct Hok. by constructor. }
    assert (Hsame : ev_id e' = w_next w /\ ev_afutag e' = tag /\ ev_size e' = size /\ in_flight e' = false).
    { destruct He' as [-> | ->]; (split_and!; [done..|]); unfold in_flight; cbn;
        [destruct Hst as [-> | ->]|]; by destruct type. }
    destruct Hsame as (Hid & Htg & Hsz & Hf).
    apply wp_gets_bind. wp_next.
    apply wp_insert_event; [by destruct (iv_parms _ _ Hinv)|]. intros l ds Hl'.
    apply wp_modify_bind.
    assert (Hinv2 : inv_for P (w1 <| w_draws := ds |> <| w_list := l |>)).
    { apply (inv_insert _ e'); [by apply inv_draws|done|done| |cbn; rewrite Hid; lia|by rewrite Htg].
      rewrite Hid. intros (x & Hx & Hxl)%list_elem_of_fmap.
      pose proof (iv_fresh _ _ Hinv x Hxl). lia. }
    apply wp_when; [|done]. intros _. rewrite <- Hid, <- Hsz.
    apply take_data_ok; [done| |done]. cbn. rewrite Hl'. by left. }
  wp_next. apply (wp_get_client P); [done|apply (eo_context _ _ Hok)| |].
  - apply Hgo. by right.
  - intros i c _ _. apply Hgo. by left.
Qed.

(** ** Formatting *)

(** Reads and writes: the size is checked before it is used. *)
Definition checked_size (size : Z) : Prop := legal_size size \/ size = 2 ^ 32 - 1.

Lemma dl_checked dl : checked_size (u32 (dl_to_size dl)).
Proof.
  unfold dl_to_size, checked_size, legal_size. repeat case_match; vm_compute; intuition congruence.
Qed.
Lemma pl_checked pl : checked_size (u32 (pl_to_size pl)).
Proof.
  unfold pl_to_size, checked_size, legal_size. repeat case_match; vm_compute; intuition congruence.
Qed.

Lemma aligned_legal addr size :
  checked_size size -> (_aligned addr size =? BAD_OPERAND_SIZE) = false -> legal_size size.
Proof. intros [? | ->]; [done|]. discriminate. Qed.

Lemma aligned_offset addr size :
  legal_size size -> (_aligned addr size =? BAD_OPERAND_SIZE) = false ->
  (_aligned addr size =? BAD_ADDR_OFFSET) = false -> 64 < size -> line_offset addr = 0.
Proof. intros Hs H2 H3 Hlt. eapply aligned_line; [done|done|]. unfold legal_size in Hs. lia. Qed.

Ltac add_side :=
  first [done | unfold legal_size; lia | by intros [] | by left | by right | by apply aligned_offset].

Lemma find_client_bound p k cs i :
  find_client p k cs = Some i ->
  (k <= i < k + length cs)%nat /\ exists c, cs !! (i - k)%nat = Some (Some c) /\ p c = true.
Proof.
  revert k. induction cs as [|o cs IH]; intros k; cbn [find_client]; [done|].
  assert (Hstep : find_client p (S k) cs = Some i ->
    (k <= i < k + length (o :: cs))%nat /\
    exists c, (o :: cs) !! (i - k)%nat = Some (Some c) /\ p c = true).
  { intros [Hb (c & Hc & Hp)]%IH. cbn. split; [lia|].
    exists c. split; [|done]. by replace (i - k)%nat with (S (i - S k)) by lia. }
  destruct o as [c|]; [|exact Hstep]. destruct (p c) eqn:E; [|exact Hstep].
  intros [= <-]. cbn. split; [lia|]. exists c. split; [|done]. by rewrite Nat.sub_diag.
Qed.

(** A context found by acTag is one of a client that is there. *)
Lemma wp_find_actag tag (Q : Z -> world -> Prop) w :
  inv_for P w -> Q (-1) w -> (forall x, 0 <= x < 2 ^ 31 -> Q x w) ->
  wp (_find_client_by_actag tag) Q w.
Proof.
  intros Hinv Hn Hs. apply wp_gets. case_match eqn:E; [|done].
  apply find_client_bound in E as [Hb _]. apply Hs. unfold client_array in Hb.
  rewrite length_take in Hb. destruct (iv_max _ _ Hinv) as [_ Hm]. lia.
Qed.

Lemma context_found x : 0 <= x < 2 ^ 31 -> (x =? -1) = false.
Proof. lia. Qed.

Lemma add_fail_ok actag tag op resp rop w :
  inv_for P w -> tag_free w tag -> keeps_inv (_add_fail actag tag op resp rop) w.
Proof.
  intros Hinv Ht. unfold _add_fail. wp_next. apply wp_find_actag; [done|done|].
  intros x Hx. rewrite (context_found x Hx).
  apply add_cmd_ok; add_side.
Qed.

(** A command whose context is found is added, any other is ignored. *)
Lemma add_found_ok actag tag op type addr size state resp unlock dv be flag endian rop w :
  inv_for P w -> tag_free w tag -> legal_size size -> (64 < size -> line_offset addr = 0) ->
  (op = AFU_CMD_INTRP_REQ_D -> size <= 32) ->
  (type = CMD_AMO_RD \/ type = CMD_AMO_RW -> size <= 8) -> state = MEM_IDLE \/ state = MEM_DONE ->
  keeps_inv (context ← _find_client_by_actag actag;
    if context =? -1 then mret tt
    else _add_cmd context tag op type addr size state resp unlock dv be flag endian rop) w.
Proof.
  intros. wp_next. apply wp_find_actag; [done|done|]. intros x Hx. rewrite (context_found x Hx).
  by apply add_cmd_ok.
Qed.

Lemma add_interrupt_ok actag tag op ea size dv flag w :
  inv_for P w -> tag_free w tag -> legal_size size -> size <= 64 ->
  (op = AFU_CMD_INTRP_REQ_D -> size <= 32) ->
  keeps_inv (_add_interrupt actag tag op ea size dv flag) w.
Proof.
  intros Hinv Ht Hs Hle Hi. unfold _add_interrupt. wp_next. apply wp_find_actag; [done|done|].
  intros x Hx. rewrite (context_found x Hx). cbv zeta.
  case_match; (apply add_cmd_ok; add_side).
Qed.

Lemma add_read_ok actag tag op ea size w :
  inv_for P w -> tag_free w tag -> checked_size size -> op <> AFU_CMD_INTRP_REQ_D ->
  keeps_inv (_add_read actag tag op ea size) w.
Proof.
  intros Hinv Ht Hs Hop. unfold _add_read. cbv zeta.
  destruct (_ =? BAD_OPERAND_SIZE) eqn:E2; [by apply add_fail_ok|].
  destruct (_ =? BAD_ADDR_OFFSET) eqn:E3; [by apply add_fail_ok|].
  pose proof (aligned_legal _ _ Hs E2).
  apply add_found_ok; add_side.
Qed.

Lemma add_write_ok actag tag op ea size dv be w :
  inv_for P w -> tag_free w tag -> checked_size size -> op <> AFU_CMD_INTRP_REQ_D ->
  keeps_inv (_add_write actag tag op ea size dv be) w.
Proof.
  intros Hinv Ht Hs Hop. unfold _add_write. cbv zeta.
  destruct (_ =? BAD_OPERAND_SIZE) eqn:E2; [by apply add_fail_ok|].
  destruct (_ =? BAD_ADDR_OFFSET) eqn:E3; [by apply add_fail_ok|].
  pose proof (aligned_legal _ _ Hs E2). wp_next. apply wp_find_actag; [done|done|].
  intros x Hx. rewrite (context_found x Hx).
  case_match; (apply add_cmd_ok; add_side).
Qed.

Lemma amo_size_small op pl flag size : amo_size op pl flag = inl size -> size = 4 \/ size = 8.
Proof. unfold amo_size. repeat case_match; try done; intros [= <-]; auto. Qed.

Lemma add_amo_ok actag tag op type ea pl dv flag endian w :
  inv_for P w -> tag_free w tag -> op <> AFU_CMD_INTRP_REQ_D ->
  keeps_inv (_add_amo actag tag op type ea pl dv flag endian) w.
Proof.
  intros Hinv Ht Hop. unfold _add_amo. cbv zeta.
  destruct (amo_size op pl flag) as [size|rop] eqn:E; [|by apply add_fail_ok].
  apply amo_size_small in E. destruct (_ =? BAD_ADDR_OFFSET); [by apply add_fail_ok|].
  apply add_found_ok; add_side.
Qed.

Lemma add_xlate_touch_ok actag tag op ea flag pg w :
  inv_for P w -> tag_free w tag -> op <> AFU_CMD_INTRP_REQ_D ->
  keeps_inv (_add_xlate_touch actag tag op ea flag pg) w.
Proof.
  intros Hinv Ht Hop. unfold _add_xlate_touch. cbv zeta.
  case_match; [by apply add_fail_ok|]. case_match; [by apply add_fail_ok|].
  apply add_found_ok; add_side.
Qed.

Lemma assign_actag_ok bdf pasid actag w :
  inv_for P w -> keeps_inv (_assign_actag bdf pasid actag) w.
Proof.
  intros Hinv. unfold _assign_actag. wp_next. apply wp_gets. case_match; [|done].
  apply wp_modify, inv_upd_client; [done|done|]. cbn. intros c id Hc HP Hs Hm.
  apply (iv_access _ _ Hinv); [done|]. by exists c.
Qed.

(** ** Dispatch *)

Lemma keep_data_ok dv w :
  inv_for P w -> wp (keep_data dv) (fun _ w' => inv_for P w' /\ w_list w' = w_list w) w.
Proof.
  intros Hinv. apply wp_when; [|done]. intros _. apply wp_modify. split; [|done].
  apply inv_event; [done|]. by eapply cdata_valid_ok.
Qed.

Lemma is_op_in op ops : is_op op ops = true -> op ∈ ops.
Proof.
  unfold is_op. intros (x & Hx & ->%Z.eqb_eq)%existsb_exists. by apply list_elem_of_In.
Qed.

(** An opcode found in a list without [INTRP_REQ_D] is another one. *)
Ltac not_intrp Hne E :=
  apply (Hne _ _ E); rewrite !not_elem_of_cons; repeat split; try discriminate; apply not_elem_of_nil.

Lemma parse_cmd_ok c dv w :
  inv_for P w -> tag_free w (ac_afutag c) -> legal_intrp c -> keeps_inv (_parse_cmd c dv) w.
Proof.
  intros Hinv Ht Hleg. unfold _parse_cmd. cbv zeta.
  assert (Hkeep : forall m : M unit, (forall w', inv_for P w' -> w_list w' = w_list w -> keeps_inv m w') ->
            keeps_inv (keep_data dv;; m) w).
  { intros m Hm. wp_next. eapply wp_mono; [by apply keep_data_ok|]. intros _ w' [? ?]. by apply Hm. }
  assert (Hne : forall op ops, is_op op ops = true -> AFU_CMD_INTRP_REQ_D ∉ ops ->
            op <> AFU_CMD_INTRP_REQ_D).
  { intros op ops H%is_op_in Hn ->. done. }
  assert (Htag : forall w', w_list w' = w_list w -> tag_free w' (ac_afutag c)).
  { intros w' Hl. unfold tag_free. by rewrite Hl. }
  destruct (is_op _ [AFU_CMD_ASSIGN_ACTAG]) eqn:E1.
  { apply Hkeep. intros w' Hw' _. by apply assign_actag_ok. }
  destruct (is_op _ [AFU_CMD_RD_WNITC; _]) eqn:E2.
  { apply Hkeep. intros w' Hw' Hl. apply add_read_ok; [done|by apply Htag|apply dl_checked|not_intrp Hne E2]. }
  destruct (is_op _ [AFU_CMD_PR_RD_WNITC; _]) eqn:E3.
  { apply Hkeep. intros w' Hw' Hl. apply add_read_ok; [done|by apply Htag|apply pl_checked|not_intrp Hne E3]. }
  destruct (is_op _ [AFU_CMD_DMA_W; _]) eqn:E4.
  { apply add_write_ok; [done|done|apply dl_checked|not_intrp Hne E4]. }
  destruct (is_op _ [AFU_CMD_DMA_PR_W; _]) eqn:E5.
  { apply add_write_ok; [done|done|apply pl_checked|not_intrp Hne E5]. }
  destruct (is_op _ [AFU_CMD_DMA_W_BE; _]) eqn:E6.
  { apply add_write_ok; [done|done|left; left; lia|not_intrp Hne E6]. }
  destruct (is_op _ [AFU_CMD_AMO_RD; _]) eqn:E7; [apply add_amo_ok; [done|done|not_intrp Hne E7]|].
  destruct (is_op _ [AFU_CMD_AMO_RW; _]) eqn:E8; [apply add_amo_ok; [done|done|not_intrp Hne E8]|].
  destruct (is_op _ [AFU_CMD_AMO_W; _]) eqn:E9; [apply add_amo_ok; [done|done|not_intrp Hne E9]|].
  destruct (is_op _ [AFU_CMD_INTRP_REQ_D]) eqn:E10.
  { apply is_op_in, list_elem_of_singleton in E10. specialize (Hleg E10).
    assert (Hsz : 0 <= u16 (pl_to_size (ac_pl c)) <= 32).
    { unfold pl_to_size. repeat case_match; try (vm_compute; split; congruence). lia. }
    apply add_interrupt_ok; [done|done|left; lia|lia|lia]. }
  destruct (is_op _ [AFU_CMD_INTRP_REQ; _]) eqn:E11.
  { apply add_interrupt_ok; [done|done|left; lia|lia|lia]. }
  destruct (is_op _ [AFU_CMD_NOP]) eqn:E12; [done|].
  destruct (is_op _ [AFU_CMD_XLATE_TOUCH; _]) eqn:E13.
  { apply Hkeep. intros w' Hw' Hl. apply add_xlate_touch_ok; [done|by apply Htag|not_intrp Hne E13]. }
  by apply add_fail_ok.
Qed.

Lemma handle_cmd_ok w :
  inv_for P w -> keeps_inv handle_cmd w.
Proof.
  intros Hinv. pose proof (iv_intrp _ _ Hinv) as Hleg. unfold handle_cmd. apply wp_gets_bind.
  destruct (afu_tlx_read_cmd_and_data (w_event w)) as [[rc out] afu] eqn:E.
  assert (Hafu : event_ok w afu).
  { apply (host_call_ok P HReadCmdAndData w rc); [done..|]. cbn. by rewrite E. }
  apply wp_modify_bind. pose proof (inv_event P w afu Hinv Hafu) as Hinv'.
  destruct out as [[c data]|]; [|done].
  assert (Hc : c = get_afu_cmd (w_event w)).
  { unfold afu_tlx_read_cmd_and_data in E. by repeat case_match; injection E. }
  wp_next. unfold wp at 1, find_event, gets.
  destruct (find _ _) as [x|] eqn:Ef; [done|].
  apply parse_cmd_ok; [done| |by rewrite Hc].
  intros (x & Hx & Hxl)%list_elem_of_fmap. apply list_elem_of_In in Hxl.
  pose proof (find_none _ _ Ef x Hxl) as Hf. cbn in Hf. lia.
Qed.
End add.
