(* ===== verification/Mmio.v ===== *)
(** ocse/mmio.c: the accesses of the clients to the AFU's registers and memory,
    and of discovery to its configuration space.  A client's message becomes an
    event at the tail of the queue; the event at the head is driven to the AFU
    by [send_mmio], completed by [handle_ap_resp] and [handle_ap_resp_data], and
    answered to its client by [handle_mmio_done].

    Left out is [handle_mmio_ack], which nothing calls any more. *)
From stdpp Require Import gmap.
From S2P Require Import Prelude Utils Event TlxHost CmdState Cmd.

(** * Events and the queue *)

Definition upd_mmio (f : mmio -> mmio) : M unit := modify (fun w => w <| w_mmio := f (w_mmio w) |>).

(** A pointer to an allocated event is dereferenced. *)
Definition get_mmio (id : addr_t) : M mmio_event :=
  mm ← gets w_mmio;
  lift (mm_heap mm !! id).

Definition set_mmio (id : addr_t) (e : mmio_event) : M unit :=
  upd_mmio (fun mm => mm <| mm_heap := <[id := e]> (mm_heap mm) |>).

Definition upd_mmio_event (id : addr_t) (f : mmio_event -> mmio_event) : M unit :=
  e ← get_mmio id;
  set_mmio id (f e).

(** [malloc] of an event. *)
Definition malloc_event : M (addr_t * mmio_event) :=
  mm ← gets w_mmio;
  upd_mmio (fun mm => mm <| mm_next := S (mm_next mm) |>);;
  mret (mm_next mm, mm_raw mm (mm_next mm)).

(** [malloc] of [size] bytes. *)
Definition malloc_bytes (size : Z) : M (list Z) :=
  mm ← gets w_mmio;
  mret (map (mm_junk mm (mm_next mm)) (seq 0 (Z.to_nat size))).

Definition free_mmio (id : addr_t) : M unit :=
  upd_mmio (fun mm => mm <| mm_heap := delete id (mm_heap mm) |>).

(** The loop that walks to the end of the queue. *)
Definition append_event (id : addr_t) (e : mmio_event) : M unit :=
  set_mmio id e;;
  upd_mmio (fun mm => mm <| mm_list := mm_list mm ++ [id] |>).

(** [mmio->list = mmio->list->_next] *)
Definition pop_event : M unit := upd_mmio (fun mm => mm <| mm_list := tail (mm_list mm) |>).

(** * Addresses *)

Definition cfg_of (mm : mmio) (c : client) : option (fcn_cfg * afu_cfg) :=
  f ← mjoin (mm_fcn_cfg_array mm !! Z.to_nat (cl_fcn c));
  a ← mjoin (fc_afu_cfg_array f !! Z.to_nat (cl_afuid c));
  Some (f, a).

(** The product is one of 32-bit integers. *)
Definition pasid_area (a : afu_cfg) (c : client) : Z :=
  u64 (af_pp_mmio_offset a + u32 (af_pp_mmio_stride a * u32 (cl_context c))).

(** The physical address of a register of the global or of the client's area. *)
Definition mmio_PA (mm : mmio) (c : client) (global : bool) (addr : Z) : option Z :=
  '(f, a) ← cfg_of mm c;
  Some (if global then u64 (fc_bar0 f + af_global_mmio_offset a + addr)
        else u64 (fc_bar0 f + pasid_area a c + addr)).

(** ... and of memory: LPC memory in region 0. *)
Definition mem_PA (mm : mmio) (c : client) (region addr : Z) : option Z :=
  if region =? 0 then Some addr
  else
    '(f, a) ← cfg_of mm c;
    Some (if region =? 1 then u64 (af_global_mmio_offset a + addr)
          else u64 (pasid_area a c + addr)).

(** * Adding accesses *)

(** The event as [malloc] and the assignments leave it. *)
Definition new_mmio_event (raw : mmio_event) (rnw dw PA cfg data : Z) : mmio_event :=
  raw <| me_rnw := rnw |> <| me_dw := dw |> <| me_size := 0 |> <| me_size_received := 0 |>
      <| me_be_valid := 0 |> <| me_data := [] |> <| me_be := 0 |> <| me_cmd_dL := 0 |>
      <| me_cmd_dP := 0 |> <| me_cmd_PA := PA |> <| me_cfg := cfg |>
      <| me_cmd_data := data |> <| me_state := OCSE_IDLE |>.

Definition new_mem_event (raw : mmio_event) (rnw size PA : Z) (data : list Z) (be_valid be : Z)
    : mmio_event :=
  raw <| me_cfg := 0 |> <| me_rnw := rnw |> <| me_be_valid := be_valid |> <| me_dw := 0 |>
      <| me_size := size |> <| me_size_received := 0 |> <| me_data := data |>
      <| me_be := be |> <| me_cmd_PA := PA |> <| me_state := OCSE_IDLE |>.

(** No client: an access to configuration space. *)
Definition _add_event (c : option client) (rnw dw : Z) (global : bool) (addr cfg data : Z)
    : M addr_t :=
  '(id, raw) ← malloc_event;
  mm ← gets w_mmio;
  PA ← lift (match c with None => Some addr | Some c => mmio_PA mm c global addr end);
  append_event id (new_mmio_event raw rnw dw PA cfg data);;
  mret id.

Definition _add_mem_event (c : client) (rnw size region addr : Z) (data : list Z)
    (be_valid be : Z) : M addr_t :=
  '(id, raw) ← malloc_event;
  mm ← gets w_mmio;
  PA ← lift (mem_PA mm c region addr);
  append_event id (new_mem_event raw rnw size PA data be_valid be);;
  mret id.

Definition _add_cfg (rnw dw addr data : Z) : M addr_t := _add_event None rnw dw false addr 1 data.

Definition _add_mmio (c : client) (rnw dw : Z) (global : bool) (addr data : Z) : M addr_t :=
  _add_event (Some c) rnw dw global addr 0 data.

Definition _add_mem (c : client) (rnw size region addr : Z) (data : list Z) (be_valid be : Z)
    : M addr_t :=
  _add_mem_event c rnw size region addr data be_valid be.

(** * Driving the head of the queue *)

Definition CFG_RD_TAG := 0xdead.
Definition CFG_WR_TAG := 0xbeef.
Definition PR_RD_TAG := 0xcafe.
Definition RD_TAG := 0xefac.
Definition PR_WR_TAG := 0xbead.
Definition WR_TAG := 0xdaeb.
Definition WR_BE_TAG := 0xbebe.

(** [cmd_byte_cnt], a [uint16_t]. *)
Definition cmd_byte_cnt (e : mmio_event) : Z :=
  if me_size e =? 0 then (if me_dw e =? 1 then 8 else 4) else u16 (me_size e).

(** The length codes of the command, from [dw] or from [size]. *)
Definition mem_pL (size : Z) : Z :=
  if size =? 2 then 1 else if size =? 4 then 2 else if size =? 8 then 3
  else if size =? 16 then 4 else if size =? 32 then 5 else 0.
Definition mem_dL (size : Z) : Z :=
  if size =? 64 then 1 else if size =? 128 then 2 else if size =? 256 then 3 else 0.

Definition set_lengths (e : mmio_event) : mmio_event :=
  if me_size e =? 0 then
    e <| me_ack := OCSE_MMIO_ACK |> <| me_cmd_dL := 0 |> <| me_cmd_dP := 0 |>
      <| me_cmd_pL := if me_dw e =? 1 then 3 else 2 |>
  else
    e <| me_ack := OCSE_LPC_ACK |> <| me_cmd_pL := mem_pL (me_size e) |>
      <| me_cmd_dL := mem_dL (me_size e) |> <| me_cmd_dP := 0 |>.

(** The bytes [event->data] points to. *)
Definition event_bytes (e : mmio_event) : list Z :=
  if me_size e =? 0 then le_bytes 8 (me_cmd_data e) else me_data e.

Definition PA_offset (e : mmio_event) : Z := Z.land (me_cmd_PA e) 0x3F.

(** [tdata_bus]: a partial write puts its bytes where the address says among 64
    zeros; the rest of the 256 bytes, which is not initialised, is not sent. *)
Definition write_bus (e : mmio_event) : option (list Z) :=
  if cmd_byte_cnt e <? 64
  then copy_at (zeros 256) (PA_offset e) (event_bytes e) (cmd_byte_cnt e)
  else copy_at (zeros 256) 0 (event_bytes e) (cmd_byte_cnt e).

Definition mem_cmd (e : mmio_event) (opcode tag be : Z) : tlx_cmd :=
  TlxCmd opcode tag (me_cmd_dL e) (me_cmd_pL e) be 0 (me_cmd_PA e).

Definition read_cmd (e : mmio_event) : tlx_cmd :=
  if cmd_byte_cnt e <? 64 then mem_cmd e TLX_CMD_PR_RD_MEM PR_RD_TAG 0
  else mem_cmd e TLX_CMD_RD_MEM RD_TAG 0.

Definition write_cmd (e : mmio_event) : tlx_cmd :=
  if cmd_byte_cnt e <? 64 then mem_cmd e TLX_CMD_PR_WR_MEM PR_WR_TAG 0
  else if me_be_valid e =? 0 then mem_cmd e TLX_CMD_WRITE_MEM WR_TAG 0
  else mem_cmd e TLX_CMD_WRITE_MEM_BE WR_BE_TAG (me_be e).

(** A call of the TLX interface that returns a code. *)
Definition host_send (f : AFU_EVENT -> option (Z * AFU_EVENT)) : M Z :=
  afu ← gets w_event;
  '(rc, afu) ← lift (f afu);
  modify (fun w => w <| w_event := afu |>);;
  mret rc.

(** What is sent for the event, of any kind. *)
Definition cfg_bus (e : mmio_event) : list Z :=
  overwrite (zeros 32) (Z.to_nat (Z.land (me_cmd_PA e) 3)) (le_bytes 4 (me_cmd_data e)).

Definition drive_cmd (e : mmio_event) (afu : AFU_EVENT) : option (Z * AFU_EVENT) :=
  if truthy (me_cfg e) then
    if truthy (me_rnw e)
    then tlx_afu_send_cfg_cmd_and_data afu
           (CfgCmd TLX_CMD_CONFIG_READ CFG_RD_TAG 2 0 (me_cmd_PA e)) 0 []
    else tlx_afu_send_cfg_cmd_and_data afu
           (CfgCmd TLX_CMD_CONFIG_WRITE CFG_WR_TAG 2 0 (me_cmd_PA e)) 0 (cfg_bus e)
  else if truthy (me_rnw e) then Some (tlx_afu_send_cmd afu (read_cmd e))
  else
    bus ← write_bus e;
    tlx_afu_send_cmd_and_data afu (write_cmd e) 0 bus.

(** The acknowledgement and the lengths, stored before the command is sent. *)
Definition prepare (e : mmio_event) : mmio_event :=
  if truthy (me_cfg e) then e <| me_ack := OCSE_MMIO_ACK |> else set_lengths e.

Definition send_mmio : M unit :=
  mm ← gets w_mmio;
  match mm_list mm with
  | [] => mret tt
  | id :: _ =>
      event ← get_mmio id;
      if negb (bool_decide (me_state event = OCSE_IDLE)) then mret tt
      else
        upd_mmio_event id prepare;;
        event ← get_mmio id;
        rc ← host_send (drive_cmd event);
        when_ (rc =? TLX_SUCCESS) (upd_mmio_event id (fun e => e <| me_state := OCSE_PENDING |>))
  end.

(** * Answers of the AFU *)

(** The two routines run only while the queue is not empty. *)
Definition head_event : M addr_t :=
  mm ← gets w_mmio;
  lift (head (mm_list mm)).

(** 0: legal, as the code returns it. *)
Definition _resp_dldp_is_legal (cmd_dl resp_dl resp_dp : Z) : Z :=
  if (cmd_dl =? 0) && (resp_dl =? 1) then 0
  else if (cmd_dl =? 1) && (resp_dl =? 1) then 0
  else if (cmd_dl =? 2) && (resp_dl =? 1) && ((resp_dp =? 0) || (resp_dp =? 1)) then 0
  else if (cmd_dl =? 2) && (resp_dl =? 2) && (resp_dp =? 0) then 0
  else if (cmd_dl =? 3) && (resp_dl =? 1) &&
          ((resp_dp =? 0) || (resp_dp =? 1) || (resp_dp =? 2) || (resp_dp =? 3)) then 0
  else if (cmd_dl =? 3) && (resp_dl =? 2) && ((resp_dp =? 0) || (resp_dp =? 1)) then 0
  else if (cmd_dl =? 3) && (resp_dl =? 3) && (resp_dp =? 0) then 0
  else 1.

(** A response taken off the interface: the event it leaves, and whether it may
    be taken at all - a read response to a configuration write would be copied
    through a null pointer. *)
Definition take_cfg_resp (rnw : Z) (afu : AFU_EVENT)
    : Z * option (cfg_resp * option data_beat) * AFU_EVENT :=
  afu_tlx_read_cfg_resp_and_data afu (if truthy rnw then CFG_RD_TAG else CFG_WR_TAG).

(** [cfg_read_data]: the four bytes that came with the response, or 0. *)
Definition cfg_read_data (beat : option data_beat) : Z :=
  match beat with Some (bus, _) => le_val (take 4 bus) | None => 0 end.

Definition read_event {A} (f : AFU_EVENT -> Z * option A * AFU_EVENT) : M (option A) :=
  afu ← gets w_event;
  let '(rc, x, afu) := f afu in
  modify (fun w => w <| w_event := afu |>);;
  mret (if rc =? TLX_SUCCESS then x else None).

Definition cfg_answered (resp : cfg_resp) (beat : option data_beat) (e : mmio_event)
    : mmio_event :=
  let e' := e <| me_resp_code := cr_code resp |> <| me_resp_opcode := cr_opcode resp |> in
  (if truthy (me_rnw e) then e' <| me_cmd_data := cfg_read_data beat |> else e')
    <| me_state := OCSE_DONE |>.

Definition handle_cfg_resp (id : addr_t) (event : mmio_event) : M unit :=
  r ← read_event (take_cfg_resp (me_rnw event));
  match r with
  | None => mret tt
  | Some (resp, beat) =>
      if negb (truthy (me_rnw event)) && bool_decide (is_Some beat) then undef
      else if negb (bool_decide (me_state event = OCSE_PENDING)) then mret tt
      else
        upd_mmio_event id (cfg_answered resp beat)
  end.

Definition handle_mem_resp (id : addr_t) (event : mmio_event) : M unit :=
  r ← read_event afu_tlx_read_resp;
  match r with
  | None => mret tt
  | Some resp =>
      if negb (bool_decide (me_state event = OCSE_PENDING)) then mret tt
      else
        upd_mmio_event id (fun e =>
          e <| me_resp_code := ar_code resp |> <| me_resp_opcode := ar_opcode resp |>);;
        if truthy (me_rnw event) then
          if _resp_dldp_is_legal (me_cmd_dL event) (ar_dl resp) (ar_dp resp) =? 1 then exit_process
          else
            upd_mmio_event id (fun e =>
              e <| me_resp_dL := ar_dl resp |> <| me_resp_dP := ar_dp resp |>
                <| me_partial_index := 0 |> <| me_state := OCSE_BUFFER |>)
        else upd_mmio_event id (fun e => e <| me_state := OCSE_DONE |>)
  end.

Definition handle_ap_resp : M unit :=
  id ← head_event;
  event ← get_mmio id;
  if truthy (me_cfg event) then handle_cfg_resp id event else handle_mem_resp id event.

(** The data of a register read, of a small memory read, and one beat of a
    large one: the event they leave.  A [resp_dL] that was never checked ends
    the process ([error_msg]). *)
Definition take_mmio_data (e : mmio_event) (bus : list Z) : option mmio_event :=
  let length := if me_cmd_pL e =? 2 then 4 else 8 in
  data ← slice bus (PA_offset e) length;
  Some (e <| me_cmd_data := le_val (overwrite (le_bytes 8 (me_cmd_data e)) 0 data) |>
          <| me_state := OCSE_DONE |>).

Definition take_small_data (e : mmio_event) (bus : list Z) : option mmio_event :=
  data ← slice bus (PA_offset e) (me_size e);
  buf ← copy_at (me_data e) 0 data (me_size e);
  Some (e <| me_data := buf |> <| me_state := OCSE_DONE |>).

Definition beat_offset (e : mmio_event) : option Z :=
  if me_resp_dL e =? 1 then Some (me_resp_dP e * 64)
  else if me_resp_dL e =? 2 then Some (me_resp_dP e * (2 * 64) + me_partial_index e)
  else if me_resp_dL e =? 3 then Some (me_partial_index e)
  else None.

Definition take_beat (e : mmio_event) (offset : Z) (bus : list Z) : option mmio_event :=
  buf ← copy_at (me_data e) offset bus 64;
  let e := e <| me_data := buf |> <| me_partial_index := u16 (me_partial_index e + 64) |>
             <| me_size_received := u32 (me_size_received e + 64) |> in
  Some (if me_size_received e =? me_size e then e <| me_state := OCSE_DONE |> else e).

Definition take_data (e : mmio_event) (bus : list Z) : M mmio_event :=
  if me_size e =? 0 then lift (take_mmio_data e bus)
  else if me_size e <? 64 then lift (take_small_data e bus)
  else
    match beat_offset e with
    | None => exit_process
    | Some offset => lift (take_beat e offset bus)
    end.

Definition is_done (e : mmio_event) : bool := bool_decide (me_state e = OCSE_DONE).

Definition handle_ap_resp_data : M unit :=
  id ← head_event;
  event ← get_mmio id;
  if truthy (me_cfg event) || negb (truthy (me_rnw event)) then when_ (is_done event) pop_event
  else
    r ← read_event afu_tlx_read_resp_data;
    match r with
    | None => mret tt
    | Some (bus, _) =>
        if negb (bool_decide (me_state event = OCSE_BUFFER)) then mret tt
        else
          event ← take_data event bus;
          set_mmio id event;;
          when_ (is_done event) pop_event
    end.

(** * The clients *)

Definition drop_client (i : nat) : M unit :=
  upd_client i (client_drop TLX_IDLE_CYCLES CLIENT_NONE).

(** A message to the client; it is dropped when its socket fails. *)
Definition answer (i : nat) (c : client) (l : list Z) : M unit :=
  ok ← put_bytes (cl_fd c) l;
  when_ (negb ok) (drop_client i).

Definition handle_mmio_map (i : nat) : M unit :=
  c ← the_client i;
  answer i c [OCSE_MMIO_ACK; 0].

(** [get_bytes_silent] on the client's socket; on failure the client is dropped
    and the handler returns no event. *)
Definition receive (fuel : nat) (i : nat) (c : client) (size : Z) (s : stream)
    (k : list Z -> stream -> M (option addr_t * stream)) : M (option addr_t * stream) :=
  match get_bytes_silent fuel (truthy (cl_abort c)) size s with
  | GetRunning => running
  | GetFailed => drop_client i;; mret (None, s)
  | GotBytes data s => k data s
  end.

Definition _handle_mmio_write (fuel i : nat) (dw : Z) (global : bool) (s : stream)
    : M (option addr_t * stream) :=
  c ← the_client i;
  receive fuel i c 4 s (fun b s =>
  let offset := ntohl (le_val b) in
  if truthy dw then
    receive fuel i c 8 s (fun b s =>
    id ← _add_mmio c 0 dw global offset (ntohll (le_val b));
    mret (Some id, s))
  else
    receive fuel i c 4 s (fun b s =>
    let data32 := ntohl (le_val b) in
    id ← _add_mmio c 0 dw global offset (Z.lor (Z.shiftl data32 32) data32);
    mret (Some id, s))).

Definition _handle_mmio_read (fuel i : nat) (dw : Z) (global : bool) (s : stream)
    : M (option addr_t * stream) :=
  c ← the_client i;
  receive fuel i c 4 s (fun b s =>
  id ← _add_mmio c 1 dw global (ntohl (le_val b)) 0;
  mret (Some id, s)).

Definition handle_mmio (fuel i : nat) (rnw dw : Z) (global : bool) (s : stream)
    : M (option addr_t * stream) :=
  c ← the_client i;
  if negb (bool_decide (cl_state c = CLIENT_VALID)) then
    answer i c [OCSE_MMIO_FAIL];; mret (None, s)
  else if truthy rnw then _handle_mmio_read fuel i dw global s
  else _handle_mmio_write fuel i dw global s.

(** The size is [int] to [get_bytes_silent]; with byte enables it is 64. *)
Definition _handle_mem_write (fuel i : nat) (region be_valid : Z) (s : stream)
    : M (option addr_t * stream) :=
  c ← the_client i;
  receive fuel i c 4 s (fun b s =>
  let offset := ntohl (le_val b) in
  let store size be s :=
    data ← malloc_bytes size;
    receive fuel i c (i32 size) s (fun got s =>
    id ← _add_mem c 0 size region offset (overwrite data 0 got) be_valid be;
    mret (Some id, s)) in
  if be_valid =? 0 then receive fuel i c 4 s (fun b s => store (ntohl (le_val b)) 0 s)
  else receive fuel i c 8 s (fun b s => store 64 (ntohl (u32 (le_val b))) s)).

Definition _handle_mem_read (fuel i : nat) (region : Z) (s : stream)
    : M (option addr_t * stream) :=
  c ← the_client i;
  receive fuel i c 4 s (fun b s =>
  let offset := ntohl (le_val b) in
  receive fuel i c 4 s (fun b s =>
  let size := ntohl (le_val b) in
  data ← malloc_bytes size;
  id ← _add_mem c 1 size region offset data 0 0;
  mret (Some id, s))).

Definition handle_mem (fuel i : nat) (rnw region be_valid : Z) (s : stream)
    : M (option addr_t * stream) :=
  c ← the_client i;
  if negb (bool_decide (cl_state c = CLIENT_VALID)) then
    answer i c [OCSE_LPC_FAIL];; mret (None, s)
  else if truthy rnw then _handle_mem_read fuel i region s
  else _handle_mem_write fuel i region be_valid s.

(** * The acknowledgement *)

(** A read or a write the AFU refused. *)
Definition access_failed (e : mmio_event) : bool :=
  ((me_resp_opcode e =? 2) || (me_resp_opcode e =? 4)) && truthy (me_resp_code e).

(** What follows the acknowledgement and the response code. *)
Definition returned_data (e : mmio_event) : option (list Z) :=
  if access_failed e || negb (truthy (me_rnw e)) then Some []
  else if truthy (me_size e) then slice (me_data e) 0 (me_size e)
  else if truthy (me_dw e) then Some (le_bytes 8 (htonll (me_cmd_data e)))
  else Some (le_bytes 4 (htonl (u32 (me_cmd_data e)))).

Definition handle_mmio_done (i : nat) : M (option addr_t) :=
  c ← the_client i;
  match cl_mmio_access c with
  | None => mret None
  | Some id =>
      event ← get_mmio id;
      if negb (is_done event) then mret (Some id)
      else
        data ← lift (returned_data event);
        answer i c (me_ack event :: me_resp_code event :: data);;
        free_mmio id;;
        mret None
  end.
