(* ===== verification/Ocl.v ===== *)
(** ocse/ocl.c: the thread of an AFU.  A turn of its loop exchanges a frame with
    the AFU, runs the handlers of the MMIO and of the command component, drives
    the next MMIO access, and then serves every client: it acknowledges a
    finished access, takes one message off the client's socket and sweeps over
    the client's commands. *)
From S2P Require Import Prelude Utils Event Sock TlxWire TlxHost Parms CmdState Cmd CmdHandlers Mmio.

Definition upd_ocl (f : ocl -> ocl) : M unit := modify (fun w => w <| w_ocl := f (w_ocl w) |>).

(** * The AFU *)

(** [_handle_afu]: the MMIO component only while an access is queued ... *)
Definition handle_responses : M unit :=
  mm ← gets w_mmio;
  match mm_list mm with
  | [] => mret tt
  | _ => handle_ap_resp;; handle_ap_resp_data
  end.

(** ... and the command component. *)
Definition handle_commands : M unit :=
  handle_response;;
  handle_buffer_write;;
  handle_xlate_intrp_pending_sent;;
  handle_cmd;;
  handle_afu_tlx_cmd_data_read;;
  handle_afu_tlx_write_cmd;;
  handle_touch;;
  handle_interrupt;;
  handle_write_be_or_amo.

Definition _handle_afu : M unit := handle_responses;; handle_commands.

(** [send_mmio], and the idle cycles an empty queue uses up. *)
Definition drive_afu : M unit :=
  send_mmio;;
  mm ← gets w_mmio;
  when_ (bool_decide (mm_list mm = []))
    (upd_ocl (fun o => o <| ol_idle_cycles := ol_idle_cycles o - 1 |>)).

(** A running AFU with clients, or one that is being discovered, is kept
    clocked. *)
Definition refresh_idle (o : ocl) : ocl :=
  if negb (bool_decide (ol_state o = OCSE_IDLE)) &&
     ((0 <? ol_attached_clients o) || bool_decide (ol_state o = OCSE_RESET) ||
      bool_decide (ol_state o = OCSE_DESC))
  then o <| ol_idle_cycles := TLX_IDLE_CYCLES |> else o.

(** The first half of a turn of [_ocl_loop], on the connection to the AFU;
    [false] when the connection is lost and the loop ends. *)
Definition clock_afu (c : conn) : M (bool * conn) :=
  upd_ocl refresh_idle;;
  o ← gets w_ocl;
  if truthy (ol_idle_cycles o) then
    afu ← gets w_event;
    '(_, afu, c) ← lift (tlx_signal_afu_model afu c);
    '(events, afu, c) ← lift (tlx_get_afu_events afu c);
    modify (fun w => w <| w_event := afu |>);;
    if events <? 0 then mret (false, c)
    else
      when_ (0 <? events) _handle_afu;;
      drive_afu;;
      mret (true, c)
  else mret (true, c).

(** * Attaching and detaching *)

(** When all the clients are attached already the acknowledgement is not
    initialised. *)
Definition _attach (i : nat) : M unit :=
  c ← the_client i;
  o ← gets w_ocl;
  max ← gets w_max_clients;
  let room := ol_attached_clients o <? max in
  when_ room (upd_ocl (fun o => o <| ol_idle_cycles := TLX_IDLE_CYCLES |>));;
  upd_ocl (fun o => o <| ol_attached_clients := ol_attached_clients o + 1 |>
                      <| ol_state := OCSE_RUNNING |>);;
  answer i c [if room then OCSE_ATTACH else ol_junk o].

(** [close_socket] on the client's socket: the descriptor is cleared when the
    system shuts it down and closes it, which is one more outcome of the
    environment's. *)
Definition shuts_down : M bool := fun w =>
  match w_put_ok w with
  | [] => Done true w
  | ok :: oks => Done ok (w <| w_put_ok := oks |>)
  end.

Definition close_client (i : nat) : M unit :=
  closed ← shuts_down;
  when_ closed (upd_client i (fun c => c <| cl_fd := -1 |>)).

(** [_detach]: the pointer is cleared by [client_drop], so the code after it that
    would fail the pending access never runs. *)
Definition forget_client (i : nat) : M unit :=
  upd_client i (client_drop TLX_IDLE_CYCLES CLIENT_NONE);;
  close_client i;;
  c ← the_client i;
  (match cl_mem_access c with
   | Some id =>
       event ← get_event id;
       when_ (negb (bool_decide (ev_state event = MEM_DONE)))
         (upd_event id (fun e => e <| ev_resp := TLX_RESPONSE_FAILED |> <| ev_state := MEM_DONE |>))
   | None => mret tt
   end);;
  upd_client i (fun c =>
    c <| cl_mem_access := None |> <| cl_mmio_access := None |> <| cl_state := CLIENT_NONE |>).

Definition count_detach : M unit :=
  upd_ocl (fun o => o <| ol_attached_clients := ol_attached_clients o - 1 |>);;
  upd_ocl (fun o => if ol_attached_clients o =? 0 then o <| ol_state := OCSE_IDLE |> else o).

Definition _detach (i : nat) : M unit :=
  c ← the_client i;
  put_bytes (cl_fd c) [OCSE_DETACH];;
  forget_client i;;
  count_detach.

(** * The messages of a client *)

(** [_handle_client], the memory acknowledgements: [ok] tells
    [OCSE_MEM_SUCCESS] from [OCSE_MEM_FAILURE]; [s] is what follows the byte. *)
Definition memory_ack (fuel : nat) (i : nat) (ok : bool) (s : stream) : M stream :=
  c ← the_client i;
  if bool_decide (cl_state c = CLIENT_NONE) then mret s
  else
    s ← match cl_mem_access c with
        | None => mret s
        | Some id => if ok then handle_mem_return fuel id s else handle_aerror id;; mret s
        end;
    upd_client i (fun c => c <| cl_mem_access := None |>);;
    mret s.

(** [client->mmio_access = o] *)
Definition set_mmio_access (i : nat) (o : option addr_t) : M unit :=
  upd_client i (fun c => c <| cl_mmio_access := o |>).

Definition refresh_client (i : nat) : M unit :=
  upd_client i (fun c => c <| cl_idle_cycles := TLX_IDLE_CYCLES |>).

Definition finish_access (i : nat) : M unit :=
  c ← the_client i;
  match cl_mmio_access c with
  | None => mret tt
  | Some _ =>
      refresh_client i;;
      a ← handle_mmio_done i;
      set_mmio_access i a
  end.

(** The messages that ask for an access: [rnw], [dw] and [global] of a register
    access, [rnw] and [be_valid] of a memory access. *)
Definition register_op (op : Z) : option (Z * Z * bool) :=
  if op =? OCSE_GLOBAL_MMIO_WRITE64 then Some (0, 1, true)
  else if op =? OCSE_MMIO_WRITE64 then Some (0, 1, false)
  else if op =? OCSE_GLOBAL_MMIO_WRITE32 then Some (0, 0, true)
  else if op =? OCSE_MMIO_WRITE32 then Some (0, 0, false)
  else if op =? OCSE_GLOBAL_MMIO_READ64 then Some (1, 1, true)
  else if op =? OCSE_MMIO_READ64 then Some (1, 1, false)
  else if op =? OCSE_GLOBAL_MMIO_READ32 then Some (1, 0, true)
  else if op =? OCSE_MMIO_READ32 then Some (1, 0, false)
  else None.

Definition memory_op (op : Z) : option (Z * Z) :=
  if op =? OCSE_LPC_WRITE then Some (0, 0)
  else if op =? OCSE_LPC_WRITE_BE then Some (0, 1)
  else if op =? OCSE_LPC_READ then Some (1, 0)
  else None.

(** The [switch] on the first byte. *)
Definition client_message (fuel i : nat) (op : Z) (s : stream) : M (option addr_t * stream) :=
  if op =? OCSE_DETACH then _detach i;; mret (None, s)
  else if op =? OCSE_ATTACH then _attach i;; mret (None, s)
  else if op =? OCSE_MEM_FAILURE then s ← memory_ack fuel i false s; mret (None, s)
  else if op =? OCSE_MEM_SUCCESS then s ← memory_ack fuel i true s; mret (None, s)
  else if (op =? OCSE_MMIO_MAP) || (op =? OCSE_GLOBAL_MMIO_MAP)
  then handle_mmio_map i;; mret (None, s)
  else
    match register_op op, memory_op op with
    | Some (rnw, dw, global), _ => handle_mmio fuel i rnw dw global s
    | None, Some (rnw, be_valid) => handle_mem fuel i rnw 0 be_valid s
    | None, None => exit_process
    end.

Definition refresh_valid (c : client) : client :=
  if bool_decide (cl_state c = CLIENT_VALID) then c <| cl_idle_cycles := TLX_IDLE_CYCLES |> else c.

Definition _handle_client (fuel i : nat) (s : stream) : M stream :=
  finish_access i;;
  c ← the_client i;
  if bool_decide (cl_state c = CLIENT_NONE) then mret s
  else
    let abort := truthy (cl_abort c) in
    let '(rc, s) := bytes_ready abort s in
    if negb (truthy rc) then mret s
    else
      match get_bytes_silent fuel abort 1 s with
      | GetRunning => running
      | GetFailed => drop_client i;; mret s
      | GotBytes b s =>
          op ← lift (head b);
          '(mmio, s) ← client_message fuel i op s;
          (match mmio with Some id => set_mmio_access i (Some id) | None => mret tt end);;
          upd_client i refresh_valid;;
          mret s
      end.

(** * The sweep *)

(** The sweep of [_ocl_loop] at client [i], after its message has been handled:
    a dropped client whose idle cycles have run out leaves the array.  The
    message to a client whose descriptor [_detach] has cleared is a write to -1,
    which reaches nobody. *)
Definition sweep_gone (c : client) : bool :=
  bool_decide (cl_state c = CLIENT_NONE) && (cl_idle_cycles c =? 0).

Definition sweep_leave (i : nat) : M unit :=
  c ← the_client i;
  when_ (sweep_gone c)
    (put_bytes (cl_fd c) [OCSE_DETACH];;
     modify (fun w => w <| w_clients := <[i := None]> (w_clients w) |>)).

(** [while (idle_cycles) idle_cycles--]; the count is never negative. *)
Definition drain_idle (c : client) : client := c <| cl_idle_cycles := 0 |>.

Definition sweep_client (i : nat) : M unit :=
  upd_client i drain_idle;;
  c ← the_client i;
  rc ← client_cmd c;
  when_ (truthy rc) (upd_client i (fun c => c <| cl_idle_cycles := TLX_IDLE_CYCLES |>)).
