(* ===== verification/MmioInv.v ===== *)
(** The invariant of the MMIO component: the queue holds allocated events, its
    head is the only one that has been sent, what has left it is done, and every
    event is within the bounds its copies need.  Each operation keeps it and is
    defined, when the client's request and the AFU's answer are legal. *)
From stdpp Require Import gmap.
From S2P Require Import Prelude Utils Event TlxHost TlxAfu TlxApi Parms.
From S2P Require Import CmdState Cmd CmdHandlers CmdFrame CmdLogic CmdInv CmdSafe CmdSafeResp Mmio Ocl.

(** * Events *)

Definition mem_sizes : list Z := [1; 2; 4; 8; 16; 32; 64; 128; 256].

(** Where a split read stands: the beats received are the first ones. *)
Definition receiving (e : mmio_event) : Prop :=
  me_resp_dL e = mem_dL (me_size e) /\ me_resp_dP e = 0 /\
  me_partial_index e = me_size_received e /\ (64 | me_size_received e) /\
  0 <= me_size_received e < me_size e.

Record mev_ok (e : mmio_event) : Prop := MevOk {
  mo_PA : is_u 64 (me_cmd_PA e);
  mo_be : is_u 64 (me_be e);
  mo_size : me_size e = 0 \/ me_size e ∈ mem_sizes;
  mo_place : truthy (me_cfg e) = false -> cmd_byte_cnt e < 64 ->
    PA_offset e + cmd_byte_cnt e <= 64;
  mo_data : me_size e <> 0 -> length (me_data e) = Z.to_nat (me_size e);
  mo_bytes : truthy (me_rnw e) = false -> bytes (me_data e);
  mo_sent : truthy (me_cfg e) = false -> me_state e <> OCSE_IDLE ->
    me_cmd_dL e = mem_dL (me_size e) /\
    (me_size e = 0 -> me_cmd_pL e = if me_dw e =? 1 then 3 else 2);
  mo_received : me_state e = OCSE_IDLE \/ me_state e = OCSE_PENDING -> me_size_received e = 0;
  mo_buffer : me_state e = OCSE_BUFFER -> 64 <= me_size e -> receiving e;
}.

(** * The state *)

Definition heap (w : world) : gmap addr_t mmio_event := mm_heap (w_mmio w).
Definition queue (w : world) : list addr_t := mm_list (w_mmio w).

(** Client [i] waits for event [id]. *)
Definition owns (w : world) (i : nat) (id : addr_t) : Prop :=
  exists c, w_clients w !! i = Some (Some c) /\ cl_mmio_access c = Some id.

Record minv_mid (w : world) : Prop := MinvMid {
  mi_heap : forall id e, heap w !! id = Some e -> (id < mm_next (w_mmio w))%nat /\ mev_ok e;
  mi_queue : NoDup (queue w);
  mi_alloc : forall id, id ∈ queue w -> is_Some (heap w !! id);
  mi_waiting : forall id e, id ∈ tail (queue w) -> heap w !! id = Some e -> me_state e = OCSE_IDLE;
  mi_left : forall id e, heap w !! id = Some e -> id ∉ queue w -> me_state e = OCSE_DONE;
  mi_access : forall i id, owns w i id ->
    exists e, heap w !! id = Some e /\ truthy (me_cfg e) = false;
  mi_own : forall i j id, owns w i id -> owns w j id -> i = j;
  mi_cfg : forall i c, w_clients w !! i = Some (Some c) -> is_Some (cfg_of (w_mmio w) c);
}.

(** Between the turns nothing in the queue is done. *)
Definition minv (w : world) : Prop :=
  minv_mid w /\ forall id e, id ∈ queue w -> heap w !! id = Some e -> is_done e = false.

(** ** Changes *)

Definition put_mm (id : addr_t) (e : mmio_event) (w : world) : world :=
  w <| w_mmio := w_mmio w <| mm_heap := <[id := e]> (mm_heap (w_mmio w)) |> |>.
Definition pop_mm (w : world) : world :=
  w <| w_mmio := w_mmio w <| mm_list := tail (mm_list (w_mmio w)) |> |>.

Lemma heap_put id e w : heap (put_mm id e w) = <[id := e]> (heap w).
Proof. done. Qed.
Lemma heap_pop w : heap (pop_mm w) = heap w.
Proof. done. Qed.

(** A world that differs in neither the component nor what the clients keep of
    it. *)
Lemma minv_mid_frame w w' : minv_mid w -> cmd_frame w w' -> minv_mid w'.
Proof.
  intros [] [Hm _ Hc].
  assert (Hown : forall i id, owns w' i id -> owns w i id).
  { intros i id (c' & Hc' & Hid). destruct (Hc _ _ Hc') as (c & Hc0 & _ & _ & _ & [E | E]); [|congruence].
    exists c. split; [done|congruence]. }
  constructor; unfold heap, queue in *; rewrite ?Hm; eauto.
  intros i c' Hc'. destruct (Hc _ _ Hc') as (c & Hc0 & _ & Hf & Ha & _).
  destruct (mi_cfg0 i c Hc0) as [x Hx]. exists x. unfold cfg_of in *. by rewrite Hf, Ha.
Qed.

Lemma minv_frame w w' : minv w -> cmd_frame w w' -> minv w'.
Proof.
  intros [Hw Ho] Hf. split; [by eapply minv_mid_frame|]. unfold heap, queue in *.
  by rewrite (cf_mmio _ _ Hf).
Qed.

(** An event changes; only the head may leave [OCSE_IDLE]. *)
Record event_step (w : world) (id : addr_t) (e e' : mmio_event) : Prop := EventStep {
  es_here : heap w !! id = Some e;
  es_ok : mev_ok e';
  es_cfg : me_cfg e' = me_cfg e;
  es_state : me_state e' = me_state e \/ head (queue w) = Some id;
}.

Lemma head_not_tail (l : list addr_t) id : NoDup l -> head l = Some id -> id ∉ tail l.
Proof. destruct l as [|x l]; [done|]. by intros [Hx _]%list_relations.list.NoDup_cons [= <-]. Qed.

Lemma head_in {A} (l : list A) x : head l = Some x -> x ∈ l.
Proof. destruct l; [done|]. intros [= ->]. by left. Qed.

Lemma tail_in {A} (l : list A) x : x ∈ tail l -> x ∈ l.
Proof. destruct l; [done|]. by right. Qed.

Lemma minv_put w id e e' : minv_mid w -> event_step w id e e' -> minv_mid (put_mm id e' w).
Proof.
  intros Hw [Hid Hok Hc Hst]. pose proof Hw as [Hh Hn Ha Hwt Hl Hac Hown Hcfg]. constructor.
  - intros id' x. rewrite heap_put. destruct (decide (id = id')) as [<-|Hne].
    + rewrite lookup_insert_eq. intros [= <-]. split; [|done]. by apply (Hh id e).
    + rewrite lookup_insert_ne by done. apply Hh.
  - exact Hn.
  - intros id' H. apply lookup_insert_is_Some'. right. by apply Ha.
  - intros id' x Ht. rewrite heap_put. destruct (decide (id = id')) as [<-|Hne].
    + rewrite lookup_insert_eq. intros [= <-]. destruct Hst as [E|E]; [|by edestruct head_not_tail].
      rewrite E. by apply (Hwt id).
    + rewrite lookup_insert_ne by done. by apply Hwt.
  - intros id' x. rewrite heap_put. destruct (decide (id = id')) as [<-|Hne].
    + rewrite lookup_insert_eq. intros [= <-] Hnot. destruct Hst as [E|E].
      * rewrite E. by apply (Hl id).
      * by apply head_in in E.
    + rewrite lookup_insert_ne by done. apply Hl.
  - intros i id' Ho. destruct (Hac i id' Ho) as (x & Hx & Hcx). rewrite heap_put.
    destruct (decide (id = id')) as [<-|Hne].
    + exists e'. rewrite lookup_insert_eq, Hc. split; [done|]. congruence.
    + exists x. by rewrite lookup_insert_ne.
  - exact Hown.
  - exact Hcfg.
Qed.

Lemma minv_pop w id e :
  minv_mid w -> head (queue w) = Some id -> heap w !! id = Some e -> is_done e = true ->
  minv (pop_mm w).
Proof.
  intros [] Hhd Hid Hd. apply bool_decide_eq_true in Hd. unfold queue in *.
  assert (Hq : queue (pop_mm w) = tail (mm_list (w_mmio w))) by done.
  assert (Hdec : forall id', id' ∈ mm_list (w_mmio w) -> id' = id \/ id' ∈ tail (mm_list (w_mmio w))).
  { intros id'. destruct (mm_list (w_mmio w)); [done|]. injection Hhd as ->. cbn.
    rewrite elem_of_cons. tauto. }
  split; [constructor|]; rewrite ?Hq, ?heap_pop; try done.
  - destruct (mm_list (w_mmio w)); [done|]. by apply list_relations.list.NoDup_cons in mi_queue0 as [_ ?].
  - intros id' H. by apply mi_alloc0, tail_in.
  - intros id' x H. apply mi_waiting0. by apply tail_in.
  - intros id' x Hx Hn. destruct (decide (id' ∈ mm_list (w_mmio w))) as [Hin|Hout]; [|by eapply mi_left0].
    destruct (Hdec id' Hin) as [-> | Ht]; [congruence|done].
  - intros id' x Hin Hx. apply bool_decide_eq_false. rewrite (mi_waiting0 id' x Hin Hx). done.
Qed.

(** * Both components *)

Definition both (w : world) : Prop := inv w /\ minv w.
Definition both_mid (w : world) : Prop := inv w /\ minv_mid w.

Lemma both_is_mid w : both w -> both_mid w.
Proof. by intros [? []]. Qed.

Lemma open_still w w' :
  minv w -> heap w' = heap w -> queue w' = queue w -> minv_mid w' -> minv w'.
Proof. intros [_ Ho] Hh Hq Hm. split; [done|]. by rewrite Hh, Hq. Qed.

Lemma wp_get_mmio id e (Q : mmio_event -> world -> Prop) w :
  heap w !! id = Some e -> Q e w -> wp (get_mmio id) Q w.
Proof. intros He HQ. unfold get_mmio. apply wp_gets_bind. by apply (wp_lift _ e). Qed.

Lemma wp_set_mmio id e (Q : unit -> world -> Prop) w : Q tt (put_mm id e w) -> wp (set_mmio id e) Q w.
Proof. done. Qed.

Lemma wp_upd_mmio_event id f e (Q : unit -> world -> Prop) w :
  heap w !! id = Some e -> Q tt (put_mm id (f e) w) -> wp (upd_mmio_event id f) Q w.
Proof. intros He HQ. unfold upd_mmio_event. wp_next. by apply (wp_get_mmio _ e). Qed.

Lemma wp_pop (Q : unit -> world -> Prop) w : Q tt (pop_mm w) -> wp pop_event Q w.
Proof. done. Qed.

Lemma wp_head id (Q : addr_t -> world -> Prop) w :
  head (queue w) = Some id -> Q id w -> wp head_event Q w.
Proof. intros Hid HQ. unfold head_event. apply wp_gets_bind. by apply (wp_lift _ id). Qed.

Lemma both_put w id e e' : both_mid w -> event_step w id e e' -> both_mid (put_mm id e' w).
Proof. intros [Hi Hm] Hs. split; [by apply inv_mmio|by eapply minv_put]. Qed.

Lemma both_event w afu : both_mid w -> event_ok w afu -> both_mid (w <| w_event := afu |>).
Proof.
  intros [Hi Hm] Ha. split; [by apply inv_event|]. eapply minv_mid_frame; [exact Hm|].
  by apply cmd_frame_same.
Qed.

Lemma wp_host_send f c rc afu (Q : Z -> world -> Prop) w :
  both_mid w -> host_call c = true -> call_ok c -> run_call c (w_event w) = Some (rc, afu) ->
  f (w_event w) = Some (rc, afu) ->
  (event_ok w afu -> Q rc (w <| w_event := afu |>)) -> wp (host_send f) Q w.
Proof.
  intros [Hi _] Hh Hc Hr Hf HQ. unfold host_send. apply wp_gets_bind. wp_next.
  apply (wp_lift _ (rc, afu)); [done|]. apply wp_modify_bind. apply wp_ret, HQ.
  by eapply host_call_ok.
Qed.

(** * Sending *)

(** The length codes of a memory command are set. *)
Definition lengths_set (e : mmio_event) : Prop :=
  truthy (me_cfg e) = false ->
  me_cmd_dL e = mem_dL (me_size e) /\
  me_cmd_pL e = if me_size e =? 0 then (if me_dw e =? 1 then 3 else 2) else mem_pL (me_size e).

Lemma prepare_ok e : mev_ok e -> me_state e = OCSE_IDLE -> mev_ok (prepare e) /\ lengths_set (prepare e).
Proof.
  intros [a b c d f g _ h _] Hs. unfold prepare, set_lengths, lengths_set.
  destruct (truthy (me_cfg e)) eqn:Ec.
  - split; [|cbn; congruence].
    constructor; first [exact a|exact b|exact c|exact d|exact f|exact g|exact h|cbn; congruence].
  - destruct (me_size e =? 0) eqn:Ez;
      (split; [constructor; first [exact a|exact b|exact c|exact (fun _ => d eq_refl)|exact f|exact g|exact h|cbn; congruence]|]);
      cbn.
    + intros _. rewrite Ez. apply Z.eqb_eq in Ez as ->. by destruct (me_dw e =? 1).
    + intros _. by rewrite Ez.
Qed.

Lemma prepare_same e :
  me_state (prepare e) = me_state e /\ me_cfg (prepare e) = me_cfg e /\ me_rnw (prepare e) = me_rnw e.
Proof. unfold prepare, set_lengths. repeat case_match; done. Qed.

Lemma mem_sizes_cases n : n ∈ mem_sizes ->
  n = 1 \/ n = 2 \/ n = 4 \/ n = 8 \/ n = 16 \/ n = 32 \/ n = 64 \/ n = 128 \/ n = 256.
Proof.
  unfold mem_sizes. rewrite !elem_of_cons. pose proof (not_elem_of_nil n). tauto.
Qed.

Lemma mem_size_cases e : mev_ok e -> me_size e = 0 \/
  me_size e = 1 \/ me_size e = 2 \/ me_size e = 4 \/ me_size e = 8 \/ me_size e = 16 \/
  me_size e = 32 \/ me_size e = 64 \/ me_size e = 128 \/ me_size e = 256.
Proof. intros [_ _ [H|H] _ _ _ _ _ _]; [by left|right]. by apply mem_sizes_cases. Qed.

(** The number of bytes, and what the command's length code says of it. *)
Lemma byte_cnt_cases e : mev_ok e ->
  0 < cmd_byte_cnt e <= 256 /\ cmd_byte_cnt e <= Z.of_nat (length (event_bytes e)) /\
  is_u 8 (mem_dL (me_size e)) /\ is_u 8 (mem_pL (me_size e)) /\
  (if mem_dL (me_size e) =? 0 then cmd_byte_cnt e < 64
   else dl_to_size (mem_dL (me_size e)) = cmd_byte_cnt e).
Proof.
  intros He. pose proof (mo_data e He) as Hd. unfold event_bytes, cmd_byte_cnt.
  assert (Hl : length (le_bytes 8 (me_cmd_data e)) = 8%nat)
    by (unfold le_bytes; by rewrite length_rev, length_be_bytes).
  destruct (mem_size_cases e He) as [E | E].
  { rewrite E. cbn -[le_bytes]. rewrite Hl. destruct (me_dw e =? 1); split_and!; (lia || done). }
  destruct_or! E; rewrite E in Hd |- *; cbn -[length]; rewrite Hd by lia; split_and!; (lia || done).
Qed.

Lemma PA_offset_range e : 0 <= PA_offset e < 64.
Proof. unfold PA_offset. rewrite (land_ones8 _ 6) by (done || lia). by apply Z.mod_pos_bound. Qed.

Lemma event_bytes_bytes e : mev_ok e -> truthy (me_rnw e) = false -> bytes (event_bytes e).
Proof.
  intros He Hr. unfold event_bytes. case_match; [apply Forall_rev, be_bytes_bytes|].
  by apply (mo_bytes e He).
Qed.

(** The bus of a write. *)
Lemma write_bus_ok e : mev_ok e -> truthy (me_rnw e) = false ->
  exists bus, write_bus e = Some bus /\ is_array 256 bus.
Proof.
  intros He Hr. destruct (byte_cnt_cases e He) as ([H0 H1] & H2 & _).
  pose proof (PA_offset_range e) as Ho. pose proof (event_bytes_bytes e He Hr) as Hb.
  unfold write_bus. assert (Hz : is_array 256 (zeros 256)) by apply array_zeros.
  assert (Hlen : length (zeros 256) = 256%nat) by apply length_zeros.
  case_match eqn:E; (rewrite copy_at_some; [|try lia; rewrite ?Hlen; lia ..]); eexists; (split; [done|]);
    (split; [|by apply Forall_overwrite; auto with ocse]);
    rewrite length_overwrite; rewrite ?length_take, ?Hlen; lia.
Qed.

(** The interface calls are defined. *)
Lemma send_cfg_defined afu c bdi data :
  event_wf afu -> cc_opcode c = TLX_CMD_CONFIG_READ \/ (4 <= length data)%nat ->
  is_Some (tlx_afu_send_cfg_cmd_and_data afu c bdi data).
Proof.
  intros Hwf Hd. unfold tlx_afu_send_cfg_cmd_and_data. case_match; [by eexists|].
  case_match; [by eexists|]. case_match; [by eexists|]. cbv zeta. case_match eqn:Ew; [|by eexists].
  destruct Hd as [E|Hd]; [by rewrite E in Ew|].
  destruct (field_get (p := tlx_cfg_data_bus) afu Hwf) as [Hb _].
  assert (Hm : exists bus, (if (cc_opcode c =? TLX_CMD_CONFIG_READ) || (cfg_data_byte_cnt (cc_pl c) =? 0)
    then memcpy (tlx_cfg_data_bus afu) fill 4
    else memcpy (tlx_cfg_data_bus afu) data (cfg_data_byte_cnt (cc_pl c))) = Some bus).
  { unfold cfg_data_byte_cnt. destruct (cc_pl c =? 2); cbn [orb Z.eqb];
      rewrite ?orb_true_r, ?orb_false_r; repeat case_match;
      apply memcpy_defined; rewrite ?Hb; cbn; lia. }
  destruct Hm as [bus Hm]. eexists. eapply bind_eq; [exact Hm|reflexivity].
Qed.

Lemma send_cmd_data_defined afu c bdi data :
  event_wf afu -> is_array 256 data -> 0 <= tc_dl c <= 3 ->
  is_Some (tlx_afu_send_cmd_and_data afu c bdi data).
Proof.
  intros Hwf [Hl _] Hdl. unfold tlx_afu_send_cmd_and_data. case_match; [by eexists|].
  case_match; [by eexists|]. cbv zeta.
  destruct (field_get (p := tlx_afu_cmd_data_bus) afu Hwf) as [Hb _].
  set (size := if negb (tc_dl c =? 0) then dl_to_size (tc_dl c) else 64).
  assert (Hs : 0 <= size <= 256).
  { assert (tc_dl c = 0 \/ tc_dl c = 1 \/ tc_dl c = 2 \/ tc_dl c = 3) as Hc by lia.
    unfold size. destruct_or! Hc; rewrite Hc; by vm_compute. }
  destruct (memcpy_defined (tlx_afu_cmd_data_bus afu) data size) as [bus Hm]; [lia|lia|].
  eexists. eapply bind_eq; [exact Hm|reflexivity].
Qed.

(** What the interface call needs of a prepared event. *)
Lemma drive_defined e afu :
  mev_ok e -> lengths_set e -> event_wf afu ->
  exists c rc afu', host_call c = true /\ call_ok c /\
    run_call c afu = Some (rc, afu') /\ drive_cmd e afu = Some (rc, afu').
Proof.
  intros He Hl Hwf. pose proof (mo_PA e He) as HPA. pose proof (mo_be e He) as Hbe.
  destruct (byte_cnt_cases e He) as (_ & _ & HdL & HpL & _).
  unfold drive_cmd. destruct (truthy (me_cfg e)) eqn:Ec.
  - assert (Hbus : bytes (cfg_bus e)).
    { apply Forall_overwrite; [apply zeros_bytes|]. apply Forall_rev, be_bytes_bytes. }
    assert (H4 : (4 <= length (cfg_bus e))%nat).
    { unfold cfg_bus, overwrite. rewrite !length_app. unfold le_bytes.
      rewrite length_rev, length_be_bytes. lia. }
    destruct (truthy (me_rnw e)); set (c := CfgCmd _ _ _ _ _).
    + destruct (send_cfg_defined afu c 0 []) as [[rc afu'] H]; [done|by left|].
      exists (HSendCfg c 0 []), rc, afu'. split_and!; try done.
    + destruct (send_cfg_defined afu c 0 (cfg_bus e)) as [[rc afu'] H]; [done|by right|].
      by exists (HSendCfg c 0 (cfg_bus e)), rc, afu'.
  - destruct (Hl Ec) as [EdL EpL].
    assert (Hp : is_u 8 (me_cmd_pL e)) by (rewrite EpL; destruct (me_size e =? 0); [by destruct (me_dw e =? 1)|done]).
    assert (Hok : forall o t be, is_u 8 o -> is_u 16 t -> is_u 64 be -> tlx_cmd_ok (mem_cmd e o t be)).
    { intros o t be Ho Ht Hb. split_and!; cbn; try done. by rewrite EdL. }
    destruct (truthy (me_rnw e)) eqn:Er.
    + destruct (tlx_afu_send_cmd afu (read_cmd e)) as [rc afu'] eqn:H.
      exists (HSendCmd (read_cmd e)), rc, afu'. cbn [run_call]. rewrite H.
      split; [done|]. split; [|by split]. cbn [call_ok]. unfold read_cmd.
      destruct (cmd_byte_cnt e <? 64); by apply Hok.
    + destruct (write_bus_ok e He Er) as (bus & -> & Hb). cbn.
      destruct (send_cmd_data_defined afu (write_cmd e) 0 bus) as [[rc afu'] H]; [done|done| |].
      { assert (tc_dl (write_cmd e) = mem_dL (me_size e)) as -> by
          (unfold write_cmd; destruct (cmd_byte_cnt e <? 64), (me_be_valid e =? 0); exact EdL).
        unfold mem_dL. repeat case_match; lia. }
      exists (HSendCmdAndData (write_cmd e) 0 bus), rc, afu'. split; [done|]. split; [|by split].
      split; [|split; [done|by apply Hb]]. unfold write_cmd.
      destruct (cmd_byte_cnt e <? 64), (me_be_valid e =? 0); by apply Hok.
Qed.

(** An event that was prepared may be marked as sent. *)
Lemma pending_ok e :
  mev_ok e -> lengths_set e -> me_state e = OCSE_IDLE -> mev_ok (e <| me_state := OCSE_PENDING |>).
Proof.
  intros [a b c d f g _ h _] Hl Hs.
  constructor; first [exact a|exact b|exact c|exact d|exact f|exact g|idtac].
  - intros Hc _. destruct (Hl Hc) as [H1 H2]. split; [exact H1|]. intros E. change (me_size e = 0) in E.
    rewrite E in H2. exact H2.
  - intros _. apply h. by left.
  - intros E. discriminate E.
Qed.

Lemma head_queue w id l : mm_list (w_mmio w) = id :: l -> head (queue w) = Some id.
Proof. unfold queue. by intros ->. Qed.

Lemma send_mmio_ok w : both w -> wp send_mmio (fun _ w' => both w') w.
Proof.
  intros Hb. pose proof Hb as [Hi [Hm Ho]]. unfold send_mmio. apply wp_gets_bind.
  destruct (mm_list (w_mmio w)) as [|id l] eqn:Eq; [done|]. pose proof (head_queue _ _ _ Eq) as Hhd.
  destruct (mi_alloc _ Hm id (head_in _ _ Hhd)) as [e He].
  wp_next. apply (wp_get_mmio _ e); [done|].
  destruct (bool_decide_reflect (me_state e = OCSE_IDLE)) as [Hs|]; [|done]. cbn [negb].
  destruct (mi_heap _ Hm id e He) as [_ Hok]. destruct (prepare_ok e Hok Hs) as [Hok1 Hl].
  destruct (prepare_same e) as (Es & Ec & _). set (e1 := prepare e) in *.
  wp_next. apply (wp_upd_mmio_event _ _ e); [done|]. change (prepare e) with e1.
  assert (Hb1 : both_mid (put_mm id e1 w)) by (apply (both_put _ _ e); [by apply both_is_mid|constructor; [done|done|done|by left]]).
  set (w1 := put_mm id e1 w) in *.
  assert (He1 : heap w1 !! id = Some e1) by (unfold w1; by rewrite heap_put, lookup_insert_eq).
  assert (Ho1 : forall id' x, id' ∈ queue w1 -> heap w1 !! id' = Some x -> is_done x = false).
  { intros id' x Hin. unfold w1. rewrite heap_put. destruct (decide (id = id')) as [<-|Hne].
    - rewrite lookup_insert_eq. intros [= <-]. unfold is_done. by rewrite Es, Hs.
    - rewrite lookup_insert_ne by done. by apply Ho. }
  wp_next. apply (wp_get_mmio _ e1); [done|]. wp_next.
  destruct (drive_defined e1 (w_event w1)) as (c & rc & afu & Hh & Hc & Hr & Hd); [done|done|by apply Hi|].
  eapply wp_host_send; [exact Hb1|exact Hh|exact Hc|exact Hr|exact Hd|]. intros Hev.
  assert (Hb2 : both_mid (w1 <| w_event := afu |>)) by by apply both_event.
  set (w2 := w1 <| w_event := afu |>) in *.
  apply wp_when; intros _; [|split; [apply Hb2|split; [apply Hb2|done]]].
  apply (wp_upd_mmio_event _ _ e1); [done|].
  assert (Hb3 : both_mid (put_mm id (e1 <| me_state := OCSE_PENDING |>) w2)).
  { apply (both_put _ _ e1); [done|]. constructor; [done|apply pending_ok; [done|done|congruence]|done|by right]. }
  split; [apply Hb3|split; [apply Hb3|]]. intros id' x Hin. rewrite heap_put.
  destruct (decide (id = id')) as [<-|Hne].
  - rewrite lookup_insert_eq. by intros [= <-].
  - rewrite lookup_insert_ne by done. by apply Ho1.
Qed.

(** * Answers *)

(** What is asked of the AFU's answer to the access [e]: a configuration write
    is not answered with read data, and a read is answered whole. *)
Definition answer_ok (e : mmio_event) (afu : AFU_EVENT) : Prop :=
  (truthy (me_cfg e) = true -> truthy (me_rnw e) = false -> truthy (cfg_tlx_resp_valid afu) = true ->
   cfg_tlx_resp_opcode afu <> AFU_RSP_MEM_RD_RESP) /\
  (truthy (me_cfg e) = false -> truthy (me_rnw e) = true -> me_state e = OCSE_PENDING ->
   truthy (afu_tlx_resp_valid afu) = true ->
   afu_tlx_resp_dl afu = (if mem_dL (me_size e) =? 0 then 1 else mem_dL (me_size e)) /\
   afu_tlx_resp_dp afu = 0).

(** Only a configuration access or a write is done before its data is asked
    for. *)
Definition mid_ok (w : world) : Prop :=
  both_mid w /\
  exists id e, head (queue w) = Some id /\ heap w !! id = Some e /\
    (is_done e = true -> truthy (me_cfg e) || negb (truthy (me_rnw e)) = true).

Lemma wp_read_event {A} (f : AFU_EVENT -> Z * option A * AFU_EVENT) c
    (Q : option A -> world -> Prop) w :
  both_mid w -> host_call c = true -> call_ok c ->
  run_call c (w_event w) = Some (no_out (f (w_event w))) ->
  (let '(rc, x, afu) := f (w_event w) in
   both_mid (w <| w_event := afu |>) ->
   Q (if rc =? TLX_SUCCESS then x else None) (w <| w_event := afu |>)) ->
  wp (read_event f) Q w.
Proof.
  intros Hb Hh Hc Hr HQ. unfold read_event. apply wp_gets_bind.
  destruct (f (w_event w)) as [[rc x] afu]. cbn in Hr. apply wp_modify_bind, wp_ret, HQ.
  apply both_event; [done|]. by eapply host_call_ok; [apply Hb|..].
Qed.

(** An event's outcome fields do not matter to its bounds. *)
Lemma answered_ok e code op dL dP :
  mev_ok e ->
  mev_ok (e <| me_resp_code := code |> <| me_resp_opcode := op |>) /\
  (truthy (me_cfg e) = true -> forall d,
     mev_ok (e <| me_resp_code := code |> <| me_resp_opcode := op |> <| me_cmd_data := d |>
               <| me_state := OCSE_DONE |>)) /\
  (me_state e <> OCSE_IDLE -> mev_ok (e <| me_state := OCSE_DONE |>)) /\
  (me_state e = OCSE_PENDING -> truthy (me_cfg e) = false ->
   (64 <= me_size e -> dL = mem_dL (me_size e) /\ dP = 0) ->
   mev_ok (e <| me_resp_dL := dL |> <| me_resp_dP := dP |> <| me_partial_index := 0 |>
             <| me_state := OCSE_BUFFER |>)).
Proof.
  intros [a b c d f g h i j]. split_and!.
  - constructor; assumption.
  - intros Hc x. constructor; first [exact a|exact b|exact c|exact d|exact f|exact g|idtac].
    + cbn. congruence.
    + by intros [E | E].
    + done.
  - intros Hs. constructor; first [exact a|exact b|exact c|exact d|exact f|exact g|idtac].
    + intros Hc _. by apply h.
    + by intros [E | E].
    + done.
  - intros Hs Hc Hd. constructor; first [exact a|exact b|exact c|exact d|exact f|exact g|idtac].
    + intros _ _. apply h; [done|congruence].
    + by intros [E | E].
    + intros _ Hsz. destruct (Hd Hsz) as [-> ->]. assert (Er : me_size_received e = 0) by (apply i; by right).
      unfold receiving. cbn. rewrite Er. change (64 <= me_size e) in Hsz.
      split_and!; try done; try lia. by exists 0.
Qed.

Lemma both_put_head w id e e' :
  both_mid w -> head (queue w) = Some id -> heap w !! id = Some e -> mev_ok e' ->
  me_cfg e' = me_cfg e -> both_mid (put_mm id e' w).
Proof. intros Hb Hhd He Hok Hc. apply (both_put _ _ e); [done|]. constructor; auto. Qed.

Lemma mid_put w id e :
  both_mid (put_mm id e w) -> head (queue w) = Some id ->
  (is_done e = true -> truthy (me_cfg e) || negb (truthy (me_rnw e)) = true) ->
  mid_ok (put_mm id e w).
Proof.
  intros Hb Hhd Hd. split; [done|]. exists id, e. split_and!; [done| |done].
  by rewrite heap_put, lookup_insert_eq.
Qed.

(** An unchanged head that is not done. *)
Lemma mid_same w id e :
  both_mid w -> head (queue w) = Some id -> heap w !! id = Some e -> is_done e = false -> mid_ok w.
Proof. intros Hb Hhd He Hd. split; [done|]. exists id, e. by rewrite Hd. Qed.

Lemma handle_cfg_resp_ok w id e :
  both_mid w -> head (queue w) = Some id -> heap w !! id = Some e -> is_done e = false ->
  answer_ok e (w_event w) -> truthy (me_cfg e) = true ->
  wp (handle_cfg_resp id e) (fun _ w' => mid_ok w') w.
Proof.
  intros Hb Hhd He Hnd [Hans _] Hc. unfold handle_cfg_resp. wp_next.
  set (tag := if truthy (me_rnw e) then CFG_RD_TAG else CFG_WR_TAG).
  apply (wp_read_event _ (HReadCfgResp tag)); [done|done|by unfold tag; cbn; case_match|done|].
  unfold take_cfg_resp. fold tag.
  destruct (afu_tlx_read_cfg_resp_and_data (w_event w) tag) as [[rc x] afu] eqn:Er. intros Hb1.
  set (w1 := w <| w_event := afu |>) in *.
  assert (Hsame : mid_ok w1) by by apply (mid_same _ id e).
  destruct (rc =? TLX_SUCCESS) eqn:Erc; [|done]. destruct x as [[resp beat]|]; [|done].
  assert (Hbeat : truthy (me_rnw e) = false -> beat = None).
  { intros Hw. unfold afu_tlx_read_cfg_resp_and_data in Er.
    destruct (truthy (cfg_tlx_resp_valid (w_event w))) eqn:Ev; cbn [negb] in Er; [|by injection Er as <-].
    destruct (negb (cfg_tlx_resp_capptag (w_event w) =? tag)); [by injection Er as <-|].
    injection Er as _ _ <- _.
    specialize (Hans Hc Hw eq_refl). by destruct (Z.eqb_spec (cfg_tlx_resp_opcode (w_event w)) AFU_RSP_MEM_RD_RESP). }
  destruct (negb (truthy (me_rnw e)) && bool_decide (is_Some beat)) eqn:Eb.
  { apply andb_true_iff in Eb as [Hw%negb_true_iff Hs%bool_decide_eq_true].
    rewrite (Hbeat Hw) in Hs. by destruct Hs. }
  destruct (bool_decide_reflect (me_state e = OCSE_PENDING)) as [Hp|]; [|done]. cbn [negb].
  assert (Hcf : me_cfg (cfg_answered resp beat e) = me_cfg e)
    by (unfold cfg_answered; by destruct (truthy (me_rnw e))).
  apply (wp_upd_mmio_event _ _ e); [done|]. apply mid_put; [|done|by rewrite Hcf, Hc].
  apply (both_put_head _ _ e); [done|done|done| |done].
  destruct (answered_ok e (cr_code resp) (cr_opcode resp) 0 0) as (H1 & H2 & _);
    [by apply (mi_heap _ (proj2 Hb) id)|].
  unfold cfg_answered. destruct (truthy (me_rnw e)); [by apply H2|].
  set (e1 := e <| me_resp_code := cr_code resp |> <| me_resp_opcode := cr_opcode resp |>) in *.
  destruct (answered_ok e1 0 0 0 0 H1) as (_ & _ & H3 & _). apply H3.
  change (me_state e <> OCSE_IDLE). congruence.
Qed.

Lemma size_code e : mev_ok e -> 64 <= me_size e -> mem_dL (me_size e) <> 0.
Proof. intros He Hs. destruct (mem_size_cases e He) as [E | E]; destruct_or?; try lia; by rewrite E. Qed.

Lemma handle_mem_resp_ok w id e :
  both_mid w -> head (queue w) = Some id -> heap w !! id = Some e -> is_done e = false ->
  answer_ok e (w_event w) -> truthy (me_cfg e) = false ->
  wp (handle_mem_resp id e) (fun _ w' => mid_ok w') w.
Proof.
  intros Hb Hhd He Hnd [_ Hans] Hc. unfold handle_mem_resp. wp_next.
  apply (wp_read_event _ HReadResp); [done..|].
  destruct (afu_tlx_read_resp (w_event w)) as [[rc x] afu] eqn:Er. intros Hb1.
  set (w1 := w <| w_event := afu |>) in *.
  assert (Hsame : mid_ok w1) by by apply (mid_same _ id e).
  destruct (rc =? TLX_SUCCESS) eqn:Erc; [|done]. destruct x as [resp|]; [|done].
  destruct (bool_decide_reflect (me_state e = OCSE_PENDING)) as [Hp|]; [|done]. cbn [negb].
  assert (Hresp : truthy (afu_tlx_resp_valid (w_event w)) = true /\ resp = get_afu_resp (w_event w)).
  { unfold afu_tlx_read_resp in Er. destruct (truthy (afu_tlx_resp_valid (w_event w))); cbn [negb] in Er.
    - by injection Er as _ <- _.
    - by injection Er as <-. }
  destruct Hresp as [Hv Eresp].
  assert (Hok : mev_ok e) by by apply (mi_heap _ (proj2 Hb) id).
  destruct (answered_ok e (ar_code resp) (ar_opcode resp) 0 0 Hok) as (H1 & _).
  set (e1 := e <| me_resp_code := ar_code resp |> <| me_resp_opcode := ar_opcode resp |>) in *.
  wp_next. apply (wp_upd_mmio_event _ _ e); [done|]. change (mev_ok e1) in H1.
  assert (Hb2 : both_mid (put_mm id e1 w1)) by by apply (both_put_head _ _ e).
  set (w2 := put_mm id e1 w1) in *.
  assert (He1 : heap w2 !! id = Some e1) by (unfold w2; by rewrite heap_put, lookup_insert_eq).
  destruct (answered_ok e1 0 0 (ar_dl resp) (ar_dp resp) H1) as (_ & _ & H3 & H4).
  destruct (truthy (me_rnw e)) eqn:Erw.
  - destruct (_resp_dldp_is_legal _ _ _ =? 1); [apply wp_exit|]. apply (wp_upd_mmio_event _ _ e1); [done|].
    apply mid_put; [|done|by intros].
    apply (both_put_head _ _ e1); [done|done|done| |done]. apply H4; [done|done|].
    change (me_size e1) with (me_size e). intros Hsz. destruct (Hans Hc eq_refl Hp Hv) as [Edl Edp].
    rewrite Eresp. cbn. rewrite Edl, Edp. pose proof (size_code e Hok Hsz) as Hne.
    by destruct (Z.eqb_spec (mem_dL (me_size e)) 0).
  - apply (wp_upd_mmio_event _ _ e1); [done|]. apply mid_put; [|done|].
    + apply (both_put_head _ _ e1); [done|done|done| |done]. apply H3.
      change (me_state e <> OCSE_IDLE). congruence.
    + intros _. change (truthy (me_cfg e) || negb (truthy (me_rnw e)) = true). by rewrite Erw, orb_true_r.
Qed.

Lemma handle_ap_resp_ok w id e :
  both w -> head (queue w) = Some id -> heap w !! id = Some e -> answer_ok e (w_event w) ->
  wp handle_ap_resp (fun _ w' => mid_ok w') w.
Proof.
  intros Hb Hhd He Ha. pose proof (both_is_mid _ Hb) as Hm.
  assert (Hd : is_done e = false) by (apply (proj2 (proj2 Hb) id); [by apply head_in|done]).
  unfold handle_ap_resp. wp_next. apply (wp_head id); [done|]. wp_next. apply (wp_get_mmio _ e); [done|].
  destruct (truthy (me_cfg e)) eqn:Ec; [by apply handle_cfg_resp_ok|by apply handle_mem_resp_ok].
Qed.

(** ** Data *)

Lemma take_mmio_ok e bus :
  mev_ok e -> length bus = 64%nat -> me_state e <> OCSE_IDLE -> truthy (me_cfg e) = false ->
  me_size e = 0 ->
  exists e', take_mmio_data e bus = Some e' /\ mev_ok e' /\ me_cfg e' = me_cfg e.
Proof.
  intros Hok Hb Hs Hc Hz. pose proof (PA_offset_range e) as Ho.
  pose proof (mo_place e Hok Hc) as Hp. destruct (mo_sent e Hok Hc Hs) as [_ HpL].
  unfold cmd_byte_cnt in Hp. rewrite Hz in Hp. cbn in Hp. specialize (HpL Hz).
  unfold take_mmio_data. rewrite HpL.
  assert (Hlen : PA_offset e + (if (if me_dw e =? 1 then 3 else 2) =? 2 then 4 else 8) <= 64).
  { destruct (me_dw e =? 1); cbn in *; lia. }
  destruct (slice bus (PA_offset e) (if (if me_dw e =? 1 then 3 else 2) =? 2 then 4 else 8)) as [d|] eqn:Ed.
  - eexists. split; [reflexivity|]. split; [|done].
    destruct Hok as [a b c d' f g h i j].
    constructor; first [exact a|exact b|exact c|exact d'|exact f|exact g|idtac].
    + intros _ _. by apply h.
    + by intros [E | E].
    + done.
  - rewrite slice_some in Ed; [done| | |rewrite Hb]; repeat case_match; lia.
Qed.

Lemma take_small_ok e bus :
  mev_ok e -> length bus = 64%nat -> me_state e <> OCSE_IDLE -> truthy (me_cfg e) = false ->
  truthy (me_rnw e) = true -> 0 < me_size e < 64 ->
  exists e', take_small_data e bus = Some e' /\ mev_ok e' /\ me_cfg e' = me_cfg e.
Proof.
  intros Hok Hb Hs Hc Hr Hz. pose proof (PA_offset_range e) as Ho.
  pose proof (mo_place e Hok Hc) as Hp. pose proof (mo_data e Hok ltac:(lia)) as Hd.
  assert (Hcnt : cmd_byte_cnt e = me_size e).
  { unfold cmd_byte_cnt. replace (me_size e =? 0) with false by lia. apply Z.mod_small. lia. }
  rewrite Hcnt in Hp. unfold take_small_data. rewrite slice_some by lia. cbn [mbind option_bind].
  set (d := take _ _). assert (Hdl : length d = Z.to_nat (me_size e)).
  { unfold d. rewrite length_take, length_drop. lia. }
  rewrite copy_at_some by lia. eexists. split; [reflexivity|]. split; [|done].
  destruct Hok as [a b c d' f g h i j].
  constructor; first [exact a|exact b|exact c|exact d'|idtac].
  - intros _. cbn -[overwrite take]. rewrite length_overwrite; [done|]. rewrite length_take. cbn. lia.
  - cbn. congruence.
  - intros _ _. by apply h.
  - by intros [E | E].
  - done.
Qed.

Lemma take_beat_ok e bus :
  mev_ok e -> length bus = 64%nat -> me_state e = OCSE_BUFFER -> truthy (me_cfg e) = false ->
  truthy (me_rnw e) = true -> 64 <= me_size e ->
  exists e', beat_offset e = Some (me_size_received e) /\
    take_beat e (me_size_received e) bus = Some e' /\ mev_ok e' /\ me_cfg e' = me_cfg e.
Proof.
  intros Hok Hb Hs Hc Hr Hz. pose proof (mo_buffer e Hok Hs Hz) as (HdL & HdP & Hpi & [k Hk] & Hrc).
  pose proof (mo_data e Hok ltac:(lia)) as Hd.
  assert (Hsize : me_size e = 64 \/ me_size e = 128 \/ me_size e = 256)
    by (destruct (mem_size_cases e Hok) as [E | E]; destruct_or?; lia).
  assert (Hfit : me_size_received e + 64 <= me_size e) by (destruct_or! Hsize; lia).
  assert (Hoff : beat_offset e = Some (me_size_received e)).
  { unfold beat_offset. rewrite HdL, HdP, Hpi. destruct_or! Hsize; rewrite Hsize in *; cbn; f_equal; lia. }
  unfold take_beat. rewrite copy_at_some by lia.
  assert (Hr64 : u32 (me_size_received e + 64) = me_size_received e + 64) by (apply Z.mod_small; lia).
  assert (Hp64 : u16 (me_partial_index e + 64) = me_size_received e + 64).
  { rewrite Hpi. apply Z.mod_small. lia. }
  cbn [mbind option_bind]. cbv zeta. eexists. split; [exact Hoff|]. split; [reflexivity|].
  set (buf := overwrite _ _ _).
  assert (Hbuf : length buf = Z.to_nat (me_size e)).
  { unfold buf. rewrite length_overwrite; [done|]. rewrite length_take. lia. }
  clearbody buf. rewrite Hr64, Hp64.
  destruct Hok as [a b c d' f g h i j].
  set (e1 := e <| me_data := buf |> <| me_partial_index := me_size_received e + 64 |>
               <| me_size_received := me_size_received e + 64 |>).
  change (me_size_received e1) with (me_size_received e + 64). change (me_size e1) with (me_size e).
  assert (Hns : me_state e <> OCSE_IDLE) by congruence.
  destruct (Z.eqb_spec (me_size_received e + 64) (me_size e)) as [Eq|Hne]; (split; [|done]);
    (constructor; first [exact a|exact b|exact c|exact d'|idtac]).
  - by intros _.
  - cbn. congruence.
  - intros _ _. by apply h.
  - by intros [E | E].
  - done.
  - by intros _.
  - cbn. congruence.
  - intros _ _. by apply h.
  - intros [E | E]; change (me_state e1) with (me_state e) in E; congruence.
  - intros _ _. split_and!; cbn; try done; try lia; try (exists (k + 1); lia).
    all: destruct_or! Hsize; lia.
Qed.

Lemma take_data_kept e bus w (Q : mmio_event -> world -> Prop) :
  mev_ok e -> length bus = 64%nat -> me_state e = OCSE_BUFFER -> truthy (me_cfg e) = false ->
  truthy (me_rnw e) = true ->
  (forall e', mev_ok e' -> me_cfg e' = me_cfg e -> Q e' w) -> wp (take_data e bus) Q w.
Proof.
  intros Hok Hb Hs Hc Hr HQ. assert (Hns : me_state e <> OCSE_IDLE) by congruence.
  unfold take_data. destruct (Z.eqb_spec (me_size e) 0) as [Ez|Ez].
  - destruct (take_mmio_ok e bus) as (e' & He & Hk & Hcf); try done.
    apply (wp_lift _ e'); [done|]. by apply HQ.
  - assert (0 < me_size e) by (destruct (mem_size_cases e Hok); [lia|destruct_or?; lia]).
    destruct (Z.ltb_spec (me_size e) 64).
    + destruct (take_small_ok e bus) as (e' & He & Hk & Hcf); try done.
      apply (wp_lift _ e'); [done|]. by apply HQ.
    + destruct (take_beat_ok e bus) as (e' & -> & He & Hk & Hcf); try done.
      apply (wp_lift _ e'); [done|]. by apply HQ.
Qed.

(** With a head that is not done, nothing in the queue is. *)
Lemma open_head w id e :
  minv_mid w -> head (queue w) = Some id -> heap w !! id = Some e -> is_done e = false -> minv w.
Proof.
  intros Hm Hhd He Hd. split; [done|]. intros id' x Hin Hx.
  destruct (decide (id' = id)) as [->|Hne]; [congruence|].
  apply bool_decide_eq_false. rewrite (mi_waiting _ Hm id' x); [done| |done].
  unfold queue in *. destruct (mm_list (w_mmio w)); [done|]. injection Hhd as ->.
  by apply elem_of_cons in Hin as [->|].
Qed.

Lemma both_pop w id e :
  both_mid w -> head (queue w) = Some id -> heap w !! id = Some e -> is_done e = true ->
  both (pop_mm w).
Proof. intros [Hi Hm] Hhd He Hd. split; [by apply inv_mmio|by eapply minv_pop]. Qed.

Lemma wp_pop_done w id e :
  both_mid w -> head (queue w) = Some id -> heap w !! id = Some e ->
  wp (when_ (is_done e) pop_event) (fun _ w' => both w') w.
Proof.
  intros Hb Hhd He. apply wp_when; intros Hd.
  - by apply wp_pop, (both_pop _ id e).
  - split; [apply Hb|]. by apply (open_head _ id e); [apply Hb|..].
Qed.

Lemma rdata_bus_length w : inv w -> length (afu_tlx_rdata_bus (w_event w)) = 64%nat.
Proof. intros Hi. by destruct (field_get (p := afu_tlx_rdata_bus) (w_event w) (iv_event _ _ Hi)). Qed.

Lemma handle_ap_resp_data_ok w : mid_ok w -> wp handle_ap_resp_data (fun _ w' => both w') w.
Proof.
  intros (Hb & id & e & Hhd & He & Hd). unfold handle_ap_resp_data.
  wp_next. apply (wp_head id); [done|]. wp_next. apply (wp_get_mmio _ e); [done|].
  destruct (truthy (me_cfg e) || negb (truthy (me_rnw e))) eqn:Ek; [by apply (wp_pop_done _ id)|].
  assert (Hnd : is_done e = false) by (destruct (is_done e); [discriminate (Hd eq_refl)|done]).
  apply orb_false_iff in Ek as [Hc Hr%negb_false_iff].
  wp_next. apply (wp_read_event _ HReadRespData); [done..|].
  unfold afu_tlx_read_resp_data. pose proof (rdata_bus_length w (proj1 Hb)) as Hbus.
  assert (Hok : mev_ok e) by by apply (mi_heap _ (proj2 Hb) id).
  destruct (truthy (afu_tlx_rdata_valid (w_event w))).
  - change (TLX_SUCCESS =? TLX_SUCCESS) with true. cbv iota.
    set (afu := w_event w <| _ := _ |> <| _ := _ |> <| _ := _ |>). intros Hb1.
    set (w1 := w <| w_event := afu |>) in *.
    destruct (bool_decide_reflect (me_state e = OCSE_BUFFER)) as [Hs|]; cbn [negb].
    + wp_next. apply take_data_kept; try done. intros e' Hok' Hcf.
      wp_next. apply wp_set_mmio.
      assert (Hb2 : both_mid (put_mm id e' w1)) by by apply (both_put_head _ _ e).
      apply (wp_pop_done _ id e'); [done|done|]. by rewrite heap_put, lookup_insert_eq.
    + split; [apply Hb1|]. by apply (open_head _ id e); [apply Hb1|..].
  - intros Hb1. split; [apply Hb1|]. by apply (open_head _ id e); [apply Hb1|..].
Qed.

(** * Clients *)

Lemma both_frame w w' : both w -> inv w' -> cmd_frame w w' -> both w'.
Proof. intros [_ Hm] Hi Hf. split; [done|by eapply minv_frame]. Qed.

Lemma frame_drop_client i : framed cmd_frame (drop_client i).
Proof. unfold drop_client. frame. Qed.
Lemma frame_answer i c l : framed cmd_frame (answer i c l).
Proof. unfold answer, drop_client. frame. Qed.

(** The part of a step's effect that the frame gives. *)
Lemma wp_framed {A} (m : M A) (Q : A -> world -> Prop) w :
  framed cmd_frame m -> wp m (fun x w' => cmd_frame w w' -> Q x w') w -> wp m Q w.
Proof.
  intros Hf. unfold wp. destruct (m w) as [x w'| | |] eqn:E; try done. intros H.
  apply H. by eapply Hf.
Qed.

(** ** Adding accesses *)

Definition add_mm (e : mmio_event) (w : world) : world :=
  let mm := w_mmio w in
  w <| w_mmio := mm <| mm_heap := <[mm_next mm := e]> (mm_heap mm) |>
                    <| mm_list := mm_list mm ++ [mm_next mm] |> <| mm_next := S (mm_next mm) |> |>.

Lemma fresh_heap w : minv_mid w -> heap w !! mm_next (w_mmio w) = None.
Proof.
  intros Hm. destruct (heap w !! mm_next (w_mmio w)) eqn:E; [|done].
  apply (mi_heap _ Hm) in E as [Hlt _]. lia.
Qed.

Lemma tail_app_in {A} (l : list A) x y : y ∈ tail (l ++ [x]) -> y ∈ tail l \/ y = x.
Proof.
  destruct l as [|a l]; cbn; [by intros ?%not_elem_of_nil|].
  rewrite elem_of_app, list_elem_of_singleton. tauto.
Qed.

Lemma minv_add w e : minv w -> mev_ok e -> me_state e = OCSE_IDLE -> minv (add_mm e w).
Proof.
  intros [Hm Ho] Hok Hs. pose proof (fresh_heap w Hm) as Hf. destruct Hm as [Hh Hn Ha Hwt Hl Hac Hown Hcfg].
  set (id := mm_next (w_mmio w)) in *.
  assert (Hid : id ∉ queue w) by (intros H; destruct (Ha id H); congruence).
  assert (Hheap : heap (add_mm e w) = <[id := e]> (heap w)) by done.
  assert (Hqueue : queue (add_mm e w) = queue w ++ [id]) by done.
  split; [constructor|]; rewrite ?Hheap, ?Hqueue.
  - intros id' x. change (mm_next (w_mmio (add_mm e w))) with (S id).
    destruct (decide (id = id')) as [<-|Hne].
    + rewrite lookup_insert_eq. intros [= <-]. split; [lia|done].
    + rewrite lookup_insert_ne by done. intros Hx. destruct (Hh id' x Hx) as [Hlt Hk]. split; [lia|done].
  - apply list_relations.list.NoDup_app. split_and!; [done| |apply list_relations.list.NoDup_singleton].
    intros x Hx ->%list_elem_of_singleton. done.
  - intros id' [Hin | ->%list_elem_of_singleton]%elem_of_app.
    + apply lookup_insert_is_Some'. right. by apply Ha.
    + rewrite lookup_insert_eq. by eexists.
  - intros id' x Hin. destruct (decide (id = id')) as [<-|Hne].
    + rewrite lookup_insert_eq. by intros [= <-].
    + rewrite lookup_insert_ne by done. apply Hwt. by apply tail_app_in in Hin as [|].
  - intros id' x. destruct (decide (id = id')) as [<-|Hne].
    + intros _ []. apply elem_of_app. right. by apply list_elem_of_singleton.
    + rewrite lookup_insert_ne by done. intros Hx Hnot. apply (Hl id' x Hx). intros Hin.
      apply Hnot, elem_of_app. by left.
  - intros i id' Hi. destruct (Hac i id' Hi) as (x & Hx & Hc). exists x.
    rewrite lookup_insert_ne; [done|]. intros <-. congruence.
  - exact Hown.
  - exact Hcfg.
  - intros id' x Hin. destruct (decide (id = id')) as [<-|Hne].
    + rewrite lookup_insert_eq. intros [= <-]. unfold is_done. by rewrite Hs.
    + rewrite lookup_insert_ne by done. apply Ho.
      apply elem_of_app in Hin as [? | ->%list_elem_of_singleton]; done.
Qed.

Lemma place_ok x n : (n | x) -> (n | 64) -> 0 < n -> Z.land x 0x3F + n <= 64.
Proof.
  intros Hx [m Hm] Hn. rewrite (land_ones8 _ 6) by (done || lia). change (2 ^ 6) with 64.
  pose proof (Z.mod_pos_bound x 64).
  assert (Hd : (n | x mod 64)).
  { rewrite Z.mod_eq by lia. apply Z.divide_sub_r; [done|]. rewrite Hm. exists (m * (x / (m * n))). lia. }
  destruct Hd as [k Hk]. assert (k < m) by (apply (Z.mul_lt_mono_pos_r n); lia). assert ((k + 1) * n <= m * n) by (apply Z.mul_le_mono_nonneg_r; lia). lia.
Qed.

(** What is asked of a client's request: a register access is aligned, a memory
    access has one of the sizes of the protocol and, when small, is aligned. *)
Definition register_ok (mm : mmio) (c : client) (dw : Z) (global : bool) (addr : Z) : Prop :=
  forall PA, mmio_PA mm c global addr = Some PA -> ((if dw =? 1 then 8 else 4) | PA).
Definition memory_ok (mm : mmio) (c : client) (region size addr : Z) : Prop :=
  size ∈ mem_sizes /\ forall PA, mem_PA mm c region addr = Some PA -> size < 64 -> (size | PA).

Lemma is_u64 x : is_u 64 (u64 x).
Proof. apply is_u_mod. lia. Qed.

(** What the caller of a handler learns of the event it is given. *)
Definition unowned (w : world) (id : addr_t) : Prop :=
  (exists e, heap w !! id = Some e /\ truthy (me_cfg e) = false) /\ forall i, ~ owns w i id.

Lemma add_unowned w e : minv w -> truthy (me_cfg e) = false ->
  unowned (add_mm e w) (mm_next (w_mmio w)).
Proof.
  intros [Hm _] Hc. split.
  - exists e. split; [|done]. change (heap (add_mm e w)) with (<[mm_next (w_mmio w) := e]> (heap w)).
    apply lookup_insert_eq.
  - intros i Hi. destruct (mi_access _ Hm i _ Hi) as (x & Hx & _). by rewrite (fresh_heap w Hm) in Hx.
Qed.

Lemma wp_add e (Q : addr_t -> world -> Prop) w :
  Q (mm_next (w_mmio w)) (add_mm e w) ->
  wp (append_event (mm_next (w_mmio w)) e;; mret (mm_next (w_mmio w))) Q
    (w <| w_mmio := w_mmio w <| mm_next := S (mm_next (w_mmio w)) |> |>).
Proof. done. Qed.

Lemma both_add w e : both w -> mev_ok e -> me_state e = OCSE_IDLE -> both (add_mm e w).
Proof. intros [Hi Hm] Hok Hs. split; [by apply inv_mmio|by apply minv_add]. Qed.

Lemma PA_place PA n : (n | PA) -> (n | 64) -> 0 < n -> Z.land PA 0x3F + n <= 64.
Proof. apply place_ok. Qed.

Lemma add_mmio_ok c rnw dw global addr data w (Q : addr_t -> world -> Prop) :
  both w -> is_Some (cfg_of (w_mmio w) c) -> register_ok (w_mmio w) c dw global addr ->
  (forall e, both (add_mm e w) -> unowned (add_mm e w) (mm_next (w_mmio w)) ->
     Q (mm_next (w_mmio w)) (add_mm e w)) ->
  wp (_add_mmio c rnw dw global addr data) Q w.
Proof.
  intros Hb [[f a] Hcfg] Hreg HQ. unfold _add_mmio, _add_event, malloc_event. wp_next.
  apply wp_gets_bind, wp_modify_bind, wp_ret, wp_gets_bind. wp_next.
  set (PA := if global then u64 (fc_bar0 f + af_global_mmio_offset a + addr)
             else u64 (fc_bar0 f + pasid_area a c + addr)).
  assert (HPA : mmio_PA (w_mmio w) c global addr = Some PA) by (unfold mmio_PA; by rewrite Hcfg).
  apply (wp_lift _ PA); [exact HPA|]. apply wp_add. set (e := new_mmio_event _ _ _ _ _ _).
  assert (Hok : mev_ok e).
  { constructor.
    - unfold e. cbn. unfold PA. destruct global; apply is_u64.
    - done.
    - by left.
    - intros _ _. specialize (Hreg PA HPA). unfold PA_offset, cmd_byte_cnt. cbn.
      destruct (dw =? 1); apply place_ok; try done; [by exists 8|by exists 16].
    - done.
    - intros _. apply Forall_nil_2.
    - by intros _ [].
    - done.
    - done. }
  apply HQ; [by apply both_add|by apply add_unowned; [apply Hb|]].
Qed.

Lemma add_mem_ok c rnw size region addr data be_valid be w (Q : addr_t -> world -> Prop) :
  both w -> is_Some (cfg_of (w_mmio w) c) -> memory_ok (w_mmio w) c region size addr ->
  is_u 64 addr -> is_u 64 be -> length data = Z.to_nat size -> (truthy rnw = false -> bytes data) ->
  (forall e, both (add_mm e w) -> unowned (add_mm e w) (mm_next (w_mmio w)) ->
     Q (mm_next (w_mmio w)) (add_mm e w)) ->
  wp (_add_mem c rnw size region addr data be_valid be) Q w.
Proof.
  intros Hb [[f a] Hcfg] [Hsz Hal] Haddr Hbe Hlen Hbytes HQ.
  unfold _add_mem, _add_mem_event, malloc_event. wp_next.
  apply wp_gets_bind, wp_modify_bind, wp_ret, wp_gets_bind. wp_next.
  assert (HPA : exists PA, mem_PA (w_mmio w) c region addr = Some PA /\ is_u 64 PA).
  { unfold mem_PA. destruct (region =? 0); [by exists addr|]. rewrite Hcfg. eexists. split; [done|].
    destruct (region =? 1); apply is_u64. }
  destruct HPA as (PA & HPA & Hu). apply (wp_lift _ PA); [exact HPA|]. apply wp_add.
  set (e := new_mem_event _ _ _ _ _ _ _).
  pose proof (mem_sizes_cases size Hsz) as Hcases.
  assert (Hok : mev_ok e).
  { constructor; try done.
    - by right.
    - intros _. unfold PA_offset, cmd_byte_cnt. change (me_size e) with size.
      change (me_cmd_PA e) with PA. intros Hlt.
      assert (E : (if size =? 0 then (if me_dw e =? 1 then 8 else 4) else u16 size) = size)
        by (destruct_or! Hcases; by rewrite Hcases).
      rewrite E in Hlt |- *. apply place_ok; [by apply Hal| |lia].
      destruct_or! Hcases; rewrite Hcases in *; try lia;
        [by exists 64|by exists 32|by exists 16|by exists 8|by exists 4|by exists 2]. }
  apply HQ; [by apply both_add|by apply add_unowned; [apply Hb|]].
Qed.

(** ** The handlers *)

(** What a handler leaves: both invariants and, if it made an event, one that no
    client owns yet. *)
Definition handled (r : option addr_t * stream) (w : world) : Prop :=
  both w /\ match r.1 with Some id => unowned w id | None => True end.

Lemma drop_client_ok i w (Q : unit -> world -> Prop) :
  both w -> (forall w', both w' -> Q tt w') -> wp (drop_client i) Q w.
Proof.
  intros Hb HQ. apply wp_framed; [apply frame_drop_client|]. apply wp_modify. intros Hf. apply HQ.
  apply (both_frame w); [done| |done]. apply drop_ok; [apply Hb|done|done].
Qed.

Lemma both_puts w l oks : both w -> both (w <| w_puts := l |> <| w_put_ok := oks |>).
Proof.
  intros Hb. apply (both_frame w); [done|by apply inv_puts, Hb|by apply cmd_frame_same].
Qed.
Lemma both_put_ok w oks : both w -> both (w <| w_put_ok := oks |>).
Proof.
  intros Hb. apply (both_frame w); [done|by apply inv_put_ok, Hb|by apply cmd_frame_same].
Qed.

Lemma answer_both i c l w (Q : unit -> world -> Prop) :
  both w -> (forall w', both w' -> cmd_frame w w' -> Q tt w') -> wp (answer i c l) Q w.
Proof.
  intros Hb HQ. apply wp_framed; [apply frame_answer|].
  eapply (wp_mono _ (fun _ w' => both w')); [|intros [] w' Hw' Hf; by apply HQ].
  unfold answer. wp_next. apply wp_put_bytes; intros oks; cbn [negb when_].
  - by apply both_puts.
  - apply drop_client_ok; [by apply both_put_ok|done].
Qed.

Lemma receive_ok fuel i c n s k w :
  both w -> 0 <= n -> stream_bytes s ->
  (forall d s', d = take (Z.to_nat n) (incoming s) -> incoming s' = drop (Z.to_nat n) (incoming s) ->
     length d = Z.to_nat n -> bytes d -> stream_bytes s' -> wp (k d s') handled w) ->
  wp (receive fuel i c n s k) handled w.
Proof.
  intros Hb Hn Hs Hk. unfold receive.
  destruct (get_bytes_silent fuel (truthy (cl_abort c)) n s) as [d s'| |] eqn:E; [| |done].
  - destruct (get_bytes_silent_incoming _ _ _ _ _ _ E Hn) as (H1 & H2 & H3).
    destruct (get_bytes_silent_bytes _ _ _ _ _ _ Hn E Hs) as (H4 & _ & H5). by apply Hk.
  - wp_next. apply drop_client_ok; [done|]. intros w' Hb'. by apply wp_ret.
Qed.

Lemma ntohl_range x : is_u 32 (ntohl x).
Proof.
  unfold ntohl, htonl. change 32 with (8 * Z.of_nat 4). apply le_val_range; [apply length_be_bytes|].
  apply be_bytes_bytes.
Qed.

Lemma u32_u64 x : is_u 32 x -> is_u 64 x.
Proof. by apply is_u_mono. Qed.

(** The request that follows the opcode in the stream. *)
Definition mmio_request_ok (mm : mmio) (c : client) (dw : Z) (global : bool) (msg : list Z) : Prop :=
  register_ok mm c dw global (ntohl (le_val (take 4 msg))).
Definition mem_request_ok (mm : mmio) (c : client) (rnw region be_valid : Z) (msg : list Z) : Prop :=
  memory_ok mm c region
    (if truthy rnw || (be_valid =? 0) then ntohl (le_val (take 4 (drop 4 msg))) else 64)
    (ntohl (le_val (take 4 msg))).

Section handlers.
Context (w : world) (i : nat) (c : client).
Hypothesis Hb : both w.
Hypothesis Hc : w_clients w !! i = Some (Some c).

Local Lemma the_cfg : is_Some (cfg_of (w_mmio w) c).
Proof. by apply (mi_cfg _ (proj1 (proj2 Hb)) i). Qed.

Lemma handle_mmio_ok fuel rnw dw global s :
  stream_bytes s -> mmio_request_ok (w_mmio w) c dw global (incoming s) ->
  wp (handle_mmio fuel i rnw dw global s) handled w.
Proof.
  intros Hs Hreq. unfold handle_mmio. wp_next. apply (wp_the_client _ c); [done|].
  destruct (bool_decide_reflect (cl_state c = CLIENT_VALID)) as [Hv|Hv]; cbn [negb].
  2: { wp_next. apply answer_both; [done|]. intros w' Hb' _. by apply wp_ret. }
  assert (Hadd : forall rnw data s', wp (id ← _add_mmio c rnw dw global
      (ntohl (le_val (take 4 (incoming s)))) data; mret (Some id, s')) handled w).
  { intros rnw' data s'. wp_next. apply add_mmio_ok; [done|apply the_cfg|exact Hreq|].
    intros e Hb' Hu. by apply wp_ret. }
  destruct (truthy rnw); unfold _handle_mmio_read, _handle_mmio_write; wp_next;
    (apply (wp_the_client _ c); [done|]); (apply receive_ok; [done|lia|done|]);
    intros d s1 -> _ _ _ Hs1; [by apply Hadd|].
  destruct (truthy dw); (apply receive_ok; [done|lia|done|]); intros d2 s2 -> _ _ _ Hs2; apply Hadd.
Qed.

Lemma length_malloc size w' (Q : list Z -> world -> Prop) :
  (forall l, length l = Z.to_nat size -> Q l w') -> wp (malloc_bytes size) Q w'.
Proof.
  intros HQ. unfold malloc_bytes. apply wp_gets_bind, wp_ret, HQ. by rewrite length_map, length_seq.
Qed.

Lemma handle_mem_ok fuel rnw region be_valid s :
  stream_bytes s -> mem_request_ok (w_mmio w) c rnw region be_valid (incoming s) ->
  wp (handle_mem fuel i rnw region be_valid s) handled w.
Proof.
  intros Hs Hreq. unfold handle_mem. wp_next. apply (wp_the_client _ c); [done|].
  destruct (bool_decide_reflect (cl_state c = CLIENT_VALID)) as [Hv|Hv]; cbn [negb].
  2: { wp_next. apply answer_both; [done|]. intros w' Hb' _. by apply wp_ret. }
  unfold mem_request_ok in Hreq. set (addr := ntohl (le_val (take 4 (incoming s)))) in *.
  assert (Ha : is_u 64 addr) by apply u32_u64, ntohl_range.
  assert (Hadd : forall rnw size data bv be s', memory_ok (w_mmio w) c region size addr ->
    is_u 64 be -> length data = Z.to_nat size -> (truthy rnw = false -> bytes data) ->
    wp (id ← _add_mem c rnw size region addr data bv be; mret (Some id, s')) handled w).
  { intros rnw' size data bv be s' Hm Hbe Hl Hd. wp_next. apply add_mem_ok; [done|apply the_cfg|done..|].
    intros e Hb' Hu. by apply wp_ret. }
  destruct (truthy rnw); cbn [orb] in Hreq.
  - unfold _handle_mem_read. wp_next. apply (wp_the_client _ c); [done|].
    apply receive_ok; [done|lia|done|]. intros d s1 -> Hi1 _ _ Hs1.
    apply receive_ok; [done|lia|done|]. intros d s2 -> Hi2 _ _ Hs2.
    rewrite Hi1.
    wp_next. apply length_malloc. intros data Hl. by apply Hadd.
  - unfold _handle_mem_write. wp_next. apply (wp_the_client _ c); [done|].
    apply receive_ok; [done|lia|done|]. intros d s1 -> Hi1 _ _ Hs1. cbv zeta.
    assert (Hstore : forall size be s', memory_ok (w_mmio w) c region size addr -> is_u 64 be ->
      stream_bytes s' -> wp (data ← malloc_bytes size;
        receive fuel i c (i32 size) s' (fun got s =>
        id ← _add_mem c 0 size region addr (overwrite data 0 got) be_valid be;
        mret (Some id, s))) handled w).
    { intros size be s' Hm Hbe Hs'. wp_next. apply length_malloc. intros data Hl.
      assert (H32 : i32 size = size /\ 0 <= size).
      { destruct Hm as [Hsz _]. pose proof (mem_sizes_cases size Hsz) as Hcs.
        destruct_or! Hcs; rewrite Hcs; by vm_compute. }
      destruct H32 as [-> H0]. apply receive_ok; [done|done|done|]. intros got s2 _ _ Hgl Hgb _.
      assert (Hov : overwrite data 0 got = got).
      { unfold overwrite. rewrite drop_ge by lia. by rewrite take_0, app_nil_r. }
      rewrite Hov. by apply Hadd. }
    fold addr. destruct (be_valid =? 0) eqn:Ebe.
    + apply receive_ok; [done|lia|done|]. intros d s2 -> Hi2 _ _ Hs2. rewrite Hi1. by apply Hstore.
    + apply receive_ok; [done|lia|done|]. intros d s2 _ _ _ _ Hs2. apply Hstore; [done| |done].
      apply u32_u64, ntohl_range.
Qed.
End handlers.

Lemma handle_mmio_map_ok w i c :
  both w -> w_clients w !! i = Some (Some c) -> wp (handle_mmio_map i) (fun _ w' => both w') w.
Proof.
  intros Hb Hc. unfold handle_mmio_map. wp_next. apply (wp_the_client _ c); [done|].
  by apply answer_both.
Qed.

(** ** The pointer of a client *)

(** Client [i] after its pointer has become [o]. *)
Definition with_access (i : nat) (o : option addr_t) (w : world) : world :=
  w <| w_clients := alter (fmap (fun c => c <| cl_mmio_access := o |>)) i (w_clients w) |>.

Lemma with_access_client i o w j c' :
  w_clients (with_access i o w) !! j = Some (Some c') ->
  exists c, w_clients w !! j = Some (Some c) /\
    ((j <> i /\ c' = c) \/ (j = i /\ c' = c <| cl_mmio_access := o |>)).
Proof.
  cbn. destruct (decide (j = i)) as [->|Hne].
  - rewrite list_lookup_alter_eq. destruct (w_clients w !! i) as [[c|]|]; try done. intros [= <-].
    exists c. auto.
  - rewrite list_lookup_alter_ne by done. exists c'. auto.
Qed.

Lemma inv_access i o w : inv w -> inv (with_access i o w).
Proof.
  intros Hi. apply inv_upd_client; [done|done|]. intros c id Hc _ Hs Hm.
  apply (iv_access _ _ Hi); [done|]. by exists c.
Qed.

(** Clearing the pointer. *)
Lemma clear_access_ok i w : both w -> both (with_access i None w).
Proof.
  intros [Hi Hm]. split; [by apply inv_access|]. apply (minv_frame w); [done|]. constructor; [done|done|].
  intros j c' Hc'. apply with_access_client in Hc' as (c & Hc & [[_ ->] | [_ ->]]); exists c;
    (split; [done|]); split_and!; cbn; auto.
Qed.

(** An event nobody owns is given to the client. *)
Lemma set_access_ok i id w : both w -> unowned w id -> both (with_access i (Some id) w).
Proof.
  intros [Hi [Hm Ho]] [(e & He & Hc) Hno]. split; [by apply inv_access|]. split; [|done].
  assert (Hown : forall j id', owns (with_access i (Some id) w) j id' ->
    (j = i /\ id' = id) \/ (j <> i /\ owns w j id')).
  { intros j id' (c' & Hc' & Hid). apply with_access_client in Hc' as (c & Hcl & [[Hne ->] | [-> ->]]).
    - right. split; [done|]. by exists c.
    - left. cbn in Hid. by injection Hid as <-. }
  destruct Hm as []. constructor; try done.
  - intros j id' [[-> ->] | [_ Hj]]%Hown; [by exists e|by apply (mi_access0 j)].
  - intros j k id' [[-> ->] | [Hj Hoj]]%Hown [[-> Hk] | [Hk Hok]]%Hown; try done.
    + by apply Hno in Hok.
    + subst. by apply Hno in Hoj.
    + by eapply mi_own0.
  - intros j c' (c & Hcl & [[_ ->] | [_ ->]])%with_access_client; exact (mi_cfg0 j c Hcl).
Qed.

(** An event that has left the queue is freed once nobody points to it. *)
Definition free_mm (id : addr_t) (w : world) : world :=
  w <| w_mmio := w_mmio w <| mm_heap := delete id (mm_heap (w_mmio w)) |> |>.

Lemma free_ok id e w :
  both w -> heap w !! id = Some e -> is_done e = true -> (forall i, ~ owns w i id) ->
  both (free_mm id w).
Proof.
  intros [Hi [Hm Ho]] He Hd Hno. split; [by apply inv_mmio|].
  assert (Hq : id ∉ queue w) by (intros Hin; by rewrite (Ho id e Hin He) in Hd).
  assert (Hh : heap (free_mm id w) = delete id (heap w)) by done.
  destruct Hm as []. split; [constructor|]; rewrite ?Hh; try done.
  - intros id' x [_ Hx]%lookup_delete_Some. by apply mi_heap0.
  - intros id' Hin. rewrite lookup_delete_ne; [by apply mi_alloc0|]. by intros <-.
  - intros id' x Hin [_ Hx]%lookup_delete_Some. by apply (mi_waiting0 id').
  - intros id' x [_ Hx]%lookup_delete_Some. by apply mi_left0.
  - intros i id' Hown. destruct (mi_access0 i id' Hown) as (x & Hx & Hc). exists x.
    rewrite lookup_delete_ne; [done|]. intros <-. by apply (Hno i).
  - intros id' x Hin [_ Hx]%lookup_delete_Some. by apply (Ho id').
Qed.

(** The acknowledgement, with the assignment of its caller. *)
Lemma handle_mmio_done_ok w i c :
  both w -> w_clients w !! i = Some (Some c) ->
  wp (a ← handle_mmio_done i; set_mmio_access i a) (fun _ w' => both w') w.
Proof.
  intros Hb Hc. unfold handle_mmio_done. wp_next. wp_next. apply (wp_the_client _ c); [done|].
  destruct (cl_mmio_access c) as [id|] eqn:Ea.
  2: { apply wp_ret, wp_modify. by apply clear_access_ok. }
  destruct (mi_access _ (proj1 (proj2 Hb)) i id) as (e & He & Hcf); [by exists c|].
  wp_next. apply (wp_get_mmio _ e); [done|]. destruct (is_done e) eqn:Ed; cbn [negb].
  2: { apply wp_ret, wp_modify. replace (w <| w_clients := _ |>) with w; [done|].
       assert (Hcl : alter (fmap (fun c => c <| cl_mmio_access := Some id |>)) i (w_clients w) = w_clients w).
       { apply list_eq. intros j. destruct (decide (j = i)) as [->|Hne].
         - rewrite list_lookup_alter_eq, Hc. cbn. by destruct c; cbn in Ea; subst.
         - by rewrite list_lookup_alter_ne. }
       rewrite Hcl. by destruct w. }
  assert (Hok : mev_ok e) by by apply (mi_heap _ (proj1 (proj2 Hb)) id).
  assert (Hdata : exists l, returned_data e = Some l).
  { unfold returned_data. destruct (access_failed e || _); [by eexists|].
    destruct (truthy (me_size e)) eqn:Et; [|by destruct (truthy (me_dw e)); eexists].
    pose proof (mo_data e Hok) as Hl. unfold truthy in Et. apply negb_true_iff, Z.eqb_neq in Et.
    specialize (Hl Et). rewrite slice_some; [by eexists|lia| |];
      destruct (mem_size_cases e Hok); destruct_or?; lia. }
  destruct Hdata as [l Hl]. wp_next. apply (wp_lift _ l); [done|]. wp_next.
  apply answer_both; [done|]. intros w1 Hb1 Hf. apply wp_modify_bind, wp_ret, wp_modify.
  change (both (with_access i None (free_mm id w1))).
  change (with_access i None (free_mm id w1)) with (free_mm id (with_access i None w1)).
  apply (free_ok _ e); [by apply clear_access_ok| |done|].
  - change (heap (with_access i None w1)) with (heap w1). unfold heap. by rewrite (cf_mmio _ _ Hf).
  - intros j (c' & Hc' & Hid). apply with_access_client in Hc' as (c1 & Hc1 & [[Hne ->] | [-> ->]]); [|done].
    destruct (cf_client _ _ Hf j c1 Hc1) as (c0 & Hc0 & _ & _ & _ & [E|E]); [|congruence].
    apply Hne, (mi_own _ (proj1 (proj2 Hb)) j i id); [exists c0; split; [done|congruence]|by exists c].
Qed.

(** * Discovery *)

Lemma add_cfg_ok rnw addr data w :
  both w -> is_u 64 addr -> wp (_add_cfg rnw 0 addr data) (fun _ w' => both w') w.
Proof.
  intros Hb Ha. unfold _add_cfg, _add_event, malloc_event. wp_next.
  apply wp_gets_bind, wp_modify_bind, wp_ret, wp_gets_bind. wp_next.
  apply (wp_lift _ addr); [done|]. apply wp_add, both_add; [done| |done].
  constructor; first [done | by left | by intros _; apply Forall_nil_2 | by intros _ []].
Qed.

(** [free (event)] once [_wait_for_done] has returned. *)
Lemma free_cfg_ok id e w :
  both w -> heap w !! id = Some e -> is_done e = true -> truthy (me_cfg e) = true ->
  wp (free_mmio id) (fun _ w' => both w') w.
Proof.
  intros Hb He Hd Hc. apply wp_modify. apply (free_ok _ e); [done..|].
  intros i Hi. destruct (mi_access _ (proj1 (proj2 Hb)) i id Hi) as (x & Hx & Hn). congruence.
Qed.
