(* ===== verification/OclInv.v ===== *)
(** The invariant of the thread: both components keep theirs under every step of
    the loop.  The steps are interleaved with those of the AFU, of discovery and
    of the clients by a step relation; its reachable states satisfy the
    invariant, and no step from them has undefined behaviour. *)
From stdpp Require Import gmap.
From S2P Require Import Prelude Utils Event TlxHost TlxAfu TlxApi Parms.
From S2P Require Import CmdState Cmd CmdHandlers CmdFrame CmdLogic CmdInv CmdSafe CmdSafeResp CmdSafeSend.
From S2P Require Import CmdSafeAdd Mmio MmioInv Ocl.

Definition present (w : world) (i : nat) : Prop := exists c, w_clients w !! i = Some (Some c).

(** The data of an answer are bytes, and the page cache has not been accessed
    2^31 times. *)
Definition ack_ok (w : world) (i : nat) (s : stream) : Prop :=
  present w i /\ stream_bytes s /\ ages_low (w_pages w).

(** * The command component *)

Local Notation keeps_inv m w := (wp m (fun _ w' => inv w') w) (only parsing).

Lemma handle_commands_ok w : inv w -> keeps_inv handle_commands w.
Proof.
  intros Hinv. unfold handle_commands, inv.
  wp_next. eapply wp_mono; [by apply handle_response_ok|]. intros [] w1 H1.
  wp_next. eapply wp_mono; [by apply handle_buffer_write_ok|]. intros [] w2 H2.
  wp_next. eapply wp_mono; [by apply handle_xlate_intrp_pending_sent_ok|]. intros [] w3 H3.
  wp_next. eapply wp_mono; [by apply handle_cmd_ok|]. intros [] w4 H4.
  wp_next. eapply wp_mono; [by apply handle_afu_tlx_cmd_data_read_ok|]. intros [] w5 H5.
  wp_next. eapply wp_mono; [by apply handle_afu_tlx_write_cmd_ok|]. intros [] w6 H6.
  wp_next. unfold wp at 1. rewrite handle_touch_idle.
  wp_next. eapply wp_mono; [by apply handle_interrupt_ok|]. intros [] w7 H7.
  by apply handle_write_be_or_amo_ok.
Qed.

Lemma memory_ack_ok fuel i ok s w :
  inv w -> ack_ok w i s -> keeps_inv (memory_ack fuel i ok s) w.
Proof.
  intros Hinv ([c Hc] & Hs & Hlow). unfold memory_ack. wp_next. apply (wp_the_client _ c); [done|].
  case_bool_decide as Hst; [done|].
  assert (Hclose : forall (s' : stream) w', inv_for (fun j => j <> i) w' ->
    wp (A := stream) (upd_client i (fun c => c <| cl_mem_access := None |>);; mret s') (fun _ w' => inv w') w').
  { intros s' w' Hw'. apply wp_modify_bind, wp_ret. by apply inv_close. }
  wp_next. destruct (cl_mem_access c) as [id|] eqn:Em; [|by apply Hclose, inv_weaken].
  destruct (iv_access _ _ Hinv i id I) as (e & He & <- & Hctx & _); [by exists c|].
  assert (Hnow : now i w e) by (split; [by apply inv_weaken|done]).
  destruct ok.
  - eapply wp_mono; [by apply (handle_mem_return_ok i)|]. intros s' w'. apply Hclose.
  - wp_next. eapply wp_mono; [by apply (handle_aerror_ok i)|]. intros [] w'. apply Hclose.
Qed.

(** Changes of a client that touch neither its pointer nor its state. *)
Lemma tick_ok i w f :
  inv w -> (forall c, cl_context (f c) = cl_context c) ->
  (forall c, cl_mem_access (f c) = cl_mem_access c) -> (forall c, cl_state (f c) = cl_state c) ->
  inv (w <| w_clients := alter (fmap f) i (w_clients w) |>).
Proof.
  intros Hinv Hc Hm Hs. apply inv_upd_client; [done|done|]. intros c id Hl _ Hst Hid.
  rewrite Hs in Hst. rewrite Hm in Hid. apply (iv_access _ _ Hinv); [done|by exists c].
Qed.

Lemma close_client_ok i c w (Q : unit -> world -> Prop) :
  inv w -> w_clients w !! i = Some (Some c) ->
  (forall w' c', inv w' -> w_clients w' !! i = Some (Some c') ->
     cl_mem_access c' = cl_mem_access c -> Q tt w') ->
  wp (close_client i) Q w.
Proof.
  intros Hinv Hc HQ. unfold close_client. wp_next. unfold wp at 1, shuts_down.
  assert (Hw : forall ok w', inv w' -> w_clients w' !! i = Some (Some c) ->
    wp (when_ ok (upd_client i (fun c => c <| cl_fd := -1 |>))) Q w').
  { intros ok w' Hw' Hc'. apply wp_when; intros _; [|by eapply HQ]. apply wp_modify.
    apply (HQ _ (c <| cl_fd := -1 |>)); [by apply tick_ok| |done].
    cbn. by rewrite list_lookup_alter_eq, Hc'. }
  destruct (w_put_ok w) as [|ok oks]; apply Hw; [done|done|by apply inv_put_ok|done].
Qed.

Lemma forget_client_ok i w : inv w -> present w i -> keeps_inv (forget_client i) w.
Proof.
  intros Hinv [c Hc]. unfold forget_client. apply wp_modify_bind. wp_next.
  apply (close_client_ok i (client_drop TLX_IDLE_CYCLES CLIENT_NONE c)); [by apply drop_ok| |].
  { cbn. by rewrite list_lookup_alter_eq, Hc. }
  intros w1 c1 Hw1 Hc1 Hm. wp_next. apply (wp_the_client _ c1); [done|]. rewrite Hm.
  cbn [client_drop cl_mem_access].
  wp_next. apply wp_ret, wp_modify. by apply drop_ok.
Qed.

Lemma detach_ok i w : inv w -> present w i -> keeps_inv (_detach i) w.
Proof.
  intros Hinv [c Hc]. unfold _detach. wp_next. apply (wp_the_client _ c); [done|]. wp_next.
  assert (Hrest : forall w', inv w' -> w_clients w' !! i = Some (Some c) ->
    keeps_inv (forget_client i;; count_detach) w').
  { intros w' Hw' Hc'. wp_next. eapply wp_mono; [apply forget_client_ok; [done|by exists c]|].
    intros [] w1 H1. apply wp_modify_bind, wp_modify. by do 2 apply inv_ocl. }
  apply wp_put_bytes; intros oks; apply Hrest; [|done| |done].
  - by apply inv_puts.
  - by apply inv_put_ok.
Qed.

Lemma insert_client_ok i o w :
  inv w -> (forall c, o = Some c -> cl_context c = Z.of_nat i /\ cl_mem_access c = None) ->
  inv (w <| w_clients := <[i := o]> (w_clients w) |>).
Proof.
  intros [] Ho. constructor; cbn; try done.
  - by rewrite length_insert.
  - intros j c Hj. destruct (decide (i = j)) as [<-|Hij].
    + destruct (decide (i < length (w_clients w))%nat).
      * rewrite list_lookup_insert_eq in Hj by done. injection Hj as ->. by apply Ho.
      * rewrite list_insert_ge in Hj by lia. by apply iv_client.
    + rewrite list_lookup_insert_ne in Hj by done. by apply iv_client.
  - intros j id _ (c & Hj & Hs & Hm). cbn in Hj. destruct (decide (i = j)) as [<-|Hij].
    + destruct (decide (i < length (w_clients w))%nat).
      * rewrite list_lookup_insert_eq in Hj by done. injection Hj as ->.
        destruct (Ho c eq_refl) as [_ Hn]. congruence.
      * rewrite list_insert_ge in Hj by lia. apply iv_access; [done|by exists c].
    + rewrite list_lookup_insert_ne in Hj by done. apply iv_access; [done|by exists c].
Qed.

Lemma sweep_leave_ok i w : inv w -> present w i -> keeps_inv (sweep_leave i) w.
Proof.
  intros Hinv [c Hc]. unfold sweep_leave. wp_next. apply (wp_the_client _ c); [done|].
  apply wp_when; [|done]. intros _. wp_next.
  apply wp_put_bytes; intros oks; apply wp_modify, insert_client_ok; try done.
  - by apply inv_puts.
  - by apply inv_put_ok.
Qed.

Lemma sweep_client_ok i w : inv w -> present w i -> keeps_inv (sweep_client i) w.
Proof.
  intros Hinv [c Hc]. unfold sweep_client. apply wp_modify_bind. set (f := drain_idle).
  assert (Hw : inv (w <| w_clients := alter (fmap f) i (w_clients w) |>)) by by apply tick_ok.
  assert (Hcf : w_clients (w <| w_clients := alter (fmap f) i (w_clients w) |>) !! i = Some (Some (f c))).
  { cbn. by rewrite list_lookup_alter_eq, Hc. }
  wp_next. apply (wp_the_client _ (f c)); [exact Hcf|]. wp_next.
  eapply wp_mono; [by apply (client_cmd_ok (fun _ => True) _ i)|]. intros rc w' Hw'.
  apply wp_when; [|done]. intros _. by apply wp_modify, tick_ok.
Qed.


(** * Both components *)

Local Notation keeps m w := (wp m (fun _ w' => both w') w) (only parsing).

Lemma both_framed {A} (m : M A) w :
  both w -> framed cmd_frame m -> keeps_inv m w -> keeps m w.
Proof.
  intros Hb Hf Hm. apply wp_framed; [done|]. eapply wp_mono; [exact Hm|].
  intros x w' Hi Hfr. by apply (both_frame w).
Qed.

Section frames.
Local Notation fr m := (framed cmd_frame m).

Lemma frame_commands : fr handle_commands.
Proof. unfold handle_commands. frame. Qed.
Lemma frame_upd_ocl f : fr (upd_ocl f).
Proof. unfold upd_ocl. frame. Qed.
Lemma frame_memory_ack fuel i ok s : fr (memory_ack fuel i ok s).
Proof. unfold memory_ack. frame. Qed.
Hint Resolve frame_upd_ocl frame_answer : frame.
Lemma frame_shuts_down : framed cmd_frame shuts_down.
Proof.
  intros w ok w'. unfold shuts_down. destruct (w_put_ok w); intros [= _ <-]; by apply cmd_frame_same.
Qed.
Lemma frame_detach i : fr (_detach i).
Proof.
  unfold _detach, forget_client, close_client, count_detach. repeat first [progress frame | apply frame_shuts_down].
Qed.
Lemma frame_attach i : fr (_attach i).
Proof. unfold _attach. frame. Qed.
Lemma frame_sweep_client i : fr (sweep_client i).
Proof. unfold sweep_client, drain_idle. frame. Qed.
Lemma frame_sweep_leave i : fr (sweep_leave i).
Proof.
  unfold sweep_leave. frame. apply framed_modify. intros w. constructor; [done|done|]. intros j c'.
  cbn. intros [(-> & Hx & _) | [_ Hl]]%list_lookup_insert_Some; [done|]. by exists c'.
Qed.
Lemma frame_refresh_client i : fr (refresh_client i).
Proof. unfold refresh_client. frame. Qed.
End frames.

Lemma attach_ok i w : both w -> present w i -> keeps (_attach i) w.
Proof.
  intros Hb [c Hc]. apply both_framed; [done|apply frame_attach|]. unfold _attach.
  wp_next. apply (wp_the_client _ c); [done|]. apply wp_gets_bind, wp_gets_bind. cbv zeta.
  wp_next. apply wp_when; intros _; [apply wp_modify|]; apply wp_modify_bind;
    (eapply (wp_mono _ (fun _ w' => both w')); [|by intros [] w' []]);
    (apply answer_both; [|done]); (apply (both_frame w); [done| |by apply cmd_frame_same]); repeat apply inv_ocl; apply Hb.
Qed.

Lemma refresh_client_ok i w : both w -> keeps (refresh_client i) w.
Proof.
  intros Hb. apply both_framed; [done|apply frame_refresh_client|]. apply wp_modify.
  apply tick_ok; [apply Hb|done..].
Qed.

(** ** What finishing an access leaves alone *)

Record turn_frame (w w' : world) : Prop := TurnFrame {
  tf_pages : w_pages w' = w_pages w;
  tf_cfg : mm_fcn_cfg_array (w_mmio w') = mm_fcn_cfg_array (w_mmio w);
  tf_client : forall i c, w_clients w !! i = Some (Some c) ->
    exists c', w_clients w' !! i = Some (Some c') /\ cl_context c' = cl_context c /\
      cl_fcn c' = cl_fcn c /\ cl_afuid c' = cl_afuid c;
}.

#[export] Instance turn_frame_preorder : PreOrder turn_frame.
Proof.
  split.
  - intros w. constructor; [done|done|]. intros i c Hc. by exists c.
  - intros a b c [H1 H2 H3] [H4 H5 H6]. constructor; [congruence|congruence|].
    intros i x Hx. destruct (H3 i x Hx) as (y & Hy & ? & ? & ?).
    destruct (H6 i y Hy) as (z & Hz & ? & ? & ?). exists z. split; [done|].
    split_and!; congruence.
Qed.

Lemma turn_same w w' :
  w_pages w' = w_pages w -> mm_fcn_cfg_array (w_mmio w') = mm_fcn_cfg_array (w_mmio w) ->
  w_clients w' = w_clients w -> turn_frame w w'.
Proof. intros Hp Hc Hw. constructor; [done|done|]. intros i c. rewrite Hw. by exists c. Qed.

Lemma turn_upd_client i f :
  (forall c, cl_context (f c) = cl_context c) -> (forall c, cl_fcn (f c) = cl_fcn c) ->
  (forall c, cl_afuid (f c) = cl_afuid c) -> framed turn_frame (upd_client i f).
Proof.
  intros H1 H2 H3. apply framed_modify. intros w. constructor; [done|done|]. intros j c Hc. cbn.
  destruct (decide (j = i)) as [->|Hj].
  - exists (f c). rewrite list_lookup_alter_eq, Hc. split_and!; [done|apply H1|apply H2|apply H3].
  - exists c. by rewrite list_lookup_alter_ne.
Qed.

Lemma turn_put_bytes fd l : framed turn_frame (put_bytes fd l).
Proof.
  intros w b w'. unfold put_bytes. destruct (w_put_ok w) as [|[] oks]; intros [= _ <-];
    by apply turn_same.
Qed.

Lemma turn_finish_access i : framed turn_frame (finish_access i).
Proof.
  unfold finish_access, handle_mmio_done, the_client, get_mmio, answer, drop_client, refresh_client,
    set_mmio_access, free_mmio, upd_mmio.
  frames ltac:(first [ apply turn_put_bytes | apply turn_upd_client; done
                     | apply framed_modify; intros; by apply turn_same ]).
Qed.

Lemma finish_access_ok i w : both w -> present w i -> keeps (finish_access i) w.
Proof.
  intros Hb [c Hc]. unfold finish_access. wp_next. apply (wp_the_client _ c); [done|].
  destruct (cl_mmio_access c) as [id|]; [|done]. wp_next.
  pose proof (refresh_client_ok i w Hb) as Hr. unfold refresh_client, upd_client in Hr |- *.
  apply wp_modify. eapply handle_mmio_done_ok; [exact Hr|].
  cbn. rewrite list_lookup_alter_eq, Hc. done.
Qed.

(** ** A client's message *)

(** What is asked of a client that asks for an access. *)
Definition request_ok (w : world) (i : nat) (msg : list Z) : Prop :=
  forall c op rest, w_clients w !! i = Some (Some c) -> msg = op :: rest ->
    (forall rnw dw global, register_op op = Some (rnw, dw, global) ->
       mmio_request_ok (w_mmio w) c dw global rest) /\
    (forall rnw be_valid, memory_op op = Some (rnw, be_valid) ->
       mem_request_ok (w_mmio w) c rnw 0 be_valid rest).

Lemma no_event_ok (m : M unit) s w :
  keeps m w -> wp (m;; mret (None (A := addr_t), s)) handled w.
Proof. intros Hm. wp_next. eapply wp_mono; [exact Hm|]. intros [] w' Hw'. by apply wp_ret. Qed.

Lemma memory_ack_both fuel i ok s w : both w -> ack_ok w i s -> keeps (memory_ack fuel i ok s) w.
Proof.
  intros Hb Ha. apply both_framed; [done|apply frame_memory_ack|]. apply memory_ack_ok; [apply Hb|done].
Qed.

Lemma detach_both i w : both w -> present w i -> keeps (_detach i) w.
Proof.
  intros Hb Hp. apply both_framed; [done|apply frame_detach|]. apply detach_ok; [apply Hb|done].
Qed.

Lemma client_message_ok fuel i op s w :
  both w -> ack_ok w i s -> request_ok w i (op :: incoming s) ->
  wp (client_message fuel i op s) handled w.
Proof.
  intros Hb Ha Hreq. pose proof Ha as ([c Hc] & Hs & _). unfold client_message.
  destruct (op =? OCSE_DETACH); [by apply no_event_ok, detach_both; [|exists c]|].
  destruct (op =? OCSE_ATTACH); [by apply no_event_ok, attach_ok; [|exists c]|].
  destruct (op =? OCSE_MEM_FAILURE).
  { wp_next. eapply wp_mono; [by apply memory_ack_both|]. intros s' w' Hw'. by apply wp_ret. }
  destruct (op =? OCSE_MEM_SUCCESS).
  { wp_next. eapply wp_mono; [by apply memory_ack_both|]. intros s' w' Hw'. by apply wp_ret. }
  destruct ((op =? OCSE_MMIO_MAP) || (op =? OCSE_GLOBAL_MMIO_MAP)).
  { by apply no_event_ok, (handle_mmio_map_ok _ _ c). }
  destruct (Hreq c op (incoming s) Hc eq_refl) as [Hreg Hmem].
  destruct (register_op op) as [[[rnw dw] global]|].
  - by apply (handle_mmio_ok _ _ c); [..|apply (Hreg rnw)].
  - destruct (memory_op op) as [[rnw be]|]; [|done]. by apply (handle_mem_ok _ _ c); [..|apply Hmem].
Qed.

(** The same client, as far as its requests go. *)
Lemma request_ok_turn w w' i msg :
  turn_frame w w' -> request_ok w i msg -> present w i -> request_ok w' i msg.
Proof.
  intros [_ Hcfg Hcl] Hreq [c Hc] c' op rest Hc' ->.
  destruct (Hcl i c Hc) as (c1 & Hc1 & Hx & Hf & Ha). rewrite Hc1 in Hc'. injection Hc' as <-.
  destruct (Hreq c op rest Hc eq_refl) as [Hreg Hmem].
  assert (E : cfg_of (w_mmio w') c1 = cfg_of (w_mmio w) c) by (unfold cfg_of; by rewrite Hcfg, Hf, Ha).
  assert (Ep : forall a, pasid_area a c1 = pasid_area a c) by (intros a; unfold pasid_area; by rewrite Hx).
  split.
  - intros rnw dw global Hop. specialize (Hreg _ _ _ Hop). unfold mmio_request_ok, register_ok in *.
    intros PA. specialize (Hreg PA). unfold mmio_PA in *. rewrite E.
    destruct (cfg_of (w_mmio w) c) as [[f a]|]; [|done]. cbn in *. by rewrite Ep.
  - intros rnw be Hop. exact (Hmem _ _ Hop).
Qed.

Lemma bytes_ready_stream abort s rc s' :
  bytes_ready abort s = (rc, s') -> stream_bytes s ->
  stream_bytes s' /\ incoming s' = incoming s.
Proof.
  intros H Hs. assert (s' = arrive s) as ->.
  { unfold bytes_ready in H. repeat case_match; by injection H. }
  split; [by apply arrive_bytes|apply arrive_incoming].
Qed.

Lemma handle_client_ok fuel i s w :
  both w -> ack_ok w i s -> request_ok w i (incoming s) -> keeps (_handle_client fuel i s) w.
Proof.
  intros Hb (Hp & Hs & Hlow) Hreq. unfold _handle_client. wp_next.
  assert (Hfin : wp (finish_access i) (fun _ w' => both w' /\ turn_frame w w') w).
  { pose proof (finish_access_ok i w Hb Hp) as H. unfold wp in *.
    destruct (finish_access i w) as [[] w'| | |] eqn:E; try done. split; [done|].
    by eapply turn_finish_access. }
  eapply wp_mono; [exact Hfin|]. intros [] w1 [Hb1 Ht].
  destruct Hp as [c0 Hc0]. destruct (tf_client _ _ Ht i c0 Hc0) as (c & Hc & _).
  wp_next. apply (wp_the_client _ c); [done|]. destruct (bool_decide (cl_state c = CLIENT_NONE)); [done|].
  cbv zeta. destruct (bytes_ready (truthy (cl_abort c)) s) as [rc s1] eqn:Er.
  destruct (bytes_ready_stream _ _ _ _ Er Hs) as [Hs1 Hi1].
  destruct (negb (truthy rc)); [done|].
  destruct (get_bytes_silent fuel (truthy (cl_abort c)) 1 s1) as [b s2| |] eqn:Eg; [| |done].
  2: { wp_next. apply drop_client_ok; [done|]. intros w2 Hb2. by apply wp_ret. }
  destruct (get_bytes_silent_incoming _ _ _ _ _ _ Eg) as (Hd & Hi2 & Hl); [lia|].
  destruct (get_bytes_silent_bytes _ _ 1 _ _ _ ltac:(lia) Eg Hs1) as (_ & _ & Hs2).
  destruct b as [|op [|x b]]; try discriminate Hl.
  wp_next. apply (wp_lift _ op); [done|]. wp_next.
  assert (Hmsg : incoming s = op :: incoming s2).
  { rewrite <- Hi1, Hi2. destruct (incoming s1); [done|]. cbn in Hd. by injection Hd as ->. }
  assert (Hack : ack_ok w1 i s2).
  { split; [by exists c|]. split; [done|]. by rewrite (tf_pages _ _ Ht). }
  assert (Hreq1 : request_ok w1 i (op :: incoming s2)).
  { rewrite <- Hmsg. by apply (request_ok_turn w); [..|exists c0]. }
  eapply wp_mono; [by apply client_message_ok|]. intros [o s3] w2 [Hb2 Ho]. cbn in Ho. wp_next.
  apply (wp_mono _ (fun _ w' => both w')); [destruct o as [id|]; [|done]|].
  { apply wp_modify. by apply set_access_ok. }
  intros [] w3 Hb3. apply wp_modify_bind, wp_ret.
  assert (Hv : forall c, cl_context (refresh_valid c) = cl_context c /\ client_frame c (refresh_valid c) /\
    cl_mem_access (refresh_valid c) = cl_mem_access c /\ cl_state (refresh_valid c) = cl_state c).
  { intros c'. unfold refresh_valid, client_frame. case_bool_decide; split_and!; cbn; auto. }
  apply (both_frame w3); [done| |].
  - apply tick_ok; [apply Hb3|apply Hv..].
  - by apply (frame_upd_client i refresh_valid (fun c => proj1 (proj2 (Hv c))) w3 tt).
Qed.

(** ** A turn and the access driven after it *)

(** The AFU's answer to the access at the head of the queue. *)
Definition turn_ok (w : world) : Prop :=
  forall id e, head (queue w) = Some id -> heap w !! id = Some e -> answer_ok e (w_event w).

Lemma handle_afu_ok w : both w -> turn_ok w -> keeps _handle_afu w.
Proof.
  intros Hb Ht. unfold _handle_afu. wp_next.
  apply (wp_mono _ (fun _ w' => both w')).
  - unfold handle_responses. apply wp_gets_bind.
    destruct (mm_list (w_mmio w)) as [|id l] eqn:Eq; [done|].
    pose proof (head_queue _ _ _ Eq) as Hhd.
    destruct (mi_alloc _ (proj1 (proj2 Hb)) id (head_in _ _ Hhd)) as [e He].
    wp_next. eapply wp_mono; [apply (handle_ap_resp_ok _ id e); [done|done|done|by apply (Ht id)]|].
    intros [] w1 Hm. by apply handle_ap_resp_data_ok.
  - intros [] w1 Hb1. apply both_framed; [done|apply frame_commands|apply handle_commands_ok, Hb1].
Qed.

Lemma drive_afu_ok w : both w -> keeps drive_afu w.
Proof.
  intros Hb. unfold drive_afu. wp_next. eapply wp_mono; [by apply send_mmio_ok|]. intros [] w1 Hb1.
  apply wp_gets_bind. apply wp_when; intros _; [|done]. apply wp_modify.
  apply (both_frame w1); [done|apply inv_ocl, Hb1|by apply cmd_frame_same].
Qed.

(** * Interleaving *)

(** The start: no commands, no accesses, no clients; discovery has not begun or
    is over. *)
Definition start (event : AFU_EVENT) (p : parms) (mm : mmio) (o : ocl) (ds : draws) (n : nat)
    (oks : list bool) : world :=
  cmd_init event p mm o ds <| w_clients := replicate n None |> <| w_max_clients := Z.of_nat n |>
    <| w_put_ok := oks |>.

Definition start_ok (event : AFU_EVENT) (p : parms) (mm : mmio) (n : nat) : Prop :=
  event_wf event /\ legal_intrp (get_afu_cmd event) /\ parms_set p /\ parms_wf p /\
  Z.of_nat n < 2 ^ 31 /\ mm_heap mm = ∅ /\ mm_list mm = [].

(** One operation of the thread, with what its environment provides.  The last
    two are those of discovery, which waits for each access in turn. *)
Inductive operation :=
  | Turn
  | Drive
  | Serve (fuel i : nat) (s : stream)
  | Leave (i : nat)
  | Sweep (i : nat)
  | Config (rnw addr data : Z)
  | Release (id : addr_t).

Definition run_op (o : operation) : M unit :=
  match o with
  | Turn => _handle_afu
  | Drive => drive_afu
  | Serve fuel i s => _handle_client fuel i s;; mret tt
  | Leave i => sweep_leave i
  | Sweep i => sweep_client i
  | Config rnw addr data => _add_cfg rnw 0 addr data;; mret tt
  | Release id => free_mmio id
  end.

(** What is asked of the environment: the AFU answers the access it was given, a
    client asks for legal accesses. *)
Definition op_ok (w : world) (o : operation) : Prop :=
  match o with
  | Turn => turn_ok w
  | Drive => True
  | Serve _ i s => ack_ok w i s /\ request_ok w i (incoming s)
  | Leave i | Sweep i => present w i
  | Config _ addr _ => is_u 64 addr
  | Release id =>
      exists e, heap w !! id = Some e /\ is_done e = true /\ truthy (me_cfg e) = true
  end.

(** The thread, the AFU (the interface changes, within its types), the thread's
    own variables, and clients that attach to an AFU that is known. *)
Inductive step : world -> world -> Prop :=
  | step_op w w' o : op_ok w o -> run_op o w = Done tt w' -> step w w'
  | step_afu w afu :
      event_wf afu -> legal_intrp (get_afu_cmd afu) -> step w (w <| w_event := afu |>)
  | step_ocl w o : step w (w <| w_ocl := o |>)
  | step_attach w i c :
      w_clients w !! i = Some None -> cl_context c = Z.of_nat i -> cl_mem_access c = None ->
      cl_mmio_access c = None -> is_Some (cfg_of (w_mmio w) c) ->
      step w (w <| w_clients := <[i := Some c]> (w_clients w) |>).

Inductive reachable : world -> Prop :=
  | reach_start event p mm o ds n oks :
      start_ok event p mm n -> reachable (start event p mm o ds n oks)
  | reach_step w w' : reachable w -> step w w' -> reachable w'.

Lemma run_op_ok w o : both w -> op_ok w o -> keeps (run_op o) w.
Proof.
  intros Hb Ho. destruct o as [| |fuel i s|i|i|rnw addr data|id]; cbn [run_op op_ok] in *.
  - by apply handle_afu_ok.
  - by apply drive_afu_ok.
  - destruct Ho as [Ha Hr]. wp_next. eapply wp_mono; [by apply handle_client_ok|]. done.
  - apply both_framed; [done|apply frame_sweep_leave|]. apply sweep_leave_ok; [apply Hb|done].
  - apply both_framed; [done|apply frame_sweep_client|]. apply sweep_client_ok; [apply Hb|done].
  - wp_next. eapply wp_mono; [by apply add_cfg_ok|]. done.
  - destruct Ho as (e & He & Hd & Hc). by apply (free_cfg_ok _ e).
Qed.

Lemma no_clients n i c : replicate n (None : option client) !! i = Some (Some c) -> False.
Proof. by intros [Hr _]%lookup_replicate. Qed.

Lemma start_inv event p mm o ds n oks :
  start_ok event p mm n -> both (start event p mm o ds n oks).
Proof.
  intros (Hwf & Hleg & Hp & Hpw & Hn & Hh & Hq). split; [constructor|split; [constructor|]];
    unfold heap, queue; cbn; rewrite ?Hh, ?Hq; try done.
  - constructor.
  - intros e He. by apply not_elem_of_nil in He.
  - constructor.
  - intros e He. by apply not_elem_of_nil in He.
  - apply (pw_host_CL _ Hpw).
  - rewrite length_replicate. lia.
  - intros i c Hi. by apply no_clients in Hi.
  - intros i id _ (c & Hi & _). by apply no_clients in Hi.
  - constructor; try (split; [done|by repeat constructor]); by vm_compute.
  - constructor.
  - intros id Hin. by apply not_elem_of_nil in Hin.
  - intros i id (c & Hi & _). by apply no_clients in Hi.
  - intros i j id (c & Hi & _). by apply no_clients in Hi.
  - intros i c Hi. by apply no_clients in Hi.
Qed.

(** A client that attaches. *)
Lemma attach_both w i c :
  both w -> w_clients w !! i = Some None -> cl_context c = Z.of_nat i -> cl_mem_access c = None ->
  cl_mmio_access c = None -> is_Some (cfg_of (w_mmio w) c) ->
  both (w <| w_clients := <[i := Some c]> (w_clients w) |>).
Proof.
  intros [Hi [Hm Ho]] Hc Hctx Hma Hmm Hcfg. split; [apply insert_client_ok; [done|by intros c' [= <-]]|].
  assert (Hlook : forall j c', <[i := Some c]> (w_clients w) !! j = Some (Some c') ->
    c' = c \/ w_clients w !! j = Some (Some c')).
  { intros j c' [(_ & [= ->] & _) | [_ Hj]]%list_lookup_insert_Some; auto. }
  assert (Hown : forall j id, owns (w <| w_clients := <[i := Some c]> (w_clients w) |>) j id -> owns w j id).
  { intros j id (c' & Hj & Hid). destruct (Hlook j c' Hj) as [-> | Hj']; [congruence|]. by exists c'. }
  split; [|done]. destruct Hm as []. constructor; try done.
  - intros j id Hj. apply (mi_access j), Hown, Hj.
  - intros j k id Hj Hk. apply (mi_own j k id); by apply Hown.
  - intros j c' Hj. destruct (Hlook j c' Hj) as [-> | Hj']; [done|by apply (mi_cfg j)].
Qed.

Lemma reachable_both w : reachable w -> both w.
Proof.
  induction 1 as [event p mm o ds n oks Hs|w w' _ IH Hstep]; [by apply start_inv|].
  destruct Hstep as [w w' o Ho Hr|w afu Hwf Hleg|w o|w i c Hi Hctx Hm Hmm Hcfg].
  - exact (wp_done _ _ _ _ _ (run_op_ok w o IH Ho) Hr).
  - apply (both_frame w); [done| |by apply cmd_frame_same]. destruct IH as [[] _]. by constructor.
  - apply (both_frame w); [done|by apply inv_ocl, IH|by apply cmd_frame_same].
  - by apply attach_both.
Qed.

Lemma reachable_inv w : reachable w -> inv w.
Proof. intros Hr. apply (reachable_both w Hr). Qed.
