(* ===== verification/CmdProps.v ===== *)
(** Reads and writes on their way to a client and back, when no fault is
    injected: the request that is sent, and the answer that completes it. *)
From S2P Require Import Prelude Utils Event TlxHost Parms CmdState Cmd CmdHandlers.
From S2P Require Import CmdLogic CmdInv CmdSafe CmdSafeResp CmdSafeSend CmdSafeAdd Ocl.

(** * Without injected faults *)

(** No fault, no reordering is ever drawn. *)
Record quiet (p : parms) : Prop := Quiet {
  q_retry : retry_percent p = Some 0; q_failed : failed_percent p = Some 0;
  q_derror : derror_percent p = Some 0; q_pending : pending_percent p = Some 0;
  q_bdi : bdi_resp_err_percent p = Some 0; q_reorder : reorder_percent p = Some 0;
}.

Lemma percent_zero ds : exists ds', percent_chance (Some 0) ds = Some (false, ds').
Proof.
  unfold percent_chance, rand. cbn [mbind option_bind]. destruct ds as [|d ds].
  - by exists [].
  - exists ds. do 2 f_equal. apply Z.ltb_ge. change (i32 0) with 0.
    apply Z.rem_nonneg; [done|]. apply Z.land_nonneg. by right.
Qed.

Lemma decide_quiet chance w :
  chance (w_parms w) = Some 0 ->
  exists ds, decide_by (fun p => percent_chance (chance p)) w = Done false (w <| w_draws := ds |>).
Proof.
  intros Hc. unfold decide_by. rewrite Hc. destruct (percent_zero (w_draws w)) as [ds ->]. by exists ds.
Qed.

Lemma draw_faults_quiet id op derror w :
  quiet (w_parms w) -> exists ds, draw_faults id op derror w = Done false (w <| w_draws := ds |>).
Proof.
  intros []. unfold draw_faults.
  destruct (decide_quiet retry_percent w) as [d1 E1]; [done|]. rewrite (bind_done _ _ _ _ _ E1).
  destruct (decide_quiet failed_percent (w <| w_draws := d1 |>)) as [d2 E2]; [done|].
  rewrite (bind_done _ _ _ _ _ E2).
  assert (Hp : forall d, exists ds,
    (pending ← decide_by allow_pending;
     if pending : bool then fail_event id MEM_XLATE_PENDING (Some op) 0x04;; mret true
     else mret false) (w <| w_draws := d |>) = Done false (w <| w_draws := ds |>)).
  { intros d. destruct (decide_quiet pending_percent (w <| w_draws := d |>)) as [d4 E4]; [done|].
    exists d4. by rewrite (bind_done _ _ _ _ _ E4). }
  destruct derror.
  - destruct (decide_quiet derror_percent (w <| w_draws := d1 |> <| w_draws := d2 |>)) as [d3 E3]; [done|].
    destruct (Hp d3) as [ds Hds]. exists ds.
    rewrite (bind_done _ _ _ _ _ E3). exact Hds.
  - destruct (Hp d2) as [ds Hds]. exists ds.
    exact Hds.
Qed.

Lemma insert_event_quiet e l w :
  quiet (w_parms w) -> exists ds, insert_event e l w = Done (l ++ [e]) (w <| w_draws := ds |>).
Proof.
  intros Hq. revert w Hq. induction l as [|x l IH]; intros w Hq.
  - exists (w_draws w). by destruct w.
  - cbn [insert_event]. destruct (decide_quiet reorder_percent w) as [d E]; [apply Hq|].
    rewrite (bind_done _ _ _ _ _ E). cbv iota.
    assert (Hq' : quiet (w_parms (w <| w_draws := d |>))) by exact Hq.
    destruct (IH _ Hq') as [ds Hds]. exists ds.
    by rewrite (bind_done _ _ _ _ _ Hds).
Qed.

(** ** Looking things up *)

Lemma get_client_here e i c w :
  w_clients w !! i = Some (Some c) -> ev_context e = Z.of_nat i -> Z.of_nat i < w_max_clients w ->
  _get_client e w = Done (Some i) w.
Proof.
  intros Hc Hctx Hm. unfold _get_client.
  rewrite bind_gets, Hctx.
  replace (w_max_clients w <=? Z.of_nat i) with false by lia.
  replace (Z.of_nat i <? 0) with false by lia.
  rewrite bind_gets, Nat2Z.id. by rewrite Hc.
Qed.

Lemma get_client_gone e w :
  w_clients w !! Z.to_nat (ev_context e) = Some None -> 0 <= ev_context e ->
  _get_client e w = Done None w.
Proof.
  intros Hc He. unfold _get_client. rewrite bind_gets.
  case_match; [done|]. replace (ev_context e <? 0) with false by lia.
  rewrite bind_gets. cbv zeta. by rewrite Hc.
Qed.

Lemma the_client_here i c w : w_clients w !! i = Some (Some c) -> the_client i w = Done c w.
Proof.
  intros Hc. unfold the_client. rewrite bind_gets. by rewrite Hc.
Qed.

Lemma find_event_here p e w : find p (w_list w) = Some e -> find_event p w = Done (Some e) w.
Proof. unfold find_event, gets. by intros ->. Qed.

(** The socket takes the message. *)
Lemma put_client_ok i c msg w :
  w_clients w !! i = Some (Some c) -> w_put_ok w = [] ->
  put_client i msg w = Done tt (w <| w_puts := w_puts w ++ [(cl_fd c, msg)] |>).
Proof.
  intros Hc Hp. unfold put_client. rewrite (bind_done _ _ _ _ _ (the_client_here _ _ _ Hc)).
  assert (E : put_bytes (cl_fd c) msg w = Done true (w <| w_puts := w_puts w ++ [(cl_fd c, msg)] |>)).
  { unfold put_bytes. by rewrite Hp. }
  by rewrite (bind_done _ _ _ _ _ E).
Qed.

(** * Requests to the client *)

(** What sending a request leaves of the world: the message is on the client's
    socket, the entry has moved on, and the client waits for it. *)
Definition requested (w w' : world) (i : nat) (c : client) (e : cmd_event) (msg : list Z)
    (s : mem_state) : Prop :=
  w_puts w' = w_puts w ++ [(cl_fd c, msg)] /\
  w_list w' = upd_list (ev_id e) (fun x => x <| ev_state := s |>) (w_list w) /\
  w_clients w' = alter (fmap (fun c => c <| cl_mem_access := Some (ev_id e) |>)) i (w_clients w) /\
  w_event w' = w_event w /\ w_pages w' = w_pages w /\ w_max_clients w' = w_max_clients w.

(** The client of [e] is there, idle, and its socket is up. *)
Record serves (w : world) (i : nat) (c : client) (e : cmd_event) : Prop := Serves {
  sv_client : w_clients w !! i = Some (Some c); sv_context : ev_context e = Z.of_nat i;
  sv_max : Z.of_nat i < w_max_clients w; sv_idle : cl_mem_access c = None;
  sv_up : w_put_ok w = []; sv_quiet : quiet (w_parms w);
}.

(** The first open read, when its client is idle and no fault is injected,
    is sent to that client: opcode [OCSE_MEMORY_READ], the size as two bytes and
    the address as eight, both in network order; the entry awaits the data and
    the client is bound to it. *)
Lemma read_is_requested w i c e :
  find open_read (w_list w) = Some e -> ev_state e = MEM_IDLE -> serves w i c e ->
  exists w', handle_buffer_write w = Done tt w' /\
    requested w w' i c e (7 :: be_bytes 2 (u16 (ev_size e)) ++ be_bytes 8 (ev_addr e)) MEM_REQUEST.
Proof.
  intros Hf Hs []. unfold handle_buffer_write.
  rewrite (bind_done _ _ _ _ _ (find_event_here _ _ _ Hf)).
  rewrite (bind_done _ _ _ _ _ (get_client_here _ _ _ _ sv_client0 sv_context0 sv_max0)).
  rewrite (bind_done _ _ _ _ _ (the_client_here _ _ _ sv_client0)). cbv zeta.
  unfold busy. rewrite Hs, sv_idle0.
  destruct (draw_faults_quiet (ev_id e) TLX_RSP_READ_FAILED true w sv_quiet0) as [ds Hd].
  change (bool_decide (MEM_IDLE = MEM_IDLE)) with true. cbn [andb negb].
  rewrite (bind_done _ _ _ _ _ Hd). cbv iota.
  change (bool_decide (MEM_IDLE = MEM_RECEIVED)) with false.
  change (bool_decide (MEM_IDLE = MEM_CAS_RD)) with false. cbn [when_]. unfold send_read.
  set (w1 := w <| w_draws := ds |>).
  rewrite (bind_done _ _ _ _ _ (put_client_ok i c _ w1 sv_client0 sv_up0)).
  eexists. split; [reflexivity|]. split_and!; try reflexivity.
Qed.

(** ** A concrete state *)

Definition sample_parms (host_CL : Z) : parms :=
  Parms 10000 0 0 host_CL (Some 100) (Some 0) (Some 0) (Some 0) (Some 0) (Some 0) (Some 0) (Some 0)
    (Some 0) (Some 0) (Some 0) (Some 0) (Some 0) (Some 0).

Definition sample_client : client := Client 0 0 9 0 0 CLIENT_VALID 0 3 0x100 0 0 5 None None.

(** An event with response credits. *)
Definition sample_afu : AFU_EVENT :=
  tlx_event_reset event_zero <| afu_tlx_resp_credits_available := 4 |>.

Definition sample_raw : mmio_event :=
  MmioEvent 0 0 0 0 0 0 0 0 0 0 0 0 0 0 0 [] 0 0 0 OCSE_IDLE.
(** An AFU whose global registers are at 0x10000 from the function's base, each
    client's in an area of 0x10000 bytes from 0x20000. *)
Definition sample_afu_cfg : afu_cfg :=
  AfuCfg 0 4 4 0 16 16 (zeros 25) 1 0 0 0x10000 0x10000 0 0x20000 0x10000 0 0.
Definition sample_fcn : fcn_cfg :=
  FcnCfg 0x062b 0x1014 0x40000000000 4 3 0 1 0 0x200 0x80 0 0 16 0x300 [Some sample_afu_cfg].
Definition sample_mmio : mmio :=
  mmio_init (fun _ => sample_raw) (fun _ _ => 0) <| mm_fcn_cfg_array := [Some sample_fcn] |>.
Definition sample_ocl : ocl := Ocl OCSE_RUNNING 1 TLX_IDLE_CYCLES 0.

Definition sample_entry (type : cmd_type) (command addr size : Z) (s : mem_state) (op : Z) : cmd_event :=
  new_event 0%nat 0 0x21 command type addr size s 0 0 0 0 0 op.

Definition sample_world (host_CL : Z) (l : list cmd_event) (c : client) : world :=
  cmd_init sample_afu (sample_parms host_CL) sample_mmio sample_ocl []
    <| w_list := l |> <| w_clients := [Some c] |> <| w_max_clients := 1 |> <| w_next := 1%nat |>.

Lemma sample_serves h e :
  ev_context e = 0 -> serves (sample_world h [e] sample_client) 0 sample_client e.
Proof. by intros He. Qed.

Definition sample_read : cmd_event :=
  sample_entry CMD_READ AFU_CMD_RD_WNITC 0x1000 128 MEM_IDLE TLX_RSP_READ_RESP.

Lemma read_is_requested_witness :
  exists w', handle_buffer_write (sample_world 128 [sample_read] sample_client) = Done tt w' /\
    requested (sample_world 128 [sample_read] sample_client) w' 0 sample_client sample_read
      [7; 0; 128; 0; 0; 0; 0; 0; 0; 0x10; 0] MEM_REQUEST.
Proof.
  apply (read_is_requested (sample_world 128 [sample_read] sample_client) 0 sample_client sample_read);
    [reflexivity|reflexivity|by apply sample_serves].
Defined.

Lemma size_bytes size :
  0 <= size < 4096 ->
  [Z.shiftr (Z.land size 0x0F00) 8; Z.land size 0xFF] = be_bytes 2 size.
Proof.
  intros Hs. cbn [be_bytes]. change (8 * Z.of_nat 1) with 8. change (8 * Z.of_nat 0) with 0.
  rewrite Z.shiftr_0_r, Z.shiftr_land. change (Z.shiftr 0x0F00 8) with (Z.ones 4).
  change 255 with (Z.ones 8). rewrite !Z.land_ones, Z.shiftr_div_pow2 by lia.
  assert (0 <= size / 2 ^ 8 < 16).
  { change (2 ^ 8) with 256. split; [apply Z.div_pos; lia|apply Z.div_lt_upper_bound; lia]. }
  change (2 ^ 8) with 256 in *. change (2 ^ 4) with 16.
  rewrite !(Z.mod_small (size / 256)) by lia. done.
Qed.

(** A write whose data has arrived is sent to its idle client: opcode
    [OCSE_MEMORY_WRITE], size and address in network order, and exactly the
    bytes of the line the command addresses - from the address's place in the
    line for a partial write of at most 32 bytes, from the start otherwise. *)
Lemma write_is_requested w i c e :
  find (in_state CMD_WRITE MEM_RECEIVED) (w_list w) = Some e -> serves w i c e ->
  is_array 256 (ev_data e) -> 0 <= ev_size e <= 256 ->
  exists w', handle_afu_tlx_write_cmd w = Done tt w' /\
    requested w w' i c e
      (8 :: be_bytes 2 (ev_size e) ++ be_bytes 8 (ev_addr e) ++
       take (Z.to_nat (ev_size e))
         (drop (if ev_size e <=? 32 then Z.to_nat (ev_addr e mod 64) else 0%nat) (ev_data e)))
      DMA_MEM_RESP.
Proof.
  intros Hf [] Hd Hs. unfold handle_afu_tlx_write_cmd.
  rewrite (bind_done _ _ _ _ _ (find_event_here _ _ _ Hf)).
  rewrite (bind_done _ _ _ _ _ (get_client_here _ _ _ _ sv_client0 sv_context0 sv_max0)).
  rewrite (bind_done _ _ _ _ _ (the_client_here _ _ _ sv_client0)).
  unfold busy. rewrite sv_idle0.
  destruct (draw_faults_quiet (ev_id e) TLX_RSP_WRITE_FAILED true w sv_quiet0) as [ds Hq].
  rewrite (bind_done _ _ _ _ _ Hq). cbv iota.
  assert (Hoff : line_offset (ev_addr e) = ev_addr e mod 64).
  { unfold line_offset, CACHELINE_OFFSET. exact (Z.land_ones (ev_addr e) 6 ltac:(lia)). }
  pose proof (Z.mod_pos_bound (ev_addr e) 64).
  assert (Hm : write_request e = Some (8 :: be_bytes 2 (ev_size e) ++ be_bytes 8 (ev_addr e) ++
       take (Z.to_nat (ev_size e))
         (drop (if ev_size e <=? 32 then Z.to_nat (ev_addr e mod 64) else 0%nat) (ev_data e)))).
  { unfold write_request. rewrite Hoff. rewrite slice_ok; [|done|repeat case_match; lia..].
    cbn [mbind option_bind]. rewrite <- size_bytes by lia. by case_match. }
  rewrite Hm. rewrite (bind_done (lift (Some _)) _ _ _ _ eq_refl).
  set (w1 := w <| w_draws := ds |>).
  rewrite (bind_done _ _ _ _ _ (put_client_ok i c _ w1 sv_client0 sv_up0)).
  eexists. split; [reflexivity|]. split_and!; reflexivity.
Qed.

Definition sample_write : cmd_event :=
  sample_entry CMD_WRITE AFU_CMD_DMA_PR_W 0x1004 4 MEM_RECEIVED TLX_RSP_WRITE_RESP
    <| ev_data := overwrite (zeros 256) 4 [1; 2; 3; 4] |>.

Lemma write_is_requested_witness :
  exists w', handle_afu_tlx_write_cmd (sample_world 128 [sample_write] sample_client) = Done tt w' /\
    requested (sample_world 128 [sample_write] sample_client) w' 0 sample_client sample_write
      [8; 0; 4; 0; 0; 0; 0; 0; 0; 0x10; 4; 1; 2; 3; 4] DMA_MEM_RESP.
Proof.
  apply (write_is_requested (sample_world 128 [sample_write] sample_client) 0 sample_client sample_write);
    [reflexivity|by apply sample_serves| |done].
  split; [reflexivity|]. apply Forall_overwrite; [apply zeros_bytes|].
  repeat (apply List.Forall_cons; [done|]). apply Forall_nil_2.
Defined.

(** * Answers *)

Lemma find_upd id f l e :
  keeps_id f -> find (fun x => (ev_id x =? id)%nat) l = Some e ->
  find (fun x => (ev_id x =? id)%nat) (upd_list id f l) = Some (f e).
Proof.
  intros Hf. induction l as [|x l IH]; cbn; [done|].
  destruct (ev_id x =? id)%nat eqn:E.
  - intros [= ->]. by rewrite Hf, E.
  - by rewrite E.
Qed.

Lemma upd_upd id f g l :
  keeps_id f -> upd_list id g (upd_list id f l) = upd_list id (fun x => g (f x)) l.
Proof.
  intros Hf. unfold upd_list. rewrite map_map. apply map_ext. intros x.
  destruct (ev_id x =? id)%nat eqn:E; [by rewrite Hf, E|by rewrite E].
Qed.

Lemma get_event_here id e w :
  find (fun x => (ev_id x =? id)%nat) (w_list w) = Some e -> get_event id w = Done e w.
Proof. unfold get_event. by intros ->. Qed.

(** The client [i] waits for [e]. *)
Record awaits (w : world) (i : nat) (c : client) (e : cmd_event) : Prop := Awaits {
  aw_inv : inv w; aw_entry : e ∈ w_list w; aw_client : w_clients w !! i = Some (Some c);
  aw_state : cl_state c = CLIENT_VALID; aw_access : cl_mem_access c = Some (ev_id e);
  aw_context : ev_context e = Z.of_nat i; aw_max : Z.of_nat i < w_max_clients w;
  aw_ages : ages_low (w_pages w);
}.

Lemma copy_line h e d :
  ev_ok h e -> Z.of_nat (length d) = ev_size e ->
  copy_at (ev_data e) (line_offset (ev_addr e)) d (ev_size e) =
  Some (overwrite (ev_data e) (Z.to_nat (ev_addr e mod 64)) d).
Proof.
  intros [H1 H2 H3 H4 H5 H6 H7 H8 H9 H10] Hl.
  assert (Hoff : line_offset (ev_addr e) = ev_addr e mod 64).
  { unfold line_offset, CACHELINE_OFFSET. exact (Z.land_ones (ev_addr e) 6 ltac:(lia)). }
  pose proof (line_offset_range (ev_addr e)). unfold copy_at, slice, guard_ub. rewrite (proj1 H1).
  replace (_ && _) with true by (symmetry; rewrite andb_true_iff, !Z.leb_le;
    destruct (decide (64 < ev_size e)); [rewrite H3|]; lia).
  replace (_ && _ && _) with true by (symmetry; rewrite !andb_true_iff, !Z.leb_le; lia).
  cbn [mbind option_bind]. rewrite Hoff, drop_0, take_ge by lia. done.
Qed.

(** The entry as the data leaves it. *)
Definition with_data (e : cmd_event) (d : list Z) (s : mem_state) (x : cmd_event) : cmd_event :=
  x <| ev_data := overwrite (ev_data e) (Z.to_nat (ev_addr e mod 64)) d |> <| ev_state := s |>.

Lemma mem_read_data h fuel abort e s d s' w :
  find (fun x => (ev_id x =? ev_id e)%nat) (w_list w) = Some e -> ev_ok h e ->
  ev_type e = CMD_READ -> stream_bytes s ->
  get_bytes_silent fuel abort (ev_size e) s = GotBytes d s' ->
  _handle_mem_read fuel abort (ev_id e) s w =
  Done s' (w <| w_list := upd_list (ev_id e) (with_data e d MEM_RECEIVED) (w_list w) |>).
Proof.
  intros Hfind Hok Ht Hs Hg. pose proof (eo_size _ _ Hok) as Hsz.
  destruct (get_bytes_silent_bytes _ _ _ _ _ _ (proj1 Hsz) Hg Hs) as (_ & Hl & _).
  unfold _handle_mem_read. rewrite (bind_done _ _ _ _ _ (get_event_here _ _ w Hfind)).
  cbv zeta. rewrite Ht.
  assert (i32 (ev_size e) = ev_size e) as ->.
  { unfold i32. rewrite Z.mod_small; [lia|]. change (2 ^ 31) with 2147483648.
    change (2 ^ 32) with 4294967296. lia. }
  change (bool_decide (CMD_READ = CMD_READ) || _) with true. cbv iota.
  by rewrite Hg, (copy_line h) by done.
Qed.

(** The client's answer, once its data have been handled as [f] says. *)
Lemma memory_ack_run w fuel i c e s s' f :
  awaits w i c e -> 
  (forall w1, inv w1 -> w_list w1 = w_list w ->
    (s ← (if bool_decide (ev_type e = CMD_READ) then _handle_mem_read fuel (truthy (cl_abort c)) (ev_id e) s
          else mret s);
     mem_returned fuel (truthy (cl_abort c)) (ev_id e) s) w1 =
    Done s' (w1 <| w_list := upd_list (ev_id e) f (w_list w1) |>)) ->
  exists w', memory_ack fuel i true s w = Done s' w' /\
    w_list w' = upd_list (ev_id e) f (w_list w) /\
    w_clients w' = alter (fmap (fun c => c <| cl_mem_access := None |>)) i (w_clients w) /\
    w_event w' = w_event w.
Proof.
  intros [] Hrun. pose proof (find_id _ _ (iv_ids _ _ aw_inv0) aw_entry0) as Hfind.
  destruct (update_pages_ok (w_pages w) (ev_addr e)) as (p & Hp & Hpok); [by eapply iv_pages|done|].
  set (w1 := w <| w_pages := p |>).
  assert (Hret : handle_mem_return fuel (ev_id e) s w =
    Done s' (w1 <| w_list := upd_list (ev_id e) f (w_list w1) |>)).
  { unfold handle_mem_return. rewrite (bind_done _ _ _ _ _ (get_event_here _ _ w Hfind)).
    rewrite (bind_done _ _ _ _ _ (get_client_here _ _ _ _ aw_client0 aw_context0 aw_max0)).
    rewrite (bind_done _ _ _ _ _ (the_client_here _ _ _ aw_client0)). cbv zeta.
    assert (Hup : _update_age (ev_addr e) w = Done tt w1).
    { unfold _update_age. by rewrite bind_gets, Hp. }
    rewrite (bind_done _ _ _ _ _ Hup). apply Hrun; [by apply inv_set_pages|done]. }
  unfold memory_ack. rewrite (bind_done _ _ _ _ _ (the_client_here _ _ _ aw_client0)).
  rewrite aw_state0, aw_access0. change (bool_decide (CLIENT_VALID = CLIENT_NONE)) with false. cbv iota.
  rewrite (bind_done _ _ _ _ _ Hret). eexists. split; [reflexivity|]. by split_and!.
Qed.

(** The success byte and the data of a client complete the read it is bound
    to, whatever else is outstanding: the data lands at the address's place in
    the line buffer, the entry is done, the client is free again, and what
    follows on the socket is left there. *)
Lemma read_is_answered w fuel i c e s d s' :
  awaits w i c e -> ev_type e = CMD_READ -> stream_bytes s ->
  get_bytes_silent fuel (truthy (cl_abort c)) (ev_size e) s = GotBytes d s' ->
  exists w', memory_ack fuel i true s w = Done s' w' /\
    w_list w' = upd_list (ev_id e) (with_data e d MEM_DONE) (w_list w) /\
    w_clients w' = alter (fmap (fun c => c <| cl_mem_access := None |>)) i (w_clients w) /\
    w_event w' = w_event w.
Proof.
  intros Haw Ht Hs Hg. apply (memory_ack_run w fuel i c e); [done|]. intros w1 Hinv Hlist.
  pose proof (find_id _ _ (iv_ids _ _ (aw_inv _ _ _ _ Haw)) (aw_entry _ _ _ _ Haw)) as Hfind.
  pose proof (iv_events _ _ (aw_inv _ _ _ _ Haw) e (aw_entry _ _ _ _ Haw)) as Hok. rewrite <- Hlist in Hfind.
  set (f := with_data e d MEM_RECEIVED). set (w2 := w1 <| w_list := upd_list (ev_id e) f (w_list w1) |>).
  rewrite Ht. change (bool_decide (CMD_READ = CMD_READ)) with true. cbv iota.
  rewrite (bind_done _ _ _ _ _ (mem_read_data _ fuel _ e s d s' w1 Hfind Hok Ht Hs Hg : _ = Done s' w2)).
  unfold mem_returned.
  rewrite (bind_done _ _ _ _ _ (get_event_here _ (f e) w2 (find_upd _ f _ _ (fun _ => eq_refl) Hfind))).
  change (ev_type (f e)) with (ev_type e). rewrite Ht.
  change ((set_state (ev_id e) (if bool_decide (ev_state (f e) = MEM_TOUCH) then MEM_TOUCHED else MEM_DONE);; mret s') w2)
    with (@Done world stream s' (w2 <| w_list := upd_list (ev_id e) (fun x => x <| ev_state := MEM_DONE |>) (w_list w2) |>)).
  f_equal. change (w_list w2) with (upd_list (ev_id e) f (w_list w1)). by rewrite (upd_upd _ f).
Qed.

(** A write, or another command that brings no data back. *)
Lemma write_is_answered w fuel i c e s :
  awaits w i c e -> ev_type e = CMD_WRITE \/ ev_type e = CMD_AMO_WR \/ ev_type e = CMD_WR_BE ->
  ev_state e <> MEM_TOUCH ->
  exists w', memory_ack fuel i true s w = Done s w' /\
    w_list w' = upd_list (ev_id e) (fun x => x <| ev_state := MEM_DONE |>) (w_list w) /\
    w_clients w' = alter (fmap (fun c => c <| cl_mem_access := None |>)) i (w_clients w) /\
    w_event w' = w_event w.
Proof.
  intros Haw Ht Hst. apply (memory_ack_run w fuel i c e); [done|]. intros w1 Hinv Hlist.
  pose proof (find_id _ _ (iv_ids _ _ (aw_inv _ _ _ _ Haw)) (aw_entry _ _ _ _ Haw)) as Hfind.
  rewrite <- Hlist in Hfind. unfold mem_returned.
  destruct_or! Ht; rewrite Ht; cbn [bool_decide decide_rel cmd_type_eq_dec];
    rewrite (bind_done (mret s) _ w1 s w1 eq_refl);
    rewrite (bind_done _ _ _ _ _ (get_event_here _ e w1 Hfind)), Ht; [done|..];
    by rewrite bool_decide_false.
Qed.

(** The invariant of a state with one entry. *)
Lemma sample_inv h e c :
  h = 64 \/ h = 128 \/ h = 256 -> ev_ok h e -> ev_id e = 0%nat -> ev_context e = 0 -> cl_context c = 0 ->
  (cl_mem_access c = None \/ cl_mem_access c = Some 0%nat /\ in_flight e = true) ->
  inv (sample_world h [e] c).
Proof.
  intros Hh Hok Hid Hctx Hcc Hm.
  assert (Hone : forall x, x ∈ [e] -> x = e) by (by intros x ->%list_elem_of_singleton).
  constructor; cbn [w_list w_clients w_event w_parms w_next w_max_clients w_host_CL_size w_pages sample_world].
  - apply NoDup_singleton.
  - intros x ->%Hone. rewrite Hid. cbn. lia.
  - apply NoDup_singleton.
  - by intros x ->%Hone.
  - cbn. unfold sample_afu. apply field_set; [apply tlx_event_reset_wf|by vm_compute].
  - done.
  - by constructor.
  - done.
  - by vm_compute.
  - intros i x Hi. destruct i as [|i]; [|by destruct i]. by injection Hi as <-.
  - intros i id _ (x & Hi & _ & Hx). destruct i as [|i]; [|by destruct i]. injection Hi as <-.
    destruct Hm as [Hm | [Hm Hf]]; [congruence|]. exists e.
    rewrite Hm in Hx. injection Hx as <-. split_and!; try done. by apply list_elem_of_singleton.
  - constructor; try (split; [done|by repeat constructor]); by vm_compute.
Qed.

Definition waiting_client : client := sample_client <| cl_mem_access := Some 0%nat |>.
Definition small_read : cmd_event :=
  sample_entry CMD_READ AFU_CMD_PR_RD_WNITC 0x1004 4 MEM_REQUEST TLX_RSP_READ_RESP.

(** A concrete entry is well formed, whatever its data. *)
Lemma sample_entry_ok h type command addr size s op data :
  legal_size size -> line_offset addr = 0 \/ size <= 64 -> command <> AFU_CMD_INTRP_REQ_D ->
  type <> CMD_AMO_RD -> type <> CMD_AMO_RW -> s <> MEM_CAS_RD -> is_array 256 data ->
  ev_ok h (sample_entry type command addr size s op <| ev_data := data |>).
Proof.
  intros Hs Hl Hc H1 H2 Hst Hd.
  assert (Hok : ev_ok h (sample_entry type command addr size s op)).
  { apply ev_ok_new; try done; [intros; destruct Hl; [done|lia]|by intros []]. }
  destruct Hok. by constructor.
Qed.

Lemma small_read_ok h : ev_ok h small_read.
Proof.
  apply (sample_entry_ok h CMD_READ AFU_CMD_PR_RD_WNITC 0x1004 4 MEM_REQUEST TLX_RSP_READ_RESP (zeros 256));
    try done; [left; lia|by right|]. split; auto with ocse.
Qed.

Lemma read_is_answered_witness :
  exists w', memory_ack 5 0 true (Stream [1; 2; 3; 4; 9] [] false)
      (sample_world 128 [small_read] waiting_client) = Done (Stream [9] [] false) w' /\
    w_list w' = [with_data small_read [1; 2; 3; 4] MEM_DONE small_read].
Proof.
  destruct (read_is_answered (sample_world 128 [small_read] waiting_client) 5 0 waiting_client small_read
    (Stream [1; 2; 3; 4; 9] [] false) [1; 2; 3; 4] (Stream [9] [] false)) as (w' & Hw & Hl & _).
  - constructor; try done.
    + apply sample_inv; try done; [by right; left|apply small_read_ok|by right].
    + by apply list_elem_of_singleton.
    + intros row ages i a Hr Ha. apply (lookup_replicate PAGE_ENTRIES) in Hr as [-> _].
      by apply (lookup_replicate PAGE_WAYS) in Ha as [-> _].
  - done.
  - split; [|by constructor]. repeat (apply List.Forall_cons; [done|]). apply Forall_nil_2.
  - reflexivity.
  - exists w'. split; [exact Hw|exact Hl].
Defined.
