(* ===== verification/RespProps.v ===== *)
(** The responses of the command component: completed reads, split responses,
    responses that are refused, entries of clients that are gone. *)
From S2P Require Import Prelude Utils Event TlxHost Parms CmdState Cmd CmdHandlers.
From S2P Require Import CmdLogic CmdInv CmdSafe CmdSafeResp CmdSafeSend CmdSafeAdd Ocl CmdProps.

(** * Completed reads *)

(** The response interface is free and the AFU has given a credit. *)
Record resp_ready (afu : AFU_EVENT) : Prop := RespReady {
  rr_wf : event_wf afu;
  rr_credit : afu_tlx_resp_credits_available afu <> 0;
  rr_valid : tlx_afu_resp_valid afu = 0;
  rr_data : tlx_afu_resp_data_valid afu = 0;
}.

(** A response as the AFU finds it on the interface. *)
Definition drives (afu : AFU_EVENT) (r : tlx_resp) : Prop :=
  tlx_afu_resp_valid afu = 1 /\
  TlxResp (tlx_afu_resp_opcode afu) (tlx_afu_resp_afutag afu) (tlx_afu_resp_code afu)
    (tlx_afu_resp_pg_size afu) (tlx_afu_resp_dl afu) (tlx_afu_resp_dp afu)
    (tlx_afu_resp_addr_tag afu) = r.

Definition drives_data (afu : AFU_EVENT) (bdi : Z) (data : list Z) : Prop :=
  tlx_afu_resp_data_valid afu = 1 /\ tlx_afu_resp_data_bdi afu = bdi /\
  tlx_afu_resp_data_byte_cnt afu = Z.of_nat (length data) /\
  take (length data) (tlx_afu_resp_data afu) = data.

Lemma overwrite_0_take {A} (buf l : list A) : take (length l) (overwrite buf 0 l) = l.
Proof. unfold overwrite. rewrite take_0. cbn [app]. by rewrite take_app_length. Qed.

(** What a part of a line puts on the interface. *)
Lemma send_part e afu r bdi size :
  is_array 256 (ev_data e) -> resp_ready afu -> tr_dl r = u8 (ev_resp_dl e) -> tr_dp r = u8 (ev_resp_dp e) ->
  dl_to_size (tr_dl r) = size -> 0 <= size <= 256 -> 64 * Z.land (tr_dp r) 3 + size <= 256 ->
  exists afu', tlx_afu_send_resp_and_data afu r bdi (ev_data e) = Some (TLX_SUCCESS, afu') /\
    drives afu' r /\
    drives_data afu' bdi (take (Z.to_nat size) (drop (Z.to_nat (64 * Z.land (tr_dp r) 3)) (ev_data e))).
Proof.
  intros [Hl _] [Hwf Hc Hv Hd] Hdl Hdp Hsize Hle Hin.
  destruct (field_get (p := tlx_afu_resp_data) afu Hwf) as [Hrl _].
  unfold tlx_afu_send_resp_and_data. rewrite (proj2 (Z.eqb_neq _ _) Hc), Hv, Hd.
  cbn [Z.eqb orb]. cbv zeta. rewrite Hsize.
  assert (Hland : 0 <= Z.land (tr_dp r) 3) by (apply Z.land_nonneg; right; done).
  assert (u32 size = size) as ->.
  { unfold u32. apply Z.mod_small. change (2 ^ 32) with 4294967296. lia. }
  set (src := drop _ (ev_data e)).
  assert (Hsrc : src = drop (Z.to_nat (64 * Z.land (tr_dp r) 3)) (ev_data e)).
  { unfold src. f_equal. lia. }
  assert (Hlen : (Z.to_nat size <= length src)%nat) by (rewrite Hsrc, length_drop, Hl; lia).
  assert (Hm : memcpy (tlx_afu_resp_data afu) src size =
    Some (overwrite (tlx_afu_resp_data afu) 0 (take (Z.to_nat size) src))).
  { unfold memcpy, guard_ub. rewrite Hrl.
    by replace (_ && _ && _) with true by (symmetry; rewrite !andb_true_iff, !Z.leb_le; lia). }
  eexists. split; [eapply bind_eq; [exact Hm|reflexivity]|]. rewrite <- Hsrc.
  assert (Htl : length (take (Z.to_nat size) src) = Z.to_nat size) by (rewrite length_take; lia).
  split; [|split_and!; try reflexivity].
  - split; [reflexivity|]. by destruct r.
  - cbn [drives_data]. rewrite Htl. change (u16 size = Z.of_nat (Z.to_nat size)).
    unfold u16. rewrite Z.mod_small; [lia|]. change (2 ^ 16) with 65536. lia.
  - apply overwrite_0_take.
Qed.

(** An entry as [_add_cmd] makes it, before any part of its response. *)
Definition unsent (e : cmd_event) : Prop :=
  ev_resp_bytes_sent e = 0 /\ ev_resp_dp e = 0 /\
  ev_resp_dl e = (if ev_size e <=? 64 then 1 else size_to_dl (i16 (ev_size e))).

(** The client of [e] is in the array. *)
Record owned (w : world) (i : nat) (c : client) (e : cmd_event) : Prop := Owned {
  ow_client : w_clients w !! i = Some (Some c); ow_context : ev_context e = Z.of_nat i;
  ow_max : Z.of_nat i < w_max_clients w;
}.

Lemma free_event_list id w :
  free_event id w = Done tt (w <| w_list :=
    List.filter (fun e => negb (ev_id e =? id)%nat) (w_list w) |>).
Proof. done. Qed.

(** Writing an entry back unchanged. *)
Lemma upd_list_same e f l : NoDup (ids l) -> e ∈ l -> f e = e -> upd_list (ev_id e) f l = l.
Proof.
  intros Hn He Hf. unfold upd_list. rewrite <- (map_id l) at 2. apply map_ext_in. intros x Hx.
  apply list_elem_of_In in Hx. destruct (Nat.eqb_spec (ev_id x) (ev_id e)) as [E|_]; [|done].
  pose proof (find_id _ _ Hn He) as H1. pose proof (find_id _ _ Hn Hx) as H2. rewrite E in H2. congruence.
Qed.

Lemma world_list_same w : w <| w_list := w_list w |> = w.
Proof. by destruct w. Qed.

(** A response that is not split leaves the entry as it is. *)
Lemma whole_part e w (b : bool) :
  NoDup (ids (w_list w)) -> e ∈ w_list w -> ev_size e <= w_host_CL_size w ->
  when_ b (upd_event (ev_id e) (next_part (w_host_CL_size w))) w = Done tt w.
Proof.
  intros Hn He Hle. destruct b; [|done]. cbn [when_]. unfold upd_event, modify. f_equal.
  change (map _ (w_list w)) with (upd_list (ev_id e) (next_part (w_host_CL_size w)) (w_list w)).
  rewrite upd_list_same; [apply world_list_same|done|done|].
  unfold next_part. by replace (w_host_CL_size w <? ev_size e) with false by lia.
Qed.

(** [send_resp_and_data] when no bad-data indication is drawn. *)
Lemma send_resp_and_data_quiet e size w :
  quiet (w_parms w) -> is_array 256 (ev_data e) -> resp_ready (w_event w) ->
  dl_to_size (u8 (ev_resp_dl e)) = size -> 0 <= size <= 256 ->
  64 * Z.land (u8 (ev_resp_dp e)) 3 + size <= 256 ->
  exists ds afu', send_resp_and_data e w = Done TLX_SUCCESS (w <| w_draws := ds |> <| w_event := afu' |>) /\
    drives afu' (event_resp e 0) /\
    drives_data afu' 0
      (take (Z.to_nat size) (drop (Z.to_nat (64 * Z.land (u8 (ev_resp_dp e)) 3)) (ev_data e))).
Proof.
  intros Hq Hok Hr Hs Hle Hin. unfold send_resp_and_data.
  destruct (decide_quiet bdi_resp_err_percent w) as [ds Hd]; [apply Hq|].
  rewrite (bind_done _ _ _ _ _ Hd), bind_gets. change (bool_int false) with 0.
  destruct (send_part e (w_event w) (event_resp e 0) 0 size) as (afu' & Ha & H1 & H2); [done..|].
  exists ds, afu'. split; [|done].
  change (w_event (w <| w_draws := ds |>)) with (w_event w). by rewrite Ha.
Qed.

(** a completed read whose data fits in one response is answered: the
    interface drives its response opcode, its tag and code 0, with the line's
    data - 64 bytes, or the whole size of a longer read - and the entry is
    freed. *)
Theorem read_data_is_returned w i c e :
  find resp_due (w_list w) = Some e -> ev_state e = MEM_DONE -> ev_type e <> CMD_FAILED ->
  resp_with_data e = true -> unsent e -> ev_size e <= w_host_CL_size w -> legal_size (ev_size e) ->
  NoDup (ids (w_list w)) -> ev_ok (w_host_CL_size w) e -> owned w i c e -> quiet (w_parms w) ->
  resp_ready (w_event w) ->
  exists w', handle_response w = Done tt w' /\
    drives (w_event w') (event_resp e 0) /\
    drives_data (w_event w') 0 (take (Z.to_nat (Z.max 64 (ev_size e))) (ev_data e)) /\
    w_list w' = List.filter (fun x => negb (ev_id x =? ev_id e)%nat) (w_list w).
Proof.
  intros Hf Hst Hty Hwd (Hb & Hdp & Hdl) Hle Hsz Hn Hok [Hc Hctx Hm] Hq Hr.
  unfold handle_response. rewrite (bind_done _ _ _ _ _ (find_event_here _ _ _ Hf)).
  rewrite (bind_done _ _ _ _ _ (get_client_here _ _ _ _ Hc Hctx Hm)), bind_gets.
  apply find_event_in in Hf as [He _]. pose proof (find_id _ _ Hn He) as Hid.
  assert (Hsize : dl_to_size (u8 (ev_resp_dl e)) = Z.max 64 (ev_size e)).
  { rewrite Hdl. destruct Hsz as [? | [-> | ->]]; [|done|done].
    replace (ev_size e <=? 64) with true by lia. change (dl_to_size (u8 1)) with 64. lia. }
  destruct (send_resp_and_data_quiet e _ w Hq (eo_data _ _ Hok) Hr Hsize)
    as (ds & afu' & Hs & H1 & H2); [destruct Hsz as [?|[?|?]]; lia| |].
  { rewrite Hdp. change (Z.land (u8 0) 3) with 0. destruct Hsz as [?|[?|?]]; lia. }
  rewrite Hdp in H2. change (Z.to_nat (64 * Z.land (u8 0) 3)) with 0%nat in H2. rewrite drop_0 in H2.
  set (w1 := w <| w_draws := ds |> <| w_event := afu' |>) in *.
  assert (Hdrive : drive_resp (w_host_CL_size w) e w = Done TLX_SUCCESS w1).
  { unfold drive_resp. rewrite bool_decide_eq_false_2 by done. cbv zeta. rewrite Hwd.
    rewrite (bind_done _ _ _ _ _ (whole_part e w (is_full_read e) Hn He Hle)).
    rewrite (bind_done _ _ _ _ _ (get_event_here _ _ w Hid)). by rewrite Hwd. }
  rewrite (bind_done _ _ _ _ _ Hdrive).
  rewrite (bind_done _ _ _ _ _ (get_event_here _ _ w1 Hid)). rewrite Hst, Hb.
  eexists. split; [reflexivity|]. by split_and!.
Qed.

Definition done_read : cmd_event :=
  sample_entry CMD_READ AFU_CMD_RD_WNITC 0x1000 128 MEM_DONE TLX_RSP_READ_RESP
    <| ev_data := replicate 256 7 |>.

Lemma read_data_is_returned_witness :
  exists w', handle_response (sample_world 128 [done_read] sample_client) = Done tt w' /\
    drives (w_event w') (TlxResp TLX_RSP_READ_RESP 0x21 0 0 2 0 0) /\
    drives_data (w_event w') 0 (replicate 128 7) /\ w_list w' = [].
Proof.
  apply (read_data_is_returned (sample_world 128 [done_read] sample_client) 0 sample_client done_read);
    try done.
  - by right; left.
  - apply NoDup_singleton.
  - apply sample_entry_ok; try done; [by right; left|by left|].
    split; [done|]. by apply Forall_replicate.
  - constructor; try done. unfold sample_world, sample_afu.
    apply field_set; [apply tlx_event_reset_wf|by vm_compute].
Defined.

(** * Split responses *)

(** The command of [e] is one whose response can be split: a read or a write of
    whole lines that has not failed. *)
Definition splits (e : cmd_event) : Prop :=
  ev_type e <> CMD_FAILED /\ (if resp_with_data e then is_full_read e else is_full_write e) = true.

Lemma drive_split w e :
  NoDup (ids (w_list w)) -> e ∈ w_list w -> splits e ->
  let e' := next_part (w_host_CL_size w) e in
  let w1 := w <| w_list := upd_list (ev_id e) (next_part (w_host_CL_size w)) (w_list w) |> in
  drive_resp (w_host_CL_size w) e w =
    (if resp_with_data e then send_resp_and_data e' else send_resp e') w1 /\
  find (fun x => (ev_id x =? ev_id e)%nat) (w_list w1) = Some e'.
Proof.
  intros Hn He [Ht Hc]. cbv zeta. pose proof (find_id _ _ Hn He) as Hid.
  set (f := next_part (w_host_CL_size w)). set (w1 := w <| w_list := _ |>).
  assert (Hf : keeps_id f) by (intros x; apply (next_part_keeps _ x)).
  assert (Hid' : find (fun x => (ev_id x =? ev_id e)%nat) (w_list w1) = Some (f e)) by by apply find_upd.
  split; [|done]. unfold drive_resp. rewrite bool_decide_eq_false_2 by done. cbv zeta. rewrite Hc.
  rewrite (bind_done (when_ true (upd_event (ev_id e) f)) _ w tt w1 eq_refl), (bind_done _ _ _ _ _ (get_event_here _ _ w1 Hid')).
  destruct (next_part_keeps (w_host_CL_size w) e) as (_ & _ & _ & _ & Hcmd).
  unfold resp_with_data, f. by rewrite Hcmd.
Qed.

Lemma send_resp_taken e w :
  resp_ready (w_event w) ->
  exists afu', send_resp e w = Done TLX_SUCCESS (w <| w_event := afu' |>) /\
    drives afu' (event_resp e (ev_resp e)).
Proof.
  intros [Hwf Hc Hv _]. unfold send_resp. rewrite bind_gets. unfold tlx_afu_send_resp.
  rewrite (proj2 (Z.eqb_neq _ _) Hc), Hv. eexists. split; [reflexivity|]. split; [done|].
  by destruct (event_resp e (ev_resp e)).
Qed.

Lemma find_upd_pred p f l e :
  (forall x, p (f x) = p x) -> find p l = Some e -> find p (upd_list (ev_id e) f l) = Some (f e).
Proof.
  intros Hp. induction l as [|x l IH]; cbn; [done|]. destruct (p x) eqn:E.
  - intros [= ->]. by rewrite Nat.eqb_refl, Hp, E.
  - intros Hf. assert (p (if (ev_id x =? ev_id e)%nat then f x else x) = false) as ->.
    { case_match; [by rewrite Hp|done]. }
    by apply IH.
Qed.

Lemma resp_due_keeps f : (forall x, ev_state (f x) = ev_state x) -> forall x, resp_due (f x) = resp_due x.
Proof. intros Hf x. unfold resp_due. by rewrite Hf. Qed.

(** ** The parts *)

(** The entry after [k] of its responses. *)
Definition parted (h : Z) (k : nat) (e : cmd_event) : cmd_event := Nat.iter k (next_part h) e.

(** What a split line is: longer than the host's, not yet sent. *)
Record whole (h : Z) (e : cmd_event) : Prop := Whole {
  wh_unsent : unsent e; wh_host : h = 64 \/ h = 128; wh_size : ev_size e = 128 \/ ev_size e = 256;
  wh_long : h < ev_size e;
}.

(** The number of responses it takes. *)
Definition part_count (h : Z) (e : cmd_event) : nat := Z.to_nat (ev_size e / h).

(** Response [k] in 64-byte units: [h] bytes, from [k * h] on. *)
Definition part_response (h : Z) (e : cmd_event) (k : nat) : tlx_resp :=
  TlxResp (u8 (ev_resp_opcode e)) (u16 (ev_afutag e)) (u8 (if resp_with_data e then 0 else ev_resp e)) 0
    (h / 64) (Z.of_nat k * h / 64) 0.

Definition part_data (h : Z) (e : cmd_event) (k : nat) : list Z :=
  take (Z.to_nat h) (drop (k * Z.to_nat h) (ev_data e)).

(** The interface drives it, for a read with its bytes of the line. *)
Definition announces (h : Z) (e : cmd_event) (k : nat) (afu : AFU_EVENT) : Prop :=
  drives afu (part_response h e k) /\
  (resp_with_data e = true -> drives_data afu 0 (part_data h e k)).

Lemma parted_keeps h k e :
  ev_id (parted h k e) = ev_id e /\ ev_context (parted h k e) = ev_context e /\
  ev_state (parted h k e) = ev_state e /\ ev_type (parted h k e) = ev_type e /\
  ev_command (parted h k e) = ev_command e /\ ev_size (parted h k e) = ev_size e /\
  ev_data (parted h k e) = ev_data e /\ ev_resp (parted h k e) = ev_resp e /\
  ev_resp_opcode (parted h k e) = ev_resp_opcode e /\ ev_afutag (parted h k e) = ev_afutag e.
Proof.
  induction k as [|k IH]; [by split_and!|]. unfold parted in *. cbn [Nat.iter nat_rect].
  change (nat_rect (fun _ => cmd_event) e (fun _ => next_part h) k) with (Nat.iter k (next_part h) e).
  set (x := Nat.iter k (next_part h) e) in *. clearbody x. unfold next_part. repeat case_match; exact IH.
Qed.

(** The fields of the entry as response [k] goes out. *)
Lemma parted_fields h e k :
  whole h e -> (k < part_count h e)%nat ->
  let e' := parted h (S k) e in
  u8 (ev_resp_dl e') = h / 64 /\ u8 (ev_resp_dp e') = Z.of_nat k * h / 64 /\
  64 * Z.land (u8 (ev_resp_dp e')) 3 = Z.of_nat k * h /\ dl_to_size (u8 (ev_resp_dl e')) = h /\
  0 < ev_resp_bytes_sent e' /\ (ev_resp_bytes_sent e' =? ev_size e) = (S k =? part_count h e)%nat.
Proof.
  intros [(Hb & Hdp & _) Hh Hs Hlt]. unfold part_count.
  destruct e as [id addr ctx cmd tag size resp dl dp op dpart be sent flag endian pg unlock data ty st cs].
  cbn [ev_resp_bytes_sent ev_resp_dp ev_size] in *. subst dp sent. intros Hk. cbv zeta.
  destruct Hh as [-> | ->], Hs as [-> | ->]; [| |lia|]; vm_compute in Hk;
    (assert (k = 0 \/ k = 1 \/ k = 2 \/ k = 3)%nat as Hc by lia);
    destruct Hc as [-> | [-> | [-> | ->]]]; first [exfalso; lia | by split_and!].
Qed.


(** ** The turns *)

(** An entry is still on the list, or it has been freed. *)
Definition list_after (h : Z) (k : nat) (e : cmd_event) (l : list cmd_event) : list cmd_event :=
  if (k <? part_count h e)%nat then upd_list (ev_id e) (parted h k) l
  else List.filter (fun x => negb (ev_id x =? ev_id e)%nat) l.

Lemma parted_keeps_id h k : keeps_id (parted h k).
Proof. intros e. apply (parted_keeps h k e). Qed.

Lemma filter_upd id f l :
  keeps_id f ->
  List.filter (fun x => negb (ev_id x =? id)%nat) (upd_list id f l) =
  List.filter (fun x => negb (ev_id x =? id)%nat) l.
Proof.
  intros Hf. unfold upd_list. induction l as [|x l IH]; [done|]. cbn.
  destruct (ev_id x =? id)%nat eqn:E; cbn.
  - by rewrite Hf, E, IH.
  - by rewrite E, IH.
Qed.

(** The response of a split entry: it is sent, and the entry is freed with the
    last byte. *)
Lemma part_turn w i c e :
  find resp_due (w_list w) = Some e -> ev_state e = MEM_DONE -> splits e ->
  NoDup (ids (w_list w)) -> owned w i c e -> quiet (w_parms w) -> resp_ready (w_event w) ->
  let h := w_host_CL_size w in let e' := next_part h e in
  is_array 256 (ev_data e') -> ev_state e' = MEM_DONE -> ev_id e' = ev_id e -> ev_size e' = ev_size e ->
  resp_with_data e' = resp_with_data e ->
  0 <= h <= 256 -> dl_to_size (u8 (ev_resp_dl e')) = h -> 64 * Z.land (u8 (ev_resp_dp e')) 3 + h <= 256 ->
  0 < ev_resp_bytes_sent e' ->
  exists ds afu', handle_response w = Done tt (w <| w_draws := ds |> <| w_event := afu' |> <| w_list :=
      if ev_resp_bytes_sent e' =? ev_size e
      then List.filter (fun x => negb (ev_id x =? ev_id e)%nat) (upd_list (ev_id e) (next_part h) (w_list w))
      else upd_list (ev_id e) (next_part h) (w_list w) |>) /\
    drives afu' (event_resp e' (if resp_with_data e then 0 else ev_resp e')) /\
    (resp_with_data e = true -> drives_data afu' 0
       (take (Z.to_nat h) (drop (Z.to_nat (64 * Z.land (u8 (ev_resp_dp e')) 3)) (ev_data e')))).
Proof.
  intros Hf Hst Hsp Hn [Hc Hctx Hm] Hq Hr h e' Hd Hst' Hid' Hsz' Hwd Hh Hdl Hdp Hpos.
  assert (He : e ∈ w_list w) by by apply find_event_in in Hf as [].
  destruct (drive_split w e Hn He Hsp) as [Hdrive Hfind]. fold h in Hdrive, Hfind. fold e' in Hdrive, Hfind.
  set (w1 := w <| w_list := upd_list (ev_id e) (next_part h) (w_list w) |>) in *.
  assert (Hsend : exists ds afu', (if resp_with_data e then send_resp_and_data e' else send_resp e') w1 =
      Done TLX_SUCCESS (w1 <| w_draws := ds |> <| w_event := afu' |>) /\
    drives afu' (event_resp e' (if resp_with_data e then 0 else ev_resp e')) /\
    (resp_with_data e = true -> drives_data afu' 0
       (take (Z.to_nat h) (drop (Z.to_nat (64 * Z.land (u8 (ev_resp_dp e')) 3)) (ev_data e'))))).
  { destruct (resp_with_data e).
    - destruct (send_resp_and_data_quiet e' h w1 Hq Hd Hr Hdl Hh Hdp) as (ds & afu' & H1 & H2 & H3).
      exists ds, afu'. by split_and!.
    - destruct (send_resp_taken e' w1 Hr) as (afu' & H1 & H2). exists (w_draws w1), afu'.
      split; [rewrite H1; by destruct w|]. by split. }
  destruct Hsend as (ds & afu' & Hsend & Hr1 & Hr2). exists ds, afu'. split; [|by split].
  assert (Hfind2 : find (fun x => (ev_id x =? ev_id e)%nat)
    (w_list (w1 <| w_draws := ds |> <| w_event := afu' |>)) = Some e') by exact Hfind.
  unfold handle_response. rewrite (bind_done _ _ _ _ _ (find_event_here _ _ _ Hf)).
  rewrite (bind_done _ _ _ _ _ (get_client_here _ _ _ _ Hc Hctx Hm)), bind_gets. fold h.
  rewrite (bind_done _ _ w TLX_SUCCESS _ (eq_trans Hdrive Hsend)).
  rewrite (bind_done _ _ _ _ _ (get_event_here _ _ _ Hfind2)).
  change (TLX_SUCCESS =? TLX_SUCCESS) with true. cbv iota. rewrite Hst'.
  change (bool_decide (MEM_DONE = MEM_XLATE_PENDING) || bool_decide (MEM_DONE = MEM_INT_PENDING)) with false.
  cbv iota. rewrite Hsz'. replace (0 <? ev_resp_bytes_sent e') with true by lia. cbn [andb].
  destruct (ev_resp_bytes_sent e' =? ev_size e); cbn [negb]; [|by destruct w].
  rewrite Hid', free_event_list. by destruct w.
Qed.

(** The AFU takes every response: turn by turn the interface is one that can be
    driven, and what the handler leaves on it is seen. *)
Fixpoint respond (afus : list AFU_EVENT) : M (list AFU_EVENT) :=
  match afus with
  | [] => mret []
  | afu :: afus =>
      modify (fun w => w <| w_event := afu |>);;
      handle_response;;
      out ← gets w_event;
      outs ← respond afus;
      mret (out :: outs)
  end.

Section turns.
Context (h : Z) (i : nat) (c : client) (e : cmd_event) (l : list cmd_event).
Context (Hf : find resp_due l = Some e) (Hst : ev_state e = MEM_DONE) (Hsp : splits e) (Hwh : whole h e).
Context (Hn : NoDup (ids l)) (Hd : is_array 256 (ev_data e)).

(** The world after [k] turns. *)
Record turned (k : nat) (w : world) : Prop := Turned {
  tu_list : w_list w = list_after h k e l; tu_host : w_host_CL_size w = h; tu_owned : owned w i c e;
  tu_quiet : quiet (w_parms w);
}.

Lemma parted_due k : find resp_due (upd_list (ev_id e) (parted h k) l) = Some (parted h k e).
Proof.
  apply find_upd_pred; [|done]. apply resp_due_keeps. intros x. apply (parted_keeps h k x).
Qed.

Lemma parted_splits k : splits (parted h k e).
Proof.
  destruct (parted_keeps h k e) as (_ & _ & _ & Ht & Hc & _). destruct Hsp as [H1 H2].
  split; [by rewrite Ht|]. unfold resp_with_data, is_full_read, is_full_write in *. by rewrite Hc.
Qed.

Lemma list_step k :
  (k < part_count h e)%nat ->
  (if (S k =? part_count h e)%nat
   then List.filter (fun x => negb (ev_id x =? ev_id e)%nat)
          (upd_list (ev_id e) (next_part h) (upd_list (ev_id e) (parted h k) l))
   else upd_list (ev_id e) (next_part h) (upd_list (ev_id e) (parted h k) l)) =
  list_after h (S k) e l.
Proof.
  intros Hk. unfold list_after.
  assert (Hid : keeps_id (next_part h)) by (intros x; apply (next_part_keeps h x)).
  destruct (Nat.eqb_spec (S k) (part_count h e)) as [E|E].
  - replace (S k <? part_count h e)%nat with false by (symmetry; apply Nat.ltb_ge; lia).
    by rewrite !filter_upd by first [done|apply parted_keeps_id].
  - replace (S k <? part_count h e)%nat with true by (symmetry; apply Nat.ltb_lt; lia).
    exact (upd_upd _ (parted h k) (next_part h) l (parted_keeps_id h k)).
Qed.

Lemma part_turned k afu w :
  turned k w -> (k < part_count h e)%nat -> resp_ready afu ->
  exists w', handle_response (w <| w_event := afu |>) = Done tt w' /\
    turned (S k) w' /\ announces h e k (w_event w').
Proof.
  intros [Hl Hh [O1 O2 O3] Hq] Hk Hr. set (w1 := w <| w_event := afu |>).
  assert (Hl1 : w_list w1 = upd_list (ev_id e) (parted h k) l).
  { change (w_list w = upd_list (ev_id e) (parted h k) l). rewrite Hl. unfold list_after.
    by replace (k <? part_count h e)%nat with true by (symmetry; by apply Nat.ltb_lt). }
  destruct (parted_keeps h k e) as (K1 & K2 & K3 & K4 & K5 & K6 & K7 & K8 & K9 & K10).
  destruct (parted_keeps h (S k) e) as (S1 & _ & S3 & _ & S5 & S6 & S7 & S8 & S9 & S10).
  destruct (parted_fields h e k Hwh Hk) as (F1 & F2 & F3 & F4 & F5 & F6). cbv zeta in F1, F2, F3, F4, F5, F6.
  change (parted h (S k) e) with (next_part h (parted h k e)) in *.
  assert (Hwd : resp_with_data (parted h k e) = resp_with_data e) by (unfold resp_with_data; by rewrite K5).
  assert (Hwd' : resp_with_data (next_part h (parted h k e)) = resp_with_data e)
    by (unfold resp_with_data; by rewrite S5).
  assert (Hin : Z.of_nat k * h + h <= 256 /\ 0 <= h <= 256).
  { destruct Hwh as [_ Hh' Hs Hlt]. unfold part_count in Hk.
    destruct Hh' as [-> | ->], Hs as [Es | Es]; rewrite Es in Hk, Hlt; vm_compute in Hk; lia. }
  destruct (part_turn w1 i c (parted h k e)) as (ds & afu' & Hrun & Hr1 & Hr2).
  - rewrite Hl1. apply parted_due.
  - by rewrite K3.
  - apply parted_splits.
  - rewrite Hl1, ids_upd; [done|apply parted_keeps_id].
  - constructor; [exact O1|by rewrite K2|exact O3].
  - exact Hq.
  - exact Hr.
  - change (w_host_CL_size w1) with (w_host_CL_size w). rewrite Hh, S7. exact Hd.
  - change (w_host_CL_size w1) with (w_host_CL_size w). by rewrite Hh, S3.
  - change (w_host_CL_size w1) with (w_host_CL_size w). by rewrite Hh, S1, K1.
  - change (w_host_CL_size w1) with (w_host_CL_size w). by rewrite Hh, S6, K6.
  - change (w_host_CL_size w1) with (w_host_CL_size w). by rewrite Hh, Hwd', Hwd.
  - change (w_host_CL_size w1) with (w_host_CL_size w). rewrite Hh. apply Hin.
  - change (w_host_CL_size w1) with (w_host_CL_size w). by rewrite Hh.
  - change (w_host_CL_size w1) with (w_host_CL_size w). rewrite Hh, F3. apply Hin.
  - change (w_host_CL_size w1) with (w_host_CL_size w). by rewrite Hh.
  - change (w_host_CL_size w1) with (w_host_CL_size w) in *. rewrite Hh in *.
    rewrite K6, K1, F6, Hl1, list_step in Hrun by done. eexists. split; [exact Hrun|]. split; [by constructor|].
    rewrite Hwd in Hr1, Hr2. rewrite F3, S7 in Hr2. split.
    + unfold part_response. unfold event_resp in Hr1. rewrite F1, F2, S8, S9, S10 in Hr1. exact Hr1.
    + intros E. specialize (Hr2 E). unfold part_data.
      by replace (k * Z.to_nat h)%nat with (Z.to_nat (Z.of_nat k * h)) by lia.
Qed.

Lemma turns_from afus k w :
  turned k w -> (k + length afus <= part_count h e)%nat -> Forall resp_ready afus ->
  exists outs w', respond afus w = Done outs w' /\ length outs = length afus /\
    (forall j out, outs !! j = Some out -> announces h e (k + j) out) /\ turned (k + length afus) w'.
Proof.
  revert k w. induction afus as [|afu afus IH]; intros k w Hw Hk Hr.
  - exists [], w. rewrite Nat.add_0_r. by split_and!.
  - apply Forall_cons_1 in Hr as [Hr Hrs]. cbn [length] in *.
    destruct (part_turned k afu w Hw ltac:(lia) Hr) as (w1 & Hrun & Hw1 & Ha).
    destruct (IH (S k) w1 Hw1 ltac:(lia) Hrs) as (outs & w' & Hrest & Hl & Hall & Hw').
    exists (w_event w1 :: outs), w'. cbn [respond]. rewrite bind_modify, (bind_done _ _ _ _ _ Hrun), bind_gets,
      (bind_done _ _ _ _ _ Hrest). split; [done|]. split; [cbn; by rewrite Hl|]. split.
    + intros [|j] out; cbn; [intros [= <-]; by rewrite Nat.add_0_r|].
      intros Hj. replace (k + S j)%nat with (S k + j)%nat by lia. by apply Hall.
    + by replace (k + S (length afus))%nat with (S k + length afus)%nat by lia.
Qed.
End turns.

(** Consecutive pieces of a list. *)
Lemma concat_pieces {A} (s n : nat) (l : list A) :
  concat (map (fun k => take s (drop (k * s) l)) (seq 0 n)) = take (n * s) l.
Proof.
  induction n as [|n IH]; [done|].
  rewrite seq_S, map_app, concat_app, IH. cbn [map concat Nat.add]. rewrite app_nil_r, take_take_drop.
  f_equal. lia.
Qed.

Lemma parts_size h e : whole h e -> (part_count h e * Z.to_nat h)%nat = Z.to_nat (ev_size e).
Proof.
  intros [_ Hh Hs Hlt]. unfold part_count.
  by destruct Hh as [-> | ->], Hs as [E|E]; rewrite E in *; [..|lia|].
Qed.

(** C5: the response of a read or a write of a line longer than the host's is
    split into parts that tile the line.  Turn after turn, as long as the AFU
    takes every response and no error is injected into the data,
    [handle_response] drives part [k]: one host line, from
    byte [k * host] on, for a read with those bytes of the data; the parts put
    together are the line.  The entry stays on the list up to the last part and
    is freed with it, and no other entry is touched. *)
Theorem split_parts_tile w i c e afus :
  let h := w_host_CL_size w in
  find resp_due (w_list w) = Some e -> ev_state e = MEM_DONE -> splits e -> whole h e ->
  NoDup (ids (w_list w)) -> is_array 256 (ev_data e) -> owned w i c e -> quiet (w_parms w) ->
  Forall resp_ready afus -> (length afus <= part_count h e)%nat ->
  exists outs w', respond afus w = Done outs w' /\ length outs = length afus /\
    (forall k out, outs !! k = Some out -> announces h e k out) /\
    w_list w' = list_after h (length afus) e (w_list w) /\
    concat (map (part_data h e) (seq 0 (part_count h e))) = take (Z.to_nat (ev_size e)) (ev_data e).
Proof.
  intros h Hf Hst Hsp Hwh Hn Hd Ho Hq Hr Hk.
  assert (Hstart : turned h i c e (w_list w) 0 w).
  { constructor; try done. unfold list_after.
    assert (0 <? part_count h e = true)%nat as ->.
    { apply Nat.ltb_lt. pose proof (parts_size h e Hwh). destruct Hwh as [_ _ [E|E] _]; rewrite E in *;
        destruct (part_count h e); first [discriminate|lia]. }
    unfold upd_list. rewrite <- (map_id (w_list w)) at 1. apply map_ext. intros x. by case_match. }
  destruct (turns_from h i c e (w_list w) Hf Hst Hsp Hwh Hn Hd afus 0 w Hstart Hk Hr)
    as (outs & w' & Hrun & Hl & Ha & Hw').
  exists outs, w'. split; [done|]. split; [done|]. split; [exact Ha|].
  split; [exact (tu_list _ _ _ _ _ _ _ Hw')|]. unfold part_data. rewrite concat_pieces. by rewrite parts_size.
Qed.

(** A read of 256 bytes on a host with lines of 64 bytes. *)
Definition long_read : cmd_event :=
  sample_entry CMD_READ AFU_CMD_RD_WNITC 0x1000 256 MEM_DONE TLX_RSP_READ_RESP
    <| ev_data := map Z.of_nat (seq 0 256) |>.

Lemma sample_resp_ready : resp_ready sample_afu.
Proof. constructor; try done. unfold sample_afu. apply field_set; [apply tlx_event_reset_wf|by vm_compute]. Qed.

Lemma split_parts_tile_witness :
  exists outs w', respond (replicate 4 sample_afu) (sample_world 64 [long_read] sample_client) = Done outs w' /\
    (forall out, outs !! 3%nat = Some out ->
       drives out (TlxResp TLX_RSP_READ_RESP 0x21 0 0 1 3 0) /\
       drives_data out 0 (map Z.of_nat (seq 192 64))) /\
    w_list w' = [].
Proof.
  destruct (split_parts_tile (sample_world 64 [long_read] sample_client) 0 sample_client long_read
    (replicate 4 sample_afu)) as (outs & w' & Hrun & _ & Ha & Hl & _); try done.
  - constructor; [done|by left|by right|done].
  - apply NoDup_singleton.
  - split; [done|]. rewrite list.Forall_forall. intros x (n & -> & Hn)%list_elem_of_fmap.
    apply elem_of_seq in Hn. unfold is_byte, is_u. change (2 ^ 8) with 256. lia.
  - apply Forall_replicate, sample_resp_ready.
  - exists outs, w'. split; [exact Hrun|]. split; [|exact Hl]. intros out Ho.
    destruct (Ha _ _ Ho) as [H1 H2]. split; [exact H1|exact (H2 eq_refl)].
Defined.

(** ** A refused part *)

(** A write that waits for part [k] of its response on a 64-byte host. *)
Definition at_part (k : Z) (e : cmd_event) : Prop :=
  ev_resp_bytes_sent e = 64 * k /\ ev_resp_dp e = k - 1.

(** A refused response: no credit. *)
Lemma send_resp_refused e w :
  afu_tlx_resp_credits_available (w_event w) = 0 ->
  send_resp e w = Done AFU_TLX_NO_CREDITS w.
Proof.
  intros Hc. unfold send_resp. rewrite bind_gets. unfold tlx_afu_send_resp. rewrite Hc. by destruct w.
Qed.

(** A 256-byte write whose response is being split on a 64-byte host. *)
Record splitting (w : world) (i : nat) (c : client) (e : cmd_event) : Prop := Splitting {
  sp_due : find resp_due (w_list w) = Some e; sp_type : ev_type e = CMD_WRITE;
  sp_command : ev_command e = AFU_CMD_DMA_W; sp_state : ev_state e = MEM_DONE;
  sp_size : ev_size e = 256; sp_host : w_host_CL_size w = 64; sp_ids : NoDup (ids (w_list w));
  sp_owned : owned w i c e;
}.

Section write_part.
Context (w : world) (i : nat) (c : client) (e : cmd_event) (Hsp : splitting w i c e).

Let f := next_part 64.
Let e' := f e.
Let w1 := w <| w_list := upd_list (ev_id e) f (w_list w) |>.

Lemma next_part_64 s dp :
  ev_resp_bytes_sent e = 64 * s -> ev_resp_dp e = dp -> 1 <= s <= 3 -> 0 <= dp <= 3 ->
  e' = e <| ev_resp_dp := dp + 1 |> <| ev_resp_dl := 1 |> <| ev_resp_bytes_sent := 64 * (s + 1) |>.
Proof.
  intros Hb Hd Hs Hdp. unfold e', f, next_part. rewrite (sp_size _ _ _ _ Hsp), Hb, Hd.
  replace (truthy (64 * s)) with true by (unfold truthy; replace (64 * s =? 0) with false by lia; done).
  cbn -[Z.mul Z.add]. rewrite ?Hb, ?Hd. change (64 =? 128) with false. cbv iota.
  change (size_to_dl (i16 64)) with 1.
  replace (u32 (dp + 1)) with (dp + 1) by (symmetry; apply Z.mod_small; split; [lia|];
    change (2 ^ 32) with 4294967296; lia).
  replace (u16 (64 * s + 64)) with (64 * (s + 1)); [done|]. symmetry.
  unfold u16. rewrite Z.mod_small; [lia|]. change (2 ^ 16) with 65536. lia.
Qed.

Lemma handle_part rc w2 :
  send_resp e' w1 = Done rc w2 -> w_list w2 = w_list w1 ->
  handle_response w =
  (if rc =? TLX_SUCCESS then
     if (0 <? ev_resp_bytes_sent e') && negb (ev_resp_bytes_sent e' =? 256) then mret tt
     else free_event (ev_id e)
   else when_ (truthy (ev_resp_bytes_sent e')) (upd_event (ev_id e) (fun x =>
          x <| ev_resp_bytes_sent := u16 (ev_resp_bytes_sent x - 64) |>))) w2.
Proof.
  intros Hs Hl. destruct Hsp as [Hf Ht Hcmd Hst Hsz Hh Hn [Hc Hctx Hm]]. unfold handle_response.
  rewrite (bind_done _ _ _ _ _ (find_event_here _ _ _ Hf)).
  rewrite (bind_done _ _ _ _ _ (get_client_here _ _ _ _ Hc Hctx Hm)), bind_gets.
  assert (He : e ∈ w_list w) by by apply find_event_in in Hf as [].
  assert (Hwd : resp_with_data e = false) by (unfold resp_with_data; by rewrite Hcmd).
  assert (Hspl : splits e).
  { split; [by rewrite Ht|]. rewrite Hwd. unfold is_full_write. by rewrite Hcmd. }
  destruct (drive_split w e Hn He Hspl) as [Hd Hid]. rewrite Hwd in Hd. rewrite Hh in *. fold f w1 e' in Hd, Hid.
  rewrite Hs in Hd. rewrite (bind_done _ _ _ _ _ Hd).
  assert (Hid2 : find (fun x => (ev_id x =? ev_id e)%nat) (w_list w2) = Some e') by by rewrite Hl.
  rewrite (bind_done _ _ _ _ _ (get_event_here _ _ _ Hid2)).
  destruct (next_part_keeps 64 e) as ([Hi _ _] & _ & Hst' & _). fold f e' in Hi, Hst'.
  assert (Hsz' : ev_size e' = 256) by (unfold e', f, next_part; repeat case_match; exact Hsz).
  by rewrite Hst', Hst, Hi, Hsz'.
Qed.

(** No credit: only the part number has moved. *)
Lemma part_refused s dp :
  ev_resp_bytes_sent e = 64 * s -> ev_resp_dp e = dp -> 1 <= s <= 3 -> 0 <= dp <= 3 ->
  afu_tlx_resp_credits_available (w_event w) = 0 ->
  exists w2 e2, handle_response w = Done tt w2 /\ w_event w2 = w_event w /\
    splitting w2 i c e2 /\ ev_resp_bytes_sent e2 = 64 * s /\ ev_resp_dp e2 = dp + 1.
Proof.
  intros Hb Hd Hs Hdp Hcr. pose proof (next_part_64 s dp Hb Hd Hs Hdp) as He'.
  set (g := fun x => x <| ev_resp_bytes_sent := u16 (ev_resp_bytes_sent x - 64) |>).
  set (w2 := w1 <| w_list := upd_list (ev_id e) g (w_list w1) |>).
  assert (Hkeep : forall x, same_name x (g (f x)) /\ ev_state (g (f x)) = ev_state x).
  { intros x. destruct (next_part_keeps 64 x) as ([] & _ & ? & _). by repeat split. }
  assert (Hl2 : w_list w2 = upd_list (ev_id e) (fun x => g (f x)) (w_list w)).
  { apply (upd_upd _ f). intros x. apply (next_part_keeps 64 x). }
  exists w2, (g e'). destruct Hsp as [Hf Ht Hcmd Hst Hsz Hh Hn [Hc Hctx Hm]]. split_and!.
  - rewrite (handle_part AFU_TLX_NO_CREDITS w1); [|by apply send_resp_refused|done].
    change (AFU_TLX_NO_CREDITS =? TLX_SUCCESS) with false. cbv iota. rewrite He'.
    cbn [ev_resp_bytes_sent set_fld set_ev_resp_bytes_sent].
    replace (truthy (64 * (s + 1))) with true; [done|].
    unfold truthy. by replace (64 * (s + 1) =? 0) with false by lia.
  - done.
  - constructor; rewrite ?Hl2; try (by rewrite He').
    + apply (find_upd_pred _ (fun x => g (f x))); [|done]. apply resp_due_keeps. apply Hkeep.
    + exact Hh.
    + rewrite ids_upd; [done|]. intros x. apply (Hkeep x).
  - rewrite He'. cbn -[Z.mul]. unfold u16. rewrite Z.mod_small; [lia|].
    change (2 ^ 16) with 65536. lia.
  - by rewrite He'.
Qed.

(** The response is taken: it announces the part after the last. *)
Lemma part_taken s dp :
  ev_resp_bytes_sent e = 64 * s -> ev_resp_dp e = dp -> 1 <= s <= 2 -> 0 <= dp <= 3 ->
  resp_ready (w_event w) ->
  exists w2, handle_response w = Done tt w2 /\ tlx_afu_resp_valid (w_event w2) = 1 /\
    tlx_afu_resp_dp (w_event w2) = dp + 1.
Proof.
  intros Hb Hd Hs Hdp Hr.
  pose proof (next_part_64 s dp Hb Hd ltac:(lia) Hdp) as He'.
  assert (Hr1 : resp_ready (w_event w1)) by exact Hr.
  destruct (send_resp_taken e' w1 Hr1) as (afu & Hsend & Hv & Hdr).
  set (w2 := w1 <| w_event := afu |>) in *. exists w2. split_and!; [|done|].
  - rewrite (handle_part TLX_SUCCESS w2 Hsend); [|done]. rewrite He'.
    cbn [ev_resp_bytes_sent set_fld set_ev_resp_bytes_sent].
    change (TLX_SUCCESS =? TLX_SUCCESS) with true. cbv iota.
    replace ((0 <? 64 * (s + 1)) && negb (64 * (s + 1) =? 256)) with true; [done|].
    symmetry. rewrite andb_true_iff, Z.ltb_lt, negb_true_iff, Z.eqb_neq. lia.
  - apply (f_equal tr_dp) in Hdr. cbn [tr_dp event_resp] in Hdr.
    change (w_event w2) with afu. rewrite Hdr, He'. cbn [ev_resp_dp set_fld set_ev_resp_dp].
    change (u8 (dp + 1) = dp + 1). apply Z.mod_small. change (2 ^ 8) with 256. lia.
Qed.
End write_part.

(** when the AFU has no credit for part [k] of a write's response on a
    64-byte host, the part number has moved on although nothing was sent: the
    call that then succeeds announces part [k + 1], and part [k] is never
    announced. *)
Theorem refused_part_is_skipped w i c e k afu :
  splitting w i c e -> 1 <= k <= 2 -> at_part k e ->
  afu_tlx_resp_credits_available (w_event w) = 0 -> resp_ready afu ->
  exists w1 w2, handle_response w = Done tt w1 /\ w_event w1 = w_event w /\
    handle_response (w1 <| w_event := afu |>) = Done tt w2 /\
    tlx_afu_resp_valid (w_event w2) = 1 /\ tlx_afu_resp_dp (w_event w2) = k + 1.
Proof.
  intros Hsp Hk [Hb Hd] Hcr Hr.
  destruct (part_refused w i c e Hsp k (k - 1) Hb Hd) as (w1 & e1 & H1 & He & Hsp1 & Hb1 & Hd1);
    [lia|lia|done|].
  assert (Hsp2 : splitting (w1 <| w_event := afu |>) i c e1) by by destruct Hsp1 as [? ? ? ? ? ? ? []].
  destruct (part_taken _ i c e1 Hsp2 k k Hb1) as (w2 & H2 & Hv & Hdp); [lia|lia|lia|done|].
  by exists w1, w2.
Qed.

Definition split_write : cmd_event :=
  sample_entry CMD_WRITE AFU_CMD_DMA_W 0x1000 256 MEM_DONE TLX_RSP_WRITE_RESP
    <| ev_resp_dl := 1 |> <| ev_resp_bytes_sent := 64 |>.

(** No credit has been given. *)
Definition starved_world : world :=
  sample_world 64 [split_write] sample_client <| w_event := tlx_event_reset event_zero |>.

Lemma refused_part_is_skipped_witness :
  exists w1 w2,
    handle_response starved_world = Done tt w1 /\
    w_event w1 = tlx_event_reset event_zero /\
    handle_response (w1 <| w_event := sample_afu |>) = Done tt w2 /\
    tlx_afu_resp_valid (w_event w2) = 1 /\ tlx_afu_resp_dp (w_event w2) = 2.
Proof.
  apply (refused_part_is_skipped starved_world 0 sample_client split_write 1 sample_afu); try done.
  - constructor; try done. apply NoDup_singleton.
  - constructor; try done. unfold sample_afu. apply field_set; [apply tlx_event_reset_wf|by vm_compute].
Defined.
