(* ===== verification/OclProps.v ===== *)
(** Properties of the command component as the thread runs it: safety in every
    reachable state, what becomes of commands and of clients that leave, the page
    cache, and the commands it gets wrong. *)
From S2P Require Import Prelude Utils Event TlxHost Parms CmdState Cmd CmdHandlers.
From S2P Require Import CmdLogic CmdInv CmdSafe CmdSafeResp CmdSafeSend CmdSafeAdd Mmio Ocl MmioInv.
From S2P Require Import OclInv CmdProps.

(** * Reachable states *)



(** What the command list promises to the rest of the program. *)
Record list_sound (w : world) : Prop := ListSound {
  ls_tags : NoDup (map ev_afutag (w_list w));
  ls_addresses : NoDup (ids (w_list w));
  ls_entries : forall e, e ∈ w_list w -> ev_ok (w_host_CL_size w) e;
  ls_access : forall i c id, w_clients w !! i = Some (Some c) -> cl_state c <> CLIENT_NONE ->
    cl_mem_access c = Some id ->
    exists e, e ∈ w_list w /\ ev_id e = id /\ ev_context e = Z.of_nat i /\ in_flight e = true;
}.

(** C4: in every reachable state the outstanding commands have distinct tags and
    distinct addresses, each entry is well formed for its type and state (its
    buffer, size and the parts already sent), and the pointer of a client that has not left is to an
    entry of the list that is its own and is being served. *)
Theorem reachable_list_sound w : reachable w -> list_sound w.
Proof.
  intros Hr. pose proof (reachable_inv w Hr) as []. constructor; [done|done|done|].
  intros i c id Hc Hs Hm. apply iv_access; [done|]. by exists c.
Qed.

(** ** A run *)

Definition run_start : world := start sample_afu (sample_parms 128) sample_mmio sample_ocl [] 1 [].

Lemma sample_afu_wf : event_wf sample_afu.
Proof. unfold sample_afu. apply field_set; [apply tlx_event_reset_wf|by vm_compute]. Qed.

Lemma run_start_reachable : reachable run_start.
Proof.
  apply reach_start. split_and!; [apply sample_afu_wf|done|by constructor| |done..].
  constructor; cbn; [by right; left|lia|lia|].
  repeat (apply List.Forall_cons; [cbn; lia|]). apply Forall_nil_2.
Qed.

(** A client attaches. *)
Definition run_attached : world := run_start <| w_clients := [Some sample_client] |>.

Lemma run_attached_reachable : reachable run_attached.
Proof.
  eapply reach_step; [apply run_start_reachable|].
  apply (step_attach run_start 0 sample_client); first [done | by exists (sample_fcn, sample_afu_cfg)].
Qed.

(** The world an operation leaves. *)
Definition ran (o : operation) (w : world) : world :=
  match run_op o w with Done _ w' => w' | _ => w end.
Definition runs_on (o : operation) (w : world) : bool :=
  match run_op o w with Done _ _ => true | _ => false end.

Lemma ran_step o w : op_ok w o -> runs_on o w = true -> step w (ran o w).
Proof.
  intros Ho Hr. apply (step_op _ _ o Ho). unfold runs_on, ran in *. by destruct (run_op o w) as [[]| | |].
Qed.

(** The AFU sends a read of 128 bytes, and the thread's turn puts it on the
    list. *)
Definition read_event_afu : AFU_EVENT :=
  sample_afu <| afu_tlx_cmd_valid := 1 |> <| afu_tlx_cmd_opcode := AFU_CMD_RD_WNITC |>
    <| afu_tlx_cmd_actag := 5 |> <| afu_tlx_cmd_afutag := 0x21 |> <| afu_tlx_cmd_dl := 2 |>
    <| afu_tlx_cmd_ea_or_obj := [0; 0x10; 0; 0; 0; 0; 0; 0; 0] |>.
Definition run_asked : world := run_attached <| w_event := read_event_afu |>.
Definition run_queued : world := ran Turn run_asked.

Lemma run_asked_reachable : reachable run_asked.
Proof.
  eapply reach_step; [apply run_attached_reachable|]. apply (step_afu run_attached read_event_afu); [|done].
  assert (Hea : is_array 9 [0; 0x10; 0; 0; 0; 0; 0; 0; 0]).
  { split; [done|]. repeat (apply List.Forall_cons; [by vm_compute|]). apply Forall_nil_2. }
  pose proof sample_afu_wf. unfold read_event_afu. solve_wf.
Qed.

Lemma run_asked_turn : op_ok run_asked Turn /\ runs_on Turn run_asked = true.
Proof. split; [by intros id e|by vm_compute]. Qed.

Lemma run_queued_reachable : reachable run_queued.
Proof. eapply reach_step; [exact run_asked_reachable|]. apply ran_step; apply run_asked_turn. Qed.


Lemma reachable_list_sound_witness :
  list_sound run_queued /\ map (fun e => (ev_afutag e, ev_size e)) (w_list run_queued) = [(0x21, 128)].
Proof.
  split; [exact (reachable_list_sound run_queued run_queued_reachable)|by vm_compute].
Defined.

(** * Taking a command in *)

(** The client an acTag belongs to. *)
Definition tagged (w : world) (actag : Z) (i : nat) : Prop :=
  find_client (fun c => cl_actag c =? actag) 0 (client_array w) = Some i.

Lemma tagged_client w actag i :
  tagged w actag i -> exists c, w_clients w !! i = Some (Some c) /\ (i < Z.to_nat (w_max_clients w))%nat.
Proof.
  intros H. apply find_client_bound in H as [Hb (c & Hc & _)]. rewrite Nat.sub_0_r in Hc.
  unfold client_array in *. rewrite length_take in Hb. exists c. split; [|lia].
  by rewrite lookup_take_lt in Hc by lia.
Qed.

Lemma find_actag_here w actag i :
  tagged w actag i -> _find_client_by_actag actag w = Done (Z.of_nat i) w.
Proof. intros H. unfold _find_client_by_actag, gets. by rewrite H. Qed.

(** A command without data is appended. *)
Lemma add_cmd_here i tag op type addr size st resp unlock be flag endian rop w :
  (exists c, w_clients w !! i = Some (Some c)) -> (i < Z.to_nat (w_max_clients w))%nat ->
  w_max_clients w < 2 ^ 31 -> 0 <= size < 2 ^ 16 -> quiet (w_parms w) ->
  exists w', _add_cmd (Z.of_nat i) tag op type addr size st resp unlock false be flag endian rop w
             = Done tt w' /\
    w_list w' = w_list w ++
      [new_event (w_next w) (Z.of_nat i) tag op type addr size st resp unlock be flag endian rop].
Proof.
  intros [c Hc] Hi Hm Hs Hq. unfold _add_cmd. rewrite bind_gets, bind_modify.
  set (w1 := w <| w_next := S (w_next w) |>). cbv zeta.
  assert (u16 size = size) as -> by by apply Z.mod_small.
  set (e := new_event _ _ _ _ _ _ _ _ _ _ _ _ _ _).
  assert (Hctx : ev_context e = Z.of_nat i).
  { cbn. unfold i32. rewrite Z.mod_small; [lia|]. change (2 ^ 32) with (2 * 2 ^ 31). lia. }
  assert (Hmax : Z.of_nat i < w_max_clients w1) by (change (w_max_clients w1) with (w_max_clients w); lia).
  assert (Hc1 : w_clients w1 !! i = Some (Some c)) by exact Hc.
  rewrite (bind_done _ _ _ _ _ (get_client_here e i c w1 Hc1 Hctx Hmax)), bind_gets.
  assert (Hq1 : quiet (w_parms w1)) by exact Hq.
  destruct (insert_event_quiet e (w_list w1) w1 Hq1) as [ds Hins].
  rewrite (bind_done _ _ _ _ _ Hins). by eexists.
Qed.

(** a full-line read with a legal length code and an aligned address, from
    a context whose acTag is assigned, becomes one new entry at the end of the
    list, idle, of that client, with the size, address, tag and response opcode
    the command asks for. *)
Theorem read_command_is_queued w i c :
  tagged w (ac_actag c) i -> w_max_clients w < 2 ^ 31 -> quiet (w_parms w) ->
  ac_opcode c = AFU_CMD_RD_WNITC \/ ac_opcode c = AFU_CMD_RD_WNITC_N -> 1 <= ac_dl c <= 3 ->
  (dl_to_size (ac_dl c) | le_val (take 8 (ac_ea_or_obj c))) ->
  exists w' e, _parse_cmd c false w = Done tt w' /\ w_list w' = w_list w ++ [e] /\
    ev_type e = CMD_READ /\ ev_state e = MEM_IDLE /\ ev_context e = Z.of_nat i /\
    ev_afutag e = ac_afutag c /\ ev_addr e = le_val (take 8 (ac_ea_or_obj c)) /\
    ev_size e = dl_to_size (ac_dl c) /\ ev_resp_opcode e = TLX_RSP_READ_RESP /\
    ev_resp_dl e = ac_dl c.
Proof.
  intros Ht Hm Hq Hop Hdl Hal. destruct (tagged_client _ _ _ Ht) as (cl & Hcl & Hi).
  set (size := dl_to_size (ac_dl c)) in *.
  assert (Hsize : (size = 64 \/ size = 128 \/ size = 256) /\
    ac_dl c = if size <=? 64 then 1 else size_to_dl (i16 size)).
  { assert (ac_dl c = 1 \/ ac_dl c = 2 \/ ac_dl c = 3) as [E | [E | E]] by lia;
      unfold size; rewrite E; vm_compute; auto. }
  destruct Hsize as [Hsize Hcode].
  assert (Hu : u32 size = size).
  { apply Z.mod_small. change (2 ^ 32) with 4294967296. lia. }
  assert (Ha : _aligned (ea_addr (ac_ea_or_obj c)) size = 1).
  { unfold _aligned. assert (Hland : Z.land (ea_addr (ac_ea_or_obj c)) (size - 1) = 0).
    { assert (exists k, 0 <= k /\ size = 2 ^ k) as (k & Hk & E).
      { destruct Hsize as [-> | [-> | ->]]; [by exists 6|by exists 7|by exists 8]. }
      rewrite E. replace (2 ^ k - 1) with (Z.ones k) by (rewrite Z.ones_equiv; lia).
      rewrite Z.land_ones by done. apply Z.mod_divide; [pose proof (Z.pow_pos_nonneg 2 k); lia|].
      by rewrite <- E. }
    assert (u32 (size - 1) = size - 1) as ->.
    { apply Z.mod_small. change (2 ^ 32) with 4294967296. lia. }
    rewrite Hland. by destruct Hsize as [-> | [-> | ->]]. }
  assert (Hread : _parse_cmd c false w =
    _add_read (ac_actag c) (ac_afutag c) (ac_opcode c) (ac_ea_or_obj c) size w).
  { unfold _parse_cmd. cbv zeta. fold size. rewrite Hu. by destruct Hop as [-> | ->]. }
  rewrite Hread. unfold _add_read. cbv zeta. rewrite Ha.
  change (1 =? BAD_OPERAND_SIZE) with false. change (1 =? BAD_ADDR_OFFSET) with false. cbv iota.
  rewrite (bind_done _ _ _ _ _ (find_actag_here _ _ _ Ht)).
  replace (Z.of_nat i =? -1) with false by lia.
  edestruct (add_cmd_here i) as (w' & Hw & Hl); [by exists cl|done|done| |done|].
  2: { eexists w', _. split; [exact Hw|]. split; [exact Hl|]. cbn -[Z.leb].
       split_and!; first [done | by rewrite Hcode | idtac].
       unfold i32. rewrite Z.mod_small; [lia|]. change (2 ^ 32) with (2 * 2 ^ 31). lia. }
  destruct Hsize as [-> | [-> | ->]]; done.
Qed.

Definition read_cmd : afu_cmd :=
  AfuCmd AFU_CMD_RD_WNITC 5 0 ([0; 0x10; 0; 0; 0; 0; 0; 0; 0]) 0x21 2 0 0 0 0 0 0 0.

Lemma read_command_is_queued_witness :
  exists w' e, _parse_cmd read_cmd false run_attached = Done tt w' /\ w_list w' = w_list run_attached ++ [e] /\
    ev_type e = CMD_READ /\ ev_state e = MEM_IDLE /\ ev_context e = 0 /\ ev_afutag e = 0x21 /\
    ev_addr e = 0x1000 /\ ev_size e = 128 /\ ev_resp_opcode e = TLX_RSP_READ_RESP /\ ev_resp_dl e = 2.
Proof.
  apply (read_command_is_queued run_attached 0 read_cmd); try done; [by left|].
  by exists 32.
Defined.

(** an atomic read with the [_N] opcode is queued with the opcode of a
    write response, although its response carries the data read: the AFU gets
    the data under [TLX_RSP_WRITE_RESP]. *)
Theorem amo_rd_n_answered_as_write w i c :
  tagged w (ac_actag c) i -> w_max_clients w < 2 ^ 31 -> quiet (w_parms w) ->
  ac_opcode c = AFU_CMD_AMO_RD_N -> ac_pl c = 2 \/ ac_pl c = 3 ->
  Z.land (le_val (take 8 (ac_ea_or_obj c))) 7 = 0 ->
  exists w' e, _parse_cmd c false w = Done tt w' /\ w_list w' = w_list w ++ [e] /\
    ev_resp_opcode e = TLX_RSP_WRITE_RESP /\ resp_with_data e = true.
Proof.
  intros Ht Hm Hq Hop Hpl Hal. destruct (tagged_client _ _ _ Ht) as (cl & Hcl & Hi).
  assert (Hamo : _parse_cmd c false w =
    _add_amo (ac_actag c) (ac_afutag c) AFU_CMD_AMO_RD_N CMD_AMO_RD (ac_ea_or_obj c) (ac_pl c) false
      (ac_flag c) (ac_endian c) w).
  { unfold _parse_cmd. cbv zeta. by rewrite Hop. }
  rewrite Hamo. unfold _add_amo. cbv zeta.
  assert (exists size, amo_size AFU_CMD_AMO_RD_N (ac_pl c) (ac_flag c) = inl size /\ (size = 4 \/ size = 8))
    as (size & -> & Hs) by (destruct Hpl as [-> | ->]; [exists 4|exists 8]; auto).
  assert (_aligned (ea_addr (ac_ea_or_obj c)) size = 1) as ->.
  { unfold _aligned, ea_addr. destruct Hs as [-> | ->].
    - change (u32 (4 - 1)) with (Z.land 7 3). by rewrite (Z.land_assoc (le_val _)), Hal.
    - change (u32 (8 - 1)) with 7. by rewrite Hal. }
  change (1 =? BAD_ADDR_OFFSET) with false. cbv iota.
  rewrite (bind_done _ _ _ _ _ (find_actag_here _ _ _ Ht)).
  replace (Z.of_nat i =? -1) with false by lia.
  edestruct (add_cmd_here i) as (w' & Hw & Hl); [by exists cl|done|done| |done|].
  2: { by eexists w', _. }
  destruct Hs as [-> | ->]; done.
Qed.

Definition amo_cmd : afu_cmd :=
  AfuCmd AFU_CMD_AMO_RD_N 5 0 ([8; 0x10; 0; 0; 0; 0; 0; 0; 0]) 0x22 0 3 0 0 0 0 0 0.

Lemma amo_rd_n_answered_as_write_witness :
  exists w' e, _parse_cmd amo_cmd false run_attached = Done tt w' /\ w_list w' = w_list run_attached ++ [e] /\
    ev_resp_opcode e = TLX_RSP_WRITE_RESP /\ resp_with_data e = true.
Proof. apply (amo_rd_n_answered_as_write run_attached 0 amo_cmd); try done. by right. Defined.

(** * Interrupts *)

(** The entry [_add_interrupt] makes of an [intrp_req_d] with length code [pl]. *)
Definition data_interrupt (e : cmd_event) (pl : Z) : Prop :=
  ev_command e = AFU_CMD_INTRP_REQ_D /\ ev_type e = CMD_INTERRUPT /\
  ev_size e = u16 (pl_to_size pl).

(** No fault is injected into an interrupt. *)
Definition quiet_interrupts (p : parms) : Prop :=
  int_retry_percent p = Some 0 /\ int_failed_percent p = Some 0 /\
  int_pending_percent p = Some 0 /\ int_derror_percent p = Some 0.

(** [_add_interrupt] takes the size of an interrupt with data unchecked from
    [pl_to_size]; an illegal length code gives 65535, and sending the entry then
    copies that much into the 45-byte message buffer on the stack: undefined
    behaviour. *)
Theorem interrupt_length_overflows w i c e pl :
  ~ (0 <= pl <= 5) -> find open_interrupt (w_list w) = Some e -> data_interrupt e pl ->
  w_clients w !! i = Some (Some c) -> ev_context e = Z.of_nat i -> Z.of_nat i < w_max_clients w ->
  quiet_interrupts (w_parms w) -> handle_interrupt w = UB.
Proof.
  intros Hpl Hf (Hcmd & Hty & Hsz) Hc Hctx Hm (H1 & H2 & H3 & H4). unfold handle_interrupt.
  rewrite (bind_done _ _ _ _ _ (find_event_here _ _ _ Hf)).
  rewrite (bind_done _ _ _ _ _ (get_client_here _ _ _ _ Hc Hctx Hm)).
  assert (Hno : exists ds, draw_int_faults e w = Done false (w <| w_draws := ds |>)).
  { unfold draw_int_faults. cbv zeta. rewrite Hty, Hcmd.
    change (bool_decide (CMD_INTERRUPT = CMD_WAKE_HOST_THRD)) with false.
    change (AFU_CMD_INTRP_REQ_D =? AFU_CMD_INTRP_REQ_D) with true. cbv iota.
    destruct (decide_quiet int_retry_percent w H1) as [d1 E1]. rewrite (bind_done _ _ _ _ _ E1).
    set (w1 := w <| w_draws := d1 |>).
    destruct (decide_quiet int_failed_percent w1 H2) as [d2 E2]. rewrite (bind_done _ _ _ _ _ E2).
    set (w2 := w1 <| w_draws := d2 |>).
    destruct (decide_quiet int_pending_percent w2 H3) as [d3 E3]. rewrite (bind_done _ _ _ _ _ E3).
    set (w3 := w2 <| w_draws := d3 |>).
    destruct (decide_quiet int_derror_percent w3 H4) as [d4 E4]. rewrite (bind_done _ _ _ _ _ E4).
    by exists d4. }
  destruct Hno as [ds Hno]. rewrite (bind_done _ _ _ _ _ Hno). cbv iota.
  assert (Hbad : interrupt_request e = None).
  { assert (Hs : ev_size e = 65535).
    { rewrite Hsz. unfold pl_to_size. repeat case_match; try done; exfalso; lia. }
    unfold interrupt_request. rewrite Hcmd, Hs. cbv zeta.
    change (AFU_CMD_INTRP_REQ_D =? AFU_CMD_INTRP_REQ_D) with true. cbv iota.
    destruct (slice _ _ _); [|done]. reflexivity. }
  by rewrite Hbad.
Qed.

Definition bad_interrupt : cmd_event :=
  sample_entry CMD_INTERRUPT AFU_CMD_INTRP_REQ_D 0x1000 (u16 (pl_to_size 6)) MEM_IDLE TLX_RSP_INTRP_RESP.

Lemma interrupt_length_overflows_witness :
  handle_interrupt (sample_world 128 [bad_interrupt] sample_client) = UB.
Proof.
  apply (interrupt_length_overflows (sample_world 128 [bad_interrupt] sample_client) 0 sample_client
    bad_interrupt 6); try done. lia.
Defined.

(** * Clients that leave *)

(** What becomes of an entry when client [c] is gone. *)
Definition ended_by (c : client) (e e' : cmd_event) : Prop :=
  ev_id e' = ev_id e /\ ev_afutag e' = ev_afutag e /\
  (ev_context e <> cl_context c -> e' = e) /\
  (ev_context e = cl_context c -> ev_state e' = MEM_DONE /\ resp_due e' = true).

(** when a client is dropped, the sweep ends every one of its entries - each
    is then due for a response - and touches no other client's. *)
Theorem sweep_ends_entries c l :
  cl_state c = CLIENT_NONE ->
  (client_cmd_list c l).1 = 0 /\
  Forall2 (ended_by c) l (client_cmd_list c l).2.
Proof.
  intros Hc. induction l as [|e l IH]; [done|]. cbn [client_cmd_list].
  destruct (client_cmd_list c l) as [rc l'] eqn:E. cbn [fst snd] in IH. destruct IH as [-> Hl].
  rewrite Hc. change (bool_decide (CLIENT_NONE = CLIENT_NONE)) with true.
  change (bool_decide (CLIENT_NONE = CLIENT_VALID)) with false.
  destruct (Z.eqb_spec (ev_context e) (cl_context c)) as [Ee|Ee]; cbn [negb andb].
  - destruct (bool_decide_reflect (ev_state e = MEM_DONE)) as [Hd|Hd]; cbn [negb fst snd];
      (split; [done|]); constructor; try done.
    + split_and!; try done. intros _. split; [done|]. unfold resp_due. by rewrite Hd.
    + by case_match.
  - cbn [fst snd]. split; [done|]. by constructor.
Qed.

Definition gone_client : client := sample_client <| cl_state := CLIENT_NONE |>.

Lemma sweep_ends_entries_witness :
  (client_cmd_list gone_client [sample_read; small_read]).1 = 0.
Proof. by apply (sweep_ends_entries gone_client [sample_read; small_read]). Defined.

(** The first entry that is due belongs to a client that left the array. *)
Definition orphan_first (w : world) (e : cmd_event) : Prop :=
  find resp_due (w_list w) = Some e /\ 0 <= ev_context e /\
  w_clients w !! Z.to_nat (ev_context e) = Some None.

(** once the client of the first entry that is due has left the array, the
    response handler does nothing, and goes on doing nothing: no response of any
    client is sent again, whatever becomes of the interface. *)
Theorem gone_client_blocks_responses w e afu :
  orphan_first w e ->
  handle_response w = Done tt w /\
  handle_response (w <| w_event := afu |>) = Done tt (w <| w_event := afu |>).
Proof.
  intros (Hf & Hctx & Hc).
  assert (Hgo : forall w, find resp_due (w_list w) = Some e ->
    w_clients w !! Z.to_nat (ev_context e) = Some None -> handle_response w = Done tt w).
  { intros w' Hf' Hc'. unfold handle_response. rewrite (bind_done _ _ _ _ _ (find_event_here _ _ _ Hf')).
    by rewrite (bind_done _ _ _ _ _ (get_client_gone e w' Hc' Hctx)). }
  split; by apply Hgo.
Qed.

(** The entry of a client that left, before that of one that is there. *)
Definition orphan : cmd_event :=
  sample_entry CMD_READ AFU_CMD_RD_WNITC 0x1000 128 MEM_DONE TLX_RSP_READ_RESP.
Definition orphan_world : world :=
  sample_world 128 [orphan] sample_client <| w_clients := [None; Some sample_client] |>
    <| w_max_clients := 2 |>.

Lemma gone_client_blocks_responses_witness :
  handle_response orphan_world = Done tt orphan_world.
Proof. by apply (gone_client_blocks_responses orphan_world orphan sample_afu). Defined.
