(* ===== verification/PageProps.v ===== *)
(** ocse/cmd.c, [_update_age]: the cache of page translations is a
    least-recently-used one. *)
From S2P Require Import Prelude CmdState CmdHandlers CmdInv CmdSafeResp.

Section scan.
Context (entries valids ages : list Z) (addr : Z).

Definition present (i : nat) : Prop :=
  entries !! i = Some addr /\ exists v, valids !! i = Some v /\ truthy v = true.
Definition vacant (i : nat) : Prop := exists v, valids !! i = Some v /\ truthy v = false.
Definition age_of (i : nat) (a : Z) : Prop := ages !! i = Some a.

(** What the loop knows after the ways [seen]. *)
Record scanned (seen : list nat) (sc : age_scan) : Prop := Scanned {
  sc_todo : forall i, i ∉ seen -> as_ages sc !! i = ages !! i;
  sc_set : as_set sc = true -> exists i, i ∈ seen /\ present i;
  sc_hit : forall i, i ∈ seen -> present i -> as_set sc = true /\ as_ages sc !! i = Some 0;
  sc_empty : as_empty sc = PAGE_WAYS \/ (as_empty sc ∈ seen /\ vacant (as_empty sc));
  sc_full : as_empty sc = PAGE_WAYS -> forall i, i ∈ seen -> ~ vacant i;
  sc_old : (as_age sc = 0 /\ as_oldest sc = 0%nat) \/
    (as_oldest sc ∈ seen /\ exists a, age_of (as_oldest sc) a /\ as_age sc = a + 1);
  sc_max : forall i a, i ∈ seen -> ~ present i -> ~ vacant i -> age_of i a -> a + 1 <= as_age sc;
}.

Lemma age_step_scanned seen sc i sc' :
  scanned seen sc -> i ∉ seen -> (i < PAGE_WAYS)%nat -> (i < length (as_ages sc))%nat ->
  age_step entries valids addr sc i = Some sc' -> scanned (i :: seen) sc'.
Proof.
  intros [H1 H2 H3 H4 H5 H6 H7] Hi Hlt Hlen Hs. unfold age_step in Hs.
  destruct (entries !! i) as [en|] eqn:Ee; [|done]. destruct (valids !! i) as [v|] eqn:Ev; [|done].
  destruct (as_ages sc !! i) as [a|] eqn:Ea; [|done]. cbn [mbind option_bind] in Hs.
  unfold guard_ub in Hs. destruct (a <? 2 ^ 31 - 1); [|done].
  assert (Ha : age_of i a) by (unfold age_of; by rewrite <- H1).
  destruct (truthy v) eqn:Etv; cbn [negb andb] in Hs.
  - assert (Hnv : ~ vacant i) by (intros (v' & Hv' & Ht); congruence).
    destruct (Z.eqb_spec en addr) as [->|Hne]; cbn [negb] in Hs; injection Hs as <-.
    + (* present *)
      assert (Hp : present i) by (split; [done|by exists v]).
      constructor; cbn [as_ages as_set as_age as_oldest as_empty].
      * intros j Hj. apply not_elem_of_cons in Hj as [Hji Hj].
        rewrite list_lookup_insert_ne by done. by apply H1.
      * intros _. exists i. split; [by left|done].
      * intros j [->|Hj]%elem_of_cons Hpj; (split; [done|]).
        -- by apply list_lookup_insert_eq.
        -- rewrite list_lookup_insert_ne by (by intros ->). by apply H3.
      * destruct H4 as [?|[? ?]]; [by left|right; split; [by right|done]].
      * intros Hem j [->|Hj]%elem_of_cons; [done|by apply H5].
      * destruct H6 as [?|[? ?]]; [by left|right; split; [by right|done]].
      * intros j b [->|Hj]%elem_of_cons Hnp; [done|by apply H7].
    + (* another page *)
      assert (Hnp : ~ present i) by (intros [? _]; congruence).
      constructor; cbn [as_ages as_set as_age as_oldest as_empty].
      * intros j Hj. apply not_elem_of_cons in Hj as [Hji Hj].
        rewrite list_lookup_insert_ne by done. by apply H1.
      * intros Hset. destruct (H2 Hset) as (j & Hj & Hpj). exists j. split; [by right|done].
      * intros j [->|Hj]%elem_of_cons Hpj; [done|]. destruct (H3 j Hj Hpj) as [? ?].
        split; [done|]. by rewrite list_lookup_insert_ne by (by intros ->).
      * destruct H4 as [?|[? ?]]; [by left|right; split; [by right|done]].
      * intros Hem j [->|Hj]%elem_of_cons; [done|by apply H5].
      * destruct (as_age sc <? a + 1).
        -- right. split; [by left|]. by exists a.
        -- destruct H6 as [?|[? ?]]; [by left|right; split; [by right|done]].
      * intros j b [->|Hj]%elem_of_cons Hnpj Hnvj Hb.
        -- assert (b = a) as -> by (unfold age_of in *; congruence).
           destruct (as_age sc <? a + 1) eqn:E; lia.
        -- specialize (H7 j b Hj Hnpj Hnvj Hb). destruct (as_age sc <? a + 1) eqn:E; lia.
  - assert (Hv : vacant i) by by exists v.
    assert (Hnp : ~ present i) by (intros (_ & v' & Hv' & Ht); congruence).
    assert (Hbase : forall k, (k = as_empty sc /\ k <> PAGE_WAYS) \/ k = i ->
      scanned (i :: seen) (AgeScan (as_ages sc) (as_set sc) (as_age sc) (as_oldest sc) k)).
    { intros k Hk. constructor; cbn [as_ages as_set as_age as_oldest as_empty].
      - intros j [_ Hj]%not_elem_of_cons. by apply H1.
      - intros Hset. destruct (H2 Hset) as (j & Hj & Hpj). exists j. split; [by right|done].
      - intros j [->|Hj]%elem_of_cons Hpj; [done|]. by apply H3.
      - right. destruct Hk as [[-> ?]| ->]; [|split; [by left|done]].
        destruct H4 as [?|[? ?]]; [done|split; [by right|done]].
      - intros ->. destruct Hk as [[_ ?]|?]; [done|lia].
      - destruct H6 as [?|[? ?]]; [by left|right; split; [by right|done]].
      - intros j b [->|Hj]%elem_of_cons Hnpj Hnvj; [done|by apply H7]. }
    destruct (Nat.eqb_spec (as_empty sc) PAGE_WAYS); injection Hs as <-; [by apply Hbase; right|].
    destruct sc. by apply Hbase; left.
Qed.

Lemma age_step_length i sc sc' :
  age_step entries valids addr sc i = Some sc' -> length (as_ages sc') = length (as_ages sc).
Proof.
  unfold age_step. destruct (entries !! i), (valids !! i), (as_ages sc !! i); try done.
  cbn [mbind option_bind]. unfold guard_ub. case_match; [|done]. intros [= <-].
  repeat case_match; cbn; by rewrite ?length_insert.
Qed.

Lemma scan_scanned ways seen sc sc' :
  scanned seen sc -> NoDup ways -> (forall i, i ∈ ways -> i ∉ seen /\ (i < PAGE_WAYS)%nat) ->
  length ages = PAGE_WAYS -> length (as_ages sc) = PAGE_WAYS ->
  age_scan_loop entries valids addr ways sc = Some sc' ->
  scanned (rev ways ++ seen) sc'.
Proof.
  revert seen sc. induction ways as [|i ways IH]; intros seen sc Hsc Hn Hw Ha Hl Hs.
  - by injection Hs as <-.
  - cbn [age_scan_loop] in Hs. apply list_relations.list.NoDup_cons in Hn as [Hi Hn].
    destruct (age_step entries valids addr sc i) as [sc1|] eqn:E; [|done].
    cbn [mbind option_bind] in Hs. cbn [rev]. rewrite <- app_assoc.
    destruct (Hw i) as [Hns Hlt]; [by left|].
    assert (Hl1 : length (as_ages sc1) = PAGE_WAYS).
    { rewrite (age_step_length i sc sc1); done. }
    apply (IH (i :: seen) sc1); [|done| |done|done|done].
    + eapply age_step_scanned; [done|done|done|by rewrite Hl|done].
    + intros j Hj. destruct (Hw j) as [? ?]; [by right|]. split; [|done].
      apply not_elem_of_cons. split; [by intros ->|done].
Qed.

Lemma scan_start : scanned [] (AgeScan ages false 0 0 PAGE_WAYS).
Proof.
  constructor; cbn; try done.
  - intros i Hi. by apply not_elem_of_nil in Hi.
  - by left.
  - intros _ i Hi. by apply not_elem_of_nil in Hi.
  - by left.
  - intros i a Hi. by apply not_elem_of_nil in Hi.
Qed.
End scan.

(** * One row *)

(** What an access does to a row: the page is in it, just used; a page that was
    there stays, unless it is the least recently used one of a full row that
    lacked the page. *)
Definition row_after (es ags vs : list Z) (page : Z) (es' ags' vs' : list Z) : Prop :=
  (exists way v, es' !! way = Some page /\ vs' !! way = Some v /\ truthy v = true /\
     ags' !! way = Some 0) /\
  (forall way q v, es !! way = Some q -> vs !! way = Some v -> truthy v = true -> q <> page ->
     es' !! way = Some q \/
     ((forall j, ~ present es vs page j) /\ (forall j, ~ vacant vs j) /\
      forall a b j, ags !! way = Some a -> ags !! j = Some b -> b <= a)).

Lemma present_lt es vs page i : length es = PAGE_WAYS -> present es vs page i -> i ∈ rev (seq 0 PAGE_WAYS) ++ [].
Proof.
  intros Hl [He _]. apply lookup_lt_Some in He. rewrite app_nil_r.
  apply list_elem_of_In, in_rev. rewrite rev_involutive. apply in_seq. lia.
Qed.

Lemma way_seen i : (i < PAGE_WAYS)%nat -> i ∈ rev (seq 0 PAGE_WAYS) ++ [].
Proof.
  intros Hi. rewrite app_nil_r. apply list_elem_of_In, in_rev. rewrite rev_involutive.
  apply in_seq. lia.
Qed.

Lemma seen_way i : i ∈ rev (seq 0 PAGE_WAYS) ++ [] -> (i < PAGE_WAYS)%nat.
Proof.
  rewrite app_nil_r. intros H%list_elem_of_In. apply in_rev in H. apply in_seq in H. lia.
Qed.

Lemma update_row_lru es ags vs page es' ags' vs' :
  length es = PAGE_WAYS -> length ags = PAGE_WAYS -> length vs = PAGE_WAYS ->
  Forall (fun a => 0 <= a) ags ->
  update_row es ags vs page = Some (es', ags', vs') -> row_after es ags vs page es' ags' vs'.
Proof.
  intros He Ha Hv Hpos. unfold update_row.
  destruct (age_scan_loop _ _ _ _ _) as [sc|] eqn:E; [|done]. cbn [mbind option_bind].
  assert (Hsc : scanned es vs ags page (rev (seq 0 PAGE_WAYS) ++ []) sc).
  { eapply scan_scanned; [apply scan_start|by apply (bool_decide_unpack _)| |done|exact Ha|exact E].
    intros i Hi%elem_of_seq. split; [apply not_elem_of_nil|lia]. }
  assert (Hlen : length (as_ages sc) = PAGE_WAYS).
  { assert (Hgen : forall ways s s', age_scan_loop es vs page ways s = Some s' ->
      length (as_ages s') = length (as_ages s)).
    { clear. intros ways. induction ways as [|i ways IH]; intros s s'; cbn; [by intros [= ->]|].
      destruct (age_step es vs page s i) as [s1|] eqn:E1; [|done]. cbn.
      intros ->%IH. by eapply age_step_length. }
    rewrite (Hgen _ _ _ E). exact Ha. }
  destruct Hsc as [_ Hset Hhit Hempty Hfull Hold Hmax].
  destruct (as_set sc) eqn:Es.
  - intros [= <- <- <-]. destruct (Hset eq_refl) as (i & Hi & Hp). split; [|by left].
    destruct (Hhit i Hi Hp) as [_ Hz]. destruct Hp as [Hpe (v & Hv1 & Hv2)]. by exists i, v.
  - assert (Hnp : forall j, ~ present es vs page j).
    { intros j Hp. destruct (Hhit j (present_lt _ _ _ _ He Hp) Hp). done. }
    set (way := if (as_empty sc <? PAGE_WAYS)%nat then as_empty sc else as_oldest sc).
    assert (Hway : (way < PAGE_WAYS)%nat).
    { unfold way. destruct (Nat.ltb_spec (as_empty sc) PAGE_WAYS); [done|].
      destruct Hold as [[_ ->]|[Ho _]]; [unfold PAGE_WAYS; lia|by apply seen_way]. }
    intros [= <- <- <-]. split.
    + exists way, 1. by rewrite !list_lookup_insert_eq by lia.
    + intros j q v Hq Hvj Ht Hne. destruct (decide (way = j)) as [<-|Hj];
        [right|left; by rewrite list_lookup_insert_ne].
      assert (Hnv : forall k, ~ vacant vs k).
      { intros k Hk. revert Hvj Ht. unfold way.
        destruct (Nat.ltb_spec (as_empty sc) PAGE_WAYS) as [Hlt|Hge].
        - destruct Hempty as [?|[_ (v' & Hv' & Hf)]]; [lia|]. congruence.
        - intros _ _. destruct Hempty as [Hem|[Hin _]]; [|apply seen_way in Hin; lia].
          destruct Hk as (v' & Hv' & Hf). apply (Hfull Hem k); [|by exists v'].
          apply way_seen. apply lookup_lt_Some in Hv'. lia. }
      split_and!; [done|done|]. intros a b k Hage Hb.
      assert (Hem : as_empty sc = PAGE_WAYS).
      { destruct Hempty as [?|[_ Hvac]]; [done|]. by destruct (Hnv _ Hvac). }
      assert (Hlow : b + 1 <= as_age sc).
      { apply (Hmax k b); [|by apply Hnp|by apply Hnv|done]. apply way_seen.
        apply lookup_lt_Some in Hb. lia. }
      assert (0 <= b) by by eapply Forall_lookup_1 in Hpos.
      destruct Hold as [[? _]|[_ (a' & Ha' & Heq)]]; [lia|].
      assert (a' = a); [|lia]. revert Hage. unfold way. rewrite Hem.
      change (PAGE_WAYS <? PAGE_WAYS)%nat with false. unfold age_of in Ha'. congruence.
Qed.

(** C31: an access to the page cache leaves the page in its row, marked as just
    used, leaves every other row alone, and evicts nothing unless the row was
    full without the page - then it evicts a least recently used page. *)
Theorem page_cache_is_lru p addr p' :
  pages_ok p -> Forall (Forall (fun a => 0 <= a)) (pg_age p) -> update_pages p addr = Some p' ->
  let page := (_calc_index p addr).1 in
  let k := Z.to_nat (_calc_index p addr).2 in
  (forall j, j <> k -> pg_entry p' !! j = pg_entry p !! j /\ pg_age p' !! j = pg_age p !! j /\
     pg_valid p' !! j = pg_valid p !! j) /\
  exists es ags vs es' ags' vs',
    pg_entry p !! k = Some es /\ pg_age p !! k = Some ags /\ pg_valid p !! k = Some vs /\
    pg_entry p' !! k = Some es' /\ pg_age p' !! k = Some ags' /\ pg_valid p' !! k = Some vs' /\
    row_after es ags vs page es' ags' vs'.
Proof.
  intros Hp Hpos Hu. pose proof (index_range p addr Hp) as Hi. pose proof Hp as [H1 H2 H3 _ _].
  unfold update_pages in Hu. destruct (_calc_index p addr) as [page index]. cbn [fst snd] in *.
  cbv zeta in *. set (k := Z.to_nat index) in *.
  assert (Hk : (k < PAGE_ENTRIES)%nat) by (unfold k, PAGE_ENTRIES; lia).
  destruct (row_lookup _ k H1 Hk) as (es & He & Hel).
  destruct (row_lookup _ k H2 Hk) as (ags & Ha & Hal).
  destruct (row_lookup _ k H3 Hk) as (vs & Hv & Hvl).
  rewrite He, Ha, Hv in Hu. cbn [mbind option_bind] in Hu.
  destruct (update_row es ags vs page) as [[[es' ags'] vs']|] eqn:E; [|done].
  cbn [mbind option_bind] in Hu. injection Hu as <-. cbn [pg_entry pg_age pg_valid]. split.
  - intros j Hj. by rewrite !list_lookup_insert_ne by done.
  - destruct H1 as [L1 _], H2 as [L2 _], H3 as [L3 _].
    exists es, ags, vs, es', ags', vs'. rewrite !list_lookup_insert_eq by lia.
    split_and!; try done. apply (update_row_lru es ags vs); try done.
    by eapply Forall_lookup_1 in Hpos.
Qed.

(** The empty cache. *)
Definition no_pages : pages :=
  let ways := replicate PAGE_ENTRIES (replicate PAGE_WAYS 0) in
  Pages ways ENTRY_FILTER PAGE_FILTER ways ways.

Lemma no_pages_ok : pages_ok no_pages.
Proof. constructor; try (split; [done|by repeat constructor]); done. Qed.

Lemma page_cache_is_lru_witness :
  exists p' es', update_pages no_pages 0x3456 = Some p' /\ pg_entry p' !! 3%nat = Some es' /\
    exists way, es' !! way = Some 0x3000.
Proof.
  assert (Hs : is_Some (update_pages no_pages 0x3456)) by (vm_compute; by eexists).
  destruct Hs as [p' E]. exists p'.
  assert (Hpos : Forall (Forall (fun a => 0 <= a)) (pg_age no_pages))
    by (apply Forall_replicate, Forall_replicate; lia).
  assert (Ek : _calc_index no_pages 0x3456 = (0x3000, 3)) by (by vm_compute).
  pose proof (page_cache_is_lru no_pages 0x3456 p' no_pages_ok Hpos E) as H.
  rewrite Ek in H. cbv zeta in H. cbn [fst snd] in H.
  destruct H as (_ & es & ags & vs & es' & ags' & vs' & _ & _ & _ & He & _ & _ & H & _).
  destruct H as (way & v & Hw & _). exists es'.
  split; [exact E|]. split; [exact He|]. by exists way.
Defined.
