(* ===== verification/MmioRun.v ===== *)
(** Running the MMIO component: rules that follow its operations to their end,
    and what one turn of the loop makes of a message that has arrived and of the
    access at the head of the queue. *)
From stdpp Require Import gmap.
From S2P Require Import Prelude Utils Event TlxHost TlxAfu TlxApi Parms.
From S2P Require Import CmdState Cmd CmdHandlers CmdFrame CmdLogic CmdInv CmdSafe CmdSafeResp.
From S2P Require Import Mmio Ocl MmioInv OclInv CmdProps.

(** * Running the component *)

Section running.
Context {A : Type} (Q : A -> world -> Prop).

Lemma runs_client i c (k : client -> M A) w :
  w_clients w !! i = Some (Some c) -> runs (k c) Q w -> runs (the_client i ≫= k) Q w.
Proof. intros Hc Hk. unfold runs. by rewrite (bind_done _ _ _ _ _ (the_client_here i c w Hc)). Qed.

Lemma runs_get id e (k : mmio_event -> M A) w :
  heap w !! id = Some e -> runs (k e) Q w -> runs (get_mmio id ≫= k) Q w.
Proof.
  intros He Hk. runs_next. unfold get_mmio. apply runs_gets. unfold runs, lift.
  unfold heap in He. by rewrite He.
Qed.

Lemma runs_set id e (k : unit -> M A) w : runs (k tt) Q (put_mm id e w) -> runs (set_mmio id e ≫= k) Q w.
Proof. done. Qed.

Lemma runs_upd id f e (k : unit -> M A) w :
  heap w !! id = Some e -> runs (k tt) Q (put_mm id (f e) w) -> runs (upd_mmio_event id f ≫= k) Q w.
Proof.
  intros He Hk. unfold runs in *. rewrite (bind_done _ _ w tt (put_mm id (f e) w)); [done|].
  unfold upd_mmio_event. rewrite (bind_done _ _ w e w); [done|].
  unfold get_mmio, heap in *. rewrite bind_gets. unfold lift. by rewrite He.
Qed.

Lemma runs_upd_last id f e (R : unit -> world -> Prop) w :
  heap w !! id = Some e -> R tt (put_mm id (f e) w) -> runs (upd_mmio_event id f) R w.
Proof.
  intros He HR. unfold runs, upd_mmio_event. rewrite (bind_done _ _ w e w); [done|].
  unfold get_mmio, heap in *. rewrite bind_gets. unfold lift. by rewrite He.
Qed.

Lemma runs_pop (R : unit -> world -> Prop) w : R tt (pop_mm w) -> runs pop_event R w.
Proof. done. Qed.

Lemma runs_head id l (k : addr_t -> M A) w :
  queue w = id :: l -> runs (k id) Q w -> runs (head_event ≫= k) Q w.
Proof.
  intros Hq Hk. unfold runs in *. rewrite (bind_done _ _ w id w); [done|].
  unfold head_event. rewrite bind_gets. unfold queue in Hq. by rewrite Hq.
Qed.

Lemma runs_send f rc afu (k : Z -> M A) w :
  f (w_event w) = Some (rc, afu) -> runs (k rc) Q (w <| w_event := afu |>) ->
  runs (host_send f ≫= k) Q w.
Proof.
  intros Hf Hk. unfold runs in *. rewrite (bind_done _ _ w rc (w <| w_event := afu |>)); [done|].
  unfold host_send. rewrite bind_gets. rewrite (bind_lift _ _ (rc, afu)); [done|exact Hf].
Qed.

Lemma runs_read {B} (f : AFU_EVENT -> Z * option B * AFU_EVENT) x afu (k : option B -> M A) w :
  f (w_event w) = (TLX_SUCCESS, x, afu) -> runs (k x) Q (w <| w_event := afu |>) ->
  runs (read_event f ≫= k) Q w.
Proof.
  intros Hf Hk. unfold runs in *. rewrite (bind_done _ _ w x (w <| w_event := afu |>)); [done|].
  unfold read_event. rewrite bind_gets, Hf. done.
Qed.

Lemma runs_read_none {B} (f : AFU_EVENT -> Z * option B * AFU_EVENT) rc x (k : option B -> M A) w :
  f (w_event w) = (rc, x, w_event w) -> rc <> TLX_SUCCESS -> runs (k None) Q w ->
  runs (read_event f ≫= k) Q w.
Proof.
  intros Hf Hrc Hk. unfold runs in *. rewrite (bind_done _ _ w None w); [done|].
  unfold read_event. rewrite bind_gets, Hf. apply Z.eqb_neq in Hrc. rewrite Hrc. by destruct w.
Qed.

Lemma runs_answer i c l (k : unit -> M A) w :
  w_put_ok w = [] -> runs (k tt) Q (w <| w_puts := w_puts w ++ [(cl_fd c, l)] |>) ->
  runs (answer i c l ≫= k) Q w.
Proof.
  intros Hp Hk. unfold runs in *.
  rewrite (bind_done _ _ w tt (w <| w_puts := w_puts w ++ [(cl_fd c, l)] |>)); [done|].
  unfold answer. rewrite (bind_done _ _ w true (w <| w_puts := w_puts w ++ [(cl_fd c, l)] |>)); [done|].
  unfold put_bytes. by rewrite Hp.
Qed.
End running.

(** ** Messages that have arrived *)

Definition queued (msg : list Z) (s : stream) : Prop :=
  exists rest, avail s = msg ++ rest /\ arrivals s = [].

Lemma queued_incoming msg s : queued msg s -> exists rest, incoming s = msg ++ rest.
Proof. intros (rest & Ha & Hr). exists rest. unfold incoming. by rewrite Hr, Ha, app_nil_r. Qed.

Lemma get_queued fuel n msg1 msg2 s :
  queued (msg1 ++ msg2) s -> n = Z.of_nat (length msg1) -> 0 < n -> (1 <= fuel)%nat ->
  exists s', get_bytes_silent fuel false n s = GotBytes msg1 s' /\ queued msg2 s'.
Proof.
  intros (rest & Ha & Hr) -> Hn Hf. destruct s as [a l h]. cbn in Ha, Hr. subst.
  eexists. split.
  - apply (get_bytes_silent_whole fuel _ (Stream ((msg1 ++ msg2) ++ rest) [] h) (msg2 ++ rest) msg1);
      [done|done|cbn; by rewrite app_assoc|done].
  - by exists rest.
Qed.

Lemma bytes_ready_queued op msg s : queued (op :: msg) s -> bytes_ready false s = (1, s).
Proof.
  intros (rest & Ha & Hr). unfold bytes_ready, arrive. rewrite Hr. cbv zeta. by rewrite Ha.
Qed.

Lemma receive_queued fuel i c n k msg1 msg2 s :
  cl_abort c = 0 -> queued (msg1 ++ msg2) s -> n = Z.of_nat (length msg1) -> 0 < n ->
  (1 <= fuel)%nat ->
  exists s', receive fuel i c n s k = k msg1 s' /\ queued msg2 s'.
Proof.
  intros Hab Hq Hn Hp Hf. destruct (get_queued fuel n msg1 msg2 s Hq Hn Hp Hf) as (s' & Hg & Hq').
  exists s'. split; [|done]. unfold receive. rewrite Hab. change (truthy 0) with false. by rewrite Hg.
Qed.

Lemma ntohl_be x : is_u 32 x -> ntohl (le_val (be_bytes 4 x)) = x.
Proof.
  intros Hx. unfold ntohl, htonl. rewrite le_val_le_val. by apply (is_u_small 32).
Qed.

Lemma ntohll_be x : is_u 64 x -> ntohll (le_val (be_bytes 8 x)) = x.
Proof.
  intros Hx. unfold ntohll. rewrite htonll_eq, le_val_le_val. by apply (is_u_small 64).
Qed.

(** * A client asks *)

(** A client that is attached and waits for nothing. *)
Record ready (w : world) (i : nat) (c : client) : Prop := Ready {
  rd_client : w_clients w !! i = Some (Some c);
  rd_valid : cl_state c = CLIENT_VALID;
  rd_abort : cl_abort c = 0;
  rd_free : cl_mmio_access c = None;
}.

(** The event [e] has been appended to the queue, and client [i] waits for it. *)
Record asked (w w' : world) (i : nat) (c : client) (e : mmio_event) : Prop := Asked {
  ak_heap : heap w' = <[mm_next (w_mmio w) := e]> (heap w);
  ak_queue : queue w' = queue w ++ [mm_next (w_mmio w)];
  ak_client : exists c', w_clients w' !! i = Some (Some c') /\ cl_fd c' = cl_fd c /\
    cl_mmio_access c' = Some (mm_next (w_mmio w));
  ak_event : w_event w' = w_event w;
  ak_puts : w_puts w' = w_puts w;
  ak_put_ok : w_put_ok w' = w_put_ok w;
  ak_ocl : w_ocl w' = w_ocl w;
}.

(** The part of [_handle_client] around the message. *)
Lemma serve_access fuel i c op msg s w (Q : stream -> world -> Prop) e :
  ready w i c -> queued (op :: msg) s -> (1 <= fuel)%nat ->
  (forall s', queued msg s' ->
     exists s2, client_message fuel i op s' w = Done (Some (mm_next (w_mmio w)), s2) (add_mm e w)) ->
  (forall s' w', asked w w' i c e -> Q s' w') ->
  runs (_handle_client fuel i s) Q w.
Proof.
  intros [Hc Hv Hab Hfree] Hq Hf Hmsg HQ. unfold _handle_client, finish_access. runs_next.
  apply (runs_client _ _ c); [done|]. rewrite Hfree. apply runs_ret. apply (runs_client _ _ c); [done|].
  rewrite Hv. change (bool_decide (CLIENT_VALID = CLIENT_NONE)) with false. cbv iota zeta. rewrite Hab.
  change (truthy 0) with false.
  assert (Hr : bytes_ready false s = (1, s)).
  { destruct Hq as (rest & Ha & Hr). unfold bytes_ready, arrive. rewrite Hr. cbv zeta. by rewrite Ha. }
  rewrite Hr. change (negb (truthy 1)) with false. cbv iota.
  destruct (get_queued fuel 1 [op] msg s) as (s' & -> & Hq'); [done..|].
  apply (runs_lift _ _ op); [done|]. runs_next. destruct (Hmsg s' Hq') as [s2 Hs2].
  unfold runs at 1. rewrite Hs2. cbv iota. runs_next. apply runs_modify.
  apply HQ. set (f := fun c => c <| cl_mmio_access := Some (mm_next (w_mmio w)) |>).
  constructor; try done. exists (refresh_valid (f c)). split.
  - cbn -[refresh_valid]. rewrite list_lookup_alter_eq, list_lookup_alter_eq, Hc. done.
  - unfold refresh_valid. by case_bool_decide.
Qed.

Lemma register_message fuel i op rnw dw global s :
  register_op op = Some (rnw, dw, global) ->
  client_message fuel i op s = handle_mmio fuel i rnw dw global s /\ (dw = 0 \/ dw = 1).
Proof.
  intros H. assert (Hops : op ∈ [OCSE_GLOBAL_MMIO_WRITE64; OCSE_MMIO_WRITE64; OCSE_GLOBAL_MMIO_WRITE32;
    OCSE_MMIO_WRITE32; OCSE_GLOBAL_MMIO_READ64; OCSE_MMIO_READ64; OCSE_GLOBAL_MMIO_READ32;
    OCSE_MMIO_READ32]).
  { unfold register_op in H. rewrite !elem_of_cons. 
    repeat match type of H with (if ?a =? ?b then _ else _) = _ =>
      destruct (Z.eqb_spec a b); [tauto|] end. done. }
  rewrite !elem_of_cons in Hops. pose proof (not_elem_of_nil op).
  destruct_or! Hops; try done; subst op; injection H as <- <- <-; (split; [reflexivity|auto]).
Qed.

Lemma memory_message fuel i op rnw be_valid s :
  memory_op op = Some (rnw, be_valid) ->
  client_message fuel i op s = handle_mem fuel i rnw 0 be_valid s.
Proof.
  intros H. unfold memory_op in H.
  repeat match type of H with (if ?a =? ?b then _ else _) = _ =>
    destruct (Z.eqb_spec a b); [subst op; injection H as <- <-; reflexivity|] end. done.
Qed.

Definition reg_bytes (dw : Z) : nat := if dw =? 1 then 8 else 4.

(** What [_handle_mmio_write] stores in [cmd_data]: a 32-bit value twice. *)
Definition reg_data (dw v : Z) : Z := if dw =? 1 then v else Z.lor (Z.shiftl v 32) v.

Lemma add_mmio_run c rnw dw global addr data PA w :
  mmio_PA (w_mmio w) c global addr = Some PA ->
  _add_mmio c rnw dw global addr data w =
  Done (mm_next (w_mmio w))
    (add_mm (new_mmio_event (mm_raw (w_mmio w) (mm_next (w_mmio w))) rnw dw PA 0 data) w).
Proof.
  intros HPA. unfold _add_mmio, _add_event, malloc_event. rewrite bind_done with (x := (mm_next (w_mmio w),
    mm_raw (w_mmio w) (mm_next (w_mmio w)))) (w' := w <| w_mmio := w_mmio w <| mm_next := S (mm_next (w_mmio w)) |> |>);
    [|done].
  rewrite bind_gets, (bind_lift _ _ PA); [done|exact HPA].
Qed.

Lemma write_message fuel i c op dw global offset v PA s w :
  ready w i c -> register_op op = Some (0, dw, global) -> (1 <= fuel)%nat ->
  queued (be_bytes 4 offset ++ be_bytes (reg_bytes dw) v) s -> is_u 32 offset ->
  is_u (8 * Z.of_nat (reg_bytes dw)) v -> mmio_PA (w_mmio w) c global offset = Some PA ->
  exists s2, client_message fuel i op s w = Done (Some (mm_next (w_mmio w)), s2)
    (add_mm (new_mmio_event (mm_raw (w_mmio w) (mm_next (w_mmio w))) 0 dw PA 0 (reg_data dw v)) w).
Proof.
  intros [Hc Hv Hab _] Hop Hf Hq Ho Hu HPA. destruct (register_message fuel i op 0 dw global s Hop) as [-> Hdw].
  unfold handle_mmio. rewrite (bind_done _ _ _ _ _ (the_client_here i c w Hc)), Hv.
  change (negb (bool_decide (CLIENT_VALID = CLIENT_VALID))) with false. change (truthy 0) with false. cbv iota.
  unfold _handle_mmio_write. rewrite (bind_done _ _ _ _ _ (the_client_here i c w Hc)).
  edestruct (receive_queued fuel i c 4) as (s1 & Hrc & Hq1); [done|exact Hq|done..|].
  rewrite Hrc. clear Hrc.
  cbv zeta. rewrite ntohl_be by done.
  assert (Hq2 : queued (be_bytes (reg_bytes dw) v ++ []) s1) by (by rewrite app_nil_r).
  unfold reg_data, reg_bytes in *. destruct Hdw as [-> | ->].
  - change (truthy 0) with false. cbv iota. change (0 =? 1) with false in *. cbv iota in *.
    edestruct (receive_queued fuel i c 4) as (s2 & Hrc & _); [done|exact Hq2|done..|].
    rewrite Hrc, ntohl_be by done.
    rewrite (bind_done _ _ _ _ _ (add_mmio_run c 0 0 global offset _ PA w HPA)). by exists s2.
  - change (truthy 1) with true. cbv iota. change (1 =? 1) with true in *. cbv iota in *.
    edestruct (receive_queued fuel i c 8) as (s2 & Hrc & _); [done|exact Hq2|done..|].
    rewrite Hrc, ntohll_be by done.
    rewrite (bind_done _ _ _ _ _ (add_mmio_run c 0 1 global offset _ PA w HPA)). by exists s2.
Qed.

Lemma read_message fuel i c op dw global offset PA s w :
  ready w i c -> register_op op = Some (1, dw, global) -> (1 <= fuel)%nat ->
  queued (be_bytes 4 offset) s -> is_u 32 offset -> mmio_PA (w_mmio w) c global offset = Some PA ->
  exists s2, client_message fuel i op s w = Done (Some (mm_next (w_mmio w)), s2)
    (add_mm (new_mmio_event (mm_raw (w_mmio w) (mm_next (w_mmio w))) 1 dw PA 0 0) w).
Proof.
  intros [Hc Hv Hab _] Hop Hf Hq Ho HPA. destruct (register_message fuel i op 1 dw global s Hop) as [-> _].
  unfold handle_mmio. rewrite (bind_done _ _ _ _ _ (the_client_here i c w Hc)), Hv.
  change (negb (bool_decide (CLIENT_VALID = CLIENT_VALID))) with false. change (truthy 1) with true. cbv iota.
  unfold _handle_mmio_read. rewrite (bind_done _ _ _ _ _ (the_client_here i c w Hc)).
  assert (Hq2 : queued (be_bytes 4 offset ++ []) s) by (by rewrite app_nil_r).
  edestruct (receive_queued fuel i c 4) as (s2 & Hrc & _); [done|exact Hq2|done..|].
  rewrite Hrc, ntohl_be by done.
  rewrite (bind_done _ _ _ _ _ (add_mmio_run c 1 dw global offset _ PA w HPA)). by exists s2.
Qed.

(** * The AFU is asked *)

(** The command interface to the AFU is free. *)
Definition afu_free (afu : AFU_EVENT) : Prop :=
  tlx_afu_cmd_valid afu = 0 /\ length (tlx_afu_cmd_data_bus afu) = 256%nat.

(** The command, and its data, that the AFU finds there. *)
Definition command_at (afu : AFU_EVENT) (c : tlx_cmd) : Prop :=
  tlx_afu_cmd_valid afu = 1 /\ get_tlx_cmd afu = c.

Record data_at (afu : AFU_EVENT) (cnt : Z) (bus : list Z) : Prop := DataAt {
  da_valid : tlx_afu_cmd_data_valid afu = 1;
  da_cnt : tlx_afu_cmd_data_byte_cnt afu = cnt;
  da_bus : take (Z.to_nat cnt) (tlx_afu_cmd_data_bus afu) = take (Z.to_nat cnt) bus;
}.

Lemma rejects_no_cfg e o t be :
  rejects_cfg (tc_opcode (mem_cmd e o t be)) = false.
Proof.
  unfold rejects_cfg. cbn. destruct (Z.eqb_spec o TLX_CMD_CONFIG_READ) as [->|]; done.
Qed.

Lemma write_cmd_mem e : exists o t be, write_cmd e = mem_cmd e o t be.
Proof. unfold write_cmd. destruct (cmd_byte_cnt e <? 64), (me_be_valid e =? 0); eauto. Qed.
Lemma read_cmd_mem e : exists o t be, read_cmd e = mem_cmd e o t be.
Proof. unfold read_cmd. destruct (cmd_byte_cnt e <? 64); eauto. Qed.

Lemma drive_read e afu :
  afu_free afu -> truthy (me_cfg e) = false -> truthy (me_rnw e) = true ->
  exists afu', drive_cmd e afu = Some (TLX_SUCCESS, afu') /\ command_at afu' (read_cmd e).
Proof.
  intros [Hv _] Hc Hr. unfold drive_cmd. rewrite Hc, Hr. unfold tlx_afu_send_cmd.
  destruct (read_cmd_mem e) as (o & t & be & ->). rewrite rejects_no_cfg, Hv.
  eexists. split; [reflexivity|]. split; reflexivity.
Qed.

Definition send_size (dL : Z) : Z := if negb (dL =? 0) then dl_to_size dL else 64.

Lemma drive_write e afu bus :
  afu_free afu -> truthy (me_cfg e) = false -> truthy (me_rnw e) = false ->
  write_bus e = Some bus -> length bus = 256%nat -> 0 <= me_cmd_dL e <= 3 ->
  exists afu', drive_cmd e afu = Some (TLX_SUCCESS, afu') /\ command_at afu' (write_cmd e) /\
    data_at afu' (send_size (me_cmd_dL e)) bus.
Proof.
  intros [Hv Hl] Hc Hr Hb Hbl Hd. unfold drive_cmd. rewrite Hc, Hr, Hb.
  cbn [mbind option_bind]. unfold tlx_afu_send_cmd_and_data.
  destruct (write_cmd_mem e) as (o & t & be & ->). rewrite rejects_no_cfg, Hv.
  change (0 =? 1) with false. cbv iota zeta. change (tc_dl (mem_cmd e o t be)) with (me_cmd_dL e).
  fold (send_size (me_cmd_dL e)).
  assert (Hs : 0 <= send_size (me_cmd_dL e) <= 256).
  { assert (me_cmd_dL e = 0 \/ me_cmd_dL e = 1 \/ me_cmd_dL e = 2 \/ me_cmd_dL e = 3) as Hcs by lia.
    unfold send_size. destruct_or! Hcs; rewrite Hcs; by vm_compute. }
  set (n := send_size (me_cmd_dL e)) in *. set (afu1 := put_tlx_cmd _ _ <| _ := _ |>).
  assert (Hl1 : length (tlx_afu_cmd_data_bus afu1) = 256%nat) by exact Hl.
  destruct (memcpy_defined (tlx_afu_cmd_data_bus afu1) bus n) as [l Hm]; [lia|lia|].
  eexists. split; [exact (bind_eq _ _ _ _ Hm eq_refl)|]. split; [split; reflexivity|].
  apply memcpy_Some in Hm as (_ & _ & ->).
  constructor; [reflexivity|apply Z.mod_small; lia|].
  set (old := tlx_afu_cmd_data_bus afu1) in *. cbn.
  unfold overwrite. rewrite take_0, app_nil_l, take_app_le by (rewrite length_take; lia).
  by rewrite take_take, Nat.min_id.
Qed.

(** The head has been sent. *)
Record sent (w w' : world) (id : addr_t) (e : mmio_event) (afu : AFU_EVENT) : Prop := Sent {
  se_heap : heap w' = <[id := e <| me_state := OCSE_PENDING |>]> (heap w);
  se_queue : queue w' = queue w;
  se_event : w_event w' = afu;
  se_clients : w_clients w' = w_clients w;
  se_puts : w_puts w' = w_puts w;
  se_put_ok : w_put_ok w' = w_put_ok w;
}.

Lemma drive_head id e l w afu :
  queue w = id :: l -> heap w !! id = Some e -> me_state e = OCSE_IDLE ->
  drive_cmd (prepare e) (w_event w) = Some (TLX_SUCCESS, afu) ->
  runs drive_afu (fun _ w' => sent w w' id (prepare e) afu) w.
Proof.
  intros Hq He Hs Hd. unfold drive_afu. runs_next.
  assert (Hsend : runs send_mmio (fun _ w' => sent w w' id (prepare e) afu) w).
  { unfold send_mmio. apply runs_gets. unfold queue in Hq. rewrite Hq.
    apply (runs_get _ _ e); [done|]. rewrite Hs.
    change (negb (bool_decide (OCSE_IDLE = OCSE_IDLE))) with false. cbv iota.
    apply (runs_upd _ _ _ e); [done|]. set (e1 := prepare e) in *. set (w1 := put_mm id e1 w).
    assert (He1 : heap w1 !! id = Some e1) by (unfold w1; by rewrite heap_put, lookup_insert_eq).
    apply (runs_get _ _ e1); [done|]. apply (runs_send _ _ TLX_SUCCESS afu); [exact Hd|].
    change (TLX_SUCCESS =? TLX_SUCCESS) with true. cbn [when_].
    unfold runs, upd_mmio_event. rewrite (bind_done _ _ _ e1 (w1 <| w_event := afu |>)).
    2: { unfold get_mmio. rewrite bind_gets. unfold lift. unfold heap in He1. cbn in He1 |- *. by rewrite He1. }
    cbn. constructor; try done. unfold heap. cbn. by rewrite insert_insert_eq. }
  eapply runs_mono; [exact Hsend|]. intros [] w1 Hw1. apply runs_gets.
  pose proof (se_queue _ _ _ _ _ Hw1) as Hq1. unfold queue in *. rewrite Hq1, Hq. exact Hw1.
Qed.
