(* ===== verification/MmioProps.v ===== *)
(** Register accesses: what becomes of a client's read or write on its way to
    the AFU and back. *)
From stdpp Require Import gmap.
From S2P Require Import Prelude Utils Event TlxHost TlxAfu TlxApi Parms.
From S2P Require Import CmdState Cmd CmdHandlers CmdFrame CmdLogic CmdInv CmdSafe CmdSafeResp.
From S2P Require Import Mmio Ocl MmioInv OclInv CmdProps MmioRun.

(** * A register write *)

Lemma le_bytes_low n m v : take n (le_bytes (n + m) v) = le_bytes n v.
Proof.
  unfold le_bytes. rewrite Nat.add_comm, be_bytes_app, rev_app_distr.
  apply take_app_length'. by rewrite length_rev, length_be_bytes.
Qed.

Lemma reg_data_bytes dw v :
  take (reg_bytes dw) (le_bytes 8 (reg_data dw v)) = le_bytes (reg_bytes dw) v.
Proof.
  unfold reg_bytes, reg_data. destruct (dw =? 1); [exact (le_bytes_low 8 0 v)|].
  rewrite (le_bytes_low 4 4). unfold le_bytes. f_equal.
  rewrite <- (be_bytes_mod 4 _ 32), <- (be_bytes_mod 4 v 32) by lia. f_equal.
  rewrite <- !(Z.land_ones _ 32), Z.land_lor_distr_l by lia.
  rewrite (Z.land_ones (Z.shiftl v 32)), Z.shiftl_mul_pow2, Z.mod_mul by lia. done.
Qed.

(** The bytes [l] at offset [k] of [n] zeros. *)
Definition placed (n k : nat) (l : list Z) : list Z := overwrite (zeros n) k l.

Lemma placed_take n m k l :
  (k + length l <= m)%nat -> (m <= n)%nat -> take m (placed n k l) = placed m k l.
Proof.
  intros Hl Hm. unfold placed, overwrite, zeros. rewrite !take_replicate, !drop_replicate.
  rewrite !Nat.min_l by lia. rewrite (app_assoc (replicate k 0)).
  rewrite take_app_ge by (rewrite length_app, length_replicate; lia).
  rewrite take_replicate, length_app, length_replicate, <- app_assoc. do 3 f_equal. lia.
Qed.

(** The command that a register access becomes. *)
Definition reg_cmd (opcode tag dw PA : Z) : tlx_cmd :=
  TlxCmd opcode tag 0 (if dw =? 1 then 3 else 2) 0 0 PA.

Lemma land63_range PA : 0 <= Z.land PA 63 < 64.
Proof.
  rewrite (land_ones8 _ 6) by (done || lia). by apply Z.mod_pos_bound.
Qed.

Lemma reg_write_bus raw dw PA v :
  Z.land PA 63 + Z.of_nat (reg_bytes dw) <= 64 ->
  exists bus, write_bus (prepare (new_mmio_event raw 0 dw PA 0 (reg_data dw v))) = Some bus /\
    length bus = 256%nat /\
    take 64 bus = placed 64 (Z.to_nat (Z.land PA 63)) (le_bytes (reg_bytes dw) v).
Proof.
  intros Hp. pose proof (land63_range PA) as Hn.
  unfold write_bus, prepare, set_lengths, cmd_byte_cnt, event_bytes, PA_offset.
  cbn -[u16 reg_data le_bytes copy_at zeros]. unfold reg_bytes in *.
  pose proof (reg_data_bytes dw v) as Hd. unfold reg_bytes in Hd.
  assert (Hb : forall n, (n <= 8)%nat -> Z.land PA 63 + Z.of_nat n <= 64 ->
    take n (le_bytes 8 (reg_data dw v)) = le_bytes n v ->
    exists bus, copy_at (zeros 256) (Z.land PA 63) (le_bytes 8 (reg_data dw v)) (Z.of_nat n) = Some bus /\
    length bus = 256%nat /\ take 64 bus = placed 64 (Z.to_nat (Z.land PA 63)) (le_bytes n v)).
  { intros n Hn8 Hle Ht. assert (Hlen : length (le_bytes n v) = n) by (unfold le_bytes; by rewrite length_rev, length_be_bytes).
    rewrite copy_at_some; [|lia|lia|rewrite length_zeros; lia|].
    2: { unfold le_bytes. rewrite length_rev, length_be_bytes. lia. }
    rewrite Nat2Z.id, Ht. eexists. split; [reflexivity|]. split.
    - rewrite length_overwrite; rewrite length_zeros, ?Hlen; lia.
    - apply placed_take; rewrite ?Hlen; lia. }
  destruct (dw =? 1); [apply (Hb 8%nat)|apply (Hb 4%nat)]; done || lia.
Qed.

(** The head of the queue when it was empty before the access was added. *)
Lemma asked_head w w' i c e :
  asked w w' i c e -> queue w = [] ->
  queue w' = [mm_next (w_mmio w)] /\ heap w' !! mm_next (w_mmio w) = Some e.
Proof.
  intros Ha Hq. rewrite (ak_queue _ _ _ _ _ Ha), Hq, (ak_heap _ _ _ _ _ Ha).
  by rewrite lookup_insert_eq.
Qed.

(** A client's access that is served and driven to the AFU in one turn. *)
Lemma serve_and_drive fuel i c op msg s w e afu :
  ready w i c -> queued (op :: msg) s -> (1 <= fuel)%nat -> queue w = [] ->
  (forall s', queued msg s' ->
     exists s2, client_message fuel i op s' w = Done (Some (mm_next (w_mmio w)), s2) (add_mm e w)) ->
  me_state e = OCSE_IDLE -> drive_cmd (prepare e) (w_event w) = Some (TLX_SUCCESS, afu) ->
  runs (_handle_client fuel i s;; drive_afu) (fun _ w' => exists w1,
    asked w w1 i c e /\ sent w1 w' (mm_next (w_mmio w)) (prepare e) afu) w.
Proof.
  intros Hr Hq Hf Hnil Hmsg Hs Hd. apply runs_bind.
  apply (serve_access fuel i c op msg s w _ e Hr Hq Hf Hmsg). intros _ w1 Ha.
  destruct (asked_head _ _ _ _ _ Ha Hnil) as [Hq1 He1].
  pose proof (ak_event _ _ _ _ _ Ha) as Hev. rewrite <- Hev in Hd.
  eapply runs_mono; [exact (drive_head _ _ _ _ _ Hq1 He1 Hs Hd)|]. intros [] w' Hw'. by exists w1.
Qed.

Lemma sample_ready : ready (sample_world 128 [] sample_client) 0 sample_client.
Proof. by constructor. Qed.

(** * A register read *)

(** The AFU's event carries a response and one beat of data. *)
Record responds (afu : AFU_EVENT) (opcode code dl dp : Z) (bus : list Z) : Prop := Responds {
  rs_valid : truthy (afu_tlx_resp_valid afu) = true;
  rs_data : truthy (afu_tlx_rdata_valid afu) = true;
  rs_opcode : afu_tlx_resp_opcode afu = opcode;
  rs_code : afu_tlx_resp_code afu = code;
  rs_dl : afu_tlx_resp_dl afu = dl;
  rs_dp : afu_tlx_resp_dp afu = dp;
  rs_bus : afu_tlx_rdata_bus afu = bus;
  rs_len : length bus = 64%nat;
  rs_bytes : bytes bus;
}.

(** The access [id], at the head of the queue, has been sent for client [i]. *)
Record awaits (w : world) (i : nat) (fd : Z) (id : addr_t) (l : list addr_t) (e : mmio_event) : Prop := Awaits {
  aw_client : exists c, w_clients w !! i = Some (Some c) /\ cl_fd c = fd /\ cl_mmio_access c = Some id;
  aw_queue : queue w = id :: l;
  aw_heap : heap w !! id = Some e;
  aw_cfg : truthy (me_cfg e) = false;
  aw_state : me_state e = OCSE_PENDING;
  aw_put_ok : w_put_ok w = [];
}.

(** The access [id] is over: the client has [msg], and waits for nothing. *)
Record closed (w w' : world) (i : nat) (fd : Z) (id : addr_t) (l : list addr_t) (msg : list Z) : Prop := Closed {
  cs_puts : w_puts w' = w_puts w ++ [(fd, msg)];
  cs_queue : queue w' = l;
  cs_heap : heap w' = delete id (heap w);
  cs_client : exists c, w_clients w' !! i = Some (Some c) /\ cl_mmio_access c = None;
}.

(** The event as the response leaves it, and then the data. *)
Definition buffered (e : mmio_event) (opcode code dl dp : Z) : mmio_event :=
  e <| me_resp_code := code |> <| me_resp_opcode := opcode |> <| me_resp_dL := dl |>
    <| me_resp_dP := dp |> <| me_partial_index := 0 |> <| me_state := OCSE_BUFFER |>.

Definition take_any (e : mmio_event) (bus : list Z) : option mmio_event :=
  if me_size e =? 0 then take_mmio_data e bus
  else if me_size e <? 64 then take_small_data e bus
  else offset ← beat_offset e; take_beat e offset bus.

Lemma runs_take_data {A} Q e e' bus (k : mmio_event -> M A) w :
  take_any e bus = Some e' -> runs (k e') Q w -> runs (take_data e bus ≫= k) Q w.
Proof.
  intros Ht Hk. unfold runs in *. rewrite (bind_done _ _ w e' w); [done|].
  unfold take_data, take_any in *. unfold lift. destruct (me_size e =? 0); [by rewrite Ht|].
  destruct (me_size e <? 64); [by rewrite Ht|]. destruct (beat_offset e); [|done].
  cbn in Ht. by rewrite Ht.
Qed.

(** The event [id] becomes [e'], and the queue [q]; the rest, but for the AFU's
    event, stays. *)
Record moved (w w' : world) (id : addr_t) (e' : mmio_event) (q : list addr_t) : Prop := Moved {
  mv_heap : heap w' = <[id := e']> (heap w);
  mv_queue : queue w' = q;
  mv_clients : w_clients w' = w_clients w;
  mv_puts : w_puts w' = w_puts w;
  mv_put_ok : w_put_ok w' = w_put_ok w;
}.

Lemma moved_trans w w1 w2 id e1 e2 q1 q2 :
  moved w w1 id e1 q1 -> moved w1 w2 id e2 q2 -> moved w w2 id e2 q2.
Proof.
  intros [H1 _ H2 H3 H4] [H5 H6 H7 H8 H9].
  constructor; [by rewrite H5, H1, insert_insert_eq|done|congruence|congruence|congruence].
Qed.

Lemma moved_put w afu id e' : moved w (put_mm id e' (w <| w_event := afu |>)) id e' (queue w).
Proof. done. Qed.

Lemma ap_resp_run w i fd id l e opcode code dl dp bus :
  awaits w i fd id l e -> truthy (me_rnw e) = true -> responds (w_event w) opcode code dl dp bus ->
  _resp_dldp_is_legal (me_cmd_dL e) dl dp = 0 ->
  runs handle_ap_resp (fun _ w' => moved w w' id (buffered e opcode code dl dp) (id :: l) /\
    truthy (afu_tlx_rdata_valid (w_event w')) = true /\ afu_tlx_rdata_bus (w_event w') = bus) w.
Proof.
  intros [_ Hq Hh Hc Hs _] Hr [Hv Hd Hop Hcd Hdl Hdp Hbus Hlen Hby] Hleg.
  unfold handle_ap_resp. apply (runs_head _ id l); [done|]. apply (runs_get _ _ e); [done|].
  rewrite Hc. unfold handle_mem_resp.
  apply (runs_read _ _ (Some (get_afu_resp (w_event w)))
    (w_event w <| afu_tlx_resp_valid := 0 |> <| tlx_afu_resp_credit := 1 |> <| tlx_afu_credit_valid := 1 |>)).
  { unfold afu_tlx_read_resp. by rewrite Hv. }
  set (afu1 := w_event w <| afu_tlx_resp_valid := 0 |> <| tlx_afu_resp_credit := 1 |>
      <| tlx_afu_credit_valid := 1 |>).
  assert (Hafu : truthy (afu_tlx_rdata_valid afu1) = true /\ afu_tlx_rdata_bus afu1 = bus) by done.
  rewrite Hs. change (negb (bool_decide (OCSE_PENDING = OCSE_PENDING))) with false. cbv iota.
  clearbody afu1.
  unfold get_afu_resp. cbn [ar_dl ar_dp ar_code ar_opcode]. rewrite Hop, Hcd, Hdl, Hdp.
  apply (runs_upd _ _ _ e); [done|]. rewrite Hr, Hleg. change (0 =? 1) with false. cbv iota.
  set (e1 := e <| me_resp_code := _ |> <| me_resp_opcode := _ |>).
  set (w2 := put_mm id e1 (w <| w_event := afu1 |>)).
  assert (Hw2 : moved w w2 id e1 (id :: l)) by (rewrite <- Hq; apply moved_put).
  assert (Ha2 : w_event w2 = afu1) by done. clearbody w2.
  apply (runs_upd_last _ _ e1); [by rewrite (mv_heap _ _ _ _ _ Hw2), lookup_insert_eq|]. split; [|change (w_event (put_mm _ _ w2)) with (w_event w2); by rewrite Ha2].
  apply (moved_trans _ _ _ _ _ _ _ _ Hw2). rewrite <- (mv_queue _ _ _ _ _ Hw2). done.
Qed.

Lemma ap_resp_data_run w id l e bus e' :
  queue w = id :: l -> heap w !! id = Some e -> truthy (me_cfg e) = false -> truthy (me_rnw e) = true ->
  me_state e = OCSE_BUFFER ->
  truthy (afu_tlx_rdata_valid (w_event w)) = true -> afu_tlx_rdata_bus (w_event w) = bus ->
  take_any e bus = Some e' ->
  runs handle_ap_resp_data (fun _ w' => moved w w' id e' (if is_done e' then l else id :: l)) w.
Proof.
  intros Hq Hh Hc Hr Hs Hd Hbus Ht.
  unfold handle_ap_resp_data. apply (runs_head _ id l); [done|]. apply (runs_get _ _ e); [done|].
  rewrite Hc, Hr. cbn [negb orb].
  apply (runs_read _ _ (Some (bus, afu_tlx_rdata_bdi (w_event w)))
    (w_event w <| afu_tlx_rdata_valid := 0 |> <| tlx_afu_resp_data_credit := 1 |> <| tlx_afu_credit_valid := 1 |>)).
  { unfold afu_tlx_read_resp_data. by rewrite Hd, Hbus. }
  generalize (w_event w <| afu_tlx_rdata_valid := 0 |> <| tlx_afu_resp_data_credit := 1 |>
      <| tlx_afu_credit_valid := 1 |>). intros afu.
  rewrite Hs. change (negb (bool_decide (OCSE_BUFFER = OCSE_BUFFER))) with false. cbv iota.
  apply (runs_take_data _ _ e'); [exact Ht|]. apply runs_set.
  pose proof (moved_put w afu id e') as Hm. revert Hm. generalize (put_mm id e' (w <| w_event := afu |>)).
  intros w2 [H1 H2 H3 H4 H5]. rewrite Hq in H2. destruct (is_done e'); cbn [when_].
  - apply (runs_pop _ w2). constructor; [by rewrite heap_pop| |done..].
    unfold queue in *. cbn. by rewrite H2.
  - by apply runs_ret.
Qed.

Lemma read_handled w i fd id l e opcode code dl dp bus e' :
  awaits w i fd id l e -> truthy (me_rnw e) = true -> responds (w_event w) opcode code dl dp bus ->
  _resp_dldp_is_legal (me_cmd_dL e) dl dp = 0 ->
  take_any (buffered e opcode code dl dp) bus = Some e' ->
  runs handle_responses (fun _ w' => moved w w' id e' (if is_done e' then l else id :: l)) w.
Proof.
  intros Haw Hr Ha Hleg Ht. unfold handle_responses. apply runs_gets.
  pose proof (aw_queue _ _ _ _ _ _ Haw) as Hq. unfold queue in Hq. rewrite Hq. runs_next.
  eapply runs_mono; [exact (ap_resp_run _ _ _ _ _ _ _ _ _ _ _ Haw Hr Ha Hleg)|].
  intros [] w1 (Hm & Ha1 & Ha2). pose proof (aw_cfg _ _ _ _ _ _ Haw) as Hcfg.
  eapply runs_mono.
  - eapply (ap_resp_data_run w1 id l (buffered e opcode code dl dp)); [exact (mv_queue _ _ _ _ _ Hm)
      | |exact Hcfg|exact Hr|reflexivity|exact Ha1|exact Ha2|exact Ht].
    by rewrite (mv_heap _ _ _ _ _ Hm), lookup_insert_eq.
  - intros [] w2. by apply moved_trans with (1 := Hm).
Qed.

(** Once the access is done, the client is told. *)
Lemma access_finished w i fd id e data :
  (exists c, w_clients w !! i = Some (Some c) /\ cl_fd c = fd /\ cl_mmio_access c = Some id) ->
  heap w !! id = Some e -> is_done e = true -> returned_data e = Some data -> w_put_ok w = [] ->
  runs (finish_access i) (fun _ w' => closed w w' i fd id (queue w) (me_ack e :: me_resp_code e :: data)) w.
Proof.
  intros (c & Hc & <- & Hac) Hh Hd Hdata Hp. unfold finish_access.
  apply (runs_client _ _ c); [done|]. rewrite Hac. unfold refresh_client, upd_client. apply runs_modify.
  set (c1 := c <| cl_idle_cycles := TLX_IDLE_CYCLES |>). set (w1 := w <| w_clients := _ |>).
  assert (Hc1 : w_clients w1 !! i = Some (Some c1)).
  { cbn. by rewrite list_lookup_alter_eq, Hc. }
  runs_next. unfold handle_mmio_done. apply (runs_client _ _ c1); [done|].
  change (cl_mmio_access c1) with (cl_mmio_access c). rewrite Hac.
  apply (runs_get _ _ e); [done|]. rewrite Hd. cbn [negb]. apply (runs_lift _ _ data); [done|].
  apply runs_answer; [done|]. unfold free_mmio, upd_mmio. apply runs_modify. apply runs_ret.
  unfold set_mmio_access, runs, modify. set (fm := fun c : client => c <| cl_mmio_access := None |>).
  constructor; [done|done|done|]. exists (fm c1). split; [|done].
  cbn [w_clients set_fld]. cbn -[w1]. rewrite list_lookup_alter_eq. cbn in Hc1 |- *. by rewrite Hc1.
Qed.

(** A read that has been driven, once its client has asked for it. *)
Lemma driven_awaits w w1 w2 i c e e' afu afu' :
  asked w w1 i c e -> queue w = [] -> sent w1 w2 (mm_next (w_mmio w)) e' afu ->
  truthy (me_cfg e') = false -> w_put_ok w = [] ->
  awaits (w2 <| w_event := afu' |>) i (cl_fd c) (mm_next (w_mmio w)) [] (e' <| me_state := OCSE_PENDING |>).
Proof.
  intros Ha Hnil Hs Hc Hp. pose proof (asked_head _ _ _ _ _ Ha Hnil) as [Hq1 _].
  constructor; cbn.
  - rewrite (se_clients _ _ _ _ _ Hs). exact (ak_client _ _ _ _ _ Ha).
  - change (queue w2 = [mm_next (w_mmio w)]). by rewrite (se_queue _ _ _ _ _ Hs).
  - change (heap w2 !! mm_next (w_mmio w) = Some (e' <| me_state := OCSE_PENDING |>)).
    by rewrite (se_heap _ _ _ _ _ Hs), lookup_insert_eq.
  - exact Hc.
  - done.
  - by rewrite (se_put_ok _ _ _ _ _ Hs), (ak_put_ok _ _ _ _ _ Ha).
Qed.

(** What the AFU's answer leaves of the client's read. *)
Lemma answered_and_finished w i fd id l e opcode code dl dp bus e' data :
  awaits w i fd id l e -> truthy (me_rnw e) = true -> responds (w_event w) opcode code dl dp bus ->
  _resp_dldp_is_legal (me_cmd_dL e) dl dp = 0 ->
  take_any (buffered e opcode code dl dp) bus = Some e' -> is_done e' = true ->
  returned_data e' = Some data ->
  runs (handle_responses;; finish_access i)
    (fun _ w' => closed w w' i fd id l (me_ack e' :: me_resp_code e' :: data)) w.
Proof.
  intros Haw Hr Ha Hleg Ht Hd Hdata. runs_next.
  eapply runs_mono; [exact (read_handled _ _ _ _ _ _ _ _ _ _ _ _ Haw Hr Ha Hleg Ht)|].
  intros [] w1 Hm. rewrite Hd in Hm. destruct Hm as [H1 H2 H3 H4 H5].
  eapply runs_mono.
  - apply (access_finished w1 i fd id e' data); [rewrite H3; exact (aw_client _ _ _ _ _ _ Haw)| |done|done|].
    + by rewrite H1, lookup_insert_eq.
    + by rewrite H5, (aw_put_ok _ _ _ _ _ _ Haw).
  - intros [] w' [Hp Hq Hh Hc]. constructor; [by rewrite Hp, H4|by rewrite Hq| |done].
    by rewrite Hh, H1, delete_insert_eq.
Qed.

(** The first bytes of an integer in memory, most significant first. *)
Lemma be_bytes_le_prefix d t :
  bytes d -> bytes t -> be_bytes (length d) (le_val (d ++ t)) = rev d.
Proof.
  intros Hd Ht. unfold le_val. rewrite rev_app_distr.
  assert (H : be_bytes (length t + length d) (be_val (rev t ++ rev d)) = rev t ++ rev d).
  { rewrite <- (be_bytes_val (rev t ++ rev d)) at 2 by (apply Forall_app; split; by apply Forall_rev).
    by rewrite length_app, !length_rev. }
  rewrite be_bytes_app in H. apply app_inj_2 in H as [_ H]; [done|]. by rewrite length_be_bytes, length_rev.
Qed.

(** No failure is reported. *)
Lemma not_failed opcode code :
  (opcode = 2 \/ opcode = 4 -> code = 0) -> ((opcode =? 2) || (opcode =? 4)) && truthy code = false.
Proof.
  intros Hop. destruct (Z.eqb_spec opcode 2) as [->|]; [rewrite Hop by auto; done|].
  destruct (Z.eqb_spec opcode 4) as [->|]; [rewrite Hop by auto; done|]. done.
Qed.

Lemma reg_read_data raw dw PA opcode code bus :
  dw = 0 \/ dw = 1 -> length bus = 64%nat -> bytes bus ->
  Z.land PA 63 + Z.of_nat (reg_bytes dw) <= 64 -> (opcode = 2 \/ opcode = 4 -> code = 0) ->
  let e := buffered (prepare (new_mmio_event raw 1 dw PA 0 0) <| me_state := OCSE_PENDING |>)
             opcode code 1 0 in
  exists e', take_any e bus = Some e' /\ is_done e' = true /\ me_ack e' = OCSE_MMIO_ACK /\
    me_resp_code e' = code /\
    returned_data e' = Some (rev (take (reg_bytes dw) (drop (Z.to_nat (Z.land PA 63)) bus))).
Proof.
  intros Hdw Hl Hb Hp Hop e. pose proof (land63_range PA) as Hn.
  set (n := reg_bytes dw) in *. set (d := take n (drop (Z.to_nat (Z.land PA 63)) bus)).
  assert (Hn8 : (n <= 8)%nat) by (unfold n, reg_bytes; destruct (dw =? 1); lia).
  assert (Hd : length d = n) by (unfold d; rewrite length_take, length_drop; lia).
  assert (Hdb : bytes d) by (by apply Forall_take, Forall_drop).
  assert (Hsl : slice bus (PA_offset e) (Z.of_nat n) = Some d).
  { change (PA_offset e) with (Z.land PA 63). rewrite slice_some by lia. by rewrite Nat2Z.id. }
  unfold take_any, take_mmio_data. change (me_size e =? 0) with true. cbv iota.
  change (me_cmd_pL e =? 2) with ((if dw =? 1 then 3 else 2) =? 2). cbv zeta.
  replace (if (if dw =? 1 then 3 else 2) =? 2 then 4 else 8) with (Z.of_nat n)
    by (unfold n, reg_bytes; by destruct (dw =? 1)).
  rewrite Hsl. cbn [mbind option_bind]. eexists. split; [reflexivity|].
  split; [reflexivity|]. split; [reflexivity|]. split; [reflexivity|].
  unfold returned_data, access_failed.
  change (me_resp_opcode _) with opcode. change (me_resp_code _) with code. cbn -[le_val overwrite le_bytes htonl htonll u32].
  rewrite (not_failed _ _ Hop). cbn [orb negb]. f_equal. 
  assert (Hov : overwrite (le_bytes 8 0) 0 d = d ++ drop n (zeros 8)).
  { unfold overwrite. rewrite take_0, Hd. done. }
  change (me_cmd_data e) with 0. rewrite Hov. 
  assert (Hbt : bytes (drop n (zeros 8))) by auto with ocse.
  pose proof (be_bytes_le_prefix d _ Hdb Hbt) as Hbe. rewrite Hd in Hbe.
  generalize dependent (le_val (d ++ drop n (zeros 8))). intros x Hx.
  unfold n, reg_bytes in Hx. destruct Hdw as [-> | ->]; cbn -[le_val le_bytes htonl htonll u32 be_bytes] in *.
  - rewrite htonl_u32. unfold htonl. by rewrite le_bytes_le_val, Hx.
  - by rewrite htonll_eq, le_bytes_le_val, Hx.
Qed.

(** The AFU's response to a write ends it; the client is told its code. *)
Lemma write_answered w i fd id l e code :
  awaits w i fd id l e -> truthy (me_rnw e) = false ->
  truthy (afu_tlx_resp_valid (w_event w)) = true -> afu_tlx_resp_code (w_event w) = code ->
  runs (handle_responses;; finish_access i)
    (fun _ w' => closed w w' i fd id l [me_ack e; code]) w.
Proof.
  intros [Hcl Hq Hh Hc Hs Hp] Hr Hv Hcode. set (op := afu_tlx_resp_opcode (w_event w)).
  set (e1 := e <| me_resp_code := code |> <| me_resp_opcode := op |> <| me_state := OCSE_DONE |>).
  assert (Hresp : runs handle_ap_resp (fun _ w' => moved w w' id e1 (id :: l)) w).
  { unfold handle_ap_resp. apply (runs_head _ id l); [done|]. apply (runs_get _ _ e); [done|].
    rewrite Hc. unfold handle_mem_resp.
    apply (runs_read _ _ (Some (get_afu_resp (w_event w)))
      (w_event w <| afu_tlx_resp_valid := 0 |> <| tlx_afu_resp_credit := 1 |> <| tlx_afu_credit_valid := 1 |>)).
    { unfold afu_tlx_read_resp. by rewrite Hv. }
    generalize (w_event w <| afu_tlx_resp_valid := 0 |> <| tlx_afu_resp_credit := 1 |>
      <| tlx_afu_credit_valid := 1 |>). intros afu1.
    rewrite Hs. change (negb (bool_decide (OCSE_PENDING = OCSE_PENDING))) with false. cbv iota.
    unfold get_afu_resp. cbn [ar_code ar_opcode]. rewrite Hcode.
    apply (runs_upd _ _ _ e); [done|]. rewrite Hr. fold op.
    set (e2 := e <| me_resp_code := code |> <| me_resp_opcode := op |>).
    pose proof (moved_put w afu1 id e2) as Hm. revert Hm. generalize (put_mm id e2 (w <| w_event := afu1 |>)).
    intros w2 Hm. apply (runs_upd_last _ _ e2); [by rewrite (mv_heap _ _ _ _ _ Hm), lookup_insert_eq|].
    apply (moved_trans _ _ _ _ _ _ _ _ Hm). rewrite <- Hq, <- (mv_queue _ _ _ _ _ Hm). done. }
  runs_next. unfold handle_responses. apply runs_gets. unfold queue in Hq. rewrite Hq. runs_next.
  eapply runs_mono; [exact Hresp|]. intros [] w1 [H1 H2 H3 H4 H5].
  unfold handle_ap_resp_data. apply (runs_head _ id l); [done|].
  apply (runs_get _ _ e1); [by rewrite H1, lookup_insert_eq|].
  change (truthy (me_cfg e1) || negb (truthy (me_rnw e1))) with (truthy (me_cfg e) || negb (truthy (me_rnw e))).
  rewrite Hr, orb_true_r. change (is_done e1) with true. cbn [when_]. apply runs_pop.
  eapply runs_mono.
  - apply (access_finished (pop_mm w1) i fd id e1 []); [by rewrite <- H3 in Hcl| |done| |].
    + by rewrite heap_pop, H1, lookup_insert_eq.
    + unfold returned_data. change (me_rnw e1) with (me_rnw e). by rewrite Hr, orb_true_r.
    + change (w_put_ok (pop_mm w1)) with (w_put_ok w1). by rewrite H5.
  - intros [] w' [K1 K2 K3 K4]. constructor; [by rewrite K1; change (w_puts (pop_mm w1)) with (w_puts w1); rewrite H4| | |done].
    + rewrite K2. unfold queue in *. cbn. by rewrite H2.
    + by rewrite K3, heap_pop, H1, delete_insert_eq.
Qed.

(** Of a register write that a client sends, in the same turn of the loop the AFU
    finds the write command at the register's physical address, and the value's
    bytes at that address among 64 zeros. *)
Lemma register_write_driven fuel i c op dw global offset v PA s w :
  ready w i c -> register_op op = Some (0, dw, global) -> (1 <= fuel)%nat ->
  queued (op :: be_bytes 4 offset ++ be_bytes (reg_bytes dw) v) s ->
  is_u 32 offset -> is_u (8 * Z.of_nat (reg_bytes dw)) v ->
  mmio_PA (w_mmio w) c global offset = Some PA -> Z.land PA 63 + Z.of_nat (reg_bytes dw) <= 64 ->
  queue w = [] -> afu_free (w_event w) -> w_put_ok w = [] ->
  runs (_handle_client fuel i s;; drive_afu) (fun _ w1 =>
    command_at (w_event w1) (reg_cmd TLX_CMD_PR_WR_MEM PR_WR_TAG dw PA) /\
    data_at (w_event w1) 64 (placed 64 (Z.to_nat (Z.land PA 63)) (le_bytes (reg_bytes dw) v)) /\
    forall afu code, truthy (afu_tlx_resp_valid afu) = true -> afu_tlx_resp_code afu = code ->
    runs (handle_responses;; finish_access i)
      (fun _ w2 => closed w1 w2 i (cl_fd c) (mm_next (w_mmio w)) [] [OCSE_MMIO_ACK; code])
      (w1 <| w_event := afu |>)) w.
Proof.
  intros Hr Hop Hf Hq Ho Hv HPA Hal Hnil Hfree Hput. pose proof (register_message fuel i op _ _ _ s Hop) as [_ Hdw].
  set (e := new_mmio_event (mm_raw (w_mmio w) (mm_next (w_mmio w))) 0 dw PA 0 (reg_data dw v)).
  destruct (reg_write_bus (mm_raw (w_mmio w) (mm_next (w_mmio w))) dw PA v Hal) as (bus & Hb & Hbl & Hbus).
  fold e in Hb. destruct (drive_write (prepare e) (w_event w) bus) as (afu & Hd & Hcmd & Hdata); try done.
  eapply runs_mono; [apply (serve_and_drive fuel i c op _ s w e afu Hr Hq Hf Hnil); [|done|done]|].
  - intros s' Hs'. by apply (write_message fuel i c op dw global offset v PA s' w).
  - intros [] w1 (w0 & Ha & Hs). rewrite (se_event _ _ _ _ _ Hs). split_and!.
    + destruct Hcmd as [? Hcmd]. split; [done|]. rewrite Hcmd. destruct Hdw as [-> | ->]; reflexivity.
    + destruct Hdata as [H1 H2 H3]. constructor; [done|exact H2|].
      rewrite <- Hbus. change (send_size (me_cmd_dL (prepare e))) with 64 in H3.
      rewrite take_take. exact H3.
    + intros afu' code Hv' Hcode. eapply runs_mono.
      * apply (write_answered _ i (cl_fd c) (mm_next (w_mmio w)) [] (prepare e <| me_state := OCSE_PENDING |>) code);
          [by apply (driven_awaits w w0 w1 i c e _ afu)|done|done|done].
      * intros [] w2 [H1 H2 H3 H4]. by constructor.
Qed.

(** Of a register read that a client sends, the AFU finds the read command at
    the register's physical address; and whatever answer without an error the AFU
    gives to it, the client gets the acknowledgement and the bytes at the
    register's place in the 64 the AFU sent, most significant first.  The event
    is freed, the queue is empty again and the client can ask anew. *)
Lemma register_read_answered fuel i c op dw global offset PA s w :
  ready w i c -> register_op op = Some (1, dw, global) -> (1 <= fuel)%nat ->
  queued (op :: be_bytes 4 offset) s -> is_u 32 offset ->
  mmio_PA (w_mmio w) c global offset = Some PA -> Z.land PA 63 + Z.of_nat (reg_bytes dw) <= 64 ->
  queue w = [] -> afu_free (w_event w) -> w_put_ok w = [] ->
  runs (_handle_client fuel i s;; drive_afu) (fun _ w1 =>
    command_at (w_event w1) (reg_cmd TLX_CMD_PR_RD_MEM PR_RD_TAG dw PA) /\
    forall afu opcode code bus, responds afu opcode code 1 0 bus -> (opcode = 2 \/ opcode = 4 -> code = 0) ->
    runs (handle_responses;; finish_access i)
      (fun _ w2 => closed w1 w2 i (cl_fd c) (mm_next (w_mmio w)) []
         (OCSE_MMIO_ACK :: code :: rev (take (reg_bytes dw) (drop (Z.to_nat (Z.land PA 63)) bus))))
      (w1 <| w_event := afu |>)) w.
Proof.
  intros Hr Hop Hf Hq Ho HPA Hal Hnil Hfree Hput.
  pose proof (register_message fuel i op _ _ _ s Hop) as [_ Hdw].
  set (raw := mm_raw (w_mmio w) (mm_next (w_mmio w))). set (e := new_mmio_event raw 1 dw PA 0 0).
  destruct (drive_read (prepare e) (w_event w)) as (afu & Hd & Hcmd); [done..|].
  eapply runs_mono; [apply (serve_and_drive fuel i c op _ s w e afu Hr Hq Hf Hnil); [|done|done]|].
  { intros s' Hs'. by apply (read_message fuel i c op dw global offset PA s' w). }
  intros [] w1 (w0 & Ha & Hs). split.
  - rewrite (se_event _ _ _ _ _ Hs). destruct Hcmd as [? Hcmd]. split; [done|]. rewrite Hcmd.
    destruct Hdw as [-> | ->]; reflexivity.
  - intros afu' opcode code bus Hresp Hcode.
    destruct (reg_read_data raw dw PA opcode code bus) as (e' & Ht & Hdone & Hack & Hrc & Hdata);
      [done|by destruct Hresp|by destruct Hresp|done|done|].
    eapply runs_mono.
    + eapply (answered_and_finished _ i _ _ _ (prepare e <| me_state := OCSE_PENDING |>) opcode code 1 0 bus e');
        [by apply (driven_awaits w w0 w1 i c e _ afu)|done|exact Hresp|done|exact Ht|done|exact Hdata].
    + intros [] w2. rewrite Hack, Hrc. intros [H1 H2 H3 H4]. by constructor.
Qed.

(** The AFU answers with the bytes 0, 1, ... 63. *)
Definition sample_bus : list Z := map Z.of_nat (seq 0 64).
Definition sample_answer (dl : Z) : AFU_EVENT :=
  tlx_event_reset event_zero <| afu_tlx_resp_valid := 1 |> <| afu_tlx_rdata_valid := 1 |>
    <| afu_tlx_resp_opcode := 1 |> <| afu_tlx_resp_dl := dl |> <| afu_tlx_rdata_bus := sample_bus |>.

Lemma sample_responds dl : responds (sample_answer dl) 1 0 dl 0 sample_bus.
Proof. constructor; try done. unfold sample_bus. cbn [seq map]. repeat (constructor; [by split; vm_compute|]). constructor. Qed.
