(* ===== verification/LpcProps.v ===== *)
(** Accesses to the AFU's memory: the command and the data a write becomes, and
    how a read of several beats is put together. *)
From stdpp Require Import gmap.
From S2P Require Import Prelude Utils Event TlxHost TlxAfu TlxApi Parms.
From S2P Require Import CmdState Cmd CmdHandlers CmdFrame CmdLogic CmdInv CmdSafe CmdSafeResp.
From S2P Require Import Mmio Ocl MmioInv OclInv CmdProps MmioRun MmioProps.

(** * Memory *)

Lemma overwrite_whole (buf l : list Z) : length buf = length l -> overwrite buf 0 l = l.
Proof. intros H. unfold overwrite. rewrite take_0, drop_ge by lia. by rewrite app_nil_r. Qed.

Lemma add_mem_run c rnw size addr data be_valid be w :
  _add_mem c rnw size 0 addr data be_valid be w =
  Done (mm_next (w_mmio w))
    (add_mm (new_mem_event (mm_raw (w_mmio w) (mm_next (w_mmio w))) rnw size addr data be_valid be) w).
Proof. done. Qed.

(** The event of a write to memory. *)
Definition mem_write_event (w : world) (offset : Z) (data : list Z) (be_valid be : Z) : mmio_event :=
  new_mem_event (mm_raw (w_mmio w) (mm_next (w_mmio w))) 0 (Z.of_nat (length data)) offset data be_valid be.

Lemma i32_small x : 0 <= x < 2 ^ 31 -> i32 x = x.
Proof. intros. unfold i32. rewrite Z.mod_small by lia. lia. Qed.

Lemma store_run fuel i c size data offset be_valid be s w :
  cl_abort c = 0 -> queued data s -> size = Z.of_nat (length data) -> 0 < size < 2 ^ 31 -> (1 <= fuel)%nat ->
  exists s2, (data ← malloc_bytes size;
    receive fuel i c (i32 size) s (fun got s =>
    id ← _add_mem c 0 size 0 offset (overwrite data 0 got) be_valid be;
    mret (Some id, s))) w =
    Done (Some (mm_next (w_mmio w)), s2) (add_mm (mem_write_event w offset data be_valid be) w).
Proof.
  intros Hab Hq Hs Hr Hf. unfold malloc_bytes. 
  set (buf := map (mm_junk (w_mmio w) (mm_next (w_mmio w))) (seq 0 (Z.to_nat size))).
  rewrite (bind_done _ _ w buf w) by done.
  assert (Hbl : length buf = length data) by (unfold buf; rewrite length_map, length_seq; lia).
  rewrite i32_small by lia.
  assert (Hq2 : queued (data ++ []) s) by (by rewrite app_nil_r).
  destruct (receive_queued fuel i c size (fun got s =>
    id ← _add_mem c 0 size 0 offset (overwrite buf 0 got) be_valid be;
    mret (Some id, s)) data [] s) as (s2 & -> & _); [done|done|done|lia|done|].
  rewrite overwrite_whole, Hs by done.
  rewrite (bind_done _ _ _ _ _ (add_mem_run c 0 _ offset data be_valid be w)). by exists s2.
Qed.

Lemma mem_write_message fuel i c offset data s w :
  ready w i c -> (1 <= fuel)%nat -> is_u 32 offset -> 0 < Z.of_nat (length data) < 2 ^ 31 ->
  queued (be_bytes 4 offset ++ be_bytes 4 (Z.of_nat (length data)) ++ data) s ->
  exists s2, client_message fuel i OCSE_LPC_WRITE s w = Done (Some (mm_next (w_mmio w)), s2)
    (add_mm (mem_write_event w offset data 0 0) w).
Proof.
  intros [Hc Hv Hab _] Hf Ho Hl Hq. rewrite (memory_message fuel i OCSE_LPC_WRITE 0 0 s eq_refl).
  unfold handle_mem. rewrite (bind_done _ _ _ _ _ (the_client_here i c w Hc)), Hv.
  change (negb (bool_decide (CLIENT_VALID = CLIENT_VALID))) with false. change (truthy 0) with false. cbv iota.
  unfold _handle_mem_write. rewrite (bind_done _ _ _ _ _ (the_client_here i c w Hc)).
  edestruct (receive_queued fuel i c 4) as (s1 & Hrc & Hq1); [done|exact Hq|done..|].
  rewrite Hrc. clear Hrc. cbv zeta. change (0 =? 0) with true. cbv iota. rewrite ntohl_be by done.
  edestruct (receive_queued fuel i c 4) as (s2 & Hrc & Hq2); [done|exact Hq1|done..|].
  rewrite Hrc. clear Hrc. rewrite ntohl_be by (unfold is_u; lia).
  by apply (store_run fuel i c).
Qed.

Lemma mem_write_be_message fuel i c offset be data s w :
  ready w i c -> (1 <= fuel)%nat -> is_u 32 offset -> length data = 64%nat ->
  queued (be_bytes 4 offset ++ be_bytes 8 be ++ data) s ->
  exists s2, client_message fuel i OCSE_LPC_WRITE_BE s w = Done (Some (mm_next (w_mmio w)), s2)
    (add_mm (mem_write_event w offset data 1 (u32 (Z.shiftr be 32))) w).
Proof.
  intros [Hc Hv Hab _] Hf Ho Hl Hq. rewrite (memory_message fuel i OCSE_LPC_WRITE_BE 0 1 s eq_refl).
  unfold handle_mem. rewrite (bind_done _ _ _ _ _ (the_client_here i c w Hc)), Hv.
  change (negb (bool_decide (CLIENT_VALID = CLIENT_VALID))) with false. change (truthy 0) with false. cbv iota.
  unfold _handle_mem_write. rewrite (bind_done _ _ _ _ _ (the_client_here i c w Hc)).
  edestruct (receive_queued fuel i c 4) as (s1 & Hrc & Hq1); [done|exact Hq|done..|].
  rewrite Hrc. clear Hrc. cbv zeta. change (1 =? 0) with false. cbv iota. rewrite ntohl_be by done.
  edestruct (receive_queued fuel i c 8) as (s2 & Hrc & Hq2); [done|exact Hq1|done..|].
  rewrite Hrc. clear Hrc. 
  assert (Hbe : ntohl (u32 (le_val (be_bytes 8 be))) = u32 (Z.shiftr be 32)).
  { unfold ntohl. rewrite htonl_u32. rewrite (be_bytes_app 4 4). change (8 * Z.of_nat 4) with 32.
    unfold htonl.
    pose proof (be_bytes_le_prefix (be_bytes 4 (Z.shiftr be 32)) (be_bytes 4 be)
      (be_bytes_bytes _ _) (be_bytes_bytes _ _)) as H. rewrite length_be_bytes in H. rewrite H.
    unfold le_val. rewrite rev_involutive, be_val_bytes. done. }
  rewrite Hbe. apply (store_run fuel i c); [done|done|by rewrite Hl|lia|done].
Qed.

(** The command a write of [size] bytes becomes, and the bytes that go with it. *)
Definition lpc_write_cmd (size addr be_valid be : Z) : tlx_cmd :=
  if size <? 64 then TlxCmd TLX_CMD_PR_WR_MEM PR_WR_TAG 0 (mem_pL size) 0 0 addr
  else if be_valid =? 0 then TlxCmd TLX_CMD_WRITE_MEM WR_TAG (mem_dL size) 0 0 0 addr
  else TlxCmd TLX_CMD_WRITE_MEM_BE WR_BE_TAG (mem_dL size) 0 be 0 addr.

Definition lpc_beats (addr : Z) (data : list Z) : list Z :=
  if Z.of_nat (length data) <? 64 then placed 64 (Z.to_nat (Z.land addr 63)) data else data.

(** A size the link has a code for, and a small piece within its 64 bytes. *)
Definition lpc_legal (size addr : Z) : Prop :=
  size ∈ mem_sizes /\ (size < 64 -> Z.land addr 63 + size <= 64).

Lemma mem_size_split size : size ∈ mem_sizes ->
  size = 1 \/ size = 2 \/ size = 4 \/ size = 8 \/ size = 16 \/ size = 32 \/ size = 64 \/ size = 128 \/ size = 256.
Proof. unfold mem_sizes. rewrite !elem_of_cons. pose proof (not_elem_of_nil size). tauto. Qed.

Lemma copied_in k (l : list Z) n :
  n = Z.of_nat (length l) -> 0 <= k -> k + n <= 256 ->
  copy_at (zeros 256) k l n = Some (placed 256 (Z.to_nat k) l) /\ length (placed 256 (Z.to_nat k) l) = 256%nat.
Proof.
  intros -> Hk Hn. split.
  - rewrite copy_at_some by (rewrite ?length_zeros; lia). by rewrite Nat2Z.id, take_ge by lia.
  - unfold placed. rewrite length_overwrite; rewrite length_zeros; [done|lia].
Qed.

Lemma placed_0 n l : length l = n -> placed n 0 l = l.
Proof. intros <-. apply overwrite_whole. apply length_zeros. Qed.

Lemma mem_write_ready w offset data bv be :
  lpc_legal (Z.of_nat (length data)) offset ->
  let e := prepare (mem_write_event w offset data bv be) in
  write_cmd e = lpc_write_cmd (Z.of_nat (length data)) offset bv be /\
  0 <= me_cmd_dL e <= 3 /\ send_size (me_cmd_dL e) = Z.max 64 (Z.of_nat (length data)) /\
  exists bus, write_bus e = Some bus /\ length bus = 256%nat /\
    take (Z.to_nat (Z.max 64 (Z.of_nat (length data)))) bus = lpc_beats offset data.
Proof.
  intros [Hs Hp]. pose proof (land63_range offset) as Hn. unfold lpc_beats.
  unfold mem_write_event. set (n := Z.of_nat (length data)) in *.
  set (e0 := new_mem_event _ _ _ _ _ _ _).
  assert (He : prepare e0 = e0 <| me_ack := OCSE_LPC_ACK |> <| me_cmd_pL := mem_pL n |>
    <| me_cmd_dL := mem_dL n |> <| me_cmd_dP := 0 |>).
  { unfold prepare, set_lengths. change (truthy (me_cfg e0)) with false. change (me_size e0) with n. cbv iota.
    destruct (Z.eqb_spec n 0) as [E|]; [|done]. rewrite E in Hs. pose proof (mem_size_split _ Hs). lia. }
  rewrite He. set (e := e0 <| _ := _ |> <| _ := _ |> <| _ := _ |> <| _ := _ |>). cbv zeta.
  assert (Hcnt : cmd_byte_cnt e = n).
  { unfold cmd_byte_cnt. change (me_size e) with n. pose proof (mem_size_split _ Hs) as Hc.
    destruct (Z.eqb_spec n 0); [lia|]. unfold u16. apply Z.mod_small. lia. }
  assert (Hbytes : event_bytes e = data).
  { unfold event_bytes. change (me_size e) with n. pose proof (mem_size_split _ Hs) as Hc.
    destruct (Z.eqb_spec n 0); [lia|]. done. }
  split; [|split; [|split]].
  - unfold write_cmd, mem_cmd, lpc_write_cmd. rewrite Hcnt. change (me_cmd_dL e) with (mem_dL n).
    change (me_cmd_pL e) with (mem_pL n). change (me_be_valid e) with bv. change (me_be e) with be.
    change (me_cmd_PA e) with offset.
    pose proof (mem_size_split _ Hs) as Hc; destruct_or! Hc; rewrite Hc; done.
  - change (me_cmd_dL e) with (mem_dL n). pose proof (mem_size_split _ Hs) as Hc; destruct_or! Hc; rewrite Hc; by vm_compute.
  - change (me_cmd_dL e) with (mem_dL n). pose proof (mem_size_split _ Hs) as Hc; destruct_or! Hc; rewrite Hc; by vm_compute.
  - unfold write_bus. rewrite Hcnt, Hbytes. change (PA_offset e) with (Z.land offset 63).
    pose proof (mem_size_split _ Hs) as Hc. destruct (Z.ltb_spec n 64) as [Hlt|Hge].
    + specialize (Hp Hlt). destruct (copied_in (Z.land offset 63) data n) as [-> ?]; [done|lia|lia|].
      eexists. split; [done|]. split; [done|]. rewrite Z.max_l by lia. apply placed_take; lia.
    + destruct (copied_in 0 data n) as [-> ?]; [done|lia|lia|]. eexists. split; [done|]. split; [done|].
      rewrite Z.max_r by lia. unfold n. rewrite Nat2Z.id. change (Z.to_nat 0) with 0%nat.
      rewrite placed_take by lia. by apply placed_0.
Qed.

Lemma lpc_write_drives fuel i c op msg offset data bv be s w :
  ready w i c -> (1 <= fuel)%nat -> queued (op :: msg) s ->
  lpc_legal (Z.of_nat (length data)) offset -> queue w = [] -> afu_free (w_event w) ->
  (forall s', queued msg s' -> exists s2, client_message fuel i op s' w =
     Done (Some (mm_next (w_mmio w)), s2) (add_mm (mem_write_event w offset data bv be) w)) ->
  runs (_handle_client fuel i s;; drive_afu) (fun _ w' =>
    command_at (w_event w') (lpc_write_cmd (Z.of_nat (length data)) offset bv be) /\
    data_at (w_event w') (Z.max 64 (Z.of_nat (length data))) (lpc_beats offset data)) w.
Proof.
  intros Hr Hf Hq Hl Hnil Hfree Hmsg.
  destruct (mem_write_ready w offset data bv be Hl) as (Hcmd & HdL & Hsz & bus & Hb & Hbl & Hbus).
  set (e := mem_write_event w offset data bv be) in *.
  assert (Hcfg : truthy (me_cfg (prepare e)) = false /\ truthy (me_rnw (prepare e)) = false).
  { unfold prepare, set_lengths. change (truthy (me_cfg e)) with false. cbv iota.
    by destruct (me_size e =? 0). }
  destruct (drive_write (prepare e) (w_event w) bus) as (afu & Hd & Hc & Hdata); try done; [apply Hcfg..|].
  eapply runs_mono; [apply (serve_and_drive fuel i c op msg s w e afu Hr Hq Hf Hnil Hmsg eq_refl Hd)|].
  intros [] w' (w1 & _ & Hs). rewrite (se_event _ _ _ _ _ Hs), <- Hcmd. split; [done|].
  destruct Hdata as [H1 H2 H3]. rewrite Hsz in *. constructor; [done|done|].
  by rewrite H3, <- Hbus, take_take, Nat.min_id.
Qed.

(** A write to memory of any size the link knows reaches the AFU in the same
    turn: the partial write command with the bytes at their place among 64, or
    the full one with the whole 64, 128 or 256 bytes. *)
Theorem lpc_write_reaches_afu fuel i c offset data s w :
  ready w i c -> (1 <= fuel)%nat -> is_u 32 offset -> lpc_legal (Z.of_nat (length data)) offset ->
  queued (OCSE_LPC_WRITE :: be_bytes 4 offset ++ be_bytes 4 (Z.of_nat (length data)) ++ data) s ->
  queue w = [] -> afu_free (w_event w) ->
  runs (_handle_client fuel i s;; drive_afu) (fun _ w' =>
    command_at (w_event w') (lpc_write_cmd (Z.of_nat (length data)) offset 0 0) /\
    data_at (w_event w') (Z.max 64 (Z.of_nat (length data))) (lpc_beats offset data)) w.
Proof.
  intros Hr Hf Ho Hl Hq Hnil Hfree.
  apply (lpc_write_drives fuel i c OCSE_LPC_WRITE _ offset data 0 0 s w Hr Hf Hq Hl Hnil Hfree).
  intros s' Hs'. apply (mem_write_message fuel i c); try done.
  pose proof (mem_size_split _ (proj1 Hl)). lia.
Qed.

Theorem lpc_write_reaches_afu_witness :
  runs (_handle_client 1 0 (Stream (OCSE_LPC_WRITE :: be_bytes 4 0x1008 ++ be_bytes 4 4 ++ [1; 2; 3; 4]) [] false);; drive_afu)
    (fun _ w' =>
      command_at (w_event w') (TlxCmd TLX_CMD_PR_WR_MEM PR_WR_TAG 0 2 0 0 0x1008) /\
      data_at (w_event w') 64 (placed 64 8 [1; 2; 3; 4])) (sample_world 128 [] sample_client).
Proof.
  apply (lpc_write_reaches_afu 1 0 sample_client 0x1008 [1; 2; 3; 4]);
    [apply sample_ready|done|done|split; [by right; right; left|by vm_compute]|by exists []|done|by split; vm_compute].
Defined.

(** Of the 64 byte enables that come with a write, the AFU gets only the upper
    32, as its lower ones: [_handle_mem_write] converts the 64-bit mask with
    [ntohl], which truncates. *)
Theorem lpc_be_write_enables fuel i c offset be data s w :
  ready w i c -> (1 <= fuel)%nat -> is_u 32 offset -> length data = 64%nat ->
  queued (OCSE_LPC_WRITE_BE :: be_bytes 4 offset ++ be_bytes 8 be ++ data) s ->
  queue w = [] -> afu_free (w_event w) ->
  runs (_handle_client fuel i s;; drive_afu) (fun _ w' =>
    command_at (w_event w') (lpc_write_cmd 64 offset 1 (u32 (Z.shiftr be 32))) /\
    data_at (w_event w') 64 data) w.
Proof.
  intros Hr Hf Ho Hl Hq Hnil Hfree.
  assert (Hleg : lpc_legal (Z.of_nat (length data)) offset).
  { rewrite Hl. split; [by do 6 right; left|lia]. }
  pose proof (lpc_write_drives fuel i c OCSE_LPC_WRITE_BE _ offset data 1 (u32 (Z.shiftr be 32)) s w
    Hr Hf Hq Hleg Hnil Hfree) as H. unfold lpc_beats in H. rewrite Hl in H. apply H.
  intros s' Hs'. by apply (mem_write_be_message fuel i c).
Qed.

Theorem lpc_be_write_enables_witness :
  runs (_handle_client 1 0 (Stream (OCSE_LPC_WRITE_BE :: be_bytes 4 0x1000 ++ be_bytes 8 0xff ++ sample_bus) [] false);; drive_afu)
    (fun _ w' =>
      command_at (w_event w') (TlxCmd TLX_CMD_WRITE_MEM_BE WR_BE_TAG 1 0 0 0 0x1000) /\
      data_at (w_event w') 64 sample_bus) (sample_world 128 [] sample_client).
Proof.
  apply (lpc_be_write_enables 1 0 sample_client 0x1000 0xff);
    [apply sample_ready|done|done|done|by exists []|done|by split; vm_compute].
Defined.

(** * A read of several beats *)

(** What is sent of a memory access. *)
Lemma prepare_mem e : truthy (me_cfg e) = false -> me_size e <> 0 ->
  let e1 := prepare e <| me_state := OCSE_PENDING |> in
  (me_size e1 = me_size e /\ me_data e1 = me_data e /\ me_size_received e1 = me_size_received e) /\
  me_cmd_dL e1 = mem_dL (me_size e) /\ me_rnw e1 = me_rnw e /\ me_ack e1 = OCSE_LPC_ACK.
Proof.
  intros Hc Hs. unfold prepare, set_lengths. rewrite Hc. apply Z.eqb_neq in Hs. rewrite Hs. by destruct e.
Qed.

(** The event of a read, whose buffer is not initialised. *)
Definition mem_read_event (w : world) (offset size : Z) : mmio_event :=
  new_mem_event (mm_raw (w_mmio w) (mm_next (w_mmio w))) 1 size offset
    (map (mm_junk (w_mmio w) (mm_next (w_mmio w))) (seq 0 (Z.to_nat size))) 0 0.

Record is_mem_read (e : mmio_event) (offset size : Z) : Prop := IsMemRead {
  ir_cfg : truthy (me_cfg e) = false;
  ir_size : me_size e = size;
  ir_rnw : truthy (me_rnw e) = true;
  ir_received : me_size_received e = 0;
  ir_data : length (me_data e) = Z.to_nat size;
  ir_PA : me_cmd_PA e = offset;
  ir_state : me_state e = OCSE_IDLE;
}.

Lemma mem_read_is w offset size : is_mem_read (mem_read_event w offset size) offset size.
Proof.
  unfold mem_read_event, new_mem_event. destruct (mm_raw (w_mmio w) (mm_next (w_mmio w))).
  constructor; try reflexivity. cbn. by rewrite length_map, length_seq.
Qed.

Lemma mem_read_message fuel i c offset size s w :
  ready w i c -> (1 <= fuel)%nat -> is_u 32 offset -> is_u 32 size ->
  queued (be_bytes 4 offset ++ be_bytes 4 size) s ->
  exists s2, client_message fuel i OCSE_LPC_READ s w = Done (Some (mm_next (w_mmio w)), s2)
    (add_mm (mem_read_event w offset size) w).
Proof.
  intros [Hc Hv Hab _] Hf Ho Hs Hq. rewrite (memory_message fuel i OCSE_LPC_READ 1 0 s eq_refl).
  unfold handle_mem. rewrite (bind_done _ _ _ _ _ (the_client_here i c w Hc)), Hv.
  change (negb (bool_decide (CLIENT_VALID = CLIENT_VALID))) with false. change (truthy 1) with true. cbv iota.
  unfold _handle_mem_read. rewrite (bind_done _ _ _ _ _ (the_client_here i c w Hc)).
  edestruct (receive_queued fuel i c 4) as (s1 & Hrc & Hq1); [done|exact Hq|done..|].
  rewrite Hrc. clear Hrc. cbv zeta. rewrite ntohl_be by done.
  assert (Hq2 : queued (be_bytes 4 size ++ []) s1) by (by rewrite app_nil_r).
  edestruct (receive_queued fuel i c 4) as (s2 & Hrc & _); [done|exact Hq2|done..|].
  rewrite Hrc. clear Hrc. rewrite ntohl_be by done. unfold malloc_bytes.
  set (buf := map (mm_junk (w_mmio w) (mm_next (w_mmio w))) (seq 0 (Z.to_nat size))).
  rewrite (bind_done _ _ w buf w) by done.
  rewrite (bind_done _ _ _ _ _ (add_mem_run c 1 size offset buf 0 0 w)).
  by exists s2.
Qed.

(** A beat of data without a response. *)
Record brings (afu : AFU_EVENT) (bus : list Z) : Prop := Brings {
  br_valid : truthy (afu_tlx_resp_valid afu) = false;
  br_data : truthy (afu_tlx_rdata_valid afu) = true;
  br_bus : afu_tlx_rdata_bus afu = bus;
  br_len : length bus = 64%nat;
}.

(** The events of successive exchanges, each handled as it comes. *)
Fixpoint turns (afus : list AFU_EVENT) : M unit :=
  match afus with
  | [] => mret tt
  | afu :: l => modify (fun w => w <| w_event := afu |>);; handle_responses;; turns l
  end.

(** The event [e] of a read of [n] beats has got the beats [got]. *)
Record got_beats (e : mmio_event) (n : nat) (got : list Z) : Prop := GotBeats {
  gb_n : n = 1%nat \/ n = 2%nat \/ n = 4%nat;
  gb_size : me_size e = 64 * Z.of_nat n;
  gb_len : length (me_data e) = (64 * n)%nat;
  gb_prefix : exists k, length got = (64 * k)%nat /\ (k < n)%nat /\ me_partial_index e = Z.of_nat (64 * k) /\
    me_size_received e = Z.of_nat (64 * k);
  gb_got : take (length got) (me_data e) = got;
  gb_dL : me_resp_dL e = mem_dL (me_size e);
  gb_dP : me_resp_dP e = 0;
}.

(** One more beat. *)
Lemma beat_taken e n got bus :
  got_beats e n got -> me_state e = OCSE_BUFFER -> length bus = 64%nat ->
  exists e', take_any e bus = Some e' /\
    take (length (got ++ bus)) (me_data e') = got ++ bus /\
    me_ack e' = me_ack e /\ me_resp_code e' = me_resp_code e /\ me_resp_opcode e' = me_resp_opcode e /\
    me_rnw e' = me_rnw e /\ me_cfg e' = me_cfg e /\ me_size e' = me_size e /\
    length (me_data e') = length (me_data e) /\
    if decide (length (got ++ bus) = (64 * n)%nat) then is_done e' = true
    else me_state e' = OCSE_BUFFER /\ got_beats e' n (got ++ bus).
Proof.
  intros [Hn Hsz Hlen (k & Hg & Hk & Hpi & Hrc) Hgot HdL HdP] Hst Hb.
  assert (Hoff : beat_offset e = Some (Z.of_nat (64 * k))).
  { unfold beat_offset. rewrite HdL, HdP, Hpi, Hsz.
    destruct_or! Hn; rewrite Hn in *; [|done|done]. replace k with 0%nat by lia. done. }
  unfold take_any. destruct (Z.eqb_spec (me_size e) 0); [lia|]. destruct (Z.ltb_spec (me_size e) 64); [lia|].
  rewrite Hoff. cbn [mbind option_bind]. unfold take_beat.
  rewrite copy_at_some by lia. cbn [mbind option_bind].
  change (Z.to_nat 64) with 64%nat. rewrite (take_ge bus), Nat2Z.id by lia.
  set (buf := overwrite (me_data e) (64 * k) bus).
  assert (Hbl : length buf = length (me_data e)) by (unfold buf; rewrite length_overwrite; lia).
  set (e1 := e <| me_data := buf |> <| me_partial_index := _ |> <| me_size_received := _ |>).
  assert (Htk : take (length (got ++ bus)) buf = got ++ bus).
  { rewrite length_app, Hg. unfold buf. rewrite overwrite_take by lia. by rewrite <- Hg, Hgot. }
  assert (Hsr : me_size_received e1 = Z.of_nat (64 * S k)).
  { change (u32 (me_size_received e + 64) = Z.of_nat (64 * S k)). rewrite Hrc. unfold u32.
    rewrite Z.mod_small by lia. lia. }
  assert (Hp1 : me_partial_index e1 = Z.of_nat (64 * S k)).
  { change (u16 (me_partial_index e + 64) = Z.of_nat (64 * S k)). rewrite Hpi. unfold u16.
    rewrite Z.mod_small by lia. lia. }
  rewrite Hsr. change (me_size e1) with (me_size e). rewrite length_app, Hg, Hb, Hsz in *.
  destruct (decide _) as [E|E].
  - replace (Z.of_nat (64 * S k) =? 64 * Z.of_nat n) with true by (symmetry; apply Z.eqb_eq; lia).
    eexists. split; [reflexivity|]. done.
  - replace (Z.of_nat (64 * S k) =? 64 * Z.of_nat n) with false by (symmetry; apply Z.eqb_neq; lia).
    exists e1. split; [done|]. do 8 (split; [done|]). split; [done|].
    constructor; [done|exact Hsz|by rewrite <- Hlen|
      |change (take (length (got ++ bus)) buf = got ++ bus); by rewrite length_app, Hg, Hb|by rewrite <- Hsz in HdL|done].
    exists (S k). rewrite length_app. split; [lia|]. split; [lia|]. done.
Qed.

Lemma beat_handled w id l e bus e' :
  queue w = id :: l -> heap w !! id = Some e -> truthy (me_cfg e) = false -> truthy (me_rnw e) = true ->
  me_state e = OCSE_BUFFER -> brings (w_event w) bus -> take_any e bus = Some e' ->
  runs handle_responses (fun _ w' => moved w w' id e' (if is_done e' then l else id :: l)) w.
Proof.
  intros Hq Hh Hc Hr Hs [Hv Hd Hb _] Ht. unfold handle_responses. apply runs_gets.
  pose proof Hq as Hq'. unfold queue in Hq'. rewrite Hq'. runs_next.
  unfold handle_ap_resp. apply (runs_head _ id l); [done|]. apply (runs_get _ _ e); [done|].
  rewrite Hc. unfold handle_mem_resp.
  apply (runs_read_none _ _ AFU_TLX_RESP_NOT_VALID None).
  { unfold afu_tlx_read_resp. by rewrite Hv. } { done. }
  apply runs_ret. by apply (ap_resp_data_run w id l e bus e').
Qed.

(** What the beats that are still to come leave of the read. *)
Record read_whole (w w' : world) (id : addr_t) (l : list addr_t) (e e' : mmio_event) (data : list Z) : Prop :=
  ReadWhole {
  rw_moved : moved w w' id e' l;
  rw_done : is_done e' = true;
  rw_data : me_data e' = data;
  rw_ack : me_ack e' = me_ack e;
  rw_code : me_resp_code e' = me_resp_code e;
  rw_opcode : me_resp_opcode e' = me_resp_opcode e;
  rw_rnw : me_rnw e' = me_rnw e;
  rw_size : me_size e' = me_size e;
}.

Lemma turns_run afus buses w id l e n got :
  Forall2 brings afus buses -> queue w = id :: l -> heap w !! id = Some e ->
  truthy (me_cfg e) = false -> truthy (me_rnw e) = true -> me_state e = OCSE_BUFFER ->
  got_beats e n got -> length (got ++ concat buses) = (64 * n)%nat ->
  runs (turns afus) (fun _ w' => exists e', read_whole w w' id l e e' (got ++ concat buses)) w.
Proof.
  intros Hall. revert w e got. induction Hall as [|afu bus afus buses Hb Hall IH]; intros w e got Hq Hh Hc Hr Hs Hg Hl.
  - destruct Hg as [_ _ _ (k & Hk & Hkn & _) _ _ _]. rewrite app_nil_r, Hk in Hl. lia.
  - cbn [turns concat] in *. apply runs_modify. set (w1 := w <| w_event := afu |>). runs_next.
    destruct (beat_taken e n got bus Hg Hs (br_len _ _ Hb)) as (e' & Ht & Htk & Ha & Hcd & Ho & Hrn & Hcf & Hsz & Hlen & Hcase).
    eapply runs_mono; [exact (beat_handled w1 id l e bus e' Hq Hh Hc Hr Hs Hb Ht)|].
    intros [] w2 Hm. assert (Hm' : moved w w2 id e' (if is_done e' then l else id :: l)) by by destruct Hm.
    clear Hm. case_decide as E.
    + rewrite Hcase in Hm'. rewrite app_assoc, length_app, E in Hl.
      assert (afus = [] /\ buses = []) as [-> ->].
      { destruct Hall as [|? ? ? ? H2]; [done|]. cbn in Hl. rewrite length_app, (br_len _ _ H2) in Hl. lia. }
      apply runs_ret. exists e'. rewrite app_nil_r. constructor; try done.
      rewrite <- Htk. rewrite take_ge; [done|]. rewrite E, Hlen, (gb_len _ _ _ Hg). done.
    + destruct Hcase as [Hs' Hg']. assert (Hd : is_done e' = false) by (unfold is_done; by rewrite Hs').
      rewrite Hd in Hm'. eapply runs_mono.
      * apply (IH w2 e' (got ++ bus)); [exact (mv_queue _ _ _ _ _ Hm')| |by rewrite Hcf|by rewrite Hrn|done|done|
          by rewrite <- app_assoc].
        by rewrite (mv_heap _ _ _ _ _ Hm'), lookup_insert_eq.
      * intros [] w' (e2 & [H1 H2 H3 H4 H5 H6 H7 H8]). exists e2. rewrite <- app_assoc in H3.
        constructor; [by apply moved_trans with (1 := Hm')|done|done|congruence..].
Qed.

Lemma got_none e n opcode code :
  n = 1%nat \/ n = 2%nat \/ n = 4%nat -> me_size e = 64 * Z.of_nat n ->
  length (me_data e) = (64 * n)%nat -> me_size_received e = 0 ->
  got_beats (buffered e opcode code (mem_dL (me_size e)) 0) n [].
Proof.
  intros Hn Hs Hl Hr. constructor; [exact Hn|exact Hs|exact Hl| |reflexivity|reflexivity|reflexivity].
  exists 0%nat. split; [reflexivity|]. split; [lia|]. split; [reflexivity|exact Hr].
Qed.

(** The response with its first beat, then the others. *)
Lemma read_turns w i fd id l e n opcode code first afus bus buses :
  awaits w i fd id l e -> truthy (me_rnw e) = true -> me_cmd_dL e = mem_dL (me_size e) ->
  got_beats (buffered e opcode code (mem_dL (me_size e)) 0) n [] ->
  responds first opcode code (mem_dL (me_size e)) 0 bus ->
  Forall2 brings afus buses -> length (bus ++ concat buses) = (64 * n)%nat ->
  runs (turns (first :: afus)) (fun _ w' => exists e',
    read_whole w w' id l (buffered e opcode code (mem_dL (me_size e)) 0) e' (bus ++ concat buses)) w.
Proof.
  intros Haw Hr HdL Hg Ha Hall Hl. set (dl := mem_dL (me_size e)) in *. set (e0 := buffered e opcode code dl 0) in *.
  assert (Hleg : _resp_dldp_is_legal (me_cmd_dL e) dl 0 = 0).
  { rewrite HdL. destruct Hg as [Hn Hsz _ _ _ _ _]. change (me_size e0) with (me_size e) in Hsz.
    unfold dl. destruct_or! Hn; rewrite Hsz, Hn; done. }
  cbn [turns]. apply runs_modify. set (w1 := w <| w_event := first |>). runs_next.
  destruct (beat_taken e0 n [] bus Hg eq_refl (rs_len _ _ _ _ _ _ Ha)) as
    (e' & Ht & Htk & Hak & Hcd & Ho & Hrn & Hcf & Hsz & Hlen & Hcase).
  assert (Haw1 : awaits w1 i fd id l e) by by destruct Haw.
  eapply runs_mono; [exact (read_handled w1 i fd id l e opcode code dl 0 bus e' Haw1 Hr Ha Hleg Ht)|].
  intros [] w2 Hm. assert (Hm' : moved w w2 id e' (if is_done e' then l else id :: l)) by by destruct Hm.
  clear Hm. cbn [app] in *. case_decide as E.
  - rewrite Hcase in Hm'. rewrite length_app, E in Hl.
    assert (afus = [] /\ buses = []) as [-> ->].
    { destruct Hall as [|? ? ? ? H2]; [done|]. cbn in Hl. rewrite length_app, (br_len _ _ H2) in Hl. lia. }
    apply runs_ret. exists e'. rewrite app_nil_r. constructor; try done.
    rewrite <- Htk. rewrite take_ge; [done|]. rewrite E, Hlen, (gb_len _ _ _ Hg). done.
  - destruct Hcase as [Hs' Hg']. assert (Hd : is_done e' = false) by (unfold is_done; by rewrite Hs').
    rewrite Hd in Hm'. eapply runs_mono.
    + apply (turns_run afus buses w2 id l e' n bus Hall); [exact (mv_queue _ _ _ _ _ Hm')| | | |done|done|done].
      * by rewrite (mv_heap _ _ _ _ _ Hm'), lookup_insert_eq.
      * rewrite Hcf. exact (aw_cfg _ _ _ _ _ _ Haw).
      * by rewrite Hrn.
    + intros [] w' (e2 & [H1 H2 H3 H4 H5 H6 H7 H8]). exists e2.
      constructor; [by apply moved_trans with (1 := Hm')|done|done|congruence..].
Qed.

Lemma full_read_cmd e n offset :
  is_mem_read e offset (64 * Z.of_nat n) -> n = 1%nat \/ n = 2%nat \/ n = 4%nat ->
  read_cmd (prepare e) = TlxCmd TLX_CMD_RD_MEM RD_TAG (mem_dL (64 * Z.of_nat n)) 0 0 0 offset /\
  truthy (me_cfg (prepare e)) = false /\ truthy (me_rnw (prepare e)) = true.
Proof.
  intros [Hc Hs Hr _ _ HPA _] Hn. unfold prepare, set_lengths. rewrite Hc, Hs. destruct e. cbn in *.
  unfold read_cmd, cmd_byte_cnt, mem_cmd. cbn. rewrite Hs, HPA.
  destruct_or! Hn; rewrite Hn in *; done.
Qed.

(** What the client gets when all the beats have come. *)
Lemma read_closes w i fd id e n opcode code first afus bus buses :
  awaits w i fd id [] e -> truthy (me_rnw e) = true -> me_cmd_dL e = mem_dL (me_size e) ->
  me_size e = 64 * Z.of_nat n -> n = 1%nat \/ n = 2%nat \/ n = 4%nat ->
  length (me_data e) = (64 * n)%nat -> me_size_received e = 0 ->
  responds first opcode code (mem_dL (me_size e)) 0 bus ->
  Forall2 brings afus buses -> length (bus ++ concat buses) = (64 * n)%nat ->
  (opcode = 2 \/ opcode = 4 -> code = 0) ->
  runs (turns (first :: afus);; finish_access i)
    (fun _ w2 => closed w w2 i fd id [] (me_ack e :: code :: bus ++ concat buses)) w.
Proof.
  intros Haw Hrnw HdL Hsz Hn Hbuf Hrec Hresp Hall Hl Hcode. runs_next.
  pose proof (got_none e n opcode code Hn Hsz Hbuf Hrec) as Hg.
  eapply runs_mono; [exact (read_turns w i fd id [] e n opcode code first afus bus buses Haw Hrnw HdL Hg Hresp Hall Hl)|].
  intros [] w2 (e' & [Hm Hdone Hdata Hack Hcd Hop Hr' Hsz']).
  change (me_size e' = me_size e) in Hsz'. change (me_rnw e' = me_rnw e) in Hr'.
  change (me_ack e' = me_ack e) in Hack. change (me_resp_code e' = code) in Hcd.
  change (me_resp_opcode e' = opcode) in Hop.
  assert (Hret : returned_data e' = Some (bus ++ concat buses)).
  { unfold returned_data, access_failed. rewrite Hop, Hcd, Hr', Hsz', Hrnw, Hsz, Hdata.
    rewrite (not_failed _ _ Hcode). cbn [orb negb]. unfold truthy. destruct (Z.eqb_spec (64 * Z.of_nat n) 0); [lia|]. cbn [negb].
    rewrite slice_some by lia. rewrite drop_0, take_ge by lia. done. }
  destruct Hm as [H1 H2 H3 H4 H5]. eapply runs_mono.
  { apply (access_finished w2 i fd id e' (bus ++ concat buses)); [|..|done|].
    - rewrite H3. exact (aw_client _ _ _ _ _ _ Haw).
    - by rewrite H1, lookup_insert_eq.
    - done.
    - by rewrite H5, (aw_put_ok _ _ _ _ _ _ Haw). }
  intros [] w3 [Hp Hq3 Hh3 Hc3]. rewrite Hack, Hcd in Hp. rewrite H2 in Hq3.
  constructor; [by rewrite Hp, H4|done|by rewrite Hh3, H1, delete_insert_eq|done].
Qed.

(** C22: a read of 64, 128 or 256 bytes from memory: the AFU finds one read command;
    and when it answers with one response of the whole length - its first beat
    with the response, the others one by one with the exchanges that follow - the
    client gets the beats in their order, in one message.  An answer in several
    responses is not put together so ([split_read_corrupted]). *)
Theorem lpc_read_assembles fuel i c offset n s w :
  ready w i c -> (1 <= fuel)%nat -> is_u 32 offset -> n = 1%nat \/ n = 2%nat \/ n = 4%nat ->
  queued (OCSE_LPC_READ :: be_bytes 4 offset ++ be_bytes 4 (64 * Z.of_nat n)) s ->
  queue w = [] -> afu_free (w_event w) -> w_put_ok w = [] ->
  runs (_handle_client fuel i s;; drive_afu) (fun _ w1 =>
    command_at (w_event w1) (TlxCmd TLX_CMD_RD_MEM RD_TAG (mem_dL (64 * Z.of_nat n)) 0 0 0 offset) /\
    forall first afus opcode code bus buses,
      responds first opcode code (mem_dL (64 * Z.of_nat n)) 0 bus -> Forall2 brings afus buses ->
      length (bus ++ concat buses) = (64 * n)%nat -> (opcode = 2 \/ opcode = 4 -> code = 0) ->
      runs (turns (first :: afus);; finish_access i)
        (fun _ w2 => closed w1 w2 i (cl_fd c) (mm_next (w_mmio w)) []
           (OCSE_LPC_ACK :: code :: bus ++ concat buses)) w1) w.
Proof.
  intros Hr Hf Ho Hn Hq Hnil Hfree Hput. set (size := 64 * Z.of_nat n) in *.
  assert (Hs : is_u 32 size) by (unfold size, is_u; destruct_or! Hn; rewrite Hn; by vm_compute).
  pose proof (mem_read_is w offset size) as He.
  assert (Hmsg : forall s', queued (be_bytes 4 offset ++ be_bytes 4 size) s' -> exists s2,
    client_message fuel i OCSE_LPC_READ s' w = Done (Some (mm_next (w_mmio w)), s2)
      (add_mm (mem_read_event w offset size) w)).
  { intros s' Hs'. by apply (mem_read_message fuel i c). }
  revert Hmsg He. generalize (mem_read_event w offset size). intros e Hmsg He.
  destruct (full_read_cmd e n offset He Hn) as (Hcmd & Hc & Hrnw).
  destruct (drive_read (prepare e) (w_event w)) as (afu & Hd & Hat); [done..|].
  eapply runs_mono; [exact (serve_and_drive fuel i c OCSE_LPC_READ _ s w e afu Hr Hq Hf Hnil Hmsg (ir_state _ _ _ He) Hd)|].
  intros [] w1 (w0 & Ha & Hsent). split; [by rewrite (se_event _ _ _ _ _ Hsent); rewrite Hcmd in Hat|].
  intros first afus opcode code bus buses Hresp Hall Hl Hcode.
  pose proof (driven_awaits w w0 w1 i c e (prepare e) afu (w_event w1) Ha Hnil Hsent Hc Hput) as Haw0.
  assert (Haw : awaits w1 i (cl_fd c) (mm_next (w_mmio w)) [] (prepare e <| me_state := OCSE_PENDING |>))
    by by destruct Haw0.
  destruct He as [Hce Hsz Hrw Hrec Hdt _ _].
  destruct (prepare_mem e Hce) as ((H1 & H2 & H3) & H4 & H5 & H6); [lia|].
  revert Haw H1 H2 H3 H4 H5 H6. generalize (prepare e <| me_state := OCSE_PENDING |>).
  intros e1 Haw H1 H2 H3 H4 H5 H6. rewrite <- H6. subst size.
  apply (read_closes w1 i (cl_fd c) (mm_next (w_mmio w)) e1 n opcode); try done; try congruence.
  all: first [by rewrite H1, Hsz | rewrite H2, Hdt; lia].
Qed.

Definition sample_beat : AFU_EVENT :=
  tlx_event_reset event_zero <| afu_tlx_rdata_valid := 1 |> <| afu_tlx_rdata_bus := zeros 64 |>.

Theorem lpc_read_assembles_witness :
  runs (_handle_client 1 0 (Stream (OCSE_LPC_READ :: be_bytes 4 0x1000 ++ be_bytes 4 128) [] false);; drive_afu)
    (fun _ w1 =>
      command_at (w_event w1) (TlxCmd TLX_CMD_RD_MEM RD_TAG 2 0 0 0 0x1000) /\
      runs (turns [sample_answer 2; sample_beat];; finish_access 0)
        (fun _ w2 => closed w1 w2 0 9 0%nat [] (OCSE_LPC_ACK :: 0 :: sample_bus ++ zeros 64)) w1)
    (sample_world 128 [] sample_client).
Proof.
  eapply runs_mono;
    [apply (lpc_read_assembles 1 0 sample_client 0x1000 2);
     [apply sample_ready|done|by vm_compute|by right; left|by exists []|done|by split; vm_compute|done]|].
  intros [] w1 [Hc Ha]. split; [done|].
  apply (Ha (sample_answer 2) [sample_beat] 1 0 sample_bus [zeros 64]); [apply sample_responds| |done|done].
  by repeat constructor.
Defined.

(** * A split answer *)

(** A response to a read that has been answered in part is not taken, but its
    data are. *)
Lemma late_response_handled w id l e opcode code dl dp bus e' :
  queue w = id :: l -> heap w !! id = Some e -> truthy (me_cfg e) = false -> truthy (me_rnw e) = true ->
  me_state e = OCSE_BUFFER -> responds (w_event w) opcode code dl dp bus -> take_any e bus = Some e' ->
  runs handle_responses (fun _ w' => moved w w' id e' (if is_done e' then l else id :: l)) w.
Proof.
  intros Hq Hh Hc Hr Hs [Hv Hd _ _ _ _ Hb _ _] Ht. unfold handle_responses. apply runs_gets.
  pose proof Hq as Hq'. unfold queue in Hq'. rewrite Hq'. runs_next.
  unfold handle_ap_resp. apply (runs_head _ id l); [done|]. apply (runs_get _ _ e); [done|].
  rewrite Hc. unfold handle_mem_resp.
  set (afu1 := w_event w <| afu_tlx_resp_valid := 0 |> <| tlx_afu_resp_credit := 1 |>
      <| tlx_afu_credit_valid := 1 |>).
  apply (runs_read _ _ (Some (get_afu_resp (w_event w))) afu1).
  { unfold afu_tlx_read_resp. by rewrite Hv. }
  assert (Hafu : truthy (afu_tlx_rdata_valid afu1) = true /\ afu_tlx_rdata_bus afu1 = bus) by done.
  clearbody afu1. rewrite Hs. change (negb (bool_decide (OCSE_BUFFER = OCSE_PENDING))) with true.
  apply runs_ret. eapply runs_mono.
  - apply (ap_resp_data_run (w <| w_event := afu1 |>) id l e bus e'); try done; apply Hafu.
  - intros [] w' [H1 H2 H3 H4 H5]. by constructor.
Qed.

Record half_read (e : mmio_event) (opcode code received : Z) (data : list Z) : Prop := HalfRead {
  hr_cfg : truthy (me_cfg e) = false;
  hr_rnw : truthy (me_rnw e) = true;
  hr_size : me_size e = 128;
  hr_dL : me_resp_dL e = 1;
  hr_dP : me_resp_dP e = 0;
  hr_received : me_size_received e = received;
  hr_opcode : me_resp_opcode e = opcode;
  hr_code : me_resp_code e = code;
  hr_data : me_data e = data;
  hr_len : length data = 128%nat;
  hr_ack : me_ack e = OCSE_LPC_ACK;
}.

Lemma half_taken e opcode code r data bus :
  half_read e opcode code r data -> r = 0 \/ r = 64 -> length bus = 64%nat ->
  exists e', take_any e bus = Some e' /\ half_read e' opcode code (r + 64) (overwrite data 0 bus) /\
    me_state e' = if r =? 64 then OCSE_DONE else me_state e.
Proof.
  intros [Hc Hr Hs HdL HdP Hrc Ho Hcd Hd Hl Ha] Hcase Hb. destruct e as [rnw dw cfg cd PA pL pi ack rdL rdP code' op bv size rcv buf be cdL cdP st].
  cbn in *. subst. unfold take_any, beat_offset, take_beat. cbn [me_size me_resp_dL me_resp_dP me_data].
  change (128 =? 0) with false. change (128 <? 64) with false. change (1 =? 1) with true. cbv iota.
  change (0 * 64) with 0. cbn [mbind option_bind].
  rewrite copy_at_some by lia. cbn [mbind option_bind]. change (Z.to_nat 64) with 64%nat.
  rewrite (take_ge bus) by lia. change (Z.to_nat 0) with 0%nat.
  assert (Hlo : length (overwrite data 0 bus) = 128%nat) by (rewrite length_overwrite; lia).
  destruct Hcase as [-> | ->]; (eexists; split; [reflexivity|]; split; [by constructor|reflexivity]).
Qed.

(** Of a read of 128 bytes that the AFU answers in two parts, as the link
    allows, the first part is lost: the second response is not taken, so the
    second part is stored over the first, and the client gets it followed by 64
    bytes of the buffer that were never written. *)
Theorem split_read_corrupted w i fd id e opcode code first second bus1 bus2 :
  awaits w i fd id [] e -> truthy (me_rnw e) = true -> me_size e = 128 -> me_cmd_dL e = 2 ->
  length (me_data e) = 128%nat -> me_size_received e = 0 -> me_ack e = OCSE_LPC_ACK ->
  responds first opcode code 1 0 bus1 -> responds second opcode code 1 1 bus2 ->
  (opcode = 2 \/ opcode = 4 -> code = 0) ->
  runs (turns [first; second];; finish_access i)
    (fun _ w2 => closed w w2 i fd id []
       (OCSE_LPC_ACK :: code :: bus2 ++ drop 64 (me_data e))) w.
Proof.
  intros Haw Hrnw Hsz HdL Hbuf Hrec Hack H1 H2 Hcode. runs_next. cbn [turns].
  pose proof (rs_len _ _ _ _ _ _ H1) as Hl1. pose proof (rs_len _ _ _ _ _ _ H2) as Hl2.
  apply runs_modify. set (w1 := w <| w_event := first |>).
  assert (Haw1 : awaits w1 i fd id [] e) by by destruct Haw.
  assert (Hleg : _resp_dldp_is_legal (me_cmd_dL e) 1 0 = 0) by by rewrite HdL.
  assert (Hh0 : half_read (buffered e opcode code 1 0) opcode code 0 (me_data e)).
  { pose proof (aw_cfg _ _ _ _ _ _ Haw) as Hc. destruct e. cbn in *. by constructor. }
  destruct (half_taken _ _ _ _ _ bus1 Hh0 (or_introl eq_refl) Hl1) as (e1 & Ht1 & Hh1 & Hs1).
  change (me_state e1 = OCSE_BUFFER) in Hs1.
  assert (Hd1 : is_done e1 = false) by (unfold is_done; by rewrite Hs1).
  destruct (half_taken _ _ _ _ _ bus2 Hh1 (or_intror eq_refl) Hl2) as (e2 & Ht2 & Hh2 & Hs2).
  change (me_state e2 = OCSE_DONE) in Hs2.
  assert (Hd2 : is_done e2 = true) by (unfold is_done; by rewrite Hs2).
  runs_next. eapply runs_mono; [exact (read_handled w1 i fd id [] e opcode code 1 0 bus1 e1 Haw1 Hrnw H1 Hleg Ht1)|].
  intros [] w2 Hm. rewrite Hd1 in Hm. assert (Hm1 : moved w w2 id e1 [id]) by by destruct Hm. clear Hm.
  apply runs_modify. set (w3 := w2 <| w_event := second |>). runs_next.
  eapply runs_mono.
  { apply (late_response_handled w3 id [] e1 opcode code 1 1 bus2 e2); [exact (mv_queue _ _ _ _ _ Hm1)| | | |done|done|done].
    - change (heap w2 !! id = Some e1). by rewrite (mv_heap _ _ _ _ _ Hm1), lookup_insert_eq.
    - exact (hr_cfg _ _ _ _ _ Hh1).
    - exact (hr_rnw _ _ _ _ _ Hh1). }
  intros [] w4 Hm. rewrite Hd2 in Hm. assert (Hm2 : moved w2 w4 id e2 []) by by destruct Hm.
  pose proof (moved_trans _ _ _ _ _ _ _ _ Hm1 Hm2) as [K1 K2 K3 K4 K5]. clear Hm Hm1 Hm2.
  apply runs_ret. destruct Hh2 as [_ Hr2 Hsz2 _ _ _ Ho2 Hcd2 Hdt2 Hlen2 Ha2].
  assert (Hdata : me_data e2 = bus2 ++ drop 64 (me_data e)).
  { rewrite Hdt2. unfold overwrite. rewrite !take_0, Hl1, Hl2, !app_nil_l.
    rewrite drop_app_ge by lia. by rewrite Hl1, drop_0. }
  assert (Hret : returned_data e2 = Some (bus2 ++ drop 64 (me_data e))).
  { unfold returned_data, access_failed. rewrite Ho2, Hcd2, Hr2, Hsz2.
    rewrite (not_failed _ _ Hcode). change (truthy 128) with true. cbn [orb negb].
    rewrite slice_some by (rewrite ?Hdata, ?length_app, ?length_drop; lia).
    rewrite drop_0, take_ge, Hdata; [done|]. rewrite Hdata, length_app, length_drop. lia. }
  eapply runs_mono.
  { apply (access_finished w4 i fd id e2 (bus2 ++ drop 64 (me_data e))); [|by rewrite K1, lookup_insert_eq|done|done|].
    - rewrite K3. exact (aw_client _ _ _ _ _ _ Haw).
    - by rewrite K5, (aw_put_ok _ _ _ _ _ _ Haw). }
  intros [] w5 [Hp Hq3 Hh3 Hc3]. rewrite Ha2, Hcd2, K4 in Hp. rewrite K2 in Hq3.
  constructor; [done|done|by rewrite Hh3, K1, delete_insert_eq|done].
Qed.

Definition split_event : mmio_event :=
  sample_raw <| me_rnw := 1 |> <| me_size := 128 |> <| me_cmd_dL := 2 |> <| me_data := replicate 128 0xaa |>
    <| me_ack := OCSE_LPC_ACK |> <| me_state := OCSE_PENDING |>.
Definition split_world : world :=
  add_mm split_event (sample_world 128 [] (sample_client <| cl_mmio_access := Some 0%nat |>)).

Theorem split_read_corrupted_witness :
  runs (turns [sample_answer 1; sample_answer 1 <| afu_tlx_resp_dp := 1 |> <| afu_tlx_rdata_bus := zeros 64 |>];;
        finish_access 0)
    (fun _ w2 => closed split_world w2 0 9 0%nat []
       (OCSE_LPC_ACK :: 0 :: zeros 64 ++ replicate 64 0xaa)) split_world.
Proof.
  apply (split_read_corrupted split_world 0 9 0%nat split_event 1 0 (sample_answer 1) _ sample_bus (zeros 64));
    [|done|done|done|done|done|done|apply sample_responds| |done].
  - constructor; try done. by exists (sample_client <| cl_mmio_access := Some 0%nat |>).
  - constructor; try done. apply zeros_bytes.
Defined.
