(* ===== verification/QueueProps.v ===== *)
(** The queue of accesses: it is served in the order they were asked for, one
    access at a time. *)
From stdpp Require Import gmap.
From S2P Require Import Prelude Utils Event TlxHost TlxAfu TlxApi Parms.
From S2P Require Import CmdState Cmd CmdHandlers CmdFrame CmdLogic CmdInv CmdSafe CmdSafeResp.
From S2P Require Import Mmio Ocl MmioInv OclInv CmdProps OclProps.

(** * The order *)

(** The law of one step of the thread: at most one access leaves the queue, the
    first one, and it has been answered; the others stay in their order; at most
    one joins, behind all of them, and it is a new one. *)
Record queue_step (w w' : world) : Prop := QueueStep {
  qt_parts : exists gone new,
    (length gone <= 1)%nat /\ (length new <= 1)%nat /\
    (exists rest, queue w = gone ++ rest /\ queue w' = rest ++ new) /\
    (forall id, id ∈ gone -> exists e, heap w' !! id = Some e /\ me_state e = OCSE_DONE) /\
    (forall id, id ∈ new -> heap w !! id = None);
}.

(** [m] takes at most [p] accesses off the front of the queue and puts at most
    [a], allocated by it, behind the others. *)
Definition moved (p a : nat) (w w' : world) : Prop :=
  (mm_next (w_mmio w) <= mm_next (w_mmio w'))%nat /\
  exists k new, (k <= p)%nat /\ (length new <= a)%nat /\ queue w' = drop k (queue w) ++ new /\
    Forall (fun id => (mm_next (w_mmio w) <= id)%nat) new.

Definition does (p a : nat) {A} (m : M A) : Prop := forall w x w', m w = Done x w' -> moved p a w w'.

(** The queue is not touched. *)
Definition still (w w' : world) : Prop :=
  queue w' = queue w /\ (mm_next (w_mmio w) <= mm_next (w_mmio w'))%nat.

#[export] Instance still_preorder : PreOrder still.
Proof. split; [by split|]. intros a b c [] []. split; [congruence|lia]. Qed.

Lemma still_same w w' : w_mmio w' = w_mmio w -> still w w'.
Proof. unfold still, queue. by intros ->. Qed.

Lemma still_moved p a w w' : still w w' -> moved p a w w'.
Proof.
  intros [Hq Hn]. split; [done|]. exists 0%nat, []. rewrite drop_0, app_nil_r.
  split_and!; [lia|cbn; lia|done|apply Forall_nil_2].
Qed.

Lemma moved_still_l p a w w1 w' : still w w1 -> moved p a w1 w' -> moved p a w w'.
Proof.
  intros [Hq Hn] (Hn' & k & new & Hk & Hl & E & Hf). split; [lia|]. exists k, new. rewrite Hq in E.
  split_and!; try done. eapply Forall_impl; [|exact Hf]. cbn. lia.
Qed.

Lemma moved_still_r p a w w1 w' : moved p a w w1 -> still w1 w' -> moved p a w w'.
Proof.
  intros (Hn' & k & new & Hk & Hl & E & Hf) [Hq Hn]. split; [lia|]. exists k, new. rewrite <- Hq in E.
  by split_and!.
Qed.

Section does.
Context {p a : nat} {A B : Type}.

Lemma does_still (m : M A) : framed still m -> does p a m.
Proof. intros H w x w' E. by apply still_moved, (H w x). Qed.

Lemma does_after (m : M A) (k : A -> M B) : framed still m -> (forall x, does p a (k x)) -> does p a (m ≫= k).
Proof.
  intros Hm Hk w y w'. unfold mbind, ST_bind. destruct (m w) as [x w1| | |] eqn:E; try done.
  intros H. eapply moved_still_l; [by eapply Hm|by eapply Hk].
Qed.

Lemma does_before (m : M A) (k : A -> M B) : does p a m -> (forall x, framed still (k x)) -> does p a (m ≫= k).
Proof.
  intros Hm Hk w y w'. unfold mbind, ST_bind. destruct (m w) as [x w1| | |] eqn:E; try done.
  intros H. eapply moved_still_r; [by eapply Hm|by eapply Hk].
Qed.
End does.

Lemma still_frame {A} (m : M A) : framed cmd_frame m -> framed still m.
Proof. intros Hm w x w' E. apply still_same. exact (cf_mmio _ _ (Hm _ _ _ E)). Qed.

Lemma still_modify (f : world -> world) :
  (forall w, queue (f w) = queue w) ->
  (forall w, (mm_next (w_mmio w) <= mm_next (w_mmio (f w)))%nat) -> framed still (modify f).
Proof. intros Hf Hn. apply framed_modify. intros w. by split. Qed.

Lemma does_pop a : does 1 a pop_event.
Proof.
  intros w x w' [= _ <-]. split; [done|]. exists 1%nat, []. rewrite app_nil_r.
  split_and!; [done|cbn; lia| |apply Forall_nil_2]. unfold queue. cbn. by destruct (mm_list (w_mmio w)).
Qed.

(** What [malloc] gave joins. *)
Lemma does_append p id e w x w' :
  (mm_next (w_mmio w) <= id)%nat -> append_event id e w = Done x w' -> moved p 1 w w'.
Proof.
  intros Hid [= _ <-]. split; [done|]. exists 0%nat, [id]. split_and!; [lia|done|done|by repeat constructor].
Qed.

Create HintDb still discriminated.
#[export] Hint Constants Opaque : still.

(** Steps on the clients and on the rest of the world. *)
Ltac still_leaf :=
  first [ solve [eauto 1 with still]
        | apply still_modify; [reflexivity|intros; cbn; lia]
        | apply still_frame; first [apply frame_put_bytes | apply frame_the_client | apply frame_commands
            | apply frame_attach | apply frame_detach | apply frame_memory_ack | apply frame_sweep_client
            | apply frame_sweep_leave | apply frame_refresh_client | apply frame_upd_ocl ] ].
Ltac still := frames ltac:(still_leaf).

Lemma still_get id : framed still (get_mmio id).
Proof. unfold get_mmio. still. Qed.
Lemma still_upd id f : framed still (upd_mmio_event id f).
Proof.
  unfold upd_mmio_event. apply framed_bind; [exact _|apply still_get|]. intros e.
  apply still_modify; [reflexivity|intros; cbn; lia].
Qed.
Lemma still_send f : framed still (host_send f).
Proof. unfold host_send. still. Qed.
Lemma still_read {A} (f : AFU_EVENT -> Z * option A * AFU_EVENT) : framed still (read_event f).
Proof. unfold read_event. still. Qed.
#[export] Hint Resolve still_get still_upd still_send still_read : still.

Lemma still_send_mmio : framed still send_mmio.
Proof. unfold send_mmio. still. Qed.
Lemma still_set id e : framed still (set_mmio id e).
Proof. apply still_modify; [reflexivity|intros; cbn; lia]. Qed.
Lemma still_head : framed still head_event.
Proof. unfold head_event. still. Qed.
Lemma still_ap_resp : framed still handle_ap_resp.
Proof. unfold handle_ap_resp, handle_cfg_resp, handle_mem_resp. repeat first [apply still_head | progress still]. Qed.
Lemma still_take_data e l : framed still (take_data e l).
Proof. unfold take_data. still. Qed.
Lemma still_drop i : framed still (drop_client i).
Proof. apply still_modify; [reflexivity|intros; cbn; lia]. Qed.
Lemma still_answer i c l : framed still (answer i c l).
Proof. unfold answer, drop_client, upd_client. still. Qed.
#[export] Hint Resolve still_send_mmio still_set still_head still_ap_resp still_take_data still_drop still_answer : still.

(** ** One leaves *)

(** Follows the syntax of a step that moves the queue once: what comes before
    and after does not. *)
Ltac moves leaf :=
  repeat first
    [ progress intros | leaf
    | progress cbv zeta
    | lazymatch goal with
      | |- does _ _ (_ ≫= _) =>
          first [apply does_after; [solve [still]|] | apply does_before; [|solve [still]]]
      | |- does _ _ (when_ ?b _) => destruct b; cbn [when_]
      | |- does _ _ (let '(_, _) := ?x in _) => destruct x
      | |- does _ _ (if ?b then _ else _) => destruct b
      | |- does _ _ (match ?x with _ => _ end) => destruct x
      | |- does _ _ _ => apply does_still; solve [still]
      end ].

Lemma does_responses : does 1 0 handle_responses.
Proof. unfold handle_responses, handle_ap_resp_data. moves ltac:(apply does_pop). Qed.

(** ** One joins *)

(** [malloc], the address and the event put at the end. *)
Lemma does_allocated p (PA : mmio -> option Z) (event : mmio_event -> Z -> mmio_event) :
  does p 1 ('(id, raw) ← malloc_event;
            mm ← gets w_mmio;
            PA ← lift (PA mm);
            append_event id (event raw PA);;
            mret id).
Proof.
  intros w x w'. unfold malloc_event, upd_mmio. cbn -[append_event].
  unfold mbind, ST_bind, gets, modify, lift. cbn.
  destruct (PA _) as [a|]; [|done].
  intros [= _ <-]. split; [cbn; lia|]. exists 0%nat, [mm_next (w_mmio w)].
  split_and!; [lia|done|done|by repeat constructor].
Qed.

Lemma does_add p c rnw dw global addr cfg data : does p 1 (_add_event c rnw dw global addr cfg data).
Proof.
  apply (does_allocated p (fun mm => match c with None => Some addr | Some c => mmio_PA mm c global addr end)
    (fun raw PA => new_mmio_event raw rnw dw PA cfg data)).
Qed.
Lemma does_add_mem p c rnw size region addr data bv be :
  does p 1 (_add_mem c rnw size region addr data bv be).
Proof.
  apply (does_allocated p (fun mm => mem_PA mm c region addr)
    (fun raw PA => new_mem_event raw rnw size PA data bv be)).
Qed.

Lemma does_receive p a fuel i c size s k :
  (forall l s', does p a (k l s')) -> does p a (receive fuel i c size s k).
Proof. intros Hk. unfold receive. destruct (get_bytes_silent _ _ _ _); [apply Hk|..]; apply does_still; still. Qed.

Ltac joins :=
  moves ltac:(idtac; lazymatch goal with
    | |- does _ _ (_add_event _ _ _ _ _ _ _) => apply does_add
    | |- does _ _ (_add_mem _ _ _ _ _ _ _ _) => apply does_add_mem
    | |- does _ _ (receive _ _ _ _ _ _) => apply does_receive
    end).

Lemma does_mmio p fuel i rnw dw global s : does p 1 (handle_mmio fuel i rnw dw global s).
Proof. unfold handle_mmio, _handle_mmio_read, _handle_mmio_write, _add_mmio. joins. Qed.
Lemma does_mem p fuel i rnw region bv s : does p 1 (handle_mem fuel i rnw region bv s).
Proof. unfold handle_mem, _handle_mem_read, _handle_mem_write, malloc_bytes. joins. Qed.

Lemma still_map i : framed still (handle_mmio_map i).
Proof. unfold handle_mmio_map. still. Qed.
Lemma still_done i : framed still (handle_mmio_done i).
Proof. unfold handle_mmio_done, free_mmio, upd_mmio. still. Qed.
#[export] Hint Resolve still_map still_done : still.
Lemma still_finish i : framed still (finish_access i).
Proof. unfold finish_access, set_mmio_access, upd_client. still. Qed.
#[export] Hint Resolve still_finish : still.

Lemma does_message p fuel i op s : does p 1 (client_message fuel i op s).
Proof. unfold client_message. moves ltac:(idtac; lazymatch goal with
    | |- does _ _ (handle_mmio _ _ _ _ _ _) => apply does_mmio
    | |- does _ _ (handle_mem _ _ _ _ _ _) => apply does_mem
    end). Qed.

Lemma does_client p fuel i s : does p 1 (_handle_client fuel i s).
Proof. unfold _handle_client, set_mmio_access, upd_client. moves ltac:(idtac; lazymatch goal with
    | |- does _ _ (client_message _ _ _ _) => apply does_message
    end). Qed.

Lemma does_turn : does 1 0 (run_op Turn).
Proof.
  apply does_before; [apply does_responses|]. intros _. apply still_frame, frame_commands.
Qed.

Lemma does_op o : o <> Turn -> does 0 1 (run_op o).
Proof.
  destruct o; [done|..]; intros _; cbn [run_op]; unfold drive_afu, _add_cfg, free_mmio, upd_mmio.
  - apply does_still. still.
  - apply does_before; [apply does_client|intros; still].
  - apply does_still. still.
  - apply does_still. still.
  - apply does_before; [apply does_add|intros; still].
  - apply does_still. still.
Qed.

(** ** A turn frees no access *)

Definition held (w w' : world) : Prop := forall id, is_Some (heap w !! id) -> is_Some (heap w' !! id).

#[export] Instance held_preorder : PreOrder held.
Proof. split; [by intros w id|]. intros a b c Hab Hbc id H. by apply Hbc, Hab. Qed.

Lemma held_frame {A} (m : M A) : framed cmd_frame m -> framed held m.
Proof. intros Hm w x w' E id. unfold heap. by rewrite (cf_mmio _ _ (Hm _ _ _ E)). Qed.
Lemma held_modify (f : world -> world) : (forall w, heap (f w) = heap w) -> framed held (modify f).
Proof. intros Hf. apply framed_modify. intros w id. by rewrite Hf. Qed.
Lemma held_set id e : framed held (set_mmio id e).
Proof. apply framed_modify. intros w id' H. apply lookup_insert_is_Some'. by right. Qed.

Create HintDb held discriminated.
#[export] Hint Constants Opaque : held.
#[export] Hint Resolve held_set : held.
Ltac held := frames ltac:(first [solve [eauto 1 with held] | apply held_modify; reflexivity]).

Lemma held_get id : framed held (get_mmio id).
Proof. unfold get_mmio. held. Qed.
#[export] Hint Resolve held_get : held.
Lemma held_upd id f : framed held (upd_mmio_event id f).
Proof. unfold upd_mmio_event. held. Qed.
Lemma held_read {A} (f : AFU_EVENT -> Z * option A * AFU_EVENT) : framed held (read_event f).
Proof. unfold read_event. held. Qed.
#[export] Hint Resolve held_upd held_read : held.

Lemma held_turn : framed held (run_op Turn).
Proof.
  apply framed_bind; [exact _| |intros _; apply held_frame, frame_commands].
  unfold handle_responses, handle_ap_resp, handle_ap_resp_data, handle_cfg_resp, handle_mem_resp,
    head_event, take_data, pop_event, upd_mmio. held.
Qed.

(** ** The law *)

Lemma step_turn w w' :
  minv w -> minv w' -> run_op Turn w = Done tt w' -> queue_step w w'.
Proof.
  intros [[_ Hn Ha _ _ _ _ _] _] [[_ _ _ _ Hl _ _ _] _] E.
  destruct (does_turn w tt w' E) as (_ & k & new & Hk & Hnew & Hq & _).
  destruct new as [|? ?]; [|cbn in Hnew; lia]. rewrite app_nil_r in Hq.
  constructor. exists (take k (queue w)), []. rewrite length_take. split; [lia|]. split; [cbn; lia|].
  split; [exists (drop k (queue w)); by rewrite take_drop, app_nil_r|].
  split; [|by intros id ?%not_elem_of_nil]. intros id Hid.
  assert (Hin : id ∈ queue w) by (rewrite <- (take_drop k); apply elem_of_app; by left).
  destruct (held_turn w tt w' E id (Ha id Hin)) as [e He]. exists e. split; [done|].
  apply (Hl id e He). rewrite Hq. intros Hd. rewrite <- (take_drop k (queue w)) in Hn.
  apply list_relations.list.NoDup_app in Hn as (_ & Hx & _). by apply (Hx id).
Qed.

Lemma step_other w w' o :
  minv w -> o <> Turn -> run_op o w = Done tt w' -> queue_step w w'.
Proof.
  intros [[Hh _ _ _ _ _ _ _] _] Ho E.
  destruct (does_op o Ho w tt w' E) as (_ & k & new & Hk & Hnew & Hq & Hf).
  replace k with 0%nat in Hq by lia. rewrite drop_0 in Hq.
  constructor. exists [], new. split; [cbn; lia|]. split; [done|].
  split; [by exists (queue w)|]. split; [by intros id ?%not_elem_of_nil|].
  intros id Hid. destruct (heap w !! id) as [e|] eqn:He; [|done]. destruct (Hh id e He) as [Hlt _].
  rewrite list.Forall_forall in Hf. apply Hf in Hid. lia.
Qed.

Lemma step_none w w' : w_mmio w' = w_mmio w -> queue_step w w'.
Proof.
  intros E. constructor. exists [], []. split; [cbn; lia|]. split; [cbn; lia|].
  split; [exists (queue w); unfold queue; by rewrite E, app_nil_r|].
  split; by intros id ?%not_elem_of_nil.
Qed.

(** C20: in every state the thread can reach, whatever it does next, the queue of
    accesses moves as a queue: at most one access leaves it, the first one, and
    that one has been answered; those behind it stay, in their order; at most one
    joins, at the end, and it is one that did not exist before. *)
Theorem accesses_keep_their_order w w' : reachable w -> step w w' -> queue_step w w'.
Proof.
  intros Hr Hs. pose proof (proj2 (reachable_both w Hr)) as Hw.
  pose proof (proj2 (reachable_both w' (reach_step _ _ Hr Hs))) as Hw'.
  destruct Hs as [w w' o _ E|w afu _ _|w o|w i c _ _ _ _ _].
  - destruct o; [by apply step_turn|eapply step_other; [exact Hw| |exact E]; discriminate..].
  - by apply step_none.
  - by apply step_none.
  - by apply step_none.
Qed.

(** ** A run *)

(** Discovery asks for two accesses to configuration space, the first is driven,
    and the AFU answers it. *)
Definition cfg_credit : AFU_EVENT := sample_afu <| cfg_tlx_credits_available := 1 |>.
Definition two_asked : world := ran (Config 0 0x14 7) (ran (Config 0 0x10 5) run_start).
Definition one_driven : world := ran Drive (two_asked <| w_event := cfg_credit |>).
Definition cfg_answer : AFU_EVENT :=
  sample_afu <| cfg_tlx_resp_valid := 1 |> <| cfg_tlx_resp_opcode := 0x04 |>
    <| cfg_tlx_resp_capptag := CFG_WR_TAG |>.
Definition two_answered : world := one_driven <| w_event := cfg_answer |>.

Lemma two_answered_reachable : reachable two_answered.
Proof.
  pose proof sample_afu_wf as Hwf.
  assert (Hasked : reachable two_asked).
  { unfold two_asked. repeat (eapply reach_step; [|apply ran_step; [by vm_compute|by vm_compute]]).
    apply run_start_reachable. }
  assert (Hcredit : reachable (two_asked <| w_event := cfg_credit |>)).
  { eapply reach_step; [exact Hasked|]. apply (step_afu two_asked cfg_credit); [|done].
    unfold cfg_credit. solve_wf. }
  assert (Hdriven : reachable one_driven).
  { eapply reach_step; [exact Hcredit|]. apply (ran_step Drive); [done|by vm_compute]. }
  eapply reach_step; [exact Hdriven|]. apply (step_afu one_driven cfg_answer); [|done].
  unfold cfg_answer. solve_wf.
Qed.

Lemma two_answered_turn : op_ok two_answered Turn /\ runs_on Turn two_answered = true.
Proof.
  split; [|by vm_compute]. intros id e _ _. split; intros; [by vm_compute|].
  match goal with H : truthy (afu_tlx_resp_valid _) = true |- _ => by vm_compute in H end.
Qed.

Lemma accesses_keep_their_order_witness :
  queue_step two_answered (ran Turn two_answered) /\
  queue two_answered = [0; 1]%nat /\ queue (ran Turn two_answered) = [1]%nat.
Proof.
  split; [|split; by vm_compute].
  apply (accesses_keep_their_order two_answered); [exact two_answered_reachable|].
  apply ran_step; apply two_answered_turn.
Defined.

(** * What is in the queue *)

(** One access at a time: those behind the head have not been sent, none in the
    queue is done, those that have left it are; and a client's access is
    allocated and its own. *)
Record queue_sound (w : world) : Prop := QueueSound {
  qs_distinct : NoDup (queue w);
  qs_waiting : forall id, id ∈ tail (queue w) -> exists e, heap w !! id = Some e /\ me_state e = OCSE_IDLE;
  qs_open : forall id e, id ∈ queue w -> heap w !! id = Some e -> me_state e <> OCSE_DONE;
  qs_left : forall id e, heap w !! id = Some e -> id ∉ queue w -> me_state e = OCSE_DONE;
  qs_owned : forall i id, owns w i id -> is_Some (heap w !! id) /\ forall j, owns w j id -> j = i;
}.

(** C21: In every state the thread can reach the queue is sound: at most one access
    is outstanding at the AFU, no client waits for an access that does not
    exist, and no two for the same. *)
Theorem reachable_queue_sound w : reachable w -> queue_sound w.
Proof.
  intros Hr. destruct (proj2 (reachable_both w Hr)) as [[Hh Hn Ha Hw Hl Hac Ho _] Hd]. constructor.
  - exact Hn.
  - intros id Hid. destruct (Ha id (tail_in _ _ Hid)) as [e He]. exists e. split; [done|]. by apply (Hw id).
  - intros id e Hid He Hs. specialize (Hd id e Hid He). unfold is_done in Hd. by rewrite Hs in Hd.
  - exact Hl.
  - intros i id Hi. destruct (Hac i id Hi) as (e & He & _). split; [by exists e|]. intros j Hj.
    by apply (Ho j i id).
Qed.

(** One access is answered but still at the head, one waits. *)
Lemma reachable_queue_sound_witness : queue_sound two_answered /\ queue two_answered = [0; 1]%nat.
Proof. split; [exact (reachable_queue_sound two_answered two_answered_reachable)|by vm_compute]. Defined.
