(* ===== verification/MmioAck.v ===== *)
(** [handle_mmio_ack] of ocse/mmio.c, which took a response and its data at once.
    Nothing calls it any more: the thread calls [handle_ap_resp] and
    [handle_ap_resp_data] in its place.  Where the access has no data of its own
    to wait for, the three agree. *)
From stdpp Require Import gmap.
From S2P Require Import Prelude Utils Event TlxHost CmdState Cmd MmioState Mmio.
From S2P Require Import CmdFrame CmdLogic CmdInv Ocl MmioInv MmioRun CmdProps.

(** The bytes of the response that are kept, by the kind of the access;
    [read_data] is the variable, [mem_data] the array, both not initialised. *)
Record acked_data := AckData { ad_cfg : Z; ad_read : Z; ad_mem : list Z; ad_length : Z }.

Definition no_acked_data (read_data : Z) (mem_data : list Z) : acked_data := AckData 0 read_data mem_data 0.

Definition ack_data_of (event : mmio_event) (rdata_bus : list Z) (d : acked_data) : option acked_data :=
  if truthy (me_cfg event) then Some (AckData (le_val (take 4 rdata_bus)) (ad_read d) (ad_mem d) 4)
  else if me_size event =? 0 then
    let length := if me_cmd_pL event =? 2 then 4 else 8 in
    data ← slice rdata_bus (PA_offset event) length;
    Some (AckData (ad_cfg d) (le_val (overwrite (le_bytes 8 (ad_read d)) 0 data)) (ad_mem d) length)
  else
    data ← slice rdata_bus (PA_offset event) (me_size event);
    mem ← copy_at (ad_mem d) 0 data (me_size event);
    Some (AckData (ad_cfg d) (ad_read d) mem (me_size event)).

(** "Keep data for MMIO reads". *)
Definition keep_read_data (d : acked_data) (event : mmio_event) : option mmio_event :=
  if truthy (me_rnw event) then
    if truthy (me_cfg event) then Some (event <| me_cmd_data := ad_cfg d |>)
    else if me_size event =? 0 then Some (event <| me_cmd_data := ad_read d |>)
    else
      data ← copy_at (me_data event) 0 (ad_mem d) (ad_length d);
      Some (event <| me_data := data |>)
  else Some event.

(** The response: its code, its opcode, its data. *)
Definition take_ack (id : addr_t) (event : mmio_event) (junk : acked_data) (resp_code afu_resp_opcode : Z)
    (rdata : option (list Z)) : M unit :=
  if negb (bool_decide (me_state event = OCSE_PENDING)) then mret tt
  else
    d ← lift (match rdata with Some rdata_bus => ack_data_of event rdata_bus junk | None => Some junk end);
    e ← lift (keep_read_data d (event <| me_resp_code := resp_code |> <| me_resp_opcode := afu_resp_opcode |>));
    set_mmio id (e <| me_state := OCSE_DONE |>);;
    pop_event.

(** The list is not empty, or its head is read through a null pointer; the data
    of a response to a configuration write would be copied to one. *)
Definition handle_mmio_ack (read_data : Z) (mem_data : list Z) : M unit :=
  let junk := no_acked_data read_data mem_data in
  id ← head_event;
  event ← get_mmio id;
  if truthy (me_cfg event) then
    r ← read_event (take_cfg_resp (me_rnw event));
    match r with
    | None => mret tt
    | Some (resp, beat) =>
        if negb (truthy (me_rnw event)) && bool_decide (is_Some beat) then undef
        else take_ack id event junk (cr_code resp) (cr_opcode resp) (fst <$> beat)
    end
  else
    r ← read_event afu_tlx_read_resp_and_data;
    match r with
    | None => mret tt
    | Some (resp, beat) => take_ack id event junk (ar_code resp) (ar_opcode resp) (fst <$> beat)
    end.

(** * The two ways agree *)

Section agree.
Context (w : world) (id : addr_t) (l : list addr_t) (event : mmio_event).
Hypothesis (Hq : queue w = id :: l) (He : heap w !! id = Some event).

Lemma at_head {A} (k : addr_t -> mmio_event -> M A) :
  (id ← head_event; event ← get_mmio id; k id event) w = k id event w.
Proof.
  rewrite (bind_done _ _ w id w).
  - rewrite (bind_done _ _ w event w); [done|]. unfold get_mmio. rewrite bind_gets. unfold lift, heap in *. by rewrite He.
  - unfold head_event. rewrite bind_gets. unfold queue in Hq. by rewrite Hq.
Qed.

(** The second half, for an access without data to wait for. *)
Lemma data_half :
  truthy (me_cfg event) || negb (truthy (me_rnw event)) = true ->
  handle_ap_resp_data w = Done tt (if is_done event then pop_mm w else w).
Proof. intros Hk. unfold handle_ap_resp_data. rewrite at_head, Hk. by destruct (is_done event). Qed.
End agree.

(** An access that is not answered yet. *)
Lemma nothing_taken w id l event :
  queue w = id :: l -> heap w !! id = Some event -> me_state event <> OCSE_DONE ->
  truthy (me_cfg event) || negb (truthy (me_rnw event)) = true -> handle_ap_resp_data w = Done tt w.
Proof.
  intros Hq He Hs Hk. rewrite (data_half w id l event) by done. unfold is_done. by rewrite bool_decide_false.
Qed.

Lemma answered w id l event (f : mmio_event -> mmio_event) :
  queue w = id :: l -> heap w !! id = Some event -> me_state (f event) = OCSE_DONE ->
  truthy (me_cfg (f event)) || negb (truthy (me_rnw (f event))) = true ->
  (upd_mmio_event id f;; handle_ap_resp_data) w = Done tt (pop_mm (put_mm id (f event) w)).
Proof.
  intros Hq He Hs Hk. rewrite (bind_done _ _ w tt (put_mm id (f event) w)).
  - rewrite (data_half _ id l (f event)); [|done| |done].
    + unfold is_done. by rewrite bool_decide_true.
    + rewrite heap_put. apply lookup_insert_eq.
  - unfold upd_mmio_event. rewrite (bind_done _ _ w event w); [done|].
    unfold get_mmio. rewrite bind_gets. unfold lift, heap in *. by rewrite He.
Qed.

Lemma upd_step {A} id event (f : mmio_event -> mmio_event) (k : unit -> M A) w :
  heap w !! id = Some event -> (upd_mmio_event id f ≫= k) w = k tt (put_mm id (f event) w).
Proof.
  intros He. rewrite (bind_done _ _ w tt (put_mm id (f event) w)); [done|].
  unfold upd_mmio_event. rewrite (bind_done _ _ w event w); [done|].
  unfold get_mmio. rewrite bind_gets. unfold lift, heap in *. by rewrite He.
Qed.

Lemma put_mm_again id e e' w : put_mm id e' (put_mm id e w) = put_mm id e' w.
Proof. unfold put_mm. cbn. by rewrite insert_insert_eq. Qed.

(** An access without data of its own to wait for: a configuration access, or a
    write with whose response no data has come. *)
Definition no_data_due (event : mmio_event) (afu : AFU_EVENT) : Prop :=
  truthy (me_cfg event) = true \/ truthy (me_rnw event) = false /\ truthy (afu_tlx_rdata_valid afu) = false.

Lemma assoc {A B C} (m : M A) (k : A -> M B) (k' : B -> M C) w : ((m ≫= k) ≫= k') w = (m ≫= fun x => k x ≫= k') w.
Proof. unfold mbind, ST_bind. by destruct (m w). Qed.

Lemma bind_same {A B} (m m' : M A) (k : A -> M B) w : m w = m' w -> (m ≫= k) w = (m' ≫= k) w.
Proof. unfold mbind, ST_bind. by intros ->. Qed.
Lemma bind_ret {A B} (x : A) (k : A -> M B) w : (mret x ≫= k) w = k x w.
Proof. done. Qed.

Lemma cfg_answered_cfg resp beat e : me_cfg (cfg_answered resp beat e) = me_cfg e.
Proof. unfold cfg_answered. by destruct (truthy (me_rnw e)). Qed.
Lemma cfg_answered_state resp beat e : me_state (cfg_answered resp beat e) = OCSE_DONE.
Proof. unfold cfg_answered. by destruct (truthy (me_rnw e)). Qed.

Definition acked (d : acked_data) (code opcode : Z) (event : mmio_event) : option mmio_event :=
  e ← keep_read_data d (event <| me_resp_code := code |> <| me_resp_opcode := opcode |>);
  Some (e <| me_state := OCSE_DONE |>).

Lemma take_ack_done id event junk code opcode rdata d e w :
  me_state event = OCSE_PENDING ->
  (match rdata with Some rdata_bus => ack_data_of event rdata_bus junk | None => Some junk end) = Some d ->
  acked d code opcode event = Some e ->
  take_ack id event junk code opcode rdata w = Done tt (pop_mm (put_mm id e w)).
Proof.
  intros Hs Hd Ha. unfold take_ack. rewrite bool_decide_true by done. cbn [negb].
  rewrite (bind_lift _ _ d) by done. unfold acked in Ha.
  destruct (keep_read_data d _) as [e'|] eqn:E; [|done]. injection Ha as <-. by rewrite (bind_lift _ _ e').
Qed.

(** C25: the routine the comments describe does what the two that replaced it do
    in turn, for every access that has no data of its own to wait for, whatever
    the AFU answers, undefined behaviour included. *)
Theorem ack_agrees w id l event read_data mem_data :
  queue w = id :: l -> heap w !! id = Some event -> me_state event <> OCSE_DONE ->
  no_data_due event (w_event w) ->
  handle_mmio_ack read_data mem_data w = (handle_ap_resp;; handle_ap_resp_data) w.
Proof.
  intros Hq He Hs Hd. unfold handle_mmio_ack. rewrite (at_head w id l event) by done.
  assert (Hk : truthy (me_cfg event) || negb (truthy (me_rnw event)) = true).
  { destruct Hd as [-> | [-> _]]; [done|]. apply orb_true_r. }
  rewrite (bind_same _ (if truthy (me_cfg event) then handle_cfg_resp id event else handle_mem_resp id event))
    by (by apply (at_head w id l event Hq He (fun id event =>
          if truthy (me_cfg event) then handle_cfg_resp id event else handle_mem_resp id event))).
  assert (Hnone : forall afu, handle_ap_resp_data (w <| w_event := afu |>) = Done tt (w <| w_event := afu |>)).
  { intros afu. by apply (nothing_taken _ id l event). }
  destruct (truthy (me_cfg event)) eqn:Hcfg.
  - unfold handle_cfg_resp. rewrite assoc. unfold read_event. rewrite !assoc, !bind_gets.
    destruct (take_cfg_resp (me_rnw event) (w_event w)) as [[rc x] afu].
    rewrite !assoc, !bind_modify, !bind_ret.
    destruct (if rc =? TLX_SUCCESS then x else None) as [[resp beat]|]; [|symmetry; apply Hnone].
    destruct (negb (truthy (me_rnw event)) && bool_decide (is_Some beat)) eqn:Hundef; [done|].
    destruct (negb (bool_decide (me_state event = OCSE_PENDING))) eqn:Hpend;
      [unfold take_ack; rewrite Hpend; symmetry; apply Hnone|].
    rewrite (answered _ id l event (cfg_answered resp beat));
      [|done|done|by apply cfg_answered_state|by rewrite cfg_answered_cfg, Hcfg].
    apply negb_false_iff, bool_decide_eq_true in Hpend.
    destruct beat as [[bus bdi]|].
    + eapply take_ack_done; [done|cbn; unfold ack_data_of; by rewrite Hcfg|].
      unfold acked, keep_read_data, cfg_answered. cbn. rewrite Hcfg. by destruct (truthy (me_rnw event)).
    + eapply take_ack_done; [done|done|].
      unfold acked, keep_read_data, cfg_answered. cbn. rewrite Hcfg. by destruct (truthy (me_rnw event)).
  - destruct Hd as [Hd|[Hrnw Hdata]]; [congruence|].
    unfold handle_mem_resp. rewrite assoc. unfold read_event. rewrite !assoc, !bind_gets.
    unfold afu_tlx_read_resp_and_data, afu_tlx_read_resp. rewrite Hdata.
    destruct (negb (truthy (afu_tlx_resp_valid (w_event w)))).
    { rewrite !assoc, !bind_modify, !bind_ret. symmetry. apply Hnone. }
    rewrite !assoc, !bind_modify, !bind_ret. change (TLX_SUCCESS =? TLX_SUCCESS) with true. cbv iota.
    destruct (negb (bool_decide (me_state event = OCSE_PENDING))) eqn:Hpend;
      [unfold take_ack; rewrite Hpend; symmetry; apply Hnone|].
    apply negb_false_iff, bool_decide_eq_true in Hpend.
    rewrite !assoc. rewrite (upd_step id event) by done. rewrite Hrnw.
    set (e1 := event <| me_resp_code := _ |> <| me_resp_opcode := _ |>).
    rewrite (answered _ id l e1); [|done|rewrite heap_put; apply lookup_insert_eq|done|rewrite <- Hcfg in Hk; exact Hk].
    rewrite put_mm_again. eapply take_ack_done; [done|done|].
    unfold acked, keep_read_data. cbn. by rewrite Hrnw.
Qed.

(** A pending read of the configuration, and its answer. *)
Definition pending_access : mmio_event :=
  sample_raw <| me_cfg := 1 |> <| me_rnw := 1 |> <| me_state := OCSE_PENDING |>.
Definition answered_world : world :=
  sample_world 128 [] sample_client
    <| w_mmio := sample_mmio <| mm_list := [1%nat] |> <| mm_heap := {[1%nat := pending_access]} |> |>
    <| w_event := sample_afu <| cfg_tlx_resp_valid := 1 |> <| cfg_tlx_resp_capptag := CFG_RD_TAG |>
         <| cfg_tlx_resp_opcode := AFU_RSP_MEM_RD_RESP |> <| cfg_tlx_rdata_bus := [1; 2; 3; 4] |> |>.

Lemma ack_agrees_witness :
  handle_mmio_ack 7 [] answered_world = (handle_ap_resp;; handle_ap_resp_data) answered_world /\
  match handle_mmio_ack 7 [] answered_world with
  | Done _ w' => queue w' = [] /\ (me_cmd_data <$> heap w' !! 1%nat) = Some 0x04030201
  | _ => False
  end.
Proof.
  split; [|vm_compute; split; reflexivity].
  apply (ack_agrees answered_world 1%nat [] pending_access); [reflexivity|reflexivity|discriminate|by left].
Defined.
