(* ===== verification/OclLoop.v ===== *)
(** ocse/ocl.c: a turn of the thread's loop over the socket of the AFU and those
    of the clients, the loop, what it does when it ends, and what [ocl_init] does
    before it starts.

    The loop holds the lock of the server except where it pauses; what the other
    threads do there is given from outside, and so is what has arrived on the
    sockets.  [ocl->client] is null until discovery is over: [known].  The code
    that resets the AFU when a client drops its context is never reached, the
    flag it tests is cleared before it and set nowhere. *)
From stdpp Require Import relations.
From S2P Require Import Prelude Utils Event Sock TlxWire Handshake TlxHost TlxAfu Parms.
From S2P Require Import CmdState Cmd CmdHandlers CmdFrame CmdLogic CmdInv Mmio Ocl MmioInv OclInv.
From S2P Require Import CmdSafeResp Link EventEq Cycle CmdProps OclProps.

(** * A turn *)

(** Client [i], with the bytes on its socket. *)
Definition serve_slot (fuel i : nat) (s : stream) : M stream :=
  cs ← gets w_clients;
  slot ← lift (cs !! i);
  match slot with
  | None => mret s
  | Some c =>
      if sweep_gone c then sweep_leave i;; mret s
      else
        o ← gets w_ocl;
        if bool_decide (ol_state o = OCSE_RESET) then mret s
        else s ← _handle_client fuel i s; sweep_client i;; mret s
  end.

(** [for (i = 0; i < ocl->max_clients; i++)] *)
Fixpoint serve_slots (fuel : nat) (idxs : list nat) (ss : list stream) : M (list stream) :=
  match idxs with
  | [] => mret ss
  | i :: idxs =>
      s ← lift (ss !! i);
      s ← serve_slot fuel i s;
      serve_slots fuel idxs (<[i := s]> ss)
  end.

(** [None] when the connection to the AFU is lost. *)
Definition ocl_turn (fuel : nat) (known : bool) (c : conn) (ss : list stream)
    : M (option (conn * list stream)) :=
  '(up, c) ← clock_afu c;
  if negb up then mret None
  else if negb known then mret (Some (c, ss))
  else
    max ← gets w_max_clients;
    ss ← serve_slots fuel (seq 0 (Z.to_nat max)) ss;
    mret (Some (c, ss)).

(** * The loop *)

(** While the lock is free: what the other threads make of the world, what
    arrives at the clients' sockets, whether discovery is over. *)
Record pause := Pause {
  pa_world : world -> world;
  pa_streams : list stream -> list stream;
  pa_known : bool;
}.

Inductive loop_end := Stopped | Lost | Paused (c : conn) (ss : list stream).

Fixpoint _ocl_loop (fuel : nat) (known : bool) (pauses : list pause) (c : conn) (ss : list stream)
    : M loop_end :=
  o ← gets w_ocl;
  if bool_decide (ol_state o = OCSE_DONE) then mret Stopped
  else
    r ← ocl_turn fuel known c ss;
    match r with
    | None => mret Lost
    | Some (c, ss) =>
        match pauses with
        | [] => mret (Paused c ss)
        | p :: pauses =>
            modify (pa_world p);;
            _ocl_loop fuel (pa_known p) pauses c (pa_streams p ss)
        end
    end.

(** ** Its end *)

Section ending.
(** Whether the operating system shuts a socket down. *)
Context (shutdown : Z -> bool).

(** [close_socket] on the clients that are left; the result is the sockets that
    were closed. *)
Fixpoint disconnect (idxs : list nat) : M (list Z) :=
  match idxs with
  | [] => mret []
  | i :: idxs =>
      cs ← gets w_clients;
      slot ← lift (cs !! i);
      match slot with
      | None => disconnect idxs
      | Some c =>
          if shutdown (cl_fd c) then
            upd_client i (fun c => c <| cl_fd := -1 |>);;
            fds ← disconnect idxs;
            mret (cl_fd c :: fds)
          else disconnect idxs
      end
  end.

Definition disconnect_clients (known : bool) : M (list Z) :=
  max ← gets w_max_clients;
  if known then disconnect (seq 0 (Z.to_nat max)) else mret [].
End ending.

(** * Before the loop *)

Definition MAX_TLX_AFU_CMD_CREDITS : Z := 8.
Definition MAX_TLX_AFU_CMD_DATA_CREDITS : Z := 32.
Definition MAX_TLX_AFU_RESP_CREDITS : Z := 7.
Definition MAX_TLX_AFU_RESP_DATA_CREDITS : Z := 32.

Inductive opening := Connecting | NotConnected | Opened (w : world) (c : conn).

(** [ocl_init] up to the start of the thread: the handshake with the simulator,
    the components, the first credits.  [raw] is what [malloc] gave. *)
Definition ocl_open (fuel : nat) (raw : AFU_EVENT) (sock : option Z) (c : conn) (p : parms) (mm : mmio)
    (junk : Z) (ds : draws) : option opening :=
  '(rc, e, c) ← tlx_init_afu_event fuel raw sock c;
  match rc with
  | None => Some Connecting
  | Some rc =>
      if negb (rc =? TLX_SUCCESS) then Some NotConnected
      else
        let w := cmd_init e p mm (Ocl OCSE_DESC 0 TLX_IDLE_CYCLES junk) ds in
        let '(_, e) := tlx_afu_send_initial_credits e MAX_TLX_AFU_CMD_CREDITS MAX_TLX_AFU_RESP_CREDITS
                         MAX_TLX_AFU_CMD_DATA_CREDITS MAX_TLX_AFU_RESP_DATA_CREDITS in
        '(_, e, c) ← tlx_signal_afu_model e c;
        Some (Opened (w <| w_event := e |>) c)
  end.

(** The AFU's credits, before discovery. *)
Definition first_events (c : conn) : M conn :=
  afu ← gets w_event;
  '(events, afu, c) ← lift (tlx_get_afu_events afu c);
  modify (fun w => w <| w_event := afu |>);;
  when_ (0 <? events) _handle_afu;;
  mret c.

(** After discovery, which has found room for [max] clients. *)
Definition finish_init (max : Z) : M unit :=
  upd_ocl (fun o => o <| ol_state := OCSE_IDLE |>);;
  if max =? 0 then exit_process
  else modify (fun w => w <| w_clients := replicate (Z.to_nat max) None |> <| w_max_clients := max |>).

(** * What a client's turn leaves in place *)

Definition slots_kept (w w' : world) : Prop :=
  length (w_clients w') = length (w_clients w) /\ forall i, present w i -> present w' i.

#[export] Instance slots_kept_preorder : PreOrder slots_kept.
Proof.
  split; [intros w; by split|]. intros a b c [L1 P1] [L2 P2]. split; [congruence|auto].
Qed.

Lemma slots_same w w' : w_clients w' = w_clients w -> slots_kept w w'.
Proof. unfold slots_kept, present. by intros ->. Qed.

Lemma slots_upd i f : framed slots_kept (upd_client i f).
Proof.
  apply framed_modify. intros w. split; [apply length_alter|]. intros j [c Hc]. unfold present. cbn.
  destruct (decide (j = i)) as [->|Hj].
  - exists (f c). by rewrite list_lookup_alter_eq, Hc.
  - exists c. by rewrite list_lookup_alter_ne.
Qed.

Lemma slots_put fd l : framed slots_kept (put_bytes fd l).
Proof.
  intros w b w'. unfold put_bytes. destruct (w_put_ok w) as [|[] oks]; intros [= _ <-]; by apply slots_same.
Qed.

Create HintDb slots discriminated.
#[export] Hint Constants Opaque : slots.
#[export] Hint Resolve slots_upd slots_put : slots.

Ltac slots :=
  frames ltac:(first [ solve [eauto 1 with slots] | apply framed_modify; intros; by apply slots_same ]).

Lemma slots_get id : framed slots_kept (get_mmio id).
Proof. unfold get_mmio. slots. Qed.
Lemma slots_event id : framed slots_kept (get_event id).
Proof. unfold get_event. intros w e w' E. by destruct (find _ _); [injection E as _ <-|]. Qed.
Lemma slots_upd_event id f : framed slots_kept (upd_event id f).
Proof. unfold upd_event. slots. Qed.
Lemma slots_client i : framed slots_kept (the_client i).
Proof. unfold the_client. slots. Qed.
Lemma slots_answer i c l : framed slots_kept (answer i c l).
Proof. unfold answer, drop_client. slots. Qed.
Lemma slots_drop i : framed slots_kept (drop_client i).
Proof. unfold drop_client. slots. Qed.
#[export] Hint Resolve slots_get slots_event slots_upd_event slots_client slots_answer slots_drop : slots.

Lemma slots_receive fuel i c size s k :
  (forall l s', framed slots_kept (k l s')) -> framed slots_kept (receive fuel i c size s k).
Proof. intros Hk. unfold receive. destruct (get_bytes_silent _ _ _ _); first [apply Hk | slots]. Qed.

Lemma slots_add c rnw dw global addr cfg data : framed slots_kept (_add_event c rnw dw global addr cfg data).
Proof. unfold _add_event, malloc_event, upd_mmio, append_event. slots. Qed.
Lemma slots_add_mem c rnw size region addr data bv be :
  framed slots_kept (_add_mem c rnw size region addr data bv be).
Proof. unfold _add_mem, _add_mem_event, malloc_event, upd_mmio, append_event. slots. Qed.
#[export] Hint Resolve slots_add slots_add_mem : slots.

Lemma slots_mmio_read fuel i dw global s : framed slots_kept (_handle_mmio_read fuel i dw global s).
Proof. unfold _handle_mmio_read, _add_mmio. slots. apply slots_receive; intros. slots. Qed.
Lemma slots_mmio_write fuel i dw global s : framed slots_kept (_handle_mmio_write fuel i dw global s).
Proof.
  unfold _handle_mmio_write, _add_mmio. slots. apply slots_receive; intros. cbv zeta.
  destruct (truthy dw); (apply slots_receive; intros); cbv zeta; slots.
Qed.
#[export] Hint Resolve slots_mmio_read slots_mmio_write : slots.
Lemma slots_mmio fuel i rnw dw global s : framed slots_kept (handle_mmio fuel i rnw dw global s).
Proof. unfold handle_mmio. slots. Qed.
Lemma slots_mem fuel i rnw region bv s : framed slots_kept (handle_mem fuel i rnw region bv s).
Proof. unfold handle_mem, _handle_mem_read, _handle_mem_write, malloc_bytes. repeat first [apply slots_receive; intros | progress slots]. Qed.
Lemma slots_map i : framed slots_kept (handle_mmio_map i).
Proof. unfold handle_mmio_map. slots. Qed.
Lemma slots_done i : framed slots_kept (handle_mmio_done i).
Proof. unfold handle_mmio_done, free_mmio, upd_mmio. slots. Qed.
Lemma slots_mem_ack fuel i ok s : framed slots_kept (memory_ack fuel i ok s).
Proof. unfold memory_ack, handle_mem_return, handle_aerror. slots. Qed.
Lemma slots_attach i : framed slots_kept (_attach i).
Proof. unfold _attach, upd_ocl. slots. Qed.
Lemma slots_shuts_down : framed slots_kept shuts_down.
Proof. intros w ok w'. unfold shuts_down. destruct (w_put_ok w); by intros [= _ <-]. Qed.
Lemma slots_detach i : framed slots_kept (_detach i).
Proof.
  unfold _detach, forget_client, close_client, count_detach, upd_ocl.
  repeat first [progress slots | apply slots_shuts_down].
Qed.
#[export] Hint Resolve slots_mmio slots_mem slots_map slots_done slots_mem_ack slots_attach slots_detach : slots.

Lemma slots_message fuel i op s : framed slots_kept (client_message fuel i op s).
Proof. unfold client_message. slots. Qed.
#[export] Hint Resolve slots_message : slots.
Lemma slots_handle_client fuel i s : framed slots_kept (_handle_client fuel i s).
Proof. unfold _handle_client, finish_access, set_mmio_access, refresh_client. slots. Qed.

(** * The number of slots *)

Definition max_kept (w w' : world) : Prop := w_max_clients w' = w_max_clients w.

#[export] Instance max_kept_preorder : PreOrder max_kept.
Proof. split; [done|]. unfold max_kept. congruence. Qed.

Lemma max_frame {A} (m : M A) : framed cmd_frame m -> framed max_kept m.
Proof. intros Hm w x w' E. exact (cf_max _ _ (Hm _ _ _ E)). Qed.

Ltac max_leaf :=
  first [ apply framed_modify; reflexivity
        | apply max_frame; first [apply frame_put_bytes | apply frame_the_client | apply frame_commands | apply frame_upd_ocl] ].

Lemma max_drive : framed max_kept drive_afu.
Proof.
  unfold drive_afu, send_mmio, upd_mmio_event, get_mmio, host_send, head_event, upd_mmio.
  frames ltac:(max_leaf).
Qed.
Lemma max_handle_afu : framed max_kept _handle_afu.
Proof.
  unfold _handle_afu, handle_responses, handle_ap_resp, handle_ap_resp_data, handle_cfg_resp, handle_mem_resp,
    take_data, pop_event, read_event, upd_mmio_event, set_mmio, get_mmio, host_send, head_event, upd_mmio.
  frames ltac:(max_leaf).
Qed.

(** * The loop goes along steps *)

Definition on_path (w0 w : world) : Prop := rtc step w0 w /\ both w.

(** An operation whose demands on the environment are met. *)
Lemma op_path w0 w o : on_path w0 w -> op_ok w o -> wp (run_op o) (fun _ w' => on_path w0 w') w.
Proof.
  intros [Hp Hb] Ho. pose proof (run_op_ok w o Hb Ho) as H. unfold wp in *.
  destruct (run_op o w) as [[] w'| | |] eqn:E; try done. split; [|done].
  eapply rtc_r; [exact Hp|]. by eapply step_op.
Qed.

Lemma env_path w0 w w' : on_path w0 w -> both w' -> step w w' -> on_path w0 w'.
Proof. intros [Hp _] Hb Hs. split; [by eapply rtc_r|done]. Qed.

Lemma serve_path fuel i s w0 w :
  on_path w0 w -> ack_ok w i s -> request_ok w i (incoming s) ->
  wp (_handle_client fuel i s) (fun _ w' => on_path w0 w' /\ slots_kept w w') w.
Proof.
  intros [Hp Hb] Ha Hr. pose proof (handle_client_ok fuel i s w Hb Ha Hr) as H. unfold wp in *.
  destruct (_handle_client fuel i s w) as [s' w'| | |] eqn:E; try done. split; [split; [|done]|].
  - eapply rtc_r; [exact Hp|]. apply (step_op _ _ (Serve fuel i s)); [by split|].
    cbn [run_op]. unfold mbind, ST_bind. by rewrite E.
  - by eapply slots_handle_client.
Qed.

(** What is asked of client [i] when the thread comes to it. *)
Definition client_legal (w : world) (i : nat) (s : stream) : Prop :=
  present w i -> ack_ok w i s /\ request_ok w i (incoming s).

(** The same of each client, in the states the walk over the slots goes through. *)
Fixpoint clients_legal (fuel : nat) (idxs : list nat) (ss : list stream) (w : world) : Prop :=
  match idxs with
  | [] => True
  | i :: idxs =>
      forall s, ss !! i = Some s ->
        client_legal w i s /\
        forall s' w', serve_slot fuel i s w = Done s' w' -> clients_legal fuel idxs (<[i := s']> ss) w'
  end.

Lemma slots_sweep i : framed slots_kept (sweep_client i).
Proof. unfold sweep_client, client_cmd. slots. Qed.
Definition length_kept (w w' : world) : Prop := length (w_clients w') = length (w_clients w).
#[export] Instance length_kept_preorder : PreOrder length_kept.
Proof. split; [done|]. unfold length_kept. congruence. Qed.
Lemma length_leave i : framed length_kept (sweep_leave i).
Proof.
  unfold sweep_leave. apply framed_bind; [exact _|intros w c w' E; by destruct (slots_client i w c w' E)|].
  intros c. apply framed_when; [exact _|]. apply framed_bind; [exact _| |].
  - intros w b w' E. by destruct (slots_put (cl_fd c) [OCSE_DETACH] w b w' E).
  - intros _. apply framed_modify. intros w. apply length_insert.
Qed.

(** One slot, with what it leaves in place. *)
Lemma serve_slot_path fuel i s w0 w :
  on_path w0 w -> client_legal w i s -> (i < length (w_clients w))%nat ->
  wp (serve_slot fuel i s) (fun _ w' => on_path w0 w' /\ length (w_clients w') = length (w_clients w)) w.
Proof.
  intros Hp Hleg Hi. unfold serve_slot. apply wp_gets_bind.
  destruct (lookup_lt_is_Some_2 _ _ Hi) as [slot Hslot]. wp_next. apply (wp_lift _ slot); [done|].
  destruct slot as [c|]; [|by apply wp_ret].
  assert (Hpres : present w i) by (by exists c).
  destruct (sweep_gone c).
  - wp_next. pose proof (op_path w0 w (Leave i) Hp Hpres) as H. cbn [run_op] in H.
    unfold wp in *. destruct (sweep_leave i w) as [[] w'| | |] eqn:E; try done. split; [done|].
    by eapply length_leave.
  - apply wp_gets_bind. destruct (bool_decide _); [by apply wp_ret|].
    destruct (Hleg Hpres) as [Ha Hr].
    wp_next. eapply wp_mono; [by apply serve_path|]. intros s' w1 [Hp1 [Hl1 Hk]].
    wp_next. pose proof (op_path w0 w1 (Sweep i) Hp1 (Hk i Hpres)) as H. cbn [run_op] in H.
    unfold wp in *. destruct (sweep_client i w1) as [[] w'| | |] eqn:E; try done. split; [done|].
    rewrite <- Hl1. by eapply slots_sweep.
Qed.

(** The slots in turn. *)
Lemma serve_slots_path fuel idxs ss w0 w n :
  on_path w0 w -> clients_legal fuel idxs ss w -> (forall i, i ∈ idxs -> (i < n)%nat) ->
  (n <= length (w_clients w))%nat -> (n <= length ss)%nat ->
  wp (serve_slots fuel idxs ss) (fun _ w' => on_path w0 w') w.
Proof.
  revert ss w. induction idxs as [|i idxs IH]; intros ss w Hp Hleg Hlt Hn Hlen; [by apply wp_ret|].
  cbn [serve_slots].
  assert (Hin : (i < n)%nat) by (apply Hlt; set_solver).
  destruct (lookup_lt_is_Some_2 ss i) as [s Hs]; [lia|].
  wp_next. apply (wp_lift _ s); [done|]. wp_next. destruct (Hleg s Hs) as [Hc Hnext].
  pose proof (serve_slot_path fuel i s w0 w Hp Hc ltac:(lia)) as H. unfold wp in H |- *.
  destruct (serve_slot fuel i s w) as [s' w1| | |] eqn:E; try done. destruct H as [Hp1 Hl1].
  apply IH; [done|by apply Hnext| |lia|by rewrite length_insert].
  intros j Hj. apply Hlt. set_solver.
Qed.

(** The exchange of a turn: the frame of the AFU, and what is asked of it. *)
Definition exchange_legal (w : world) (c : conn) : Prop :=
  truthy (ol_idle_cycles (refresh_idle (w_ocl w))) = true ->
  exists rc afu1 c1 events afu2 c2,
    tlx_signal_afu_model (w_event w) c = Some (rc, afu1, c1) /\
    tlx_get_afu_events afu1 c1 = Some (events, afu2, c2) /\
    event_wf afu2 /\ legal_intrp (get_afu_cmd afu2) /\ turn_ok (w <| w_event := afu2 |>).

Lemma clock_path c w0 w :
  on_path w0 w -> exchange_legal w c ->
  wp (clock_afu c) (fun _ w' => on_path w0 w' /\ w_max_clients w' = w_max_clients w) w.
Proof.
  intros Hp Hex. unfold clock_afu, upd_ocl. apply wp_modify_bind. set (w1 := w <| w_ocl := _ |>).
  assert (Hp1 : on_path w0 w1).
  { apply (env_path w0 w); [done| |apply step_ocl]. apply (both_frame w); [apply Hp|by apply inv_ocl, Hp|by apply cmd_frame_same]. }
  apply wp_gets_bind. change (w_ocl w1) with (refresh_idle (w_ocl w)).
  destruct (truthy (ol_idle_cycles (refresh_idle (w_ocl w)))) eqn:Hidle; [|by apply wp_ret].
  destruct (Hex Hidle) as (rc & afu1 & c1 & events & afu2 & c2 & E1 & E2 & Hwf & Hint & Ht).
  apply wp_gets_bind. change (w_event w1) with (w_event w).
  wp_next. apply (wp_lift _ (rc, afu1, c1)); [done|]. wp_next.
  apply (wp_lift _ (events, afu2, c2)); [done|]. apply wp_modify_bind.
  set (w2 := w1 <| w_event := afu2 |>).
  assert (Hp2 : on_path w0 w2).
  { apply (env_path w0 w1); [done| |by apply step_afu].
    apply (both_frame w1); [apply Hp1| |by apply cmd_frame_same]. destruct Hp1 as [_ [[] _]]. by constructor. }
  destruct (events <? 0); [by apply wp_ret|].
  wp_next. apply (wp_mono _ (fun _ w' => on_path w0 w' /\ w_max_clients w' = w_max_clients w)).
  - apply wp_when; intros _; [|done].
    pose proof (op_path w0 w2 Turn Hp2 Ht) as H. cbn [run_op] in H. unfold wp in *.
    destruct (_handle_afu w2) as [[] w3| | |] eqn:E; try done. split; [done|]. by apply max_handle_afu in E.
  - intros [] w3 [Hp3 Hm3]. wp_next. pose proof (op_path w0 w3 Drive Hp3 I) as H. cbn [run_op] in H.
    unfold wp in *. destruct (drive_afu w3) as [[] w4| | |] eqn:E; try done. split; [done|].
    apply max_drive in E. unfold max_kept in E. by rewrite E.
Qed.

(** A turn, with clients that say legal things at whatever point it comes to them. *)
Definition turn_legal (fuel : nat) (c : conn) (ss : list stream) (w : world) : Prop :=
  exchange_legal w c /\
  (forall r w1, clock_afu c w = Done r w1 ->
     clients_legal fuel (seq 0 (Z.to_nat (w_max_clients w))) ss w1) /\
  (Z.to_nat (w_max_clients w) <= length ss)%nat.

Lemma on_path_reachable w w' : reachable w -> rtc step w w' -> reachable w'.
Proof. intros Hr Hp. induction Hp; [done|]. apply IHHp. by eapply reach_step. Qed.

Lemma turn_path fuel known c ss w :
  reachable w -> turn_legal fuel c ss w ->
  wp (ocl_turn fuel known c ss) (fun _ w' => rtc step w w' /\ reachable w') w.
Proof.
  intros Hr (Hex & Hleg & Hlen).
  apply (wp_mono _ (fun _ w' => on_path w w')).
  2: { intros _ w' [Hp _]. split; [done|by eapply on_path_reachable]. }
  assert (Hp0 : on_path w w) by (split; [apply rtc_refl|by apply reachable_both]).
  unfold ocl_turn. wp_next. pose proof (clock_path c w w Hp0 Hex) as H. unfold wp in H |- *.
  destruct (clock_afu c w) as [[up c1] w1| | |] eqn:E; try done. destruct H as [Hp1 Hm1].
  specialize (Hleg _ _ eq_refl).
  destruct (negb up); [by apply wp_ret|]. destruct (negb known); [by apply wp_ret|].
  apply wp_gets_bind. rewrite Hm1. wp_next.
  pose proof (iv_max _ _ (proj1 (proj2 Hp1))) as [[H0 Hmax] _].
  apply (wp_mono _ (fun _ w' => on_path w w')); [|intros ss' w2 Hp2; by apply wp_ret].
  apply (serve_slots_path fuel _ ss w w1 (Z.to_nat (w_max_clients w))); try done.
  - intros i Hi. apply elem_of_seq in Hi. lia.
  - rewrite Hm1 in Hmax. lia.
Qed.

(** The turns of a run, in the states it goes through; while the lock is free the
    other threads make steps. *)
Fixpoint loop_legal (fuel : nat) (known : bool) (pauses : list pause) (c : conn) (ss : list stream)
    (w : world) : Prop :=
  turn_legal fuel c ss w /\
  match pauses with
  | [] => True
  | p :: pauses =>
      forall c' ss' w', ocl_turn fuel known c ss w = Done (Some (c', ss')) w' ->
        rtc step w' (pa_world p w') /\
        loop_legal fuel (pa_known p) pauses c' (pa_streams p ss') (pa_world p w')
  end.

(** C2: for an environment that keeps to the rules, the thread does only what the
    step relation says.  However many turns its loop makes - the exchange with
    the AFU, the handlers, the access that is driven, every client in its slot -
    it has no undefined behaviour and is a sequence of steps, so that what holds
    in every reachable state holds after the real loop.  The rules
    ([loop_legal]) are that every exchange with the AFU is defined and leaves a
    well-formed event with legal answers, that the clients' messages are legal at
    the points where the thread comes to them, and that what other threads do
    while it lets go of the lock is a sequence of steps of the relation: an
    attaching client is one, the clean-up of a client that is still in its slot
    (ocse.c:804) is not. *)
Theorem loop_is_path fuel known pauses c ss w :
  reachable w -> loop_legal fuel known pauses c ss w ->
  wp (_ocl_loop fuel known pauses c ss) (fun _ w' => rtc step w w' /\ reachable w') w.
Proof.
  revert known c ss w. induction pauses as [|p pauses IH]; intros known c ss w Hr [Ht Hrest];
    cbn [_ocl_loop]; apply wp_gets_bind; (destruct (bool_decide _); [by apply wp_ret|]);
    wp_next; pose proof (turn_path fuel known c ss w Hr Ht) as H; unfold wp in H |- *;
    destruct (ocl_turn fuel known c ss w) as [[[c' ss']|] w'| | |] eqn:E; try done.
  destruct H as [Hp Hr']. destruct (Hrest c' ss' w' eq_refl) as [Hq Hl].
  apply wp_modify_bind. eapply wp_mono; [apply IH; [by eapply on_path_reachable|exact Hl]|].
  intros e w2 [H1 H2]. split; [|done]. etransitivity; [exact Hp|]. by etransitivity.
Qed.

(** ** A turn with a command *)

Lemma received_equiv m e e' : e ≡ e' -> receive_afu m (e <| clock := 0 |>) ≡ receive_afu m (e' <| clock := 0 |>).
Proof.
  intros H. apply (set_clock_equiv _ _ 0) in H. unfold receive_afu.
  destruct (afu_idle m); [exact H|by apply deliver_afu_proper].
Qed.

Lemma set_tbuf_rbp e v : rbp (e <| tbuf := v |>) = rbp e.
Proof. done. Qed.

Lemma signalled e c :
  event_wf e -> counts_ok e -> clock e = 0 -> no_fail (c_plan c) ->
  exists e1 (tx : list Z) (plan' : list write_step),
    tlx_signal_afu_model e c = Some (TLX_SUCCESS, e1, Conn (c_rx c) (c_end c) tx plan') /\
    event_wf e1 /\ rbp e1 = rbp e /\ e1 ≡ host_sent e.
Proof.
  intros Hwf Hc Hk Hp. destruct (signal_afu_model_eq e c Hwf Hc Hk Hp) as (plan' & _ & Hs).
  do 3 eexists. split; [exact Hs|]. split.
  - apply field_set; [by apply host_sent_wf|].
    apply host_frame_array; [by apply host_msg_of_wf|by eapply field_get].
  - split; [|apply set_tbuf_equiv]. rewrite set_tbuf_rbp. apply host_sent_rbp.
Qed.

(** A frame from a well-behaved AFU makes a legal exchange. *)
Lemma exchange_frame m rest w c :
  let e := w_event w in
  event_wf e -> counts_ok e -> clock e = 0 -> rbp e = 0 -> no_fail (c_plan c) -> afu_msg_wf m ->
  c_rx c = [Chunk (encode_afu m ++ rest)] ->
  (forall e', event_wf e' -> e' ≡ receive_afu m (host_sent e <| clock := 0 |>) ->
     legal_intrp (get_afu_cmd e') /\ turn_ok (w <| w_event := e' |>)) ->
  exchange_legal w c.
Proof.
  cbv zeta. intros Hwf Hc Hk Hr Hp Hm Hrx He _.
  destruct (signalled (w_event w) c Hwf Hc Hk Hp) as (e1 & tx & plan' & Hs & Hwf1 & Hr1 & Hq).
  rewrite Hrx in Hs. rewrite <- Hr1 in Hr.
  destruct (get_afu_events_eq m e1 rest [] (c_end c) tx plan' Hwf1 Hr Hm) as (e' & Hg & Hwf' & _ & Heq).
  exists TLX_SUCCESS, e1, (Conn [Chunk (encode_afu m ++ rest)] (c_end c) tx plan'), 1, e',
    (Conn (put_back rest []) (c_end c) tx plan').
  split; [exact Hs|]. split; [exact Hg|]. split; [exact Hwf'|]. apply He; [exact Hwf'|].
  etransitivity; [exact Heq|]. by apply received_equiv.
Qed.

Definition cmd_msg : afu_msg := AfuMsg (Some read_cmd) None None None None None.

(** The AFU sends a command, the attached client nothing. *)
Definition cmd_conn : conn := Conn [Chunk (encode_afu cmd_msg)] EndIdle [] [].
Definition silent : stream := Stream [] [] false.

Lemma cmd_seen e' :
  e' ≡ receive_afu cmd_msg (host_sent (w_event run_attached) <| clock := 0 |>) -> get_afu_cmd e' = read_cmd.
Proof.
  intros He. unfold equiv, event_equiv in He. apply (f_equal get_afu_cmd) in He.
  assert (Hc : get_afu_cmd (strip (receive_afu cmd_msg (host_sent (w_event run_attached) <| clock := 0 |>))) = read_cmd)
    by (vm_compute; reflexivity).
  rewrite Hc in He. exact He.
Qed.

Lemma cmd_exchange : exchange_legal run_attached cmd_conn.
Proof.
  apply (exchange_frame cmd_msg []).
  - apply sample_afu_wf.
  - by vm_compute.
  - by vm_compute.
  - by vm_compute.
  - apply not_elem_of_nil.
  - split; [|done]. cbn. unfold afu_cmd_ok. split_and!; cbn; try done.
    split; [done|]. by repeat constructor.
  - by rewrite app_nil_r.
  - intros e' _ He. split.
    + unfold legal_intrp. rewrite (cmd_seen e' He). by intros [=].
    + intros id e H. vm_compute in H. done.
Qed.

Definition ages_lowb (p : pages) : bool := forallb (forallb (fun a => a <? AGE_MAX)) (pg_age p).

Lemma ages_lowb_ok p : ages_lowb p = true -> ages_low p.
Proof.
  unfold ages_lowb, ages_low. rewrite forallb_forall. intros H row ages i a Hr Hi.
  apply list_elem_of_lookup_2, list_elem_of_In, H in Hr. rewrite forallb_forall in Hr.
  apply list_elem_of_lookup_2, list_elem_of_In, Hr in Hi. lia.
Qed.

Lemma silent_ok w i : ages_low (w_pages w) -> client_legal w i silent.
Proof. intros Ha Hp. split; [|by intros c op rest _ [=]]. split_and!; [done|by split; constructor|done]. Qed.

Lemma silent_legal fuel w1 : ages_low (w_pages w1) -> clients_legal fuel (seq 0 1) [silent] w1.
Proof. intros Ha s [= <-]. split; [by apply silent_ok|done]. Qed.

Lemma cmd_clocked r w1 : clock_afu cmd_conn run_attached = Done r w1 -> ages_low (w_pages w1).
Proof.
  intros E. apply ages_lowb_ok.
  assert (Hm : match clock_afu cmd_conn run_attached with Done _ w1 => ages_lowb (w_pages w1) | _ => true end = true)
    by (by vm_compute).
  by rewrite E in Hm.
Qed.

(** While the lock is free the AFU goes idle and its clock stops. *)
Definition go_idle (w : world) : world := w <| w_ocl := Ocl OCSE_IDLE 0 0 0 |>.
Definition idle_pause : pause := Pause go_idle (fun _ => [silent]) true.

Lemma cmd_turned r w1 :
  ocl_turn 5 true cmd_conn [silent] run_attached = Done r w1 -> ages_low (w_pages w1) /\ w_max_clients w1 = 1.
Proof.
  intros E.
  assert (Hm : match ocl_turn 5 true cmd_conn [silent] run_attached with
               | Done _ w1 => ages_lowb (w_pages w1) && (w_max_clients w1 =? 1) | _ => true end = true)
    by (by vm_compute).
  rewrite E in Hm. apply andb_true_iff in Hm as [Ha Hm]. split; [by apply ages_lowb_ok|lia].
Qed.

Lemma idle_clocked w c r w1 : clock_afu c (go_idle w) = Done r w1 -> w_pages w1 = w_pages w.
Proof. by intros [= _ <-]. Qed.

Lemma idle_turn w c : ages_low (w_pages w) -> w_max_clients w = 1 -> turn_legal 5 c [silent] (go_idle w).
Proof.
  intros Ha Hm. split; [by intros [=]|]. change (w_max_clients (go_idle w)) with (w_max_clients w).
  rewrite Hm. split; [|by cbn].
  intros r w1 E%idle_clocked. apply silent_legal. by rewrite E.
Qed.

Lemma two_turns_legal : loop_legal 5 true [idle_pause] cmd_conn [silent] run_attached.
Proof.
  split.
  - split; [apply cmd_exchange|]. split; [|by vm_compute].
    intros r w1 E. apply silent_legal. by eapply cmd_clocked.
  - intros c' ss' w' E. destruct (cmd_turned _ _ E) as [Ha Hm]. split; [apply rtc_once, step_ocl|].
    split; [by apply idle_turn|done].
Qed.

Lemma loop_is_path_witness :
  wp (_ocl_loop 5 true [idle_pause] cmd_conn [silent]) (fun _ w' => rtc step run_attached w' /\ reachable w') run_attached.
Proof.
  apply (loop_is_path 5 true [idle_pause] cmd_conn [silent] run_attached);
    [apply run_attached_reachable|apply two_turns_legal].
Defined.
