(* ===== verification/Discover.v ===== *)
(** ocse/mmio.c, [read_afu_config]: discovery walks the configuration space of
    the eight functions of a card, gives every function with an AFU its window of
    addresses and its tags, and keeps what it read in [fcn_cfg_array].

    Discovery reaches the AFU through the queue of accesses only, one access at
    a time; it is written against that interface, [ConfigSpace].  An array or a
    structure that [malloc] returns holds what was there before: [raw_fcn] and
    [raw_afu].  A pointer that has not been assigned is [None], the array of
    AFUs an unassigned pointer leads to is empty.

    The access that enables an AFU is never freed; the others are. *)
From S2P Require Import Prelude Utils Monad MmioState.

Definition AFU_DESC_DATA_VALID : Z := 0x80000000.
Definition FUNCTIONS : nat := 8.

(** What discovery asks of the component: an access that is added, waited for
    and freed, with the data it leaves ([cfg_access rnw addr data]); and whether
    the AFU has given its first credits. *)
Class ConfigSpace (W : Type) := {
  cfg_access : Z -> Z -> Z -> ST W Z;
  cfg_credits : ST W bool;
}.

#[export] Instance eta_afu_cfg : Settable afu_cfg := fun a => AfuCfg
  (af_pasid_base a) (af_pasid_len_enabled a) (af_pasid_len_supported a) (af_actag_base a)
  (af_actag_length_enabled a) (af_actag_length_supported a) (af_namespace a) (af_version_major a)
  (af_version_minor a) (af_global_mmio_bar a) (af_global_mmio_offset a) (af_global_mmio_size a)
  (af_pp_mmio_bar a) (af_pp_mmio_offset a) (af_pp_mmio_stride a) (af_mem_base_address a) (af_mem_size a).
#[export] Instance set_af_pasid_base : Setter af_pasid_base := ltac:(build_setter).
#[export] Instance set_af_pasid_len_enabled : Setter af_pasid_len_enabled := ltac:(build_setter).
#[export] Instance set_af_pasid_len_supported : Setter af_pasid_len_supported := ltac:(build_setter).
#[export] Instance set_af_actag_base : Setter af_actag_base := ltac:(build_setter).
#[export] Instance set_af_actag_length_enabled : Setter af_actag_length_enabled := ltac:(build_setter).
#[export] Instance set_af_actag_length_supported : Setter af_actag_length_supported := ltac:(build_setter).
#[export] Instance set_af_namespace : Setter af_namespace := ltac:(build_setter).
#[export] Instance set_af_version_major : Setter af_version_major := ltac:(build_setter).
#[export] Instance set_af_version_minor : Setter af_version_minor := ltac:(build_setter).
#[export] Instance set_af_global_mmio_bar : Setter af_global_mmio_bar := ltac:(build_setter).
#[export] Instance set_af_global_mmio_offset : Setter af_global_mmio_offset := ltac:(build_setter).
#[export] Instance set_af_global_mmio_size : Setter af_global_mmio_size := ltac:(build_setter).
#[export] Instance set_af_pp_mmio_bar : Setter af_pp_mmio_bar := ltac:(build_setter).
#[export] Instance set_af_pp_mmio_offset : Setter af_pp_mmio_offset := ltac:(build_setter).
#[export] Instance set_af_pp_mmio_stride : Setter af_pp_mmio_stride := ltac:(build_setter).
#[export] Instance set_af_mem_base_address : Setter af_mem_base_address := ltac:(build_setter).
#[export] Instance set_af_mem_size : Setter af_mem_size := ltac:(build_setter).

#[export] Instance eta_fcn_cfg : Settable fcn_cfg := fun f => FcnCfg
  (fc_device_id f) (fc_vendor_id f) (fc_bar0 f) (fc_max_pasid_width f) (fc_tl_major f) (fc_tl_minor f)
  (fc_tl_xmit_template_cfg f) (fc_tl_xmit_rate f) (fc_function_dvsec_pa f) (fc_afu_present f)
  (fc_max_afu_index f) (fc_actag_base f) (fc_actag_length_enabled f) (fc_afu_information_dvsec_pa f)
  (fc_afu_cfg_array f).
#[export] Instance set_fc_device_id : Setter fc_device_id := ltac:(build_setter).
#[export] Instance set_fc_vendor_id : Setter fc_vendor_id := ltac:(build_setter).
#[export] Instance set_fc_bar0 : Setter fc_bar0 := ltac:(build_setter).
#[export] Instance set_fc_max_pasid_width : Setter fc_max_pasid_width := ltac:(build_setter).
#[export] Instance set_fc_tl_major : Setter fc_tl_major := ltac:(build_setter).
#[export] Instance set_fc_tl_minor : Setter fc_tl_minor := ltac:(build_setter).
#[export] Instance set_fc_tl_xmit_template_cfg : Setter fc_tl_xmit_template_cfg := ltac:(build_setter).
#[export] Instance set_fc_tl_xmit_rate : Setter fc_tl_xmit_rate := ltac:(build_setter).
#[export] Instance set_fc_function_dvsec_pa : Setter fc_function_dvsec_pa := ltac:(build_setter).
#[export] Instance set_fc_afu_present : Setter fc_afu_present := ltac:(build_setter).
#[export] Instance set_fc_max_afu_index : Setter fc_max_afu_index := ltac:(build_setter).
#[export] Instance set_fc_actag_base : Setter fc_actag_base := ltac:(build_setter).
#[export] Instance set_fc_actag_length_enabled : Setter fc_actag_length_enabled := ltac:(build_setter).
#[export] Instance set_fc_afu_information_dvsec_pa : Setter fc_afu_information_dvsec_pa := ltac:(build_setter).
#[export] Instance set_fc_afu_cfg_array : Setter fc_afu_cfg_array := ltac:(build_setter).

(** Where discovery is: the configuration space, the array, the function being
    walked (the structure that its place in the array points to), the clients the
    AFU may have, the next free address, tag and pasid. *)
Record walk (W : Type) := Walk {
  wk_space : W;
  wk_array : list (option fcn_cfg);
  wk_fcn : fcn_cfg;
  wk_max_clients : Z;
  wk_bar : Z; wk_actag : Z; wk_pasid : Z;
}.
Arguments Walk {W}.
Arguments wk_space {W}.
Arguments wk_array {W}.
Arguments wk_fcn {W}.
Arguments wk_max_clients {W}.
Arguments wk_bar {W}.
Arguments wk_actag {W}.
Arguments wk_pasid {W}.

#[export] Instance eta_walk W : Settable (walk W) := fun s => Walk
  (wk_space s) (wk_array s) (wk_fcn s) (wk_max_clients s) (wk_bar s) (wk_actag s) (wk_pasid s).
#[export] Instance set_wk_space W : Setter (R := walk W) wk_space := ltac:(build_setter).
#[export] Instance set_wk_array W : Setter (R := walk W) wk_array := ltac:(build_setter).
#[export] Instance set_wk_fcn W : Setter (R := walk W) wk_fcn := ltac:(build_setter).
#[export] Instance set_wk_max_clients W : Setter (R := walk W) wk_max_clients := ltac:(build_setter).
#[export] Instance set_wk_bar W : Setter (R := walk W) wk_bar := ltac:(build_setter).
#[export] Instance set_wk_actag W : Setter (R := walk W) wk_actag := ltac:(build_setter).
#[export] Instance set_wk_pasid W : Setter (R := walk W) wk_pasid := ltac:(build_setter).

Section discover.
Context {W : Type} `{!ConfigSpace W} (raw_fcn : nat -> fcn_cfg) (raw_afu : nat -> nat -> afu_cfg).

Abbreviation D := (ST (walk W)).

(** An operation on the space. *)
Definition on_space {A} (m : ST W A) : D A := fun s =>
  match m (wk_space s) with
  | Done x w => Done x (s <| wk_space := w |>)
  | Exited => Exited
  | UB => UB
  | Running => Running
  end.

(** [_add_cfg], [_wait_for_done], [free]. *)
Definition cfg_read (pa : Z) : D Z := on_space (cfg_access 1 (u64 pa) 0).
Definition cfg_write (pa data : Z) : D unit := on_space (cfg_access 0 (u64 pa) data);; mret tt.

Definition upd_fcn (g : fcn_cfg -> fcn_cfg) : D unit := modify (fun s => s <| wk_fcn := g (wk_fcn s) |>).

(** * The AFU's descriptor *)

(** The loop that reads the offset register until its valid bit is set. *)
Fixpoint descriptor_ready (fuel : nat) (addr : Z) : D unit :=
  d ← cfg_read addr;
  if Z.land d AFU_DESC_DATA_VALID =? 0
  then match fuel with O => running | S fuel => descriptor_ready fuel addr end
  else mret tt.

Definition _read_afu_descriptor (fuel : nat) (addr offset : Z) : D Z :=
  cfg_write addr offset;;
  descriptor_ready fuel addr;;
  cfg_read (addr + 4).

(** Four characters of the name; a dot becomes a null. *)
Definition name_bytes (d : Z) : list Z := map (fun b => if b =? 46 then 0 else b) (le_bytes 4 d).

Definition read_name (fuel : nat) (addr : Z) : D (list Z) :=
  words ← mapM (fun i => _read_afu_descriptor fuel addr (4 + 4 * Z.of_nat i)) (seq 0 6);
  mret (concat (map name_bytes words) ++ [0]).

(** An address of 64 bits from two registers, the low bits masked. *)
Definition high_low (lo hi : Z) : Z := Z.lor lo (u64 (Z.shiftl hi 32)).

Definition read_descriptor (fuel : nat) (addr : Z) (a : afu_cfg) : D afu_cfg :=
  name ← read_name fuel addr;
  version ← _read_afu_descriptor fuel addr 0x1c;
  global_lo ← _read_afu_descriptor fuel addr 0x20;
  global_hi ← _read_afu_descriptor fuel addr 0x24;
  global_size ← _read_afu_descriptor fuel addr 0x28;
  pp_lo ← _read_afu_descriptor fuel addr 0x30;
  pp_hi ← _read_afu_descriptor fuel addr 0x34;
  stride ← _read_afu_descriptor fuel addr 0x38;
  mem_size ← _read_afu_descriptor fuel addr 0x3c;
  mem_lo ← _read_afu_descriptor fuel addr 0x40;
  mem_hi ← _read_afu_descriptor fuel addr 0x44;
  mret (a <| af_namespace := name |>
          <| af_version_major := Z.land (Z.shiftr version 24) 0xFF |>
          <| af_version_minor := Z.land (Z.shiftr version 16) 0xFF |>
          <| af_global_mmio_bar := Z.land global_lo 0x07 |>
          <| af_global_mmio_offset := high_low (Z.land global_lo 0xFFFF0000) global_hi |>
          <| af_global_mmio_size := u32 global_size |>
          <| af_pp_mmio_bar := Z.land pp_lo 0x07 |>
          <| af_pp_mmio_offset := high_low (Z.land pp_lo 0xFFFF0000) pp_hi |>
          <| af_pp_mmio_stride := Z.land stride 0xFFFF0000 |>
          <| af_mem_size := Z.land mem_size 0xFF |>
          <| af_mem_base_address := high_low mem_lo mem_hi |>).

(** * The capabilities of a function

    [pa] is the address of the capability. *)

(** Process address spaces.  A shift of an [int] by 31 or more, or a sum beyond
    its range, is undefined. *)
Definition pasid_capability (pa : Z) : D unit :=
  d ← cfg_read (pa + 0x04);
  let width := u8 (Z.shiftr d 8) in
  upd_fcn (fun f => f <| fc_max_pasid_width := width |>);;
  s ← gets (fun s => s);
  let clients := wk_max_clients s + 2 ^ width in
  if (31 <=? width) || (2 ^ 31 <=? clients) then undef
  else modify (fun s => s <| wk_max_clients := clients |>).

(** The transport layer. *)
Definition tl_dvsec (pa : Z) : D unit :=
  d ← cfg_read (pa + 0x0c);
  upd_fcn (fun f => f <| fc_tl_major := Z.shiftr (Z.land d 0xff000000) 24 |>
                      <| fc_tl_minor := Z.shiftr (Z.land d 0x00ff0000) 16 |>);;
  d ← cfg_read (pa + 0x24);
  upd_fcn (fun f => f <| fc_tl_xmit_template_cfg := u32 d |>);;
  d ← cfg_read (pa + 0x6c);
  upd_fcn (fun f => f <| fc_tl_xmit_rate := u32 d |>).

(** The function's window: the size from a register that has been filled with
    ones, the base the next free address. *)
Definition place_window (pa_fcn : Z) : D unit :=
  cfg_write (pa_fcn + 0x10) 0xFFFFFFFF;;
  cfg_write (pa_fcn + 0x14) 0xFFFFFFFF;;
  lo ← cfg_read (pa_fcn + 0x10);
  hi ← cfg_read (pa_fcn + 0x14);
  let bar0 := high_low (Z.land lo 0xFFFFFFF0) hi in
  s ← gets (fun s => s);
  upd_fcn (fun f => f <| fc_bar0 := wk_bar s |>);;
  cfg_write (pa_fcn + 0x10) (Z.land (wk_bar s) 0xFFFFFFFF);;
  cfg_write (pa_fcn + 0x14) (Z.shiftr (wk_bar s) 32);;
  modify (fun s => s <| wk_bar := u64 (wk_bar s + u64 (u64 (Z.lnot bar0) + 1)) |>).

(** The function: [id] is the register with the kind of the DVSEC. *)
Definition function_dvsec (pa_fcn pa id : Z) : D unit :=
  let present := Z.land (Z.shiftr id 24) 0x80 in
  let max_index := Z.land (Z.shiftr id 24) 0x3F in
  upd_fcn (fun f => f <| fc_afu_present := present |> <| fc_max_afu_index := max_index |>
                      <| fc_function_dvsec_pa := u64 pa |>);;
  when_ (truthy present)
    (upd_fcn (fun f => f <| fc_afu_cfg_array := replicate (S (Z.to_nat max_index)) None |>);;
     place_window pa_fcn;;
     s ← gets (fun s => s);
     upd_fcn (fun f => f <| fc_actag_base := u16 (wk_actag s) |>);;
     cfg_write (pa_fcn + 0x04) 0x00000002).

(** The pasids and the tags of an AFU: as many as it supports, from the next
    free one on. *)
Definition assign_pasids (pa : Z) (a : afu_cfg) : D afu_cfg :=
  let a := a <| af_pasid_len_enabled := af_pasid_len_supported a |> in
  cfg_write (pa + 0x10) (Z.shiftl (af_pasid_len_enabled a) 8);;
  s ← gets (fun s => s);
  let a := a <| af_pasid_base := u8 (wk_pasid s) |> in
  cfg_write (pa + 0x14) (af_pasid_base a);;
  modify (fun s => s <| wk_pasid := u64 (wk_pasid s + 2 ^ af_pasid_len_enabled a) |>);;
  mret a.

Definition assign_actags (pa : Z) (a : afu_cfg) : D afu_cfg :=
  let a := a <| af_actag_length_enabled := af_actag_length_supported a |> in
  upd_fcn (fun f =>
    f <| fc_actag_length_enabled := u16 (fc_actag_length_enabled f + af_actag_length_enabled a) |>);;
  cfg_write (pa + 0x18) (Z.shiftl (af_actag_length_enabled a) 16);;
  s ← gets (fun s => s);
  let a := a <| af_actag_base := u16 (wk_actag s) |> in
  cfg_write (pa + 0x1c) (af_actag_base a);;
  modify (fun s => s <| wk_actag := u64 (wk_actag s + af_actag_length_enabled a) |>);;
  mret a.

(** An AFU.  An index that the array does not have is outside of it. *)
Definition control_dvsec (fuel f : nat) (pa id : Z) : D unit :=
  s ← gets (fun s => s);
  if negb (truthy (fc_afu_present (wk_fcn s))) then mret tt
  else
    let afu_index := Z.land (Z.shiftr id 16) 0x3F in
    let i := Z.to_nat afu_index in
    _ ← lift (fc_afu_cfg_array (wk_fcn s) !! i);
    pasid_len ← cfg_read (pa + 0x10);
    actag_len ← cfg_read (pa + 0x18);
    let a := raw_afu f i <| af_pasid_len_supported := Z.land pasid_len 0x1F |>
                         <| af_actag_length_supported := Z.land actag_len 0xFFF |> in
    let info := fc_afu_information_dvsec_pa (wk_fcn s) in
    cfg_write (info + 0x08) (Z.shiftl afu_index 16);;
    a ← read_descriptor fuel (info + 0x0c) a;
    a ← assign_pasids pa a;
    a ← assign_actags pa a;
    upd_fcn (fun f => f <| fc_afu_cfg_array := <[i := Some a]> (fc_afu_cfg_array f) |>);;
    cfg_write (pa + 0x0c) 0x01000000.

Definition dvsec (fuel f : nat) (pa_fcn pa : Z) : D unit :=
  id ← cfg_read (pa + 0x08);
  let kind := Z.land id 0xFFFF in
  if kind =? 0xF000 then tl_dvsec pa
  else if kind =? 0xF001 then function_dvsec pa_fcn pa id
  else if kind =? 0xF003 then upd_fcn (fun f => f <| fc_afu_information_dvsec_pa := u64 pa |>)
  else if kind =? 0xF004 then control_dvsec fuel f pa id
  else mret tt.

(** The loop over the capabilities; the next one is named by the upper bits of
    each one's first register. *)
Fixpoint capabilities (fuel f : nat) (pa_fcn offset : Z) : D unit :=
  if offset =? 0 then mret tt
  else match fuel with
  | O => running
  | S fuel' =>
      let pa := pa_fcn + offset in
      d ← cfg_read pa;
      (let ec_id := Z.land d 0xFFFF in
       if ec_id =? 0x001b then pasid_capability pa
       else if ec_id =? 0x0023 then dvsec fuel f pa_fcn pa
       else mret tt);;
      capabilities fuel' f pa_fcn (Z.shiftr (Z.land d 0xFFF00000) 20)
  end.

(** * The functions *)

Definition is_configured (id : Z) : bool := negb (id =? 0) && negb (id =? 0xffff).

Definition read_function (fuel : nat) (cmd_pa_bus : Z) (f : nat) : D unit :=
  modify (fun s => s <| wk_pasid := 0 |>);;
  let pa_fcn := cmd_pa_bus + Z.of_nat f * 0x10000 in
  d ← cfg_read pa_fcn;
  let device_id := Z.land (Z.shiftr d 16) 0xFFFF in
  let vendor_id := Z.land d 0xFFFF in
  when_ (is_configured device_id && is_configured vendor_id)
    (modify (fun s => s <| wk_fcn :=
       raw_fcn f <| fc_afu_cfg_array := [] |>
                 <| fc_device_id := device_id |> <| fc_vendor_id := vendor_id |> |>);;
     capabilities fuel f pa_fcn 0x100;;
     s ← gets (fun s => s);
     let fcn := wk_fcn s in
     cfg_write (fc_function_dvsec_pa fcn + 0x0c)
       (Z.lor (u32 (Z.shiftl (fc_actag_base fcn) 16)) (fc_actag_length_enabled fcn));;
     modify (fun s => s <| wk_array := <[f := Some fcn]> (wk_array s) |>)).

(** The loop that waits for the AFU's first credits. *)
Fixpoint first_credits (fuel : nat) : D unit :=
  ok ← on_space cfg_credits;
  if (ok : bool) then mret tt
  else match fuel with O => running | S fuel => first_credits fuel end.

Fixpoint read_functions (fuel : nat) (cmd_pa_bus : Z) (fs : list nat) : D unit :=
  match fs with
  | [] => mret tt
  | f :: fs => read_function fuel cmd_pa_bus f;; read_functions fuel cmd_pa_bus fs
  end.

Definition read_afu_config (fuel : nat) (bus : Z) : D unit :=
  first_credits fuel;;
  modify (fun s => s <| wk_max_clients := 0 |> <| wk_array := replicate FUNCTIONS None |>
                     <| wk_bar := 0x0000040000000000 |> <| wk_actag := 0 |>);;
  read_functions fuel (Z.shiftl bus 24) (seq 0 FUNCTIONS).
End discover.
