(* ===== verification/DiscoverProps.v ===== *)
(** Discovery against a card that is described abstractly: its functions, their
    capabilities, the sizes of their windows, the descriptors of their AFUs.  On
    every device that implements the description discovery ends, whatever its
    registers otherwise do, with exactly what the description says; the windows
    it gives do not overlap, nor do the tags. *)
From S2P Require Import Prelude Utils Monad MmioState Discover.

(** * Devices

    The log of the accesses to a device, newest first; its state is a function
    of it. *)
Inductive access := Rd (pa : Z) | Wr (pa data : Z).

Fixpoint last_write (l : list access) (pa : Z) : option Z :=
  match l with
  | [] => None
  | Rd _ :: l => last_write l pa
  | Wr a d :: l => if a =? pa then Some d else last_write l pa
  end.

(** How often [pa] has been read since it was written. *)
Fixpoint reads_since (l : list access) (pa : Z) : nat :=
  match l with
  | [] => O
  | Rd a :: l => if a =? pa then S (reads_since l pa) else reads_since l pa
  | Wr a _ :: l => if a =? pa then O else reads_since l pa
  end.

(** A register: aligned, as the four bytes of an access are. *)
Definition register_pa (pa : Z) : Prop := is_u 64 pa /\ pa mod 4 = 0.

(** What discovery relies on: behind a space that is [space_ok] is a device, of
    which [space_log] is the log and [value] what a register reads as; an access
    ends, and is added to the log. *)
Class DeviceSpace (value : list access -> Z -> Z) (W : Type) `{ConfigSpace W} := {
  space_ok : W -> Prop;
  space_log : W -> list access;
  space_read w pa : space_ok w -> register_pa pa ->
    exists w', cfg_access 1 pa 0 w = Done (value (space_log w) pa) w' /\
      space_ok w' /\ space_log w' = Rd pa :: space_log w;
  space_write w pa data : space_ok w -> register_pa pa -> is_u 32 data ->
    exists x w', cfg_access 0 pa data w = Done x w' /\
      space_ok w' /\ space_log w' = Wr pa data :: space_log w;
}.

(** The device alone. *)
Definition device_space value : ConfigSpace (list access) := {|
  cfg_access rnw pa data := fun l =>
    if truthy rnw then Done (value l pa) (Rd pa :: l) else Done data (Wr pa data :: l);
  cfg_credits := mret true;
|}.

#[refine] Instance device_alone value :
    @DeviceSpace value (list access) (device_space value) := {
  space_ok _ := True;
  space_log l := l;
}.
Proof.
  - intros l pa _ _. by exists (Rd pa :: l).
  - intros l pa data _ _ _. by exists data, (Wr pa data :: l).
Defined.

(** * Cards *)

Record afu_desc := AfuDesc {
  ad_index : Z; ad_pasid_len : Z; ad_actag_len : Z;
  ad_word : Z -> Z;                     (* the descriptor, by offset *)
}.

Inductive capability :=
  | DSN
  | PASID (width : Z)
  | TL (version templates rate : Z)
  | FUNCTION (present : bool) (max_index log2_window : Z)
  | AFU_INFO
  | AFU_CTL (a : afu_desc)
  | VENDOR.

(** A function and its capabilities, each at its offset. *)
Record function_desc := FunctionDesc {
  fd_device : Z; fd_vendor : Z; fd_capabilities : list (Z * capability) }.

Definition ec_id (c : capability) : Z :=
  match c with DSN => 0x0003 | PASID _ => 0x001b | _ => 0x0023 end.

Definition dvsec_id (c : capability) : Z :=
  match c with
  | TL _ _ _ => 0xF000 | FUNCTION _ _ _ => 0xF001 | AFU_INFO => 0xF003 | AFU_CTL _ => 0xF004
  | _ => 0xF0F0
  end.

(** The offset of the first of the capabilities left. *)
Definition next_offset (cs : list (Z * capability)) : Z :=
  match cs with [] => 0 | (o, _) :: _ => o end.

(** * What a device that implements a description answers *)
Section device.
Context (value : list access -> Z -> Z) (delay : nat).

(** The descriptor: the valid bit is set at the latest after [delay] reads. *)
Definition has_descriptor (info : Z) (a : afu_desc) : Prop :=
  forall l o, last_write l (info + 0x08) = Some (Z.shiftl (ad_index a) 16) ->
    last_write l (info + 0x0c) = Some o ->
    ((delay <= reads_since l (info + 0x0c))%nat ->
       Z.land (value l (info + 0x0c)) AFU_DESC_DATA_VALID <> 0) /\
    value l (info + 0x10) = ad_word a o.

(** A window of [2^k] bytes: once all ones have been written, its size can be
    read. *)
Definition has_window (pa_fcn k : Z) : Prop :=
  4 <= k < 64 /\
  forall l, last_write l (pa_fcn + 0x10) = Some 0xFFFFFFFF ->
    last_write l (pa_fcn + 0x14) = Some 0xFFFFFFFF ->
    Z.land (value l (pa_fcn + 0x10)) 0xFFFFFFF0 = (2 ^ 64 - 2 ^ k) mod 2 ^ 32 /\
    value l (pa_fcn + 0x14) = (2 ^ 64 - 2 ^ k) / 2 ^ 32.

(** The registers of a capability at [pa]; [info] is where the AFU information
    was found. *)
Definition has_registers (pa_fcn pa info : Z) (c : capability) : Prop :=
  match c with
  | DSN => True
  | PASID width => forall l, u8 (Z.shiftr (value l (pa + 0x04)) 8) = width
  | _ => forall l, Z.land (value l (pa + 0x08)) 0xFFFF = dvsec_id c
  end /\
  match c with
  | TL v t r => forall l, value l (pa + 0x0c) = v /\ value l (pa + 0x24) = t /\ value l (pa + 0x6c) = r
  | FUNCTION present m k =>
      (forall l, Z.land (Z.shiftr (value l (pa + 0x08)) 24) 0x80 = (if present then 0x80 else 0) /\
                 Z.land (Z.shiftr (value l (pa + 0x08)) 24) 0x3F = m) /\
      (present = true -> has_window pa_fcn k)
  | AFU_CTL a =>
      (forall l, Z.land (Z.shiftr (value l (pa + 0x08)) 16) 0x3F = ad_index a /\
                 Z.land (value l (pa + 0x10)) 0x1F = ad_pasid_len a /\
                 Z.land (value l (pa + 0x18)) 0xFFF = ad_actag_len a) /\
      has_descriptor info a
  | _ => True
  end.

(** * What is learnt *)
Context (raw_fcn : nat -> fcn_cfg) (raw_afu : nat -> nat -> afu_cfg).

(** The name in the descriptor: six words, dots as nulls, and a null. *)
Definition described_name (a : afu_desc) : list Z :=
  map (fun b => if b =? 46 then 0 else b)
    (concat (map (fun i => le_bytes 4 (ad_word a (4 + 4 * Z.of_nat i))) (seq 0 6))) ++ [0].

(** An address in two words, of which the low 16 bits are other fields. *)
Definition described_offset (lo hi : Z) : Z := lo / 2 ^ 16 * 2 ^ 16 + hi * 2 ^ 32.

Definition described_afu (a : afu_desc) (pasid actag : Z) : afu_cfg := {|
  af_pasid_base := pasid mod 2 ^ 8;
  af_pasid_len_enabled := ad_pasid_len a; af_pasid_len_supported := ad_pasid_len a;
  af_actag_base := actag mod 2 ^ 16;
  af_actag_length_enabled := ad_actag_len a; af_actag_length_supported := ad_actag_len a;
  af_namespace := described_name a;
  af_version_major := ad_word a 0x1c / 2 ^ 24; af_version_minor := ad_word a 0x1c / 2 ^ 16 mod 2 ^ 8;
  af_global_mmio_bar := ad_word a 0x20 mod 8;
  af_global_mmio_offset := described_offset (ad_word a 0x20) (ad_word a 0x24);
  af_global_mmio_size := ad_word a 0x28;
  af_pp_mmio_bar := ad_word a 0x30 mod 8;
  af_pp_mmio_offset := described_offset (ad_word a 0x30) (ad_word a 0x34);
  af_pp_mmio_stride := ad_word a 0x38 / 2 ^ 16 * 2 ^ 16;
  af_mem_base_address := ad_word a 0x40 + ad_word a 0x44 * 2 ^ 32;
  af_mem_size := ad_word a 0x3c mod 2 ^ 8;
|}.

(** One capability; the state is the walk's without the device. *)
Definition learn (pa : Z) (c : capability) (s : walk unit) : walk unit :=
  let f := wk_fcn s in
  match c with
  | PASID width =>
      s <| wk_fcn := f <| fc_max_pasid_width := width |> |>
        <| wk_max_clients := wk_max_clients s + 2 ^ width |>
  | TL v t r =>
      s <| wk_fcn := f <| fc_tl_major := v / 2 ^ 24 |> <| fc_tl_minor := v / 2 ^ 16 mod 2 ^ 8 |>
                       <| fc_tl_xmit_template_cfg := t |> <| fc_tl_xmit_rate := r |> |>
  | FUNCTION present m k =>
      let f := f <| fc_afu_present := (if present then 0x80 else 0) |>
                 <| fc_max_afu_index := m |> <| fc_function_dvsec_pa := pa |> in
      if present then
        s <| wk_fcn := f <| fc_afu_cfg_array := replicate (S (Z.to_nat m)) None |>
                         <| fc_bar0 := wk_bar s |> <| fc_actag_base := wk_actag s mod 2 ^ 16 |> |>
          <| wk_bar := (wk_bar s + 2 ^ k) mod 2 ^ 64 |>
      else s <| wk_fcn := f |>
  | AFU_INFO => s <| wk_fcn := f <| fc_afu_information_dvsec_pa := pa |> |>
  | AFU_CTL a =>
      if fc_afu_present f =? 0 then s
      else
        s <| wk_fcn := f <| fc_actag_length_enabled := (fc_actag_length_enabled f + ad_actag_len a) mod 2 ^ 16 |>
               <| fc_afu_cfg_array := <[Z.to_nat (ad_index a) := Some (described_afu a (wk_pasid s) (wk_actag s))]>
                    (fc_afu_cfg_array f) |> |>
          <| wk_pasid := (wk_pasid s + 2 ^ ad_pasid_len a) mod 2 ^ 64 |>
          <| wk_actag := (wk_actag s + ad_actag_len a) mod 2 ^ 64 |>
  | DSN | VENDOR => s
  end.

Fixpoint learn_all (pa_fcn : Z) (cs : list (Z * capability)) (s : walk unit) : walk unit :=
  match cs with
  | [] => s
  | (o, c) :: cs => learn_all pa_fcn cs (learn (pa_fcn + o) c s)
  end.

Definition fresh_fcn (f : nat) (fd : function_desc) : fcn_cfg :=
  raw_fcn f <| fc_afu_cfg_array := [] |>
            <| fc_device_id := fd_device fd |> <| fc_vendor_id := fd_vendor fd |>.

Definition learn_function (pa_fcn : Z) (f : nat) (fd : option function_desc) (s : walk unit) : walk unit :=
  let s := s <| wk_pasid := 0 |> in
  match fd with
  | None => s
  | Some fd =>
      let s := learn_all pa_fcn (fd_capabilities fd) (s <| wk_fcn := fresh_fcn f fd |>) in
      s <| wk_array := <[f := Some (wk_fcn s)]> (wk_array s) |>
  end.

Definition fcn_pa (bus : Z) (f : nat) : Z := bus * 2 ^ 24 + Z.of_nat f * 2 ^ 16.

Fixpoint learn_card (bus : Z) (f : nat) (card : list (option function_desc)) (s : walk unit) : walk unit :=
  match card with
  | [] => s
  | fd :: card => learn_card bus (S f) card (learn_function (fcn_pa bus f) f fd s)
  end.

Definition learnt (bus : Z) (card : list (option function_desc)) (fcn : fcn_cfg) (pasid : Z) : walk unit :=
  learn_card bus 0 card (Walk tt (replicate FUNCTIONS None) fcn 0 (2 ^ 42) 0 pasid).

(** * Devices that implement a card *)

(** What a capability may ask for in a state: the code has no room for more. *)
Definition learnable (c : capability) (s : walk unit) : Prop :=
  match c with
  | PASID width => 0 <= width < 31 /\ wk_max_clients s + 2 ^ width < 2 ^ 31
  | TL v t r => is_u 32 v /\ is_u 32 t /\ is_u 32 r
  | FUNCTION _ m _ => 0 <= m
  | AFU_CTL a =>
      (fc_afu_present (wk_fcn s) = 0 \/ (Z.to_nat (ad_index a) < length (fc_afu_cfg_array (wk_fcn s)))%nat) /\
      (is_u 40 (fc_afu_information_dvsec_pa (wk_fcn s)) /\
       fc_afu_information_dvsec_pa (wk_fcn s) mod 4 = 0) /\
      (forall o, is_u 32 (ad_word a o))
  | _ => True
  end.

Fixpoint implements_all (pa_fcn : Z) (cs : list (Z * capability)) (s : walk unit) : Prop :=
  match cs with
  | [] => True
  | (o, c) :: cs =>
      0x100 <= o < 0x1000 /\ o mod 4 = 0 /\
      (forall l, Z.land (value l (pa_fcn + o)) 0xFFFF = ec_id c /\
                 Z.shiftr (Z.land (value l (pa_fcn + o)) 0xFFF00000) 20 = next_offset cs) /\
      has_registers pa_fcn (pa_fcn + o) (fc_afu_information_dvsec_pa (wk_fcn s)) c /\
      learnable c s /\
      implements_all pa_fcn cs (learn (pa_fcn + o) c s)
  end.

(** What is written at the end of a function. *)
Definition writes_tags (f : fcn_cfg) : Prop :=
  is_u 40 (fc_function_dvsec_pa f) /\ fc_function_dvsec_pa f mod 4 = 0 /\
  is_u 16 (fc_actag_base f) /\ is_u 16 (fc_actag_length_enabled f).

Definition implements_function (pa_fcn : Z) (f : nat) (fd : option function_desc) (s : walk unit) : Prop :=
  match fd with
  | None => forall l, is_configured (Z.land (Z.shiftr (value l pa_fcn) 16) 0xFFFF) = false \/
                      is_configured (Z.land (value l pa_fcn) 0xFFFF) = false
  | Some fd =>
      is_configured (fd_device fd) = true /\ is_configured (fd_vendor fd) = true /\
      (forall l, Z.land (Z.shiftr (value l pa_fcn) 16) 0xFFFF = fd_device fd /\
                 Z.land (value l pa_fcn) 0xFFFF = fd_vendor fd) /\
      next_offset (fd_capabilities fd) = 0x100 /\
      let s := s <| wk_pasid := 0 |> <| wk_fcn := fresh_fcn f fd |> in
      implements_all pa_fcn (fd_capabilities fd) s /\
      writes_tags (wk_fcn (learn_all pa_fcn (fd_capabilities fd) s))
  end.

Fixpoint implements (bus : Z) (f : nat) (card : list (option function_desc)) (s : walk unit) : Prop :=
  match card with
  | [] => True
  | fd :: card =>
      implements_function (fcn_pa bus f) f fd s /\
      implements bus (S f) card (learn_function (fcn_pa bus f) f fd s)
  end.

(** * Running the walk *)
Context {W : Type} `{!ConfigSpace W} `{!DeviceSpace value W}.

Definition at_space (w : W) (s : walk unit) : walk W := Walk w
  (wk_array s) (wk_fcn s) (wk_max_clients s) (wk_bar s) (wk_actag s) (wk_pasid s).

Abbreviation D := (ST (walk W)).

(** From [s], [m] ends with [x] in [s']. *)
Definition ends {A} (m : D A) (s : walk unit) (x : A) (s' : walk unit) : Prop :=
  forall w, space_ok w -> exists w', space_ok w' /\ m (at_space w s) = Done x (at_space w' s').

Lemma at_last_read pa w s : space_ok w -> register_pa pa ->
  exists w', space_ok w' /\ space_log w' = Rd pa :: space_log w /\
    cfg_read pa (at_space w s) = Done (value (space_log w) pa) (at_space w' s).
Proof.
  intros Hw Hpa. destruct (space_read w pa Hw Hpa) as (w' & E & Hw' & Hl). exists w'. split_and!; [done|done|].
  unfold cfg_read, u64. rewrite (is_u_small 64) by apply Hpa.
  unfold on_space. cbn [wk_space at_space]. by rewrite E.
Qed.

Lemma at_read {A} pa (k : Z -> D A) w s : space_ok w -> register_pa pa ->
  exists w', space_ok w' /\ space_log w' = Rd pa :: space_log w /\
    (cfg_read pa ≫= k) (at_space w s) = k (value (space_log w) pa) (at_space w' s).
Proof.
  intros Hw Hpa. destruct (at_last_read pa w s Hw Hpa) as (w' & Hw' & Hl & E).
  exists w'. by rewrite (bind_done _ _ _ _ _ E).
Qed.

Lemma at_last_write pa d w s : space_ok w -> register_pa pa -> is_u 32 d ->
  exists w', space_ok w' /\ space_log w' = Wr pa d :: space_log w /\
    cfg_write pa d (at_space w s) = Done tt (at_space w' s).
Proof.
  intros Hw Hpa Hd. destruct (space_write w pa d Hw Hpa Hd) as (x & w' & E & Hw' & Hl).
  exists w'. split_and!; [done|done|]. unfold cfg_write, u64. rewrite (is_u_small 64) by apply Hpa.
  erewrite bind_done; [reflexivity|]. unfold on_space. cbn [wk_space at_space]. by rewrite E.
Qed.

Lemma at_write {A} pa d (k : unit -> D A) w s : space_ok w -> register_pa pa -> is_u 32 d ->
  exists w', space_ok w' /\ space_log w' = Wr pa d :: space_log w /\
    (cfg_write pa d ≫= k) (at_space w s) = k tt (at_space w' s).
Proof.
  intros Hw Hpa Hd. destruct (at_last_write pa d w s Hw Hpa Hd) as (w' & Hw' & Hl & E).
  exists w'. by rewrite (bind_done _ _ _ _ _ E).
Qed.

Lemma at_upd {A} g (k : unit -> D A) w s :
  (upd_fcn g ≫= k) (at_space w s) = k tt (at_space w (s <| wk_fcn := g (wk_fcn s) |>)).
Proof. done. Qed.

(** An address of a function's configuration space. *)
Definition config_pa (pa : Z) : Prop := 0 <= pa < 2 ^ 41 /\ pa mod 4 = 0.

Ltac in_range := unfold register_pa, config_pa, is_u in *; Z.div_mod_to_equations; lia.

(** ** The descriptor *)

Definition indexed (info : Z) (a : afu_desc) (w : W) : Prop :=
  last_write (space_log w) (info + 0x08) = Some (Z.shiftl (ad_index a) 16).

Definition tells {A} (info : Z) (a : afu_desc) (m : D A) (s : walk unit) (x : A) : Prop :=
  forall w, space_ok w -> indexed info a w ->
    exists w', space_ok w' /\ indexed info a w' /\ m (at_space w s) = Done x (at_space w' s).

Lemma tells_ret {A} info a s (x : A) : tells info a (mret x) s x.
Proof. intros w Hw Hi. by exists w. Qed.

Lemma tells_bind {A B} info a (m : D A) (k : A -> D B) s x y :
  tells info a m s x -> tells info a (k x) s y -> tells info a (m ≫= k) s y.
Proof.
  intros Hm Hk w Hw Hi. destruct (Hm w Hw Hi) as (w1 & Hw1 & Hi1 & E). rewrite (bind_done _ _ _ _ _ E). by apply Hk.
Qed.

Lemma tells_mapM {A B} info a (g : A -> D B) (h : A -> B) s xs :
  Forall (fun x => tells info a (g x) s (h x)) xs -> tells info a (mapM g xs) s (map h xs).
Proof.
  induction 1 as [|x xs Hx _ IH]; [apply tells_ret|]. cbn [mapM map].
  eapply tells_bind; [exact Hx|]. eapply tells_bind; [exact IH|]. apply tells_ret.
Qed.

Lemma ready_runs info a o s fuel : has_descriptor info a -> config_pa info ->
  forall w, space_ok w -> indexed info a w -> last_write (space_log w) (info + 0x0c) = Some o ->
  (delay <= reads_since (space_log w) (info + 0x0c) + fuel)%nat ->
  exists w', space_ok w' /\ indexed info a w' /\ last_write (space_log w') (info + 0x0c) = Some o /\
    descriptor_ready fuel (info + 0x0c) (at_space w s) = Done tt (at_space w' s).
Proof.
  intros Hd Hi. induction fuel as [|fuel IH]; intros w Hw Hl Ho Hle; cbn [descriptor_ready].
  all: match goal with |- context [_ ≫= ?k] =>
    destruct (at_read (info + 0x0c) k w s Hw ltac:(in_range)) as (w1 & Hw1 & Hl1 & ->) end.
  all: destruct (Hd (space_log w) o Hl Ho) as [Hv _].
  all: case (Z.eqb_spec (Z.land (value (space_log w) (info + 0x0c)) AFU_DESC_DATA_VALID) 0); intros E.
  all: assert (Hi1 : indexed info a w1) by (unfold indexed; by rewrite Hl1).
  all: assert (Ho1 : last_write (space_log w1) (info + 0x0c) = Some o) by (by rewrite Hl1).
  - exfalso. apply Hv; [lia|done].
  - by exists w1.
  - apply IH; [done|done|done|]. rewrite Hl1. cbn [reads_since]. rewrite Z.eqb_refl. lia.
  - by exists w1.
Qed.

Lemma descriptor_word info a o s fuel : has_descriptor info a -> config_pa info -> (delay <= fuel)%nat ->
  is_u 32 o -> tells info a (_read_afu_descriptor fuel (info + 0x0c) o) s (ad_word a o).
Proof.
  intros Hd Hi Hf Hou w Hw Hl. unfold _read_afu_descriptor.
  match goal with |- context [_ ≫= ?k] =>
    destruct (at_write (info + 0x0c) o k w s Hw ltac:(in_range) Hou) as (w1 & Hw1 & Hl1 & ->) end.
  assert (Hi1 : indexed info a w1).
  { unfold indexed. rewrite Hl1. cbn [last_write]. by rewrite (proj2 (Z.eqb_neq _ _)) by lia. }
  assert (Ho : last_write (space_log w1) (info + 0x0c) = Some o) by (rewrite Hl1; cbn; by rewrite Z.eqb_refl).
  destruct (ready_runs info a o s fuel Hd Hi w1 Hw1 Hi1 Ho ltac:(lia)) as (w2 & Hw2 & Hi2 & Ho2 & E).
  rewrite (bind_done _ _ _ _ _ E). replace (info + 0x0c + 4) with (info + 0x10) by lia.
  destruct (Hd _ o Hi2 Ho2) as [_ Hv].
  destruct (at_last_read (info + 0x10) w2 s Hw2 ltac:(in_range)) as (w3 & Hw3 & Hl3 & E3).
  exists w3. split_and!; [done|unfold indexed; by rewrite Hl3|]. by rewrite <- Hv.
Qed.

Lemma name_words ws : concat (map name_bytes ws) = map (fun b => if b =? 46 then 0 else b) (concat (map (le_bytes 4) ws)).
Proof. induction ws as [|w ws IH]; [done|]. cbn [map concat]. by rewrite map_app, IH. Qed.

Lemma described_words a : described_name a =
  concat (map name_bytes (map (fun i => ad_word a (4 + 4 * Z.of_nat i)) (seq 0 6))) ++ [0].
Proof. unfold described_name. by rewrite name_words, map_map. Qed.

Lemma high_low_add lo hi : is_u 32 lo -> is_u 32 hi -> high_low lo hi = lo + hi * 2 ^ 32.
Proof.
  intros Hlo Hhi. unfold high_low, u64. rewrite (is_u_small 64).
  - rewrite Z.lor_comm. rewrite lor_shiftl_add by (try lia; exact Hlo). unfold is_u in *. lia.
  - unfold is_u in *. rewrite Z.shiftl_mul_pow2 by lia. lia.
Qed.

Lemma mask_low x k : 0 <= k -> is_u 32 x -> k <= 32 -> Z.land x (2 ^ 32 - 2 ^ k) = x / 2 ^ k * 2 ^ k.
Proof.
  intros Hk Hx Hle.
  replace (2 ^ 32 - 2 ^ k) with (Z.shiftl (Z.ones (32 - k)) k).
  2:{ rewrite Z.shiftl_mul_pow2, Z.ones_equiv by lia.
      replace (2 ^ 32) with (2 ^ (32 - k) * 2 ^ k) by (rewrite <- Z.pow_add_r by lia; f_equal; lia). lia. }
  rewrite <- (Z.shiftr_div_pow2 x k), <- Z.shiftl_mul_pow2 by lia.
  apply Z.bits_inj'. intros i Hi. rewrite Z.land_spec, !Z.shiftl_spec by lia.
  destruct (decide (i < k)) as [Hik|Hik].
  - rewrite (Z.testbit_neg_r (Z.ones _)), (Z.testbit_neg_r (Z.shiftr _ _)) by lia. by rewrite andb_false_r.
  - rewrite Z.shiftr_spec by lia. replace (i - k + k) with i by lia.
    destruct (decide (i < 32)).
    + rewrite Z.ones_spec_low by lia. by rewrite andb_true_r.
    + rewrite (testbit_high 32 x i) by (try lia; exact Hx). done.
Qed.

Lemma byte_of_word x k : is_u 32 x -> 0 <= k -> Z.land (Z.shiftr x k) 0xFF = x / 2 ^ k mod 2 ^ 8.
Proof. intros Hx Hk. rewrite Z.shiftr_div_pow2 by lia. exact (Z.land_ones (x / 2 ^ k) 8 ltac:(lia)). Qed.

Lemma third_byte x : is_u 32 x -> Z.shiftr (Z.land x 0x00ff0000) 16 = x / 2 ^ 16 mod 2 ^ 8.
Proof.
  intros Hx. rewrite Z.shiftr_land. change (Z.shiftr 0x00ff0000 16) with 0xFF. by apply byte_of_word.
Qed.

Lemma top_byte x : is_u 32 x -> x / 2 ^ 24 mod 2 ^ 8 = x / 2 ^ 24.
Proof.
  intros Hx. unfold is_u in Hx. apply Z.mod_small.
  split; [apply Z.div_pos; lia|apply Z.div_lt_upper_bound; lia].
Qed.

Lemma high_byte x : is_u 32 x -> Z.shiftr (Z.land x 0xff000000) 24 = x / 2 ^ 24.
Proof.
  intros Hx. rewrite Z.shiftr_land. change (Z.shiftr 0xff000000 24) with 0xFF.
  rewrite byte_of_word by (done || lia). by apply top_byte.
Qed.

(** What reading the descriptor adds to the structure. *)
Definition with_descriptor (a : afu_desc) (r : afu_cfg) : afu_cfg :=
  let d := described_afu a 0 0 in
  AfuCfg (af_pasid_base r) (af_pasid_len_enabled r) (af_pasid_len_supported r) (af_actag_base r)
    (af_actag_length_enabled r) (af_actag_length_supported r) (af_namespace d) (af_version_major d)
    (af_version_minor d) (af_global_mmio_bar d) (af_global_mmio_offset d) (af_global_mmio_size d)
    (af_pp_mmio_bar d) (af_pp_mmio_offset d) (af_pp_mmio_stride d) (af_mem_base_address d) (af_mem_size d).

Lemma masked_offset lo hi : is_u 32 lo -> is_u 32 hi ->
  high_low (Z.land lo 0xFFFF0000) hi = described_offset lo hi.
Proof.
  intros Hlo Hhi. change 0xFFFF0000 with (2 ^ 32 - 2 ^ 16). rewrite mask_low by (done || lia).
  apply high_low_add; [|done]. unfold is_u in *.
  pose proof (Z.mul_div_le lo (2 ^ 16)). pose proof (Z.div_pos lo (2 ^ 16)). lia.
Qed.

Lemma descriptor_told info a r s fuel : has_descriptor info a -> config_pa info -> (delay <= fuel)%nat ->
  (forall o, is_u 32 (ad_word a o)) ->
  tells info a (read_descriptor fuel (info + 0x0c) r) s (with_descriptor a r).
Proof.
  intros Hd Hi Hf Hw.
  assert (Hword : forall o, is_u 32 o -> tells info a (_read_afu_descriptor fuel (info + 0x0c) o) s (ad_word a o))
    by (intros o; by apply descriptor_word).
  unfold read_descriptor, read_name. eapply tells_bind.
  { eapply tells_bind; [|apply tells_ret].
    apply (tells_mapM _ _ _ (fun i => ad_word a (4 + 4 * Z.of_nat i))). repeat constructor; apply Hword; done. }
  repeat (eapply tells_bind; [apply Hword; done|]). cbv beta.
  match goal with |- tells _ _ (mret ?x) _ ?y => replace y with x; [apply tells_ret|] end.
  unfold with_descriptor, described_afu. cbn -[Z.land Z.shiftr Z.pow Z.div Z.modulo Z.mul ad_word high_low name_bytes described_name].
  rewrite !masked_offset, !byte_of_word, top_byte, (high_low_add (ad_word a 0x40)) by (done || lia).
  unfold u32. rewrite (is_u_small 32 (ad_word a 40)) by done.
  change 0xFFFF0000 with (2 ^ 32 - 2 ^ 16). rewrite mask_low by (done || lia).
  rewrite !(Z.land_ones _ 3 ltac:(lia) : Z.land _ 7 = _), (Z.land_ones _ 8 ltac:(lia) : Z.land _ 255 = _).
  rewrite described_words. done.
Qed.

(** ** The capabilities *)

Lemma ends_ret {A} (x : A) s : ends (mret x) s x s.
Proof. intros w Hw. by exists w. Qed.

Lemma ends_bind {A B} (m : D A) (k : A -> D B) s x s1 y s2 :
  ends m s x s1 -> ends (k x) s1 y s2 -> ends (m ≫= k) s y s2.
Proof.
  intros Hm Hk w Hw. destruct (Hm w Hw) as (w1 & Hw1 & E). rewrite (bind_done _ _ _ _ _ E). by apply Hk.
Qed.

(** What was read is what some log of the device gives. *)
Lemma ends_read {A} pa (k : Z -> D A) s y s' : register_pa pa ->
  (forall l, ends (k (value l pa)) s y s') -> ends (cfg_read pa ≫= k) s y s'.
Proof. intros Hu Hk w Hw. destruct (at_read pa k w s Hw Hu) as (w' & Hw' & _ & ->). by apply Hk. Qed.

Lemma ends_write {A} pa d (k : unit -> D A) s y s' : register_pa pa -> is_u 32 d ->
  ends (k tt) s y s' -> ends (cfg_write pa d ≫= k) s y s'.
Proof. intros Hu Hd Hk w Hw. destruct (at_write pa d k w s Hw Hu Hd) as (w' & Hw' & _ & ->). by apply Hk. Qed.

Lemma ends_last_write pa d s : register_pa pa -> is_u 32 d -> ends (cfg_write pa d) s tt s.
Proof.
  intros Hu Hd w Hw. destruct (at_last_write pa d w s Hw Hu Hd) as (w' & Hw' & _ & E). by exists w'.
Qed.

Lemma ends_upd {A} g (k : unit -> D A) s y s' :
  ends (k tt) (s <| wk_fcn := g (wk_fcn s) |>) y s' -> ends (upd_fcn g ≫= k) s y s'.
Proof. intros Hk w Hw. rewrite at_upd. by apply Hk. Qed.

Lemma ends_gets {A} (k : walk W -> D A) s y s' :
  (forall w, ends (k (at_space w s)) s y s') -> ends (gets (fun s => s) ≫= k) s y s'.
Proof. intros Hk w Hw. by apply Hk. Qed.

Lemma ends_modify {A} s1 g (k : unit -> D A) s y s' :
  (forall w, g (at_space w s) = at_space w s1) -> ends (k tt) s1 y s' -> ends (modify g ≫= k) s y s'.
Proof. intros Hg Hk w Hw. rewrite bind_modify, Hg. by apply Hk. Qed.

Lemma ends_last_modify s1 (g : walk W -> walk W) s :
  (forall w, g (at_space w s) = at_space w s1) -> ends (modify g) s tt s1.
Proof. intros Hg w Hw. exists w. unfold modify. by rewrite Hg. Qed.

Lemma ends_last_upd g s : ends (upd_fcn g) s tt (s <| wk_fcn := g (wk_fcn s) |>).
Proof. by apply ends_last_modify. Qed.

Lemma ends_eq {A} (m : D A) s x s1 s2 : ends m s x s1 -> s1 = s2 -> ends m s x s2.
Proof. by intros ? <-. Qed.

(** The rest of a run from [w], as one from any space. *)
Ltac from_here w Hw :=
  match goal with |- exists w', space_ok w' /\ ?m (at_space w ?s) = Done ?x (at_space w' ?s2) =>
    cut (ends m s x s2); [intros Hends; exact (Hends w Hw)|] end.

Lemma tl_ends pa v t r s : config_pa pa -> is_u 32 v -> is_u 32 t -> is_u 32 r ->
  (forall l, value l (pa + 0x0c) = v /\ value l (pa + 0x24) = t /\ value l (pa + 0x6c) = r) ->
  ends (tl_dvsec pa) s tt (learn pa (TL v t r) s).
Proof.
  intros Hpa Hv Ht Hr Hreg. unfold tl_dvsec.
  apply ends_read; [in_range|]. intros l. destruct (Hreg l) as (-> & _). apply ends_upd. clear l.
  apply ends_read; [in_range|]. intros l. destruct (Hreg l) as (_ & -> & _). apply ends_upd. clear l.
  apply ends_read; [in_range|]. intros l. destruct (Hreg l) as (_ & _ & ->).
  eapply ends_eq; [apply ends_last_upd|]. unfold learn.
  unfold u32. rewrite !(is_u_small 32) by done.
  rewrite (high_byte v), (third_byte v) by done. done.
Qed.

Lemma pasid_ends pa width s : config_pa pa -> learnable (PASID width) s ->
  (forall l, u8 (Z.shiftr (value l (pa + 0x04)) 8) = width) ->
  ends (pasid_capability pa) s tt (learn pa (PASID width) s).
Proof.
  intros Hpa [Hw Hc] Hreg. unfold pasid_capability.
  apply ends_read; [in_range|]. intros l. rewrite Hreg. apply ends_upd. apply ends_gets. intros w. cbv zeta.
  change (wk_max_clients (at_space w _)) with (wk_max_clients s).
  replace (31 <=? width) with false by lia. replace (2 ^ 31 <=? wk_max_clients s + 2 ^ width) with false by lia.
  by apply ends_last_modify.
Qed.

(** The size of a window, as the code computes it from the registers. *)
Lemma window_size k : 4 <= k < 64 ->
  u64 (u64 (Z.lnot (high_low ((2 ^ 64 - 2 ^ k) mod 2 ^ 32) ((2 ^ 64 - 2 ^ k) / 2 ^ 32))) + 1) = 2 ^ k.
Proof.
  intros Hk. assert (0 < 2 ^ k < 2 ^ 64) by (split; [lia|apply Z.pow_lt_mono_r; lia]).
  set (x := 2 ^ 64 - 2 ^ k). assert (Hx : is_u 64 x) by (unfold is_u, x; lia).
  rewrite high_low_add.
  - replace (x mod 2 ^ 32 + x / 2 ^ 32 * 2 ^ 32) with x by (pose proof (Z.div_mod x (2 ^ 32)); lia).
    unfold u64. replace (Z.lnot x) with (-1 - x) by (unfold Z.lnot; lia).
    rewrite Z.add_mod_idemp_l by lia. replace (-1 - x + 1) with (2 ^ k + -1 * 2 ^ 64) by (unfold x; lia).
    rewrite Z.mod_add by lia. apply Z.mod_small. lia.
  - apply is_u_mod. lia.
  - unfold is_u in *. split; [apply Z.div_pos; lia|apply Z.div_lt_upper_bound; lia].
Qed.

(** The low and the high half of an address. *)
Lemma bar_halves x : is_u 64 x -> is_u 32 (Z.land x 0xFFFFFFFF) /\ is_u 32 (Z.shiftr x 32).
Proof.
  intros Hx. split.
  - change 0xFFFFFFFF with (Z.ones 32). rewrite Z.land_ones by lia. apply is_u_mod. lia.
  - rewrite Z.shiftr_div_pow2 by lia. unfold is_u in *. split; [apply Z.div_pos; lia|apply Z.div_lt_upper_bound; lia].
Qed.

Lemma window_ends pa_fcn k s : config_pa pa_fcn -> has_window pa_fcn k -> is_u 64 (wk_bar s) ->
  ends (place_window pa_fcn) s tt
    (s <| wk_fcn := wk_fcn s <| fc_bar0 := wk_bar s |> |> <| wk_bar := (wk_bar s + 2 ^ k) mod 2 ^ 64 |>).
Proof.
  intros Hpa [Hk Hwin] Hbar. destruct (bar_halves _ Hbar) as [Hlo Hhi]. intros w Hw. unfold place_window.
  assert (Hne : (pa_fcn + 0x14 =? pa_fcn + 0x10) = false) by lia.
  match goal with |- context [_ ≫= ?k] =>
    destruct (at_write (pa_fcn + 0x10) 0xFFFFFFFF k w s Hw ltac:(in_range) ltac:(done)) as (w1 & Hw1 & Hl1 & ->) end.
  match goal with |- context [_ ≫= ?k] =>
    destruct (at_write (pa_fcn + 0x14) 0xFFFFFFFF k w1 s Hw1 ltac:(in_range) ltac:(done)) as (w2 & Hw2 & Hl2 & ->) end.
  match goal with |- context [_ ≫= ?k] =>
    destruct (at_read (pa_fcn + 0x10) k w2 s Hw2 ltac:(in_range)) as (w3 & Hw3 & Hl3 & ->) end.
  match goal with |- context [_ ≫= ?k] =>
    destruct (at_read (pa_fcn + 0x14) k w3 s Hw3 ltac:(in_range)) as (w4 & Hw4 & Hl4 & ->) end.
  destruct (Hwin (space_log w2)) as [-> _]; [by rewrite Hl2, Hl1; cbn; rewrite Hne, Z.eqb_refl|by rewrite Hl2; cbn; rewrite Z.eqb_refl|].
  destruct (Hwin (space_log w3)) as [_ ->];
    [by rewrite Hl3, Hl2, Hl1; cbn; rewrite Hne, Z.eqb_refl|by rewrite Hl3, Hl2; cbn; rewrite Z.eqb_refl|].
  cbv zeta. rewrite window_size by done. from_here w4 Hw4.
  apply ends_gets. intros w5. apply ends_upd.
  apply ends_write; [in_range|exact Hlo|]. apply ends_write; [in_range|exact Hhi|].
  by apply ends_last_modify.
Qed.

Lemma function_ends pa_fcn pa id (present : bool) m k s :
  config_pa pa_fcn -> config_pa pa -> 0 <= m -> is_u 64 (wk_bar s) ->
  Z.land (Z.shiftr id 24) 0x80 = (if present then 0x80 else 0) -> Z.land (Z.shiftr id 24) 0x3F = m ->
  (present = true -> has_window pa_fcn k) ->
  ends (function_dvsec pa_fcn pa id) s tt (learn pa (FUNCTION present m k) s).
Proof.
  intros Hf Hpa Hm Hbar Hp Hi Hwin. unfold function_dvsec. cbv zeta. rewrite Hp, Hi. apply ends_upd.
  unfold u64 at 1. rewrite (is_u_small 64 pa) by in_range. destruct present.
  - change (truthy 0x80) with true. cbn [when_]. apply ends_upd.
    eapply ends_bind; [apply (window_ends pa_fcn k); [done|exact (Hwin eq_refl)|exact Hbar]|].
    apply ends_gets. intros w. apply ends_upd.
    eapply ends_eq; [apply ends_last_write; [in_range|done]|done].
  - change (truthy 0) with false. cbn [when_]. eapply ends_eq; [apply ends_ret|done].
Qed.

Lemma pasids_end pa a s : config_pa pa -> is_u 64 (wk_pasid s) -> is_u 5 (af_pasid_len_supported a) ->
  let a' := a <| af_pasid_len_enabled := af_pasid_len_supported a |>
              <| af_pasid_base := wk_pasid s mod 2 ^ 8 |> in
  ends (assign_pasids pa a) s a'
    (s <| wk_pasid := (wk_pasid s + 2 ^ af_pasid_len_supported a) mod 2 ^ 64 |>).
Proof.
  intros Hpa Hs Hlen a'. unfold assign_pasids. cbv zeta. apply ends_write; [in_range| |].
  { rewrite Z.shiftl_mul_pow2 by lia. change (is_u 32 (af_pasid_len_supported a * 2 ^ 8)). in_range. }
  apply ends_gets. intros w. apply ends_write; [in_range| |].
  { apply (is_u_mono 8); [lia|]. apply is_u_mod. lia. }
  eapply ends_bind; [|apply ends_ret].
  by apply (ends_last_modify (s <| wk_pasid := (wk_pasid s + 2 ^ af_pasid_len_supported a) mod 2 ^ 64 |>)).
Qed.

Lemma actags_end pa a s : config_pa pa -> is_u 12 (af_actag_length_supported a) ->
  let n := af_actag_length_supported a in
  let a' := a <| af_actag_length_enabled := n |> <| af_actag_base := wk_actag s mod 2 ^ 16 |> in
  ends (assign_actags pa a) s a'
    (s <| wk_fcn := wk_fcn s <| fc_actag_length_enabled := (fc_actag_length_enabled (wk_fcn s) + n) mod 2 ^ 16 |> |>
       <| wk_actag := (wk_actag s + n) mod 2 ^ 64 |>).
Proof.
  intros Hpa Hlen n a'. unfold assign_actags. cbv zeta. apply ends_upd. apply ends_write; [in_range| |].
  { rewrite Z.shiftl_mul_pow2 by lia. change (is_u 32 (af_actag_length_supported a * 2 ^ 16)). in_range. }
  apply ends_gets. intros w. apply ends_write; [in_range| |].
  { apply (is_u_mono 16); [lia|]. apply is_u_mod. lia. }
  eapply ends_bind; [|apply ends_ret].
  set (f := wk_fcn s <| fc_actag_length_enabled := (fc_actag_length_enabled (wk_fcn s) + n) mod 2 ^ 16 |>).
  by apply (ends_last_modify (s <| wk_fcn := f |> <| wk_actag := (wk_actag s + n) mod 2 ^ 64 |>)).
Qed.

Lemma control_ends fuel f pa id a s :
  config_pa pa -> (delay <= fuel)%nat -> learnable (AFU_CTL a) s -> is_u 64 (wk_pasid s) ->
  Z.land (Z.shiftr id 16) 0x3F = ad_index a ->
  (forall l, Z.land (value l (pa + 0x10)) 0x1F = ad_pasid_len a /\
             Z.land (value l (pa + 0x18)) 0xFFF = ad_actag_len a) ->
  has_descriptor (fc_afu_information_dvsec_pa (wk_fcn s)) a ->
  ends (control_dvsec raw_afu fuel f pa id) s tt (learn pa (AFU_CTL a) s).
Proof.
  intros Hpa Hfuel (Hroom & Hinfo & Hw0) Hpasid Hid Hreg Hdesc.
  assert (Hcfg : config_pa (fc_afu_information_dvsec_pa (wk_fcn s))) by in_range.
  assert (H5 : is_u 5 (ad_pasid_len a))
    by (destruct (Hreg []) as [<- _]; rewrite (Z.land_ones _ 5 ltac:(lia) : Z.land _ 31 = _); apply is_u_mod; lia).
  assert (H12 : is_u 12 (ad_actag_len a))
    by (destruct (Hreg []) as [_ <-]; rewrite (Z.land_ones _ 12 ltac:(lia) : Z.land _ 4095 = _); apply is_u_mod; lia).
  assert (H6 : is_u 6 (ad_index a))
    by (rewrite <- Hid, (Z.land_ones _ 6 ltac:(lia) : Z.land _ 63 = _); apply is_u_mod; lia).
  unfold control_dvsec, learn. apply ends_gets. intros w0. change (wk_fcn (at_space w0 s)) with (wk_fcn s).
  unfold truthy. case (Z.eqb_spec (fc_afu_present (wk_fcn s)) 0) as [E|E]; cbn [negb]; [apply ends_ret|].
  destruct Hroom as [?|Hroom]; [done|]. cbv zeta. rewrite Hid.
  destruct (lookup_lt_is_Some_2 _ _ Hroom) as [slot Hslot]. rewrite Hslot.
  eapply ends_bind; [apply (ends_ret slot)|].
  apply ends_read; [in_range|]. intros l1. destruct (Hreg l1) as [-> _]. clear l1.
  apply ends_read; [in_range|]. intros l1. destruct (Hreg l1) as [_ ->]. clear l1.
  intros w Hw. match goal with |- context [cfg_write ?pa ?d ≫= ?k] =>
    destruct (at_write pa d k w s Hw ltac:(in_range)) as (w1 & Hw1 & Hl1 & ->) end.
  { rewrite Z.shiftl_mul_pow2 by lia. in_range. }
  assert (Hi1 : indexed (fc_afu_information_dvsec_pa (wk_fcn s)) a w1)
    by (unfold indexed; rewrite Hl1; cbn [last_write]; by rewrite Z.eqb_refl).
  match goal with |- context [read_descriptor _ _ ?r] =>
    destruct (descriptor_told _ a r s fuel Hdesc Hcfg Hfuel Hw0 w1 Hw1 Hi1) as (w2 & Hw2 & _ & E2) end.
  rewrite (bind_done _ _ _ _ _ E2). from_here w2 Hw2.
  eapply ends_bind; [by apply pasids_end|]. eapply ends_bind; [by apply actags_end|].
  apply ends_upd. eapply ends_eq; [by apply ends_last_write; [in_range|]|]. done.
Qed.

(** The walk's addresses and counters stay in their type. *)
Definition in_type (s : walk unit) : Prop := is_u 64 (wk_bar s) /\ is_u 64 (wk_pasid s).

Lemma learn_in_type pa c s : in_type s -> in_type (learn pa c s).
Proof.
  intros [Hb Hp]. unfold learn, in_type.
  destruct c as [| | |[]| | |]; try done; try (split; [apply is_u_mod; lia|done]).
  case (fc_afu_present (wk_fcn s) =? 0); [done|]. split; [done|apply is_u_mod; lia].
Qed.

Lemma dvsec_ends fuel f pa_fcn pa c s :
  config_pa pa_fcn -> config_pa pa -> (delay <= fuel)%nat -> in_type s ->
  ec_id c = 0x0023 -> has_registers pa_fcn pa (fc_afu_information_dvsec_pa (wk_fcn s)) c -> learnable c s ->
  ends (dvsec raw_afu fuel f pa_fcn pa) s tt (learn pa c s).
Proof.
  intros Hf Hpa Hfuel [Hb Hp] Hec [Hk Hreg] Hl. unfold dvsec. apply ends_read; [in_range|]. intros l.
  destruct c as [|w|v t r|present m k| |a|]; try done; rewrite (Hk l); cbn -[tl_dvsec function_dvsec control_dvsec upd_fcn learn].
  - destruct Hl as (Hv & Ht & Hr). by apply tl_ends.
  - destruct Hreg as [Hid Hwin]. destruct (Hid l) as [E1 E2]. by apply function_ends.
  - unfold u64. rewrite (is_u_small 64) by in_range. apply ends_last_upd.
  - destruct Hreg as [Hid Hd]. destruct (Hid l) as [E1 _]. apply control_ends; try done.
    intros l2. apply Hid.
  - apply ends_ret.
Qed.

Lemma capabilities_end f pa_fcn cs : 0 <= pa_fcn < 2 ^ 32 -> pa_fcn mod 4 = 0 ->
  forall fuel s, (length cs <= fuel)%nat -> (delay < fuel - length cs)%nat ->
  in_type s -> implements_all pa_fcn cs s ->
  ends (capabilities raw_afu fuel f pa_fcn (next_offset cs)) s tt (learn_all pa_fcn cs s).
Proof.
  intros Hf Hf4. induction cs as [|[o c] cs IH]; intros fuel s Hlen Hd Ht Himp.
  { destruct fuel; apply ends_ret. }
  destruct Himp as (Ho & Ho4 & Hval & Hreg & Hl & Hrest). destruct fuel as [|fuel]; [cbn in Hlen; lia|].
  assert (Hpa : config_pa (pa_fcn + o)) by in_range.
  cbn [next_offset capabilities length learn_all] in *.
  replace (o =? 0) with false by lia. cbv zeta. apply ends_read; [in_range|]. intros l.
  destruct (Hval l) as [E1 E2]. rewrite E1, E2. clear l E1 E2 Hval.
  eapply ends_bind; [|apply IH; [lia|lia|by apply learn_in_type|done]].
  destruct c as [|w| | | | |]; cbn [ec_id]; cbn -[pasid_capability dvsec learn];
    try (apply dvsec_ends; done || in_range || lia).
  - apply ends_ret.
  - destruct Hreg as [Hw _]. by apply pasid_ends.
Qed.

Definition n_capabilities (fd : option function_desc) : nat :=
  match fd with None => O | Some fd => length (fd_capabilities fd) end.

Definition longest (card : list (option function_desc)) : nat :=
  foldr (fun fd n => Nat.max (n_capabilities fd) n) O card.

Lemma learn_all_in_type pa_fcn cs : forall s, in_type s -> in_type (learn_all pa_fcn cs s).
Proof. induction cs as [|[o c] cs IH]; intros s Hs; [done|]. cbn. by apply IH, learn_in_type. Qed.

Lemma learn_function_in_type pa_fcn f fd s : in_type s -> in_type (learn_function pa_fcn f fd s).
Proof.
  intros [Hb _]. assert (Hs : in_type (s <| wk_pasid := 0 |>)) by (split; [done|unfold is_u; cbn; lia]).
  destruct fd as [fd|]; [|done].
  set (s1 := s <| wk_pasid := 0 |> <| wk_fcn := fresh_fcn f fd |>).
  assert (Hs1 : in_type s1) by (destruct Hs; by split).
  destruct (learn_all_in_type pa_fcn (fd_capabilities fd) s1 Hs1). by split.
Qed.

Lemma tags_word (base len : Z) : is_u 16 base -> is_u 16 len -> is_u 32 (Z.lor (u32 (Z.shiftl base 16)) len).
Proof.
  intros Hb Hl. unfold u32. rewrite (is_u_small 32) by (rewrite Z.shiftl_mul_pow2 by lia; in_range).
  rewrite lor_shiftl_add by (done || lia). in_range.
Qed.

Lemma function_read fuel bus f fd s : 0 <= bus < 2 ^ 8 -> (f < 8)%nat -> in_type s ->
  (n_capabilities fd + delay < fuel)%nat -> implements_function (fcn_pa bus f) f fd s ->
  ends (read_function raw_fcn raw_afu fuel (Z.shiftl bus 24) f) s tt (learn_function (fcn_pa bus f) f fd s).
Proof.
  intros Hbus Hf Hs Hfuel Himp. unfold read_function.
  apply (ends_modify (s <| wk_pasid := 0 |>)); [done|]. cbv zeta.
  replace (Z.shiftl bus 24 + Z.of_nat f * 65536) with (fcn_pa bus f)
    by (unfold fcn_pa; rewrite Z.shiftl_mul_pow2 by lia; lia).
  assert (Hpa : 0 <= fcn_pa bus f < 2 ^ 32) by (unfold fcn_pa; lia).
  assert (Hpa4 : fcn_pa bus f mod 4 = 0) by (unfold fcn_pa; Z.div_mod_to_equations; lia).
  apply ends_read; [in_range|]. intros l. revert Himp. unfold implements_function, learn_function.
  destruct fd as [fd|].
  - intros (Hd & Hv & Hval & Hoff & Hall & Hfin). destruct (Hval l) as [-> ->]. rewrite Hd, Hv. cbn [andb when_].
    apply (ends_modify (s <| wk_pasid := 0 |> <| wk_fcn := fresh_fcn f fd |>)); [done|].
    rewrite <- Hoff. eapply ends_bind.
    { apply capabilities_end; [done|done|unfold n_capabilities in Hfuel; lia|unfold n_capabilities in Hfuel; lia| |done].
      destruct Hs as [Hb _]. split; [exact Hb|unfold is_u; cbn; lia]. }
    destruct Hfin as (Hd40 & Hd4 & Hbase & Hlen). apply ends_gets. intros w. cbv zeta.
    match goal with |- context [wk_fcn (at_space w ?s1)] => change (wk_fcn (at_space w s1)) with (wk_fcn s1) end.
    apply ends_write; [in_range|by apply tags_word|]. by apply ends_last_modify.
  - intros Himp.
    assert (E : is_configured (Z.land (Z.shiftr (value l (fcn_pa bus f)) 16) 0xFFFF) &&
                is_configured (Z.land (value l (fcn_pa bus f)) 0xFFFF) = false)
      by (destruct (Himp l) as [-> | ->]; [done|apply andb_false_r]).
    rewrite E. apply ends_ret.
Qed.

Lemma functions_read fuel bus card : 0 <= bus < 2 ^ 8 ->
  forall f s, (f + length card <= 8)%nat -> in_type s -> (longest card + delay < fuel)%nat ->
  implements bus f card s ->
  ends (read_functions raw_fcn raw_afu fuel (Z.shiftl bus 24) (seq f (length card))) s tt
    (learn_card bus f card s).
Proof.
  intros Hbus. induction card as [|fd card IH]; intros f s Hf Hs Hfuel Himp; [apply ends_ret|].
  destruct Himp as [Hfd Hrest]. cbn [length seq read_functions learn_card] in *.
  cbn [longest foldr] in Hfuel. fold (longest card) in Hfuel.
  eapply ends_bind; [apply function_read; try done; lia|].
  apply IH; [lia|by apply learn_function_in_type|lia|done].
Qed.

(** The walk from [s] meets a device that implements the card; the space gives
    credits at once, and the fuel is enough for the longest list of capabilities
    and the slowest descriptor. *)
Record meets (fuel : nat) (bus : Z) (card : list (option function_desc)) (s : walk W) : Prop := {
  meets_bus : 0 <= bus < 2 ^ 8;
  meets_functions : length card = FUNCTIONS;
  meets_pasid : is_u 64 (wk_pasid s);
  meets_fuel : (longest card + delay < fuel)%nat;
  meets_credits : exists w, cfg_credits (wk_space s) = Done true w /\ space_ok w;
  meets_card : implements bus 0 card (Walk tt (replicate FUNCTIONS None) (wk_fcn s) 0 (2 ^ 42) 0 (wk_pasid s));
}.

Lemma discovery_ends fuel bus card s : meets fuel bus card s ->
  exists w, read_afu_config raw_fcn raw_afu fuel bus s =
    Done tt (at_space w (learnt bus card (wk_fcn s) (wk_pasid s))).
Proof.
  intros [Hbus Hcard Hpasid Hfuel (w & Hcr & Hw) Himp].
  set (s0 := Walk tt (replicate FUNCTIONS None) (wk_fcn s) 0 (2 ^ 42) 0 (wk_pasid s)) in *.
  assert (Ht : in_type s0) by (split; [by split|done]).
  assert (Hlen : (0 + length card <= 8)%nat) by (rewrite Hcard; unfold FUNCTIONS; lia).
  destruct (functions_read fuel bus card Hbus 0 s0 Hlen Ht Hfuel Himp w Hw) as (w' & _ & E).
  exists w'. rewrite Hcard in E. unfold read_afu_config.
  assert (Hc : first_credits fuel s = Done tt (s <| wk_space := w |>)).
  { destruct fuel; cbn [first_credits]; (erewrite bind_done; [|unfold on_space; by rewrite Hcr]); done. }
  rewrite (bind_done _ _ _ _ _ Hc). exact E.
Qed.

(** discovery, on every device that implements a card, behind whatever space
    it is reached and for every delay of its descriptors, ends, and leaves in the
    tables exactly what the card says: every function with its identity, window
    and versions, every AFU with its name, areas, pasids and tags. *)
Theorem discovery_learns_the_card fuel bus card s : meets fuel bus card s ->
  exists w, read_afu_config raw_fcn raw_afu fuel bus s =
    Done tt (at_space w (learnt bus card (wk_fcn s) (wk_pasid s))).
Proof. apply discovery_ends. Qed.
End device.

(** * A card *)

Definition sample_word (o : Z) : Z :=
  if o =? 4 then 0x2E554641 else if o =? 0x28 then 0x00100000 else o mod 2 ^ 32.

Definition sample_desc : afu_desc := AfuDesc 0 2 4 sample_word.
Definition second_desc : afu_desc := AfuDesc 1 1 2 sample_word.

(** Two functions: two AFUs in a window of 64 KB, and a window of 1 MB. *)
Definition sample_card : list (option function_desc) :=
  [Some (FunctionDesc 0x062b 0x1014
     [(0x100, PASID 2); (0x200, FUNCTION true 1 16); (0x300, AFU_INFO); (0x400, AFU_CTL sample_desc);
      (0x500, AFU_CTL second_desc)]);
   Some (FunctionDesc 0x062b 0x1014 [(0x100, FUNCTION true 0 20)]);
   None; None; None; None; None; None].

Definition sample_registers : list (Z * Z) :=
  [(0, 0x062b1014); (0x100, 0x2000001b); (0x104, 0x200);
   (0x200, 0x30000023); (0x208, 0x8100F001);
   (0x300, 0x40000023); (0x308, 0xF003);
   (0x400, 0x50000023); (0x408, 0xF004); (0x410, 2); (0x418, 4);
   (0x500, 0x23); (0x508, 0x1F004); (0x510, 1); (0x518, 2);
   (0x10000, 0x062b1014); (0x10100, 0x23); (0x10108, 0x8000F001)].

Fixpoint register (rs : list (Z * Z)) (pa : Z) : Z :=
  match rs with [] => 0 | (a, v) :: rs => if pa =? a then v else register rs pa end.

Definition sample_value (l : list access) (pa : Z) : Z :=
  if pa =? 0x10 then 0xFFFF0000
  else if pa =? 0x10010 then 0xFFF00000
  else if (pa =? 0x14) || (pa =? 0x10014) then 0xFFFFFFFF
  else if pa =? 0x30c then match reads_since l 0x30c with O => 0 | S _ => AFU_DESC_DATA_VALID end
  else if pa =? 0x310 then match last_write l 0x30c with Some o => sample_word o | None => 0 end
  else register sample_registers pa.

Definition sample_raw : fcn_cfg := FcnCfg 0 0 0 0 0 0 0 0 0 0 0 0 7 0 [].
Definition sample_raw_afu : afu_cfg := AfuCfg 0 0 0 0 0 0 [] 0 0 0 0 0 0 0 0 0 0.

Definition sample_walk : walk (list access) := Walk [] [] sample_raw 0 0 0 0.

Lemma sample_words o : is_u 32 (sample_word o).
Proof. unfold sample_word. do 2 (case_match; [by split|]). by apply is_u_mod. Qed.

Lemma sample_window0 : has_window sample_value 0 16.
Proof. split; [done|]. intros l _ _. by split. Qed.

Lemma sample_window1 : has_window sample_value 0x10000 20.
Proof. split; [done|]. intros l _ _. by split. Qed.

Lemma sample_descriptor i p t : has_descriptor sample_value 1 0x300 (AfuDesc i p t sample_word).
Proof.
  intros l o _ Ho. change (0x300 + 0x0c) with 0x30c in *. split.
  - intros H. unfold sample_value. cbn -[reads_since]. destruct (reads_since l 780) as [|n]; [lia|done].
  - unfold sample_value. cbn -[last_write sample_word]. by rewrite Ho.
Qed.

Lemma sample_implements :
  implements sample_value 1 (fun _ => sample_raw) 0 0 sample_card
    (Walk tt (replicate FUNCTIONS None) sample_raw 0 (2 ^ 42) 0 0).
Proof.
  cbn [implements sample_card].
  repeat first
    [ exact sample_window0 | exact sample_window1 | apply sample_descriptor | exact sample_words
    | match goal with
      | |- _ /\ _ => split
      | |- implements_function _ _ _ _ _ None _ => intros l; left; vm_compute; reflexivity
      | |- implements_function _ _ _ _ _ _ _ => unfold implements_function; cbn [fd_device fd_vendor fd_capabilities]
      | |- implements_all _ _ _ _ _ => cbn [implements_all]
      | |- has_registers _ _ _ _ _ _ => unfold has_registers
      | |- learnable _ _ => unfold learnable
      | |- forall l : list access, _ => intros l
      | |- true = true -> _ => intros _
      | |- True => exact I
      | |- _ = _ => vm_compute; reflexivity
      | |- _ <= _ => vm_compute; discriminate
      | |- _ < _ => vm_compute; reflexivity
      | |- writes_tags _ => unfold writes_tags
      | |- is_u _ _ => vm_compute; split; [discriminate|reflexivity]
      | |- let _ := _ in _ => cbv zeta
      | |- _ \/ _ => right; vm_compute; lia
      end ].
Qed.

#[export] Instance sample_space : ConfigSpace (list access) := device_space sample_value.
#[export] Instance sample_device : DeviceSpace sample_value (list access) := device_alone sample_value.

Lemma sample_meets : meets sample_value 1 (fun _ => sample_raw) 7 0 sample_card sample_walk.
Proof. split; [done|done|done|vm_compute; lia|by exists []|exact sample_implements]. Qed.

Lemma discovery_learns_the_card_witness :
  exists w, read_afu_config (fun _ => sample_raw) (fun _ _ => sample_raw_afu) 7 0 sample_walk =
    Done tt (at_space w (learnt (fun _ => sample_raw) 0 sample_card sample_raw 0)).
Proof.
  exact (discovery_learns_the_card sample_value 1 (fun _ => sample_raw) (fun _ _ => sample_raw_afu) 7 0
    sample_card sample_walk sample_meets).
Defined.
