(* ===== verification/DiscoverAlloc.v ===== *)
(** What discovery gives to the functions and AFUs of a card: the windows of
    addresses follow one another from 4 TB on, in the order of the functions, and
    the tags of different AFUs and the address spaces of the AFUs of a function
    are disjoint - but the windows are not aligned to
    their sizes, and the number of a function's tags starts from what [malloc]
    found. *)
From S2P Require Import Prelude Utils Monad MmioState Discover DiscoverProps.

(** * Windows *)

(** The bytes a capability, a function, a number of functions take. *)
Definition window_of (c : capability) : Z :=
  match c with FUNCTION true _ k => 2 ^ k | _ => 0 end.

Definition is_window (oc : Z * capability) : bool :=
  match oc.2 with FUNCTION true _ _ => true | _ => false end.

Definition window (fd : option function_desc) : Z :=
  match fd with
  | None => 0
  | Some fd => foldr (fun oc n => window_of oc.2 + n) 0 (fd_capabilities fd)
  end.

Definition windows (card : list (option function_desc)) : Z := foldr (fun fd n => window fd + n) 0 card.

Section windows.
Context (raw_fcn : nat -> fcn_cfg).

Lemma learn_bar pa c s : 0 <= window_of c -> wk_bar s + window_of c < 2 ^ 64 -> 0 <= wk_bar s ->
  wk_bar (learn pa c s) = wk_bar s + window_of c.
Proof.
  intros Hw Hlt Hs. unfold learn, window_of in *.
  destruct c as [| | |[] m k| |a|]; try (cbn; lia).
  - cbn -[Z.pow Z.modulo]. apply Z.mod_small. lia.
  - case (fc_afu_present (wk_fcn s) =? 0); cbn; lia.
Qed.

(** A base that has been given stays. *)
Lemma learn_keeps_bar0 pa c s : is_window (pa, c) = false ->
  fc_bar0 (wk_fcn (learn pa c s)) = fc_bar0 (wk_fcn s).
Proof.
  unfold learn. destruct c as [| | |[] m k| |a|]; try done. intros _.
  case (fc_afu_present (wk_fcn s) =? 0); done.
Qed.

Lemma learn_bar0 pa o c s : is_window (o, c) = true -> fc_bar0 (wk_fcn (learn pa c s)) = wk_bar s.
Proof. destruct c as [| | |[] m k| |a|]; done. Qed.

Lemma learn_keeps_array pa c s : wk_array (learn pa c s) = wk_array s.
Proof.
  unfold learn. destruct c as [| | |[] m k| |a|]; try done. case (fc_afu_present (wk_fcn s) =? 0); done.
Qed.

Lemma learn_all_keeps_array pa_fcn cs : forall s, wk_array (learn_all pa_fcn cs s) = wk_array s.
Proof. induction cs as [|[o c] cs IH]; intros s; [done|]. cbn. by rewrite IH, learn_keeps_array. Qed.

(** Every window has at least a byte. *)
Definition sized (cs : list (Z * capability)) : Prop := Forall (fun oc => 0 <= window_of oc.2) cs.

Lemma sized_sum cs : sized cs -> 0 <= foldr (fun oc n => window_of oc.2 + n) 0 cs.
Proof. induction 1; cbn; lia. Qed.

Lemma learn_all_bar pa_fcn cs : sized cs -> forall s, 0 <= wk_bar s ->
  wk_bar s + foldr (fun oc n => window_of oc.2 + n) 0 cs < 2 ^ 64 ->
  wk_bar (learn_all pa_fcn cs s) = wk_bar s + foldr (fun oc n => window_of oc.2 + n) 0 cs.
Proof.
  induction 1 as [|[o c] cs Hc Hcs IH]; intros s Hs Hlt; cbn in *; [lia|].
  pose proof (sized_sum cs Hcs). rewrite IH; rewrite learn_bar; lia.
Qed.

Lemma learn_all_keeps_bar0 pa_fcn cs : Forall (fun oc => is_window oc = false) cs ->
  forall s, fc_bar0 (wk_fcn (learn_all pa_fcn cs s)) = fc_bar0 (wk_fcn s).
Proof. induction 1 as [|[o c] cs Hc Hcs IH]; intros s; [done|]. cbn. rewrite IH. by apply learn_keeps_bar0. Qed.

(** The capabilities of a function with one window. *)
Definition one_window (fd : function_desc) : Prop :=
  exists before oc after, fd_capabilities fd = before ++ oc :: after /\ is_window oc = true /\
    Forall (fun oc => is_window oc = false) (before ++ after).

Lemma not_window_of oc : is_window oc = false -> window_of oc.2 = 0.
Proof. destruct oc as [o [| | |[] m k| |a|]]; done. Qed.

Lemma learn_all_app pa_fcn cs1 cs2 s : learn_all pa_fcn (cs1 ++ cs2) s = learn_all pa_fcn cs2 (learn_all pa_fcn cs1 s).
Proof. revert s. induction cs1 as [|[o c] cs1 IH]; intros s; [done|]. apply IH. Qed.

Lemma no_windows_sum cs : Forall (fun oc => is_window oc = false) cs ->
  foldr (fun oc n => window_of oc.2 + n) 0 cs = 0.
Proof. induction 1 as [|oc cs Hc Hcs IH]; [done|]. cbn. rewrite IH, not_window_of by done. done. Qed.

Lemma function_bar0 pa_fcn f fd s : one_window fd -> sized (fd_capabilities fd) -> 0 <= wk_bar s < 2 ^ 64 ->
  exists c, wk_array (learn_function raw_fcn pa_fcn f (Some fd) s) = <[f := Some c]> (wk_array s) /\
    fc_bar0 c = wk_bar s.
Proof.
  intros (before & [o c] & after & Hcs & Hc & Hno) Hsz Hs. apply Forall_app in Hno as [Hb Ha].
  eexists. split.
  - unfold learn_function. cbn -[learn_all]. by rewrite learn_all_keeps_array.
  - rewrite Hcs, learn_all_app. cbn [learn_all].
    rewrite learn_all_keeps_bar0, (learn_bar0 _ o) by done.
    set (s1 := s <| wk_pasid := 0 |> <| wk_fcn := fresh_fcn raw_fcn f fd |>).
    assert (Hsb : sized before) by (unfold sized in *; rewrite Hcs in Hsz; by apply Forall_app in Hsz as [? _]).
    rewrite learn_all_bar by (done || rewrite ?no_windows_sum by done; change (wk_bar s1) with (wk_bar s); lia).
    rewrite no_windows_sum by done. change (wk_bar s1) with (wk_bar s). lia.
Qed.

Lemma function_array pa_fcn f fd s g : g <> f ->
  wk_array (learn_function raw_fcn pa_fcn f fd s) !! g = wk_array s !! g.
Proof.
  intros Hg. destruct fd as [fd|]; [|done]. unfold learn_function. cbn -[learn_all].
  rewrite learn_all_keeps_array. rewrite list_lookup_insert_ne by congruence. done.
Qed.

Definition sized_card (card : list (option function_desc)) : Prop :=
  Forall (fun fd => forall d, fd = Some d -> sized (fd_capabilities d)) card.

Lemma window_nonneg card fd : sized_card (fd :: card) -> 0 <= window fd.
Proof. intros [Hfd _]%Forall_cons_1. destruct fd as [fd|]; [|done]. cbn. by apply sized_sum, Hfd. Qed.

Lemma windows_nonneg card : sized_card card -> 0 <= windows card.
Proof.
  induction card as [|fd card IH]; [done|]. intros H. pose proof (window_nonneg card fd H).
  apply Forall_cons_1 in H as [_ H]. specialize (IH H). unfold windows in *. cbn. lia.
Qed.

Lemma function_bar pa_fcn f fd s : sized_card [fd] -> 0 <= wk_bar s -> wk_bar s + window fd < 2 ^ 64 ->
  wk_bar (learn_function raw_fcn pa_fcn f fd s) = wk_bar s + window fd.
Proof.
  intros [Hfd _]%Forall_cons_1 Hs Hlt. destruct fd as [fd|]; [|cbn; lia].
  set (s1 := s <| wk_pasid := 0 |> <| wk_fcn := fresh_fcn raw_fcn f fd |>).
  change (wk_bar (learn_all pa_fcn (fd_capabilities fd) s1) = wk_bar s1 + window (Some fd)).
  apply learn_all_bar; [by apply Hfd|done|done].
Qed.

Lemma card_array bus card : forall f s g, (g < f)%nat ->
  wk_array (learn_card raw_fcn bus f card s) !! g = wk_array s !! g.
Proof.
  induction card as [|fd card IH]; intros f s g Hg; [done|]. cbn [learn_card].
  rewrite IH by lia. rewrite function_array by lia. done.
Qed.

(** The base of every function's window. *)
Lemma card_bar0 bus card : sized_card card -> forall f s n fd,
  0 <= wk_bar s -> wk_bar s + windows card < 2 ^ 64 -> (f + length card <= length (wk_array s))%nat ->
  card !! n = Some (Some fd) -> one_window fd ->
  exists c, wk_array (learn_card raw_fcn bus f card s) !! (f + n)%nat = Some (Some c) /\
    fc_bar0 c = wk_bar s + windows (take n card).
Proof.
  induction card as [|fd0 card IH]; intros Hsz f s n fd Hs Hlt Hlen Hn Hone; [done|].
  pose proof (window_nonneg _ _ Hsz) as Hw. pose proof Hsz as [Hfd0 Hcard]%Forall_cons_1.
  pose proof (windows_nonneg card Hcard) as Hws. cbn [windows foldr] in Hlt. fold (windows card) in Hlt.
  assert (Hb : wk_bar (learn_function raw_fcn (fcn_pa bus f) f fd0 s) = wk_bar s + window fd0)
    by (apply function_bar; [by constructor|done|lia]).
  destruct n as [|n]; cbn [learn_card].
  - injection Hn as ->. rewrite Nat.add_0_r, card_array by lia.
    destruct (function_bar0 (fcn_pa bus f) f fd s Hone (Hfd0 _ eq_refl) ltac:(lia)) as (c & E & Hc).
    exists c. rewrite E. rewrite list_lookup_insert_eq by (cbn in Hlen; lia). split; [done|]. cbn. lia.
  - destruct (IH Hcard (S f) (learn_function raw_fcn (fcn_pa bus f) f fd0 s) n fd) as (c & E & Hc); try done; try lia.
    + assert (El : length (wk_array (learn_function raw_fcn (fcn_pa bus f) f fd0 s)) = length (wk_array s)).
      { destruct fd0 as [fd0|]; [|done]. unfold learn_function. cbn -[learn_all].
        by rewrite length_insert, learn_all_keeps_array. }
      rewrite El. cbn in Hlen. lia.
    + exists c. replace (f + S n)%nat with (S f + n)%nat by lia. split; [done|].
      rewrite Hc, Hb. cbn. fold (windows (take n card)). lia.
Qed.
End windows.

(** * Tags *)

(** An AFU in the tables. *)
Definition afu_at (arr : list (option fcn_cfg)) (f i : nat) (a : afu_cfg) : Prop :=
  exists c, arr !! f = Some (Some c) /\ fc_afu_cfg_array c !! i = Some (Some a).

Lemma insert_slot {A} (l : list (option A)) i j x a :
  <[i := Some x]> l !! j = Some (Some a) -> (j = i /\ a = x) \/ (j <> i /\ l !! j = Some (Some a)).
Proof.
  rewrite list_lookup_insert_Some. intros [(Hj & Ha & _)|[Hj Hl]]; [left; split; congruence|right; split; congruence].
Qed.

(** Numbers given to AFUs as ranges: an AFU has [len a] of them from [base a]
    on. *)
Section ranges.
Context (base len : afu_cfg -> Z).

Definition below (n : Z) (a : afu_cfg) : Prop := 0 <= base a /\ 0 <= len a /\ base a + len a <= n.
Definition apart (a b : afu_cfg) : Prop := base a + len a <= base b \/ base b + len b <= base a.

Lemma below_apart a b : below (base b) a -> apart a b.
Proof. intros (_ & _ & H). by left. Qed.
Lemma apart_sym a b : apart a b -> apart b a.
Proof. intros [H|H]; [by right|by left]. Qed.
Lemma below_mono n m a : below n a -> n <= m -> below m a.
Proof. intros (H1 & H2 & H3) Hle. split_and!; lia. Qed.

(** The AFUs of a function have ranges between [lo] and [n], no two of which
    meet. *)
Record given (lo n : Z) (arr : list (option afu_cfg)) : Prop := {
  gi_lo : 0 <= lo <= n;
  gi_range : forall i a, arr !! i = Some (Some a) -> lo <= base a /\ below n a;
  gi_apart : forall i j a b, i <> j -> arr !! i = Some (Some a) -> arr !! j = Some (Some b) -> apart a b;
}.

Lemma given_empty lo n k : 0 <= lo <= n -> given lo n (replicate k None).
Proof.
  intros Hlo. split; [done| |]; [intros i a H|intros i j a b _ H _]; apply lookup_replicate in H as [? _]; done.
Qed.

Lemma given_next lo n m arr i x :
  given lo n arr -> base x = n -> 0 <= len x -> m = n + len x -> given lo m (<[i := Some x]> arr).
Proof.
  intros [Hlo Hr Hd] Hb Hl ->. split; [lia| |].
  - intros j a [[-> ->]|[_ Hj]]%insert_slot.
    + unfold below. rewrite Hb. lia.
    + destruct (Hr j a Hj) as [? Hbelow]. split; [done|]. eapply below_mono; [exact Hbelow|lia].
  - intros j k a b Hjk [[-> ->]|[_ Hj]]%insert_slot [[-> ->]|[_ Hk]]%insert_slot; [done| | |by eapply Hd].
    + apply apart_sym, below_apart. rewrite Hb. by destruct (Hr _ _ Hk).
    + apply below_apart. rewrite Hb. by destruct (Hr _ _ Hj).
Qed.
End ranges.

(** The tags of an AFU, and its process address spaces. *)
Definition tags_below : Z -> afu_cfg -> Prop := below af_actag_base af_actag_length_enabled.
Definition tags_disjoint : afu_cfg -> afu_cfg -> Prop := apart af_actag_base af_actag_length_enabled.
Definition pasid_count (a : afu_cfg) : Z := 2 ^ af_pasid_len_enabled a.
Definition pasids_disjoint : afu_cfg -> afu_cfg -> Prop := apart af_pasid_base pasid_count.

(** The tags a capability asks for, and a list, and a card. *)
Definition tags_of (c : capability) : Z := match c with AFU_CTL a => ad_actag_len a | _ => 0 end.

Definition list_tags (cs : list (Z * capability)) : Z := foldr (fun oc n => tags_of oc.2 + n) 0 cs.

Definition card_tags (card : list (option function_desc)) : Z :=
  foldr (fun fd n => match fd with None => n | Some fd => list_tags (fd_capabilities fd) + n end) 0 card.

Definition tagged (cs : list (Z * capability)) : Prop := Forall (fun oc => 0 <= tags_of oc.2) cs.

(** The AFUs of the function that is being walked have tags from [lo] on, and
    address spaces from 0 on. *)
Definition function_tags (lo : Z) (s : walk unit) : Prop :=
  given af_actag_base af_actag_length_enabled lo (wk_actag s) (fc_afu_cfg_array (wk_fcn s)).
Definition function_pasids (s : walk unit) : Prop :=
  given af_pasid_base pasid_count 0 (wk_pasid s) (fc_afu_cfg_array (wk_fcn s)).

Record card_tags_ok (s : walk unit) : Prop := {
  ct_lo : 0 <= wk_actag s;
  ct_range : forall f i a, afu_at (wk_array s) f i a -> tags_below (wk_actag s) a;
  ct_disjoint : forall f i a g j b, (f, i) <> (g, j) -> afu_at (wk_array s) f i a ->
    afu_at (wk_array s) g j b -> tags_disjoint a b;
}.

Lemma described_tags a pasid actag : 0 <= actag < 2 ^ 16 ->
  af_actag_base (described_afu a pasid actag) = actag /\
  af_actag_length_enabled (described_afu a pasid actag) = ad_actag_len a.
Proof. intros H. split; [|done]. cbn [af_actag_base described_afu]. by apply Z.mod_small. Qed.

Lemma described_pasids a pasid actag : 0 <= pasid < 2 ^ 8 ->
  af_pasid_base (described_afu a pasid actag) = pasid /\
  pasid_count (described_afu a pasid actag) = 2 ^ ad_pasid_len a.
Proof. intros H. split; [|done]. cbn [af_pasid_base described_afu]. by apply Z.mod_small. Qed.

Lemma learn_tags lo pa c s : function_tags lo s -> 0 <= tags_of c -> wk_actag s + tags_of c < 2 ^ 16 ->
  function_tags lo (learn pa c s) /\ wk_actag s <= wk_actag (learn pa c s) <= wk_actag s + tags_of c.
Proof.
  intros Hft Hc Hle. pose proof (gi_lo _ _ _ _ _ Hft) as Hlo. unfold learn.
  destruct c as [|w|v t r|[] m k| |a|]; try (split; [exact Hft|cbn; lia]).
  - split; [by apply given_empty|cbn; lia].
  - case_eq (fc_afu_present (wk_fcn s) =? 0); intros _; [split; [exact Hft|cbn in *; lia]|].
    cbn [tags_of] in *. destruct (described_tags a (wk_pasid s) (wk_actag s) ltac:(lia)) as [Hb Hl].
    assert (Hn : (wk_actag s + ad_actag_len a) mod 2 ^ 64 = wk_actag s + ad_actag_len a) by (apply Z.mod_small; lia).
    split; [|cbn -[Z.modulo Z.pow]; rewrite Hn; lia].
    apply (given_next _ _ lo (wk_actag s) _ _ _ _ Hft Hb); rewrite Hl; [done|exact Hn].
Qed.

(** The address spaces a capability takes: a function gets 256 at most. *)
Definition pasids_of (c : capability) : Z := match c with AFU_CTL a => 2 ^ ad_pasid_len a | _ => 0 end.
Definition list_pasids (cs : list (Z * capability)) : Z := foldr (fun oc n => pasids_of oc.2 + n) 0 cs.

Lemma pasids_of_nonneg c : 0 <= pasids_of c.
Proof. destruct c; cbn -[Z.pow]; first [apply Z.pow_nonneg; lia|lia]. Qed.
Lemma list_pasids_nonneg cs : 0 <= list_pasids cs.
Proof. induction cs as [|[o c] cs IH]; cbn; [lia|]. pose proof (pasids_of_nonneg c). unfold list_pasids in IH. lia. Qed.

(** The lengths are those of a five-bit field. *)
Definition has_length (c : capability) : Prop := match c with AFU_CTL a => 0 <= ad_pasid_len a | _ => True end.
Definition roomy (cs : list (Z * capability)) : Prop :=
  Forall (fun oc => has_length oc.2) cs /\ list_pasids cs <= 2 ^ 8.

Lemma learn_pasids pa c s : function_pasids s -> has_length c -> wk_pasid s + pasids_of c <= 2 ^ 8 ->
  function_pasids (learn pa c s) /\ wk_pasid (learn pa c s) <= wk_pasid s + pasids_of c.
Proof.
  intros Hft Hc Hle. pose proof (gi_lo _ _ _ _ _ Hft) as Hlo. unfold learn.
  destruct c as [|w|v t r|[] m k| |a|]; try (split; [exact Hft|cbn; lia]).
  - split; [by apply given_empty|cbn; lia].
  - cbn [pasids_of has_length] in *. pose proof (Z.pow_pos_nonneg 2 (ad_pasid_len a) ltac:(lia) Hc) as Hp.
    case_eq (fc_afu_present (wk_fcn s) =? 0); intros _; [split; [exact Hft|cbn in *; lia]|].
    assert (Hn : (wk_pasid s + 2 ^ ad_pasid_len a) mod 2 ^ 64 = wk_pasid s + 2 ^ ad_pasid_len a)
      by (apply Z.mod_small; lia).
    split; [|cbn -[Z.modulo Z.pow]; rewrite Hn; lia].
    destruct (described_pasids a (wk_pasid s) (wk_actag s) ltac:(lia)) as [Hb Hl].
    apply (given_next _ _ 0 (wk_pasid s) _ _ _ _ Hft Hb); rewrite Hl; [lia|exact Hn].
Qed.

Lemma learn_all_pasids pa_fcn cs : Forall (fun oc => has_length oc.2) cs -> forall s,
  function_pasids s -> wk_pasid s + list_pasids cs <= 2 ^ 8 -> function_pasids (learn_all pa_fcn cs s).
Proof.
  induction 1 as [|[o c] cs Hc Hcs IH]; intros s Hs Hle; [done|]. pose proof (list_pasids_nonneg cs) as Hsum.
  unfold list_pasids in *. cbn [foldr learn_all snd] in *.
  destruct (learn_pasids (pa_fcn + o) c s Hs Hc ltac:(lia)) as [Hs1 Hle1]. apply IH; [done|lia].
Qed.

Lemma tagged_sum cs : tagged cs -> 0 <= list_tags cs.
Proof. unfold list_tags. induction 1; cbn; lia. Qed.

Lemma learn_all_tags lo pa_fcn cs : tagged cs -> forall s,
  function_tags lo s -> wk_actag s + list_tags cs < 2 ^ 16 ->
  function_tags lo (learn_all pa_fcn cs s) /\
  wk_actag s <= wk_actag (learn_all pa_fcn cs s) <= wk_actag s + list_tags cs.
Proof.
  induction 1 as [|[o c] cs Hc Hcs IH]; intros s Hs Hle; [cbn; split; [done|lia]|].
  pose proof (tagged_sum cs Hcs) as Hsum. unfold list_tags in *. cbn [foldr learn_all snd] in *.
  destruct (learn_tags lo (pa_fcn + o) c s Hs Hc ltac:(lia)) as [Hs1 Hle1].
  destruct (IH _ Hs1 ltac:(lia)) as [Hs2 Hle2]. split; [done|lia].
Qed.

Section tags.
Context (raw_fcn : nat -> fcn_cfg).

Lemma function_tags_ok pa_fcn f fd s : tagged (fd_capabilities fd) -> card_tags_ok s ->
  wk_actag s + list_tags (fd_capabilities fd) < 2 ^ 16 ->
  card_tags_ok (learn_function raw_fcn pa_fcn f (Some fd) s) /\
  wk_actag (learn_function raw_fcn pa_fcn f (Some fd) s) <= wk_actag s + list_tags (fd_capabilities fd).
Proof.
  intros Ht [Hlo Hr Hd] Hle.
  set (s1 := s <| wk_pasid := 0 |> <| wk_fcn := fresh_fcn raw_fcn f fd |>).
  assert (Hs1 : function_tags (wk_actag s) s1).
  { apply (given_empty _ _ (wk_actag s) (wk_actag s) 0). lia. }
  destruct (learn_all_tags _ pa_fcn _ Ht s1 Hs1 Hle) as [[_ Fr Fd] Hle2].
  pose proof (learn_all_keeps_array pa_fcn (fd_capabilities fd) s1) as Earr.
  unfold learn_function. fold s1. set (s2 := learn_all pa_fcn (fd_capabilities fd) s1) in *.
  change (wk_actag s1) with (wk_actag s) in Hle2. change (wk_array s1) with (wk_array s) in Earr.
  assert (Hat : forall g i a, afu_at (<[f := Some (wk_fcn s2)]> (wk_array s2)) g i a ->
    g = f /\ fc_afu_cfg_array (wk_fcn s2) !! i = Some (Some a) \/ g <> f /\ afu_at (wk_array s) g i a).
  { intros g i a (c & [[-> ->]|[Hg Hc]]%insert_slot & Hi); [by left|]. right. split; [done|]. exists c. by rewrite <- Earr. }
  split; [|exact (proj2 Hle2)]. split; cbn -[s2]; [lia| |].
  - intros g i a [[-> Hi]|[_ Hi]]%Hat; [by apply (Fr i)|].
    eapply below_mono; [by eapply Hr|lia].
  - assert (Hnew : forall i a g j b, fc_afu_cfg_array (wk_fcn s2) !! i = Some (Some a) ->
      afu_at (wk_array s) g j b -> tags_disjoint b a).
    { intros i a g j b Hi Hj. apply below_apart. eapply below_mono; [by eapply Hr|]. by destruct (Fr i a Hi). }
    intros g i a h j b Hne [[-> Hi]|[_ Hi]]%Hat [[-> Hj]|[_ Hj]]%Hat.
    + apply (Fd i j); [congruence|done|done].
    + apply apart_sym. by eapply Hnew.
    + by eapply Hnew.
    + by apply (Hd g i a h j b).
Qed.

Definition tagged_card (card : list (option function_desc)) : Prop :=
  Forall (fun fd => forall d, fd = Some d -> tagged (fd_capabilities d)) card.

Lemma card_tags_nonneg card : tagged_card card -> 0 <= card_tags card.
Proof.
  unfold card_tags. induction 1 as [|[fd|] card Hfd Hcard IH]; cbn [foldr]; [done| |done].
  assert (H : tagged (fd_capabilities fd)) by by apply Hfd.
  pose proof (tagged_sum _ H). lia.
Qed.

Lemma card_tags_kept bus card : tagged_card card -> forall f s,
  card_tags_ok s -> wk_actag s + card_tags card < 2 ^ 16 -> card_tags_ok (learn_card raw_fcn bus f card s).
Proof.
  induction 1 as [|fd card Hfd Hcard IH]; intros f s Hs Hle; [done|].
  pose proof (card_tags_nonneg card Hcard). cbn [learn_card]. destruct fd as [fd|]; cbn [card_tags foldr] in Hle.
  - fold (card_tags card) in Hle.
    destruct (function_tags_ok (fcn_pa bus f) f fd s (Hfd _ eq_refl) Hs ltac:(lia)) as [H1 H2].
    apply IH; [done|lia].
  - apply IH; [by destruct Hs|done].
Qed.
(** ** Address spaces, function by function *)

Definition card_pasids_ok (s : walk unit) : Prop := forall f i j a b, i <> j ->
  afu_at (wk_array s) f i a -> afu_at (wk_array s) f j b -> pasids_disjoint a b.

Lemma function_pasids_ok pa_fcn f fd s : roomy (fd_capabilities fd) -> card_pasids_ok s ->
  card_pasids_ok (learn_function raw_fcn pa_fcn f (Some fd) s).
Proof.
  intros [Hlen Hroom] Hd. set (s1 := s <| wk_pasid := 0 |> <| wk_fcn := fresh_fcn raw_fcn f fd |>).
  assert (Hs1 : function_pasids s1) by (by apply (given_empty _ _ 0 0 0)).
  pose proof (learn_all_pasids pa_fcn _ Hlen s1 Hs1 Hroom) as [_ _ Fd].
  pose proof (learn_all_keeps_array pa_fcn (fd_capabilities fd) s1) as Earr. change (wk_array s1) with (wk_array s) in Earr.
  unfold learn_function. fold s1. set (s2 := learn_all pa_fcn (fd_capabilities fd) s1) in *.
  intros g i j a b Hij (c & Hc & Hi) (c' & Hc' & Hj). assert (c' = c) as -> by congruence. cbn -[s2] in Hc.
  apply insert_slot in Hc as [[-> ->]|[_ Hc]]; [by apply (Fd i j)|].
  rewrite Earr in Hc. apply (Hd g i j); [done|by exists c..].
Qed.

Definition roomy_card (card : list (option function_desc)) : Prop :=
  Forall (fun fd => forall d, fd = Some d -> roomy (fd_capabilities d)) card.

Lemma card_pasids_kept bus card : roomy_card card -> forall f s,
  card_pasids_ok s -> card_pasids_ok (learn_card raw_fcn bus f card s).
Proof.
  induction 1 as [|fd card Hfd Hcard IH]; intros f s Hs; [done|]. cbn [learn_card]. apply IH.
  destruct fd as [fd|]; [|done]. by apply function_pasids_ok; [apply Hfd|].
Qed.
End tags.

(** * The theorems *)
Section theorems.
Context (value : list access -> Z -> Z) (delay : nat) (raw_fcn : nat -> fcn_cfg) (raw_afu : nat -> nat -> afu_cfg).
Context {W : Type} `{!ConfigSpace W} `{!DeviceSpace value W}.
Context (fuel : nat) (bus : Z) (card : list (option function_desc)) (s : walk W).
Hypothesis Hmeets : meets value delay raw_fcn fuel bus card s.

Lemma tables_learnt : exists s',
  read_afu_config raw_fcn raw_afu fuel bus s = Done tt s' /\
  wk_array s' = wk_array (learnt raw_fcn bus card (wk_fcn s) (wk_pasid s)) /\
  wk_actag s' = wk_actag (learnt raw_fcn bus card (wk_fcn s) (wk_pasid s)).
Proof.
  destruct (discovery_ends value delay raw_fcn raw_afu fuel bus card s Hmeets) as (w & E).
  by exists (at_space w (learnt raw_fcn bus card (wk_fcn s) (wk_pasid s))).
Qed.

Lemma window_base f fd : sized_card card -> 2 ^ 42 + windows card < 2 ^ 64 ->
  card !! f = Some (Some fd) -> one_window fd ->
  exists s' c, read_afu_config raw_fcn raw_afu fuel bus s = Done tt s' /\
    wk_array s' !! f = Some (Some c) /\ fc_bar0 c = 2 ^ 42 + windows (take f card).
Proof.
  intros Hsz Hlt Hf Hone. destruct tables_learnt as (s' & E & Harr & _).
  set (s0 := Walk tt (replicate FUNCTIONS None) (wk_fcn s) 0 (2 ^ 42) 0 (wk_pasid s)).
  assert (Hlen : (0 + length card <= length (wk_array s0))%nat)
    by (rewrite (meets_functions _ _ _ _ _ _ _ Hmeets); done).
  assert (H0 : 0 <= wk_bar s0) by done.
  destruct (card_bar0 raw_fcn bus card Hsz 0 s0 f fd H0 Hlt Hlen Hf Hone) as (c & Hc & Hbar).
  exists s', c. by rewrite Harr.
Qed.

(** the windows follow one another: each function's window starts 4 TB and
    the sizes of the windows of the functions before it from zero, so no two
    overlap. *)
Theorem windows_follow f fd : sized_card card -> 2 ^ 42 + windows card < 2 ^ 64 ->
  card !! f = Some (Some fd) -> one_window fd ->
  exists s' c, read_afu_config raw_fcn raw_afu fuel bus s = Done tt s' /\
    wk_array s' !! f = Some (Some c) /\ fc_bar0 c = 2 ^ 42 + windows (take f card).
Proof. apply window_base. Qed.

(** C23: whatever AFUs a card has, discovery ends, and if the card asks for fewer
    than 2^16 tags in all (and no AFU for a negative number of them), the tags
    of any two of its AFUs are disjoint, and if none of its functions asks for
    more than the 256 process address spaces that a base of eight bits can tell
    apart, those of any two AFUs of a function are disjoint. *)
Theorem tags_are_disjoint :
  exists s', read_afu_config raw_fcn raw_afu fuel bus s = Done tt s' /\
    (tagged_card card -> card_tags card < 2 ^ 16 ->
     forall f i a g j b, (f, i) <> (g, j) -> afu_at (wk_array s') f i a -> afu_at (wk_array s') g j b ->
       tags_disjoint a b) /\
    (roomy_card card ->
     forall f i j a b, i <> j -> afu_at (wk_array s') f i a -> afu_at (wk_array s') f j b ->
       pasids_disjoint a b).
Proof.
  destruct tables_learnt as (s' & E & Harr & _). exists s'. split; [done|]. rewrite Harr.
  set (s0 := Walk tt (replicate FUNCTIONS None) (wk_fcn s) 0 (2 ^ 42) 0 (wk_pasid s)).
  assert (Hno : forall f i a, ~ afu_at (wk_array s0) f i a).
  { intros f i a (c & Hc & _). apply (lookup_replicate_1 FUNCTIONS) in Hc as [? _]. done. }
  split.
  - intros Ht Hlt. assert (H0 : card_tags_ok s0) by (split; [done| |]; [intros f i a []%Hno|intros f i a g j b _ []%Hno]).
    by destruct (card_tags_kept raw_fcn bus card Ht 0 s0 H0 Hlt).
  - intros Hroom. apply (card_pasids_kept raw_fcn bus card Hroom 0 s0). by intros f i j a b _ []%Hno.
Qed.

(** a window is not aligned to its size: behind a first window of [2^j] bytes
    a larger second one of [2^k] starts at 4 TB + [2^j].  A base register of [2^k]
    bytes keeps only the multiple of [2^k] below, and that is the first window's
    base. *)
Theorem second_window_misaligned fd0 fd1 j k : sized_card card -> 2 ^ 42 + windows card < 2 ^ 64 ->
  card !! 0%nat = Some (Some fd0) -> card !! 1%nat = Some (Some fd1) -> one_window fd0 -> one_window fd1 ->
  window (Some fd0) = 2 ^ j -> window (Some fd1) = 2 ^ k -> 0 <= j < k -> k <= 42 ->
  exists s' c0 c1, read_afu_config raw_fcn raw_afu fuel bus s = Done tt s' /\
    wk_array s' !! 0%nat = Some (Some c0) /\ wk_array s' !! 1%nat = Some (Some c1) /\
    fc_bar0 c1 mod 2 ^ k = 2 ^ j /\ (fc_bar0 c1 / 2 ^ k) * 2 ^ k = fc_bar0 c0.
Proof.
  intros Hsz Hlt H0 H1 Ho0 Ho1 Hw0 Hw1 Hk Hk42.
  destruct (window_base 0 fd0 Hsz Hlt H0 Ho0) as (s' & c0 & E & Hc0 & Hb0).
  destruct (window_base 1 fd1 Hsz Hlt H1 Ho1) as (s1 & c1 & E1 & Hc1 & Hb1).
  rewrite E in E1. injection E1 as <-. exists s', c0, c1. split_and!; try done.
  all: destruct card as [|d0 card']; [done|]; injection H0 as ->.
  all: cbn [take windows foldr] in Hb0, Hb1; rewrite Hw0 in Hb1.
  all: assert (E42 : 2 ^ 42 = 2 ^ (42 - k) * 2 ^ k) by (rewrite <- Z.pow_add_r by lia; f_equal; lia).
  all: assert (Hpow : 0 < 2 ^ j < 2 ^ k) by (split; [lia|apply Z.pow_lt_mono_r; lia]).
  - rewrite Hb1, E42, Z.add_0_r, Z.add_comm, Z.mod_add by lia. apply Z.mod_small. lia.
  - rewrite Hb1, Hb0, !Z.add_0_r. rewrite E42 at 1. rewrite Z.add_comm, Z.div_add, Z.div_small by lia. lia.
Qed.
End theorems.

(** * The sample card *)

Lemma sample_sized : sized_card sample_card.
Proof. repeat constructor; intros d [= <-]; repeat constructor; cbn; lia. Qed.

Lemma sample_one_window0 : one_window (FunctionDesc 0x062b 0x1014
  [(0x100, PASID 2); (0x200, FUNCTION true 1 16); (0x300, AFU_INFO); (0x400, AFU_CTL sample_desc);
   (0x500, AFU_CTL second_desc)]).
Proof.
  exists [(0x100, PASID 2)], (0x200, FUNCTION true 1 16),
    [(0x300, AFU_INFO); (0x400, AFU_CTL sample_desc); (0x500, AFU_CTL second_desc)].
  split_and!; [done|done|]. by repeat constructor.
Qed.

Lemma sample_one_window1 : one_window (FunctionDesc 0x062b 0x1014 [(0x100, FUNCTION true 0 20)]).
Proof. exists [], (0x100, FUNCTION true 0 20), []. split_and!; [done|done|constructor]. Qed.

Lemma windows_follow_witness :
  exists s' c, read_afu_config (fun _ => sample_raw) (fun _ _ => sample_raw_afu) 7 0 sample_walk = Done tt s' /\
    wk_array s' !! 1%nat = Some (Some c) /\ fc_bar0 c = 2 ^ 42 + 2 ^ 16.
Proof.
  exact (windows_follow sample_value 1 (fun _ => sample_raw) (fun _ _ => sample_raw_afu) 7 0 sample_card sample_walk
    sample_meets 1 _ sample_sized eq_refl eq_refl sample_one_window1).
Defined.

Lemma sample_tagged : tagged_card sample_card.
Proof. repeat constructor; intros d [= <-]; repeat constructor; cbn; lia. Qed.

Lemma sample_roomy : roomy_card sample_card.
Proof.
  unfold roomy_card, sample_card. repeat (apply List.Forall_cons; [intros d E|]); [..|apply Forall_nil_2].
  all: first [discriminate E|injection E as <-; split; [repeat constructor; cbn; lia|by vm_compute]].
Qed.

(** The two AFUs of the first function, by their tags and address spaces. *)
Definition ranges_of (a : afu_cfg) : Z * Z * Z * Z :=
  (af_actag_base a, af_actag_length_enabled a, af_pasid_base a, pasid_count a).

Definition ranges_in (arr : list (option fcn_cfg)) (f : nat) : option (list (option (Z * Z * Z * Z))) :=
  c ← mjoin (arr !! f);
  Some (map (option_map ranges_of) (fc_afu_cfg_array c)).

Lemma ranges_in_at arr f i l x :
  ranges_in arr f = Some l -> l !! i = Some (Some x) -> exists a, afu_at arr f i a /\ ranges_of a = x.
Proof.
  unfold ranges_in. destruct (arr !! f) as [[c|]|] eqn:E; cbn; try done. intros [= <-] Hi.
  rewrite list_lookup_fmap in Hi. destruct (fc_afu_cfg_array c !! i) as [[a|]|] eqn:Ea; try done.
  injection Hi as <-. exists a. split; [by exists c|done].
Qed.

Lemma learnt_ranges : ranges_in (wk_array (learnt (fun _ => sample_raw) 0 sample_card sample_raw 0)) 0 =
  Some [Some (0, 4, 0, 4); Some (4, 2, 4, 2)].
Proof. vm_compute. reflexivity. Qed.

Lemma sample_afus s' :
  read_afu_config (fun _ => sample_raw) (fun _ _ => sample_raw_afu) 7 0 sample_walk = Done tt s' ->
  exists a b, afu_at (wk_array s') 0 0 a /\ afu_at (wk_array s') 0 1 b /\
    ranges_of a = (0, 4, 0, 4) /\ ranges_of b = (4, 2, 4, 2).
Proof.
  intros H. destruct (tables_learnt sample_value 1 (fun _ => sample_raw) (fun _ _ => sample_raw_afu) 7 0
    sample_card sample_walk sample_meets) as (s1 & E & Harr & _).
  rewrite E in H. injection H as ->. change (wk_fcn sample_walk) with sample_raw in Harr.
  change (wk_pasid sample_walk) with 0 in Harr. pose proof learnt_ranges as Hl. rewrite <- Harr in Hl.
  destruct (ranges_in_at _ _ 0 _ _ Hl eq_refl) as (a & Ha & Ra).
  destruct (ranges_in_at _ _ 1 _ _ Hl eq_refl) as (b & Hb & Rb).
  exists a, b. exact (conj Ha (conj Hb (conj Ra Rb))).
Qed.

Lemma tags_are_disjoint_witness :
  exists s' a b, read_afu_config (fun _ => sample_raw) (fun _ _ => sample_raw_afu) 7 0 sample_walk = Done tt s' /\
    afu_at (wk_array s') 0 0 a /\ afu_at (wk_array s') 0 1 b /\
    ranges_of a = (0, 4, 0, 4) /\ ranges_of b = (4, 2, 4, 2) /\ tags_disjoint a b /\ pasids_disjoint a b.
Proof.
  destruct (tags_are_disjoint sample_value 1 (fun _ => sample_raw) (fun _ _ => sample_raw_afu) 7 0 sample_card sample_walk
    sample_meets) as (s' & E & Ht & Hp).
  specialize (Ht sample_tagged eq_refl). specialize (Hp sample_roomy).
  destruct (sample_afus s' E) as (a & b & Ha & Hb & Ra & Rb). exists s', a, b.
  split; [exact E|]. split; [exact Ha|]. split; [exact Hb|]. split; [exact Ra|]. split; [exact Rb|].
  split; [by apply (Ht 0%nat 0%nat a 0%nat 1%nat b)|by apply (Hp 0%nat 0%nat 1%nat a b)].
Defined.

Lemma second_window_misaligned_witness :
  exists s' c0 c1, read_afu_config (fun _ => sample_raw) (fun _ _ => sample_raw_afu) 7 0 sample_walk = Done tt s' /\
    wk_array s' !! 0%nat = Some (Some c0) /\ wk_array s' !! 1%nat = Some (Some c1) /\
    fc_bar0 c1 mod 2 ^ 20 = 2 ^ 16 /\ (fc_bar0 c1 / 2 ^ 20) * 2 ^ 20 = fc_bar0 c0.
Proof.
  assert (H1 : 0 <= 16 < 20) by lia. assert (H2 : 20 <= 42) by lia.
  exact (second_window_misaligned sample_value 1 (fun _ => sample_raw) (fun _ _ => sample_raw_afu) 7 0 sample_card sample_walk
    sample_meets _ _ 16 20 sample_sized eq_refl eq_refl eq_refl sample_one_window0 sample_one_window1 eq_refl eq_refl H1 H2).
Defined.
