(* ===== verification/Config.v ===== *)
(** Discovery's accesses in the running server: [_add_cfg] queues an access, the
    AFU's thread drives it and takes the AFU's answer, [_wait_for_done] waits for
    it.  With an AFU that answers configuration commands the server is a space
    behind which there is a device ([DeviceSpace]), so what holds of discovery
    holds of it in the server, queue, interface and thread included. *)
From stdpp Require Import gmap.
From S2P Require Import Prelude Utils Event TlxHost TlxAfu TlxApi Parms.
From S2P Require Import CmdState Cmd CmdHandlers CmdFrame CmdLogic CmdInv CmdSafe CmdSafeResp.
From S2P Require Import Mmio Ocl MmioInv OclInv CmdProps MmioRun Discover DiscoverProps.

(** The server's world and the log of the AFU's configuration space. *)
Definition card_world : Type := world * list access.

Definition on_world {A} (m : M A) : ST card_world A := fun '(w, l) =>
  match m w with
  | Done x w' => Done x (w', l)
  | Exited => Exited
  | UB => UB
  | Running => Running
  end.

(** The access that the host's event carries to the AFU. *)
Definition logged (a : AFU_EVENT) (l : list access) : list access :=
  if tlx_cfg_valid a =? 1 then
    if tlx_cfg_opcode a =? TLX_CMD_CONFIG_READ then Rd (tlx_cfg_pa a) :: l
    else Wr (tlx_cfg_pa a) (le_val (take 4 (tlx_cfg_data_bus a))) :: l
  else l.

Section server.
(** What the exchange of a cycle makes of the host's event, by the accesses that
    the AFU has seen before. *)
Context (reply : list access -> AFU_EVENT -> AFU_EVENT).

Definition exchange : ST card_world unit := fun '(w, l) =>
  Done tt (w <| w_event := reply l (w_event w) |>, logged (w_event w) l).

(** A turn of the thread while discovery has given up the lock. *)
Definition thread_turn : ST card_world unit := exchange;; on_world (_handle_afu;; drive_afu).

(** The loop until the access is done. *)
Fixpoint _wait_for_done (fuel : nat) (id : addr_t) : ST card_world unit :=
  event ← on_world (get_mmio id);
  if is_done event then mret tt
  else match fuel with
  | O => running
  | S fuel => thread_turn;; _wait_for_done fuel id
  end.

(** The calls of [afu_tlx_read_initial_credits]. *)
Definition initial_credits : M bool :=
  afu ← gets w_event;
  let '(rc, _, afu) := afu_tlx_read_initial_credits afu in
  modify (fun w => w <| w_event := afu |>);;
  mret (rc =? TLX_SUCCESS).

Definition server_access (fuel : nat) (rnw addr data : Z) : ST card_world Z :=
  id ← on_world (_add_cfg rnw 0 addr data);
  _wait_for_done fuel id;;
  event ← on_world (get_mmio id);
  on_world (free_mmio id);;
  mret (me_cmd_data event).

Definition server_space (fuel : nat) : ConfigSpace card_world := {|
  cfg_access := server_access fuel;
  cfg_credits := on_world initial_credits;
|}.

(** * An AFU that answers *)

(** Nothing is on its way in the configuration interface, or from the AFU. *)
Record quiet (a : AFU_EVENT) : Prop := {
  q_cfg : tlx_cfg_valid a = 0;
  q_resp : cfg_tlx_resp_valid a = 0;
  q_cmd : afu_tlx_cmd_valid a = 0;
  q_credit : 0 < cfg_tlx_credits_available a;
  q_bus : length (tlx_cfg_data_bus a) = 4%nat;
}.

(** A configuration command is on its way. *)
Record commanded (a : AFU_EVENT) (opcode tag pa : Z) : Prop := {
  cd_cfg : tlx_cfg_valid a = 1;
  cd_opcode : tlx_cfg_opcode a = opcode;
  cd_tag : tlx_cfg_capptag a = tag;
  cd_pa : tlx_cfg_pa a = pa;
  cd_resp : cfg_tlx_resp_valid a = 0;
  cd_cmd : afu_tlx_cmd_valid a = 0;
  cd_bus : length (tlx_cfg_data_bus a) = 4%nat;
}.

(** The answer to one has arrived. *)
Record config_answered (a : AFU_EVENT) (tag : Z) : Prop := {
  ca_cfg : tlx_cfg_valid a = 0;
  ca_resp : cfg_tlx_resp_valid a = 1;
  ca_tag : cfg_tlx_resp_capptag a = tag;
  ca_cmd : afu_tlx_cmd_valid a = 0;
  ca_credit : 0 < cfg_tlx_credits_available a;
  ca_bus : length (tlx_cfg_data_bus a) = 4%nat;
}.

(** The AFU leaves the interface alone when nothing is asked, and answers a
    command within the cycle: a read with the register's value. *)
Record config_afu (value : list access -> Z -> Z) : Prop := {
  cf_idle l a : quiet a -> quiet (reply l a);
  cf_read l a pa : commanded a TLX_CMD_CONFIG_READ CFG_RD_TAG pa ->
    config_answered (reply l a) CFG_RD_TAG /\
    cfg_tlx_resp_opcode (reply l a) = AFU_RSP_MEM_RD_RESP /\
    take 4 (cfg_tlx_rdata_bus (reply l a)) = le_bytes 4 (value l pa);
  cf_write l a pa : commanded a TLX_CMD_CONFIG_WRITE CFG_WR_TAG pa ->
    config_answered (reply l a) CFG_WR_TAG /\ cfg_tlx_resp_opcode (reply l a) <> AFU_RSP_MEM_RD_RESP;
}.

(** * The thread's turns *)

Lemma idle_commands w : w_list w = [] -> afu_tlx_cmd_valid (w_event w) = 0 -> handle_commands w = Done tt w.
Proof.
  intros Hl Hc.
  assert (Hfind : forall p, find_event p w = Done None w) by (intros p; unfold find_event, gets; by rewrite Hl).
  assert (Hcmd : handle_cmd w = Done tt w).
  { unfold handle_cmd. rewrite bind_gets. unfold afu_tlx_read_cmd_and_data. rewrite Hc.
    change (negb (truthy 0)) with true. cbv iota. rewrite bind_modify. by destruct w. }
  assert (Hnone : forall (k : option cmd_event -> M unit) p, k None = mret tt -> (find_event p ≫= k) w = Done tt w)
    by (intros k p Hk; by rewrite (bind_done _ _ _ _ _ (Hfind p)), Hk).
  assert (Hx : handle_xlate_intrp_pending_sent w = Done tt w)
    by (unfold handle_xlate_intrp_pending_sent; by rewrite bind_gets, Hl).
  assert (Ht : handle_touch w = Done tt w) by (unfold handle_touch; by rewrite bind_gets, Hl).
  unfold handle_commands.
  do 8 (erewrite bind_done; [|first [exact Hcmd | exact Hx | exact Ht | by apply Hnone]]). by apply Hnone.
Qed.

(** The queue holds one access, which nothing else is about to change. *)
Record alone (w : world) (id : addr_t) (e : mmio_event) : Prop := {
  al_queue : queue w = [id];
  al_event : heap w !! id = Some e;
  al_list : w_list w = [];
}.

(** No answer: nothing changes. *)
Lemma no_answer w id e : alone w id e -> me_cfg e = 1 -> me_state e <> OCSE_DONE ->
  cfg_tlx_resp_valid (w_event w) = 0 -> runs handle_responses (fun _ w' => w' = w) w.
Proof.
  intros [Hq He Hl] Hcfg Hs Hr. unfold handle_responses. apply runs_gets. unfold queue in Hq. rewrite Hq.
  runs_next. eapply runs_mono.
  { unfold handle_ap_resp. apply (runs_head _ id []); [done|]. apply (runs_get _ _ e); [done|].
    rewrite Hcfg. change (truthy 1) with true. cbv iota. unfold handle_cfg_resp.
    eapply runs_read_none; [|by instantiate (1 := CFG_TLX_RESP_NOT_VALID)|].
    - unfold take_cfg_resp, afu_tlx_read_cfg_resp_and_data. by rewrite Hr.
    - apply (runs_ret _ (fun (_ : unit) w' => w' = w)). done. }
  intros [] w' ->. unfold handle_ap_resp_data. apply (runs_head _ id []); [done|]. apply (runs_get _ _ e); [done|].
  rewrite Hcfg. change (truthy 1) with true. cbn [orb]. unfold is_done.
  rewrite bool_decide_false by done. done.
Qed.

(** ** The command component is left alone *)

Definition same_list (w w' : world) : Prop := w_list w' = w_list w.

#[local] Instance same_list_preorder : PreOrder same_list.
Proof. split; [done|]. intros w1 w2 w3 H12 H23. unfold same_list in *. congruence. Qed.

Lemma drive_keeps_list : framed same_list drive_afu.
Proof.
  unfold drive_afu, send_mmio, upd_mmio_event, get_mmio, set_mmio, upd_mmio, upd_ocl, host_send.
  frames ltac:(apply framed_modify; done).
Qed.

Lemma runs_framed {A} R (m : M A) Q w : framed R m -> runs m Q w -> runs m (fun x w' => Q x w' /\ R w w') w.
Proof.
  intros HR (x & w' & E & HQ)%runs_done. unfold runs. rewrite E. split; [done|by eapply HR].
Qed.

(** ** The access is driven *)

Lemma drives w id e afu : alone w id e -> me_cfg e = 1 -> me_state e = OCSE_IDLE ->
  cfg_tlx_resp_valid (w_event w) = 0 -> afu_tlx_cmd_valid (w_event w) = 0 ->
  drive_cmd (prepare e) (w_event w) = Some (TLX_SUCCESS, afu) ->
  runs (_handle_afu;; drive_afu) (fun _ w' => alone w' id (prepare e <| me_state := OCSE_PENDING |>) /\
    w_event w' = afu) w.
Proof.
  intros Ha Hcfg Hs Hr Hc Hd. pose proof Ha as [Hq He Hl]. runs_next. unfold _handle_afu. runs_next.
  eapply runs_mono; [apply (no_answer w id e); try done; by rewrite Hs|]. intros [] w' ->.
  unfold runs at 1. rewrite idle_commands by done.
  eapply runs_mono; [apply (runs_framed same_list); [apply drive_keeps_list|by apply (drive_head id e [])]|].
  intros [] w' [[Hh Hq' Hev _ _ _] Hl']. split; [|done].
  split; [by rewrite Hq'|rewrite Hh; apply lookup_insert_eq|by rewrite Hl'].
Qed.

(** ** The answer is taken *)

(** [data] is what the event keeps: of a read what the AFU answers. *)
Lemma answer_taken w id e (rd : bool) (data : Z) :
  alone w id e -> me_cfg e = 1 -> me_state e = OCSE_PENDING -> truthy (me_rnw e) = rd ->
  config_answered (w_event w) (if rd then CFG_RD_TAG else CFG_WR_TAG) ->
  (if rd then cfg_tlx_resp_opcode (w_event w) = AFU_RSP_MEM_RD_RESP /\
              take 4 (cfg_tlx_rdata_bus (w_event w)) = le_bytes 4 data
   else cfg_tlx_resp_opcode (w_event w) <> AFU_RSP_MEM_RD_RESP) ->
  is_u 32 data ->
  runs (_handle_afu;; drive_afu) (fun _ w' => queue w' = [] /\ w_list w' = [] /\ quiet (w_event w') /\
    exists e', heap w' !! id = Some e' /\ me_state e' = OCSE_DONE /\ (rd = true -> me_cmd_data e' = data)) w.
Proof.
  intros [Hq He Hl] Hcfg Hs Hrd [Cc Cr Ct Cm Ccr Cb] Hans Hd32.
  set (a' := w_event w <| cfg_tlx_resp_valid := 0 |> <| tlx_cfg_resp_ack := 1 |> <| tlx_afu_credit_valid := 1 |>).
  set (beat := if rd then Some (cfg_tlx_rdata_bus (w_event w), cfg_tlx_rdata_bdi (w_event w)) else None).
  set (resp := CfgResp (cfg_tlx_resp_opcode (w_event w)) (cfg_tlx_resp_capptag (w_event w)) (cfg_tlx_resp_code (w_event w))).
  assert (Hread : take_cfg_resp (me_rnw e) (w_event w) = (TLX_SUCCESS, Some (resp, beat), a')).
  { unfold take_cfg_resp, afu_tlx_read_cfg_resp_and_data. rewrite Cr, Ct, Hrd, Z.eqb_refl.
    change (negb (truthy 1)) with false. cbn [negb]. unfold beat, resp. rewrite Ct.
    destruct rd; [by destruct Hans as [-> _]|apply Z.eqb_neq in Hans; by rewrite Hans]. }
  set (e' := cfg_answered resp beat e).
  assert (He' : me_state e' = OCSE_DONE /\ me_cfg e' = 1 /\ (rd = true -> me_cmd_data e' = data)).
  { unfold e', cfg_answered. rewrite Hrd. unfold beat. destruct rd; (split_and!; [done|done|]); [|done]. intros _.
    destruct Hans as [_ Hb]. cbn. rewrite Hb, le_val_bytes. by apply Z.mod_small. }
  destruct He' as (Hdone & Hcfg' & Hdata). set (w1 := put_mm id e' (w <| w_event := a' |>)).
  runs_next. unfold _handle_afu. runs_next. unfold handle_responses. apply runs_gets. unfold queue in Hq. rewrite Hq.
  runs_next. eapply runs_mono with (Q := fun _ w' => w' = w1).
  { unfold handle_ap_resp. apply (runs_head _ id []); [done|]. apply (runs_get _ _ e); [done|].
    rewrite Hcfg. change (truthy 1) with true. cbv iota. unfold handle_cfg_resp.
    eapply runs_read; [exact Hread|]. cbv iota. rewrite Hrd.
    replace (negb rd && bool_decide (is_Some beat)) with false by (by unfold beat; destruct rd).
    rewrite Hs. change (negb (bool_decide (OCSE_PENDING = OCSE_PENDING))) with false. cbv iota.
    by apply (runs_upd_last id _ e). }
  intros [] w' ->. unfold handle_ap_resp_data. apply (runs_head _ id []); [done|].
  apply (runs_get _ _ e'); [apply lookup_insert_eq|]. rewrite Hcfg'. change (truthy 1) with true. cbn [orb].
  unfold is_done. rewrite bool_decide_true by done. cbn [when_]. apply runs_pop.
  set (w2 := pop_mm w1). assert (Hq2 : queue w2 = []) by (unfold w2, queue; cbn; by rewrite Hq).
  unfold runs at 1. rewrite idle_commands; [|exact Hl|exact Cm].
  unfold drive_afu. runs_next. unfold send_mmio. apply runs_gets. unfold queue in Hq2. rewrite Hq2.
  apply (runs_ret tt). apply runs_gets. rewrite Hq2. change (bool_decide ([] = [])) with true. cbn [when_].
  assert (Hfin : forall o, queue (w2 <| w_ocl := o |>) = [] /\ w_list (w2 <| w_ocl := o |>) = [] /\
    quiet (w_event (w2 <| w_ocl := o |>)) /\
    exists e', heap (w2 <| w_ocl := o |>) !! id = Some e' /\ me_state e' = OCSE_DONE /\ (rd = true -> me_cmd_data e' = data)).
  { intros o. split_and!; [exact Hq2|exact Hl|by split|]. exists e'. split_and!; [apply lookup_insert_eq|done|done]. }
  exact (Hfin _).
Qed.

(** * The server as a space *)

Section lawful.
Context (value : list access -> Z -> Z) (Hvalue : forall l pa, is_u 32 (value l pa)) (Hafu : config_afu value).
Context (fuel : nat) (Hfuel : (2 <= fuel)%nat).

Definition server_ok (cw : card_world) : Prop :=
  queue cw.1 = [] /\ w_list cw.1 = [] /\ quiet (w_event cw.1).

(** The access as [_add_cfg] queues it. *)
Lemma added rnw addr data w : queue w = [] -> w_list w = [] ->
  exists id e w', _add_cfg rnw 0 addr data w = Done id w' /\ alone w' id e /\ w_event w' = w_event w /\
    me_cfg e = 1 /\ me_state e = OCSE_IDLE /\ me_rnw e = rnw /\ me_cmd_PA e = addr /\ me_cmd_data e = data.
Proof.
  intros Hq Hl. set (id := mm_next (w_mmio w)).
  exists id, (new_mmio_event (mm_raw (w_mmio w) id) rnw 0 addr 1 data). eexists. split; [reflexivity|].
  split_and!; try done. split; [|apply lookup_insert_eq|done]. unfold queue in *. cbn. by rewrite Hq.
Qed.

Lemma cfg_bus_start e : register_pa (me_cmd_PA e) -> take 4 (cfg_bus e) = le_bytes 4 (me_cmd_data e).
Proof.
  intros [_ Hpa]. unfold cfg_bus. rewrite (Z.land_ones _ 2 ltac:(lia) : Z.land _ 3 = _).
  change (2 ^ 2) with 4. rewrite Hpa. change (Z.to_nat 0) with 0%nat. unfold overwrite. rewrite take_0, app_nil_l.
  by rewrite take_app_length' by (by rewrite length_le_bytes).
Qed.

(** The command that is driven. *)
Lemma cfg_driven e a : me_cfg e = 1 -> quiet a -> register_pa (me_cmd_PA e) -> is_u 32 (me_cmd_data e) ->
  let rd := truthy (me_rnw e) in
  exists a', drive_cmd (prepare e) a = Some (TLX_SUCCESS, a') /\
    commanded a' (if rd then TLX_CMD_CONFIG_READ else TLX_CMD_CONFIG_WRITE)
      (if rd then CFG_RD_TAG else CFG_WR_TAG) (me_cmd_PA e) /\
    (rd = false -> le_val (take 4 (tlx_cfg_data_bus a')) = me_cmd_data e).
Proof.
  intros Hcfg [Qc Qr Qm Qcr Qb] Hpa Hd rd. unfold prepare. rewrite Hcfg. change (truthy 1) with true. cbv iota.
  unfold drive_cmd. cbn [me_cfg me_rnw me_cmd_PA]. change (me_cfg (e <| me_ack := OCSE_MMIO_ACK |>)) with (me_cfg e).
  change (me_rnw (e <| me_ack := OCSE_MMIO_ACK |>)) with (me_rnw e). rewrite Hcfg. fold rd. change (truthy 1) with true. cbv iota.
  unfold tlx_afu_send_cfg_cmd_and_data. rewrite Qc. change (0 =? 1) with false. cbv iota.
  rewrite (proj2 (Z.eqb_neq (cfg_tlx_credits_available a) 0)) by lia.
  destruct rd; cbn -[memcpy cfg_bus].
  - eexists. split; [reflexivity|]. split; [|done]. by split.
  - unfold cfg_data_byte_cnt. cbn [Z.eqb Pos.eqb orb].
    assert (Hlen : (4 <= length (cfg_bus (e <| me_ack := OCSE_MMIO_ACK |>)))%nat).
    { unfold cfg_bus. rewrite length_overwrite; rewrite ?length_le_bytes, length_zeros; [lia|].
      change (me_cmd_PA (e <| me_ack := OCSE_MMIO_ACK |>)) with (me_cmd_PA e).
      rewrite (Z.land_ones _ 2 ltac:(lia) : Z.land _ 3 = _). pose proof (Z.mod_pos_bound (me_cmd_PA e) (2 ^ 2)). lia. }
    set (bus := cfg_bus (e <| me_ack := OCSE_MMIO_ACK |>)) in *.
    assert (Hm : memcpy (tlx_cfg_data_bus a) bus 4 = Some (overwrite (tlx_cfg_data_bus a) 0 (take 4 bus))).
    { unfold memcpy. replace (_ && _) with true; [done|]. symmetry. rewrite !andb_true_iff, !Z.leb_le. lia. }
    rewrite Hm. eexists. split; [reflexivity|]. split; [split; try done|].
    + cbn -[overwrite cfg_bus take]. rewrite length_overwrite; rewrite ?length_take; lia.
    + intros _. cbn -[overwrite cfg_bus take].
      unfold bus. rewrite (cfg_bus_start (e <| me_ack := OCSE_MMIO_ACK |>)) by exact Hpa.
      assert (Ht := overwrite_take (tlx_cfg_data_bus a) 0 (le_bytes 4 (me_cmd_data e))).
      rewrite length_le_bytes in Ht. cbn [Nat.add take app] in Ht.
      change (me_cmd_data (e <| me_ack := OCSE_MMIO_ACK |>)) with (me_cmd_data e). rewrite Ht by lia.
      rewrite take_0, app_nil_l, le_val_bytes. by apply Z.mod_small.
Qed.

Lemma driven_turn w l id e : alone w id e -> me_cfg e = 1 -> me_state e = OCSE_IDLE ->
  quiet (w_event w) -> register_pa (me_cmd_PA e) -> is_u 32 (me_cmd_data e) ->
  let rd := truthy (me_rnw e) in
  exists w', thread_turn (w, l) = Done tt (w', l) /\
    alone w' id (prepare e <| me_state := OCSE_PENDING |>) /\
    commanded (w_event w') (if rd then TLX_CMD_CONFIG_READ else TLX_CMD_CONFIG_WRITE)
      (if rd then CFG_RD_TAG else CFG_WR_TAG) (me_cmd_PA e) /\
    (rd = false -> le_val (take 4 (tlx_cfg_data_bus (w_event w'))) = me_cmd_data e).
Proof.
  intros [Hq He Hl] Hcfg Hs Hquiet Hpa Hd rd. set (a := w_event w) in *.
  pose proof (cf_idle _ Hafu l a Hquiet) as Hquiet'.
  destruct (cfg_driven e (reply l a) Hcfg Hquiet' Hpa Hd) as (a' & Hdrive & Hcmd & Hdata).
  set (w1 := w <| w_event := reply l a |>).
  assert (Ha1 : alone w1 id e) by (by split).
  destruct Hquiet' as [_ Qr Qm _ _].
  destruct (runs_done _ _ _ (drives w1 id e a' Ha1 Hcfg Hs Qr Qm Hdrive)) as ([] & w' & E & Ha' & Hev).
  exists w'. split_and!; [|done|by rewrite Hev|by rewrite Hev].
  unfold thread_turn, exchange. rewrite (bind_done _ _ (w, l) tt (w1, l)).
  - unfold on_world. by rewrite E.
  - unfold logged. fold a. by rewrite (q_cfg _ Hquiet).
Qed.

(** The turn in which the AFU's answer to it arrives. *)
Lemma answered_turn w l id e (rd : bool) pa d : alone w id e -> me_cfg e = 1 -> me_state e = OCSE_PENDING ->
  truthy (me_rnw e) = rd ->
  commanded (w_event w) (if rd then TLX_CMD_CONFIG_READ else TLX_CMD_CONFIG_WRITE)
    (if rd then CFG_RD_TAG else CFG_WR_TAG) pa ->
  (rd = false -> le_val (take 4 (tlx_cfg_data_bus (w_event w))) = d) ->
  exists w' e', thread_turn (w, l) = Done tt (w', if rd then Rd pa :: l else Wr pa d :: l) /\
    server_ok (w', l) /\ heap w' !! id = Some e' /\ me_state e' = OCSE_DONE /\
    (rd = true -> me_cmd_data e' = value l pa).
Proof.
  intros [Hq He Hl] Hcfg Hs Hrd Hcmd Hdata. set (a := w_event w) in *. set (w1 := w <| w_event := reply l a |>).
  assert (Ha1 : alone w1 id e) by (by split).
  assert (Hans : config_answered (w_event w1) (if rd then CFG_RD_TAG else CFG_WR_TAG) /\
    if rd then cfg_tlx_resp_opcode (w_event w1) = AFU_RSP_MEM_RD_RESP /\
               take 4 (cfg_tlx_rdata_bus (w_event w1)) = le_bytes 4 (value l pa)
    else cfg_tlx_resp_opcode (w_event w1) <> AFU_RSP_MEM_RD_RESP).
  { destruct rd; [by apply (cf_read _ Hafu)|by apply (cf_write _ Hafu l a pa)]. }
  destruct Hans as [Hans Hans'].
  destruct (runs_done _ _ _ (answer_taken w1 id e rd (value l pa) Ha1 Hcfg Hs Hrd Hans Hans' (Hvalue l pa)))
    as ([] & w' & E & Hq' & Hl' & Hqu & e' & He' & Hdone & Hval).
  exists w', e'. split_and!; try done.
  unfold thread_turn, exchange. rewrite (bind_done _ _ (w, l) tt (w1, logged a l)) by done.
  unfold on_world. rewrite E. unfold logged. destruct Hcmd as [-> -> _ -> _ _ _].
  destruct rd; [done|]. by rewrite Hdata.
Qed.

Lemma get_on_world {B} w e id (k : mmio_event -> ST card_world B) l :
  heap w !! id = Some e -> (on_world (get_mmio id) ≫= k) (w, l) = k e (w, l).
Proof.
  intros He. rewrite (bind_done _ _ (w, l) e (w, l)); [done|].
  unfold on_world, get_mmio. rewrite bind_gets. unfold lift. unfold heap in He. by rewrite He.
Qed.

(** An access, from its call to its return: it takes two turns. *)
Lemma access_done rnw addr data w l : server_ok (w, l) -> register_pa addr -> is_u 32 data ->
  exists x w', server_access fuel rnw addr data (w, l) =
      Done x (w', if truthy rnw then Rd addr :: l else Wr addr data :: l) /\
    server_ok (w', l) /\ (truthy rnw = true -> x = value l addr).
Proof.
  intros (Hq & Hl & Hquiet) Hpa Hd. cbn [fst] in *.
  destruct (added rnw addr data w Hq Hl) as (id & e & w1 & Eadd & Ha1 & Hev1 & Hcfg & Hs & Hr & HPA & Hdat).
  unfold server_access. rewrite (bind_done _ _ (w, l) id (w1, l)) by (unfold on_world; by rewrite Eadd).
  rewrite <- Hev1 in Hquiet. rewrite <- HPA in Hpa. rewrite <- Hdat in Hd.
  destruct (driven_turn w1 l id e Ha1 Hcfg Hs Hquiet Hpa Hd) as (w2 & E2 & Ha2 & Hcmd & Hdata).
  set (e2 := prepare e <| me_state := OCSE_PENDING |>) in *.
  assert (Hfix : me_cfg e2 = 1 /\ me_rnw e2 = rnw).
  { unfold e2, prepare. rewrite Hcfg. change (truthy 1) with true. by split. }
  destruct Hfix as [Hcfg2 Hr2].
  rewrite Hr in Hcmd, Hdata. rewrite HPA in Hcmd. rewrite Hdat in Hdata.
  destruct (answered_turn w2 l id e2 (truthy rnw) addr data Ha2 Hcfg2 eq_refl ltac:(by rewrite Hr2) Hcmd Hdata)
    as (w3 & e3 & E3 & Hok & He3 & Hdone & Hval).
  set (l3 := if truthy rnw then Rd addr :: l else Wr addr data :: l) in *.
  assert (Hwait : _wait_for_done fuel id (w1, l) = Done tt (w3, l3)).
  { destruct fuel as [|[|n]]; [lia|lia|]. cbn [_wait_for_done].
    rewrite (get_on_world w1 e) by apply Ha1. unfold is_done at 1. rewrite Hs.
    change (bool_decide (OCSE_IDLE = OCSE_DONE)) with false. cbv iota. rewrite (bind_done _ _ _ _ _ E2).
    rewrite (get_on_world w2 e2) by apply Ha2. change (is_done e2) with false. cbv iota.
    rewrite (bind_done _ _ _ _ _ E3).
    destruct n; cbn [_wait_for_done]; rewrite (get_on_world w3 e3) by done; unfold is_done; rewrite Hdone; done. }
  rewrite (bind_done _ _ _ _ _ Hwait), (get_on_world w3 e3) by done.
  eexists _, (w3 <| w_mmio := w_mmio w3 <| mm_heap := delete id (mm_heap (w_mmio w3)) |> |>).
  split; [reflexivity|]. split; [|exact Hval]. destruct Hok as (Hq3 & Hl3 & Hqu3). by split_and!.
Qed.

#[local] Instance this_server : ConfigSpace card_world := server_space fuel.

#[refine] Instance server_device : DeviceSpace value card_world := {
  space_ok := server_ok;
  space_log := snd;
}.
Proof.
  - intros [w l] pa Hok Hpa.
    destruct (access_done 1 pa 0 w l Hok Hpa ltac:(done)) as (x & w' & E & Hok' & Hx).
    exists (w', Rd pa :: l). split_and!; [|exact Hok'|done].
    change (server_access fuel 1 pa 0 (w, l) = Done (value l pa) (w', Rd pa :: l)). by rewrite E, (Hx eq_refl).
  - intros [w l] pa data Hok Hpa Hd.
    destruct (access_done 0 pa data w l Hok Hpa Hd) as (x & w' & E & Hok' & _).
    by exists x, (w', Wr pa data :: l).
Defined.

#[local] Existing Instance server_device.

(** C18: discovery in the server - its accesses queued, driven by the thread,
    answered by the AFU and waited for - ends on every card and leaves exactly the
    card's description in the tables. *)
Theorem server_discovers_the_card delay raw_fcn raw_afu n bus card (s : walk card_world) :
  meets value delay raw_fcn n bus card s ->
  exists cw, read_afu_config raw_fcn raw_afu n bus s =
    Done tt (at_space cw (learnt raw_fcn bus card (wk_fcn s) (wk_pasid s))).
Proof. apply discovery_ends. Qed.
End lawful.
End server.

(** * A server with the sample card *)

Definition sample_reply (l : list access) (a : AFU_EVENT) : AFU_EVENT :=
  if tlx_cfg_valid a =? 1 then
    a <| tlx_cfg_valid := 0 |> <| cfg_tlx_resp_valid := 1 |> <| cfg_tlx_resp_capptag := tlx_cfg_capptag a |>
      <| cfg_tlx_credits_available := 1 |>
      <| cfg_tlx_resp_opcode := (if tlx_cfg_opcode a =? TLX_CMD_CONFIG_READ then AFU_RSP_MEM_RD_RESP else 0x04) |>
      <| cfg_tlx_rdata_bus := le_bytes 4 (sample_value l (tlx_cfg_pa a)) |>
  else a.

Lemma sample_config_afu : config_afu sample_reply sample_value.
Proof.
  split.
  - intros l a Hq. unfold sample_reply. by rewrite (q_cfg _ Hq).
  - intros l a pa [Hv Ho Ht Hpa Hr Hc Hb]. unfold sample_reply. rewrite Hv, Ho, Ht, Hpa. split_and!; [by split|done|].
    cbn -[take le_bytes]. rewrite take_ge; [done|]. by rewrite length_le_bytes.
  - intros l a pa [Hv Ho Ht Hpa Hr Hc Hb]. unfold sample_reply. rewrite Hv, Ho, Ht. split; [by split|done].
Qed.

Lemma sample_value_range l pa : is_u 32 (sample_value l pa).
Proof.
  unfold sample_value. repeat (case_match; try (by split); try apply sample_words).
  unfold sample_registers. cbn [register]. repeat (case_match; [by split|]). by split.
Qed.

Definition sample_server : card_world :=
  let w := sample_world 128 [] sample_client in
  (w <| w_event := w_event w <| afu_tlx_credit_req_valid := 1 |> <| cfg_tlx_initial_credit := 1 |> |>, []).

Definition sample_server_walk : walk card_world := Walk sample_server [] sample_raw 0 0 0 0.

Lemma sample_server_meets (H2 : (2 <= 2)%nat) :
  @meets sample_value 1 (fun _ => sample_raw) card_world (server_space sample_reply 2)
    (server_device sample_reply sample_value sample_value_range sample_config_afu 2 H2)
    7 0 sample_card sample_server_walk.
Proof.
  split; [done|done|done|vm_compute; lia| |exact sample_implements].
  eexists. split; [reflexivity|]. by split_and!.
Qed.

Lemma server_discovers_the_card_witness :
  exists cw, @read_afu_config card_world (server_space sample_reply 2) (fun _ => sample_raw) (fun _ _ => sample_raw_afu)
      7 0 sample_server_walk =
    Done tt (at_space cw (learnt (fun _ => sample_raw) 0 sample_card sample_raw 0)).
Proof.
  assert (H2 : (2 <= 2)%nat) by lia.
  exact (server_discovers_the_card sample_reply sample_value sample_value_range sample_config_afu 2 H2 1
    (fun _ => sample_raw) (fun _ _ => sample_raw_afu) 7 0 sample_card sample_server_walk (sample_server_meets H2)).
Defined.
