(* ===== verification/Server.v ===== *)
(** ocse/ocse.c: the server's dealings with a client before an AFU's thread takes
    it over - the handshake, the search for an AFU by its name, the query of its
    configuration, the opening that gives the client a context.

    The state is that of one client's thread, which runs under the server's lock:
    the list of AFUs (each with the world of its own thread), the client, its
    socket.  Left out are [main]'s set-up, its loop that accepts connections, and
    the fields of [struct client] that nothing reads. *)
From S2P Require Import Prelude Utils Event TlxHost Parms CmdState.

Definition OCSE_VERSION_MAJOR := 0x03.
Definition OCSE_VERSION_MINOR := 0x00.
Definition OCSE_CONNECT := 0x01.
Definition OCSE_QUERY := 0x02.
Definition OCSE_OPEN := 0x04.
Definition OCSE_FIND := 0x30.
Definition OCSE_FIND_NTH := 0x31.
Definition OCSE_FIND_ACK := 0x32.
Definition OCSE_FAILED := 0xff.

#[export] Instance set_cl_context : Setter cl_context := ltac:(build_setter).
#[export] Instance set_cl_pasid : Setter cl_pasid := ltac:(build_setter).
#[export] Instance set_cl_bdf : Setter cl_bdf := ltac:(build_setter).
#[export] Instance set_cl_fcn : Setter cl_fcn := ltac:(build_setter).
#[export] Instance set_cl_afuid : Setter cl_afuid := ltac:(build_setter).

(** [struct ocl], what the server reads of it: the number of its simulator, and
    the world of its thread (its clients, its configuration). *)
Record server_ocl := ServerOcl { so_bus : Z; so_dbg_id : Z; so_world : world }.

#[export] Instance eta_server_ocl : Settable server_ocl := fun o => ServerOcl (so_bus o) (so_dbg_id o) (so_world o).
#[export] Instance set_so_world : Setter so_world := ltac:(build_setter).

(** A pointer that discovery did not assign is [None]; whether it compares equal
    to null is what [malloc] found: [ss_null].  [ss_out] holds the messages sent,
    with the outcome of the next sends, [ss_open] whether the socket is still
    open. *)
Record session := Session {
  ss_ocls : list server_ocl;
  ss_client : client;
  ss_in : stream;
  ss_out : list (list Z);
  ss_put_ok : list bool;
  ss_open : bool;
  ss_map : Z;
  ss_null : bool;
}.

#[export] Instance eta_session : Settable session := fun s => Session
  (ss_ocls s) (ss_client s) (ss_in s) (ss_out s) (ss_put_ok s) (ss_open s) (ss_map s) (ss_null s).
#[export] Instance set_ss_ocls : Setter ss_ocls := ltac:(build_setter).
#[export] Instance set_ss_client : Setter ss_client := ltac:(build_setter).
#[export] Instance set_ss_in : Setter ss_in := ltac:(build_setter).
#[export] Instance set_ss_out : Setter ss_out := ltac:(build_setter).
#[export] Instance set_ss_put_ok : Setter ss_put_ok := ltac:(build_setter).
#[export] Instance set_ss_open : Setter ss_open := ltac:(build_setter).

Abbreviation SV := (ST session).

Definition upd_session_client (f : client -> client) : SV unit :=
  modify (fun s => s <| ss_client := f (ss_client s) |>).

Definition drop : SV unit := upd_session_client (client_drop TLX_IDLE_CYCLES CLIENT_NONE).

Definition close_socket : SV unit := modify (fun s => s <| ss_open := false |>).

(** [put_bytes]: whether the socket took the message. *)
Definition put (l : list Z) : SV bool :=
  s ← gets (fun s => s);
  match ss_put_ok s with
  | false :: oks => modify (fun s => s <| ss_put_ok := oks |>);; mret false
  | oks => modify (fun s => s <| ss_put_ok := tail oks |> <| ss_out := ss_out s ++ [l] |>);; mret true
  end.

(** A message whose loss drops the client. *)
Definition put_or_drop (l : list Z) : SV unit :=
  ok ← put l;
  when_ (negb ok) drop.

(** * Searching the configuration *)

(** A C string: up to its null. *)
Fixpoint c_string (l : list Z) : list Z :=
  match l with
  | [] => []
  | b :: l => if b =? 0 then [] else b :: c_string l
  end.

(** [strcmp (a, b) == 0] *)
Definition same_string (a b : list Z) : bool := bool_decide (c_string a = c_string b).

(** A test for null of a pointer that may not have been assigned. *)
Definition not_null {A} (p : option A) : SV (option A) :=
  match p with
  | Some x => mret (Some x)
  | None =>
      null ← gets ss_null;
      if (null : bool) then mret None else undef
  end.

(** The AFUs of a function from [afuid] on, [n] of them: the first whose name it
    is. *)
Fixpoint find_afuid (f : fcn_cfg) (name : list Z) (n : nat) (afuid : nat) : SV (option nat) :=
  match n with
  | O => mret None
  | S n =>
      a ← lift (fc_afu_cfg_array f !! afuid);
      a ← not_null a;
      match a with
      | None => find_afuid f name n (S afuid)
      | Some a =>
          if same_string name (af_namespace a) then mret (Some afuid)
          else find_afuid f name n (S afuid)
      end
  end.

(** A function that has AFUs. *)
Definition with_afus (o : server_ocl) (fcn : nat) : SV (option fcn_cfg) :=
  f ← lift (mm_fcn_cfg_array (w_mmio (so_world o)) !! fcn);
  f ← not_null f;
  mret (match f with
        | Some f => if fc_afu_present f =? 0 then None else Some f
        | None => None
        end).

Definition n_afuids (f : fcn_cfg) : nat := S (Z.to_nat (fc_max_afu_index f)).

Definition FIND_ACK (o : server_ocl) (fcn afuid : nat) : list Z :=
  [OCSE_FIND_ACK; so_bus o; 0; Z.of_nat fcn; Z.of_nat afuid].

(** The loops of [_find]: whether the name was found. *)
Fixpoint find_fcn (o : server_ocl) (name : list Z) (fcns : list nat) : SV bool :=
  match fcns with
  | [] => mret false
  | fcn :: fcns =>
      f ← with_afus o fcn;
      match f with
      | None => find_fcn o name fcns
      | Some f =>
          afuid ← find_afuid f name (n_afuids f) 0;
          match afuid with
          | Some afuid => put_or_drop (FIND_ACK o fcn afuid);; mret true
          | None => find_fcn o name fcns
          end
      end
  end.

Fixpoint find_ocl (name : list Z) (ocls : list server_ocl) : SV bool :=
  match ocls with
  | [] => mret false
  | o :: ocls =>
      found ← find_fcn o name (seq 0 8);
      if (found : bool) then mret true else find_ocl name ocls
  end.

(** The loops of [_find_nth], with [this_iteration]: it goes up with a match that
    is not wanted and with every function that has AFUs. *)
Fixpoint find_fcn_nth (o : server_ocl) (name : list Z) (card_index : Z) (this_iteration : Z) (fcns : list nat)
    : SV (bool * Z) :=
  match fcns with
  | [] => mret (false, this_iteration)
  | fcn :: fcns =>
      f ← with_afus o fcn;
      match f with
      | None => find_fcn_nth o name card_index this_iteration fcns
      | Some f =>
          afuid ← find_afuid f name (n_afuids f) 0;
          match afuid with
          | Some afuid =>
              if this_iteration =? card_index
              then put_or_drop (FIND_ACK o fcn afuid);; mret (true, this_iteration)
              else find_fcn_nth o name card_index (this_iteration + 1 + 1) fcns
          | None => find_fcn_nth o name card_index (this_iteration + 1) fcns
          end
      end
  end.

(** A list of AFUs from its front on, the counter passed from one to the next. *)
Definition find_ocl_nth (name : list Z) (card_index : Z) (ocls : list server_ocl) : Z -> SV bool :=
  foldr (fun o (rest : Z -> SV bool) this_iteration =>
    r ← find_fcn_nth o name card_index this_iteration (seq 0 8);
    if fst (r : bool * Z) then mret true else rest (snd r)) (fun _ => mret false) ocls.

(** * The messages *)
Section messages.
(** How often a read from the socket may poll it. *)
Variable fuel : nat.

(** [get_bytes_silent]; a failure drops the client and ends the handler with
    [x]. *)
Definition get_or_drop {A} (size : Z) (x : A) (k : list Z -> SV A) : SV A :=
  s ← gets (fun s => s);
  match get_bytes_silent fuel (truthy (cl_abort (ss_client s))) size (ss_in s) with
  | GetRunning => running
  | GetFailed => drop;; mret x
  | GotBytes data str => modify (fun s => s <| ss_in := str |>);; k data
  end.

Definition get_byte {A} (x : A) (k : Z -> SV A) : SV A :=
  get_or_drop 1 x (fun b => b ← lift (head b); k b).

(** The name, with its length before it, into an array of 25. *)
Definition get_name (k : list Z -> SV unit) : SV unit :=
  get_byte tt (fun name_length =>
    if 25 <? name_length then undef
    else get_or_drop name_length tt (fun name =>
      if 25 <=? name_length then undef else k (name ++ [0]))).

Definition _find : SV unit :=
  get_name (fun name =>
    ocls ← gets ss_ocls;
    found ← find_ocl name ocls;
    when_ (negb found) (put_or_drop [OCSE_FAILED])).

Definition _find_nth : SV unit :=
  get_name (fun name =>
    get_byte tt (fun card_index =>
      get_byte tt (fun afu_index_valid =>
        get_byte tt (fun afu_index =>
          ocls ← gets ss_ocls;
          found ← find_ocl_nth name card_index ocls 0;
          when_ (negb found) (put_or_drop [OCSE_FAILED]))))).

(** The position of the AFU with a number. *)
Fixpoint _find_ocl (id : Z) (n : nat) (ocls : list server_ocl) : option (nat * server_ocl) :=
  match ocls with
  | [] => None
  | o :: ocls => if id =? so_dbg_id o then Some (n, o) else _find_ocl id (S n) ocls
  end.

Definition query_message (f : fcn_cfg) (a : afu_cfg) : list Z :=
  [OCSE_QUERY] ++ le_bytes 2 (fc_device_id f) ++ le_bytes 2 (fc_vendor_id f) ++
  le_bytes 1 (af_version_major a) ++ le_bytes 1 (af_version_minor a) ++
  le_bytes 8 (af_global_mmio_offset a) ++ le_bytes 4 (af_global_mmio_size a) ++
  le_bytes 8 (af_pp_mmio_offset a) ++ le_bytes 4 (af_pp_mmio_stride a) ++
  le_bytes 8 (af_mem_base_address a) ++ le_bytes 1 (af_mem_size a).

Definition _query : SV unit :=
  get_byte tt (fun bus => get_byte tt (fun dev => get_byte tt (fun fcn => get_byte tt (fun afuid =>
    ocls ← gets ss_ocls;
    upd_session_client (fun c => c <| cl_fcn := fcn |> <| cl_afuid := afuid |>
      <| cl_bdf := Z.lor (Z.lor (u16 (Z.shiftl bus 8)) (u16 (Z.shiftl dev 3))) fcn |>);;
    found ← lift (_find_ocl bus 0 ocls);
    f ← lift (mjoin (mm_fcn_cfg_array (w_mmio (so_world (snd found))) !! Z.to_nat fcn));
    a ← lift (mjoin (fc_afu_cfg_array f !! Z.to_nat afuid));
    put_or_drop (query_message f a))))).

(** ** Opening *)

(** The first slot of the AFU's array that is free. *)
Fixpoint free_slot (cs : list (option client)) (i : nat) : option nat :=
  match cs with
  | [] => None
  | None :: _ => Some i
  | Some _ :: cs => free_slot cs (S i)
  end.

Definition put_in_slot (n i : nat) (c : client) : SV unit :=
  modify (fun s => s <| ss_ocls := alter (fun o => o <| so_world := so_world o <| w_clients :=
    <[i := Some c]> (w_clients (so_world o)) |> |>) n (ss_ocls s) |>).

(** Whether the client was associated. *)
Definition _client_associate : SV bool :=
  get_byte false (fun bus => get_byte false (fun dev => get_byte false (fun fcn => get_byte false (fun afuid =>
    s ← gets (fun s => s);
    match _find_ocl bus 0 (ss_ocls s) with
    | None => put [OCSE_DETACH];; close_socket;; mret false
    | Some (n, o) =>
        if w_max_clients (so_world o) <=? 0 then exit_process
        else
          match free_slot (take (Z.to_nat (w_max_clients (so_world o))) (w_clients (so_world o))) 0 with
          | None => put [OCSE_DETACH];; close_socket;; mret false
          | Some i =>
              upd_session_client (fun c => c <| cl_context := Z.of_nat i |> <| cl_pasid := Z.of_nat i |>
                <| cl_state := CLIENT_VALID |> <| cl_pending := 0 |>);;
              s ← gets (fun s => s);
              put_in_slot n i (ss_client s);;
              ok ← put [OCSE_OPEN; u8 (Z.of_nat i)];
              if (ok : bool) then mret true else close_socket;; mret false
          end
    end)))).

(** ** The client's thread *)

(** The message after its first byte; whether the loop goes on. *)
Definition take_request (op : Z) : SV bool :=
  if op =? OCSE_QUERY then _query;; mret true
  else if op =? OCSE_FIND then _find;; mret true
  else if op =? OCSE_FIND_NTH then _find_nth;; mret true
  else if op =? OCSE_OPEN then _client_associate;; mret false
  else upd_session_client (fun c => c <| cl_pending := 0 |>);; mret false.

(** One turn of [_client_loop]; whether the loop goes on. *)
Definition client_turn : SV bool :=
  s ← gets (fun s => s);
  if negb (truthy (cl_pending (ss_client s))) then mret false
  else
    let '(rc, str) := bytes_ready (truthy (cl_abort (ss_client s))) (ss_in s) in
    modify (fun s => s <| ss_in := str |>);;
    if rc =? 0 then mret true
    else if rc <? 0 then drop;; mret false
    else get_byte false take_request.

Fixpoint _client_loop (turns : nat) : SV unit :=
  match turns with
  | O => running
  | S turns => go ← client_turn; if (go : bool) then _client_loop turns else mret tt
  end.

(** * The handshake *)

(** [_client_connect], with the client it leaves; the first four bytes go into an
    array of zeros. *)
Definition new_client (fd : Z) : client :=
  Client 1 0 fd 0 0 CLIENT_INIT 0 0 0x5001 0 0 0 None None.

Definition refuse_client : SV bool := put [OCSE_DETACH];; close_socket;; mret false.

Definition _client_connect (fd : Z) : SV bool :=
  s ← gets (fun s => s);
  match get_bytes_silent fuel false 4 (ss_in s) with
  | GetRunning => running
  | GetFailed => refuse_client
  | GotBytes name str =>
      modify (fun s => s <| ss_in := str |>);;
      if negb (bool_decide (c_string name = [79; 67; 83; 69])) then refuse_client
      else
        match get_bytes_silent fuel false 2 str with
        | GetRunning => running
        | GetFailed => refuse_client
        | GotBytes version str =>
            modify (fun s => s <| ss_in := str |>);;
            if negb (bool_decide (version = [OCSE_VERSION_MAJOR; OCSE_VERSION_MINOR])) then refuse_client
            else
              modify (fun s => s <| ss_client := new_client fd |>);;
              s ← gets (fun s => s);
              put (OCSE_CONNECT :: le_bytes 2 (htons (ss_map s)))
        end
  end.
End messages.

(** * The accepting loop's other work *)

(** A client that [main] frees before it takes the next connection. *)
Definition is_gone (c : client) : bool :=
  (cl_pending c =? 0) && bool_decide (cl_state c = CLIENT_NONE).

Definition clean_up (client_list : list client) : list client :=
  List.filter (fun c => negb (is_gone c)) client_list.

(** [_INThandler]: the clients give up, the threads end. *)
Definition _INThandler (ocls : list server_ocl) : list server_ocl :=
  map (fun o => o <| so_world := so_world o
    <| w_clients := imap (fun i c => if decide (Z.of_nat i < w_max_clients (so_world o))
         then fmap (fun c => c <| cl_abort := 1 |>) c else c) (w_clients (so_world o)) |>
    <| w_ocl := w_ocl (so_world o) <| ol_state := OCSE_DONE |> |> |>) ocls.
