(* ===== verification/Hosts.v ===== *)
(** ocse/shim_host.c and [ocl_init] of ocse/ocl.c: the file that names the
    simulators becomes the list of AFUs and their map.  Connecting to a simulator
    and discovering it is a function given from outside; the file is its lines. *)
From Stdlib Require Import Ascii String.
From stdpp Require Import sorting.
From S2P Require Import Prelude Utils Event Parms CmdState Server CmdProps.

(** * The file *)

Inductive host_line :=
  | Comment
  | Invalid
  | Host (id host : list Ascii.ascii) (port : Z).

Definition parse_host_line (l : list Ascii.ascii) : host_line :=
  match split_at "#"%char l with
  | (_, Some _) => Comment
  | _ =>
      match split_at ","%char l with
      | (_, None) => Invalid
      | (id, Some rest) =>
          match split_at ":"%char rest with
          | (_, None) => Invalid
          | (host, Some port) => Host id host (atoi port)
          end
      end
  end.

(** * ocl_init *)

(** The number in the name [tlx0] ... [tlxf]. *)
Definition bus_of_digit (c : Ascii.ascii) : option Z :=
  let d := Z.of_nat (Ascii.nat_of_ascii c) in
  if (48 <=? d) && (d <=? 57) then Some (d - 48)
  else if (65 <=? d) && (d <=? 70) then Some (d - 65 + 10)
  else if (97 <=? d) && (d <=? 102) then Some (d - 97 + 10)
  else None.

Definition bus_of_id (id : list Ascii.ascii) : option Z :=
  match id with
  | ["t"%char; "l"%char; "x"%char; d] => bus_of_digit d
  | _ => None
  end.

(** The bit of the AFU in the map. *)
Definition location (bus : Z) : Z := Z.shiftr 0x8000 bus.

(** The list is kept in the order of the numbers. *)
Fixpoint insert_ocl (o : server_ocl) (head : list server_ocl) : list server_ocl :=
  match head with
  | [] => [o]
  | o' :: head' => if so_bus o' <? so_bus o then o' :: insert_ocl o head' else o :: head
  end.

Section hosts.
(** The world of the AFU of a simulator, when it can be reached and discovered. *)
Variable connects : list Ascii.ascii -> Z -> option world.

Definition ocl_init (head : list server_ocl) (id host : list Ascii.ascii) (port : Z)
    : option (list server_ocl * Z) :=
  bus ← bus_of_id id;
  w ← connects host port;
  Some (insert_ocl (ServerOcl bus bus w) head, location bus).

(** The lines in turn, with the list and the map; an invalid one ends the
    process ([error_msg]). *)
Fixpoint parse_host_data (lines : list (list Ascii.ascii)) (head : list server_ocl) (tlx_map : Z)
    : option (list server_ocl * Z) :=
  match lines with
  | [] => Some (head, tlx_map)
  | l :: lines =>
      match parse_host_line l with
      | Comment => parse_host_data lines head tlx_map
      | Invalid => None
      | Host id host port =>
          match ocl_init head id host port with
          | None => parse_host_data lines head tlx_map
          | Some (head, location) => parse_host_data lines head (Z.lor tlx_map location)
          end
      end
  end.

(** * The map tells which numbers there are *)

Definition ordered_ocls (l : list server_ocl) : Prop := Sorted (fun a b => so_bus a <= so_bus b) l.

(** What holds of the list and the map after every line. *)
Record hosts_ok (head : list server_ocl) (tlx_map : Z) : Prop := {
  ho_sorted : ordered_ocls head;
  ho_range : Forall (fun o => 0 <= so_bus o < 16 /\ so_dbg_id o = so_bus o) head;
  ho_map : forall b, 0 <= b < 16 -> Z.testbit tlx_map (15 - b) = true <-> exists o, o ∈ head /\ so_bus o = b;
}.

Lemma bus_of_id_range id b : bus_of_id id = Some b -> 0 <= b < 16.
Proof.
  unfold bus_of_id, bus_of_digit. intros H. repeat (case_match; try done); injection H as <-;
    repeat match goal with
    | H : (_ && _) = true |- _ => apply andb_true_iff in H as [?%Z.leb_le ?%Z.leb_le]
    end; lia.
Qed.

Lemma location_bit b c : 0 <= b < 16 -> 0 <= c < 16 -> Z.testbit (location b) (15 - c) = true <-> b = c.
Proof.
  intros Hb Hc. unfold location. rewrite Z.shiftr_spec by lia. change 0x8000 with (2 ^ 15).
  rewrite Z.pow2_bits_eqb by lia. rewrite Z.eqb_eq. lia.
Qed.

Lemma insert_ocl_elem o o' head : o ∈ insert_ocl o' head <-> o = o' \/ o ∈ head.
Proof.
  induction head as [|o1 head IH]; cbn [insert_ocl].
  - rewrite list_elem_of_singleton. split; [by left|]. by intros [?|?%not_elem_of_nil].
  - case_match; rewrite ?elem_of_cons, ?IH; naive_solver.
Qed.

Lemma insert_ocl_hd a o head : so_bus a <= so_bus o -> HdRel (fun a b => so_bus a <= so_bus b) a head ->
  HdRel (fun a b => so_bus a <= so_bus b) a (insert_ocl o head).
Proof. intros Ha Hh. destruct head as [|o1 head]; cbn; [by constructor|]. inversion_clear Hh. case_match; by constructor. Qed.

Lemma insert_ocl_sorted o head : ordered_ocls head -> ordered_ocls (insert_ocl o head).
Proof.
  unfold ordered_ocls. induction 1 as [|o1 head Hs IH Hh]; cbn; [by repeat constructor|].
  case_match eqn:E; [apply Z.ltb_lt in E|apply Z.ltb_ge in E].
  - constructor; [done|]. apply insert_ocl_hd; [lia|done].
  - constructor; [by constructor|by constructor].
Qed.

Lemma ocl_init_ok head tlx_map id host port head' bit : hosts_ok head tlx_map ->
  ocl_init head id host port = Some (head', bit) -> hosts_ok head' (Z.lor tlx_map bit).
Proof.
  intros [Hs Hr Hm]. unfold ocl_init. destruct (bus_of_id id) as [bus|] eqn:Eb; [|done].
  pose proof (bus_of_id_range _ _ Eb) as Hbus. cbn [mbind option_bind].
  destruct (connects host port) as [w|]; [|done]. cbn. intros [= <- <-]. split.
  - by apply insert_ocl_sorted.
  - apply list.Forall_forall. intros o [->|Ho]%insert_ocl_elem; [done|]. by apply (proj1 (list.Forall_forall _ _) Hr).
  - intros b Hb. rewrite Z.lor_spec, orb_true_iff, Hm, location_bit by done. split.
    + intros [(o & Ho & Hob)|<-]; [exists o|eexists]; rewrite insert_ocl_elem; [by split; [right|]|by split; [left|]].
    + intros (o & [->|Ho]%insert_ocl_elem & Hob); [by right|left; by exists o].
Qed.

Lemma parse_host_data_keeps lines : forall head tlx_map head' tlx_map', hosts_ok head tlx_map ->
  parse_host_data lines head tlx_map = Some (head', tlx_map') -> hosts_ok head' tlx_map'.
Proof.
  induction lines as [|l lines IH]; intros head tlx_map head' tlx_map' Hok; cbn; [by intros [= <- <-]|].
  destruct (parse_host_line l) as [| |id host port]; [by apply IH|done|].
  destruct (ocl_init head id host port) as [[head1 bit]|] eqn:E; [|by apply IH].
  apply IH. by eapply ocl_init_ok.
Qed.

Lemma no_hosts : hosts_ok [] 0.
Proof.
  split; [constructor|constructor|]. intros b Hb. rewrite Z.testbit_0_l. split; [done|].
  by intros (o & Ho%not_elem_of_nil & _).
Qed.

(** whatever the file says and whichever simulators answer, the list of AFUs
    is in the order of their numbers, each between 0 and 15, and the map that
    clients get has a bit for exactly the numbers in the list, from the left. *)
Theorem host_data_map lines head tlx_map :
  parse_host_data lines [] 0 = Some (head, tlx_map) -> hosts_ok head tlx_map.
Proof. intros H. exact (parse_host_data_keeps lines [] 0 head tlx_map no_hosts H). Qed.
End hosts.

(** * A file with two simulators *)

Definition sample_hosts : list (list ascii) :=
  [String.list_ascii_of_string "# the simulators"; String.list_ascii_of_string "tlx2,localhost:32768";
   String.list_ascii_of_string "tlx0,localhost:32770"].

Definition sample_connects : list ascii -> Z -> option world := fun _ _ => Some (sample_world 128 [] sample_client).

Lemma host_data_map_witness :
  let w := sample_world 128 [] sample_client in
  parse_host_data sample_connects sample_hosts [] 0 = Some ([ServerOcl 0 0 w; ServerOcl 2 2 w], 0xA000) /\
  hosts_ok [ServerOcl 0 0 w; ServerOcl 2 2 w] 0xA000.
Proof.
  intros w. assert (H : parse_host_data sample_connects sample_hosts [] 0 = Some ([ServerOcl 0 0 w; ServerOcl 2 2 w], 0xA000))
    by reflexivity.
  split; [exact H|]. exact (host_data_map sample_connects sample_hosts [ServerOcl 0 0 w; ServerOcl 2 2 w] 0xA000 H).
Defined.
