(* ===== verification/ServerProps.v ===== *)
(** What the server answers to a client that has not opened an AFU yet: the
    search against a reference search, the query, the opening, which is a step of
    the AFU's thread - and what is wrong with the search for the n-th AFU and with
    long names. *)
From stdpp Require Import gmap.
From S2P Require Import Prelude Utils Event TlxHost TlxAfu TlxApi Parms.
From S2P Require Import CmdState Cmd CmdHandlers CmdFrame CmdLogic CmdInv CmdSafe CmdSafeResp.
From S2P Require Import Mmio Ocl MmioInv OclInv CmdProps MmioRun Server.

(** * The reference search *)

Definition is_named (name : list Z) (a : option (option afu_cfg)) : bool :=
  match a with Some (Some a) => same_string name (af_namespace a) | _ => false end.

(** The AFUs of a function with the name, in their order. *)
Definition named_in (name : list Z) (f : fcn_cfg) : list nat :=
  List.filter (fun i => is_named name (fc_afu_cfg_array f !! i)) (seq 0 (n_afuids f)).

Definition present_fcn (o : server_ocl) (fcn : nat) : option fcn_cfg :=
  match mm_fcn_cfg_array (w_mmio (so_world o)) !! fcn with
  | Some (Some f) => if fc_afu_present f =? 0 then None else Some f
  | _ => None
  end.

(** The positions of the AFUs of a card with the name. *)
Definition named_on (name : list Z) (o : server_ocl) (fcns : list nat) : list (server_ocl * nat * nat) :=
  flat_map (fun fcn => match present_fcn o fcn with
                       | Some f => map (fun i => (o, fcn, i)) (named_in name f)
                       | None => []
                       end) fcns.

Definition named (name : list Z) (ocls : list server_ocl) : list (server_ocl * nat * nat) :=
  flat_map (fun o => named_on name o (seq 0 8)) ocls.

(** The tables as discovery leaves them: eight functions, and an array of AFUs of
    the length it has been told. *)
Definition tables_ok (o : server_ocl) : Prop :=
  let fs := mm_fcn_cfg_array (w_mmio (so_world o)) in
  length fs = 8%nat /\
  forall fcn f, fs !! fcn = Some (Some f) -> fc_afu_present f <> 0 -> length (fc_afu_cfg_array f) = n_afuids f.

(** * Running the search *)

(** A message has been sent. *)
Definition said (s : session) (l : list Z) : session :=
  s <| ss_put_ok := [] |> <| ss_out := ss_out s ++ [l] |>.

Lemma put_said l s : ss_put_ok s = [] -> put l s = Done true (said s l).
Proof. intros H. unfold put. rewrite bind_gets, H. by rewrite bind_modify. Qed.

Lemma put_or_drop_said l s : ss_put_ok s = [] -> put_or_drop l s = Done tt (said s l).
Proof. intros H. unfold put_or_drop. by rewrite (bind_done _ _ _ _ _ (put_said l s H)). Qed.

Lemma not_null_run {A} (p : option A) s : ss_null s = true -> not_null p s = Done p s.
Proof. intros H. unfold not_null. destruct p; [done|]. by rewrite bind_gets, H. Qed.

Lemma find_afuid_run f name s : ss_null s = true -> forall n i, (i + n <= length (fc_afu_cfg_array f))%nat ->
  find_afuid f name n i s =
    Done (head (List.filter (fun i => is_named name (fc_afu_cfg_array f !! i)) (seq i n))) s.
Proof.
  intros Hn. induction n as [|n IH]; intros i Hi; [done|]. cbn [find_afuid seq List.filter].
  destruct (lookup_lt_is_Some_2 (fc_afu_cfg_array f) i ltac:(lia)) as [a Ha].
  rewrite (bind_lift _ _ _ _ Ha), Ha. rewrite (bind_done _ _ _ _ _ (not_null_run a s Hn)).
  destruct a as [a|]; cbn [is_named]; [|apply IH; lia].
  destruct (same_string name (af_namespace a)); [done|]. apply IH. lia.
Qed.

Lemma with_afus_run o fcn s : ss_null s = true -> tables_ok o -> (fcn < 8)%nat ->
  with_afus o fcn s = Done (present_fcn o fcn) s.
Proof.
  intros Hn [Hlen _] Hf. unfold with_afus, present_fcn.
  destruct (lookup_lt_is_Some_2 (mm_fcn_cfg_array (w_mmio (so_world o))) fcn ltac:(lia)) as [f Hf'].
  rewrite (bind_lift _ _ _ _ Hf'), Hf'. rewrite (bind_done _ _ _ _ _ (not_null_run f s Hn)). by destruct f.
Qed.

Lemma present_room o fcn f : tables_ok o -> present_fcn o fcn = Some f -> length (fc_afu_cfg_array f) = n_afuids f.
Proof.
  intros [_ Hf]. unfold present_fcn. intros H. repeat case_match; try done. injection H as <-.
  eapply Hf; [done|]. by apply Z.eqb_neq.
Qed.

Lemma named_run f name s : ss_null s = true -> length (fc_afu_cfg_array f) = n_afuids f ->
  find_afuid f name (n_afuids f) 0 s = Done (head (named_in name f)) s.
Proof. intros Hn Hl. apply find_afuid_run; [done|]. lia. Qed.

(** The answer to a search. *)
Definition found_ack (h : server_ocl * nat * nat) : list Z := let '(o, fcn, i) := h in FIND_ACK o fcn i.

Definition searched (h : option (server_ocl * nat * nat)) (s : session) : outcome session bool :=
  match h with Some h => Done true (said s (found_ack h)) | None => Done false s end.

Lemma head_app {A} (l1 l2 : list A) : head (l1 ++ l2) = match head l1 with Some x => Some x | None => head l2 end.
Proof. by destruct l1. Qed.

Lemma head_map {A B} (g : A -> B) l : head (map g l) = option_map g (head l).
Proof. by destruct l. Qed.

Lemma find_fcn_run o name s : ss_null s = true -> ss_put_ok s = [] -> tables_ok o ->
  forall fcns, Forall (fun fcn => fcn < 8)%nat fcns ->
  find_fcn o name fcns s = searched (head (named_on name o fcns)) s.
Proof.
  intros Hn Hp Ho. induction 1 as [|fcn fcns Hf _ IH]; [done|]. cbn [find_fcn named_on flat_map].
  rewrite (bind_done _ _ _ _ _ (with_afus_run o fcn s Hn Ho Hf)). rewrite head_app.
  destruct (present_fcn o fcn) as [f|] eqn:E; [|exact IH].
  rewrite (bind_done _ _ _ _ _ (named_run f name s Hn (present_room o fcn f Ho E))), head_map.
  destruct (head (named_in name f)) as [i|]; [|exact IH].
  cbn [option_map]. by rewrite (bind_done _ _ _ _ _ (put_or_drop_said _ _ Hp)).
Qed.

Lemma seq8 : Forall (fun fcn => fcn < 8)%nat (seq 0 8).
Proof. repeat constructor; lia. Qed.

Lemma find_ocl_run name s ocls : ss_null s = true -> ss_put_ok s = [] -> Forall tables_ok ocls ->
  find_ocl name ocls s = searched (head (named name ocls)) s.
Proof.
  intros Hn Hp. induction 1 as [|o ocls Ho _ IH]; [done|]. cbn [find_ocl named flat_map]. rewrite head_app.
  pose proof (find_fcn_run o name s Hn Hp Ho _ seq8) as E.
  destruct (head (named_on name o (seq 0 8))) as [h|]; cbn [searched] in E; rewrite (bind_done _ _ _ _ _ E); [done|exact IH].
Qed.

(** * Messages that have arrived *)

Section running.
Context {A : Type} (Q : A -> session -> Prop).

Lemma runs_get_or_drop fuel n (x : A) msg1 msg2 k s :
  cl_abort (ss_client s) = 0 -> queued (msg1 ++ msg2) (ss_in s) -> n = Z.of_nat (length msg1) -> 0 < n ->
  (1 <= fuel)%nat -> (forall str, queued msg2 str -> runs (k msg1) Q (s <| ss_in := str |>)) ->
  runs (get_or_drop fuel n x k) Q s.
Proof.
  intros Hab Hq Hn Hp Hf Hk. destruct (get_queued fuel n msg1 msg2 (ss_in s) Hq Hn Hp Hf) as (str & Hg & Hq').
  unfold get_or_drop. apply runs_gets. rewrite Hab. change (truthy 0) with false. rewrite Hg.
  apply runs_modify. by apply Hk.
Qed.

Lemma runs_get_byte fuel (x : A) b msg k s :
  cl_abort (ss_client s) = 0 -> queued (b :: msg) (ss_in s) -> (1 <= fuel)%nat ->
  (forall str, queued msg str -> runs (k b) Q (s <| ss_in := str |>)) -> runs (get_byte fuel x k) Q s.
Proof.
  intros Hab Hq Hf Hk. apply (runs_get_or_drop fuel 1 x [b] msg); [done..|]. intros str Hs.
  apply (runs_lift _ _ b); [done|]. by apply Hk.
Qed.

Lemma runs_tell l (k : bool -> SV A) s : ss_put_ok s = [] -> runs (k true) Q (said s l) -> runs (put l ≫= k) Q s.
Proof. intros Hp Hk. unfold runs in *. by rewrite (bind_done _ _ _ _ _ (put_said l s Hp)). Qed.
End running.

(** What has become of a session that answered [l], with [msg] left to read. *)
Definition spoke (s : session) (l msg : list Z) (s' : session) : Prop :=
  exists str, queued msg str /\ s' = said (s <| ss_in := str |>) l.

(** A session whose peer listens. *)
Record listening (s : session) : Prop := Listening {
  ls_abort : cl_abort (ss_client s) = 0; ls_put : ss_put_ok s = [];
}.

(** ** The search *)

(** The message of a search: the length and the name. *)
Definition find_message (name : list Z) : list Z := Z.of_nat (length name) :: name.

Definition find_answer (name : list Z) (ocls : list server_ocl) : list Z :=
  from_option found_ack [OCSE_FAILED] (head (named (name ++ [0]) ocls)).

Lemma runs_get_name fuel name msg k Q s :
  listening s -> (1 <= fuel)%nat -> (1 <= length name <= 24)%nat -> queued (find_message name ++ msg) (ss_in s) ->
  (forall str, queued msg str -> runs (k (name ++ [0])) Q (s <| ss_in := str |>)) -> runs (get_name fuel k) Q s.
Proof.
  intros [Ha Hp] Hf Hn Hq Hk. apply (runs_get_byte Q fuel tt (Z.of_nat (length name)) (name ++ msg)); [done..|].
  intros str Hs. replace (25 <? _) with false by (symmetry; apply Z.ltb_ge; lia).
  apply (runs_get_or_drop Q fuel _ tt name msg); [done|done|done|lia|done|]. intros str' Hs'.
  replace (25 <=? _) with false by (symmetry; apply Z.leb_gt; lia). by apply Hk.
Qed.

Lemma find_run fuel name msg s :
  listening s -> ss_null s = true -> Forall tables_ok (ss_ocls s) -> (1 <= fuel)%nat -> (1 <= length name <= 24)%nat ->
  queued (find_message name ++ msg) (ss_in s) ->
  runs (_find fuel) (fun _ => spoke s (find_answer name (ss_ocls s)) msg) s.
Proof.
  intros Hl Hn Ht Hf Hlen Hq. apply (runs_get_name fuel name msg); [done..|]. intros str Hs. apply runs_gets. runs_next.
  set (s1 := s <| ss_in := str |>).
  pose proof (find_ocl_run (name ++ [0]) s1 (ss_ocls s1) Hn (ls_put _ Hl) Ht) as E. unfold find_answer, runs. rewrite E.
  change (ss_ocls s1) with (ss_ocls s).
  destruct (head (named (name ++ [0]) (ss_ocls s))) as [h|]; cbn [searched negb when_]; cbv iota; [by exists str|].
  rewrite put_or_drop_said by (apply Hl). by exists str.
Qed.

(** ** The query *)

Lemma find_ocl_lookup id ocls : forall k n o, _find_ocl id k ocls = Some (n, o) ->
  (k <= n)%nat /\ ocls !! (n - k)%nat = Some o /\ so_dbg_id o = id.
Proof.
  induction ocls as [|o1 ocls IH]; intros k n o; cbn; [done|]. destruct (id =? so_dbg_id o1) eqn:E.
  - intros [= <- <-]. apply Z.eqb_eq in E. rewrite Nat.sub_diag. done.
  - intros H. destruct (IH (S k) n o H) as (Hk & Hl & Hid). split; [lia|].
    replace (n - k)%nat with (S (n - S k)) by lia. done.
Qed.

(** The client after a query. *)
Definition positioned (bus dev fcn afuid : Z) (c : client) : client :=
  c <| cl_fcn := fcn |> <| cl_afuid := afuid |>
    <| cl_bdf := Z.lor (Z.lor (u16 (Z.shiftl bus 8)) (u16 (Z.shiftl dev 3))) fcn |>.

Definition with_client (s : session) (c : client) : session := s <| ss_client := c |>.

Lemma query_run fuel bus dev fcn afuid msg n o f a s :
  listening s -> (1 <= fuel)%nat -> _find_ocl bus 0 (ss_ocls s) = Some (n, o) ->
  cfg_of (w_mmio (so_world o)) (positioned bus dev fcn afuid (ss_client s)) = Some (f, a) ->
  queued (bus :: dev :: fcn :: afuid :: msg) (ss_in s) ->
  runs (_query fuel) (fun _ =>
    spoke (with_client s (positioned bus dev fcn afuid (ss_client s))) (query_message f a) msg) s.
Proof.
  intros [Ha Hp] Hf Ho Hcfg Hq. unfold cfg_of in Hcfg.
  change (cl_fcn (positioned _ _ _ _ _)) with fcn in Hcfg. change (cl_afuid (positioned _ _ _ _ _)) with afuid in Hcfg.
  destruct (mjoin (mm_fcn_cfg_array (w_mmio (so_world o)) !! Z.to_nat fcn)) as [f1|] eqn:Ef; [|discriminate Hcfg].
  cbn in Hcfg. destruct (mjoin (fc_afu_cfg_array f1 !! Z.to_nat afuid)) as [a1|] eqn:Ea; [|discriminate Hcfg].
  cbn in Hcfg. injection Hcfg as -> ->.
  apply (runs_get_byte _ fuel tt bus (dev :: fcn :: afuid :: msg)); [done..|]. intros s1 H1.
  apply (runs_get_byte _ fuel tt dev (fcn :: afuid :: msg)); [done..|]. intros s2 H2.
  apply (runs_get_byte _ fuel tt fcn (afuid :: msg)); [done..|]. intros s3 H3.
  apply (runs_get_byte _ fuel tt afuid msg); [done..|]. intros s4 H4.
  apply runs_gets. unfold upd_session_client. apply runs_modify. apply (runs_lift _ _ (n, o)); [done|].
  apply (runs_lift _ _ f); [done|]. apply (runs_lift _ _ a); [done|].
  unfold runs. rewrite put_or_drop_said by done. by exists s4.
Qed.

(** ** Opening *)

Lemma free_slot_spec cs : forall k i, free_slot cs k = Some i -> exists j, i = (k + j)%nat /\ cs !! j = Some None /\
  forall j', (j' < j)%nat -> exists c, cs !! j' = Some (Some c).
Proof.
  induction cs as [|[c|] cs IH]; intros k i; cbn; [done| |].
  - intros H. destruct (IH (S k) i H) as (j & -> & Hj & Hlt). exists (S j). split; [lia|]. split; [done|].
    intros [|j'] Hj'; [by exists c|]. apply (Hlt j'). lia.
  - intros [= <-]. exists 0%nat. split; [lia|]. split; [done|]. lia.
Qed.

(** The client that has been given slot [i]. *)
Definition admitted (i : nat) (c : client) : client :=
  c <| cl_context := Z.of_nat i |> <| cl_pasid := Z.of_nat i |> <| cl_state := CLIENT_VALID |> <| cl_pending := 0 |>.

(** The AFU [n] has the client in slot [i]. *)
Definition seated (n i : nat) (c : client) (ocls : list server_ocl) : list server_ocl :=
  alter (fun o => o <| so_world := so_world o <| w_clients := <[i := Some c]> (w_clients (so_world o)) |> |>) n ocls.

(** The slots of an AFU that a client may take. *)
Definition slots (w : world) : list (option client) := take (Z.to_nat (w_max_clients w)) (w_clients w).

Definition admission (s : session) (n i : nat) : session :=
  let c := admitted i (ss_client s) in
  s <| ss_client := c |> <| ss_ocls := seated n i c (ss_ocls s) |>.

Lemma associate_run fuel bus dev fcn afuid msg n o i s :
  listening s -> (1 <= fuel)%nat -> _find_ocl bus 0 (ss_ocls s) = Some (n, o) ->
  0 < w_max_clients (so_world o) -> free_slot (slots (so_world o)) 0 = Some i ->
  queued (bus :: dev :: fcn :: afuid :: msg) (ss_in s) ->
  runs (_client_associate fuel) (fun ok s' => ok = true /\
    spoke (admission s n i) [OCSE_OPEN; u8 (Z.of_nat i)] msg s') s.
Proof.
  intros [Ha Hp] Hf Ho Hmax Hi Hq.
  apply (runs_get_byte _ fuel false bus (dev :: fcn :: afuid :: msg)); [done..|]. intros s1 H1.
  apply (runs_get_byte _ fuel false dev (fcn :: afuid :: msg)); [done..|]. intros s2 H2.
  apply (runs_get_byte _ fuel false fcn (afuid :: msg)); [done..|]. intros s3 H3.
  apply (runs_get_byte _ fuel false afuid msg); [done..|]. intros s4 H4.
  apply runs_gets. cbn [ss_ocls]. set (s5 := s <| ss_in := s1 |> <| ss_in := s2 |> <| ss_in := s3 |> <| ss_in := s4 |>).
  change (ss_ocls s5) with (ss_ocls s). rewrite Ho.
  replace (w_max_clients (so_world o) <=? 0) with false by (symmetry; by apply Z.leb_gt).
  unfold slots in Hi. rewrite Hi. unfold upd_session_client. apply runs_modify. apply runs_gets.
  unfold put_in_slot. apply runs_modify. apply runs_tell; [done|]. apply runs_ret. split; [done|]. by exists s4.
Qed.

(** ... which is a step of the AFU's thread. *)
Lemma admission_step s n i o :
  reachable (so_world o) -> ss_ocls s !! n = Some o -> free_slot (slots (so_world o)) 0 = Some i ->
  cl_mem_access (ss_client s) = None -> cl_mmio_access (ss_client s) = None ->
  is_Some (cfg_of (w_mmio (so_world o)) (ss_client s)) ->
  exists o', ss_ocls (admission s n i) !! n = Some o' /\ reachable (so_world o') /\
    w_clients (so_world o') !! i = Some (Some (ss_client (admission s n i))).
Proof.
  intros Hr Hn Hi Hm Hmm Hcfg. destruct (free_slot_spec _ _ _ Hi) as (j & -> & Hj & _). cbn [plus] in *.
  unfold slots in Hj. apply lookup_take_Some in Hj as [Hj _].
  eexists. split; [|split].
  - cbn. unfold seated. by rewrite list_lookup_alter_eq, Hn.
  - cbn. eapply reach_step; [exact Hr|]. by apply step_attach.
  - cbn. rewrite list_lookup_insert_eq; [done|]. by eapply lookup_lt_Some.
Qed.

(** ** A turn of the client's thread *)

Lemma runs_client_turn fuel op msg (Q : bool -> session -> Prop) s :
  listening s -> truthy (cl_pending (ss_client s)) = true -> (1 <= fuel)%nat -> queued (op :: msg) (ss_in s) ->
  (forall str, queued msg str -> runs (take_request fuel op) Q (s <| ss_in := str |>)) -> runs (client_turn fuel) Q s.
Proof.
  intros [Ha Hp] Hpend Hf Hq Hk. unfold client_turn. apply runs_gets. rewrite Hpend. cbn [negb].
  rewrite Ha. change (truthy 0) with false. rewrite (bytes_ready_queued _ _ _ Hq). apply runs_modify.
  change (1 =? 0) with false. change (1 <? 0) with false. cbv iota.
  apply (runs_get_byte Q fuel false op msg); [done..|]. exact Hk.
Qed.

Lemma runs_client_loop fuel turns (Q : bool -> session -> Prop) (P : unit -> session -> Prop) s :
  runs (client_turn fuel) Q s ->
  (forall go s', Q go s' -> if go then runs (_client_loop fuel turns) P s' else P tt s') ->
  runs (_client_loop fuel (S turns)) P s.
Proof.
  intros Ht Hk. cbn [_client_loop]. runs_next. eapply runs_mono; [exact Ht|]. intros go s' HQ.
  specialize (Hk go s' HQ). by destruct go.
Qed.

(** ** The handshake *)

Definition handshake_message : list Z := [79; 67; 83; 69; OCSE_VERSION_MAJOR; OCSE_VERSION_MINOR].
Definition handshake_answer (map : Z) : list Z := OCSE_CONNECT :: le_bytes 2 (htons map).

Lemma connect_run fuel fd msg s :
  ss_put_ok s = [] -> (1 <= fuel)%nat -> queued (handshake_message ++ msg) (ss_in s) ->
  runs (_client_connect fuel fd) (fun ok s' => ok = true /\
    spoke (with_client s (new_client fd)) (handshake_answer (ss_map s)) msg s') s.
Proof.
  intros Hp Hf Hq. unfold _client_connect. apply runs_gets.
  destruct (get_queued fuel 4 [79; 67; 83; 69] ([OCSE_VERSION_MAJOR; OCSE_VERSION_MINOR] ++ msg) (ss_in s) Hq)
    as (s1 & -> & H1); [done..|]. apply runs_modify.
  change (bool_decide (c_string [79; 67; 83; 69] = [79; 67; 83; 69])) with true. cbn [negb].
  destruct (get_queued fuel 2 [OCSE_VERSION_MAJOR; OCSE_VERSION_MINOR] msg s1 H1) as (s2 & -> & H2); [done..|].
  apply runs_modify. change (bool_decide ([OCSE_VERSION_MAJOR; OCSE_VERSION_MINOR] = _)) with true. cbn [negb].
  apply runs_modify. apply runs_gets. unfold runs. rewrite put_said by done. split; [done|]. by exists s2.
Qed.

(** * The search for the n-th *)

(** One AFU of the name for each function that has AFUs. *)
Definition first_in (name : list Z) (o : server_ocl) (fcn : nat) : list (server_ocl * nat * nat) :=
  match present_fcn o fcn with
  | Some f => option_list ((fun i => (o, fcn, i)) <$> head (named_in name f))
  | None => []
  end.

Definition occurrences (name : list Z) (ocls : list server_ocl) : list (server_ocl * nat * nat) :=
  flat_map (fun o => flat_map (first_in name o) (seq 0 8)) ocls.

(** Every function that has AFUs has one of the name. *)
Definition all_named (name : list Z) (o : server_ocl) : Prop :=
  forall fcn f, present_fcn o fcn = Some f -> named_in name f <> [].

(** What the counter [t] makes of the index [k]: it moves by two. *)
Definition hit {A} (k t : Z) (l : list A) : option A :=
  if (t <=? k) && Z.even (k - t) then l !! Z.to_nat ((k - t) / 2) else None.

Lemma hit_nil {A} k t : hit k t ([] : list A) = None.
Proof. unfold hit. by case_match. Qed.

Lemma hit_cons {A} k t (x : A) l : hit k t (x :: l) = if t =? k then Some x else hit k (t + 2) l.
Proof.
  unfold hit. destruct (Z.eqb_spec t k) as [->|Hne].
  - by rewrite Z.leb_refl, Z.sub_diag.
  - replace (k - (t + 2)) with (k - t - 2) by lia. rewrite (Z.even_sub (k - t) 2). change (Z.even 2) with true.
    replace (Bool.eqb (Z.even (k - t)) true) with (Z.even (k - t)) by (by destruct (Z.even _)).
    destruct (Z.even (k - t)) eqn:E; [|by rewrite !andb_false_r].
    apply Z.even_spec in E as [q Hq]. rewrite !andb_true_r.
    destruct (Z.leb_spec t k), (Z.leb_spec (t + 2) k); try lia; [|done].
    replace (k - t - 2) with ((q - 1) * 2) by lia. replace (k - t) with (q * 2) by lia.
    rewrite !Z.div_mul by done. by replace (Z.to_nat q) with (S (Z.to_nat (q - 1))) by lia.
Qed.

Lemma hit_app {A} k (l1 l2 : list A) : forall t,
  hit k t (l1 ++ l2) = match hit k t l1 with Some x => Some x | None => hit k (t + 2 * Z.of_nat (length l1)) l2 end.
Proof.
  induction l1 as [|x l1 IH]; intros t.
  - cbn [app length]. rewrite hit_nil. f_equal. lia.
  - cbn [app length]. rewrite !hit_cons. destruct (t =? k); [done|]. rewrite IH. case_match; [done|]. f_equal. lia.
Qed.

Lemma find_fcn_nth_run o name k s : ss_null s = true -> ss_put_ok s = [] -> tables_ok o -> all_named name o ->
  forall fcns t, Forall (fun fcn => fcn < 8)%nat fcns ->
  let l := flat_map (first_in name o) fcns in
  match hit k t l with
  | Some h => exists t', find_fcn_nth o name k t fcns s = Done (true, t') (said s (found_ack h))
  | None => find_fcn_nth o name k t fcns s = Done (false, t + 2 * Z.of_nat (length l)) s
  end.
Proof.
  intros Hn Hp Ho Hall. induction fcns as [|fcn fcns IH]; intros t Hf.
  { cbn [flat_map]. rewrite hit_nil. cbn. do 2 f_equal. lia. }
  apply Forall_cons_1 in Hf as [Hf Hfs]. cbn [flat_map find_fcn_nth]. cbv zeta.
  rewrite (bind_done _ _ _ _ _ (with_afus_run o fcn s Hn Ho Hf)).
  destruct (present_fcn o fcn) as [f|] eqn:E.
  2: { assert (Hfi : first_in name o fcn = []) by (unfold first_in; by rewrite E). rewrite Hfi. exact (IH t Hfs). }
  rewrite (bind_done _ _ _ _ _ (named_run f name s Hn (present_room o fcn f Ho E))).
  destruct (named_in name f) as [|i rest] eqn:En; [by destruct (Hall fcn f E)|].
  assert (Hfi : first_in name o fcn = [(o, fcn, i)]) by (unfold first_in; by rewrite E, En).
  rewrite Hfi. cbn [app head length]. rewrite hit_cons. destruct (t =? k).
  - rewrite (bind_done _ _ _ _ _ (put_or_drop_said _ _ Hp)). by eexists.
  - specialize (IH (t + 2) Hfs). cbv zeta in IH. rewrite <- (Z.add_assoc t 1 1). change (1 + 1) with 2.
    destruct (hit k (t + 2) _) as [h|]; [exact IH|]. rewrite IH. do 2 f_equal. lia.
Qed.

Lemma find_ocl_nth_run name k s ocls : ss_null s = true -> ss_put_ok s = [] -> Forall tables_ok ocls ->
  Forall (all_named name) ocls -> forall t,
  find_ocl_nth name k ocls t s = searched (hit k t (occurrences name ocls)) s.
Proof.
  intros Hn Hp Ht Ha. induction ocls as [|o ocls IH]; intros t; [by cbn; rewrite hit_nil|].
  apply Forall_cons_1 in Ht as [Hto Ht]. apply Forall_cons_1 in Ha as [Hao Ha].
  unfold find_ocl_nth, occurrences. cbn [foldr flat_map]. rewrite hit_app.
  pose proof (find_fcn_nth_run o name k s Hn Hp Hto Hao (seq 0 8) t seq8) as E. cbv zeta in E.
  destruct (hit k t (flat_map (first_in name o) (seq 0 8))) as [h|].
  - destruct E as [t' E]. by rewrite (bind_done _ _ _ _ _ E).
  - rewrite (bind_done _ _ _ _ _ E). cbn [fst snd]. by apply IH.
Qed.

(** * What clients are told *)

(** Two cards with the same AFU, with room for two clients each; messages for the
    server have arrived. *)
Definition card_name : list Z := [73; 66; 77; 44; 65; 70; 85].
Definition card_afu : afu_cfg :=
  AfuCfg 0 4 4 0 16 16 (card_name ++ zeros 18) 1 2 0 0x10000 0x10000 0 0x20000 0x10000 0 32.
Definition card_fcn : fcn_cfg :=
  FcnCfg 0x062b 0x1014 0x40000000000 4 3 0 1 0 0x200 0x80 0 0 16 0x300 [Some card_afu].
Definition card_mmio : mmio :=
  mmio_init (fun _ => sample_raw) (fun _ _ => 0) <| mm_fcn_cfg_array := None :: Some card_fcn :: replicate 6 None |>.
Definition card_start : world := start sample_afu (sample_parms 128) card_mmio sample_ocl [] 2 [].
Definition two_cards : list server_ocl := [ServerOcl 0 0 card_start; ServerOcl 2 2 card_start].
Definition sample_session (msg : list Z) : session :=
  Session two_cards (new_client 9) (Stream msg [] false) [] [] true 0xA000 true.

Lemma card_fcns fcn f : mm_fcn_cfg_array card_mmio !! fcn = Some (Some f) -> f = card_fcn.
Proof.
  intros H. do 8 (destruct fcn as [|fcn]; [first [discriminate H | by injection H as <-]|]). discriminate H.
Qed.

Lemma two_cards_ok : Forall tables_ok two_cards.
Proof.
  assert (H : forall b, tables_ok (ServerOcl b b card_start)).
  { intros b. split; [done|]. intros fcn f ->%card_fcns _. done. }
  repeat constructor; apply H.
Qed.

Lemma sample_session_queued msg : queued msg (ss_in (sample_session msg)).
Proof. exists []. by rewrite app_nil_r. Qed.

(** C24: a search by name is answered with the position - bus, function and index
    - of the first AFU of that name in the order of the cards, functions and
    indices, or with a failure when there is none; nothing else changes. *)
Theorem find_answers_first fuel name msg s :
  listening s -> ss_null s = true -> Forall tables_ok (ss_ocls s) -> (1 <= fuel)%nat -> (1 <= length name <= 24)%nat ->
  queued (find_message name ++ msg) (ss_in s) ->
  exists s', _find fuel s = Done tt s' /\ spoke s (find_answer name (ss_ocls s)) msg s'.
Proof.
  intros Hl Hn Ht Hf Hlen Hq.
  destruct (runs_done _ _ _ (find_run fuel name msg s Hl Hn Ht Hf Hlen Hq)) as ([] & s' & H & Hs). by exists s'.
Qed.

Lemma find_answers_first_witness :
  let s := sample_session (find_message card_name) in
  find_answer card_name two_cards = [0x32; 0; 0; 1; 0] /\
  exists s', _find 1 s = Done tt s' /\ spoke s (find_answer card_name two_cards) [] s'.
Proof.
  intros s. split; [vm_compute; reflexivity|].
  assert (Hq : queued (find_message card_name ++ []) (ss_in s)) by (rewrite app_nil_r; apply sample_session_queued).
  assert (Hl : (1 <= length card_name <= 24)%nat) by (cbn; lia).
  exact (find_answers_first 1 card_name [] s (Listening s eq_refl eq_refl) eq_refl two_cards_ok (le_n 1) Hl Hq).
Defined.

(** The message of a search for the n-th. *)
Definition find_nth_message (name : list Z) (card_index valid afu_index : Z) : list Z :=
  find_message name ++ [card_index; valid; afu_index].

(** What is answered: with the counter at twice the number of matches so far. *)
Definition find_nth_answer (name : list Z) (card_index : Z) (ocls : list server_ocl) : list Z :=
  from_option found_ack [OCSE_FAILED] (hit card_index 0 (occurrences (name ++ [0]) ocls)).

(** where every function with AFUs has the AFU, the search for occurrence
    [card_index] counts each one twice: an even index is answered with the
    occurrence half as far, an odd one with a failure - the second occurrence,
    index 1, is never found. *)
Theorem occurrences_count_twice fuel name card_index valid afu_index msg s :
  listening s -> ss_null s = true -> Forall tables_ok (ss_ocls s) -> Forall (all_named (name ++ [0])) (ss_ocls s) ->
  (1 <= fuel)%nat -> (1 <= length name <= 24)%nat ->
  queued (find_nth_message name card_index valid afu_index ++ msg) (ss_in s) ->
  exists s', _find_nth fuel s = Done tt s' /\ spoke s (find_nth_answer name card_index (ss_ocls s)) msg s'.
Proof.
  intros Hl Hn Ht Hall Hf Hlen Hq. unfold find_nth_message in Hq. rewrite <- app_assoc in Hq. pose proof Hl as [Ha Hp].
  cut (runs (_find_nth fuel) (fun _ => spoke s (find_nth_answer name card_index (ss_ocls s)) msg) s).
  { intros ([] & s' & H & Hs)%runs_done. by exists s'. }
  apply (runs_get_name fuel name ([card_index; valid; afu_index] ++ msg)); [done..|]. intros s1 H1.
  apply (runs_get_byte _ fuel tt card_index ([valid; afu_index] ++ msg)); [done..|]. intros s2 H2.
  apply (runs_get_byte _ fuel tt valid ([afu_index] ++ msg)); [done..|]. intros s3 H3.
  apply (runs_get_byte _ fuel tt afu_index msg); [done..|]. intros s4 H4. apply runs_gets. runs_next.
  set (s5 := s <| ss_in := s1 |> <| ss_in := s2 |> <| ss_in := s3 |> <| ss_in := s4 |>).
  pose proof (find_ocl_nth_run (name ++ [0]) card_index s5 (ss_ocls s5) Hn Hp Ht Hall 0) as E.
  unfold find_nth_answer, runs. rewrite E. change (ss_ocls s5) with (ss_ocls s).
  destruct (hit card_index 0 (occurrences (name ++ [0]) (ss_ocls s))) as [h|]; cbn [searched negb when_]; cbv iota;
    [by exists s4|]. rewrite put_or_drop_said by done. by exists s4.
Qed.

Lemma two_cards_named : Forall (all_named (card_name ++ [0])) two_cards.
Proof.
  assert (H : forall b, all_named (card_name ++ [0]) (ServerOcl b b card_start)).
  { intros b fcn f. unfold present_fcn. change (w_mmio (so_world (ServerOcl b b card_start))) with card_mmio.
    destruct (mm_fcn_cfg_array card_mmio !! fcn) as [[f1|]|] eqn:E; [|done..]. apply card_fcns in E as ->.
    cbn. by intros [= <-]. }
  repeat constructor; apply H.
Qed.

(** The cards 0 and 2 have the AFU; the second one is never found. *)
Lemma occurrences_count_twice_witness :
  let s := sample_session (find_nth_message card_name 1 1 0) in
  find_nth_answer card_name 2 two_cards = [0x32; 2; 0; 1; 0] /\
  exists s', _find_nth 1 s = Done tt s' /\ spoke s [OCSE_FAILED] [] s'.
Proof.
  intros s. split; [vm_compute; reflexivity|].
  assert (Hq : queued (find_nth_message card_name 1 1 0 ++ []) (ss_in s)) by (rewrite app_nil_r; apply sample_session_queued).
  assert (Hl : (1 <= length card_name <= 24)%nat) by (cbn; lia).
  exact (occurrences_count_twice 1 card_name 1 1 0 [] s (Listening s eq_refl eq_refl) eq_refl two_cards_ok two_cards_named
    (le_n 1) Hl Hq).
Defined.

(** a name of 25 bytes or more, which the client library sends as it is,
    overruns the server's array: the behaviour is undefined. *)
Theorem long_name_overflows fuel name msg s :
  listening s -> (1 <= fuel)%nat -> 25 <= Z.of_nat (length name) <= 255 ->
  queued (find_message name ++ msg) (ss_in s) -> _find fuel s = UB /\ _find_nth fuel s = UB.
Proof.
  intros [Ha Hp] Hf Hlen Hq.
  assert (H : forall k, get_name fuel k s = UB).
  { intros k. unfold get_name, get_byte. unfold get_or_drop at 1. rewrite bind_gets, Ha. change (truthy 0) with false.
    destruct (get_queued fuel 1 [Z.of_nat (length name)] (name ++ msg) (ss_in s) Hq) as (s1 & -> & H1); [done..|].
    rewrite bind_modify. rewrite (bind_lift _ _ (Z.of_nat (length name))) by done.
    destruct (25 <? Z.of_nat (length name)); [done|]. unfold get_or_drop. rewrite bind_gets.
    change (cl_abort (ss_client (s <| ss_in := s1 |>))) with (cl_abort (ss_client s)). rewrite Ha.
    change (truthy 0) with false. change (ss_in (s <| ss_in := s1 |>)) with s1.
    destruct (get_queued fuel (Z.of_nat (length name)) name msg s1 H1) as (s2 & -> & _); [done|lia|done|].
    rewrite bind_modify. by replace (25 <=? _) with true by (symmetry; apply Z.leb_le; lia). }
  split; apply H.
Qed.

Lemma long_name_overflows_witness : _find 1 (sample_session (find_message (zeros 25))) = UB.
Proof.
  set (s := sample_session (find_message (zeros 25))).
  assert (Hq : queued (find_message (zeros 25) ++ []) (ss_in s)) by (rewrite app_nil_r; apply sample_session_queued).
  assert (Hl : 25 <= Z.of_nat (length (zeros 25)) <= 255) by (split; discriminate).
  exact (proj1 (long_name_overflows 1 (zeros 25) [] s (Listening s eq_refl eq_refl) (le_n 1) Hl Hq)).
Defined.

Lemma get_byte_queued {A} fuel b msg s :
  cl_abort (ss_client s) = 0 -> queued (b :: msg) (ss_in s) -> (1 <= fuel)%nat ->
  exists str, queued msg str /\ forall (x : A) k, get_byte fuel x k s = k b (s <| ss_in := str |>).
Proof.
  intros Ha Hq Hf. destruct (get_queued fuel 1 [b] msg (ss_in s) Hq) as (str & Hg & Hs); [done..|].
  exists str. split; [done|]. intros x k. unfold get_byte, get_or_drop. rewrite bind_gets, Ha. change (truthy 0) with false.
  by rewrite Hg.
Qed.

(** a query of a position that discovery has not found - of a card that is not
    there, of a function without AFUs, of an index past the last AFU - reads
    through a null pointer or past the table: the behaviour is undefined.  The
    library sends index 255 when the application gives -1, "any". *)
Theorem unknown_position_undefined fuel bus dev fcn afuid msg s :
  listening s -> (1 <= fuel)%nat ->
  (forall n o, _find_ocl bus 0 (ss_ocls s) = Some (n, o) ->
     cfg_of (w_mmio (so_world o)) (positioned bus dev fcn afuid (ss_client s)) = None) ->
  queued (bus :: dev :: fcn :: afuid :: msg) (ss_in s) -> _query fuel s = UB.
Proof.
  intros [Ha Hp] Hf Hno Hq. unfold _query.
  destruct (get_byte_queued (A := unit) fuel bus (dev :: fcn :: afuid :: msg) s Ha Hq Hf) as (s1 & H1 & ->).
  set (x1 := s <| ss_in := s1 |>).
  destruct (get_byte_queued (A := unit) fuel dev (fcn :: afuid :: msg) x1 Ha H1 Hf) as (s2 & H2 & ->).
  set (x2 := x1 <| ss_in := s2 |>).
  destruct (get_byte_queued (A := unit) fuel fcn (afuid :: msg) x2 Ha H2 Hf) as (s3 & H3 & ->).
  set (x3 := x2 <| ss_in := s3 |>).
  destruct (get_byte_queued (A := unit) fuel afuid msg x3 Ha H3 Hf) as (s4 & _ & ->).
  rewrite bind_gets. unfold upd_session_client. rewrite bind_modify.
  change (ss_ocls (_ <| ss_in := s4 |>)) with (ss_ocls s).
  destruct (_find_ocl bus 0 (ss_ocls s)) as [[n o]|] eqn:E; [|done].
  rewrite (bind_lift _ _ (n, o)) by done. specialize (Hno n o eq_refl). unfold cfg_of in Hno.
  change (cl_fcn (positioned _ _ _ _ _)) with fcn in Hno. change (cl_afuid (positioned _ _ _ _ _)) with afuid in Hno.
  cbn [snd]. destruct (mjoin (mm_fcn_cfg_array (w_mmio (so_world o)) !! Z.to_nat fcn)) as [f|]; [|done].
  rewrite (bind_lift _ _ f) by done. cbn [mbind option_bind] in Hno.
  destruct (mjoin (fc_afu_cfg_array f !! Z.to_nat afuid)) as [a|]; [discriminate Hno|done].
Qed.

Lemma unknown_position_undefined_witness : _query 1 (sample_session [0; 0; 1; 255]) = UB.
Proof.
  set (s := sample_session [0; 0; 1; 255]).
  assert (Hno : forall n o, _find_ocl 0 0 (ss_ocls s) = Some (n, o) ->
    cfg_of (w_mmio (so_world o)) (positioned 0 0 1 255 (ss_client s)) = None) by (intros n o [= <- <-]; reflexivity).
  exact (unknown_position_undefined 1 0 0 1 255 [] s (Listening s eq_refl eq_refl) (le_n 1) Hno
    (sample_session_queued [0; 0; 1; 255])).
Defined.
