(* ===== verification/Main.v ===== *)
(** The server's [main] (ocse/ocse.c): what it sets up, the port it listens on,
    the loop around [accept] and the end; and a client that it frees while the
    thread of an AFU still serves it.

    The operating system is an argument: the outcome of [setsockopt] and [bind]
    for each port, the connections, what the other threads make of the server
    while [main] does not hold the lock. *)
From S2P Require Import Prelude Utils Event Sock Parms CmdState Cmd CmdHandlers CmdFrame CmdLogic CmdInv CmdSafeResp.
From S2P Require Import Mmio MmioRun Ocl MmioInv OclInv CmdProps OclProps OclLoop Server Hosts ServerProps.

(** * The port *)

Inductive bind_result := Bound | AddrInUse | BindError.

Section port.
Context (setsockopt : Z -> Z) (bind : Z -> bind_result).

(** The result is the port, or [None] for -1; without fuel the loop is still on. *)
Fixpoint bind_loop (fuel : nat) (port : Z) : option (option Z) :=
  match fuel with
  | O => None
  | S fuel =>
      if setsockopt port <? 0 then Some None
      else
        match bind port with
        | BindError => Some None
        | AddrInUse => if port =? 0xFFFF then Some None else bind_loop fuel (port + 1)
        | Bound => Some (Some port)
        end
  end.

Definition _start_server (fuel : nat) : option (option Z) := bind_loop fuel 16384.
End port.

(** * The loop *)

Record server := Srv {
  sv_ocls : list server_ocl;
  sv_clients : list client;
  sv_map : Z;
  sv_null : bool;
}.
#[export] Instance eta_server : Settable server :=
  fun s => Srv (sv_ocls s) (sv_clients s) (sv_map s) (sv_null s).
#[export] Instance set_sv_ocls : Setter sv_ocls := ltac:(build_setter).
#[export] Instance set_sv_clients : Setter sv_clients := ltac:(build_setter).

(** What the other threads do while [accept] waits, the socket it returns, what
    is on it, whether it takes the answers, whether a thread can be started. *)
Record visit := Visit {
  vi_others : server -> server;
  vi_fd : Z;
  vi_in : stream;
  vi_put_ok : list bool;
  vi_thread : bool;
}.

(** [_client_connect] on the new socket: the client, if it was taken. *)
Definition connect (fuel : nat) (v : visit) : ST server (option client) := fun s =>
  match _client_connect fuel (vi_fd v)
          (Session (sv_ocls s) (new_client (vi_fd v)) (vi_in v) [] (vi_put_ok v) true (sv_map s) (sv_null s)) with
  | Done ok t => Done (if (ok : bool) then Some (ss_client t) else None) s
  | Exited => Exited
  | UB => UB
  | Running => Running
  end.

(** One connection; whether the loop goes on. *)
Definition accept_turn (fuel : nat) (v : visit) : ST server bool :=
  if vi_fd v <? 0 then mret true
  else
    modify (fun s => s <| sv_clients := clean_up (sv_clients s) |>);;
    c ← connect fuel v;
    match c with
    | None => mret true
    | Some c =>
        modify (fun s => s <| sv_clients := c :: sv_clients s |>);;
        mret (vi_thread v)
    end.

(** The list of AFUs is looked at between two connections only. *)
Fixpoint accept_loop (fuel : nat) (visits : list visit) : ST server unit :=
  ocls ← gets sv_ocls;
  match ocls with
  | [] => mret tt
  | _ =>
      match visits with
      | [] => running
      | v :: visits =>
          modify (vi_others v);;
          go ← accept_turn fuel v;
          if (go : bool) then accept_loop fuel visits else mret tt
      end
  end.

(** [client_list] is emptied: its clients give up, their threads are joined and
    what is left of their sockets is closed. *)
Definition shut_down : ST server (list Z) :=
  cs ← gets sv_clients;
  modify (fun s => s <| sv_clients := [] |>);;
  mret (map cl_fd cs).

(** ** The set-up *)

Record environment := Env {
  en_log : bool;                                 (* the log can be opened *)
  en_sigmask : bool;
  en_parms : option (list (list Ascii.ascii));
  en_now : Z; en_draws : draws;
  en_hosts : option (list (list Ascii.ascii));
  en_connects : list Ascii.ascii -> Z -> option world;
  en_setsockopt : Z -> Z; en_bind : Z -> bind_result;
  en_null : bool;
}.

(** [Quit]: the process ends, by [exit] or by -1. *)
Inductive setup := Quit | Serving (port : Z) (s : server).

Definition PORTS : nat := Z.to_nat (0xFFFF - 16384 + 1).

(** [None]: undefined, or no port found with this fuel. *)
Definition set_up (e : environment) : option setup :=
  if negb (en_log e) then Some Quit
  else if negb (en_sigmask e) then Some Quit
  else
    p ← parse_parms (en_parms e) (en_now e) (en_draws e);
    match p with
    | None => Some Quit
    | Some _ =>
        match (match en_hosts e with
               | None => Some ([], 0)
               | Some lines => parse_host_data (en_connects e) lines [] 0
               end) with
        | None | Some ([], _) => Some Quit
        | Some (ocl_list, afu_map) =>
            r ← _start_server (en_setsockopt e) (en_bind e) PORTS;
            match r with
            | None => Some Quit
            | Some port => Some (Serving port (Srv ocl_list [] afu_map (en_null e)))
            end
        end
    end.

(** The sockets that are closed at the end; [running] while it serves. *)
Definition run_server (fuel : nat) (visits : list visit) : ST server (list Z) :=
  accept_loop fuel visits;;
  shut_down.

(** * The port is found *)

(** What the search says of the ports. *)
Definition search_verdict (setsockopt : Z -> Z) (bind : Z -> bind_result) (first : Z) (r : option Z) : Prop :=
  exists p, first <= p <= 0xFFFF /\
    (forall q, first <= q < p -> 0 <= setsockopt q /\ bind q = AddrInUse) /\
    match r with
    | Some port => port = p /\ 0 <= setsockopt p /\ bind p = Bound
    | None => setsockopt p < 0 \/ bind p = BindError \/ p = 0xFFFF /\ bind p = AddrInUse
    end.

Lemma bind_loop_verdict setsockopt bind fuel first :
  first <= 0xFFFF -> (Z.to_nat (0xFFFF - first) < fuel)%nat ->
  exists r, bind_loop setsockopt bind fuel first = Some r /\ search_verdict setsockopt bind first r.
Proof.
  revert first. induction fuel as [|fuel IH]; intros first Hle Hf; [lia|]. cbn [bind_loop].
  assert (Hhere : forall r, match r with
      | Some port => port = first /\ 0 <= setsockopt first /\ bind first = Bound
      | None => setsockopt first < 0 \/ bind first = BindError \/ first = 0xFFFF /\ bind first = AddrInUse
      end -> search_verdict setsockopt bind first r).
  { intros r Hr. exists first. split; [lia|]. split; [intros q Hq; lia|done]. }
  destruct (Z.ltb_spec (setsockopt first) 0) as [Hs|Hs]; [eexists; split; [done|]; apply Hhere; auto|].
  destruct (bind first) eqn:Hb; [eexists; split; [done|]; apply Hhere; auto| |eexists; split; [done|]; apply Hhere; auto].
  destruct (Z.eqb_spec first 0xFFFF) as [E|E]; [eexists; split; [done|]; apply Hhere; auto|].
  destruct (IH (first + 1)) as (r & Hr & p & Hp & Hq & Hv); [lia..|].
  exists r. split; [done|]. exists p. split; [lia|]. split; [|done].
  intros q Hq'. destruct (Z.eq_dec q first) as [->|]; [done|]. apply Hq. lia.
Qed.

(** C33: whatever [setsockopt] and [bind] do, the search for a port ends within
    the ports there are: the server listens on the first one from 16384 on that
    is free, every one before it being in use, or it gives up - at a port where a
    call failed, or at the last one. *)
Theorem start_server_ends setsockopt bind :
  exists r, _start_server setsockopt bind PORTS = Some r /\ search_verdict setsockopt bind 16384 r.
Proof. apply bind_loop_verdict; unfold PORTS; lia. Qed.

(** The server that starts to serve has AFUs, no clients, and a port of its own. *)
Lemma set_up_serves e port s :
  set_up e = Some (Serving port s) ->
  sv_ocls s <> [] /\ sv_clients s = [] /\ 16384 <= port <= 0xFFFF /\ en_bind e port = Bound.
Proof.
  unfold set_up. destruct (negb (en_log e)); [done|]. destruct (negb (en_sigmask e)); [done|].
  destruct (parse_parms _ _ _) as [[p|]|]; cbn; try done.
  destruct (match en_hosts e with Some _ => _ | None => _ end) as [[[|o l] map]|]; try done.
  destruct (bind_loop_verdict (en_setsockopt e) (en_bind e) PORTS 16384) as (r & Hr & p0 & Hp & _ & Hv);
    [unfold PORTS; lia..|].
  unfold _start_server. rewrite Hr. cbn. destruct r as [q|]; [|done]. destruct Hv as (-> & _ & Hb).
  by intros [= <- <-].
Qed.

(** * Who gets in *)

(** What has been said, or will be, starts with the name and the version. *)
Definition greeted (s : stream) : Prop := handshake_message `prefix_of` incoming s.

Lemma c_string_all l1 l2 : c_string l1 = l2 -> length l1 = length l2 -> l1 = l2.
Proof.
  revert l2. induction l1 as [|b l1 IH]; intros l2; cbn [c_string]; [by intros <-|].
  destruct (b =? 0); [intros <- [=]|]. intros <- [= Hl]. f_equal. by apply IH.
Qed.

Lemma greeted_parts fuel s name s1 s2 :
  get_bytes_silent fuel false 4 s = GotBytes name s1 -> c_string name = [79; 67; 83; 69] ->
  get_bytes_silent fuel false 2 s1 = GotBytes [OCSE_VERSION_MAJOR; OCSE_VERSION_MINOR] s2 -> greeted s.
Proof.
  intros E1 Hn E2.
  destruct (get_bytes_silent_incoming _ _ _ _ _ _ E1) as (H1 & H2 & H3); [done|].
  destruct (get_bytes_silent_incoming _ _ _ _ _ _ E2) as (H4 & _ & _); [done|].
  apply c_string_all in Hn; [|exact H3]. exists (list.drop 6 (incoming s)).
  rewrite <- (take_drop 4 (incoming s)) at 1. change (Z.to_nat 4) with 4%nat in *. change (Z.to_nat 2) with 2%nat in *.
  rewrite <- H1, Hn. rewrite <- (take_drop 2 (list.drop 4 (incoming s))), <- H2, <- H4, H2, drop_drop. done.
Qed.

Lemma bind_inv {W A B} (m : ST W A) (k : A -> ST W B) w y w' :
  (m ≫= k) w = Done y w' -> exists x w1, m w = Done x w1 /\ k x w1 = Done y w'.
Proof. unfold mbind, ST_bind. destruct (m w) as [x w1| | |]; try done. by exists x, w1. Qed.

Lemma put_client l s ok s' : put l s = Done ok s' -> ss_client s' = ss_client s.
Proof.
  unfold put, gets, modify, mbind, ST_bind, mret, ST_ret.
  destruct (ss_put_ok s) as [|[] ?]; by intros [= _ <-].
Qed.

Lemma refused s ok s' : refuse_client s = Done ok s' -> ok = false.
Proof.
  unfold refuse_client. intros (x & s1 & _ & H)%bind_inv.
  apply bind_inv in H as (y & s2 & _ & H). by injection H as <- _.
Qed.

Lemma connect_inv fuel fd s s' :
  _client_connect fuel fd s = Done true s' -> ss_client s' = new_client fd /\ greeted (ss_in s).
Proof.
  unfold _client_connect. intros (t & s0 & [= <- <-] & H)%bind_inv.
  destruct (get_bytes_silent fuel false 4 (ss_in s)) as [name s1| |] eqn:E1; [|by apply refused in H|done].
  apply bind_inv in H as ([] & s2 & [= <-] & H).
  destruct (bool_decide_reflect (c_string name = [79; 67; 83; 69])) as [Hn|Hn]; cbn [negb] in H;
    [|by apply refused in H].
  destruct (get_bytes_silent fuel false 2 s1) as [v s2| |] eqn:E2; [|by apply refused in H|done].
  apply bind_inv in H as ([] & s3 & [= <-] & H).
  destruct (bool_decide_reflect (v = [OCSE_VERSION_MAJOR; OCSE_VERSION_MINOR])) as [->|Hv]; cbn [negb] in H;
    [|by apply refused in H].
  apply bind_inv in H as ([] & s4 & [= <-] & H). apply bind_inv in H as (t & s5 & [= <- <-] & H).
  apply put_client in H. split; [exact H|by eapply greeted_parts].
Qed.

(** What one connection makes of the list of clients. *)
Inductive admits (v : visit) (cs : list client) : list client -> Prop :=
  | no_connection : vi_fd v < 0 -> admits v cs cs
  | not_admitted : admits v cs (clean_up cs)
  | admitted : greeted (vi_in v) -> admits v cs (new_client (vi_fd v) :: clean_up cs).

Lemma accept_turn_admits fuel v s go s' :
  accept_turn fuel v s = Done go s' -> admits v (sv_clients s) (sv_clients s').
Proof.
  unfold accept_turn. destruct (Z.ltb_spec (vi_fd v) 0) as [Hfd|Hfd]; [intros [= _ <-]; by apply no_connection|].
  unfold connect, modify, mbind, ST_bind, mret, ST_ret.
  destruct (_client_connect _ _ _) as [ok t| | |] eqn:E; try done.
  destruct ok; [|intros [= _ <-]; apply not_admitted].
  destruct (connect_inv _ _ _ _ E) as [Hc Hg]. intros [= _ <-]. cbn. rewrite Hc. by apply admitted.
Qed.

(** Every client on the list was there at first or introduced itself, if the
    other threads only take clients away or change none. *)
Definition introduced (visits : list visit) (cs0 : list client) (c : client) : Prop :=
  c ∈ cs0 \/ exists v, v ∈ visits /\ greeted (vi_in v) /\ c = new_client (vi_fd v).

Lemma clean_up_sub c cs : c ∈ clean_up cs -> c ∈ cs.
Proof. unfold clean_up. intros H. apply list_elem_of_In, filter_In in H as [H _]. by apply list_elem_of_In. Qed.

Lemma admits_introduced v cs cs' c : admits v cs cs' -> c ∈ cs' -> introduced [v] cs c.
Proof.
  intros H Hc. destruct H as [_| |Hg].
  - by left.
  - left. by apply clean_up_sub.
  - apply elem_of_cons in Hc as [->|Hc]; [|left; by apply clean_up_sub].
    right. exists v. split; [by apply list_elem_of_singleton|done].
Qed.

Lemma accept_loop_introduced fuel visits s s' :
  Forall (fun v => forall t c, c ∈ sv_clients (vi_others v t) -> c ∈ sv_clients t) visits ->
  accept_loop fuel visits s = Done tt s' ->
  forall c, c ∈ sv_clients s' -> introduced visits (sv_clients s) c.
Proof.
  revert s. induction visits as [|v visits IH]; intros s Hv H c Hc; cbn [accept_loop] in H;
    apply bind_inv in H as (ocls & s0 & [= <- <-] & H);
    destruct (sv_ocls s) eqn:Eo; try (injection H as <-; by left); try done.
  apply Forall_cons_1 in Hv as [Hv1 Hv].
  apply bind_inv in H as ([] & s1 & [= <-] & H). apply bind_inv in H as (go & s2 & E & H).
  apply accept_turn_admits in E.
  assert (H2 : forall c, c ∈ sv_clients s2 -> introduced (v :: visits) (sv_clients s) c).
  { intros c2 Hc2. destruct (admits_introduced _ _ _ _ E Hc2) as [Hin|(v' & Hin & Hg)].
    - left. by apply Hv1.
    - right. exists v'. split; [|done]. apply list_elem_of_singleton in Hin as ->. apply elem_of_cons. by left. }
  destruct go; [|injection H as <-; by apply H2].
  destruct (IH s2 Hv H c Hc) as [Hin|(v' & Hin & Hg)]; [by apply H2|].
  right. exists v'. split; [|done]. apply elem_of_cons. by right.
Qed.

(** * Freed too early *)

(** Nothing will come any more. *)
Definition lost (s : stream) : Prop := avail s = [] /\ arrivals s = [] /\ hangup s = true.

Lemma lost_arrives s : lost s -> arrive s = s.
Proof. intros (_ & H & _). unfold arrive. by rewrite H. Qed.
Lemma lost_ready abort s : lost s -> bytes_ready abort s = (-1, s).
Proof.
  intros H. unfold bytes_ready. rewrite (lost_arrives s H). destruct H as (-> & -> & ->).
  rewrite bool_decide_true by done. by destruct abort.
Qed.
Lemma lost_bytes fuel abort s : lost s -> (1 <= fuel)%nat -> get_bytes_silent fuel abort 1 s = GetFailed.
Proof.
  intros H Hf. destruct fuel as [|fuel]; [lia|]. unfold get_bytes_silent. cbn [get_bytes_wait].
  change (0 <? 1) with true. cbv iota. by rewrite lost_ready.
Qed.

Lemma alter_slot (i : nat) (f : client -> client) (cs : list (option client)) c :
  cs !! i = Some (Some c) -> alter (fmap f) i cs !! i = Some (Some (f c)).
Proof. intros H. by rewrite list_lookup_alter_eq, H. Qed.

(** The client is dropped, its idle cycles counted down at once; it is still in
    its slot. *)
Lemma lost_is_dropped fuel i c s w :
  w_clients w !! i = Some (Some c) -> cl_state c <> CLIENT_NONE -> cl_mmio_access c = None -> lost s ->
  (1 <= fuel)%nat ->
  runs (_handle_client fuel i s)
    (fun _ w' => w_clients w' !! i = Some (Some (client_drop TLX_IDLE_CYCLES CLIENT_NONE c))) w.
Proof.
  intros Hc Hs Hm Hl Hf. unfold _handle_client, finish_access.
  runs_next. apply (runs_client _ _ c); [done|]. rewrite Hm. apply runs_ret.
  apply (runs_client _ _ c); [done|]. rewrite bool_decide_false by done. rewrite lost_ready by done.
  change (negb (truthy (-1))) with false. cbv iota. rewrite lost_bytes by done.
  unfold drop_client, upd_client. apply runs_modify, runs_ret. by apply alter_slot.
Qed.

(** The events of a dropped client are ended, none is left to wait for. *)
Lemma dropped_has_none c l : cl_state c = CLIENT_NONE -> (client_cmd_list c l).1 = 0.
Proof.
  intros Hs. induction l as [|e l IH]; [done|]. cbn [client_cmd_list].
  destruct (client_cmd_list c l) as [rc l']. cbn in IH. subst rc.
  rewrite Hs. destruct (negb (ev_context e =? cl_context c)); [done|].
  destruct (_ && _); [done|]. by rewrite bool_decide_false by done.
Qed.

Lemma dropped_is_swept i c w :
  w_clients w !! i = Some (Some c) -> cl_state c = CLIENT_NONE ->
  runs (sweep_client i) (fun _ w' => w_clients w' !! i = Some (Some (drain_idle c))) w.
Proof.
  intros Hc Hs. unfold sweep_client, upd_client. apply runs_modify.
  apply (runs_client _ _ (drain_idle c)); [by apply alter_slot|]. runs_next. unfold client_cmd.
  apply runs_gets. destruct (client_cmd_list _ _) as [rc l] eqn:E. apply runs_modify, runs_ret.
  assert (rc = 0) as -> by (apply (f_equal fst) in E; by rewrite dropped_has_none in E).
  by apply alter_slot.
Qed.

Lemma clean_up_gone c l1 l2 : is_gone c = true -> clean_up (l1 ++ c :: l2) = clean_up (l1 ++ l2).
Proof. intros H. unfold clean_up. rewrite !List.filter_app. cbn. by rewrite H. Qed.

(** C38: a client whose connection is lost is freed while the thread of its AFU
    still has it.  Its turn drops it and leaves it in its slot; [main], taking
    another connection before the next turn, takes it off its list and frees it;
    the next turn of the thread reads it, sends it a message and only then clears
    the slot. *)
Theorem freed_while_served fuel i c s w :
  w_clients w !! i = Some (Some c) -> cl_state c <> CLIENT_NONE -> cl_mmio_access c = None ->
  ol_state (w_ocl w) <> OCSE_RESET -> lost s -> (1 <= fuel)%nat ->
  runs (serve_slot fuel i s) (fun _ w' => exists c',
    w_clients w' !! i = Some (Some c') /\
    (forall l1 l2, clean_up (l1 ++ c' :: l2) = clean_up (l1 ++ l2)) /\
    forall fuel' s2, serve_slot fuel' i s2 w' = (sweep_leave i;; mret s2) w') w.
Proof.
  intros Hc Hs Hm Hr Hl Hf. unfold serve_slot at 1. apply runs_gets. apply (runs_lift _ _ (Some c)); [done|].
  replace (sweep_gone c) with false by (unfold sweep_gone; by rewrite bool_decide_false).
  apply runs_gets. rewrite bool_decide_false by done. runs_next.
  eapply runs_mono; [by apply lost_is_dropped|]. intros s' w1 H1. runs_next.
  eapply runs_mono; [by apply (dropped_is_swept i _ w1 H1)|]. intros [] w2 H2. apply runs_ret.
  exists (drain_idle (client_drop TLX_IDLE_CYCLES CLIENT_NONE c)). split; [exact H2|]. split.
  - intros l1 l2. by apply clean_up_gone.
  - intros fuel' s2. unfold serve_slot.
    rewrite (bind_done _ _ w2 (w_clients w2) w2) by done. rewrite H2. reflexivity.
Qed.

Lemma freed_while_served_witness :
  runs (serve_slot 1 0 (Stream [] [] true)) (fun _ w' => exists c',
    w_clients w' !! 0%nat = Some (Some c') /\ clean_up [c'] = [] /\
    forall s2, serve_slot 1 0 s2 w' = (sweep_leave 0;; mret s2) w') run_attached.
Proof.
  eapply runs_mono.
  - apply (freed_while_served 1 0 sample_client (Stream [] [] true) run_attached); first [done | by vm_compute | lia].
  - intros s' w' (c' & H1 & H2 & H3). exists c'. split; [exact H1|]. split; [exact (H2 [] [])|exact (H3 1%nat)].
Defined.
