(* ===== verification/LibState.v ===== *)
(** libocxl/libocxl_internal.h: the state of the client library - one opened
    AFU, the requests of the application to its thread, the queue of events, the
    threads that wait for the AFU - and the process around it.

    An AFU's [events] array is its non-null prefix.  Left out are the locks, the
    thread, the printed name [id] and [map], [dbg_id] and [ppc64_amr], which nothing
    reads. *)
From stdpp Require Import gmap.
From S2P Require Import Prelude Utils Monad.

Definition OCSE_QUERY := 0x02.
Definition OCSE_MAX_INT := 0x03.
Definition OCSE_OPEN := 0x04.
Definition OCSE_LPC_MAP := 0x2a.

Definition EVENT_QUEUE_MAX : nat := 3.
Definition MAX_LINE_CHARS : Z := 1024.
Definition FOURK_MASK : Z := 0xFFFFFFFFFFFFF000.
Definition DSISR : Z := 0x4000000040000000.

Definition OCXL_OK : Z := 0.
Definition OCXL_NO_MEM : Z := -1.
Definition OCXL_NO_DEV : Z := -2.
Definition OCXL_NO_CONTEXT : Z := -3.
Definition OCXL_NO_IRQ : Z := -4.
Definition OCXL_INTERNAL_ERROR : Z := -5.
Definition OCXL_OUT_OF_BOUNDS : Z := -7.
Definition OCXL_INVALID_ARGS : Z := -9.

Inductive libocxl_req_state := LIBOCXL_REQ_IDLE | LIBOCXL_REQ_REQUEST | LIBOCXL_REQ_PENDING.

#[export] Instance libocxl_req_state_eq_dec : EqDecision libocxl_req_state.
Proof. solve_decision. Defined.

Inductive ocxl_mmio_type := OCXL_GLOBAL_MMIO | OCXL_PER_PASID_MMIO.

#[export] Instance ocxl_mmio_type_eq_dec : EqDecision ocxl_mmio_type.
Proof. solve_decision. Defined.

(** The event of an AFU: the union of the header's [ocxl_event]. *)
Inductive ocxl_event :=
  | OCXL_EVENT_IRQ (irq handle count : Z)
  | OCXL_EVENT_TRANSLATION_FAULT (addr dsisr : Z).

Record ocxl_mmio_area := MmioArea { ma_start : Z; ma_length : Z; ma_type : ocxl_mmio_type }.

Record ocxl_irq := Irq { irq_irq : Z; irq_id : Z }.

Record mmio_req := MmioReq { mq_state : libocxl_req_state; mq_type : Z; mq_addr : Z; mq_data : Z }.

(** Where [data] points: bytes of the application, the bytes that were read and
    that [malloc] gave, or bytes that have been freed. *)
Inductive mem_data := MemNull | MemUser (l : list Z) | MemBytes (l : list Z) | MemFreed.

Record mem_req := MemReq {
  eq_state : libocxl_req_state; eq_type : Z; eq_addr : Z; eq_size : Z; eq_be : Z;
  eq_data : mem_data;
}.

Record ocxl_afu := OcxlAfu {
  oa_events : list ocxl_event;
  oa_afu_index : Z; oa_afu_name : list Z; oa_bus : Z; oa_dev : Z; oa_fcn : Z;
  oa_device_id : Z; oa_vendor_id : Z; oa_afu_version_major : Z; oa_afu_version_minor : Z;
  oa_global_mmio : ocxl_mmio_area; oa_per_pasid_mmio : ocxl_mmio_area;
  oa_mmio_count : Z; oa_mmio_max : Z; oa_mmios : list ocxl_mmio_area;
  oa_mem_base_address : Z; oa_mem_size : Z; oa_context : Z;
  oa_opened : Z; oa_attached : Z; oa_mapped : Z; oa_global_mapped : Z; oa_lpc_mapped : Z;
  oa_irq_count : Z; oa_irq : list ocxl_irq;
  oa_int_req : libocxl_req_state; oa_int_max : Z;
  oa_open : libocxl_req_state; oa_attach : libocxl_req_state;
  oa_mmio : mmio_req; oa_mem : mem_req;
}.

Record ocxl_wait_event := WaitEvent { we_tid : Z; we_enabled : Z; we_received : Z }.

#[export] Instance eta_mmio_area : Settable ocxl_mmio_area := fun m => MmioArea
  (ma_start m) (ma_length m) (ma_type m).
#[export] Instance set_ma_type : Setter ma_type := ltac:(build_setter).

#[export] Instance eta_mmio_req : Settable mmio_req := fun m => MmioReq
  (mq_state m) (mq_type m) (mq_addr m) (mq_data m).
#[export] Instance set_mq_state : Setter mq_state := ltac:(build_setter).
#[export] Instance set_mq_type : Setter mq_type := ltac:(build_setter).
#[export] Instance set_mq_addr : Setter mq_addr := ltac:(build_setter).
#[export] Instance set_mq_data : Setter mq_data := ltac:(build_setter).

#[export] Instance eta_mem_req : Settable mem_req := fun m => MemReq
  (eq_state m) (eq_type m) (eq_addr m) (eq_size m) (eq_be m) (eq_data m).
#[export] Instance set_eq_state : Setter eq_state := ltac:(build_setter).
#[export] Instance set_eq_type : Setter eq_type := ltac:(build_setter).
#[export] Instance set_eq_addr : Setter eq_addr := ltac:(build_setter).
#[export] Instance set_eq_size : Setter eq_size := ltac:(build_setter).
#[export] Instance set_eq_be : Setter eq_be := ltac:(build_setter).
#[export] Instance set_eq_data : Setter eq_data := ltac:(build_setter).

#[export] Instance eta_ocxl_afu : Settable ocxl_afu := fun a => OcxlAfu
  (oa_events a) (oa_afu_index a) (oa_afu_name a) (oa_bus a) (oa_dev a) (oa_fcn a) (oa_device_id a) (oa_vendor_id a) (oa_afu_version_major a) (oa_afu_version_minor a)
  (oa_global_mmio a) (oa_per_pasid_mmio a) (oa_mmio_count a) (oa_mmio_max a) (oa_mmios a)
  (oa_mem_base_address a) (oa_mem_size a) (oa_context a) (oa_opened a) (oa_attached a) (oa_mapped a)
  (oa_global_mapped a) (oa_lpc_mapped a) (oa_irq_count a) (oa_irq a) (oa_int_req a) (oa_int_max a)
  (oa_open a) (oa_attach a) (oa_mmio a) (oa_mem a).
#[export] Instance set_oa_events : Setter oa_events := ltac:(build_setter).
#[export] Instance set_oa_afu_index : Setter oa_afu_index := ltac:(build_setter).
#[export] Instance set_oa_afu_name : Setter oa_afu_name := ltac:(build_setter).
#[export] Instance set_oa_bus : Setter oa_bus := ltac:(build_setter).
#[export] Instance set_oa_dev : Setter oa_dev := ltac:(build_setter).
#[export] Instance set_oa_fcn : Setter oa_fcn := ltac:(build_setter).
#[export] Instance set_oa_device_id : Setter oa_device_id := ltac:(build_setter).
#[export] Instance set_oa_vendor_id : Setter oa_vendor_id := ltac:(build_setter).
#[export] Instance set_oa_afu_version_major : Setter oa_afu_version_major := ltac:(build_setter).
#[export] Instance set_oa_afu_version_minor : Setter oa_afu_version_minor := ltac:(build_setter).
#[export] Instance set_oa_global_mmio : Setter oa_global_mmio := ltac:(build_setter).
#[export] Instance set_oa_per_pasid_mmio : Setter oa_per_pasid_mmio := ltac:(build_setter).
#[export] Instance set_oa_mmio_count : Setter oa_mmio_count := ltac:(build_setter).
#[export] Instance set_oa_mmio_max : Setter oa_mmio_max := ltac:(build_setter).
#[export] Instance set_oa_mmios : Setter oa_mmios := ltac:(build_setter).
#[export] Instance set_oa_mem_base_address : Setter oa_mem_base_address := ltac:(build_setter).
#[export] Instance set_oa_mem_size : Setter oa_mem_size := ltac:(build_setter).
#[export] Instance set_oa_context : Setter oa_context := ltac:(build_setter).
#[export] Instance set_oa_opened : Setter oa_opened := ltac:(build_setter).
#[export] Instance set_oa_attached : Setter oa_attached := ltac:(build_setter).
#[export] Instance set_oa_mapped : Setter oa_mapped := ltac:(build_setter).
#[export] Instance set_oa_global_mapped : Setter oa_global_mapped := ltac:(build_setter).
#[export] Instance set_oa_lpc_mapped : Setter oa_lpc_mapped := ltac:(build_setter).
#[export] Instance set_oa_irq_count : Setter oa_irq_count := ltac:(build_setter).
#[export] Instance set_oa_irq : Setter oa_irq := ltac:(build_setter).
#[export] Instance set_oa_int_req : Setter oa_int_req := ltac:(build_setter).
#[export] Instance set_oa_int_max : Setter oa_int_max := ltac:(build_setter).
#[export] Instance set_oa_open : Setter oa_open := ltac:(build_setter).
#[export] Instance set_oa_attach : Setter oa_attach := ltac:(build_setter).
#[export] Instance set_oa_mmio : Setter oa_mmio := ltac:(build_setter).
#[export] Instance set_oa_mem : Setter oa_mem := ltac:(build_setter).

(** The process: the library's AFU, the list of waiting threads, the bytes of
    the application's memory it may read and write, by address; the socket - what
    arrives, what has been sent, and whether the next sends succeed ([true] past
    the end of the list); the results of writing to the AFU's pipe (1 past the
    end); and what uninitialised variables hold. *)
Record proc := Proc {
  pr_afu : ocxl_afu;
  pr_wait_list : list ocxl_wait_event;
  pr_mem : gmap Z Z;
  pr_in : stream;
  pr_out : list (list Z);
  pr_put_ok : list bool;
  pr_pipe : list Z;
  pr_junk : nat -> Z;
  pr_open : bool;
  pr_freed : bool;
}.

#[export] Instance eta_proc : Settable proc := fun p => Proc
  (pr_afu p) (pr_wait_list p) (pr_mem p) (pr_in p) (pr_out p) (pr_put_ok p) (pr_pipe p) (pr_junk p)
  (pr_open p) (pr_freed p).
#[export] Instance set_pr_afu : Setter pr_afu := ltac:(build_setter).
#[export] Instance set_pr_wait_list : Setter pr_wait_list := ltac:(build_setter).
#[export] Instance set_pr_mem : Setter pr_mem := ltac:(build_setter).
#[export] Instance set_pr_in : Setter pr_in := ltac:(build_setter).
#[export] Instance set_pr_out : Setter pr_out := ltac:(build_setter).
#[export] Instance set_pr_put_ok : Setter pr_put_ok := ltac:(build_setter).
#[export] Instance set_pr_pipe : Setter pr_pipe := ltac:(build_setter).

#[export] Instance set_pr_open : Setter pr_open := ltac:(build_setter).
#[export] Instance set_pr_freed : Setter pr_freed := ltac:(build_setter).

(** The code of the library as steps of the process. *)
Abbreviation L := (ST proc).

Definition upd_afu (f : ocxl_afu -> ocxl_afu) : L unit := modify (fun p => p <| pr_afu := f (pr_afu p) |>).
Definition upd_mmio_req (f : mmio_req -> mmio_req) : L unit := upd_afu (fun a => a <| oa_mmio := f (oa_mmio a) |>).
Definition upd_mem_req (f : mem_req -> mem_req) : L unit := upd_afu (fun a => a <| oa_mem := f (oa_mem a) |>).

(** [put_bytes_silent (afu->fd, |l|, l) == |l|] *)
Definition put_silent (l : list Z) : L bool :=
  p ← gets (fun p => p);
  match pr_put_ok p with
  | false :: oks => modify (fun p => p <| pr_put_ok := oks |>);; mret false
  | oks => modify (fun p => p <| pr_put_ok := tail oks |> <| pr_out := pr_out p ++ [l] |>);; mret true
  end.

(** The write to [afu->pipe[1]], repeated until it takes something or fails. *)
Definition put_pipe : L Z :=
  p ← gets (fun p => p);
  modify (fun p => p <| pr_pipe := tail (pr_pipe p) |>);;
  mret (match pr_pipe p with [] => 1 | i :: _ => i end).

(** The application's memory: bytes outside of it fault. *)
Definition load (addr n : Z) : L (list Z) :=
  p ← gets (fun p => p);
  lift (mapM (fun i => pr_mem p !! (addr + Z.of_nat i)) (seq 0 (Z.to_nat n))).

Fixpoint put_mem (mem : gmap Z Z) (addr : Z) (l : list Z) : gmap Z Z :=
  match l with
  | [] => mem
  | b :: l => put_mem (<[addr := b]> mem) (addr + 1) l
  end.

Definition mapped_range (mem : gmap Z Z) (addr n : Z) : bool :=
  forallb (fun i => bool_decide (is_Some (mem !! (addr + Z.of_nat i)))) (seq 0 (Z.to_nat n)).

Definition store (addr : Z) (l : list Z) : L unit :=
  p ← gets (fun p => p);
  if mapped_range (pr_mem p) addr (Z.of_nat (length l))
  then modify (fun p => p <| pr_mem := put_mem (pr_mem p) addr l |>) else undef.
