(* ===== verification/Lib.v ===== *)
(** libocxl/libocxl.c: what the library's thread does with the messages of the
    server - the AFU's reads, writes and touches of the application's memory, its
    interrupts and wake-ups, and the acknowledgements of the application's
    accesses.  The atomic operations are in Dmo, the loop in LibLoop. *)
From stdpp Require Import gmap.
From S2P Require Import Prelude Utils Monad LibState.

(** * Waiting threads

    An event is found by the id of its thread; [_alloc_wait_event] never adds a
    second one, so the id stands for the pointer. *)
Definition _alloc_wait_event (tid : Z) : L Z :=
  p ← gets (fun p => p);
  (if existsb (fun e => we_tid e =? tid) (pr_wait_list p) then mret tt
   else modify (fun p => p <| pr_wait_list := WaitEvent tid 0 0 :: pr_wait_list p |>));;
  mret tid.

Definition upd_wait_event (tid : Z) (f : ocxl_wait_event -> ocxl_wait_event) : L unit :=
  modify (fun p => p <| pr_wait_list :=
    map (fun e => if we_tid e =? tid then f e else e) (pr_wait_list p) |>).

Definition _free_wait_event (tid : Z) : L unit :=
  modify (fun p => p <| pr_wait_list := filter (fun e => we_tid e <> tid) (pr_wait_list p) |>).

(** * The AFU *)

Definition _all_idle : L unit :=
  upd_afu (fun a => a <| oa_int_req := LIBOCXL_REQ_IDLE |> <| oa_open := LIBOCXL_REQ_IDLE |>
    <| oa_attach := LIBOCXL_REQ_IDLE |> <| oa_mmio := oa_mmio a <| mq_state := LIBOCXL_REQ_IDLE |> |>
    <| oa_mem := oa_mem a <| eq_state := LIBOCXL_REQ_IDLE |> |>
    <| oa_mapped := 0 |> <| oa_global_mapped := 0 |> <| oa_attached := 0 |> <| oa_opened := 0 |>).

(** [afu->opened = 0; afu->attached = 0] *)
Definition drop_afu : L unit := upd_afu (fun a => a <| oa_opened := 0 |> <| oa_attached := 0 |>).

(** A message to the server; the AFU is dropped when the socket fails. *)
Definition reply (l : list Z) : L unit :=
  ok ← put_silent l;
  when_ (negb ok) drop_afu.

Definition is_fault (e : ocxl_event) : bool :=
  match e with OCXL_EVENT_TRANSLATION_FAULT _ _ => true | _ => false end.
Definition is_irq (e : ocxl_event) : bool :=
  match e with OCXL_EVENT_IRQ _ _ _ => true | _ => false end.

(** An event of the kind [same] that is queued already is not queued again; the
    search of a full queue reads past the array. *)
Definition add_event (same : ocxl_event -> bool) (e : ocxl_event) : L Z :=
  a ← gets pr_afu;
  if existsb same (oa_events a) then mret 0
  else if (EVENT_QUEUE_MAX <=? length (oa_events a))%nat then undef
  else
    upd_afu (fun a => a <| oa_events := oa_events a ++ [e] |>);;
    put_pipe.

Definition _handle_dsi (addr : Z) : L Z :=
  add_event is_fault (OCXL_EVENT_TRANSLATION_FAULT (Z.land addr FOURK_MASK) DSISR).

(** An address that is not mapped raises a fault and fails the command. *)
Definition refuse (addr : Z) : L unit :=
  rc ← _handle_dsi addr;
  if rc <? 0 then mret tt else reply [OCSE_MEM_FAILURE].

(** [_testmemaddr]: a system call touches the byte. *)
Definition _testmemaddr (addr : Z) : L bool :=
  p ← gets (fun p => p);
  mret (bool_decide (is_Some (pr_mem p !! addr))).

(** * Reads and writes *)

Definition _handle_read (addr size : Z) : L unit :=
  ok ← _testmemaddr addr;
  if negb ok then refuse addr
  else if MAX_LINE_CHARS <? size + 1 then undef
  else
    data ← load addr size;
    reply (OCSE_MEM_SUCCESS :: data).

(** [be_copy && 1]: a logical and, so every byte is written until the mask has
    been shifted out. *)
Fixpoint write_enabled (i n : nat) (addr be : Z) (data : list Z) : L unit :=
  match n with
  | O => mret tt
  | S n =>
      p ← gets (fun p => p);
      when_ (truthy be) (store (addr + Z.of_nat i) [nth i data (pr_junk p i)]);;
      write_enabled (S i) n addr (Z.shiftr be 1) data
  end.

Definition _handle_write_be (addr size : Z) (data : list Z) (be : Z) : L unit :=
  ok ← _testmemaddr addr;
  if negb ok then refuse addr
  else
    write_enabled 0 64 addr be data;;
    reply [OCSE_MEM_SUCCESS].

Definition _handle_write (addr size : Z) (data : list Z) : L unit :=
  ok ← _testmemaddr addr;
  if negb ok then refuse addr
  else
    store addr (take (Z.to_nat size) data);;
    reply [OCSE_MEM_SUCCESS].

Definition _handle_touch (addr function_code cmd_pg_size : Z) : L unit :=
  ok ← _testmemaddr addr;
  if negb ok then refuse addr else reply [OCSE_MEM_SUCCESS].

(** * Messages *)

Section messages.
(** The polls of the socket that are allowed to each message. *)
Variable fuel : nat.

Definition get (size : Z) : L (option (list Z)) :=
  p ← gets (fun p => p);
  match get_bytes_silent fuel false size (pr_in p) with
  | GetRunning => running
  | GetFailed => mret None
  | GotBytes data s => modify (fun p => p <| pr_in := s |>);; mret (Some data)
  end.

(** A failure idles the requests; the handler ends with [x]. *)
Definition get_or_idle {A} (size : Z) (x : A) (k : list Z -> L A) : L A :=
  o ← get size;
  match o with
  | None => _all_idle;; mret x
  | Some data => k data
  end.

Definition _handle_wake_host_thread : L Z :=
  get_or_idle 1 (-1) (fun cmd_flag =>
  get_or_idle 8 (-1) (fun adata =>
  tid ← _alloc_wait_event (u16 (le_val adata));
  upd_wait_event tid (fun e => WaitEvent (we_tid e) (we_enabled e) 1);;
  mret 0)).

(** The data of an interrupt are received and dropped. *)
Definition _handle_interrupt (data_is_valid : bool) : L Z :=
  let search addr :=
    a ← gets pr_afu;
    match find (fun i => irq_id i =? addr) (oa_irq a) with
    | None => mret OCXL_NO_IRQ
    | Some irq => add_event is_irq (OCXL_EVENT_IRQ (irq_irq irq) addr 1)
    end in
  get_or_idle 1 (-1) (fun cmd_flag =>
  get_or_idle 8 (-1) (fun adata =>
  if data_is_valid then
    get_or_idle 2 (-1) (fun b =>
    let data_size := le_val b in
    if 32 <? data_size then undef
    else get_or_idle data_size (-1) (fun ddata => search (le_val adata)))
  else search (le_val adata))).

Definition is_map (type : Z) : bool := (type =? OCSE_MMIO_MAP) || (type =? OCSE_GLOBAL_MMIO_MAP).
Definition is_read64 (type : Z) : bool := (type =? OCSE_MMIO_READ64) || (type =? OCSE_GLOBAL_MMIO_READ64).
Definition is_read32 (type : Z) : bool := (type =? OCSE_MMIO_READ32) || (type =? OCSE_GLOBAL_MMIO_READ32).

(** [_handle_ack], the area that has been mapped. *)
Definition map_area : L unit :=
  a ← gets pr_afu;
  if 2 <=? oa_mmio_count a then undef
  else
    let area := if mq_type (oa_mmio a) =? OCSE_GLOBAL_MMIO_MAP
      then oa_global_mmio a <| ma_type := OCXL_GLOBAL_MMIO |>
      else oa_per_pasid_mmio a <| ma_type := OCXL_PER_PASID_MMIO |> in
    upd_afu (fun a => a <| oa_mmios := <[Z.to_nat (oa_mmio_count a) := area]> (oa_mmios a) |>).

(** [_handle_ack], the data of a read: they replace the low bytes of
    [mmio.data], which is then converted. *)
Definition read_data64 : L unit :=
  o ← get 8;
  match o with
  | None => _all_idle;; upd_mmio_req (fun m => m <| mq_data := 0xFEEDB00FFEEDB00F |>)
  | Some data => upd_mmio_req (fun m => m <| mq_data := ntohll (le_val data) |>)
  end.

Definition read_data32 : L unit :=
  o ← get 4;
  match o with
  | None => upd_mmio_req (fun m => m <| mq_data := 0xFEEDB00F |>);; _all_idle
  | Some data =>
      upd_mmio_req (fun m => m <| mq_data := htonl (le_val (overwrite (le_bytes 8 (mq_data m)) 0 data)) |>)
  end.

(** A response code that is not 0 is only reported. *)
Definition _handle_ack : L unit :=
  o ← get 1;
  (match o with None => _all_idle | Some _ => mret tt end);;
  a ← gets pr_afu;
  let type := mq_type (oa_mmio a) in
  when_ (is_map type) map_area;;
  when_ (is_read64 type) read_data64;;
  when_ (is_read32 type) read_data32;;
  upd_mmio_req (fun m => m <| mq_state := LIBOCXL_REQ_IDLE |>).

(** [_handle_mem_ack]: when the socket fails the response code is not
    initialised; an error code ends the process. *)
Definition _handle_mem_ack : L unit :=
  o ← get 1;
  p ← gets (fun p => p);
  (match o with None => _all_idle | Some _ => mret tt end);;
  let resp_code := match o with Some b => hd 0 b | None => u8 (pr_junk p 0%nat) end in
  if negb (resp_code =? 0) then exit_process
  else
    a ← gets pr_afu;
    when_ (eq_type (oa_mem a) =? OCSE_LPC_READ)
      (o ← get (i32 (eq_size (oa_mem a)));
       match o with
       | None => upd_mem_req (fun m => m <| eq_data := MemFreed |>);; _all_idle
       | Some data => upd_mem_req (fun m => m <| eq_data := MemBytes data |>)
       end);;
    upd_mem_req (fun m => m <| eq_state := LIBOCXL_REQ_IDLE |>).
End messages.

(** * Requests of the application *)

(** A request that could not be sent. *)
Definition lost_request (f : ocxl_afu -> ocxl_afu) : L unit :=
  drop_afu;; upd_afu f.

Definition _req_max_int : L unit :=
  a ← gets pr_afu;
  ok ← put_silent (OCSE_MAX_INT :: be_bytes 2 (oa_int_max a));
  if (ok : bool) then upd_afu (fun a => a <| oa_int_req := LIBOCXL_REQ_PENDING |>)
  else upd_afu (fun a => a <| oa_int_max := 0 |>);; _all_idle.

Definition _ocse_attach : L unit :=
  ok ← put_silent [OCSE_ATTACH];
  if (ok : bool) then upd_afu (fun a => a <| oa_attach := LIBOCXL_REQ_PENDING |>)
  else lost_request (fun a => a <| oa_attach := LIBOCXL_REQ_IDLE |>).

(** A message for the pending access to registers, or to memory. *)
Definition send_mmio_req (l : list Z) (lost : mmio_req -> mmio_req) : L unit :=
  ok ← put_silent l;
  if (ok : bool) then upd_mmio_req (fun m => m <| mq_state := LIBOCXL_REQ_PENDING |>)
  else drop_afu;; upd_mmio_req (fun m => lost (m <| mq_state := LIBOCXL_REQ_IDLE |>)).

Definition send_mem_req (l : list Z) : L unit :=
  ok ← put_silent l;
  if (ok : bool) then upd_mem_req (fun m => m <| eq_state := LIBOCXL_REQ_PENDING |>)
  else drop_afu;; upd_mem_req (fun m => m <| eq_state := LIBOCXL_REQ_IDLE |>).

Definition mmio_request : L mmio_req := gets (fun p => oa_mmio (pr_afu p)).
Definition mem_request : L mem_req := gets (fun p => oa_mem (pr_afu p)).

Definition _mmio_map : L unit :=
  m ← mmio_request;
  send_mmio_req [mq_type m] id.

Definition _mmio_write64 : L unit :=
  m ← mmio_request;
  send_mmio_req (mq_type m :: be_bytes 4 (mq_addr m) ++ le_bytes 8 (htonll (mq_data m))) id.

Definition _mmio_write32 : L unit :=
  m ← mmio_request;
  send_mmio_req (mq_type m :: be_bytes 4 (mq_addr m) ++ be_bytes 4 (mq_data m)) id.

Definition _mmio_read : L unit :=
  m ← mmio_request;
  send_mmio_req (mq_type m :: be_bytes 4 (mq_addr m))
    (fun m => m <| mq_data := 0xFEEDB00FFEEDB00F |>).

Definition _mem_map : L unit := upd_mem_req (fun m => m <| eq_state := LIBOCXL_REQ_IDLE |>).

(** The [size] bytes [afu->mem.data] points to. *)
Definition mem_bytes (m : mem_req) : option (list Z) :=
  match eq_data m with MemUser l | MemBytes l => slice l 0 (eq_size m) | _ => None end.

Definition _mem_read : L unit :=
  m ← mem_request;
  send_mem_req (eq_type m :: be_bytes 4 (eq_addr m) ++ be_bytes 4 (eq_size m)).

Definition _mem_write : L unit :=
  m ← mem_request;
  data ← lift (mem_bytes m);
  send_mem_req (eq_type m :: be_bytes 4 (eq_addr m) ++ be_bytes 4 (eq_size m) ++ data).

(** [be] is the 64-bit value of [htonl]: four bytes, and four zeros. *)
Definition _mem_write_be : L unit :=
  m ← mem_request;
  data ← lift (mem_bytes m);
  send_mem_req (eq_type m :: be_bytes 4 (eq_addr m) ++ le_bytes 8 (htonl (eq_be m)) ++ data).
