(* ===== verification/Dmo.v ===== *)
(** libocxl/libocxl.c, [_handle_DMO_OPs]: the atomic operations of the AFU on the
    application's memory.  The code keeps two sets of variables, of 32 and of 64
    bits, with the same steps for both; here they are one record each and the
    width is an argument.  What is not assigned is what the stack held. *)
From stdpp Require Import gmap.
From S2P Require Import Prelude Utils Monad LibState Lib.

Definition AMO_WRMWF_ADD := 0x00.
Definition AMO_WRMWF_XOR := 0x01.
Definition AMO_WRMWF_OR := 0x02.
Definition AMO_WRMWF_AND := 0x03.
Definition AMO_WRMWF_CAS_MAX_U := 0x04.
Definition AMO_WRMWF_CAS_MAX_S := 0x05.
Definition AMO_WRMWF_CAS_MIN_U := 0x06.
Definition AMO_WRMWF_CAS_MIN_S := 0x07.
Definition AMO_ARMWF_CAS_U := 0x08.
Definition AMO_ARMWF_CAS_E := 0x09.
Definition AMO_ARMWF_CAS_NE := 0x0a.
Definition AMO_ARMWF_INC_B := 0x0c.
Definition AMO_ARMWF_INC_E := 0x0d.
Definition AMO_ARMWF_DEC_B := 0x0e.
Definition AMO_W_CAS_T := 0x0c.
Definition MIN_INT32 : Z := 0x80000000.
Definition MIN_INT64 : Z := 0x8000000000000000.

(** common/utils.c; [lvalue - 1] overflows, and wraps. *)
Definition sign_extend (in_op : Z) : Z :=
  let lvalue := 0x80000000 in
  if truthy (Z.land in_op lvalue) then Z.lor in_op 0x80000000 else Z.land in_op 0x7fffffff.
Definition sign_extend64 (in_op : Z) : Z :=
  let lvalue := 0x8000000000000000 in
  if truthy (Z.land in_op lvalue) then Z.lor in_op 0x8000000000000000
  else Z.land in_op 0x7fffffffffffffff.

(** [op_A], [op_1] and [op_2], or [op_Al], [op_1l] and [op_2l]. *)
Record amo_ops := AmoOps { am_A : Z; am_1 : Z; am_2 : Z }.

#[export] Instance eta_amo_ops : Settable amo_ops := fun a => AmoOps (am_A a) (am_1 a) (am_2 a).
#[export] Instance set_am_A : Setter am_A := ltac:(build_setter).
#[export] Instance set_am_1 : Setter am_1 := ltac:(build_setter).
#[export] Instance set_am_2 : Setter am_2 := ltac:(build_setter).

(** * The operands *)

(** The halves of a 64-bit variable in memory. *)
Definition low32 (x : Z) : Z := u32 x.
Definition high32 (x : Z) : Z := u32 (Z.shiftr x 32).

(** The [switch] on [op_ptr]; [None] when the size does not fit the address. *)
Definition take_operands (amo_op op_size op_ptr op1 op2 : Z) (s l : amo_ops)
    : option (amo_ops * amo_ops) :=
  let data := negb (amo_op =? OCSE_AMO_RD) in
  let small x y := Some (s <| am_1 := x |> <| am_2 := y |>, l) in
  let large x y := Some (s, l <| am_1 := x |> <| am_2 := y |>) in
  if op_ptr =? 0x0 then
    if (op_size =? 4) && data then small (low32 op1) (low32 op2)
    else if (op_size =? 8) && data then large op1 op2
    else Some (s, l)
  else if op_ptr =? 0x4 then
    if (op_size =? 4) && data then small (high32 op1) (high32 op2)
    else if op_size =? 8 then None else Some (s, l)
  else if op_ptr =? 0x8 then
    if (op_size =? 4) && data then small (low32 op1) (low32 op2)
    else if (op_size =? 8) && data then large op2 op1
    else Some (s, l)
  else
    if (op_size =? 4) && data then small (high32 op2) (high32 op1)
    else if op_size =? 8 then None else Some (s, l).

(** * The operation *)

(** The arithmetic on variables of [n] bytes. *)
Definition bits (n : Z) : Z := 8 * n.
Definition wrap (n x : Z) : Z := x mod 2 ^ bits n.
Definition extend (n x : Z) : Z := if n =? 4 then sign_extend x else sign_extend64 x.
Definition signed (n x : Z) : Z := if n =? 4 then i32 x else i64 x.
Definition min_int (n : Z) : Z := if n =? 4 then MIN_INT32 else MIN_INT64.

Definition operand (n addr : Z) : L Z :=
  data ← load addr n;
  mret (le_val data).

(** [wb] of an operation that returns the old value. *)
Definition wb_value (n : Z) : Z := if n =? 4 then 1 else 2.

(** The signed comparisons store the sign-extended operands back. *)
Definition extended (n : Z) (r : amo_ops) : amo_ops :=
  r <| am_A := extend n (am_A r) |> <| am_1 := extend n (am_1 r) |>.

(** The [switch] on [atomic_op] for operands of [n] bytes at [addr]; [A32] is
    [op_A], which [AMO_ARMWF_INC_E] takes for both sizes. *)
Definition amo_operation (amo_op atomic_op n addr A32 : Z) (r : amo_ops) : L (amo_ops * Z) :=
  let wr := amo_op =? OCSE_AMO_WR in
  let rd := amo_op =? OCSE_AMO_RD in
  let rw := amo_op =? OCSE_AMO_RW in
  let fetch r := mret (r, if wr then 0 else wb_value n) in
  let nop := mret (r, 0) in
  if atomic_op =? AMO_WRMWF_ADD then fetch (r <| am_1 := wrap n (am_1 r + am_A r) |>)
  else if atomic_op =? AMO_WRMWF_XOR then fetch (r <| am_1 := Z.lxor (am_1 r) (am_A r) |>)
  else if atomic_op =? AMO_WRMWF_OR then fetch (r <| am_1 := Z.lor (am_1 r) (am_A r) |>)
  else if atomic_op =? AMO_WRMWF_AND then fetch (r <| am_1 := Z.land (am_1 r) (am_A r) |>)
  else if atomic_op =? AMO_WRMWF_CAS_MAX_U then
    fetch (if am_1 r <? am_A r then r <| am_1 := am_A r |> else r)
  else if atomic_op =? AMO_WRMWF_CAS_MAX_S then
    let r := extended n r in
    fetch (if signed n (am_1 r) <? signed n (am_A r) then r <| am_1 := am_A r |> else r)
  else if atomic_op =? AMO_WRMWF_CAS_MIN_U then
    fetch (if am_A r <? am_1 r then r <| am_1 := am_A r |> else r)
  else if atomic_op =? AMO_WRMWF_CAS_MIN_S then
    let r := extended n r in
    fetch (if signed n (am_A r) <? signed n (am_1 r) then r <| am_1 := am_A r |> else r)
  else if atomic_op =? AMO_ARMWF_CAS_U then
    if wr || rd then nop else mret (r <| am_1 := am_2 r |>, wb_value n)
  else if atomic_op =? AMO_ARMWF_CAS_E then
    if wr || rd then nop
    else mret (r <| am_1 := if am_A r =? am_1 r then am_2 r else am_A r |>, wb_value n)
  else if atomic_op =? AMO_ARMWF_CAS_NE then
    if wr || rd then nop
    else mret (r <| am_1 := if negb (am_A r =? am_1 r) then am_2 r else am_A r |>, wb_value n)
  else if atomic_op =? AMO_ARMWF_INC_B then
    if rw then nop
    else if wr then
      x ← operand n (addr + n);
      let r := r <| am_2 := x |> in
      mret (if am_A r =? am_2 r then r <| am_2 := am_1 r |> else r <| am_1 := am_A r |>, 0)
    else
      x ← operand n (addr + n);
      mret (if negb (am_A r =? x) then r <| am_1 := wrap n (am_A r + 1) |>
            else r <| am_1 := am_A r |> <| am_A := min_int n |>, wb_value n)
  else if atomic_op =? AMO_ARMWF_INC_E then
    if wr || rw then nop
    else
      x ← operand n (addr + n);
      mret (if am_A r =? x then r <| am_1 := u32 ((if n =? 4 then am_A r else A32) + 1) |>
            else r <| am_1 := am_A r |> <| am_A := min_int n |>, wb_value n)
  else if atomic_op =? AMO_ARMWF_DEC_B then
    if wr || rw then nop
    else
      x ← operand n (addr - n);
      mret (if negb (am_A r =? x) then r <| am_1 := wrap n (am_A r - 1) |>
            else r <| am_1 := am_A r |> <| am_A := min_int n |>, wb_value n)
  else mret (r, 0xf).

(** * The whole *)

(** A big-endian AFU's operands are swapped. *)
Definition swap_operands (n : Z) (r : amo_ops) : amo_ops :=
  if n =? 4 then r <| am_1 := htonl (am_1 r) |> <| am_2 := htonl (am_2 r) |>
  else r <| am_1 := ntohll (am_1 r) |> <| am_2 := ntohll (am_2 r) |>.
Definition swap_value (n x : Z) : Z := if n =? 4 then htonl x else htonll x.

(** What is stored; a store twin stores its second operand too. *)
Definition store_result (atomic_op op_size addr : Z) (r : amo_ops) : L unit :=
  store addr (take (Z.to_nat op_size) (le_bytes 8 (am_1 r)));;
  when_ (atomic_op =? AMO_W_CAS_T)
    (store (addr + op_size) (take (Z.to_nat op_size) (le_bytes 8 (am_2 r)))).

(** The old value of an operation that returns it. *)
Definition answer_amo (op_size wb : Z) (le : bool) (r : amo_ops) : L unit :=
  if wb =? 0 then reply [OCSE_MEM_SUCCESS]
  else if (wb =? 1) || (wb =? 2) then
    let A := if le then am_A r else swap_value op_size (am_A r) in
    reply (OCSE_MEM_SUCCESS :: take (Z.to_nat op_size) (le_bytes 8 A))
  else mret tt.

(** The variables when the routine is entered. *)
Definition stack_ops (junk : nat -> Z) : amo_ops * amo_ops :=
  (AmoOps (u32 (junk 0%nat)) (u32 (junk 1%nat)) (u32 (junk 2%nat)),
   AmoOps (u64 (junk 3%nat)) (u64 (junk 4%nat)) (u64 (junk 5%nat))).

(** The value at [addr].  A size other than 4 and 8 is only reported, and the
    code goes on with variables that were never assigned: undefined. *)
Definition load_value (op_size addr : Z) (le : bool) (s l : amo_ops) : L (amo_ops * amo_ops) :=
  if op_size =? 4 then
    A ← operand 4 addr;
    let s := s <| am_A := A |> in
    mret (if le then s else swap_operands 4 s, l)
  else if op_size =? 8 then
    A ← operand 8 addr;
    let l := l <| am_A := A |> in
    mret (s, if le then l else swap_operands 8 l)
  else undef.

Definition _handle_DMO_OPs (amo_op op_size addr function_code op1 op2 cmd_endian : Z) : L unit :=
  ok ← _testmemaddr addr;
  if negb ok then
    _handle_dsi addr;;
    mret tt
  else
    p ← gets (fun p => p);
    let '(s, l) := stack_ops (pr_junk p) in
    match take_operands amo_op op_size (Z.land addr 0xc) op1 op2 s l with
    | None => reply [OCSE_MEM_FAILURE]
    | Some (s, l) =>
        let le := cmd_endian =? 0 in
        '(s, l) ← load_value op_size addr le s l;
        '(r, wb) ← amo_operation amo_op function_code op_size addr (am_A s) (if op_size =? 4 then s else l);
        when_ (negb (wb =? 0xf)) (store_result function_code op_size addr r);;
        answer_amo op_size wb le r
    end.
