(* ===== verification/LibLoop.v ===== *)
(** libocxl/libocxl.c, [_psl_loop]: the library's thread.  A turn sends the
    requests the application has made since the last one and handles one message
    of the server. *)
From stdpp Require Import gmap.
From S2P Require Import Prelude Utils Monad LibState Lib Dmo.

(** * Requests *)

Definition send_mmio_request : L unit :=
  m ← mmio_request;
  let type := mq_type m in
  if is_map type then _mmio_map
  else if (type =? OCSE_MMIO_WRITE64) || (type =? OCSE_GLOBAL_MMIO_WRITE64) then _mmio_write64
  else if (type =? OCSE_MMIO_WRITE32) || (type =? OCSE_GLOBAL_MMIO_WRITE32) then _mmio_write32
  else when_ (is_read64 type || is_read32 type) _mmio_read.

Definition send_mem_request : L unit :=
  m ← mem_request;
  let type := eq_type m in
  if type =? OCSE_LPC_MAP then _mem_map
  else if type =? OCSE_LPC_WRITE then _mem_write
  else if type =? OCSE_LPC_WRITE_BE then _mem_write_be
  else when_ (type =? OCSE_LPC_READ) _mem_read.

(** Is the request [f] of the AFU to be sent? *)
Definition requested (f : ocxl_afu -> libocxl_req_state) (m : L unit) : L unit :=
  a ← gets pr_afu;
  when_ (bool_decide (f a = LIBOCXL_REQ_REQUEST)) m.

Definition send_requests : L unit :=
  requested oa_int_req _req_max_int;;
  requested oa_attach _ocse_attach;;
  requested (fun a => mq_state (oa_mmio a)) send_mmio_request;;
  requested (fun a => eq_state (oa_mem a)) send_mem_request.

(** * Messages *)

Section loop.
Variable fuel : nat.

Local Notation get_all size k := (get_or_idle fuel size tt k).

(** The header of a command: its size and its address. *)
Definition get_size (k : Z -> L unit) : L unit := get_all 2 (fun b => k (htons (le_val b))).
Definition get_op_size (k : Z -> L unit) : L unit := get_all 1 (fun b => k (hd 0 b)).
Definition get_addr (k : Z -> L unit) : L unit := get_all 8 (fun b => k (ntohll (le_val b))).

(** [size] bytes into [buffer\[MAX_LINE_CHARS\]]. *)
Definition get_data (size : Z) (k : list Z -> L unit) : L unit :=
  if MAX_LINE_CHARS <? size then undef else get_all size k.

Definition msg_open : L unit :=
  get_all 1 (fun b => upd_afu (fun a => a <| oa_context := hd 0 b |> <| oa_open := LIBOCXL_REQ_IDLE |>)).

Definition msg_detach : L unit :=
  upd_afu (fun a => a <| oa_mapped := 0 |> <| oa_global_mapped := 0 |> <| oa_attached := 0 |>
    <| oa_opened := 0 |> <| oa_open := LIBOCXL_REQ_IDLE |> <| oa_attach := LIBOCXL_REQ_IDLE |>
    <| oa_mmio := oa_mmio a <| mq_state := LIBOCXL_REQ_IDLE |> |>
    <| oa_mem := oa_mem a <| eq_state := LIBOCXL_REQ_IDLE |> |> <| oa_int_req := LIBOCXL_REQ_IDLE |>).

(** What the server tells of the AFU: its fields one after the other, in the
    byte order of the hosts. *)
Definition field (b : list Z) (off n : nat) : Z := le_val (take n (drop off b)).

Definition query_afu (b : list Z) (a : ocxl_afu) : ocxl_afu :=
  a <| oa_device_id := field b 0 2 |> <| oa_vendor_id := field b 2 2 |>
    <| oa_afu_version_major := field b 4 1 |> <| oa_afu_version_minor := field b 5 1 |>
    <| oa_global_mmio := MmioArea (field b 6 8) (field b 14 4) OCXL_GLOBAL_MMIO |>
    <| oa_per_pasid_mmio := MmioArea (field b 18 8) (field b 26 4) OCXL_PER_PASID_MMIO |>
    <| oa_mmio_count := 0 |> <| oa_mmio_max := 2 |>
    <| oa_mem_base_address := field b 30 8 |> <| oa_mem_size := field b 38 1 |>.

Definition msg_query : L unit := get_all 39 (fun b => upd_afu (query_afu b)).

Definition msg_read : L unit :=
  get_size (fun size => get_addr (fun addr => _handle_read addr size)).

Definition msg_write : L unit :=
  get_size (fun size => get_addr (fun addr => get_data size (fun data => _handle_write addr size data))).

Definition msg_write_be : L unit :=
  get_size (fun size => get_addr (fun addr => get_addr (fun wr_be => get_data size (fun data =>
    _handle_write_be addr size data wr_be)))).

(** An operation with data: flag, endianness and the two halves of the data. *)
Definition msg_amo_data (amo_op : Z) : L unit :=
  get_op_size (fun op_size => get_addr (fun addr => get_all 18 (fun b =>
    _handle_DMO_OPs amo_op op_size addr (field b 0 1) (field b 2 8) (field b 10 8) (field b 1 1)))).

Definition msg_amo_rd : L unit :=
  get_op_size (fun op_size => get_addr (fun addr => get_all 2 (fun b =>
    _handle_DMO_OPs OCSE_AMO_RD op_size addr (field b 0 1) 0 0 (field b 1 1)))).

Definition msg_touch : L unit :=
  get_addr (fun addr => get_all 2 (fun b => _handle_touch addr (field b 0 1) (field b 1 1))).

(** The handlers whose failure ends the loop. *)
Definition or_fail (m : L Z) : L bool :=
  rc ← m;
  mret (negb (rc <? 0)).

(** The [switch] on the first byte; [false] when the loop ends there. *)
Definition take_message (op : Z) : L bool :=
  let go (m : L unit) : L bool := m;; mret true in
  if op =? OCSE_OPEN then go msg_open
  else if op =? OCSE_ATTACH then go (upd_afu (fun a => a <| oa_attach := LIBOCXL_REQ_IDLE |>))
  else if op =? OCSE_DETACH then go msg_detach
  else if op =? OCSE_MAX_INT then go (get_all 2 (fun _ => upd_afu (fun a => a <| oa_int_req := LIBOCXL_REQ_IDLE |>)))
  else if op =? OCSE_QUERY then go msg_query
  else if op =? OCSE_MEMORY_READ then go msg_read
  else if op =? OCSE_MEMORY_WRITE then go msg_write
  else if op =? OCSE_WR_BE then go msg_write_be
  else if (op =? OCSE_AMO_WR) || (op =? OCSE_AMO_RW) then go (msg_amo_data op)
  else if op =? OCSE_AMO_RD then go msg_amo_rd
  else if op =? OCSE_MEMORY_TOUCH then go msg_touch
  else if op =? OCSE_MMIO_ACK then go (_handle_ack fuel)
  else if op =? OCSE_LPC_ACK then go (_handle_mem_ack fuel)
  else if op =? OCSE_INTERRUPT_D then or_fail (_handle_interrupt fuel true)
  else if op =? OCSE_INTERRUPT then or_fail (_handle_interrupt fuel false)
  else if op =? OCSE_WAKE_HOST_THREAD then or_fail (_handle_wake_host_thread fuel)
  else mret true.

(** One turn; [false] when the loop is left. *)
Definition psl_turn : L bool :=
  send_requests;;
  p ← gets (fun p => p);
  let '(rc, s) := bytes_ready false (pr_in p) in
  modify (fun p => p <| pr_in := s |>);;
  if rc =? 0 then mret true
  else if rc <? 0 then _all_idle;; mret false
  else
    o ← get fuel 1;
    match o with
    | None => _all_idle;; mret false
    | Some b => op ← lift (head b); take_message op
    end.

(** [turns] turns; the loop ends when the AFU is closed. *)
Fixpoint psl_loop (turns : nat) : L unit :=
  match turns with
  | O => running
  | S turns =>
      a ← gets pr_afu;
      if truthy (oa_opened a) then
        go ← psl_turn;
        if (go : bool) then psl_loop turns else upd_afu (fun a => a <| oa_attached := 0 |>)
      else upd_afu (fun a => a <| oa_attached := 0 |>)
  end.

Definition _psl_loop (turns : nat) : L unit :=
  upd_afu (fun a => a <| oa_opened := 1 |>);;
  psl_loop turns.
End loop.
