(* ===== verification/LibApi.v ===== *)
(** libocxl/libocxl.c and libocxl_lpc.c: the calls of the application.  A call
    checks its arguments, leaves a request for the library's thread and waits
    until the request is idle again.  What happens while it waits - turns of the
    thread, and the server's - is a step given from outside, [turn]; [fuel] bounds
    how often.  The handle of a mapped area is the area; its AFU is the
    process's. *)
From stdpp Require Import gmap.
From S2P Require Import Prelude Utils Monad LibState Lib.

Section api.
Variable turn : L unit.
Variable fuel : nat.

(** [while (... != LIBOCXL_REQ_IDLE) _delay_1ms ();] *)
Fixpoint until (n : nat) (over : proc -> bool) : L unit :=
  p ← gets (fun p => p);
  if over p then mret tt
  else match n with
       | O => running
       | S n => turn;; until n over
       end.

Definition until_idle (f : ocxl_afu -> libocxl_req_state) : L unit :=
  until fuel (fun p => bool_decide (f (pr_afu p) = LIBOCXL_REQ_IDLE)).

Definition mmio_idle : L unit := until_idle (fun a => mq_state (oa_mmio a)).
Definition mem_idle : L unit := until_idle (fun a => eq_state (oa_mem a)).

(** * Registers *)

Definition ocxl_mmio_map (type : ocxl_mmio_type) : L (Z * option nat) :=
  a ← gets pr_afu;
  if negb (truthy (oa_opened a)) then mret (OCXL_NO_CONTEXT, None)
  else if oa_mmio_count a =? oa_mmio_max a then mret (OCXL_NO_MEM, None)
  else
    upd_mmio_req (fun m => m <| mq_type :=
        match type with OCXL_GLOBAL_MMIO => OCSE_GLOBAL_MMIO_MAP | OCXL_PER_PASID_MMIO => OCSE_MMIO_MAP end |>
      <| mq_state := LIBOCXL_REQ_REQUEST |>);;
    mmio_idle;;
    upd_afu (fun a => match type with
      | OCXL_GLOBAL_MMIO => a <| oa_global_mapped := 1 |>
      | OCXL_PER_PASID_MMIO => a <| oa_mapped := 1 |> end);;
    a ← gets pr_afu;
    upd_afu (fun a => a <| oa_mmio_count := u32 (oa_mmio_count a + 1) |>);;
    mret (OCXL_OK, Some (Z.to_nat (oa_mmio_count a))).

Definition ocxl_mmio_unmap (region : ocxl_mmio_area) : L Z :=
  upd_afu (fun a => match ma_type region with
    | OCXL_GLOBAL_MMIO => a <| oa_global_mapped := 0 |>
    | OCXL_PER_PASID_MMIO => a <| oa_mapped := 0 |> end);;
  mret OCXL_OK.

(** The eight accesses are the same but for the test that the area is mapped,
    its error, the alignment, the type of the request and the data. *)
Definition mmio_access (mapped : ocxl_afu -> bool) (err align offset type : Z) (data : option Z)
    : L (Z * option Z) :=
  a ← gets pr_afu;
  if negb (mapped a) then mret (err, None)
  else if truthy (Z.land offset align) then mret (OCXL_OUT_OF_BOUNDS, None)
  else
    upd_mmio_req (fun m => m <| mq_type := type |> <| mq_addr := u32 offset |>
      <| mq_data := match data with Some d => d | None => mq_data m end |>
      <| mq_state := LIBOCXL_REQ_REQUEST |>);;
    mmio_idle;;
    a ← gets pr_afu;
    mret (if truthy (oa_opened a) then OCXL_OK else OCXL_NO_DEV, Some (mq_data (oa_mmio a))).

Definition is_global (m : ocxl_mmio_area) : bool := bool_decide (ma_type m = OCXL_GLOBAL_MMIO).
Definition area_mapped (m : ocxl_mmio_area) (a : ocxl_afu) : bool :=
  if is_global m then truthy (oa_global_mapped a) else truthy (oa_mapped a).
Definition global_mapped (a : ocxl_afu) : bool := truthy (oa_global_mapped a).

(** The value of a read, where there is one; 32 bits of it. *)
Definition out32 (r : Z * option Z) : Z * option Z := (r.1, u32 <$> r.2).

Definition ocxl_mmio_write64 (m : ocxl_mmio_area) (offset value : Z) : L Z :=
  r ← mmio_access (area_mapped m) OCXL_NO_MEM 7 offset
        (if is_global m then OCSE_GLOBAL_MMIO_WRITE64 else OCSE_MMIO_WRITE64) (Some value);
  mret r.1.

Definition ocxl_mmio_read64 (m : ocxl_mmio_area) (offset : Z) : L (Z * option Z) :=
  mmio_access (area_mapped m) OCXL_NO_MEM 7 offset
    (if is_global m then OCSE_GLOBAL_MMIO_READ64 else OCSE_MMIO_READ64) None.

Definition ocxl_mmio_write32 (m : ocxl_mmio_area) (offset value : Z) : L Z :=
  r ← mmio_access (area_mapped m) OCXL_NO_MEM 3 offset
        (if is_global m then OCSE_GLOBAL_MMIO_WRITE32 else OCSE_MMIO_WRITE32) (Some value);
  mret r.1.

Definition ocxl_mmio_read32 (m : ocxl_mmio_area) (offset : Z) : L (Z * option Z) :=
  r ← mmio_access (area_mapped m) OCXL_NO_MEM 3 offset
        (if is_global m then OCSE_GLOBAL_MMIO_READ32 else OCSE_MMIO_READ32) None;
  mret (out32 r).

Definition ocxl_global_mmio_write64 (offset val : Z) : L Z :=
  r ← mmio_access global_mapped OCXL_NO_DEV 7 offset OCSE_GLOBAL_MMIO_WRITE64 (Some val);
  mret r.1.

Definition ocxl_global_mmio_read64 (offset : Z) : L (Z * option Z) :=
  mmio_access global_mapped OCXL_NO_DEV 7 offset OCSE_GLOBAL_MMIO_READ64 None.

Definition ocxl_global_mmio_write32 (offset val : Z) : L Z :=
  r ← mmio_access global_mapped OCXL_NO_DEV 3 offset OCSE_GLOBAL_MMIO_WRITE32 (Some val);
  mret r.1.

Definition ocxl_global_mmio_read32 (offset : Z) : L (Z * option Z) :=
  r ← mmio_access global_mapped OCXL_NO_DEV 3 offset OCSE_GLOBAL_MMIO_READ32 None;
  mret (out32 r).

Definition ocxl_afu_attach : L Z :=
  a ← gets pr_afu;
  if negb (truthy (oa_opened a)) then mret OCXL_NO_DEV
  else if truthy (oa_attached a) then mret OCXL_NO_DEV
  else
    upd_afu (fun a => a <| oa_attach := LIBOCXL_REQ_REQUEST |>);;
    until_idle oa_attach;;
    upd_afu (fun a => a <| oa_attached := 1 |>);;
    mret OCXL_OK.

(** * Memory *)

Definition OCXL_LPC_FLAGS : Z := 0x3.

Definition ocxl_lpc_map (flags : Z) : L Z :=
  a ← gets pr_afu;
  if negb (truthy (oa_opened a)) || negb (truthy (oa_attached a)) ||
     truthy (Z.land flags (Z.lnot OCXL_LPC_FLAGS))
  then mret (-1)
  else
    upd_mem_req (fun m => m <| eq_type := OCSE_LPC_MAP |> <| eq_data := MemUser (le_bytes 4 flags) |>
      <| eq_state := LIBOCXL_REQ_REQUEST |>);;
    mem_idle;;
    upd_afu (fun a => a <| oa_lpc_mapped := 1 |>);;
    mret 0.

Definition ocxl_lpc_unmap : L Z :=
  upd_afu (fun a => a <| oa_lpc_mapped := 0 |>);;
  mret 0.

(** The stride of the loops: the alignment of the address, at most 256, halved
    until it fits what remains. *)
Definition aligned_stride (to_i : Z) : Z :=
  if truthy (Z.land to_i 0x1) then 1
  else if truthy (Z.land to_i 0x2) then 2
  else if truthy (Z.land to_i 0x4) then 4
  else if truthy (Z.land to_i 0x8) then 8
  else if truthy (Z.land to_i 0x10) then 16
  else if truthy (Z.land to_i 0x20) then 32
  else if truthy (Z.land to_i 0x40) then 64
  else if truthy (Z.land to_i 0x80) then 128
  else 256.

Fixpoint fit_stride (n : nat) (stride remainder : Z) : option Z :=
  if stride >? remainder then
    match n with
    | O => None
    | S n => fit_stride n (Z.quot stride 2) remainder
    end
  else Some stride.

(** [None]: the loop that halves the stride is still running. *)
Definition stride_at (offset size i : Z) : option Z :=
  fit_stride fuel (aligned_stride (u64 (offset + i))) (i32 (size - i)).

(** A chunk of the loop of a write, or of a read into [out]. *)
Definition write_chunk (offset : Z) (val : list Z) (i stride : Z) : L bool :=
  upd_mem_req (fun m => m <| eq_addr := u64 (offset + i) |> <| eq_size := stride |>
    <| eq_data := MemUser (drop (Z.to_nat i) val) |> <| eq_state := LIBOCXL_REQ_REQUEST |>);;
  mem_idle;;
  a ← gets pr_afu;
  mret (truthy (oa_opened a)).

Fixpoint write_loop (n : nat) (offset : Z) (val : list Z) (size i : Z) : L Z :=
  if i <? size then
    match n, stride_at offset size i with
    | S n, Some stride =>
        go ← write_chunk offset val i stride;
        if (go : bool) then write_loop n offset val size (i + stride) else mret (-1)
    | _, _ => running
    end
  else mret 0.

Definition ocxl_lpc_write (n : nat) (offset : Z) (val : list Z) (size : Z) : L Z :=
  a ← gets pr_afu;
  if negb (truthy (oa_lpc_mapped a)) then mret (-1)
  else
    upd_mem_req (fun m => m <| eq_type := OCSE_LPC_WRITE |> <| eq_be := 0 |>);;
    write_loop n offset val size 0.

Definition ocxl_lpc_write_be (offset : Z) (val : list Z) (byte_enable : Z) : L Z :=
  a ← gets pr_afu;
  if negb (truthy (oa_lpc_mapped a)) then mret (-1)
  else if truthy (Z.land offset 0x3F) then mret (-1)
  else
    upd_mem_req (fun m => m <| eq_type := OCSE_LPC_WRITE_BE |> <| eq_addr := offset |> <| eq_size := 64 |>
      <| eq_data := MemUser val |> <| eq_be := byte_enable |> <| eq_state := LIBOCXL_REQ_REQUEST |>);;
    mem_idle;;
    a ← gets pr_afu;
    mret (if truthy (oa_opened a) then 0 else -1).

(** The data are copied, and freed, before the connection is tested; [free] takes
    what [malloc] gave. *)
Definition read_chunk (offset : Z) (out : list Z) (i stride : Z) : L (option (list Z) * bool) :=
  upd_mem_req (fun m => m <| eq_addr := u64 (offset + i) |> <| eq_size := stride |>
    <| eq_state := LIBOCXL_REQ_REQUEST |>);;
  mem_idle;;
  a ← gets pr_afu;
  match eq_data (oa_mem a) with
  | MemNull => mret (None, false)
  | MemUser _ | MemFreed => undef
  | MemBytes data =>
      out ← lift (copy_at out i data (eq_size (oa_mem a)));
      upd_mem_req (fun m => m <| eq_data := MemFreed |>);;
      mret (Some out, truthy (oa_opened a))
  end.

Fixpoint read_loop (n : nat) (offset : Z) (out : list Z) (size i : Z) : L (Z * list Z) :=
  if i <? size then
    match n, stride_at offset size i with
    | S n, Some stride =>
        '(o, go) ← read_chunk offset out i stride;
        let out := match o with Some out => out | None => out end in
        if (go : bool) then read_loop n offset out size (i + stride) else mret (-1, out)
    | _, _ => running
    end
  else mret (0, out).

Definition ocxl_lpc_read (n : nat) (offset : Z) (out : list Z) (size : Z) : L (Z * list Z) :=
  a ← gets pr_afu;
  if negb (truthy (oa_lpc_mapped a)) then mret (-1, out)
  else
    upd_mem_req (fun m => m <| eq_type := OCSE_LPC_READ |> <| eq_be := 0 |>);;
    read_loop n offset out size 0.

(** * Events *)

(** A new interrupt: its id is the address [id] that [malloc] returned. *)
Definition ocxl_irq_alloc (id : Z) : L (Z * Z) :=
  a ← gets pr_afu;
  upd_afu (fun a => a <| oa_irq := oa_irq a ++ [Irq (u16 (oa_irq_count a)) id] |>
    <| oa_irq_count := i32 (oa_irq_count a + 1) |>);;
  mret (OCXL_OK, u16 (oa_irq_count a)).

Definition ocxl_irq_get_handle (irq : Z) : L Z :=
  a ← gets pr_afu;
  mret (match find (fun i => irq_irq i =? irq) (oa_irq a) with Some i => irq_id i | None => 0 end).

(** The wait ends when the AFU is closed, too; then there is no event to copy. *)
Definition ocxl_afu_event_check_versioned (read_ok : bool) : L (Z * ocxl_event) :=
  until fuel (fun p => negb (truthy (oa_opened (pr_afu p))) || negb (bool_decide (length (oa_events (pr_afu p)) = 0%nat)));;
  a ← gets pr_afu;
  match oa_events a with
  | [] => undef
  | e :: _ =>
      upd_afu (fun a => a <| oa_events := tail (oa_events a) |>);;
      mret (if read_ok then 1 else u16 (-1), e)
  end.

(** [self] is the id of the calling thread. *)
Definition ocxl_wait (self : Z) : L Z :=
  tid ← _alloc_wait_event (u16 self);
  upd_wait_event tid (fun e => WaitEvent (we_tid e) 1 (we_received e));;
  until fuel (fun p => existsb (fun e => (we_tid e =? tid) && truthy (we_received e)) (pr_wait_list p));;
  upd_wait_event tid (fun e => WaitEvent (we_tid e) 0 0);;
  _free_wait_event tid;;
  mret OCXL_OK.

Definition ocxl_afu_get_mmio_size : L Z := gets (fun p => ma_length (oa_per_pasid_mmio (pr_afu p))).
Definition ocxl_afu_get_global_mmio_size : L Z := gets (fun p => ma_length (oa_global_mmio (pr_afu p))).
Definition ocxl_afu_get_pasid : L Z := gets (fun p => oa_context (pr_afu p)).
Definition ocxl_afu_get_version : L (Z * Z) :=
  gets (fun p => (oa_afu_version_major (pr_afu p), oa_afu_version_minor (pr_afu p))).
End api.
