(* ===== verification/LibRun.v ===== *)
(** Running the client library: rules for its messages and for the application's
    memory. *)
From stdpp Require Import gmap.
From S2P Require Import Prelude Utils Monad LibState Lib Dmo LibLoop MmioRun.

(** * Memory *)

Definition mem_has (mem : gmap Z Z) (addr : Z) (l : list Z) : Prop :=
  forall i b, l !! i = Some b -> mem !! (addr + Z.of_nat i) = Some b.

(** The [n] bytes from [addr] on are the application's. *)
Definition mapped (mem : gmap Z Z) (addr : Z) (n : nat) : Prop :=
  forall i, (i < n)%nat -> is_Some (mem !! (addr + Z.of_nat i)).

Lemma mem_has_nil mem addr : mem_has mem addr [].
Proof. intros i b Hi. by rewrite lookup_nil in Hi. Qed.

Lemma mem_has_cons mem addr b l :
  mem_has mem addr (b :: l) <-> mem !! addr = Some b /\ mem_has mem (addr + 1) l.
Proof.
  split.
  - intros H. split; [rewrite <- (H 0%nat b); [f_equal; lia|done]|].
    intros i c Hi. rewrite <- (H (S i) c Hi). f_equal. lia.
  - intros [Hb H] [|i] c Hi; [injection Hi as <-; by rewrite Z.add_0_r|].
    rewrite <- (H i c Hi). f_equal. lia.
Qed.

Lemma mapM_has mem addr l k :
  mem_has mem (addr + Z.of_nat k) l ->
  mapM (fun i => mem !! (addr + Z.of_nat i)) (seq k (length l)) = Some l.
Proof.
  revert k. induction l as [|b l IH]; intros k H; [done|]. apply mem_has_cons in H as [Hb H].
  cbn [length seq mapM]. rewrite Hb. cbn [mbind option_bind].
  replace (addr + Z.of_nat k + 1) with (addr + Z.of_nat (S k)) in H by lia. by rewrite (IH _ H).
Qed.

Lemma has_mapped mem addr l : mem_has mem addr l -> mapped mem addr (length l).
Proof. intros H i Hi. destruct (lookup_lt_is_Some_2 l i Hi) as [b Hb]. exists b. by apply H. Qed.

Lemma mapped_has mem addr n : mapped mem addr n -> exists l, length l = n /\ mem_has mem addr l.
Proof.
  revert addr. induction n as [|n IH]; intros addr H; [by exists []|].
  destruct (H 0%nat) as [b Hb]; [lia|]. rewrite Z.add_0_r in Hb.
  destruct (IH (addr + 1)) as (l & Hl & Hm).
  { intros i Hi. replace (addr + 1 + Z.of_nat i) with (addr + Z.of_nat (S i)) by lia. apply H. lia. }
  exists (b :: l). cbn. split; [lia|]. by apply mem_has_cons.
Qed.

Lemma mapped_range_true mem addr n :
  mapped_range mem addr (Z.of_nat n) = true <-> mapped mem addr n.
Proof.
  unfold mapped_range, mapped. rewrite Nat2Z.id, forallb_forall. split.
  - intros H i Hi. eapply bool_decide_eq_true_1, H, in_seq. lia.
  - intros H i Hi%in_seq. apply bool_decide_eq_true_2, H. lia.
Qed.

Lemma put_mem_lookup mem addr l a :
  put_mem mem addr l !! a =
  if (addr <=? a) && (a <? addr + Z.of_nat (length l)) then l !! Z.to_nat (a - addr) else mem !! a.
Proof.
  revert mem addr. induction l as [|b l IH]; intros mem addr; cbn [put_mem length].
  - replace ((addr <=? a) && (a <? addr + Z.of_nat 0)) with false; [done|].
    symmetry. apply andb_false_iff. rewrite Z.leb_gt, Z.ltb_ge. lia.
  - rewrite IH. destruct (decide (a = addr)) as [->|Hne].
    + replace (addr + 1 <=? addr) with false by (symmetry; apply Z.leb_gt; lia). cbn [andb].
      rewrite lookup_insert_eq, Z.leb_refl, Z.sub_diag. cbn [andb].
      by replace (addr <? addr + Z.of_nat (S (length l))) with true by (symmetry; apply Z.ltb_lt; lia).
    + rewrite lookup_insert_ne by done.
      replace (addr + 1 <=? a) with (addr <=? a) by (destruct (Z.leb_spec addr a), (Z.leb_spec (addr + 1) a); lia || done).
      replace (addr + 1 + Z.of_nat (length l)) with (addr + Z.of_nat (S (length l))) by lia.
      destruct (Z.leb_spec addr a); [|done]. cbn [andb]. destruct (a <? _); [|done].
      replace (Z.to_nat (a - addr)) with (S (Z.to_nat (a - (addr + 1)))) by lia. done.
Qed.

(** Storing keeps the rest of the memory, and its extent. *)
Lemma put_mem_has mem addr l : mem_has (put_mem mem addr l) addr l.
Proof.
  intros i b Hi. rewrite put_mem_lookup. apply lookup_lt_Some in Hi as Hl.
  replace ((addr <=? addr + Z.of_nat i) && _) with true
    by (symmetry; rewrite andb_true_iff, Z.leb_le, Z.ltb_lt; lia).
  replace (Z.to_nat (addr + Z.of_nat i - addr)) with i by lia. done.
Qed.

Lemma put_mem_mapped mem addr l a n : mapped mem a n -> mapped (put_mem mem addr l) a n.
Proof.
  intros H i Hi. rewrite put_mem_lookup. destruct (_ && _) eqn:E; [|by apply H].
  apply andb_true_iff in E as [E1%Z.leb_le E2%Z.ltb_lt]. apply lookup_lt_is_Some_2. lia.
Qed.

(** * Steps *)

Lemma run_load addr l p :
  mem_has (pr_mem p) addr l -> load addr (Z.of_nat (length l)) p = Done l p.
Proof.
  intros Hl. unfold load. rewrite bind_gets, Nat2Z.id, (mapM_has _ _ _ 0); [done|]. by rewrite Z.add_0_r.
Qed.

Lemma runs_store_last addr l (Q : unit -> proc -> Prop) p :
  mapped (pr_mem p) addr (length l) -> Q tt (p <| pr_mem := put_mem (pr_mem p) addr l |>) ->
  runs (store addr l) Q p.
Proof.
  intros Hm HQ. unfold runs, store. rewrite bind_gets. by rewrite (proj2 (mapped_range_true _ _ _) Hm).
Qed.

(** A step that does nothing. *)
Lemma runs_skip {W A B} (x : A) (k : A -> ST W B) Q (w : W) : runs (k x) Q w -> runs (mret x ≫= k) Q w.
Proof. done. Qed.

Section running.
Context {A : Type} (Q : A -> proc -> Prop).

Lemma runs_store addr l (k : unit -> L A) p :
  mapped (pr_mem p) addr (length l) -> runs (k tt) Q (p <| pr_mem := put_mem (pr_mem p) addr l |>) ->
  runs (store addr l ≫= k) Q p.
Proof. intros Hm Hk. runs_next. by apply runs_store_last. Qed.

Lemma runs_get_msg fuel n msg1 msg2 (k : option (list Z) -> L A) p :
  queued (msg1 ++ msg2) (pr_in p) -> n = Z.of_nat (length msg1) -> 0 < n -> (1 <= fuel)%nat ->
  (forall s, queued msg2 s -> runs (k (Some msg1)) Q (p <| pr_in := s |>)) ->
  runs (get fuel n ≫= k) Q p.
Proof.
  intros Hq Hn Hp Hf Hk. destruct (get_queued fuel n msg1 msg2 (pr_in p) Hq Hn Hp Hf) as (s & Hg & Hs).
  unfold runs in *. rewrite (bind_done _ _ p (Some msg1) (p <| pr_in := s |>)); [by apply Hk|].
  unfold get. rewrite bind_gets, Hg. done.
Qed.

Lemma runs_get_or_idle fuel n (x : A) msg1 msg2 k p :
  queued (msg1 ++ msg2) (pr_in p) -> n = Z.of_nat (length msg1) -> 0 < n -> (1 <= fuel)%nat ->
  (forall s, queued msg2 s -> runs (k msg1) Q (p <| pr_in := s |>)) ->
  runs (get_or_idle fuel n x k) Q p.
Proof. intros Hq Hn Hp Hf Hk. unfold get_or_idle. by apply (runs_get_msg fuel n msg1 msg2). Qed.

Lemma runs_load addr l (k : list Z -> L A) p :
  mem_has (pr_mem p) addr l -> runs (k l) Q p -> runs (load addr (Z.of_nat (length l)) ≫= k) Q p.
Proof.
  intros Hl Hk. unfold runs in *. by rewrite (bind_done _ _ p l p (run_load addr l p Hl)).
Qed.

Lemma runs_put l (k : bool -> L A) p :
  pr_put_ok p = [] -> runs (k true) Q (p <| pr_put_ok := [] |> <| pr_out := pr_out p ++ [l] |>) ->
  runs (put_silent l ≫= k) Q p.
Proof.
  intros Hp Hk. unfold runs in *.
  rewrite (bind_done _ _ p true (p <| pr_put_ok := [] |> <| pr_out := pr_out p ++ [l] |>)); [done|].
  unfold put_silent. rewrite bind_gets, Hp. done.
Qed.

Lemma runs_test addr (k : bool -> L A) p :
  is_Some (pr_mem p !! addr) -> runs (k true) Q p -> runs (_testmemaddr addr ≫= k) Q p.
Proof.
  intros Hm Hk. unfold runs in *. rewrite (bind_done _ _ p true p); [done|].
  unfold _testmemaddr. rewrite bind_gets. by rewrite bool_decide_true.
Qed.
End running.

(** The reply is the last message out. *)
Lemma runs_reply l (Q : unit -> proc -> Prop) p :
  pr_put_ok p = [] -> Q tt (p <| pr_put_ok := [] |> <| pr_out := pr_out p ++ [l] |>) ->
  runs (reply l) Q p.
Proof. intros Hp HQ. unfold reply. apply runs_put; [done|]. cbn [negb when_]. by apply runs_ret. Qed.

(** An event has been queued; the write to the pipe gave [rc]. *)
Record raised (e : ocxl_event) (p p' : proc) : Prop := Raised {
  ra_afu : pr_afu p' = pr_afu p <| oa_events := oa_events (pr_afu p) ++ [e] |>;
  ra_wait : pr_wait_list p' = pr_wait_list p;
  ra_mem : pr_mem p' = pr_mem p;
  ra_in : pr_in p' = pr_in p;
  ra_out : pr_out p' = pr_out p;
  ra_ok : pr_put_ok p' = pr_put_ok p;
}.

Lemma runs_add_event same e (Q : Z -> proc -> Prop) p :
  existsb same (oa_events (pr_afu p)) = false ->
  (length (oa_events (pr_afu p)) < EVENT_QUEUE_MAX)%nat ->
  (forall p', raised e p p' -> Q (hd 1 (pr_pipe p)) p') ->
  runs (add_event same e) Q p.
Proof.
  intros Hs Hl HQ. unfold add_event. apply runs_gets. rewrite Hs.
  replace (EVENT_QUEUE_MAX <=? _)%nat with false by (symmetry; apply Nat.leb_gt; done).
  destruct p as [a wl mem i o ok pipe junk op fr].
  apply (HQ (Proc (a <| oa_events := oa_events a ++ [e] |>) wl mem i o ok (tail pipe) junk op fr)).
  by constructor.
Qed.

(** ** Numbers on the wire *)

Lemma htons_be x : is_u 16 x -> htons (le_val (be_bytes 2 x)) = x.
Proof. intros Hx. unfold htons. rewrite le_val_le_val. by apply (is_u_small 16). Qed.

(** * A turn of the loop *)

(** The application has made no request. *)
Record idle (a : ocxl_afu) : Prop := Idle {
  il_int : oa_int_req a <> LIBOCXL_REQ_REQUEST;
  il_attach : oa_attach a <> LIBOCXL_REQ_REQUEST;
  il_mmio : mq_state (oa_mmio a) <> LIBOCXL_REQ_REQUEST;
  il_mem : eq_state (oa_mem a) <> LIBOCXL_REQ_REQUEST;
}.

Lemma requested_not (f : ocxl_afu -> libocxl_req_state) m p :
  f (pr_afu p) <> LIBOCXL_REQ_REQUEST -> requested f m p = Done tt p.
Proof. intros Hf. unfold requested. rewrite bind_gets. by rewrite bool_decide_false. Qed.

Lemma requested_run (f : ocxl_afu -> libocxl_req_state) m p :
  f (pr_afu p) = LIBOCXL_REQ_REQUEST -> requested f m p = m p.
Proof. intros Hf. unfold requested. rewrite bind_gets. by rewrite bool_decide_true. Qed.

Lemma send_requests_idle p : idle (pr_afu p) -> send_requests p = Done tt p.
Proof.
  intros []. unfold send_requests.
  rewrite (bind_done _ _ p tt p) by (by apply requested_not).
  rewrite (bind_done _ _ p tt p) by (by apply requested_not).
  rewrite (bind_done _ _ p tt p) by (by apply requested_not).
  by apply requested_not.
Qed.

(** The application has asked for an access to registers, or to memory. *)
Lemma send_requests_mmio p :
  idle (pr_afu p <| oa_mmio := oa_mmio (pr_afu p) <| mq_state := LIBOCXL_REQ_IDLE |> |>) ->
  mq_state (oa_mmio (pr_afu p)) = LIBOCXL_REQ_REQUEST ->
  send_requests p = (send_mmio_request;; requested (fun a => eq_state (oa_mem a)) send_mem_request) p.
Proof.
  intros [H1 H2 _ _] Hm. unfold send_requests.
  rewrite (bind_done _ _ p tt p) by (by apply requested_not).
  rewrite (bind_done _ _ p tt p) by (by apply requested_not).
  unfold mbind at 1, ST_bind at 1. by rewrite requested_run.
Qed.

Lemma send_requests_mem p :
  idle (pr_afu p <| oa_mem := oa_mem (pr_afu p) <| eq_state := LIBOCXL_REQ_IDLE |> |>) ->
  eq_state (oa_mem (pr_afu p)) = LIBOCXL_REQ_REQUEST ->
  send_requests p = send_mem_request p.
Proof.
  intros [H1 H2 H3 _] Hm. unfold send_requests.
  rewrite (bind_done _ _ p tt p) by (by apply requested_not).
  rewrite (bind_done _ _ p tt p) by (by apply requested_not).
  rewrite (bind_done _ _ p tt p) by (by apply requested_not).
  by apply requested_run.
Qed.

(** The requests, and then the message that has arrived. *)
Lemma runs_turn fuel op msg (Q : bool -> proc -> Prop) p p1 :
  send_requests p = Done tt p1 -> queued (op :: msg) (pr_in p1) -> (1 <= fuel)%nat ->
  (forall s, queued msg s -> runs (take_message fuel op) Q (p1 <| pr_in := s |>)) ->
  runs (psl_turn fuel) Q p.
Proof.
  intros Hs Hq Hf Hk. unfold psl_turn. runs_next. unfold runs at 1. rewrite Hs.
  apply runs_gets. rewrite (bytes_ready_queued _ _ _ Hq). apply runs_modify.
  change (1 =? 0) with false. change (1 <? 0) with false. cbv iota.
  apply (runs_get_msg Q fuel 1 [op] msg); [done..|]. intros s Hs'.
  apply (runs_lift _ _ op); [done|]. by apply Hk.
Qed.

(** The message has been answered with [l]; [msg] is left. *)
Record replied (p : proc) (mem : gmap Z Z) (l msg : list Z) (p' : proc) : Prop := Replied {
  rp_afu : pr_afu p' = pr_afu p;
  rp_wait : pr_wait_list p' = pr_wait_list p;
  rp_mem : pr_mem p' = mem;
  rp_out : pr_out p' = pr_out p ++ [l];
  rp_in : queued msg (pr_in p');
  rp_ok : pr_put_ok p' = [];
}.

(** * A sample *)

Definition sample_afu : ocxl_afu := OcxlAfu [] 0 [] 0 0 0 0 0 0 0 (MmioArea 0 0x1000 OCXL_GLOBAL_MMIO)
  (MmioArea 0x10000 0x1000 OCXL_PER_PASID_MMIO) 0 2 [] 0 0 0 1 1 1 1 1 0 []
  LIBOCXL_REQ_IDLE 0 LIBOCXL_REQ_IDLE LIBOCXL_REQ_IDLE
  (MmioReq LIBOCXL_REQ_IDLE 0 0 0) (MemReq LIBOCXL_REQ_IDLE 0 0 0 0 MemNull).

(** The application's memory holds [l] from 0x1000 on, and [msg] has arrived. *)
Definition sample_proc (l msg : list Z) : proc :=
  Proc sample_afu [] (put_mem ∅ 0x1000 l) (Stream msg [] false) [] [] [] (fun _ => 0) true false.

Lemma sample_idle : idle sample_afu.
Proof. by constructor. Qed.

Lemma sample_queued l msg : queued msg (pr_in (sample_proc l msg)).
Proof. exists []. by rewrite app_nil_r. Qed.

(** Reads a list off a concrete memory. *)
Ltac mem_has_list :=
  repeat match goal with
  | |- mem_has _ _ (_ :: _) => apply mem_has_cons; split; [vm_compute; reflexivity|]
  | |- mem_has _ _ [] => apply mem_has_nil
  end.

Ltac bytes_list :=
  repeat match goal with
  | |- Forall _ (_ :: _) => apply List.Forall_cons; [split; [discriminate|reflexivity]|]
  | |- Forall _ [] => apply List.Forall_nil
  | |- Forall _ ?x => is_var x; unfold x
  end.
