(* ===== verification/DmoProps.v ===== *)
(** The atomic operations of the AFU on the application's memory: they compute
    what the function code says and store it at the address, and the old value
    goes back in the byte order of the AFU.  The operands are where the address
    says they are - but for operands of four bytes in the third word - and the
    function codes that are called no-operations store uninitialised values. *)
From stdpp Require Import gmap.
From S2P Require Import Prelude Utils Monad LibState Lib Dmo LibLoop MmioRun LibRun.

(** * The abstract operations *)

Definition signed_n (n x : Z) : Z := if x <? 2 ^ (8 * n - 1) then x else x - 2 ^ (8 * n).

(** What is stored over [A] by the function code with operands [v1] and [v2]. *)
Definition amo_new (code n A v1 v2 : Z) : Z :=
  if code =? 0 then (A + v1) mod 2 ^ (8 * n)
  else if code =? 1 then Z.lxor A v1
  else if code =? 2 then Z.lor A v1
  else if code =? 3 then Z.land A v1
  else if code =? 4 then Z.max A v1
  else if code =? 5 then if signed_n n v1 <? signed_n n A then A else v1
  else if code =? 6 then Z.min A v1
  else if code =? 7 then if signed_n n A <? signed_n n v1 then A else v1
  else if code =? 8 then v2
  else if code =? 9 then if A =? v1 then v2 else A
  else if A =? v1 then A else v2.

(** Stores have the first eight function codes, swaps all eleven. *)
Definition amo_legal (amo_op code : Z) : Prop :=
  (amo_op = OCSE_AMO_WR /\ 0 <= code <= 7) \/ (amo_op = OCSE_AMO_RW /\ 0 <= code <= 10).

(** The bytes in the order of the AFU. *)
Definition ordered (endian : Z) (l : list Z) : list Z := if endian =? 0 then l else rev l.

(** The operands among the 16 bytes of data, at the place of the address. *)
Definition data_at (n off : Z) (d : list Z) : list Z := take (Z.to_nat n) (drop (Z.to_nat off) d).

Definition operand1 (endian n addr : Z) (d : list Z) : Z :=
  le_val (ordered endian (data_at n (Z.land addr 0xc) d)).
Definition operand2 (endian n addr : Z) (d : list Z) : Z :=
  le_val (ordered endian (data_at n (Z.lxor (Z.land addr 0xc) 8) d)).

(** An operand of eight bytes is at a multiple of eight; one of four bytes is
    not in the third word. *)
Definition amo_placed (n addr : Z) : Prop :=
  (n = 4 /\ Z.land addr 0xc <> 8) \/ (n = 8 /\ (Z.land addr 0xc = 0 \/ Z.land addr 0xc = 8)).

(** * Bytes *)

Lemma low_le_val l : bytes l -> (4 <= length l)%nat -> low32 (le_val l) = le_val (take 4 l).
Proof.
  intros Hl Hn. unfold low32, u32. rewrite <- (take_drop 4 l) at 1.
  rewrite le_val_app by auto with ocse. rewrite length_take_le by lia. change (8 * Z.of_nat 4) with 32.
  rewrite Z.mod_add by done. apply (is_u_small 32).
  replace 32 with (8 * Z.of_nat (length (take 4 l))) by (rewrite length_take_le by lia; done).
  apply le_val_range; [done|auto with ocse].
Qed.

Lemma high_le_val l : bytes l -> length l = 8%nat -> high32 (le_val l) = le_val (drop 4 l).
Proof.
  intros Hl Hn. unfold high32, u32. rewrite Z.shiftr_div_pow2 by lia.
  rewrite <- (take_drop 4 l) at 1. rewrite le_val_app by auto with ocse.
  rewrite length_take_le by lia. change (8 * Z.of_nat 4) with 32.
  rewrite Z.div_add by done.
  assert (Hlow : is_u 32 (le_val (take 4 l))).
  { replace 32 with (8 * Z.of_nat (length (take 4 l))) by (rewrite length_take_le by lia; done).
    apply le_val_range; [done|auto with ocse]. }
  rewrite (Z.div_small (le_val (take 4 l))) by exact Hlow. cbn [Z.add].
  apply (is_u_small 32).
  replace 32 with (8 * Z.of_nat (length (drop 4 l))) by (rewrite length_drop, Hn; done).
  apply le_val_range; [done|auto with ocse].
Qed.

Lemma swap_le_val n l :
  n = 4 \/ n = 8 -> Z.of_nat (length l) = n -> bytes l -> swap_value n (le_val l) = le_val (rev l).
Proof.
  intros Hn Hl Hb. unfold swap_value. destruct Hn as [-> | ->]; cbn [Z.eqb Pos.eqb].
  - unfold htonl. replace 4%nat with (length l) by lia. by rewrite be_bytes_of_le.
  - rewrite htonll_eq. replace 8%nat with (length l) by lia. by rewrite be_bytes_of_le.
Qed.

(** * The operands *)

Lemma word_of_line addr :
  Z.land addr 0xc = 0 \/ Z.land addr 0xc = 4 \/ Z.land addr 0xc = 8 \/ Z.land addr 0xc = 12.
Proof.
  assert (H0 : 0 <= Z.land addr 0xc < 16).
  { split; [apply Z.land_nonneg; lia|]. change 0xc with (Z.land 0xc 15).
    rewrite Z.land_assoc. change 15 with (Z.ones 4). rewrite Z.land_ones by lia. apply Z.mod_pos_bound. done. }
  assert (Hm : Z.land addr 0xc mod 4 = 0).
  { change 4 with (2 ^ 2). rewrite <- Z.land_ones by lia. rewrite <- Z.land_assoc. apply Z.land_0_r. }
  pose proof (Z.div_mod (Z.land addr 0xc) 4 ltac:(done)). lia.
Qed.

(** The variables of the operation's width. *)
Definition of_width (n : Z) (sl : amo_ops * amo_ops) : amo_ops := if n =? 4 then sl.1 else sl.2.

Lemma take_operands_placed amo_op n addr d s l :
  amo_op <> OCSE_AMO_RD -> amo_placed n addr -> length d = 16%nat -> bytes d ->
  exists sl, take_operands amo_op n (Z.land addr 0xc) (le_val (take 8 d)) (le_val (drop 8 d)) s l = Some sl /\
    am_1 (of_width n sl) = le_val (data_at n (Z.land addr 0xc) d) /\
    am_2 (of_width n sl) = le_val (data_at n (Z.lxor (Z.land addr 0xc) 8) d).
Proof.
  intros Hop Hp Hd Hb. do 16 (destruct d as [|? d]; [done|]). destruct d; [|done].
  assert (Hl : forall i j, Forall (is_u 8) (take i (drop j [z; z0; z1; z2; z3; z4; z5; z6; z7; z8; z9; z10; z11; z12; z13; z14])))
    by auto with ocse.
  pose proof (Hl 8%nat 0%nat) as Hl1. pose proof (Hl 8%nat 8%nat) as Hl2. cbn [take drop] in Hl1, Hl2.
  unfold take_operands, data_at, of_width. apply Z.eqb_neq in Hop. rewrite Hop.
  destruct Hp as [[-> Hw]|[-> Hw]].
  - destruct (word_of_line addr) as [-> | [-> | [E | ->]]]; [..|lia|];
      cbn [Z.eqb Pos.eqb andb negb]; (eexists; split; [reflexivity|]);
      cbn [fst am_1 am_2 set_am_1 set_am_2 set_fld drop take Z.to_nat Z.lxor Pos.to_nat Pos.iter_op Nat.add Pos.lxor];
      rewrite ?low_le_val, ?high_le_val by (done || cbn; lia); done.
  - destruct Hw as [-> | ->]; cbn [Z.eqb Pos.eqb andb negb]; (eexists; split; [reflexivity|]); done.
Qed.

(** * The operation *)

Lemma sign_extend_id n x : n = 4 \/ n = 8 -> is_u (8 * n) x -> extend n x = x.
Proof.
  assert (H : forall w m k, 0 < w -> is_u w x -> m = 2 ^ (w - 1) -> k = Z.ones (w - 1) ->
    (if truthy (Z.land x m) then Z.lor x m else Z.land x k) = x).
  { intros w m k Hw Hx -> ->. destruct (Z.testbit x (w - 1)) eqn:Hb.
    - replace (truthy (Z.land x (2 ^ (w - 1)))) with true.
      + apply Z.bits_inj'. intros i Hi. rewrite Z.lor_spec, Z.pow2_bits_eqb by lia.
        destruct (Z.eqb_spec (w - 1) i) as [<-|]; [by rewrite Hb|by rewrite orb_false_r].
      + symmetry. unfold truthy. apply negb_true_iff, Z.eqb_neq. intros E.
        apply (f_equal (fun y => Z.testbit y (w - 1))) in E.
        rewrite Z.land_spec, Hb, Z.pow2_bits_true, Z.bits_0 in E by lia. done.
    - replace (truthy (Z.land x (2 ^ (w - 1)))) with false.
      + rewrite Z.land_ones by lia. apply Z.mod_small. destruct Hx as [H0 Hlt]. split; [done|].
        destruct (Z.lt_ge_cases x (2 ^ (w - 1))) as [|Hge]; [done|exfalso].
        apply Z.testbit_false in Hb; [|lia].
        replace w with (Z.succ (w - 1)) in Hlt by lia. rewrite Z.pow_succ_r in Hlt by lia.
        replace (x / 2 ^ (w - 1)) with 1 in Hb; [done|].
        assert (0 < 2 ^ (w - 1)) by (apply Z.pow_pos_nonneg; lia).
        apply Z.div_unique with (x - 2 ^ (w - 1)); lia.
      + symmetry. unfold truthy. apply negb_false_iff, Z.eqb_eq. apply Z.bits_inj'. intros i Hi.
        rewrite Z.land_spec, Z.pow2_bits_eqb, Z.bits_0 by lia.
        destruct (Z.eqb_spec (w - 1) i) as [<-|]; [by rewrite Hb|by rewrite andb_false_r]. }
  intros [-> | ->] Hx; [by apply (H 32)|by apply (H 64)].
Qed.

Lemma signed_is n x : n = 4 \/ n = 8 -> is_u (8 * n) x -> signed n x = signed_n n x.
Proof.
  intros [-> | ->] [Hx1 Hx2]; unfold signed, signed_n, i32, i64; cbn [Z.eqb Pos.eqb].
  - change (2 ^ (8 * 4)) with 4294967296 in *. change (2 ^ (8 * 4 - 1)) with 2147483648.
    change (2 ^ 31) with 2147483648. change (2 ^ 32) with 4294967296.
    destruct (Z.ltb_spec x 2147483648); [rewrite Z.mod_small by lia; lia|].
    rewrite <- (Z.mod_unique_pos (x + 2147483648) 4294967296 1 (x - 2147483648)) by lia. lia.
  - change (2 ^ (8 * 8)) with 18446744073709551616 in *. change (2 ^ (8 * 8 - 1)) with 9223372036854775808.
    change (2 ^ 63) with 9223372036854775808. change (2 ^ 64) with 18446744073709551616.
    destruct (Z.ltb_spec x 9223372036854775808); [rewrite Z.mod_small by lia; lia|].
    rewrite <- (Z.mod_unique_pos (x + 9223372036854775808) 18446744073709551616 1 (x - 9223372036854775808)) by lia. lia.
Qed.

Lemma amo_operation_new amo_op code n addr A32 r p :
  amo_legal amo_op code -> n = 4 \/ n = 8 -> is_u (8 * n) (am_A r) -> is_u (8 * n) (am_1 r) ->
  exists r', amo_operation amo_op code n addr A32 r p =
      Done (r', if amo_op =? OCSE_AMO_WR then 0 else wb_value n) p /\
    am_A r' = am_A r /\ am_1 r' = amo_new code n (am_A r) (am_1 r) (am_2 r).
Proof.
  intros Hl Hn HA H1.
  assert (Hx : extended n r = r).
  { unfold extended. destruct r. cbn. by rewrite !sign_extend_id. }
  assert (Hc : 0 <= code <= 7 \/ (amo_op = OCSE_AMO_RW /\ 8 <= code <= 10)).
  { destruct Hl as [[_ Hc]|[-> Hc]]; [by left|]. destruct (Z.le_gt_cases code 7); [left|right]; lia. }
  assert (Hw : (amo_op =? OCSE_AMO_WR) = (amo_op =? OCSE_AMO_WR)) by done.
  destruct Hc as [Hc|[-> Hc]].
  - assert (Hcs : code = 0 \/ code = 1 \/ code = 2 \/ code = 3 \/ code = 4 \/ code = 5 \/ code = 6 \/ code = 7) by lia.
    repeat (destruct Hcs as [-> | Hcs]); [..|subst code];
      unfold amo_operation, amo_new; cbn [Z.eqb Pos.eqb AMO_WRMWF_ADD]; cbv zeta; rewrite ?Hx, ?signed_is by done;
      (eexists; split; [reflexivity|]); clear Hx;
      destruct r as [A v1 v2]; cbn in HA, H1 |- *; unfold wrap, bits; split; try done;
      try (by case_match); repeat case_match; cbn in *;
      rewrite ?Z.ltb_lt, ?Z.ltb_ge in *; try (f_equal; lia); try lia;
      by first [apply Z.lxor_comm|apply Z.lor_comm|apply Z.land_comm].
  - assert (Hcs : code = 8 \/ code = 9 \/ code = 10) by lia.
    repeat (destruct Hcs as [-> | Hcs]); [..|subst code]; (eexists; split; [reflexivity|]);
      destruct r as [A v1 v2]; cbn; split; try done; unfold amo_new; cbn; by destruct (A =? v1).
Qed.

(** * The whole *)

Lemma run_operand n addr old p :
  mem_has (pr_mem p) addr old -> Z.of_nat (length old) = n -> operand n addr p = Done (le_val old) p.
Proof.
  intros Hm <-. unfold operand. by rewrite (bind_done _ _ p old p (run_load addr old p Hm)).
Qed.

(** The operands of the width, in the order of the host. *)
Definition loaded (endian n A x y : Z) : amo_ops :=
  AmoOps A (if endian =? 0 then x else swap_value n x) (if endian =? 0 then y else swap_value n y).

Lemma run_load_value endian n addr s l old p :
  n = 4 \/ n = 8 -> mem_has (pr_mem p) addr old -> Z.of_nat (length old) = n ->
  exists sl, load_value n addr (endian =? 0) s l p = Done sl p /\
    of_width n sl = loaded endian n (le_val old) (am_1 (of_width n (s, l))) (am_2 (of_width n (s, l))).
Proof.
  intros Hn Hm Hl. pose proof (run_operand n addr old p Hm Hl) as Ho.
  unfold load_value, of_width, loaded, swap_operands, swap_value in *.
  destruct Hn as [-> | ->]; cbn [Z.eqb Pos.eqb] in *;
    rewrite (bind_done _ _ p _ p Ho); (eexists; split; [reflexivity|]);
    by destruct (endian =? 0), s, l.
Qed.

(** The reply with the old value. *)
Definition amo_reply (amo_op endian : Z) (old : list Z) : list Z :=
  OCSE_MEM_SUCCESS :: if amo_op =? OCSE_AMO_WR then [] else ordered endian old.

Lemma run_answer_amo amo_op endian n old r (Q : unit -> proc -> Prop) p :
  n = 4 \/ n = 8 -> Z.of_nat (length old) = n -> bytes old -> am_A r = le_val old ->
  pr_put_ok p = [] ->
  Q tt (p <| pr_put_ok := [] |> <| pr_out := pr_out p ++ [amo_reply amo_op endian old] |>) ->
  runs (answer_amo n (if amo_op =? OCSE_AMO_WR then 0 else wb_value n) (endian =? 0) r) Q p.
Proof.
  intros Hn Hl Hb HA Hp HQ. unfold answer_amo, amo_reply in *.
  destruct (amo_op =? OCSE_AMO_WR); [by apply runs_reply|].
  assert (Hw : wb_value n = 1 \/ wb_value n = 2) by (destruct Hn as [-> | ->]; auto).
  replace (wb_value n =? 0) with false by (symmetry; apply Z.eqb_neq; lia).
  replace ((wb_value n =? 1) || (wb_value n =? 2)) with true
    by (symmetry; rewrite orb_true_iff, !Z.eqb_eq; lia).
  replace (take _ _) with (ordered endian old); [by apply runs_reply|].
  rewrite take_le_bytes by lia. unfold ordered. destruct (endian =? 0).
  - rewrite HA, <- Hl, Nat2Z.id. symmetry. by apply le_bytes_of_le.
  - rewrite HA, swap_le_val by done. rewrite <- Hl, Nat2Z.id, <- length_rev. symmetry.
    apply le_bytes_of_le. by apply Forall_rev.
Qed.

Lemma run_store_result code n addr (Q : unit -> proc -> Prop) (k : unit -> L unit) r p :
  n = 4 \/ n = 8 -> code <> AMO_W_CAS_T -> mapped (pr_mem p) addr (Z.to_nat n) ->
  runs (k tt) Q (p <| pr_mem := put_mem (pr_mem p) addr (le_bytes (Z.to_nat n) (am_1 r)) |>) ->
  runs (store_result code n addr r ≫= k) Q p.
Proof.
  intros Hn Hc Hm Hk. unfold store_result. apply Z.eqb_neq in Hc. rewrite Hc. cbn [when_].
  assert (Hn8 : (Z.to_nat n <= 8)%nat) by lia.
  runs_next. apply runs_store; rewrite take_le_bytes by done; [|by apply runs_ret].
  unfold le_bytes. by rewrite length_rev, length_be_bytes.
Qed.

Lemma amo_placed_fits n addr :
  amo_placed n addr -> 0 <= Z.land addr 0xc <= 16 - n /\ 0 <= Z.lxor (Z.land addr 0xc) 8 <= 16 - n.
Proof.
  intros [[-> ?]|[-> [-> | ->]]]; [|done..].
  by destruct (word_of_line addr) as [-> | [-> | [-> | ->]]].
Qed.

Lemma data_at_spec n off d :
  0 <= n -> 0 <= off <= 16 - n -> length d = 16%nat -> bytes d ->
  Z.of_nat (length (data_at n off d)) = n /\ bytes (data_at n off d).
Proof.
  intros Hn Ho Hd Hb. unfold data_at. split; [rewrite length_take, length_drop; lia|auto with ocse].
Qed.

Lemma ordered_range endian n l :
  Z.of_nat (length l) = n -> bytes l -> is_u (8 * n) (le_val (ordered endian l)).
Proof.
  intros <- Hl. unfold ordered. destruct (endian =? 0); [by apply le_val_range|].
  rewrite <- length_rev. apply le_val_range; [done|by apply Forall_rev].
Qed.

Lemma loaded_operands endian n A addr d :
  n = 4 \/ n = 8 -> amo_placed n addr -> length d = 16%nat -> bytes d ->
  loaded endian n A (le_val (data_at n (Z.land addr 0xc) d)) (le_val (data_at n (Z.lxor (Z.land addr 0xc) 8) d))
  = AmoOps A (operand1 endian n addr d) (operand2 endian n addr d) /\
  is_u (8 * n) (operand1 endian n addr d).
Proof.
  intros Hn Hp Hd Hb. destruct (amo_placed_fits n addr Hp) as [H1 H2].
  destruct (data_at_spec n _ d ltac:(lia) H1 Hd Hb) as [L1 B1].
  destruct (data_at_spec n _ d ltac:(lia) H2 Hd Hb) as [L2 B2].
  split; [|by apply ordered_range].
  unfold loaded, operand1, operand2, ordered. destruct (endian =? 0); [done|].
  by rewrite !swap_le_val.
Qed.

Lemma amo_handled amo_op code endian n addr d old p (Q : unit -> proc -> Prop) :
  amo_legal amo_op code -> amo_placed n addr -> length d = 16%nat -> bytes d ->
  mem_has (pr_mem p) addr old -> Z.of_nat (length old) = n -> bytes old -> pr_put_ok p = [] ->
  Q tt (p <| pr_mem := put_mem (pr_mem p) addr (le_bytes (Z.to_nat n)
            (amo_new code n (le_val old) (operand1 endian n addr d) (operand2 endian n addr d))) |>
          <| pr_put_ok := [] |> <| pr_out := pr_out p ++ [amo_reply amo_op endian old] |>) ->
  runs (_handle_DMO_OPs amo_op n addr code (le_val (take 8 d)) (le_val (drop 8 d)) endian) Q p.
Proof.
  intros Hleg Hpl Hd Hb Hm Hl Hob Hp HQ. unfold _handle_DMO_OPs.
  assert (Hn : n = 4 \/ n = 8) by (destruct Hpl as [[-> _]|[-> _]]; auto).
  assert (Hrd : amo_op <> OCSE_AMO_RD /\ code <> AMO_W_CAS_T)
    by (unfold AMO_W_CAS_T; destruct Hleg as [[-> ?]|[-> ?]]; (split; [done|lia])).
  destruct Hrd as [Hrd Hcode].
  apply runs_test; [rewrite <- (Z.add_0_r addr); apply (has_mapped _ _ _ Hm 0%nat); lia|]. cbn [negb].
  apply runs_gets. destruct (stack_ops (pr_junk p)) as [s l].
  destruct (take_operands_placed amo_op n addr d s l Hrd Hpl Hd Hb) as ([s1 l1] & -> & H1 & H2).
  cbv zeta. runs_next. unfold runs at 1.
  destruct (run_load_value endian n addr s1 l1 old p Hn Hm Hl) as ([s2 l2] & -> & Hw).
  rewrite H1, H2 in Hw. destruct (loaded_operands endian n (le_val old) addr d Hn Hpl Hd Hb) as [He Hr].
  rewrite He in Hw. clear H1 H2 He. cbv beta iota.
  change (if n =? 4 then s2 else l2) with (of_width n (s2, l2)). rewrite Hw.
  runs_next. unfold runs at 1.
  destruct (amo_operation_new amo_op code n addr (am_A s2)
    (AmoOps (le_val old) (operand1 endian n addr d) (operand2 endian n addr d)) p Hleg Hn) as (r & -> & HA & Hnew);
    [subst n; apply (ordered_range 0 _ old eq_refl Hob)|exact Hr|].
  cbn [am_A am_1 am_2] in HA, Hnew. cbv beta iota.
  replace (negb (_ =? 0xf)) with true by (destruct (amo_op =? _), Hn as [-> | ->]; done). cbn [when_].
  apply run_store_result; [done|done|subst n; rewrite Nat2Z.id; exact (has_mapped _ _ _ Hm)|].
  rewrite Hnew. by apply (run_answer_amo amo_op endian n old).
Qed.

(** ** A turn of the thread *)

Definition amo_message (amo_op n addr code endian : Z) (d : list Z) : list Z :=
  [amo_op; n] ++ be_bytes 8 addr ++ [code; endian] ++ d.

Lemma le_val_1 b : le_val [b] = b.
Proof. reflexivity. Qed.

Lemma runs_get_addr fuel msg addr (k : Z -> L unit) Q p :
  is_u 64 addr -> queued (be_bytes 8 addr ++ msg) (pr_in p) -> (1 <= fuel)%nat ->
  (forall s, queued msg s -> runs (k addr) Q (p <| pr_in := s |>)) -> runs (get_addr fuel k) Q p.
Proof.
  intros Ha Hq Hf Hk. apply (runs_get_or_idle Q fuel 8 tt (be_bytes 8 addr) msg); [done|by rewrite length_be_bytes|done|done|].
  intros s Hs. rewrite ntohll_be by done. by apply Hk.
Qed.

Lemma runs_amo_data fuel amo_op n addr code endian d msg p (Q : unit -> proc -> Prop) :
  is_u 64 addr -> length d = 16%nat -> (1 <= fuel)%nat ->
  queued ([n] ++ be_bytes 8 addr ++ [code; endian] ++ d ++ msg) (pr_in p) ->
  (forall s, queued msg s ->
    runs (_handle_DMO_OPs amo_op n addr code (le_val (take 8 d)) (le_val (drop 8 d)) endian) Q (p <| pr_in := s |>)) ->
  runs (msg_amo_data fuel amo_op) Q p.
Proof.
  intros Ha Hd Hf Hq Hk. unfold msg_amo_data, get_op_size.
  apply (runs_get_or_idle Q fuel 1 tt [n] (be_bytes 8 addr ++ [code; endian] ++ d ++ msg)); [done..|]. intros s1 Hs1.
  apply (runs_get_addr fuel ([code; endian] ++ d ++ msg) addr); [done..|]. intros s2 Hs2.
  apply (runs_get_or_idle Q fuel 18 tt ([code; endian] ++ d) msg);
    [by rewrite <- app_assoc|rewrite length_app, Hd; done|done|done|]. intros s Hs.
  unfold field. cbn [app drop take hd]. rewrite !le_val_1.
  replace (take 8 (drop 8 d)) with (drop 8 d) by (symmetry; apply take_ge; rewrite length_drop; lia).
  specialize (Hk s Hs). by destruct p.
Qed.

(** What an atomic operation leaves behind. *)
Definition amo_stored (amo_op code endian n addr : Z) (d old : list Z) (p : proc) (msg : list Z) : proc -> Prop :=
  replied p (put_mem (pr_mem p) addr (le_bytes (Z.to_nat n)
     (amo_new code n (le_val old) (operand1 endian n addr d) (operand2 endian n addr d))))
    (amo_reply amo_op endian old) msg.

Lemma amo_turn fuel amo_op code endian n addr d old msg p :
  idle (pr_afu p) -> pr_put_ok p = [] -> (1 <= fuel)%nat ->
  queued (amo_message amo_op n addr code endian d ++ msg) (pr_in p) ->
  amo_legal amo_op code -> amo_placed n addr -> is_u 64 addr -> length d = 16%nat -> bytes d ->
  mem_has (pr_mem p) addr old -> Z.of_nat (length old) = n -> bytes old ->
  runs (psl_turn fuel) (fun go p' => go = true /\ amo_stored amo_op code endian n addr d old p msg p') p.
Proof.
  intros Hi Hp Hf Hq Hleg Hpl Ha Hd Hb Hm Hl Hob. unfold amo_message in Hq.
  rewrite <- !app_assoc in Hq. cbn [app] in Hq.
  apply (runs_turn fuel amo_op _ _ p p (send_requests_idle p Hi) Hq Hf). intros s Hs.
  assert (Ht : take_message fuel amo_op = (msg_amo_data fuel amo_op;; mret true))
    by (destruct Hleg as [[-> _]|[-> _]]; done).
  rewrite Ht. runs_next.
  apply (runs_amo_data fuel amo_op n addr code endian d msg); [done..|]. intros s' Hs'.
  apply (amo_handled amo_op code endian n addr d old); [done..|].
  apply runs_ret. split; [done|]. by constructor.
Qed.

(** C19: an atomic store or swap of the AFU - any of the eight and eleven function
    codes, in either byte order, of eight bytes at a multiple of eight or of four
    bytes at any word but the third of sixteen bytes, where the code and its
    comment do not agree on which operand is which - is done in one turn of the
    library's thread: the memory at its address holds the result of the
    operation on the old value and the operands at the address's place in the
    data, the rest of the memory is as it was, and the server is sent one reply:
    success, and for a swap the old value in the byte order of the AFU. *)
Theorem atomic_operation_done fuel amo_op code endian n addr d old msg p :
  idle (pr_afu p) -> pr_put_ok p = [] -> (1 <= fuel)%nat ->
  queued (amo_message amo_op n addr code endian d ++ msg) (pr_in p) ->
  amo_legal amo_op code -> amo_placed n addr -> is_u 64 addr -> length d = 16%nat -> bytes d ->
  mem_has (pr_mem p) addr old -> Z.of_nat (length old) = n -> bytes old ->
  runs (psl_turn fuel) (fun go p' => go = true /\
    mem_has (pr_mem p') addr (le_bytes (Z.to_nat n)
      (amo_new code n (le_val old) (operand1 endian n addr d) (operand2 endian n addr d))) /\
    (forall a, ~ addr <= a < addr + n -> pr_mem p' !! a = pr_mem p !! a) /\
    pr_out p' = pr_out p ++ [OCSE_MEM_SUCCESS :: if amo_op =? OCSE_AMO_WR then [] else ordered endian old] /\
    queued msg (pr_in p') /\ pr_afu p' = pr_afu p) p.
Proof.
  intros Hi Hp Hf Hq Hleg Hpl Ha Hd Hb Hm Hl Hob.
  eapply runs_mono; [by apply (amo_turn fuel amo_op code endian n addr d old msg)|].
  intros go p' [Hgo [Ha' _ Hmem Ho Hin _]]. split_and!; try done; rewrite Hmem; [apply put_mem_has|].
  intros a Hne. rewrite put_mem_lookup. unfold le_bytes. rewrite length_rev, length_be_bytes.
  replace (_ && _) with false; [done|]. symmetry. apply andb_false_iff. rewrite Z.leb_gt, Z.ltb_ge. lia.
Qed.

Lemma atomic_operation_done_witness :
  let d := [0; 0; 0; 0; 5; 0; 0; 0; 0; 0; 0; 0; 0; 0; 0; 0] in
  let p := sample_proc [0; 0; 0; 0; 7; 0; 0; 0] (amo_message OCSE_AMO_RW 4 0x1004 0 0 d ++ []) in
  runs (psl_turn 1) (fun go p' => go = true /\
    mem_has (pr_mem p') 0x1004 [12; 0; 0; 0] /\
    (forall a, ~ 0x1004 <= a < 0x1004 + 4 -> pr_mem p' !! a = pr_mem p !! a) /\
    pr_out p' = [] ++ [[OCSE_MEM_SUCCESS; 7; 0; 0; 0]] /\ queued [] (pr_in p') /\ pr_afu p' = pr_afu p) p.
Proof.
  intros d p.
  assert (Hm : mem_has (pr_mem p) 0x1004 [7; 0; 0; 0]) by mem_has_list.
  assert (Hd : bytes d /\ bytes [7; 0; 0; 0]) by (split; bytes_list).
  assert (Hleg : amo_legal OCSE_AMO_RW 0) by (right; split; [reflexivity|split; discriminate]).
  assert (Hpl : amo_placed 4 0x1004) by (left; split; [reflexivity|discriminate]).
  assert (Ha : is_u 64 0x1004) by (split; [discriminate|reflexivity]).
  exact (atomic_operation_done 1 OCSE_AMO_RW 0 0 4 0x1004 d [7; 0; 0; 0] [] p
    sample_idle eq_refl (le_n 1) (sample_queued _ _) Hleg Hpl Ha eq_refl (proj1 Hd) Hm eq_refl (proj2 Hd)).
Defined.

(** * Bounded counters *)

Definition amo_rd_message (n addr code endian : Z) : list Z :=
  [OCSE_AMO_RD; n] ++ be_bytes 8 addr ++ [code; endian].

(** The width is that of an operand, at an address that allows it. *)
Definition counter_placed (n addr : Z) : Prop :=
  n = 4 \/ (n = 8 /\ (Z.land addr 0xc = 0 \/ Z.land addr 0xc = 8)).

Lemma counter_width n addr : counter_placed n addr -> n = 4 \/ n = 8.
Proof. intros [-> | [-> _]]; auto. Qed.

Lemma take_operands_rd n addr op1 op2 s l :
  counter_placed n addr -> take_operands OCSE_AMO_RD n (Z.land addr 0xc) op1 op2 s l = Some (s, l).
Proof.
  intros Hp. unfold take_operands. destruct Hp as [-> | [-> [-> | ->]]]; [|done..].
  by destruct (word_of_line addr) as [-> | [-> | [-> | ->]]].
Qed.

(** The read is taken off the stream and handled. *)
Lemma runs_amo_rd fuel n addr code endian msg p (Q : bool -> proc -> Prop) :
  idle (pr_afu p) -> is_u 64 addr -> (1 <= fuel)%nat ->
  queued (amo_rd_message n addr code endian ++ msg) (pr_in p) ->
  (forall s, queued msg s ->
    runs (_handle_DMO_OPs OCSE_AMO_RD n addr code 0 0 endian) (fun _ => Q true) (p <| pr_in := s |>)) ->
  runs (psl_turn fuel) Q p.
Proof.
  intros Hi Ha Hf Hq Hk. unfold amo_rd_message in Hq. rewrite <- !app_assoc in Hq. cbn [app] in Hq.
  apply (runs_turn fuel OCSE_AMO_RD _ _ p p (send_requests_idle p Hi) Hq Hf). intros s1 Hs1.
  change (take_message fuel OCSE_AMO_RD) with (msg_amo_rd fuel;; mret true). runs_next.
  unfold msg_amo_rd, get_op_size.
  apply (runs_get_or_idle _ fuel 1 tt [n] (be_bytes 8 addr ++ [code; endian] ++ msg)); [done..|]. intros s2 Hs2.
  apply (runs_get_addr fuel ([code; endian] ++ msg) addr); [done..|]. intros s3 Hs3.
  apply (runs_get_or_idle _ fuel 2 tt [code; endian] msg); [done..|]. intros s Hs.
  unfold field. cbn [app drop take hd]. rewrite !le_val_1. exact (Hk s Hs).
Qed.

(** Which counter goes on: it has not reached the bound, or it equals it. *)
Definition counts (code A B : Z) : bool :=
  if code =? AMO_ARMWF_INC_E then A =? B else negb (A =? B).

Definition counted (code n A B : Z) : Z :=
  if counts code A B then (if code =? AMO_ARMWF_INC_E then A + 1 else A - 1) mod 2 ^ (8 * n) else A.

(** The counters that work: down to a bound, and up while equal for four bytes. *)
Definition counter_legal (code n : Z) : Prop :=
  code = AMO_ARMWF_DEC_B \/ (code = AMO_ARMWF_INC_E /\ n = 4).

Definition bound_at (code n addr : Z) : Z := if code =? AMO_ARMWF_INC_E then addr + n else addr - n.

Definition counter_answer (code n A B : Z) : Z := if counts code A B then A else 2 ^ (8 * n - 1).

Lemma amo_operation_counts code n addr A32 r bound p :
  counter_legal code n -> n = 4 \/ n = 8 -> mem_has (pr_mem p) (bound_at code n addr) bound ->
  Z.of_nat (length bound) = n ->
  exists r', amo_operation OCSE_AMO_RD code n addr A32 r p = Done (r', wb_value n) p /\
    am_A r' = counter_answer code n (am_A r) (le_val bound) /\
    am_1 r' = counted code n (am_A r) (le_val bound).
Proof.
  intros Hc Hn Hm Hl. pose proof (run_operand n _ bound p Hm Hl) as Ho.
  unfold counter_answer, counted, counts, bound_at in *.
  assert (Hmin : min_int n = 2 ^ (8 * n - 1)) by (destruct Hn as [-> | ->]; done).
  destruct Hc as [-> | [-> ->]]; cbn [AMO_ARMWF_DEC_B AMO_ARMWF_INC_E Z.eqb Pos.eqb] in *.
  - change (amo_operation OCSE_AMO_RD AMO_ARMWF_DEC_B n addr A32 r p) with
      ((x ← operand n (addr - n);
        mret (if negb (am_A r =? x) then r <| am_1 := wrap n (am_A r - 1) |>
              else r <| am_1 := am_A r |> <| am_A := min_int n |>, wb_value n) : L (amo_ops * Z)) p).
    unfold mbind, ST_bind. rewrite Ho, Hmin. clear. destruct r as [A v1 v2]. cbn [am_A].
    eexists. split; [reflexivity|]. by destruct (negb (A =? le_val bound)).
  - change (amo_operation OCSE_AMO_RD AMO_ARMWF_INC_E 4 addr A32 r p) with
      ((x ← operand 4 (addr + 4);
        mret (if am_A r =? x then r <| am_1 := u32 (am_A r + 1) |>
              else r <| am_1 := am_A r |> <| am_A := min_int 4 |>, wb_value 4) : L (amo_ops * Z)) p).
    unfold mbind, ST_bind. rewrite Ho, Hmin. clear. destruct r as [A v1 v2]. cbn [am_A].
    eexists. split; [reflexivity|]. by destruct (A =? le_val bound).
Qed.

(** The part of the handler all atomic reads share. *)
Lemma amo_rd_handled code endian n addr old p (Q : unit -> proc -> Prop) :
  counter_placed n addr -> mem_has (pr_mem p) addr old -> Z.of_nat (length old) = n ->
  (forall A32 r, am_A r = le_val old ->
    (endian = 0 -> am_2 r = am_2 (of_width n (stack_ops (pr_junk p)))) ->
    runs ('(r, wb) ← amo_operation OCSE_AMO_RD code n addr A32 r;
          when_ (negb (wb =? 0xf)) (store_result code n addr r);;
          answer_amo n wb (endian =? 0) r) Q p) ->
  runs (_handle_DMO_OPs OCSE_AMO_RD n addr code 0 0 endian) Q p.
Proof.
  intros Hpl Hm Hl Hk. pose proof (counter_width n addr Hpl) as Hn. unfold _handle_DMO_OPs.
  apply runs_test; [rewrite <- (Z.add_0_r addr); apply (has_mapped _ _ _ Hm 0%nat); lia|]. cbn [negb].
  apply runs_gets. destruct (stack_ops (pr_junk p)) as [s l]. rewrite take_operands_rd by done.
  cbv zeta. runs_next. unfold runs at 1.
  destruct (run_load_value endian n addr s l old p Hn Hm Hl) as ([s2 l2] & -> & Hw). cbv beta iota.
  change (if n =? 4 then s2 else l2) with (of_width n (s2, l2)). apply Hk; rewrite Hw; [done|].
  by intros ->.
Qed.

(** The reply with a value of [n] bytes. *)
Lemma run_answer_value endian n x r (Q : unit -> proc -> Prop) p :
  n = 4 \/ n = 8 -> is_u (8 * n) x -> am_A r = x -> pr_put_ok p = [] ->
  Q tt (p <| pr_put_ok := [] |> <| pr_out := pr_out p ++
    [OCSE_MEM_SUCCESS :: ordered endian (le_bytes (Z.to_nat n) x)] |>) ->
  runs (answer_amo n (wb_value n) (endian =? 0) r) Q p.
Proof.
  intros Hn Hx HA Hp HQ.
  apply (run_answer_amo OCSE_AMO_RD endian n (le_bytes (Z.to_nat n) x)); [done| |apply le_bytes_bytes| |done|done].
  - rewrite length_le_bytes. lia.
  - rewrite le_val_bytes, HA. symmetry. replace (8 * Z.of_nat (Z.to_nat n)) with (8 * n) by lia. by apply is_u_small.
Qed.

(** a bounded counter - decrement to a bound, or increment while equal - moves
    by one and answers the old value when the bound allows it; otherwise it stays
    and the answer is the least integer. *)
Theorem bounded_counter fuel code endian n addr old bound msg p :
  idle (pr_afu p) -> pr_put_ok p = [] -> (1 <= fuel)%nat ->
  queued (amo_rd_message n addr code endian ++ msg) (pr_in p) ->
  counter_legal code n -> counter_placed n addr -> is_u 64 addr ->
  mem_has (pr_mem p) addr old -> Z.of_nat (length old) = n -> bytes old ->
  mem_has (pr_mem p) (bound_at code n addr) bound -> Z.of_nat (length bound) = n ->
  runs (psl_turn fuel) (fun go p' => go = true /\
    replied p (put_mem (pr_mem p) addr (le_bytes (Z.to_nat n) (counted code n (le_val old) (le_val bound))))
      (OCSE_MEM_SUCCESS :: ordered endian (le_bytes (Z.to_nat n) (counter_answer code n (le_val old) (le_val bound))))
      msg p') p.
Proof.
  intros Hi Hp Hf Hq Hc Hpl Ha Hm Hl Hob Hmb Hlb. pose proof (counter_width n addr Hpl) as Hn.
  apply (runs_amo_rd fuel n addr code endian msg); [done..|]. intros s Hs.
  set (p1 := p <| pr_in := s |>). apply (amo_rd_handled code endian n addr old p1); [done..|].
  intros A32 r HA _. runs_next. unfold runs at 1.
  destruct (amo_operation_counts code n addr A32 r bound p1 Hc Hn Hmb Hlb) as (r' & -> & HA' & H1).
  cbv beta iota. rewrite HA in HA', H1.
  replace (negb (wb_value n =? 0xf)) with true by (destruct Hn as [-> | ->]; done). cbn [when_].
  apply run_store_result;
    [done|destruct Hc as [-> | [-> _]]; done|subst n; rewrite Nat2Z.id; exact (has_mapped _ _ _ Hm)|].
  rewrite H1. apply (run_answer_value endian n (counter_answer code n (le_val old) (le_val bound))); [done| |done|done|].
  - unfold counter_answer. destruct (counts _ _ _); [subst n; by apply le_val_range|].
    destruct Hn as [-> | ->]; done.
  - split; [done|]. by constructor.
Qed.

Lemma bounded_counter_witness :
  let p := sample_proc [3; 0; 0; 0; 0; 1; 0; 0] (amo_rd_message 4 0x1004 AMO_ARMWF_DEC_B 0 ++ []) in
  runs (psl_turn 1) (fun go p' => go = true /\
    replied p (put_mem (pr_mem p) 0x1004 [255; 0; 0; 0]) [OCSE_MEM_SUCCESS; 0; 1; 0; 0] [] p') p.
Proof.
  intros p.
  assert (Hm : mem_has (pr_mem p) 0x1004 [0; 1; 0; 0]) by mem_has_list.
  assert (Hb : mem_has (pr_mem p) 0x1000 [3; 0; 0; 0]) by mem_has_list.
  assert (Ho : bytes [0; 1; 0; 0]) by bytes_list.
  assert (Ha : is_u 64 0x1004) by (split; [discriminate|reflexivity]).
  exact (bounded_counter 1 AMO_ARMWF_DEC_B 0 4 0x1004 [0; 1; 0; 0] [3; 0; 0; 0] [] p
    sample_idle eq_refl (le_n 1) (sample_queued _ _) (or_introl eq_refl) (or_introl eq_refl)
    Ha Hm eq_refl Ho Hb eq_refl).
Defined.

(** * What does not work *)

(** What an uninitialised second operand of [n] bytes holds. *)
Definition stack_op2 (n : Z) (p : proc) : Z := am_2 (of_width n (stack_ops (pr_junk p))).

Lemma answer_keeps_mem n wb le r p :
  pr_put_ok p = [] -> runs (answer_amo n wb le r) (fun _ q => pr_mem q = pr_mem p) p.
Proof.
  intros Hp. unfold answer_amo. destruct (wb =? 0); [by apply runs_reply|].
  destruct (_ || _); [by apply runs_reply|by apply runs_ret].
Qed.

(** fetch and increment bounded overwrites its bound: the test for a store
    twin looks at the function code only, which the two operations share, and the
    second operand it stores has never been assigned. *)
Theorem increment_bounded_corrupts_bound fuel n addr old bound msg p :
  idle (pr_afu p) -> pr_put_ok p = [] -> (1 <= fuel)%nat ->
  queued (amo_rd_message n addr AMO_ARMWF_INC_B 0 ++ msg) (pr_in p) ->
  counter_placed n addr -> is_u 64 addr ->
  mem_has (pr_mem p) addr old -> Z.of_nat (length old) = n -> bytes old ->
  mem_has (pr_mem p) (addr + n) bound -> Z.of_nat (length bound) = n ->
  runs (psl_turn fuel) (fun _ p' =>
    mem_has (pr_mem p') (addr + n) (le_bytes (Z.to_nat n) (stack_op2 n p))) p.
Proof.
  intros Hi Hp Hf Hq Hpl Ha Hm Hl Hob Hmb Hlb. pose proof (counter_width n addr Hpl) as Hn.
  apply (runs_amo_rd fuel n addr AMO_ARMWF_INC_B 0 msg); [done..|]. intros s Hs.
  set (p1 := p <| pr_in := s |>). apply (amo_rd_handled AMO_ARMWF_INC_B 0 n addr old p1); [done..|].
  intros A32 r HA H2. specialize (H2 eq_refl). change (am_2 r = stack_op2 n p) in H2.
  change (amo_operation OCSE_AMO_RD AMO_ARMWF_INC_B n addr A32 r) with
    ((x ← operand n (addr + n);
      mret (if negb (am_A r =? x) then r <| am_1 := wrap n (am_A r + 1) |>
            else r <| am_1 := am_A r |> <| am_A := min_int n |>, wb_value n)) : L (amo_ops * Z)).
  runs_next. runs_next. unfold runs at 1. rewrite (run_operand n (addr + n) bound p1 Hmb Hlb).
  set (r' := if negb (am_A r =? le_val bound) then _ else _).
  assert (H2' : am_2 r' = stack_op2 n p) by (rewrite <- H2; unfold r'; destruct r; by destruct (negb _)).
  clearbody r'. cbv beta iota. apply runs_ret.
  replace (negb (wb_value n =? 0xf)) with true by (destruct Hn as [-> | ->]; done). cbn [when_].
  assert (Hn8 : (Z.to_nat n <= 8)%nat) by lia.
  assert (Hlen : forall x, length (le_bytes (Z.to_nat n) x) = Z.to_nat n) by (intros; apply length_le_bytes).
  runs_next. unfold store_result. rewrite !take_le_bytes by done.
  apply runs_store; [rewrite Hlen; subst n; rewrite Nat2Z.id; exact (has_mapped _ _ _ Hm)|].
  change (AMO_ARMWF_INC_B =? AMO_W_CAS_T) with true. cbn [when_].
  set (mem1 := put_mem (pr_mem p1) addr _).
  apply runs_store_last.
  { rewrite Hlen. apply put_mem_mapped. replace (Z.to_nat n) with (length bound) by lia.
    exact (has_mapped _ _ _ Hmb). }
  eapply runs_mono; [by apply answer_keeps_mem|]. intros [] q Hmem. rewrite Hmem, <- H2'. apply put_mem_has.
Qed.

Lemma increment_bounded_corrupts_bound_witness :
  let p := sample_proc [3; 0; 0; 0; 9; 0; 0; 0] (amo_rd_message 4 0x1000 AMO_ARMWF_INC_B 0 ++ []) in
  runs (psl_turn 1) (fun _ p' => mem_has (pr_mem p') (0x1000 + 4) [0; 0; 0; 0]) p.
Proof.
  intros p.
  assert (Hm : mem_has (pr_mem p) 0x1000 [3; 0; 0; 0]) by mem_has_list.
  assert (Hb : mem_has (pr_mem p) (0x1000 + 4) [9; 0; 0; 0]) by mem_has_list.
  assert (Ho : bytes [3; 0; 0; 0]) by bytes_list.
  assert (Ha : is_u 64 0x1000) by (split; [discriminate|reflexivity]).
  exact (increment_bounded_corrupts_bound 1 4 0x1000 [3; 0; 0; 0] [9; 0; 0; 0] [] p
    sample_idle eq_refl (le_n 1) (sample_queued _ _) (or_introl eq_refl) Ha Hm eq_refl Ho Hb eq_refl).
Defined.

(** an atomic operation at an address the application has not mapped gets no
    answer at all: the fault is queued as an event, and the server's client stays
    busy with the operation. *)
Theorem unmapped_atomic_unanswered fuel amo_op n addr code endian d msg p :
  idle (pr_afu p) -> oa_events (pr_afu p) = [] -> (1 <= fuel)%nat ->
  queued (amo_message amo_op n addr code endian d ++ msg) (pr_in p) ->
  amo_op = OCSE_AMO_WR \/ amo_op = OCSE_AMO_RW -> is_u 64 addr -> length d = 16%nat ->
  pr_mem p !! addr = None ->
  runs (psl_turn fuel) (fun go p' => go = true /\ pr_out p' = pr_out p /\ queued msg (pr_in p') /\
    oa_events (pr_afu p') = [OCXL_EVENT_TRANSLATION_FAULT (Z.land addr FOURK_MASK) DSISR]) p.
Proof.
  intros Hi He Hf Hq Hop Ha Hd Hm. unfold amo_message in Hq.
  rewrite <- !app_assoc in Hq. cbn [app] in Hq.
  apply (runs_turn fuel amo_op _ _ p p (send_requests_idle p Hi) Hq Hf). intros s Hs.
  assert (Ht : take_message fuel amo_op = (msg_amo_data fuel amo_op;; mret true))
    by (destruct Hop as [-> | ->]; done).
  rewrite Ht. runs_next.
  apply (runs_amo_data fuel amo_op n addr code endian d msg); [done..|]. intros s' Hs'.
  unfold _handle_DMO_OPs, _testmemaddr. runs_next. apply runs_gets. apply runs_ret.
  rewrite bool_decide_false by (intros Hsome; cbn in Hsome; rewrite Hm in Hsome; by destruct Hsome). cbn [negb].
  runs_next. apply runs_add_event; [by cbn; rewrite He|cbn; rewrite He; apply Nat.lt_0_succ|].
  intros p' [Hafu _ _ Hin Hout _]. apply runs_ret. apply runs_ret.
  split_and!; [done|done|by rewrite Hin|]. rewrite Hafu. cbn. by rewrite He.
Qed.

Lemma unmapped_atomic_unanswered_witness :
  let p := sample_proc [] (amo_message OCSE_AMO_WR 8 0x2008 0 0 (zeros 16) ++ []) in
  runs (psl_turn 1) (fun go p' => go = true /\ pr_out p' = [] /\ queued [] (pr_in p') /\
    oa_events (pr_afu p') = [OCXL_EVENT_TRANSLATION_FAULT (Z.land 0x2008 FOURK_MASK) DSISR]) p.
Proof.
  intros p. assert (Ha : is_u 64 0x2008) by (split; [discriminate|reflexivity]).
  exact (unmapped_atomic_unanswered 1 OCSE_AMO_WR 8 0x2008 0 0 (zeros 16) [] p
    sample_idle eq_refl (le_n 1) (sample_queued _ _) (or_introl eq_refl) Ha (length_zeros 16) eq_refl).
Defined.
