(* ===== verification/RegEnd.v ===== *)
(** Register accesses from end to end: the call of the application, the message
    the library's thread sends, the command the AFU finds, the AFU's answer, the
    server's message and the value the call returns.  The two ends are run on
    each other's messages; what lies between them is a stream. *)
From stdpp Require Import gmap.
From S2P Require Import Prelude Utils Event TlxHost TlxAfu TlxApi CmdState Mmio Ocl MmioInv OclInv.
From S2P Require Import CmdProps MmioRun MmioProps Monad LibState Lib Dmo LibLoop LibApi LibRun DmoProps.

(** * The library's half *)

(** The access [m] has been asked for, and nothing else. *)
Record asks (p : proc) (type addr data : Z) : Prop := Asks {
  as_req : oa_mmio (pr_afu p) = MmioReq LIBOCXL_REQ_REQUEST type addr data;
  as_int : oa_int_req (pr_afu p) <> LIBOCXL_REQ_REQUEST;
  as_attach : oa_attach (pr_afu p) <> LIBOCXL_REQ_REQUEST;
  as_mem : eq_state (oa_mem (pr_afu p)) <> LIBOCXL_REQ_REQUEST;
  as_ok : pr_put_ok p = [];
}.

(** The message of an access. *)
Definition reg_message (type rnw dw addr data : Z) : list Z :=
  type :: be_bytes 4 addr ++ (if rnw =? 0 then be_bytes (reg_bytes dw) data else []).

(** [p'] is [p] but for the access, which is [m], and the traffic. *)
Record accessed (p p' : proc) (m : mmio_req) (l : list Z) : Prop := Accessed {
  ac_afu : pr_afu p' = pr_afu p <| oa_mmio := m |>;
  ac_wait : pr_wait_list p' = pr_wait_list p;
  ac_mem : pr_mem p' = pr_mem p;
  ac_out : pr_out p' = pr_out p ++ [l];
  ac_ok : pr_put_ok p' = [];
}.

Lemma register_types type rnw dw global :
  register_op type = Some (rnw, dw, global) ->
  is_map type = false /\ (rnw = 0 \/ rnw = 1) /\ (dw = 0 \/ dw = 1) /\
  is_read64 type = (rnw =? 1) && (dw =? 1) /\ is_read32 type = (rnw =? 1) && (dw =? 0) /\
  (type =? OCSE_MMIO_WRITE64) || (type =? OCSE_GLOBAL_MMIO_WRITE64) = (rnw =? 0) && (dw =? 1) /\
  (type =? OCSE_MMIO_WRITE32) || (type =? OCSE_GLOBAL_MMIO_WRITE32) = (rnw =? 0) && (dw =? 0).
Proof.
  unfold register_op. intros H.
  repeat match type of H with (if ?a =? ?b then _ else _) = _ =>
    destruct (Z.eqb_spec a b); [subst type; injection H as <- <- <-; split_and!; auto|] end. done.
Qed.

Lemma run_send_mmio a wl mem i o pipe junk op fr l lost :
  send_mmio_req l lost (Proc a wl mem i o [] pipe junk op fr) =
  Done tt (Proc (a <| oa_mmio := oa_mmio a <| mq_state := LIBOCXL_REQ_PENDING |> |>) wl mem i (o ++ [l]) [] pipe junk op fr).
Proof. reflexivity. Qed.

(** The request goes out, and is pending. *)
Lemma request_sent p type rnw dw global addr data :
  asks p type addr data -> register_op type = Some (rnw, dw, global) ->
  exists p1, send_requests p = Done tt p1 /\ pr_in p1 = pr_in p /\
    accessed p p1 (MmioReq LIBOCXL_REQ_PENDING type addr data) (reg_message type rnw dw addr data).
Proof.
  intros [Hr H1 H2 H3 Hok] Hop. destruct (register_types type rnw dw global Hop) as (Hm & Hrnw & Hdw & R64 & R32 & W64 & W32).
  set (m1 := MmioReq LIBOCXL_REQ_PENDING type addr data).
  assert (Hsend : exists p1, send_mmio_request p = Done tt p1 /\ pr_in p1 = pr_in p /\
    accessed p p1 m1 (reg_message type rnw dw addr data)).
  { destruct p as [a wl mem i o ok pipe junk op fr]. cbn in Hr, Hok. subst ok.
    exists (Proc (a <| oa_mmio := m1 |>) wl mem i (o ++ [reg_message type rnw dw addr data]) [] pipe junk op fr).
    split; [|split; [done|by constructor]].
    unfold send_mmio_request, mmio_request. rewrite bind_gets. cbn [pr_afu]. rewrite Hr. cbn [mq_type].
    rewrite Hm, W64, W32, R64, R32. unfold m1, reg_message.
    destruct Hrnw as [-> | ->], Hdw as [-> | ->]; cbn [Z.eqb Pos.eqb andb orb when_];
      unfold _mmio_write32, _mmio_write64, _mmio_read, mmio_request; rewrite bind_gets; cbn [pr_afu]; rewrite Hr;
      rewrite ?htonll_eq, ?le_bytes_le_val, ?app_nil_r; cbn [mq_type mq_addr mq_data];
      rewrite run_send_mmio, Hr; unfold reg_bytes; done. }
  destruct Hsend as (p1 & Hs & Hi & Ha). exists p1. split; [|done].
  rewrite send_requests_mmio; [|by constructor|by rewrite Hr].
  rewrite (bind_done _ _ p tt p1 Hs). apply requested_not. rewrite (ac_afu _ _ _ _ Ha). exact H3.
Qed.

(** What the acknowledgement leaves in the access. *)
Definition ack_data (rnw : Z) (data : Z) (payload : list Z) : Z :=
  if rnw =? 0 then data else le_val (rev payload).

Lemma runs_upd_mmio {A} (Q : A -> proc -> Prop) f (k : unit -> L A) p :
  runs (k tt) Q (p <| pr_afu := pr_afu p <| oa_mmio := f (oa_mmio (pr_afu p)) |> |>) ->
  runs (upd_mmio_req f ≫= k) Q p.
Proof. done. Qed.

(** The bytes of a read, as [_handle_ack] takes them. *)
Lemma read64_value l : length l = 8%nat -> bytes l -> ntohll (le_val l) = le_val (rev l).
Proof.
  intros Hl Hb. unfold ntohll. rewrite htonll_eq. rewrite <- Hl. by rewrite be_bytes_of_le.
Qed.

Lemma read32_value old l :
  length l = 4%nat -> bytes l -> htonl (le_val (overwrite (le_bytes 8 old) 0 l)) = le_val (rev l).
Proof.
  intros Hl Hb. unfold htonl, overwrite. rewrite take_0, app_nil_l, Hl. f_equal. rewrite <- Hl.
  apply be_bytes_le_prefix; [done|]. apply Forall_drop, le_bytes_bytes.
Qed.

(** A state that differs from [p] in the access, [m], and in what has been read
    off the socket. *)
Record with_access (p p' : proc) (m : mmio_req) (rest : list Z) : Prop := WithAccess {
  wa_afu : pr_afu p' = pr_afu p <| oa_mmio := m |>;
  wa_wait : pr_wait_list p' = pr_wait_list p;
  wa_mem : pr_mem p' = pr_mem p;
  wa_out : pr_out p' = pr_out p;
  wa_ok : pr_put_ok p' = pr_put_ok p;
  wa_in : queued rest (pr_in p');
}.

Lemma ack_handled fuel type rnw dw global st addr data code payload rest p :
  register_op type = Some (rnw, dw, global) ->
  oa_mmio (pr_afu p) = MmioReq st type addr data -> (1 <= fuel)%nat ->
  (rnw = 1 -> length payload = reg_bytes dw /\ bytes payload) -> (rnw = 0 -> payload = []) ->
  queued (code :: payload ++ rest) (pr_in p) ->
  runs (_handle_ack fuel) (fun _ p' =>
    with_access p p' (MmioReq LIBOCXL_REQ_IDLE type addr (ack_data rnw data payload)) rest) p.
Proof.
  intros Hop Hm Hf Hrd Hwr Hq. destruct (register_types type rnw dw global Hop) as (Hmap & Hrnw & Hdw & R64 & R32 & _).
  unfold _handle_ack. apply (runs_get_msg _ fuel 1 [code] (payload ++ rest)); [exact Hq|done..|]. intros s Hs.
  destruct p as [a wl mem i o ok pipe junk op fr]. cbn in Hm. cbn [pr_in set_fld] in *.
  apply runs_skip. apply runs_gets. cbn [pr_afu set_pr_in set_fld]. rewrite Hm. cbn [mq_type]. rewrite Hmap, R64, R32.
  cbn [when_]. apply runs_skip. cbv beta. unfold ack_data.
  destruct Hrnw as [-> | ->]; [rewrite (Hwr eq_refl) in *; cbn [Z.eqb Pos.eqb andb when_]|].
  - apply runs_skip. apply runs_skip. cbv beta. unfold runs, upd_mmio_req, upd_afu, modify. constructor; try done.
    cbn. by rewrite Hm.
  - destruct (Hrd eq_refl) as [Hl Hb]. unfold reg_bytes in Hl.
    destruct Hdw as [-> | ->]; cbn [Z.eqb Pos.eqb andb when_] in *.
    + apply runs_skip. cbv beta. runs_next. unfold read_data32. 
      apply (runs_get_msg _ fuel 4 payload rest); [exact Hs|by rewrite Hl|done|done|]. intros s' Hs'.
      unfold runs, upd_mmio_req, upd_afu, modify. constructor; try done. cbn -[htonl le_val overwrite le_bytes rev].
      rewrite Hm. cbn [mq_data]. by rewrite read32_value.
    + runs_next. unfold read_data64.
      apply (runs_get_msg _ fuel 8 payload rest); [exact Hs|by rewrite Hl|done|done|]. intros s' Hs'.
      unfold runs, upd_mmio_req, upd_afu, modify. constructor; try done. cbn -[ntohll le_val rev].
      rewrite Hm. cbn [mq_state]. by rewrite read64_value.
Qed.

(** While a call waits the library's thread takes its turns. *)
Definition library (fuel : nat) : L unit := psl_turn fuel;; mret tt.

Lemma runs_until_step turn n over (Q : unit -> proc -> Prop) p :
  over p = false -> runs turn (fun _ p' => runs (until turn n over) Q p') p -> runs (until turn (S n) over) Q p.
Proof. intros Ho Ht. cbn [until]. apply runs_gets. rewrite Ho. by runs_next. Qed.

Lemma runs_until_over turn n over (Q : unit -> proc -> Prop) p : over p = true -> Q tt p -> runs (until turn n over) Q p.
Proof. intros Ho HQ. unfold runs. destruct n; cbn [until]; by rewrite bind_gets, Ho. Qed.

Lemma runs_until turn n over (Q : unit -> proc -> Prop) p :
  (1 <= n)%nat -> over p = false -> runs turn (fun _ p' => over p' = true /\ Q tt p') p ->
  runs (until turn n over) Q p.
Proof.
  intros Hn Ho Ht. destruct n as [|n]; [lia|]. apply runs_until_step; [done|].
  eapply runs_mono; [exact Ht|]. intros [] p' [Ho' HQ]. by apply runs_until_over.
Qed.

(** The turn that sends the request and takes the acknowledgement. *)
Lemma access_turn fuel p type rnw dw global addr data code payload rest :
  asks p type addr data -> register_op type = Some (rnw, dw, global) -> (1 <= fuel)%nat ->
  (rnw = 1 -> length payload = reg_bytes dw /\ bytes payload) -> (rnw = 0 -> payload = []) ->
  queued (OCSE_MMIO_ACK :: code :: payload ++ rest) (pr_in p) ->
  runs (library fuel) (fun _ p' =>
    accessed p p' (MmioReq LIBOCXL_REQ_IDLE type addr (ack_data rnw data payload))
      (reg_message type rnw dw addr data) /\ queued rest (pr_in p')) p.
Proof.
  intros Ha Hop Hf Hrd Hwr Hq.
  destruct (request_sent p type rnw dw global addr data Ha Hop) as (p1 & Hs & Hi & Hacc).
  unfold library. runs_next. rewrite <- Hi in Hq.
  apply (runs_turn fuel OCSE_MMIO_ACK _ _ p p1 Hs Hq Hf). intros s Hs'.
  change (take_message fuel OCSE_MMIO_ACK) with (_handle_ack fuel;; mret true). runs_next.
  destruct Hacc as [Hafu Hwait Hmem Hout Hok].
  eapply runs_mono.
  - apply (ack_handled fuel type rnw dw global LIBOCXL_REQ_PENDING addr data code payload rest
      (p1 <| pr_in := s |>)); try done. cbn. by rewrite Hafu.
  - intros _ p' [H1 H2 H3 H4 H5 H6]. apply runs_ret. apply runs_ret. split; [|done].
    constructor; [|by rewrite H2|by rewrite H3|by rewrite H4|by rewrite H5].
    rewrite H1. cbn. by rewrite Hafu.
Qed.

(** A call for a register. *)
Lemma access_runs fuel n mapped err align offset type data rnw dw global code payload rest p :
  idle (pr_afu p) -> truthy (oa_opened (pr_afu p)) = true -> pr_put_ok p = [] ->
  mapped (pr_afu p) = true -> Z.land offset align = 0 ->
  register_op type = Some (rnw, dw, global) -> (1 <= fuel)%nat -> (1 <= n)%nat ->
  (rnw = 1 -> length payload = reg_bytes dw /\ bytes payload) -> (rnw = 0 -> payload = []) ->
  queued (OCSE_MMIO_ACK :: code :: payload ++ rest) (pr_in p) ->
  let d := match data with Some d => d | None => mq_data (oa_mmio (pr_afu p)) end in
  runs (mmio_access (library fuel) n mapped err align offset type data) (fun r p' =>
    r = (OCXL_OK, Some (ack_data rnw d payload)) /\
    accessed p p' (MmioReq LIBOCXL_REQ_IDLE type (u32 offset) (ack_data rnw d payload))
      (reg_message type rnw dw (u32 offset) d) /\ queued rest (pr_in p')) p.
Proof.
  intros Hi Ho Hok Hm Hal Hop Hf Hn Hrd Hwr Hq d. unfold mmio_access. apply runs_gets.
  rewrite Hm, Hal. change (truthy 0) with false. cbn [negb]. apply runs_upd_mmio. fold d.
  match goal with |- runs _ _ ?q => set (p1 := q) end.
  assert (Hp1 : asks p1 type (u32 offset) d /\ pr_in p1 = pr_in p /\ pr_out p1 = pr_out p /\
    pr_wait_list p1 = pr_wait_list p /\ pr_mem p1 = pr_mem p /\ oa_opened (pr_afu p1) = oa_opened (pr_afu p) /\
    forall m, pr_afu p1 <| oa_mmio := m |> = pr_afu p <| oa_mmio := m |>).
  { destruct Hi as [I1 I2 I3 I4]. by split_and!. }
  clearbody p1. destruct Hp1 as (Ha & Hin & Hout & Hwait & Hmem & Hop1 & Hafu). rewrite <- Hin in Hq.
  runs_next. apply runs_until; [done| |].
  - rewrite (as_req _ _ _ _ Ha). by rewrite bool_decide_false.
  - eapply runs_mono; [by apply (access_turn fuel p1 type rnw dw global (u32 offset) d code payload rest)|].
    intros [] p' [[H1 H2 H3 H4 H5] Hq'].
    assert (Ho' : oa_opened (pr_afu p') = oa_opened (pr_afu p)) by (rewrite H1; exact Hop1).
    assert (Hm' : oa_mmio (pr_afu p') = MmioReq LIBOCXL_REQ_IDLE type (u32 offset) (ack_data rnw d payload)) by (by rewrite H1).
    split; [rewrite Hm'; by apply bool_decide_true|].
    apply runs_gets. rewrite Ho', Ho, Hm'. apply runs_ret. split; [done|]. split; [|done].
    constructor; [by rewrite H1|by rewrite H2|by rewrite H3|by rewrite H4, Hout|done].
Qed.

(** * The calls *)

(** The calls of the two widths. *)
Definition mmio_read (dw : Z) (turn : L unit) (n : nat) (m : ocxl_mmio_area) (offset : Z) : L (Z * option Z) :=
  if dw =? 1 then ocxl_mmio_read64 turn n m offset else ocxl_mmio_read32 turn n m offset.
Definition mmio_write (dw : Z) (turn : L unit) (n : nat) (m : ocxl_mmio_area) (offset value : Z) : L Z :=
  if dw =? 1 then ocxl_mmio_write64 turn n m offset value else ocxl_mmio_write32 turn n m offset value.

Definition align_mask (dw : Z) : Z := if dw =? 1 then 7 else 3.

(** The request of a call. *)
Definition call_type (rnw dw : Z) (m : ocxl_mmio_area) : Z :=
  if rnw =? 1 then
    if dw =? 1 then (if is_global m then OCSE_GLOBAL_MMIO_READ64 else OCSE_MMIO_READ64)
    else (if is_global m then OCSE_GLOBAL_MMIO_READ32 else OCSE_MMIO_READ32)
  else
    if dw =? 1 then (if is_global m then OCSE_GLOBAL_MMIO_WRITE64 else OCSE_MMIO_WRITE64)
    else (if is_global m then OCSE_GLOBAL_MMIO_WRITE32 else OCSE_MMIO_WRITE32).

Lemma call_type_op rnw dw m :
  rnw = 0 \/ rnw = 1 -> dw = 0 \/ dw = 1 -> register_op (call_type rnw dw m) = Some (rnw, dw, is_global m).
Proof. by intros [-> | ->] [-> | ->]; unfold call_type; destruct (is_global m). Qed.

(** The application can call for registers of [m]. *)
Record usable (p : proc) (m : ocxl_mmio_area) : Prop := Usable {
  us_idle : idle (pr_afu p);
  us_opened : truthy (oa_opened (pr_afu p)) = true;
  us_ok : pr_put_ok p = [];
  us_mapped : area_mapped m (pr_afu p) = true;
}.

Lemma mmio_read_runs fuel n dw m offset code payload rest p :
  usable p m -> dw = 0 \/ dw = 1 -> Z.land offset (align_mask dw) = 0 -> is_u 32 offset ->
  (1 <= fuel)%nat -> (1 <= n)%nat -> length payload = reg_bytes dw -> bytes payload ->
  queued (OCSE_MMIO_ACK :: code :: payload ++ rest) (pr_in p) ->
  runs (mmio_read dw (library fuel) n m offset) (fun r p' =>
    r = (OCXL_OK, Some (le_val (rev payload))) /\
    pr_out p' = pr_out p ++ [call_type 1 dw m :: be_bytes 4 offset] /\ queued rest (pr_in p')) p.
Proof.
  intros [] Hdw Hal Ho Hf Hn Hl Hb Hq.
  pose proof (access_runs fuel n (area_mapped m) OCXL_NO_MEM (align_mask dw) offset (call_type 1 dw m) None
    1 dw (is_global m) code payload rest p us_idle0 us_opened0 us_ok0 us_mapped0 Hal
    (call_type_op 1 dw m (or_intror eq_refl) Hdw) Hf Hn (fun _ => conj Hl Hb) ltac:(done) Hq) as H.
  cbv zeta in H. unfold u32 in H. rewrite (is_u_small 32 _ Ho) in H. unfold mmio_read.
  destruct Hdw as [-> | ->]; cbn [Z.eqb Pos.eqb].
  - unfold ocxl_mmio_read32. runs_next. eapply runs_mono; [exact H|]. intros r p' (-> & Ha & Hi).
    apply runs_ret. split_and!; [|exact (ac_out _ _ _ _ Ha)|done].
    unfold out32. cbn [fst snd fmap option_fmap option_map]. unfold u32. rewrite is_u_small; [done|].
    apply (le_val_range 4); [by rewrite length_rev|by apply Forall_rev].
  - unfold ocxl_mmio_read64. eapply runs_mono; [exact H|]. intros r p' (-> & Ha & Hi).
    split_and!; [done|exact (ac_out _ _ _ _ Ha)|done].
Qed.

Lemma mmio_write_runs fuel n dw m offset v code rest p :
  usable p m -> dw = 0 \/ dw = 1 -> Z.land offset (align_mask dw) = 0 -> is_u 32 offset ->
  (1 <= fuel)%nat -> (1 <= n)%nat -> queued (OCSE_MMIO_ACK :: code :: rest) (pr_in p) ->
  runs (mmio_write dw (library fuel) n m offset v) (fun r p' => r = OCXL_OK /\
    pr_out p' = pr_out p ++ [call_type 0 dw m :: be_bytes 4 offset ++ be_bytes (reg_bytes dw) v] /\
    queued rest (pr_in p')) p.
Proof.
  intros [] Hdw Hal Ho Hf Hn Hq.
  pose proof (access_runs fuel n (area_mapped m) OCXL_NO_MEM (align_mask dw) offset (call_type 0 dw m) (Some v)
    0 dw (is_global m) code [] rest p us_idle0 us_opened0 us_ok0 us_mapped0 Hal
    (call_type_op 0 dw m (or_introl eq_refl) Hdw) Hf Hn ltac:(done) (fun _ => eq_refl) Hq) as H.
  cbv zeta in H. unfold u32 in H. rewrite (is_u_small 32 _ Ho) in H. unfold mmio_write.
  destruct Hdw as [-> | ->]; cbn [Z.eqb Pos.eqb]; unfold ocxl_mmio_write32, ocxl_mmio_write64;
    runs_next; (eapply runs_mono; [exact H|]); intros r p' (-> & Ha & Hi);
    apply runs_ret; (split_and!; [done|exact (ac_out _ _ _ _ Ha)|done]).
Qed.

(** * End to end *)

(** The server's half of a register access, from state [w] for client [i]: on the
    message [msg] it drives a command that satisfies [drives], and on any answer
    of the AFU that satisfies [answers] it sends the client [reply]. *)
Definition server_half (fuel i : nat) (w : world) (fd : Z) (msg : list Z) (drives : AFU_EVENT -> Prop)
    (afu : AFU_EVENT) (reply : list Z) : Prop :=
  forall s, queued msg s ->
  runs (_handle_client fuel i s;; drive_afu) (fun _ w1 => drives (w_event w1) /\
    runs (handle_responses;; finish_access i) (fun _ w2 => w_puts w2 = w_puts w1 ++ [(fd, reply)])
      (w1 <| w_event := afu |>)) w.

(** C15: a register read, from the call to its value: the message that the call
    makes the library's thread send is one for which the server drives a read at
    the register's physical address; and of whatever the AFU answers without an
    error, the server's message makes the call return exactly the number that the
    bytes at the register's place in the AFU's 64 spell. *)
Theorem register_read_end_to_end fuel n i c dw m offset PA w p afu opcode code bus rest :
  usable p m -> ready w i c -> dw = 0 \/ dw = 1 -> is_u 32 offset ->
  Z.land offset (align_mask dw) = 0 -> (1 <= fuel)%nat -> (1 <= n)%nat ->
  mmio_PA (w_mmio w) c (is_global m) offset = Some PA -> Z.land PA 63 + Z.of_nat (reg_bytes dw) <= 64 ->
  queue w = [] -> afu_free (w_event w) -> w_put_ok w = [] ->
  responds afu opcode code 1 0 bus -> (opcode = 2 \/ opcode = 4 -> code = 0) ->
  exists msg reply,
    server_half fuel i w (cl_fd c) msg (fun a => command_at a (reg_cmd TLX_CMD_PR_RD_MEM PR_RD_TAG dw PA)) afu reply /\
    (queued (reply ++ rest) (pr_in p) ->
     runs (mmio_read dw (library fuel) n m offset) (fun r p' =>
       r = (OCXL_OK, Some (le_val (take (reg_bytes dw) (drop (Z.to_nat (Z.land PA 63)) bus)))) /\
       pr_out p' = pr_out p ++ [msg] /\ queued rest (pr_in p')) p).
Proof.
  intros Hu Hr Hdw Ho Hal Hf Hn HPA Hp Hq Hfree Hput Hresp Hcode.
  set (val := take (reg_bytes dw) (drop (Z.to_nat (Z.land PA 63)) bus)).
  exists (call_type 1 dw m :: be_bytes 4 offset), (OCSE_MMIO_ACK :: code :: rev val). split.
  - intros s Hs. eapply runs_mono.
    + apply (register_read_answered fuel i c (call_type 1 dw m) dw (is_global m) offset PA); try done.
      apply call_type_op; auto.
    + intros [] w1 [Hcmd Hans]. split; [done|]. eapply runs_mono; [exact (Hans _ _ _ _ Hresp Hcode)|].
      intros [] w2. apply cs_puts.
  - intros Hans. pose proof (land63_range PA).
    assert (Hl : length val = reg_bytes dw).
    { unfold val. rewrite length_take, length_drop, (rs_len _ _ _ _ _ _ Hresp). lia. }
    assert (Hb : bytes val) by (apply Forall_take, Forall_drop; exact (rs_bytes _ _ _ _ _ _ Hresp)).
    eapply runs_mono; [apply (mmio_read_runs fuel n dw m offset code (rev val) rest p); try done;
      [by rewrite length_rev|by apply Forall_rev]|].
    intros r p'. by rewrite rev_involutive.
Qed.

(** C16: a register write, from the call to its return: the message that the call
    makes the library's thread send is one for which the server drives a write at
    the register's physical address with the value's bytes in place among 64
    zeros, and once the AFU has answered the server's message makes the call
    return success. *)
Theorem register_write_end_to_end fuel n i c dw m offset v PA w p afu code rest :
  usable p m -> ready w i c -> dw = 0 \/ dw = 1 -> is_u 32 offset -> is_u (8 * Z.of_nat (reg_bytes dw)) v ->
  Z.land offset (align_mask dw) = 0 -> (1 <= fuel)%nat -> (1 <= n)%nat ->
  mmio_PA (w_mmio w) c (is_global m) offset = Some PA -> Z.land PA 63 + Z.of_nat (reg_bytes dw) <= 64 ->
  queue w = [] -> afu_free (w_event w) -> w_put_ok w = [] ->
  truthy (afu_tlx_resp_valid afu) = true -> afu_tlx_resp_code afu = code ->
  exists msg reply,
    server_half fuel i w (cl_fd c) msg (fun a =>
      command_at a (reg_cmd TLX_CMD_PR_WR_MEM PR_WR_TAG dw PA) /\
      MmioRun.data_at a 64 (placed 64 (Z.to_nat (Z.land PA 63)) (le_bytes (reg_bytes dw) v))) afu reply /\
    (queued (reply ++ rest) (pr_in p) ->
     runs (mmio_write dw (library fuel) n m offset v) (fun r p' =>
       r = OCXL_OK /\ pr_out p' = pr_out p ++ [msg] /\ queued rest (pr_in p')) p).
Proof.
  intros Hu Hr Hdw Ho Hv Hal Hf Hn HPA Hp Hq Hfree Hput Hresp Hcode.
  exists (call_type 0 dw m :: be_bytes 4 offset ++ be_bytes (reg_bytes dw) v), [OCSE_MMIO_ACK; code]. split.
  - intros s Hs. eapply runs_mono.
    + apply (register_write_driven fuel i c (call_type 0 dw m) dw (is_global m) offset v PA); try done.
      apply call_type_op; auto.
    + intros [] w1 (Hcmd & Hdata & Hans). split; [done|]. eapply runs_mono; [exact (Hans afu code Hresp Hcode)|].
      intros [] w2. apply cs_puts.
  - intros Hans. by apply (mmio_write_runs fuel n dw m offset v code).
Qed.

(** The process after the read, as its call leaves it; the AFU answers 0, 1, ..., 63. *)
Lemma register_read_end_to_end_witness :
  exists msg reply,
    server_half 1 0 (sample_world 128 [] sample_client) 9 msg
      (fun a => command_at a (reg_cmd TLX_CMD_PR_RD_MEM PR_RD_TAG 1 0x40000010018)) (sample_answer 1) reply /\
    (queued (reply ++ []) (Stream [OCSE_MMIO_ACK; 0; 31; 30; 29; 28; 27; 26; 25; 24] [] false) ->
     runs (mmio_read 1 (library 1) 1 (MmioArea 0 0x1000 OCXL_GLOBAL_MMIO) 0x18) (fun r p' =>
       r = (OCXL_OK, Some 0x1f1e1d1c1b1a1918) /\ pr_out p' = [] ++ [msg] /\ queued [] (pr_in p'))
       (sample_proc [] [OCSE_MMIO_ACK; 0; 31; 30; 29; 28; 27; 26; 25; 24])).
Proof.
  apply (register_read_end_to_end 1 1 0 sample_client 1 (MmioArea 0 0x1000 OCXL_GLOBAL_MMIO) 0x18 0x40000010018
    (sample_world 128 [] sample_client) (sample_proc [] [OCSE_MMIO_ACK; 0; 31; 30; 29; 28; 27; 26; 25; 24])
    (sample_answer 1) 1 0 sample_bus []);
    [by constructor; [apply sample_idle|..]|apply sample_ready|by right|by vm_compute|done|done|done|by vm_compute|by vm_compute
    |done|by split; vm_compute|done|apply sample_responds|done].
Defined.

Lemma register_write_end_to_end_witness :
  exists msg reply,
    server_half 1 0 (sample_world 128 [] sample_client) 9 msg (fun a =>
      command_at a (reg_cmd TLX_CMD_PR_WR_MEM PR_WR_TAG 0 0x40000020024) /\
      MmioRun.data_at a 64 (placed 64 36 (le_bytes 4 0xdeadbeef))) (sample_answer 1) reply /\
    (queued (reply ++ []) (Stream [OCSE_MMIO_ACK; 0] [] false) ->
     runs (mmio_write 0 (library 1) 1 (MmioArea 0 0x1000 OCXL_PER_PASID_MMIO) 0x24 0xdeadbeef) (fun r p' =>
       r = OCXL_OK /\ pr_out p' = [] ++ [msg] /\ queued [] (pr_in p')) (sample_proc [] [OCSE_MMIO_ACK; 0])).
Proof.
  apply (register_write_end_to_end 1 1 0 sample_client 0 (MmioArea 0 0x1000 OCXL_PER_PASID_MMIO) 0x24 0xdeadbeef
    0x40000020024 (sample_world 128 [] sample_client) (sample_proc [] [OCSE_MMIO_ACK; 0]) (sample_answer 1) 0 []);
    [by constructor; [apply sample_idle|..]|apply sample_ready|by left|by vm_compute|by vm_compute|done|done|done
    |by vm_compute|by vm_compute|done|by split; vm_compute|done|done|done].
Defined.
