(* ===== verification/MemEnd.v ===== *)
(** The AFU's accesses to the application's memory from end to end: the entry of
    the server's command list, the message to the client, what the library's
    thread makes of the memory, its reply, and the entry that the reply leaves. *)
From stdpp Require Import gmap.
From S2P Require Import Prelude Utils Event TlxHost TlxAfu TlxApi Parms.
From S2P Require Import CmdState Cmd CmdHandlers CmdFrame CmdLogic CmdInv CmdSafe CmdSafeResp CmdSafeAdd.
From S2P Require Import Mmio Ocl MmioInv OclInv CmdProps MmioRun.
From S2P Require Import Monad LibState Lib Dmo LibLoop LibRun DmoProps.

(** * The library's half *)

Lemma runs_get_size fuel msg size (k : Z -> L unit) Q p :
  is_u 16 size -> queued (be_bytes 2 size ++ msg) (pr_in p) -> (1 <= fuel)%nat ->
  (forall s, queued msg s -> runs (k size) Q (p <| pr_in := s |>)) -> runs (get_size fuel k) Q p.
Proof.
  intros Ha Hq Hf Hk. apply (runs_get_or_idle Q fuel 2 tt (be_bytes 2 size) msg); [done|by rewrite length_be_bytes|done|done|].
  intros s Hs. rewrite htons_be by done. by apply Hk.
Qed.

(** A read of the application's memory is answered with its bytes. *)
Lemma library_reads fuel addr data rest p :
  idle (pr_afu p) -> pr_put_ok p = [] -> (1 <= fuel)%nat -> is_u 64 addr ->
  0 < Z.of_nat (length data) <= 1023 -> mem_has (pr_mem p) addr data ->
  queued (OCSE_MEMORY_READ :: be_bytes 2 (Z.of_nat (length data)) ++ be_bytes 8 addr ++ rest) (pr_in p) ->
  runs (psl_turn fuel) (fun go p' => go = true /\
    replied p (pr_mem p) (OCSE_MEM_SUCCESS :: data) rest p') p.
Proof.
  intros Hi Hok Hf Ha Hl Hm Hq.
  apply (runs_turn fuel OCSE_MEMORY_READ _ _ p p (send_requests_idle p Hi) Hq Hf). intros s1 Hs1.
  change (take_message fuel OCSE_MEMORY_READ) with (msg_read fuel;; mret true). runs_next. unfold msg_read.
  apply (runs_get_size fuel (be_bytes 8 addr ++ rest) (Z.of_nat (length data))); [|done|done|].
  { unfold is_u. change (2 ^ 16) with 65536. lia. }
  intros s2 Hs2. apply (runs_get_addr fuel rest addr); [done..|]. intros s3 Hs3. unfold _handle_read.
  apply runs_test; [rewrite <- (Z.add_0_r addr); apply (has_mapped _ _ _ Hm 0%nat); lia|]. cbn [negb].
  replace (MAX_LINE_CHARS <? _) with false by (symmetry; apply Z.ltb_ge; unfold MAX_LINE_CHARS; lia).
  apply runs_load; [done|]. apply runs_reply; [done|]. apply runs_ret. split; [done|]. by constructor.
Qed.

(** A write to the application's memory is done, and acknowledged. *)
Lemma library_writes fuel addr data rest p :
  idle (pr_afu p) -> pr_put_ok p = [] -> (1 <= fuel)%nat -> is_u 64 addr ->
  0 < Z.of_nat (length data) <= 1024 -> mapped (pr_mem p) addr (length data) ->
  queued (OCSE_MEMORY_WRITE :: be_bytes 2 (Z.of_nat (length data)) ++ be_bytes 8 addr ++ data ++ rest) (pr_in p) ->
  runs (psl_turn fuel) (fun go p' => go = true /\
    replied p (put_mem (pr_mem p) addr data) [OCSE_MEM_SUCCESS] rest p') p.
Proof.
  intros Hi Hok Hf Ha Hl Hm Hq.
  apply (runs_turn fuel OCSE_MEMORY_WRITE _ _ p p (send_requests_idle p Hi) Hq Hf). intros s1 Hs1.
  change (take_message fuel OCSE_MEMORY_WRITE) with (msg_write fuel;; mret true). runs_next. unfold msg_write.
  apply (runs_get_size fuel (be_bytes 8 addr ++ data ++ rest) (Z.of_nat (length data))); [|done|done|].
  { unfold is_u. change (2 ^ 16) with 65536. lia. }
  intros s2 Hs2. apply (runs_get_addr fuel (data ++ rest) addr); [done..|]. intros s3 Hs3. unfold get_data.
  replace (MAX_LINE_CHARS <? _) with false by (symmetry; apply Z.ltb_ge; unfold MAX_LINE_CHARS; lia).
  apply (runs_get_or_idle _ fuel _ tt data rest); [done|done|lia|done|]. intros s4 Hs4. unfold _handle_write.
  apply runs_test; [rewrite <- (Z.add_0_r addr); apply (Hm 0%nat); lia|]. cbn [negb].
  rewrite Nat2Z.id, take_ge by done.
  apply runs_store; [done|]. apply runs_reply; [done|]. apply runs_ret. split; [done|]. by constructor.
Qed.

(** An address that is not mapped: a fault event, and a failure. *)
Lemma library_refuses fuel addr size rest p :
  idle (pr_afu p) -> pr_put_ok p = [] -> oa_events (pr_afu p) = [] -> hd 1 (pr_pipe p) = 1 ->
  (1 <= fuel)%nat -> is_u 64 addr -> is_u 16 size -> pr_mem p !! addr = None ->
  queued (OCSE_MEMORY_READ :: be_bytes 2 size ++ be_bytes 8 addr ++ rest) (pr_in p) ->
  runs (psl_turn fuel) (fun go p' => go = true /\ pr_mem p' = pr_mem p /\
    pr_out p' = pr_out p ++ [[OCSE_MEM_FAILURE]] /\ queued rest (pr_in p') /\
    oa_events (pr_afu p') = [OCXL_EVENT_TRANSLATION_FAULT (Z.land addr FOURK_MASK) DSISR]) p.
Proof.
  intros Hi Hok He Hpipe Hf Ha Hsz Hm Hq.
  apply (runs_turn fuel OCSE_MEMORY_READ _ _ p p (send_requests_idle p Hi) Hq Hf). intros s1 Hs1.
  change (take_message fuel OCSE_MEMORY_READ) with (msg_read fuel;; mret true). runs_next. unfold msg_read.
  apply (runs_get_size fuel (be_bytes 8 addr ++ rest) size); [done..|].
  intros s2 Hs2. apply (runs_get_addr fuel rest addr); [done..|]. intros s3 Hs3. unfold _handle_read, _testmemaddr.
  runs_next. apply runs_gets. apply runs_ret.
  rewrite bool_decide_false by (intros Hsome; cbn in Hsome; rewrite Hm in Hsome; by destruct Hsome). cbn [negb].
  unfold refuse. runs_next. apply runs_add_event; [by cbn; rewrite He|cbn; rewrite He; apply Nat.lt_0_succ|].
  intros p' [Hafu _ Hmem Hin Hout Hpok]. cbn in Hpipe |- *. rewrite Hpipe. cbn [Z.ltb Z.compare].
  apply runs_reply; [by rewrite Hpok|]. apply runs_ret. split_and!; [done|by cbn; rewrite Hmem| | |].
  - cbn. by rewrite Hout.
  - cbn. by rewrite Hin.
  - cbn. rewrite Hafu. cbn. by rewrite He.
Qed.

(** * The server's half *)

(** The client listens, and has no access to the AFU under way. *)
Record listens (c : client) : Prop := Listens {
  li_valid : cl_state c = CLIENT_VALID; li_abort : cl_abort c = 0; li_free : cl_mmio_access c = None;
}.

(** The entry [id] has become what [f] makes of it, and client [i] is free. *)
Record answered (w w' : world) (i : nat) (id : addr_t) (f : cmd_event -> cmd_event) : Prop := Answered {
  an_list : w_list w' = upd_list id f (w_list w);
  an_client : exists c, w_clients w' !! i = Some (Some c) /\ cl_mem_access c = None;
  an_event : w_event w' = w_event w;
}.

(** A turn of the server's loop in which the client's answer has arrived. *)
Lemma serve_ack fuel i c e op ok payload rest s w f :
  awaits w i c e -> listens c -> (op = OCSE_MEM_SUCCESS /\ ok = true) \/ (op = OCSE_MEM_FAILURE /\ ok = false) ->
  queued (op :: payload ++ rest) s -> stream_bytes s -> (1 <= fuel)%nat ->
  (forall s1, queued (payload ++ rest) s1 -> stream_bytes s1 -> exists s2 w2,
     memory_ack fuel i ok s1 w = Done s2 w2 /\ queued rest s2 /\
     w_list w2 = upd_list (ev_id e) f (w_list w) /\
     w_clients w2 = alter (fmap (fun c => c <| cl_mem_access := None |>)) i (w_clients w) /\
     w_event w2 = w_event w) ->
  runs (_handle_client fuel i s) (fun s' w' => queued rest s' /\ answered w w' i (ev_id e) f) w.
Proof.
  intros Haw [Hv Hab Hfree] Hop Hq Hs Hf Hmem. pose proof (aw_client _ _ _ _ Haw) as Hc.
  unfold _handle_client, finish_access. runs_next.
  apply (runs_client _ _ c); [done|]. rewrite Hfree. apply runs_ret. apply (runs_client _ _ c); [done|].
  rewrite Hv. change (bool_decide (CLIENT_VALID = CLIENT_NONE)) with false. cbv iota zeta. rewrite Hab.
  change (truthy 0) with false. rewrite (bytes_ready_queued _ _ _ Hq). change (negb (truthy 1)) with false. cbv iota.
  destruct (get_queued fuel 1 [op] (payload ++ rest) s) as (s1 & Hg & Hq1); [done..|].
  destruct (get_bytes_silent_bytes fuel false 1 s _ _ ltac:(lia) Hg Hs) as (_ & _ & Hs1).
  destruct (Hmem s1 Hq1 Hs1) as (s2 & w2 & Hack & Hq2 & Hl & Hcl & He). rewrite Hg.
  apply (runs_lift _ _ op); [done|]. runs_next.
  assert (Hmsg : client_message fuel i op s1 w = Done (None, s2) w2).
  { destruct Hop as [[-> ->]|[-> ->]].
    - change (client_message fuel i OCSE_MEM_SUCCESS s1) with (s ← memory_ack fuel i true s1; mret (@None addr_t, s)).
      by rewrite (bind_done _ _ _ _ _ Hack).
    - change (client_message fuel i OCSE_MEM_FAILURE s1) with (s ← memory_ack fuel i false s1; mret (@None addr_t, s)).
      by rewrite (bind_done _ _ _ _ _ Hack). }
  unfold runs at 1. rewrite Hmsg. cbv iota. runs_next. apply runs_ret. runs_next. unfold upd_client. unfold runs, modify.
  split; [done|]. set (w3 := w2 <| w_clients := _ |>).
  assert (H3 : w_list w3 = w_list w2 /\ w_event w3 = w_event w2 /\
    w_clients w3 = alter (fmap refresh_valid) i (w_clients w2)) by done.
  clearbody w3. destruct H3 as (H31 & H32 & H33).
  constructor; [by rewrite H31|rewrite H33, Hcl|by rewrite H32].
  set (g := fun c : client => c <| cl_mem_access := None |>). exists (refresh_valid (g c)).
  rewrite list_lookup_alter_eq, list_lookup_alter_eq, Hc. split; [done|].
  unfold refresh_valid. by case_bool_decide.
Qed.

(** What a request leaves: its client waits for the entry, in its new state. *)
Lemma requested_awaits w w1 i c e msg s :
  inv w1 -> ages_low (w_pages w) -> e ∈ w_list w -> serves w i c e -> listens c ->
  CmdProps.requested w w1 i c e msg s ->
  awaits w1 i (c <| cl_mem_access := Some (ev_id e) |>) (e <| ev_state := s |>).
Proof.
  intros Hinv Hages He [Hc Hctx Hmc _ _ _] [Hv _ _] (_ & Hl & Hcl & _ & Hp & Hmax). constructor; try done.
  - rewrite Hl. by apply (elem_of_upd_2 (ev_id e) (fun x => x <| ev_state := s |>)).
  - by rewrite Hcl, list_lookup_alter_eq, Hc.
  - by rewrite Hmax.
  - by rewrite Hp.
Qed.

(** * End to end *)

(** The server's half of a request: it is sent as [msg], and the client's [reply]
    makes of the entry what [f] says; [rest] stays on the socket. *)
Definition request_half (fuel i : nat) (fd : Z) (id : addr_t) (start : M unit) (w : world)
    (msg reply rest : list Z) (f : cmd_event -> cmd_event) : Prop :=
  exists w1, start w = Done tt w1 /\ w_puts w1 = w_puts w ++ [(fd, msg)] /\
    forall s, queued (reply ++ rest) s -> stream_bytes s ->
    runs (_handle_client fuel i s) (fun s' w2 => queued rest s' /\ w_list w2 = upd_list id f (w_list w) /\
      (exists c, w_clients w2 !! i = Some (Some c) /\ cl_mem_access c = None)) w1.

Lemma find_elem p (l : list cmd_event) e : find p l = Some e -> e ∈ l /\ p e = true.
Proof. intros H. apply find_some in H as [H1 H2]. split; [by apply list_elem_of_In|done]. Qed.

Section memory.
Variables (fuel i : nat) (w : world) (c : client) (e : cmd_event) (p : proc) (rest more : list Z).
Hypothesis (Hinv : inv w) (Hages : ages_low (w_pages w)).
Hypothesis (Hserves : serves w i c e) (Hlistens : listens c) (Hfuel : (1 <= fuel)%nat).
Hypothesis (Haddr : is_u 64 (ev_addr e)) (Hsize : 0 < ev_size e).
Hypothesis (Hidle : idle (pr_afu p)) (Hok : pr_put_ok p = []).

(** C28: a read of the AFU, from the server's command list to the application's
    memory and back: the request that the server sends makes the library's thread
    answer with the bytes at the command's address, and that answer puts exactly
    those bytes at the address's place in the entry's line, completes the entry
    and frees the client; the memory is untouched. *)
Theorem memory_read_end_to_end data :
  find open_read (w_list w) = Some e -> ev_state e = MEM_IDLE ->
  mem_has (pr_mem p) (ev_addr e) data -> Z.of_nat (length data) = ev_size e ->
  exists msg reply,
    request_half fuel i (cl_fd c) (ev_id e) handle_buffer_write w msg reply more (with_data e data MEM_DONE) /\
    (queued (msg ++ rest) (pr_in p) ->
     runs (psl_turn fuel) (fun go p' => go = true /\ replied p (pr_mem p) reply rest p') p).
Proof using All.
  intros Hf Hs Hm Hl. destruct (find_elem _ _ _ Hf) as [He Hop].
  pose proof (iv_events _ _ Hinv e He) as Hev. pose proof (eo_size _ _ Hev) as Hsz.
  exists (7 :: be_bytes 2 (u16 (ev_size e)) ++ be_bytes 8 (ev_addr e)), (OCSE_MEM_SUCCESS :: data). split.
  - destruct (read_is_requested w i c e Hf Hs Hserves) as (w1 & Hw1 & Hreq).
    assert (Hinv1 : inv w1) by exact (wp_done _ _ _ _ _ (handle_buffer_write_ok _ w Hinv) Hw1).
    pose proof (requested_awaits _ _ _ _ _ _ _ Hinv1 Hages He Hserves Hlistens Hreq) as Haw.
    exists w1. split; [done|]. destruct Hreq as (Hp & Hlist & _). split; [done|]. intros s Hq Hsb.
    eapply runs_mono; [apply (serve_ack fuel i _ _ OCSE_MEM_SUCCESS true data more s w1
      (with_data (e <| ev_state := MEM_REQUEST |>) data MEM_DONE) Haw)|].
    + by destruct Hlistens.
    + by left.
    + done.
    + done.
    + done.
    + intros s1 Hq1 Hs1. destruct (get_queued fuel (ev_size e) data more s1) as (s2 & Hg & Hq2); [done|lia|lia|done|].
      destruct (read_is_answered w1 fuel i _ _ s1 data s2 Haw) as (w2 & Hack & H1 & H2 & H3); [|done| |by exists s2, w2].
      * unfold open_read in Hop. change (ev_type (e <| ev_state := MEM_REQUEST |>)) with (ev_type e).
        case_bool_decide; [done|]. done.
      * change (cl_abort (c <| cl_mem_access := Some (ev_id e) |>)) with (cl_abort c). rewrite (li_abort _ Hlistens). exact Hg.
    + intros s' w2 [Hq' [Hl2 Hc2 _]]. split_and!; [done| |done]. rewrite Hl2, Hlist.
      change (ev_id (e <| ev_state := MEM_REQUEST |>)) with (ev_id e). by rewrite upd_upd.
  - intros Hq. apply (library_reads fuel (ev_addr e) data rest p); try done; [lia|].
    unfold u16 in Hq. rewrite (is_u_small 16) in Hq by (unfold is_u; change (2 ^ 16) with 65536; lia).
    rewrite Hl. rewrite <- app_comm_cons, <- app_assoc in Hq. exact Hq.
Qed.

(** C29: a write of the AFU, from the server's command list to the application's
    memory and back: the request makes the library's thread store exactly the
    bytes the AFU sent for that address - at the address's place in the line for
    a partial write, from its start otherwise - and nothing else; the answer
    completes the entry and frees the client. *)
Theorem memory_write_end_to_end :
  find (in_state CMD_WRITE MEM_RECEIVED) (w_list w) = Some e ->
  mapped (pr_mem p) (ev_addr e) (Z.to_nat (ev_size e)) ->
  let data := take (Z.to_nat (ev_size e))
    (drop (if ev_size e <=? 32 then Z.to_nat (ev_addr e mod 64) else 0%nat) (ev_data e)) in
  exists msg reply,
    request_half fuel i (cl_fd c) (ev_id e) handle_afu_tlx_write_cmd w msg reply more
      (fun x => x <| ev_state := MEM_DONE |>) /\
    (queued (msg ++ rest) (pr_in p) ->
     runs (psl_turn fuel) (fun go p' => go = true /\ replied p (put_mem (pr_mem p) (ev_addr e) data) reply rest p') p).
Proof using All.
  intros Hf Hm data. destruct (find_elem _ _ _ Hf) as [He Hop].
  unfold in_state in Hop. apply andb_true_iff in Hop as [Ht%bool_decide_eq_true Hs%bool_decide_eq_true].
  pose proof (iv_events _ _ Hinv e He) as Hev. pose proof (eo_size _ _ Hev) as Hsz.
  exists (8 :: be_bytes 2 (ev_size e) ++ be_bytes 8 (ev_addr e) ++ data), [OCSE_MEM_SUCCESS]. split.
  - destruct (write_is_requested w i c e Hf Hserves (eo_data _ _ Hev) Hsz) as (w1 & Hw1 & Hreq).
    assert (Hinv1 : inv w1) by exact (wp_done _ _ _ _ _ (handle_afu_tlx_write_cmd_ok _ w Hinv) Hw1).
    pose proof (requested_awaits _ _ _ _ _ _ _ Hinv1 Hages He Hserves Hlistens Hreq) as Haw.
    exists w1. split; [done|]. destruct Hreq as (Hp & Hlist & _). split; [done|]. intros s Hq Hsb.
    eapply runs_mono; [apply (serve_ack fuel i _ _ OCSE_MEM_SUCCESS true [] more s w1
      (fun x => x <| ev_state := MEM_DONE |>) Haw)|].
    + by destruct Hlistens.
    + by left.
    + done.
    + done.
    + done.
    + intros s1 Hq1 Hs1. destruct (write_is_answered w1 fuel i _ _ s1 Haw) as (w2 & Hack & H1 & H2 & H3);
        [by left|done|by exists s1, w2].
    + intros s' w2 [Hq' [Hl2 Hc2 _]]. split_and!; [done| |done]. rewrite Hl2, Hlist.
      change (ev_id (e <| ev_state := DMA_MEM_RESP |>)) with (ev_id e). by rewrite upd_upd.
  - intros Hq.
    assert (Hl : length data = Z.to_nat (ev_size e)).
    { unfold data. rewrite length_take, length_drop, (proj1 (eo_data _ _ Hev)).
      pose proof (Z.mod_pos_bound (ev_addr e) 64). destruct (Z.leb_spec (ev_size e) 32); lia. }
    apply (library_writes fuel (ev_addr e) data rest p); try done; [lia|by rewrite Hl|].
    rewrite Hl, Z2Nat.id by lia. rewrite <- app_comm_cons, <- !app_assoc in Hq. exact Hq.
Qed.
End memory.

(** ** A concrete run: the word at 0x1004, which is little-endian 4, 3, 2, 1 *)

Lemma sample_ages h l c : ages_low (w_pages (sample_world h l c)).
Proof.
  intros row ages i a Hr Ha. apply (lookup_replicate PAGE_ENTRIES) in Hr as [-> _].
  by apply (lookup_replicate PAGE_WAYS) in Ha as [-> _].
Qed.

Lemma sample_one_inv h type command addr size s op data :
  h = 64 \/ h = 128 \/ h = 256 -> legal_size size -> size <= 64 -> command <> AFU_CMD_INTRP_REQ_D ->
  type <> CMD_AMO_RD -> type <> CMD_AMO_RW -> s <> MEM_CAS_RD -> is_array 256 data ->
  inv (sample_world h [sample_entry type command addr size s op <| ev_data := data |>] sample_client).
Proof.
  intros. apply sample_inv; try done; [|by left]. apply sample_entry_ok; try done. by right.
Qed.

Definition word_read : cmd_event :=
  sample_entry CMD_READ AFU_CMD_PR_RD_WNITC 0x1004 4 MEM_IDLE TLX_RSP_READ_RESP <| ev_data := zeros 256 |>.
Definition word_write : cmd_event :=
  sample_entry CMD_WRITE AFU_CMD_DMA_PR_W 0x1004 4 MEM_RECEIVED TLX_RSP_WRITE_RESP
    <| ev_data := overwrite (zeros 256) 4 [1; 2; 3; 4] |>.

Lemma memory_read_end_to_end_witness :
  let p := sample_proc [0; 0; 0; 0; 4; 3; 2; 1] [7; 0; 4; 0; 0; 0; 0; 0; 0; 0x10; 4] in
  exists msg reply,
    request_half 1 0 9 0%nat handle_buffer_write (sample_world 128 [word_read] sample_client) msg reply []
      (with_data word_read [4; 3; 2; 1] MEM_DONE) /\
    (queued (msg ++ []) (pr_in p) ->
     runs (psl_turn 1) (fun go p' => go = true /\ replied p (pr_mem p) reply [] p') p).
Proof.
  intros p. assert (Hm : mem_has (pr_mem p) 0x1004 [4; 3; 2; 1]) by mem_has_list.
  assert (Ha : is_u 64 0x1004) by (split; [discriminate|reflexivity]).
  assert (Hi : inv (sample_world 128 [word_read] sample_client)).
  { apply sample_one_inv; try done; [by right; left|left; lia|by split; auto with ocse]. }
  exact (memory_read_end_to_end 1 0 (sample_world 128 [word_read] sample_client) sample_client word_read p [] []
    Hi (sample_ages _ _ _) (sample_serves 128 word_read eq_refl) (Listens sample_client eq_refl eq_refl eq_refl)
    (le_n 1) Ha eq_refl sample_idle eq_refl [4; 3; 2; 1] eq_refl eq_refl Hm eq_refl).
Defined.

Lemma memory_write_end_to_end_witness :
  let p := sample_proc [0; 0; 0; 0; 0; 0; 0; 0] [8; 0; 4; 0; 0; 0; 0; 0; 0; 0x10; 4; 1; 2; 3; 4] in
  exists msg reply,
    request_half 1 0 9 0%nat handle_afu_tlx_write_cmd (sample_world 128 [word_write] sample_client) msg reply []
      (fun x => x <| ev_state := MEM_DONE |>) /\
    (queued (msg ++ []) (pr_in p) ->
     runs (psl_turn 1) (fun go p' => go = true /\ replied p (put_mem (pr_mem p) 0x1004 [1; 2; 3; 4]) reply [] p') p).
Proof.
  intros p.
  assert (Hm : mapped (pr_mem p) 0x1004 4).
  { apply (has_mapped _ _ [0; 0; 0; 0]). mem_has_list. }
  assert (Ha : is_u 64 0x1004) by (split; [discriminate|reflexivity]).
  assert (Hi : inv (sample_world 128 [word_write] sample_client)).
  { apply sample_one_inv; try done; [by right; left|left; lia|].
    split; [done|]. apply Forall_overwrite; [apply zeros_bytes|bytes_list]. }
  exact (memory_write_end_to_end 1 0 (sample_world 128 [word_write] sample_client) sample_client word_write p [] []
    Hi (sample_ages _ _ _) (sample_serves 128 word_write eq_refl) (Listens sample_client eq_refl eq_refl eq_refl)
    (le_n 1) Ha eq_refl sample_idle eq_refl eq_refl Hm).
Defined.
