(* ===== verification/AmoEnd.v ===== *)
(** The AFU's atomic operations from end to end: the entry of the server's
    command list, the message to the client, the operation on the application's
    memory, the reply with the old value, and the entry that it leaves.  The
    server sends the sixteen bytes from the address's place in the line on, and
    the library looks for the operands at the address's place in those: the two
    agree when the address is a multiple of sixteen. *)
From stdpp Require Import gmap.
From S2P Require Import Prelude Utils Event TlxHost TlxAfu TlxApi Parms.
From S2P Require Import CmdState Cmd CmdHandlers CmdFrame CmdLogic CmdInv CmdSafe CmdSafeResp CmdSafeAdd.
From S2P Require Import Mmio Ocl MmioInv OclInv CmdProps MmioRun.
From S2P Require Import Monad LibState Lib Dmo LibLoop LibRun DmoProps MemEnd.

(** * The server's half *)

(** The request of an operation with data. *)
Definition amo_opcode (e : cmd_event) : Z :=
  if bool_decide (ev_type e = CMD_AMO_WR) then OCSE_AMO_WR else OCSE_AMO_RW.

Definition amo_data (e : cmd_event) : list Z :=
  take 16 (drop (Z.to_nat (ev_addr e mod 64)) (ev_data e)).

Lemma line_offset_mod addr : line_offset addr = addr mod 64.
Proof. unfold line_offset, CACHELINE_OFFSET. exact (Z.land_ones addr 6 ltac:(lia)). Qed.

Lemma amo_request_message e :
  ev_type e = CMD_AMO_WR \/ ev_type e = CMD_AMO_RW -> length (ev_data e) = 256%nat -> is_u 8 (ev_size e) ->
  amo_request e = Some (amo_message (amo_opcode e) (ev_size e) (ev_addr e) (ev_cmd_flag e) (ev_cmd_endian e) (amo_data e)).
Proof.
  intros Ht Hd Hs. pose proof (Z.mod_pos_bound (ev_addr e) 64). unfold amo_request, amo_message, amo_data, amo_opcode.
  assert (Hsl : slice (ev_data e) (line_offset (ev_addr e)) 16 =
    Some (take 16 (drop (Z.to_nat (ev_addr e mod 64)) (ev_data e)))).
  { rewrite line_offset_mod. apply slice_some; lia. }
  unfold amo_header, u8. rewrite (is_u_small 8) by done.
  destruct Ht as [Ht|Ht]; rewrite Ht, Hsl; cbn [mbind option_bind]; rewrite <- !app_assoc; done.
Qed.

(** The request is on the client's socket, and the client waits for the entry. *)
Lemma amo_is_requested w i c e msg :
  find amo_ready (w_list w) = Some e -> serves w i c e -> amo_request e = Some msg ->
  exists w1, handle_write_be_or_amo w = Done tt w1 /\
    w_puts w1 = w_puts w ++ [(cl_fd c, msg)] /\ w_list w1 = w_list w /\
    w_clients w1 = alter (fmap (fun c => c <| cl_mem_access := Some (ev_id e) |>)) i (w_clients w) /\
    w_pages w1 = w_pages w /\ w_max_clients w1 = w_max_clients w.
Proof.
  intros Hf [Hc Hctx Hmax Hfree Hup Hquiet] Hmsg. unfold handle_write_be_or_amo.
  rewrite (bind_done _ _ _ _ _ (find_event_here _ _ _ Hf)).
  rewrite (bind_done _ _ _ _ _ (get_client_here _ _ _ _ Hc Hctx Hmax)).
  rewrite (bind_done _ _ _ _ _ (the_client_here _ _ _ Hc)). unfold busy. rewrite Hfree. cbv iota zeta.
  match goal with |- context [draw_faults ?a ?b ?d] => destruct (draw_faults_quiet a b d w Hquiet) as [ds Hq] end.
  rewrite (bind_done _ _ _ _ _ Hq). cbv iota. rewrite Hmsg, (bind_done (lift (Some _)) _ _ _ _ eq_refl).
  set (w1 := w <| w_draws := ds |>). rewrite (bind_done _ _ _ _ _ (put_client_ok i c _ w1 Hc Hup)).
  eexists. split; [reflexivity|]. by split_and!.
Qed.

Lemma amo_awaits w w1 i c e :
  inv w1 -> ages_low (w_pages w) -> e ∈ w_list w -> serves w i c e -> listens c ->
  w_list w1 = w_list w -> w_pages w1 = w_pages w -> w_max_clients w1 = w_max_clients w ->
  w_clients w1 = alter (fmap (fun c => c <| cl_mem_access := Some (ev_id e) |>)) i (w_clients w) ->
  awaits w1 i (c <| cl_mem_access := Some (ev_id e) |>) e.
Proof.
  intros Hinv Hages He [Hc Hctx Hmc _ _ _] [Hv _ _] Hl Hp Hm Hcl. constructor; try done.
  - by rewrite Hl.
  - by rewrite Hcl, list_lookup_alter_eq, Hc.
  - by rewrite Hm.
  - by rewrite Hp.
Qed.

(** The entry as the old value leaves it; its size becomes a length code. *)
Definition with_old (e : cmd_event) (d : list Z) (x : cmd_event) : cmd_event :=
  with_data e d MEM_DONE x <| ev_size := if ev_size x =? 4 then 2 else 3 |>.

Lemma swap_is_answered w fuel i c e s d s' :
  awaits w i c e -> ev_type e = CMD_AMO_RW -> stream_bytes s ->
  get_bytes_silent fuel (truthy (cl_abort c)) (ev_size e) s = GotBytes d s' ->
  exists w', memory_ack fuel i true s w = Done s' w' /\
    w_list w' = upd_list (ev_id e) (with_old e d) (w_list w) /\
    w_clients w' = alter (fmap (fun c => c <| cl_mem_access := None |>)) i (w_clients w) /\
    w_event w' = w_event w.
Proof.
  intros Haw Ht Hs Hg. apply (memory_ack_run w fuel i c e); [done|]. intros w1 Hinv Hlist.
  pose proof (find_id _ _ (iv_ids _ _ (aw_inv _ _ _ _ Haw)) (aw_entry _ _ _ _ Haw)) as Hfind.
  pose proof (iv_events _ _ (aw_inv _ _ _ _ Haw) e (aw_entry _ _ _ _ Haw)) as Hok. rewrite <- Hlist in Hfind.
  pose proof (eo_size _ _ Hok) as Hsz.
  destruct (get_bytes_silent_bytes _ _ _ _ _ _ (proj1 Hsz) Hg Hs) as (_ & Hl & _).
  rewrite Ht. change (bool_decide (CMD_AMO_RW = CMD_READ)) with false. cbv iota.
  rewrite (bind_done (mret s) _ w1 s w1 eq_refl). unfold mem_returned.
  rewrite (bind_done _ _ _ _ _ (get_event_here _ e w1 Hfind)), Ht.
  set (f := with_data e d MEM_DONE).
  assert (Hread : CmdHandlers._handle_mem_read fuel (truthy (cl_abort c)) (ev_id e) s w1 =
    Done s' (w1 <| w_list := upd_list (ev_id e) f (w_list w1) |>)).
  { unfold CmdHandlers._handle_mem_read. rewrite (bind_done _ _ _ _ _ (get_event_here _ _ w1 Hfind)). cbv zeta. rewrite Ht.
    assert (i32 (ev_size e) = ev_size e) as ->.
    { unfold i32. rewrite Z.mod_small; [lia|]. change (2 ^ 31) with 2147483648. change (2 ^ 32) with 4294967296. lia. }
    change (_ || (_ || _)) with true. cbv iota. rewrite Hg, (copy_line (w_host_CL_size w)) by done. done. }
  rewrite (bind_done _ _ _ _ _ Hread). set (w2 := w1 <| w_list := _ |>).
  change ((upd_event (ev_id e) (fun e => e <| ev_size := if ev_size e =? 4 then 2 else 3 |>);; mret s') w2)
    with (@Done world stream s' (w2 <| w_list := upd_list (ev_id e) (fun e => e <| ev_size := if ev_size e =? 4 then 2 else 3 |>) (w_list w2) |>)).
  f_equal. change (w_list w2) with (upd_list (ev_id e) f (w_list w1)). by rewrite (upd_upd _ f).
Qed.

(** * End to end *)

(** The [n] bytes at [off] from the address's place in the line, in the order of
    the host. *)
Definition line_operand (e : cmd_event) (off : Z) : Z :=
  le_val (ordered (ev_cmd_endian e)
    (take (Z.to_nat (ev_size e)) (drop (Z.to_nat (ev_addr e mod 64 + off)) (ev_data e)))).

Lemma amo_data_at e n off :
  0 <= n -> 0 <= off -> off + n <= 16 ->
  data_at n off (amo_data e) = take (Z.to_nat n) (drop (Z.to_nat (ev_addr e mod 64 + off)) (ev_data e)).
Proof.
  intros Hn Ho Hle. pose proof (Z.mod_pos_bound (ev_addr e) 64). unfold data_at, amo_data.
  rewrite List.skipn_firstn_comm, take_take, drop_drop, Nat.min_l by lia. do 2 f_equal. lia.
Qed.

Lemma amo_data_spec h e : ev_ok h e -> length (amo_data e) = 16%nat /\ bytes (amo_data e).
Proof.
  intros Hok. destruct (eo_data _ _ Hok) as [Hl Hb]. pose proof (Z.mod_pos_bound (ev_addr e) 64).
  unfold amo_data. split; [rewrite length_take, length_drop; lia|auto with ocse].
Qed.

Section atomics.
Variables (fuel i : nat) (w : world) (c : client) (e : cmd_event) (p : proc) (rest more old : list Z).
Hypothesis (Hinv : inv w) (Hages : ages_low (w_pages w)).
Hypothesis (Hserves : serves w i c e) (Hlistens : listens c) (Hfuel : (1 <= fuel)%nat).
Hypothesis (Haddr : is_u 64 (ev_addr e)) (Hidle : idle (pr_afu p)) (Hok : pr_put_ok p = []).
Hypothesis (Hfind : find amo_ready (w_list w) = Some e).
Hypothesis (Htype : ev_type e = CMD_AMO_WR \/ ev_type e = CMD_AMO_RW).
Hypothesis (Hold : mem_has (pr_mem p) (ev_addr e) old) (Hbytes : bytes old).
Hypothesis (Hlen : Z.of_nat (length old) = ev_size e).
Hypothesis (Hlegal : amo_legal (amo_opcode e) (ev_cmd_flag e)) (Hplaced : amo_placed (ev_size e) (ev_addr e)).

(** What the operation stores, with the operands the library takes. *)
Definition amo_result : list Z :=
  le_bytes (Z.to_nat (ev_size e)) (amo_new (ev_cmd_flag e) (ev_size e) (le_val old)
    (line_operand e (Z.land (ev_addr e) 0xc)) (line_operand e (Z.lxor (Z.land (ev_addr e) 0xc) 8))).

(** What the answer makes of the entry. *)
Definition amo_entry : cmd_event -> cmd_event :=
  if bool_decide (ev_type e = CMD_AMO_WR) then fun x => x <| ev_state := MEM_DONE |>
  else with_old e (ordered (ev_cmd_endian e) old).

Lemma amo_server_half :
  request_half fuel i (cl_fd c) (ev_id e) handle_write_be_or_amo w
    (amo_message (amo_opcode e) (ev_size e) (ev_addr e) (ev_cmd_flag e) (ev_cmd_endian e) (amo_data e))
    (amo_reply (amo_opcode e) (ev_cmd_endian e) old) more amo_entry.
Proof using All.
  destruct (find_elem _ _ _ Hfind) as [He Hready]. pose proof (iv_events _ _ Hinv e He) as Hev.
  assert (Hsz : ev_size e = 4 \/ ev_size e = 8) by (destruct Hplaced as [[-> _]|[-> _]]; auto).
  assert (Hmsg : amo_request e = Some (amo_message (amo_opcode e) (ev_size e) (ev_addr e) (ev_cmd_flag e)
    (ev_cmd_endian e) (amo_data e))).
  { apply amo_request_message; [done|exact (proj1 (eo_data _ _ Hev))|].
    by destruct Hsz as [-> | ->]. }
  destruct (amo_is_requested w i c e _ Hfind Hserves Hmsg) as (w1 & Hw1 & Hp & Hl & Hc & Hpg & Hmx).
  assert (Hinv1 : inv w1) by exact (wp_done _ _ _ _ _ (handle_write_be_or_amo_ok _ w Hinv) Hw1).
  pose proof (amo_awaits w w1 i c e Hinv1 Hages He Hserves Hlistens Hl Hpg Hmx Hc) as Haw.
  exists w1. split; [done|]. split; [done|]. intros s Hq Hsb.
  eapply runs_mono; [apply (serve_ack fuel i _ _ OCSE_MEM_SUCCESS true
    (if amo_opcode e =? OCSE_AMO_WR then [] else ordered (ev_cmd_endian e) old) more s w1 amo_entry Haw);
    [by destruct Hlistens|by left|done..|]|].
  - intros s1 Hq1 Hs1. unfold amo_entry, amo_opcode in *. case_bool_decide as Ht.
    + assert (Hst : ev_state e <> MEM_TOUCH).
      { unfold amo_ready in Hready. apply andb_true_iff in Hready as [_ Hst%bool_decide_eq_true]. by rewrite Hst. }
      destruct (write_is_answered w1 fuel i _ _ s1 Haw) as (w2 & Hack & H1 & H2 & H3); [auto|done|by exists s1, w2].
    + assert (Hrw : ev_type e = CMD_AMO_RW) by (by destruct Htype).
      change (OCSE_AMO_RW =? OCSE_AMO_WR) with false in Hq1. cbv iota in Hq1.
      assert (Hol : Z.of_nat (length (ordered (ev_cmd_endian e) old)) = ev_size e).
      { unfold ordered. destruct (_ =? _); by rewrite ?length_rev. }
      destruct (get_queued fuel (ev_size e) _ more s1 Hq1) as (s2 & Hg & Hq2); [by rewrite Hol|lia|done|].
      destruct (swap_is_answered w1 fuel i _ _ s1 (ordered (ev_cmd_endian e) old) s2 Haw)
        as (w2 & Hack & H1 & H2 & H3); [done|done| |by exists s2, w2].
      change (cl_abort (c <| cl_mem_access := Some (ev_id e) |>)) with (cl_abort c). rewrite (li_abort _ Hlistens). exact Hg.
  - intros s' w2 [Hq' [Hl2 Hc2 _]]. split_and!; [done|by rewrite Hl2, Hl|done].
Qed.

Lemma amo_library_half :
  queued (amo_message (amo_opcode e) (ev_size e) (ev_addr e) (ev_cmd_flag e) (ev_cmd_endian e) (amo_data e) ++ rest) (pr_in p) ->
  runs (psl_turn fuel) (fun go p' => go = true /\
    replied p (put_mem (pr_mem p) (ev_addr e) amo_result) (amo_reply (amo_opcode e) (ev_cmd_endian e) old) rest p') p.
Proof using All.
  intros Hq. destruct (find_elem _ _ _ Hfind) as [He _]. pose proof (iv_events _ _ Hinv e He) as Hev.
  destruct (amo_data_spec _ _ Hev) as [Hl Hb]. destruct (amo_placed_fits _ _ Hplaced) as [H1 H2].
  assert (Hn : 0 <= ev_size e) by lia.
  eapply runs_mono; [apply (amo_turn fuel (amo_opcode e) (ev_cmd_flag e) (ev_cmd_endian e) (ev_size e) (ev_addr e)
    (amo_data e) old rest p); done|].
  intros go p' [-> Hst]. split; [done|]. unfold amo_stored, operand1, operand2 in Hst.
  rewrite !amo_data_at in Hst by lia. exact Hst.
Qed.
End atomics.

(** C30: an atomic store or swap of the AFU at an address that is a multiple of
    sixteen, from the server's command list to the application's memory and back:
    the memory at the address holds the operation's result on its old value, the
    operand at the address's place in the line and the one eight bytes further,
    all in the order of the AFU; a swap's entry has the old value at the address's
    place in its line, and both complete it and free the client. *)
Theorem atomic_end_to_end fuel i w c e p rest more old :
  inv w -> ages_low (w_pages w) -> serves w i c e -> listens c -> (1 <= fuel)%nat ->
  is_u 64 (ev_addr e) -> idle (pr_afu p) -> pr_put_ok p = [] ->
  find amo_ready (w_list w) = Some e -> ev_type e = CMD_AMO_WR \/ ev_type e = CMD_AMO_RW ->
  mem_has (pr_mem p) (ev_addr e) old -> bytes old -> Z.of_nat (length old) = ev_size e ->
  amo_legal (amo_opcode e) (ev_cmd_flag e) -> ev_size e = 4 \/ ev_size e = 8 -> Z.land (ev_addr e) 0xc = 0 ->
  exists msg reply,
    request_half fuel i (cl_fd c) (ev_id e) handle_write_be_or_amo w msg reply more (amo_entry e old) /\
    (queued (msg ++ rest) (pr_in p) ->
     runs (psl_turn fuel) (fun go p' => go = true /\
       replied p (put_mem (pr_mem p) (ev_addr e)
         (le_bytes (Z.to_nat (ev_size e)) (amo_new (ev_cmd_flag e) (ev_size e) (le_val old)
           (line_operand e 0) (line_operand e 8)))) reply rest p') p).
Proof.
  intros Hinv Hages Hserves Hlistens Hfuel Haddr Hidle Hok Hfind Htype Hold Hbytes Hlen Hlegal Hsz H0.
  assert (Hplaced : amo_placed (ev_size e) (ev_addr e)).
  { destruct Hsz as [-> | ->]; [left|right]; rewrite H0; auto. }
  eexists _, _. split; [by apply (amo_server_half fuel i w c e p rest more old)|]. intros Hq.
  pose proof (amo_library_half fuel i w c e p rest more old Hinv) as H. unfold amo_result in H. rewrite H0 in H. by apply H.
Qed.

(** C40: at an address that is not a multiple of sixteen an operation takes its
    operands from the wrong place: the server sends the line from the operand on
    and the library looks [addr & 0xc] bytes further, so the first operand is
    read 4, 8 or 12 bytes past its place in the line.  Asked are the places of
    [amo_placed]: multiples of eight for eight bytes, any word but the third for
    four. *)
Theorem atomic_operand_misplaced fuel i w c e p rest more old :
  inv w -> ages_low (w_pages w) -> serves w i c e -> listens c -> (1 <= fuel)%nat ->
  is_u 64 (ev_addr e) -> idle (pr_afu p) -> pr_put_ok p = [] ->
  find amo_ready (w_list w) = Some e -> ev_type e = CMD_AMO_WR \/ ev_type e = CMD_AMO_RW ->
  mem_has (pr_mem p) (ev_addr e) old -> bytes old -> Z.of_nat (length old) = ev_size e ->
  amo_legal (amo_opcode e) (ev_cmd_flag e) -> amo_placed (ev_size e) (ev_addr e) -> Z.land (ev_addr e) 0xc <> 0 ->
  exists msg reply,
    request_half fuel i (cl_fd c) (ev_id e) handle_write_be_or_amo w msg reply more (amo_entry e old) /\
    (queued (msg ++ rest) (pr_in p) ->
     runs (psl_turn fuel) (fun go p' => go = true /\
       replied p (put_mem (pr_mem p) (ev_addr e)
         (le_bytes (Z.to_nat (ev_size e)) (amo_new (ev_cmd_flag e) (ev_size e) (le_val old)
           (line_operand e (Z.land (ev_addr e) 0xc)) (line_operand e (Z.lxor (Z.land (ev_addr e) 0xc) 8))))) reply rest p') p).
Proof.
  intros Hinv Hages Hserves Hlistens Hfuel Haddr Hidle Hok Hfind Htype Hold Hbytes Hlen Hlegal Hplaced _.
  eexists _, _. split; [by apply (amo_server_half fuel i w c e p rest more old)|]. intros Hq.
  by apply (amo_library_half fuel i w c e p rest more old Hinv).
Qed.

(** ** A concrete run: 5 is added to the word 7, and 9 is in the word after it *)

Definition word_add (addr : Z) : cmd_event :=
  sample_entry CMD_AMO_WR AFU_CMD_AMO_W addr 4 MEM_RECEIVED TLX_RSP_WRITE_RESP
    <| ev_data := overwrite (zeros 256) (Z.to_nat (addr mod 64)) [5; 0; 0; 0; 9; 0; 0; 0] |>.

Lemma word_add_inv addr : inv (sample_world 128 [word_add addr] sample_client).
Proof.
  pose proof (Z.mod_pos_bound addr 64).
  apply sample_one_inv; try done; [by right; left|left; lia|]. split.
  - rewrite length_overwrite; rewrite length_zeros; cbn [length]; lia.
  - apply Forall_overwrite; [apply zeros_bytes|bytes_list].
Qed.

Lemma atomic_end_to_end_witness :
  let e := word_add 0x1000 in
  let p := sample_proc [7; 0; 0; 0] (amo_message OCSE_AMO_WR 4 0x1000 0 0 (amo_data e) ++ []) in
  exists msg reply,
    request_half 1 0 9 0%nat handle_write_be_or_amo (sample_world 128 [e] sample_client) msg reply []
      (amo_entry e [7; 0; 0; 0]) /\
    (queued (msg ++ []) (pr_in p) ->
     runs (psl_turn 1) (fun go p' => go = true /\
       replied p (put_mem (pr_mem p) 0x1000 [12; 0; 0; 0]) reply [] p') p).
Proof.
  intros e p. assert (Hm : mem_has (pr_mem p) 0x1000 [7; 0; 0; 0]) by mem_has_list.
  assert (Hb : bytes [7; 0; 0; 0]) by bytes_list.
  assert (Ha : is_u 64 0x1000) by (split; [discriminate|reflexivity]).
  assert (Hl : amo_legal OCSE_AMO_WR 0) by (left; split; [reflexivity|split; discriminate]).
  exact (atomic_end_to_end 1 0 (sample_world 128 [e] sample_client) sample_client e p [] [] [7; 0; 0; 0]
    (word_add_inv _) (sample_ages _ _ _) (sample_serves 128 e eq_refl) (Listens sample_client eq_refl eq_refl eq_refl)
    (le_n 1) Ha sample_idle eq_refl eq_refl (or_introl eq_refl) Hm Hb eq_refl Hl (or_introl eq_refl) eq_refl).
Defined.

Lemma atomic_operand_misplaced_witness :
  let e := word_add 0x1004 in
  let p := sample_proc [0; 0; 0; 0; 7; 0; 0; 0] (amo_message OCSE_AMO_WR 4 0x1004 0 0 (amo_data e) ++ []) in
  exists msg reply,
    request_half 1 0 9 0%nat handle_write_be_or_amo (sample_world 128 [e] sample_client) msg reply []
      (amo_entry e [7; 0; 0; 0]) /\
    (queued (msg ++ []) (pr_in p) ->
     runs (psl_turn 1) (fun go p' => go = true /\
       replied p (put_mem (pr_mem p) 0x1004 [16; 0; 0; 0]) reply [] p') p).
Proof.
  intros e p. assert (Hm : mem_has (pr_mem p) 0x1004 [7; 0; 0; 0]) by mem_has_list.
  assert (Hb : bytes [7; 0; 0; 0]) by bytes_list.
  assert (Ha : is_u 64 0x1004) by (split; [discriminate|reflexivity]).
  assert (Hl : amo_legal OCSE_AMO_WR 0) by (left; split; [reflexivity|split; discriminate]).
  assert (Hplaced : amo_placed 4 0x1004) by (left; split; [reflexivity|discriminate]).
  assert (Hoff : Z.land 0x1004 0xc <> 0) by discriminate.
  exact (atomic_operand_misplaced 1 0 (sample_world 128 [e] sample_client) sample_client e p [] [] [7; 0; 0; 0]
    (word_add_inv _) (sample_ages _ _ _) (sample_serves 128 e eq_refl) (Listens sample_client eq_refl eq_refl eq_refl)
    (le_n 1) Ha sample_idle eq_refl eq_refl (or_introl eq_refl) Hm Hb eq_refl Hl Hplaced Hoff).
Defined.
