(* ===== verification/LibOpen.v ===== *)
(** libocxl/libocxl.c: how the application opens an AFU - the connection to the
    server, the search by name or the parts of a device path, the query, the
    opening that starts the library's thread - and how it closes it.

    As in LibApi, [turn] is what happens while a call waits for the thread.  What
    the system provides is given: the lines of ocse_server.dat, whether the
    server's port can be reached, whether [calloc], [pipe] and [pthread_create]
    succeed. *)
From stdpp Require Import gmap.
From S2P Require Import Prelude Utils Parms Monad LibState Lib LibApi.
From Stdlib Require Import Ascii.
Local Open Scope Z_scope.

Definition OCSE_VERSION_MAJOR := 0x03.
Definition OCSE_VERSION_MINOR := 0x00.
Definition OCSE_CONNECT := 0x01.
Definition OCSE_FIND := 0x30.
Definition OCSE_FIND_NTH := 0x31.
Definition OCSE_FIND_ACK := 0x32.
Definition OCSE_FAILED := 0xff.
Definition AFU_NAME_MAX : Z := 24.

Definition bytes_of (s : list ascii) : list Z := map (fun c => Z.of_nat (nat_of_ascii c)) s.

(** * Numbers and names in strings *)

(** [strrchr (s, c) + 1] *)
Fixpoint after_last (c : ascii) (s : list ascii) : option (list ascii) :=
  match s with
  | [] => None
  | x :: s =>
      match after_last c s with
      | Some r => Some r
      | None => if Ascii.eqb x c then Some s else None
      end
  end.

(** [strtok]: the token, and where the next call goes on. *)
Fixpoint strtok (c : ascii) (s : list ascii) : option (list ascii) * list ascii :=
  match s with
  | [] => (None, [])
  | x :: s' =>
      if Ascii.eqb x c then strtok c s'
      else let '(token, rest) := split_at c s in (Some token, default [] rest)
  end.

Definition hex_digit (c : ascii) : option Z :=
  let n := Z.of_nat (nat_of_ascii c) in
  if (48 <=? n) && (n <=? 57) then Some (n - 48)
  else if (65 <=? n) && (n <=? 70) then Some (n - 65 + 10)
  else if (97 <=? n) && (n <=? 102) then Some (n - 97 + 10)
  else None.

Fixpoint hex_digits (acc : Z) (s : list ascii) : Z :=
  match s with
  | [] => acc
  | c :: s => match hex_digit c with Some d => hex_digits (acc * 16 + d) s | None => acc end
  end.

(** A prefix 0x counts when a digit follows. *)
Definition hex_number (s : list ascii) : Z :=
  match s with
  | z :: x :: d :: s' =>
      if (nat_of_ascii z =? 48)%nat && ((nat_of_ascii x =? 120) || (nat_of_ascii x =? 88))%nat &&
         bool_decide (is_Some (hex_digit d))
      then hex_digits 0 (d :: s') else hex_digits 0 s
  | _ => hex_digits 0 s
  end.

Definition clamp_long (x : Z) : Z := Z.max (- 2 ^ 63) (Z.min x (2 ^ 63 - 1)).

(** [strtol (s, NULL, 16)] *)
Fixpoint strtol16 (s : list ascii) : Z :=
  match s with
  | [] => 0
  | c :: s' =>
      if is_space c then strtol16 s'
      else if (nat_of_ascii c =? 45)%nat then clamp_long (- hex_number s')
      else if (nat_of_ascii c =? 43)%nat then clamp_long (hex_number s')
      else clamp_long (hex_number s)
  end.

(** The number of a [%hu] or [%hhu] in [w] bits, and what follows. *)
Fixpoint digits (acc : Z) (s : list ascii) : Z * list ascii :=
  match s with
  | [] => (acc, [])
  | c :: s' => match digit c with Some d => digits (acc * 10 + d) s' | None => (acc, s) end
  end.

Definition scan_digits (w : Z) (neg : bool) (s : list ascii) : option (Z * list ascii) :=
  match s with
  | c :: _ =>
      match digit c with
      | None => None
      | Some _ =>
          let '(n, rest) := digits 0 s in
          let n := Z.min n (2 ^ 64 - 1) in
          Some ((if neg then - n else n) mod 2 ^ w, rest)
      end
  | [] => None
  end.

Fixpoint scan_unsigned (w : Z) (s : list ascii) : option (Z * list ascii) :=
  match s with
  | [] => None
  | c :: s' =>
      if is_space c then scan_unsigned w s'
      else if (nat_of_ascii c =? 45)%nat then scan_digits w true s'
      else if (nat_of_ascii c =? 43)%nat then scan_digits w false s'
      else scan_digits w false s
  end.

Definition scan_char (c : ascii) (s : list ascii) : option (list ascii) :=
  match s with
  | x :: s => if Ascii.eqb x c then Some s else None
  | [] => None
  end.

Definition ch_dot : ascii := ascii_of_nat 46.
Definition ch_slash : ascii := ascii_of_nat 47.

(** [sscanf (s, "%hu:%hhu:%hhu.%hhu", ...)], when all four are found: the bus, the
    device and the function. *)
Definition scan_physical_function (s : list ascii) : option (Z * Z * Z) :=
  '(domain, s) ← scan_unsigned 16 s; s ← scan_char ch_colon s;
  '(bus, s) ← scan_unsigned 8 s; s ← scan_char ch_colon s;
  '(device, s) ← scan_unsigned 8 s; s ← scan_char ch_dot s;
  '(function, s) ← scan_unsigned 8 s;
  Some (bus, device, function).

(** The position of an AFU. *)
Record position := Position { po_bus : Z; po_dev : Z; po_fcn : Z; po_afuid : Z }.

(** The text after the last slash: the name, the domain, bus, device, function
    and index.  [None]: one of the last four is missing. *)
Definition parse_afu_id (s : list ascii) : option (list ascii * position) :=
  let '(afu_name, s) := strtok ch_dot s in
  let '(dev_domain, s) := strtok ch_colon s in
  let '(dev_bus, s) := strtok ch_colon s in
  let '(dev_device, s) := strtok ch_dot s in
  let '(dev_function, s) := strtok ch_dot s in
  let '(afu_index, _) := strtok ch_dot s in
  bus ← dev_bus; dev ← dev_device; fcn ← dev_function; index ← afu_index; name ← afu_name;
  Some (name, Position (u8 (strtol16 bus)) (u8 (strtol16 dev)) (u8 (strtol16 fcn)) (u8 (strtol16 index))).

(** * Opening *)

Definition no_area : ocxl_mmio_area := MmioArea 0 0 OCXL_GLOBAL_MMIO.

(** The AFU as [calloc] gives it. *)
Definition afu_zero : ocxl_afu := OcxlAfu [] 0 [] 0 0 0 0 0 0 0 no_area no_area 0 0 [no_area; no_area] 0 0 0
  0 0 0 0 0 0 [] LIBOCXL_REQ_IDLE 0 LIBOCXL_REQ_IDLE LIBOCXL_REQ_IDLE
  (MmioReq LIBOCXL_REQ_IDLE 0 0 0) (MemReq LIBOCXL_REQ_IDLE 0 0 0 0 MemNull).

Definition close_socket : L unit := modify (fun p => p <| pr_open := false |>).

(** Of the lines of ocse_server.dat the first that is no comment. *)
Fixpoint server_line (lines : list (list ascii)) : option (list ascii) :=
  match lines with
  | [] => None
  | l :: lines =>
      match l with
      | c :: _ => if Ascii.eqb c ch_hash then server_line lines else Some l
      | [] => Some l
      end
  end.

(** A message on the AFU's socket, which fails once it has been closed. *)
Definition send (l : list Z) : L bool :=
  p ← gets (fun p => p);
  if pr_open p then put_silent l else mret false.

Section opening.
Variable turn : L unit.
Variable fuel : nat.
(** The polls of the socket that are allowed to each message. *)
Variable polls : nat.
(** The environment: the file, the server, the resources. *)
Variable server_dat : option (list (list ascii)).
Variable connects : list ascii -> Z -> bool.
Variables calloc_ok pipe_ok thread_ok : bool.

(** The greeting and its acknowledgement. *)
Definition greet : L (option Z) :=
  ok ← put_silent [79; 67; 83; 69; OCSE_VERSION_MAJOR; OCSE_VERSION_MINOR];
  if negb ok then mret None
  else
    o ← get polls 1;
    match o with
    | None => close_socket;; mret None
    | Some ack =>
        if negb (hd 0 ack =? OCSE_CONNECT) then close_socket;; mret None
        else
          o ← get polls 2;
          match o with
          | None => close_socket;; mret None
          | Some map => mret (Some (htons (le_val map)))
          end
    end.

(** The map of the AFUs there are; [None] for -1.  A line without a colon is
    written to at the null pointer. *)
Definition _ocse_connect : L (option Z) :=
  match server_dat with
  | None => mret None
  | Some lines =>
      match server_line lines with
      | None => mret None
      | Some l =>
          match split_at ch_colon l with
          | (_, None) => undef
          | (host, Some port_str) =>
              if negb (connects host (atoi port_str)) then mret None
              else modify (fun p => p <| pr_open := true |>);; greet
          end
      end
  end.

Definition _alloc_afu : L Z :=
  if calloc_ok then modify (fun p => p <| pr_afu := afu_zero |> <| pr_freed := false |>);; mret OCXL_OK
  else mret OCXL_NO_MEM.

(** A search: the message, of which the first bytes take the answer. *)
Definition find_request (msg : list Z) : L (Z * position) :=
  let failed : L (Z * position) := close_socket;; mret (OCXL_NO_DEV, Position 0 0 0 0) in
  ok ← put_silent msg;
  if negb ok then failed
  else
    o ← get polls 1;
    match o with
    | None => failed
    | Some ack =>
        if hd 0 ack =? OCSE_FAILED then failed
        else if negb (hd 0 ack =? OCSE_FIND_ACK) then failed
        else
          o ← get polls 4;
          match o with
          | None => failed
          | Some b =>
              if Z.of_nat (length msg) <? 4 then undef
              else mret (OCXL_OK, Position (nth 0 b 0) (nth 1 b 0) (nth 2 b 0) (nth 3 b 0))
          end
    end.

Definition _find_afu (name : list Z) : L (Z * position) :=
  find_request (OCSE_FIND :: u8 (Z.of_nat (length name)) :: name).

Definition _find_afu_nth (name : list Z) (card_index afu_index : Z) : L (Z * position) :=
  find_request (OCSE_FIND_NTH :: u8 (Z.of_nat (length name)) :: name ++
    [card_index; if afu_index <? 0 then 0 else 1; u8 afu_index]).

Definition _query_afu (at_ : position) : L Z :=
  if negb pipe_ok then mret OCXL_NO_DEV
  else
    upd_afu (fun a => a <| oa_bus := po_bus at_ |> <| oa_dev := po_dev at_ |> <| oa_fcn := po_fcn at_ |>
      <| oa_afu_index := po_afuid at_ |>);;
    ok ← put_silent [OCSE_QUERY; po_bus at_; po_dev at_; po_fcn at_; po_afuid at_];
    if negb ok then close_socket;; mret OCXL_NO_DEV
    else _all_idle;; mret OCXL_OK.

Definition free_afu : L unit := modify (fun p => p <| pr_freed := true |>).

(** The thread that has been created opens the AFU ([_psl_loop]); when it ends the
    AFU is not attached. *)
Definition _open_afu : L Z :=
  let open_fail : L Z := free_afu;; mret OCXL_INTERNAL_ERROR in
  a ← gets pr_afu;
  ok ← send [OCSE_OPEN; oa_bus a; oa_dev a; oa_fcn a; oa_afu_index a];
  if negb ok then open_fail
  else
    upd_afu (fun a => a <| oa_irq := [] |> <| oa_open := LIBOCXL_REQ_PENDING |>);;
    if negb thread_ok then close_socket;; open_fail
    else
      upd_afu (fun a => a <| oa_opened := 1 |>);;
      until_idle turn fuel oa_open;;
      a ← gets pr_afu;
      if negb (truthy (oa_opened a)) then upd_afu (fun a => a <| oa_attached := 0 |>);; open_fail
      else mret OCXL_OK.

(** [strcpy] into [afu_name]. *)
Definition set_afu_name (name : list Z) : L unit :=
  if AFU_NAME_MAX <? Z.of_nat (length name) then undef
  else upd_afu (fun a => a <| oa_afu_name := name |>).

(** Each call ends with the first result that is not [OCXL_OK]. *)
Definition and_then (m k : L Z) : L Z :=
  rc ← m;
  if negb (rc =? OCXL_OK) then mret rc else k.

Definition ocxl_afu_open (name : list Z) : L Z :=
  and_then _alloc_afu (
    afu_map ← _ocse_connect;
    match afu_map with
    | None => mret OCXL_NO_DEV
    | Some _ =>
        set_afu_name name;;
        '(rc, at_) ← _find_afu name;
        if negb (rc =? OCXL_OK) then mret rc
        else and_then (_query_afu at_) (and_then _open_afu (mret OCXL_OK))
    end).

(** The index is passed as a [uint8_t]. *)
Definition ocxl_afu_open_specific (physical_function : list ascii) (afu_index : Z) : L Z :=
  and_then _alloc_afu (
    afu_map ← _ocse_connect;
    match afu_map with
    | None => mret OCXL_NO_DEV
    | Some _ =>
        match scan_physical_function physical_function with
        | None => mret OCXL_NO_DEV
        | Some (bus, device, function) =>
            and_then (_query_afu (Position bus device function (u8 afu_index))) (and_then _open_afu (mret OCXL_OK))
        end
    end).

(** The results of the query and of the opening are dropped.  Without a pipe the
    AFU's socket has not been set, and the opening writes to descriptor 0: that is
    not modelled further. *)
Definition ocxl_afu_open_from_dev (path : list ascii) : L Z :=
  and_then _alloc_afu (
    afu_map ← _ocse_connect;
    match afu_map with
    | None => mret OCXL_NO_DEV
    | Some _ =>
        afu_id ← lift (after_last ch_slash path);
        match parse_afu_id afu_id with
        | None => mret OCXL_INVALID_ARGS
        | Some (afu_name, at_) =>
            set_afu_name (bytes_of afu_name);;
            _query_afu at_;;
            if negb pipe_ok then undef else _open_afu;; mret OCXL_OK
        end
    end).

(** * Closing *)

Definition DETACH_POLLS : nat := Z.to_nat 180000.

(** The wait for the thread; a timeout is only reported. *)
Fixpoint wait_detached (n : nat) : L unit :=
  match n with
  | O => mret tt
  | S n =>
      a ← gets pr_afu;
      if truthy (oa_attached a) then turn;; wait_detached n else mret tt
  end.

Definition _afu_free : L unit :=
  a ← gets pr_afu;
  when_ (truthy (oa_opened a))
    (ok ← put_silent [OCSE_DETACH];
     when_ ok (wait_detached DETACH_POLLS);;
     close_socket;;
     upd_afu (fun a => a <| oa_opened := 0 |>);;
     upd_afu (fun a => a <| oa_attached := 0 |>));;
  free_afu.

Definition ocxl_afu_close : L Z :=
  upd_afu (fun a => a <| oa_irq := [] |> <| oa_global_mapped := 0 |> <| oa_mapped := 0 |>);;
  _afu_free;;
  mret OCXL_OK.

(** The paths of the AFU are printed to the null pointer. *)
Definition ocxl_afu_get_device_pathname : L (list ascii) := undef.
Definition ocxl_afu_get_sysfs_pathname : L (list ascii) := undef.

Definition ocxl_afu_get_identifier : L (Z * list Z) :=
  gets (fun p => (oa_afu_index (pr_afu p), oa_afu_name (pr_afu p))).
End opening.
