(* ===== verification/OpenEnd.v ===== *)
(** The opening of an AFU from end to end: what the library sends and what the
    server answers, by name and by device path; the AFU that the application gets
    is the one the search found, with the numbers of its card. *)
From Stdlib Require Import Ascii String.
From stdpp Require Import gmap.
From S2P Require Import Prelude Utils Event TlxHost TlxAfu TlxApi Parms.
From S2P Require Import CmdState Cmd CmdHandlers CmdFrame CmdLogic CmdInv CmdSafe CmdSafeResp.
From S2P Require Import Mmio Ocl MmioInv OclInv CmdProps OclProps MmioRun Server ServerProps.
From S2P Require Import Monad LibState Lib Dmo LibLoop LibApi LibRun RegEnd LibOpen.

(** * The messages *)

(** The position a search finds. *)
Definition place : Type := server_ocl * nat * nat.
Definition position_of (h : place) : position :=
  let '(o, fcn, i) := h in Position (so_bus o) 0 (Z.of_nat fcn) (Z.of_nat i).

Definition position_bytes (at_ : position) : list Z := [po_bus at_; po_dev at_; po_fcn at_; po_afuid at_].

(** * The library *)

(** The numbers of the card have the widths of its registers. *)
Record card_fits (f : fcn_cfg) (a : afu_cfg) : Prop := CardFits {
  cf_device : is_u 16 (fc_device_id f); cf_vendor : is_u 16 (fc_vendor_id f);
  cf_major : is_u 8 (af_version_major a); cf_minor : is_u 8 (af_version_minor a);
  cf_offset : is_u 64 (af_global_mmio_offset a); cf_size : is_u 32 (af_global_mmio_size a);
  cf_pp : is_u 64 (af_pp_mmio_offset a); cf_stride : is_u 32 (af_pp_mmio_stride a);
  cf_base : is_u 64 (af_mem_base_address a); cf_mem : is_u 8 (af_mem_size a);
}.

(** What the library knows of the AFU. *)
Definition knows (f : fcn_cfg) (c : afu_cfg) (a : ocxl_afu) : ocxl_afu :=
  a <| oa_device_id := fc_device_id f |> <| oa_vendor_id := fc_vendor_id f |>
    <| oa_afu_version_major := af_version_major c |> <| oa_afu_version_minor := af_version_minor c |>
    <| oa_global_mmio := MmioArea (af_global_mmio_offset c) (af_global_mmio_size c) OCXL_GLOBAL_MMIO |>
    <| oa_per_pasid_mmio := MmioArea (af_pp_mmio_offset c) (af_pp_mmio_stride c) OCXL_PER_PASID_MMIO |>
    <| oa_mmio_count := 0 |> <| oa_mmio_max := 2 |>
    <| oa_mem_base_address := af_mem_base_address c |> <| oa_mem_size := af_mem_size c |>.

(** The query's answer is decoded to the numbers it was made of. *)
Lemma query_decoded f c a : card_fits f c -> query_afu (tail (query_message f c)) a = knows f c a.
Proof.
  intros [H1 H2 H3 H4 H5 H6 H7 H8 H9 H10]. unfold query_afu, knows.
  change (field (tail (query_message f c)) 0 2) with (le_val (le_bytes 2 (fc_device_id f))).
  change (field (tail (query_message f c)) 2 2) with (le_val (le_bytes 2 (fc_vendor_id f))).
  change (field (tail (query_message f c)) 4 1) with (le_val (le_bytes 1 (af_version_major c))).
  change (field (tail (query_message f c)) 5 1) with (le_val (le_bytes 1 (af_version_minor c))).
  change (field (tail (query_message f c)) 6 8) with (le_val (le_bytes 8 (af_global_mmio_offset c))).
  change (field (tail (query_message f c)) 14 4) with (le_val (le_bytes 4 (af_global_mmio_size c))).
  change (field (tail (query_message f c)) 18 8) with (le_val (le_bytes 8 (af_pp_mmio_offset c))).
  change (field (tail (query_message f c)) 26 4) with (le_val (le_bytes 4 (af_pp_mmio_stride c))).
  change (field (tail (query_message f c)) 30 8) with (le_val (le_bytes 8 (af_mem_base_address c))).
  change (field (tail (query_message f c)) 38 1) with (le_val (le_bytes 1 (af_mem_size c))).
  rewrite !le_val_bytes. by rewrite (Z.mod_small (fc_device_id f)), (Z.mod_small (fc_vendor_id f)),
    (Z.mod_small (af_version_major c)), (Z.mod_small (af_version_minor c)), (Z.mod_small (af_global_mmio_offset c)),
    (Z.mod_small (af_global_mmio_size c)), (Z.mod_small (af_pp_mmio_offset c)), (Z.mod_small (af_pp_mmio_stride c)),
    (Z.mod_small (af_mem_base_address c)), (Z.mod_small (af_mem_size c)).
Qed.

(** The environment gives what the opening needs. *)
Definition server_file (dat : option (list (list Ascii.ascii))) (connects : list Ascii.ascii -> Z -> bool) : Prop :=
  exists lines l host port, dat = Some lines /\ server_line lines = Some l /\
    split_at ch_colon l = (host, Some port) /\ connects host (atoi port) = true.

(** The AFU of an application that has opened it. *)
Definition opened_afu (name : list Z) (at_ : position) (f : fcn_cfg) (c : afu_cfg) (context : Z) : ocxl_afu :=
  knows f c (afu_zero <| oa_afu_name := name |> <| oa_bus := po_bus at_ |> <| oa_dev := po_dev at_ |>
    <| oa_fcn := po_fcn at_ |> <| oa_afu_index := po_afuid at_ |>) <| oa_opened := 1 |> <| oa_context := context |>.

(** The process [p'] has opened the AFU after sending [l]. *)
Record has_opened (p p' : proc) (a : ocxl_afu) (l : list (list Z)) (msg : list Z) : Prop := HasOpened {
  ho_afu : pr_afu p' = a;
  ho_out : pr_out p' = pr_out p ++ l;
  ho_in : queued msg (pr_in p');
  ho_state : pr_put_ok p' = [] /\ pr_open p' = true /\ pr_freed p' = false;
  ho_rest : pr_mem p' = pr_mem p /\ pr_wait_list p' = pr_wait_list p;
}.

Lemma runs_send_open l (k : bool -> L Z) Q p :
  pr_open p = true -> pr_put_ok p = [] -> runs (k true) Q (p <| pr_put_ok := [] |> <| pr_out := pr_out p ++ [l] |>) ->
  runs (send l ≫= k) Q p.
Proof.
  intros Ho Hp Hk. unfold runs in *.
  rewrite (bind_done _ _ p true (p <| pr_put_ok := [] |> <| pr_out := pr_out p ++ [l] |>)); [done|].
  unfold send. rewrite bind_gets, Ho. unfold put_silent. by rewrite bind_gets, Hp.
Qed.

Lemma htons_wire x : is_u 16 x -> htons (le_val (le_bytes 2 (htons x))) = x.
Proof.
  intros Hx. assert (H : is_u 16 (htons x)) by (apply (le_val_range 2 (be_bytes 2 x)); [by rewrite length_be_bytes|apply be_bytes_bytes]).
  rewrite le_val_bytes. change (8 * Z.of_nat 2) with 16. rewrite (Z.mod_small _ _ H). by apply htons_be.
Qed.

(** The connection. *)
Lemma runs_connect polls dat connects map msg (k : option Z -> L Z) Q p :
  server_file dat connects -> pr_put_ok p = [] -> (1 <= polls)%nat -> is_u 16 map ->
  queued (handshake_answer map ++ msg) (pr_in p) ->
  (forall s, queued msg s -> runs (k (Some map)) Q
     (p <| pr_open := true |> <| pr_put_ok := [] |> <| pr_out := pr_out p ++ [handshake_message] |> <| pr_in := s |>)) ->
  runs (_ocse_connect polls dat connects ≫= k) Q p.
Proof.
  intros (lines & l & host & port & -> & Hl & Hs & Hc) Hp Hf Hmap Hq Hk. runs_next.
  unfold _ocse_connect. rewrite Hl, Hs, Hc. cbn [negb]. apply runs_modify. unfold greet.
  apply runs_put; [done|]. cbn [negb].
  apply (runs_get_msg _ polls 1 [OCSE_CONNECT] (le_bytes 2 (htons map) ++ msg)); [done..|]. intros s1 H1.
  change (negb (hd 0 [OCSE_CONNECT] =? LibOpen.OCSE_CONNECT)) with false. cbv iota.
  apply (runs_get_msg _ polls 2 (le_bytes 2 (htons map)) msg); [done..|]. intros s2 H2. apply runs_ret.
  rewrite htons_wire by done. by apply Hk.
Qed.

(** The search, the query. *)
Lemma runs_find polls name ack msg (k : Z * position -> L Z) Q p at_ :
  ack = OCSE_FIND_ACK :: position_bytes at_ -> pr_put_ok p = [] -> (1 <= polls)%nat -> (2 <= length name <= 24)%nat ->
  queued (ack ++ msg) (pr_in p) ->
  (forall s, queued msg s -> runs (k (OCXL_OK, at_)) Q
     (p <| pr_put_ok := [] |> <| pr_out := pr_out p ++ [OCSE_FIND :: find_message name] |> <| pr_in := s |>)) ->
  runs (_find_afu polls name ≫= k) Q p.
Proof.
  intros -> Hp Hf Hn Hq Hk. runs_next. unfold _find_afu, find_request, u8. rewrite (is_u_small 8) by (unfold is_u; lia).
  apply runs_put; [done|]. cbn [negb].
  apply (runs_get_msg _ polls 1 [OCSE_FIND_ACK] (position_bytes at_ ++ msg)); [done..|]. intros s1 H1.
  change (hd 0 [OCSE_FIND_ACK] =? LibOpen.OCSE_FAILED) with false.
  change (negb (hd 0 [OCSE_FIND_ACK] =? LibOpen.OCSE_FIND_ACK)) with false. cbv iota.
  apply (runs_get_msg _ polls 4 (position_bytes at_) msg); [done..|]. intros s2 H2.
  replace (_ <? 4) with false by (symmetry; apply Z.ltb_ge; cbn [length]; lia).
  apply runs_ret. destruct at_. by apply Hk.
Qed.

Lemma runs_query at_ (k : Z -> L Z) Q p :
  pr_put_ok p = [] ->
  runs (k OCXL_OK) Q (p <| pr_put_ok := [] |> <| pr_out := pr_out p ++ [OCSE_QUERY :: position_bytes at_] |>
    <| pr_afu := pr_afu p <| oa_bus := po_bus at_ |> <| oa_dev := po_dev at_ |> <| oa_fcn := po_fcn at_ |>
      <| oa_afu_index := po_afuid at_ |> <| oa_int_req := LIBOCXL_REQ_IDLE |> <| oa_open := LIBOCXL_REQ_IDLE |>
      <| oa_attach := LIBOCXL_REQ_IDLE |> <| oa_mmio := oa_mmio (pr_afu p) <| mq_state := LIBOCXL_REQ_IDLE |> |>
      <| oa_mem := oa_mem (pr_afu p) <| eq_state := LIBOCXL_REQ_IDLE |> |>
      <| oa_mapped := 0 |> <| oa_global_mapped := 0 |> <| oa_attached := 0 |> <| oa_opened := 0 |> |>) ->
  runs (_query_afu true at_ ≫= k) Q p.
Proof.
  intros Hp Hk. runs_next. unfold _query_afu. cbn [negb]. unfold upd_afu. apply runs_modify.
  apply runs_put; [done|]. cbn [negb]. unfold _all_idle, upd_afu. apply runs_modify, runs_ret. exact Hk.
Qed.

(** ** The thread *)

Lemma library_query polls f c msg Q p :
  idle (pr_afu p) -> (1 <= polls)%nat -> card_fits f c -> queued (query_message f c ++ msg) (pr_in p) ->
  (forall s, queued msg s -> Q tt (p <| pr_in := s |> <| pr_afu := knows f c (pr_afu p) |>)) ->
  runs (library polls) Q p.
Proof.
  intros Hi Hf Hfit Hq HQ. unfold library. runs_next.
  apply (runs_turn polls OCSE_QUERY (tail (query_message f c) ++ msg) _ p p (send_requests_idle p Hi) Hq Hf).
  intros s Hs. change (take_message polls OCSE_QUERY) with (msg_query polls;; mret true). runs_next. unfold msg_query.
  apply (runs_get_or_idle _ polls 39 tt (tail (query_message f c)) msg); [done..|]. intros s1 H1.
  specialize (HQ s1 H1). rewrite <- (query_decoded f c (pr_afu p) Hfit) in HQ. exact HQ.
Qed.

Lemma library_open polls context msg Q p :
  idle (pr_afu p) -> (1 <= polls)%nat -> queued (OCSE_OPEN :: context :: msg) (pr_in p) ->
  (forall s, queued msg s -> Q tt (p <| pr_in := s |>
     <| pr_afu := pr_afu p <| oa_context := context |> <| oa_open := LIBOCXL_REQ_IDLE |> |>)) ->
  runs (library polls) Q p.
Proof.
  intros Hi Hf Hq HQ. unfold library. runs_next.
  apply (runs_turn polls OCSE_OPEN (context :: msg) _ p p (send_requests_idle p Hi) Hq Hf).
  intros s Hs. change (take_message polls OCSE_OPEN) with (msg_open polls;; mret true). runs_next. unfold msg_open.
  apply (runs_get_or_idle _ polls 1 tt [context] msg); [done..|]. intros s1 H1. by apply HQ.
Qed.

(** The AFU is opened: the thread takes the answers of the query and of the
    opening. *)
Lemma runs_open polls fuel f c context msg (k : Z -> L Z) Q p :
  idle (pr_afu p) -> pr_open p = true -> pr_put_ok p = [] -> (1 <= polls)%nat -> (2 <= fuel)%nat -> card_fits f c ->
  queued (query_message f c ++ OCSE_OPEN :: context :: msg) (pr_in p) ->
  (forall s, queued msg s -> runs (k OCXL_OK) Q (p <| pr_put_ok := [] |>
     <| pr_out := pr_out p ++ [[OCSE_OPEN; oa_bus (pr_afu p); oa_dev (pr_afu p); oa_fcn (pr_afu p); oa_afu_index (pr_afu p)]] |>
     <| pr_in := s |> <| pr_afu := knows f c (pr_afu p <| oa_irq := [] |> <| oa_open := LIBOCXL_REQ_PENDING |> <| oa_opened := 1 |>)
       <| oa_context := context |> <| oa_open := LIBOCXL_REQ_IDLE |> |>)) ->
  runs (_open_afu (library polls) fuel true ≫= k) Q p.
Proof.
  intros Hi Ho Hp Hf Hfuel Hfit Hq Hk. runs_next. unfold _open_afu. apply runs_gets. apply runs_send_open; [done..|].
  cbn [negb]. unfold upd_afu at 1. apply runs_modify. cbn [negb]. unfold upd_afu at 1. apply runs_modify. runs_next.
  destruct fuel as [|[|fuel]]; [lia..|]. unfold until_idle.
  apply runs_until_step; [done|]. eapply (library_query polls f c); [|done|done|exact Hq|].
  { destruct Hi. by constructor. }
  intros s1 H1. apply runs_until_step; [done|]. eapply (library_open polls context msg); [|done|exact H1|].
  { destruct Hi. by constructor. }
  intros s2 H2. apply runs_until_over; [done|]. apply runs_gets.
  change (negb (truthy (oa_opened _))) with false. cbv iota. apply runs_ret. exact (Hk s2 H2).
Qed.

(** * The conversation *)

Definition client_messages (name : list Z) (at_ : position) : list (list Z) :=
  [handshake_message; OCSE_FIND :: find_message name; OCSE_QUERY :: position_bytes at_; OCSE_OPEN :: position_bytes at_].

Definition server_answers (map : Z) (h : place) (f : fcn_cfg) (c : afu_cfg) (i : nat) : list (list Z) :=
  [handshake_answer map; found_ack h; query_message f c; [OCSE_OPEN; u8 (Z.of_nat i)]].

Lemma concat_cons {A} (l : list A) ls msg : concat (l :: ls) ++ msg = l ++ (concat ls ++ msg).
Proof. cbn [concat]. by rewrite app_assoc. Qed.

Lemma library_opens polls fuel dat connects name map h f c i msg p :
  server_file dat connects -> pr_put_ok p = [] -> (1 <= polls)%nat -> (2 <= fuel)%nat ->
  (2 <= length name <= 24)%nat -> is_u 16 map -> card_fits f c ->
  queued (concat (server_answers map h f c i) ++ msg) (pr_in p) ->
  runs (ocxl_afu_open (library polls) fuel polls dat connects true true true name)
    (fun rc p' => rc = OCXL_OK /\ has_opened p p' (opened_afu name (position_of h) f c (u8 (Z.of_nat i)))
       (client_messages name (position_of h)) msg) p.
Proof.
  intros Hdat Hp Hf Hfuel Hn Hmap Hfit Hq. unfold server_answers in Hq. rewrite !concat_cons in Hq. cbn [concat app] in Hq.
  unfold ocxl_afu_open, and_then at 1, _alloc_afu. runs_next. apply runs_modify, runs_ret.
  change (negb (OCXL_OK =? OCXL_OK)) with false. cbv iota.
  eapply (runs_connect polls dat connects map); [done..|exact Hq|]. intros s1 H1. unfold set_afu_name.
  replace (AFU_NAME_MAX <? _) with false by (symmetry; apply Z.ltb_ge; unfold AFU_NAME_MAX; lia).
  unfold upd_afu at 1. apply runs_modify.
  eapply (runs_find polls name (found_ack h) _ _ _ _ (position_of h)); [by destruct h as [[o fcn] j]|done..|exact H1|].
  intros s2 H2. change (negb (OCXL_OK =? OCXL_OK)) with false. cbv iota. unfold and_then at 1.
  apply runs_query; [done|]. change (negb (OCXL_OK =? OCXL_OK)) with false. cbv iota. unfold and_then.
  eapply (runs_open polls fuel f c (u8 (Z.of_nat i)) msg); [by constructor|done..|exact H2|]. intros s3 H3.
  change (negb (OCXL_OK =? OCXL_OK)) with false. cbv iota. apply runs_ret. split; [done|].
  constructor; [done| |exact H3|done|done]. cbn [pr_out set_fld]. unfold client_messages. cbn. by rewrite <- !app_assoc.
Qed.

(** ** The server *)

(** The place [h] that the search finds is the card [n], whose number it has;
    there its function and its AFU are [f] and [c]. *)
Lemma named_elem name h ocls : head (named name ocls) = Some h ->
  let '(o, fcn, i) := h in o ∈ ocls /\ (fcn < 8)%nat /\ exists f c, present_fcn o fcn = Some f /\
    mm_fcn_cfg_array (w_mmio (so_world o)) !! fcn = Some (Some f) /\
    fc_afu_cfg_array f !! i = Some (Some c) /\ same_string name (af_namespace c) = true.
Proof.
  intros Hh%head_Some_elem_of. destruct h as [[o fcn] i]. unfold named, named_on in Hh.
  apply list_elem_of_In, in_flat_map in Hh as (o1 & Ho & Hh). apply in_flat_map in Hh as (fcn1 & Hf%in_seq & Hh).
  destruct (present_fcn o1 fcn1) as [f|] eqn:E; [|done]. apply in_map_iff in Hh as (i1 & [= -> -> ->] & Hi).
  split; [by apply list_elem_of_In|]. split; [lia|]. unfold named_in in Hi.
  apply filter_In in Hi as [_ Hi]. unfold is_named in Hi.
  destruct (fc_afu_cfg_array f !! i) as [[c|]|] eqn:Ec; try done. exists f, c. split_and!; try done.
  unfold present_fcn in E. repeat case_match; try done. by injection E as ->.
Qed.

Definition cfg_at (h : place) : option (fcn_cfg * afu_cfg) :=
  let '(o, fcn, i) := h in
  f ← mjoin (mm_fcn_cfg_array (w_mmio (so_world o)) !! fcn);
  c ← mjoin (fc_afu_cfg_array f !! i);
  Some (f, c).

Definition place_card (h : place) : server_ocl := let '(o, _, _) := h in o.

(** The client of the server's thread once it has queried the AFU at [h], and once
    it has opened it in slot [i]. *)
Definition queried (h : place) (c : client) : client :=
  let at_ := position_of h in positioned (po_bus at_) (po_dev at_) (po_fcn at_) (po_afuid at_) c.

Definition seated_client (fd : Z) (h : place) (i : nat) : client := admitted i (queried h (new_client fd)).

(** A server that can serve the client: the tables are as discovery leaves them,
    the card is found by its number, and has a free slot. *)
Record can_serve (s : session) (name : list Z) (h : place) (n i : nat) : Prop := CanServe {
  cs_put : ss_put_ok s = []; cs_null : ss_null s = true; cs_tables : Forall tables_ok (ss_ocls s);
  cs_first : head (named (name ++ [0]) (ss_ocls s)) = Some h;
  cs_card : _find_ocl (so_bus (place_card h)) 0 (ss_ocls s) = Some (n, place_card h);
  cs_max : 0 < w_max_clients (so_world (place_card h));
  cs_slot : free_slot (slots (so_world (place_card h))) 0 = Some i;
}.

(** What the server's thread leaves of the session [s]. *)
Record served (s s' : session) (fd : Z) (h : place) (n i : nat) (l : list (list Z)) (msg : list Z) : Prop := Served {
  sv_out : ss_out s' = ss_out s ++ l;
  sv_in : queued msg (ss_in s');
  sv_client : ss_client s' = seated_client fd h i;
  sv_ocls : ss_ocls s' = seated n i (seated_client fd h i) (ss_ocls s);
}.

Lemma server_answers_client fuel fd name h f c n i msg s :
  can_serve s name h n i -> cfg_at h = Some (f, c) -> (1 <= fuel)%nat -> (1 <= length name <= 24)%nat ->
  queued (concat (client_messages name (position_of h)) ++ msg) (ss_in s) ->
  runs (_client_connect fuel fd) (fun ok s1 => ok = true /\
    runs (_client_loop fuel 3) (fun _ s2 => served s s2 fd h n i (server_answers (ss_map s) h f c i) msg) s1) s.
Proof.
  intros [Hp Hnull Ht Hh Hcard Hmax Hslot] Hcfg Hf Hn Hq.
  unfold client_messages in Hq. rewrite !concat_cons in Hq. cbn [concat app] in Hq.
  eapply runs_mono; [eapply (connect_run fuel fd _ s Hp Hf Hq)|]. cbv beta. intros ok s1 [-> (str1 & Hq1 & ->)].
  split; [done|]. set (s1 := said _ _).
  assert (L1 : listening s1) by done.
  eapply runs_client_loop with (Q := fun go s' => go = true /\ spoke (s1 <| ss_in := str1 |>) (found_ack h) _ s').
  { eapply runs_client_turn; [exact L1|done|done|exact Hq1|]. intros str Hstr.
    change (take_request fuel OCSE_FIND) with (_find fuel;; mret true). runs_next.
    eapply runs_mono.
    { eapply (find_run fuel name _ (s1 <| ss_in := str |>)); [done|done|exact Ht|done|done|exact Hstr]. }
    cbv beta. intros [] s2 (str2 & Hq2 & ->). apply runs_ret. split; [done|]. exists str2. split; [exact Hq2|].
    unfold find_answer. change (ss_ocls (s1 <| ss_in := str |>)) with (ss_ocls s). by rewrite Hh. }
  cbv beta. intros go s2 [-> (str2 & Hq2 & ->)]. set (s2 := said _ (found_ack h)).
  assert (Hcfg' : forall c', cfg_of (w_mmio (so_world (place_card h))) (queried h c') = Some (f, c)).
  { intros c'. destruct h as [[o fcn] j]. unfold cfg_of, queried. cbn -[mjoin]. rewrite !Nat2Z.id. exact Hcfg. }
  eapply runs_client_loop with (Q := fun go s' => go = true /\
    spoke (with_client s2 (queried h (new_client fd))) (query_message f c) _ s').
  { eapply runs_client_turn; [done|done|done|exact Hq2|]. intros str Hstr.
    change (take_request fuel OCSE_QUERY) with (_query fuel;; mret true). runs_next. eapply runs_mono.
    { eapply (query_run fuel (po_bus (position_of h)) (po_dev (position_of h)) (po_fcn (position_of h))
        (po_afuid (position_of h)) _ n (place_card h) f c (s2 <| ss_in := str |>)); [done|done| |apply Hcfg'|exact Hstr].
      by destruct h as [[o fcn] j]. }
    cbv beta. intros [] s3 (str3 & Hq3 & ->). apply runs_ret. split; [done|]. by exists str3. }
  cbv beta. intros go s3 [-> (str3 & Hq3 & ->)]. set (s3 := said _ (query_message f c)).
  eapply runs_client_loop with (Q := fun go s' => go = false /\ spoke (admission s3 n i) [OCSE_OPEN; u8 (Z.of_nat i)] _ s').
  { eapply runs_client_turn; [done|done|done|exact Hq3|]. intros str Hstr.
    change (take_request fuel OCSE_OPEN) with (_client_associate fuel;; mret false). runs_next. eapply runs_mono.
    { eapply (associate_run fuel (po_bus (position_of h)) (po_dev (position_of h)) (po_fcn (position_of h))
        (po_afuid (position_of h)) _ n (place_card h) i (s3 <| ss_in := str |>));
        [done|done| |exact Hmax|exact Hslot|exact Hstr].
      by destruct h as [[o fcn] j]. }
    cbv beta. intros ok s4 [-> (str4 & Hq4 & ->)]. apply runs_ret. split; [done|]. by exists str4. }
  cbv beta. intros go s4 [-> (str4 & Hq4 & ->)]. constructor; [|exact Hq4|done|done].
  cbn [ss_out said set_fld]. cbn. by rewrite <- !app_assoc.
Qed.

Lemma card_elem s name h n i : can_serve s name h n i -> ss_ocls s !! n = Some (place_card h).
Proof. intros [_ _ _ _ Hcard _ _]. destruct (find_ocl_lookup _ _ _ _ _ Hcard) as (_ & Hl & _). by rewrite Nat.sub_0_r in Hl. Qed.

(** The client's admission is a step of the AFU's thread. *)
Lemma seated_reachable s name h n i fd f c :
  can_serve s name h n i -> cfg_at h = Some (f, c) -> reachable (so_world (place_card h)) ->
  exists o, seated n i (seated_client fd h i) (ss_ocls s) !! n = Some o /\ reachable (so_world o) /\
    w_clients (so_world o) !! i = Some (Some (seated_client fd h i)).
Proof.
  intros Hs Hcfg Hr. apply (admission_step (with_client s (queried h (new_client fd))) n i (place_card h));
    [done|exact (card_elem _ _ _ _ _ Hs)|by destruct Hs|done..|].
  exists (f, c). destruct h as [[o fcn] j]. cbn -[mjoin]. unfold cfg_of. cbn -[mjoin]. rewrite !Nat2Z.id. exact Hcfg.
Qed.

(** * End to end *)

(** C17: the application opens an AFU by its name: what the library sends makes the
    server's thread answer with the position of the first AFU of that name, with
    its numbers and with a slot, and those answers make the call succeed.  The
    application then has the AFU of that name, with exactly the numbers that the
    server has for it and the slot as its context; the client is in that slot of
    the card's thread, which has made a legal step. *)
Theorem open_end_to_end fuel polls calls fd dat connects name h f c n i msg1 msg2 s p :
  can_serve s name h n i -> cfg_at h = Some (f, c) -> card_fits f c -> is_u 16 (ss_map s) ->
  reachable (so_world (place_card h)) -> server_file dat connects -> pr_put_ok p = [] ->
  (1 <= fuel)%nat -> (1 <= polls)%nat -> (2 <= calls)%nat -> (2 <= length name <= 24)%nat ->
  queued (concat (client_messages name (position_of h)) ++ msg1) (ss_in s) ->
  queued (concat (server_answers (ss_map s) h f c i) ++ msg2) (pr_in p) ->
  same_string (name ++ [0]) (af_namespace c) = true /\
  (exists p', ocxl_afu_open (library polls) calls polls dat connects true true true name p = Done OCXL_OK p' /\
     has_opened p p' (opened_afu name (position_of h) f c (u8 (Z.of_nat i))) (client_messages name (position_of h)) msg2) /\
  (exists s1 s2 o, _client_connect fuel fd s = Done true s1 /\ _client_loop fuel 3 s1 = Done tt s2 /\
     served s s2 fd h n i (server_answers (ss_map s) h f c i) msg1 /\ ss_ocls s2 !! n = Some o /\
     reachable (so_world o) /\ w_clients (so_world o) !! i = Some (Some (seated_client fd h i))).
Proof.
  intros Hs Hcfg Hfit Hmap Hr Hdat Hp Hf Hpolls Hcalls Hn Hq1 Hq2. split; [|split].
  - pose proof (named_elem _ _ _ (cs_first _ _ _ _ _ Hs)) as Hh. destruct h as [[o fcn] j].
    destruct Hh as (_ & _ & f1 & c1 & _ & Hf1 & Hc1 & Hsame). unfold cfg_at in Hcfg. rewrite Hf1 in Hcfg. cbn in Hcfg.
    rewrite Hc1 in Hcfg. cbn in Hcfg. by injection Hcfg as <- <-.
  - destruct (runs_done _ _ _ (library_opens polls calls dat connects name (ss_map s) h f c i msg2 p Hdat Hp Hpolls Hcalls
      Hn Hmap Hfit Hq2)) as (rc & p' & E & -> & Ho). by exists p'.
  - assert (Hn' : (1 <= length name <= 24)%nat) by lia.
    destruct (runs_done _ _ _ (server_answers_client fuel fd name h f c n i msg1 s Hs Hcfg Hf Hn' Hq1))
      as (ok & s1 & E1 & -> & H1). destruct (runs_done _ _ _ H1) as ([] & s2 & E2 & Hsv).
    destruct (seated_reachable s name h n i fd f c Hs Hcfg Hr) as (o & Ho & Hro & Hc).
    exists s1, s2, o. split_and!; try done. by rewrite (sv_ocls _ _ _ _ _ _ _ _ Hsv).
Qed.

(** The application of the sample opens the AFU of the first of the two cards. *)
Definition sample_place : place := (ServerOcl 0 0 card_start, 1%nat, 0%nat).
Definition sample_file : list (list Ascii.ascii) := [String.list_ascii_of_string "localhost:16384"%string].

Lemma sample_can_serve msg : can_serve (sample_session msg) card_name sample_place 0 0.
Proof. constructor; first [done | apply two_cards_ok | by vm_compute]. Qed.

Lemma card_start_reachable : reachable card_start.
Proof.
  apply reach_start. split_and!; [apply OclProps.sample_afu_wf|done|by constructor| |done..].
  constructor; cbn; [by right; left|lia|lia|].
  repeat (apply List.Forall_cons; [cbn; lia|]). apply Forall_nil_2.
Qed.

Lemma open_end_to_end_witness :
  let msgs := client_messages card_name (Position 0 0 1 0) in
  let answers := server_answers 0xA000 sample_place card_fcn card_afu 0 in
  let p := sample_proc [] (concat answers) in
  let a := opened_afu card_name (Position 0 0 1 0) card_fcn card_afu 0 in
  oa_mem_size a = 32 /\
  exists p', ocxl_afu_open (library 1) 2 1 (Some sample_file) (fun _ _ => true) true true true card_name p = Done OCXL_OK p' /\
    has_opened p p' a msgs [].
Proof.
  intros msgs answers p a. split; [reflexivity|]. set (s := sample_session (concat msgs)).
  assert (Hq1 : queued (concat msgs ++ []) (ss_in s)) by (rewrite app_nil_r; apply sample_session_queued).
  assert (Hq2 : queued (concat answers ++ []) (pr_in p)) by (rewrite app_nil_r; apply sample_queued).
  assert (Hfit : card_fits card_fcn card_afu) by (constructor; split; done).
  assert (Hdat : server_file (Some sample_file) (fun _ _ => true)) by (do 4 eexists; split_and!; reflexivity).
  assert (Hlen : (2 <= length card_name <= 24)%nat) by (cbn; lia).
  assert (Hmap : is_u 16 (ss_map s)) by (split; done).
  exact (proj1 (proj2 (open_end_to_end 1 1 2 9 (Some sample_file) (fun _ _ => true) card_name sample_place card_fcn card_afu
    0 0 [] [] s p (sample_can_serve _) eq_refl Hfit Hmap card_start_reachable Hdat eq_refl (le_n 1) (le_n 1) (le_n 2)
    Hlen Hq1 Hq2))).
Defined.

(** * The device path *)

(** The format of the paths: "%s.0000:%02x:%02x.%x.%x" after "/dev/ocxl/". *)
Definition hex_char (d : Z) : Ascii.ascii := Ascii.ascii_of_nat (Z.to_nat (if d <? 10 then 48 + d else 87 + d)).
Definition hex2 (x : Z) : list Ascii.ascii := [hex_char (x / 16); hex_char (x mod 16)].
Definition hex (x : Z) : list Ascii.ascii := if x <? 16 then [hex_char x] else hex2 x.

Definition afu_id (name : list Ascii.ascii) (at_ : position) : list Ascii.ascii :=
  name ++ ch_dot :: list_ascii_of_string "0000" ++ ch_colon :: hex2 (po_bus at_) ++ ch_colon :: hex2 (po_dev at_) ++
  ch_dot :: hex (po_fcn at_) ++ ch_dot :: hex (po_afuid at_).

Definition device_path (name : list Ascii.ascii) (at_ : position) : list Ascii.ascii :=
  list_ascii_of_string "/dev/ocxl" ++ ch_slash :: afu_id name at_.

Record position_fits (at_ : position) : Prop := PositionFits {
  pf_bus : is_u 8 (po_bus at_); pf_dev : is_u 8 (po_dev at_); pf_fcn : is_u 8 (po_fcn at_); pf_afuid : is_u 8 (po_afuid at_);
}.

Lemma after_last_none c s : c ∉ s -> after_last c s = None.
Proof.
  induction s as [|x s IH]; [done|]. intros [Hx Hs]%not_elem_of_cons. cbn. rewrite (IH Hs).
  destruct (Ascii.eqb_spec x c); [by subst|done].
Qed.

Lemma after_last_app c s1 s2 : c ∉ s2 -> after_last c (s1 ++ c :: s2) = Some s2.
Proof.
  intros Hs. induction s1 as [|x s1 IH]; cbn.
  - by rewrite after_last_none, Ascii.eqb_refl.
  - by rewrite IH.
Qed.

Lemma split_at_app c s1 s2 : c ∉ s1 -> split_at c (s1 ++ c :: s2) = (s1, Some s2).
Proof.
  induction s1 as [|x s1 IH]; cbn; [by rewrite bool_decide_true|]. intros [Hx Hs]%not_elem_of_cons.
  rewrite bool_decide_false by done. by rewrite IH.
Qed.

Lemma split_at_none c s : c ∉ s -> split_at c s = (s, None).
Proof.
  induction s as [|x s1 IH]; cbn; [done|]. intros [Hx Hs]%not_elem_of_cons.
  rewrite bool_decide_false by done. by rewrite IH.
Qed.

Lemma strtok_app c x s1 s2 : c ∉ x :: s1 -> strtok c ((x :: s1) ++ c :: s2) = (Some (x :: s1), s2).
Proof.
  intros Hc. pose proof Hc as [Hx _]%not_elem_of_cons. cbn [app strtok].
  destruct (Ascii.eqb_spec x c); [by subst|]. change (x :: s1 ++ c :: s2) with ((x :: s1) ++ c :: s2). by rewrite split_at_app.
Qed.

Lemma strtok_last c x s : c ∉ x :: s -> strtok c (x :: s) = (Some (x :: s), []).
Proof.
  intros Hc. pose proof Hc as [Hx _]%not_elem_of_cons. cbn [strtok].
  destruct (Ascii.eqb_spec x c); [by subst|]. by rewrite split_at_none.
Qed.

(** The text holds none of the characters that separate the parts of a path. *)
Definition plain (s : list Ascii.ascii) : bool :=
  forallb (fun c => negb (existsb (Ascii.eqb c) [ch_slash; ch_colon; ch_dot])) s.

Lemma plain_not c s : plain s = true -> c ∈ [ch_slash; ch_colon; ch_dot] -> c ∉ s.
Proof.
  unfold plain. rewrite forallb_forall. intros Hs Hc Hin. apply list_elem_of_In in Hin, Hc.
  specialize (Hs c Hin). apply negb_true_iff in Hs.
  assert (existsb (Ascii.eqb c) [ch_slash; ch_colon; ch_dot] = true); [|congruence].
  apply existsb_exists. exists c. by rewrite Ascii.eqb_refl.
Qed.

Definition reads_back (s : list Ascii.ascii) (x : Z) : bool :=
  plain s && (u8 (strtol16 s) =? x) && negb (bool_decide (s = [])).

Lemma hex_table : forallb (fun n => reads_back (hex2 (Z.of_nat n)) (Z.of_nat n) && reads_back (hex (Z.of_nat n)) (Z.of_nat n))
  (seq 0 256) = true.
Proof. vm_compute. reflexivity. Qed.

(** A number that has been printed is plain text, and read back. *)
Lemma printed x s : is_u 8 x -> s = hex2 x \/ s = hex x -> exists c s', s = c :: s' /\ plain s = true /\ u8 (strtol16 s) = x.
Proof.
  intros Hx Hs. pose proof hex_table as H. rewrite forallb_forall in H. specialize (H (Z.to_nat x)).
  rewrite Z2Nat.id in H by apply Hx. unfold is_u in Hx. change (2 ^ 8) with 256 in Hx.
  apply andb_true_iff in H as [H2 H1]; [|apply in_seq; lia].
  assert (Hr : reads_back s x = true) by (by destruct Hs as [-> | ->]). unfold reads_back in Hr.
  apply andb_true_iff in Hr as [[Hp He]%andb_true_iff Hn]. apply Z.eqb_eq in He.
  apply negb_true_iff, bool_decide_eq_false in Hn. destruct s as [|c s']; [done|]. by exists c, s'.
Qed.

Ltac not_in := eapply plain_not; [eassumption|rewrite ?elem_of_cons; tauto].

(** C26: a path in the format that the library gives for an AFU - its name without
    slashes and dots - is read back as that name and that position. *)
Theorem device_path_roundtrip name at_ :
  name <> [] -> plain name = true -> position_fits at_ ->
  after_last ch_slash (device_path name at_) = Some (afu_id name at_) /\
  parse_afu_id (afu_id name at_) = Some (name, at_).
Proof.
  intros Hne Hn [Hb Hd Hf Hi].
  destruct (printed _ _ Hb (or_introl eq_refl)) as (b & bs & Eb & Pb & Rb).
  destruct (printed _ _ Hd (or_introl eq_refl)) as (d & ds & Ed & Pd & Rd).
  destruct (printed _ _ Hf (or_intror eq_refl)) as (f & fs & Ef & Pf & Rf).
  destruct (printed _ _ Hi (or_intror eq_refl)) as (i & js & Ei & Pi & Ri).
  assert (Hdom : plain (list_ascii_of_string "0000") = true) by reflexivity. split.
  - apply after_last_app. unfold afu_id.
    repeat (rewrite ?not_elem_of_app, ?not_elem_of_cons; split); try done; not_in.
  - unfold afu_id, parse_afu_id. destruct name as [|c name]; [done|].
    rewrite strtok_app by not_in. change (list_ascii_of_string "0000") with ("0"%char :: list_ascii_of_string "000") in *.
    rewrite strtok_app by not_in. rewrite Eb in *. rewrite strtok_app by not_in. rewrite Ed in *. rewrite strtok_app by not_in.
    rewrite Ef in *. rewrite strtok_app by not_in. rewrite Ei in *. rewrite strtok_last by not_in. cbn -[u8 strtol16].
    rewrite Rb, Rd, Rf, Ri. by destruct at_.
Qed.

Lemma device_path_roundtrip_witness :
  let path := list_ascii_of_string "/dev/ocxl/IBM,AFU.0000:0a:00.1.3f" in
  path = device_path (list_ascii_of_string "IBM,AFU") (Position 10 0 1 63) /\
  parse_afu_id (afu_id (list_ascii_of_string "IBM,AFU") (Position 10 0 1 63)) =
    Some (list_ascii_of_string "IBM,AFU", Position 10 0 1 63).
Proof.
  intros path. split; [vm_compute; reflexivity|].
  assert (Hne : list_ascii_of_string "IBM,AFU" <> []) by discriminate.
  assert (Hfit : position_fits (Position 10 0 1 63)) by (constructor; split; done).
  exact (proj2 (device_path_roundtrip (list_ascii_of_string "IBM,AFU") (Position 10 0 1 63) Hne eq_refl Hfit)).
Defined.

(** * A card without room *)

Definition closed (s : session) : session := s <| ss_open := false |>.

Lemma associate_full fuel bus dev fcn afuid msg n o s :
  listening s -> (1 <= fuel)%nat -> _find_ocl bus 0 (ss_ocls s) = Some (n, o) ->
  0 < w_max_clients (so_world o) -> free_slot (slots (so_world o)) 0 = None ->
  queued (bus :: dev :: fcn :: afuid :: msg) (ss_in s) ->
  runs (_client_associate fuel) (fun ok s' => ok = false /\ exists str, queued msg str /\
    s' = closed (said (s <| ss_in := str |>) [OCSE_DETACH])) s.
Proof.
  intros [Ha Hp] Hf Ho Hmax Hi Hq.
  apply (ServerProps.runs_get_byte _ fuel false bus (dev :: fcn :: afuid :: msg)); [done..|]. intros s1 H1.
  apply (ServerProps.runs_get_byte _ fuel false dev (fcn :: afuid :: msg)); [done..|]. intros s2 H2.
  apply (ServerProps.runs_get_byte _ fuel false fcn (afuid :: msg)); [done..|]. intros s3 H3.
  apply (ServerProps.runs_get_byte _ fuel false afuid msg); [done..|]. intros s4 H4.
  apply runs_gets. change (ss_ocls (_ <| ss_in := s4 |>)) with (ss_ocls s). rewrite Ho.
  replace (w_max_clients (so_world o) <=? 0) with false by (symmetry; by apply Z.leb_gt).
  unfold slots in Hi. rewrite Hi. apply runs_tell; [done|]. unfold Server.close_socket. apply runs_modify, runs_ret.
  split; [done|]. by exists s4.
Qed.

Lemma library_detached polls msg Q p :
  idle (pr_afu p) -> (1 <= polls)%nat -> queued (OCSE_DETACH :: msg) (pr_in p) ->
  (forall p', pr_open p' = pr_open p -> pr_freed p' = pr_freed p -> oa_open (pr_afu p') = LIBOCXL_REQ_IDLE ->
     oa_opened (pr_afu p') = 0 -> Q tt p') ->
  runs (library polls) Q p.
Proof.
  intros Hi Hf Hq HQ. unfold library. runs_next.
  apply (runs_turn polls OCSE_DETACH msg _ p p (send_requests_idle p Hi) Hq Hf). intros s Hs.
  change (take_message polls OCSE_DETACH) with (msg_detach;; mret true). unfold msg_detach, upd_afu.
  runs_next. by apply HQ.
Qed.

(** C37: a card without a free slot refuses the client; the library frees its AFU,
    but the call that opens a device path drops that result: it returns success,
    and a handle to memory that has been freed. *)
Theorem refused_device_is_success fuel polls calls dat connects path id nm at_ map f c n o msg1 msg2 s p :
  listening s -> (1 <= fuel)%nat -> _find_ocl (po_bus at_) 0 (ss_ocls s) = Some (n, o) ->
  0 < w_max_clients (so_world o) -> free_slot (slots (so_world o)) 0 = None -> queued (position_bytes at_ ++ msg1) (ss_in s) ->
  server_file dat connects -> pr_put_ok p = [] -> (1 <= polls)%nat -> (2 <= calls)%nat -> is_u 16 map -> card_fits f c ->
  after_last ch_slash path = Some id -> parse_afu_id id = Some (nm, at_) -> (length nm <= 24)%nat ->
  queued (handshake_answer map ++ query_message f c ++ OCSE_DETACH :: msg2) (pr_in p) ->
  (exists s', _client_associate fuel s = Done false s' /\ ss_out s' = ss_out s ++ [[OCSE_DETACH]]) /\
  (exists p', ocxl_afu_open_from_dev (library polls) calls polls dat connects true true true path p = Done OCXL_OK p' /\
     pr_freed p' = true).
Proof.
  intros Hl Hf Ho Hmax Hno Hqs Hdat Hp Hpolls Hcalls Hmap Hfit Hpath Hid Hn Hq. split.
  { destruct (runs_done _ _ _ (associate_full fuel _ _ _ _ msg1 n o s Hl Hf Ho Hmax Hno Hqs)) as (ok & s' & E & -> & str & _ & ->).
    by eexists. }
  cut (runs (ocxl_afu_open_from_dev (library polls) calls polls dat connects true true true path)
    (fun rc p' => rc = OCXL_OK /\ pr_freed p' = true) p).
  { intros (rc & p' & E & -> & Hfr)%runs_done. by exists p'. }
  unfold ocxl_afu_open_from_dev, and_then at 1, _alloc_afu. runs_next. apply runs_modify, runs_ret.
  change (negb (OCXL_OK =? OCXL_OK)) with false. cbv iota.
  eapply (runs_connect polls dat connects map); [done..|exact Hq|]. intros s1 H1.
  apply (runs_lift _ _ id); [done|]. rewrite Hid. unfold set_afu_name.
  replace (AFU_NAME_MAX <? _) with false
    by (symmetry; apply Z.ltb_ge; unfold AFU_NAME_MAX, bytes_of; rewrite length_map; lia).
  unfold upd_afu at 1. apply runs_modify. apply runs_query; [done|]. cbn [negb]. runs_next.
  unfold _open_afu. apply runs_gets. apply runs_send_open; [done..|]. cbn [negb]. unfold upd_afu at 1. apply runs_modify.
  cbn [negb]. unfold upd_afu at 1. apply runs_modify. runs_next. unfold until_idle.
  destruct calls as [|[|calls]]; [lia..|].
  apply runs_until_step; [done|]. eapply (library_query polls f c); [by constructor|done|done|exact H1|]. intros s2 H2.
  apply runs_until_step; [done|]. eapply (library_detached polls msg2); [by constructor|done|exact H2|].
  intros p' _ _ Hopen Hopened. apply runs_until_over; [by rewrite bool_decide_true|]. apply runs_gets. rewrite Hopened.
  change (negb (truthy 0)) with true. cbv iota. unfold upd_afu, free_afu. apply runs_modify, runs_modify, runs_ret.
  by apply runs_ret.
Qed.

Definition full_card : server_ocl :=
  ServerOcl 0 0 (card_start <| w_clients := [Some sample_client; Some sample_client] |>).
Definition full_session (msg : list Z) : session :=
  Session [full_card] (new_client 9) (Stream msg [] false) [] [] true 0x8000 true.

Lemma refused_device_is_success_witness :
  let path := device_path (list_ascii_of_string "IBM,AFU") (Position 0 0 1 0) in
  let p := sample_proc [] (handshake_answer 0x8000 ++ query_message card_fcn card_afu ++ [OCSE_DETACH]) in
  exists p', ocxl_afu_open_from_dev (library 1) 2 1 (Some sample_file) (fun _ _ => true) true true true path p = Done OCXL_OK p' /\
    pr_freed p' = true.
Proof.
  intros path p.
  assert (Hqs : queued (position_bytes (Position 0 0 1 0) ++ []) (ss_in (full_session [0; 0; 1; 0]))) by by exists [].
  assert (Hq : queued (handshake_answer 0x8000 ++ query_message card_fcn card_afu ++ [OCSE_DETACH]) (pr_in p))
    by apply sample_queued.
  assert (Hfit : card_fits card_fcn card_afu) by (constructor; split; done).
  assert (Hdat : server_file (Some sample_file) (fun _ _ => true)) by (do 4 eexists; split_and!; reflexivity).
  assert (Hlen : (length (list_ascii_of_string "IBM,AFU") <= 24)%nat) by (cbn; lia).
  assert (Hmap : is_u 16 0x8000) by (split; done).
  exact (proj2 (refused_device_is_success 1 1 2 (Some sample_file) (fun _ _ => true) path
    (afu_id (list_ascii_of_string "IBM,AFU") (Position 0 0 1 0)) (list_ascii_of_string "IBM,AFU") (Position 0 0 1 0) 0x8000
    card_fcn card_afu 0 full_card [] [] (full_session [0; 0; 1; 0]) p (Listening (full_session [0; 0; 1; 0]) eq_refl eq_refl)
    (le_n 1) eq_refl eq_refl eq_refl Hqs Hdat eq_refl (le_n 1) (le_n 2) Hmap Hfit eq_refl eq_refl Hlen Hq)).
Defined.
