(* ===== verification/Debug.v ===== *)
(** common/debug.c: the trace the program writes about itself, record by record,
    and the primitives that read one.

    [malloc] and [fwrite] are the operating system's: a call is given the buffer
    [malloc] returned ([None]: none), [fwrite] appends to the file.  The file that
    is read is the list of the bytes that are left. *)
From S2P Require Import Prelude Utils.

(** * Records *)

Definition DBG_HEADER_VERSION := 0x00.
Definition DBG_HEADER_PARM := 0x01.
Definition DBG_HEADER_SOCKET_PUT := 0x02.
Definition DBG_HEADER_SOCKET_GET := 0x03.
Definition DBG_HEADER_AFU_CONNECT := 0x04.
Definition DBG_HEADER_AFU_DROP := 0x05.
Definition DBG_HEADER_CONTEXT_ADD := 0x06.
Definition DBG_HEADER_CONTEXT_REMOVE := 0x07.
Definition DBG_HEADER_MMIO_MAP := 0x0B.
Definition DBG_HEADER_MMIO_ADD := 0x0C.
Definition DBG_HEADER_MMIO_SEND := 0x0D.
Definition DBG_HEADER_MMIO_ACK := 0x0E.
Definition DBG_HEADER_MMIO_RETURN := 0x0F.
Definition DBG_HEADER_CMD_ADD := 0x10.
Definition DBG_HEADER_CMD_UPDATE := 0x11.
Definition DBG_HEADER_CMD_CLIENT_REQ := 0x12.
Definition DBG_HEADER_CMD_CLIENT_ACK := 0x13.
Definition DBG_HEADER_CMD_BUFFER_WRITE := 0x14.
Definition DBG_HEADER_CMD_BUFFER_READ := 0x15.
Definition DBG_HEADER_CMD_RESPONSE := 0x16.

(** [sizeof(DBG_HEADER)] is one: no case of the switch applies. *)
Definition adjust_header (header : Z) : Z := header.

(** What [malloc] gives: nothing, or memory with anything in it. *)
Definition alloc : Type := option (nat -> Z).
Definition malloc (a : alloc) (size : nat) : option (list Z) :=
  junk ← a; Some (map junk (seq 0 size)).

(** [buffer[offset] = v], [memcpy] of a variable of [n] bytes. *)
Definition put_char (buffer : list Z) (offset v : Z) : option (list Z) := copy_at buffer offset [v] 1.
Definition put_var (n : nat) (buffer : list Z) (offset v : Z) : option (list Z) :=
  copy_at buffer offset (le_bytes n v) (Z.of_nat n).

Section sends.
Context (a : alloc) (fp : list Z).

Definition _debug_send_id (header id : Z) : option (list Z) :=
  let header := adjust_header header in
  match malloc a 2 with
  | None => Some fp
  | Some buffer =>
      buffer ← put_var 1 buffer 0 header;
      buffer ← put_char buffer 1 id;
      Some (fp ++ buffer)
  end.

Definition _debug_send_id_8 (header id value : Z) : option (list Z) :=
  let header := adjust_header header in
  match malloc a 3 with
  | None => Some fp
  | Some buffer =>
      buffer ← put_var 1 buffer 0 header;
      buffer ← put_char buffer 1 id;
      buffer ← put_char buffer 2 value;
      Some (fp ++ buffer)
  end.

Definition _debug_send_id_8_8_8 (header id value value1 value2 : Z) : option (list Z) :=
  let header := adjust_header header in
  match malloc a 5 with
  | None => Some fp
  | Some buffer =>
      buffer ← put_var 1 buffer 0 header;
      buffer ← put_char buffer 1 id;
      buffer ← put_char buffer 2 value;
      buffer ← put_char buffer 3 value1;
      buffer ← put_char buffer 4 value2;
      Some (fp ++ buffer)
  end.

Definition _debug_send_id_16 (header id value : Z) : option (list Z) :=
  let header := adjust_header header in
  match malloc a 4 with
  | None => Some fp
  | Some buffer =>
      buffer ← put_var 1 buffer 0 header;
      buffer ← put_char buffer 1 id;
      buffer ← put_var 2 buffer 2 (htons value);
      Some (fp ++ buffer)
  end.

Definition _debug_send_32_32 (header value0 value1 : Z) : option (list Z) :=
  let header := adjust_header header in
  match malloc a 9 with
  | None => Some fp
  | Some buffer =>
      buffer ← put_var 1 buffer 0 header;
      buffer ← put_var 4 buffer 1 (htonl value0);
      buffer ← put_var 4 buffer 5 (htonl value1);
      Some (fp ++ buffer)
  end.

Definition _debug_send_id_8_16 (header id value0 value1 : Z) : option (list Z) :=
  let header := adjust_header header in
  match malloc a 5 with
  | None => Some fp
  | Some buffer =>
      buffer ← put_var 1 buffer 0 header;
      buffer ← put_char buffer 1 id;
      buffer ← put_char buffer 2 value0;
      buffer ← put_var 2 buffer 3 (htons value1);
      Some (fp ++ buffer)
  end.

Definition _debug_send_id_8_16_16 (header id value0 value1 value2 : Z) : option (list Z) :=
  let header := adjust_header header in
  match malloc a 7 with
  | None => Some fp
  | Some buffer =>
      buffer ← put_var 1 buffer 0 header;
      buffer ← put_char buffer 1 id;
      buffer ← put_char buffer 2 value0;
      buffer ← put_var 2 buffer 3 (htons value1);
      buffer ← put_var 2 buffer 5 (htons value2);
      Some (fp ++ buffer)
  end.

Definition _debug_send_id_8_8_16_32 (header id value0 value1 value2 value3 : Z) : option (list Z) :=
  let header := adjust_header header in
  match malloc a 10 with
  | None => Some fp
  | Some buffer =>
      buffer ← put_var 1 buffer 0 header;
      buffer ← put_char buffer 1 id;
      buffer ← put_char buffer 2 value0;
      buffer ← put_char buffer 3 value1;
      buffer ← put_var 2 buffer 4 (htons value2);
      buffer ← put_var 4 buffer 6 (htonl value3);
      Some (fp ++ buffer)
  end.

(** ** The calls

    Each converts what it is given to the types of its parameters. *)

Definition debug_send_version (major minor : Z) : option (list Z) :=
  let header := adjust_header DBG_HEADER_VERSION in
  match malloc a 3 with
  | None => Some fp
  | Some buffer =>
      buffer ← put_var 1 buffer 0 header;
      buffer ← put_char buffer 1 (u8 major);
      buffer ← put_char buffer 2 (u8 minor);
      Some (fp ++ buffer)
  end.

Definition debug_afu_connect (id : Z) := _debug_send_id DBG_HEADER_AFU_CONNECT (u8 id).
Definition debug_afu_drop (id : Z) := _debug_send_id DBG_HEADER_AFU_DROP (u8 id).
Definition debug_context_add (id context : Z) :=
  _debug_send_id_16 DBG_HEADER_CONTEXT_ADD (u8 id) (u16 context).
Definition debug_context_remove (id context : Z) :=
  _debug_send_id_16 DBG_HEADER_CONTEXT_REMOVE (u8 id) (u16 context).
Definition debug_mmio_map (id context : Z) :=
  _debug_send_id_16 DBG_HEADER_MMIO_MAP (u8 id) (u16 context).
Definition debug_parm (parm value : Z) := _debug_send_32_32 DBG_HEADER_PARM (u32 parm) (u32 value).
Definition debug_mmio_add (id context rnw dw addr : Z) :=
  _debug_send_id_8_8_16_32 DBG_HEADER_MMIO_ADD (u8 id) (u8 rnw) (u8 dw) (u16 context) (u32 addr).
Definition debug_mmio_send (id context rnw dw addr : Z) :=
  _debug_send_id_8_8_16_32 DBG_HEADER_MMIO_SEND (u8 id) (u8 rnw) (u8 dw) (u16 context) (u32 addr).
Definition debug_mmio_ack (id : Z) := _debug_send_id DBG_HEADER_MMIO_ACK (u8 id).
Definition debug_mmio_return (id context : Z) :=
  _debug_send_id_16 DBG_HEADER_MMIO_RETURN (u8 id) (u16 context).
Definition debug_cmd_add (id afutag context command : Z) :=
  _debug_send_id_8_16_16 DBG_HEADER_CMD_ADD (u8 id) (u8 afutag) (u16 context) (u16 command).
Definition debug_cmd_update (id afutag context resp : Z) :=
  _debug_send_id_8_16_16 DBG_HEADER_CMD_UPDATE (u8 id) (u8 afutag) (u16 context) (u16 resp).
Definition debug_cmd_client (id afutag context : Z) :=
  _debug_send_id_8_16 DBG_HEADER_CMD_CLIENT_REQ (u8 id) (u8 afutag) (u16 context).
Definition debug_cmd_return (id afutag context : Z) :=
  _debug_send_id_8_16 DBG_HEADER_CMD_CLIENT_ACK (u8 id) (u8 afutag) (u16 context).
Definition debug_cmd_buffer_write (id afutag : Z) :=
  _debug_send_id_8 DBG_HEADER_CMD_BUFFER_WRITE (u8 id) (u8 afutag).
Definition debug_cmd_buffer_read (id afutag : Z) :=
  _debug_send_id_8 DBG_HEADER_CMD_BUFFER_READ (u8 id) (u8 afutag).
Definition debug_cmd_response (id afutag resp opcode : Z) :=
  _debug_send_id_8_8_8 DBG_HEADER_CMD_RESPONSE (u8 id) (u8 afutag) (u8 resp) (u8 opcode).
Definition debug_socket_put (id context type : Z) :=
  _debug_send_id_8_16 DBG_HEADER_SOCKET_PUT (u8 id) (u8 type) (u16 context).
Definition debug_socket_get (id context type : Z) :=
  _debug_send_id_8_16 DBG_HEADER_SOCKET_GET (u8 id) (u8 type) (u16 context).
End sends.

(** * Reading *)

(** [fread] of one item of [n] bytes into [mem]: what there is of an item that is
    not whole is stored all the same. *)
Definition fread (n : nat) (mem fp : list Z) : Z * list Z * list Z :=
  if (n <=? length fp)%nat then (1, overwrite mem 0 (take n fp), drop n fp)
  else (0, overwrite mem 0 fp, []).

(** The result, the variable and the rest of the file. *)
Definition debug_get_64 (fp : list Z) (value : Z) : Z * Z * list Z :=
  let '(rc, mem, fp) := fread 8 (le_bytes 8 value) fp in (rc, ntohll (le_val mem), fp).
Definition debug_get_32 (fp : list Z) (value : Z) : Z * Z * list Z :=
  let '(rc, mem, fp) := fread 4 (le_bytes 4 value) fp in (rc, ntohl (le_val mem), fp).
Definition debug_get_16 (fp : list Z) (value : Z) : Z * Z * list Z :=
  let '(rc, mem, fp) := fread 2 (le_bytes 2 value) fp in (rc, ntohs (le_val mem), fp).
Definition debug_get_8 (fp : list Z) (value : Z) : Z * Z * list Z :=
  let '(rc, mem, fp) := fread 1 (le_bytes 1 value) fp in (rc, le_val mem, fp).

(** [header] is not initialised: [value]. *)
Definition debug_get_header (fp : list Z) (value : Z) : Z * list Z :=
  let '(rc, header, fp) := debug_get_8 fp value in
  if negb (rc =? 1) then (u8 (-1), fp) else (header, fp).

(** * What a trace says *)

Inductive call :=
  | Version (major minor : Z)
  | Parm (parm value : Z)
  | Socket_put (id context type : Z) | Socket_get (id context type : Z)
  | Afu_connect (id : Z) | Afu_drop (id : Z)
  | Context_add (id context : Z) | Context_remove (id context : Z)
  | Mmio_map (id context : Z)
  | Mmio_add (id context rnw dw addr : Z) | Mmio_send (id context rnw dw addr : Z)
  | Mmio_ack (id : Z) | Mmio_return (id context : Z)
  | Cmd_add (id afutag context command : Z) | Cmd_update (id afutag context resp : Z)
  | Cmd_client (id afutag context : Z) | Cmd_return (id afutag context : Z)
  | Cmd_buffer_write (id afutag : Z) | Cmd_buffer_read (id afutag : Z)
  | Cmd_response (id afutag resp opcode : Z).

Definition trace_call (a : alloc) (fp : list Z) (c : call) : option (list Z) :=
  match c with
  | Version major minor => debug_send_version a fp major minor
  | Parm parm value => debug_parm a fp parm value
  | Socket_put id context type => debug_socket_put a fp id context type
  | Socket_get id context type => debug_socket_get a fp id context type
  | Afu_connect id => debug_afu_connect a fp id
  | Afu_drop id => debug_afu_drop a fp id
  | Context_add id context => debug_context_add a fp id context
  | Context_remove id context => debug_context_remove a fp id context
  | Mmio_map id context => debug_mmio_map a fp id context
  | Mmio_add id context rnw dw addr => debug_mmio_add a fp id context rnw dw addr
  | Mmio_send id context rnw dw addr => debug_mmio_send a fp id context rnw dw addr
  | Mmio_ack id => debug_mmio_ack a fp id
  | Mmio_return id context => debug_mmio_return a fp id context
  | Cmd_add id afutag context command => debug_cmd_add a fp id afutag context command
  | Cmd_update id afutag context resp => debug_cmd_update a fp id afutag context resp
  | Cmd_client id afutag context => debug_cmd_client a fp id afutag context
  | Cmd_return id afutag context => debug_cmd_return a fp id afutag context
  | Cmd_buffer_write id afutag => debug_cmd_buffer_write a fp id afutag
  | Cmd_buffer_read id afutag => debug_cmd_buffer_read a fp id afutag
  | Cmd_response id afutag resp opcode => debug_cmd_response a fp id afutag resp opcode
  end.

Fixpoint trace_calls (l : list (alloc * call)) (fp : list Z) : option (list Z) :=
  match l with
  | [] => Some fp
  | (a, c) :: l => fp ← trace_call a fp c; trace_calls l fp
  end.

(** The call with its arguments as the parameters hold them. *)
Definition as_passed (c : call) : call :=
  match c with
  | Version major minor => Version (u8 major) (u8 minor)
  | Parm parm value => Parm (u32 parm) (u32 value)
  | Socket_put id context type => Socket_put (u8 id) (u16 context) (u8 type)
  | Socket_get id context type => Socket_get (u8 id) (u16 context) (u8 type)
  | Afu_connect id => Afu_connect (u8 id)
  | Afu_drop id => Afu_drop (u8 id)
  | Context_add id context => Context_add (u8 id) (u16 context)
  | Context_remove id context => Context_remove (u8 id) (u16 context)
  | Mmio_map id context => Mmio_map (u8 id) (u16 context)
  | Mmio_add id context rnw dw addr => Mmio_add (u8 id) (u16 context) (u8 rnw) (u8 dw) (u32 addr)
  | Mmio_send id context rnw dw addr => Mmio_send (u8 id) (u16 context) (u8 rnw) (u8 dw) (u32 addr)
  | Mmio_ack id => Mmio_ack (u8 id)
  | Mmio_return id context => Mmio_return (u8 id) (u16 context)
  | Cmd_add id afutag context command => Cmd_add (u8 id) (u8 afutag) (u16 context) (u16 command)
  | Cmd_update id afutag context resp => Cmd_update (u8 id) (u8 afutag) (u16 context) (u16 resp)
  | Cmd_client id afutag context => Cmd_client (u8 id) (u8 afutag) (u16 context)
  | Cmd_return id afutag context => Cmd_return (u8 id) (u8 afutag) (u16 context)
  | Cmd_buffer_write id afutag => Cmd_buffer_write (u8 id) (u8 afutag)
  | Cmd_buffer_read id afutag => Cmd_buffer_read (u8 id) (u8 afutag)
  | Cmd_response id afutag resp opcode => Cmd_response (u8 id) (u8 afutag) (u8 resp) (u8 opcode)
  end.

(** The calls that found memory. *)
Definition recorded (l : list (alloc * call)) : list call :=
  omap (fun ac => match ac.1 with Some _ => Some (as_passed ac.2) | None => None end) l.

(** ** A reader, from the primitives *)

Definition whole (r : Z * Z * list Z) : option (Z * list Z) :=
  let '(rc, v, fp) := r in if rc =? 1 then Some (v, fp) else None.
Definition get8 (fp : list Z) : option (Z * list Z) := whole (debug_get_8 fp 0).
Definition get16 (fp : list Z) : option (Z * list Z) := whole (debug_get_16 fp 0).
Definition get32 (fp : list Z) : option (Z * list Z) := whole (debug_get_32 fp 0).

Definition read_id (k : Z -> call) (fp : list Z) : option (call * list Z) :=
  '(id, fp) ← get8 fp; Some (k id, fp).
Definition read_id_8 (k : Z -> Z -> call) (fp : list Z) : option (call * list Z) :=
  '(id, fp) ← get8 fp; '(v, fp) ← get8 fp; Some (k id v, fp).
Definition read_id_16 (k : Z -> Z -> call) (fp : list Z) : option (call * list Z) :=
  '(id, fp) ← get8 fp; '(v, fp) ← get16 fp; Some (k id v, fp).
Definition read_32_32 (k : Z -> Z -> call) (fp : list Z) : option (call * list Z) :=
  '(p, fp) ← get32 fp; '(v, fp) ← get32 fp; Some (k p v, fp).
Definition read_id_8_8_8 (k : Z -> Z -> Z -> Z -> call) (fp : list Z) : option (call * list Z) :=
  '(id, fp) ← get8 fp; '(u, fp) ← get8 fp; '(v, fp) ← get8 fp; '(w, fp) ← get8 fp;
  Some (k id u v w, fp).
Definition read_id_8_16 (k : Z -> Z -> Z -> call) (fp : list Z) : option (call * list Z) :=
  '(id, fp) ← get8 fp; '(u, fp) ← get8 fp; '(v, fp) ← get16 fp; Some (k id u v, fp).
Definition read_id_8_16_16 (k : Z -> Z -> Z -> Z -> call) (fp : list Z) : option (call * list Z) :=
  '(id, fp) ← get8 fp; '(u, fp) ← get8 fp; '(v, fp) ← get16 fp; '(w, fp) ← get16 fp;
  Some (k id u v w, fp).
Definition read_id_8_8_16_32 (k : Z -> Z -> Z -> Z -> Z -> call) (fp : list Z) : option (call * list Z) :=
  '(id, fp) ← get8 fp; '(u, fp) ← get8 fp; '(v, fp) ← get8 fp; '(w, fp) ← get16 fp; '(x, fp) ← get32 fp;
  Some (k id w u v x, fp).

Definition reader_of (header : Z) : option (list Z -> option (call * list Z)) :=
  match header with
  | 0x00 => Some (read_id_8 Version)
  | 0x01 => Some (read_32_32 Parm)
  | 0x02 => Some (read_id_8_16 (fun id type context => Socket_put id context type))
  | 0x03 => Some (read_id_8_16 (fun id type context => Socket_get id context type))
  | 0x04 => Some (read_id Afu_connect)
  | 0x05 => Some (read_id Afu_drop)
  | 0x06 => Some (read_id_16 Context_add)
  | 0x07 => Some (read_id_16 Context_remove)
  | 0x0B => Some (read_id_16 Mmio_map)
  | 0x0C => Some (read_id_8_8_16_32 Mmio_add)
  | 0x0D => Some (read_id_8_8_16_32 Mmio_send)
  | 0x0E => Some (read_id Mmio_ack)
  | 0x0F => Some (read_id_16 Mmio_return)
  | 0x10 => Some (read_id_8_16_16 Cmd_add)
  | 0x11 => Some (read_id_8_16_16 Cmd_update)
  | 0x12 => Some (read_id_8_16 Cmd_client)
  | 0x13 => Some (read_id_8_16 Cmd_return)
  | 0x14 => Some (read_id_8 Cmd_buffer_write)
  | 0x15 => Some (read_id_8 Cmd_buffer_read)
  | 0x16 => Some (read_id_8_8_8 Cmd_response)
  | _ => None
  end.

Definition read_call (fp : list Z) : option (call * list Z) :=
  let '(header, fp) := debug_get_header fp 0 in
  r ← reader_of header; r fp.

(** The calls of a file, up to the first record that is not whole, and what is
    left: a reader put together from the primitives of the source for the
    statement below; the repository has none of its own. *)
Fixpoint read_trace (fuel : nat) (fp : list Z) : list call * list Z :=
  match fuel with
  | O => ([], fp)
  | S fuel =>
      match read_call fp with
      | None => ([], fp)
      | Some (c, fp) => let '(l, fp) := read_trace fuel fp in (c :: l, fp)
      end
  end.

(** * What is written is what is read *)

(** The bytes of a record. *)
Definition record (c : call) : list Z :=
  match trace_call (Some (fun _ => 0)) [] c with Some l => l | None => [] end.

(** Whatever [malloc] left in the buffer, every byte of it is written. *)
Lemma call_written a fp c :
  trace_call a fp c = Some (fp ++ match a with Some _ => record c | None => [] end).
Proof. destruct a as [junk|]; [|rewrite app_nil_r]; destruct c; reflexivity. Qed.

Lemma get8_byte v fp : get8 (v :: fp) = Some (v, fp).
Proof. unfold get8, whole, debug_get_8, fread. cbn. by destruct v. Qed.

Lemma fread_whole n mem l fp :
  length l = n -> length mem = n -> fread n mem (l ++ fp) = (1, l, fp).
Proof.
  intros Hl Hm. unfold fread. rewrite (proj2 (Nat.leb_le _ _)) by (rewrite length_app; lia).
  rewrite take_app_length', drop_app_length' by done.
  unfold overwrite. rewrite drop_ge by lia. by rewrite app_nil_r.
Qed.

Lemma get_be n v fp old (ntoh : Z -> Z) :
  (forall x, ntoh x = le_val (be_bytes n x)) -> is_u (8 * Z.of_nat n) v ->
  whole (let '(rc, mem, fp) := fread n (le_bytes n old) (be_bytes n v ++ fp) in (rc, ntoh (le_val mem), fp)) = Some (v, fp).
Proof.
  intros Hn Hv. rewrite fread_whole by (rewrite ?length_be_bytes, ?length_le_bytes; done).
  cbn. rewrite Hn, le_val_le_val. by rewrite is_u_small.
Qed.

Lemma get16_be v fp : is_u 16 v -> get16 (be_bytes 2 v ++ fp) = Some (v, fp).
Proof. intros Hv. by apply (get_be 2 v fp 0 ntohs). Qed.
Lemma get32_be v fp : is_u 32 v -> get32 (be_bytes 4 v ++ fp) = Some (v, fp).
Proof. intros Hv. by apply (get_be 4 v fp 0 ntohl). Qed.

Lemma u8_ok x : is_byte (u8 x).
Proof. by apply is_u_mod. Qed.
Lemma u16_ok x : is_u 16 (u16 x).
Proof. by apply is_u_mod. Qed.
Lemma u32_ok x : is_u 32 (u32 x).
Proof. by apply is_u_mod. Qed.

Lemma header_read v fp : debug_get_header (v :: fp) 0 = (v, fp).
Proof. unfold debug_get_header, debug_get_8, fread. cbn. by destruct v. Qed.

Create HintDb trace.
#[export] Hint Rewrite get8_byte header_read : trace.
#[export] Hint Rewrite get16_be get32_be using (first [apply u16_ok | apply u32_ok]) : trace.

(** The layout of the records, as the primitives take them apart. *)
Definition layout (c : call) : list Z :=
  match c with
  | Version major minor => [0x00; u8 major; u8 minor]
  | Parm parm value => 0x01 :: be_bytes 4 (u32 parm) ++ be_bytes 4 (u32 value)
  | Socket_put id context type => [0x02; u8 id; u8 type] ++ be_bytes 2 (u16 context)
  | Socket_get id context type => [0x03; u8 id; u8 type] ++ be_bytes 2 (u16 context)
  | Afu_connect id => [0x04; u8 id]
  | Afu_drop id => [0x05; u8 id]
  | Context_add id context => [0x06; u8 id] ++ be_bytes 2 (u16 context)
  | Context_remove id context => [0x07; u8 id] ++ be_bytes 2 (u16 context)
  | Mmio_map id context => [0x0B; u8 id] ++ be_bytes 2 (u16 context)
  | Mmio_add id context rnw dw addr =>
      [0x0C; u8 id; u8 rnw; u8 dw] ++ be_bytes 2 (u16 context) ++ be_bytes 4 (u32 addr)
  | Mmio_send id context rnw dw addr =>
      [0x0D; u8 id; u8 rnw; u8 dw] ++ be_bytes 2 (u16 context) ++ be_bytes 4 (u32 addr)
  | Mmio_ack id => [0x0E; u8 id]
  | Mmio_return id context => [0x0F; u8 id] ++ be_bytes 2 (u16 context)
  | Cmd_add id afutag context command =>
      [0x10; u8 id; u8 afutag] ++ be_bytes 2 (u16 context) ++ be_bytes 2 (u16 command)
  | Cmd_update id afutag context resp =>
      [0x11; u8 id; u8 afutag] ++ be_bytes 2 (u16 context) ++ be_bytes 2 (u16 resp)
  | Cmd_client id afutag context => [0x12; u8 id; u8 afutag] ++ be_bytes 2 (u16 context)
  | Cmd_return id afutag context => [0x13; u8 id; u8 afutag] ++ be_bytes 2 (u16 context)
  | Cmd_buffer_write id afutag => [0x14; u8 id; u8 afutag]
  | Cmd_buffer_read id afutag => [0x15; u8 id; u8 afutag]
  | Cmd_response id afutag resp opcode => [0x16; u8 id; u8 afutag; u8 resp; u8 opcode]
  end.

Lemma record_layout c : record c = layout c.
Proof.
  destruct c; unfold record, trace_call; cbv beta iota delta
    [debug_send_version debug_parm debug_socket_put debug_socket_get debug_afu_connect debug_afu_drop
     debug_context_add debug_context_remove debug_mmio_map debug_mmio_add debug_mmio_send debug_mmio_ack
     debug_mmio_return debug_cmd_add debug_cmd_update debug_cmd_client debug_cmd_return
     debug_cmd_buffer_write debug_cmd_buffer_read debug_cmd_response
     _debug_send_id _debug_send_id_8 _debug_send_id_8_8_8 _debug_send_id_16 _debug_send_32_32
     _debug_send_id_8_16 _debug_send_id_8_16_16 _debug_send_id_8_8_16_32 malloc mbind option_bind];
    unfold htons, htonl, put_var, put_char; rewrite ?le_bytes_le_val; reflexivity.
Qed.

Lemma read_layout c fp : read_call (layout c ++ fp) = Some (as_passed c, fp).
Proof.
  destruct c; unfold read_call; cbn [layout app]; rewrite header_read; cbn [reader_of mbind option_bind];
    rewrite <- ?app_assoc;
    unfold read_id, read_id_8, read_id_16, read_32_32, read_id_8_8_8, read_id_8_16, read_id_8_16_16, read_id_8_8_16_32;
    repeat (autorewrite with trace; cbn [mbind option_bind]); reflexivity.
Qed.

Lemma read_end fuel : read_trace fuel [] = ([], []).
Proof. by destruct fuel. Qed.

Lemma read_records l fuel :
  (length l <= fuel)%nat -> read_trace fuel (concat (map record l)) = (map as_passed l, []).
Proof.
  revert fuel. induction l as [|c l IH]; intros fuel Hf; [apply read_end|].
  destruct fuel as [|fuel]; [cbn in Hf; lia|]. cbn [map concat read_trace].
  rewrite record_layout, read_layout, IH by (cbn in Hf; lia). done.
Qed.

(** The calls that find memory. *)
Definition lucky (l : list (alloc * call)) : list call :=
  omap (fun ac => match ac.1 with Some _ => Some ac.2 | None => None end) l.

Lemma trace_calls_eq l fp :
  trace_calls l fp = Some (fp ++ concat (map record (lucky l))).
Proof.
  revert fp. induction l as [|[[junk|] c] l IH]; intros fp; cbn [trace_calls].
  - by rewrite app_nil_r.
  - rewrite call_written. cbn [mbind option_bind]. by rewrite IH, <- app_assoc.
  - rewrite call_written, app_nil_r. cbn [mbind option_bind]. apply IH.
Qed.

Lemma recorded_lucky l : recorded l = map as_passed (lucky l).
Proof. induction l as [|[[junk|] c] l IH]; cbn; [done|f_equal; exact IH|exact IH]. Qed.

Lemma length_lucky l : (length (lucky l) <= length l)%nat.
Proof. induction l as [|[[junk|] c] l IH]; cbn; [done|apply le_n_S, IH|apply le_S, IH]. Qed.

(** C27: a trace says what was traced.  Whatever calls were made, in whatever
    order, whatever [malloc] gave for each of them: the file has, record for
    record and with nothing left over, the calls that got memory, their arguments
    as the parameters hold them, and no buffer is ever overrun.  The primitives
    [debug_get_*] take the file apart again. *)
Theorem trace_roundtrip l fuel :
  (length l <= fuel)%nat ->
  exists file, trace_calls l [] = Some file /\ read_trace fuel file = (recorded l, []).
Proof.
  intros Hf. exists (concat (map record (lucky l))). split; [apply trace_calls_eq|].
  rewrite recorded_lucky. apply read_records. pose proof (length_lucky l). lia.
Qed.

(** Two commands whose tags differ, in a trace with a failed [malloc]; the tags
    read back are the same. *)
Lemma trace_roundtrip_witness :
  let m : alloc := Some (fun _ => 0xaa) in
  exists file,
    trace_calls [(m, Version 3 0); (m, Cmd_add 5 0x0007 1 0x10); (None, Afu_drop 5); (m, Cmd_add 5 0x0107 1 0x10)] []
      = Some file /\
    read_trace 4 file = ([Version 3 0; Cmd_add 5 7 1 0x10; Cmd_add 5 7 1 0x10], []).
Proof.
  intros m. destruct (trace_roundtrip
    [(m, Version 3 0); (m, Cmd_add 5 0x0007 1 0x10); (None, Afu_drop 5); (m, Cmd_add 5 0x0107 1 0x10)] 4) as (file & H & Hr);
    [cbn; lia|]. exists file. split; [exact H|]. exact Hr.
Defined.
