(* ===== verification/TestConfig.v ===== *)
(** common/TestAFU_config.c: the four configuration words of a machine of the
    test AFU, field by field, and the exchange of the words with its registers.

    The file hands an AFU where the library's register calls want a register
    area, so which registers a call reaches is not determined by the source: the
    two calls are arguments of the exchange. *)
From S2P Require Import Prelude Utils.

(** [struct AFUConfig]: [config[0]] to [config[3]]. *)
Record MachineConfig := Machine { config0 : Z; config1 : Z; config2 : Z; config3 : Z }.
#[export] Instance eta_machine : Settable MachineConfig :=
  fun m => Machine (config0 m) (config1 m) (config2 m) (config3 m).
#[export] Instance set_config0 : Setter config0 := ltac:(build_setter).
#[export] Instance set_config1 : Setter config1 := ltac:(build_setter).
#[export] Instance set_config2 : Setter config2 := ltac:(build_setter).
#[export] Instance set_config3 : Setter config3 := ltac:(build_setter).

Record MachineConfigParam := MachineParam {
  mp_context : Z; mp_command : Z; mp_command_size : Z; mp_machine_number : Z;
  mp_status_address : Z; mp_mem_base_address : Z; mp_mem_dest_address : Z; mp_mem_size : Z;
  mp_enable_always : Z;
}.

Definition init_machine (machine : MachineConfig) : MachineConfig := Machine 0 0 0 0.

(** * The fields *)

(** [machine->config[n] &= ~mask; machine->config[n] |= v;] *)
Definition put_bits (config mask v : Z) : Z := Z.lor (Z.land config (Z.lnot mask)) v.

Section setters.
Context (machine : MachineConfig).

Definition set_machine_config_enable_always : MachineConfig :=
  machine <| config0 := put_bits (config0 machine) 0x4000000000000000 0x8000000000000000 |>.
Definition set_machine_config_enable_once : MachineConfig :=
  machine <| config0 := put_bits (config0 machine) 0x8000000000000000 0x4000000000000000 |>.
Definition set_machine_config_disable : MachineConfig :=
  machine <| config0 := Z.land (config0 machine) (Z.lnot 0xC000000000000000) |>.
Definition set_machine_config_command_code (code : Z) : MachineConfig :=
  machine <| config0 := put_bits (config0 machine) 0x1FFF000000000000 (Z.shiftl code 48) |>.
Definition set_machine_config_context (context : Z) : MachineConfig :=
  machine <| config0 := put_bits (config0 machine) 0x0000FFFF00000000 (Z.shiftl context 32) |>.
Definition set_machine_config_machine_number (machine_number : Z) : MachineConfig :=
  machine <| config0 := put_bits (config0 machine) 0x00000000FFFF0000 (Z.shiftl machine_number 16) |>.
Definition set_machine_config_status_address (status_address : Z) : MachineConfig :=
  machine <| config1 := put_bits (config1 machine) 0xFFFFFFFF00000000 (Z.shiftl status_address 32) |>.
Definition set_machine_memory_base_address (addr : Z) : MachineConfig := machine <| config2 := addr |>.
Definition set_machine_memory_dest_address (addr : Z) : MachineConfig := machine <| config3 := addr |>.
Definition set_machine_memory_size (size : Z) : MachineConfig :=
  machine <| config1 := put_bits (config1 machine) 0x000000000000FFFF size |>.

Definition get_machine_config_enable_always : Z :=
  u8 (u16 (Z.shiftr (Z.land (config0 machine) 0x8000000000000000) 63)).
Definition get_machine_config_enable_once : Z :=
  u8 (u16 (Z.shiftr (Z.land (config0 machine) 0x4000000000000000) 62)).
Definition get_machine_config_command_code : Z :=
  u16 (Z.shiftr (Z.land (config0 machine) 0x1FFF000000000000) 48).
Definition get_machine_config_context : Z :=
  u16 (Z.shiftr (Z.land (config0 machine) 0x0000FFFF00000000) 32).
Definition get_machine_config_machine_number : Z :=
  u16 (Z.shiftr (Z.land (config0 machine) 0x00000000FFFF0000) 16).
Definition get_machine_config_machine_idling : Z :=
  u8 (u16 (Z.shiftr (Z.land (config1 machine) 0x0000010000000000) 40)).
Definition get_machine_config_response_code : Z :=
  u8 (u16 (Z.shiftr (Z.land (config1 machine) 0x000000FF00000000) 32)).
Definition get_machine_config_response_status : Z :=
  u16 (Z.shiftr (Z.land (config1 machine) 0x0000000080000000) 31).
Definition get_machine_config_response_timestamp : Z :=
  u16 (Z.shiftr (Z.land (config1 machine) 0x000000007FFF0000) 16).
Definition get_machine_config_command_status : Z :=
  u8 (u16 (Z.shiftr (Z.land (config1 machine) 0x0000000000008000) 15)).
Definition get_machine_config_command_timestamp : Z :=
  u16 (Z.land (config1 machine) 0x0000000000007FFF).
Definition get_machine_memory_base_address : Z := config2 machine.
(** The size was put into [config[1]]. *)
Definition get_machine_memory_size : Z := config3 machine.
End setters.

(** [None]: no machine. *)
Definition config_machine (machine : option MachineConfig) (configparam : MachineConfigParam)
    : Z * option MachineConfig :=
  match machine with
  | None => (-1, None)
  | Some machine =>
      let machine := set_machine_config_context machine (mp_context configparam) in
      let machine := set_machine_config_command_code machine (mp_command configparam) in
      let machine := set_machine_config_machine_number machine (mp_machine_number configparam) in
      let machine := set_machine_config_status_address machine (mp_status_address configparam) in
      let machine := set_machine_memory_base_address machine (mp_mem_base_address configparam) in
      let machine := set_machine_memory_size machine (mp_mem_size configparam) in
      let machine :=
        if truthy (mp_enable_always configparam) then set_machine_config_enable_always machine
        else set_machine_config_enable_once machine in
      (0, Some machine)
  end.

(** * The registers *)

(** The number is unsigned: the test against zero never holds. *)
Definition _machine_base_address_index (machine_number : Z) : Z :=
  if (machine_number <? 0) || (63 <? machine_number) then -1 else Z.shiftl machine_number 5.

Definition word (machine : MachineConfig) (i : Z) : Z :=
  if i =? 0 then config0 machine else if i =? 1 then config1 machine
  else if i =? 2 then config2 machine else config3 machine.

Section registers.
(** What the calls read and write, whatever the handle makes of it: the state of
    the AFU, the outcome of a write, the outcome of a read. *)
Context {A : Type} (write64 : A -> Z -> Z -> Z * A) (read64 : A -> Z -> option Z * A).

Definition machine_base (machine_number context : Z) : Z :=
  _machine_base_address_index machine_number + context * 0x1000.

Fixpoint enable_words (afu : A) (machine : MachineConfig) (base : Z) (idxs : list Z) : Z * A :=
  match idxs with
  | [] => (0, afu)
  | i :: idxs =>
      let '(rc, afu) := write64 afu (base + i * 8) (word machine i) in
      if truthy rc then (-1, afu) else enable_words afu machine base idxs
  end.
Definition enable_machine (afu : A) (machine : MachineConfig) (param : MachineConfigParam) : Z * A :=
  enable_words afu machine (machine_base (mp_machine_number param) (mp_context param)) [3; 2; 1; 0].

Definition clear_machine_config (afu : A) (param : MachineConfigParam) : Z * A :=
  let '(rc, afu) := write64 afu (machine_base (mp_machine_number param) (mp_context param)) 0 in
  if truthy rc then (-1, afu) else (0, afu).

(** The context is taken for the number of a machine. *)
Definition poll_machine (afu : A) (machine : MachineConfig) (context : Z) : Z * A * MachineConfig :=
  let base := _machine_base_address_index context in
  match read64 afu base with
  | (None, afu) => (-1, afu, machine)
  | (Some v0, afu) =>
      let machine := machine <| config0 := v0 |> in
      match read64 afu (base + 8) with
      | (None, afu) => (-1, afu, machine)
      | (Some v1, afu) => (0, afu, machine <| config1 := v1 |>)
      end
  end.

Definition config_and_enable_machine (afu : A) (machine : option MachineConfig) (param : MachineConfigParam)
    : Z * A * option MachineConfig :=
  match config_machine machine param with
  | (0, Some machine) =>
      let '(rc, afu) := enable_machine afu machine param in
      (if truthy rc then -1 else 0, afu, Some machine)
  | (_, machine) => (-1, afu, machine)
  end.

(** [None]: still waiting when the fuel is used up. *)
Fixpoint get_response (fuel : nat) (afu : A) (machine : MachineConfig) (context : Z)
    : option (Z * A * MachineConfig) :=
  match fuel with
  | O => None
  | S fuel =>
      let '(rc, afu, machine) := poll_machine afu machine context in
      if rc <? 0 then Some (0xFF, afu, machine)
      else if get_machine_config_response_code machine =? 0xFF then get_response fuel afu machine context
      else Some (0, afu, machine)
  end.

Definition config_enable_and_run_machine (afu : A) (machine : option MachineConfig) (param : MachineConfigParam)
    : Z * A * option MachineConfig :=
  let '(rc, afu, machine) := config_and_enable_machine afu machine param in
  (if rc <? 0 then -1 else 0, afu, machine).
End registers.

(** * Fields are independent *)

Definition field_mask (k w : Z) : Z := Z.shiftl (Z.ones w) k.
Definition bit_field (config k w : Z) : Z := Z.shiftr (Z.land config (field_mask k w)) k.

Lemma testbit_mask k w i : 0 <= k -> 0 <= w -> 0 <= i -> Z.testbit (field_mask k w) i = (k <=? i) && (i <? k + w).
Proof.
  intros Hk Hw Hi. unfold field_mask. rewrite Z.shiftl_spec by done.
  destruct (Z.leb_spec k i); cbn [andb].
  - rewrite Z.testbit_ones by done.
    replace (0 <=? i - k) with true by (symmetry; apply Z.leb_le; lia). cbn.
    destruct (Z.ltb_spec (i - k) w), (Z.ltb_spec i (k + w)); lia.
  - by rewrite Z.testbit_neg_r by lia.
Qed.

(** Bit [i] of a field. *)
Lemma testbit_field c k w i :
  0 <= k -> 0 <= w -> 0 <= i -> Z.testbit (bit_field c k w) i = (i <? w) && Z.testbit c (i + k).
Proof.
  intros Hk Hw Hi. unfold bit_field. rewrite Z.shiftr_spec, Z.land_spec, testbit_mask by lia.
  replace (k <=? i + k) with true by (symmetry; apply Z.leb_le; lia). cbn [andb].
  rewrite andb_comm. f_equal. destruct (Z.ltb_spec (i + k) (k + w)), (Z.ltb_spec i w); lia.
Qed.

(** A field, or its low part, reads back what was put into it. *)
Lemma field_put_low c k w w' v : 0 <= k -> 0 <= w' <= w -> is_u w v ->
  bit_field (put_bits c (field_mask k w) (Z.shiftl v k)) k w' = v mod 2 ^ w'.
Proof.
  intros Hk Hw Hv. apply Z.bits_inj'. intros i Hi. rewrite testbit_field by lia.
  unfold put_bits. rewrite Z.lor_spec, Z.land_spec, Z.lnot_spec, testbit_mask, Z.shiftl_spec by lia.
  replace (i + k - k) with i by lia. destruct (Z.ltb_spec i w') as [Hlt|Hge].
  - replace ((k <=? i + k) && (i + k <? k + w)) with true by (symmetry; apply andb_true_iff; split; lia).
    rewrite andb_false_r. cbn. by rewrite Z.mod_pow2_bits_low by lia.
  - by rewrite Z.mod_pow2_bits_high by lia.
Qed.

(** The other fields keep what they had. *)
Lemma field_put_other c m v k w :
  0 <= k -> 0 <= w -> (forall i, k <= i < k + w -> Z.testbit m i = false /\ Z.testbit v i = false) ->
  bit_field (put_bits c m v) k w = bit_field c k w.
Proof.
  intros Hk Hw Hm. apply Z.bits_inj'. intros i Hi. rewrite !testbit_field by done.
  destruct (Z.ltb_spec i w); [|done]. cbn [andb]. unfold put_bits.
  destruct (Hm (i + k)) as [H1 H2]; [lia|].
  by rewrite Z.lor_spec, Z.land_spec, Z.lnot_spec, H1, H2, andb_true_r, orb_false_r by lia.
Qed.

Lemma field_put_apart c k w v k' w' :
  0 <= k -> 0 <= w -> 0 <= k' -> 0 <= w' -> is_u w v -> k + w <= k' \/ k' + w' <= k ->
  bit_field (put_bits c (field_mask k w) (Z.shiftl v k)) k' w' = bit_field c k' w'.
Proof.
  intros Hk Hw Hk' Hw' Hv Hd. apply field_put_other; [done..|]. intros i Hi.
  rewrite testbit_mask, Z.shiftl_spec by lia. split.
  - destruct (Z.leb_spec k i), (Z.ltb_spec i (k + w)); cbn; lia.
  - destruct (Z.ltb_spec (i - k) 0); [by apply Z.testbit_neg_r|]. apply (testbit_high w); [done|lia].
Qed.

(** A bit that the mask clears and nothing sets, and one that is set. *)
Lemma field_bit c i : 0 <= i -> bit_field c i 1 = bool_int (Z.testbit c i).
Proof.
  intros Hi. apply Z.bits_inj'. intros j Hj. rewrite testbit_field by lia.
  destruct (Z.ltb_spec j 1).
  - replace j with 0 by lia. cbn [andb]. rewrite Z.add_0_l. by destruct (Z.testbit c i).
  - cbn [andb]. symmetry. apply (testbit_high 1); [|lia]. by destruct (Z.testbit c i).
Qed.

Definition param_ok (p : MachineConfigParam) : Prop :=
  is_u 16 (mp_context p) /\ is_u 13 (mp_command p) /\ is_u 16 (mp_machine_number p) /\
  is_u 32 (mp_status_address p) /\ is_u 16 (mp_mem_size p).

(** What the first word and the second hold after [config_machine]. *)
Definition word0 (c : Z) (p : MachineConfigParam) : Z :=
  put_bits (put_bits (put_bits c (field_mask 32 16) (Z.shiftl (mp_context p) 32))
    (field_mask 48 13) (Z.shiftl (mp_command p) 48))
    (field_mask 16 16) (Z.shiftl (mp_machine_number p) 16).
Definition enabled (always : bool) (c : Z) : Z :=
  if always then put_bits c (field_mask 62 1) (2 ^ 63) else put_bits c (field_mask 63 1) (2 ^ 62).
Definition word1 (c : Z) (p : MachineConfigParam) : Z :=
  put_bits (put_bits c (field_mask 32 32) (Z.shiftl (mp_status_address p) 32))
    (field_mask 0 16) (Z.shiftl (mp_mem_size p) 0).

Lemma config_machine_words m p :
  config_machine (Some m) p =
  (0, Some (Machine (enabled (truthy (mp_enable_always p)) (word0 (config0 m) p)) (word1 (config1 m) p)
              (mp_mem_base_address p) (config3 m))).
Proof.
  unfold config_machine, word1. rewrite Z.shiftl_0_r. destruct (truthy (mp_enable_always p)); reflexivity.
Qed.

Lemma enabled_field always c k w : 0 <= k -> 0 <= w -> k + w <= 62 -> bit_field (enabled always c) k w = bit_field c k w.
Proof.
  intros Hk Hw H. unfold enabled. destruct always; apply field_put_other; try done; intros i Hi;
    rewrite testbit_mask, Z.pow2_bits_eqb by lia; split; lia.
Qed.
Lemma enabled_bits always c :
  bit_field (enabled always c) 63 1 = bool_int always /\ bit_field (enabled always c) 62 1 = bool_int (negb always).
Proof.
  rewrite !field_bit by done. unfold enabled, put_bits.
  destruct always; rewrite !Z.lor_spec, !Z.land_spec, !Z.lnot_spec, !testbit_mask, !Z.pow2_bits_eqb by done;
    cbn; rewrite ?andb_false_r, ?orb_true_r; done.
Qed.

(** What is asked for, and what the getters make of it. *)
Record configured (m m' : MachineConfig) (p : MachineConfigParam) : Prop := {
  cg_context : get_machine_config_context m' = mp_context p;
  cg_command : get_machine_config_command_code m' = mp_command p;
  cg_number : get_machine_config_machine_number m' = mp_machine_number p;
  cg_always : get_machine_config_enable_always m' = bool_int (truthy (mp_enable_always p));
  cg_once : get_machine_config_enable_once m' = bool_int (negb (truthy (mp_enable_always p)));
  cg_base : get_machine_memory_base_address m' = mp_mem_base_address p;
  (** The field of the answer is the low byte of the status address. *)
  cg_response : get_machine_config_response_code m' = mp_status_address p mod 2 ^ 8;
  (** The size is in the second word and is read from the fourth. *)
  cg_size : bit_field (config1 m') 0 16 = mp_mem_size p;
  cg_get_size : get_machine_memory_size m' = config3 m;
}.

Lemma u16_field v : is_u 16 v -> u16 v = v.
Proof. apply is_u_small. Qed.
Lemma u8_u16 v : is_u 8 v -> u8 (u16 v) = v.
Proof. intros H. rewrite u16_field by (by eapply is_u_mono, H). by apply is_u_small. Qed.
Lemma bool_int_byte b : is_u 8 (bool_int b).
Proof. by destruct b. Qed.

(** [config_machine] makes the configuration that is asked for: every field
    reads back as it was given, whatever was in the words before, and the two
    enable bits are opposite.  The size alone does not: it is written to the
    second word and read from the fourth; and the answer code is read where the
    status address was put. *)
Theorem config_machine_fields m p :
  param_ok p -> exists m', config_machine (Some m) p = (0, Some m') /\ configured m m' p.
Proof.
  intros (Hc & Hm & Hn & Hs & Hz). eexists. split; [apply config_machine_words|].
  assert (Hm16 : is_u 16 (mp_command p)) by (eapply is_u_mono, Hm; lia).
  constructor; cbn [config0 config1 config2 config3].
  - change (u16 (bit_field (enabled (truthy (mp_enable_always p)) (word0 (config0 m) p)) 32 16) = mp_context p).
    rewrite enabled_field by done. unfold word0. rewrite !field_put_apart by (done || lia).
    rewrite field_put_low by (done || lia). by rewrite is_u_small, u16_field.
  - change (u16 (bit_field (enabled (truthy (mp_enable_always p)) (word0 (config0 m) p)) 48 13) = mp_command p).
    rewrite enabled_field by done. unfold word0. rewrite field_put_apart by (done || lia).
    rewrite field_put_low by (done || lia). by rewrite is_u_small, u16_field.
  - change (u16 (bit_field (enabled (truthy (mp_enable_always p)) (word0 (config0 m) p)) 16 16) = mp_machine_number p).
    rewrite enabled_field by done. unfold word0. rewrite field_put_low by (done || lia).
    by rewrite is_u_small, u16_field.
  - change (u8 (u16 (bit_field (enabled (truthy (mp_enable_always p)) (word0 (config0 m) p)) 63 1)) =
      bool_int (truthy (mp_enable_always p))).
    rewrite (proj1 (enabled_bits _ _)). apply u8_u16, bool_int_byte.
  - change (u8 (u16 (bit_field (enabled (truthy (mp_enable_always p)) (word0 (config0 m) p)) 62 1)) =
      bool_int (negb (truthy (mp_enable_always p)))).
    rewrite (proj2 (enabled_bits _ _)). apply u8_u16, bool_int_byte.
  - done.
  - change (u8 (u16 (bit_field (word1 (config1 m) p) 32 8)) = mp_status_address p mod 2 ^ 8).
    unfold word1. rewrite field_put_apart by (done || lia). rewrite field_put_low by (done || lia).
    by apply u8_u16, is_u_mod.
  - unfold word1. rewrite field_put_low by (done || lia). by apply is_u_small.
  - done.
Qed.

Definition sample_param : MachineConfigParam := MachineParam 3 0x1111 0 5 0xdeadbe42 0x7000 0 0x80 1.

Lemma config_machine_fields_witness :
  exists m', config_machine (Some (Machine (-1) (-1) 9 77)) sample_param = (0, Some m') /\
    get_machine_config_command_code m' = 0x1111 /\ get_machine_memory_size m' = 77 /\
    get_machine_config_response_code m' = 0x42.
Proof.
  destruct (config_machine_fields (Machine (-1) (-1) 9 77) sample_param) as (m' & H & [_ H2 _ _ _ _ H7 _ H9]);
    [by vm_compute|]. exists m'. split; [exact H|]. split; [exact H2|]. split; [exact H9|exact H7].
Defined.

(** ** The registers *)

(** Whatever the answer is, [get_response] does not tell it. *)
Lemma response_is_lost {A} (read64 : A -> Z -> option Z * A) fuel afu m context rc afu' m' :
  get_response read64 fuel afu m context = Some (rc, afu', m') -> rc = 0 \/ rc = 0xFF.
Proof.
  revert afu m. induction fuel as [|fuel IH]; intros afu m; [done|]. cbn [get_response].
  destruct (poll_machine read64 afu m context) as [[r a] m1].
  destruct (r <? 0); [intros [= <- _ _]; by right|].
  destruct (_ =? 0xFF); [apply IH|]. intros [= <- _ _]. by left.
Qed.

(** A machine is written at its number and its context, and polled at its
    context only: the two places meet for machine number and context zero. *)
Lemma polled_elsewhere number context :
  0 <= number <= 63 -> 0 <= context <= 63 ->
  machine_base number context = _machine_base_address_index context -> number = 0 /\ context = 0.
Proof.
  intros Hn Hc. unfold machine_base, _machine_base_address_index.
  destruct (Z.ltb_spec number 0), (Z.ltb_spec 63 number), (Z.ltb_spec context 0), (Z.ltb_spec 63 context); try lia.
  cbn [orb]. rewrite !Z.shiftl_mul_pow2 by done. lia.
Qed.
