(* ===== verification/Fifo.v ===== *)
(** The two FIFOs of 64-byte lines the simulator's driver keeps for the AFU
    (struct DATA_PKT of common/tlx_interface_t.h, the list operations of
    afu_driver.c): linked lists on the heap with a pointer to the first packet,
    one to the last, and the number of lines the AFU has asked for.  The
    specification is a list of lines. *)
From stdpp Require Import gmap.
From S2P Require Import Prelude.


Record DATA_PKT := Pkt { pkt_data : list Z; pkt_next : Z }.

Abbreviation heap := (gmap Z DATA_PKT).

(** [event.rdata_head], [event.rdata_tail], [event.rdata_rd_cnt], and those of
    [cdata]. *)
Record fifo := Fifo { q_head : Z; q_tail : Z; q_rd_cnt : Z }.
#[export] Instance fifo_settable : Settable fifo := fun f =>
  Fifo (q_head f) (q_tail f) (q_rd_cnt f).
#[export] Instance set_q_head : Setter q_head := ltac:(build_setter).
#[export] Instance set_q_tail : Setter q_tail := ltac:(build_setter).
#[export] Instance set_q_rd_cnt : Setter q_rd_cnt := ltac:(build_setter).

Definition fifo_empty : fifo := Fifo NULL NULL 0.

(** The allocator of the C library: a block it returns is not in use.  The
    code does not test for a failure. *)
Class Allocator := {
  malloc : heap -> Z;
  malloc_fresh h : h !! malloc h = None;
  malloc_not_null h : malloc h <> NULL;
}.

(** An address and the line of the packet there. *)
Abbreviation node := (Z * list Z)%type.

Section operations.
Context `{Allocator}.

(** A packet at the tail of the FIFO. *)
Definition fifo_put (line : list Z) '((h, f) : heap * fifo) : option (heap * fifo) :=
  let p := malloc h in
  let h := <[p := Pkt line NULL]> h in
  if q_head f =? NULL then Some (h, f <| q_head := p |> <| q_tail := p |>)
  else
    t ← h !! q_tail f;
    Some (<[q_tail f := Pkt (pkt_data t) p]> h, f <| q_tail := p |>).

(** Line [i] of the data of an event. *)
Definition line_of (data : list Z) (i : nat) : list Z := take 64 (drop (64 * i) data).

(** [for (i = 0; i < new_line_cnt; i++)] *)
Fixpoint fifo_fill (lines : list (list Z)) (s : heap * fifo) : option (heap * fifo) :=
  match lines with
  | [] => Some s
  | line :: lines => s ← fifo_put line s; fifo_fill lines s
  end.

(** The head is driven and freed, if the AFU has asked for a line. *)
Definition fifo_take '((h, f) : heap * fifo) : option (option (list Z) * (heap * fifo)) :=
  if 0 <? q_rd_cnt f then
    old ← h !! q_head f;
    Some (Some (pkt_data old),
          (delete (q_head f) h,
           f <| q_rd_cnt := q_rd_cnt f - 1 |> <| q_head := pkt_next old |>))
  else Some (None, (h, f)).

(** * The representation *)

Fixpoint chain (h : heap) (p : Z) (q : list node) : Prop :=
  match q with
  | [] => p = NULL
  | (a, l) :: q => p = a /\ a <> NULL /\ exists next, h !! a = Some (Pkt l next) /\ chain h next q
  end.

(** The tail pointer is the last packet's address when there is one; it is not
    constrained - it may dangle - when the FIFO is empty. *)
Record fifo_is (h : heap) (f : fifo) (q : list node) : Prop := {
  fi_chain : chain h (q_head f) q;
  fi_tail : forall a l, list.last q = Some (a, l) -> q_tail f = a;
  fi_nodup : NoDup q.*1;
}.

Lemma chain_frame h h' p q :
  (forall a, a ∈ q.*1 -> h' !! a = h !! a) -> chain h p q -> chain h' p q.
Proof.
  revert p. induction q as [|[a l] q IH]; intros p Hf; [done|]. cbn.
  intros (-> & Ha & next & Hn & Hc). split_and!; [done|done|]. exists next. split.
  - rewrite Hf; [done|]. cbn. set_solver.
  - apply IH; [|done]. intros b Hb. apply Hf. cbn. set_solver.
Qed.

Lemma chain_dom h p q : chain h p q -> forall a, a ∈ q.*1 -> a ∈ dom h.
Proof.
  revert p. induction q as [|[a l] q IH]; intros p; cbn; [set_solver|].
  intros (-> & _ & next & Hn & Hc) b [->|Hb]%elem_of_cons.
  - by eapply elem_of_dom_2.
  - by apply (IH next).
Qed.

Lemma fifo_is_frame h h' f q :
  (forall a, a ∈ q.*1 -> h' !! a = h !! a) -> fifo_is h f q -> fifo_is h' f q.
Proof. intros Hf []. split; [by eapply chain_frame|done..]. Qed.

Lemma fifo_is_cnt h f q n : fifo_is h f q -> fifo_is h (f <| q_rd_cnt := n |>) q.
Proof. intros []. by split. Qed.

Lemma fifo_head_null h f q : fifo_is h f q -> (q_head f =? NULL) = bool_decide (q = []).
Proof.
  intros [Hc _ _]. destruct q as [|[a l] q]; cbn in Hc.
  - by rewrite Hc.
  - destruct Hc as (-> & Ha & _). by apply Z.eqb_neq.
Qed.

(** Linking a fresh packet behind the last one. *)
Lemma chain_snoc h p q a l b line :
  chain h p (q ++ [(a, l)]) -> NoDup (q ++ [(a, l)]).*1 -> b <> NULL -> b ∉ (q ++ [(a, l)]).*1 ->
  chain (<[a := Pkt l b]> (<[b := Pkt line NULL]> h)) p ((q ++ [(a, l)]) ++ [(b, line)]).
Proof.
  intros Hc Hnd Hb Hbq. rewrite <- app_assoc.
  revert p Hc Hnd Hbq. induction q as [|[c k] q IH]; intros p; cbn [app chain fmap list_fmap fst].
  - intros (-> & Ha & _) _ [Hba _]%not_elem_of_cons.
    split_and!; [done|done|]. exists b. rewrite lookup_insert_eq.
    split; [done|]. cbn. split_and!; [done|done|]. exists NULL.
    by rewrite lookup_insert_ne, lookup_insert_eq by done.
  - intros (-> & Hc & next & Hn & Hch) [Hcq Hnd]%list_relations.list.NoDup_cons
      [Hbc Hbq]%not_elem_of_cons.
    split_and!; [done|done|]. exists next. split; [|by apply IH].
    rewrite fmap_app in Hcq. apply not_elem_of_app in Hcq as [_ [Hca _]%not_elem_of_cons].
    by rewrite !lookup_insert_ne by done.
Qed.

Lemma fifo_put_spec h f q line :
  fifo_is h f q ->
  exists h' f', fifo_put line (h, f) = Some (h', f') /\
    fifo_is h' f' (q ++ [(malloc h, line)]) /\ q_rd_cnt f' = q_rd_cnt f /\
    dom h' = dom h ∪ {[malloc h]} /\
    (forall a, a ∉ q.*1 -> a <> malloc h -> h' !! a = h !! a).
Proof.
  intros Hf. pose proof (malloc_fresh h) as Hfr. pose proof (malloc_not_null h) as Hnn.
  assert (Hnin : malloc h ∉ q.*1).
  { intros Hin. apply (chain_dom h (q_head f)) in Hin; [|apply Hf].
    apply not_elem_of_dom in Hfr. done. }
  unfold fifo_put. rewrite (fifo_head_null h f q Hf).
  destruct q as [|[a l] q' _] using rev_ind.
  - rewrite bool_decide_true by done. do 2 eexists. split_and!; [reflexivity| |done| |].
    + split; cbn.
      * split_and!; [done|done|]. exists NULL. by rewrite lookup_insert_eq.
      * intros ? ? [= <- <-]. done.
      * apply NoDup_singleton.
    + rewrite dom_insert_L. set_solver.
    + intros b _ Hb. by rewrite lookup_insert_ne.
  - rewrite bool_decide_false by (by destruct q').
    destruct Hf as [Hc Ht Hnd].
    assert (Hta : q_tail f = a) by (apply (Ht a l); by rewrite last_snoc).
    assert (Hla : h !! a = Some (Pkt l NULL)).
    { clear -Hc. revert Hc. generalize (q_head f). induction q' as [|[c k] q IH]; intros p; cbn.
      - intros (-> & _ & next & Hn & ->). done.
      - intros (_ & _ & next & _ & Hc). by apply (IH next). }
    rewrite Hta, lookup_insert_ne, Hla by congruence. cbn [mbind option_bind pkt_data].
    do 2 eexists. split_and!; [reflexivity| |done| |].
    + split.
      * by apply chain_snoc.
      * intros ? ? Hl. rewrite last_snoc in Hl. by injection Hl as <- <-.
      * rewrite fmap_app. apply list_relations.list.NoDup_app. split_and!; [done| |apply NoDup_singleton].
        intros x Hx. cbn. intros ->%list_elem_of_singleton. done.
    + rewrite !dom_insert_L. apply elem_of_dom_2 in Hla. set_solver.
    + intros b Hb Hbm. rewrite !lookup_insert_ne; [done|done|].
      intros ->. apply Hb. rewrite fmap_app. set_solver.
Qed.

(** Lines appended: they are at fresh addresses, in order, and nothing else on
    the heap changes. *)
Lemma fifo_fill_spec lines : forall h f q,
  fifo_is h f q ->
  exists h' f' (new : list node), fifo_fill lines (h, f) = Some (h', f') /\ new.*2 = lines /\
    fifo_is h' f' (q ++ new) /\ q_rd_cnt f' = q_rd_cnt f /\
    dom h' = dom h ∪ list_to_set new.*1 /\ (forall a, a ∈ new.*1 -> a ∉ dom h) /\
    (forall a, a ∉ (q ++ new).*1 -> h' !! a = h !! a).
Proof.
  induction lines as [|line lines IH]; intros h f q Hf.
  - exists h, f, []. rewrite app_nil_r. cbn. split_and!; [done..|set_solver|set_solver|done].
  - destruct (fifo_put_spec h f q line Hf) as (h1 & f1 & Hp & Hf1 & Hcnt1 & Hd1 & Hk1).
    destruct (IH h1 f1 _ Hf1) as (h2 & f2 & new & Hfill & Hnew & Hf2 & Hcnt2 & Hd2 & Hfresh & Hk2).
    exists h2, f2, ((malloc h, line) :: new). rewrite <- app_assoc in Hf2, Hk2. cbn in Hf2, Hk2.
    split_and!.
    + cbn [fifo_fill]. rewrite Hp. cbn [mbind option_bind]. done.
    + cbn. by rewrite Hnew.
    + done.
    + congruence.
    + rewrite Hd2, Hd1. cbn. set_solver.
    + cbn. intros a [->|Ha]%elem_of_cons.
      * apply not_elem_of_dom, malloc_fresh.
      * apply Hfresh in Ha. set_solver.
    + intros a Ha. rewrite Hk2 by done. rewrite fmap_app in Ha. cbn in Ha.
      apply Hk1; set_solver.
Qed.

Lemma fifo_take_idle h f : q_rd_cnt f <= 0 -> fifo_take (h, f) = Some (None, (h, f)).
Proof. intros Hn. unfold fifo_take. by replace (0 <? q_rd_cnt f) with false by lia. Qed.

Lemma fifo_take_spec h f a l q :
  0 < q_rd_cnt f -> fifo_is h f ((a, l) :: q) ->
  exists f', fifo_take (h, f) = Some (Some l, (delete a h, f')) /\
    fifo_is (delete a h) f' q /\ q_rd_cnt f' = q_rd_cnt f - 1.
Proof.
  intros Hn [Hc Ht Hnd]. cbn in Hc. destruct Hc as (Hh & Ha & next & Hl & Hc).
  unfold fifo_take. replace (0 <? q_rd_cnt f) with true by lia. rewrite Hh, Hl.
  cbn [mbind option_bind pkt_data pkt_next]. eexists. split_and!; [reflexivity| |done].
  cbn in Hnd. apply list_relations.list.NoDup_cons in Hnd as [Haq Hnd].
  split; cbn.
  - eapply chain_frame; [|exact Hc]. intros b Hb. rewrite lookup_delete_ne; [done|].
    intros ->. done.
  - intros b k Hb. apply (Ht b k). destruct q; [done|]. by cbn.
  - done.
Qed.

(** A request for a line that is not there reads through a null pointer - or, if
    a block lives at address 0, is not this program's. *)
Lemma fifo_take_undefined h f :
  0 < q_rd_cnt f -> fifo_is h f [] -> h !! NULL = None -> fifo_take (h, f) = None.
Proof.
  intros Hn [Hc _ _] H0. cbn in Hc. unfold fifo_take.
  replace (0 <? q_rd_cnt f) with true by lia. by rewrite Hc, H0.
Qed.

(** * The two FIFOs on one heap

    Every packet on the heap is in exactly one of them: no packet leaks, none
    is shared, and none is used after it was freed. *)
Record queues (h : heap) (r c : fifo) (rq cq : list node) : Prop := {
  qs_r : fifo_is h r rq;
  qs_c : fifo_is h c cq;
  qs_disj : forall a, a ∈ rq.*1 -> a ∉ cq.*1;
  qs_dom : dom h = list_to_set (rq.*1 ++ cq.*1);
}.

Lemma queues_swap h r c rq cq : queues h r c rq cq -> queues h c r cq rq.
Proof. intros []. split; [done|done|set_solver|rewrite qs_dom0; set_solver]. Qed.

Lemma queues_null h r c rq cq : queues h r c rq cq -> h !! NULL = None.
Proof.
  intros [[Hr _ _] [Hc _ _] _ Hd]. apply not_elem_of_dom. rewrite Hd.
  assert (Hnn : forall p q, chain h p q -> NULL ∉ q.*1).
  { intros p q. revert p. induction q as [|[a l] q IH]; intros p; cbn; [set_solver|].
    intros (_ & Ha & next & _ & Hch%IH). set_solver. }
  apply Hnn in Hr, Hc. set_solver.
Qed.

Lemma queues_empty : queues ∅ fifo_empty fifo_empty [] [].
Proof. split; [split|split|..]; cbn; try done; try apply NoDup_nil_2; set_solver. Qed.

Lemma queues_fill h r c rq cq lines :
  queues h r c rq cq ->
  exists h' r' (new : list node), fifo_fill lines (h, r) = Some (h', r') /\ new.*2 = lines /\
    queues h' r' c (rq ++ new) cq /\ q_rd_cnt r' = q_rd_cnt r.
Proof.
  intros [Hr Hc Hdis Hd].
  destruct (fifo_fill_spec lines h r rq Hr) as (h' & r' & new & He & Hl & Hr' & Hn & Hd' & Hfr & Hk).
  exists h', r', new. split_and!; [done|done| |done].
  assert (Hnc : forall a, a ∈ cq.*1 -> a ∉ (rq ++ new).*1).
  { intros a Ha. rewrite fmap_app, elem_of_app. intros [Hin|Hin].
    - by apply (Hdis a).
    - apply (Hfr a Hin). rewrite Hd. set_solver. }
  split; [done| | |].
  - eapply fifo_is_frame; [|exact Hc]. intros a Ha. apply Hk. by apply Hnc.
  - intros a Ha Hca. by apply (Hnc a).
  - rewrite Hd', Hd, fmap_app. set_solver.
Qed.

Lemma queues_take h r c a l rq cq :
  0 < q_rd_cnt r -> queues h r c ((a, l) :: rq) cq ->
  exists h' r', fifo_take (h, r) = Some (Some l, (h', r')) /\
    queues h' r' c rq cq /\ q_rd_cnt r' = q_rd_cnt r - 1.
Proof.
  intros Hn [Hr Hc Hdis Hd].
  destruct (fifo_take_spec h r a l rq Hn Hr) as (r' & He & Hr' & Hcnt).
  exists (delete a h), r'. split_and!; [done| |done].
  destruct Hr as [_ _ Hnd]. cbn in Hnd. apply list_relations.list.NoDup_cons in Hnd as [Haq _].
  split; [done| | |].
  - eapply fifo_is_frame; [|exact Hc]. intros b Hb. rewrite lookup_delete_ne; [done|].
    intros ->. apply (Hdis b); [cbn; set_solver|done].
  - intros b Hb. apply Hdis. cbn. set_solver.
  - rewrite dom_delete_L, Hd. cbn. cbn in Hdis. set_solver.
Qed.
End operations.

(** * An allocator *)

(** One above the highest address in use. *)
Definition lowest_free (h : heap) : Z := 1 + map_fold (fun a _ m => Z.max a m) 0 h.

Lemma lowest_free_above (h : heap) : 0 < lowest_free h /\ forall a p, h !! a = Some p -> a < lowest_free h.
Proof.
  unfold lowest_free.
  apply (map_fold_weak_ind (fun m (h : heap) => 0 < 1 + m /\ forall a p, h !! a = Some p -> a < 1 + m)).
  - split; [lia|]. intros a p. by rewrite lookup_empty.
  - intros i x m r Hi [Hp IH]. split; [lia|]. intros a p.
    destruct (decide (i = a)) as [->|Hne].
    + lia.
    + rewrite lookup_insert_ne by done. intros Ha%IH. lia.
Qed.

#[export] Instance lowest_allocator : Allocator.
Proof.
  refine {| malloc := lowest_free |}.
  - intros h. destruct (h !! lowest_free h) as [p|] eqn:E; [|done].
    apply (proj2 (lowest_free_above h)) in E. lia.
  - intros h. pose proof (proj1 (lowest_free_above h)). unfold NULL. lia.
Defined.
