(* ===== verification/OclList.v ===== *)
(** The list of the cards, link by link: [ocl_init] puts a card in its place,
    the thread of a card takes it out when it ends (ocse/ocl.c), the server
    walks it (ocse/ocse.c).  The links are pointers into a heap of nodes; what
    they stand for is a list of cards, each with whether its back link has ever
    been set. *)
From stdpp Require Import gmap.
From S2P Require Import Prelude CmdState Server Hosts.

#[local] Arguments NULL : simpl never.

(** * The links of [struct ocl] *)

Record ocl_node := OclNode { nd_bus : Z; nd_next : Z; nd_prev : Z }.
#[export] Instance eta_ocl_node : Settable ocl_node := fun n => OclNode (nd_bus n) (nd_next n) (nd_prev n).
#[export] Instance set_nd_next : Setter nd_next := ltac:(build_setter).
#[export] Instance set_nd_prev : Setter nd_prev := ltac:(build_setter).

(** [ocl_list], and the cards that have been allocated. *)
Record cards := Cards { ocl_list : Z; nodes : gmap Z ocl_node }.
#[export] Instance eta_cards : Settable cards := fun s => Cards (ocl_list s) (nodes s).
#[export] Instance set_ocl_list : Setter ocl_list := ltac:(build_setter).
#[export] Instance set_nodes : Setter nodes := ltac:(build_setter).

Definition upd_node (a : Z) (f : ocl_node -> ocl_node) (s : cards) : option cards :=
  _ ← nodes s !! a; Some (s <| nodes := alter f a (nodes s) |>).

(** [head] of [ocl_init]: it points to [ocl_list] or to the [_next] of a card. *)
Inductive link_at := AtHead | AtNext (a : Z).

Definition deref (p : link_at) (s : cards) : option Z :=
  match p with
  | AtHead => Some (ocl_list s)
  | AtNext a => n ← nodes s !! a; Some (nd_next n)
  end.
Definition assign (p : link_at) (v : Z) (s : cards) : option cards :=
  match p with
  | AtHead => Some (s <| ocl_list := v |>)
  | AtNext a => upd_node a (fun n => n <| nd_next := v |>) s
  end.

(** The loop that looks for the place: on while there is a card with a smaller
    number. *)
Fixpoint find_place (fuel : nat) (bus : Z) (p : link_at) (s : cards) : option link_at :=
  match fuel with
  | O => None
  | S fuel =>
      v ← deref p s;
      if v =? NULL then Some p
      else n ← nodes s !! v; if nd_bus n <? bus then find_place fuel bus (AtNext v) s else Some p
  end.

(** [ocl_init]: the card at [a] is put before the first one with a number that is
    not smaller; its own back link stays as [calloc] left it. *)
Definition enlist (bus a : Z) (s : cards) : option cards :=
  let fuel := S (size (nodes s)) in
  let s := s <| nodes := <[a := OclNode bus NULL NULL]> (nodes s) |> in
  p ← find_place fuel bus AtHead s;
  next ← deref p s;
  s ← upd_node a (fun n => n <| nd_next := next |>) s;
  s ← (if next =? NULL then Some s else upd_node next (fun n => n <| nd_prev := a |>) s);
  assign p a s.

(** The end of [_ocl_loop], once [parse_host_data] has set [head] in the card. *)
Definition unlist (a : Z) (s : cards) : option cards :=
  n ← nodes s !! a;
  s ← (if nd_prev n =? NULL then Some s
       else upd_node (nd_prev n) (fun p => p <| nd_next := nd_next n |>) s);
  n ← nodes s !! a;
  s ← (if nd_next n =? NULL then Some s
       else upd_node (nd_next n) (fun p => p <| nd_prev := nd_prev n |>) s);
  n ← nodes s !! a;
  let s := if ocl_list s =? a then s <| ocl_list := nd_next n |> else s in
  Some (s <| nodes := delete a (nodes s) |>).

(** [_find_ocl] of ocse.c on the links, by [dbg_id], which is the number: the card with the number, none, or a
    pointer to a card that has been freed. *)
Inductive search := Found (a : Z) | Missing | Dangling | Walking.

Fixpoint walk_cards (fuel : nat) (id p : Z) (s : cards) : search :=
  if p =? NULL then Missing
  else
    match nodes s !! p with
    | None => Dangling
    | Some n =>
        if id =? nd_bus n then Found p
        else match fuel with O => Walking | S fuel => walk_cards fuel id (nd_next n) s end
    end.

Definition find_card (id : Z) (s : cards) : search := walk_cards (size (nodes s)) id (ocl_list s) s.

(** * What the links stand for *)

(** A card at its address, with its number, and whether its back link was set. *)
Record card := Card { cd_at : Z; cd_bus : Z; cd_back : bool }.

(** From [p], behind [pred]. *)
Fixpoint linked (m : gmap Z ocl_node) (pred p : Z) (l : list card) : Prop :=
  match l with
  | [] => p = NULL
  | c :: l =>
      p = cd_at c /\ cd_at c <> NULL /\
      exists next, m !! cd_at c = Some (OclNode (cd_bus c) next (if cd_back c then pred else NULL)) /\
        linked m (cd_at c) next l
  end.

Record cards_are (s : cards) (l : list card) : Prop := {
  ca_linked : linked (nodes s) NULL (ocl_list s) l;
  ca_nodup : NoDup (map cd_at l);
  ca_dom : dom (nodes s) = list_to_set (map cd_at l);
}.

Definition with_back (c : card) : card := Card (cd_at c) (cd_bus c) true.
Definition back_first (l : list card) : list card :=
  match l with [] => [] | c :: l => with_back c :: l end.

(** The card in its place: the back link of the one behind it is set, its own is
    not. *)
Fixpoint insert_card (bus a : Z) (l : list card) : list card :=
  match l with
  | c :: l' => if cd_bus c <? bus then c :: insert_card bus a l' else Card a bus false :: back_first l
  | [] => [Card a bus false]
  end.

Lemma upd_node_eq a f s n :
  nodes s !! a = Some n -> upd_node a f s = Some (s <| nodes := alter f a (nodes s) |>).
Proof. intros Hn. unfold upd_node. by rewrite Hn. Qed.

Lemma linked_frame m m' pred p l :
  (forall a, a ∈ map cd_at l -> m' !! a = m !! a) -> linked m pred p l -> linked m' pred p l.
Proof.
  revert pred p. induction l as [|c l IH]; intros pred p Hf; [done|]. cbn.
  intros (-> & Hn & next & Hm & Hl). split_and!; [done|done|]. exists next. split.
  - rewrite Hf; [done|]. cbn. set_solver.
  - apply IH; [|done]. intros a Ha. apply Hf. cbn. set_solver.
Qed.

(** The back link of the first card. *)
Lemma linked_back m pred pred' p l :
  linked m pred p l -> NoDup (map cd_at l) ->
  linked (if p =? NULL then m else alter (fun n => n <| nd_prev := pred' |>) p m) pred' p (back_first l).
Proof.
  destruct l as [|c l]; cbn; [by intros ->|]. intros (-> & Hn & next & Hm & Hl) [Hnd _]%list_relations.list.NoDup_cons.
  apply Z.eqb_neq in Hn as Hnb. rewrite Hnb. split_and!; [done|done|]. exists next.
  rewrite lookup_alter_eq, Hm. split; [done|].
  apply (linked_frame m); [|done]. intros a Ha. apply lookup_alter_ne. intros <-. by apply Hnd.
Qed.

(** ** Putting a card in *)

(** The walk from a place; behind it, the list. *)
Definition at_place (s : cards) (p : link_at) (pred : Z) (l : list card) : Prop :=
  exists v, deref p s = Some v /\ linked (nodes s) pred v l.

Lemma find_place_head fuel bus p s pred l :
  at_place s p pred l -> (match l with [] => True | c :: _ => (cd_bus c <? bus) = false end) ->
  find_place (S fuel) bus p s = Some p.
Proof.
  intros (v & Hv & Hl) Hc. cbn. rewrite Hv. cbn. destruct l as [|c l].
  - cbn in Hl. by rewrite Hl.
  - destruct Hl as (-> & Hn & next & Hm & _). apply Z.eqb_neq in Hn. rewrite Hn, Hm. cbn. by rewrite Hc.
Qed.

Lemma find_place_next fuel bus p s pred c l :
  at_place s p pred (c :: l) -> cd_bus c < bus ->
  find_place (S fuel) bus p s = find_place fuel bus (AtNext (cd_at c)) s /\
  at_place s (AtNext (cd_at c)) (cd_at c) l.
Proof.
  intros (v & Hv & -> & Hn & next & Hm & Hl) Hb. cbn. rewrite Hv. cbn.
  apply Z.eqb_neq in Hn. apply Z.ltb_lt in Hb. rewrite Hn, Hm. cbn. rewrite Hb. split; [done|].
  exists next. split; [|done]. cbn. by rewrite Hm.
Qed.

(** The links in front of a place, up to a pointer [q] behind the card at [last]. *)
Inductive before (m : gmap Z ocl_node) : Z -> Z -> list card -> Z -> Z -> Prop :=
  | before_nil pred p : before m pred p [] pred p
  | before_cons pred c next l last q :
      cd_at c <> NULL ->
      m !! cd_at c = Some (OclNode (cd_bus c) next (if cd_back c then pred else NULL)) ->
      before m (cd_at c) next l last q -> before m pred (cd_at c) (c :: l) last q.

Lemma linked_app m pred p l1 l2 :
  linked m pred p (l1 ++ l2) <->
  exists last q, before m pred p l1 last q /\ linked m last q l2.
Proof.
  revert pred p. induction l1 as [|c l1 IH]; intros pred p; cbn [app linked].
  - split; [intros H; exists pred, p; split; [constructor|done]|].
    intros (last & q & H & Hl). by inversion H; subst.
  - split.
    + intros (-> & Hn & next & Hm & (last & q & Hb & Hl)%IH). exists last, q.
      split; [by econstructor|done].
    + intros (last & q & H & Hl). inversion H; subst. split_and!; [done|done|].
      exists next. split; [done|]. apply IH. by exists last, q.
Qed.

Lemma before_frame m m' pred p l last q :
  (forall a, a ∈ map cd_at l -> m' !! a = m !! a) -> before m pred p l last q -> before m' pred p l last q.
Proof.
  intros Hf H. induction H as [|pred c next l last q Hn Hm _ IH]; [constructor|].
  econstructor; [done|rewrite Hf; [done|cbn; set_solver]|]. apply IH. intros a Ha. apply Hf. cbn. set_solver.
Qed.

(** Where a place points to is the only thing that an assignment to it changes. *)
Definition place_of (pred : Z) : link_at := if pred =? NULL then AtHead else AtNext pred.

Lemma before_last m pred p l last q :
  before m pred p l last q -> NoDup (map cd_at l) -> l <> [] ->
  exists n, m !! last = Some n /\ nd_next n = q /\ last ∈ map cd_at l /\ last <> NULL /\
    forall v, before (alter (fun n => n <| nd_next := v |>) last m) pred p l last v.
Proof.
  induction 1 as [|pred c next l last q Hn Hm Hb IH]; [done|]. intros [Hc Hnd]%list_relations.list.NoDup_cons _.
  destruct l as [|c' l].
  - inversion Hb; subst. eexists. split; [exact Hm|]. split_and!; [done|cbn; set_solver|done|]. intros v.
    econstructor; [done| |constructor]. by rewrite lookup_alter_eq, Hm.
  - destruct IH as (n & Hl & Hq & Hin & Hnn & Hv); [done..|]. exists n. split_and!; [done|done|cbn; set_solver|done|].
    intros v. econstructor; [done| |apply Hv]. rewrite lookup_alter_ne; [done|].
    intros ->. by apply Hc.
Qed.

(** A place and the links in front of it. *)
Definition front (s : cards) (l : list card) (last q : Z) : Prop :=
  before (nodes s) NULL (ocl_list s) l last q /\ NoDup (map cd_at l).

Lemma front_deref s l last q : front s l last q -> deref (place_of last) s = Some q.
Proof.
  intros [Hb Hnd]. unfold place_of. destruct (decide (l = [])) as [->|Hl].
  - inversion Hb; subst. done.
  - destruct (before_last _ _ _ _ _ _ Hb Hnd Hl) as (n & Hm & <- & _ & Hn%Z.eqb_neq & _).
    rewrite Hn. cbn. by rewrite Hm.
Qed.

Lemma front_assign s l last q v :
  front s l last q ->
  exists s', assign (place_of last) v s = Some s' /\ front s' l last v /\ dom (nodes s') = dom (nodes s) /\
    forall b, b ∉ map cd_at l -> nodes s' !! b = nodes s !! b.
Proof.
  intros [Hb Hnd]. unfold place_of. destruct (decide (l = [])) as [->|Hl].
  - inversion Hb; subst. eexists. split; [reflexivity|]. split_and!; [split; [constructor|done]|done|done].
  - destruct (before_last _ _ _ _ _ _ Hb Hnd Hl) as (n & Hm & _ & Hin & Hn & Hv).
    apply Z.eqb_neq in Hn. rewrite Hn. cbn. unfold upd_node. rewrite Hm. cbn [mbind option_bind].
    eexists. split; [reflexivity|]. split; [split; [|done]|split].
    + apply Hv.
    + cbn. apply dom_alter_L.
    + intros b Hbl. cbn. apply lookup_alter_ne. by intros <-.
Qed.

Lemma before_snoc m pred p l mid c next :
  before m pred p l mid (cd_at c) -> cd_at c <> NULL ->
  m !! cd_at c = Some (OclNode (cd_bus c) next (if cd_back c then mid else NULL)) ->
  before m pred p (l ++ [c]) (cd_at c) next.
Proof.
  intros Hb Hn Hc. remember (cd_at c) as q eqn:Eq.
  induction Hb as [pred p|pred c' next' l last q Hn' Hm' _ IH]; cbn [app]; subst.
  - econstructor; [done|exact Hc|constructor].
  - econstructor; [done|exact Hm'|]. by apply IH.
Qed.

Lemma nodup_front {A} (l1 l2 : list A) : NoDup (l1 ++ l2) -> NoDup l1.
Proof. by intros [? _]%list_relations.list.NoDup_app. Qed.

(** The walk to the place, from one in front of it. *)
Lemma find_place_eq s l1 last q l2 bus :
  linked (nodes s) last q l2 -> Forall (fun c => cd_bus c < bus) l1 ->
  (match l2 with [] => True | c :: _ => (cd_bus c <? bus) = false end) ->
  forall fuel front_ mid p, NoDup (map cd_at (front_ ++ l1)) -> (length l1 < fuel)%nat ->
  before (nodes s) NULL (ocl_list s) front_ mid p -> before (nodes s) mid p l1 last q ->
  find_place fuel bus (place_of mid) s = Some (place_of last).
Proof.
  intros Hl Hall Hhd. induction l1 as [|c l1 IH]; intros fuel fr mid p Hnd Hlt Hm Hb;
    (destruct fuel as [|fuel]; [cbn in Hlt; lia|]); cbn [find_place];
    (rewrite (front_deref s fr mid p) by (split; [done|rewrite map_app in Hnd; by apply nodup_front in Hnd]));
    cbn [mbind option_bind].
  - inversion Hb; subst. destruct l2 as [|c l2]; [cbn in Hl; by rewrite Hl|].
    destruct Hl as (-> & Hn%Z.eqb_neq & next & Hc & _). rewrite Hn, Hc. cbn. by rewrite Hhd.
  - apply Forall_cons_1 in Hall as [Hc Hall]. inversion Hb as [|? ? next ? ? ? Hn Hm1 Hb1]; subst.
    assert (Hn' := proj2 (Z.eqb_neq _ _) Hn). rewrite Hn', Hm1. cbn [mbind option_bind nd_bus].
    rewrite (proj2 (Z.ltb_lt _ _) Hc).
    replace (AtNext (cd_at c)) with (place_of (cd_at c)) by (unfold place_of; by rewrite Hn').
    apply (IH Hall fuel (fr ++ [c]) _ next); [by rewrite <- app_assoc|cbn in Hlt; lia| |done].
    by eapply before_snoc.
Qed.

(** Where a card goes. *)
Lemma insert_card_split bus a l :
  exists l1 l2, l = l1 ++ l2 /\ insert_card bus a l = l1 ++ Card a bus false :: back_first l2 /\
    Forall (fun c => cd_bus c < bus) l1 /\
    match l2 with [] => True | c :: _ => (cd_bus c <? bus) = false end.
Proof.
  induction l as [|c l (l1 & l2 & -> & E & Ha & Hh)].
  - exists [], []. by split_and!.
  - cbn. destruct (cd_bus c <? bus) eqn:Hc.
    + exists (c :: l1), l2. rewrite E. apply Z.ltb_lt in Hc. split_and!; [done|done|by constructor|done].
    + exists [], (c :: l1 ++ l2). by split_and!.
Qed.

Lemma back_first_at l : map cd_at (back_first l) = map cd_at l.
Proof. by destruct l. Qed.

(** Putting a card in.  Following the links from the head gives the cards in
    the order of their numbers, the new one in front of the first that is not
    smaller; but only the card behind it gets a back link, its own stays null. *)
Lemma enlist_spec bus a s l :
  cards_are s l -> a <> NULL -> a ∉ map cd_at l ->
  exists s', enlist bus a s = Some s' /\ cards_are s' (insert_card bus a l).
Proof.
  intros [Hl Hnd Hdom] Ha Hal. destruct (insert_card_split bus a l) as (l1 & l2 & -> & -> & Hall & Hhd).
  set (s0 := s <| nodes := <[a := OclNode bus NULL NULL]> (nodes s) |>).
  assert (Hl0 : linked (nodes s0) NULL (ocl_list s0) (l1 ++ l2)).
  { apply (linked_frame (nodes s)); [|done]. intros b Hb. cbn. apply lookup_insert_ne. by intros <-. }
  apply linked_app in Hl0 as (last & q & Hb & Hq). rewrite map_app in Hnd, Hal.
  apply not_elem_of_app in Hal as [Hal1 Hal2].
  pose proof Hnd as (Hnd1 & Hdis & Hnd2)%list_relations.list.NoDup_app.
  unfold enlist. fold s0. cbv zeta.
  assert (Hsize : (length l1 < S (size (nodes s)))%nat).
  { rewrite <- (size_dom (nodes s)), Hdom, size_list_to_set by (by rewrite map_app).
    rewrite map_app, length_app, length_map. lia. }
  rewrite (find_place_eq s0 l1 last q l2 bus Hq Hall Hhd (S (size (nodes s))) [] NULL (ocl_list s0))
    by (first [done|by rewrite map_app|constructor]). cbn [mbind option_bind].
  rewrite (front_deref s0 l1 last q) by done. cbn [mbind option_bind].
  assert (Ha0 : nodes s0 !! a = Some (OclNode bus NULL NULL)) by apply lookup_insert_eq.
  rewrite (upd_node_eq a _ s0 _ Ha0). cbn [mbind option_bind].
  set (s1 := s0 <| nodes := alter (fun n => n <| nd_next := q |>) a (nodes s0) |>).
  assert (Hq1 : linked (nodes s1) last q l2).
  { apply (linked_frame (nodes s0)); [|done]. intros b Hbl. apply lookup_alter_ne. by intros <-. }
  assert (Ha1 : nodes s1 !! a = Some (OclNode bus q NULL)) 
    by (change (nodes s1) with (alter (fun n => n <| nd_next := q |>) a (nodes s0)); by rewrite lookup_alter_eq, Ha0).
  pose proof (linked_back _ _ a _ _ Hq1 Hnd2) as Hq2.
  (* the card behind *)
  set (m2 := if q =? NULL then nodes s1 else alter (fun n => n <| nd_prev := a |>) q (nodes s1)) in *.
  assert (Hs2 : (if q =? NULL then Some s1 else upd_node q (fun n => n <| nd_prev := a |>) s1)
    = Some (s1 <| nodes := m2 |>)).
  { unfold m2. destruct (q =? NULL) eqn:Hqn; [reflexivity|].
    destruct l2 as [|c l2]; [cbn in Hq1; by rewrite Hq1 in Hqn|].
    destruct Hq1 as (-> & _ & next & Hc & _). exact (upd_node_eq _ _ s1 _ Hc). }
  rewrite Hs2. cbn [mbind option_bind]. clear Hs2. set (s2 := s1 <| nodes := m2 |>).
  assert (Hframe : forall b, b ∉ map cd_at l2 -> nodes s2 !! b = nodes s1 !! b).
  { intros b Hbl. cbn. unfold m2. destruct (q =? NULL) eqn:Hqn; [done|]. apply lookup_alter_ne.
    intros <-. destruct l2 as [|c l2]; [cbn in Hq1; by rewrite Hq1 in Hqn|].
    destruct Hq1 as (-> & _). apply Hbl. cbn. set_solver. }
  assert (Hf2 : front s2 l1 last q).
  { split; [|done]. apply (before_frame (nodes s0)); [|done]. intros b Hbl.
    rewrite Hframe by (intros Hb2; by apply (Hdis b)). apply lookup_alter_ne. by intros <-. }
  destruct (front_assign s2 l1 last q a Hf2) as (s3 & -> & [Hf3 _] & Hd3 & Hrest).
  exists s3. split; [done|]. split.
  - apply linked_app. exists last, a. split; [done|]. cbn. split_and!; [done|done|]. exists q. split.
    + rewrite Hrest, Hframe by done. exact Ha1.
    + apply (linked_frame m2); [|done]. rewrite back_first_at. intros b Hbl. apply Hrest.
      intros Hb1. by apply (Hdis b).
  - rewrite map_app. cbn. rewrite back_first_at. apply list_relations.list.NoDup_app. split_and!; [done| |].
    + intros b Hb1 [->|Hb2]%elem_of_cons; [by apply Hal1|by apply (Hdis b)].
    + by apply list_relations.list.NoDup_cons.
  - rewrite Hd3. cbn. assert (Hdm : dom m2 = dom (nodes s1)) by (unfold m2; destruct (q =? NULL); [reflexivity|apply dom_alter_L]).
    rewrite Hdm. cbn. rewrite dom_alter_L, dom_insert_L, Hdom, !map_app. cbn. rewrite back_first_at. set_solver.
Qed.

(** The links hold what [insert_ocl] of the list of cards says. *)
Lemma insert_card_buses o a l head :
  map cd_bus l = map so_bus head ->
  map cd_bus (insert_card (so_bus o) a l) = map so_bus (insert_ocl o head).
Proof.
  revert head. induction l as [|c l IH]; intros [|o' head] E; try discriminate; [done|].
  cbn [map] in E. injection E as Hc E. cbn [insert_card insert_ocl]. rewrite Hc.
  destruct (_ <? _); cbn [map back_first with_back cd_bus]; [by rewrite Hc, (IH head)|by rewrite Hc, E].
Qed.

Lemma enlist_refines o a s l head :
  cards_are s l -> map cd_bus l = map so_bus head -> a <> NULL -> a ∉ map cd_at l ->
  exists s' l', enlist (so_bus o) a s = Some s' /\ cards_are s' l' /\
    map cd_bus l' = map so_bus (insert_ocl o head).
Proof.
  intros Hs Hb Ha Hal. destruct (enlist_spec (so_bus o) a s l Hs Ha Hal) as (s' & He & Hs').
  exists s', (insert_card (so_bus o) a l). split_and!; [done|done|by apply insert_card_buses].
Qed.

(** ** Taking a card out *)

(** The walk past cards with other numbers. *)
Lemma walk_front s id pred p l last q :
  before (nodes s) pred p l last q -> id ∉ map cd_bus l ->
  forall fuel, (length l <= fuel)%nat -> walk_cards fuel id p s = walk_cards (fuel - length l) id q s.
Proof.
  induction 1 as [pred p|pred c next l last q Hn Hc _ IH]; intros Hid fuel Hf.
  - cbn. by rewrite Nat.sub_0_r.
  - cbn in Hid. apply not_elem_of_cons in Hid as [Hne Hid]. cbn in Hf. destruct fuel as [|fuel]; [lia|].
    cbn [walk_cards length]. rewrite (proj2 (Z.eqb_neq _ _) Hn), Hc. cbn [nd_bus nd_next].
    rewrite (proj2 (Z.eqb_neq _ _) Hne), IH by (done || lia). done.
Qed.

Lemma cards_size s l : cards_are s l -> size (nodes s) = length l.
Proof.
  intros [_ Hnd Hdom]. by rewrite <- (size_dom (nodes s)), Hdom, size_list_to_set, length_map.
Qed.

(** Looking for a card finds the first one with the number. *)
Lemma find_card_spec s l id :
  cards_are s l ->
  match list_find (fun c => cd_bus c = id) l with
  | Some (_, c) => find_card id s = Found (cd_at c)
  | None => find_card id s = Missing
  end.
Proof.
  intros Hs. pose proof (cards_size s l Hs) as Hsz. destruct Hs as [Hl _ _].
  unfold find_card. rewrite Hsz. clear Hsz. revert Hl. generalize NULL at 1, (ocl_list s).
  induction l as [|c l IH]; intros pred p Hl; cbn [list_find length].
  - cbn in Hl. by rewrite Hl.
  - destruct Hl as (-> & Hn & next & Hc & Hl). cbn [walk_cards].
    rewrite (proj2 (Z.eqb_neq _ _) Hn), Hc. cbn [nd_bus nd_next].
    case_decide as Hb.
    + by rewrite (proj2 (Z.eqb_eq _ _) (eq_sym Hb)).
    + rewrite (proj2 (Z.eqb_neq _ _) (fun E => Hb (eq_sym E))). specialize (IH _ _ Hl).
      by destruct (list_find _ l) as [[? ?]|].
Qed.

(** The state with the links around the card at [a] closed. *)
Lemma unlist_eq a n s :
  nodes s !! a = Some n -> nd_prev n <> a -> nd_next n <> a ->
  is_Some (nodes s !! nd_next n) \/ nd_next n = NULL ->
  is_Some (nodes s !! nd_prev n) \/ nd_prev n = NULL ->
  unlist a s = Some (Cards (if ocl_list s =? a then nd_next n else ocl_list s)
    (delete a
      (let m := if nd_prev n =? NULL then nodes s
                else alter (fun p => p <| nd_next := nd_next n |>) (nd_prev n) (nodes s) in
       if nd_next n =? NULL then m else alter (fun p => p <| nd_prev := nd_prev n |>) (nd_next n) m))).
Proof.
  intros Hn Hp Hx Hnx Hpv. unfold unlist. rewrite Hn. cbn [mbind option_bind].
  set (m := if nd_prev n =? NULL then nodes s
            else alter (fun p => p <| nd_next := nd_next n |>) (nd_prev n) (nodes s)).
  assert (E1 : (if nd_prev n =? NULL then Some s
    else upd_node (nd_prev n) (fun p => p <| nd_next := nd_next n |>) s) = Some (s <| nodes := m |>)).
  { unfold m. destruct (Z.eqb_spec (nd_prev n) NULL) as [|Hz]; [by destruct s|].
    destruct Hpv as [[k Hk]|]; [|done]. by apply (upd_node_eq _ _ _ k). }
  rewrite E1. cbn [mbind option_bind]. clear E1. set (s1 := s <| nodes := m |>).
  assert (Hn1 : nodes s1 !! a = Some n).
  { cbn. unfold m. destruct (nd_prev n =? NULL); [done|]. by rewrite lookup_alter_ne by done. }
  rewrite Hn1. cbn [mbind option_bind].
  set (m2 := if nd_next n =? NULL then m else alter (fun p => p <| nd_prev := nd_prev n |>) (nd_next n) m).
  assert (E2 : (if nd_next n =? NULL then Some s1
    else upd_node (nd_next n) (fun p => p <| nd_prev := nd_prev n |>) s1) = Some (s1 <| nodes := m2 |>)).
  { unfold m2. destruct (Z.eqb_spec (nd_next n) NULL) as [|Hz]; [reflexivity|].
    destruct Hnx as [[k Hk]|]; [|done].
    assert (Hk1 : is_Some (nodes s1 !! nd_next n)).
    { cbn. unfold m. destruct (nd_prev n =? NULL); [by exists k|]. rewrite lookup_alter_is_Some. by exists k. }
    destruct Hk1 as [k1 Hk1]. exact (upd_node_eq _ _ s1 k1 Hk1). }
  rewrite E2. cbn [mbind option_bind]. clear E2.
  assert (Hn2 : nodes (s1 <| nodes := m2 |>) !! a = Some n).
  { cbn. unfold m2. destruct (nd_next n =? NULL); [exact Hn1|]. rewrite lookup_alter_ne by done. exact Hn1. }
  rewrite Hn2. cbn [mbind option_bind]. change (ocl_list (s1 <| nodes := m2 |>)) with (ocl_list s).
  by destruct (ocl_list s =? a).
Qed.

(** The card at the head, or one whose back link was set, can be taken out. *)
Definition closable (l1 : list card) (c : card) : bool := bool_decide (l1 = []) || cd_back c.

(** The addresses of the card, and of those around it. *)
Lemma parts_apart s l1 c l2 :
  cards_are s (l1 ++ c :: l2) ->
  NoDup (map cd_at l1) /\ cd_at c ∉ map cd_at l1 /\ cd_at c ∉ map cd_at l2 /\ NoDup (map cd_at l2) /\
  (forall b, b ∈ map cd_at l1 -> b ∈ map cd_at l2 -> False).
Proof.
  intros [_ Hnd _]. rewrite map_app in Hnd. cbn [map] in Hnd.
  apply list_relations.list.NoDup_app in Hnd as (H1 & Hd & [H3 H4]%list_relations.list.NoDup_cons).
  split_and!; try done.
  - intros Hin. apply (Hd _ Hin). set_solver.
  - intros b Hb1 Hb2. apply (Hd _ Hb1). set_solver.
Qed.

Lemma linked_head m pred p l :
  linked m pred p l -> p = NULL \/ p ∈ map cd_at l /\ is_Some (m !! p).
Proof.
  destruct l as [|c l]; cbn; [by left|]. intros (-> & _ & next & -> & _). right. split; [set_solver|by eexists].
Qed.

Lemma before_not_null m pred p l last q : before m pred p l last q -> NULL ∉ map cd_at l.
Proof.
  induction 1 as [|pred c next l last q Hn _ _ IH]; cbn; [apply not_elem_of_nil|].
  apply not_elem_of_cons. split; [by intros E|done].
Qed.

Lemma front_cases s l last q :
  front s l last q ->
  (l = [] /\ last = NULL /\ ocl_list s = q) \/
  (l <> [] /\ last <> NULL /\ last ∈ map cd_at l /\ is_Some (nodes s !! last) /\ ocl_list s ∈ map cd_at l).
Proof.
  intros [Hb Hnd]. destruct (decide (l = [])) as [->|Hl]; [left; by inversion Hb|right].
  destruct (before_last _ _ _ _ _ _ Hb Hnd Hl) as (n & Hm & _ & Hin & Hn & _).
  split_and!; [done|done|done|by exists n|]. inversion Hb; subst; [done|]. cbn. set_solver.
Qed.

Lemma unlist_good s l1 c l2 :
  cards_are s (l1 ++ c :: l2) -> closable l1 c = true ->
  exists s', unlist (cd_at c) s = Some s' /\ cards_are s' (l1 ++ back_first l2).
Proof.
  intros Hs Hc. destruct (parts_apart _ _ _ _ Hs) as (Hnd1 & Hc1 & Hc2 & Hnd2 & Hdis).
  destruct Hs as [Hl Hnd Hdom]. apply linked_app in Hl as (last & q & Hb & Hl).
  destruct Hl as (-> & Hn & next & Hm & Hl2).
  assert (Hpv : (if cd_back c then last else NULL) = last).
  { unfold closable in Hc. destruct (cd_back c); [done|]. rewrite orb_false_r in Hc.
    apply bool_decide_eq_true in Hc as ->. by inversion Hb. }
  rewrite Hpv in Hm.
  pose proof (linked_head _ _ _ _ Hl2) as Hnx.
  assert (Hnc : next <> cd_at c) by (intros ->; destruct Hnx as [|[? _]]; done).
  destruct (front_assign s l1 last _ next (conj Hb Hnd1)) as (s1 & Has & [Hf1 _] & Hd1 & Hr1).
  (* the state is the assignment to the link_at, the back link and the card gone *)
  pose proof (front_cases _ _ _ _ (conj Hb Hnd1)) as Hcases.
  assert (Hu : unlist (cd_at c) s = Some (Cards (ocl_list s1) (delete (cd_at c)
    (if next =? NULL then nodes s1 else alter (fun p => p <| nd_prev := last |>) next (nodes s1))))).
  { rewrite (unlist_eq _ _ _ Hm); cbn [nd_prev nd_next];
      [|destruct Hcases as [(_ & -> & _)|(_ & _ & Hin & _)]; [by intros E|by intros ->]|done|tauto|tauto].
    unfold place_of in Has. destruct Hcases as [(_ & -> & Hh)|(_ & Hz & _ & _ & Hh)].
    - injection Has as <-. by rewrite Hh, Z.eqb_refl.
    - apply Z.eqb_neq in Hz. rewrite Hz in Has |- *.
      rewrite (proj2 (Z.eqb_neq (ocl_list s) (cd_at c))) by (by intros E; rewrite E in Hh).
      unfold assign, upd_node in Has. destruct (nodes s !! last); [|done]. cbn in Has. by injection Has as <-. }
  eexists. split; [exact Hu|].
  assert (Hm1 : linked (nodes s1) (cd_at c) next l2).
  { apply (linked_frame (nodes s)); [|done]. intros b Hb2. apply Hr1. intros Hb1. by apply (Hdis b). }
  apply (linked_back _ _ last) in Hm1; [|done].
  set (m2 := if next =? NULL then nodes s1 else _) in *.
  assert (Hm2 : forall b, b <> next -> m2 !! b = nodes s1 !! b).
  { intros b Hbn. unfold m2. destruct (next =? NULL); [done|]. by apply lookup_alter_ne. }
  split.
  - apply linked_app. exists last, next. split; cbn [nodes ocl_list].
    + apply (before_frame (nodes s1)); [|done]. intros b Hb1. rewrite lookup_delete_ne by (by intros <-).
      apply Hm2. intros ->. destruct Hnx as [->|[Hin _]]; [|by apply (Hdis next)].
      by apply before_not_null in Hb.
    + apply (linked_frame m2); [|done]. rewrite back_first_at. intros b Hb2. apply lookup_delete_ne. by intros <-.
  - rewrite map_app, back_first_at. apply list_relations.list.NoDup_app. split_and!; [done| |done].
    intros b Hb1 Hb2. by apply (Hdis b).
  - cbn [nodes]. rewrite dom_delete_L. replace (dom m2) with (dom (nodes s1))
      by (unfold m2; destruct (next =? NULL); [reflexivity|by rewrite dom_alter_L]).
    rewrite Hd1, Hdom, !map_app, back_first_at. cbn [map]. rewrite !list_to_set_app_L. cbn [list_to_set].
    apply set_eq. intros b. rewrite elem_of_difference, !elem_of_union, !elem_of_list_to_set, !elem_of_singleton.
    split; [tauto|]. intros Hin. split; [tauto|]. intros ->. tauto.
Qed.

(** A card that is neither at the head nor has a back link stays in the list: the
    walk comes to the place where it was. *)
Lemma unlist_bad s l1 c l2 :
  cards_are s (l1 ++ c :: l2) -> closable l1 c = false ->
  exists s', unlist (cd_at c) s = Some s' /\ forall id, id ∉ map cd_bus l1 -> find_card id s' = Dangling.
Proof.
  intros Hs Hc. destruct (parts_apart _ _ _ _ Hs) as (Hnd1 & Hc1 & Hc2 & Hnd2 & Hdis).
  pose proof (cards_size _ _ Hs) as Hsz. destruct Hs as [Hl Hnd Hdom].
  apply orb_false_iff in Hc as [Hl1%bool_decide_eq_false Hback].
  apply linked_app in Hl as (last & q & Hb & Hl). destruct Hl as (-> & Hn & next & Hm & Hl2).
  rewrite Hback in Hm. pose proof (linked_head _ _ _ _ Hl2) as Hnx.
  assert (Hnc : next <> cd_at c) by (intros ->; destruct Hnx as [|[? _]]; done).
  destruct (front_cases _ _ _ _ (conj Hb Hnd1)) as [(? & _)|(_ & _ & _ & _ & Hh)]; [done|].
  eexists. split.
  { apply (unlist_eq _ _ _ Hm); cbn [nd_prev nd_next]; [by intros E|done|tauto|by right]. }
  cbn [nd_prev nd_next]. change (NULL =? NULL) with true. cbn iota.
  rewrite (proj2 (Z.eqb_neq (ocl_list s) (cd_at c))) by (by intros E; rewrite E in Hh).
  set (m2 := if next =? NULL then nodes s else _). set (s' := Cards _ _).
  assert (Hb' : before (nodes s') NULL (ocl_list s') l1 last (cd_at c)).
  { apply (before_frame (nodes s)); [|done]. intros b Hb1. cbn [s' nodes].
    rewrite lookup_delete_ne by (by intros <-). unfold m2. destruct (next =? NULL); [done|].
    apply lookup_alter_ne. intros <-. destruct Hnx as [->|[Hin _]]; [|by apply (Hdis next)].
    by apply before_not_null in Hb. }
  assert (Hsize : (length l1 <= size (nodes s'))%nat).
  { cbn [s' nodes]. assert (Hd2 : size m2 = size (nodes s)).
    { rewrite <- !size_dom. f_equal. unfold m2. destruct (next =? NULL); [reflexivity|apply dom_alter_L]. }
    assert (Hma : is_Some (m2 !! cd_at c)).
    { unfold m2. destruct (next =? NULL); [by eexists|]. rewrite lookup_alter_is_Some. by eexists. }
    rewrite map_size_delete. destruct Hma as [k ->]. rewrite Hd2, Hsz, length_app. cbn. lia. }
  intros id Hid. unfold find_card. rewrite (walk_front _ _ _ _ _ _ _ Hb' Hid) by done.
  destruct (_ - _)%nat; cbn [walk_cards]; rewrite (proj2 (Z.eqb_neq _ _) Hn); cbn [s' nodes];
    by rewrite lookup_delete_eq.
Qed.

(** C39: the end of a card's thread.  The card at the head, and any card whose back
    link is set, is taken out of the list, links and all, and the card behind it
    has its back link set from then on.  Any other card is freed and stays in
    the list: whoever looks for a card that is not in front of it follows a
    pointer to freed memory.  (The other place that sets a back link is
    [ocl_init], for the card behind a new one; so when the cards come in the
    order of their numbers, as from a sorted file, none has one.) *)
Theorem closing_a_card s l1 c l2 :
  cards_are s (l1 ++ c :: l2) ->
  exists s', unlist (cd_at c) s = Some s' /\
    if closable l1 c then cards_are s' (l1 ++ back_first l2)
    else forall id, id ∉ map cd_bus l1 -> find_card id s' = Dangling.
Proof.
  intros Hs. destruct (closable l1 c) eqn:Hc; [by apply unlist_good|by apply (unlist_bad s l1 c l2)].
Qed.

(** ** The two ways to write a file *)

Definition no_cards : cards := Cards NULL ∅.
Lemma no_cards_are : cards_are no_cards [].
Proof. constructor; [reflexivity|constructor|reflexivity]. Qed.

(** [tlx0] before [tlx1]. *)
Lemma ascending_cards :
  exists s, (enlist 0 16 no_cards ≫= enlist 1 32) = Some s /\ cards_are s ([Card 16 0 false] ++ [Card 32 1 false]).
Proof.
  destruct (enlist_spec 0 16 no_cards [] no_cards_are) as (s1 & E1 & H1); [done|apply not_elem_of_nil|].
  destruct (enlist_spec 1 32 s1 _ H1) as (s2 & E2 & H2); [done|cbn; set_solver|].
  exists s2. rewrite E1. by split.
Qed.

Lemma closing_a_card_witness :
  exists s s', (enlist 0 16 no_cards ≫= enlist 1 32) = Some s /\ unlist 32 s = Some s' /\
    find_card 1 s' = Dangling.
Proof.
  destruct ascending_cards as (s & He & Hs).
  destruct (closing_a_card s [Card 16 0 false] (Card 32 1 false) [] Hs) as (s' & Hu & Hd).
  exists s, s'. split; [exact He|]. split; [exact Hu|]. apply Hd. cbn. set_solver.
Defined.

Example ascending_dangles :
  (s ← enlist 0 16 no_cards; s ← enlist 1 32 s; s ← unlist 32 s; Some (find_card 0 s, find_card 1 s)) =
  Some (Found 16, Dangling).
Proof. reflexivity. Qed.
Example descending_closes :
  (s ← enlist 1 16 no_cards; s ← enlist 0 32 s; s ← unlist 16 s; Some (find_card 0 s, find_card 1 s)) =
  Some (Found 32, Missing).
Proof. reflexivity. Qed.
