(* ===== verification/Driver.v ===== *)
(** src/afu_driver/src/afu_driver.c, the simulator's side of the link: the
    simulator calls [tlx_bfm] on every edge of its clock.  With the clock low
    the AFU's pins are read into the event and what the host sent is driven onto
    them; with the clock high the frames of the cycle are exchanged
    ([tlx_control]).

    A [svLogicVecVal] is a word of 4-state bits, a [svLogic] one such bit (the
    2's bit is set for X and Z).  The simulator passes its signals [inout]: a
    call gets the current values of those it may write and returns the new ones.
    Pins the code only passes through, never reads and never writes (afu_clock,
    the templates, [os] and the TLX4 ones) are left out; so are the variables
    that are only printed ([tick], the sums of invalid bits, the initial credits
    read from the host). *)
From stdpp Require Import gmap.
From S2P Require Import Prelude Utils Event Sock TlxWire Handshake TlxHost TlxAfu Fifo.

(** * Signals *)

Record vec32 := Vec { aval : Z; bval : Z }.

(** [(s & 0x2) ? 0 : (s & 0x1)] *)
Definition logic_bit (s : Z) : Z := if truthy (Z.land s 0x2) then 0 else Z.land s 0x1.

(** [v->aval & mask] *)
Definition field_in (v : vec32) (mask : Z) : Z := Z.land (aval v) mask.

(** The result is 1 when some bit is X or Z. *)
Definition getMy64Bit (my64bSignal : list vec32) : option (Z * Z) :=
  lo ← my64bSignal !! 0%nat; hi ← my64bSignal !! 1%nat;
  Some (if Z.lor (bval lo) (bval hi) =? 0 then 0 else 1,
        Z.lor (Z.shiftl (aval hi) 32) (aval lo)).

(** One round of the copy loops; the host is little-endian. *)
Definition get_word (signal : list vec32) (s : Z * list Z) (i : nat) : option (Z * list Z) :=
  v ← signal !! i;
  data ← copy_at s.2 (4 * Z.of_nat i) (le_bytes 4 (aval v)) 4;
  Some (if truthy (bval v) then 1 else s.1, data).

Fixpoint get_words (signal : list vec32) (idxs : list nat) (s : Z * list Z) : option (Z * list Z) :=
  match idxs with
  | [] => Some s
  | i :: idxs => s ← get_word signal s i; get_words signal idxs s
  end.

Definition getMyCacheLine (myLongSignal : list vec32) (myCacheData : list Z) : option (Z * list Z) :=
  get_words myLongSignal (seq 0 (64 / 4)) (0, myCacheData).

(** [arrayLength / 4] words: the bytes after the last whole word stay. *)
Definition getMyByteArray (myLongSignal : list vec32) (arrayLength : nat) (myCacheData : list Z)
    : option (Z * list Z) :=
  get_words myLongSignal (seq 0 (arrayLength / 4)) (0, myCacheData).

(** The words of a signal are written. *)
Definition set_words (signal words : list vec32) : option (list vec32) :=
  defined (length words <=? length signal)%nat;
  Some (overwrite signal 0 words).

Definition word_out (data : list Z) (i : nat) : vec32 :=
  Vec (le_val (take 4 (drop (4 * i) data))) 0.

Definition setMyCacheLine (myLongSignal : list vec32) (myCacheData : list Z) : option (list vec32) :=
  defined (64 <=? length myCacheData)%nat;
  set_words myLongSignal (map (word_out myCacheData) (seq 0 (64 / 4))).

(** With [size = 32] the code first shifts by the width of the type, which C
    leaves undefined, and throws the mask away; what a compiler makes of it is
    the mask that is assigned next, and this is what the definition has. *)
Definition setDpiSignal32 (inData size : Z) : vec32 :=
  let myMask := if size =? 32 then 0xFFFFFFFF
                else u32 (Z.lnot (u32 (Z.shiftl 0xFFFFFFFF size))) in
  Vec (Z.land inData myMask) 0.

Definition setDpiSignal64 (my64bSignal : list vec32) (data : Z) : option (list vec32) :=
  set_words my64bSignal [Vec (Z.land data 0xffffffff) 0; Vec (u32 (Z.shiftr data 32)) 0].

(** The pins of the AFU the driver reads. *)
Record afu_in := AfuIn {
  reset : Z;
  afu_tlx_resp_credit_top : Z;
  afu_tlx_resp_initial_credit_top : vec32;
  afu_tlx_cmd_credit_top : Z;
  afu_tlx_cmd_initial_credit_top : vec32;
  afu_tlx_resp_rd_req_top : Z;
  afu_tlx_resp_rd_cnt_top : vec32;
  afu_tlx_cmd_rd_req_top : Z;
  afu_tlx_cmd_rd_cnt_top : vec32;
  afu_tlx_cmd_valid_top : Z;
  afu_tlx_cmd_opcode_top : vec32;
  afu_tlx_cmd_actag_top : vec32;
  afu_tlx_cmd_stream_id_top : vec32;
  afu_tlx_cmd_ea_or_obj_top : list vec32;
  afu_tlx_cmd_afutag_top : vec32;
  afu_tlx_cmd_dl_top : vec32;
  afu_tlx_cmd_pl_top : vec32;
  afu_tlx_cmd_be_top : list vec32;
  afu_tlx_cmd_flag_top : vec32;
  afu_tlx_cmd_endian_top : Z;
  afu_tlx_cmd_bdf_top : vec32;
  afu_tlx_cmd_pasid_top : vec32;
  afu_tlx_cmd_pg_size_top : vec32;
  afu_tlx_cdata_bus_top : list vec32;
  afu_tlx_cdata_bdi_top : Z;
  afu_tlx_cdata_valid_top : Z;
  afu_tlx_resp_valid_top : Z;
  afu_tlx_resp_opcode_top : vec32;
  afu_tlx_resp_dl_top : vec32;
  afu_tlx_resp_capptag_top : vec32;
  afu_tlx_resp_dp_top : vec32;
  afu_tlx_resp_code_top : vec32;
  afu_tlx_rdata_valid_top : Z;
  afu_tlx_rdata_bus_top : list vec32;
  afu_tlx_rdata_bdi_top : Z;
  cfg0_tlx_initial_credit_top : vec32;
  cfg0_tlx_credit_return_top : Z;
  cfg0_tlx_resp_valid_top : Z;
  cfg0_tlx_resp_opcode_top : vec32;
  cfg0_tlx_resp_capptag_top : vec32;
  cfg0_tlx_resp_code_top : vec32;
  cfg0_tlx_rdata_offset_top : vec32;
  cfg0_tlx_rdata_bus_top : list vec32;
  cfg0_tlx_rdata_bdi_top : Z;
}.
#[export] Instance afu_in_settable : Settable afu_in := fun o => AfuIn
  (reset o) (afu_tlx_resp_credit_top o) (afu_tlx_resp_initial_credit_top o)
  (afu_tlx_cmd_credit_top o) (afu_tlx_cmd_initial_credit_top o)
  (afu_tlx_resp_rd_req_top o) (afu_tlx_resp_rd_cnt_top o) (afu_tlx_cmd_rd_req_top o)
  (afu_tlx_cmd_rd_cnt_top o) (afu_tlx_cmd_valid_top o) (afu_tlx_cmd_opcode_top o)
  (afu_tlx_cmd_actag_top o) (afu_tlx_cmd_stream_id_top o) (afu_tlx_cmd_ea_or_obj_top o)
  (afu_tlx_cmd_afutag_top o) (afu_tlx_cmd_dl_top o) (afu_tlx_cmd_pl_top o)
  (afu_tlx_cmd_be_top o) (afu_tlx_cmd_flag_top o) (afu_tlx_cmd_endian_top o)
  (afu_tlx_cmd_bdf_top o) (afu_tlx_cmd_pasid_top o) (afu_tlx_cmd_pg_size_top o)
  (afu_tlx_cdata_bus_top o) (afu_tlx_cdata_bdi_top o) (afu_tlx_cdata_valid_top o)
  (afu_tlx_resp_valid_top o) (afu_tlx_resp_opcode_top o) (afu_tlx_resp_dl_top o)
  (afu_tlx_resp_capptag_top o) (afu_tlx_resp_dp_top o) (afu_tlx_resp_code_top o)
  (afu_tlx_rdata_valid_top o) (afu_tlx_rdata_bus_top o) (afu_tlx_rdata_bdi_top o)
  (cfg0_tlx_initial_credit_top o) (cfg0_tlx_credit_return_top o)
  (cfg0_tlx_resp_valid_top o) (cfg0_tlx_resp_opcode_top o) (cfg0_tlx_resp_capptag_top o)
  (cfg0_tlx_resp_code_top o) (cfg0_tlx_rdata_offset_top o) (cfg0_tlx_rdata_bus_top o)
  (cfg0_tlx_rdata_bdi_top o).
#[export] Instance set_reset : Setter reset := ltac:(build_setter).
#[export] Instance set_afu_tlx_resp_credit_top : Setter afu_tlx_resp_credit_top := ltac:(build_setter).
#[export] Instance set_afu_tlx_resp_initial_credit_top : Setter afu_tlx_resp_initial_credit_top := ltac:(build_setter).
#[export] Instance set_afu_tlx_cmd_credit_top : Setter afu_tlx_cmd_credit_top := ltac:(build_setter).
#[export] Instance set_afu_tlx_cmd_initial_credit_top : Setter afu_tlx_cmd_initial_credit_top := ltac:(build_setter).
#[export] Instance set_afu_tlx_resp_rd_req_top : Setter afu_tlx_resp_rd_req_top := ltac:(build_setter).
#[export] Instance set_afu_tlx_resp_rd_cnt_top : Setter afu_tlx_resp_rd_cnt_top := ltac:(build_setter).
#[export] Instance set_afu_tlx_cmd_rd_req_top : Setter afu_tlx_cmd_rd_req_top := ltac:(build_setter).
#[export] Instance set_afu_tlx_cmd_rd_cnt_top : Setter afu_tlx_cmd_rd_cnt_top := ltac:(build_setter).
#[export] Instance set_afu_tlx_cmd_valid_top : Setter afu_tlx_cmd_valid_top := ltac:(build_setter).
#[export] Instance set_afu_tlx_cmd_opcode_top : Setter afu_tlx_cmd_opcode_top := ltac:(build_setter).
#[export] Instance set_afu_tlx_cmd_actag_top : Setter afu_tlx_cmd_actag_top := ltac:(build_setter).
#[export] Instance set_afu_tlx_cmd_stream_id_top : Setter afu_tlx_cmd_stream_id_top := ltac:(build_setter).
#[export] Instance set_afu_tlx_cmd_ea_or_obj_top : Setter afu_tlx_cmd_ea_or_obj_top := ltac:(build_setter).
#[export] Instance set_afu_tlx_cmd_afutag_top : Setter afu_tlx_cmd_afutag_top := ltac:(build_setter).
#[export] Instance set_afu_tlx_cmd_dl_top : Setter afu_tlx_cmd_dl_top := ltac:(build_setter).
#[export] Instance set_afu_tlx_cmd_pl_top : Setter afu_tlx_cmd_pl_top := ltac:(build_setter).
#[export] Instance set_afu_tlx_cmd_be_top : Setter afu_tlx_cmd_be_top := ltac:(build_setter).
#[export] Instance set_afu_tlx_cmd_flag_top : Setter afu_tlx_cmd_flag_top := ltac:(build_setter).
#[export] Instance set_afu_tlx_cmd_endian_top : Setter afu_tlx_cmd_endian_top := ltac:(build_setter).
#[export] Instance set_afu_tlx_cmd_bdf_top : Setter afu_tlx_cmd_bdf_top := ltac:(build_setter).
#[export] Instance set_afu_tlx_cmd_pasid_top : Setter afu_tlx_cmd_pasid_top := ltac:(build_setter).
#[export] Instance set_afu_tlx_cmd_pg_size_top : Setter afu_tlx_cmd_pg_size_top := ltac:(build_setter).
#[export] Instance set_afu_tlx_cdata_bus_top : Setter afu_tlx_cdata_bus_top := ltac:(build_setter).
#[export] Instance set_afu_tlx_cdata_bdi_top : Setter afu_tlx_cdata_bdi_top := ltac:(build_setter).
#[export] Instance set_afu_tlx_cdata_valid_top : Setter afu_tlx_cdata_valid_top := ltac:(build_setter).
#[export] Instance set_afu_tlx_resp_valid_top : Setter afu_tlx_resp_valid_top := ltac:(build_setter).
#[export] Instance set_afu_tlx_resp_opcode_top : Setter afu_tlx_resp_opcode_top := ltac:(build_setter).
#[export] Instance set_afu_tlx_resp_dl_top : Setter afu_tlx_resp_dl_top := ltac:(build_setter).
#[export] Instance set_afu_tlx_resp_capptag_top : Setter afu_tlx_resp_capptag_top := ltac:(build_setter).
#[export] Instance set_afu_tlx_resp_dp_top : Setter afu_tlx_resp_dp_top := ltac:(build_setter).
#[export] Instance set_afu_tlx_resp_code_top : Setter afu_tlx_resp_code_top := ltac:(build_setter).
#[export] Instance set_afu_tlx_rdata_valid_top : Setter afu_tlx_rdata_valid_top := ltac:(build_setter).
#[export] Instance set_afu_tlx_rdata_bus_top : Setter afu_tlx_rdata_bus_top := ltac:(build_setter).
#[export] Instance set_afu_tlx_rdata_bdi_top : Setter afu_tlx_rdata_bdi_top := ltac:(build_setter).
#[export] Instance set_cfg0_tlx_initial_credit_top : Setter cfg0_tlx_initial_credit_top := ltac:(build_setter).
#[export] Instance set_cfg0_tlx_credit_return_top : Setter cfg0_tlx_credit_return_top := ltac:(build_setter).
#[export] Instance set_cfg0_tlx_resp_valid_top : Setter cfg0_tlx_resp_valid_top := ltac:(build_setter).
#[export] Instance set_cfg0_tlx_resp_opcode_top : Setter cfg0_tlx_resp_opcode_top := ltac:(build_setter).
#[export] Instance set_cfg0_tlx_resp_capptag_top : Setter cfg0_tlx_resp_capptag_top := ltac:(build_setter).
#[export] Instance set_cfg0_tlx_resp_code_top : Setter cfg0_tlx_resp_code_top := ltac:(build_setter).
#[export] Instance set_cfg0_tlx_rdata_offset_top : Setter cfg0_tlx_rdata_offset_top := ltac:(build_setter).
#[export] Instance set_cfg0_tlx_rdata_bus_top : Setter cfg0_tlx_rdata_bus_top := ltac:(build_setter).
#[export] Instance set_cfg0_tlx_rdata_bdi_top : Setter cfg0_tlx_rdata_bdi_top := ltac:(build_setter).

(** The signals it drives. *)
Record afu_out := AfuOut {
  tlx_afu_resp_valid_top : Z;
  tlx_afu_resp_opcode_top : vec32;
  tlx_afu_resp_afutag_top : vec32;
  tlx_afu_resp_code_top : vec32;
  tlx_afu_resp_pg_size_top : vec32;
  tlx_afu_resp_dl_top : vec32;
  tlx_afu_resp_dp_top : vec32;
  tlx_afu_resp_addr_tag_top : vec32;
  tlx_afu_cmd_valid_top : Z;
  tlx_afu_cmd_opcode_top : vec32;
  tlx_afu_cmd_capptag_top : vec32;
  tlx_afu_cmd_dl_top : vec32;
  tlx_afu_cmd_pl_top : vec32;
  tlx_afu_cmd_be_top : list vec32;
  tlx_afu_cmd_end_top : Z;
  tlx_afu_cmd_pa_top : list vec32;
  tlx_afu_resp_data_valid_top : Z;
  tlx_afu_resp_data_bus_top : list vec32;
  tlx_afu_resp_data_bdi_top : Z;
  tlx_afu_cmd_data_valid_top : Z;
  tlx_afu_cmd_data_bus_top : list vec32;
  tlx_afu_cmd_data_bdi_top : Z;
  tlx_afu_resp_credit_top : Z;
  tlx_afu_resp_data_credit_top : Z;
  tlx_afu_cmd_credit_top : Z;
  tlx_afu_cmd_data_credit_top : Z;
  tlx_afu_cmd_resp_initial_credit_top : vec32;
  tlx_afu_data_initial_credit_top : vec32;
  tlx_afu_cmd_data_initial_credit_top : vec32;
  tlx_afu_resp_data_initial_credit_top : vec32;
  tlx_afu_ready_top : Z;
  tlx_cfg0_valid_top : Z;
  tlx_cfg0_opcode_top : vec32;
  tlx_cfg0_pa_top : list vec32;
  tlx_cfg0_t_top : Z;
  tlx_cfg0_pl_top : vec32;
  tlx_cfg0_capptag_top : vec32;
  tlx_cfg0_data_bus_top : vec32;
  tlx_cfg0_data_bdi_top : Z;
  tlx_cfg0_resp_ack_top : Z;
  ro_device_top : vec32;
}.
#[export] Instance afu_out_settable : Settable afu_out := fun o => AfuOut
  (tlx_afu_resp_valid_top o) (tlx_afu_resp_opcode_top o) (tlx_afu_resp_afutag_top o)
  (tlx_afu_resp_code_top o) (tlx_afu_resp_pg_size_top o) (tlx_afu_resp_dl_top o)
  (tlx_afu_resp_dp_top o) (tlx_afu_resp_addr_tag_top o) (tlx_afu_cmd_valid_top o)
  (tlx_afu_cmd_opcode_top o) (tlx_afu_cmd_capptag_top o) (tlx_afu_cmd_dl_top o)
  (tlx_afu_cmd_pl_top o) (tlx_afu_cmd_be_top o) (tlx_afu_cmd_end_top o)
  (tlx_afu_cmd_pa_top o) (tlx_afu_resp_data_valid_top o) (tlx_afu_resp_data_bus_top o)
  (tlx_afu_resp_data_bdi_top o) (tlx_afu_cmd_data_valid_top o)
  (tlx_afu_cmd_data_bus_top o) (tlx_afu_cmd_data_bdi_top o) (tlx_afu_resp_credit_top o)
  (tlx_afu_resp_data_credit_top o) (tlx_afu_cmd_credit_top o)
  (tlx_afu_cmd_data_credit_top o) (tlx_afu_cmd_resp_initial_credit_top o)
  (tlx_afu_data_initial_credit_top o) (tlx_afu_cmd_data_initial_credit_top o)
  (tlx_afu_resp_data_initial_credit_top o) (tlx_afu_ready_top o) (tlx_cfg0_valid_top o)
  (tlx_cfg0_opcode_top o) (tlx_cfg0_pa_top o) (tlx_cfg0_t_top o) (tlx_cfg0_pl_top o)
  (tlx_cfg0_capptag_top o) (tlx_cfg0_data_bus_top o) (tlx_cfg0_data_bdi_top o)
  (tlx_cfg0_resp_ack_top o) (ro_device_top o).
#[export] Instance set_tlx_afu_resp_valid_top : Setter tlx_afu_resp_valid_top := ltac:(build_setter).
#[export] Instance set_tlx_afu_resp_opcode_top : Setter tlx_afu_resp_opcode_top := ltac:(build_setter).
#[export] Instance set_tlx_afu_resp_afutag_top : Setter tlx_afu_resp_afutag_top := ltac:(build_setter).
#[export] Instance set_tlx_afu_resp_code_top : Setter tlx_afu_resp_code_top := ltac:(build_setter).
#[export] Instance set_tlx_afu_resp_pg_size_top : Setter tlx_afu_resp_pg_size_top := ltac:(build_setter).
#[export] Instance set_tlx_afu_resp_dl_top : Setter tlx_afu_resp_dl_top := ltac:(build_setter).
#[export] Instance set_tlx_afu_resp_dp_top : Setter tlx_afu_resp_dp_top := ltac:(build_setter).
#[export] Instance set_tlx_afu_resp_addr_tag_top : Setter tlx_afu_resp_addr_tag_top := ltac:(build_setter).
#[export] Instance set_tlx_afu_cmd_valid_top : Setter tlx_afu_cmd_valid_top := ltac:(build_setter).
#[export] Instance set_tlx_afu_cmd_opcode_top : Setter tlx_afu_cmd_opcode_top := ltac:(build_setter).
#[export] Instance set_tlx_afu_cmd_capptag_top : Setter tlx_afu_cmd_capptag_top := ltac:(build_setter).
#[export] Instance set_tlx_afu_cmd_dl_top : Setter tlx_afu_cmd_dl_top := ltac:(build_setter).
#[export] Instance set_tlx_afu_cmd_pl_top : Setter tlx_afu_cmd_pl_top := ltac:(build_setter).
#[export] Instance set_tlx_afu_cmd_be_top : Setter tlx_afu_cmd_be_top := ltac:(build_setter).
#[export] Instance set_tlx_afu_cmd_end_top : Setter tlx_afu_cmd_end_top := ltac:(build_setter).
#[export] Instance set_tlx_afu_cmd_pa_top : Setter tlx_afu_cmd_pa_top := ltac:(build_setter).
#[export] Instance set_tlx_afu_resp_data_valid_top : Setter tlx_afu_resp_data_valid_top := ltac:(build_setter).
#[export] Instance set_tlx_afu_resp_data_bus_top : Setter tlx_afu_resp_data_bus_top := ltac:(build_setter).
#[export] Instance set_tlx_afu_resp_data_bdi_top : Setter tlx_afu_resp_data_bdi_top := ltac:(build_setter).
#[export] Instance set_tlx_afu_cmd_data_valid_top : Setter tlx_afu_cmd_data_valid_top := ltac:(build_setter).
#[export] Instance set_tlx_afu_cmd_data_bus_top : Setter tlx_afu_cmd_data_bus_top := ltac:(build_setter).
#[export] Instance set_tlx_afu_cmd_data_bdi_top : Setter tlx_afu_cmd_data_bdi_top := ltac:(build_setter).
#[export] Instance set_tlx_afu_resp_credit_top : Setter tlx_afu_resp_credit_top := ltac:(build_setter).
#[export] Instance set_tlx_afu_resp_data_credit_top : Setter tlx_afu_resp_data_credit_top := ltac:(build_setter).
#[export] Instance set_tlx_afu_cmd_credit_top : Setter tlx_afu_cmd_credit_top := ltac:(build_setter).
#[export] Instance set_tlx_afu_cmd_data_credit_top : Setter tlx_afu_cmd_data_credit_top := ltac:(build_setter).
#[export] Instance set_tlx_afu_cmd_resp_initial_credit_top : Setter tlx_afu_cmd_resp_initial_credit_top := ltac:(build_setter).
#[export] Instance set_tlx_afu_data_initial_credit_top : Setter tlx_afu_data_initial_credit_top := ltac:(build_setter).
#[export] Instance set_tlx_afu_cmd_data_initial_credit_top : Setter tlx_afu_cmd_data_initial_credit_top := ltac:(build_setter).
#[export] Instance set_tlx_afu_resp_data_initial_credit_top : Setter tlx_afu_resp_data_initial_credit_top := ltac:(build_setter).
#[export] Instance set_tlx_afu_ready_top : Setter tlx_afu_ready_top := ltac:(build_setter).
#[export] Instance set_tlx_cfg0_valid_top : Setter tlx_cfg0_valid_top := ltac:(build_setter).
#[export] Instance set_tlx_cfg0_opcode_top : Setter tlx_cfg0_opcode_top := ltac:(build_setter).
#[export] Instance set_tlx_cfg0_pa_top : Setter tlx_cfg0_pa_top := ltac:(build_setter).
#[export] Instance set_tlx_cfg0_t_top : Setter tlx_cfg0_t_top := ltac:(build_setter).
#[export] Instance set_tlx_cfg0_pl_top : Setter tlx_cfg0_pl_top := ltac:(build_setter).
#[export] Instance set_tlx_cfg0_capptag_top : Setter tlx_cfg0_capptag_top := ltac:(build_setter).
#[export] Instance set_tlx_cfg0_data_bus_top : Setter tlx_cfg0_data_bus_top := ltac:(build_setter).
#[export] Instance set_tlx_cfg0_data_bdi_top : Setter tlx_cfg0_data_bdi_top := ltac:(build_setter).
#[export] Instance set_tlx_cfg0_resp_ack_top : Setter tlx_cfg0_resp_ack_top := ltac:(build_setter).
#[export] Instance set_ro_device_top : Setter ro_device_top := ltac:(build_setter).

(** * The state of the driver *)

(** The variables that hold the fields of a command or a response are grouped
    as the calls that pass them on group them. *)
Record driver := Driver {
  event : AFU_EVENT;
  d_heap : heap;
  rdata : fifo;
  cdata : fifo;
  c_sim_time : Z;
  c_sim_error : Z;
  clk_afu_resp_val : Z;
  clk_afu_cmd_val : Z;
  clk_afu_resp_dat_val : Z;
  clk_afu_cmd_dat_val : Z;
  tlx_afu_credits_initialized : Z;
  afu_tlx_credits_initialized : Z;
  c_reset : Z;
  c_reset_d1 : Z;
  c_reset_d2 : Z;
  c_reset_d3 : Z;
  c_reset_d4 : Z;
  c_afu_tlx_cmd : afu_cmd;
  c_afu_tlx_cdata_bdi : Z;
  c_afu_tlx_cdata_bus : list Z;
  c_afu_tlx_resp : afu_resp;
  c_afu_tlx_rdata_bus : list Z;
  c_afu_tlx_rdata_bdi : Z;
  c_cfg0_tlx_resp : cfg_resp;
  c_cfg0_tlx_rdata_offset : Z;
  c_cfg0_tlx_rdata_bus : list Z;
  c_cfg0_tlx_rdata_bdi : Z;
  c_cfg_resp_ack_pending : Z;
}.
#[export] Instance driver_settable : Settable driver := fun o => Driver
  (event o) (d_heap o) (rdata o) (cdata o) (c_sim_time o) (c_sim_error o)
  (clk_afu_resp_val o) (clk_afu_cmd_val o) (clk_afu_resp_dat_val o)
  (clk_afu_cmd_dat_val o) (tlx_afu_credits_initialized o)
  (afu_tlx_credits_initialized o) (c_reset o) (c_reset_d1 o) (c_reset_d2 o)
  (c_reset_d3 o) (c_reset_d4 o) (c_afu_tlx_cmd o) (c_afu_tlx_cdata_bdi o)
  (c_afu_tlx_cdata_bus o) (c_afu_tlx_resp o) (c_afu_tlx_rdata_bus o)
  (c_afu_tlx_rdata_bdi o) (c_cfg0_tlx_resp o) (c_cfg0_tlx_rdata_offset o)
  (c_cfg0_tlx_rdata_bus o) (c_cfg0_tlx_rdata_bdi o) (c_cfg_resp_ack_pending o).
#[export] Instance set_event : Setter event := ltac:(build_setter).
#[export] Instance set_d_heap : Setter d_heap := ltac:(build_setter).
#[export] Instance set_rdata : Setter rdata := ltac:(build_setter).
#[export] Instance set_cdata : Setter cdata := ltac:(build_setter).
#[export] Instance set_c_sim_time : Setter c_sim_time := ltac:(build_setter).
#[export] Instance set_c_sim_error : Setter c_sim_error := ltac:(build_setter).
#[export] Instance set_clk_afu_resp_val : Setter clk_afu_resp_val := ltac:(build_setter).
#[export] Instance set_clk_afu_cmd_val : Setter clk_afu_cmd_val := ltac:(build_setter).
#[export] Instance set_clk_afu_resp_dat_val : Setter clk_afu_resp_dat_val := ltac:(build_setter).
#[export] Instance set_clk_afu_cmd_dat_val : Setter clk_afu_cmd_dat_val := ltac:(build_setter).
#[export] Instance set_tlx_afu_credits_initialized : Setter tlx_afu_credits_initialized := ltac:(build_setter).
#[export] Instance set_afu_tlx_credits_initialized : Setter afu_tlx_credits_initialized := ltac:(build_setter).
#[export] Instance set_c_reset : Setter c_reset := ltac:(build_setter).
#[export] Instance set_c_reset_d1 : Setter c_reset_d1 := ltac:(build_setter).
#[export] Instance set_c_reset_d2 : Setter c_reset_d2 := ltac:(build_setter).
#[export] Instance set_c_reset_d3 : Setter c_reset_d3 := ltac:(build_setter).
#[export] Instance set_c_reset_d4 : Setter c_reset_d4 := ltac:(build_setter).
#[export] Instance set_c_afu_tlx_cmd : Setter c_afu_tlx_cmd := ltac:(build_setter).
#[export] Instance set_c_afu_tlx_cdata_bdi : Setter c_afu_tlx_cdata_bdi := ltac:(build_setter).
#[export] Instance set_c_afu_tlx_cdata_bus : Setter c_afu_tlx_cdata_bus := ltac:(build_setter).
#[export] Instance set_c_afu_tlx_resp : Setter c_afu_tlx_resp := ltac:(build_setter).
#[export] Instance set_c_afu_tlx_rdata_bus : Setter c_afu_tlx_rdata_bus := ltac:(build_setter).
#[export] Instance set_c_afu_tlx_rdata_bdi : Setter c_afu_tlx_rdata_bdi := ltac:(build_setter).
#[export] Instance set_c_cfg0_tlx_resp : Setter c_cfg0_tlx_resp := ltac:(build_setter).
#[export] Instance set_c_cfg0_tlx_rdata_offset : Setter c_cfg0_tlx_rdata_offset := ltac:(build_setter).
#[export] Instance set_c_cfg0_tlx_rdata_bus : Setter c_cfg0_tlx_rdata_bus := ltac:(build_setter).
#[export] Instance set_c_cfg0_tlx_rdata_bdi : Setter c_cfg0_tlx_rdata_bdi := ltac:(build_setter).
#[export] Instance set_c_cfg_resp_ack_pending : Setter c_cfg_resp_ack_pending := ltac:(build_setter).

Definition CLOCK_EDGE_DELAY := 2.
Definition EA_OBJ_HANDLE : nat := 10.

(** The static variables before the first call. *)
Definition driver_start : driver := Driver event_zero ∅ fifo_empty fifo_empty 0 0 0 0 0 0 0 0 1 1 1 1 1
  (AfuCmd 0 0 0 (zeros EA_OBJ_HANDLE) 0 0 0 0 0 0 0 0 0) 0 (zeros 64)
  (AfuResp 0 0 0 0 0) (zeros 64) 0 (CfgResp 0 0 0) 0 (zeros 64) 0 0.

(** * Credits *)

Definition send_initial_credits (i : afu_in) (d : driver) : driver :=
  if afu_tlx_credits_initialized d =? 0 then
    d <| event := snd (afu_tlx_send_initial_credits (event d)
                        (field_in (afu_tlx_cmd_initial_credit_top i) 0x7F)
                        (field_in (cfg0_tlx_initial_credit_top i) 0x0F)
                        (field_in (afu_tlx_resp_initial_credit_top i) 0x7F)) |>
      <| afu_tlx_credits_initialized := 1 |>
  else d.
Definition read_initial_credits (d : driver) : driver :=
  if tlx_afu_credits_initialized d =? 0 then
    let '(rc, _, e) := tlx_afu_read_initial_credits (event d) in
    let d := d <| event := e |> in
    if rc =? 0 then d <| tlx_afu_credits_initialized := 1 |> else d
  else d.
Definition initial_credits (i : afu_in) (d : driver) : driver :=
  if truthy (c_reset d) then d else read_initial_credits (send_initial_credits i d).

(** An X or a Z leaves the configuration credit as it was, and clears the other
    two. *)
Definition return_cfg_credit (i : afu_in) (e : AFU_EVENT) : AFU_EVENT :=
  if truthy (Z.land (cfg0_tlx_credit_return_top i) 0x2) then e
  else if logic_bit (cfg0_tlx_credit_return_top i) =? 1
  then e <| cfg_tlx_credit_return := 1 |> <| afu_tlx_credit_req_valid := 1 |>
  else e <| cfg_tlx_credit_return := 0 |>.
Definition return_resp_credit (i : afu_in) (e : AFU_EVENT) : AFU_EVENT :=
  if truthy (Z.land (afu_tlx_resp_credit_top i) 0x2) then e <| afu_tlx_resp_credit := 0 |>
  else if logic_bit (afu_tlx_resp_credit_top i) =? 1
  then e <| afu_tlx_resp_credit := 1 |> <| afu_tlx_credit_req_valid := 1 |>
  else e <| afu_tlx_resp_credit := 0 |>.
Definition return_cmd_credit (i : afu_in) (e : AFU_EVENT) : AFU_EVENT :=
  if truthy (Z.land (afu_tlx_cmd_credit_top i) 0x2) then e <| afu_tlx_cmd_credit := 0 |>
  else if logic_bit (afu_tlx_cmd_credit_top i) =? 1
  then e <| afu_tlx_cmd_credit := 1 |> <| afu_tlx_credit_req_valid := 1 |>
  else e <| afu_tlx_cmd_credit := 0 |>.
Definition return_credits (i : afu_in) (e : AFU_EVENT) : AFU_EVENT :=
  return_cmd_credit i (return_resp_credit i (return_cfg_credit i e)).

(** * The AFU's commands *)

Definition read_cmd (i : afu_in) (d : driver) : option driver :=
  if truthy (logic_bit (afu_tlx_cmd_valid_top i)) then
    '(_, ea) ← getMyByteArray (afu_tlx_cmd_ea_or_obj_top i) 9 (ac_ea_or_obj (c_afu_tlx_cmd d));
    '(_, be) ← getMy64Bit (afu_tlx_cmd_be_top i);
    Some (d <| c_afu_tlx_cmd :=
      AfuCmd (field_in (afu_tlx_cmd_opcode_top i) 0xFF) (field_in (afu_tlx_cmd_actag_top i) 0xFFF)
        (field_in (afu_tlx_cmd_stream_id_top i) 0xF) ea
        (field_in (afu_tlx_cmd_afutag_top i) 0xFFFF) (field_in (afu_tlx_cmd_dl_top i) 0x3)
        (field_in (afu_tlx_cmd_pl_top i) 0x7) be (field_in (afu_tlx_cmd_flag_top i) 0xF)
        (logic_bit (afu_tlx_cmd_endian_top i)) (field_in (afu_tlx_cmd_bdf_top i) 0xFFFF)
        (field_in (afu_tlx_cmd_pasid_top i) 0xFFFFF) (field_in (afu_tlx_cmd_pg_size_top i) 0x3F) |>)
  else Some d.

Definition read_cdata (i : afu_in) (d : driver) : option driver :=
  if truthy (logic_bit (afu_tlx_cdata_valid_top i)) then
    '(_, bus) ← getMyCacheLine (afu_tlx_cdata_bus_top i) (c_afu_tlx_cdata_bus d);
    Some (d <| c_afu_tlx_cdata_bdi := logic_bit (afu_tlx_cdata_bdi_top i) |>
            <| c_afu_tlx_cdata_bus := bus |>)
  else Some d.

(** The return codes of the two calls are not looked at. *)
Definition send_cmd (i : afu_in) (d : driver) : option driver :=
  if truthy (logic_bit (afu_tlx_cmd_valid_top i)) then
    '(_, e) ← afu_tlx_send_cmd (event d) (c_afu_tlx_cmd d);
    Some (d <| event := e |>)
  else Some d.
Definition send_cdata (i : afu_in) (d : driver) : option driver :=
  if truthy (logic_bit (afu_tlx_cdata_valid_top i)) then
    '(_, e) ← afu_tlx_send_cmd_data (event d) (c_afu_tlx_cdata_bdi d) (c_afu_tlx_cdata_bus d);
    Some (d <| event := e |>)
  else Some d.

(** * The AFU's responses *)

Definition read_resp (i : afu_in) (d : driver) : driver :=
  if truthy (logic_bit (afu_tlx_resp_valid_top i)) then
    d <| c_afu_tlx_resp :=
      AfuResp (field_in (afu_tlx_resp_opcode_top i) 0xFF) (field_in (afu_tlx_resp_dl_top i) 0x3)
        (field_in (afu_tlx_resp_capptag_top i) 0xFFFF) (field_in (afu_tlx_resp_dp_top i) 0x3)
        (field_in (afu_tlx_resp_code_top i) 0xF) |>
  else d.

Definition read_cfg_resp (i : afu_in) (d : driver) : option driver :=
  if truthy (logic_bit (cfg0_tlx_resp_valid_top i)) && (c_cfg_resp_ack_pending d =? 0) then
    '(_, bus) ← getMyByteArray (cfg0_tlx_rdata_bus_top i) 4 (c_cfg0_tlx_rdata_bus d);
    Some (d <| c_cfg0_tlx_resp :=
                 CfgResp (field_in (cfg0_tlx_resp_opcode_top i) 0xFF)
                   (field_in (cfg0_tlx_resp_capptag_top i) 0xFFFF)
                   (field_in (cfg0_tlx_resp_code_top i) 0xF) |>
            <| c_cfg0_tlx_rdata_offset := field_in (cfg0_tlx_rdata_offset_top i) 0xF |>
            <| c_cfg0_tlx_rdata_bus := bus |>
            <| c_cfg0_tlx_rdata_bdi := logic_bit (cfg0_tlx_rdata_bdi_top i) |>)
  else if negb (truthy (logic_bit (cfg0_tlx_resp_valid_top i)))
  then Some (d <| c_cfg_resp_ack_pending := 0 |>)
  else Some d.

Definition read_rdata (i : afu_in) (d : driver) : option driver :=
  if truthy (logic_bit (afu_tlx_rdata_valid_top i)) then
    '(_, bus) ← getMyCacheLine (afu_tlx_rdata_bus_top i) (c_afu_tlx_rdata_bus d);
    Some (d <| c_afu_tlx_rdata_bdi := logic_bit (afu_tlx_rdata_bdi_top i) |>
            <| c_afu_tlx_rdata_bus := bus |>)
  else Some d.

(** Data alone goes with the [dp] of the last response; a configuration response
    waits while the AFU has another one, and is sent once while it is valid. *)
Definition send_resp (i : afu_in) (d : driver) : option driver :=
  let resp_valid := truthy (logic_bit (afu_tlx_resp_valid_top i)) in
  let rdata_valid := truthy (logic_bit (afu_tlx_rdata_valid_top i)) in
  if resp_valid && negb rdata_valid then
    Some (d <| event := snd (afu_tlx_send_resp (event d) (c_afu_tlx_resp d)) |>)
  else if resp_valid && rdata_valid then
    '(_, e) ← afu_tlx_send_resp_and_data (event d) (c_afu_tlx_resp d) (c_afu_tlx_rdata_bus d)
                (c_afu_tlx_rdata_bdi d);
    Some (d <| event := e |>)
  else if negb resp_valid && rdata_valid then
    '(_, e) ← afu_tlx_send_resp_data (event d) (c_afu_tlx_rdata_bdi d)
                (ar_dp (c_afu_tlx_resp d)) (c_afu_tlx_rdata_bus d);
    Some (d <| event := e |>)
  else if truthy (logic_bit (cfg0_tlx_resp_valid_top i)) && (c_cfg_resp_ack_pending d =? 0) then
    let d := d <| c_cfg_resp_ack_pending := 1 |> in
    '(_, e) ← afu_cfg_send_resp_and_data (event d) (c_cfg0_tlx_resp d) (c_cfg0_tlx_rdata_bus d)
                (c_cfg0_tlx_rdata_bdi d);
    Some (d <| event := e |>)
  else Some d.

(** * Lines the AFU asks for *)

Definition read_req (req : Z) (cnt : vec32) (f : fifo) : fifo :=
  if truthy (logic_bit req)
  then f <| q_rd_cnt := u32 (q_rd_cnt f + decode_rd_cnt (field_in cnt 0x7)) |>
  else f.

Definition read_reqs (i : afu_in) (d : driver) : driver :=
  d <| cdata := read_req (afu_tlx_cmd_rd_req_top i) (afu_tlx_cmd_rd_cnt_top i) (cdata d) |>
    <| rdata := read_req (afu_tlx_resp_rd_req_top i) (afu_tlx_resp_rd_cnt_top i) (rdata d) |>.

(** * What the host sent, driven to the AFU *)

(** [if (clk) { --clk; if (!clk) *valid = 0; }] *)
Definition clk_down (clk valid : Z) : Z * Z :=
  if truthy clk then (clk - 1, if truthy (clk - 1) then valid else 0) else (clk, valid).

(** The lines a response or a command comes with. *)
Definition line_cnt (dl : Z) : nat := Z.to_nat (if dl =? 0 then 1 else decode_dl dl).
Definition data_lines (dl : Z) (data : list Z) : list (list Z) :=
  map (line_of data) (seq 0 (line_cnt dl)).

Section drive.
Context `{Allocator}.

Definition drive_resp_data (d : driver) : option driver :=
  let e := event d in
  if truthy (tlx_afu_resp_data_valid e) then
    '(h, f) ← fifo_fill (data_lines (tlx_afu_resp_dl e) (tlx_afu_resp_data e)) (d_heap d, rdata d);
    Some (d <| d_heap := h |> <| rdata := f |> <| event := e <| tlx_afu_resp_data_valid := 0 |> |>)
  else Some d.

Definition drive_resp (o : afu_out) (d : driver) : option (afu_out * driver) :=
  let e := event d in
  '(o, d) ← (if truthy (tlx_afu_resp_valid e) then
      let o :=
        o <| tlx_afu_resp_opcode_top := setDpiSignal32 (tlx_afu_resp_opcode e) 8 |>
          <| tlx_afu_resp_afutag_top := setDpiSignal32 (tlx_afu_resp_afutag e) 16 |>
          <| tlx_afu_resp_code_top := setDpiSignal32 (tlx_afu_resp_code e) 4 |>
          <| tlx_afu_resp_pg_size_top := setDpiSignal32 (tlx_afu_resp_pg_size e) 6 |>
          <| tlx_afu_resp_dl_top := setDpiSignal32 (tlx_afu_resp_dl e) 2 |>
          <| tlx_afu_resp_dp_top := setDpiSignal32 (tlx_afu_resp_dp e) 2 |>
          <| tlx_afu_resp_addr_tag_top := setDpiSignal32 (tlx_afu_resp_addr_tag e) 18 |>
          <| tlx_afu_resp_valid_top := 1 |> in
      let d := d <| clk_afu_resp_val := CLOCK_EDGE_DELAY |>
                 <| event := e <| tlx_afu_resp_valid := 0 |> |> in
      d ← drive_resp_data d; Some (o, d)
    else Some (o, d));
  let '(clk, v) := clk_down (clk_afu_resp_val d) (tlx_afu_resp_valid_top o) in
  Some (o <| tlx_afu_resp_valid_top := v |>, d <| clk_afu_resp_val := clk |>).

Definition drive_cfg (o : afu_out) (d : driver) : option (afu_out * driver) :=
  let e := event d in
  if truthy (tlx_cfg_valid e) then
    pa ← setDpiSignal64 (tlx_cfg0_pa_top o) (tlx_cfg_pa e);
    data ← slice (tlx_cfg_data_bus e) 0 4;
    Some (o <| tlx_cfg0_opcode_top := setDpiSignal32 (tlx_cfg_opcode e) 8 |>
            <| tlx_cfg0_pa_top := pa |>
            <| tlx_cfg0_t_top := Z.land (tlx_cfg_t e) 0x1 |>
            <| tlx_cfg0_pl_top := setDpiSignal32 (tlx_cfg_pl e) 3 |>
            <| tlx_cfg0_capptag_top := setDpiSignal32 (tlx_cfg_capptag e) 16 |>
            <| tlx_cfg0_valid_top := 1 |>
            <| tlx_cfg0_data_bus_top := setDpiSignal32 (le_val data) 32 |>
            <| tlx_cfg0_data_bdi_top := Z.land (tlx_cfg_data_bdi e) 0x1 |>,
          d <| clk_afu_cmd_val := CLOCK_EDGE_DELAY |> <| event := e <| tlx_cfg_valid := 0 |> |>)
  else Some (o, d).

Definition drive_cmd_data (d : driver) : option driver :=
  let e := event d in
  if truthy (tlx_afu_cmd_data_valid e) then
    '(h, f) ← fifo_fill (data_lines (tlx_afu_cmd_dl e) (tlx_afu_cmd_data_bus e)) (d_heap d, cdata d);
    Some (d <| d_heap := h |> <| cdata := f |> <| event := e <| tlx_afu_cmd_data_valid := 0 |> |>)
  else Some d.

(** Commands and configuration commands share the delay. *)
Definition drive_cmd (o : afu_out) (d : driver) : option (afu_out * driver) :=
  let e := event d in
  '(o, d) ← (if truthy (tlx_afu_cmd_valid e) then
      be ← setDpiSignal64 (tlx_afu_cmd_be_top o) (tlx_afu_cmd_be e);
      pa ← setDpiSignal64 (tlx_afu_cmd_pa_top o) (tlx_afu_cmd_pa e);
      let o :=
        o <| tlx_afu_cmd_opcode_top := setDpiSignal32 (tlx_afu_cmd_opcode e) 8 |>
          <| tlx_afu_cmd_capptag_top := setDpiSignal32 (tlx_afu_cmd_capptag e) 16 |>
          <| tlx_afu_cmd_dl_top := setDpiSignal32 (tlx_afu_cmd_dl e) 2 |>
          <| tlx_afu_cmd_pl_top := setDpiSignal32 (tlx_afu_cmd_pl e) 3 |>
          <| tlx_afu_cmd_be_top := be |>
          <| tlx_afu_cmd_end_top := Z.land (tlx_afu_cmd_end e) 0x1 |>
          <| tlx_afu_cmd_pa_top := pa |>
          <| tlx_afu_cmd_valid_top := 1 |> in
      let d := d <| clk_afu_cmd_val := CLOCK_EDGE_DELAY |>
                 <| event := e <| tlx_afu_cmd_valid := 0 |> |> in
      d ← drive_cmd_data d; Some (o, d)
    else Some (o, d));
  let '(clk, v) := clk_down (clk_afu_cmd_val d) (tlx_afu_cmd_valid_top o) in
  let '(_, cv) := clk_down (clk_afu_cmd_val d) (tlx_cfg0_valid_top o) in
  Some (o <| tlx_afu_cmd_valid_top := v |> <| tlx_cfg0_valid_top := cv |>,
        d <| clk_afu_cmd_val := clk |>).

Definition drive_rdata (o : afu_out) (d : driver) : option (afu_out * driver) :=
  '(line, (h, f)) ← fifo_take (d_heap d, rdata d);
  let d := d <| d_heap := h |> <| rdata := f |> in
  '(o, d) ← (match line with
    | Some line =>
        bus ← setMyCacheLine (tlx_afu_resp_data_bus_top o) line;
        Some (o <| tlx_afu_resp_data_bus_top := bus |>
                <| tlx_afu_resp_data_valid_top := 1 |>
                <| tlx_afu_resp_data_bdi_top := Z.land (tlx_afu_resp_data_bdi (event d)) 0x1 |>,
              d <| clk_afu_resp_dat_val := CLOCK_EDGE_DELAY |>)
    | None => Some (o, d)
    end);
  let '(clk, v) := clk_down (clk_afu_resp_dat_val d) (tlx_afu_resp_data_valid_top o) in
  Some (o <| tlx_afu_resp_data_valid_top := v |>, d <| clk_afu_resp_dat_val := clk |>).

Definition drive_cdata (o : afu_out) (d : driver) : option (afu_out * driver) :=
  '(line, (h, f)) ← fifo_take (d_heap d, cdata d);
  let d := d <| d_heap := h |> <| cdata := f |> in
  '(o, d) ← (match line with
    | Some line =>
        bus ← setMyCacheLine (tlx_afu_cmd_data_bus_top o) line;
        Some (o <| tlx_afu_cmd_data_bus_top := bus |>
                <| tlx_afu_cmd_data_valid_top := 1 |>
                <| tlx_afu_cmd_data_bdi_top := Z.land (tlx_afu_cmd_data_bdi (event d)) 0x1 |>,
              d <| clk_afu_cmd_dat_val := CLOCK_EDGE_DELAY |>)
    | None => Some (o, d)
    end);
  let '(clk, v) := clk_down (clk_afu_cmd_dat_val d) (tlx_afu_cmd_data_valid_top o) in
  Some (o <| tlx_afu_cmd_data_valid_top := v |>, d <| clk_afu_cmd_dat_val := clk |>).

Definition credit_pins (e : AFU_EVENT) (o : afu_out) : afu_out :=
  let o :=
    if truthy (tlx_afu_credit_valid e) then
      o <| tlx_afu_cmd_resp_initial_credit_top := setDpiSignal32 (tlx_afu_cmd_initial_credit e) 4 |>
        <| tlx_afu_data_initial_credit_top := setDpiSignal32 (tlx_afu_resp_initial_credit e) 4 |>
        <| tlx_afu_cmd_data_initial_credit_top := setDpiSignal32 (tlx_afu_cmd_data_initial_credit e) 6 |>
        <| tlx_afu_resp_data_initial_credit_top := setDpiSignal32 (tlx_afu_resp_data_initial_credit e) 6 |>
    else o in
  o <| tlx_afu_resp_credit_top := Z.land (tlx_afu_resp_credit e) 0x1 |>
    <| tlx_afu_resp_data_credit_top := Z.land (tlx_afu_resp_data_credit e) 0x1 |>
    <| tlx_afu_cmd_credit_top := Z.land (tlx_afu_cmd_credit e) 0x1 |>
    <| tlx_afu_cmd_data_credit_top := Z.land (tlx_afu_cmd_data_credit e) 0x1 |>
    <| tlx_cfg0_resp_ack_top := Z.land (tlx_cfg_resp_ack e) 0x1 |>
    <| tlx_afu_ready_top := 1 |>
    <| ro_device_top := setDpiSignal32 0 5 |>.

(** The credit pulses are cleared once driven: a frame with the clock only does
    not update the event. *)
Definition drive_credits (o : afu_out) (d : driver) : afu_out * driver :=
  (credit_pins (event d) o,
   d <| event := event d <| tlx_cfg_resp_ack := 0 |>
                         <| tlx_afu_resp_credit := 0 |>
                         <| tlx_afu_resp_data_credit := 0 |>
                         <| tlx_afu_cmd_credit := 0 |>
                         <| tlx_afu_cmd_data_credit := 0 |> |>).

(** * A call *)

(** The AFU's pins are read. *)
Definition bfm_inputs (i : afu_in) (d : driver) : option driver :=
  let d := initial_credits i d in
  let d := d <| event := return_credits i (event d) |> in
  d ← read_cmd i d; d ← read_cdata i d; d ← send_cmd i d; d ← send_cdata i d;
  let d := read_resp i d in
  d ← read_cfg_resp i d; d ← read_rdata i d; d ← send_resp i d;
  Some (read_reqs i d).

(** What the host sent is driven onto them. *)
Definition bfm_outputs (o : afu_out) (d : driver) : option (afu_out * driver) :=
  '(o, d) ← drive_resp o d; '(o, d) ← drive_cfg o d; '(o, d) ← drive_cmd o d;
  '(o, d) ← drive_rdata o d; '(o, d) ← drive_cdata o d;
  Some (drive_credits o d).

Definition bfm_low (i : afu_in) (o : afu_out) (d : driver) : option (afu_out * driver) :=
  d ← bfm_inputs i d; bfm_outputs o d.

(** [tlx_control]: wait for the frame of the host, one unit of fuel a poll. *)
Fixpoint get_tlx_events_loop (fuel : nat) (e : AFU_EVENT) (c : conn)
    : option (option Z * AFU_EVENT * conn) :=
  '(rc, e, c) ← tlx_get_tlx_events e c;
  if rc =? 0 then
    match fuel with
    | O => Some (None, e, c)
    | S fuel => get_tlx_events_loop fuel e c
    end
  else Some (Some rc, e, c).

(** [false]: the loop is still polling. *)
Definition tlx_control (fuel : nat) (d : driver) (c : conn) : option (bool * driver * conn) :=
  '(rc, e, c) ← get_tlx_events_loop fuel (event d) c;
  let d := d <| event := e |> in
  match rc with
  | None => Some (false, d, c)
  | Some rc => Some (true, if rc <? 0 then d <| c_sim_error := 1 |> else d, c)
  end.

Definition shift_reset (d : driver) : driver :=
  d <| c_reset_d4 := c_reset_d3 d |> <| c_reset_d3 := c_reset_d2 d |>
    <| c_reset_d2 := c_reset_d1 d |> <| c_reset_d1 := c_reset d |>.

(** [tlx_clock == sv_0] is the low phase. *)
Definition tlx_bfm (fuel : nat) (tlx_clock : Z) (i : afu_in) (o : afu_out) (d : driver) (c : conn)
    : option (bool * afu_out * driver * conn) :=
  let d := d <| c_reset := Z.land (reset i) 0x1 |> in
  '(fin, o, d, c) ←
    (if truthy (c_reset_d4 d) then Some (true, o, d, c)
     else if tlx_clock =? 0 then '(o, d) ← bfm_low i o d; Some (true, o, d, c)
     else '(fin, d, c) ← tlx_control fuel (d <| c_sim_error := 0 |>) c; Some (fin, o, d, c));
  Some (fin : bool, o, if fin : bool then shift_reset d else d, c).

(** [tlx_bfm_init]: each call of [tlx_serv_afu_event] takes what the operating
    system gives it, a socket on which the server has connected or none; [port]
    is the port of the successful call.  A failed attempt is followed by a
    second one on the same port, whose failure is looked at for its kind and
    whose success is not noticed. *)
Fixpoint tlx_bfm_init (fuel : nat) (attempts : list (option Z * conn)) (port : Z) (d : driver)
    : option (option (Z * conn) * driver) :=
  let serve a d :=
    '(rc, e, c) ← tlx_serv_afu_event fuel (event d) a.1 a.2;
    Some (rc, d <| event := e |> <| rdata := fifo_empty |> <| cdata := fifo_empty |>, c) in
  match attempts with
  | [] => Some (None, d)
  | a :: attempts =>
      '(rc, d, c) ← serve a d;
      match rc with
      | None => Some (None, d)
      | Some rc =>
          if rc =? TLX_SUCCESS then Some (Some (port, c), d)
          else
            match attempts with
            | [] => Some (None, d)
            | a :: attempts =>
                '(rc, d, c) ← serve a d;
                match rc with
                | None => Some (None, d)
                | Some rc =>
                    tlx_bfm_init fuel attempts (port + 1)
                      (if rc =? TLX_VERSION_ERROR then d <| c_sim_error := 1 |> else d)
                end
            end
      end
  end.

End drive.

Definition set_simulation_time (simulationTime : list vec32) (d : driver) : option driver :=
  '(_, t) ← getMy64Bit simulationTime; Some (d <| c_sim_time := t |>).
Definition get_simuation_error (d : driver) : Z := Z.land (c_sim_error d) 0x1.
