(* ===== verification/DriverInv.v ===== *)
(** The simulator's side of the link: what every call of [tlx_bfm] keeps, and
    the steps of its low phase one by one.  The FIFOs of lines are seen through
    their specification, a list of lines and a count of lines owed. *)
From stdpp Require Import gmap.
From S2P Require Import Prelude Utils Event Sock TlxWire Link EventEq Cycle TlxHost TlxAfu TlxApi Fifo Driver.

(** * Typing *)

Definition vec_ok (v : vec32) : Prop := is_u 32 (aval v) /\ is_u 32 (bval v).
Definition bus_ok (n : nat) (l : list vec32) : Prop := length l = n /\ Forall vec_ok l.

Definition word_pins (i : afu_in) : list vec32 :=
  [afu_tlx_resp_initial_credit_top i; afu_tlx_cmd_initial_credit_top i;
   afu_tlx_resp_rd_cnt_top i; afu_tlx_cmd_rd_cnt_top i; afu_tlx_cmd_opcode_top i;
   afu_tlx_cmd_actag_top i; afu_tlx_cmd_stream_id_top i; afu_tlx_cmd_afutag_top i;
   afu_tlx_cmd_dl_top i; afu_tlx_cmd_pl_top i; afu_tlx_cmd_flag_top i; afu_tlx_cmd_bdf_top i;
   afu_tlx_cmd_pasid_top i; afu_tlx_cmd_pg_size_top i; afu_tlx_resp_opcode_top i;
   afu_tlx_resp_dl_top i; afu_tlx_resp_capptag_top i; afu_tlx_resp_dp_top i;
   afu_tlx_resp_code_top i; cfg0_tlx_initial_credit_top i; cfg0_tlx_resp_opcode_top i;
   cfg0_tlx_resp_capptag_top i; cfg0_tlx_resp_code_top i; cfg0_tlx_rdata_offset_top i].

(** The signals have the widths of their declarations: the object of a command
    is 68 bits, three words. *)
Record pins_ok (i : afu_in) : Prop := {
  pi_words : Forall vec_ok (word_pins i);
  pi_ea : bus_ok 3 (afu_tlx_cmd_ea_or_obj_top i);
  pi_be : bus_ok 2 (afu_tlx_cmd_be_top i);
  pi_cdata : bus_ok 16 (afu_tlx_cdata_bus_top i);
  pi_rdata : bus_ok 16 (afu_tlx_rdata_bus_top i);
  pi_cfg : bus_ok 1 (cfg0_tlx_rdata_bus_top i);
}.

Record outs_ok (o : afu_out) : Prop := {
  ou_cfg_pa : length (tlx_cfg0_pa_top o) = 2%nat;
  ou_cmd_be : length (tlx_afu_cmd_be_top o) = 2%nat;
  ou_cmd_pa : length (tlx_afu_cmd_pa_top o) = 2%nat;
  ou_rbus : length (tlx_afu_resp_data_bus_top o) = 16%nat;
  ou_cbus : length (tlx_afu_cmd_data_bus_top o) = 16%nat;
}.

(** The registers that hold what was last read from the pins. *)
Definition trim (c : afu_cmd) : afu_cmd :=
  AfuCmd (ac_opcode c) (ac_actag c) (ac_stream_id c) (take 9 (ac_ea_or_obj c)) (ac_afutag c)
    (ac_dl c) (ac_pl c) (ac_be c) (ac_flag c) (ac_endian c) (ac_bdf c) (ac_pasid c) (ac_pg_size c).

Record regs_ok (d : driver) : Prop := {
  rg_ea : is_array EA_OBJ_HANDLE (ac_ea_or_obj (c_afu_tlx_cmd d));
  rg_high : drop 8 (ac_ea_or_obj (c_afu_tlx_cmd d)) = [0; 0];
  rg_cmd : afu_cmd_ok (trim (c_afu_tlx_cmd d));
  rg_cdata : is_array 64 (c_afu_tlx_cdata_bus d) /\ is_byte (c_afu_tlx_cdata_bdi d);
  rg_resp : afu_resp_ok (c_afu_tlx_resp d);
  rg_rdata : is_array 64 (c_afu_tlx_rdata_bus d) /\ is_byte (c_afu_tlx_rdata_bdi d);
  rg_cfg : cfg_resp_ok (c_cfg0_tlx_resp d);
  rg_cfg_data : is_array 64 (c_cfg0_tlx_rdata_bus d) /\ is_byte (c_cfg0_tlx_rdata_bdi d);
}.

(** * Signals *)

Lemma logic_bit_cases s : logic_bit s = 0 \/ logic_bit s = 1.
Proof.
  unfold logic_bit. case_match; [by left|].
  rewrite (land_ones8 s 1) by done. change (2 ^ 1) with 2.
  pose proof (Z.mod_pos_bound s 2). lia.
Qed.
Lemma logic_bit_byte s : is_byte (logic_bit s).
Proof. destruct (logic_bit_cases s) as [-> | ->]; by vm_compute. Qed.

Lemma field_in_ok w v m : vec_ok v -> is_u w m -> is_u w (field_in v m).
Proof. intros [[H _] _] Hm. by apply is_u_land. Qed.

#[export] Hint Resolve logic_bit_byte : ocse.

(** The bytes of the words a copy loop goes through. *)
Definition bus_bytes (l : list vec32) : list Z := concat (map (fun v => le_bytes 4 (aval v)) l).

Lemma bus_bytes_bytes l : bytes (bus_bytes l).
Proof.
  unfold bus_bytes. induction l as [|v l IH]; [by apply Forall_nil_2|].
  cbn [map concat]. apply Forall_app_2; [apply le_bytes_bytes|done].
Qed.

Lemma length_bus_bytes l : length (bus_bytes l) = (4 * length l)%nat.
Proof.
  unfold bus_bytes. induction l as [|v l IH]; [done|].
  cbn [map concat length]. rewrite length_app, length_le_bytes. unfold bus_bytes in IH. lia.
Qed.

Lemma bus_bytes_snoc l v : bus_bytes (l ++ [v]) = bus_bytes l ++ le_bytes 4 (aval v).
Proof. unfold bus_bytes. rewrite map_app, concat_app. cbn [map concat]. by rewrite app_nil_r. Qed.

Lemma overwrite_0 {A} (buf l : list A) : overwrite buf 0 l = l ++ drop (length l) buf.
Proof. unfold overwrite. by rewrite take_0. Qed.

(** The words from [k] on are copied behind those before it. *)
Lemma get_words_eq signal : forall n k err data,
  (k + n <= length signal)%nat -> (4 * (k + n) <= length data)%nat ->
  exists err',
    get_words signal (seq k n) (err, overwrite data 0 (bus_bytes (take k signal))) =
    Some (err', overwrite data 0 (bus_bytes (take (k + n) signal))).
Proof.
  intros n. induction n as [|n IH]; intros k err data Hs Hd.
  - exists err. by rewrite Nat.add_0_r.
  - cbn [seq get_words].
    destruct (lookup_lt_is_Some_2 signal k) as [v Hv]; [lia|].
    unfold get_word at 1. rewrite Hv. cbn [mbind option_bind snd].
    assert (Hl : length (bus_bytes (take k signal)) = (4 * k)%nat)
      by (rewrite length_bus_bytes, length_take; lia).
    assert (Hlb : length (overwrite data 0 (bus_bytes (take k signal))) = length data)
      by (rewrite length_overwrite; [done|lia]).
    rewrite copy_at_some by (rewrite ?Hlb, ?length_le_bytes; lia).
    cbn [mbind option_bind].
    rewrite (take_ge (le_bytes 4 _)) by (rewrite length_le_bytes; lia).
    replace (Z.to_nat (4 * Z.of_nat k)) with (0 + length (bus_bytes (take k signal)))%nat by lia.
    rewrite overwrite_app
      by (rewrite length_app, length_le_bytes, Hl; lia).
    rewrite <- bus_bytes_snoc, <- take_S_r by done. cbn [fst].
    destruct (IH (S k) (if truthy (bval v) then 1 else err) data) as [err' ->]; [lia..|].
    exists err'. by replace (S k + n)%nat with (k + S n)%nat by lia.
Qed.

Lemma getMyByteArray_eq signal len data :
  (len / 4 <= length signal)%nat -> (4 * (len / 4) <= length data)%nat ->
  exists err, getMyByteArray signal len data =
    Some (err, overwrite data 0 (bus_bytes (take (len / 4) signal))).
Proof.
  intros Hs Hd. unfold getMyByteArray.
  destruct (get_words_eq signal (len / 4) 0 0 data) as [err He]; [lia..|].
  exists err. rewrite take_0 in He. cbn [bus_bytes map concat] in He.
  by rewrite overwrite_0 in He.
Qed.

Lemma getMyCacheLine_eq signal data :
  length signal = 16%nat -> length data = 64%nat ->
  exists err, getMyCacheLine signal data = Some (err, bus_bytes signal).
Proof.
  intros Hs Hd. unfold getMyCacheLine. change (64 / 4)%nat with 16%nat.
  destruct (get_words_eq signal 16 0 0 data) as [err He]; [lia..|].
  exists err. rewrite take_0 in He. cbn [bus_bytes map concat Nat.add] in He.
  rewrite overwrite_0 in He. cbn [length app] in He. rewrite drop_0 in He.
  rewrite He. do 2 f_equal. rewrite take_ge by lia. rewrite overwrite_0, drop_ge, app_nil_r; [done|].
  rewrite length_bus_bytes. lia.
Qed.

Lemma getMy64Bit_eq signal :
  bus_ok 2 signal -> exists err, getMy64Bit signal = Some (err, le_val (bus_bytes signal)).
Proof.
  intros [Hl Hv]. destruct signal as [|lo [|hi []]]; try done.
  eexists. unfold getMy64Bit. cbn [lookup list_lookup mbind option_bind]. do 2 f_equal.
  apply Forall_cons_1 in Hv as [[? _] [[? _] _]%Forall_cons_1].
  unfold bus_bytes. cbn [map concat]. rewrite app_nil_r, le_val_app by apply le_bytes_bytes.
  rewrite !le_val_bytes, length_le_bytes, lor_shiftl_add by first [done|lia].
  change (8 * Z.of_nat 4) with 32. rewrite !is_u_small by done. lia.
Qed.

Lemma bus_val_range n signal :
  length signal = n -> is_u (32 * Z.of_nat n) (le_val (bus_bytes signal)).
Proof.
  intros Hl. replace (32 * Z.of_nat n) with (8 * Z.of_nat (4 * n)) by lia.
  apply le_val_range; [rewrite length_bus_bytes; lia|apply bus_bytes_bytes].
Qed.

Lemma set_words_eq signal words :
  length signal = length words -> set_words signal words = Some words.
Proof.
  intros Hl. unfold set_words, guard_ub. rewrite Hl, Nat.leb_refl.
  by rewrite overwrite_0, drop_ge, app_nil_r by lia.
Qed.

(** A line put on a bus is the line read off it. *)
Definition line_words (line : list Z) : list vec32 := map (word_out line) (seq 0 16).

Lemma setMyCacheLine_eq signal line :
  length signal = 16%nat -> length line = 64%nat ->
  setMyCacheLine signal line = Some (line_words line).
Proof.
  intros Hs Hl. unfold setMyCacheLine, guard_ub. rewrite Hl. cbn [Nat.leb].
  by apply set_words_eq.
Qed.

Lemma bus_bytes_words line : is_array 64 line -> bus_bytes (line_words line) = line.
Proof.
  intros [Hl Hb]. unfold line_words.
  enough (H : forall n, (4 * n <= 64)%nat ->
    bus_bytes (map (word_out line) (seq 0 n)) = take (4 * n) line).
  { rewrite (H 16%nat) by lia. apply take_ge. lia. }
  intros n. induction n as [|n IH]; intros Hn; [done|].
  rewrite seq_S, map_app. cbn [map Nat.add]. rewrite bus_bytes_snoc, IH by lia. cbn [word_out aval].
  replace (4 * S n)%nat with (4 * n + 4)%nat by lia. rewrite <- take_take_drop. f_equal.
  assert (H4 : length (take 4 (drop (4 * n) line)) = 4%nat)
    by (rewrite length_take, length_drop; lia).
  rewrite <- H4 at 1. apply le_bytes_of_le. auto with ocse.
Qed.

(** * What the input steps leave alone *)

(** What the host sent, in the event. *)
Definition host_side (e : AFU_EVENT) :=
  (rbp e,
   (tlx_afu_resp_valid e, get_tlx_resp e),
   (tlx_afu_resp_data_valid e, tlx_afu_resp_data e, tlx_afu_resp_data_bdi e),
   (tlx_afu_cmd_valid e, get_tlx_cmd e),
   (tlx_afu_cmd_data_valid e, tlx_afu_cmd_data_bus e, tlx_afu_cmd_data_bdi e),
   (tlx_cfg_valid e, get_cfg_cmd e, tlx_cfg_data_bus e, tlx_cfg_data_bdi e),
   [tlx_afu_resp_credit e; tlx_afu_resp_data_credit e; tlx_afu_cmd_credit e;
    tlx_afu_cmd_data_credit e; tlx_cfg_resp_ack e]).

(** The driver's own state, the registers of the pins apart. *)
Definition own_side (d : driver) :=
  (d_heap d, rdata d, cdata d,
   (clk_afu_resp_val d, clk_afu_cmd_val d, clk_afu_resp_dat_val d, clk_afu_cmd_dat_val d),
   [c_reset d; c_reset_d1 d; c_reset_d2 d; c_reset_d3 d; c_reset_d4 d]).

Definition input_ok (d : driver) : Prop := event_wf (event d) /\ regs_ok d.

(** An input step: the typing is kept and only its own part of the state
    changes. *)
Definition input_step (d d' : driver) : Prop :=
  input_ok d' /\ host_side (event d') = host_side (event d) /\ own_side d' = own_side d.

Lemma input_step_refl d : input_ok d -> input_step d d.
Proof. intros H. split; [exact H|]. by split. Qed.
Lemma input_step_trans d1 d2 d3 : input_step d1 d2 -> input_step d2 d3 -> input_step d1 d3.
Proof. intros (? & H1 & H2) (? & H3 & H4). split; [done|]. split; congruence. Qed.

Lemma regs_event d e : regs_ok d -> regs_ok (d <| event := e |>).
Proof. intros []. constructor; assumption. Qed.
Lemma regs_pending d p : regs_ok d -> regs_ok (d <| c_cfg_resp_ack_pending := p |>).
Proof. intros []. constructor; assumption. Qed.

(** The calls the driver makes. *)
Definition driver_call (c : api_call) : bool :=
  match c with
  | ASendInitialCredits _ _ _ | AReadInitialCredits | ASendResp _ | ASendRespData _ _ _
  | ASendRespAndData _ _ _ | ASendCfgResp _ _ _ | ASendCmd _ | ASendCmdData _ _ => true
  | _ => false
  end.

Lemma driver_call_host_side c e rc e' :
  driver_call c = true -> run_call c e = Some (rc, e') -> host_side e' = host_side e.
Proof. intros Hc H. destruct c; try discriminate Hc; open_call H; reflexivity. Qed.

Lemma call_step d c rc e :
  input_ok d -> driver_call c = true -> call_ok c -> run_call c (event d) = Some (rc, e) ->
  input_step d (d <| event := e |>).
Proof.
  intros [Hwf Hr] Hd Hok H. split_and!.
  - split; [exact (run_call_wf _ _ _ _ Hwf Hok H)|by apply regs_event].
  - exact (driver_call_host_side _ _ _ _ Hd H).
  - reflexivity.
Qed.

(** ** Credits *)

Lemma word_pin i v w m : pins_ok i -> In v (word_pins i) -> is_u w m -> is_u w (field_in v m).
Proof.
  intros [Hw _ _ _ _ _] Hin Hm. apply field_in_ok; [|done].
  rewrite List.Forall_forall in Hw. by apply Hw.
Qed.
Ltac pin_field Hp :=
  eapply (word_pin _ _ _ _ Hp); [cbn; repeat first [left; reflexivity|right]|by vm_compute].

(** Registers that no other step looks at. *)
Lemma flags_step d d1 d2 :
  input_step d d1 -> event d2 = event d1 -> own_side d2 = own_side d1 -> regs_ok d2 ->
  input_step d d2.
Proof.
  intros ([Hw Hr] & Hh & Ho) He Ho2 Hr2. split; [split; [by rewrite He|done]|].
  split; [by rewrite He|by rewrite Ho2].
Qed.

Lemma initial_credits_step i d :
  pins_ok i -> input_ok d -> input_step d (initial_credits i d).
Proof.
  intros Hp Hd. unfold initial_credits.
  destruct (truthy (c_reset d)); [by apply input_step_refl|].
  assert (H1 : input_step d (send_initial_credits i d)).
  { unfold send_initial_credits. case_match; [|by apply input_step_refl].
    eapply flags_step.
    - apply (call_step d (ASendInitialCredits
          (field_in (afu_tlx_cmd_initial_credit_top i) 0x7F)
          (field_in (cfg0_tlx_initial_credit_top i) 0x0F)
          (field_in (afu_tlx_resp_initial_credit_top i) 0x7F)) TLX_SUCCESS); [done..| |reflexivity].
      split_and!; pin_field Hp.
    - reflexivity.
    - reflexivity.
    - destruct Hd as [_ []]. constructor; assumption. }
  apply (input_step_trans _ _ _ H1). destruct H1 as [Hd1 _].
  generalize dependent (send_initial_credits i d). intros d1 Hd1.
  unfold read_initial_credits.
  destruct (tlx_afu_credits_initialized d1 =? 0); [|by apply input_step_refl].
  destruct (tlx_afu_read_initial_credits (event d1)) as [[rc out] e] eqn:He.
  assert (H2 : input_step d1 (d1 <| event := e |>)).
  { apply (call_step d1 AReadInitialCredits rc); try done. cbn. by rewrite He. }
  cbv zeta. destruct (rc =? 0); [|done].
  eapply flags_step; [exact H2|reflexivity..|].
  destruct Hd1 as [_ []]. constructor; assumption.
Qed.

Lemma return_credits_step i d :
  input_ok d -> input_step d (d <| event := return_credits i (event d) |>).
Proof.
  intros [Hwf Hr]. split_and!; [split; [|by apply regs_event]| |reflexivity].
  - cbn. unfold return_credits, return_cmd_credit, return_resp_credit, return_cfg_credit.
    repeat case_match; solve_wf.
  - cbn. unfold return_credits, return_cmd_credit, return_resp_credit, return_cfg_credit.
    repeat case_match; reflexivity.
Qed.

(** ** Reading the pins *)

(** The command on the pins as the driver's registers take it: two of the three
    words of the object are copied, and the bytes behind them stay zero. *)
Definition copied_cmd (i : afu_in) : afu_cmd :=
  AfuCmd (field_in (afu_tlx_cmd_opcode_top i) 0xFF) (field_in (afu_tlx_cmd_actag_top i) 0xFFF)
    (field_in (afu_tlx_cmd_stream_id_top i) 0xF)
    (bus_bytes (take 2 (afu_tlx_cmd_ea_or_obj_top i)) ++ [0; 0])
    (field_in (afu_tlx_cmd_afutag_top i) 0xFFFF) (field_in (afu_tlx_cmd_dl_top i) 0x3)
    (field_in (afu_tlx_cmd_pl_top i) 0x7) (le_val (bus_bytes (afu_tlx_cmd_be_top i)))
    (field_in (afu_tlx_cmd_flag_top i) 0xF) (logic_bit (afu_tlx_cmd_endian_top i))
    (field_in (afu_tlx_cmd_bdf_top i) 0xFFFF) (field_in (afu_tlx_cmd_pasid_top i) 0xFFFFF)
    (field_in (afu_tlx_cmd_pg_size_top i) 0x3F).

Lemma length_pins_ea i : pins_ok i -> length (bus_bytes (take 2 (afu_tlx_cmd_ea_or_obj_top i))) = 8%nat.
Proof. intros [_ [Hl _] _ _ _ _]. rewrite length_bus_bytes, length_take, Hl. done. Qed.

Lemma pins_ea_array i :
  pins_ok i -> is_array EA_OBJ_HANDLE (ac_ea_or_obj (copied_cmd i)) /\
  drop 8 (ac_ea_or_obj (copied_cmd i)) = [0; 0].
Proof.
  intros Hp. pose proof (length_pins_ea i Hp) as Hl. cbn [copied_cmd ac_ea_or_obj]. split; [split|].
  - by rewrite length_app, Hl.
  - apply Forall_app_2; [apply bus_bytes_bytes|]. by repeat constructor.
  - by rewrite drop_app_length' by done.
Qed.

Lemma copied_cmd_ok i : pins_ok i -> afu_cmd_ok (trim (copied_cmd i)).
Proof.
  intros Hp. destruct (pins_ea_array i Hp) as [[Hl Hb] _].
  split_and!; try pin_field Hp; cbn [trim ac_ea_or_obj ac_be ac_endian copied_cmd].
  - split; [|by auto with ocse]. rewrite length_take. change (length _) with
      (length (ac_ea_or_obj (copied_cmd i))). by rewrite Hl.
  - apply (bus_val_range 2). apply Hp.
  - apply logic_bit_byte.
Qed.

Lemma read_cmd_eq i d :
  pins_ok i -> input_ok d ->
  exists d', read_cmd i d = Some d' /\ input_step d d' /\ event d' = event d /\
    c_cfg_resp_ack_pending d' = c_cfg_resp_ack_pending d /\
    (truthy (logic_bit (afu_tlx_cmd_valid_top i)) = true -> c_afu_tlx_cmd d' = copied_cmd i).
Proof.
  intros Hp Hd. unfold read_cmd. case_match eqn:Hv; [|exists d; split_and!; [done|by apply input_step_refl|done..]].
  pose proof Hd as [_ [[Hel Heb] Heh _ _ _ _ _ _]].
  destruct (getMyByteArray_eq (afu_tlx_cmd_ea_or_obj_top i) 9 (ac_ea_or_obj (c_afu_tlx_cmd d)))
    as [err ->]; [destruct Hp as [_ [-> _] _ _ _ _]; cbn; lia|rewrite Hel; by apply Nat.leb_le|].
  destruct (getMy64Bit_eq (afu_tlx_cmd_be_top i)) as [err' ->]; [apply Hp|].
  cbn [mbind option_bind]. rewrite overwrite_0. change (9 / 4)%nat with 2%nat.
  rewrite (length_pins_ea i Hp), Heh. eexists. split; [reflexivity|].
  split_and!; [|reflexivity..|done].
  eapply flags_step; [by apply input_step_refl|reflexivity..|].
  destruct Hd as [_ []]. destruct (pins_ea_array i Hp). constructor; try assumption.
  by apply copied_cmd_ok.
Qed.

Lemma read_cdata_eq i d :
  pins_ok i -> input_ok d ->
  exists d', read_cdata i d = Some d' /\ input_step d d' /\ event d' = event d /\
    c_afu_tlx_cmd d' = c_afu_tlx_cmd d /\ c_cfg_resp_ack_pending d' = c_cfg_resp_ack_pending d.
Proof.
  intros Hp Hd. unfold read_cdata. case_match eqn:Hv; [|exists d; split_and!; [done|by apply input_step_refl|done..]].
  destruct (getMyCacheLine_eq (afu_tlx_cdata_bus_top i) (c_afu_tlx_cdata_bus d)) as [err ->];
    [apply Hp|apply Hd|]. cbn [mbind option_bind]. eexists. split; [reflexivity|].
  split_and!; [|reflexivity..].
  eapply flags_step; [by apply input_step_refl|reflexivity..|].
  destruct Hd as [_ []]. constructor; try assumption.
  split; [|apply logic_bit_byte]. split; [|apply bus_bytes_bytes].
  cbn. rewrite length_bus_bytes. by rewrite (proj1 (pi_cdata i Hp)).
Qed.

Lemma read_resp_eq i d :
  pins_ok i -> input_ok d ->
  input_step d (read_resp i d) /\ event (read_resp i d) = event d /\
  c_cfg_resp_ack_pending (read_resp i d) = c_cfg_resp_ack_pending d.
Proof.
  intros Hp Hd. unfold read_resp. case_match; [|split; [by apply input_step_refl|done]].
  split; [|done]. eapply flags_step; [by apply input_step_refl|reflexivity..|].
  destruct Hd as [_ []]. constructor; try assumption.
  split_and!; pin_field Hp.
Qed.

Definition pins_cfg_resp (i : afu_in) : cfg_resp :=
  CfgResp (field_in (cfg0_tlx_resp_opcode_top i) 0xFF) (field_in (cfg0_tlx_resp_capptag_top i) 0xFFFF)
    (field_in (cfg0_tlx_resp_code_top i) 0xF).

(** The registers of a configuration response: what was read from the pins. *)
Definition cfg_read (i : afu_in) (d : driver) : Prop :=
  c_cfg0_tlx_resp d = pins_cfg_resp i /\
  take 4 (c_cfg0_tlx_rdata_bus d) = bus_bytes (take 1 (cfg0_tlx_rdata_bus_top i)) /\
  c_cfg0_tlx_rdata_bdi d = logic_bit (cfg0_tlx_rdata_bdi_top i).

Lemma read_cfg_resp_eq i d :
  pins_ok i -> input_ok d ->
  exists d', read_cfg_resp i d = Some d' /\ input_step d d' /\ event d' = event d /\
    c_cfg_resp_ack_pending d' =
      (if truthy (logic_bit (cfg0_tlx_resp_valid_top i)) then c_cfg_resp_ack_pending d else 0) /\
    (truthy (logic_bit (cfg0_tlx_resp_valid_top i)) && (c_cfg_resp_ack_pending d =? 0) = true ->
     cfg_read i d').
Proof.
  intros Hp Hd. unfold read_cfg_resp. destruct (truthy (logic_bit _)) eqn:Hv; cbn [andb negb].
  - case_match eqn:Hz; [|exists d; split_and!; [done|by apply input_step_refl|done..]].
    destruct (getMyByteArray_eq (cfg0_tlx_rdata_bus_top i) 4 (c_cfg0_tlx_rdata_bus d)) as [err ->];
      [rewrite (proj1 (pi_cfg i Hp)); cbn; lia| |].
    { destruct Hd as [_ [_ _ _ _ _ _ _ [[-> _] _]]]. by apply Nat.leb_le. }
    cbn [mbind option_bind]. eexists. split; [reflexivity|].
    assert (Hl : length (bus_bytes (take 1 (cfg0_tlx_rdata_bus_top i))) = 4%nat).
    { rewrite length_bus_bytes, length_take. by rewrite (proj1 (pi_cfg i Hp)). }
    split_and!; [|reflexivity|reflexivity|intros _; split_and!; [done| |done]].
    2:{ cbn. rewrite overwrite_0. change (4 / 4)%nat with 1%nat. by apply take_app_length'. }
    eapply flags_step; [by apply input_step_refl|reflexivity..|].
    destruct Hd as [_ []]. constructor; try assumption.
    + split_and!; pin_field Hp.
    + split; [|apply logic_bit_byte]. apply overwrite_array; [apply rg_cfg_data0| |apply bus_bytes_bytes].
      rewrite length_bus_bytes, length_take. change (4 / 4)%nat with 1%nat. lia.
  - eexists. split; [reflexivity|]. split_and!; [|reflexivity..|done].
    eapply flags_step; [by apply input_step_refl|reflexivity..|].
    apply regs_pending, Hd.
Qed.

Lemma read_rdata_eq i d :
  pins_ok i -> input_ok d ->
  exists d', read_rdata i d = Some d' /\ input_step d d' /\ event d' = event d /\
    c_cfg_resp_ack_pending d' = c_cfg_resp_ack_pending d /\ (cfg_read i d -> cfg_read i d').
Proof.
  intros Hp Hd. unfold read_rdata. case_match eqn:Hv; [|exists d; split_and!; [done|by apply input_step_refl|done..]].
  destruct (getMyCacheLine_eq (afu_tlx_rdata_bus_top i) (c_afu_tlx_rdata_bus d)) as [err ->];
    [apply Hp|apply Hd|]. cbn [mbind option_bind]. eexists. split; [reflexivity|].
  split_and!; [|reflexivity..|done].
  eapply flags_step; [by apply input_step_refl|reflexivity..|].
  destruct Hd as [_ []]. constructor; try assumption.
  split; [|apply logic_bit_byte]. split; [|apply bus_bytes_bytes].
  cbn. rewrite length_bus_bytes. by rewrite (proj1 (pi_rdata i Hp)).
Qed.

(** ** Putting it in the event *)

Lemma send_cmd_trim e c :
  (9 <= length (ac_ea_or_obj c))%nat -> afu_tlx_send_cmd e c = afu_tlx_send_cmd e (trim c).
Proof.
  intros Hl. unfold afu_tlx_send_cmd. do 2 (case_match; [done|]).
  cbn [trim ac_ea_or_obj]. unfold memcpy, guard_ub. rewrite length_take.
  change (Z.to_nat 9) with 9%nat. rewrite take_take. change (9 `min` 9)%nat with 9%nat.
  replace (9 <=? Z.of_nat (length (ac_ea_or_obj c))) with true by lia.
  by rewrite Nat.min_l by lia.
Qed.

(** The copies of a call are within their buffers. *)
Lemma driver_call_defined c e :
  event_wf e -> call_ok c -> driver_call c = true ->
  (match c with
   | ASendRespData _ _ l | ASendRespAndData _ l _ | ASendCfgResp _ l _ | ASendCmdData _ l =>
       length l = 64%nat
   | _ => True
   end) -> exists rc e', run_call c e = Some (rc, e').
Proof.
  intros Hwf Hok Hd Hl.
  assert (Hm : forall dst src n k, is_array k dst -> 0 <= n -> n <= Z.of_nat k ->
    n <= Z.of_nat (length src) -> exists l, memcpy dst src n = Some l).
  { intros dst src n k [Hk _] ???. apply memcpy_defined; lia. }
  pose proof (field_get (p := afu_tlx_rdata_bus) e Hwf) as Hrb.
  pose proof (field_get (p := afu_tlx_cdata_bus) e Hwf) as Hcb.
  pose proof (field_get (p := cfg_tlx_rdata_bus) e Hwf) as Hgb.
  pose proof (field_get (p := afu_tlx_cmd_ea_or_obj) e Hwf) as Heb.
  destruct c; try discriminate Hd; cbn [run_call].
  - by do 2 eexists.
  - unfold no_out. by do 2 eexists.
  - unfold afu_tlx_send_resp. repeat case_match; by do 2 eexists.
  - unfold afu_tlx_send_resp_data. do 2 (case_match; [by do 2 eexists|]).
    destruct (Hm _ bus 64 64%nat Hrb) as [l ->]; [lia..|]. by do 2 eexists.
  - unfold afu_tlx_send_resp_and_data. do 2 (case_match; [by do 2 eexists|]).
    destruct (Hm _ bus 64 64%nat Hrb) as [l ->]; [lia..|]. by do 2 eexists.
  - unfold afu_cfg_send_resp_and_data. case_match; [by do 2 eexists|].
    destruct (negb _).
    + destruct (Hm _ fill 4 4%nat Hgb) as [l ->]; [by vm_compute..|]. by do 2 eexists.
    + destruct (Hm _ bus 4 4%nat Hgb) as [l ->]; [lia..|]. by do 2 eexists.
  - unfold afu_tlx_send_cmd. do 2 (case_match; [by do 2 eexists|]).
    destruct (Hm _ (ac_ea_or_obj c) 9 9%nat Heb) as [l ->]; [lia..| |by do 2 eexists].
    destruct Hok as (_ & _ & _ & [-> _] & _). lia.
  - unfold afu_tlx_send_cmd_data. case_match; [by do 2 eexists|].
    destruct (Hm _ bus 64 64%nat Hcb) as [l ->]; [lia..|]. by do 2 eexists.
Qed.

(** A step that makes a call of the driver. *)
Lemma send_step d c :
  input_ok d -> driver_call c = true -> call_ok c ->
  (match c with
   | ASendRespData _ _ l | ASendRespAndData _ l _ | ASendCfgResp _ l _ | ASendCmdData _ l =>
       length l = 64%nat
   | _ => True
   end) ->
  exists rc e, run_call c (event d) = Some (rc, e) /\ input_step d (d <| event := e |>).
Proof.
  intros Hd Hc Hok Hl.
  destruct (driver_call_defined c (event d) (proj1 Hd) Hok Hc Hl) as (rc & e & He).
  exists rc, e. split; [done|]. by eapply call_step.
Qed.

Lemma send_cmd_eq i d :
  input_ok d ->
  exists rc e, send_cmd i d = Some (d <| event := e |>) /\ input_step d (d <| event := e |>) /\
    if truthy (logic_bit (afu_tlx_cmd_valid_top i))
    then afu_tlx_send_cmd (event d) (trim (c_afu_tlx_cmd d)) = Some (rc, e)
    else e = event d.
Proof.
  intros Hd. unfold send_cmd. case_match.
  - destruct (send_step d (ASendCmd (trim (c_afu_tlx_cmd d)))) as (rc & e & He & Hs);
      [done|done|apply Hd|done|].
    exists rc, e. rewrite send_cmd_trim by (rewrite (array_length _ _ (rg_ea _ (proj2 Hd))); by apply Nat.leb_le).
    cbn [run_call] in He. rewrite He. by cbn [mbind option_bind].
  - exists 0, (event d). assert (Hev : d <| event := event d |> = d) by (by destruct d).
    rewrite Hev. split_and!; [done|by apply input_step_refl|done].
Qed.

Lemma send_cdata_eq i d :
  input_ok d ->
  exists e, send_cdata i d = Some (d <| event := e |>) /\ input_step d (d <| event := e |>) /\
    am_cmd (afu_msg_of e) = am_cmd (afu_msg_of (event d)).
Proof.
  intros Hd. unfold send_cdata. case_match.
  - destruct (send_step d (ASendCmdData (c_afu_tlx_cdata_bdi d) (c_afu_tlx_cdata_bus d)))
      as (rc & e & He & Hs); [done|done| |apply Hd|].
    { destruct Hd as [_ [_ _ _ [[_ ?] ?] _ _ _ _]]. by split. }
    exists e. pose proof He as He'. cbn [run_call] in He'. rewrite He'. cbn [mbind option_bind].
    split_and!; [done|done|]. clear He'. open_call He; reflexivity.
  - exists (event d). assert (Hev : d <| event := event d |> = d) by (by destruct d).
    rewrite Hev. split_and!; [done|by apply input_step_refl|done].
Qed.

(** The turn of a configuration response: it has not been sent yet and the AFU
    has nothing else to send. *)
Definition cfg_turn (i : afu_in) (pending : Z) : bool :=
  negb (truthy (logic_bit (afu_tlx_resp_valid_top i))) &&
  negb (truthy (logic_bit (afu_tlx_rdata_valid_top i))) &&
  truthy (logic_bit (cfg0_tlx_resp_valid_top i)) && (pending =? 0).

Lemma send_resp_eq i d :
  input_ok d ->
  exists d', send_resp i d = Some d' /\ input_step d d' /\
    am_cmd (afu_msg_of (event d')) = am_cmd (afu_msg_of (event d)) /\
    if cfg_turn i (c_cfg_resp_ack_pending d) then
      c_cfg_resp_ack_pending d' = 1 /\
      exists rc, afu_cfg_send_resp_and_data (event d) (c_cfg0_tlx_resp d) (c_cfg0_tlx_rdata_bus d)
                   (c_cfg0_tlx_rdata_bdi d) = Some (rc, event d')
    else
      c_cfg_resp_ack_pending d' = c_cfg_resp_ack_pending d /\
      am_cfg_resp (afu_msg_of (event d')) = am_cfg_resp (afu_msg_of (event d)).
Proof.
  intros Hd. pose proof Hd as [_ [_ _ _ _ Hr [[? ?] ?] Hg [[? ?] ?]]]. unfold send_resp, cfg_turn.
  destruct (truthy (logic_bit (afu_tlx_resp_valid_top i))), (truthy (logic_bit (afu_tlx_rdata_valid_top i)));
    cbn [andb negb].
  - destruct (send_step d (ASendRespAndData (c_afu_tlx_resp d) (c_afu_tlx_rdata_bus d)
      (c_afu_tlx_rdata_bdi d))) as (rc & e & He & Hs); [done|done|by split_and!|done|].
    pose proof He as He'. cbn [run_call] in He'. rewrite He'. cbn [mbind option_bind].
    eexists. split; [reflexivity|]. split; [done|]. clear He'. open_call He; by split_and!.
  - destruct (send_step d (ASendResp (c_afu_tlx_resp d))) as (rc & e & He & Hs); [done|done|done|done|].
    eexists. split; [reflexivity|]. pose proof He as He'. cbn [run_call] in He'.
    injection He' as He'. rewrite He'. cbn [snd]. split; [done|]. clear He'.
    open_call He; by split_and!.
  - destruct (send_step d (ASendRespData (c_afu_tlx_rdata_bdi d) (ar_dp (c_afu_tlx_resp d))
      (c_afu_tlx_rdata_bus d))) as (rc & e & He & Hs); [done|done| |done|].
    { split_and!; [done|apply Hr|done]. }
    pose proof He as He'. cbn [run_call] in He'. rewrite He'. cbn [mbind option_bind].
    eexists. split; [reflexivity|]. split; [done|]. clear He'. open_call He; by split_and!.
  - case_match eqn:Hc; [|exists d; split_and!; [done|by apply input_step_refl|done..]].
    assert (Hp1 : input_step d (d <| c_cfg_resp_ack_pending := 1 |>)).
    { eapply flags_step; [by apply input_step_refl|reflexivity..|]. apply regs_pending, Hd. }
    pose proof (proj1 Hp1) as Hd1.
    destruct (send_step (d <| c_cfg_resp_ack_pending := 1 |>)
      (ASendCfgResp (c_cfg0_tlx_resp d) (c_cfg0_tlx_rdata_bus d) (c_cfg0_tlx_rdata_bdi d)))
      as (rc & e & He & Hs); [done|done|by split_and!|done|].
    pose proof He as He'. cbn [run_call] in He'.
    eexists. split; [eapply bind_eq; [exact He'|reflexivity]|]. split; [exact (input_step_trans _ _ _ Hp1 Hs)|]. split.
    + clear He'. open_call He; reflexivity.
    + split; [reflexivity|]. by exists rc.
Qed.

(** ** All the input steps *)

(** The command the driver has for the host after reading the pins. *)
Definition cmd_to_send (i : afu_in) (d : driver) : option afu_cmd :=
  if truthy (logic_bit (afu_tlx_cmd_valid_top i)) &&
     negb (tlx_afu_cmd_credits_available (event (initial_credits i d)) =? 0) &&
     negb (truthy (afu_tlx_cmd_valid (event d)))
  then Some (trim (copied_cmd i)) else am_cmd (afu_msg_of (event d)).

Definition cfg_to_send (i : afu_in) (d : driver) : option (cfg_resp * data_beat) :=
  if cfg_turn i (c_cfg_resp_ack_pending d) && negb (cfg_tlx_resp_valid (event d) =? 1)
  then Some (pins_cfg_resp i,
             (if cr_opcode (pins_cfg_resp i) =? AFU_RSP_MEM_RD_RESP
              then bus_bytes (take 1 (cfg0_tlx_rdata_bus_top i)) else fill,
              logic_bit (cfg0_tlx_rdata_bdi_top i)))
  else am_cfg_resp (afu_msg_of (event d)).

Lemma mod_field w k v m :
  0 <= w <= k -> m = Z.ones w -> is_u 32 (aval v) -> field_in v m mod 2 ^ k = field_in v m.
Proof.
  intros Hw -> Hv. apply is_u_small, (is_u_mono w); [done|].
  unfold field_in. rewrite Z.land_ones by lia. apply is_u_mod. lia.
Qed.

Lemma logic_bit_mod s : logic_bit s mod 2 = logic_bit s.
Proof. by destruct (logic_bit_cases s) as [-> | ->]. Qed.

(** What a command looks like in the frame: its fields fit the wire. *)
Lemma copied_cmd_pending i e rc e' :
  pins_ok i -> event_wf e -> truthy (afu_tlx_cmd_valid e) = false ->
  (tlx_afu_cmd_credits_available e =? 0) = false ->
  afu_tlx_send_cmd e (trim (copied_cmd i)) = Some (rc, e') ->
  am_cmd (afu_msg_of e') = Some (trim (copied_cmd i)).
Proof.
  intros Hp Hwf Hv Hc. unfold afu_tlx_send_cmd. rewrite Hv, Hc.
  pose proof (proj1 (proj2 (proj2 (proj2 (copied_cmd_ok i Hp))))) as Hea.
  rewrite memcpy_full; [|by rewrite (array_length _ _ (field_get (p := afu_tlx_cmd_ea_or_obj) e Hwf))
    |by rewrite (array_length _ _ (field_get (p := afu_tlx_cmd_ea_or_obj) e Hwf)), (array_length _ _ Hea)|done].
  cbn [mbind option_bind]. intros [= <- <-].
  assert (Hw : forall v, In v (word_pins i) -> is_u 32 (aval v)).
  { intros v Hin. pose proof (pi_words i Hp) as Hf. rewrite List.Forall_forall in Hf. by apply Hf. }
  assert (H4 : forall v m, In v (word_pins i) -> m = Z.ones 4 -> field_in v m mod 16 = field_in v m)
    by (intros; apply (mod_field 4 4); [lia|done|auto]).
  assert (H2 : forall v m, In v (word_pins i) -> m = Z.ones 2 -> field_in v m mod 4 = field_in v m)
    by (intros; apply (mod_field 2 2); [lia|done|auto]).
  assert (H3 : forall v m, In v (word_pins i) -> m = Z.ones 3 -> field_in v m mod 8 = field_in v m)
    by (intros; apply (mod_field 3 3); [lia|done|auto]).
  cbn -[Z.modulo].
  rewrite !H4, !H2, !H3, !logic_bit_mod
    by first [done|cbn; repeat first [left; reflexivity|right]].
  reflexivity.
Qed.

(** What is waiting for the host. *)
Definition waiting (e : AFU_EVENT) :=
  (afu_tlx_cmd_valid e, am_cmd (afu_msg_of e), cfg_tlx_resp_valid e, am_cfg_resp (afu_msg_of e)).

Lemma waiting_eq e e' :
  waiting e = waiting e' ->
  afu_tlx_cmd_valid e = afu_tlx_cmd_valid e' /\ am_cmd (afu_msg_of e) = am_cmd (afu_msg_of e') /\
  cfg_tlx_resp_valid e = cfg_tlx_resp_valid e' /\
  am_cfg_resp (afu_msg_of e) = am_cfg_resp (afu_msg_of e').
Proof.
  intros H. split_and!; [exact (f_equal (fun x => x.1.1.1) H)|exact (f_equal (fun x => x.1.1.2) H)|
    exact (f_equal (fun x => x.1.2) H)|exact (f_equal snd H)].
Qed.

Lemma initial_credits_waiting i d :
  waiting (event (initial_credits i d)) = waiting (event d) /\
  c_cfg_resp_ack_pending (initial_credits i d) = c_cfg_resp_ack_pending d.
Proof.
  unfold initial_credits, read_initial_credits, send_initial_credits,
    afu_tlx_send_initial_credits, tlx_afu_read_initial_credits.
  repeat case_match; simplify_eq; by split.
Qed.

Lemma return_credits_waiting i e :
  waiting (return_credits i e) = waiting e /\
  tlx_afu_cmd_credits_available (return_credits i e) = tlx_afu_cmd_credits_available e.
Proof.
  unfold return_credits, return_cmd_credit, return_resp_credit, return_cfg_credit.
  repeat case_match; by split.
Qed.

Lemma send_cmd_waiting e c rc e' :
  afu_tlx_send_cmd e c = Some (rc, e') ->
  cfg_tlx_resp_valid e' = cfg_tlx_resp_valid e /\
  am_cfg_resp (afu_msg_of e') = am_cfg_resp (afu_msg_of e) /\
  ((tlx_afu_cmd_credits_available e =? 0) || truthy (afu_tlx_cmd_valid e) = true -> e' = e).
Proof.
  unfold afu_tlx_send_cmd. intros H. destruct (_ =? 0); [by injection H as <- <-|].
  destruct (truthy _); [by injection H as <- <-|].
  destruct (memcpy _ _ _); [|done]. cbn [mbind option_bind] in H. injection H as <- <-. by split_and!.
Qed.

Lemma send_cdata_waiting i d d' :
  send_cdata i d = Some d' -> waiting (event d') = waiting (event d) /\
  c_cfg_resp_ack_pending d' = c_cfg_resp_ack_pending d.
Proof.
  unfold send_cdata, afu_tlx_send_cmd_data. intros H. case_match; [|by simplify_eq].
  destruct (_ =? 0); [by injection H as <-|]. destruct (memcpy _ _ _); [|done].
  cbn [mbind option_bind] in H. injection H as <-. by split.
Qed.

Lemma memcpy_4 dst src :
  length dst = 4%nat -> (4 <= length src)%nat -> memcpy dst src 4 = Some (take 4 src).
Proof.
  intros Hd Hs. unfold memcpy, guard_ub. rewrite Hd.
  replace (4 <=? Z.of_nat (length src)) with true by lia. cbn [andb Z.leb Z.compare].
  change (Z.to_nat 4) with 4%nat. rewrite overwrite_0, drop_ge, app_nil_r; [done|].
  rewrite length_take. lia.
Qed.

(** The configuration response that was read, in the frame. *)
Lemma pins_cfg_pending i d rc e' :
  pins_ok i -> input_ok d -> cfg_read i d ->
  afu_cfg_send_resp_and_data (event d) (c_cfg0_tlx_resp d) (c_cfg0_tlx_rdata_bus d)
    (c_cfg0_tlx_rdata_bdi d) = Some (rc, e') ->
  am_cfg_resp (afu_msg_of e') =
  if cfg_tlx_resp_valid (event d) =? 1 then am_cfg_resp (afu_msg_of (event d))
  else Some (pins_cfg_resp i,
             (if cr_opcode (pins_cfg_resp i) =? AFU_RSP_MEM_RD_RESP
              then bus_bytes (take 1 (cfg0_tlx_rdata_bus_top i)) else fill,
              logic_bit (cfg0_tlx_rdata_bdi_top i))).
Proof.
  intros Hp [Hwf Hr] (Hc & Hb & Hi). unfold afu_cfg_send_resp_and_data. rewrite Hc, Hi.
  destruct (_ =? 1); [by intros [= <- <-]|].
  pose proof (array_length _ _ (field_get (p := cfg_tlx_rdata_bus) (event d) Hwf)) as Hl.
  pose proof (array_length _ _ (proj1 (rg_cfg_data d Hr))) as Hl2.
  rewrite (memcpy_4 _ fill) by done. rewrite (memcpy_4 _ (c_cfg0_tlx_rdata_bus d)) by (rewrite ?Hl2; lia || done).
  rewrite Hb. set (bus := if negb _ then Some (take 4 fill) else _).
  assert (Hbus : bus = Some (if cr_opcode (pins_cfg_resp i) =? AFU_RSP_MEM_RD_RESP
    then bus_bytes (take 1 (cfg0_tlx_rdata_bus_top i)) else fill)) by (unfold bus; by destruct (_ =? AFU_RSP_MEM_RD_RESP)).
  rewrite Hbus. cbn [mbind option_bind]. intros [= <- <-]. unfold afu_msg_of, when.
  cbn -[Z.modulo field_in bus_bytes Z.eqb take fill]. rewrite logic_bit_mod. do 2 f_equal. unfold pins_cfg_resp. cbn [cr_opcode cr_capptag cr_code]. f_equal.
  apply (mod_field 4 4); [lia|done|]. pose proof (pi_words i Hp) as Hf.
  rewrite List.Forall_forall in Hf. apply Hf. cbn. repeat first [left; reflexivity|right].
Qed.

(** The pins are read without undefined behaviour, into what is waiting for the
    host and nothing else. *)
Lemma bfm_inputs_eq i d :
  pins_ok i -> input_ok d ->
  exists d1, bfm_inputs i d = Some (read_reqs i d1) /\ input_step d d1 /\
    am_cmd (afu_msg_of (event d1)) = cmd_to_send i d /\
    am_cfg_resp (afu_msg_of (event d1)) = cfg_to_send i d /\
    c_cfg_resp_ack_pending d1 =
      (if truthy (logic_bit (cfg0_tlx_resp_valid_top i))
       then if cfg_turn i (c_cfg_resp_ack_pending d) then 1 else c_cfg_resp_ack_pending d else 0).
Proof.
  intros Hp Hd. unfold bfm_inputs.
  pose proof (initial_credits_step i d Hp Hd) as S0. destruct (initial_credits_waiting i d) as [W0 P0].
  pose proof (return_credits_step i _ (proj1 S0)) as S1.
  destruct (return_credits_waiting i (event (initial_credits i d))) as [W1 C1].
  set (da := initial_credits i d) in *. cbv zeta.
  set (db := da <| event := return_credits i (event da) |>) in *.
  assert (Pb : c_cfg_resp_ack_pending db = c_cfg_resp_ack_pending d) by exact P0.
  assert (Wb : waiting (event db) = waiting (event d)) by (rewrite <- W0, <- W1; reflexivity).
  assert (Cb : tlx_afu_cmd_credits_available (event db) = tlx_afu_cmd_credits_available (event da)) by exact C1.
  pose proof (input_step_trans _ _ _ S0 S1) as Sb. clear S0 S1 W1 P0 W0. clearbody db.
  destruct (read_cmd_eq i db Hp (proj1 Sb)) as (dc & -> & Sc & Ec & Pc & Vc). cbn [mbind option_bind].
  destruct (read_cdata_eq i dc Hp (proj1 Sc)) as (dd & -> & Sd & Ed & Vd & Pd). cbn [mbind option_bind].
  destruct (send_cmd_eq i dd (proj1 Sd)) as (rc & e2 & -> & S2 & V2). cbn [mbind option_bind].
  rewrite Vd, Ed, Ec in V2.
  set (d2 := dd <| event := e2 |>) in *.
  assert (P2 : c_cfg_resp_ack_pending d2 = c_cfg_resp_ack_pending d) by (rewrite <- Pb, <- Pc, <- Pd; reflexivity).
  destruct (send_cdata_eq i d2 (proj1 S2)) as (e3 & H3 & S3 & _). rewrite H3. cbn [mbind option_bind].
  destruct (send_cdata_waiting i d2 _ H3) as [W3 P3]. clear H3. set (d3 := d2 <| event := e3 |>) in *.
  destruct (read_resp_eq i d3 Hp (proj1 S3))  as (S4 & E4 & P4).
  set (d4 := read_resp i d3) in *.
  destruct (read_cfg_resp_eq i d4 Hp (proj1 S4)) as (d5 & -> & S5 & E5 & P5 & R5). cbn [mbind option_bind].
  destruct (read_rdata_eq i d5 Hp (proj1 S5)) as (d6 & -> & S6 & E6 & P6 & R6). cbn [mbind option_bind].
  destruct (send_resp_eq i d6 (proj1 S6)) as (d7 & -> & S7 & W7 & T7). cbn [mbind option_bind].
  rewrite P6, P5, P4, P3, P2 in T7. rewrite P4, P3, P2 in R5.
  exists d7. split; [reflexivity|]. split.
  { do 8 (eapply input_step_trans; [eassumption|]). eassumption. }
  assert (Wc3 : am_cmd (afu_msg_of (event d7)) = am_cmd (afu_msg_of e2)).
  { rewrite W7, E6, E5, E4. by destruct (waiting_eq _ _ W3) as (_ & -> & _). }
  assert (Wg : cfg_tlx_resp_valid (event d6) = cfg_tlx_resp_valid (event d) /\
               am_cfg_resp (afu_msg_of (event d6)) = am_cfg_resp (afu_msg_of (event d)) /\
               am_cmd (afu_msg_of e2) = cmd_to_send i d).
  { rewrite E6, E5, E4. destruct (waiting_eq _ _ W3) as (_ & _ & -> & ->).
    destruct (waiting_eq _ _ Wb) as (Wv & Wm & Wgv & Wgm).
    change (event d2) with e2. rewrite <- Wgv, <- Wgm. unfold cmd_to_send. fold da. rewrite <- Cb, <- Wv, <- Wm.
    destruct (truthy (logic_bit (afu_tlx_cmd_valid_top i))) eqn:Hv; [|by rewrite V2].
    destruct (send_cmd_waiting _ _ _ _ V2) as (-> & -> & Hrej). split_and!; [done..|]. cbn [andb].
    rewrite (Vc eq_refl) in V2.
    destruct (tlx_afu_cmd_credits_available (event db) =? 0) eqn:Hz; [by rewrite (Hrej eq_refl)|].
    destruct (truthy (afu_tlx_cmd_valid (event db))) eqn:Hav; [by rewrite (Hrej eq_refl)|].
    cbn [negb andb]. exact (copied_cmd_pending i _ _ _ Hp (proj1 (proj1 Sb)) Hav Hz V2). }
  destruct Wg as (Wgv & Wgm & Wcs). split; [by rewrite Wc3|]. unfold cfg_to_send, cfg_turn in *.
  destruct (truthy (logic_bit (cfg0_tlx_resp_valid_top i))) eqn:Hgv; cbn [andb] in *.
  - set (idle := negb _ && negb _) in *. rewrite andb_true_r in *.
    destruct idle, (c_cfg_resp_ack_pending d =? 0) eqn:Hz; cbn [andb] in *;
      try (destruct T7 as [-> ->]; by rewrite Wgm).
    destruct T7 as [-> [rc' Hsend]]. split; [|done].
    rewrite (pins_cfg_pending i d6 rc' _ Hp (proj1 S6) (R6 (R5 eq_refl)) Hsend), Wgv, Wgm.
    by destruct (cfg_tlx_resp_valid (event d) =? 1).
  - rewrite andb_false_r in *. cbn [andb] in *. destruct T7 as [-> ->]. by rewrite Wgm.
Qed.
