(* ===== verification/DriverOut.v ===== *)
(** The simulator's side of the link: the output half of the low phase.  What the
    host sent is driven onto the pins and taken off the event; the lines go
    through the FIFOs.  The result of every step is given in full, or that it
    has none. *)
From stdpp Require Import gmap.
From S2P Require Import Prelude Utils Event Sock TlxWire Link Cycle TlxHost TlxAfu TlxApi Fifo Driver DriverInv.

(** * The specification of a FIFO *)

(** The first line is served if one is owed; there must be one. *)
Definition serve (lines : list (list Z)) (owed : Z) : option (option (list Z) * list (list Z) * Z) :=
  if 0 <? owed then
    match lines with
    | [] => None
    | line :: lines => Some (Some line, lines, owed - 1)
    end
  else Some (None, lines, owed).

Definition arrived_r (e : AFU_EVENT) : list (list Z) :=
  if truthy (tlx_afu_resp_valid e) && truthy (tlx_afu_resp_data_valid e)
  then data_lines (tlx_afu_resp_dl e) (tlx_afu_resp_data e) else [].
Definition arrived_c (e : AFU_EVENT) : list (list Z) :=
  if truthy (tlx_afu_cmd_valid e) && truthy (tlx_afu_cmd_data_valid e)
  then data_lines (tlx_afu_cmd_dl e) (tlx_afu_cmd_data_bus e) else [].

(** * What is driven *)

Definition put_resp_pins (e : AFU_EVENT) (o : afu_out) : afu_out :=
  if truthy (tlx_afu_resp_valid e) then
    o <| tlx_afu_resp_opcode_top := setDpiSignal32 (tlx_afu_resp_opcode e) 8 |>
      <| tlx_afu_resp_afutag_top := setDpiSignal32 (tlx_afu_resp_afutag e) 16 |>
      <| tlx_afu_resp_code_top := setDpiSignal32 (tlx_afu_resp_code e) 4 |>
      <| tlx_afu_resp_pg_size_top := setDpiSignal32 (tlx_afu_resp_pg_size e) 6 |>
      <| tlx_afu_resp_dl_top := setDpiSignal32 (tlx_afu_resp_dl e) 2 |>
      <| tlx_afu_resp_dp_top := setDpiSignal32 (tlx_afu_resp_dp e) 2 |>
      <| tlx_afu_resp_addr_tag_top := setDpiSignal32 (tlx_afu_resp_addr_tag e) 18 |>
      <| tlx_afu_resp_valid_top := 1 |>
  else o <| tlx_afu_resp_valid_top := 0 |>.

Definition words64 (v : Z) : list vec32 := [Vec (Z.land v 0xffffffff) 0; Vec (u32 (Z.shiftr v 32)) 0].

Definition put_cfg_pins (e : AFU_EVENT) (o : afu_out) : afu_out :=
  if truthy (tlx_cfg_valid e) then
    o <| tlx_cfg0_opcode_top := setDpiSignal32 (tlx_cfg_opcode e) 8 |>
      <| tlx_cfg0_pa_top := words64 (tlx_cfg_pa e) |>
      <| tlx_cfg0_t_top := Z.land (tlx_cfg_t e) 0x1 |>
      <| tlx_cfg0_pl_top := setDpiSignal32 (tlx_cfg_pl e) 3 |>
      <| tlx_cfg0_capptag_top := setDpiSignal32 (tlx_cfg_capptag e) 16 |>
      <| tlx_cfg0_valid_top := 1 |>
      <| tlx_cfg0_data_bus_top := setDpiSignal32 (le_val (tlx_cfg_data_bus e)) 32 |>
      <| tlx_cfg0_data_bdi_top := Z.land (tlx_cfg_data_bdi e) 0x1 |>
  else o.

Definition put_cmd_pins (e : AFU_EVENT) (o : afu_out) : afu_out :=
  if truthy (tlx_afu_cmd_valid e) then
    o <| tlx_afu_cmd_opcode_top := setDpiSignal32 (tlx_afu_cmd_opcode e) 8 |>
      <| tlx_afu_cmd_capptag_top := setDpiSignal32 (tlx_afu_cmd_capptag e) 16 |>
      <| tlx_afu_cmd_dl_top := setDpiSignal32 (tlx_afu_cmd_dl e) 2 |>
      <| tlx_afu_cmd_pl_top := setDpiSignal32 (tlx_afu_cmd_pl e) 3 |>
      <| tlx_afu_cmd_be_top := words64 (tlx_afu_cmd_be e) |>
      <| tlx_afu_cmd_end_top := Z.land (tlx_afu_cmd_end e) 0x1 |>
      <| tlx_afu_cmd_pa_top := words64 (tlx_afu_cmd_pa e) |>
      <| tlx_afu_cmd_valid_top := 1 |>
  else o.

(** Neither valid: both drop; either: the other one keeps its value. *)
Definition drop_valids (e : AFU_EVENT) (o : afu_out) : afu_out :=
  if truthy (tlx_cfg_valid e) || truthy (tlx_afu_cmd_valid e) then o
  else o <| tlx_afu_cmd_valid_top := 0 |> <| tlx_cfg0_valid_top := 0 |>.

Definition put_rline (line : option (list Z)) (e : AFU_EVENT) (o : afu_out) : afu_out :=
  match line with
  | Some line =>
      o <| tlx_afu_resp_data_bus_top := line_words line |>
        <| tlx_afu_resp_data_valid_top := 1 |>
        <| tlx_afu_resp_data_bdi_top := Z.land (tlx_afu_resp_data_bdi e) 0x1 |>
  | None => o <| tlx_afu_resp_data_valid_top := 0 |>
  end.
Definition put_cline (line : option (list Z)) (e : AFU_EVENT) (o : afu_out) : afu_out :=
  match line with
  | Some line =>
      o <| tlx_afu_cmd_data_bus_top := line_words line |>
        <| tlx_afu_cmd_data_valid_top := 1 |>
        <| tlx_afu_cmd_data_bdi_top := Z.land (tlx_afu_cmd_data_bdi e) 0x1 |>
  | None => o <| tlx_afu_cmd_data_valid_top := 0 |>
  end.

(** * What is taken off the event *)

Definition resp_taken (e : AFU_EVENT) : AFU_EVENT :=
  if truthy (tlx_afu_resp_valid e) then
    let e' := e <| tlx_afu_resp_valid := 0 |> in
    if truthy (tlx_afu_resp_data_valid e) then e' <| tlx_afu_resp_data_valid := 0 |> else e'
  else e.
Definition cfg_taken (e : AFU_EVENT) : AFU_EVENT :=
  if truthy (tlx_cfg_valid e) then e <| tlx_cfg_valid := 0 |> else e.
Definition cmd_taken (e : AFU_EVENT) : AFU_EVENT :=
  if truthy (tlx_afu_cmd_valid e) then
    let e' := e <| tlx_afu_cmd_valid := 0 |> in
    if truthy (tlx_afu_cmd_data_valid e) then e' <| tlx_afu_cmd_data_valid := 0 |> else e'
  else e.

(** * The invariant *)

(** A valid signal is up for the one call its clock counts. *)
Definition pulse (clk valid : Z) : Prop := (clk = 0 /\ valid = 0) \/ (clk = 1 /\ valid = 1).

Record pulses (o : afu_out) (d : driver) : Prop := {
  pu_resp : pulse (clk_afu_resp_val d) (tlx_afu_resp_valid_top o);
  pu_rdata : pulse (clk_afu_resp_dat_val d) (tlx_afu_resp_data_valid_top o);
  pu_cdata : pulse (clk_afu_cmd_dat_val d) (tlx_afu_cmd_data_valid_top o);
  pu_cmd : (clk_afu_cmd_val d = 0 /\ tlx_afu_cmd_valid_top o = 0 /\ tlx_cfg0_valid_top o = 0) \/
           clk_afu_cmd_val d = 1;
}.

Record drv_ok (o : afu_out) (d : driver) (rq cq : list node) : Prop := {
  dk_input : input_ok d;
  dk_outs : outs_ok o;
  dk_pulses : pulses o d;
  dk_queues : queues (d_heap d) (rdata d) (cdata d) rq cq;
  dk_rlines : Forall (is_array 64) rq.*2;
  dk_clines : Forall (is_array 64) cq.*2;
}.

Lemma serve_lines (P : list Z -> Prop) lines owed line lines' owed' :
  serve lines owed = Some (line, lines', owed') -> Forall P lines -> Forall P lines'.
Proof.
  unfold serve. case_match; [|by intros [= <- <- <-]].
  destruct lines as [|l lines]; [done|]. intros [= <- <- <-] [_ Hf]%Forall_cons_1. done.
Qed.

Lemma clk_down_pulse clk v : pulse clk v -> clk_down clk v = (0, 0).
Proof. by intros [[-> ->]|[-> ->]]. Qed.

Lemma data_lines_ok dl data : is_array 256 data -> Forall (is_array 64) (data_lines dl data).
Proof.
  intros [Hl Hb]. unfold data_lines.
  assert (Hn : (line_cnt dl <= 4)%nat).
  { unfold line_cnt, decode_dl. case_match; [cbn; lia|].
    destruct (Z.eqb_spec dl 1) as [->|]; [cbn; lia|]. destruct (Z.eqb_spec dl 2) as [->|]; [cbn; lia|].
    cbn [orb]. case_match; cbn; lia. }
  apply List.Forall_map, List.Forall_forall. intros k [_ Hk]%in_seq. unfold line_of. split.
  - rewrite length_take, length_drop. lia.
  - auto with ocse.
Qed.

Lemma slice_whole data n : Z.of_nat (length data) = n -> slice data 0 n = Some data.
Proof.
  intros <-. rewrite slice_some by lia. change (Z.to_nat 0) with 0%nat.
  by rewrite drop_0, Nat2Z.id, take_ge by done.
Qed.

(** The state of the driver, by its parts. *)
Definition clks (d : driver) : list Z :=
  [clk_afu_resp_val d; clk_afu_cmd_val d; clk_afu_resp_dat_val d; clk_afu_cmd_dat_val d].
Definition regs (d : driver) :=
  (c_afu_tlx_cmd d, (c_afu_tlx_cdata_bus d, c_afu_tlx_cdata_bdi d), c_afu_tlx_resp d,
   (c_afu_tlx_rdata_bus d, c_afu_tlx_rdata_bdi d), c_cfg0_tlx_resp d,
   (c_cfg0_tlx_rdata_bus d, c_cfg0_tlx_rdata_bdi d), c_cfg_resp_ack_pending d,
   [c_reset d; c_reset_d1 d; c_reset_d2 d; c_reset_d3 d; c_reset_d4 d]).

Lemma regs_same d d' : regs_ok d -> regs d' = regs d -> regs_ok d'.
Proof. intros [] [=]. constructor; congruence. Qed.

(** [d'] is [d] but for these parts. *)
Record becomes (d d' : driver) (e : AFU_EVENT) (h : heap) (r c : fifo) (ks : list Z) : Prop := {
  bc_event : event d' = e;
  bc_heap : d_heap d' = h;
  bc_rdata : rdata d' = r;
  bc_cdata : cdata d' = c;
  bc_clks : clks d' = ks;
  bc_regs : regs d' = regs d;
}.

Definition up (b : bool) : Z := if b then 1 else 0.

(** Assigning a signal the value it has. *)
Lemma same_resp_valid o v : tlx_afu_resp_valid_top o = v -> o <| tlx_afu_resp_valid_top := v |> = o.
Proof. intros <-. by destruct o. Qed.
Lemma same_cmd_valid o v : tlx_afu_cmd_valid_top o = v -> o <| tlx_afu_cmd_valid_top := v |> = o.
Proof. intros <-. by destruct o. Qed.
Lemma same_cfg_valid o v : tlx_cfg0_valid_top o = v -> o <| tlx_cfg0_valid_top := v |> = o.
Proof. intros <-. by destruct o. Qed.

Section steps.
Context `{Allocator}.

(** ** Responses *)

Lemma drive_resp_data_eq d rq cq :
  queues (d_heap d) (rdata d) (cdata d) rq cq ->
  exists d' h r (new : list node),
    drive_resp_data d = Some d' /\
    becomes d d' (if truthy (tlx_afu_resp_data_valid (event d))
                  then event d <| tlx_afu_resp_data_valid := 0 |> else event d)
      h r (cdata d) (clks d) /\
    new.*2 = (if truthy (tlx_afu_resp_data_valid (event d))
              then data_lines (tlx_afu_resp_dl (event d)) (tlx_afu_resp_data (event d)) else []) /\
    queues h r (cdata d) (rq ++ new) cq /\ q_rd_cnt r = q_rd_cnt (rdata d).
Proof.
  intros Hq. unfold drive_resp_data. destruct (truthy _).
  - destruct (queues_fill (d_heap d) (rdata d) (cdata d) rq cq
      (data_lines (tlx_afu_resp_dl (event d)) (tlx_afu_resp_data (event d))) Hq)
      as (h & r & new & He & Hnew & Hq' & Hc).
    eexists _, h, r, new. rewrite He. split; [reflexivity|]. split_and!; [by constructor|done..].
  - eexists d, (d_heap d), (rdata d), []. rewrite app_nil_r. split_and!; [done|by constructor|done..].
Qed.

Lemma drive_resp_eq o d rq cq kr kc krd kcd :
  clks d = [kr; kc; krd; kcd] -> pulse kr (tlx_afu_resp_valid_top o) ->
  queues (d_heap d) (rdata d) (cdata d) rq cq ->
  exists d' h r (new : list node),
    drive_resp o d = Some (put_resp_pins (event d) o, d') /\
    becomes d d' (resp_taken (event d)) h r (cdata d)
      [up (truthy (tlx_afu_resp_valid (event d))); kc; krd; kcd] /\
    new.*2 = arrived_r (event d) /\
    queues h r (cdata d) (rq ++ new) cq /\ q_rd_cnt r = q_rd_cnt (rdata d).
Proof.
  intros [= <- <- <- <-] Hpu Hq. unfold drive_resp, put_resp_pins, resp_taken, arrived_r.
  destruct (truthy (tlx_afu_resp_valid (event d))) eqn:Hv; cbn [andb].
  - set (d1 := d <| clk_afu_resp_val := CLOCK_EDGE_DELAY |>
                 <| event := event d <| tlx_afu_resp_valid := 0 |> |>).
    destruct (drive_resp_data_eq d1 rq cq Hq) as (d2 & h & r & new & -> & [He Hh Hr Hc Hk Hg] & Hnew & Hq' & Hcn).
    eexists _, h, r, new. cbn [mbind option_bind].
    assert (Hk1 : clk_afu_resp_val d2 = 2) by (injection Hk as -> _ _ _; done).
    rewrite Hk1. change (clk_down 2 ?v) with (1, v). cbv beta iota.
    rewrite same_resp_valid by reflexivity. split; [reflexivity|]. injection Hk as _ Hk2 Hk3 Hk4.
    split_and!; [|done..]. constructor; try done. cbn. unfold clks. cbn. by rewrite Hk2, Hk3, Hk4.
  - eexists _, (d_heap d), (rdata d), []. rewrite app_nil_r. cbn [mbind option_bind].
    rewrite (clk_down_pulse _ _ Hpu). split; [reflexivity|]. split_and!; [by constructor|done..].
Qed.

(** ** Commands and configuration commands *)

Lemma set_words64 signal v : length signal = 2%nat -> setDpiSignal64 signal v = Some (words64 v).
Proof. intros Hl. by apply set_words_eq. Qed.

Lemma drive_cfg_eq o d kr kc krd kcd :
  clks d = [kr; kc; krd; kcd] -> event_wf (event d) -> outs_ok o ->
  exists d', drive_cfg o d = Some (put_cfg_pins (event d) o, d') /\
    becomes d d' (cfg_taken (event d)) (d_heap d) (rdata d) (cdata d)
      [kr; if truthy (tlx_cfg_valid (event d)) then CLOCK_EDGE_DELAY else kc; krd; kcd].
Proof.
  intros [= <- <- <- <-] Hwf [Hpa _ _ _ _]. unfold drive_cfg, put_cfg_pins, cfg_taken.
  rewrite (set_words64 _ (tlx_cfg_pa (event d)) Hpa).
  rewrite (slice_whole (tlx_cfg_data_bus (event d)) 4)
    by (by rewrite (array_length _ _ (field_get (p := tlx_cfg_data_bus) (event d) Hwf))).
  case_match; [|exists d; split; [done|by constructor]].
  eexists. split; [reflexivity|]. by constructor.
Qed.

Lemma drive_cmd_data_eq d rq cq :
  queues (d_heap d) (rdata d) (cdata d) rq cq ->
  exists d' h c (new : list node),
    drive_cmd_data d = Some d' /\
    becomes d d' (if truthy (tlx_afu_cmd_data_valid (event d))
                  then event d <| tlx_afu_cmd_data_valid := 0 |> else event d)
      h (rdata d) c (clks d) /\
    new.*2 = (if truthy (tlx_afu_cmd_data_valid (event d))
              then data_lines (tlx_afu_cmd_dl (event d)) (tlx_afu_cmd_data_bus (event d)) else []) /\
    queues h (rdata d) c rq (cq ++ new) /\ q_rd_cnt c = q_rd_cnt (cdata d).
Proof.
  intros Hq. unfold drive_cmd_data. destruct (truthy _).
  - destruct (queues_fill (d_heap d) (cdata d) (rdata d) cq rq
      (data_lines (tlx_afu_cmd_dl (event d)) (tlx_afu_cmd_data_bus (event d))) (queues_swap _ _ _ _ _ Hq))
      as (h & c & new & He & Hnew & Hq' & Hc).
    eexists _, h, c, new. rewrite He. split; [reflexivity|].
    split_and!; [by constructor|done|by apply queues_swap|done].
  - eexists d, (d_heap d), (cdata d), []. rewrite app_nil_r. split_and!; [done|by constructor|done..].
Qed.

(** [kc] is 2 when a configuration command has just been driven. *)
Lemma drive_cmd_eq o d rq cq kr kc krd kcd :
  clks d = [kr; kc; krd; kcd] -> outs_ok o ->
  (kc = 0 /\ tlx_afu_cmd_valid_top o = 0 /\ tlx_cfg0_valid_top o = 0) \/ kc = 1 \/ kc = CLOCK_EDGE_DELAY ->
  queues (d_heap d) (rdata d) (cdata d) rq cq ->
  exists d' h c (new : list node),
    drive_cmd o d = Some
      (let o' := put_cmd_pins (event d) o in
       if (kc =? CLOCK_EDGE_DELAY) || truthy (tlx_afu_cmd_valid (event d)) then o'
       else o' <| tlx_afu_cmd_valid_top := 0 |> <| tlx_cfg0_valid_top := 0 |>, d') /\
    becomes d d' (cmd_taken (event d)) h (rdata d) c
      [kr; up ((kc =? CLOCK_EDGE_DELAY) || truthy (tlx_afu_cmd_valid (event d))); krd; kcd] /\
    new.*2 = arrived_c (event d) /\
    queues h (rdata d) c rq (cq ++ new) /\ q_rd_cnt c = q_rd_cnt (cdata d).
Proof.
  intros [= <- <- <- <-] [_ Hbe Hpa _ _] Hpu Hq. unfold drive_cmd, put_cmd_pins, cmd_taken, arrived_c.
  rewrite (set_words64 _ (tlx_afu_cmd_be (event d)) Hbe), (set_words64 _ (tlx_afu_cmd_pa (event d)) Hpa).
  destruct (truthy (tlx_afu_cmd_valid (event d))) eqn:Hv; cbn [andb].
  - set (d1 := d <| clk_afu_cmd_val := CLOCK_EDGE_DELAY |>
                 <| event := event d <| tlx_afu_cmd_valid := 0 |> |>).
    destruct (drive_cmd_data_eq d1 rq cq Hq) as (d2 & h & c & new & Hdd & [He Hh Hr Hc Hk Hg] & Hnew & Hq' & Hcn).
    eexists _, h, c, new. rewrite orb_true_r. cbn [mbind option_bind]. rewrite Hdd. cbn [mbind option_bind].
    assert (Hk1 : clk_afu_cmd_val d2 = 2) by (injection Hk as _ -> _ _; done).
    rewrite Hk1. change (clk_down 2 ?v) with (1, v). cbv beta iota.
    match goal with |- context [tlx_cfg0_valid_top ?x] => set (o1 := x) end.
    rewrite (same_cmd_valid o1 _ eq_refl), (same_cfg_valid o1 _ eq_refl).
    split; [reflexivity|]. injection Hk as Hk2 _ Hk3 Hk4.
    split_and!; [|done..]. constructor; try done. cbn. unfold clks. cbn. by rewrite Hk2, Hk3, Hk4.
  - rewrite orb_false_r. cbn [mbind option_bind].
    destruct Hpu as [(-> & Hcv & Hgv)|[-> | ->]];
      eexists _, (d_heap d), (cdata d), []; rewrite app_nil_r.
    + change (clk_down 0 ?v) with (0, v). cbv beta iota. rewrite Hcv, Hgv.
      split; [reflexivity|]. split_and!; [by constructor|done..].
    + change (clk_down 1 ?v) with (0, 0). split; [reflexivity|]. split_and!; [by constructor|done..].
    + change (clk_down CLOCK_EDGE_DELAY ?v) with (1, v). cbv beta iota.
      rewrite (same_cmd_valid o _ eq_refl), (same_cfg_valid o _ eq_refl).
      split; [reflexivity|]. split_and!; [by constructor|done..].
Qed.

(** ** Lines *)

Definition is_line (line : option (list Z)) : bool := if line is Some _ then true else false.

Lemma drive_rdata_eq o d rq cq kr kc krd kcd :
  clks d = [kr; kc; krd; kcd] -> outs_ok o -> pulse krd (tlx_afu_resp_data_valid_top o) ->
  queues (d_heap d) (rdata d) (cdata d) rq cq -> Forall (is_array 64) rq.*2 ->
  match serve rq.*2 (q_rd_cnt (rdata d)) with
  | Some (line, lines, owed) =>
      exists d' h r rq', drive_rdata o d = Some (put_rline line (event d) o, d') /\
        becomes d d' (event d) h r (cdata d) [kr; kc; up (is_line line); kcd] /\
        queues h r (cdata d) rq' cq /\ rq'.*2 = lines /\ q_rd_cnt r = owed
  | None => drive_rdata o d = None
  end.
Proof.
  intros [= <- <- <- <-] Ho Hpu Hq Hl. unfold serve, drive_rdata.
  destruct (Z.ltb_spec 0 (q_rd_cnt (rdata d))) as [Hn|Hn].
  - destruct rq as [|[a line] rq]; cbn [fmap list_fmap snd].
    + rewrite (fifo_take_undefined _ _ Hn); [done|apply Hq|by eapply queues_null].
    + destruct (queues_take _ _ _ _ _ _ _ Hn Hq) as (h & r & -> & Hq' & Hc).
      apply Forall_cons_1 in Hl as [[Hl64 _] _]. cbn [snd] in Hl64.
      cbn [mbind option_bind]. rewrite (setMyCacheLine_eq _ line (ou_rbus o Ho) Hl64). cbn [mbind option_bind].
      eexists _, h, r, rq. split; [reflexivity|]. split_and!; [by constructor|done..].
  - rewrite (fifo_take_idle _ _ Hn). cbn [mbind option_bind].
    change (clk_afu_resp_dat_val (set_fld rdata _ (set_fld d_heap _ d))) with (clk_afu_resp_dat_val d).
    rewrite (clk_down_pulse _ _ Hpu).
    eexists _, (d_heap d), (rdata d), rq. split; [reflexivity|]. split_and!; [by constructor|done..].
Qed.

Lemma drive_cdata_eq o d rq cq kr kc krd kcd :
  clks d = [kr; kc; krd; kcd] -> outs_ok o -> pulse kcd (tlx_afu_cmd_data_valid_top o) ->
  queues (d_heap d) (rdata d) (cdata d) rq cq -> Forall (is_array 64) cq.*2 ->
  match serve cq.*2 (q_rd_cnt (cdata d)) with
  | Some (line, lines, owed) =>
      exists d' h c cq', drive_cdata o d = Some (put_cline line (event d) o, d') /\
        becomes d d' (event d) h (rdata d) c [kr; kc; krd; up (is_line line)] /\
        queues h (rdata d) c rq cq' /\ cq'.*2 = lines /\ q_rd_cnt c = owed
  | None => drive_cdata o d = None
  end.
Proof.
  intros [= <- <- <- <-] Ho Hpu Hq%queues_swap Hl. unfold serve, drive_cdata.
  destruct (Z.ltb_spec 0 (q_rd_cnt (cdata d))) as [Hn|Hn].
  - destruct cq as [|[a line] cq]; cbn [fmap list_fmap snd].
    + rewrite (fifo_take_undefined _ _ Hn); [done|apply Hq|by eapply queues_null].
    + destruct (queues_take _ _ _ _ _ _ _ Hn Hq) as (h & c & -> & Hq'%queues_swap & Hc).
      apply Forall_cons_1 in Hl as [[Hl64 _] _]. cbn [snd] in Hl64.
      cbn [mbind option_bind]. rewrite (setMyCacheLine_eq _ line (ou_cbus o Ho) Hl64). cbn [mbind option_bind].
      eexists _, h, c, cq. split; [reflexivity|]. split_and!; [by constructor|done..].
  - apply queues_swap in Hq. rewrite (fifo_take_idle _ _ Hn). cbn [mbind option_bind].
    change (clk_afu_cmd_dat_val (set_fld cdata _ (set_fld d_heap _ d))) with (clk_afu_cmd_dat_val d).
    rewrite (clk_down_pulse _ _ Hpu).
    eexists _, (d_heap d), (cdata d), cq. split; [reflexivity|]. split_and!; [by constructor|done..].
Qed.

(** ** The whole half *)

Definition credits_taken (e : AFU_EVENT) : AFU_EVENT :=
  e <| tlx_cfg_resp_ack := 0 |> <| tlx_afu_resp_credit := 0 |> <| tlx_afu_resp_data_credit := 0 |>
    <| tlx_afu_cmd_credit := 0 |> <| tlx_afu_cmd_data_credit := 0 |>.
Definition taken (e : AFU_EVENT) : AFU_EVENT := credits_taken (cmd_taken (cfg_taken (resp_taken e))).

Definition out_pins (e : AFU_EVENT) (rl cl : option (list Z)) (o : afu_out) : afu_out :=
  credit_pins e (put_cline cl e (put_rline rl e
    (drop_valids e (put_cmd_pins e (put_cfg_pins e (put_resp_pins e o)))))).

(** A step takes its own part off the event only. *)
Lemma resp_taken_keeps e :
  tlx_cfg_valid (resp_taken e) = tlx_cfg_valid e /\ (forall o, put_cfg_pins (resp_taken e) o = put_cfg_pins e o).
Proof. unfold resp_taken. repeat case_match; by split. Qed.
Lemma cfg_taken_keeps e :
  let e' := cfg_taken (resp_taken e) in
  tlx_afu_cmd_valid e' = tlx_afu_cmd_valid e /\ arrived_c e' = arrived_c e /\
  (forall o, put_cmd_pins e' o = put_cmd_pins e o).
Proof. unfold cfg_taken, resp_taken. repeat case_match; by split_and!. Qed.
Lemma cmd_taken_keeps e :
  let e' := cmd_taken (cfg_taken (resp_taken e)) in
  (forall l o, put_rline l e' o = put_rline l e o) /\ (forall l o, put_cline l e' o = put_cline l e o) /\
  (forall o, credit_pins e' o = credit_pins e o).
Proof. unfold cmd_taken, cfg_taken, resp_taken. repeat case_match; by split_and!. Qed.

Lemma taken_wf e : event_wf e -> event_wf (taken e).
Proof.
  intros Hwf. unfold taken, credits_taken, cmd_taken, cfg_taken, resp_taken.
  repeat case_match; solve_wf.
Qed.

Lemma taken_to_host e : afu_msg_of (taken e) = afu_msg_of e /\ rbp (taken e) = rbp e.
Proof.
  unfold taken, credits_taken, cmd_taken, cfg_taken, resp_taken. repeat case_match; by split.
Qed.

Lemma out_pins_ok e rl cl o : outs_ok o -> outs_ok (out_pins e rl cl o).
Proof.
  intros [H1 H2 H3 H4 H5]. unfold out_pins, credit_pins, put_cline, put_rline, drop_valids,
    put_cmd_pins, put_cfg_pins, put_resp_pins.
  repeat case_match; constructor; (assumption || reflexivity).
Qed.

Lemma arrived_r_ok e : event_wf e -> Forall (is_array 64) (arrived_r e).
Proof.
  intros Hwf. unfold arrived_r. case_match; [|by apply Forall_nil_2].
  apply data_lines_ok. by eapply field_get.
Qed.
Lemma arrived_c_ok e : event_wf e -> Forall (is_array 64) (arrived_c e).
Proof.
  intros Hwf. unfold arrived_c. case_match; [|by apply Forall_nil_2].
  apply data_lines_ok. by eapply field_get.
Qed.

Ltac by_cases := unfold put_cline, put_rline, drop_valids, put_cmd_pins, put_cfg_pins, put_resp_pins;
  repeat case_match; try constructor; (assumption || reflexivity).

(** The signals a step leaves as they are. *)
Lemma put_resp_pins_keeps e o :
  outs_ok o -> outs_ok (put_resp_pins e o) /\
  tlx_afu_cmd_valid_top (put_resp_pins e o) = tlx_afu_cmd_valid_top o /\
  tlx_cfg0_valid_top (put_resp_pins e o) = tlx_cfg0_valid_top o.
Proof. intros []. split_and!; by_cases. Qed.
Lemma put_cfg_pins_keeps e o :
  outs_ok o -> outs_ok (put_cfg_pins e o) /\
  tlx_afu_cmd_valid_top (put_cfg_pins e o) = tlx_afu_cmd_valid_top o.
Proof. intros []. split_and!; by_cases. Qed.

Definition cmd_pins (e : AFU_EVENT) (o : afu_out) : afu_out :=
  drop_valids e (put_cmd_pins e (put_cfg_pins e (put_resp_pins e o))).
Lemma cmd_pins_keeps e o :
  outs_ok o -> outs_ok (cmd_pins e o) /\
  tlx_afu_resp_data_valid_top (cmd_pins e o) = tlx_afu_resp_data_valid_top o /\
  tlx_afu_cmd_data_valid_top (cmd_pins e o) = tlx_afu_cmd_data_valid_top o /\
  tlx_afu_resp_valid_top (cmd_pins e o) = up (truthy (tlx_afu_resp_valid e)).
Proof. intros []. unfold cmd_pins. split_and!; by_cases. Qed.
Lemma put_rline_keeps l e o :
  outs_ok o -> outs_ok (put_rline l e o) /\
  tlx_afu_cmd_data_valid_top (put_rline l e o) = tlx_afu_cmd_data_valid_top o.
Proof. intros []. split_and!; by_cases. Qed.

(** The valid signals after a call. *)
Lemma out_pins_valids e rl cl o :
  tlx_afu_resp_valid_top (out_pins e rl cl o) = up (truthy (tlx_afu_resp_valid e)) /\
  tlx_afu_resp_data_valid_top (out_pins e rl cl o) = up (is_line rl) /\
  tlx_afu_cmd_data_valid_top (out_pins e rl cl o) = up (is_line cl) /\
  (truthy (tlx_cfg_valid e) || truthy (tlx_afu_cmd_valid e) = false ->
   tlx_afu_cmd_valid_top (out_pins e rl cl o) = 0 /\ tlx_cfg0_valid_top (out_pins e rl cl o) = 0).
Proof.
  unfold out_pins, credit_pins, put_cline, put_rline, drop_valids, put_cmd_pins, put_cfg_pins, put_resp_pins.
  repeat case_match; split_and!; first [reflexivity|intros ?; by split|discriminate].
Qed.

(** Responses and commands. *)
Lemma drive_msgs_eq o d rq cq :
  event_wf (event d) -> outs_ok o -> pulses o d -> queues (d_heap d) (rdata d) (cdata d) rq cq ->
  exists d' (newr newc : list node),
    ('(o, d) ← drive_resp o d; '(o, d) ← drive_cfg o d; drive_cmd o d) =
      Some (cmd_pins (event d) o, d') /\
    event d' = cmd_taken (cfg_taken (resp_taken (event d))) /\
    clks d' = [up (truthy (tlx_afu_resp_valid (event d)));
               up (truthy (tlx_cfg_valid (event d)) || truthy (tlx_afu_cmd_valid (event d)));
               clk_afu_resp_dat_val d; clk_afu_cmd_dat_val d] /\ regs d' = regs d /\
    newr.*2 = arrived_r (event d) /\ newc.*2 = arrived_c (event d) /\
    queues (d_heap d') (rdata d') (cdata d') (rq ++ newr) (cq ++ newc) /\
    q_rd_cnt (rdata d') = q_rd_cnt (rdata d) /\ q_rd_cnt (cdata d') = q_rd_cnt (cdata d).
Proof.
  intros Hwf Ho [Pr _ _ Pc] Hq.
  destruct (put_resp_pins_keeps (event d) o Ho) as (Ho1 & Hv1 & Hg1).
  destruct (resp_taken_keeps (event d)) as (Tg & Tp).
  destruct (cfg_taken_keeps (event d)) as (Tv & Ta & Tcp).
  destruct (put_cfg_pins_keeps (event d) _ Ho1) as (Ho2 & Hv2).
  destruct (drive_resp_eq o d rq cq _ _ _ _ eq_refl Pr Hq)
    as (d1 & h1 & r1 & newr & -> & [He1 <- <- Hc1 Hk1 Hg1'] & Hnr & Hq1 & Hn1). cbn [mbind option_bind].
  rewrite <- Hc1 in Hq1.
  assert (Hw1 : event_wf (event d1)).
  { rewrite He1. unfold resp_taken. repeat case_match; solve_wf. }
  destruct (drive_cfg_eq (put_resp_pins (event d) o) d1 _ _ _ _ Hk1 Hw1 Ho1)
    as (d2 & -> & [He2 Hh2 Hr2 Hc2 Hk2 Hg2]). cbn [mbind option_bind].
  rewrite <- Hh2, <- Hr2, <- Hc2 in Hq1. rewrite He1, Tp in *.
  rewrite Tg in Hk2.
  destruct (drive_cmd_eq (put_cfg_pins (event d) (put_resp_pins (event d) o)) d2
    (rq ++ newr) cq _ _ _ _ Hk2 Ho2) as (d3 & h3 & c3 & newc & -> & [He3 <- Hr3 <- Hk3 Hg3] & Hnc & Hq3 & Hn3);
    [|exact Hq1|].
  { rewrite Hv2, Hv1. destruct Pc as [(-> & -> & Hz)| ->].
    - case_match eqn:Hcf; [by right; right|]. left. split_and!; [done..|].
      unfold put_cfg_pins. by rewrite Hcf, Hg1.
    - right. case_match; [by right|by left]. }
  cbn [mbind option_bind]. rewrite <- Hr3 in Hq3. rewrite He2, Tv, Tcp, Ta in *.
  assert (Hk : ((if truthy (tlx_cfg_valid (event d)) then CLOCK_EDGE_DELAY else clk_afu_cmd_val d) =?
    CLOCK_EDGE_DELAY) = truthy (tlx_cfg_valid (event d))).
  { case_match; [done|]. by destruct Pc as [(-> & _)| ->]. }
  rewrite Hk in *. exists d3, newr, newc. split_and!; try congruence.
  unfold cmd_pins, drop_valids. by case_match.
Qed.

Lemma bfm_outputs_eq o d rq cq :
  drv_ok o d rq cq ->
  match serve (rq.*2 ++ arrived_r (event d)) (q_rd_cnt (rdata d)),
        serve (cq.*2 ++ arrived_c (event d)) (q_rd_cnt (cdata d)) with
  | Some (rl, rls, rn), Some (cl, cls, cn) =>
      exists d' rq' cq',
        bfm_outputs o d = Some (out_pins (event d) rl cl o, d') /\
        drv_ok (out_pins (event d) rl cl o) d' rq' cq' /\ event d' = taken (event d) /\
        rq'.*2 = rls /\ q_rd_cnt (rdata d') = rn /\ cq'.*2 = cls /\ q_rd_cnt (cdata d') = cn /\
        regs d' = regs d
  | _, _ => bfm_outputs o d = None
  end.
Proof.
  intros [[Hwf Hr] Ho Hpu Hq Hrl Hcl].
  pose proof (arrived_r_ok _ Hwf) as Har. pose proof (arrived_c_ok _ Hwf) as Hac.
  destruct (cmd_taken_keeps (event d)) as (Tr & Tc & Tcr).
  destruct (cmd_pins_keeps (event d) o Ho) as (Ho3 & Hrv & Hcv & _).
  destruct (drive_msgs_eq o d rq cq Hwf Ho Hpu Hq)
    as (d3 & newr & newc & Hm & He3 & Hk3 & Hg3 & Hnr & Hnc & Hq3 & Hn3 & Hm3).
  assert (Hsplit : bfm_outputs o d =
    ('(o, d) ← ('(o, d) ← drive_resp o d; '(o, d) ← drive_cfg o d; drive_cmd o d);
     '(o, d) ← drive_rdata o d; '(o, d) ← drive_cdata o d; Some (drive_credits o d))).
  { unfold bfm_outputs. destruct (drive_resp o d) as [[o1 d1]|]; [|done]. cbn [mbind option_bind].
    by destruct (drive_cfg o1 d1) as [[o2 d2]|]. }
  rewrite Hsplit, Hm. cbn [mbind option_bind]. clear Hsplit Hm.
  rewrite <- Hnr, <- Hnc, <- !fmap_app, <- Hn3, <- Hm3.
  rewrite <- Hnr in Har. rewrite <- Hnc in Hac.
  destruct Hpu as [_ Prd Pcd _]. rewrite <- Hrv in Prd. rewrite <- Hcv in Pcd.
  assert (Hrl3 : Forall (is_array 64) (rq ++ newr).*2) by (rewrite fmap_app; by apply Forall_app_2).
  assert (Hcl3 : Forall (is_array 64) (cq ++ newc).*2) by (rewrite fmap_app; by apply Forall_app_2).
  pose proof (drive_rdata_eq (cmd_pins (event d) o) d3 _ _ _ _ _ _ Hk3 Ho3 Prd Hq3 Hrl3) as Hrd.
  destruct (serve (rq ++ newr).*2 _) as [[[rl rls] rn]|] eqn:Hsr; [|by rewrite Hrd].
  destruct Hrd as (d4 & h4 & r4 & rq4 & -> & [He4 <- <- Hc4 Hk4 Hg4] & Hq4 & Hl4 & Hn4).
  cbn [mbind option_bind]. rewrite <- Hc4 in Hq4. rewrite He3, Tr in *.
  destruct (put_rline_keeps rl (event d) _ Ho3) as (Ho4 & Hcv4). rewrite <- Hcv4 in Pcd.
  pose proof (drive_cdata_eq _ d4 _ _ _ _ _ _ Hk4 Ho4 Pcd Hq4 Hcl3) as Hcd. rewrite Hc4 in Hcd.
  destruct (serve (cq ++ newc).*2 _) as [[[cl cls] cn]|] eqn:Hsc; [|by rewrite Hcd].
  destruct Hcd as (d5 & h5 & c5 & cq5 & -> & [He5 <- Hr5 <- Hk5 Hg5] & Hq5 & Hl5 & Hn5).
  cbn [mbind option_bind]. rewrite <- Hr5 in Hq5. rewrite He4, Tc in *. unfold drive_credits.
  rewrite He5, Tcr. eexists _, rq4, cq5. split; [reflexivity|].
  assert (Hregs : regs d5 = regs d) by congruence.
  destruct (out_pins_valids (event d) rl cl o) as (V1 & V2 & V3 & V4).
  injection Hk5 as K1 K2 K3 K4.
  split; [constructor|].
  - split; [exact (taken_wf _ Hwf)|]. by apply (regs_same d).
  - by apply out_pins_ok.
  - constructor.
    + rewrite V1. change (pulse (clk_afu_resp_val d5) (up (truthy (tlx_afu_resp_valid (event d))))).
      rewrite K1. destruct (truthy _); [by right|by left].
    + rewrite V2. change (pulse (clk_afu_resp_dat_val d5) (up (is_line rl))).
      rewrite K3. destruct (is_line rl); [by right|by left].
    + rewrite V3. change (pulse (clk_afu_cmd_dat_val d5) (up (is_line cl))).
      rewrite K4. destruct (is_line cl); [by right|by left].
    + change (clk_afu_cmd_val (set_fld event _ d5)) with (clk_afu_cmd_val d5).
      rewrite K2. destruct (_ || _) eqn:Hv; [by right|left]. split; [done|]. by apply V4.
  - exact Hq5.
  - rewrite Hl4. by eapply serve_lines.
  - rewrite Hl5. by eapply serve_lines.
  - split_and!; [reflexivity|done|cbn; by rewrite Hr5|done|done|exact Hregs].
Qed.
End steps.
