(* ===== verification/DriverProps.v ===== *)
(** The simulator's side of the link: what a call of [tlx_bfm] does, for every
    state of the driver and every value of the pins. *)
From stdpp Require Import gmap.
From S2P Require Import Prelude Utils Event Sock TlxWire Link EventEq Cycle TlxHost TlxAfu TlxApi Fifo Driver DriverInv DriverOut.

(** * The low phase *)

(** What the AFU is owed after its requests of this call. *)
Definition owed_r (i : afu_in) (d : driver) : Z :=
  q_rd_cnt (read_req (afu_tlx_resp_rd_req_top i) (afu_tlx_resp_rd_cnt_top i) (rdata d)).
Definition owed_c (i : afu_in) (d : driver) : Z :=
  q_rd_cnt (read_req (afu_tlx_cmd_rd_req_top i) (afu_tlx_cmd_rd_cnt_top i) (cdata d)).

(** The lines the AFU sees on its buses. *)
Definition seen_r (o : afu_out) : option (list Z) :=
  if tlx_afu_resp_data_valid_top o =? 1 then Some (bus_bytes (tlx_afu_resp_data_bus_top o)) else None.
Definition seen_c (o : afu_out) : option (list Z) :=
  if tlx_afu_cmd_data_valid_top o =? 1 then Some (bus_bytes (tlx_afu_cmd_data_bus_top o)) else None.

Lemma host_side_eq e e' :
  host_side e = host_side e' ->
  arrived_r e = arrived_r e' /\ arrived_c e = arrived_c e' /\ rbp e = rbp e' /\
  tlx_afu_resp_valid e = tlx_afu_resp_valid e' /\ tlx_afu_cmd_valid e = tlx_afu_cmd_valid e' /\
  tlx_cfg_valid e = tlx_cfg_valid e' /\ get_tlx_resp e = get_tlx_resp e' /\
  get_tlx_cmd e = get_tlx_cmd e' /\ get_cfg_cmd e = get_cfg_cmd e' /\
  tlx_cfg_data_bus e = tlx_cfg_data_bus e'.
Proof.
  intros [=]. unfold arrived_r, arrived_c, get_tlx_resp, get_tlx_cmd, get_cfg_cmd. 
  split_and!; try congruence;
    by repeat match goal with H : ?f e = ?f e' |- _ => rewrite ?H; clear H end.
Qed.

Lemma seen_r_out e rl cl o : opt_ok (is_array 64) rl -> seen_r (out_pins e rl cl o) = rl.
Proof.
  intros Hl. unfold seen_r. destruct (out_pins_valids e rl cl o) as (_ & -> & _).
  destruct rl as [line|]; [|done]. cbn [up is_line Z.eqb Pos.eqb]. f_equal.
  transitivity (bus_bytes (line_words line)); [|by apply bus_bytes_words]. f_equal. unfold out_pins, credit_pins, put_cline, put_rline.
  repeat case_match; reflexivity.
Qed.
Lemma seen_c_out e rl cl o : opt_ok (is_array 64) cl -> seen_c (out_pins e rl cl o) = cl.
Proof.
  intros Hl. unfold seen_c. destruct (out_pins_valids e rl cl o) as (_ & _ & -> & _).
  destruct cl as [line|]; [|done]. cbn [up is_line Z.eqb Pos.eqb]. f_equal.
  transitivity (bus_bytes (line_words line)); [|by apply bus_bytes_words]. f_equal. unfold out_pins, credit_pins, put_cline, put_rline.
  repeat case_match; reflexivity.
Qed.

Lemma serve_line (P : list Z -> Prop) lines owed line lines' owed' :
  serve lines owed = Some (line, lines', owed') -> Forall P lines -> opt_ok P line.
Proof.
  unfold serve. case_match; [|by intros [= <- <- <-]].
  destruct lines as [|l lines]; [done|]. by intros [= <- <- <-] [? _]%Forall_cons_1.
Qed.

(** The delayed copies of the reset. *)
Definition resets (d : driver) : list Z :=
  [c_reset d; c_reset_d1 d; c_reset_d2 d; c_reset_d3 d; c_reset_d4 d].

Section low.
Context `{Allocator}.

(** The state between the two halves. *)
Lemma inputs_drv_ok i o d d1 rq cq :
  drv_ok o d rq cq -> input_step d d1 -> drv_ok o (read_reqs i d1) rq cq /\
  q_rd_cnt (rdata (read_reqs i d1)) = owed_r i d /\ q_rd_cnt (cdata (read_reqs i d1)) = owed_c i d.
Proof.
  intros [_ Ho [P1 P2 P3 P4] Hq Hrl Hcl] ([Hw Hr] & _ & Hown).
  injection Hown as Hh Hrd Hcd K1 K2 K3 K4 _ _ _ _ _. split; [|split].
  - constructor; try done.
    + split; [exact Hw|]. destruct Hr. constructor; assumption.
    + constructor; cbn -[pulse]; rewrite ?K1, ?K2, ?K3, ?K4; done.
    + cbn. rewrite Hh, Hrd, Hcd. destruct Hq as [Qr Qc Qd Qh].
      unfold read_req. constructor; try done; case_match; try done; by apply fifo_is_cnt.
  - cbn. by rewrite Hrd.
  - cbn. by rewrite Hcd.
Qed.

(** What a call with the clock low does, in full. *)
Lemma bfm_low_eq i o d rq cq :
  pins_ok i -> drv_ok o d rq cq ->
  match serve (rq.*2 ++ arrived_r (event d)) (owed_r i d),
        serve (cq.*2 ++ arrived_c (event d)) (owed_c i d) with
  | Some (rl, rls, rn), Some (cl, cls, cn) =>
      exists d1 d' rq' cq',
        bfm_inputs i d = Some (read_reqs i d1) /\ input_step d d1 /\
        am_cmd (afu_msg_of (event d1)) = cmd_to_send i d /\
        am_cfg_resp (afu_msg_of (event d1)) = cfg_to_send i d /\
        bfm_low i o d = Some (out_pins (event d1) rl cl o, d') /\
        drv_ok (out_pins (event d1) rl cl o) d' rq' cq' /\ event d' = taken (event d1) /\
        rq'.*2 = rls /\ q_rd_cnt (rdata d') = rn /\ cq'.*2 = cls /\ q_rd_cnt (cdata d') = cn /\
        c_cfg_resp_ack_pending d' =
          (if truthy (logic_bit (cfg0_tlx_resp_valid_top i))
           then if cfg_turn i (c_cfg_resp_ack_pending d) then 1 else c_cfg_resp_ack_pending d else 0) /\
        opt_ok (is_array 64) rl /\ opt_ok (is_array 64) cl /\ resets d' = resets d
  | _, _ => bfm_low i o d = None
  end.
Proof.
  intros Hp Hd. destruct (bfm_inputs_eq i d Hp (dk_input _ _ _ _ Hd)) as (d1 & Hi & Hs & Hc & Hg & Hpend).
  destruct (inputs_drv_ok i o d d1 rq cq Hd Hs) as (Hd1 & Hrn & Hcn).
  pose proof (bfm_outputs_eq o _ rq cq Hd1) as Hout. rewrite Hrn, Hcn in Hout.
  change (event (read_reqs i d1)) with (event d1) in Hout.
  destruct (host_side_eq _ _ (proj1 (proj2 Hs))) as (Har & Hac & _). rewrite Har, Hac in Hout.
  assert (Hl : Forall (is_array 64) (rq.*2 ++ arrived_r (event d)) /\
               Forall (is_array 64) (cq.*2 ++ arrived_c (event d))).
  { destruct Hd as [[Hwf _] _ _ _ Hrl Hcl].
    split; apply Forall_app_2; try done; by first [apply arrived_r_ok|apply arrived_c_ok]. }
  unfold bfm_low. rewrite Hi. cbn [mbind option_bind].
  destruct (serve (rq.*2 ++ _) _) as [[[rl rls] rn]|] eqn:Hsr; [|done].
  destruct (serve (cq.*2 ++ _) _) as [[[cl cls] cn]|] eqn:Hsc; [|done].
  destruct Hout as (d' & rq' & cq' & Hb & Hd' & He & Hrq & Hrc & Hcq & Hcc & Hregs).
  exists d1, d', rq', cq'. split_and!; try done.
  - assert (Hp' : c_cfg_resp_ack_pending d' = c_cfg_resp_ack_pending (read_reqs i d1))
      by exact (f_equal (fun x => x.1.2) Hregs). rewrite Hp'. exact Hpend.
  - eapply serve_line; [exact Hsr|apply Hl].
  - eapply serve_line; [exact Hsc|apply Hl].
  - transitivity (resets d1); [exact (f_equal snd Hregs)|exact (f_equal snd (proj2 (proj2 Hs)))].
Qed.

(** C11: the two FIFOs of the driver are queues of lines.  A call with the clock
    low appends the lines that came with the host's response and command, and
    serves each bus the oldest line it is owed: that line is what the AFU sees,
    and the rest stay in order.  The pointers - a tail that is left dangling
    when a FIFO empties, packets freed as they are driven - never matter, no
    packet leaks and the two lists stay apart; the call is undefined exactly if
    the AFU has asked for a line that has not come. *)
Theorem low_phase_refines_queues i o d rq cq :
  pins_ok i -> drv_ok o d rq cq ->
  match serve (rq.*2 ++ arrived_r (event d)) (owed_r i d),
        serve (cq.*2 ++ arrived_c (event d)) (owed_c i d) with
  | Some (rl, rls, rn), Some (cl, cls, cn) =>
      exists o' d' rq' cq',
        bfm_low i o d = Some (o', d') /\ drv_ok o' d' rq' cq' /\
        seen_r o' = rl /\ rq'.*2 = rls /\ q_rd_cnt (rdata d') = rn /\
        seen_c o' = cl /\ cq'.*2 = cls /\ q_rd_cnt (cdata d') = cn
  | _, _ => bfm_low i o d = None
  end.
Proof.
  intros Hp Hd. pose proof (bfm_low_eq i o d rq cq Hp Hd) as Hb.
  destruct (serve _ _) as [[[rl rls] rn]|]; [|done]. destruct (serve _ _) as [[[cl cls] cn]|]; [|done].
  destruct Hb as (d1 & d' & rq' & cq' & _ & _ & _ & _ & Hb & Hd' & _ & Hr & Hrn & Hc & Hcn & _ & Hrl & Hcl & _).
  exists (out_pins (event d1) rl cl o), d', rq', cq'.
  split_and!; try done; [by apply seen_r_out|by apply seen_c_out].
Qed.
End low.

(** ** Concrete pins *)

Definition low_word : vec32 := Vec 0 0.
Definition quiet_pins : afu_in := AfuIn 0
  0 low_word 0 low_word 0 low_word 0 low_word
  0 low_word low_word low_word (replicate 3 low_word) low_word low_word low_word
  (replicate 2 low_word) low_word 0 low_word low_word low_word (replicate 16 low_word) 0 0
  0 low_word low_word low_word low_word low_word 0 (replicate 16 low_word) 0
  low_word 0 0 low_word low_word low_word low_word (replicate 1 low_word) 0.

Definition quiet_outs : afu_out := AfuOut 0 low_word low_word low_word low_word low_word low_word low_word
  0 low_word low_word low_word low_word (replicate 2 low_word) 0 (replicate 2 low_word)
  0 (replicate 16 low_word) 0 0 (replicate 16 low_word) 0 0 0 0 0
  low_word low_word low_word low_word 0 0 low_word (replicate 2 low_word) 0 low_word low_word
  low_word 0 0 low_word.

(** The AFU asks for two lines of response data. *)
Definition asking_pins : afu_in :=
  quiet_pins <| afu_tlx_resp_rd_req_top := 1 |> <| afu_tlx_resp_rd_cnt_top := Vec 2 0 |>.

(** The driver once [tlx_bfm_init] has its connection. *)
Definition driver_up (e : AFU_EVENT) : driver := driver_start <| event := e |>.

Lemma low_word_ok : vec_ok low_word.
Proof. by split; vm_compute. Qed.
Lemma quiet_bus_ok n : bus_ok n (replicate n low_word).
Proof. split; [apply length_replicate|]. apply Forall_replicate, low_word_ok. Qed.
Lemma quiet_pins_ok : pins_ok quiet_pins.
Proof.
  constructor; [|apply quiet_bus_ok..]. cbn.
  repeat (apply List.Forall_cons; [apply low_word_ok|]). apply Forall_nil_2.
Qed.
Lemma asking_pins_ok : pins_ok asking_pins.
Proof.
  constructor; [|apply quiet_bus_ok..]. cbn.
  repeat (apply List.Forall_cons; [first [apply low_word_ok|by split; vm_compute]|]). apply Forall_nil_2.
Qed.
Lemma quiet_outs_ok : outs_ok quiet_outs.
Proof. by constructor. Qed.

(** Before the first call no valid signal is up. *)
Definition no_valid (o : afu_out) : Prop :=
  tlx_afu_resp_valid_top o = 0 /\ tlx_afu_resp_data_valid_top o = 0 /\
  tlx_afu_cmd_data_valid_top o = 0 /\ tlx_afu_cmd_valid_top o = 0 /\ tlx_cfg0_valid_top o = 0.

Lemma driver_up_ok e o : event_wf e -> outs_ok o -> no_valid o -> drv_ok o (driver_up e) [] [].
Proof.
  intros Hw Ho (V1 & V2 & V3 & V4 & V5).
  constructor; [split; [done|]|done| |apply queues_empty|apply Forall_nil_2..].
  - assert (H64 : is_array 64 (zeros 64)) by apply array_zeros.
    constructor; [apply array_zeros|reflexivity| |split; [done|by vm_compute]| |split; [done|by vm_compute]|
      |split; [done|by vm_compute]]; repeat split; try (by vm_compute).
    all: apply (array_zeros 9).
  - by constructor; [left|left|left|left].
Qed.

Definition two_lines : AFU_EVENT :=
  tlx_event_reset event_zero <| tlx_afu_resp_valid := 1 |> <| tlx_afu_resp_data_valid := 1 |>
    <| tlx_afu_resp_dl := 2 |>
    <| tlx_afu_resp_data := replicate 64 7 ++ replicate 64 9 ++ zeros 128 |>.

Lemma two_lines_wf : event_wf two_lines.
Proof.
  unfold two_lines. pose proof (tlx_event_reset_wf event_zero).
  assert (is_array 256 (replicate 64 7 ++ replicate 64 9 ++ zeros 128)).
  { split; [done|]. repeat apply Forall_app_2; by apply Forall_replicate. }
  solve_wf.
Qed.

(** The first of the two lines that came is driven, the other one waits. *)
Lemma low_phase_refines_queues_witness :
  exists o' d' rq' cq',
    bfm_low asking_pins quiet_outs (driver_up two_lines) = Some (o', d') /\ drv_ok o' d' rq' cq' /\
    seen_r o' = Some (replicate 64 7) /\ rq'.*2 = [replicate 64 9] /\ q_rd_cnt (rdata d') = 1 /\
    seen_c o' = None /\ cq'.*2 = [] /\ q_rd_cnt (cdata d') = 0.
Proof.
  assert (E1 : serve (([] : list node).*2 ++ arrived_r (event (driver_up two_lines)))
      (owed_r asking_pins (driver_up two_lines))
    = Some (Some (replicate 64 7), [replicate 64 9], 1)) by (by vm_compute).
  assert (E2 : serve (([] : list node).*2 ++ arrived_c (event (driver_up two_lines)))
      (owed_c asking_pins (driver_up two_lines)) = Some (None, [], 0)) by (by vm_compute).
  pose proof (low_phase_refines_queues asking_pins quiet_outs (driver_up two_lines) [] []
    asking_pins_ok (driver_up_ok two_lines quiet_outs two_lines_wf quiet_outs_ok
      ltac:(by repeat split))) as Ht.
  rewrite E1, E2 in Ht. exact Ht.
Defined.

(** * Calls *)

(** What the invariant looks at, the event apart. *)
Definition parts (d : driver) :=
  (d_heap d, rdata d, cdata d, clks d,
   (c_afu_tlx_cmd d, (c_afu_tlx_cdata_bus d, c_afu_tlx_cdata_bdi d), c_afu_tlx_resp d,
    (c_afu_tlx_rdata_bus d, c_afu_tlx_rdata_bdi d), c_cfg0_tlx_resp d,
    (c_cfg0_tlx_rdata_bus d, c_cfg0_tlx_rdata_bdi d))).

Lemma drv_ok_same o d d' rq cq :
  drv_ok o d rq cq -> event_wf (event d') -> parts d' = parts d -> drv_ok o d' rq cq.
Proof.
  intros [[_ []] Ho [P1 P2 P3 P4] Hq Hr Hc] Hw [=].
  constructor; [split; [done|]|done| |congruence|done|done].
  - constructor; congruence.
  - constructor; congruence.
Qed.

Section calls.
Context `{Allocator}.

(** The driver as a call with reset [r] finds it. *)
Definition sampled (i : afu_in) (d : driver) : driver := d <| c_reset := Z.land (reset i) 0x1 |>.

Lemma bfm_low_call fuel i o d c :
  c_reset_d4 d = 0 ->
  tlx_bfm fuel 0 i o d c =
  ('(o', d') ← bfm_low i o (sampled i d); Some (true, o', shift_reset d', c)).
Proof.
  intros H0. unfold tlx_bfm. fold (sampled i d).
  change (c_reset_d4 (sampled i d)) with (c_reset_d4 d). rewrite H0. cbn [truthy Z.eqb negb].
  destruct (bfm_low i o (sampled i d)) as [[o' d']|]; reflexivity.
Qed.

(** In reset a call does nothing but shift the reset. *)
Lemma bfm_reset_call fuel clk i o d c :
  truthy (c_reset_d4 d) = true -> tlx_bfm fuel clk i o d c = Some (true, o, shift_reset (sampled i d), c).
Proof.
  intros H0. unfold tlx_bfm. fold (sampled i d).
  change (c_reset_d4 (sampled i d)) with (c_reset_d4 d). by rewrite H0.
Qed.

(** With the clock high the frames of the cycle are exchanged. *)
Lemma bfm_high_call fuel i o d m rest rx en tx plan :
  c_reset_d4 d = 0 -> event_wf (event d) -> rbp (event d) = 0 -> host_msg_wf m -> no_fail plan ->
  exists e' plan',
    tlx_bfm fuel 1 i o d (Conn (Chunk (encode_host m ++ rest) :: rx) en tx plan) =
    Some (true, o, shift_reset (sampled i d <| c_sim_error := 0 |> <| event := e' |>),
          Conn (put_back rest rx) en (tx ++ encode_afu (afu_msg_of (event d))) plan') /\
    no_fail plan' /\ event_wf e' /\ rbp e' = 0 /\
    e' ≡ receive_host m (afu_sent (event d <| clock := 1 |>)).
Proof.
  intros H0 Hw Hr Hm Hp.
  destruct (get_tlx_events_eq m (event d) rest rx en tx plan Hw Hr Hm Hp)
    as (e' & plan' & He & Hp' & Hw' & Hr' & Heq).
  exists e', plan'. split_and!; try done. unfold tlx_bfm. fold (sampled i d).
  change (c_reset_d4 (sampled i d)) with (c_reset_d4 d). rewrite H0. cbn [truthy Z.eqb negb].
  unfold tlx_control.
  change (event (sampled i d <| c_sim_error := 0 |>)) with (event d).
  assert (Hl : get_tlx_events_loop fuel (event d) (Conn (Chunk (encode_host m ++ rest) :: rx) en tx plan)
    = Some (Some 1, e', Conn (put_back rest rx) en (tx ++ encode_afu (afu_msg_of (event d))) plan')).
  { destruct fuel; cbn [get_tlx_events_loop]; rewrite He; reflexivity. }
  rewrite Hl. reflexivity.
Qed.
End calls.

Lemma serve_split lines owed line lines' owed' :
  serve lines owed = Some (line, lines', owed') -> lines = option_list line ++ lines'.
Proof.
  unfold serve. case_match; [|by intros [= <- <- <-]].
  destruct lines; [done|]. by intros [= <- <- <-].
Qed.

Definition no_conn : conn := Conn [] EndIdle [] [].

(** Four calls bring the driver out of reset. *)
Definition idle_call (d : driver) : driver := shift_reset (sampled quiet_pins d).
Definition driver_ready (e : AFU_EVENT) : driver :=
  idle_call (idle_call (idle_call (idle_call (driver_up e)))).
