(* ===== verification/DriverEnd.v ===== *)
(** The simulator's side of the link composed with the link: from the AFU's pins
    to the event of the host, from the message of the host to the pins of the
    AFU, and what is lost on the way. *)
From stdpp Require Import gmap.
From S2P Require Import Prelude Utils Event Sock TlxWire Link EventEq Cycle TlxHost TlxAfu TlxApi Lockstep Fifo Driver DriverInv DriverOut DriverProps.

(** * From the pins to the host *)

Section ends.
Context `{Allocator}.

(** A call with the clock low that is defined, outside reset. *)
Lemma bfm_low_defined fuel i o d rq cq c fin o1 d1 c1 :
  pins_ok i -> drv_ok o d rq cq -> c_reset_d4 d = 0 ->
  tlx_bfm fuel 0 i o d c = Some (fin, o1, d1, c1) ->
  exists rl rls rn cl cls cn e1 d' rq' cq',
    serve (rq.*2 ++ arrived_r (event d)) (owed_r i d) = Some (rl, rls, rn) /\
    serve (cq.*2 ++ arrived_c (event d)) (owed_c i d) = Some (cl, cls, cn) /\
    fin = true /\ c1 = c /\ o1 = out_pins e1 rl cl o /\ d1 = shift_reset d' /\
    drv_ok o1 d1 rq' cq' /\ rq'.*2 = rls /\ cq'.*2 = cls /\
    event d1 = taken e1 /\ host_side e1 = host_side (event d) /\
    am_cmd (afu_msg_of e1) = cmd_to_send i (sampled i d) /\
    am_cfg_resp (afu_msg_of e1) = cfg_to_send i (sampled i d) /\
    c_reset_d4 d1 = c_reset_d3 d /\ opt_ok (is_array 64) rl /\ opt_ok (is_array 64) cl.
Proof.
  intros Hp Hd H4 Hc. rewrite bfm_low_call in Hc by done.
  assert (Hds : drv_ok o (sampled i d) rq cq) by (apply (drv_ok_same o d); [done|apply Hd|reflexivity]).
  pose proof (bfm_low_eq i o (sampled i d) rq cq Hp Hds) as Hb.
  change (event (sampled i d)) with (event d) in Hb.
  change (owed_r i (sampled i d)) with (owed_r i d) in Hb.
  change (owed_c i (sampled i d)) with (owed_c i d) in Hb.
  destruct (serve (rq.*2 ++ _) _) as [[[rl rls] rn]|] eqn:Hsr; [|by rewrite Hb in Hc].
  destruct (serve (cq.*2 ++ _) _) as [[[cl cls] cn]|] eqn:Hsc; [|by rewrite Hb in Hc].
  destruct Hb as (d2 & d' & rq' & cq' & _ & Hs & Hm & Hg & Hb & Hd2 & He & Hr & _ & Hcq & _ & _ & Hrl & Hcl & Hres).
  rewrite Hb in Hc. cbn [mbind option_bind] in Hc. injection Hc as <- <- <- <-.
  exists rl, rls, rn, cl, cls, cn, (event d2), d', rq', cq'. split_and!; try done.
  - apply (drv_ok_same _ d'); [done|apply Hd2|reflexivity].
  - exact (proj1 (proj2 Hs)).
  - change (c_reset_d3 d' = c_reset_d3 (sampled i d)). by injection Hres.
Qed.

(** The command on the AFU's pins: the nine bytes of the object are those of its
    68-bit signal, three words. *)
Definition pins_cmd (i : afu_in) : afu_cmd :=
  AfuCmd (field_in (afu_tlx_cmd_opcode_top i) 0xFF) (field_in (afu_tlx_cmd_actag_top i) 0xFFF)
    (field_in (afu_tlx_cmd_stream_id_top i) 0xF) (take 9 (bus_bytes (afu_tlx_cmd_ea_or_obj_top i)))
    (field_in (afu_tlx_cmd_afutag_top i) 0xFFFF) (field_in (afu_tlx_cmd_dl_top i) 0x3)
    (field_in (afu_tlx_cmd_pl_top i) 0x7) (le_val (bus_bytes (afu_tlx_cmd_be_top i)))
    (field_in (afu_tlx_cmd_flag_top i) 0xF) (logic_bit (afu_tlx_cmd_endian_top i))
    (field_in (afu_tlx_cmd_bdf_top i) 0xFFFF) (field_in (afu_tlx_cmd_pasid_top i) 0xFFFFF)
    (field_in (afu_tlx_cmd_pg_size_top i) 0x3F).

(** What is left of a command without bits 64 to 67 of its object. *)
Definition object_cut (c : afu_cmd) : afu_cmd :=
  AfuCmd (ac_opcode c) (ac_actag c) (ac_stream_id c) (take 8 (ac_ea_or_obj c) ++ [0]) (ac_afutag c)
    (ac_dl c) (ac_pl c) (ac_be c) (ac_flag c) (ac_endian c) (ac_bdf c) (ac_pasid c) (ac_pg_size c).

(** The AFU drives a command, and has a credit for it. *)
Definition offered (i : afu_in) (d : driver) : bool :=
  truthy (logic_bit (afu_tlx_cmd_valid_top i)) &&
  negb (tlx_afu_cmd_credits_available (event (initial_credits i d)) =? 0).

Lemma trim_copied i : pins_ok i -> trim (copied_cmd i) = object_cut (pins_cmd i).
Proof.
  intros [_ [Hl _] _ _ _ _]. unfold object_cut, trim. cbn [copied_cmd pins_cmd ac_opcode ac_actag
    ac_stream_id ac_ea_or_obj ac_afutag ac_dl ac_pl ac_be ac_flag ac_endian ac_bdf ac_pasid ac_pg_size].
  f_equal. destruct (afu_tlx_cmd_ea_or_obj_top i) as [|w0 [|w1 [|w2 []]]]; try discriminate Hl.
  reflexivity.
Qed.

Lemma cmd_to_send_cases i d :
  pins_ok i ->
  cmd_to_send i d =
    if truthy (afu_tlx_cmd_valid (event d)) then am_cmd (afu_msg_of (event d))
    else if offered i d then Some (object_cut (pins_cmd i)) else None.
Proof.
  intros Hp. unfold cmd_to_send, offered. rewrite <- (trim_copied i Hp).
  destruct (truthy (afu_tlx_cmd_valid (event d))) eqn:Hv; cbn [negb]; [by rewrite andb_false_r|].
  rewrite andb_true_r. destruct (_ && _); [done|]. unfold afu_msg_of. cbn [am_cmd]. unfold when.
  by rewrite Hv.
Qed.

(** C13: what the AFU drives reaches the host, but for bits 64 to 67 of an
    address or object handle.  After a call with the clock low and the exchange
    of the following high phase the host has received one message.  Its command
    is the one on the AFU's pins, with those four bits cleared, if the AFU drove
    one and had a credit; a command that was waiting in the event already is the
    one that is sent, and the one on the pins is then lost.  Its configuration
    response is the one on the pins when its turn has come and none is
    waiting. *)
Theorem pins_reach_host fuel i i' o d rq cq c fin o1 d1 c1 m h :
  pins_ok i -> drv_ok o d rq cq -> rbp (event d) = 0 -> c_reset_d4 d = 0 -> c_reset_d3 d = 0 ->
  tlx_bfm fuel 0 i o d c = Some (fin, o1, d1, c1) ->
  host_msg_wf m -> event_wf h -> rbp h = 0 ->
  exists d2 c2 M h' c3,
    tlx_bfm fuel 1 i' o1 d1 (Conn [Chunk (encode_host m)] EndIdle [] []) = Some (true, o1, d2, c2) /\
    tlx_get_afu_events h (Conn [Chunk (c_tx c2)] EndIdle [] []) = Some (1, h', c3) /\
    h' ≡ receive_afu M (h <| clock := 0 |>) /\
    am_cmd M =
      (if truthy (afu_tlx_cmd_valid (event d)) then am_cmd (afu_msg_of (event d))
       else if offered i (sampled i d) then Some (object_cut (pins_cmd i)) else None) /\
    am_cfg_resp M = cfg_to_send i (sampled i d).
Proof.
  intros Hp Hd H0 H4 H3 Hc Hm Hh Hh0.
  destruct (bfm_low_defined fuel i o d rq cq c fin o1 d1 c1 Hp Hd H4 Hc)
    as (rl & rls & rn & cl & cls & cn & e1 & d' & rq' & cq' & _ & _ & _ & _ & _ & _ & Hd1 & _ & _ & He & Hs & Hcmd & Hcfg & H4' & _).
  destruct (taken_to_host e1) as [Hmsg Hrbp].
  destruct (host_side_eq _ _ Hs) as (_ & _ & Hr & _).
  destruct (bfm_high_call fuel i' o1 d1 m [] [] EndIdle [] []) as (e2 & plan' & Hhi & _).
  { by rewrite H4'. } { apply Hd1. } { by rewrite He, Hrbp, Hr. } { done. } { apply not_elem_of_nil. }
  rewrite app_nil_r in Hhi.
  assert (Hwf : afu_msg_wf (afu_msg_of (event d1))) by (apply afu_msg_of_wf, Hd1).
  destruct (get_afu_events_eq (afu_msg_of (event d1)) h [] [] EndIdle [] [] Hh Hh0 Hwf)
    as (h' & Hget & _ & _ & Heq).
  rewrite app_nil_r in Hget. do 2 eexists. exists (afu_msg_of (event d1)), h'. eexists.
  split; [exact Hhi|]. split; [exact Hget|]. split; [exact Heq|].
  rewrite He, Hmsg, Hcmd, Hcfg. split; [|done]. exact (cmd_to_send_cases i (sampled i d) Hp).
Qed.

End ends.

(** * From the host to the pins *)

(** What the AFU finds on the pins of a response, a command and a configuration
    command. *)
Definition resp_seen (o : afu_out) :=
  (tlx_afu_resp_valid_top o, tlx_afu_resp_opcode_top o, tlx_afu_resp_afutag_top o,
   tlx_afu_resp_code_top o, tlx_afu_resp_pg_size_top o, tlx_afu_resp_dl_top o, tlx_afu_resp_dp_top o).
Definition cmd_seen (o : afu_out) :=
  (tlx_afu_cmd_valid_top o, tlx_afu_cmd_opcode_top o, tlx_afu_cmd_capptag_top o, tlx_afu_cmd_dl_top o,
   tlx_afu_cmd_pl_top o, tlx_afu_cmd_end_top o, getMy64Bit (tlx_afu_cmd_be_top o),
   getMy64Bit (tlx_afu_cmd_pa_top o)).
Definition cfg_seen (o : afu_out) :=
  (tlx_cfg0_valid_top o, tlx_cfg0_opcode_top o, tlx_cfg0_capptag_top o, tlx_cfg0_pl_top o, tlx_cfg0_t_top o,
   getMy64Bit (tlx_cfg0_pa_top o), tlx_cfg0_data_bus_top o, tlx_cfg0_data_bdi_top o).

(** [v] on a signal of [n] known bits. *)
Definition bits (n v : Z) : vec32 := Vec (v mod 2 ^ n) 0.

Lemma set32_bits v n : 0 < n < 32 -> setDpiSignal32 v n = bits n v.
Proof.
  intros Hn. unfold setDpiSignal32, bits. replace (n =? 32) with false by lia. f_equal.
  rewrite <- Z.land_ones by lia. f_equal. unfold u32.
  assert (E : forall k, (k < 32)%nat -> Z.lnot (Z.shiftl 0xFFFFFFFF (Z.of_nat k) mod 2 ^ 32) mod 2 ^ 32 = Z.ones (Z.of_nat k)).
  { intros k Hk. do 32 (destruct k as [|k]; [reflexivity|]). lia. }
  rewrite <- (Z2Nat.id n) by lia. apply E. lia.
Qed.

Lemma bits_small n v : is_u n v -> bits n v = Vec v 0.
Proof. intros Hv. unfold bits. by rewrite is_u_small. Qed.

Lemma get_words64 v : is_u 64 v -> getMy64Bit (words64 v) = Some (0, v).
Proof.
  intros Hv. unfold getMy64Bit, words64. cbn [lookup list_lookup mbind option_bind aval bval Z.lor Z.eqb].
  do 2 f_equal. unfold u32. change 0xffffffff with (Z.ones 32). rewrite Z.land_ones, Z.shiftr_div_pow2 by lia.
  rewrite (Z.mod_small (v / 2 ^ 32)).
  - rewrite lor_shiftl_add by (apply Z.mod_pos_bound || lia; lia).
    pose proof (Z.div_mod v (2 ^ 32)). lia.
  - unfold is_u in Hv. split; [apply Z.div_pos; lia|]. apply Z.div_lt_upper_bound; lia.
Qed.

Definition resp_driven (r : tlx_resp) :=
  (1, Vec (tr_opcode r) 0, Vec (tr_afutag r) 0, bits 4 (tr_code r), bits 6 (tr_pg_size r),
   bits 2 (tr_dl r), bits 2 (tr_dp r)).
Definition cmd_driven (c : tlx_cmd) :=
  (1, Vec (tc_opcode c) 0, Vec (tc_capptag c) 0, bits 2 (tc_dl c), bits 3 (tc_pl c), tc_end c mod 2,
   Some (0, tc_be c), Some (0, tc_pa c)).
Definition cfg_driven (x : cfg_cmd * data_beat) :=
  (1, Vec (cc_opcode x.1) 0, Vec (cc_capptag x.1) 0, bits 3 (cc_pl x.1), cc_t x.1 mod 2,
   Some (0, cc_pa x.1), Vec (le_val x.2.1) 0, x.2.2 mod 2).

(** The lines a group of data adds: the front of the bus is replaced. *)
Definition lines_with (dl : Z) (bus : list Z) (data : option data_beat) : list (list Z) :=
  match data with Some (new, _) => data_lines dl (overwrite bus 0 new) | None => [] end.

(** ** The event after the exchange *)

Definition resp_group (e : AFU_EVENT) := (tlx_afu_resp_valid e, get_tlx_resp e).
Definition cmd_group (e : AFU_EVENT) := (tlx_afu_cmd_valid e, get_tlx_cmd e).
Definition cfg_group (e : AFU_EVENT) :=
  (tlx_cfg_valid e, (get_cfg_cmd e, (tlx_cfg_data_bus e, tlx_cfg_data_bdi e))).

Lemma deliver_resp m r e :
  hm_resp m = Some r ->
  resp_group (deliver_host m e) = (1, TlxResp (tr_opcode r) (tr_afutag r) (tr_code r)
    (tr_pg_size r) (tr_dl r) (tr_dp r) (tlx_afu_resp_addr_tag e)) /\
  arrived_r (deliver_host m e) = lines_with (tr_dl r) (tlx_afu_resp_data e) (hm_resp_data m).
Proof.
  intros Hr. unfold deliver_host. rewrite Hr.
  keeps resp_group put_tlx_credits. keeps arrived_r put_tlx_credits.
  set (e1 := put_cfg _ _). assert (E1 : tlx_afu_resp_addr_tag e1 = tlx_afu_resp_addr_tag e /\
    tlx_afu_resp_data e1 = tlx_afu_resp_data e) by (unfold e1; by destruct (hm_cfg m) as [[? [? ?]]|]).
  destruct E1 as [<- <-]. set (e2 := put_tlx_cmd_data _ _).
  assert (E2 : tlx_afu_resp_addr_tag e2 = tlx_afu_resp_addr_tag e1 /\
    tlx_afu_resp_data e2 = tlx_afu_resp_data e1)
    by (unfold e2; by destruct (hm_cmd_data m) as [[? ?]|], (hm_cmd m)).
  destruct E2 as [<- <-]. destruct r. by destruct (hm_resp_data m) as [[? ?]|].
Qed.

Lemma deliver_cmd m c e :
  hm_cmd m = Some c ->
  cmd_group (deliver_host m e) = (1, c) /\
  arrived_c (deliver_host m e) = lines_with (tc_dl c) (tlx_afu_cmd_data_bus e) (hm_cmd_data m).
Proof.
  intros Hc. unfold deliver_host. rewrite Hc.
  keeps cmd_group put_tlx_credits. keeps arrived_c put_tlx_credits.
  keeps cmd_group put_tlx_resp_data. keeps arrived_c put_tlx_resp_data.
  keeps cmd_group put_tlx_response. keeps arrived_c put_tlx_response.
  set (e1 := put_cfg _ _). assert (E1 : tlx_afu_cmd_data_bus e1 = tlx_afu_cmd_data_bus e)
    by (unfold e1; by destruct (hm_cfg m) as [[? [? ?]]|]).
  rewrite <- E1. destruct c. by destruct (hm_cmd_data m) as [[? ?]|].
Qed.

Lemma deliver_cfg m x e : hm_cfg m = Some x -> cfg_group (deliver_host m e) = (1, x).
Proof.
  intros Hx. unfold deliver_host. rewrite Hx.
  keeps cfg_group put_tlx_credits. keeps cfg_group put_tlx_resp_data. keeps cfg_group put_tlx_response.
  keeps cfg_group put_tlx_cmd_data. keeps cfg_group put_tlx_command.
  destruct x as [[] [? ?]]. reflexivity.
Qed.

(** ** The pins after the low phase *)

Lemma land_1 v : Z.land v 0x1 = v mod 2.
Proof. change 0x1 with (Z.ones 1). by rewrite Z.land_ones by lia. Qed.

(** The pins of a group, whatever else is driven. *)
Ltac out_group Hv :=
  unfold out_pins, credit_pins, put_cline, put_rline, drop_valids, put_cmd_pins, put_cfg_pins, put_resp_pins;
  rewrite Hv, ?orb_true_r; change (truthy 1) with true; cbn [orb]; repeat case_match; reflexivity.

Lemma resp_out e rl cl o r :
  resp_group e = (1, r) -> is_u 8 (tr_opcode r) -> is_u 16 (tr_afutag r) ->
  resp_seen (out_pins e rl cl o) = resp_driven r.
Proof.
  intros [= Hv <-] H1 H2. unfold resp_driven. rewrite <- !set32_bits by lia.
  rewrite <- (bits_small 8), <- (bits_small 16), <- !set32_bits by first [done|lia].
  unfold get_tlx_resp. cbn [tr_opcode tr_afutag tr_code tr_pg_size tr_dl tr_dp].
  out_group Hv.
Qed.

Lemma cmd_out e rl cl o c :
  cmd_group e = (1, c) -> tlx_cmd_ok c -> cmd_seen (out_pins e rl cl o) = cmd_driven c.
Proof.
  intros [= Hv <-] (H1 & H2 & _ & _ & H5 & _ & H7). unfold cmd_driven.
  rewrite <- (get_words64 _ H5), <- (get_words64 _ H7), <- (bits_small 8), <- (bits_small 16), <- land_1,
    <- !set32_bits by first [done|lia].
  unfold get_tlx_cmd.
  cbn [tc_opcode tc_capptag tc_dl tc_pl tc_be tc_end tc_pa]. out_group Hv.
Qed.

Lemma set32_word v : is_u 32 v -> setDpiSignal32 v 32 = Vec v 0.
Proof.
  intros Hv. unfold setDpiSignal32. cbn [Z.eqb Pos.eqb]. f_equal.
  change 0xFFFFFFFF with (Z.ones 32). rewrite Z.land_ones by lia. by apply is_u_small.
Qed.

Lemma cfg_out e rl cl o x :
  cfg_group e = (1, x) -> cfg_ok x -> cfg_seen (out_pins e rl cl o) = cfg_driven x.
Proof.
  intros [= Hv <-] [(H1 & H2 & _ & _ & H5) [[Hl Hb] _]]. unfold cfg_driven. cbn [fst snd] in *.
  assert (Hw : is_u 32 (le_val (tlx_cfg_data_bus e))).
  { exact (le_val_range 4 _ Hl Hb). }
  rewrite <- (get_words64 _ H5), <- (bits_small 8), <- (bits_small 16), <- !land_1, <- (set32_word _ Hw),
    <- !set32_bits by first [done|lia].
  unfold get_cfg_cmd. cbn [cc_opcode cc_capptag cc_pl cc_t cc_pa]. out_group Hv.
Qed.

Lemma host_side_groups e e' :
  host_side e = host_side e' ->
  resp_group e = resp_group e' /\ cmd_group e = cmd_group e' /\ cfg_group e = cfg_group e' /\
  arrived_r e = arrived_r e' /\ arrived_c e = arrived_c e'.
Proof.
  intros Hs. destruct (host_side_eq _ _ Hs) as (? & ? & _ & Rv & Cv & Gv & Rg & Cg & Gg & Gd).
  pose proof (f_equal (fun x => x.1.2.2) Hs) as Gi. cbn [host_side fst snd] in Gi.
  unfold resp_group, cmd_group, cfg_group. by rewrite Rv, Cv, Gv, Rg, Cg, Gg, Gd, Gi.
Qed.

Lemma receive_deliver m e :
  is_some (hm_cfg m) || is_some (hm_cmd m) || is_some (hm_resp m) = true ->
  receive_host m e = deliver_host m e.
Proof.
  intros Hm. unfold receive_host, host_idle.
  destruct (hm_cfg m), (hm_cmd m), (hm_resp m); rewrite ?orb_true_r; first [discriminate|reflexivity].
Qed.

Lemma sent_buses e :
  tlx_afu_resp_data (afu_sent (e <| clock := 1 |>)) = tlx_afu_resp_data e /\
  tlx_afu_cmd_data_bus (afu_sent (e <| clock := 1 |>)) = tlx_afu_cmd_data_bus e.
Proof. unfold afu_sent, cond_event. by destruct (truthy _). Qed.

(** The valid signals of the two kinds of command. *)
Lemma out_command_valids e rl cl o :
  tlx_cfg0_valid_top (out_pins e rl cl o) =
    (if truthy (tlx_cfg_valid e) then 1
     else if truthy (tlx_afu_cmd_valid e) then tlx_cfg0_valid_top o else 0) /\
  tlx_afu_cmd_valid_top (out_pins e rl cl o) =
    (if truthy (tlx_afu_cmd_valid e) then 1
     else if truthy (tlx_cfg_valid e) then tlx_afu_cmd_valid_top o else 0).
Proof.
  unfold out_pins, credit_pins, put_cline, put_rline, drop_valids, put_cmd_pins, put_cfg_pins, put_resp_pins.
  repeat case_match; split; first [reflexivity|discriminate].
Qed.

Section down.
Context `{Allocator}.

(** a command the AFU has been given stays valid as long as commands of the
    other kind follow.  Commands and configuration commands have valid signals
    of their own and one delay between them: a configuration command followed in
    the next cycle by a memory command is presented once more, and the other way
    round, while without a follower the signal drops. *)
Theorem command_valids_stretched fuel i o d rq cq c fin o1 d1 c1 :
  pins_ok i -> drv_ok o d rq cq -> c_reset_d4 d = 0 ->
  tlx_bfm fuel 0 i o d c = Some (fin, o1, d1, c1) ->
  tlx_cfg0_valid_top o1 =
    (if truthy (tlx_cfg_valid (event d)) then 1
     else if truthy (tlx_afu_cmd_valid (event d)) then tlx_cfg0_valid_top o else 0) /\
  tlx_afu_cmd_valid_top o1 =
    (if truthy (tlx_afu_cmd_valid (event d)) then 1
     else if truthy (tlx_cfg_valid (event d)) then tlx_afu_cmd_valid_top o else 0).
Proof.
  intros Hp Hd H4 Hc.
  destruct (bfm_low_defined fuel i o d rq cq c fin o1 d1 c1 Hp Hd H4 Hc)
    as (rl & rls & rn & cl & cls & cn & e1 & d' & rq' & cq' & _ & _ & _ & _ & -> & _ & _ & _ & _ & _ & Hs & _).
  destruct (host_side_eq _ _ Hs) as (_ & _ & _ & _ & <- & <- & _). apply out_command_valids.
Qed.

(** A low phase that owes the AFU nothing is defined. *)
Lemma idle_low_defined fuel i o d rq cq c :
  pins_ok i -> drv_ok o d rq cq -> c_reset_d4 d = 0 -> owed_r i d = 0 -> owed_c i d = 0 ->
  exists o1 d1, tlx_bfm fuel 0 i o d c = Some (true, o1, d1, c).
Proof.
  intros Hp Hd H4 Hr Hc. rewrite bfm_low_call by done.
  assert (Hds : drv_ok o (sampled i d) rq cq) by (apply (drv_ok_same o d); [done|apply Hd|reflexivity]).
  pose proof (bfm_low_eq i o (sampled i d) rq cq Hp Hds) as Hb.
  change (owed_r i (sampled i d)) with (owed_r i d) in Hb.
  change (owed_c i (sampled i d)) with (owed_c i d) in Hb. rewrite Hr, Hc in Hb.
  unfold serve in Hb. cbn [Z.ltb Z.compare] in Hb.
  destruct Hb as (d1 & d' & _ & _ & _ & _ & _ & _ & -> & _). by do 2 eexists.
Qed.

(** C14: what the host sends reaches the AFU.  In the low phase after the
    exchange of a message, the response, the command and the configuration
    command of the message are on the AFU's pins, each field cut to the width of
    its signal, and the lines of their data are behind the ones that wait
    already; a data group shorter than its lines leaves the old bytes of the bus
    after it. *)
Theorem host_message_reaches_pins fuel fuel' i i' o d rq cq m rest rx en tx plan fin o1 d1 c1
    c fin' o2 d2 c2 :
  pins_ok i' -> drv_ok o d rq cq -> rbp (event d) = 0 -> c_reset_d4 d = 0 -> c_reset_d3 d = 0 ->
  host_msg_wf m -> no_fail plan ->
  tlx_bfm fuel 1 i o d (Conn (Chunk (encode_host m ++ rest) :: rx) en tx plan) = Some (fin, o1, d1, c1) ->
  tlx_bfm fuel' 0 i' o1 d1 c = Some (fin', o2, d2, c2) ->
  exists rq' cq', drv_ok o2 d2 rq' cq' /\
    (forall r, hm_resp m = Some r -> resp_seen o2 = resp_driven r /\
       option_list (seen_r o2) ++ rq'.*2 =
       rq.*2 ++ lines_with (tr_dl r) (tlx_afu_resp_data (event d)) (hm_resp_data m)) /\
    (forall r, hm_cmd m = Some r -> cmd_seen o2 = cmd_driven r /\
       option_list (seen_c o2) ++ cq'.*2 =
       cq.*2 ++ lines_with (tc_dl r) (tlx_afu_cmd_data_bus (event d)) (hm_cmd_data m)) /\
    (forall x, hm_cfg m = Some x -> cfg_seen o2 = cfg_driven x).
Proof.
  intros Hp Hd H0 H4 H3 Hm Hpl Hhi Hlo.
  destruct (bfm_high_call fuel i o d m rest rx en tx plan) as (e' & plan' & He & _ & Hw' & _ & Heq);
    [done|apply Hd|done..|].
  rewrite He in Hhi. injection Hhi as <- <- <- <-.
  set (d1 := shift_reset _) in *. change e' with (event d1) in Heq, Hw'.
  assert (Hd1 : drv_ok o d1 rq cq) by (apply (drv_ok_same o d); [exact Hd|exact Hw'|reflexivity]).
  destruct (bfm_low_defined fuel' i' o d1 rq cq c fin' o2 d2 c2 Hp Hd1 H3 Hlo)
    as (rl & rls & rn & cl & cls & cn & e2 & d' & rq' & cq' & Hsr & Hsc & _ & _ & -> & _ & Hd2
        & <- & <- & _ & Hs & _ & _ & _ & Hrl & Hcl).
  exists rq', cq'. split; [exact Hd2|].
  rewrite seen_r_out, seen_c_out by done.
  rewrite <- (serve_split _ _ _ _ _ Hsr), <- (serve_split _ _ _ _ _ Hsc).
  destruct (host_side_groups _ _ Hs) as (Gr & Gc & Gg & _ & _).
  pose proof (equiv_field resp_group _ _ (fun _ => eq_refl) Heq) as Er.
  pose proof (equiv_field cmd_group _ _ (fun _ => eq_refl) Heq) as Ec.
  pose proof (equiv_field cfg_group _ _ (fun _ => eq_refl) Heq) as Eg.
  pose proof (equiv_field arrived_r _ _ (fun _ => eq_refl) Heq) as Ar.
  pose proof (equiv_field arrived_c _ _ (fun _ => eq_refl) Heq) as Ac.
  destruct Hm as (Mg & Mc & _ & Mr & _). destruct (sent_buses (event d)) as [Sr Sc].
  split_and!; intros x Hx; rewrite receive_deliver in * by (by rewrite Hx, ?orb_true_r); rewrite Hx in *.
  - destruct (deliver_resp m x (afu_sent (event d <| clock := 1 |>)) Hx) as [Dv Dl]. split.
    + exact (resp_out _ _ _ _ _ (eq_trans Gr (eq_trans Er Dv)) (proj1 Mr) (proj1 (proj2 Mr))).
    + by rewrite Ar, Dl, Sr.
  - destruct (deliver_cmd m x (afu_sent (event d <| clock := 1 |>)) Hx) as [Dv Dl]. split.
    + exact (cmd_out _ _ _ _ _ (eq_trans Gc (eq_trans Ec Dv)) Mc).
    + by rewrite Ac, Dl, Sc.
  - exact (cfg_out _ _ _ _ _ (eq_trans Gg (eq_trans Eg (deliver_cfg m x _ Hx))) Mg).
Qed.
End down.

(** * Examples *)

(** A driver that has a credit, and an AFU that drives a command. *)
Definition credit_event : AFU_EVENT := tlx_event_reset event_zero <| tlx_afu_cmd_credits_available := 1 |>.
Definition sample_pins : afu_in :=
  quiet_pins <| afu_tlx_cmd_valid_top := 1 |> <| afu_tlx_cmd_opcode_top := Vec AFU_CMD_RD_WNITC 0 |>
    <| afu_tlx_cmd_ea_or_obj_top := [Vec 0x1000 0; Vec 2 0; Vec 0xF 0] |>
    <| afu_tlx_cmd_afutag_top := Vec 5 0 |> <| afu_tlx_cmd_dl_top := Vec 1 0 |>.

Lemma credit_event_wf : event_wf credit_event.
Proof. unfold credit_event. pose proof (tlx_event_reset_wf event_zero). solve_wf. Qed.
Lemma credit_event_rbp : rbp (event (driver_ready credit_event)) = 0.
Proof. reflexivity. Qed.
Lemma reset_rbp : rbp (tlx_event_reset event_zero) = 0.
Proof. reflexivity. Qed.
Lemma sample_pins_ok : pins_ok sample_pins.
Proof.
  constructor; [|split; [done|]|apply quiet_bus_ok..]; cbn;
    repeat (apply List.Forall_cons; [by split; vm_compute|]); apply Forall_nil_2.
Qed.

Lemma ready_ok e : event_wf e -> drv_ok quiet_outs (driver_ready e) [] [].
Proof.
  intros Hw. apply (drv_ok_same quiet_outs (driver_up e)); [|done|reflexivity].
  apply driver_up_ok; [done|apply quiet_outs_ok|by repeat split].
Qed.
Lemma ready_same_ok e d :
  event_wf e -> event_wf (event d) -> parts d = parts (driver_ready e) -> drv_ok quiet_outs d [] [].
Proof. intros He Hw Hp. by apply (drv_ok_same quiet_outs (driver_ready e)); [apply ready_ok|..]. Qed.
(** After the exchange. *)
Lemma high_state i d e :
  let d1 := shift_reset (sampled i d <| c_sim_error := 0 |> <| event := e |>) in
  parts d1 = parts d /\ event d1 = e /\ c_reset_d4 d1 = c_reset_d3 d /\
  owed_r quiet_pins d1 = q_rd_cnt (rdata d) /\ owed_c quiet_pins d1 = q_rd_cnt (cdata d).
Proof. by split_and!. Qed.
Lemma ready_reset e : c_reset_d4 (driver_ready e) = 0 /\ c_reset_d3 (driver_ready e) = 0.
Proof. by split. Qed.

Lemma sample_low_defined :
  exists o1 d1, tlx_bfm 0 0 sample_pins quiet_outs (driver_ready credit_event) no_conn =
    Some (true, o1, d1, no_conn).
Proof.
  apply (idle_low_defined 0 _ _ _ [] []); [apply sample_pins_ok|apply ready_ok, credit_event_wf|reflexivity..].
Qed.

Definition sample_cmd : afu_cmd := AfuCmd AFU_CMD_RD_WNITC 0 0 [0; 0x10; 0; 0; 2; 0; 0; 0; 0] 5 1 0 0 0 0 0 0 0.
Lemma sample_cmd_offered :
  (if truthy (afu_tlx_cmd_valid (event (driver_ready credit_event))) then None
   else if offered sample_pins (sampled sample_pins (driver_ready credit_event))
        then Some (object_cut (pins_cmd sample_pins)) else None) = Some sample_cmd.
Proof. vm_compute. reflexivity. Qed.
(** ... with an object handle of 68 bits, the upper four of which are lost. *)
Lemma sample_object : ac_ea_or_obj (pins_cmd sample_pins) = [0; 0x10; 0; 0; 2; 0; 0; 0; 0xF].
Proof. reflexivity. Qed.

Lemma pins_reach_host_witness :
  exists o1 d1 d2 c2 M h' c3,
    tlx_bfm 0 1 quiet_pins o1 d1 (Conn [Chunk (encode_host (host_msg_of event_zero))] EndIdle [] [])
      = Some (true, o1, d2, c2) /\
    tlx_get_afu_events (tlx_event_reset event_zero) (Conn [Chunk (c_tx c2)] EndIdle [] []) = Some (1, h', c3) /\
    h' ≡ receive_afu M (tlx_event_reset event_zero <| clock := 0 |>) /\
    am_cmd M = Some sample_cmd /\
    ac_ea_or_obj (pins_cmd sample_pins) = [0; 0x10; 0; 0; 2; 0; 0; 0; 0xF].
Proof.
  destruct sample_low_defined as (o1 & d1 & Hlow). destruct (ready_reset credit_event) as [H4 H3].
  destruct (pins_reach_host 0 sample_pins quiet_pins quiet_outs (driver_ready credit_event) [] []
    no_conn true o1 d1 no_conn (host_msg_of event_zero) (tlx_event_reset event_zero)
    sample_pins_ok (ready_ok _ credit_event_wf) credit_event_rbp H4 H3 Hlow
    (host_msg_of_wf _ event_zero_wf) (tlx_event_reset_wf event_zero) reset_rbp)
    as (d2 & c2 & M & h' & c3 & E1 & E2 & E3 & E4 & _).
  exists o1, d1, d2, c2, M, h', c3. split; [exact E1|]. split; [exact E2|]. split; [exact E3|].
  split; [exact (eq_trans E4 sample_cmd_offered)|exact sample_object].
Defined.

(** A message with a configuration command, a command and two lines of data. *)
Definition sample_resp : tlx_resp := TlxResp 0x04 5 0 0 2 0 0.
Definition sample_mem : tlx_cmd := TlxCmd 0x20 7 0 3 0 0 0x80000008.
Definition sample_cfg : cfg_cmd * data_beat := (CfgCmd 0xe1 9 2 1 0x10, ([1; 2; 3; 4], 0)).
Definition sample_msg : host_msg := HostMsg (Some sample_cfg) (Some sample_mem) None (Some sample_resp)
  (Some (replicate 64 7 ++ replicate 64 9, 0)) None.

Lemma sample_msg_wf : host_msg_wf sample_msg.
Proof.
  assert (Hb : beat_ok 256 (replicate 64 7 ++ replicate 64 9, 0)).
  { split_and!; [cbn; lia| |by vm_compute]. apply Forall_app_2; by apply Forall_replicate. }
  assert (Hc : is_array 4 [1; 2; 3; 4]) by (split; [done|]; repeat (apply List.Forall_cons; [by vm_compute|]); apply Forall_nil_2).
  split_and!; try done; cbn; repeat split; try (by vm_compute); try apply Hb; apply Hc.
Qed.

(** The exchange of the message, and the low phase after it. *)
Lemma sample_calls :
  exists d1 c1 o2 d2,
    tlx_bfm 0 1 quiet_pins quiet_outs (driver_ready credit_event)
      (Conn [Chunk (encode_host sample_msg ++ [])] EndIdle [] []) = Some (true, quiet_outs, d1, c1) /\
    tlx_bfm 0 0 quiet_pins quiet_outs d1 no_conn = Some (true, o2, d2, no_conn).
Proof.
  destruct (ready_reset credit_event) as [H4 H3].
  destruct (bfm_high_call 0 quiet_pins quiet_outs (driver_ready credit_event) sample_msg [] [] EndIdle [] [])
    as (e' & plan' & He & _ & Hw & _); [exact H4|apply credit_event_wf|apply credit_event_rbp
    |apply sample_msg_wf|apply not_elem_of_nil|].
  destruct (high_state quiet_pins (driver_ready credit_event) e') as (Hp & Hev & Hr & Hq).
  set (d1 := shift_reset _) in *. clearbody d1. rewrite <- Hev in Hw.
  pose proof (ready_same_ok _ d1 credit_event_wf Hw Hp) as Hd1.
  destruct (idle_low_defined 0 quiet_pins quiet_outs d1 [] [] no_conn) as (o2 & d2 & Hlo);
    [apply quiet_pins_ok|exact Hd1|by rewrite Hr|apply Hq..|].
  exists d1. eexists. exists o2, d2. split; [exact He|exact Hlo].
Qed.

Lemma sample_lines :
  lines_with (tr_dl sample_resp) (tlx_afu_resp_data (event (driver_ready credit_event)))
    (hm_resp_data sample_msg) = [replicate 64 7; replicate 64 9].
Proof. vm_compute. reflexivity. Qed.

Lemma host_message_reaches_pins_witness :
  exists o2 d2 rq' cq', drv_ok o2 d2 rq' cq' /\
    resp_seen o2 = resp_driven sample_resp /\ cmd_seen o2 = cmd_driven sample_mem /\
    cfg_seen o2 = cfg_driven sample_cfg /\
    option_list (seen_r o2) ++ rq'.*2 = [replicate 64 7; replicate 64 9].
Proof.
  destruct sample_calls as (d1 & c1 & o2 & d2 & Hhi & Hlo). destruct (ready_reset credit_event) as [H4 H3].
  destruct (host_message_reaches_pins 0 0 quiet_pins quiet_pins quiet_outs (driver_ready credit_event) [] []
    sample_msg [] [] EndIdle [] [] true quiet_outs d1 c1 no_conn true o2 d2 no_conn
    quiet_pins_ok (ready_ok _ credit_event_wf) credit_event_rbp H4 H3 sample_msg_wf
    (not_elem_of_nil _) Hhi Hlo) as (rq' & cq' & Hd & Hr & Hc & Hg).
  destruct (Hr _ eq_refl) as [Hr1 Hr2]. destruct (Hc _ eq_refl) as [Hc1 _].
  exists o2, d2, rq', cq'. split; [exact Hd|]. split; [exact Hr1|]. split; [exact Hc1|].
  split; [exact (Hg _ eq_refl)|]. exact (eq_trans Hr2 sample_lines).
Defined.

(** A configuration command still on the pins when a memory command follows. *)
Definition command_event : AFU_EVENT := tlx_event_reset event_zero <| tlx_afu_cmd_valid := 1 |>.
Definition cfg_outs : afu_out := quiet_outs <| tlx_cfg0_valid_top := 1 |>.
Definition cfg_driver : driver := driver_ready command_event <| clk_afu_cmd_val := 1 |>.
Lemma command_event_wf : event_wf command_event.
Proof. unfold command_event. pose proof (tlx_event_reset_wf event_zero). solve_wf. Qed.
(** The pins of commands may be up while the delay runs. *)
Lemma drv_ok_cmd_up o d rq cq :
  drv_ok o d rq cq ->
  drv_ok (o <| tlx_cfg0_valid_top := 1 |>) (d <| clk_afu_cmd_val := 1 |>) rq cq.
Proof.
  intros [[Hw []] [] [P1 P2 P3 _] Hq H1 H2].
  constructor; [split; [exact Hw|by constructor]|by constructor| |exact Hq|exact H1|exact H2].
  constructor; [exact P1|exact P2|exact P3|by right].
Qed.
Lemma cfg_driver_ok : drv_ok cfg_outs cfg_driver [] [].
Proof. apply drv_ok_cmd_up, ready_ok, command_event_wf. Qed.
Lemma cfg_reset : c_reset_d4 cfg_driver = 0.
Proof. reflexivity. Qed.

Lemma command_valids_stretched_witness :
  exists o1 d1, tlx_bfm 0 0 quiet_pins cfg_outs cfg_driver no_conn = Some (true, o1, d1, no_conn) /\
    tlx_cfg0_valid_top o1 = 1.
Proof.
  destruct (idle_low_defined 0 quiet_pins cfg_outs cfg_driver [] [] no_conn quiet_pins_ok cfg_driver_ok
    cfg_reset eq_refl eq_refl) as (o1 & d1 & Hlo).
  exists o1, d1. split; [exact Hlo|].
  destruct (command_valids_stretched 0 quiet_pins cfg_outs cfg_driver [] [] no_conn true o1 d1 no_conn
    quiet_pins_ok cfg_driver_ok cfg_reset Hlo) as [-> _]. reflexivity.
Defined.
