(* ===== verification/DriverRun.v ===== *)
(** The simulator's side of the link over any number of cycles: the lines that
    come with the host's messages against the lines on the AFU's data buses. *)
From stdpp Require Import gmap.
From S2P Require Import Prelude Utils Event Sock TlxWire Link EventEq Cycle TlxHost TlxAfu TlxApi Lockstep Fifo Driver DriverInv DriverOut DriverProps DriverEnd.

(** * The lines of a message *)

(** The lines the host sends with a message, cut from its data group as its
    response or command says; a group that is shorter leaves the old bytes of
    the bus after it. *)
Definition resp_lines (bus : list Z) (m : host_msg) : list (list Z) :=
  match hm_resp m with Some r => lines_with (tr_dl r) bus (hm_resp_data m) | None => [] end.
Definition cmd_lines (bus : list Z) (m : host_msg) : list (list Z) :=
  match hm_cmd m with Some c => lines_with (tc_dl c) bus (hm_cmd_data m) | None => [] end.

(** The host sends data with the response or the command they belong to. *)
Definition with_headers (m : host_msg) : Prop :=
  (is_some (hm_resp_data m) = true -> is_some (hm_resp m) = true) /\
  (is_some (hm_cmd_data m) = true -> is_some (hm_cmd m) = true).

(** No line waits in the event. *)
Definition no_lines (e : AFU_EVENT) : Prop := arrived_r e = [] /\ arrived_c e = [].

Lemma taken_no_lines e : no_lines (taken e).
Proof.
  unfold no_lines, arrived_r, arrived_c, taken, credits_taken, cmd_taken, cfg_taken, resp_taken.
  destruct (truthy (tlx_afu_resp_valid e)) eqn:E1, (truthy (tlx_afu_resp_data_valid e)) eqn:E2,
    (truthy (tlx_cfg_valid e)) eqn:E3, (truthy (tlx_afu_cmd_valid e)) eqn:E4,
    (truthy (tlx_afu_cmd_data_valid e)) eqn:E5;
    cbn -[truthy data_lines]; rewrite ?E1, ?E2, ?E4, ?E5, ?E3; cbn -[truthy data_lines];
    rewrite ?E1, ?E2, ?E4, ?E5, ?E3; cbn -[truthy data_lines]; rewrite ?E1, ?E2, ?E4, ?E5; by split.
Qed.

Lemma sent_lines e :
  arrived_r (afu_sent (e <| clock := 1 |>)) = arrived_r e /\
  arrived_c (afu_sent (e <| clock := 1 |>)) = arrived_c e.
Proof. unfold afu_sent, cond_event. by destruct (truthy _). Qed.

(** The event after the exchange holds the lines of the message and no others. *)
Lemma received_resp_lines m e :
  no_lines e ->
  arrived_r (receive_host m (afu_sent (e <| clock := 1 |>))) = resp_lines (tlx_afu_resp_data e) m.
Proof.
  intros [Hr _]. unfold resp_lines. destruct (sent_lines e) as [Sr _], (sent_buses e) as [Br _].
  destruct (hm_resp m) as [r|] eqn:Em.
  - rewrite receive_deliver by (by rewrite Em, ?orb_true_r). rewrite (proj2 (deliver_resp m r _ Em)).
    by rewrite Br.
  - unfold receive_host. destruct (host_idle m); [by rewrite Sr|]. unfold deliver_host. rewrite Em.
    keeps arrived_r put_tlx_credits. by destruct (hm_resp_data m) as [[? ?]|].
Qed.

Lemma received_cmd_lines m e :
  no_lines e ->
  arrived_c (receive_host m (afu_sent (e <| clock := 1 |>))) = cmd_lines (tlx_afu_cmd_data_bus e) m.
Proof.
  intros [_ Hc]. unfold cmd_lines. destruct (sent_lines e) as [_ Sc], (sent_buses e) as [_ Bc].
  destruct (hm_cmd m) as [c|] eqn:Em.
  - rewrite receive_deliver by (by rewrite Em, ?orb_true_r). rewrite (proj2 (deliver_cmd m c _ Em)).
    by rewrite Bc.
  - unfold receive_host. destruct (host_idle m); [by rewrite Sc|]. unfold deliver_host. rewrite Em.
    keeps arrived_c put_tlx_credits. keeps arrived_c put_tlx_resp_data. keeps arrived_c put_tlx_response.
    by destruct (hm_cmd_data m) as [[? ?]|].
Qed.

(** * Runs *)

(** Lines that count when the driver is out of reset: in reset a call exchanges
    no frame and drives no pin. *)
Definition out_of_reset {A} (d : driver) (l : list A) : list A :=
  if truthy (c_reset_d4 d) then [] else l.

(** A run since the connection was opened, cycle by cycle, the two calls of a
    cycle alternating: the clock goes high and the frame with the host's message
    comes in, it goes low and the pins are driven.  [cr] and [cc] are the lines
    of the messages that were exchanged, [sr] and [sc] those the AFU saw on its
    response and command bus.  Reset does not begin between the two calls: a
    message exchanged in the first would not be driven in the second. *)
Inductive driver_run `{Allocator} : afu_out -> driver ->
    list (list Z) -> list (list Z) -> list (list Z) -> list (list Z) -> Prop :=
  | run_up e o : event_wf e -> rbp e = 0 -> no_lines e -> outs_ok o -> no_valid o ->
      driver_run o (driver_up e) [] [] [] []
  | run_cycle o d cr sr cc sc fuel i m rest rx en tx plan fin o1 d1 c1 fuel' i' c fin' o2 d2 c2 :
      driver_run o d cr sr cc sc ->
      host_msg_wf m -> with_headers m -> no_fail plan -> pins_ok i' ->
      (c_reset_d4 d = 0 -> c_reset_d3 d = 0) ->
      tlx_bfm fuel 1 i o d (Conn (Chunk (encode_host m ++ rest) :: rx) en tx plan) =
        Some (fin, o1, d1, c1) ->
      tlx_bfm fuel' 0 i' o1 d1 c = Some (fin', o2, d2, c2) ->
      driver_run o2 d2
        (cr ++ out_of_reset d (resp_lines (tlx_afu_resp_data (event d)) m))
        (sr ++ out_of_reset d1 (option_list (seen_r o2)))
        (cc ++ out_of_reset d (cmd_lines (tlx_afu_cmd_data_bus (event d)) m))
        (sc ++ out_of_reset d1 (option_list (seen_c o2))).

Section cycle.
Context `{Allocator}.

(** What the run keeps: the invariant of the calls, and no line in the event at
    the end of a cycle. *)
Definition between (o : afu_out) (d : driver) (rq cq : list node) : Prop :=
  drv_ok o d rq cq /\ rbp (event d) = 0 /\ no_lines (event d).

(** The high half: the lines of the message are in the event. *)
Lemma high_half fuel i o d rq cq m rest rx en tx plan fin o1 d1 c1 :
  between o d rq cq -> host_msg_wf m -> no_fail plan ->
  tlx_bfm fuel 1 i o d (Conn (Chunk (encode_host m ++ rest) :: rx) en tx plan) = Some (fin, o1, d1, c1) ->
  o1 = o /\ drv_ok o d1 rq cq /\ rbp (event d1) = 0 /\ c_reset_d4 d1 = c_reset_d3 d /\
  arrived_r (event d1) = out_of_reset d (resp_lines (tlx_afu_resp_data (event d)) m) /\
  arrived_c (event d1) = out_of_reset d (cmd_lines (tlx_afu_cmd_data_bus (event d)) m).
Proof.
  intros (Hd & H0 & Hn) Hm Hp Hc. unfold out_of_reset. destruct (truthy (c_reset_d4 d)) eqn:H4.
  - rewrite bfm_reset_call in Hc by done. injection Hc as <- <- <- <-.
    split_and!; [done|apply (drv_ok_same o d); [done|apply Hd|reflexivity]|done|reflexivity|apply Hn..].
  - destruct (bfm_high_call fuel i o d m rest rx en tx plan) as (e' & plan' & He & _ & Hw' & Hr' & Heq);
      [by apply truthy_false|apply Hd|done..|].
    rewrite He in Hc. injection Hc as <- <- <- <-.
    split_and!; [done|apply (drv_ok_same o d); [done|done|reflexivity]|done|reflexivity|..].
    + rewrite <- (received_resp_lines m _ Hn). exact (equiv_field arrived_r _ _ (fun _ => eq_refl) Heq).
    + rewrite <- (received_cmd_lines m _ Hn). exact (equiv_field arrived_c _ _ (fun _ => eq_refl) Heq).
Qed.

(** The low half: they go behind those that wait, and the oldest are seen. *)
Lemma low_half fuel i o d rq cq c fin o2 d2 c2 :
  pins_ok i -> drv_ok o d rq cq -> rbp (event d) = 0 ->
  (truthy (c_reset_d4 d) = true -> no_lines (event d)) ->
  tlx_bfm fuel 0 i o d c = Some (fin, o2, d2, c2) ->
  exists rq' cq', between o2 d2 rq' cq' /\
    rq.*2 ++ arrived_r (event d) = out_of_reset d (option_list (seen_r o2)) ++ rq'.*2 /\
    cq.*2 ++ arrived_c (event d) = out_of_reset d (option_list (seen_c o2)) ++ cq'.*2.
Proof.
  intros Hp Hd H0 Hn Hc. unfold out_of_reset. destruct (truthy (c_reset_d4 d)) eqn:H4.
  - destruct (Hn eq_refl) as [Er Ec]. rewrite Er, Ec, !app_nil_r.
    rewrite bfm_reset_call in Hc by done. injection Hc as <- <- <- <-. exists rq, cq. split; [|done].
    split; [apply (drv_ok_same o d); [done|apply Hd|reflexivity]|by repeat split].
  - destruct (bfm_low_defined fuel i o d rq cq c fin o2 d2 c2 Hp Hd (truthy_false _ H4) Hc)
      as (rl & rls & rn & cl & cls & cn & e1 & d' & rq' & cq' & Hsr & Hsc & _ & _ & -> & _ & Hd2 & <- & <-
          & He & Hs & _ & _ & _ & Hrl & Hcl).
    exists rq', cq'. rewrite seen_r_out, seen_c_out by done. split; [split; [done|split]|split].
    + rewrite He, (proj2 (taken_to_host _)). destruct (host_side_eq _ _ Hs) as (_ & _ & Hr & _). by rewrite Hr.
    + rewrite He. apply taken_no_lines.
    + by apply (serve_split _ _ _ _ _ Hsr).
    + by apply (serve_split _ _ _ _ _ Hsc).
Qed.

Lemma driver_run_ok o d cr sr cc sc :
  driver_run o d cr sr cc sc ->
  exists rq cq, between o d rq cq /\ cr = sr ++ rq.*2 /\ cc = sc ++ cq.*2.
Proof.
  induction 1 as [e o Hw H0 Hn Ho Hv|o d cr sr cc sc fuel i m rest rx en tx plan fin o1 d1 c1 fuel' i' c fin' o2
    d2 c2 _ (rq & cq & Hb & -> & ->) Hm _ Hpl Hp Hres Hhi Hlo].
  - exists [], []. split; [|done]. split_and!; [by apply driver_up_ok|done..].
  - pose proof Hb as (_ & _ & Hn).
    destruct (high_half _ _ _ _ _ _ _ _ _ _ _ _ _ _ _ _ Hb Hm Hpl Hhi) as (-> & Hd1 & H01 & H41 & Er & Ec).
    destruct (low_half fuel' i' o d1 rq cq c fin' o2 d2 c2 Hp Hd1 H01) as (rq' & cq' & Hb' & Qr & Qc);
      [|exact Hlo|].
    + intros Hin. unfold no_lines. rewrite Er, Ec. unfold out_of_reset.
      destruct (truthy (c_reset_d4 d)) eqn:H4; [done|].
      rewrite H41, (Hres (truthy_false _ H4)) in Hin. done.
    + exists rq', cq'. split; [exact Hb'|]. rewrite <- Er, <- Ec, <- !app_assoc, Qr, Qc. done.
Qed.
End cycle.

(** C12: over any run of whole cycles the lines the AFU sees on each of its data
    buses are the lines of the host's messages, in order, none lost, doubled or
    mixed up: the lines of all the messages that were exchanged are those that
    have been seen followed by those the FIFO still holds, packet by packet, and
    the heap holds nothing else.  The host sends data with the response or the
    command it belongs to, and reset does not begin between an exchange and the
    low phase after it. *)
Theorem lines_in_order `{Allocator} o d cr sr cc sc :
  driver_run o d cr sr cc sc ->
  exists rq cq, queues (d_heap d) (rdata d) (cdata d) rq cq /\
    cr = sr ++ rq.*2 /\ cc = sc ++ cq.*2.
Proof. intros (rq & cq & ([] & _ & _) & ? & ?)%driver_run_ok. by exists rq, cq. Qed.

(** * Example *)

(** Two cycles in reset. *)
Definition quiet_msg : host_msg := HostMsg None None None None None None.
Definition reset_cycle (d : driver) : driver := idle_call (idle_call d).

Lemma quiet_msg_wf : host_msg_wf quiet_msg.
Proof. by split_and!. Qed.

Lemma run_reset_cycle `{Allocator} o d :
  driver_run o d [] [] [] [] -> truthy (c_reset_d4 d) = true -> truthy (c_reset_d3 d) = true ->
  driver_run o (reset_cycle d) [] [] [] [].
Proof.
  intros Hr H4 H3.
  pose proof (run_cycle o d [] [] [] [] 0 quiet_pins quiet_msg [] [] EndIdle [] [] _ _ _ _ 0 quiet_pins no_conn
    _ _ _ _ Hr quiet_msg_wf (conj (fun x => x) (fun x => x)) (not_elem_of_nil _) quiet_pins_ok
    ltac:(intros E; by rewrite E in H4) (bfm_reset_call _ _ _ _ _ _ H4)
    (bfm_reset_call 0 0 quiet_pins o (idle_call d) no_conn H3)) as Hl.
  unfold out_of_reset in Hl. change (c_reset_d4 (shift_reset (sampled quiet_pins d))) with (c_reset_d3 d) in Hl.
  rewrite H4, H3 in Hl. exact Hl.
Qed.

Lemma run_ready `{Allocator} e :
  event_wf e -> rbp e = 0 -> no_lines e -> driver_run quiet_outs (driver_ready e) [] [] [] [].
Proof.
  intros Hw H0 Hn. change (driver_ready e) with (reset_cycle (reset_cycle (driver_up e))).
  do 2 (apply run_reset_cycle; [|reflexivity..]).
  apply run_up; [exact Hw|exact H0|exact Hn|apply quiet_outs_ok|by repeat split].
Qed.

(** A message with two lines of response data; the AFU asks for both and sees the
    first. *)
Definition lines_msg : host_msg := HostMsg None None None (Some sample_resp)
  (Some (replicate 64 7 ++ replicate 64 9, 0)) None.

Lemma lines_msg_wf : host_msg_wf lines_msg.
Proof. destruct sample_msg_wf as (_ & _ & _ & ? & ? & _). by split_and!. Qed.

Lemma zero_lines : resp_lines (tlx_afu_resp_data (event (driver_ready credit_event))) lines_msg =
  [replicate 64 7; replicate 64 9].
Proof. vm_compute. reflexivity. Qed.

(** A cycle in which two lines come and the AFU, which is owed none, asks for
    two. *)
Lemma asking_cycle `{Allocator} d m l1 l2 :
  driver_run quiet_outs d [] [] [] [] -> between quiet_outs d [] [] ->
  c_reset_d4 d = 0 -> c_reset_d3 d = 0 -> q_rd_cnt (rdata d) = 0 -> q_rd_cnt (cdata d) = 0 ->
  host_msg_wf m -> with_headers m ->
  resp_lines (tlx_afu_resp_data (event d)) m = [l1; l2] ->
  cmd_lines (tlx_afu_cmd_data_bus (event d)) m = [] ->
  exists o d, driver_run o d [l1; l2] [l1] [] [].
Proof.
  intros Hrun Hb H4 H3 Qr Qc Hm Hh Lr Lc. pose proof Hb as (Hok & H0 & _).
  destruct (bfm_high_call 0 quiet_pins quiet_outs d m [] [] EndIdle [] []) as (e' & plan' & He & _ & Hw & _);
    [exact H4|apply Hok|exact H0|exact Hm|apply not_elem_of_nil|].
  destruct (high_half _ _ _ _ _ _ _ _ _ _ _ _ _ _ _ _ Hb Hm (not_elem_of_nil _) He)
    as (_ & Hd1 & H01 & H41 & Er & Ec).
  assert (Ho : forall x, owed_r asking_pins (shift_reset (sampled quiet_pins d <| c_sim_error := 0 |> <| event := x |>)) = 2 /\
    owed_c asking_pins (shift_reset (sampled quiet_pins d <| c_sim_error := 0 |> <| event := x |>)) = 0).
  { intros x. unfold owed_r, owed_c, read_req. cbn. by rewrite Qr, Qc. }
  specialize (Ho e'). destruct Ho as [Or Oc].
  revert He Hd1 H01 H41 Er Ec Or Oc. generalize (shift_reset (sampled quiet_pins d <| c_sim_error := 0 |> <| event := e' |>)).
  intros d1 He Hd1 H01 H41 Er Ec Or Oc. rewrite H3 in H41. unfold out_of_reset in Er, Ec.
  rewrite H4, Lr in Er. rewrite H4, Lc in Ec. cbn [truthy Z.eqb negb] in Er, Ec.
  assert (Hs : drv_ok quiet_outs (sampled asking_pins d1) [] [])
    by (apply (drv_ok_same _ d1); [exact Hd1|apply Hd1|reflexivity]).
  pose proof (bfm_low_eq asking_pins quiet_outs (sampled asking_pins d1) [] [] asking_pins_ok Hs) as Hl.
  change (event (sampled asking_pins d1)) with (event d1) in Hl.
  change (owed_r asking_pins (sampled asking_pins d1)) with (owed_r asking_pins d1) in Hl.
  change (owed_c asking_pins (sampled asking_pins d1)) with (owed_c asking_pins d1) in Hl.
  rewrite Or, Oc, Er, Ec in Hl. cbn [fmap list_fmap app serve Z.ltb Z.compare Z.sub Z.add Z.opp] in Hl.
  destruct Hl as (e2 & d2 & _ & _ & _ & _ & _ & _ & Hl & _ & _ & _ & _ & _ & _ & _ & Hrl & Hcl & _).
  assert (Hlow : tlx_bfm 0 0 asking_pins quiet_outs d1 no_conn =
    Some (true, out_pins (event e2) (Some l1) None quiet_outs, shift_reset d2, no_conn))
    by (rewrite bfm_low_call by exact H41; by rewrite Hl).
  pose proof (run_cycle _ _ _ _ _ _ _ _ _ _ _ _ _ _ _ _ _ _ _ _ _ _ _ _ _ Hrun Hm Hh
    (not_elem_of_nil _) asking_pins_ok (fun _ => H3) He Hlow) as Hr.
  unfold out_of_reset in Hr. rewrite H4, H41, Lr, Lc, seen_r_out, seen_c_out in Hr by done.
  eexists _, _. exact Hr.
Qed.

Lemma sample_run `{Allocator} :
  exists o d, driver_run o d [replicate 64 7; replicate 64 9] [replicate 64 7] [] [].
Proof.
  assert (Hn : no_lines credit_event) by by split.
  apply (asking_cycle (driver_ready credit_event) lines_msg).
  - exact (run_ready credit_event credit_event_wf eq_refl Hn).
  - split; [exact (ready_ok credit_event credit_event_wf)|]. split; [exact credit_event_rbp|exact Hn].
  - apply (ready_reset credit_event).
  - apply (ready_reset credit_event).
  - reflexivity.
  - reflexivity.
  - exact lines_msg_wf.
  - by split.
  - exact zero_lines.
  - reflexivity.
Qed.

Lemma lines_in_order_witness :
  exists o d rq cq, driver_run o d [replicate 64 7; replicate 64 9] [replicate 64 7] [] [] /\
    queues (d_heap d) (rdata d) (cdata d) rq cq /\
    [replicate 64 7; replicate 64 9] = [replicate 64 7] ++ rq.*2.
Proof.
  destruct sample_run as (o & d & Hr).
  destruct (lines_in_order o d _ _ _ _ Hr) as (rq & cq & Hq & E & _).
  exists o, d, rq, cq. split; [exact Hr|]. split; [exact Hq|exact E].
Defined.
